(* ===== verification/_CoqProject ===== *)
-Q . S2P
Prelude.v
Bytes.v
Bitset.v
Ring.v
Longops.v
CLib.v
Dates.v
FrameAlloc.v
Paging.v
Heap.v
Scheduler.v
Disk.v
Bitmap.v
Inode.v
BlockMap.v
BlockAlloc.v
FileData.v
FileOps.v
Mount.v
DirBlock.v
Dir.v
DirSpec.v
Path.v
PathSpec.v
Keyboard.v
Screen.v
ScreenSpec.v
Ports.v
Kprintf.v
Ata.v
MemMap.v
Interrupts.v
Exceptions.v
Boot.v
Syscall.v
SyscallSpec.v
User.v
Dinv.v
DinvSpec.v
DinvScreen.v
Stubs.v
Shell.v
ShellSpec.v
Commands.v
CommandsSpec.v
TreeSpec.v
