(* ===== verification/Prelude.v ===== *)
(** * DeprecatOS: a verification development

    DeprecatOS is a 32-bit x86 kernel in C with an ext2 file system.  This
    library models its core as Rocq functions and proves what makes each part
    correct.  This file is the root: its header documents the whole library,
    and below it come the notations, tactics and lemmas all files share.

    ** The program and the files that model it

    Paths are under src/.  A definition has the name of the C function, type or
    static variable it stands for.

    Library code (etc/lib).
    - [Ring]: rb/ringBuffer.c and kernel/process/queue/processQueue.c, two
      256-slot rings with wrapping byte indices.
    - [Longops]: the 64-bit division the compiler calls, etc/lib longops.c.
    - [CLib]: min, max, strlen, streq, strcat, strncat and the routines of
      mem.c on a byte-addressed memory.
    - [Dates]: epochToDate.c with its static month table, and the clock part of
      kernel/drivers/timer/timerController.c, over any way to read the clock chip.

    Memory and processes (kernel/memory, kernel/process, kernel/userland).
    - [FrameAlloc]: frameAllocator.c and the walk of memoryMap.c, whose printing
      is in [MemMap].  The class [FrameOps] with its laws [FrameLaws] is what
      paging asks of it.
    - [Paging]: paging.c, page tables in physical memory against the walk the
      processor makes, with the rights it combines from both levels; what map_page
      prints when it gives up is a list in the state.
    - [Heap]: kernelHeap.c, the block list in the words of the heap region; every
      access goes through the page tables and faults where they refuse it.
    - [Scheduler]: scheduler.c, userland.c and the kernel stack of
      tssController.c, on top of [Heap], [Paging] and the ready queue.

    Devices (kernel/drivers) and diagnostics (etc/kernel).
    - [Ports]: etc/kernel/portio over the class [Ports] of devices behind I/O
      ports, and serialController.c over the laws [Uart] of a 16550.
    - [Kprintf]: kprintf.c with its log, hexPrinter.c and panic.
    - [Disk]: the bounds, partition-relative transfers and drive discovery of
      ata.c on drives that are arrays of sectors, partition.c and the block layer
      at the start of blockController.c.
    - [Ata]: ata.c once more, every routine down to its port accesses, against the
      laws [AtaBus] of two drives on a channel; it refines [Disk].
    - [Keyboard]: keyboard.c, a state machine over scan codes.
    - [Screen], [ScreenSpec]: fbController.c, painted down to pixels, and the
      terminal it implements.

    Interrupts (kernel/idt, kernel/gdt, kernel/exceptions, stubs of boot.S).
    - [Interrupts]: the descriptor table and the gates the drivers install, the
      interrupt controllers and the timer chip against the laws [Chips], the
      segments and the task state, and the handlers of timer and keyboard.
    - [Exceptions]: the frame of an exception and its handler, with the messages
      of kill_current.
    - [Boot]: mainInitScript.c, the initialisers of all parts on one state, with
      the messages they print (those of map_page excepted, of which a boot has
      none).

    File system (kernel/fs).  [Disk] gives the state [fstate]: drives, mount
    table, superblocks and descriptors.
    - [Bitmap]: bitmapController.c.  [Inode]: the inode table.
    - [BlockMap], [BlockAlloc]: map_file_block in its three modes.
    - [FileData], [FileOps]: writing, replacing, appending, inserting,
      truncating and freeing the contents of files.
    - [Mount]: mount.c without mount_fs and umount_fs, which are in [Path].
    - [DirBlock]: the entries of one directory block; [Dir]: the directory
      operations of directoryController.c; [DirSpec]: what they do to the
      names of a directory.
    - [Path], [PathSpec]: lookup_path, mount_fs, umount_fs.

    System calls (kernel/userland/syscall).
    - [Syscall]: syscallController.c, every handler and the dispatch table over
      the state of all parts above; [SyscallSpec]: what the boundary guarantees.
      Accesses through pointers of the user program are recorded with their
      length in a component of the state the code does not have.

    User programs (user).
    - [User]: the kernel as a program sees it, the class [UserKernel], with the
      helpers of app/depsh/depshCommon.c and the command touch.
    - [Dinv]: app/dinv/dinv.c, the editor; [DinvSpec]: the text it edits;
      [DinvScreen]: the page it shows on the terminal of [ScreenSpec].
    - [Stubs]: sys/syscall.c with the registers of every call, and syscall_stub of
      kernel/boot.S, which takes them to the dispatcher of [Syscall] and back.
    - [Shell]: shell/shell.c, the line editor with its history and the loop that
      runs commands; [ShellSpec]: the line, the history and the rounds.
    - [Commands]: app/depsh/cmds and the table of app/appCtl.c, over the class
      [CommandKernel] of the calls they make; [CommandsSpec]: cd and cp, against
      the laws [FileLaws] of the calls on files; [TreeSpec]: directories as the
      commands parse them, and rm, against the laws [DirLaws].

    [Bytes] and [Bitset] are the byte buffers and bitmaps several of these share.

    ** How the code is modelled

    An integer of width w is a [Z] with its wrap-around written out ([u8],
    [u16], [u32], [u64]); a buffer is a list of bytes read and written at
    offsets ([Bytes.ld], [Bytes.st]).  Stateful code is either a function on the
    record of its statics or a computation in the monad [M] of this file, which
    threads the state and can stop the machine: [Panic] is a call of panic,
    [Fault] an access outside the buffer the model gives the pointer, [Stopped]
    the final hlt loop.  Drivers run over a type of devices of which only a class
    with laws is known: the programming model of the chip, with the number of
    times it may say that it is busy.  The heap is explicit in [Heap] and
    [Scheduler], whose functions end in a value, a page fault or, which theorems
    exclude, without fuel ([Heap.run]); in the file system a temporary buffer
    is a list whose unwritten part is the component [fresh] of the state, and an
    allocation of it does not fail.

    Loops are structural over their trip count.  Where the C loop has no such
    count the function has fuel and [OutOfFuel] as an outcome, and a theorem
    shows that it does not occur: the heap list needs no more steps than it has
    headers, a scan of a 4096-byte block at most 512 because a record is at
    least 8 bytes, a walk of a path at most one step per byte of it, and a path
    at most nine walks (the limit of the source on symbolic links).  The wait for
    the serial transmitter, which the code does not bound, has the bound
    [patience] of the device; the polls of the drives have the bound of the code,
    MAX_POLL_REPEAT, and a loop over it that counts in binary.

    ** What is proved

    - Queues, division, strings, dates: the ring is a FIFO of 255 items; the
      division is division; strncat and memmove write what they should and only
      there; dates convert both ways, from the clock chip on.
    - Frames, paging, heap: the allocators hand out fresh memory, fail only when
      there is none and take back what is given back; a mapping changes the
      translation of one page, which then has the frame and the rights asked for,
      also for the program; a block of the heap lies in pages mapped each to a
      frame of its own, unless the frames for page tables have run out, which is
      also the only way kmalloc faults.
    - Processes: ready processes are resumed round robin with their saved stack;
      a new process gets a user-mode frame on a fresh stack, unless there is no
      memory for it; a process that is killed gives its pages and frames back.
    - Ports: the driver of the drives, whatever they do within their protocol,
      transfers what the file system's model of them says and panics where it
      does; the log of the boot appears on the console once it is up, and every
      character on the serial line; each vector reaches its stub, programs can
      raise only the system call, and a fault ends the process that made it and
      gives its memory back, or ends the machine when it was the kernel.
    - Boot: on a machine with enough memory, a supported screen and a root file
      system the sequence reaches its idle loop with the whole log on the screen,
      interrupts routed, and each part as its initialiser leaves it.
    - Disk and bitmaps: a block access stays in its partition; allocation takes
      the lowest free block or inode and keeps bitmaps, counts, descriptors and
      disk in agreement; freeing undoes it.
    - Files: the inode table is a map; the unrolled block map is the recursion
      over the pointer tree; allocation through it adds one block of the file.
    - Directories: a search finds the first entry of the name; the entries of a
      block always tile it; insertion and removal change one name, and their
      loops end on any block; insertion followed by removal is the identity.
    - Paths: splicing of symbolic links stays in the path buffer, a lookup ends
      whatever the disk holds and resolves a path component by component across
      mount points.
    - Keyboard and console: for every stream of key events the driver queues the
      characters and scrolls the lines that a keyboard with the scan codes of set 1
      and the legends of a US layout stands for; the screen shows, pixel by pixel, the terminal with 256 lines
      of history, and no call leaves its arrays.
    - System calls: whatever a program passes, the kernel follows its pointers
      only inside the program's pages; printing a string has its effect on the
      serial port and on the terminal, through the whole stack; a call gives every
      register but eax back, a yield when the process runs again, and the path stubs of the user library answer as the
      file system resolves the path.
    - Shell: the keys of a line act as on a text with a cursor and a list of past
      lines, the terminal shows that text however far it has scrolled, and every
      round runs the command its line names.  The screen has room for a line of
      511 characters and a row, no key is the null byte, and a command leaves
      nothing behind the cursor.
    - Commands: cd keeps the directory in normal form, cp makes a true copy, rm -r
      takes a tree away and nothing else, and the commands read every directory
      block as the kernel does.  The laws of the calls are stated on bytes and
      names; that the handlers of [Syscall] satisfy them is proved for the format
      of directory blocks only.
    - Editor: keys act on the gap buffer as on a plain text, a file is loaded
      and saved unchanged, and in every reachable state the terminal shows the
      page of the text although only damaged rows are repainted.  The terminal
      has at least two rows and 65 columns, and creating a missing file prints
      nothing; the examples show what happens otherwise.

    Some theorems state where the code falls short: sizes near 2^32 in kmalloc,
    the full ready queue, the second teardown of a user program, the regions that
    end at 4 GiB or begin in the page below it, the heap that grows over pages
    that could not be mapped, names with bytes of 0x80 and more, rm -r without a path.

    ** Not modelled

    The warnings that bitmapController.c, directoryController.c and mount.c print
    with kprintf when an operation fails or a partition was not cleanly unmounted
    (those of block_init and mount_init at boot are in [Boot]), the
    allocation of file system buffers on the kernel heap, the stack the handlers of
    system calls use below the frame, and interrupts that
    arrive in the middle of other kernel code; before the first program is loaded
    a tick only counts ([Interrupts.idle_tick]).  In [Boot] the drives are those
    of [Disk].  Instructions that only switch the processor (paging_enable,
    invlpg, the segment reload of boot.S), the font and the linked user program,
    which are data. *)
From stdpp Require Export base tactics list list_numbers gmap option strings.
From Stdlib Require Export ZArith Lia.

#[global] Open Scope Z_scope.
#[export] Set Default Goal Selector "!".

(** ** Machine integers

    A [w]-bit unsigned integer is a [Z] kept in range by an explicit
    wrap-around after every operation of the source that can overflow. *)

Definition u8 (x : Z) : Z := x mod 256.
Definition u16 (x : Z) : Z := x mod 65536.
Definition u32 (x : Z) : Z := x mod 4294967296.
Definition u64 (x : Z) : Z := x mod 18446744073709551616.

(** Conversion of a byte to the (signed) [char] of the i386 ABI. *)
Definition schar (x : Z) : Z := if x <? 128 then x else x - 256.

Definition is_byte (x : Z) : Prop := 0 <= x < 256.
Definition is_u32 (x : Z) : Prop := 0 <= x < 4294967296.
Definition is_u64 (x : Z) : Prop := 0 <= x < 18446744073709551616.

(** ** Tactics *)

(** [lia] extended with the Euclidean equations of [/] and [mod]. *)
Ltac zlia := Z.to_euclidean_division_equations; lia.

Ltac zcase_in t :=
  match t with
  | context [Z.eqb ?a ?b] => destruct (Z.eqb_spec a b)
  | context [Z.ltb ?a ?b] => destruct (Z.ltb_spec a b)
  | context [Z.leb ?a ?b] => destruct (Z.leb_spec a b)
  | context [Nat.eqb ?a ?b] => destruct (Nat.eqb_spec a b)
  | context [Nat.ltb ?a ?b] => destruct (Nat.ltb_spec a b)
  | context [Nat.leb ?a ?b] => destruct (Nat.leb_spec a b)
  end.

(** Case analysis on the first boolean comparison of the goal. *)
Ltac zcase := match goal with |- ?g => zcase_in g end.
Ltac zcase_hyp H := match type of H with ?t => zcase_in t end.

(** Decide a boolean comparison by [lia] and reduce with it. *)
Ltac zbool :=
  first [ lia
        | rewrite ?andb_true_iff, ?andb_false_iff, ?orb_true_iff, ?orb_false_iff, ?Z.ltb_lt,
            ?Z.ltb_ge, ?Z.leb_le, ?Z.leb_gt, ?Z.eqb_eq, ?Z.eqb_neq; lia ].
Ltac ztrue e :=
  let H := fresh in
  assert (e = true) as H by zbool; rewrite H; clear H.
Ltac zfalse e :=
  let H := fresh in
  assert (e = false) as H by zbool; rewrite H; clear H.

(** Split an equation of tuples into the equations of their components. *)
Ltac pair_eq := repeat match goal with |- (_, _) = (_, _) => apply f_equal2 end.

Create HintDb kernel discriminated.
Create Rewrite HintDb kernel.

(** ** Bits *)

(** The complement of a mask at width [w], as C's [~] on an unsigned type. *)
Definition cnot (w x : Z) : Z := 2 ^ w - 1 - x.

(** Set and clear one bit, as [x |= 1 << b] and [x &= ~(1 << b)]. *)
Definition set_bit (x b : Z) : Z := Z.lor x (Z.shiftl 1 b).
Definition clear_bit (w x b : Z) : Z := Z.land x (cnot w (Z.shiftl 1 b)).
Definition bit_free (x b : Z) : bool := Z.land x (Z.shiftl 1 b) =? 0.

Lemma testbit_shiftl_1 b i : 0 <= b -> Z.testbit (Z.shiftl 1 b) i = (i =? b).
Proof.
  intros Hb. rewrite Z.shiftl_1_l.
  destruct (Z.eqb_spec i b) as [->|Hne]; [by apply Z.pow2_bits_true|].
  by apply Z.pow2_bits_false.
Qed.

Lemma testbit_cnot w x i :
  0 <= x < 2 ^ w -> 0 <= i < w -> Z.testbit (cnot w x) i = negb (Z.testbit x i).
Proof.
  intros Hx Hi. unfold cnot.
  replace (2 ^ w - 1 - x) with (Z.lnot x + 1 * 2 ^ w) by (unfold Z.lnot; lia).
  rewrite <- (Z.mod_pow2_bits_low _ w) by lia.
  rewrite Z_mod_plus_full, Z.mod_pow2_bits_low by lia.
  apply Z.lnot_spec. lia.
Qed.

Lemma testbit_high w x i : 0 <= x < 2 ^ w -> w <= i -> Z.testbit x i = false.
Proof.
  intros Hx Hi.
  destruct (Z.ltb_spec w 0) as [Hw|Hw].
  { rewrite Z.pow_neg_r in Hx by lia. lia. }
  rewrite <- (Z.mod_small x (2 ^ w)) by lia. apply Z.mod_pow2_bits_high. lia.
Qed.

Lemma bits_range w x :
  0 <= w -> 0 <= x -> (forall i, w <= i -> Z.testbit x i = false) -> x < 2 ^ w.
Proof.
  intros Hw Hx H. destruct (Z.eqb_spec x 0) as [->|Hne]; [lia|].
  destruct (Z.ltb_spec (Z.log2 x) w) as [Hl|Hl].
  - apply Z.log2_lt_pow2; lia.
  - pose proof (Z.bit_log2 x) as Hb. rewrite H in Hb by lia. discriminate Hb. lia.
Qed.

Lemma testbit_set_bit x b i :
  0 <= b -> Z.testbit (set_bit x b) i = Z.testbit x i || (i =? b).
Proof. intros Hb. unfold set_bit. by rewrite Z.lor_spec, testbit_shiftl_1. Qed.

Lemma testbit_clear_bit w x b i :
  0 <= x < 2 ^ w -> 0 <= b < w -> 0 <= i ->
  Z.testbit (clear_bit w x b) i = Z.testbit x i && negb (i =? b).
Proof.
  intros Hx Hb Hi. unfold clear_bit. rewrite Z.land_spec.
  destruct (Z.ltb_spec i w) as [Hlt|Hge].
  - rewrite testbit_cnot, testbit_shiftl_1; [done| lia| |lia].
    rewrite Z.shiftl_1_l. pose proof (Z.pow_lt_mono_r 2 b w). lia.
  - by rewrite (testbit_high w x i) by lia.
Qed.

Lemma set_bit_range w x b :
  0 <= x < 2 ^ w -> 0 <= b < w -> 0 <= set_bit x b < 2 ^ w.
Proof.
  intros Hx Hb.
  assert (0 <= set_bit x b) as H0.
  { unfold set_bit. apply Z.lor_nonneg. rewrite Z.shiftl_1_l. lia. }
  split; [done|]. apply bits_range; [lia|done|].
  intros i Hi. rewrite testbit_set_bit by lia.
  rewrite (testbit_high w x i) by lia. simpl. lia.
Qed.

Lemma clear_bit_range w x b :
  0 <= x < 2 ^ w -> 0 <= b < w -> 0 <= clear_bit w x b < 2 ^ w.
Proof.
  intros Hx Hb.
  assert (0 <= clear_bit w x b) as H0.
  { unfold clear_bit. apply Z.land_nonneg. lia. }
  split; [done|]. apply bits_range; [lia|done|].
  intros i Hi. rewrite testbit_clear_bit by lia.
  by rewrite (testbit_high w x i) by lia.
Qed.

Lemma bit_free_spec x b : 0 <= b -> bit_free x b = negb (Z.testbit x b).
Proof.
  intros Hb. unfold bit_free.
  destruct (Z.testbit x b) eqn:E; simpl.
  - apply Z.eqb_neq. intros H0.
    assert (Z.testbit (Z.land x (Z.shiftl 1 b)) b = true) as Ht.
    { rewrite Z.land_spec, testbit_shiftl_1, E by lia. simpl. lia. }
    rewrite H0, Z.bits_0 in Ht. discriminate.
  - apply Z.eqb_eq. apply Z.bits_inj_0. intros i.
    rewrite Z.land_spec, testbit_shiftl_1 by lia.
    destruct (Z.eqb_spec i b) as [->|]; [by rewrite E|apply andb_false_r].
Qed.

(** Two [w]-bit values with the same bits are equal. *)
Lemma bits_eq w x y :
  0 <= x < 2 ^ w -> 0 <= y < 2 ^ w ->
  (forall i, 0 <= i < w -> Z.testbit x i = Z.testbit y i) -> x = y.
Proof.
  intros Hx Hy H. apply Z.bits_inj'. intros i Hi.
  destruct (Z.ltb_spec i w); [by apply H; lia|].
  by rewrite !(testbit_high w) by lia.
Qed.

Lemma set_clear_bit w x b :
  0 <= x < 2 ^ w -> 0 <= b < w -> Z.testbit x b = false ->
  clear_bit w (set_bit x b) b = x.
Proof.
  intros Hx Hb E. pose proof (set_bit_range w x b Hx Hb) as Hs.
  apply (bits_eq w); [by apply clear_bit_range|done|].
  intros i Hi. rewrite testbit_clear_bit, testbit_set_bit by lia.
  destruct (Z.eqb_spec i b) as [->|]; simpl.
  - by rewrite E.
  - by rewrite orb_false_r, andb_true_r.
Qed.

(** [ALIGN4]-style masking: clearing the low [k] bits rounds down. *)
Lemma land_cnot_ones w x k :
  0 <= k <= w -> 0 <= x < 2 ^ w -> Z.land x (cnot w (2 ^ k - 1)) = x / 2 ^ k * 2 ^ k.
Proof.
  intros Hk Hx.
  assert (0 < 2 ^ k) as Hp by (apply Z.pow_pos_nonneg; lia).
  assert (2 ^ k <= 2 ^ w) as Hkw by (apply Z.pow_le_mono_r; lia).
  rewrite <- Z.shiftr_div_pow2, <- Z.shiftl_mul_pow2 by lia.
  apply Z.bits_inj'. intros i Hi.
  rewrite Z.land_spec, Z.shiftl_spec by lia.
  destruct (Z.ltb_spec i w) as [Hlt|Hge].
  - rewrite testbit_cnot by lia.
    replace (2 ^ k - 1) with (Z.ones k) by (rewrite Z.ones_equiv; lia).
    rewrite Z.testbit_ones_nonneg by lia.
    destruct (Z.ltb_spec i k); simpl.
    + rewrite andb_false_r. symmetry. apply Z.testbit_neg_r. lia.
    + rewrite andb_true_r, Z.shiftr_spec by lia. f_equal. lia.
  - rewrite (testbit_high w x i) by lia. simpl. symmetry.
    destruct (Z.ltb_spec (i - k) 0); [apply Z.testbit_neg_r; lia|].
    rewrite Z.shiftr_spec by lia. apply (testbit_high w); lia.
Qed.

(** ** The effect monad

    A kernel routine reads and writes a state [S] and either returns or
    stops the machine for good: [panic] and a fault in kernel mode both end
    in a [hlt] loop, so nothing after them runs. *)

Inductive halt : Type :=
| Panic (msg : string)        (** a call of [panic] *)
| Fault                       (** an access outside the modelled buffer *)
| Stopped                     (** a [hlt] loop *)
| OutOfFuel.                  (** a loop bound was too small *)

Inductive outcome (S A : Type) : Type :=
| Done (a : A) (s : S)
| Halted (h : halt) (s : S).
Arguments Done {S A} a s.
Arguments Halted {S A} h s.

Definition M (S A : Type) : Type := S -> outcome S A.

Definition retM {S A} (a : A) : M S A := fun s => Done a s.
Definition bindM {S A B} (m : M S A) (k : A -> M S B) : M S B := fun s =>
  match m s with
  | Done a s' => k a s'
  | Halted h s' => Halted h s'
  end.
Definition getM {S} : M S S := fun s => Done s s.
Definition putM {S} (s : S) : M S unit := fun _ => Done tt s.
Definition modM {S} (f : S -> S) : M S unit := fun s => Done tt (f s).
Definition haltM {S A} (h : halt) : M S A := fun s => Halted h s.

Declare Scope monad_scope.
Delimit Scope monad_scope with monad.
Notation "'let*' x ':=' c1 'in' c2" := (bindM c1 (fun x => c2))
  (at level 10, x pattern, c1 at level 100, c2 at level 200) : monad_scope.
Notation "c1 ';;;' c2" := (bindM c1 (fun _ => c2))
  (at level 100, c2 at level 200, right associativity) : monad_scope.
#[global] Open Scope monad_scope.

(** [if (c) return v;]-style early exit inside a loop: the loop body answers
    whether to go on ([None]) or to leave with a value. *)
Fixpoint loopM {S R} (n : nat) (i : Z) (body : Z -> M S (option R)) : M S (option R) :=
  match n with
  | O => retM None
  | Datatypes.S n =>
      let* r := body i in
      match r with
      | Some v => retM (Some v)
      | None => loopM n (i + 1) body
      end
  end.

(** [for (i = i0; i < i0 + n; i++) body(i)] with no early exit. *)
Fixpoint forM {S} (n : nat) (i : Z) (body : Z -> M S unit) : M S unit :=
  match n with
  | O => retM tt
  | Datatypes.S n => body i ;;; forM n (i + 1) body
  end.

(** The same loop over a pure accumulator. *)
Fixpoint for_range {A} (n : nat) (i : Z) (body : Z -> A -> A) (a : A) : A :=
  match n with
  | O => a
  | Datatypes.S n => for_range n (i + 1) body (body i a)
  end.

Lemma bindM_Done {S A B} (m : M S A) (k : A -> M S B) s a s' :
  m s = Done a s' -> bindM m k s = k a s'.
Proof. unfold bindM. by intros ->. Qed.

Lemma bindM_inv {S A B} (m : M S A) (k : A -> M S B) s b s' :
  bindM m k s = Done b s' -> exists a s1, m s = Done a s1 /\ k a s1 = Done b s'.
Proof. unfold bindM. destruct (m s) as [a s1|]; [eauto|discriminate]. Qed.

(** Run the monadic prefix of a hypothesis or of the goal. *)
Ltac mstep H :=
  let a := fresh "a" in let s := fresh "s" in let E := fresh "E" in
  apply bindM_inv in H; destruct H as (a & s & E & H).
Ltac mrun := unfold bindM, retM, getM, putM, modM, haltM.

Lemma for_range_ind {A} (P : Z -> A -> Prop) n i body a :
  P i a ->
  (forall j b, i <= j < i + Z.of_nat n -> P j b -> P (j + 1) (body j b)) ->
  P (i + Z.of_nat n) (for_range n i body a).
Proof.
  revert i a. induction n as [|n IH]; intros i a H0 Hs; simpl.
  - by rewrite Z.add_0_r.
  - replace (i + Z.of_nat (S n)) with (i + 1 + Z.of_nat n) by lia.
    apply IH; [apply Hs; [lia|done]|].
    intros j b Hj. apply Hs. lia.
Qed.

Lemma for_range_ext {A} n i (f g : Z -> A -> A) a :
  (forall j b, i <= j < i + Z.of_nat n -> f j b = g j b) ->
  for_range n i f a = for_range n i g a.
Proof.
  revert i a. induction n as [|n IH]; intros i a H; simpl; [done|].
  rewrite H by lia. apply IH. intros j b Hj. apply H. lia.
Qed.

(** A search loop whose body only reads: the first index with an answer. *)
Lemma loopM_search {S R} n i (body : Z -> M S (option R)) (p : Z -> option R) s :
  (forall j, i <= j < i + Z.of_nat n -> body j s = Done (p j) s) ->
  exists r, loopM n i body s = Done r s /\
    match r with
    | Some v => exists j, i <= j < i + Z.of_nat n /\ p j = Some v /\ forall k, i <= k < j -> p k = None
    | None => forall j, i <= j < i + Z.of_nat n -> p j = None
    end.
Proof.
  revert i. induction n as [|n IH]; intros i H.
  - exists None. split; [done|]. intros j Hj. simpl in Hj. lia.
  - cbn [loopM]. mrun. rewrite H by lia. destruct (p i) as [v|] eqn:E.
    + exists (Some v). split; [done|]. exists i. split; [lia|]. split; [done|]. lia.
    + destruct (IH (i + 1)) as (r & -> & Hr); [intros; apply H; lia|]. exists r. split; [done|].
      destruct r as [v|].
      * destruct Hr as (j & Hj & Hp & Hk). exists j. split; [lia|]. split; [done|].
        intros k ?. destruct (Z.eq_dec k i) as [->|]; [done|]. apply Hk. lia.
      * intros j ?. destruct (Z.eq_dec j i) as [->|]; [done|]. apply Hr. lia.
Qed.

(** A search loop whose body acts when it leaves: the first index with [p]. *)
Lemma loopM_first {S R} n i (body : Z -> M S (option R)) (p : Z -> bool) s :
  (forall j, i <= j < i + Z.of_nat n -> p j = false -> body j s = Done None s) ->
  (loopM n i body s = Done None s /\ forall j, i <= j < i + Z.of_nat n -> p j = false) \/
  exists j, i <= j < i + Z.of_nat n /\ p j = true /\ (forall k, i <= k < j -> p k = false) /\
    forall v s', body j s = Done (Some v) s' -> loopM n i body s = Done (Some v) s'.
Proof.
  revert i. induction n as [|n IH]; intros i H.
  - left. split; [done|]. intros j Hj. simpl in Hj. lia.
  - cbn [loopM]. destruct (p i) eqn:E.
    + right. exists i. split; [lia|]. split; [done|]. split; [lia|]. intros v s' Hb. mrun. by rewrite Hb.
    + rewrite (bindM_Done _ _ _ _ _ (H i ltac:(lia) E)).
      destruct (IH (i + 1)) as [[-> Hn]|(j & Hj & Hp & Hk & Hv)]; [intros; apply H; [lia|done]| |].
      * left. split; [done|]. intros j Hj. destruct (Z.eq_dec j i) as [->|]; [done|]. apply Hn. lia.
      * right. exists j. split; [lia|]. split; [done|]. split; [|done].
        intros k ?. destruct (Z.eq_dec k i) as [->|]; [done|]. apply Hk. lia.
Qed.

(** [for (i = i0; i < i0 + n && cond; i++) body(i)] over a local variable. *)
Fixpoint whileM {S A} (n : nat) (i : Z) (cond : A -> bool) (body : Z -> A -> M S A) (a : A) : M S A :=
  match n with
  | O => retM a
  | Datatypes.S n =>
      if cond a then let* a' := body i a in whileM n (i + 1) cond body a' else retM a
  end.

(** Code with early returns: [inl e] leaves the function with [e]. *)
Definition bindE {S E A B} (m : M S (E + A)) (k : A -> M S (E + B)) : M S (E + B) :=
  let* r := m in match r with inl e => retM (inl e) | inr a => k a end.
Definition bodyE {S E} (m : M S (E + E)) : M S E :=
  let* r := m in match r with inl e => retM e | inr e => retM e end.
Definition leaveE {S E A} (e : E) : M S (E + A) := retM (inl e).
Definition liftE {S E A} (m : M S A) : M S (E + A) := let* a := m in retM (inr a).
Notation "'let!' x ':=' c1 'in' c2" := (bindE c1 (fun x => c2))
  (at level 10, x pattern, c1 at level 100, c2 at level 200) : monad_scope.

(** The loop of [whileM] in code with early returns. *)
Fixpoint whileE {S E A} (n : nat) (i : Z) (cond : A -> bool) (body : Z -> A -> M S (E + A)) (a : A) : M S (E + A) :=
  match n with
  | O => retM (inr a)
  | Datatypes.S n =>
      if cond a then let! a' := body i a in whileE n (i + 1) cond body a' else retM (inr a)
  end.

(** ** Total correctness

    [wp m Q s]: from [s] the routine returns, with a result and a state in [Q]. *)
Section wp.
Context {S : Type}.

Definition wp {A} (m : M S A) (Q : A -> S -> Prop) (s : S) : Prop :=
  match m s with Done a s' => Q a s' | Halted _ _ => False end.

Lemma wp_ret {A} (a : A) Q s : Q a s -> wp (retM a) Q s.
Proof. done. Qed.
Lemma wp_bind {A B} (m : M S A) (k : A -> M S B) Q s : wp m (fun a => wp (k a) Q) s -> wp (bindM m k) Q s.
Proof. unfold wp, bindM. by destruct (m s). Qed.
Lemma wp_get Q s : Q s s -> wp getM Q s.
Proof. done. Qed.
Lemma wp_put (s' : S) Q s : Q tt s' -> wp (putM s') Q s.
Proof. done. Qed.
Lemma wp_mod (f : S -> S) Q s : Q tt (f s) -> wp (modM f) Q s.
Proof. done. Qed.
Lemma wp_mono {A} (m : M S A) (P Q : A -> S -> Prop) s : wp m P s -> (forall a s', P a s' -> Q a s') -> wp m Q s.
Proof. unfold wp. destruct (m s); eauto. Qed.
Lemma wp_inv {A} (m : M S A) Q s : wp m Q s -> exists a s', m s = Done a s' /\ Q a s'.
Proof. unfold wp. destruct (m s); [eauto|done]. Qed.

(** A counted loop, by an invariant of the counter and the state. *)
Lemma wp_forM (I : Z -> S -> Prop) n i (body : Z -> M S unit) s :
  I i s -> (forall j s, i <= j < i + Z.of_nat n -> I j s -> wp (body j) (fun _ => I (j + 1)) s) ->
  wp (forM n i body) (fun _ => I (i + Z.of_nat n)) s.
Proof.
  revert i s. induction n as [|n IH]; intros i s H0 Hs; cbn [forM].
  - apply wp_ret. by rewrite Z.add_0_r.
  - apply wp_bind. eapply wp_mono; [apply (Hs i s); [lia|done]|]. intros u s1 H1. cbv beta in H1.
    replace (i + Z.of_nat (Datatypes.S n)) with (i + 1 + Z.of_nat n) by lia.
    apply IH; [done|]. intros j s2 Hj. apply Hs. lia.
Qed.
End wp.

(** Run the straight-line part of a routine. *)
Ltac wp_step :=
  lazymatch goal with
  | |- wp (bindM _ _) _ _ => apply wp_bind
  | |- wp (retM _) _ _ => apply wp_ret
  | |- wp getM _ _ => apply wp_get
  | |- wp (putM _) _ _ => apply wp_put
  | |- wp (modM _) _ _ => apply wp_mod
  end.
Ltac wp_steps := repeat wp_step.
