(* ===== verification/Bytes.v ===== *)
(** * Byte buffers and little-endian words

    The kernel keeps disk blocks, the superblock, the group descriptors and
    directory entries in byte buffers and reads them through casts to packed
    structs and to [uint32_t *].  On the little-endian target such an access
    is a load or a store of [n] bytes at an offset; [ld] and [st] are those
    accesses, and the lemmas here say when two of them interfere. *)
From S2P Require Import Prelude.

Definition bytes_ok (l : list Z) : Prop := Forall is_byte l.

Fixpoint le_bytes (n : nat) (v : Z) : list Z :=
  match n with
  | O => []
  | S n => v mod 256 :: le_bytes n (v / 256)
  end.

Fixpoint le_val (l : list Z) : Z :=
  match l with
  | [] => 0
  | b :: l => b + 256 * le_val l
  end.

(** The bytes of a string literal, without the terminator. *)
Definition bytes_of (s : string) : list Z := (fun a => Z.of_N (Ascii.N_of_ascii a)) <$> String.list_ascii_of_string s.

(** The [n] elements at [off], and the buffer with them replaced by [x]. *)
Definition sub {A} (off n : nat) (l : list A) : list A := take n (drop off l).
Definition splice {A} (off : nat) (x l : list A) : list A :=
  take off l ++ x ++ drop (off + length x) l.

Definition ld (n : nat) (buf : list Z) (off : Z) : Z := le_val (sub (Z.to_nat off) n buf).
Definition st (n : nat) (buf : list Z) (off v : Z) : list Z :=
  splice (Z.to_nat off) (le_bytes n v) buf.

Abbreviation ld8 := (ld 1).
Abbreviation ld16 := (ld 2).
Abbreviation ld32 := (ld 4).
Abbreviation st8 := (st 1).
Abbreviation st16 := (st 2).
Abbreviation st32 := (st 4).

(** ** Slices *)

Section slices.
Context {A : Type}.
Implicit Types l x y : list A.

Lemma length_sub off n l : (off + n <= length l)%nat -> length (sub off n l) = n.
Proof. intros H. unfold sub. rewrite length_take, length_drop. lia. Qed.

Lemma length_splice off x l :
  (off + length x <= length l)%nat -> length (splice off x l) = length l.
Proof. intros H. unfold splice. rewrite !length_app, length_take, length_drop. lia. Qed.

Lemma lookup_sub off n l i : (i < n)%nat -> sub off n l !! i = l !! (off + i)%nat.
Proof. intros H. unfold sub. by rewrite lookup_take_lt, lookup_drop by lia. Qed.

Lemma lookup_splice off x l i :
  (off + length x <= length l)%nat ->
  splice off x l !! i =
    if (Nat.ltb i off) then l !! i
    else if (Nat.ltb i (off + length x)) then x !! (i - off)%nat else l !! i.
Proof.
  intros H. unfold splice. zcase.
  - rewrite lookup_app_l by (rewrite length_take; lia). by rewrite lookup_take_lt by lia.
  - rewrite lookup_app_r by (rewrite length_take; lia).
    rewrite length_take, Nat.min_l by lia. zcase.
    + by rewrite lookup_app_l by lia.
    + rewrite lookup_app_r, lookup_drop by lia. f_equal. lia.
Qed.

Lemma sub_splice_same off x l :
  (off + length x <= length l)%nat -> sub off (length x) (splice off x l) = x.
Proof.
  intros H. unfold sub, splice.
  rewrite drop_app_le by (rewrite length_take; lia).
  rewrite drop_ge by (rewrite length_take; lia). simpl.
  rewrite take_app_le by lia. by rewrite take_ge by lia.
Qed.

Lemma sub_splice_disj off n off' x l :
  (off' + length x <= length l)%nat ->
  (off + n <= off' \/ off' + length x <= off)%nat ->
  sub off n (splice off' x l) = sub off n l.
Proof.
  intros H Hd. apply list_eq. intros i.
  destruct (Nat.ltb_spec i n) as [Hi|Hi].
  - rewrite !lookup_sub by done. rewrite lookup_splice by done.
    zcase; [done|]. zcase; [lia|done].
  - unfold sub. by rewrite !lookup_take_ge by lia.
Qed.

Lemma splice_splice_same off x y l :
  (off + length x <= length l)%nat -> length x = length y ->
  splice off y (splice off x l) = splice off y l.
Proof.
  intros H Hxy. apply list_eq. intros i.
  rewrite !lookup_splice; rewrite ?length_splice; try lia.
  repeat zcase; try done; lia.
Qed.

Lemma splice_sub off n l :
  (off + n <= length l)%nat -> splice off (sub off n l) l = l.
Proof.
  intros H. apply list_eq. intros i.
  rewrite lookup_splice by (rewrite length_sub; lia).
  rewrite length_sub by lia. zcase; [done|]. zcase; [|done].
  rewrite lookup_sub by lia. f_equal. lia.
Qed.

Lemma splice_splice_comm off x off' y l :
  (off + length x <= length l)%nat -> (off' + length y <= length l)%nat ->
  (off + length x <= off' \/ off' + length y <= off)%nat ->
  splice off x (splice off' y l) = splice off' y (splice off x l).
Proof.
  intros H H' Hd. apply list_eq. intros i.
  rewrite !lookup_splice; rewrite ?length_splice; try lia.
  repeat zcase; try done; lia.
Qed.

Lemma sub_all l n : n = length l -> sub 0 n l = l.
Proof. intros ->. unfold sub. rewrite drop_0. by apply take_ge. Qed.

Lemma splice_all x l : length x = length l -> splice 0 x l = x.
Proof.
  intros H. unfold splice. simpl. rewrite drop_ge by lia. by rewrite app_nil_r.
Qed.

Lemma Forall_sub (P : A -> Prop) off n l : Forall P l -> Forall P (sub off n l).
Proof. intros H. unfold sub. by apply Forall_take, Forall_drop. Qed.

Lemma Forall_splice (P : A -> Prop) off x l :
  Forall P l -> Forall P x -> Forall P (splice off x l).
Proof.
  intros Hl Hx. unfold splice. apply Forall_app. split; [by apply Forall_take|].
  apply Forall_app. split; [done|by apply Forall_drop].
Qed.

End slices.

(** ** Words *)

Lemma length_le_bytes n v : length (le_bytes n v) = n.
Proof. revert v. induction n as [|n IH]; intros v; simpl; [done|]. by rewrite IH. Qed.

Lemma le_bytes_ok n v : bytes_ok (le_bytes n v).
Proof.
  revert v. induction n as [|n IH]; intros v; simpl; constructor; [|apply IH].
  unfold is_byte. zlia.
Qed.

Lemma le_val_bytes n v : le_val (le_bytes n v) = v mod 256 ^ Z.of_nat n.
Proof.
  revert v. induction n as [|n IH]; intros v; simpl le_bytes; simpl le_val.
  - by rewrite Z.pow_0_r, Z.mod_1_r.
  - rewrite IH. rewrite Nat2Z.inj_succ, Z.pow_succ_r by lia.
    rewrite Z.rem_mul_r by lia. lia.
Qed.

Lemma le_val_range l : bytes_ok l -> 0 <= le_val l < 256 ^ Z.of_nat (length l).
Proof.
  induction 1 as [|b l Hb Hl IH]; simpl le_val; [done|].
  rewrite length_cons, Nat2Z.inj_succ, Z.pow_succ_r by lia. unfold is_byte in Hb. lia.
Qed.

Lemma le_bytes_val l n : bytes_ok l -> n = length l -> le_bytes n (le_val l) = l.
Proof.
  intros Hl. revert n. induction Hl as [|b l Hb Hl IH]; intros n ->; simpl; [done|].
  unfold is_byte in Hb.
  replace ((b + 256 * le_val l) mod 256) with b by zlia.
  replace ((b + 256 * le_val l) / 256) with (le_val l) by zlia.
  by rewrite IH.
Qed.

(** ** Loads and stores *)

Lemma length_st n buf off v :
  0 <= off -> off + Z.of_nat n <= Z.of_nat (length buf) ->
  length (st n buf off v) = length buf.
Proof. intros H0 H. apply length_splice. rewrite length_le_bytes. lia. Qed.

Lemma ld_st_same n buf off v :
  0 <= off -> off + Z.of_nat n <= Z.of_nat (length buf) ->
  ld n (st n buf off v) off = v mod 256 ^ Z.of_nat n.
Proof.
  intros H0 H. unfold ld, st. rewrite <- (length_le_bytes n v) at 1.
  rewrite sub_splice_same by (rewrite length_le_bytes; lia). apply le_val_bytes.
Qed.

Lemma ld_st_disj n m buf off off' v :
  0 <= off -> 0 <= off' -> off' + Z.of_nat m <= Z.of_nat (length buf) ->
  off + Z.of_nat n <= off' \/ off' + Z.of_nat m <= off ->
  ld n (st m buf off' v) off = ld n buf off.
Proof.
  intros H0 H0' H Hd. unfold ld, st. f_equal.
  apply sub_splice_disj; rewrite length_le_bytes; lia.
Qed.

Lemma bytes_ok_st n buf off v : bytes_ok buf -> bytes_ok (st n buf off v).
Proof. intros H. apply Forall_splice; [done|apply le_bytes_ok]. Qed.

Lemma ld_range n buf off :
  bytes_ok buf -> 0 <= ld n buf off < 256 ^ Z.of_nat n.
Proof.
  intros H. unfold ld. pose proof (Forall_sub _ (Z.to_nat off) n _ H) as Hs.
  apply le_val_range in Hs.
  assert (256 ^ Z.of_nat (length (sub (Z.to_nat off) n buf)) <= 256 ^ Z.of_nat n); [|lia].
  apply Z.pow_le_mono_r; [lia|]. unfold sub. rewrite length_take. lia.
Qed.

Lemma ld8_lookup buf off :
  0 <= off -> ld8 buf off = default 0 (buf !! Z.to_nat off).
Proof.
  intros H0. unfold ld, sub. destruct (drop (Z.to_nat off) buf) as [|b l] eqn:E.
  - pose proof (f_equal length E) as Hl. rewrite length_drop in Hl. simpl in Hl.
    rewrite lookup_ge_None_2 by lia. done.
  - rewrite <- (Nat.add_0_r (Z.to_nat off)), <- lookup_drop, E. simpl. lia.
Qed.

#[export] Hint Resolve bytes_ok_st le_bytes_ok : kernel.
#[export] Hint Rewrite @length_splice length_st length_le_bytes using lia : kernel.
