(* ===== verification/Bitset.v ===== *)
(** * Bitmaps

    The frame allocator keeps one bit per page frame in 32-bit words, ext2 one
    bit per block or inode in bytes.  Both set, clear and test bit [i mod w] of
    word [i / w] and look for the lowest clear bit.  This file gives a bitmap
    its meaning as a set of indices, for any word width [w]. *)
From S2P Require Import Prelude.

Section bitset.
Context (w : Z) (Hw : 0 < w).
Implicit Types bm : list Z.

Definition bs_wf bm : Prop := Forall (fun x => 0 <= x < 2 ^ w) bm.
Definition bs_size bm : Z := w * Z.of_nat (length bm).

Definition bit_at bm (i : Z) : bool := Z.testbit (bm !!! Z.to_nat (i / w)) (i mod w).
Definition bs_set bm (i : Z) : list Z :=
  alter (fun x => set_bit x (i mod w)) (Z.to_nat (i / w)) bm.
Definition bs_clear bm (i : Z) : list Z :=
  alter (fun x => clear_bit w x (i mod w)) (Z.to_nat (i / w)) bm.

Lemma bs_index bm i :
  0 <= i < bs_size bm -> (Z.to_nat (i / w) < length bm)%nat /\ 0 <= i mod w < w.
Proof using Hw.
  unfold bs_size. intros Hi. split; [|apply Z.mod_pos_bound; lia].
  assert (i / w < Z.of_nat (length bm)) by (apply Z.div_lt_upper_bound; lia).
  pose proof (Z.div_pos i w). lia.
Qed.

Lemma bs_index_eq i j :
  0 <= i -> 0 <= j -> Z.to_nat (i / w) = Z.to_nat (j / w) -> i mod w = j mod w -> i = j.
Proof using Hw.
  intros Hi Hj Hd Hm. rewrite (Z.div_mod i w), (Z.div_mod j w) by lia.
  pose proof (Z.div_pos i w). pose proof (Z.div_pos j w).
  replace (i / w) with (j / w) by lia. lia.
Qed.

Lemma bs_wf_lookup bm k : bs_wf bm -> (k < length bm)%nat -> 0 <= bm !!! k < 2 ^ w.
Proof using.
  intros Hb Hk. unfold bs_wf in Hb. rewrite Forall_forall in Hb. apply Hb.
  by apply list_elem_of_lookup_total_2.
Qed.

Lemma alter_lookup_total (f : Z -> Z) bm k j :
  (k < length bm)%nat -> alter f k bm !!! j = if decide (j = k) then f (bm !!! k) else bm !!! j.
Proof using.
  intros Hk. case_decide as E.
  - subst. rewrite !list_lookup_total_alt, list_lookup_alter_eq.
    by destruct (lookup_lt_is_Some_2 bm k Hk) as [x ->].
  - by rewrite !list_lookup_total_alt, list_lookup_alter_ne.
Qed.

Lemma bs_wf_alter (f : Z -> Z) bm k :
  bs_wf bm -> (forall x, 0 <= x < 2 ^ w -> 0 <= f x < 2 ^ w) -> bs_wf (alter f k bm).
Proof using. intros Hb Hf. apply Forall_alter; [done|]. intros x _. apply Hf. Qed.

Lemma length_bs_set bm i : length (bs_set bm i) = length bm.
Proof using. apply length_alter. Qed.
Lemma length_bs_clear bm i : length (bs_clear bm i) = length bm.
Proof using. apply length_alter. Qed.

Lemma bs_wf_set bm i : bs_wf bm -> bs_wf (bs_set bm i).
Proof using Hw.
  intros Hb. apply bs_wf_alter; [done|]. intros x Hx. apply set_bit_range; [done|].
  apply Z.mod_pos_bound. lia.
Qed.

Lemma bs_wf_clear bm i : bs_wf bm -> bs_wf (bs_clear bm i).
Proof using Hw.
  intros Hb. apply bs_wf_alter; [done|]. intros x Hx. apply clear_bit_range; [done|].
  apply Z.mod_pos_bound. lia.
Qed.

Lemma bit_at_set bm i j :
  0 <= i < bs_size bm -> 0 <= j -> bit_at (bs_set bm i) j = (j =? i) || bit_at bm j.
Proof using Hw.
  intros Hi Hj. destruct (bs_index bm i Hi) as [Hl Hm]. unfold bit_at, bs_set.
  rewrite alter_lookup_total by done. destruct (Z.eqb_spec j i) as [->|Hne]; simpl.
  - rewrite decide_True by done. rewrite testbit_set_bit by lia.
    by rewrite Z.eqb_refl, orb_true_r.
  - case_decide as E; [|done]. rewrite testbit_set_bit by lia. rewrite E.
    destruct (Z.eqb_spec (j mod w) (i mod w)) as [Em|]; [|apply orb_false_r].
    destruct Hne. by apply bs_index_eq; try lia.
Qed.

Lemma bit_at_clear bm i j :
  bs_wf bm -> 0 <= i < bs_size bm -> 0 <= j ->
  bit_at (bs_clear bm i) j = negb (j =? i) && bit_at bm j.
Proof using Hw.
  intros Hb Hi Hj. destruct (bs_index bm i Hi) as [Hl Hm]. unfold bit_at, bs_clear.
  pose proof (bs_wf_lookup bm _ Hb Hl) as Hx.
  pose proof (Z.mod_pos_bound j w ltac:(lia)) as Hjm.
  rewrite alter_lookup_total by done. destruct (Z.eqb_spec j i) as [->|Hne]; simpl.
  - rewrite decide_True by done. rewrite testbit_clear_bit by lia.
    by rewrite Z.eqb_refl, andb_false_r.
  - case_decide as E; [|done]. rewrite testbit_clear_bit by lia. rewrite E.
    destruct (Z.eqb_spec (j mod w) (i mod w)) as [Em|]; [|apply andb_true_r].
    destruct Hne. by apply bs_index_eq; try lia.
Qed.

Lemma bit_at_app_r bm bm' i :
  0 <= i -> bit_at (bm ++ bm') (bs_size bm + i) = bit_at bm' i.
Proof using Hw.
  intros Hi. unfold bit_at, bs_size.
  replace (w * Z.of_nat (length bm) + i) with (i + Z.of_nat (length bm) * w) by lia.
  rewrite Z.div_add, Z_mod_plus_full by lia.
  pose proof (Z.div_pos i w Hi Hw).
  rewrite lookup_total_app_r by lia. do 2 f_equal. lia.
Qed.

(** Bits at equal indices make equal bitmaps. *)
Lemma bs_eq bm bm' :
  bs_wf bm -> bs_wf bm' -> length bm = length bm' ->
  (forall i, 0 <= i < bs_size bm -> bit_at bm i = bit_at bm' i) -> bm = bm'.
Proof using Hw.
  intros Hb Hb' Hl H. apply list_eq_same_length with (length bm); [done..|].
  intros k x y Hk Hx Hy.
  apply (bits_eq w); [apply (Forall_lookup_1 _ _ _ _ Hb Hx)|apply (Forall_lookup_1 _ _ _ _ Hb' Hy)|].
  intros i Hi. specialize (H (Z.of_nat k * w + i)). unfold bit_at in H.
  rewrite (Z.add_comm _ i), Z.div_add, Z_mod_plus_full, Z.div_small, Z.mod_small in H by lia.
  rewrite Z.add_0_l, Nat2Z.id in H.
  rewrite (list_lookup_total_correct _ _ _ Hx), (list_lookup_total_correct _ _ _ Hy) in H.
  apply H. unfold bs_size. nia.
Qed.

Lemma bs_set_clear bm i :
  bs_wf bm -> 0 <= i < bs_size bm -> bit_at bm i = false -> bs_clear (bs_set bm i) i = bm.
Proof using Hw.
  intros Hb Hi E. apply bs_eq; [by apply bs_wf_clear, bs_wf_set|done|by rewrite length_bs_clear, length_bs_set|].
  unfold bs_size in *. rewrite length_bs_clear, length_bs_set. intros j Hj.
  rewrite bit_at_clear; [|by apply bs_wf_set|unfold bs_size; by rewrite length_bs_set|lia].
  rewrite bit_at_set by (unfold bs_size; lia). destruct (Z.eqb_spec j i) as [->|]; [by rewrite E|done].
Qed.

(** ** Marking a run of indices *)

Lemma bit_at_set_range n i0 bm j :
  0 <= i0 -> i0 + Z.of_nat n <= bs_size bm -> 0 <= j ->
  bit_at (for_range n i0 (fun i b => bs_set b i) bm) j =
    ((i0 <=? j) && (j <? i0 + Z.of_nat n)) || bit_at bm j.
Proof using Hw.
  revert i0 bm. induction n as [|n IH]; intros i0 bm H0 Hn Hj; simpl for_range.
  - repeat zcase; simpl; (done || lia).
  - rewrite IH; [|lia| |lia]; [|unfold bs_size in *; rewrite length_bs_set; lia].
    rewrite bit_at_set by lia. destruct (bit_at bm j); [by rewrite !orb_true_r|].
    repeat zcase; simpl; (done || lia).
Qed.

Lemma bit_at_clear_range n i0 bm j :
  bs_wf bm -> 0 <= i0 -> i0 + Z.of_nat n <= bs_size bm -> 0 <= j ->
  bit_at (for_range n i0 (fun i b => bs_clear b i) bm) j =
    negb ((i0 <=? j) && (j <? i0 + Z.of_nat n)) && bit_at bm j.
Proof using Hw.
  revert i0 bm. induction n as [|n IH]; intros i0 bm Hb H0 Hn Hj; simpl for_range.
  - repeat zcase; simpl; (done || lia).
  - rewrite IH; [|by apply bs_wf_clear|lia| |lia]; [|unfold bs_size in *; rewrite length_bs_clear; lia].
    rewrite bit_at_clear by (done || lia). destruct (bit_at bm j); [|by rewrite !andb_false_r].
    repeat zcase; simpl; (done || lia).
Qed.

Lemma range_wf (f : list Z -> Z -> list Z) n i0 bm :
  (forall b i, bs_wf b -> bs_wf (f b i) /\ length (f b i) = length b) -> bs_wf bm ->
  bs_wf (for_range n i0 (fun i b => f b i) bm) /\
  length (for_range n i0 (fun i b => f b i) bm) = length bm.
Proof using.
  intros Hf Hb. apply (for_range_ind (fun _ b => bs_wf b /\ length b = length bm)); [done|].
  intros j b _ [Hb' Hl]. destruct (Hf b j Hb') as [? ->]. done.
Qed.

End bitset.

(** ** The lowest clear bit of a word *)

Fixpoint first_clear (n : nat) (b x : Z) : option Z :=
  match n with
  | O => None
  | S n => if bit_free x b then Some b else first_clear n (b + 1) x
  end.

Lemma first_clear_Some n b x r :
  0 <= b -> first_clear n b x = Some r ->
  b <= r < b + Z.of_nat n /\ Z.testbit x r = false /\ forall j, b <= j < r -> Z.testbit x j = true.
Proof.
  revert b. induction n as [|n IH]; intros b Hb H; simpl in H; [done|].
  rewrite bit_free_spec in H by done. destruct (Z.testbit x b) eqn:E; simpl in H.
  - destruct (IH (b + 1) ltac:(lia) H) as (? & ? & Hj). split; [lia|]. split; [done|].
    intros j ?. destruct (Z.eq_dec j b) as [->|]; [done|]. apply Hj. lia.
  - simplify_eq. split; [lia|]. split; [done|]. lia.
Qed.

Lemma first_clear_None n b x :
  0 <= b -> first_clear n b x = None -> forall j, b <= j < b + Z.of_nat n -> Z.testbit x j = true.
Proof.
  revert b. induction n as [|n IH]; intros b Hb H j Hj; simpl in H; [lia|].
  rewrite bit_free_spec in H by done. destruct (Z.testbit x b) eqn:E; simpl in H; [|done].
  destruct (Z.eq_dec j b) as [->|]; [done|]. apply (IH (b + 1)); (done || lia).
Qed.

#[export] Hint Resolve bs_wf_set bs_wf_clear : kernel.
