(* ===== verification/Ring.v ===== *)
(** * Ring buffers

    Two components are the same 256-slot ring: the keyboard's [ringBuffer]
    (etc/lib/rb/ringBuffer.c) and the scheduler's ready queue
    (kernel/process/queue/processQueue.c).  Both keep [head] and [tail] in an
    [unsigned char] that wraps and declare the ring full one slot early.
    Section [ring] gives the list a ring holds and how a write at [head] and a
    step of [tail] change it; module [Spec] is the bounded FIFO queue both
    promise; modules [RingBuffer] and [PQueue] are the two components. *)
From S2P Require Import Prelude.

(** ** The list held by a ring *)

Section ring.
Context {A : Type}.
Implicit Types q : list A.

Definition ring_items (q : list A) (head tail : Z) : list A :=
  omap (fun i => q !! Z.to_nat (u8 (tail + i))) (seqZ 0 (u8 (head - tail))).

Lemma omap_ext_in {B} (f g : B -> option A) (l : list B) :
  (forall x, x ∈ l -> f x = g x) -> omap f l = omap g l.
Proof.
  intros H. apply list_omap_ext, Forall_Forall2_diag, Forall_forall. exact H.
Qed.

Lemma omap_fmap {B C} (f : B -> option A) (g : C -> B) (l : list C) :
  omap f (g <$> l) = omap (fun x => f (g x)) l.
Proof.
  induction l as [|x l IH]; [done|]. csimpl. by rewrite IH.
Qed.

Lemma ring_items_empty q h : ring_items q h h = [].
Proof. unfold ring_items. by rewrite Z.sub_diag. Qed.

Lemma omap_all_Some {B} (f : B -> option A) (l : list B) :
  (forall x, x ∈ l -> is_Some (f x)) -> length (omap f l) = length l.
Proof.
  induction l as [|x l IH]; intros H; [done|].
  csimpl. destruct (H x ltac:(set_solver)) as [y ->]. csimpl. f_equal. apply IH. set_solver.
Qed.

Lemma length_ring_items q h t :
  length q = 256%nat -> length (ring_items q h t) = Z.to_nat (u8 (h - t)).
Proof.
  intros Hq. unfold ring_items. rewrite omap_all_Some; [apply length_seqZ|].
  intros i _. apply lookup_lt_is_Some. unfold u8. zlia.
Qed.

(** Writing at [head] and advancing it appends. *)
Lemma ring_items_push q h t x :
  length q = 256%nat -> 0 <= h < 256 -> 0 <= t < 256 -> u8 (h + 1) <> t ->
  ring_items (<[Z.to_nat h := x]> q) (u8 (h + 1)) t = ring_items q h t ++ [x].
Proof.
  intros Hq Hh Ht Hfull. unfold ring_items.
  set (n := u8 (h - t)).
  assert (0 <= n) by (unfold n, u8; zlia).
  assert (u8 (u8 (h + 1) - t) = n + 1) as -> by (unfold n, u8 in *; zlia).
  rewrite seqZ_app by lia. rewrite omap_app. f_equal.
  - apply omap_ext_in. intros i Hi.
    apply elem_of_seqZ in Hi. rewrite list_lookup_insert_ne; [done|].
    unfold n, u8 in *. zlia.
  - rewrite (seqZ_cons (0 + n) 1) by lia. csimpl.
    replace (u8 (t + (0 + n))) with h by (unfold n, u8; zlia).
    rewrite list_lookup_insert_eq by lia. done.
Qed.

(** Advancing [tail] drops the oldest item. *)
Lemma ring_items_pop q h t x :
  0 <= h < 256 -> 0 <= t < 256 -> h <> t -> q !! Z.to_nat t = Some x ->
  ring_items q h t = x :: ring_items q h (u8 (t + 1)).
Proof.
  intros Hh Ht Hne Hx. unfold ring_items.
  rewrite (seqZ_cons 0) by (unfold u8; zlia). csimpl.
  replace (u8 (t + 0)) with t by (unfold u8; zlia). rewrite Hx. simpl. f_equal.
  replace (Z.pred (u8 (h - t))) with (u8 (h - u8 (t + 1))) by (unfold u8; zlia).
  change (Z.succ 0) with (1 + 0). rewrite <- (fmap_add_seqZ 1 0), omap_fmap.
  apply omap_ext_in. intros i _.
  f_equal. f_equal. unfold u8. zlia.
Qed.

End ring.

(** ** The queue both components promise *)

Module Spec.

(** A FIFO of at most [255] items: one slot of the ring is never used. *)
Definition capacity : nat := 255.

Definition push {A} (xs : list A) (x : A) : bool * list A :=
  if (length xs <? capacity)%nat then (true, xs ++ [x]) else (false, xs).
Definition pop {A} (xs : list A) : option A * list A :=
  match xs with
  | [] => (None, [])
  | x :: xs => (Some x, xs)
  end.
Definition peek {A} (xs : list A) : option A := head xs.
Definition is_empty {A} (xs : list A) : bool :=
  match xs with [] => true | _ => false end.

End Spec.

(** ** etc/lib/rb/ringBuffer.c *)

Module RingBuffer.

Record ringBuffer : Type := mkRb {
  queue : list Z;   (** [unsigned char queue[256]] *)
  head : Z;         (** [unsigned char] *)
  tail : Z
}.

Definition rb_init (rb : ringBuffer) : ringBuffer := mkRb (queue rb) 0 0.

Definition rb_is_empty (rb : ringBuffer) : bool :=
  if tail rb =? head rb then true else false.

Definition rb_push (rb : ringBuffer) (c : Z) : bool * ringBuffer :=
  let next := u8 (head rb + 1) in
  if next =? tail rb then (false, rb)
  else (true, mkRb (<[Z.to_nat (head rb) := c]> (queue rb)) next (tail rb)).

(** [None] is the return value [false], with [*out] left alone. *)
Definition rb_pop (rb : ringBuffer) : option Z * ringBuffer :=
  if rb_is_empty rb then (None, rb)
  else (Some (queue rb !!! Z.to_nat (tail rb)),
        mkRb (queue rb) (head rb) (u8 (tail rb + 1))).

Definition rb_peek (rb : ringBuffer) : option Z :=
  if rb_is_empty rb then None else Some (queue rb !!! Z.to_nat (tail rb)).

(** The C type: 256 slots and two bytes. *)
Definition rb_wf (rb : ringBuffer) : Prop :=
  length (queue rb) = 256%nat /\ 0 <= head rb < 256 /\ 0 <= tail rb < 256.

Definition items (rb : ringBuffer) : list Z := ring_items (queue rb) (head rb) (tail rb).

(** A client's calls, and what it observes of each. *)
Inductive rb_op : Type := Push (c : Z) | Pop | Peek | IsEmpty.
Inductive rb_ans : Type := ABool (b : bool) | AByte (o : option Z).

Definition rb_step (rb : ringBuffer) (o : rb_op) : rb_ans * ringBuffer :=
  match o with
  | Push c => let (b, rb') := rb_push rb c in (ABool b, rb')
  | Pop => let (r, rb') := rb_pop rb in (AByte r, rb')
  | Peek => (AByte (rb_peek rb), rb)
  | IsEmpty => (ABool (rb_is_empty rb), rb)
  end.

Definition spec_step (xs : list Z) (o : rb_op) : rb_ans * list Z :=
  match o with
  | Push c => let (b, xs') := Spec.push xs c in (ABool b, xs')
  | Pop => let (r, xs') := Spec.pop xs in (AByte r, xs')
  | Peek => (AByte (Spec.peek xs), xs)
  | IsEmpty => (ABool (Spec.is_empty xs), xs)
  end.

Fixpoint run {S} (step : S -> rb_op -> rb_ans * S) (s : S) (os : list rb_op) : list rb_ans :=
  match os with
  | [] => []
  | o :: os => let (a, s') := step s o in a :: run step s' os
  end.

Lemma rb_init_wf rb : length (queue rb) = 256%nat -> rb_wf (rb_init rb).
Proof. intros H. repeat split; simpl; lia || done. Qed.

Lemma rb_empty_items rb : rb_wf rb -> rb_is_empty rb = Spec.is_empty (items rb).
Proof.
  intros (Hq & Hh & Ht). unfold rb_is_empty. destruct (Z.eqb_spec (tail rb) (head rb)) as [E|E].
  - unfold items. by rewrite E, ring_items_empty.
  - unfold items. pose proof (length_ring_items (queue rb) (head rb) (tail rb) Hq) as Hl.
    destruct (ring_items _ _ _); [|done]. simpl in Hl. unfold u8 in Hl. zlia.
Qed.

Lemma rb_push_spec rb c :
  rb_wf rb ->
  let (b, rb') := rb_push rb c in
  rb_wf rb' /\ (b, items rb') = Spec.push (items rb) c.
Proof.
  intros (Hq & Hh & Ht). unfold rb_push, Spec.push.
  pose proof (length_ring_items (queue rb) (head rb) (tail rb) Hq) as Hl.
  change (ring_items _ _ _) with (items rb) in Hl. rewrite Hl.
  destruct (Z.eqb_spec (u8 (head rb + 1)) (tail rb)) as [E|E].
  - split; [done|]. zcase; [|done]. unfold Spec.capacity, u8 in *. zlia.
  - split; [repeat split; simpl; rewrite ?length_insert; unfold u8; (done || lia || zlia)|].
    zcase; [|unfold Spec.capacity, u8 in *; zlia].
    unfold items. simpl. by rewrite ring_items_push.
Qed.

Lemma rb_front rb :
  rb_wf rb -> rb_is_empty rb = false ->
  items rb = queue rb !!! Z.to_nat (tail rb) ::
             ring_items (queue rb) (head rb) (u8 (tail rb + 1)).
Proof.
  intros (Hq & Hh & Ht) E. unfold rb_is_empty in E. zcase_hyp E; [done|].
  apply ring_items_pop; [lia..|]. apply list_lookup_lookup_total_lt. lia.
Qed.

Lemma rb_pop_spec rb :
  rb_wf rb ->
  let (r, rb') := rb_pop rb in rb_wf rb' /\ (r, items rb') = Spec.pop (items rb).
Proof.
  intros Hwf. unfold rb_pop. destruct (rb_is_empty rb) eqn:E.
  - split; [done|]. rewrite rb_empty_items in E by done. by destruct (items rb).
  - rewrite (rb_front rb Hwf E). split; [|done].
    destruct Hwf as (Hq & Hh & Ht). repeat split; simpl; unfold u8; (done || lia || zlia).
Qed.

Lemma rb_peek_spec rb : rb_wf rb -> rb_peek rb = Spec.peek (items rb).
Proof.
  intros Hwf. unfold rb_peek. destruct (rb_is_empty rb) eqn:E.
  - rewrite rb_empty_items in E by done. by destruct (items rb).
  - by rewrite (rb_front rb Hwf E).
Qed.

Lemma rb_run_spec os rb : rb_wf rb -> run rb_step rb os = run spec_step (items rb) os.
Proof.
  revert rb. induction os as [|o os IH]; intros rb Hwf; [done|].
  destruct o; simpl.
  - pose proof (rb_push_spec rb c Hwf) as H. destruct (rb_push rb c) as [b rb'].
    destruct H as [Hwf' <-]. by rewrite IH.
  - pose proof (rb_pop_spec rb Hwf) as H. destruct (rb_pop rb) as [r rb'].
    destruct H as [Hwf' <-]. by rewrite IH.
  - by rewrite rb_peek_spec, IH.
  - by rewrite rb_empty_items, IH.
Qed.

(** C33. After [rb_init], every sequence of pushes, pops, peeks and emptiness
    tests on the keyboard's ring buffer is answered exactly as a first-in
    first-out queue of capacity 255 answers it, whatever the array held
    before. *)
Theorem rb_refines_fifo (rb : ringBuffer) (os : list rb_op) :
  length (queue rb) = 256%nat -> run rb_step (rb_init rb) os = run spec_step [] os.
Proof.
  intros H. rewrite rb_run_spec by by apply rb_init_wf.
  unfold items. simpl. by rewrite ring_items_empty.
Qed.

Lemma rb_refines_fifo_witness :
  run rb_step (rb_init (mkRb (replicate 256 7) 3 9)) [Push 65; Push 66; Peek; Pop; Pop; Pop] =
  [ABool true; ABool true; AByte (Some 65); AByte (Some 65); AByte (Some 66); AByte None].
Proof.
  rewrite (rb_refines_fifo (mkRb (replicate 256 7) 3 9)); reflexivity.
Defined.

End RingBuffer.

(** ** kernel/process/queue/processQueue.c *)

Module PQueue.

(** The file's statics.  An element is a [Process *]; [0] is [NULL]. *)
Record pqueue : Type := mkPq {
  queue : list Z;
  head : Z;
  tail : Z
}.

Definition pqueue_init (q : pqueue) : pqueue := mkPq (queue q) 0 0.

Definition pqueue_is_empty (q : pqueue) : bool :=
  if head q =? tail q then true else false.

Definition pqueue_pop (q : pqueue) : Z * pqueue :=
  if pqueue_is_empty q then (0, q)
  else
    let temp := tail q in
    (queue q !!! Z.to_nat temp, mkPq (queue q) (head q) (u8 (tail q + 1))).

Definition pqueue_peek (q : pqueue) : Z :=
  if pqueue_is_empty q then 0 else queue q !!! Z.to_nat (tail q).

Definition pqueue_push (q : pqueue) (p : Z) : bool * pqueue :=
  let next := u8 (head q + 1) in
  if next =? tail q then (false, q)
  else (true, mkPq (<[Z.to_nat (head q) := p]> (queue q)) next (tail q)).

Definition pqueue_size (q : pqueue) : Z := u8 (head q - tail q).

Definition pq_wf (q : pqueue) : Prop :=
  length (queue q) = 256%nat /\ 0 <= head q < 256 /\ 0 <= tail q < 256.

Definition items (q : pqueue) : list Z := ring_items (queue q) (head q) (tail q).

Lemma pq_init_items q :
  length (queue q) = 256%nat -> pq_wf (pqueue_init q) /\ items (pqueue_init q) = [].
Proof. intros H. split; [repeat split; simpl; lia || done|]. apply ring_items_empty. Qed.

Lemma pq_size_items q : pq_wf q -> pqueue_size q = Z.of_nat (length (items q)).
Proof.
  intros (Hq & _). unfold items. rewrite length_ring_items by done.
  unfold pqueue_size, u8. zlia.
Qed.

Lemma pq_empty_items q : pq_wf q -> pqueue_is_empty q = Spec.is_empty (items q).
Proof.
  intros Hwf. pose proof (pq_size_items q Hwf) as Hs. destruct Hwf as (Hq & Hh & Ht).
  unfold pqueue_is_empty. destruct (Z.eqb_spec (head q) (tail q)) as [E|E].
  - unfold items. by rewrite E, ring_items_empty.
  - destruct (items q); [|done]. simpl in Hs. unfold pqueue_size, u8 in Hs. zlia.
Qed.

Lemma pq_push_spec q p :
  pq_wf q ->
  pq_wf (pqueue_push q p).2 /\
  ((pqueue_push q p).1, items (pqueue_push q p).2) = Spec.push (items q) p.
Proof.
  intros Hwf. pose proof (pq_size_items q Hwf) as Hs. destruct Hwf as (Hq & Hh & Ht).
  unfold pqueue_push, Spec.push, pqueue_size in *.
  destruct (Z.eqb_spec (u8 (head q + 1)) (tail q)) as [E|E]; simpl.
  - split; [done|]. zcase; [|done]. unfold Spec.capacity, u8 in *. zlia.
  - split; [repeat split; simpl; rewrite ?length_insert; unfold u8; (done || lia || zlia)|].
    zcase; [|unfold Spec.capacity, u8 in *; zlia].
    unfold items. simpl. by rewrite ring_items_push.
Qed.

Lemma pq_pop_spec q :
  pq_wf q ->
  pq_wf (pqueue_pop q).2 /\
  items (pqueue_pop q).2 = (Spec.pop (items q)).2 /\
  (pqueue_pop q).1 = default 0 (Spec.pop (items q)).1 /\
  pqueue_peek q = default 0 (Spec.peek (items q)).
Proof.
  intros Hwf. pose proof (pq_empty_items q Hwf) as He. unfold pqueue_pop, pqueue_peek.
  destruct (pqueue_is_empty q) eqn:E; simpl.
  - by destruct (items q).
  - destruct Hwf as (Hq & Hh & Ht). unfold pqueue_is_empty in E. zcase_hyp E; [done|].
    assert (items q = queue q !!! Z.to_nat (tail q) ::
              ring_items (queue q) (head q) (u8 (tail q + 1))) as ->.
    { apply ring_items_pop; [lia..|]. apply list_lookup_lookup_total_lt. lia. }
    repeat split; simpl; unfold u8; (done || lia || zlia).
Qed.

End PQueue.
