(* ===== verification/Longops.v ===== *)
(** * 64-bit division for the 32-bit target: etc/lib/longops/longops.c

    [gcc -m32] compiles a 64-bit [/] or [%] into a call of [__udivdi3] or
    [__umoddi3]; the repository supplies them with a restoring shift-subtract
    loop. *)
From S2P Require Import Prelude.

(** One iteration of the loop: the state is [(n, q, r)]. *)
Definition udivmod_step (d : Z) (st : Z * Z * Z) : Z * Z * Z :=
  let '(n, q, r) := st in
  let r := Z.lor (u64 (Z.shiftl r 1)) (Z.shiftr n 63) in
  let n := u64 (Z.shiftl n 1) in
  let q := u64 (Z.shiftl q 1) in
  if d <=? r then (n, Z.lor q 1, u64 (r - d)) else (n, q, r).

(** [None] is the forced divide error for [d == 0]; otherwise the quotient and
    the value stored through [rem] when it is not [NULL]. *)
Definition udivmoddi4 (n d : Z) : option (Z * Z) :=
  if d =? 0 then None
  else
    let '(_, q, r) := for_range 64 0 (fun _ => udivmod_step d) (n, 0, 0) in
    Some (q, r).

Definition udivdi3 (n d : Z) : option Z := fst <$> udivmoddi4 n d.
Definition umoddi3 (n d : Z) : option Z := snd <$> udivmoddi4 n d.

(** After [i] iterations the top [i] bits of the dividend have been divided. *)
Definition udivmod_inv (n0 d i : Z) (st : Z * Z * Z) : Prop :=
  let '(n, q, r) := st in
  n = u64 (n0 * 2 ^ i) /\
  q = n0 / 2 ^ (64 - i) / d /\ r = (n0 / 2 ^ (64 - i)) mod d.

Lemma lor_low a b : 0 <= a -> 0 <= b < 2 -> Z.lor (2 * a) b = 2 * a + b.
Proof.
  intros Ha Hb. assert (b = 0 \/ b = 1) as [E|E] by lia; subst b.
  - by rewrite Z.lor_0_r, Z.add_0_r.
  - by destruct a as [|p|p].
Qed.

(** The bit shifted out of the dividend is the next bit of the prefix. *)
Lemma shifted_out_bit n0 i :
  is_u64 n0 -> 0 <= i < 64 ->
  Z.shiftr (u64 (n0 * 2 ^ i)) 63 = (n0 / 2 ^ (63 - i)) mod 2.
Proof.
  intros Hn Hi. unfold u64. rewrite Z.shiftr_div_pow2 by lia.
  set (P := 2 ^ (63 - i)). assert (0 < P) by (apply Z.pow_pos_nonneg; lia).
  assert (0 < 2 ^ i) by (apply Z.pow_pos_nonneg; lia).
  replace 18446744073709551616 with ((P * 2) * 2 ^ i).
  2: { unfold P. replace (2 ^ (63 - i) * 2 * 2 ^ i) with (2 ^ (63 - i) * 2 ^ i * 2) by lia.
       rewrite <- Z.pow_add_r by lia. by replace (63 - i + i) with 63 by lia. }
  replace (2 ^ 63) with (P * 2 ^ i) by (unfold P; rewrite <- Z.pow_add_r by lia; f_equal; lia).
  rewrite Z.mul_mod_distr_r, Z.div_mul_cancel_r by lia.
  rewrite Z.rem_mul_r by lia.
  rewrite (Z.mul_comm P), Z.div_add by lia.
  rewrite (Z.div_small (n0 mod P)) by (apply Z.mod_pos_bound; lia). lia.
Qed.

Lemma udivmod_step_inv n0 d i st :
  is_u64 n0 -> 0 < d -> 0 <= i < 64 ->
  udivmod_inv n0 d i st -> udivmod_inv n0 d (i + 1) (udivmod_step d st).
Proof.
  destruct st as [[n q] r]. intros Hn Hd Hi (En & Eq & Er).
  pose proof (shifted_out_bit n0 i Hn Hi) as Hbit. unfold is_u64 in Hn.
  unfold udivmod_inv, udivmod_step.
  set (m := n0 / 2 ^ (64 - i)) in *. set (m' := n0 / 2 ^ (63 - i)) in *.
  replace (64 - (i + 1)) with (63 - i) by lia. fold m'.
  assert (0 < 2 ^ (63 - i)) by (apply Z.pow_pos_nonneg; lia).
  assert (m = m' / 2) as Hm.
  { unfold m, m'. rewrite Z.div_div by lia. f_equal.
    rewrite Z.mul_comm, <- Z.pow_succ_r by lia. f_equal. lia. }
  assert (0 <= m' < 2 ^ 64) as Hm'.
  { unfold m'. split; [apply Z.div_pos; lia|]. apply Z.div_lt_upper_bound; nia. }
  change (2 ^ 64) with 18446744073709551616 in Hm'.
  rewrite <- En in Hbit. rewrite Hbit. set (b := m' mod 2) in *.
  assert (m' = 2 * m + b /\ 0 <= b < 2) as [Hmb Hb] by (unfold b; zlia).
  assert (0 <= r <= m) as Hr by (subst r; split; [apply Z.mod_pos_bound; lia|apply Z.mod_le; lia]).
  assert (0 <= q <= m) as Hq by (subst q; split; [apply Z.div_pos; lia|apply Z.div_le_upper_bound; nia]).
  assert (m = d * q + r) as Hdm by (subst q r; apply Z.div_mod; lia).
  assert (r < d) as Hrd by (subst r; apply Z.mod_pos_bound; lia).
  assert (u64 (Z.shiftl n 1) = u64 (n0 * 2 ^ (i + 1))) as Hn1.
  { rewrite Z.shiftl_mul_pow2 by lia. subst n. unfold u64.
    rewrite Zmult_mod_idemp_l. f_equal. rewrite Z.pow_add_r by lia. lia. }
  rewrite !Z.shiftl_mul_pow2 in * by lia. change (2 ^ 1) with 2 in *.
  rewrite Hn1. clear En Hn1 Hbit Eq Er.
  assert (u64 (r * 2) = 2 * r) as -> by (unfold u64; rewrite Z.mod_small; lia).
  assert (u64 (q * 2) = 2 * q) as -> by (unfold u64; rewrite Z.mod_small; lia).
  rewrite !lor_low by lia.
  destruct (Z.leb_spec d (2 * r + b)); (split; [done|]).
  - unfold u64. rewrite (Z.mod_small (2 * r + b - d)) by lia. split.
    + apply Z.div_unique with (2 * r + b - d); nia.
    + apply Z.mod_unique with (2 * q + 1); nia.
  - split.
    + apply Z.div_unique with (2 * r + b); nia.
    + apply Z.mod_unique with (2 * q); nia.
Qed.

Lemma udivmoddi4_correct n d :
  is_u64 n -> 0 < d -> udivmoddi4 n d = Some (n / d, n mod d).
Proof.
  intros Hn Hd. unfold udivmoddi4. zfalse (d =? 0).
  pose proof (for_range_ind (udivmod_inv n d) 64 0 (fun _ => udivmod_step d) (n, 0, 0)) as H.
  change (0 + Z.of_nat 64) with 64 in H.
  destruct (for_range _ _ _ _) as [[n' q] r].
  destruct H as (_ & -> & ->).
  - unfold udivmod_inv, is_u64 in *. change (2 ^ (64 - 0)) with 18446744073709551616.
    change (2 ^ 0) with 1. rewrite (Z.div_small n) by lia. unfold u64.
    rewrite Z.mul_1_r, Z.mod_small, Z.div_0_l, Z.mod_0_l by lia. done.
  - intros j b Hj. by apply udivmod_step_inv.
  - change (2 ^ (64 - 64)) with 1. by rewrite Z.div_1_r.
Qed.

(** The shift-subtract loop behind every 64-bit [/] and [%] of the kernel
    and of userland computes the exact quotient and remainder for every 64-bit
    dividend and every non-zero 64-bit divisor (no divisor is so large that the
    partial remainder overflows), and raises the divide error exactly for a
    zero divisor. *)
Theorem udivdi3_umoddi3_correct (n d : Z) :
  is_u64 n -> is_u64 d ->
  (d = 0 -> udivdi3 n d = None /\ umoddi3 n d = None) /\
  (d <> 0 -> udivdi3 n d = Some (n / d) /\ umoddi3 n d = Some (n mod d)).
Proof.
  intros Hn Hd. split.
  - intros ->. done.
  - intros Hne. unfold udivdi3, umoddi3.
    rewrite udivmoddi4_correct by (unfold is_u64 in *; lia || done). done.
Qed.

Lemma udivdi3_umoddi3_correct_witness :
  udivdi3 18446744073709551615 9223372036854775809 = Some 1 /\
  umoddi3 18446744073709551615 9223372036854775809 = Some 9223372036854775806.
Proof.
  apply (udivdi3_umoddi3_correct 18446744073709551615 9223372036854775809);
    unfold is_u64; lia.
Defined.
