(* ===== verification/CLib.v ===== *)
(** * The freestanding C library: etc/lib

    [min], [max], [strlen], [streq], [strcat], [strncat] and the [mem*]
    routines.  A [char *] is modelled by the list of bytes from the pointer to
    the end of the object it points into, so that a read or a write past the
    end is visible: such an access makes the result [None]. *)
From S2P Require Import Prelude Bytes.

(** ** min.c and max.c *)

Definition min (a b : Z) : Z := if a <? b then a else b.
Definition max (a b : Z) : Z := if b <? a then a else b.

Lemma min_spec a b : min a b = Z.min a b.
Proof. unfold min. zcase; lia. Qed.
Lemma max_spec a b : max a b = Z.max a b.
Proof. unfold max. zcase; lia. Qed.

(** ** C strings *)

(** The string a buffer holds: its bytes before the first NUL. *)
Fixpoint cstr (s : list Z) : option (list Z) :=
  match s with
  | [] => None
  | c :: s => if c =? 0 then Some [] else cons c <$> cstr s
  end.

Definition MAX_COMP_LEN : Z := 1000000000.

(** [while (i < MAX_COMP_LEN) { if (s[i] == 0) return i; i++; }] *)
Fixpoint strlen_from (i : Z) (s : list Z) : option Z :=
  if i <? MAX_COMP_LEN then
    match s with
    | [] => None
    | c :: s => if c =? 0 then Some i else strlen_from (u32 (i + 1)) s
    end
  else Some (MAX_COMP_LEN + 1).
Definition strlen (s : list Z) : option Z := strlen_from 0 s.

Fixpoint streq (a b : list Z) : option bool :=
  match a, b with
  | x :: a, y :: b =>
      if x =? y then (if x =? 0 then Some true else streq a b) else Some false
  | _, _ => None
  end.

(** [while (b[i] != 0) { a[a_len + i] = b[i]; i++; } a[a_len + i] = 0;] *)
Fixpoint strcat_loop (a b : list Z) (pos : Z) : option (list Z) :=
  match b with
  | [] => None
  | c :: b =>
      if pos <? Z.of_nat (length a) then
        let a' := <[Z.to_nat pos := c]> a in
        if c =? 0 then Some a' else strcat_loop a' b (u32 (pos + 1))
      else None
  end.
Definition strcat (a b : list Z) : option (list Z) :=
  a_len ← strlen a; strcat_loop a b a_len.

(** [Some None] is the return value [0]: nothing was appended. *)
Definition strncat (a b : list Z) (overflow : Z) : option (option (list Z)) :=
  a_len ← strlen a;
  b_len ← strlen b;
  if (overflow <=? a_len) || (overflow <=? u32 (a_len + b_len)) then Some None
  else Some <$> strcat a b.

Lemma cstr_split s x : cstr s = Some x -> exists t, s = x ++ 0 :: t /\ Forall (fun c => c <> 0) x.
Proof.
  revert x. induction s as [|c s IH]; intros x H; simpl in H; [done|].
  destruct (Z.eqb_spec c 0) as [->|Hc]; simplify_eq.
  - exists s. done.
  - destruct (cstr s) as [y|]; simplify_eq/=. destruct (IH y eq_refl) as (t & -> & Hy).
    exists t. split; [done|]. by constructor.
Qed.

Lemma cstr_app x t : Forall (fun c => c <> 0) x -> cstr (x ++ 0 :: t) = Some x.
Proof.
  induction 1 as [|c x Hc Hx IH]; simpl; [done|].
  rewrite (proj2 (Z.eqb_neq c 0)) by done. by rewrite IH.
Qed.

Lemma strlen_from_spec s x i :
  cstr s = Some x -> 0 <= i -> i + Z.of_nat (length x) < MAX_COMP_LEN ->
  strlen_from i s = Some (i + Z.of_nat (length x)).
Proof.
  revert x i. induction s as [|c s IH]; intros x i H Hi Hl; simpl in H; [done|].
  unfold strlen_from; fold strlen_from. unfold MAX_COMP_LEN in *.
  destruct (Z.eqb_spec c 0) as [->|Hc]; simplify_eq.
  - ztrue (i <? 1000000000). simpl. f_equal. lia.
  - destruct (cstr s) as [y|]; simplify_eq/=.
    ztrue (i <? 1000000000). unfold u32. rewrite Z.mod_small by lia.
    rewrite (IH y) by (done || lia). f_equal. lia.
Qed.

Lemma strlen_spec s x :
  cstr s = Some x -> Z.of_nat (length x) < MAX_COMP_LEN -> strlen s = Some (Z.of_nat (length x)).
Proof. intros H Hl. unfold strlen. by rewrite (strlen_from_spec s x). Qed.

Lemma streq_spec a b x y :
  cstr a = Some x -> cstr b = Some y -> streq a b = Some (bool_decide (x = y)).
Proof.
  revert b x y. induction a as [|c a IH]; intros b x y Ha Hb; [done|].
  destruct b as [|d b]; [done|]. simpl in *.
  destruct (Z.eqb_spec c 0) as [->|Hc], (Z.eqb_spec d 0) as [->|Hd]; simplify_eq/=.
  - done.
  - destruct (cstr b); simplify_eq/=. destruct d; done.
  - destruct (cstr a); simplify_eq/=. rewrite (proj2 (Z.eqb_neq c 0)) by done. done.
  - destruct (cstr a) as [x'|] eqn:Ea, (cstr b) as [y'|] eqn:Eb; simplify_eq/=.
    destruct (Z.eqb_spec c d) as [->|Hne].
    + rewrite (IH b x' y') by done.
      f_equal. apply bool_decide_ext. naive_solver.
    + f_equal. symmetry. apply bool_decide_false. naive_solver.
Qed.

Lemma strcat_loop_spec a b y pos pre t :
  cstr b = Some y -> a = pre ++ t -> Z.of_nat (length pre) = pos ->
  (length y < length t)%nat -> Z.of_nat (length a) < 4294967296 ->
  strcat_loop a b pos = Some (pre ++ y ++ 0 :: drop (S (length y)) t).
Proof.
  revert a y pos pre t. induction b as [|c b IH]; intros a y pos pre t Hb -> Hp Hl Ha; [done|].
  simpl in *. destruct t as [|t0 t]; [simpl in Hl; lia|].
  rewrite length_app, length_cons in *.
  destruct (Z.ltb_spec pos (Z.of_nat (length pre + S (length t)))) as [_|Hge]; [|lia].
  replace (Z.to_nat pos) with (length pre + 0)%nat by lia. rewrite insert_app_r. simpl.
  destruct (Z.eqb_spec c 0) as [->|Hc]; simplify_eq.
  - by rewrite drop_0.
  - destruct (cstr b) as [y'|]; simplify_eq/=.
    replace (pre ++ c :: t) with ((pre ++ [c]) ++ t) by by rewrite <- app_assoc.
    rewrite (IH _ y' _ (pre ++ [c]) t); rewrite ?length_app; simpl;
      try (done || lia || (unfold u32; rewrite ?Z.mod_small; lia)).
    by rewrite <- !app_assoc.
Qed.

Lemma strcat_spec a b x y :
  cstr a = Some x -> cstr b = Some y ->
  (length x + length y < length a)%nat -> Z.of_nat (length a) < MAX_COMP_LEN ->
  exists a', strcat a b = Some a' /\ cstr a' = Some (x ++ y) /\ length a' = length a.
Proof.
  intros Ha Hb Hl Hm. unfold MAX_COMP_LEN in *. unfold strcat.
  rewrite (strlen_spec a x) by (unfold MAX_COMP_LEN; done || lia). simpl.
  destruct (cstr_split a x Ha) as (t & Et & Hx).
  destruct (cstr_split b y Hb) as (tb & Etb & Hy).
  assert (length a = length x + S (length t))%nat as Hla by (by rewrite Et, length_app).
  rewrite (strcat_loop_spec a b y _ x (0 :: t)); simpl; try (done || lia).
  eexists. split; [done|]. split.
  - rewrite app_assoc. apply cstr_app. by apply Forall_app.
  - rewrite !length_app, length_cons, length_drop. lia.
Qed.

(** [strncat] never writes outside a destination of at least [overflow]
    bytes: it refuses (returning 0) exactly when the two strings and the
    terminator do not fit in [overflow] bytes, and otherwise leaves the
    concatenated string in the destination. *)
Theorem strncat_correct (a b x y : list Z) (overflow : Z) :
  cstr a = Some x -> cstr b = Some y ->
  0 <= overflow <= Z.of_nat (length a) -> Z.of_nat (length a) < MAX_COMP_LEN ->
  Z.of_nat (length y) < MAX_COMP_LEN ->
  if Z.of_nat (length x + length y) <? overflow then
    exists a', strncat a b overflow = Some (Some a') /\
               cstr a' = Some (x ++ y) /\ length a' = length a
  else strncat a b overflow = Some None.
Proof.
  intros Ha Hb Ho Hm Hy. unfold MAX_COMP_LEN in *. unfold strncat.
  destruct (cstr_split a x Ha) as (t & Et & _).
  assert (length a = length x + S (length t))%nat as Hla by (by rewrite Et, length_app).
  rewrite (strlen_spec a x), (strlen_spec b y) by (unfold MAX_COMP_LEN; done || lia). simpl.
  unfold u32. rewrite Z.mod_small by lia. zcase.
  - zfalse (overflow <=? Z.of_nat (length x)).
    zfalse (overflow <=? Z.of_nat (length x) + Z.of_nat (length y)). simpl.
    destruct (strcat_spec a b x y) as (a' & -> & Hc & Hl); try (done || lia).
    exists a'. done.
  - zcase; [done|]. simpl. ztrue (overflow <=? Z.of_nat (length x) + Z.of_nat (length y)). done.
Qed.

(** The shell's [umount] builds "/mnt/<label>" in a 32-byte buffer. *)
Lemma strncat_correct_witness :
  exists a', strncat ([47; 109; 110; 116; 47] ++ replicate 27 0) [117; 115; 98; 0] 32 = Some (Some a')
             /\ cstr a' = Some [47; 109; 110; 116; 47; 117; 115; 98] /\ length a' = 32%nat.
Proof.
  apply (strncat_correct ([47; 109; 110; 116; 47] ++ replicate 27 0) [117; 115; 98; 0]
           [47; 109; 110; 116; 47] [117; 115; 98] 32);
    unfold MAX_COMP_LEN; simpl; (reflexivity || lia).
Defined.

(** ** mem.c *)

(** Byte-addressed memory.  The pointers a caller passes stay inside one
    object, so addresses do not wrap. *)
Module Mem.

Definition memory : Type := Z -> Z.

Definition store (m : memory) (a v : Z) : memory := fun x => if x =? a then v else m x.

(** One [movs] of [k] bytes: the bytes are loaded before any is stored. *)
Definition movs (k : Z) (m : memory) (d s : Z) : memory :=
  fun x => if (d <=? x) && (x <? d + k) then m (s + (x - d)) else m x.

(** [rep movs] with the direction flag clear ([step] positive) or set. *)
Fixpoint rep_movs (count : nat) (k step : Z) (m : memory) (d s : Z) : memory * Z * Z :=
  match count with
  | O => (m, d, s)
  | S c => rep_movs c k step (movs k m d s) (d + step) (s + step)
  end.

Fixpoint rep_stos (count : nat) (k : Z) (v : Z -> Z) (m : memory) (d : Z) : memory * Z :=
  match count with
  | O => (m, d)
  | S c => rep_stos c k v
             (fun x => if (d <=? x) && (x <? d + k) then v (x - d) else m x) (d + k)
  end.

Definition copy_fwd (m : memory) (dst src n : Z) : memory :=
  let dwords := Z.shiftr n 2 in
  let bytes := Z.land n 3 in
  let '(m1, d1, s1) := rep_movs (Z.to_nat dwords) 4 4 m dst src in
  let '(m2, _, _) := rep_movs (Z.to_nat bytes) 1 1 m1 d1 s1 in
  m2.

Definition copy_bwd (m : memory) (dst src n : Z) : memory :=
  if (n =? 0) || (dst =? src) then m
  else
    let '(m1, _, _) := rep_movs (Z.to_nat n) 1 (-1) m (dst + n - 1) (src + n - 1) in
    m1.

Definition memcpy (m : memory) (dst src n : Z) : memory := copy_fwd m dst src n.

Definition memmove (m : memory) (dst src n : Z) : memory :=
  if dst <? src then copy_fwd m dst src n else copy_bwd m dst src n.

(** [word = (uint8_t)c * 0x01010101u]; [stosl] stores its four bytes. *)
Definition memset (m : memory) (dst c n : Z) : memory :=
  let word := u32 (u8 c * 16843009) in
  let dwords := Z.shiftr n 2 in
  let bytes := Z.land n 3 in
  let byte_of := fun i => u8 (Z.shiftr word (8 * i)) in
  let (m1, d1) := rep_stos (Z.to_nat dwords) 4 byte_of m dst in
  fst (rep_stos (Z.to_nat bytes) 1 byte_of m1 d1).

(** [for (w = 0; w < n; w++) if (lhs[w] != rhs[w]) return lhs[w] - rhs[w];] *)
Fixpoint memcmp_from (m : memory) (a b : Z) (count : nat) : Z :=
  match count with
  | O => 0
  | S c => if negb (m a =? m b) then m a - m b else memcmp_from m (a + 1) (b + 1) c
  end.
Definition memcmp (m : memory) (a b n : Z) : Z := memcmp_from m a b (Z.to_nat n).

(** The memory in which [n] bytes at [dst] are the bytes [m] had at [src]. *)
Definition copied (m : memory) (dst src n : Z) (x : Z) : Z :=
  if (dst <=? x) && (x <? dst + n) then m (src + (x - dst)) else m x.

(** A forward run of copies is one block copy when the destination is below
    the source or does not meet it. *)
Lemma rep_movs_fwd c k m d s :
  0 < k -> d <= s \/ s + k * Z.of_nat c <= d ->
  exists m', rep_movs c k k m d s = (m', d + k * Z.of_nat c, s + k * Z.of_nat c)
             /\ forall x, m' x = copied m d s (k * Z.of_nat c) x.
Proof.
  intros Hk. revert m d s. induction c as [|c IH]; intros m d s Hds; simpl rep_movs.
  - exists m. split; [pair_eq; done || lia|]. intros x. unfold copied.
    destruct (Z.leb_spec d x), (Z.ltb_spec x (d + k * Z.of_nat 0)); simpl; (done || lia).
  - destruct (IH (movs k m d s) (d + k) (s + k) ltac:(nia)) as (m' & -> & Hm').
    exists m'. split; [pair_eq; done || nia|]. intros x. rewrite Hm'. unfold copied, movs.
    assert (0 <= k * Z.of_nat c) by nia.
    replace (k * Z.of_nat (S c)) with (k + k * Z.of_nat c) by nia.
    assert (s + k + (k * Z.of_nat c) <= d \/ d <= s) by nia.
    set (n := k * Z.of_nat c) in *. clearbody n.
    replace (s + k + (x - (d + k))) with (s + (x - d)) by lia.
    repeat (zcase; simpl; try lia); try done; f_equal; lia.
Qed.

(** A backward run when the destination is above the source. *)
Lemma rep_movs_bwd c m d s :
  s < d -> exists m', rep_movs c 1 (-1) m d s = (m', d - Z.of_nat c, s - Z.of_nat c)
             /\ forall x, m' x = copied m (d - Z.of_nat c + 1) (s - Z.of_nat c + 1) (Z.of_nat c) x.
Proof.
  revert m d s. induction c as [|c IH]; intros m d s Hds; simpl rep_movs.
  - exists m. split; [pair_eq; done || lia|]. intros x. unfold copied.
    repeat (zcase; simpl; try lia); done.
  - destruct (IH (movs 1 m d s) (d + -1) (s + -1) ltac:(lia)) as (m' & -> & Hm').
    exists m'. split; [pair_eq; done || lia|]. intros x. rewrite Hm'. unfold copied, movs.
    repeat (zcase; simpl; try lia); try done; f_equal; lia.
Qed.

Lemma split4 n : 0 <= n -> 4 * Z.shiftr n 2 + Z.land n 3 = n /\ 0 <= Z.shiftr n 2 /\ 0 <= Z.land n 3.
Proof.
  intros Hn. rewrite Z.shiftr_div_pow2 by lia. change 3 with (Z.ones 2).
  rewrite Z.land_ones by lia. change (2 ^ 2) with 4. zlia.
Qed.

Lemma copy_fwd_spec m dst src n x :
  0 <= n -> dst <= src \/ src + n <= dst -> copy_fwd m dst src n x = copied m dst src n x.
Proof.
  intros Hn Hds. destruct (split4 n Hn) as (E & H1 & H2). unfold copy_fwd.
  destruct (rep_movs_fwd (Z.to_nat (Z.shiftr n 2)) 4 m dst src) as (m1 & -> & Hm1); [lia..|].
  rewrite Z2Nat.id in * by lia.
  destruct (rep_movs_fwd (Z.to_nat (Z.land n 3)) 1 m1 (dst + 4 * Z.shiftr n 2)
              (src + 4 * Z.shiftr n 2)) as (m2 & -> & Hm2); [lia..|].
  rewrite Z2Nat.id in * by lia. rewrite Hm2. unfold copied. rewrite !Hm1. unfold copied.
  repeat (zcase; simpl; try lia); try done; f_equal; lia.
Qed.

Lemma copy_bwd_spec m dst src n x :
  0 <= n -> src <= dst -> copy_bwd m dst src n x = copied m dst src n x.
Proof.
  intros Hn Hds. unfold copy_bwd.
  destruct (Z.eqb_spec n 0) as [->|Hn0]; simpl.
  { unfold copied. repeat (zcase; simpl; try lia); done. }
  destruct (Z.eqb_spec dst src) as [->|Hne]; simpl.
  { unfold copied. repeat (zcase; simpl; try lia); try done. f_equal. lia. }
  destruct (rep_movs_bwd (Z.to_nat n) m (dst + n - 1) (src + n - 1)) as (m1 & -> & Hm1); [lia|].
  rewrite Z2Nat.id in * by lia. rewrite Hm1. f_equal; lia.
Qed.

(** [memmove] moves [n] bytes for every placement of the two regions: each
    destination byte is the byte the source held before the call, whatever the
    overlap, and no other byte changes; [memcpy] does the same when the regions
    do not overlap.  (The copy runs upwards by double words below the source
    and downwards by bytes above it.) *)
Theorem memmove_correct (m : memory) (dst src n x : Z) :
  0 <= n ->
  memmove m dst src n x = copied m dst src n x /\
  (src + n <= dst \/ dst + n <= src -> memcpy m dst src n x = copied m dst src n x).
Proof.
  intros Hn. split.
  - unfold memmove. destruct (Z.ltb_spec dst src).
    + apply copy_fwd_spec; lia.
    + apply copy_bwd_spec; lia.
  - intros Hd. apply copy_fwd_spec; lia.
Qed.

(** Seven bytes moved up by two, over themselves. *)
Lemma memmove_correct_witness :
  memmove (fun x => x) 102 100 7 105 = copied (fun x => x) 102 100 7 105
  /\ copied (fun x => x) 102 100 7 105 = 103.
Proof.
  split; [|reflexivity].
  exact (proj1 (memmove_correct (fun x => x) 102 100 7 105 ltac:(lia))).
Defined.

Lemma rep_stos_spec c k v m d :
  0 < k -> (forall i, 0 <= i < k -> v i = v 0) ->
  exists m', rep_stos c k v m d = (m', d + k * Z.of_nat c) /\
    forall x, m' x = if (d <=? x) && (x <? d + k * Z.of_nat c) then v 0 else m x.
Proof.
  intros Hk Hv. revert m d. induction c as [|c IH]; intros m d; simpl rep_stos.
  - exists m. split; [f_equal; lia|]. intros x. repeat (zcase; simpl; try lia); done.
  - edestruct IH as (m' & -> & Hm'). exists m'. split; [f_equal; nia|].
    intros x. rewrite Hm'. assert (0 <= k * Z.of_nat c) by nia.
    replace (k * Z.of_nat (S c)) with (k + k * Z.of_nat c) by nia.
    set (n := k * Z.of_nat c) in *. clearbody n.
    repeat (zcase; simpl; try lia); try done; apply Hv; lia.
Qed.

Lemma memset_byte c i : 0 <= i < 4 -> u8 (Z.shiftr (u32 (u8 c * 16843009)) (8 * i)) = u8 c.
Proof.
  intros Hi. rewrite Z.shiftr_div_pow2 by lia. unfold u32, u8.
  assert (i = 0 \/ i = 1 \/ i = 2 \/ i = 3) as [-> | [-> | [-> | ->]]] by lia;
    rewrite (Z.mod_small (_ * _)) by zlia; simpl; zlia.
Qed.

Lemma memset_spec m dst c n x :
  0 <= n ->
  memset m dst c n x = if (dst <=? x) && (x <? dst + n) then u8 c else m x.
Proof.
  intros Hn. destruct (split4 n Hn) as (E & H1 & H2). unfold memset.
  set (v := fun i => _).
  assert (forall i, 0 <= i < 4 -> v i = u8 c) as Hv by (intros i Hi; by apply memset_byte).
  destruct (rep_stos_spec (Z.to_nat (Z.shiftr n 2)) 4 v m dst) as (m1 & -> & Hm1); [lia| |].
  { intros i Hi. by rewrite !Hv by lia. }
  rewrite Z2Nat.id in * by lia.
  destruct (rep_stos_spec (Z.to_nat (Z.land n 3)) 1 v m1 (dst + 4 * Z.shiftr n 2))
    as (m2 & -> & Hm2); [lia| |].
  { intros i Hi. by rewrite !Hv by lia. }
  rewrite Z2Nat.id in * by lia. simpl. rewrite Hm2, Hm1, Hv by lia.
  repeat (zcase; simpl; try lia); done.
Qed.

Lemma memcmp_zero m a b n :
  0 <= n -> memcmp m a b n = 0 <-> (forall i, 0 <= i < n -> m (a + i) = m (b + i)).
Proof.
  intros Hn. unfold memcmp. pose proof (Z2Nat.id n Hn) as E. revert E.
  generalize (Z.to_nat n). intros c <-. clear Hn. revert a b. induction c as [|c IH]; intros a b; simpl.
  - split; [lia|done].
  - destruct (Z.eqb_spec (m a) (m b)) as [E|E]; simpl.
    + rewrite IH. split; intros H i Hi.
      * destruct (Z.eq_dec i 0) as [->|]; [by rewrite !Z.add_0_r|].
        replace (a + i) with (a + 1 + (i - 1)) by lia.
        replace (b + i) with (b + 1 + (i - 1)) by lia. apply H. lia.
      * replace (a + 1 + i) with (a + (i + 1)) by lia.
        replace (b + 1 + i) with (b + (i + 1)) by lia. apply H. lia.
    + split; [lia|]. intros H. specialize (H 0 ltac:(lia)). by rewrite !Z.add_0_r in H.
Qed.

End Mem.
