(* ===== verification/Dates.v ===== *)
(** * Dates: the real-time clock and the calendar

    [epoch_to_date] (etc/lib/epochToDate/epochToDate.c) turns milliseconds
    since 1970 into a calendar date; the timer driver
    (kernel/drivers/timer/timerController.c) reads a date from the RTC at boot,
    turns it into seconds since 1970 and then counts PIT ticks.  [civil] is the
    proleptic Gregorian calendar both are measured against. *)
From S2P Require Import Prelude.

(** ** epochToDate.c *)

(** The static table the function increments and decrements. *)
Definition days_per_month : list Z := [31; 28; 31; 30; 31; 30; 31; 31; 30; 31; 30; 31].

Definition is_leap_year (year : Z) : bool :=
  if (year mod 4 =? 0) && (negb (year mod 100 =? 0) || (year mod 400 =? 0)) then true else false.

Record date : Type := mkDate {
  year : Z; month : Z; day : Z; hour : Z; minute : Z; second : Z; millisecond : Z
}.

#[global] Instance date_eq_dec : EqDecision date.
Proof. solve_decision. Defined.

(** [for (;;)]: leave with the year and the day within it. *)
Fixpoint year_loop (fuel : nat) (year day_of_epoch : Z) : option (Z * Z) :=
  let days_in_year := if is_leap_year year then 366 else 365 in
  if day_of_epoch <? days_in_year then Some (year, day_of_epoch)
  else match fuel with
       | O => None
       | S fuel => year_loop fuel (u64 (year + 1)) (day_of_epoch - days_in_year)
       end.

(** [while (day_of_epoch >= days_per_month[month - 1])]; [None] would be a read
    past the end of the table. *)
Fixpoint month_loop (dpm : list Z) (month day_of_epoch : Z) : option (Z * Z) :=
  match dpm with
  | [] => None
  | n :: dpm =>
      if n <=? day_of_epoch then month_loop dpm (month + 1) (day_of_epoch - n)
      else Some (month, day_of_epoch)
  end.

(** The table is a static array: it comes in and goes out with the date. *)
Definition epoch_to_date (dpm : list Z) (epoch : Z) : option (date * list Z) :=
  let millisecond := epoch mod 1000 in
  let epoch := epoch / 1000 in
  let second := epoch mod 60 in
  let epoch := epoch / 60 in
  let minute := epoch mod 60 in
  let epoch := epoch / 60 in
  let hour := epoch mod 24 in
  let day_of_epoch := epoch / 24 in
  '(year, day_of_epoch) ← year_loop (Z.to_nat (day_of_epoch / 365)) 1970 day_of_epoch;
  let leap := is_leap_year year in
  let dpm := if leap then alter (fun d => u32 (d + 1)) 1%nat dpm else dpm in
  '(month, day_of_epoch) ← month_loop dpm 1 day_of_epoch;
  let dpm := if leap then alter (fun d => u32 (d - 1)) 1%nat dpm else dpm in
  Some (mkDate year month (day_of_epoch + 1) hour minute second millisecond, dpm).

(** ** The calendar *)

Definition year_length (y : Z) : Z := if is_leap_year y then 366 else 365.

(** Days from 1 January 1970 to 1 January of year [1970 + n]. *)
Fixpoint days_to_year (n : nat) : Z :=
  match n with
  | O => 0
  | S n => days_to_year n + year_length (1970 + Z.of_nat n)
  end.

Definition month_length (y m : Z) : Z :=
  if (m =? 2) && is_leap_year y then 29 else days_per_month !!! Z.to_nat (m - 1).

Fixpoint days_to_month (y : Z) (n : nat) : Z :=
  match n with
  | O => 0
  | S n => days_to_month y n + month_length y (1 + Z.of_nat n)
  end.

Definition civil_days (d : date) : Z :=
  days_to_year (Z.to_nat (year d - 1970)) +
  days_to_month (year d) (Z.to_nat (month d - 1)) + (day d - 1).

(** Milliseconds from the start of 1970 to [d]. *)
Definition civil_ms (d : date) : Z :=
  (((civil_days d * 24 + hour d) * 60 + minute d) * 60 + second d) * 1000 + millisecond d.

Definition valid_date (d : date) : Prop :=
  1970 <= year d /\ 1 <= month d <= 12 /\ 1 <= day d <= month_length (year d) (month d) /\
  0 <= hour d < 24 /\ 0 <= minute d < 60 /\ 0 <= second d < 60 /\ 0 <= millisecond d < 1000.

Lemma year_length_bounds y : 365 <= year_length y <= 366.
Proof. unfold year_length. destruct (is_leap_year y); lia. Qed.

Lemma days_to_year_lower n : 365 * Z.of_nat n <= days_to_year n.
Proof.
  induction n as [|n IH]; [done|].
  pose proof (year_length_bounds (1970 + Z.of_nat n)). simpl days_to_year. lia.
Qed.

Lemma year_loop_spec fuel k d :
  0 <= d -> d < 365 * (Z.of_nat fuel + 1) -> Z.of_nat k < 1000000000000 - Z.of_nat fuel ->
  exists k' d', year_loop fuel (1970 + Z.of_nat k) d = Some (1970 + Z.of_nat k', d') /\
    days_to_year k' + d' = days_to_year k + d /\
    0 <= d' < year_length (1970 + Z.of_nat k').
Proof.
  revert k d. induction fuel as [|fuel IH]; intros k d Hd Hf Hk;
    pose proof (year_length_bounds (1970 + Z.of_nat k)) as Hy; simpl year_loop;
    fold (year_length (1970 + Z.of_nat k));
    destruct (Z.ltb_spec d (year_length (1970 + Z.of_nat k))) as [Hlt|Hge];
    try (exists k, d; done); [lia|].
  destruct (IH (S k) (d - year_length (1970 + Z.of_nat k))) as (k' & d' & E & Hs & Hr); [lia..|].
  exists k', d'. replace (u64 (1970 + Z.of_nat k + 1)) with (1970 + Z.of_nat (S k));
    [|unfold u64; rewrite Z.mod_small; lia].
  rewrite E. split; [done|]. simpl days_to_year in Hs. split; [lia|done].
Qed.

(** The table as [epoch_to_date] leaves it while it runs, for a year [y]. *)
Definition table (y : Z) : list Z :=
  if is_leap_year y then alter (fun d => u32 (d + 1)) 1%nat days_per_month else days_per_month.

(** Days before each month of a common and of a leap year. *)
Definition month_starts (leap : bool) : list Z :=
  if leap then [0; 31; 60; 91; 121; 152; 182; 213; 244; 274; 305; 335]
  else [0; 31; 59; 90; 120; 151; 181; 212; 243; 273; 304; 334].

Lemma days_to_month_spec y n :
  (n < 12)%nat -> days_to_month y n = month_starts (is_leap_year y) !!! n.
Proof.
  intros Hn. destruct (is_leap_year y) eqn:E;
    do 12 (destruct n as [|n]; [unfold days_to_month, month_length; rewrite ?E; reflexivity|]); lia.
Qed.

Lemma month_loop_spec y d :
  0 <= d < year_length y ->
  exists m' d', month_loop (table y) 1 d = Some (m', d') /\ 1 <= m' <= 12 /\
    days_to_month y (Z.to_nat (m' - 1)) + d' = d /\ 0 <= d' < month_length y m'.
Proof.
  unfold year_length, table. intros Hd.
  assert (exists m' d',
    month_loop (if is_leap_year y then alter (fun d => u32 (d + 1)) 1%nat days_per_month
                else days_per_month) 1 d = Some (m', d') /\ 1 <= m' <= 12 /\
    month_starts (is_leap_year y) !!! Z.to_nat (m' - 1) + d' = d /\
    0 <= d' < (if (m' =? 2) && is_leap_year y then 29
               else days_per_month !!! Z.to_nat (m' - 1))) as (m & d' & ? & ? & ? & ?).
  - destruct (is_leap_year y); cbn -[Z.sub Z.add Z.le Z.lt]; change (u32 (28 + 1)) with 29;
      repeat match goal with |- context [?a <=? ?b] => destruct (Z.leb_spec a b) end;
      try (exfalso; lia);
      eexists _, _; (split; [reflexivity|]); (split; [lia|]);
      match goal with |- ?l !!! ?n + _ = _ /\ _ =>
        let v := eval vm_compute in (l !!! n) in change (l !!! n) with v end;
      match goal with |- _ /\ _ <= _ < ?e => let v := eval vm_compute in e in change e with v end;
      lia.
  - exists m, d'. rewrite days_to_month_spec by lia. done.
Qed.

Lemma table_restored y :
  (if is_leap_year y then alter (fun d => u32 (d - 1)) 1%nat (table y) else table y) = days_per_month.
Proof. unfold table. by destruct (is_leap_year y). Qed.

Lemma epoch_to_date_total (epoch : Z) :
  is_u64 epoch ->
  exists d, epoch_to_date days_per_month epoch = Some (d, days_per_month) /\
            valid_date d /\ civil_ms d = epoch.
Proof.
  intros He. unfold is_u64 in He. unfold epoch_to_date.
  set (D := epoch / 1000 / 60 / 60 / 24).
  assert (0 <= D < 213503982336) by (unfold D; zlia).
  destruct (year_loop_spec (Z.to_nat (D / 365)) 0 D) as (k & d & E & Hs & Hr); [lia|zlia|zlia|].
  change (1970 + Z.of_nat 0) with 1970 in E. rewrite E. cbn [mbind option_bind].
  change (if is_leap_year (1970 + Z.of_nat k) then _ else days_per_month)
    with (table (1970 + Z.of_nat k)).
  destruct (month_loop_spec (1970 + Z.of_nat k) d Hr) as (m & d' & -> & Hm & Hd & Hd').
  cbn [mbind option_bind]. rewrite table_restored. eexists. split; [reflexivity|].
  split.
  - unfold valid_date; simpl. repeat split; (lia || zlia).
  - unfold civil_ms, civil_days; simpl.
    replace (Z.to_nat (1970 + Z.of_nat k - 1970)) with k by lia.
    replace (days_to_year k + _ + _) with D by (simpl in Hs; lia). unfold D. zlia.
Qed.

Lemma month_start_bounds b n : (n < 12)%nat -> 0 <= month_starts b !!! n <= 335.
Proof.
  intros Hn. destruct b; do 12 (destruct n as [|n]; [simpl; lia|]); lia.
Qed.

(** Dates are determined by their distance from 1970. *)
Lemma days_to_year_step j k : (j < k)%nat -> days_to_year j + year_length (1970 + Z.of_nat j) <= days_to_year k.
Proof.
  induction 1 as [|k Hk IH]; simpl days_to_year; [lia|].
  pose proof (year_length_bounds (1970 + Z.of_nat k)). lia.
Qed.

Lemma month_start_step b m m' y :
  b = is_leap_year y -> 1 <= m -> m' <= 12 -> m < m' ->
  month_starts b !!! Z.to_nat (m - 1) + month_length y m <= month_starts b !!! Z.to_nat (m' - 1).
Proof.
  intros Hb Hm Hm' Hlt. unfold month_length. rewrite <- Hb. clear Hb.
  assert (forallb (fun m => forallb (fun m' =>
     implb (m <? m') (forallb (fun b => month_starts b !!! Z.to_nat (m - 1) +
       (if (m =? 2) && b then 29 else days_per_month !!! Z.to_nat (m - 1))
        <=? month_starts b !!! Z.to_nat (m' - 1)) [true; false]))
     (seqZ 1 12)) (seqZ 1 12) = true) as H by (vm_compute; reflexivity).
  rewrite forallb_forall in H.
  specialize (H m ltac:(apply list_elem_of_In, elem_of_seqZ; lia)). rewrite forallb_forall in H.
  specialize (H m' ltac:(apply list_elem_of_In, elem_of_seqZ; lia)).
  rewrite (proj2 (Z.ltb_lt m m')) in H by done. unfold implb in H. rewrite forallb_forall in H.
  apply Z.leb_le, (H b). destruct b; simpl; auto.
Qed.

Lemma day_in_year d :
  valid_date d -> 0 <= days_to_month (year d) (Z.to_nat (month d - 1)) + (day d - 1) < year_length (year d).
Proof.
  intros (Hy & Hm & Hd & _). rewrite days_to_month_spec by lia.
  pose proof (month_start_bounds (is_leap_year (year d)) (Z.to_nat (month d - 1)) ltac:(lia)).
  split; [lia|]. destruct (Z.eq_dec (month d) 12) as [E|E].
  - rewrite E in *. unfold month_length in Hd. unfold year_length.
    change (12 =? 2) with false in Hd. simpl andb in Hd.
    change (days_per_month !!! Z.to_nat (12 - 1)) with 31 in Hd.
    destruct (is_leap_year _); simpl; lia.
  - pose proof (month_start_step _ (month d) 12 (year d) eq_refl ltac:(lia) ltac:(lia) ltac:(lia)).
    unfold year_length. destruct (is_leap_year (year d)); simpl in *; lia.
Qed.

Lemma civil_days_inj d d' :
  valid_date d -> valid_date d' -> civil_days d = civil_days d' ->
  year d = year d' /\ month d = month d' /\ day d = day d'.
Proof.
  intros Hv Hv' E. pose proof (day_in_year d Hv) as Hi. pose proof (day_in_year d' Hv') as Hi'.
  destruct Hv as (Hy & Hm & Hd & _), Hv' as (Hy' & Hm' & Hd' & _). unfold civil_days in E.
  assert (year d = year d') as Ey.
  { destruct (Z.lt_total (year d) (year d')) as [Hlt | [? | Hlt]]; [|done|].
    - pose proof (days_to_year_step (Z.to_nat (year d - 1970)) (Z.to_nat (year d' - 1970)) ltac:(lia)) as H.
      replace (1970 + Z.of_nat (Z.to_nat (year d - 1970))) with (year d) in H by lia. lia.
    - pose proof (days_to_year_step (Z.to_nat (year d' - 1970)) (Z.to_nat (year d - 1970)) ltac:(lia)) as H.
      replace (1970 + Z.of_nat (Z.to_nat (year d' - 1970))) with (year d') in H by lia. lia. }
  rewrite Ey in *. rewrite !days_to_month_spec in E by lia.
  destruct (Z.lt_total (month d) (month d')) as [Hlt | [Em | Hlt]].
  - pose proof (month_start_step _ (month d) (month d') (year d') eq_refl ltac:(lia) ltac:(lia) Hlt). lia.
  - rewrite Em in *. repeat split; lia.
  - pose proof (month_start_step _ (month d') (month d) (year d') eq_refl ltac:(lia) ltac:(lia) Hlt). lia.
Qed.

Lemma civil_ms_inj d d' :
  valid_date d -> valid_date d' -> civil_ms d = civil_ms d' -> d = d'.
Proof.
  intros Hv Hv' E. pose proof Hv as (_ & _ & _ & ? & ? & ? & ?).
  pose proof Hv' as (_ & _ & _ & ? & ? & ? & ?). unfold civil_ms in E.
  destruct (civil_days_inj d d' Hv Hv') as (? & ? & ?); [lia|].
  destruct d, d'; simpl in *. f_equal; (done || lia).
Qed.

(** [epoch_to_date] is total on 64-bit epochs and inverts the calendar: the
    date it writes is a valid Gregorian date whose distance from 1970 is the
    epoch, it is the only such date, and the static month table it patches for
    leap years is as it was. *)
Theorem epoch_to_date_correct (epoch : Z) :
  is_u64 epoch ->
  exists d, epoch_to_date days_per_month epoch = Some (d, days_per_month) /\
            valid_date d /\ civil_ms d = epoch /\
            forall d', valid_date d' -> civil_ms d' = epoch -> d' = d.
Proof.
  intros He. destruct (epoch_to_date_total epoch He) as (d & E & Hv & Hc).
  exists d. do 3 (split; [done|]). intros d' Hv' Hc'. apply civil_ms_inj; congruence.
Qed.

(** 29 February 2024, 12:34:56.789. *)
Lemma epoch_to_date_correct_witness :
  exists d, epoch_to_date days_per_month 1709210096789 = Some (d, days_per_month) /\
            valid_date d /\ civil_ms d = 1709210096789 /\
            forall d', valid_date d' -> civil_ms d' = 1709210096789 -> d' = d.
Proof. apply (epoch_to_date_correct 1709210096789). unfold is_u64. lia. Defined.

(** ** timerController.c *)

Module Timer.

(** [static volatile uint64_t tick] and [static uint32_t startup_epoch]. *)
Record timer : Type := mkTimer { tick : Z; startup_epoch : Z }.

Definition RTC_STATUS_REGISTER_A : Z := 10.
Definition RTC_STATUS_REGISTER_B : Z := 11.
Definition RTC_CENTURY_REGISTER : Z := 50.
Definition RTC_YEAR_REGISTER : Z := 9.
Definition RTC_MONTH_REGISTER : Z := 8.
Definition RTC_DAY_REGISTER : Z := 7.
Definition RTC_HOUR_REGISTER : Z := 4.
Definition RTC_MINUTE_REGISTER : Z := 2.
Definition RTC_SECOND_REGISTER : Z := 0.
Definition RTC_PM_BIT : Z := 128.
Definition RTC_CLOCK_FORMAT_BIT : Z := 2.
Definition RTC_UPDATE_IN_PROGRESS_BIT : Z := 128.
Definition RTC_WAIT_TIME : Z := 1000000.
Definition RELEASE_YEAR : Z := 26.

Definition bin_to_dec (bin : Z) : Z := u8 (Z.land bin 15 + Z.shiftr bin 4 * 10).

(** The arithmetic of [get_seconds_startup], from the broken-down date to days
    since 1970, on [uint32_t]. *)
Definition day_of_epoch (year month day : Z) : Z :=
  let year := u32 (year - (if month <=? 2 then 1 else 0)) in
  let era := year / 400 in
  let year_of_era := u32 (year - u32 (era * 400)) in
  let day_of_year :=
    u32 (u32 (u32 (153 * u32 (month + (if 2 <? month then u32 (-3) else 9))) + 2) / 5 + day - 1) in
  let day_of_era := u32 (year_of_era * 365 + year_of_era / 4 - year_of_era / 100 + day_of_year) in
  u32 (u32 (era * 146097) + day_of_era - 719468).

Section rtc.
(** [cmos_read] goes through two ports, in the file [Interrupts]; here it is a
    parameter. *)
Context {S : Type} (cmos_read : Z -> M S Z).

Definition get_year_startup : M S Z :=
  let* c := cmos_read RTC_CENTURY_REGISTER in
  let century := bin_to_dec c in
  let* y := cmos_read RTC_YEAR_REGISTER in
  let year := bin_to_dec y in
  let century :=
    if (century <? 20) || (21 <? century) then (if year <? RELEASE_YEAR then 21 else 20)
    else century in
  retM (u32 (century * 100 + year)).

(** [while ((cmos_read(A) & UIP) && i < RTC_WAIT_TIME) i++;] *)
Fixpoint wait_update (fuel : nat) (i : Z) : M S unit :=
  let* a := cmos_read RTC_STATUS_REGISTER_A in
  if negb (Z.land a RTC_UPDATE_IN_PROGRESS_BIT =? 0) && (i <? RTC_WAIT_TIME) then
    match fuel with
    | O => haltM OutOfFuel
    | Datatypes.S fuel => wait_update fuel (i + 1)
    end
  else retM tt.

Definition get_seconds_startup : M S Z :=
  wait_update (Z.to_nat RTC_WAIT_TIME) 0 ;;;
  let* b := cmos_read RTC_STATUS_REGISTER_B in
  let is_24h := Z.land b RTC_CLOCK_FORMAT_BIT in
  let* year := get_year_startup in
  let* m := cmos_read RTC_MONTH_REGISTER in
  let month := bin_to_dec m in
  let* d := cmos_read RTC_DAY_REGISTER in
  let day := bin_to_dec d in
  let* raw_hour := cmos_read RTC_HOUR_REGISTER in
  let hour := bin_to_dec (Z.land raw_hour (cnot 8 RTC_PM_BIT)) in
  let hour :=
    if negb (Z.land raw_hour RTC_PM_BIT =? 0) then hour mod 12 + 12
    else if (hour =? 12) && (is_24h =? 0) then 0 else hour in
  let* mi := cmos_read RTC_MINUTE_REGISTER in
  let minute := bin_to_dec mi in
  let* s := cmos_read RTC_SECOND_REGISTER in
  let second := bin_to_dec s in
  retM (u32 (u32 (day_of_epoch year month day * 86400) + hour * 3600 + minute * 60 + second)).

(** The clock part of [timer_init], which also programs the PIT and installs
    the interrupt gate. *)
Definition start_clock (t : timer) : M S timer :=
  let* e := get_seconds_startup in
  retM (mkTimer (tick t) e).
End rtc.

(** What the RTC answers to the [n]-th read since power-on, by register: the
    chip is outside the program. *)
Definition rtc_answer (cmos : nat -> Z -> Z) (reg : Z) : M nat Z := fun n => Done (cmos n reg) (S n).

Definition timer_get_tick (t : timer) : Z := tick t.
Definition timer_get_epoch (t : timer) : Z := u64 (startup_epoch t * 1000 + tick t).
Definition timer_get_epoch_sec (t : timer) : Z := u32 (timer_get_epoch t / 1000).

(** ** What an RTC that holds a date answers *)

Definition bcd (n : Z) : Z := 16 * (n / 10) + n mod 10.

(** The hour register: packed BCD, in 12-hour mode with the PM flag in bit 7. *)
Definition rtc_hour (h24 : bool) (h : Z) : Z :=
  if h24 then bcd h
  else bcd (if h mod 12 =? 0 then 12 else h mod 12) + (if 12 <=? h then 128 else 0).

(** The chip shows [d] for the whole boot, in BCD, in 24- or 12-hour mode, with
    the century register working; the update flag may do anything. *)
Definition rtc_shows (cmos : nat -> Z -> Z) (h24 : bool) (d : date) : Prop :=
  forall n,
    negb (Z.land (cmos n RTC_STATUS_REGISTER_B) RTC_CLOCK_FORMAT_BIT =? 0) = h24 /\
    cmos n RTC_CENTURY_REGISTER = bcd (year d / 100) /\
    cmos n RTC_YEAR_REGISTER = bcd (year d mod 100) /\
    cmos n RTC_MONTH_REGISTER = bcd (month d) /\
    cmos n RTC_DAY_REGISTER = bcd (day d) /\
    cmos n RTC_HOUR_REGISTER = rtc_hour h24 (hour d) /\
    cmos n RTC_MINUTE_REGISTER = bcd (minute d) /\
    cmos n RTC_SECOND_REGISTER = bcd (second d).

Lemma bin_to_dec_bcd n : 0 <= n < 100 -> bin_to_dec (bcd n) = n.
Proof.
  intros Hn.
  assert (forallb (fun n => bin_to_dec (bcd n) =? n) (seqZ 0 100) = true) as H
    by (vm_compute; reflexivity).
  rewrite forallb_forall in H. apply Z.eqb_eq, H, list_elem_of_In, elem_of_seqZ. lia.
Qed.

Lemma rtc_hour_decoded h24 h b :
  0 <= h < 24 -> negb (Z.land b RTC_CLOCK_FORMAT_BIT =? 0) = h24 ->
  let hour := bin_to_dec (Z.land (rtc_hour h24 h) (cnot 8 RTC_PM_BIT)) in
  (if negb (Z.land (rtc_hour h24 h) RTC_PM_BIT =? 0) then hour mod 12 + 12
   else if (hour =? 12) && (Z.land b RTC_CLOCK_FORMAT_BIT =? 0) then 0 else hour) = h.
Proof.
  intros Hh Hb. rewrite <- (negb_involutive (Z.land b _ =? 0)), Hb. clear Hb.
  set (f := fun h24 h => let hour := bin_to_dec (Z.land (rtc_hour h24 h) (cnot 8 RTC_PM_BIT)) in
    if negb (Z.land (rtc_hour h24 h) RTC_PM_BIT =? 0) then hour mod 12 + 12
    else if (hour =? 12) && negb h24 then 0 else hour).
  change (f h24 h = h).
  assert (forallb (fun h => (f true h =? h) && (f false h =? h)) (seqZ 0 24) = true) as H
    by (vm_compute; reflexivity).
  rewrite forallb_forall in H. specialize (H h).
  rewrite andb_true_iff, !Z.eqb_eq in H.
  destruct H as [? ?]; [apply list_elem_of_In, elem_of_seqZ; lia|]. by destruct h24.
Qed.

(** The day of the month enters the formula linearly. *)
Lemma day_of_epoch_day y m d :
  day_of_epoch y m d = u32 (day_of_epoch y m 1 + (d - 1)).
Proof.
  unfold day_of_epoch.
  set (E := u32 (u32 (y - _) / 400 * 146097)). set (Y := u32 (u32 (y - _) - _)).
  set (B := Y * 365 + Y / 4 - Y / 100). set (A := u32 (_ + 2) / 5).
  clearbody E B A. unfold u32. zlia.
Qed.

(** The first days of the months of [n] years from [y] on, where [e] days have
    passed before [y]. *)
Fixpoint years_agree (n : nat) (y e : Z) : bool :=
  match n with
  | O => true
  | S n => forallb (fun k => day_of_epoch y (1 + Z.of_nat k) 1 =? e + month_starts (is_leap_year y) !!! k)
             (seq 0 12) && years_agree n (y + 1) (e + year_length y)
  end.

Lemma years_agree_spec n k j m :
  years_agree n (1970 + Z.of_nat k) (days_to_year k) = true -> (j < n)%nat -> (m < 12)%nat ->
  day_of_epoch (1970 + Z.of_nat (k + j)) (1 + Z.of_nat m) 1 =
    days_to_year (k + j) + days_to_month (1970 + Z.of_nat (k + j)) m.
Proof.
  revert k j. induction n as [|n IH]; intros k j H Hj Hm; [lia|].
  apply andb_true_iff in H as [H1 H2]. destruct j as [|j].
  - rewrite Nat.add_0_r, days_to_month_spec by done. rewrite forallb_forall in H1.
    apply Z.eqb_eq, H1, in_seq. lia.
  - replace (k + S j)%nat with (S k + j)%nat by lia. apply IH; [|lia..].
    rewrite <- H2. simpl days_to_year. f_equal. lia.
Qed.

Lemma days_to_year_upper n : days_to_year n <= 366 * Z.of_nat n.
Proof.
  induction n as [|n IH]; [done|].
  pose proof (year_length_bounds (1970 + Z.of_nat n)). simpl days_to_year. lia.
Qed.

(** The formula agrees with the calendar on the centuries the driver accepts. *)
Lemma day_of_epoch_civil y m d :
  2000 <= y < 2200 -> 1 <= m <= 12 -> 1 <= d <= 31 ->
  day_of_epoch y m d =
    days_to_year (Z.to_nat (y - 1970)) + days_to_month y (Z.to_nat (m - 1)) + (d - 1).
Proof.
  intros Hy Hm Hd.
  pose proof (years_agree_spec 200 30 (Z.to_nat (y - 2000)) (Z.to_nat (m - 1))
    ltac:(vm_compute; reflexivity) ltac:(lia) ltac:(lia)) as H.
  replace (30 + Z.to_nat (y - 2000))%nat with (Z.to_nat (y - 1970)) in H by lia.
  replace (1970 + Z.of_nat (Z.to_nat (y - 1970))) with y in H by lia.
  replace (1 + Z.of_nat (Z.to_nat (m - 1))) with m in H by lia.
  rewrite day_of_epoch_day, H.
  pose proof (days_to_year_upper (Z.to_nat (y - 1970))).
  pose proof (days_to_year_lower (Z.to_nat (y - 1970))).
  rewrite days_to_month_spec by lia.
  pose proof (month_start_bounds (is_leap_year y) (Z.to_nat (m - 1)) ltac:(lia)).
  unfold u32. rewrite Z.mod_small; lia.
Qed.

Lemma wait_update_done cmos fuel i n :
  RTC_WAIT_TIME - i <= Z.of_nat fuel -> exists n', wait_update (rtc_answer cmos) fuel i n = Done tt n'.
Proof.
  revert i n. induction fuel as [|fuel IH]; intros i n Hf; simpl; unfold rtc_answer; mrun;
    destruct (Z.land _ _ =? 0); simpl; eauto; destruct (Z.ltb_spec i RTC_WAIT_TIME); eauto.
  - lia.
  - apply IH. lia.
Qed.

Lemma start_clock_spec cmos h24 d t n :
  rtc_shows cmos h24 d -> valid_date d -> 2000 <= year d < 2200 -> millisecond d = 0 ->
  exists n', start_clock (rtc_answer cmos) t n = Done (mkTimer (tick t) (u32 (civil_ms d / 1000))) n'.
Proof.
  intros Hs (Hy & Hm & Hd & Hh & Hmi & Hse & _) Hyr Hms.
  assert (day d <= 31) as Hd31.
  { destruct Hd as [_ Hd]. etrans; [exact Hd|]. unfold month_length. zcase.
    { destruct (is_leap_year _); simpl; [lia|]. rewrite e. vm_compute. done. }
    simpl. assert (forallb (fun m => days_per_month !!! Z.to_nat (m - 1) <=? 31) (seqZ 1 12) = true)
      as H by (vm_compute; reflexivity).
    rewrite forallb_forall in H. apply Z.leb_le, H, list_elem_of_In, elem_of_seqZ. lia. }
  unfold start_clock, get_seconds_startup, get_year_startup.
  destruct (wait_update_done cmos (Z.to_nat RTC_WAIT_TIME) 0 n) as [n1 E];
    [unfold RTC_WAIT_TIME; lia|].
  unfold bindM at 1 2. rewrite E. unfold rtc_answer. mrun. eexists. f_equal. f_equal.
  destruct (Hs n1) as (Hb & _). 
  repeat match goal with |- context [cmos ?k RTC_CENTURY_REGISTER] =>
    rewrite (proj1 (proj2 (Hs k))) end.
  destruct (Hs (S (S n1))) as (_ & _ & -> & _).
  destruct (Hs (S (S (S n1)))) as (_ & _ & _ & -> & _).
  destruct (Hs (S (S (S (S n1))))) as (_ & _ & _ & _ & -> & _).
  destruct (Hs (S (S (S (S (S n1)))))) as (_ & _ & _ & _ & _ & -> & _).
  destruct (Hs (S (S (S (S (S (S n1))))))) as (_ & _ & _ & _ & _ & _ & -> & _).
  destruct (Hs (S (S (S (S (S (S (S n1)))))))) as (_ & _ & _ & _ & _ & _ & _ & ->).
  rewrite (rtc_hour_decoded h24 (hour d)) by done.
  rewrite !bin_to_dec_bcd by zlia.
  assert (20 <= year d / 100 <= 21) by zlia.
  zfalse ((year d / 100 <? 20) || (21 <? year d / 100)).
  replace (u32 (year d / 100 * 100 + year d mod 100)) with (year d)
    by (unfold u32; rewrite Z.mod_small; zlia).
  rewrite day_of_epoch_civil by lia. fold (civil_days d).
  unfold civil_ms. rewrite Hms. unfold u32. zlia.
Qed.

(** C40. Boot and the calendar round-trip: if the RTC shows a valid date of
    2000-2199 (in 24-hour or 12-hour mode) whose epoch fits the 32-bit
    [startup_epoch], then [start_clock] returns whatever the update flag does,
    and after [k] timer ticks [epoch_to_date] of [timer_get_epoch] is the
    calendar date [k] milliseconds after the RTC's one; before the first tick
    it is the RTC's date itself. *)
Theorem boot_date_roundtrip (cmos : nat -> Z -> Z) (h24 : bool) (d : date) (n : nat) :
  rtc_shows cmos h24 d -> valid_date d -> 2000 <= year d < 2200 -> millisecond d = 0 ->
  civil_ms d / 1000 < 4294967296 ->
  exists t n', start_clock (rtc_answer cmos) (mkTimer 0 0) n = Done t n' /\
    epoch_to_date days_per_month (timer_get_epoch t) = Some (d, days_per_month) /\
    forall k, 0 <= k < 9223372036854775808 ->
      exists d', epoch_to_date days_per_month (timer_get_epoch (mkTimer k (startup_epoch t)))
                   = Some (d', days_per_month) /\ valid_date d' /\ civil_ms d' = civil_ms d + k.
Proof.
  intros Hs Hv Hy Hms Hmax.
  destruct (start_clock_spec cmos h24 d (mkTimer 0 0) n Hs Hv Hy Hms) as [n' E].
  assert (0 <= civil_ms d /\ civil_ms d mod 1000 = 0) as [H0 Hm].
  { pose proof (day_in_year d Hv). pose proof (days_to_year_lower (Z.to_nat (year d - 1970))).
    destruct Hv as (_ & _ & _ & ? & ? & ? & _). unfold civil_ms, civil_days. rewrite Hms. split; [lia|zlia]. }
  assert (forall k, 0 <= k < 9223372036854775808 ->
    timer_get_epoch (mkTimer k (u32 (civil_ms d / 1000))) = civil_ms d + k) as He.
  { intros k Hk. unfold timer_get_epoch, u64, u32; simpl. rewrite !Z.mod_small; zlia. }
  eexists _, n'. split; [exact E|]. simpl. split.
  - rewrite He by lia. destruct (epoch_to_date_total (civil_ms d + 0)) as (d' & -> & Hv' & E').
    { unfold is_u64. zlia. }
    do 2 f_equal. apply civil_ms_inj; (done || lia).
  - intros k Hk. rewrite He by lia.
    destruct (epoch_to_date_total (civil_ms d + k)) as (d' & -> & Hv' & E');
      [unfold is_u64; zlia|]. eauto.
Qed.

(** Leap day 2024, shown in 12-hour mode as 11:59:58 PM. *)
Definition leap_day : date := mkDate 2024 2 29 23 59 58 0.
Definition leap_day_cmos (n : nat) (reg : Z) : Z :=
  if reg =? RTC_CENTURY_REGISTER then 32 else if reg =? RTC_YEAR_REGISTER then 36
  else if reg =? RTC_MONTH_REGISTER then 2 else if reg =? RTC_DAY_REGISTER then 41
  else if reg =? RTC_HOUR_REGISTER then 145 else if reg =? RTC_MINUTE_REGISTER then 89
  else if reg =? RTC_SECOND_REGISTER then 88 else 0.

Lemma boot_date_roundtrip_witness :
  exists t n', start_clock (rtc_answer leap_day_cmos) (mkTimer 0 0) 0%nat = Done t n' /\
    epoch_to_date days_per_month (timer_get_epoch t) = Some (leap_day, days_per_month) /\
    forall k, 0 <= k < 9223372036854775808 ->
      exists d', epoch_to_date days_per_month (timer_get_epoch (mkTimer k (startup_epoch t)))
                   = Some (d', days_per_month) /\ valid_date d' /\ civil_ms d' = civil_ms leap_day + k.
Proof.
  apply (boot_date_roundtrip leap_day_cmos false leap_day 0).
  - intros n. vm_compute. repeat split.
  - vm_compute. repeat split; discriminate.
  - vm_compute. split; [discriminate|reflexivity].
  - reflexivity.
  - vm_compute. reflexivity.
Defined.

End Timer.
