(* ===== verification/FrameAlloc.v ===== *)
(** * Physical memory: the boot memory map and the frame allocator

    kernel/memory/mmap/memoryMap.c walks the multiboot memory map and
    kernel/memory/frameAlloc/frameAllocator.c keeps one bit per 4 KiB page
    frame of the 32-bit physical address space.  Class [FrameOps] is what the
    frame allocator promises to the paging code, the kernel heap and the
    process code. *)
From S2P Require Import Prelude Bitset.

(** ** memoryMap.c *)

(** The fields of [MBIInfo] the memory code reads. *)
Record MBIInfo : Type := mkMBI { flags : Z; mmap_length : Z; mmap_addr : Z }.

Record MemoryMapEntry : Type := mkEntry {
  size : Z; baseLo : Z; baseHi : Z; lenLo : Z; lenHi : Z; type : Z
}.

(** The boot loader leaves the entries in memory; [mem] reads a 32-bit word. *)
Definition entry_at (mem : Z -> Z) (a : Z) : MemoryMapEntry :=
  mkEntry (mem a) (mem (a + 4)) (mem (a + 8)) (mem (a + 12)) (mem (a + 16)) (mem (a + 20)).

(** The length passed on: clamped to the end of the 32-bit address space. *)
Definition clamp_len (e : MemoryMapEntry) : Z :=
  if negb (lenHi e =? 0) || (u32 (baseLo e + lenLo e) <? baseLo e)
  then u32 (4294967295 - baseLo e + 1) else lenLo e.

(** The body of the loop: [fn] is called unless the entry is above 4 GiB. *)
Definition visit {A} (fn : Z -> Z -> Z -> A -> A) (e : MemoryMapEntry) (acc : A) : A :=
  if negb (baseHi e =? 0) then acc else fn (baseLo e) (clamp_len e) (type e) acc.

Fixpoint mmap_loop {A} (fuel : nat) (mem : Z -> Z) (i stop : Z)
    (fn : Z -> Z -> Z -> A -> A) (acc : A) : option A :=
  if i <? stop then
    match fuel with
    | O => None
    | S fuel =>
        let e := entry_at mem i in
        mmap_loop fuel mem (u32 (i + size e + 4)) stop fn (visit fn e acc)
    end
  else Some acc.

(** [fn] acts on the state [acc] that stands for the caller's globals. *)
Definition mmap_walk {A} (fuel : nat) (mem : Z -> Z) (info : MBIInfo)
    (fn : Z -> Z -> Z -> A -> A) (acc : A) : option A :=
  if Z.land (flags info) (Z.shiftl 1 6) =? 0 then Some acc
  else mmap_loop fuel mem (mmap_addr info) (u32 (mmap_addr info + mmap_length info)) fn acc.

(** A memory map as the boot loader lays it out: entries one after the other,
    each followed by the next one [size + 4] bytes on. *)
Fixpoint map_at (mem : Z -> Z) (a : Z) (es : list MemoryMapEntry) : Prop :=
  match es with
  | [] => True
  | e :: es => entry_at mem a = e /\ 0 < size e + 4 /\ map_at mem (a + size e + 4) es
  end.
Fixpoint map_bytes (es : list MemoryMapEntry) : Z :=
  match es with [] => 0 | e :: es => size e + 4 + map_bytes es end.

Lemma map_bytes_nonneg mem a es : map_at mem a es -> 0 <= map_bytes es.
Proof.
  revert a. induction es as [|e es IH]; intros a H; simpl in *; [lia|].
  destruct H as (_ & ? & H). specialize (IH _ H). lia.
Qed.

Lemma mmap_loop_spec {A} mem fuel i es (fn : Z -> Z -> Z -> A -> A) acc :
  map_at mem i es -> 0 <= i -> i + map_bytes es < 4294967296 -> (length es <= fuel)%nat ->
  mmap_loop fuel mem i (i + map_bytes es) fn acc =
    Some (fold_left (fun acc e => visit fn e acc) es acc).
Proof.
  revert fuel i acc. induction es as [|e es IH]; intros fuel i acc Hm Hi Hs Hf.
  - simpl. destruct fuel; simpl; by rewrite Z.add_0_r, Z.ltb_irrefl.
  - simpl in Hm. destruct Hm as (He & Hp & Hm). pose proof (map_bytes_nonneg _ _ _ Hm).
    simpl in Hs, Hf. destruct fuel as [|fuel]; [lia|]. cbn [mmap_loop fold_left map_bytes]. rewrite He. cbv zeta.
    ztrue (i <? i + (size e + 4 + map_bytes es)).
    unfold u32. rewrite Z.mod_small by lia.
    replace (i + (size e + 4 + map_bytes es)) with (i + size e + 4 + map_bytes es) by lia.
    apply IH; (done || lia).
Qed.

(** ** frameAllocator.c *)

Definition FRAME_BITMAP_LENGTH : Z := 32768.
Definition FRAME_SIZE_BYTES : Z := 4096.

(** [frame_bitmap[i / 32] &= ~(1u << (i % 32))] and its opposite. *)
Definition frame_bitmap : Type := list Z.
Definition mark_frame_free (bm : frame_bitmap) (i : Z) : frame_bitmap := bs_clear 32 bm i.
Definition mark_frame_used (bm : frame_bitmap) (i : Z) : frame_bitmap := bs_set 32 bm i.

(** [(x & ~0xFFFu) >> 12] *)
Definition page_of (x : Z) : Z := Z.shiftr (Z.land x (cnot 32 4095)) 12.

Definition mark_free_region (base len type : Z) (bm : frame_bitmap) : frame_bitmap :=
  if negb (type =? 1) then bm
  else
    let first := page_of (u32 (base + 4095)) in
    let last := page_of (u32 (base + len)) in
    for_range (Z.to_nat (last - first)) first (fun i bm => mark_frame_free bm i) bm.

(** [ebss] is the address of the linker symbol [_ebss]. *)
Definition frame_alloc_init (fuel : nat) (mem : Z -> Z) (ebss : Z) (info : MBIInfo)
    : option frame_bitmap :=
  let bm := replicate (Z.to_nat FRAME_BITMAP_LENGTH) 4294967295 in
  bm ← mmap_walk fuel mem info mark_free_region bm;
  let last := page_of (u32 (ebss + 4095)) in
  Some (for_range (Z.to_nat last) 0 (fun i bm => mark_frame_used bm i) bm).

(** [for (b = 0; b < 32; b++) if (((frame_bitmap[i] >> b) & 1) == 0)] *)
Fixpoint scan_word (n : nat) (b x : Z) : option Z :=
  match n with
  | O => None
  | S n => if Z.land (Z.shiftr x b) 1 =? 0 then Some b else scan_word n (b + 1) x
  end.

Fixpoint scan_bitmap (i : Z) (ws : frame_bitmap) : option (Z * frame_bitmap) :=
  match ws with
  | [] => None
  | x :: ws =>
      let next := '(a, ws') ← scan_bitmap (i + 1) ws; Some (a, x :: ws') in
      if negb (x =? 4294967295) then
        match scan_word 32 0 x with
        | Some b => Some (u32 ((i * 32 + b) * FRAME_SIZE_BYTES), set_bit x b :: ws)
        | None => next
        end
      else next
  end.

Definition alloc_frame (bm : frame_bitmap) : Z * frame_bitmap :=
  match scan_bitmap 0 bm with
  | Some r => r
  | None => (0, bm)
  end.

Definition free_frame (addr : Z) (bm : frame_bitmap) : frame_bitmap :=
  mark_frame_free bm (Z.shiftr addr 12).

(** ** Meaning *)

Definition frames_wf (bm : frame_bitmap) : Prop :=
  length bm = Z.to_nat FRAME_BITMAP_LENGTH /\ bs_wf 32 bm.

(** Frame [f] is the 4 KiB at address [4096 * f]. *)
Definition frame_used (bm : frame_bitmap) (f : Z) : bool := bit_at 32 bm f.

Lemma frames_size bm : frames_wf bm -> bs_size 32 bm = 1048576.
Proof. intros [Hl _]. unfold bs_size. rewrite Hl. done. Qed.

Lemma page_of_spec x : is_u32 x -> page_of x = x / 4096.
Proof.
  unfold is_u32. intros Hx. unfold page_of.
  change 4095 with (2 ^ 12 - 1). rewrite land_cnot_ones by lia.
  rewrite Z.shiftr_div_pow2 by lia. apply Z.div_mul. done.
Qed.

Lemma land_shiftr_1 x b : (Z.land (Z.shiftr x b) 1 =? 0) = negb (Z.testbit x b).
Proof.
  change 1 with (Z.ones 1). rewrite Z.land_ones by lia. change (2 ^ 1) with 2.
  rewrite Zmod_odd. rewrite <- Z.testbit_odd. by destruct (Z.testbit x b).
Qed.

Lemma scan_word_first_clear n b x : 0 <= b -> scan_word n b x = first_clear n b x.
Proof.
  revert b. induction n as [|n IH]; intros b Hb; [done|]. cbn [scan_word first_clear].
  rewrite land_shiftr_1, bit_free_spec by done. by rewrite IH by lia.
Qed.

#[local] Arguments scan_word : simpl never.
#[local] Arguments first_clear : simpl never.

(** The scan finds the lowest free frame of the words it is given. *)
Lemma scan_bitmap_spec i ws :
  bs_wf 32 ws -> 0 <= i -> i + Z.of_nat (length ws) <= FRAME_BITMAP_LENGTH ->
  match scan_bitmap i ws with
  | None => forall f, 0 <= f < bs_size 32 ws -> bit_at 32 ws f = true
  | Some (a, ws') => exists f, 0 <= f < bs_size 32 ws /\ a = (i * 32 + f) * 4096 /\
      bit_at 32 ws f = false /\ (forall g, 0 <= g < f -> bit_at 32 ws g = true) /\
      ws' = bs_set 32 ws f
  end.
Proof.
  revert i. induction ws as [|x ws IH]; intros i Hw Hi Hl; cbn [scan_bitmap]; cbv zeta.
  { intros f Hf. unfold bs_size in Hf. simpl in Hf. lia. }
  inversion_clear Hw as [|? ? Hx Hws]. rewrite length_cons in Hl.
  unfold FRAME_BITMAP_LENGTH in *.
  assert (forall f, 32 <= f -> bit_at 32 (x :: ws) f = bit_at 32 ws (f - 32)) as Htl.
  { intros f Hf. replace f with (bs_size 32 [x] + (f - 32)) at 1 by (unfold bs_size; simpl; lia).
    by rewrite (bit_at_app_r 32 ltac:(lia) [x] ws) by lia. }
  assert (forall f, 0 <= f < 32 -> bit_at 32 (x :: ws) f = Z.testbit x f) as Hhd.
  { intros f Hf. unfold bit_at. rewrite Z.div_small, Z.mod_small by lia. done. }
  assert (bs_size 32 (x :: ws) = 32 + bs_size 32 ws) as Hsz
    by (unfold bs_size; rewrite length_cons; lia).
  specialize (IH (i + 1) Hws ltac:(lia) ltac:(lia)).
  assert ((forall j, 0 <= j < 32 -> Z.testbit x j = true) ->
    match ('(a, ws') ← scan_bitmap (i + 1) ws; Some (a, x :: ws')) with
    | None => forall f, 0 <= f < bs_size 32 (x :: ws) -> bit_at 32 (x :: ws) f = true
    | Some (a, ws') => exists f, 0 <= f < bs_size 32 (x :: ws) /\ a = (i * 32 + f) * 4096 /\
        bit_at 32 (x :: ws) f = false /\
        (forall g, 0 <= g < f -> bit_at 32 (x :: ws) g = true) /\
        ws' = bs_set 32 (x :: ws) f
    end) as Hnext.
  { intros Hfull. destruct (scan_bitmap (i + 1) ws) as [[a ws']|]; simpl.
    - destruct IH as (f & Hf & -> & Hbf & Hlow & ->). exists (f + 32).
      rewrite Htl by lia. replace (f + 32 - 32) with f by lia.
      split; [lia|]. split; [lia|]. split; [done|]. split.
      + intros g Hg. destruct (Z.ltb_spec g 32); [rewrite Hhd by lia; apply Hfull; lia|].
        rewrite Htl by lia. apply Hlow. lia.
      + unfold bs_set. replace ((f + 32) / 32) with (f / 32 + 1) by zlia.
        replace ((f + 32) mod 32) with (f mod 32) by zlia.
        pose proof (Z.div_pos f 32 ltac:(lia) ltac:(lia)).
        replace (Z.to_nat (f / 32 + 1)) with (S (Z.to_nat (f / 32))) by lia. done.
    - intros f Hf. destruct (Z.ltb_spec f 32); [rewrite Hhd by lia; apply Hfull; lia|].
      rewrite Htl by lia. apply IH. lia. }
  destruct (Z.eqb_spec x 4294967295) as [->|Hne]; simpl.
  - apply Hnext. intros j Hj. change 4294967295 with (Z.ones 32). apply Z.ones_spec_low. lia.
  - rewrite scan_word_first_clear by lia.
    destruct (first_clear 32 0 x) as [b|] eqn:E.
    + apply first_clear_Some in E as (Hb & Hfree & Hlow); [|lia]. exists b.
      rewrite Hhd by lia. split; [unfold bs_size; rewrite length_cons; lia|].
      split; [unfold FRAME_SIZE_BYTES, u32; rewrite Z.mod_small; lia|]. split; [done|]. split.
      * intros g Hg. rewrite Hhd by lia. apply Hlow. lia.
      * unfold bs_set. rewrite Z.div_small, Z.mod_small by lia. done.
    + apply Hnext. intros j Hj. by apply (first_clear_None 32 0 x); try lia.
Qed.

(** ** What the allocator promises its clients *)

(** The allocator as its callers see it: a set of used frames. *)
Class FrameOps (S : Type) : Type := {
  fr_alloc : S -> Z * S;
  fr_free : Z -> S -> S;
  fr_wf : S -> Prop;
  fr_used : S -> Z -> bool
}.

(** [fr_wf] includes that frame 0 is used, so that address 0 can mean failure. *)
Class FrameLaws (S : Type) `{FrameOps S} : Prop := {
  fr_alloc_fail s s' : fr_wf s -> fr_alloc s = (0, s') ->
    s' = s /\ forall f, 0 <= f < 1048576 -> fr_used s f = true;
  fr_alloc_ok s a s' : fr_wf s -> fr_alloc s = (a, s') -> a <> 0 ->
    fr_wf s' /\ exists f, a = 4096 * f /\ 0 < f < 1048576 /\ fr_used s f = false /\
      (forall g, 0 <= g < f -> fr_used s g = true) /\
      forall g, 0 <= g < 1048576 -> fr_used s' g = (g =? f) || fr_used s g;
  fr_free_ok s a f : fr_wf s -> a / 4096 = f -> 0 < f < 1048576 ->
    fr_wf (fr_free a s) /\
    forall g, 0 <= g < 1048576 -> fr_used (fr_free a s) g = negb (g =? f) && fr_used s g
}.

#[export] Instance bitmap_frame_ops : FrameOps frame_bitmap := {|
  fr_alloc := alloc_frame;
  fr_free := free_frame;
  fr_wf bm := frames_wf bm /\ frame_used bm 0 = true;
  fr_used := frame_used
|}.

Lemma alloc_frame_spec bm :
  frames_wf bm ->
  match alloc_frame bm with
  | (a, bm') =>
      (a = 0 /\ bm' = bm /\ forall f, 0 <= f < 1048576 -> frame_used bm f = true) \/
      (exists f, a = 4096 * f /\ 0 <= f < 1048576 /\ frame_used bm f = false /\
         (forall g, 0 <= g < f -> frame_used bm g = true) /\ bm' = mark_frame_used bm f)
  end.
Proof.
  intros Hwf. pose proof (frames_size bm Hwf) as Hs. destruct Hwf as [Hl Hb].
  unfold alloc_frame, frame_used.
  pose proof (scan_bitmap_spec 0 bm Hb ltac:(lia)) as H.
  rewrite Hl in H. specialize (H ltac:(unfold FRAME_BITMAP_LENGTH; lia)). rewrite Hs in H.
  destruct (scan_bitmap 0 bm) as [[a bm']|].
  - right. destruct H as (f & ? & -> & ? & ? & ->). exists f. split; [lia|]. done.
  - left. done.
Qed.

Lemma mark_used_wf bm f : frames_wf bm -> frames_wf (mark_frame_used bm f).
Proof. intros [? ?]. split; [unfold mark_frame_used; by rewrite length_bs_set|apply bs_wf_set; [lia|done]]. Qed.
Lemma mark_free_wf bm f : frames_wf bm -> frames_wf (mark_frame_free bm f).
Proof. intros [? ?]. split; [unfold mark_frame_free; by rewrite length_bs_clear|apply bs_wf_clear; [lia|done]]. Qed.

Lemma frame_used_mark bm f g :
  frames_wf bm -> 0 <= f < 1048576 -> 0 <= g ->
  frame_used (mark_frame_used bm f) g = (g =? f) || frame_used bm g /\
  frame_used (mark_frame_free bm f) g = negb (g =? f) && frame_used bm g.
Proof.
  intros Hwf Hf Hg. pose proof (frames_size bm Hwf) as Hs. destruct Hwf as [_ Hb].
  split; [apply bit_at_set|apply bit_at_clear]; (done || lia).
Qed.

#[export] Instance bitmap_frame_laws : FrameLaws frame_bitmap.
Proof.
  split.
  - intros bm bm' [Hwf H0] E. pose proof (alloc_frame_spec bm Hwf) as H. simpl in E. rewrite E in H.
    destruct H as [(_ & -> & ?)|(f & ? & ? & Hf & _)]; [done|].
    assert (f = 0) as -> by lia. simpl in H0. congruence.
  - intros bm a bm' [Hwf H0] E Ha. pose proof (alloc_frame_spec bm Hwf) as H. simpl in E, H0.
    rewrite E in H. destruct H as [(-> & _)|(f & -> & Hr & Hf & Hlow & ->)]; [done|].
    simpl. split; [split; [by apply mark_used_wf|]|].
    + rewrite (proj1 (frame_used_mark bm f 0 Hwf Hr ltac:(lia))). by rewrite H0, orb_true_r.
    + exists f. repeat split; try (done || lia).
      intros g Hg. by apply frame_used_mark; try lia.
  - intros bm a f [Hwf H0] Ha Hf. simpl in *. unfold free_frame.
    rewrite Z.shiftr_div_pow2 by lia. change (2 ^ 12) with 4096. rewrite Ha.
    split; [split; [by apply mark_free_wf|]|].
    + rewrite (proj2 (frame_used_mark bm f 0 Hwf ltac:(lia) ltac:(lia))), H0.
      by rewrite (proj2 (Z.eqb_neq 0 f)) by lia.
    + intros g Hg. by apply frame_used_mark; try lia.
Qed.

(** [alloc_frame] on a bitmap that marks frame 0 used returns 0 exactly when
    all 2^20 frames are taken, leaving the bitmap alone; otherwise it returns
    the address of the lowest free frame, page-aligned, with exactly that
    frame marked, and [free_frame] of that address restores the bitmap. *)
Theorem alloc_frame_correct (bm : frame_bitmap) :
  fr_wf bm ->
  let (a, bm') := alloc_frame bm in
  if a =? 0 then bm' = bm /\ forall f, 0 <= f < 1048576 -> frame_used bm f = true
  else exists f, a = 4096 * f /\ 0 < f < 1048576 /\ frame_used bm f = false /\
         (forall g, 0 <= g < f -> frame_used bm g = true) /\
         (forall g, 0 <= g < 1048576 -> frame_used bm' g = (g =? f) || frame_used bm g) /\
         free_frame a bm' = bm.
Proof.
  intros Hwf. destruct (alloc_frame bm) as [a bm'] eqn:E.
  destruct (Z.eqb_spec a 0) as [->|Ha]; [by apply (fr_alloc_fail bm bm' Hwf E)|].
  destruct (fr_alloc_ok bm a bm' Hwf E Ha) as (Hwf' & f & -> & Hf & Hfree & Hlow & Hu).
  exists f. do 5 (split; [done|]).
  assert (4096 * f / 4096 = f) as Hd by (rewrite Z.mul_comm; by apply Z.div_mul).
  destruct (fr_free_ok bm' (4096 * f) f Hwf' Hd Hf) as [[[Hl1 Hb1] _] Hg].
  destruct Hwf as [[Hl Hb] _]. pose proof (frames_size bm (conj Hl Hb)) as Hs.
  symmetry. apply (bs_eq 32); [lia|done|exact Hb1|rewrite Hl; symmetry; exact Hl1|].
  intros i Hi. change (frame_used bm i = fr_used (fr_free (4096 * f) bm') i). rewrite Hg by lia.
  change (fr_used bm' i) with (frame_used bm' i). rewrite Hu by lia.
  destruct (Z.eqb_spec i f) as [->|]; [exact Hfree|done].
Qed.

(** All frames taken but frame 300. *)
Definition one_free : frame_bitmap :=
  mark_frame_free (replicate (Z.to_nat FRAME_BITMAP_LENGTH) 4294967295) 300.

Lemma alloc_frame_correct_witness :
  let (a, bm') := alloc_frame one_free in
  if a =? 0 then bm' = one_free /\ forall f, 0 <= f < 1048576 -> frame_used one_free f = true
  else exists f, a = 4096 * f /\ 0 < f < 1048576 /\ frame_used one_free f = false /\
         (forall g, 0 <= g < f -> frame_used one_free g = true) /\
         (forall g, 0 <= g < 1048576 -> frame_used bm' g = (g =? f) || frame_used one_free g) /\
         free_frame a bm' = one_free.
Proof.
  apply (alloc_frame_correct one_free). split; [|vm_compute; reflexivity].
  apply mark_free_wf. split; [apply length_replicate|]. apply Forall_replicate. lia.
Defined.

(** ** Initialisation *)

(** An available region that starts and ends below 4 GiB. *)
Definition usable (e : MemoryMapEntry) : bool :=
  (baseHi e =? 0) && (type e =? 1) && (baseLo e + clamp_len e <? 4294967296).

(** Frame [f] lies inside the (clamped) region of [e]. *)
Definition inside (e : MemoryMapEntry) (f : Z) : bool :=
  (baseLo e <=? 4096 * f) && (4096 * (f + 1) <=? baseLo e + clamp_len e).

(** [e] starts inside the last page below 4 GiB, where [base + 0xFFF] wraps: the
    first frame is then 0 and every frame up to the last but one is freed. *)
Definition wraps (e : MemoryMapEntry) (f : Z) : bool :=
  (4294963200 <? baseLo e) && (f <? 1048575).

(** The frames the walk frees for [e]. *)
Definition covers (e : MemoryMapEntry) (f : Z) : bool :=
  usable e && (inside e f || wraps e f).

(** The fields are 32-bit words. *)
Definition entry_ok (e : MemoryMapEntry) : Prop := is_u32 (baseLo e) /\ is_u32 (lenLo e).

Lemma clamp_len_range e :
  entry_ok e -> is_u32 (clamp_len e) /\ baseLo e + clamp_len e <= 4294967296.
Proof.
  unfold entry_ok, is_u32, clamp_len, u32. intros [Hb Hl].
  destruct (Z.eqb_spec (lenHi e) 0); simpl; [|zlia].
  destruct (Z.ltb_spec ((baseLo e + lenLo e) mod 4294967296) (baseLo e)); zlia.
Qed.

Lemma mark_free_region_spec e bm f :
  entry_ok e -> frames_wf bm -> 0 <= f < 1048576 -> baseHi e = 0 ->
  frames_wf (mark_free_region (baseLo e) (clamp_len e) (type e) bm) /\
  frame_used (mark_free_region (baseLo e) (clamp_len e) (type e) bm) f =
    negb (covers e f) && frame_used bm f.
Proof.
  intros He Hwf Hf Hhi. pose proof (clamp_len_range e He) as [Hc Hle].
  unfold mark_free_region, covers, usable, inside, wraps. rewrite Hhi. simpl.
  destruct (Z.eqb_spec (type e) 1) as [Ht|Ht]; simpl; [|done].
  unfold entry_ok, is_u32 in *. rewrite !page_of_spec by (unfold is_u32, u32; zlia).
  set (first := u32 (baseLo e + 4095) / 4096). set (last := u32 (baseLo e + clamp_len e) / 4096).
  assert (last = if baseLo e + clamp_len e <? 4294967296
                 then (baseLo e + clamp_len e) / 4096 else 0) as Hlast.
  { unfold last, u32. destruct (Z.ltb_spec (baseLo e + clamp_len e) 4294967296); zlia. }
  assert (first = if 4294963200 <? baseLo e then 0 else (baseLo e + 4095) / 4096) as Hfirst.
  { unfold first, u32. destruct (Z.ltb_spec 4294963200 (baseLo e)); zlia. }
  clearbody first last.
  assert (0 <= first /\ 0 <= last < 1048576) as [H0 H1].
  { subst. split; zcase; zlia. }
  destruct Hwf as [Hl Hb]. pose proof (frames_size bm (conj Hl Hb)) as Hs. split.
  - destruct (range_wf 32 (fun b i => mark_frame_free b i) (Z.to_nat (last - first)) first bm)
      as [? Hlen]; [|done|].
    { intros b i Hbw. split; [by apply bs_wf_clear|apply length_bs_clear]. }
    split; [etrans; [exact Hlen|done]|done].
  - unfold frame_used. destruct (Z.ltb_spec last first) as [Hlt|Hge].
    + replace (Z.to_nat (last - first)) with 0%nat by lia. simpl.
      destruct (bit_at 32 bm f); [|by rewrite andb_false_r].
      symmetry. rewrite andb_true_r. apply negb_true_iff.
      subst. repeat zcase; simpl; try done; zlia.
    + unfold mark_frame_free. rewrite bit_at_clear_range by (done || lia). f_equal. f_equal.
      rewrite Z2Nat.id by lia. clear Hl Hb Hs Ht Hhi. subst.
      repeat zcase; simpl; try done; exfalso; zlia.
Qed.

Lemma visit_fold_spec es bm f :
  Forall entry_ok es -> frames_wf bm -> 0 <= f < 1048576 ->
  frames_wf (fold_left (fun acc e => visit mark_free_region e acc) es bm) /\
  frame_used (fold_left (fun acc e => visit mark_free_region e acc) es bm) f =
    negb (existsb (fun e => covers e f) es) && frame_used bm f.
Proof.
  intros He. revert bm. induction He as [|e es Hok Hes IH]; intros bm Hwf Hf; [done|].
  cbn [fold_left existsb].
  destruct (Z.eqb_spec (baseHi e) 0) as [Hhi|Hhi].
  - unfold visit at 2 4. rewrite (proj2 (Z.eqb_eq _ _) Hhi).
    destruct (mark_free_region_spec e bm f Hok Hwf Hf Hhi) as [Hwf' Hu]. simpl negb. cbv iota.
    destruct (IH _ Hwf' Hf) as [? ->]. split; [done|]. rewrite Hu.
    destruct (covers e f); simpl; [by rewrite andb_false_r|done].
  - unfold visit at 2 4. rewrite (proj2 (Z.eqb_neq _ _) Hhi). simpl negb. cbv iota.
    destruct (IH _ Hwf Hf) as [? ->]. split; [done|]. unfold covers at 2, usable.
    by rewrite (proj2 (Z.eqb_neq _ _) Hhi).
Qed.

(** C38. After [frame_alloc_init] on any memory map, a frame is free exactly when
    it is above the kernel image and lies inside an available region that
    starts and ends below 4 GiB (strictly: a region that reaches the 4 GiB line
    contributes nothing, because [base + len] wraps to 0) - or when the map has
    an available region that starts inside the last page below 4 GiB and ends
    below 4 GiB, in which case [base + 0xFFF] wraps and every frame above the
    kernel but the last one is free.  Frame 0 is used, as the allocator needs. *)
Theorem frame_alloc_init_correct (mem : Z -> Z) (ebss : Z) (info : MBIInfo)
    (es : list MemoryMapEntry) (fuel : nat) :
  Z.land (flags info) 64 <> 0 -> 0 <= mmap_addr info ->
  mmap_addr info + mmap_length info < 4294967296 ->
  map_at mem (mmap_addr info) es -> mmap_length info = map_bytes es ->
  (length es <= fuel)%nat -> Forall entry_ok es -> 0 < ebss <= 4294963200 ->
  exists bm, frame_alloc_init fuel mem ebss info = Some bm /\ fr_wf bm /\
    forall f, 0 <= f < 1048576 ->
      fr_used bm f = (4096 * f <? ebss) || negb (existsb (fun e => covers e f) es).
Proof.
  intros Hfl Ha Hlen Hm Hsz Hf He Heb. unfold frame_alloc_init, mmap_walk.
  change (Z.shiftl 1 6) with 64. rewrite (proj2 (Z.eqb_neq _ _) Hfl).
  pose proof (map_bytes_nonneg _ _ _ Hm) as Hmb.
  replace (u32 (mmap_addr info + mmap_length info)) with (mmap_addr info + map_bytes es)
    by (unfold u32; rewrite Z.mod_small; lia).
  rewrite mmap_loop_spec by (done || lia). cbn [mbind option_bind].
  set (bm0 := replicate _ _).
  assert (frames_wf bm0) as Hwf0.
  { split; [apply length_replicate|]. apply Forall_replicate. lia. }
  assert (forall f, 0 <= f < 1048576 -> frame_used bm0 f = true) as Hu0.
  { intros f Hff. unfold frame_used, bit_at, bm0. rewrite list_lookup_total_alt, lookup_replicate_2.
    - change (default _ _) with (Z.ones 32). apply Z.ones_spec_low. zlia.
    - unfold FRAME_BITMAP_LENGTH. zlia. }
  set (bm1 := fold_left (fun acc e => visit mark_free_region e acc) es bm0).
  assert (frames_wf bm1) as Hwf1 by (by apply (visit_fold_spec es bm0 0)).
  rewrite page_of_spec by (unfold is_u32, u32; zlia).
  set (last := u32 (ebss + 4095) / 4096).
  assert (last = (ebss + 4095) / 4096) as Hlast by (unfold last, u32; rewrite Z.mod_small; lia).
  assert (0 < last <= 1048576) as Hlr by zlia.
  pose proof (frames_size bm1 Hwf1) as Hs1.
  eexists. split; [reflexivity|].
  assert (forall f, 0 <= f < 1048576 ->
    frame_used (for_range (Z.to_nat last) 0 (fun i bm => mark_frame_used bm i) bm1) f =
      (4096 * f <? ebss) || negb (existsb (fun e => covers e f) es)) as Hall.
  { intros f Hff. unfold frame_used, mark_frame_used.
    rewrite bit_at_set_range by lia. f_equal.
    - rewrite Z2Nat.id by lia. repeat zcase; simpl; try done; zlia.
    - etrans; [apply (visit_fold_spec es bm0 f He Hwf0 Hff)|].
      by rewrite Hu0, andb_true_r. }
  split; [|exact Hall]. split.
  - destruct Hwf1 as [Hl1 Hb1].
    destruct (range_wf 32 (fun b i => mark_frame_used b i) (Z.to_nat last) 0 bm1) as [? Hlen1]; [|done|].
    { intros b i Hbw. split; [by apply bs_wf_set|apply length_bs_set]. }
    split; [etrans; [exact Hlen1|done]|done].
  - rewrite Hall by lia. by rewrite (proj2 (Z.ltb_lt _ _)) by lia.
Qed.

(** A PC's map: low memory, a reserved hole, 127 MiB above 1 MiB, and a region
    that ends at 4 GiB. *)
Definition sample_map : list MemoryMapEntry :=
  [mkEntry 20 0 0 654336 0 1; mkEntry 20 983040 0 65536 0 2;
   mkEntry 20 1048576 0 133169152 0 1; mkEntry 20 4278190080 0 16777216 0 1].
Definition sample_mem (a : Z) : Z :=
  default 0 (concat (map (fun e => [size e; baseLo e; baseHi e; lenLo e; lenHi e; type e]) sample_map)
               !! Z.to_nat ((a - 65536) / 4)).

Lemma frame_alloc_init_correct_witness :
  exists bm, frame_alloc_init 4 sample_mem 2097152 (mkMBI 64 96 65536) = Some bm /\ fr_wf bm /\
    forall f, 0 <= f < 1048576 ->
      fr_used bm f = (4096 * f <? 2097152) || negb (existsb (fun e => covers e f) sample_map).
Proof.
  apply (frame_alloc_init_correct sample_mem 2097152 (mkMBI 64 96 65536) sample_map 4).
  - discriminate.
  - discriminate.
  - reflexivity.
  - vm_compute. repeat split.
  - reflexivity.
  - apply le_n.
  - unfold sample_map, entry_ok, is_u32. repeat constructor; simpl; lia.
  - lia.
Defined.
