(* ===== verification/Paging.v ===== *)
(** * Paging: kernel/memory/paging/paging.c

    Two-level i386 page tables in physical memory.  Tables are reached through
    their physical addresses, which the kernel maps one to one below
    [HEAP_START].  [walk] is the translation the MMU performs; the theorems
    relate [map_page], [unmap_kernel_page] and [paging_init] to it.  Frames
    come from any allocator that satisfies [FrameLaws]. *)
From S2P Require Import Prelude Bitset FrameAlloc.

Definition PAGE_PRESENT : Z := 1.
Definition PAGE_RW : Z := 2.
Definition PAGE_USER : Z := 4.
Definition KERNEL_CEILING : Z := 1073741824.
Definition HEAP_START : Z := 268435456.

(** ** Page-table entries *)

(** [e & PAGE_PRESENT] and [e & ~0xFFFu] *)
Definition present (e : Z) : bool := negb (Z.land e PAGE_PRESENT =? 0).
Definition entry_frame (e : Z) : Z := Z.land e (cnot 32 4095).

Lemma present_testbit e : present e = Z.testbit e 0.
Proof.
  unfold present, PAGE_PRESENT. rewrite <- (Z.shiftr_0_r e) at 1.
  by rewrite land_shiftr_1, negb_involutive.
Qed.

Lemma entry_frame_spec e : is_u32 e -> entry_frame e = e / 4096 * 4096.
Proof.
  intros He. unfold entry_frame. change 4095 with (2 ^ 12 - 1).
  rewrite land_cnot_ones; [done|lia|exact He].
Qed.

Lemma land_page_flags a f : 0 <= f < 4096 -> Z.land (4096 * a) f = 0.
Proof.
  intros Hf. apply Z.bits_inj_0. intros i. rewrite Z.land_spec.
  destruct (Z.ltb_spec i 0); [by rewrite Z.testbit_neg_r by lia|].
  destruct (Z.ltb_spec i 12).
  - change 4096 with (2 ^ 12). rewrite Z.mul_comm, <- Z.shiftl_mul_pow2 by lia.
    by rewrite Z.shiftl_spec_low by lia.
  - rewrite (testbit_high 12 f i) by lia. apply andb_false_r.
Qed.

Lemma lor_page_flags a f : 0 <= f < 4096 -> Z.lor (4096 * a) f = 4096 * a + f.
Proof. intros Hf. pose proof (Z.add_lor_land (4096 * a) f). rewrite land_page_flags in *; lia. Qed.

(** The low twelve bits of an entry are its flags. *)
Lemma testbit_page a f i : 0 <= f -> 0 <= i < 12 -> Z.testbit (4096 * a + f) i = Z.testbit f i.
Proof.
  intros Hf Hi. rewrite <- (Z.mod_pow2_bits_low (4096 * a + f) 12), <- (Z.mod_pow2_bits_low f 12) by lia.
  f_equal. change (2 ^ 12) with 4096. zlia.
Qed.

Lemma testbit0_page a f : Z.testbit (4096 * a + f) 0 = Z.testbit f 0.
Proof.
  rewrite !Z.bit0_odd. replace (4096 * a + f) with (f + 2 * (2048 * a)) by lia.
  by rewrite Z.odd_add_mul_2.
Qed.

(** [e & PAGE_RW] and [e & PAGE_USER] as bits. *)
Definition writable (e : Z) : bool := Z.testbit e 1.
Definition user (e : Z) : bool := Z.testbit e 2.

Lemma user_flag e : negb (Z.land e PAGE_USER =? 0) = user e.
Proof.
  unfold user, PAGE_USER. change 4 with (Z.shiftl 1 2). rewrite <- (negb_involutive (Z.testbit e 2)).
  f_equal. rewrite <- land_shiftr_1. destruct (Z.eqb_spec (Z.land e (Z.shiftl 1 2)) 0) as [E|E].
  - symmetry. apply Z.eqb_eq. apply (f_equal (fun x => Z.shiftr x 2)) in E.
    rewrite Z.shiftr_land in E. exact E.
  - symmetry. apply Z.eqb_neq. intros E'. apply E. apply Z.bits_inj_0. intros i.
    rewrite Z.land_spec. destruct (Z.eq_dec i 2) as [->|Hi].
    + change (Z.testbit (Z.shiftl 1 2) 2) with true. rewrite andb_true_r.
      apply (f_equal (fun x => Z.testbit x 0)) in E'. rewrite Z.land_spec, Z.shiftr_spec in E' by lia.
      by rewrite andb_true_r in E'.
    + change (Z.shiftl 1 2) with (2 ^ 2). rewrite Z.pow2_bits_false by lia. apply andb_false_r.
Qed.

(** Setting the user flag of a directory entry keeps the table it points to. *)
Lemma lor_user e : is_u32 e ->
  is_u32 (Z.lor e PAGE_USER) /\ Z.lor e PAGE_USER / 4096 = e / 4096 /\
  present (Z.lor e PAGE_USER) = present e /\ writable (Z.lor e PAGE_USER) = writable e /\
  user (Z.lor e PAGE_USER) = true.
Proof.
  unfold is_u32, PAGE_USER, writable, user. intros He. split; [|split; [|split; [|split]]].
  - change 4 with (Z.shiftl 1 2). change 4294967296 with (2 ^ 32) in *.
    change (Z.lor e (Z.shiftl 1 2)) with (set_bit e 2). apply set_bit_range; [done|lia].
  - change 4096 with (2 ^ 12). rewrite <- !Z.shiftr_div_pow2 by lia.
    rewrite Z.shiftr_lor. change (Z.shiftr 4 12) with 0. apply Z.lor_0_r.
  - by rewrite !present_testbit, Z.lor_spec, orb_false_r.
  - by rewrite Z.lor_spec, orb_false_r.
  - by rewrite Z.lor_spec, orb_true_r.
Qed.

(** ** paging.c *)

(** The two messages of [map_page], with the table address each prints. *)
Inductive complaint : Type := NoTable (table_addr : Z) | BadTable (table_addr : Z).

Section paging.
Context {F : Type} `{FrameLaws F}.

(** [pmem a] is the 32-bit word at physical address [a]; [kernel_dir] and
    [ram_top] are the file's static variables; [complaints] are the messages
    printed so far. *)
Record pstate : Type := mkP {
  frames : F; pmem : Z -> Z; kernel_dir : Z; ram_top : Z; complaints : list complaint
}.

Definition set_frames (fr : F) (s : pstate) : pstate :=
  mkP fr (pmem s) (kernel_dir s) (ram_top s) (complaints s).
Definition store (a v : Z) (s : pstate) : pstate :=
  mkP (frames s) (fun x => if x =? a then v else pmem s x) (kernel_dir s) (ram_top s) (complaints s).
Definition complain (c : complaint) (s : pstate) : pstate :=
  mkP (frames s) (pmem s) (kernel_dir s) (ram_top s) (complaints s ++ [c]).

Definition track_ram_top (base len type ram_top : Z) : Z :=
  if negb (type =? 1) then ram_top
  else
    let top := u32 (base + len) in
    let top := if top <? base then 4294967295 else top in
    let top := if HEAP_START <? top then HEAP_START else top in
    if (ram_top <? top) || (HEAP_START <? ram_top) then top else ram_top.

(** [for (i = 0; i < 1024; i++) table[i] = 0;] *)
Definition clear_table (t : Z) (s : pstate) : pstate :=
  for_range 1024 0 (fun i s => store (t + 4 * i) 0 s) s.

(** The first half of [map_page]: make sure directory entry [di] points to a
    table; [false] is the early return. *)
Definition ensure_table (dir di : Z) (s : pstate) : bool * pstate :=
  if negb (present (pmem s (dir + 4 * di))) then
    let (table_addr, fr) := fr_alloc (frames s) in
    let s := set_frames fr s in
    if (HEAP_START <=? table_addr) || (table_addr =? 0) then
      let s := if negb (table_addr =? 0) then set_frames (fr_free table_addr fr) s else s in
      (false, complain (NoTable table_addr) s)
    else
      let s := clear_table table_addr s in
      (true, store (dir + 4 * di) (Z.lor (Z.lor table_addr PAGE_PRESENT) PAGE_RW) s)
  else (true, s).

Definition map_page (dir virt phys flags : Z) (s : pstate) : pstate :=
  let di := Z.shiftr virt 22 in
  let (ok, s) := ensure_table dir di s in
  if negb ok then s
  else
    let t := entry_frame (pmem s (dir + 4 * di)) in
    if (HEAP_START <=? t) || (t =? 0) then complain (BadTable t) s
    else
      let s := if negb (Z.land flags PAGE_USER =? 0)
               then store (dir + 4 * di) (Z.lor (pmem s (dir + 4 * di)) PAGE_USER) s else s in
      let table := entry_frame (pmem s (dir + 4 * di)) in
      store (table + 4 * Z.land (Z.shiftr virt 12) 1023) (Z.lor phys flags) s.

Definition map_kernel_page (virt phys flags : Z) (s : pstate) : pstate :=
  map_page (kernel_dir s) virt phys flags s.

Definition unmap_kernel_page (virt : Z) (s : pstate) : Z * pstate :=
  let di := Z.shiftr virt 22 in
  if negb (present (pmem s (kernel_dir s + 4 * di))) then (0, s)
  else
    let table := entry_frame (pmem s (kernel_dir s + 4 * di)) in
    let ti := Z.land (Z.shiftr virt 12) 1023 in
    if negb (present (pmem s (table + 4 * ti))) then (0, s)
    else
      let phys := entry_frame (pmem s (table + 4 * ti)) in
      (phys, store (table + 4 * ti) 0 s).

(** [for (a = 0x1000; a < ram_top; a += 0x1000) map_page(kernel_dir, a, a, ..)];
    [n] is the number of iterations, [(ram_top - 1) / 0x1000]. *)
Fixpoint map_identity (n : nat) (a : Z) (s : pstate) : pstate :=
  match n with
  | O => s
  | S n => map_identity n (u32 (a + 4096))
             (map_page (kernel_dir s) a a (Z.lor PAGE_PRESENT PAGE_RW) s)
  end.

(** [fuel], [mem] and [info] are those of [mmap_walk]. *)
Definition paging_init (fuel : nat) (mem : Z -> Z) (info : MBIInfo) (s : pstate) : option pstate :=
  let (d, fr) := fr_alloc (frames s) in
  top ← mmap_walk fuel mem info track_ram_top (ram_top s);
  let s := mkP fr (pmem s) d top (complaints s) in
  let s := clear_table (kernel_dir s) s in
  Some (map_identity (Z.to_nat ((ram_top s - 1) / 4096)) 4096 s).

(** ** The MMU *)

(** The page-table entry that translates [virt], if it is mapped. *)
Definition walk (s : pstate) (dir virt : Z) : option Z :=
  let pde := pmem s (dir + 4 * Z.shiftr virt 22) in
  if present pde then
    let pte := pmem s (entry_frame pde + 4 * Z.land (Z.shiftr virt 12) 1023) in
    if present pte then Some pte else None
  else None.

(** What the MMU lets a user-mode access see of [virt]: the page it lands in,
    whether it may write and whether user mode may access it at all.  Both
    rights need the bit in the directory entry and in the table entry. *)
Record view : Type := mkView { v_page : Z; v_write : bool; v_user : bool }.

Definition translate (s : pstate) (dir virt : Z) : option view :=
  let pde := pmem s (dir + 4 * Z.shiftr virt 22) in
  if present pde then
    let pte := pmem s (entry_frame pde + 4 * Z.land (Z.shiftr virt 12) 1023) in
    if present pte
    then Some (mkView (entry_frame pte) (writable pde && writable pte) (user pde && user pte))
    else None
  else None.

(** Directory index, table index and page number of an address. *)
Lemma index_spec v : is_u32 v ->
  Z.shiftr v 22 = v / 4194304 /\ Z.land (Z.shiftr v 12) 1023 = v / 4096 mod 1024 /\
  0 <= v / 4194304 < 1024 /\ 0 <= v / 4096 mod 1024 < 1024.
Proof using.
  unfold is_u32. intros Hv. rewrite !Z.shiftr_div_pow2 by lia. change 1023 with (Z.ones 10).
  rewrite Z.land_ones by lia. change (2 ^ 22) with 4194304. change (2 ^ 12) with 4096.
  change (2 ^ 10) with 1024. repeat split; zlia.
Qed.

Lemma page_index v v' :
  is_u32 v -> is_u32 v' -> v / 4194304 = v' / 4194304 ->
  v / 4096 mod 1024 = v' / 4096 mod 1024 -> v / 4096 = v' / 4096.
Proof using. unfold is_u32. intros. zlia. Qed.

(** ** The invariant *)

Definition pde (s : pstate) (dir di : Z) : Z := pmem s (dir + 4 * di).
Definition pte (s : pstate) (dir di ti : Z) : Z := pmem s (pde s dir di / 4096 * 4096 + 4 * ti).

(** The directory and the tables are distinct frames that the allocator holds
    as used; tables lie in the identity-mapped part of memory.  Directory
    entries grant what their tables grant: all are writable, and one whose
    table has a user page is a user entry. *)
Record pg_wf (s : pstate) (dir : Z) : Prop := {
  pg_frames : fr_wf (frames s);
  pg_words : forall a, is_u32 (pmem s a);
  pg_dir : dir = 4096 * (dir / 4096) /\ 0 < dir / 4096 < 1048576 /\
           fr_used (frames s) (dir / 4096) = true;
  pg_table : forall di, 0 <= di < 1024 -> present (pde s dir di) = true ->
    0 < pde s dir di / 4096 < 65536 /\
    fr_used (frames s) (pde s dir di / 4096) = true /\ pde s dir di / 4096 <> dir / 4096;
  pg_distinct : forall di dj, 0 <= di < 1024 -> 0 <= dj < 1024 ->
    present (pde s dir di) = true -> present (pde s dir dj) = true ->
    pde s dir di / 4096 = pde s dir dj / 4096 -> di = dj;
  pg_writable : forall di, 0 <= di < 1024 -> present (pde s dir di) = true ->
    writable (pde s dir di) = true;
  pg_user : forall di ti, 0 <= di < 1024 -> 0 <= ti < 1024 -> present (pde s dir di) = true ->
    present (pte s dir di ti) = true -> user (pte s dir di ti) = true ->
    user (pde s dir di) = true
}.

(** Frame [g] holds a table of the directory. *)
Definition is_table (s : pstate) (dir g : Z) : Prop :=
  exists di, 0 <= di < 1024 /\ present (pde s dir di) = true /\ pde s dir di / 4096 = g.

(** A frame in use before is a table after only if it was one before. *)
Definition tables_fresh (dir : Z) (s s' : pstate) : Prop :=
  forall g, fr_used (frames s) g = true -> is_table s' dir g -> is_table s dir g.

Lemma tables_fresh_pde dir s s' :
  (forall di, 0 <= di < 1024 -> pde s' dir di / 4096 = pde s dir di / 4096 /\
                               present (pde s' dir di) = present (pde s dir di)) -> tables_fresh dir s s'.
Proof using. intros Hj g _ (di & Hdi & Hp & <-). exists di. destruct (Hj di Hdi) as [-> <-]. done. Qed.

Lemma tables_fresh_refl dir s : tables_fresh dir s s.
Proof using. by intros g. Qed.
#[local] Hint Resolve tables_fresh_refl : core.

Lemma walk_spec s dir v :
  pg_wf s dir -> is_u32 v ->
  walk s dir v =
    if present (pde s dir (v / 4194304)) then
      let pte := pmem s (pde s dir (v / 4194304) / 4096 * 4096 + 4 * (v / 4096 mod 1024)) in
      if present pte then Some pte else None
    else None.
Proof using.
  intros Hwf Hv. destruct (index_spec v Hv) as (E1 & E2 & _). unfold walk, pde.
  by rewrite E1, E2, entry_frame_spec by apply Hwf.
Qed.

Lemma walk_u32 s dir v e : pg_wf s dir -> walk s dir v = Some e -> is_u32 e.
Proof using. intros Hwf. unfold walk. repeat case_match; intros; simplify_eq; apply Hwf. Qed.

(** With well-formed tables the rights of a page are those of its table entry. *)
Lemma translate_walk s dir v :
  pg_wf s dir -> is_u32 v ->
  translate s dir v =
    (fun e => mkView (e / 4096 * 4096) (writable e) (user e)) <$> walk s dir v.
Proof using.
  intros Hwf Hv. destruct (index_spec v Hv) as (E1 & E2 & Hi1 & Hi2). unfold translate, walk.
  rewrite E1, E2. fold (pde s dir (v / 4194304)).
  destruct (present (pde s dir (v / 4194304))) eqn:Hp; [|done]. cbv zeta.
  rewrite (entry_frame_spec (pde s dir (v / 4194304))) by apply Hwf.
  fold (pte s dir (v / 4194304) (v / 4096 mod 1024)).
  destruct (present (pte s dir (v / 4194304) (v / 4096 mod 1024))) eqn:Hpp; [|done].
  rewrite entry_frame_spec by apply Hwf. rewrite (pg_writable _ _ Hwf) by done.
  cbn [fmap option_fmap option_map]. do 2 f_equal.
  destruct (user (pte s dir (v / 4194304) (v / 4096 mod 1024))) eqn:Hu; [|apply andb_false_r].
  by rewrite (pg_user _ _ Hwf _ _ Hi1 Hi2 Hp Hpp Hu).
Qed.

Lemma pmem_clear_table t s x :
  pmem (clear_table t s) x =
    if (t <=? x) && (x <? t + 4096) && ((x - t) mod 4 =? 0) then 0 else pmem s x.
Proof using.
  unfold clear_table.
  assert (forall n i s, 0 <= i -> pmem (for_range n i (fun i s => store (t + 4 * i) 0 s) s) x =
    if (t + 4 * i <=? x) && (x <? t + 4 * (i + Z.of_nat n)) && ((x - t) mod 4 =? 0)
    then 0 else pmem s x) as Hgen.
  { induction n as [|n IH]; intros i s' Hi; cbn [for_range].
    - repeat zcase; simpl; (done || lia).
    - rewrite IH by lia. unfold store; cbn [pmem].
      destruct (Z.eqb_spec ((x - t) mod 4) 0); rewrite ?andb_false_r, ?andb_true_r;
        repeat zcase; simpl; try done; try (exfalso; zlia). }
  rewrite (Hgen 1024%nat 0 s) by lia. rewrite Z.mul_0_r, Z.add_0_r. done.
Qed.

Lemma clear_table_rest t s :
  frames (clear_table t s) = frames s /\ kernel_dir (clear_table t s) = kernel_dir s /\
  ram_top (clear_table t s) = ram_top s /\ complaints (clear_table t s) = complaints s.
Proof using.
  unfold clear_table.
  apply (for_range_ind (fun _ s' => frames s' = frames s /\ kernel_dir s' = kernel_dir s /\
                                    ram_top s' = ram_top s /\ complaints s' = complaints s)); [done|].
  intros j s' _ ?. done.
Qed.

#[local] Opaque clear_table.

(** Two words in different frames are different words. *)
Lemma frame_sep f g i j :
  f <> g -> 0 <= i < 1024 -> 0 <= j < 1024 -> 4096 * f + 4 * i <> 4096 * g + 4 * j.
Proof using. lia. Qed.

Lemma new_entry f : 0 <= f -> Z.lor (Z.lor (4096 * f) PAGE_PRESENT) PAGE_RW = 4096 * f + 3.
Proof using.
  intros Hf. unfold PAGE_PRESENT, PAGE_RW. rewrite <- Z.lor_assoc. by rewrite lor_page_flags.
Qed.

Lemma present_page f k : present (4096 * f + k) = Z.testbit k 0.
Proof using. by rewrite present_testbit, testbit0_page. Qed.

(** A free frame is neither the directory nor one of its tables. *)
Lemma free_frame_fresh s dir f :
  pg_wf s dir -> fr_used (frames s) f = false ->
  f <> dir / 4096 /\
  forall di, 0 <= di < 1024 -> present (pde s dir di) = true -> pde s dir di / 4096 <> f.
Proof using.
  intros Hwf Hf. split.
  - intros ->. destruct (pg_dir _ _ Hwf) as (_ & _ & ?). congruence.
  - intros di Hdi Hp <-. destruct (pg_table _ _ Hwf di Hdi Hp) as (_ & ? & _). congruence.
Qed.

(** Installing an empty table in an absent entry: no translation changes. *)
Lemma install_table s s' dir di f :
  pg_wf s dir -> 0 <= di < 1024 -> present (pde s dir di) = false ->
  fr_wf (frames s') -> 0 < f < 65536 -> fr_used (frames s) f = false ->
  (forall g, 0 <= g < 1048576 -> fr_used (frames s') g = (g =? f) || fr_used (frames s) g) ->
  (forall x, pmem s' x = if x =? dir + 4 * di then 4096 * f + 3
    else if (4096 * f <=? x) && (x <? 4096 * f + 4096) && ((x - 4096 * f) mod 4 =? 0) then 0
    else pmem s x) ->
  pg_wf s' dir /\ present (pde s' dir di) = true /\ tables_fresh dir s s' /\
  forall v, is_u32 v -> walk s' dir v = walk s dir v.
Proof using.
  intros Hwf Hdi Hnp Hfr Hf Hfree Hu Hm.
  destruct (free_frame_fresh s dir f Hwf Hfree) as [Hfd Hft].
  destruct (pg_dir _ _ Hwf) as (Hd & Hdr & Hdu).
  assert (pde s' dir di = 4096 * f + 3) as Ei by (unfold pde; rewrite Hm, Z.eqb_refl; done).
  assert (forall dj, 0 <= dj < 1024 -> dj <> di -> pde s' dir dj = pde s dir dj) as Ej.
  { intros dj Hdj Hne. unfold pde. rewrite Hm. zfalse (dir + 4 * dj =? dir + 4 * di).
    zfalse ((4096 * f <=? dir + 4 * dj) && (dir + 4 * dj <? 4096 * f + 4096)). done. }
  assert ((4096 * f + 3) / 4096 = f) as Edf by zlia.
  assert (pg_wf s' dir) as Hwf'.
  { split.
    - done.
    - intros a. rewrite Hm. destruct (_ =? _); [unfold is_u32; lia|].
      destruct (_ && _); [unfold is_u32; lia|]. apply Hwf.
    - split; [done|]. split; [done|]. rewrite Hu by lia. by rewrite Hdu, orb_true_r.
    - intros dj Hdj. destruct (Z.eq_dec dj di) as [->|Hne].
      + rewrite Ei, Edf. intros _. split; [lia|]. split; [|done].
        rewrite Hu by lia. by rewrite Z.eqb_refl.
      + rewrite Ej by done. intros Hp. destruct (pg_table _ _ Hwf dj Hdj Hp) as (? & Hj & ?).
        split; [done|]. split; [|done]. rewrite Hu by lia. by rewrite Hj, orb_true_r.
    - intros dj dk Hdj Hdk. destruct (Z.eq_dec dj di) as [->|Hj], (Z.eq_dec dk di) as [->|Hk];
        rewrite ?Ei, ?Edf; rewrite ?Ej by done; intros Hpj Hpk E; [done| | |].
      + by destruct (Hft dk Hdk Hpk).
      + by destruct (Hft dj Hdj Hpj).
      + by apply (pg_distinct _ _ Hwf).
    - intros dj Hdj. destruct (Z.eq_dec dj di) as [->|Hne].
      + rewrite Ei. intros _. unfold writable. by rewrite testbit_page by lia.
      + rewrite Ej by done. by apply (pg_writable _ _ Hwf).
    - intros dj ti Hdj Hti. unfold pte. destruct (Z.eq_dec dj di) as [->|Hne].
      + rewrite Ei, Edf, Hm. zfalse (f * 4096 + 4 * ti =? dir + 4 * di).
        replace ((f * 4096 + 4 * ti - 4096 * f) mod 4 =? 0) with true
          by (symmetry; apply Z.eqb_eq; zlia).
        ztrue ((4096 * f <=? f * 4096 + 4 * ti) && (f * 4096 + 4 * ti <? 4096 * f + 4096)). done.
      + rewrite Ej by done. intros Hp. pose proof (Hft _ Hdj Hp).
        destruct (pg_table _ _ Hwf _ Hdj Hp) as (? & _ & ?). pose proof (pg_user _ _ Hwf dj ti Hdj Hti Hp) as Hus.
        unfold pte in Hus. set (t := pde s dir dj / 4096) in *. rewrite Hm.
        zfalse (t * 4096 + 4 * ti =? dir + 4 * di).
        zfalse ((4096 * f <=? t * 4096 + 4 * ti) && (t * 4096 + 4 * ti <? 4096 * f + 4096)). done. }
  split; [done|]. split; [by rewrite Ei, present_page|]. split.
  { intros g Hg (dj & Hdj & Hp & Eg). destruct (Z.eq_dec dj di) as [->|Hne].
    - rewrite Ei, Edf in Eg. congruence.
    - rewrite Ej in Hp, Eg by done. by exists dj. }
  intros v Hv. rewrite !walk_spec by done. destruct (index_spec v Hv) as (_ & _ & Hi1 & Hi2).
  destruct (Z.eq_dec (v / 4194304) di) as [->|Hne].
  - rewrite Ei, Hnp, present_page, Edf. cbv zeta. rewrite Hm.
    zfalse (f * 4096 + 4 * (v / 4096 mod 1024) =? dir + 4 * di).
    replace ((f * 4096 + 4 * (v / 4096 mod 1024) - 4096 * f) mod 4 =? 0) with true
      by (symmetry; apply Z.eqb_eq; zlia).
    ztrue ((4096 * f <=? f * 4096 + 4 * (v / 4096 mod 1024)) &&
           (f * 4096 + 4 * (v / 4096 mod 1024) <? 4096 * f + 4096)). done.
  - rewrite Ej by done. destruct (present (pde s dir (v / 4194304))) eqn:Hp; [|done]. cbv zeta.
    pose proof (Hft _ Hi1 Hp). destruct (pg_table _ _ Hwf _ Hi1 Hp) as (? & _ & ?).
    set (t := pde s dir (v / 4194304) / 4096) in *. set (k := v / 4096 mod 1024) in *.
    rewrite Hm. zfalse (t * 4096 + 4 * k =? dir + 4 * di).
    zfalse ((4096 * f <=? t * 4096 + 4 * k) && (t * 4096 + 4 * k <? 4096 * f + 4096)). done.
Qed.

Lemma pg_wf_complain c s dir : pg_wf s dir -> pg_wf (complain c s) dir.
Proof using. intros Hwf. split; apply Hwf. Qed.

(** What every step keeps: the statics, and the used frames only grow. *)
Definition grows (s s' : pstate) : Prop :=
  kernel_dir s' = kernel_dir s /\ ram_top s' = ram_top s /\
  forall f, 0 <= f < 1048576 -> fr_used (frames s) f = true -> fr_used (frames s') f = true.

Lemma ensure_table_spec s dir di :
  pg_wf s dir -> 0 <= di < 1024 ->
  match ensure_table dir di s with
  | (true, s') => pg_wf s' dir /\ grows s s' /\ tables_fresh dir s s' /\ complaints s' = complaints s /\
      present (pde s' dir di) = true /\
      forall v, is_u32 v -> walk s' dir v = walk s dir v
  | (false, s') => pg_wf s' dir /\ grows s s' /\ tables_fresh dir s s' /\ (exists t, complaints s' = complaints s ++ [NoTable t]) /\
      present (pde s dir di) = false /\
      (forall f, 0 <= f < 65536 -> fr_used (frames s) f = true) /\
      forall v, is_u32 v -> walk s' dir v = walk s dir v
  end.
Proof using H0.
  intros Hwf Hdi. unfold ensure_table. fold (pde s dir di).
  destruct (present (pde s dir di)) eqn:Hp; cbn [negb]; [done|].
  destruct (fr_alloc (frames s)) as [a fr] eqn:Ea.
  destruct (Z.eqb_spec a 0) as [->|Ha].
  { destruct (fr_alloc_fail _ _ (pg_frames _ _ Hwf) Ea) as [-> Hall]. cbn.
    assert (set_frames (frames s) s = s) as -> by (by destruct s).
    split; [by apply pg_wf_complain|]. split; [done|]. split; [by apply tables_fresh_pde|].
    split; [by eexists|]. split; [done|].
    split; [|done]. intros f Hf. apply Hall. lia. }
  destruct (fr_alloc_ok _ _ _ (pg_frames _ _ Hwf) Ea Ha) as (Hfr & f & -> & Hf & Hfree & Hlow & Hu).
  rewrite orb_false_r. unfold HEAP_START. destruct (Z.leb_spec 268435456 (4096 * f)) as [Hge|Hlt].
  - cbn [negb].
    assert (4096 * f / 4096 = f) as Hdiv by (rewrite Z.mul_comm; by apply Z.div_mul).
    destruct (fr_free_ok fr (4096 * f) f Hfr Hdiv Hf) as [Hfr' Hu'].
    assert (forall g, 0 <= g < 1048576 ->
      fr_used (fr_free (4096 * f) fr) g = fr_used (frames s) g) as Hsame.
    { intros g Hg. rewrite Hu', Hu by done. by destruct (Z.eqb_spec g f) as [->|]. }
    split; [|split; [|split; [by apply tables_fresh_pde|split; [by eexists|split; [done|split; [intros g Hg; apply Hlow; lia|done]]]]]].
    + apply pg_wf_complain. split; cbn.
      * done.
      * apply Hwf.
      * destruct (pg_dir _ _ Hwf) as (? & ? & ?). rewrite Hsame by lia. done.
      * intros dj Hdj Hpj. destruct (pg_table _ _ Hwf dj Hdj Hpj) as (? & ? & ?).
        unfold pde; cbn. fold (pde s dir dj). rewrite Hsame by lia. done.
      * apply Hwf.
      * apply Hwf.
      * apply Hwf.
    + split; [done|]. split; [done|]. cbn. intros g Hg. by rewrite Hsame.
  - cbv iota. destruct (clear_table_rest (4096 * f) (set_frames fr s)) as (Efr & Ekd & Ert & Ecp).
    pose proof (fun x => pmem_clear_table (4096 * f) (set_frames fr s) x) as Hct.
    generalize dependent (clear_table (4096 * f) (set_frames fr s)). intros s1 Efr Ekd Ert Ecp Hct.
    destruct (install_table s
      (store (dir + 4 * di) (Z.lor (Z.lor (4096 * f) PAGE_PRESENT) PAGE_RW) s1) dir di f)
      as (Hw & Hpr & Htf & Hwalk); cbn [frames store]; rewrite ?Efr; try done.
    { lia. }
    { intros x. unfold store; cbn [pmem]. rewrite new_entry by lia.
      destruct (x =? dir + 4 * di); [done|]. apply Hct. }
    split; [done|]. split; [|done]. unfold grows. cbn [kernel_dir ram_top frames store].
    rewrite Efr, Ekd, Ert. split; [done|]. split; [done|].
    intros g Hg Hgu. cbn [frames set_frames]. rewrite Hu by done. by rewrite Hgu, orb_true_r.
Qed.

Lemma set_user_spec s dir di :
  pg_wf s dir -> 0 <= di < 1024 ->
  let s' := store (dir + 4 * di) (Z.lor (pde s dir di) PAGE_USER) s in
  pg_wf s' dir /\ (forall dj, 0 <= dj < 1024 -> pde s' dir dj / 4096 = pde s dir dj / 4096 /\
                              present (pde s' dir dj) = present (pde s dir dj)) /\
  user (pde s' dir di) = true /\
  forall v, is_u32 v -> walk s' dir v = walk s dir v.
Proof using.
  intros Hwf Hdi s'. destruct (lor_user (pde s dir di)) as (Hu & Hd & Hp & Hw & Hus); [apply Hwf|].
  assert (forall dj, 0 <= dj < 1024 -> pde s' dir dj / 4096 = pde s dir dj / 4096 /\
                              present (pde s' dir dj) = present (pde s dir dj)) as Hj.
  { intros dj Hdj. change (pde s' dir dj) with
      (if dir + 4 * dj =? dir + 4 * di then Z.lor (pde s dir di) PAGE_USER else pde s dir dj).
    destruct (Z.eqb_spec (dir + 4 * dj) (dir + 4 * di)); [|done]. by replace dj with di by lia. }
  assert (user (pde s' dir di) = true /\ forall dj, 0 <= dj < 1024 ->
            writable (pde s' dir dj) = writable (pde s dir dj) /\
            (user (pde s dir dj) = true -> user (pde s' dir dj) = true)) as [Hui Hrj].
  { split; [unfold pde, s', store; cbn [pmem]; by rewrite Z.eqb_refl|].
    intros dj Hdj. change (pde s' dir dj) with
      (if dir + 4 * dj =? dir + 4 * di then Z.lor (pde s dir di) PAGE_USER else pde s dir dj).
    destruct (Z.eqb_spec (dir + 4 * dj) (dir + 4 * di)); [|done]. by replace dj with di by lia. }
  destruct (pg_dir _ _ Hwf) as (Hda & Hdr & _).
  assert (forall dj ti, 0 <= dj < 1024 -> 0 <= ti < 1024 -> present (pde s dir dj) = true ->
            pte s' dir dj ti = pte s dir dj ti) as Hpt.
  { intros dj ti Hdj Hti Hpj. unfold pte. rewrite (proj1 (Hj dj Hdj)). unfold s', store; cbn [pmem].
    destruct (pg_table _ _ Hwf _ Hdj Hpj) as (_ & _ & Hne).
    set (t := pde s dir dj / 4096) in *. by zfalse (t * 4096 + 4 * ti =? dir + 4 * di). }
  assert (pg_wf s' dir) as Hwf'.
  { split.
    - apply Hwf.
    - intros a. unfold s', store; cbn [pmem]. destruct (_ =? _); [done|apply Hwf].
    - apply Hwf.
    - intros dj Hdj. destruct (Hj dj Hdj) as [-> ->]. by apply (pg_table _ _ Hwf).
    - intros dj dk Hdj Hdk. destruct (Hj dj Hdj) as [-> ->]. destruct (Hj dk Hdk) as [-> ->].
      by apply (pg_distinct _ _ Hwf).
    - intros dj Hdj. rewrite (proj2 (Hj dj Hdj)), (proj1 (Hrj dj Hdj)). by apply (pg_writable _ _ Hwf).
    - intros dj ti Hdj Hti. rewrite (proj2 (Hj dj Hdj)). intros Hpj. rewrite Hpt by done.
      intros. by apply Hrj, (pg_user _ _ Hwf dj ti). }
  split; [done|]. split; [done|]. split; [done|]. intros v Hv. rewrite !walk_spec by done.
  destruct (index_spec v Hv) as (_ & _ & Hi1 & Hi2). rewrite (proj2 (Hj _ Hi1)).
  destruct (present (pde s dir (v / 4194304))) eqn:Hpv; [|done].
  pose proof (Hpt _ _ Hi1 Hi2 Hpv) as E. unfold pte in E. by rewrite E.
Qed.

Lemma write_pte_spec s dir v e :
  pg_wf s dir -> is_u32 v -> is_u32 e -> present (pde s dir (v / 4194304)) = true ->
  (present e = true -> user e = true -> user (pde s dir (v / 4194304)) = true) ->
  let s' := store (pde s dir (v / 4194304) / 4096 * 4096 + 4 * (v / 4096 mod 1024)) e s in
  pg_wf s' dir /\ tables_fresh dir s s' /\ (walk s' dir v = if present e then Some e else None) /\
  forall v', is_u32 v' -> v' / 4096 <> v / 4096 -> walk s' dir v' = walk s dir v'.
Proof using.
  intros Hwf Hv He Hpv Hue s'. destruct (index_spec v Hv) as (_ & _ & Hi1 & Hi2).
  destruct (pg_table _ _ Hwf _ Hi1 Hpv) as (_ & _ & Hne).
  destruct (pg_dir _ _ Hwf) as (Hda & Hdr & _).
  assert (forall dj, 0 <= dj < 1024 -> pde s' dir dj = pde s dir dj) as Hj.
  { intros dj Hdj. unfold s', store, pde at 1; cbn [pmem].
    set (t := pde s dir (v / 4194304) / 4096) in *. set (k := v / 4096 mod 1024) in *.
    by zfalse (dir + 4 * dj =? t * 4096 + 4 * k). }
  assert (pg_wf s' dir) as Hwf'.
  { split.
    - apply Hwf.
    - intros a. unfold s', store; cbn [pmem]. destruct (_ =? _); [done|apply Hwf].
    - apply Hwf.
    - intros dj Hdj. rewrite Hj by done. by apply (pg_table _ _ Hwf).
    - intros dj dk Hdj Hdk. rewrite !Hj by done. by apply (pg_distinct _ _ Hwf).
    - intros dj Hdj. rewrite Hj by done. by apply (pg_writable _ _ Hwf).
    - intros dj ti Hdj Hti. pose proof (pg_user _ _ Hwf dj ti Hdj Hti) as Hus. unfold pte in *.
      rewrite Hj by done. intros Hpj. unfold s', store; cbn [pmem].
      destruct (Z.eqb_spec (pde s dir dj / 4096 * 4096 + 4 * ti)
        (pde s dir (v / 4194304) / 4096 * 4096 + 4 * (v / 4096 mod 1024))) as [E|]; [|by apply Hus].
      replace dj with (v / 4194304); [done|]. apply (pg_distinct _ _ Hwf); try done. lia. }
  split; [done|]. split; [by apply tables_fresh_pde; intros di Hdi; rewrite Hj|]. split.
  - rewrite walk_spec, Hj, Hpv by done. unfold s', store; cbn [pmem]. cbv zeta. by rewrite Z.eqb_refl.
  - intros v' Hv' Hpage. rewrite !walk_spec by done.
    destruct (index_spec v' Hv') as (_ & _ & Hi1' & Hi2'). rewrite Hj by done.
    destruct (present (pde s dir (v' / 4194304))) eqn:Hp'; [|done]. cbv zeta.
    unfold s', store; cbn [pmem]. 
    destruct (Z.eqb_spec (pde s dir (v' / 4194304) / 4096 * 4096 + 4 * (v' / 4096 mod 1024))
      (pde s dir (v / 4194304) / 4096 * 4096 + 4 * (v / 4096 mod 1024))) as [E|]; [|done].
    destruct Hpage. apply page_index; try done; [|lia].
    apply (pg_distinct _ _ Hwf); try done. lia.
Qed.

Lemma map_page_spec s dir virt phys flags :
  pg_wf s dir -> is_u32 virt -> is_u32 phys -> phys mod 4096 = 0 -> 0 <= flags < 4096 ->
  present flags = true ->
  let s' := map_page dir virt phys flags s in
  pg_wf s' dir /\ grows s s' /\ tables_fresh dir s s' /\
  (forall v, is_u32 v -> v / 4096 <> virt / 4096 -> walk s' dir v = walk s dir v) /\
  ((walk s' dir virt = Some (phys + flags) /\ complaints s' = complaints s) \/
   (walk s' dir virt = walk s dir virt /\ walk s dir virt = None /\
    (exists t, complaints s' = complaints s ++ [NoTable t]) /\
    forall f, 0 <= f < 65536 -> fr_used (frames s) f = true)).
Proof using H0.
  intros Hwf Hv Hp Hal Hfl Hpres s'. unfold s', map_page. clear s'.
  destruct (index_spec virt Hv) as (-> & -> & Hi1 & Hi2).
  pose proof (ensure_table_spec s dir (virt / 4194304) Hwf Hi1) as He.
  destruct (ensure_table dir (virt / 4194304) s) as [[] s1]; cbn [negb]; cbv zeta.
  - destruct He as (Hwf1 & (Hk & Hr & Hu) & Htf & Hcp & Hpr1 & Hw1).
    fold (pde s1 dir (virt / 4194304)).
    destruct (pg_table _ _ Hwf1 _ Hi1 Hpr1) as (Ht & _ & _).
    rewrite entry_frame_spec by apply Hwf1. unfold HEAP_START.
    zfalse ((268435456 <=? pde s1 dir (virt / 4194304) / 4096 * 4096) ||
            (pde s1 dir (virt / 4194304) / 4096 * 4096 =? 0)).
    set (s2 := if negb (Z.land flags PAGE_USER =? 0) then _ else s1).
    assert (pg_wf s2 dir /\ grows s1 s2 /\ tables_fresh dir s1 s2 /\ complaints s2 = complaints s1 /\ pde s2 dir (virt / 4194304) / 4096 =
              pde s1 dir (virt / 4194304) / 4096 /\ present (pde s2 dir (virt / 4194304)) = true /\
            (user flags = true -> user (pde s2 dir (virt / 4194304)) = true) /\
            forall v, is_u32 v -> walk s2 dir v = walk s1 dir v)
      as (Hwf2 & (Hk2 & Hr2 & Hu2) & Htf2 & Hcp2 & Ed2 & Hp2 & Hus2 & Hw2).
    { unfold s2. rewrite user_flag. destruct (user flags); [|done].
      destruct (set_user_spec s1 dir _ Hwf1 Hi1) as (? & Hj & ? & ?).
      destruct (Hj _ Hi1) as [? Hpj]. rewrite Hpr1 in Hpj.
      split; [done|]. split; [done|]. split; [by apply tables_fresh_pde|]. done. }
    clearbody s2. rewrite entry_frame_spec by apply Hwf2.
    fold (pde s2 dir (virt / 4194304)).
    assert (Z.lor phys flags = phys + flags) as ->.
    { replace phys with (4096 * (phys / 4096)) by zlia. by apply lor_page_flags. }
    destruct (write_pte_spec s2 dir virt (phys + flags)) as (Hwf3 & Htf3 & Hw3 & Ho3); try done.
    { unfold is_u32 in *. zlia. }
    { intros _. replace phys with (4096 * (phys / 4096)) by zlia. unfold user at 1.
      by rewrite testbit_page by lia. }
    assert (present (phys + flags) = true) as Hpp.
    { replace phys with (4096 * (phys / 4096)) by zlia. rewrite present_page.
      by rewrite present_testbit in Hpres. }
    rewrite Hpp in Hw3.
    split; [done|]. split; [|split; [|split; [|by left; split; [|cbn; congruence]]]].
    + split; [cbn; congruence|]. split; [cbn; congruence|]. cbn. eauto.
    + intros g Hg Hta. destruct (Z.le_gt_cases 0 g) as [Hg0|Hg0]; [destruct (Z.lt_ge_cases g 1048576)|].
      * apply Htf; [done|]. apply Htf2; [by apply Hu|]. apply Htf3; [by apply Hu2, Hu|done].
      * destruct Hta as (dj & Hdj & Hpj & Eg). destruct (pg_table _ _ Hwf3 dj Hdj Hpj). lia.
      * destruct Hta as (dj & Hdj & Hpj & Eg). destruct (pg_table _ _ Hwf3 dj Hdj Hpj). lia.
    + intros v Hv' Hne. by rewrite Ho3, Hw2, Hw1.
  - destruct He as (Hwf1 & Hg & Htf & Hcp & Hnp & Hall & Hw1). split; [done|]. split; [done|]. split; [done|].
    split; [by intros; apply Hw1|]. right. split; [by apply Hw1|]. split; [|done].
    rewrite walk_spec by done. by rewrite Hnp.
Qed.

(** C11. [map_page] refines the MMU's view of memory: starting from well-formed
    page tables it keeps them well-formed; the page that contains [virt] then
    translates to [phys] and grants exactly what [flags] ask for - a write only
    with [PAGE_RW], an access from user mode only with [PAGE_USER], where each
    right needs its bit in the directory entry as well as in the table entry -;
    every other page translates as before with the rights it had; and it gives
    up, with a message and changing no translation, only when the page had no
    table and every frame below [HEAP_START] is in use. *)
Theorem map_page_correct (s : pstate) (dir virt phys flags : Z) :
  pg_wf s dir -> is_u32 virt -> is_u32 phys -> phys mod 4096 = 0 -> 0 <= flags < 4096 ->
  present flags = true ->
  let s' := map_page dir virt phys flags s in
  pg_wf s' dir /\
  (forall v, is_u32 v -> v / 4096 <> virt / 4096 -> translate s' dir v = translate s dir v) /\
  ((translate s' dir virt = Some (mkView phys (writable flags) (user flags)) /\
    complaints s' = complaints s) \/
   (translate s' dir virt = None /\ translate s dir virt = None /\
    (exists t, complaints s' = complaints s ++ [NoTable t]) /\
    forall f, 0 <= f < 65536 -> fr_used (frames s) f = true)).
Proof using H0.
  intros Hwf Hv Hp Hal Hfl Hpr s'.
  destruct (map_page_spec s dir virt phys flags Hwf Hv Hp Hal Hfl Hpr) as (Hwf' & _ & _ & Ho & Hc).
  fold s' in Hwf', Ho, Hc. split; [done|]. split.
  - intros v Hv' Hne. rewrite !translate_walk by done. by rewrite Ho.
  - rewrite !translate_walk by done. destruct Hc as [[-> ?] | (-> & -> & ?)]; [left; split; [|done]|by right].
    cbn [fmap option_fmap option_map]. unfold writable, user.
    replace phys with (4096 * (phys / 4096)) at 2 3 by zlia. rewrite !testbit_page by lia.
    do 2 f_equal. zlia.
Qed.

Lemma unmap_spec s virt :
  pg_wf s (kernel_dir s) -> is_u32 virt ->
  let (phys, s') := unmap_kernel_page virt s in
  pg_wf s' (kernel_dir s) /\ kernel_dir s' = kernel_dir s /\ frames s' = frames s /\
  walk s' (kernel_dir s) virt = None /\
  (forall v, is_u32 v -> v / 4096 <> virt / 4096 -> walk s' (kernel_dir s) v = walk s (kernel_dir s) v) /\
  phys = match walk s (kernel_dir s) virt with Some e => e / 4096 * 4096 | None => 0 end.
Proof using.
  intros Hwf Hv. unfold unmap_kernel_page. destruct (index_spec virt Hv) as (-> & -> & Hi1 & Hi2).
  fold (pde s (kernel_dir s) (virt / 4194304)). set (d := kernel_dir s) in *.
  rewrite (walk_spec s d virt Hwf Hv).
  destruct (present (pde s d (virt / 4194304))) eqn:Hp; cbn [negb]; cbv zeta.
  2:{ do 3 (split; [done|]). split; [|done]. rewrite walk_spec by done. by rewrite Hp. }
  rewrite entry_frame_spec by apply Hwf.
  set (a := pde s d (virt / 4194304) / 4096 * 4096 + 4 * (virt / 4096 mod 1024)) in *.
  destruct (present (pmem s a)) eqn:Hpp; cbn [negb].
  2:{ do 3 (split; [done|]). split; [|done]. rewrite walk_spec by done. rewrite Hp. cbv zeta.
      fold a. by rewrite Hpp. }
  destruct (write_pte_spec s d virt 0 Hwf Hv ltac:(unfold is_u32; lia) Hp) as (? & _ & Hw & Ho); [done|].
  do 3 (split; [done|]). split; [done|]. split; [done|]. apply entry_frame_spec, Hwf.
Qed.

(** Unmapping does not look at the allocator. *)
Lemma unmap_set_frames fr virt s :
  unmap_kernel_page virt (set_frames fr s) =
    ((unmap_kernel_page virt s).1, set_frames fr (unmap_kernel_page virt s).2).
Proof using.
  unfold unmap_kernel_page. cbn [pmem kernel_dir set_frames]. by repeat case_match.
Qed.

(** [unmap_kernel_page] after [map_kernel_page] returns the physical page
    that was mapped, leaves the page unmapped, and together they change no
    other translation. *)
Theorem map_unmap_roundtrip (s : pstate) (virt phys flags : Z) :
  pg_wf s (kernel_dir s) -> is_u32 virt -> is_u32 phys -> phys mod 4096 = 0 ->
  0 <= flags < 4096 -> present flags = true ->
  (exists f, 0 <= f < 65536 /\ fr_used (frames s) f = false) ->
  let (p, s') := unmap_kernel_page virt (map_kernel_page virt phys flags s) in
  p = phys /\ pg_wf s' (kernel_dir s) /\ walk s' (kernel_dir s) virt = None /\
  forall v, is_u32 v -> v / 4096 <> virt / 4096 ->
    walk s' (kernel_dir s) v = walk s (kernel_dir s) v.
Proof using H0.
  intros Hwf Hv Hp Hal Hfl Hpr (f & Hf & Hff). unfold map_kernel_page.
  destruct (map_page_spec s (kernel_dir s) virt phys flags Hwf Hv Hp Hal Hfl Hpr)
    as (Hwf1 & (Hk & _) & _ & Ho & Hw).
  set (s1 := map_page _ _ _ _ _) in *. clearbody s1. rewrite <- Hk in Hwf1.
  pose proof (unmap_spec s1 virt Hwf1 Hv) as Hun. rewrite Hk in Hun.
  destruct (unmap_kernel_page virt s1) as [p s'].
  destruct Hun as (Hwf2 & _ & _ & Hnone & Ho2 & ->).
  destruct Hw as [[-> _] | (_ & _ & _ & Hall)]; [|rewrite Hall in Hff by lia; done].
  split; [zlia|]. split; [done|]. split; [done|]. intros v Hv' Hne. by rewrite Ho2, Ho.
Qed.

Lemma walk_page s dir v v' : is_u32 v -> is_u32 v' -> v / 4096 = v' / 4096 -> walk s dir v = walk s dir v'.
Proof using.
  intros Hv Hv' E. unfold walk.
  destruct (index_spec v Hv) as (-> & -> & _), (index_spec v' Hv') as (-> & -> & _).
  by replace (v' / 4194304) with (v / 4194304) by (unfold is_u32 in *; zlia); rewrite E.
Qed.

Lemma map_identity_spec n a s :
  pg_wf s (kernel_dir s) -> 0 <= a -> a mod 4096 = 0 -> a + 4096 * Z.of_nat n <= HEAP_START ->
  let s' := map_identity n a s in
  pg_wf s' (kernel_dir s) /\ grows s s' /\
  forall v, is_u32 v ->
    if (a <=? v) && (v <? a + 4096 * Z.of_nat n)
    then walk s' (kernel_dir s) v = Some (v / 4096 * 4096 + 3) \/
         (forall f, 0 <= f < 65536 -> fr_used (frames s') f = true)
    else walk s' (kernel_dir s) v = walk s (kernel_dir s) v.
Proof using H0.
  revert a s. induction n as [|n IH]; intros a s Hwf Ha Hal Hr; cbn [map_identity].
  { split; [done|]. split; [done|]. intros v Hv. repeat zcase; cbn; (done || lia). }
  unfold HEAP_START in *.
  destruct (map_page_spec s (kernel_dir s) a a 3 Hwf) as (Hwf1 & (Hk & Hrt & Hu) & _ & Ho & Hw);
    try (unfold is_u32; lia); [done|].
  change (Z.lor PAGE_PRESENT PAGE_RW) with 3.
  set (s1 := map_page _ _ _ _ _) in *. clearbody s1. unfold u32. rewrite Z.mod_small by lia.
  destruct (IH (a + 4096) s1) as (Hwf2 & (Hk2 & Hrt2 & Hu2) & Hw2);
    [by rewrite Hk|lia|zlia|lia|]. rewrite Hk in Hwf2, Hw2.
  split; [done|]. split; [split; [congruence|]; split; [congruence|]; eauto|].
  intros v Hv. specialize (Hw2 v Hv). unfold is_u32 in Hv.
  destruct (Z.eq_dec (v / 4096) (a / 4096)) as [E|E].
  - assert (a <= v < a + 4096) as Hva by zlia.
    destruct (Z.leb_spec a v); [|lia]. destruct (Z.ltb_spec v (a + 4096 * Z.of_nat (S n))) as [?|Hx]; [|lia]. cbn [andb].
    assert ((a + 4096 <=? v) && (v <? a + 4096 + 4096 * Z.of_nat n) = false) as Ec by lia.
    rewrite Ec in Hw2. rewrite Hw2, (walk_page s1 _ v a) by (done || (unfold is_u32; lia)).
    destruct Hw as [[-> _] | (_ & _ & _ & Hall)]; [left; f_equal; zlia|].
    right. intros f Hf. apply Hu2, Hu; [lia..|]. apply Hall. lia.
  - replace ((a <=? v) && (v <? a + 4096 * Z.of_nat (S n)))
      with ((a + 4096 <=? v) && (v <? a + 4096 + 4096 * Z.of_nat n))
      by (repeat zcase; cbn; (done || (exfalso; zlia))).
    destruct ((a + 4096 <=? v) && _); [done|]. rewrite Hw2. apply Ho; [done|]. done.
Qed.

(** Boot-time identity mapping.  If a frame below [HEAP_START] is free,
    [paging_init] returns with well-formed page tables in which every page from
    0x1000 up to the end of RAM (at most [HEAP_START]) translates to itself,
    present and writable, unless every frame below [HEAP_START] is in use; all
    other pages, the null page included, are unmapped. *)
Theorem paging_init_correct (fuel : nat) (mem : Z -> Z) (info : MBIInfo) (s : pstate) (top : Z) :
  fr_wf (frames s) -> (forall a, is_u32 (pmem s a)) ->
  mmap_walk fuel mem info track_ram_top (ram_top s) = Some top -> 0 < top <= HEAP_START ->
  top mod 4096 = 0 ->
  (exists f, 0 <= f < 65536 /\ fr_used (frames s) f = false) ->
  exists s', paging_init fuel mem info s = Some s' /\ pg_wf s' (kernel_dir s') /\
    forall v, is_u32 v ->
      if (4096 <=? v) && (v <? top)
      then walk s' (kernel_dir s') v = Some (v / 4096 * 4096 + 3) \/
           (forall f, 0 <= f < 65536 -> fr_used (frames s') f = true)
      else walk s' (kernel_dir s') v = None.
Proof using H0.
  intros Hfr Hm Htop Hr Hal (f0 & Hf0 & Hfree0). unfold paging_init. rewrite Htop.
  destruct (fr_alloc (frames s)) as [d fr] eqn:Ea. cbn [mbind option_bind]. cbv zeta.
  destruct (Z.eq_dec d 0) as [->|Hd].
  { destruct (fr_alloc_fail _ _ Hfr Ea) as [_ Hall]. rewrite Hall in Hfree0 by lia. done. }
  destruct (fr_alloc_ok _ _ _ Hfr Ea Hd) as (Hfr' & f & -> & Hf & _ & _ & Hu).
  destruct (clear_table_rest (4096 * f) (mkP fr (pmem s) (4096 * f) top (complaints s))) as (Efr & Ekd & Ert & Ecp).
  pose proof (fun x => pmem_clear_table (4096 * f) (mkP fr (pmem s) (4096 * f) top (complaints s)) x) as Hct.
  cbn [kernel_dir] in *. generalize dependent (clear_table (4096 * f) (mkP fr (pmem s) (4096 * f) top (complaints s))).
  intros s1 Efr Ekd Ert Ecp Hct. cbn [frames kernel_dir ram_top pmem] in *.
  assert (forall di, 0 <= di < 1024 -> present (pde s1 (4096 * f) di) = false) as Habs.
  { intros di Hdi. unfold pde. rewrite Hct.
    replace ((4096 * f + 4 * di - 4096 * f) mod 4 =? 0) with true by (symmetry; apply Z.eqb_eq; zlia).
    by ztrue ((4096 * f <=? 4096 * f + 4 * di) && (4096 * f + 4 * di <? 4096 * f + 4096)). }
  assert (pg_wf s1 (kernel_dir s1)) as Hwf1.
  { rewrite Ekd. split.
    - by rewrite Efr.
    - intros a. rewrite Hct. destruct (_ && _); [unfold is_u32; lia|done].
    - rewrite (Z.mul_comm 4096 f), Z.div_mul, Efr, Hu, Z.eqb_refl by lia. split; [lia|done].
    - intros di Hdi. by rewrite Habs.
    - intros di dj Hdi Hdj. by rewrite Habs.
    - intros di Hdi. by rewrite Habs.
    - intros di ti Hdi Hti. by rewrite Habs. }
  unfold HEAP_START in *.
  destruct (map_identity_spec (Z.to_nat ((ram_top s1 - 1) / 4096)) 4096 s1 Hwf1)
    as (Hwf2 & (Hk2 & _) & Hw2); [lia|done|unfold HEAP_START; rewrite Ert; zlia|].
  eexists. split; [reflexivity|]. rewrite Hk2. split; [done|]. intros v Hv. specialize (Hw2 v Hv).
  assert (4096 + 4096 * Z.of_nat (Z.to_nat ((ram_top s1 - 1) / 4096)) = top) as Et
    by (rewrite Ert; zlia).
  rewrite Et in Hw2. destruct (_ && _); [done|]. rewrite Hw2.
  rewrite walk_spec by done. destruct (index_spec v Hv) as (_ & _ & Hi & _).
  rewrite Ekd. by rewrite Habs.
Qed.

End paging.

(** ** Concrete states *)

(** Frames 0 and 1 used, the rest free, an empty directory in frame 1. *)
Definition two_used : frame_bitmap := 3 :: replicate (Z.to_nat 32767) 0.
Definition empty_dir : pstate := mkP two_used (fun _ => 0) 4096 0 [].

Lemma two_used_wf : fr_wf two_used.
Proof.
  split; [|reflexivity]. split; [|constructor; [lia|apply Forall_replicate; lia]].
  unfold two_used. rewrite length_cons, length_replicate. unfold FRAME_BITMAP_LENGTH. lia.
Qed.

Lemma empty_dir_wf : pg_wf empty_dir 4096.
Proof.
  split; try done.
  - apply two_used_wf.
Qed.

(** Frame 5 is free in [two_used]. *)
Lemma two_used_free : exists f, 0 <= f < 65536 /\ fr_used (frames empty_dir) f = false.
Proof. exists 5. split; [lia|]. vm_compute. reflexivity. Qed.

(** Mapping the first user page (0x40000000) to frame 0x1234. *)
Lemma map_page_correct_witness :
  let s' := map_page 4096 1073741824 19087360 7 empty_dir in
  pg_wf s' 4096 /\
  (forall v, is_u32 v -> v / 4096 <> 1073741824 / 4096 ->
     translate s' 4096 v = translate empty_dir 4096 v) /\
  ((translate s' 4096 1073741824 = Some (mkView 19087360 true true) /\
    complaints s' = complaints empty_dir) \/
   (translate s' 4096 1073741824 = None /\ translate empty_dir 4096 1073741824 = None /\
    (exists t, complaints s' = complaints empty_dir ++ [NoTable t]) /\
    forall f, 0 <= f < 65536 -> fr_used (frames empty_dir) f = true)).
Proof.
  apply (map_page_correct empty_dir 4096 1073741824 19087360 7); try (unfold is_u32; lia).
  - apply empty_dir_wf.
  - reflexivity.
  - reflexivity.
Defined.

Lemma map_unmap_roundtrip_witness :
  let (p, s') := unmap_kernel_page 1073741824 (map_kernel_page 1073741824 19087360 7 empty_dir) in
  p = 19087360 /\ pg_wf s' 4096 /\ walk s' 4096 1073741824 = None /\
  forall v, is_u32 v -> v / 4096 <> 1073741824 / 4096 -> walk s' 4096 v = walk empty_dir 4096 v.
Proof.
  apply (map_unmap_roundtrip empty_dir 1073741824 19087360 7); try (unfold is_u32; lia).
  - apply empty_dir_wf.
  - reflexivity.
  - reflexivity.
  - apply two_used_free.
Defined.

Lemma paging_init_correct_witness :
  exists s', paging_init 4 sample_mem (mkMBI 64 96 65536) empty_dir = Some s' /\
    pg_wf s' (kernel_dir s') /\
    forall v, is_u32 v ->
      if (4096 <=? v) && (v <? 268435456)
      then walk s' (kernel_dir s') v = Some (v / 4096 * 4096 + 3) \/
           (forall f, 0 <= f < 65536 -> fr_used (frames s') f = true)
      else walk s' (kernel_dir s') v = None.
Proof.
  apply (paging_init_correct 4 sample_mem (mkMBI 64 96 65536) empty_dir 268435456).
  - apply two_used_wf.
  - intros a. unfold is_u32. simpl. lia.
  - vm_compute. reflexivity.
  - unfold HEAP_START. lia.
  - reflexivity.
  - apply two_used_free.
Defined.
