(* ===== verification/Heap.v ===== *)
(** * The kernel heap: kernel/memory/heap/kernelHeap.c

    A first-fit allocator over one contiguous virtual region.  Each block is an
    8-byte header ([size], [is_free]) followed by its payload; [kmalloc] splits
    the first block that fits and doubles the region when none does, [kfree]
    merges a block with the free blocks after it.  [hmem a] is the 32-bit word
    at virtual address [a] of the heap region; every access to a header asks the
    page tables first, and one the MMU refuses ends in [PageFault].  The
    invariant [tiles] says that the headers chain exactly from [heap_start] to
    [heap_end]; [live] is the set of blocks the kernel holds; [backed] says that
    every page of the region is mapped, and [isolated] that the pages of the
    kernel's window are mapped to frames of their own, so that words at
    different addresses are different words of memory. *)
From S2P Require Import Prelude Bitset FrameAlloc Paging.

Definition HEAP_END_MIN : Z := 268439552.

(** What running a piece of the kernel comes to: a value, a page fault at an
    address (with the page tables at that moment), or not enough fuel. *)
Inductive run (F A : Type) : Type :=
| Ret (a : A)
| PageFault (addr : Z) (p : @pstate F)
| NoFuel.
Arguments Ret {F A}. Arguments PageFault {F A}. Arguments NoFuel {F A}.

#[export] Instance run_bind {F} : MBind (run F) := fun A B f m =>
  match m with Ret a => f a | PageFault a p => PageFault a p | NoFuel => NoFuel end.

(** The translation of the kernel's own directory. *)
Abbreviation kwalk p v := (walk p (kernel_dir p) v).

Section heap.
Context {F : Type} `{FrameLaws F}.

(** The file's statics, the words of the region, and the paging state that
    [alloc_frame], [free_frame] and [map_kernel_page] act on. *)
Record heap : Type := mkHeap {
  heap_start : Z; heap_end : Z; hmem : Z -> Z; pages : @pstate F
}.

Definition set_word (a v : Z) (s : heap) : heap :=
  mkHeap (heap_start s) (heap_end s) (fun x => if x =? a then v else hmem s x) (pages s).
Definition set_end (e : Z) (s : heap) : heap := mkHeap (heap_start s) e (hmem s) (pages s).
Definition set_pages (p : @pstate F) (s : heap) : heap :=
  mkHeap (heap_start s) (heap_end s) (hmem s) p.

(** [h->size] and [h->is_free] *)
Definition hsize (s : heap) (h : Z) : Z := hmem s h.
Definition is_free (s : heap) (h : Z) : Z := hmem s (h + 4).
Definition set_hsize (h v : Z) (s : heap) : heap := set_word h v s.
Definition set_is_free (h v : Z) (s : heap) : heap := set_word (h + 4) v s.

(** An access through the page tables of the kernel. *)
Definition reaches (p : @pstate F) (a : Z) : bool :=
  match translate p (kernel_dir p) a with Some v => v_write v | None => false end.
Definition reach {A} (a : Z) (s : heap) (k : run F A) : run F A :=
  if reaches (pages s) a then k else PageFault a (pages s).

Definition heap_alloc_frame (s : heap) : Z * heap :=
  let (a, fr) := fr_alloc (frames (pages s)) in (a, set_pages (set_frames fr (pages s)) s).
Definition heap_free_frame (a : Z) (s : heap) : heap :=
  set_pages (set_frames (fr_free a (frames (pages s))) (pages s)) s.

Definition heap_init (s : heap) : run F heap :=
  let s := mkHeap HEAP_START HEAP_END_MIN (hmem s) (pages s) in
  let (a, s) := heap_alloc_frame s in
  let s := set_pages (map_kernel_page (heap_start s) a (Z.lor PAGE_PRESENT PAGE_RW) (pages s)) s in
  let h := heap_start s in
  reach h s (reach (h + 4) s
    (Ret (set_is_free h 1 (set_hsize h (FRAME_SIZE_BYTES - 8) s)))).

(** [(size + 3) & ~3u] *)
Definition align4 (size : Z) : Z := Z.land (u32 (size + 3)) (cnot 32 3).

(** The block [h] is taken: split it if more than a header is left over. *)
Definition take_block (h wanted : Z) (s : heap) : run F heap :=
  s ← (if 8 <? hsize s h - wanted then
         let n := u32 (h + 8 + wanted) in
         reach n s (reach (n + 4) s
           (let s := set_hsize n (hsize s h - wanted - 8) s in
            let s := set_is_free n 1 s in
            Ret (set_hsize h wanted s)))
       else Ret s);
  Ret (set_is_free h 0 s).

(** The search loop: the block found, or the last header it looked at. *)
Fixpoint first_fit (fuel : nat) (cursor h wanted : Z) (s : heap) : run F (Z + Z) :=
  if cursor <? heap_end s then
    match fuel with
    | O => NoFuel
    | S fuel =>
        let h := cursor in
        reach (h + 4) s (reach h s
          (if negb (is_free s h =? 0) && (wanted <=? hsize s h) then Ret (inl h)
           else first_fit fuel (u32 (cursor + (8 + hsize s h))) h wanted s))
    end
  else Ret (inr h).

(** The growth loop, from page [i] on, with [frame] in hand. *)
Fixpoint grow_pages (fuel : nat) (i frame : Z) (s : heap) : run F (Z * heap) :=
  if (i <=? u32 (heap_end s - 4096)) && (i <=? KERNEL_CEILING - 4096) then
    match fuel with
    | O => NoFuel
    | S fuel =>
        let s := set_pages (map_kernel_page i frame (Z.lor PAGE_PRESENT PAGE_RW) (pages s)) s in
        let (frame, s) := heap_alloc_frame s in
        if frame =? 0 then Ret (frame, set_end (u32 (i + 4096)) s)
        else grow_pages fuel (u32 (i + 4096)) frame s
    end
  else Ret (frame, s).

(** The new space goes to the last block [h] if it is free, or to a new block. *)
Definition give_space (h old_heap_end : Z) (s : heap) : run F heap :=
  reach (h + 4) s
    (if negb (is_free s h =? 0)
     then reach h s (Ret (set_hsize h (u32 (hsize s h + (heap_end s - old_heap_end))) s))
     else reach (old_heap_end + 4) s (reach old_heap_end s
            (Ret (set_hsize old_heap_end (u32 (heap_end s - old_heap_end - 8))
                    (set_is_free old_heap_end 1 s))))).

(** After a failed search: double the region. *)
Definition grow (h frame : Z) (s : heap) : run F heap :=
  let growth := u32 (heap_end s - heap_start s) in
  let old_heap_end := heap_end s in
  let s := set_end (u32 (heap_end s + growth)) s in
  '(frame, s) ← grow_pages (Z.to_nat (growth / 4096)) old_heap_end frame s;
  let s := if KERNEL_CEILING <? heap_end s then set_end KERNEL_CEILING s else s in
  let s := if negb (frame =? 0) then heap_free_frame frame s else s in
  give_space h old_heap_end s.

(** [depth] bounds the recursion after a growth. *)
Fixpoint kmalloc_rec (depth : nat) (size : Z) (s : heap) : run F (Z * heap) :=
  let wanted := align4 size in
  r ← first_fit (Z.to_nat ((heap_end s - heap_start s) / 8)) (heap_start s) 0 wanted s;
  match r with
  | inl h => s ← take_block h wanted s; Ret (u32 (h + 8), s)
  | inr h =>
      let (frame, s) := if heap_end s <? KERNEL_CEILING - 4096 then heap_alloc_frame s else (0, s) in
      if negb (frame =? 0) then
        s ← grow h frame s;
        match depth with
        | O => NoFuel
        | S depth => kmalloc_rec depth size s
        end
      else Ret (0, s)
  end.

(** Each growth adds a page at least, so this depth is never exhausted. *)
Definition kmalloc (size : Z) (s : heap) : run F (Z * heap) :=
  kmalloc_rec (Z.to_nat ((KERNEL_CEILING - heap_end s) / 4096)) size s.

(** [while (cursor < heap_end && c->is_free)] *)
Fixpoint coalesce (fuel : nat) (ptr h cursor : Z) (s : heap) : run F heap :=
  if cursor <? heap_end s then
    reach (cursor + 4) s
      (if negb (is_free s cursor =? 0) then
         match fuel with
         | O => NoFuel
         | S fuel =>
             reach cursor s
               (let s := set_hsize h (u32 (hsize s h + (hsize s cursor + 8))) s in
                coalesce fuel ptr h (u32 (ptr + hsize s h)) s)
         end
       else Ret s)
  else Ret s.

Definition kfree (ptr : Z) (s : heap) : run F heap :=
  if ptr =? 0 then Ret s
  else
    let h := u32 (ptr - 8) in
    reach (h + 4) s (reach h s
      (let s := set_is_free h 1 s in
       coalesce (Z.to_nat ((heap_end s - heap_start s) / 8)) ptr h (u32 (ptr + hsize s h)) s)).

(** ** The invariant *)

(** A block as its header describes it. *)
Record block : Type := mkBlock { bsize : Z; bfree : bool }.

(** [bs] are the blocks from address [a] to [e], in order. *)
Fixpoint tiles (m : Z -> Z) (a : Z) (bs : list block) (e : Z) : Prop :=
  match bs with
  | [] => a = e
  | b :: bs =>
      m a = bsize b /\ m (a + 4) = (if bfree b then 1 else 0) /\
      0 <= bsize b /\ bsize b mod 4 = 0 /\ tiles m (a + 8 + bsize b) bs e
  end.

(** Bytes a list of blocks spans. *)
Fixpoint span (bs : list block) : Z :=
  match bs with [] => 0 | b :: bs => 8 + bsize b + span bs end.

(** The blocks in use, as (payload address, payload size). *)
Fixpoint live (a : Z) (bs : list block) : list (Z * Z) :=
  match bs with
  | [] => []
  | b :: bs =>
      (if bfree b then [] else [(a + 8, bsize b)]) ++ live (a + 8 + bsize b) bs
  end.

Record heap_wf (s : heap) (bs : list block) : Prop := {
  wf_start : heap_start s = HEAP_START;
  wf_end : HEAP_START < heap_end s <= KERNEL_CEILING /\ heap_end s mod 4096 = 0;
  wf_tiles : tiles (hmem s) (heap_start s) bs (heap_end s)
}.

Lemma tiles_span m a bs e : tiles m a bs e -> e = a + span bs /\ 8 * Z.of_nat (length bs) <= span bs.
Proof using.
  revert a. induction bs as [|b bs IH]; intros a Ht; cbn [tiles span length] in *; [lia|].
  destruct Ht as (_ & _ & ? & _ & Ht). destruct (IH _ Ht). lia.
Qed.

Lemma tiles_app m a bs1 bs2 e :
  tiles m a (bs1 ++ bs2) e <-> tiles m a bs1 (a + span bs1) /\ tiles m (a + span bs1) bs2 e.
Proof using.
  revert a. induction bs1 as [|b bs1 IH]; intros a; cbn [tiles span app].
  - rewrite Z.add_0_r. tauto.
  - rewrite IH. replace (a + (8 + bsize b + span bs1)) with (a + 8 + bsize b + span bs1) by lia.
    tauto.
Qed.

Lemma tiles_first m a b bs e : tiles m a (b :: bs) e -> a + 8 + bsize b <= e.
Proof using.
  intros (_ & _ & _ & _ & Ht). pose proof (tiles_span _ _ _ _ Ht). lia.
Qed.

(** Only the words of the region matter. *)
Lemma tiles_ext m m' a bs e :
  (forall x, a <= x < e -> m' x = m x) -> tiles m a bs e -> tiles m' a bs e.
Proof using.
  revert a. induction bs as [|b bs IH]; intros a Hx Ht; [done|].
  pose proof (tiles_span _ _ _ _ Ht) as [He _]. cbn [tiles span] in *.
  destruct Ht as (H1 & H2 & H3 & H4 & Ht). pose proof (tiles_span _ _ _ _ Ht) as [_ Hs].
  rewrite !Hx by lia. do 4 (split; [done|]). apply IH; [|done]. intros x ?. apply Hx. lia.
Qed.

Lemma span_app bs1 bs2 : span (bs1 ++ bs2) = span bs1 + span bs2.
Proof using. induction bs1 as [|b bs1 IH]; cbn [span app]; [lia|]. rewrite IH. lia. Qed.

Lemma live_app a bs1 bs2 : live a (bs1 ++ bs2) = live a bs1 ++ live (a + span bs1) bs2.
Proof using.
  revert a. induction bs1 as [|b bs1 IH]; intros a; cbn [live span app].
  - by rewrite Z.add_0_r.
  - rewrite IH, <- app_assoc. do 3 f_equal. lia.
Qed.

(** ** The pages of the kernel's window *)

(** Every frame below [HEAP_START], where page tables must lie, is in use. *)
Definition low_full (p : @pstate F) : Prop := forall f, 0 <= f < 65536 -> fr_used (frames p) f = true.
Definition all_full (p : @pstate F) : Prop := forall f, 0 <= f < 1048576 -> fr_used (frames p) f = true.

Definition in_window (v : Z) : Prop := HEAP_START <= v < KERNEL_CEILING.

(** The pages of the window that are mapped are writable, out of reach of user
    mode, and mapped to frames that the allocator holds as used, that hold
    neither the directory nor a table, and that differ from page to page. *)
Record isolated (p : @pstate F) : Prop := {
  iso_wf : pg_wf p (kernel_dir p);
  iso_page v e : in_window v -> kwalk p v = Some e ->
    writable e = true /\ user e = false /\ fr_used (frames p) (e / 4096) = true /\
    ~ is_table p (kernel_dir p) (e / 4096) /\ e / 4096 <> kernel_dir p / 4096;
  iso_inj v v' e e' : in_window v -> in_window v' -> kwalk p v = Some e -> kwalk p v' = Some e' ->
    e / 4096 = e' / 4096 -> v / 4096 = v' / 4096
}.

Definition backed_to (s : heap) (e : Z) : Prop :=
  forall v, HEAP_START <= v < e -> reaches (pages s) v = true.
(** Every page of the region is there. *)
Definition backed (s : heap) : Prop := backed_to s (heap_end s).

Lemma window_u32 v : in_window v -> is_u32 v.
Proof using. unfold in_window, is_u32, HEAP_START, KERNEL_CEILING. lia. Qed.

Lemma reaches_walk p v : isolated p -> in_window v ->
  reaches p v = match kwalk p v with Some _ => true | None => false end.
Proof using.
  intros Hi Hv. unfold reaches. rewrite translate_walk by (apply Hi || by apply window_u32).
  destruct (kwalk p v) as [e|] eqn:E; [|done]. cbn. by apply (iso_page _ Hi v e).
Qed.

(** A frame that nothing of the kernel's window uses, held by the allocator. *)
Definition owned (p : @pstate F) (f : Z) : Prop :=
  0 < f < 1048576 /\ fr_used (frames p) f = true /\ ~ is_table p (kernel_dir p) f /\
  f <> kernel_dir p / 4096 /\ forall v e, in_window v -> kwalk p v = Some e -> e / 4096 <> f.

Lemma pg_wf_frames p fr :
  pg_wf p (kernel_dir p) -> fr_wf fr ->
  (forall g, 0 <= g < 1048576 -> (g = kernel_dir p / 4096 \/ is_table p (kernel_dir p) g) ->
     fr_used (frames p) g = true -> fr_used fr g = true) ->
  pg_wf (set_frames fr p) (kernel_dir (set_frames fr p)).
Proof using.
  intros Hwf Hfr Hu. destruct (pg_dir _ _ Hwf) as (Hd & Hdr & Hdu). split; cbn.
  - done.
  - apply Hwf.
  - split; [done|]. split; [done|]. apply Hu; [lia|by left|done].
  - intros di Hdi Hp. destruct (pg_table _ _ Hwf di Hdi Hp) as (Hr & Htu & Hne).
    split; [done|]. split; [|done]. apply Hu; [change (0 <= pde p (kernel_dir p) di / 4096 < 1048576); lia| |done].
    right. by exists di.
  - apply Hwf.
  - apply Hwf.
  - apply Hwf.
Qed.

(** [alloc_frame] hands out a frame that is nobody's. *)
Lemma alloc_owned p a fr :
  isolated p -> fr_alloc (frames p) = (a, fr) -> a <> 0 ->
  isolated (set_frames fr p) /\ a = 4096 * (a / 4096) /\ owned (set_frames fr p) (a / 4096) /\
  (low_full p -> low_full (set_frames fr p) /\ 65536 <= a / 4096).
Proof using H0.
  intros Hi Ea Ha. pose proof (iso_wf _ Hi) as Hwf.
  destruct (fr_alloc_ok _ _ _ (pg_frames _ _ Hwf) Ea Ha) as (Hfr & f & -> & Hf & Hfree & _ & Hu).
  rewrite (Z.mul_comm 4096 f), Z.div_mul by lia.
  assert (forall g, 0 <= g < 1048576 -> fr_used (frames p) g = true -> fr_used fr g = true) as Hm.
  { intros g Hg Hgu. rewrite Hu by done. by rewrite Hgu, orb_true_r. }
  assert (forall v e, in_window v -> kwalk p v = Some e -> 0 <= e / 4096 < 1048576) as Hr.
  { intros v e Hv E. assert (is_u32 e) as He; [|unfold is_u32 in He; zlia].
    by eapply walk_u32. }
  destruct (free_frame_fresh p (kernel_dir p) f Hwf Hfree) as [Hfd Hft].
  split; [|split; [lia|split; [split; [done|split; [|split; [|split; [done|]]]]|]]].
  - split.
    + apply pg_wf_frames; [done|done|]. intros g Hg _. by apply Hm.
    + intros v e Hv E. destruct (iso_page _ Hi v e Hv E) as (? & ? & ? & ? & ?).
      do 2 (split; [done|]). split; [|done]. apply Hm; [by eapply Hr|done].
    + exact (iso_inj p Hi).
  - cbn. rewrite Hu by lia. by rewrite Z.eqb_refl.
  - intros (di & Hdi & Hp & E). by apply (Hft di).
  - intros v e Hv E <-. destruct (iso_page _ Hi v e Hv E) as (_ & _ & Hc & _). congruence.
  - intros Hl. split; [intros g Hg; cbn; apply Hm; [lia|by apply Hl]|].
    destruct (Z.lt_ge_cases f 65536) as [Hlt|]; [|done]. rewrite Hl in Hfree by lia. done.
Qed.

(** Mapping such a frame at page [i]: the page is there, or there was no frame
    for its table. *)
Lemma map_owned p i f :
  isolated p -> owned p f -> in_window i -> i mod 4096 = 0 ->
  let p' := map_kernel_page i (4096 * f) 3 p in
  isolated p' /\ (forall v, in_window v -> reaches p v = true -> reaches p' v = true) /\
  (low_full p -> low_full p') /\
  ((forall v, i <= v < i + 4096 -> reaches p' v = true) \/ low_full p').
Proof using H0.
  intros Hi (Hf & Hfu & Hft & Hfd & Hfw) Hw Hal p'.
  pose proof (window_u32 _ Hw) as Hu32.
  destruct (map_page_spec p (kernel_dir p) i (4096 * f) 3 (iso_wf _ Hi) Hu32) as (Hwf & (Hk & _ & Hu) & Htf & Ho & Hc);
    [unfold is_u32; lia|zlia|lia|done|]. fold (map_kernel_page i (4096 * f) 3 p) in *. fold p' in Hwf, Hk, Hu, Htf, Ho, Hc.
  assert (forall v, in_window v -> v / 4096 = i / 4096 -> kwalk p' v = kwalk p' i) as Hpage.
  { intros v Hv E. apply walk_page; [by apply window_u32|done|done]. }
  rewrite <- Hk in Hwf.
  assert (forall v e, in_window v -> kwalk p' v = Some e ->
    (v / 4096 = i / 4096 /\ e = 4096 * f + 3) \/ (kwalk p v = Some e)) as Hcase.
  { intros v e Hv E. destruct (Z.eq_dec (v / 4096) (i / 4096)) as [Ev|Ev].
    - rewrite Hpage in E by done. rewrite Hk in E. destruct Hc as [[Hc _]|(Hc & Hn & _)]; [left; split; congruence|congruence].
    - right. rewrite Hk, Ho in E; [done|by apply window_u32|done]. }
  assert (isolated p') as Hi'.
  { split.
    - done.
    - intros v e Hv E. destruct (Hcase v e Hv E) as [[_ ->]|E'].
      + rewrite Z.mul_comm, Z.div_add_l, Z.div_small, Z.add_0_r by lia.
        unfold writable, user. rewrite Z.mul_comm, !testbit_page by lia. do 2 (split; [done|]).
        split; [apply Hu; (done || lia)|]. rewrite Hk. split; [|done]. intros Ht. apply Hft. by apply Htf.
      + destruct (iso_page _ Hi v e Hv E') as (? & ? & Hue & Hte & ?). do 2 (split; [done|]).
        assert (is_u32 e) as He.
        { eapply walk_u32; [apply Hi|exact E']. }
        split; [apply Hu; [unfold is_u32 in He; zlia|done]|]. rewrite Hk. split; [|done].
        intros Ht. apply Hte. by apply Htf.
    - intros v v' e e' Hv Hv' E E' Ee.
      destruct (Hcase v e Hv E) as [[Ev ->]|E1], (Hcase v' e' Hv' E') as [[Ev' ->]|E1'].
      + congruence.
      + exfalso. apply (Hfw v' e' Hv' E1'). rewrite <- Ee. zlia.
      + exfalso. apply (Hfw v e Hv E1). rewrite Ee. zlia.
      + by apply (iso_inj _ Hi v v' e e'). }
  split; [done|]. split; [|split].
  - intros v Hv. rewrite !reaches_walk by done. destruct (Z.eq_dec (v / 4096) (i / 4096)) as [Ev|Ev].
    + rewrite Hpage by done. rewrite (walk_page p _ v i) by (done || by apply window_u32).
      rewrite Hk. destruct Hc as [[-> _]|(-> & _)]; done.
    + by rewrite Hk, Ho by (done || by apply window_u32).
  - intros Hl g Hg. apply Hu; [lia|by apply Hl].
  - destruct Hc as [[Hc _]|(_ & _ & _ & Hl)]; [left|right; intros g Hg; apply Hu; [lia|by apply Hl]].
    intros v Hv. assert (in_window v) as Hvw by (unfold in_window, HEAP_START, KERNEL_CEILING in *; zlia).
    rewrite reaches_walk, Hpage by (done || zlia). by rewrite Hk, Hc.
Qed.

(** Giving it back unused. *)
Lemma free_owned p f :
  isolated p -> owned p f ->
  let p' := set_frames (fr_free (4096 * f) (frames p)) p in
  isolated p' /\ (low_full p -> 65536 <= f -> low_full p').
Proof using H0.
  intros Hi (Hf & Hfu & Hft & Hfd & Hfw). pose proof (iso_wf _ Hi) as Hwf. cbv zeta.
  destruct (fr_free_ok (frames p) (4096 * f) f (pg_frames _ _ Hwf)) as [Hfr Hu];
    [rewrite Z.mul_comm; apply Z.div_mul; lia|done|].
  assert (forall g, 0 <= g < 1048576 -> g <> f -> fr_used (frames p) g = true ->
            fr_used (fr_free (4096 * f) (frames p)) g = true) as Hk.
  { intros g Hg Hne Hgu. rewrite Hu by done. by rewrite (proj2 (Z.eqb_neq g f) Hne). }
  split; [split|].
  - apply pg_wf_frames; [done|done|]. intros g Hg Hd. apply Hk; [done|]. intros ->. by destruct Hd.
  - intros v e Hv E. change (kwalk p v = Some e) in E.
    destruct (iso_page _ Hi v e Hv E) as (? & ? & Hue & ? & ?).
    do 2 (split; [done|]). split; [|done]. apply Hk; [|by apply (Hfw v)|done].
    assert (is_u32 e) as He; [|unfold is_u32 in He; zlia].
    by eapply walk_u32.
  - exact (iso_inj p Hi).
  - intros Hl Hhi g Hg. apply Hk; [lia|lia|by apply Hl].
Qed.

Lemma reach_cases {A} a s (k : run F A) :
  (reaches (pages s) a = true /\ reach a s k = k) \/
  (reaches (pages s) a = false /\ reach a s k = PageFault a (pages s)).
Proof using. unfold reach. destruct (reaches (pages s) a); auto. Qed.

Lemma reach_ok {A} a s (k : run F A) : reaches (pages s) a = true -> reach a s k = k.
Proof using. unfold reach. by intros ->. Qed.

(** An access outside the mapped pages of the region [a, e). *)
Definition faults {A} (s : heap) (a e : Z) (m : run F A) : Prop :=
  exists x, a <= x < e /\ reaches (pages s) x = false /\ m = PageFault x (pages s).

(** A header inside the region is reached, or the access faults. *)
Lemma reach_header {A} s a e x y (k : run F A) : a <= x < e -> a <= y < e ->
  reach x s (reach y s k) = k \/ faults s a e (reach x s (reach y s k)).
Proof using.
  intros Hx Hy. destruct (reach_cases x s (reach y s k)) as [[_ ->]|[? ->]]; [|right; by exists x].
  destruct (reach_cases y s k) as [[_ ->]|[? ->]]; [by left|right; by exists y].
Qed.

Lemma faults_wider {A} s a a' e (m : run F A) : a' <= a -> faults s a e m -> faults s a' e m.
Proof using. intros Ha (x & Hx & Hr & E). exists x. split; [lia|done]. Qed.

Definition fits (wanted : Z) (b : block) : bool := bfree b && (wanted <=? bsize b).

Lemma first_fit_spec s bs wanted fuel cursor h :
  tiles (hmem s) cursor bs (heap_end s) -> 0 <= cursor -> heap_end s < 4294967296 ->
  (length bs <= fuel)%nat ->
  (exists pre b post, bs = pre ++ b :: post /\ fits wanted b = true /\
     first_fit fuel cursor h wanted s = Ret (inl (cursor + span pre))) \/
  (Forall (fun b => fits wanted b = false) bs /\ first_fit fuel cursor h wanted s =
     Ret (inr (match rev bs with [] => h | b :: _ => heap_end s - 8 - bsize b end))) \/
  faults s cursor (heap_end s) (first_fit fuel cursor h wanted s).
Proof using.
  revert fuel cursor h. induction bs as [|b bs IH]; intros fuel cursor h Ht Hc He Hf.
  { right. left. cbn in Ht. subst. split; [done|]. destruct fuel; cbn; by rewrite Z.ltb_irrefl. }
  pose proof (tiles_span _ _ _ _ Ht) as [Hspan _]. cbn [tiles span] in *.
  destruct Ht as (Hs & Hfr & Hb0 & Hb4 & Ht). pose proof (tiles_span _ _ _ _ Ht) as [_ Hlen].
  destruct fuel as [|fuel]; [cbn in Hf; lia|]. cbn [first_fit].
  ztrue (cursor <? heap_end s). cbv zeta.
  match goal with |- context [reach _ s (reach _ s ?k)] =>
    destruct (reach_header s cursor (heap_end s) (cursor + 4) cursor k) as [->|Hflt] end;
    [lia|lia| |by right; right].
  unfold is_free, hsize. rewrite Hfr, Hs.
  replace (negb ((if bfree b then 1 else 0) =? 0)) with (bfree b) by (by destruct (bfree b)).
  fold (fits wanted b). destruct (fits wanted b) eqn:Efit.
  { left. exists [], b, bs. cbn [span app]. rewrite Z.add_0_r. done. }
  unfold u32. rewrite Z.mod_small by lia.
  replace (cursor + (8 + bsize b)) with (cursor + 8 + bsize b) by lia.
  destruct (IH fuel (cursor + 8 + bsize b) cursor Ht) as [(pre & b' & post & -> & Hfit & E)|[[Hall E]|Hflt]];
    [lia|lia|cbn in Hf; lia| | |].
  - left. exists (b :: pre), b', post. rewrite E. cbn [span app].
    split; [done|]. split; [done|]. do 2 f_equal. lia.
  - right. left. split; [by constructor|]. rewrite E. do 2 f_equal. cbn [rev]. destruct (rev bs) as [|b' l] eqn:Er; cbn [app]; [|done].
    apply (f_equal (@rev _)) in Er. rewrite rev_involutive in Er. subst bs. cbn in Ht. lia.
  - right. right. eapply faults_wider; [|exact Hflt]. lia.
Qed.

(** Reduce the accessors of an updated heap. *)
Ltac hcbn := cbn [hmem heap_start heap_end pages set_is_free set_hsize set_word set_end set_pages].

(** The words [take_block] writes. *)
Definition taken (h wanted : Z) (s : heap) : heap :=
  let s :=
    if 8 <? hsize s h - wanted then
      let n := u32 (h + 8 + wanted) in
      set_hsize h wanted (set_is_free n 1 (set_hsize n (hsize s h - wanted - 8) s))
    else s in
  set_is_free h 0 s.

Lemma take_block_run h wanted s :
  let n := u32 (h + 8 + wanted) in
  take_block h wanted s = Ret (taken h wanted s) \/
  (8 < hsize s h - wanted /\ faults s n (n + 8) (take_block h wanted s)).
Proof using.
  intros n. unfold take_block, taken. destruct (Z.ltb_spec 8 (hsize s h - wanted)) as [Hs|]; [|by left].
  cbv zeta. fold n. match goal with |- context [reach _ s (reach _ s ?k)] =>
    destruct (reach_header s n (n + 8) n (n + 4) k) as [->|(x & Hx & Hr & ->)] end; [lia|lia|by left|].
  right. split; [done|]. by exists x.
Qed.

Lemma taken_rest h wanted s :
  pages (taken h wanted s) = pages s /\ heap_end (taken h wanted s) = heap_end s /\
  heap_start (taken h wanted s) = heap_start s.
Proof using. unfold taken. by destruct (8 <? _). Qed.

Lemma take_block_spec s pre b post h wanted :
  heap_wf s (pre ++ b :: post) -> fits wanted b = true -> 0 <= wanted -> wanted mod 4 = 0 ->
  h = heap_start s + span pre ->
  exists bs', heap_wf (taken h wanted s) (pre ++ bs' ++ post) /\
    (exists c rest, bs' = c :: rest /\ bfree c = false /\ wanted <= bsize c /\
       live (h + 8 + bsize c) rest = []) /\
    span bs' = 8 + bsize b /\
    heap_end (taken h wanted s) = heap_end s /\
    (forall x, x < h \/ h + 8 + bsize b <= x -> hmem (taken h wanted s) x = hmem s x).
Proof using.
  intros [Hst [He Hal] Ht] Hfit Hw0 Hw4 ->.
  apply andb_true_iff in Hfit as [Hbf Hle%Z.leb_le].
  apply tiles_app in Ht as [Hpre Ht]. cbn [tiles] in Ht.
  destruct Ht as (Hs & Hfr & Hb0 & Hb4 & Hpost).
  set (h := heap_start s + span pre) in *.
  pose proof (tiles_span _ _ _ _ Hpre) as [_ Hlpre]. pose proof (tiles_span _ _ _ _ Hpost) as [Hepost Hlpost].
  assert (HEAP_START <= h) by (unfold h; lia). unfold HEAP_START, KERNEL_CEILING in *.
  unfold taken, hsize. rewrite Hs. destruct (Z.ltb_spec 8 (bsize b - wanted)) as [Hsplit|Hwhole].
  - exists [mkBlock wanted false; mkBlock (bsize b - wanted - 8) true].
    set (n := u32 (h + 8 + wanted)). assert (n = h + 8 + wanted) as En by (unfold n, u32; rewrite Z.mod_small; lia).
    split; [split; hcbn|].
    + done.
    + done.
    + apply tiles_app. split; [|cbn [tiles app bsize bfree]; fold h].
      * eapply tiles_ext; [|exact Hpre]. intros x Hx. hcbn. fold h in Hx.
        zfalse (x =? h + 4). zfalse (x =? h). zfalse (x =? n + 4). zfalse (x =? n). done.
      * hcbn. rewrite En.
        repeat split; repeat (zcase; try lia); try done; try zlia.
        replace (h + 8 + wanted + 8 + (bsize b - wanted - 8)) with (h + 8 + bsize b) by lia.
        eapply tiles_ext; [|exact Hpost]. intros x Hx. hcbn.
        zfalse (x =? h + 4). zfalse (x =? h). zfalse (x =? h + 8 + wanted + 4).
        zfalse (x =? h + 8 + wanted). done.
    + split; [by eexists _, _|]. split; [cbn [span bsize]; lia|]. split; [done|].
      intros x Hx. hcbn. rewrite En. 
      zfalse (x =? h + 4). zfalse (x =? h). zfalse (x =? h + 8 + wanted + 4).
      zfalse (x =? h + 8 + wanted). done.
  - exists [mkBlock (bsize b) false].
    split; [split; hcbn|].
    + done.
    + done.
    + apply tiles_app. split; [|cbn [tiles app bsize bfree]; fold h].
      * eapply tiles_ext; [|exact Hpre]. intros x Hx. hcbn. fold h in Hx.
        by zfalse (x =? h + 4).
      * hcbn. rewrite Z.eqb_refl. zfalse (h =? h + 4). do 4 (split; [done|]).
        eapply tiles_ext; [|exact Hpost]. intros x Hx. by zfalse (x =? h + 4).
    + split; [by eexists _, _|]. split; [cbn [span bsize]; lia|]. split; [done|].
      intros x Hx. hcbn. by zfalse (x =? h + 4).
Qed.

Lemma live_range m a bs e p n :
  tiles m a bs e -> (p, n) ∈ live a bs -> a + 8 <= p /\ 0 <= n /\ p + n <= e.
Proof using.
  revert a. induction bs as [|b bs IH]; intros a Ht Hin; cbn [live] in Hin; [by apply not_elem_of_nil in Hin|].
  pose proof (tiles_span _ _ _ _ Ht) as [-> _]. cbn [tiles span] in *.
  destruct Ht as (_ & _ & ? & _ & Ht). pose proof (tiles_span _ _ _ _ Ht) as [E Hl].
  apply elem_of_app in Hin as [Hin|Hin].
  - destruct (bfree b); [by apply not_elem_of_nil in Hin|]. apply list_elem_of_singleton in Hin. simplify_eq. lia.
  - destruct (IH _ Ht Hin). lia.
Qed.

(** Payload words of live blocks survive from [s] to [s']. *)
Definition keeps (l : list (Z * Z)) (s s' : heap) : Prop :=
  forall p n x, (p, n) ∈ l -> p <= x < p + n -> hmem s' x = hmem s x.

(** What a run may come to: a result with [Q], or a fault in the kernel's window
    because map_page found no frame for a table; never lack of fuel. *)
Definition outcome {A} (m : run F A) (Q : A -> Prop) : Prop :=
  match m with
  | Ret a => Q a
  | PageFault a p => in_window a /\ reaches p a = false /\ low_full p
  | NoFuel => False
  end.

Lemma outcome_bind {A B} (m : run F A) (f : A -> run F B) Q :
  outcome m (fun a => outcome (f a) Q) -> outcome (m ≫= f) Q.
Proof using. by destruct m. Qed.

Lemma outcome_mono {A} (m : run F A) (Q Q' : A -> Prop) :
  (forall a, Q a -> Q' a) -> outcome m Q -> outcome m Q'.
Proof using. intros HQ. destruct m; cbn; auto. Qed.

(** The region is backed, or there was no frame left for a table. *)
Definition backed_or_full (s : heap) : Prop := backed s \/ low_full (pages s).

Lemma outcome_faults {A} s a e (m : run F A) Q :
  backed_or_full s -> HEAP_START <= a -> e <= heap_end s <= KERNEL_CEILING -> faults s a e m -> outcome m Q.
Proof using.
  intros Hb Ha He (x & Hx & Hr & ->). cbn. split; [unfold in_window; lia|]. split; [done|].
  destruct Hb as [Hb|?]; [|done]. rewrite Hb in Hr by lia. done.
Qed.

(** The frame in hand during the growth. *)
Definition held (p : @pstate F) (frame : Z) : Prop := frame = 4096 * (frame / 4096) /\ owned p (frame / 4096).

Lemma set_frames_same (p : @pstate F) : set_frames (frames p) p = p.
Proof using. by destruct p. Qed.

Lemma grow_pages_spec fuel i frame s :
  HEAP_START <= i <= KERNEL_CEILING -> i mod 4096 = 0 -> i <= heap_end s < 4294967296 ->
  heap_end s mod 4096 = 0 -> heap_end s - i <= 4096 * Z.of_nat fuel ->
  isolated (pages s) -> held (pages s) frame ->
  backed_to s i \/ (low_full (pages s) /\ 65536 <= frame / 4096) ->
  exists frame' s', grow_pages fuel i frame s = Ret (frame', s') /\
    hmem s' = hmem s /\ heap_start s' = heap_start s /\ heap_end s' mod 4096 = 0 /\
    (heap_end s' = heap_end s \/ i < heap_end s' <= heap_end s) /\
    isolated (pages s') /\ (frame' = 0 \/ held (pages s') frame') /\
    (backed_to s' (Z.min (heap_end s') KERNEL_CEILING) \/
     (low_full (pages s') /\ (frame' = 0 \/ 65536 <= frame' / 4096))).
Proof using H0.
  unfold HEAP_START. revert i frame s. induction fuel as [|fuel IH]; intros i frame s Hi Hia He Hea Hf Hiso Hh Hb;
    cbn [grow_pages]; unfold u32 at 1; rewrite Z.mod_small by lia; unfold KERNEL_CEILING in *.
  { zfalse (i <=? heap_end s - 4096). cbn [andb]. eexists _, _. split; [done|]. do 5 (split; [auto|]). split; [auto|].
    replace (Z.min (heap_end s) 1073741824) with i by lia. destruct Hb as [?|[? ?]]; auto. }
  destruct (Z.leb_spec i (heap_end s - 4096)) as [Hle|Hgt]; cbn [andb].
  2:{ eexists _, _. split; [done|]. do 5 (split; [auto|]). split; [auto|].
      replace (Z.min (heap_end s) 1073741824) with i by zlia. destruct Hb as [?|[? ?]]; auto. }
  destruct (Z.leb_spec i (1073741824 - 4096)) as [Hc|Hc].
  2:{ eexists _, _. split; [done|]. do 5 (split; [auto|]). split; [auto|].
      replace (Z.min (heap_end s) 1073741824) with i by zlia. destruct Hb as [?|[? ?]]; auto. }
  destruct Hh as [Ef Hown].
  destruct (map_owned (pages s) i (frame / 4096) Hiso Hown) as (Hi1 & Hm1 & Hl1 & Hp1);
    [unfold in_window, HEAP_START, KERNEL_CEILING; lia|done|]. rewrite <- Ef in *.
  change (Z.lor PAGE_PRESENT PAGE_RW) with 3. unfold heap_alloc_frame. hcbn.
  set (p1 := map_kernel_page i frame 3 (pages s)) in *. clearbody p1.
  assert (backed_to (set_pages p1 s) (i + 4096) \/ low_full p1) as Hb1.
  { destruct Hb as [Hb|[Hb _]]; [|right; by apply Hl1]. destruct Hp1 as [Hp1|?]; [left|by right].
    intros v Hv. hcbn. destruct (Z.lt_ge_cases v i); [|apply Hp1; lia].
    apply Hm1; [unfold in_window, HEAP_START, KERNEL_CEILING in *; lia|]. apply Hb. lia. }
  destruct (fr_alloc (frames p1)) as [fr' fs] eqn:Ea.
  unfold u32. rewrite Z.mod_small by lia. destruct (Z.eqb_spec fr' 0) as [->|Hfr].
  - destruct (fr_alloc_fail _ _ (pg_frames _ _ (iso_wf _ Hi1)) Ea) as [-> _]. rewrite set_frames_same.
    eexists _, _. split; [done|]. hcbn. split; [done|]. split; [done|]. split; [zlia|]. split; [lia|].
    split; [done|]. split; [auto|]. replace (Z.min (i + 4096) 1073741824) with (i + 4096) by lia.
    destruct Hb1 as [?|?]; auto.
  - destruct (alloc_owned p1 fr' fs Hi1 Ea Hfr) as (Hi2 & Ef' & Hown' & Hl2). hcbn.
    destruct (IH (i + 4096) fr' (set_pages (set_frames fs p1) s)) as (f' & s' & E & Hm & Hs & Ha & Hd & Hrest);
      hcbn; [lia|zlia|lia|done|lia|done|done| |].
    { destruct Hb1 as [Hb1|Hb1]; [by left|right; by apply Hl2]. }
    exists f', s'. split; [exact E|]. cbn in Hm, Hs, Hd. split; [done|]. split; [done|].
    split; [done|]. split; [lia|done].
Qed.

(** The heap after [give_space], when its accesses are let through. *)
Definition given (h old_heap_end : Z) (s : heap) : heap :=
  if negb (is_free s h =? 0)
  then set_hsize h (u32 (hsize s h + (heap_end s - old_heap_end))) s
  else set_hsize old_heap_end (u32 (heap_end s - old_heap_end - 8))
         (set_is_free old_heap_end 1 s).

Lemma give_space_run h old s : HEAP_START <= h -> h + 8 <= old -> old + 8 <= heap_end s ->
  give_space h old s = Ret (given h old s) \/ faults s HEAP_START (heap_end s) (give_space h old s).
Proof using.
  intros Hh Ho He. unfold give_space, given.
  match goal with |- context [reach (h + 4) s ?k] => destruct (reach_cases (h + 4) s k) as [[_ ->]|[? ->]] end;
    [|right; exists (h + 4); split; [lia|done]].
  destruct (negb _).
  - match goal with |- context [reach h s ?k] => destruct (reach_cases h s k) as [[_ ->]|[? ->]] end; [by left|].
    right. exists h. split; [lia|done].
  - apply reach_header; lia.
Qed.

Lemma given_rest h old s :
  pages (given h old s) = pages s /\ heap_end (given h old s) = heap_end s.
Proof using. unfold given. by destruct (negb _). Qed.

(** Growing makes room above the old end and touches no word. *)
Lemma grow_room s bs frame h :
  heap_wf s bs -> heap_end s < KERNEL_CEILING - 4096 -> isolated (pages s) -> held (pages s) frame ->
  backed s \/ (low_full (pages s) /\ 65536 <= frame / 4096) ->
  exists s3, grow h frame s = give_space h (heap_end s) s3 /\ hmem s3 = hmem s /\
    heap_start s3 = heap_start s /\ heap_end s3 mod 4096 = 0 /\
    heap_end s < heap_end s3 <= KERNEL_CEILING /\ isolated (pages s3) /\ backed_or_full s3.
Proof using H0.
  intros [Hst [He Hal] _] Hlim Hiso Hh Hb. unfold grow.
  assert (heap_start s mod 4096 = 0) as Hsa by (by rewrite Hst).
  unfold HEAP_START, KERNEL_CEILING in *.
  set (g := u32 (heap_end s - heap_start s)).
  assert (g = heap_end s - heap_start s) as Eg by (unfold g, u32; rewrite Z.mod_small; lia).
  assert (g mod 4096 = 0 /\ 0 < g) as [Hg4 Hg0] by zlia.
  set (E := u32 (heap_end s + g)).
  assert (E = heap_end s + g) as EE by (unfold E, u32; rewrite Z.mod_small; lia).
  destruct (grow_pages_spec (Z.to_nat (g / 4096)) (heap_end s) frame (set_end E s))
    as (f' & s1 & -> & Hm & Hs1 & Ha1 & Hd1 & Hi1 & Hh1 & Hb1); hcbn; unfold HEAP_START, KERNEL_CEILING;
    [lia|done|lia|zlia|zlia|done|done|done|].
  cbn [mbind run_bind]. cbn in Hm, Hs1, Hd1. eexists. split; [reflexivity|]. unfold KERNEL_CEILING in Hb1.
  set (s2 := if 1073741824 <? heap_end s1 then _ else s1).
  assert (hmem s2 = hmem s /\ heap_start s2 = heap_start s /\ heap_end s2 mod 4096 = 0 /\
          heap_end s < heap_end s2 <= 1073741824 /\ pages s2 = pages s1 /\
          heap_end s2 = Z.min (heap_end s1) 1073741824) as (Hm2 & Hs2 & Ha2 & He2 & Hp2 & Em2).
  { unfold s2. destruct (Z.ltb_spec 1073741824 (heap_end s1)); hcbn; repeat split; (done || lia). }
  clearbody s2. rewrite <- Em2, <- Hp2 in *.
  assert (backed_to s2 (heap_end s2) \/ (low_full (pages s2) /\ (f' = 0 \/ 65536 <= f' / 4096))) as Hb2.
  { destruct Hb1 as [Hb1|?]; [left|by right]. intros v Hv. rewrite Hp2. by apply Hb1. }
  unfold heap_free_frame. destruct (Z.eqb_spec f' 0) as [Hz|Hz]; cbn [negb]; hcbn.
  - do 5 (split; [done|]). destruct Hb2 as [?|[? _]]; [by left|by right].
  - destruct Hh1 as [?|[Ef Hown]]; [done|].
    destruct (free_owned (pages s2) (f' / 4096) Hi1 Hown) as [Hi3 Hl3]. rewrite <- Ef in *.
    do 5 (split; [done|]). destruct Hb2 as [Hb2|[Hl2 [?|Hhi]]]; [by left|done|].
    right. hcbn. by apply Hl3.
Qed.

Lemma tiles_snoc m a bs e b :
  tiles m a bs e -> m e = bsize b -> m (e + 4) = (if bfree b then 1 else 0) ->
  0 <= bsize b -> bsize b mod 4 = 0 -> tiles m a (bs ++ [b]) (e + 8 + bsize b).
Proof using.
  intros Ht H1 H2 H3 H4. pose proof (tiles_span _ _ _ _ Ht) as [E _]. apply tiles_app.
  rewrite <- E. split; [done|]. cbn [tiles]. done.
Qed.

Lemma given_spec s s3 bs h last :
  heap_wf s bs -> heap_end s < KERNEL_CEILING - 4096 ->
  bs = last ++ [mkBlock (hsize s h) (negb (is_free s h =? 0))] -> h = heap_start s + span last ->
  hmem s3 = hmem s -> heap_start s3 = heap_start s -> heap_end s3 mod 4096 = 0 ->
  heap_end s < heap_end s3 <= KERNEL_CEILING ->
  let s' := given h (heap_end s) s3 in
  exists bs', heap_wf s' bs' /\
    live HEAP_START bs' = live HEAP_START bs /\ keeps (live HEAP_START bs) s s'.
Proof using.
  intros [Hst [He Hal] Ht] Hlim Ebs Hh Hm3 Hs3 Ha3 He3. unfold given, is_free, hsize in *. cbv zeta. rewrite Hm3.
  pose proof Ht as Ht0. rewrite Ebs in Ht0. apply tiles_app in Ht0 as [Hlast Htl].
  rewrite <- Hh in Hlast, Htl. cbn [tiles bsize bfree] in Htl. destruct Htl as (_ & Hfr & Hsz0 & Hsz4 & Hend).
  pose proof (tiles_span _ _ _ _ Hlast) as [_ Hll].
  set (d := heap_end s3 - heap_end s). unfold HEAP_START, KERNEL_CEILING in *.
  assert (d mod 4096 = 0 /\ 4096 <= d < 4294967296) as [Hd4 Hd0] by (unfold d; zlia).
  destruct (Z.eqb_spec (hmem s (h + 4)) 0) as [Hused|Hfree]; cbn [negb] in *.
  - assert (u32 (d - 8) = d - 8) as -> by (unfold u32; rewrite Z.mod_small; lia).
    exists (bs ++ [mkBlock (d - 8) true]).
    split; [split; hcbn|split].
    + by rewrite Hs3.
    + unfold HEAP_START, KERNEL_CEILING. lia.
    + replace (heap_end s3) with (heap_end s + 8 + bsize (mkBlock (d - 8) true)) by (unfold d; cbn [bsize]; lia).
      rewrite Hs3. apply tiles_snoc; cbn [bsize bfree]; rewrite ?Z.eqb_refl.
      * eapply tiles_ext; [|exact Ht]. intros x Hx. rewrite Hm3.
        zfalse (x =? heap_end s). by zfalse (x =? heap_end s + 4).
      * done.
      * by zfalse (heap_end s + 4 =? heap_end s).
      * lia.
      * zlia.
    + rewrite live_app. cbn [live bfree app]. by rewrite app_nil_r.
    + intros p n x Hin Hx. hcbn. rewrite Hm3. rewrite Hst in Ht.
      destruct (live_range _ _ _ _ p n Ht Hin).
      zfalse (x =? heap_end s). by zfalse (x =? heap_end s + 4).
  - assert (u32 (hmem s h + d) = hmem s h + d) as -> by (unfold u32; rewrite Z.mod_small; unfold d in *; lia).
    exists (last ++ [mkBlock (hmem s h + d) true]).
    split; [split; hcbn|].
    + by rewrite Hs3.
    + unfold HEAP_START, KERNEL_CEILING. lia.
    + replace (heap_end s3) with (h + 8 + bsize (mkBlock (hmem s h + d) true)) by (unfold d; cbn [bsize]; lia).
      rewrite Hs3. apply tiles_snoc; cbn [bsize bfree]; rewrite ?Z.eqb_refl.
      * eapply tiles_ext; [|exact Hlast]. intros x Hx. rewrite Hm3. by zfalse (x =? h).
      * done.
      * rewrite Hm3. by zfalse (h + 4 =? h).
      * lia.
      * zlia.
    + rewrite Ebs, !live_app. cbn [live bsize bfree app]. split; [done|].
      intros p n x Hin Hx. hcbn. rewrite Hm3. rewrite app_nil_r in Hin.
      rewrite <- Hst in Hin. destruct (live_range _ _ _ _ p n Hlast Hin). by zfalse (x =? h).
Qed.

Lemma grow_spec s bs frame h last :
  heap_wf s bs -> heap_end s < KERNEL_CEILING - 4096 -> isolated (pages s) -> held (pages s) frame ->
  backed s \/ (low_full (pages s) /\ 65536 <= frame / 4096) ->
  bs = last ++ [mkBlock (hsize s h) (negb (is_free s h =? 0))] -> h = heap_start s + span last ->
  outcome (grow h frame s) (fun s' => exists bs', heap_wf s' bs' /\ heap_end s < heap_end s' /\
    isolated (pages s') /\ backed_or_full s' /\
    live HEAP_START bs' = live HEAP_START bs /\ keeps (live HEAP_START bs) s s').
Proof using H0.
  intros Hwf Hlim Hiso Hh Hb Ebs Eh.
  destruct (grow_room s bs frame h Hwf Hlim Hiso Hh Hb) as (s3 & -> & Hm3 & Hs3 & Ha3 & He3 & Hi3 & Hb3).
  destruct (given_spec s s3 bs h last Hwf Hlim Ebs Eh Hm3 Hs3 Ha3 He3) as (bs' & Hwf' & Hl & Hk).
  destruct Hwf as [Hst [He Hal] Ht]. rewrite Ebs in Ht. apply tiles_app in Ht as [Hlast Htl].
  rewrite <- Eh in Htl. pose proof (tiles_span _ _ _ _ Hlast) as [_ Hll].
  pose proof (tiles_first _ _ _ _ _ Htl) as Hfst. cbn [tiles bsize] in Htl, Hfst. destruct Htl as (_ & _ & Hsz & _).
  destruct (given_rest h (heap_end s) s3) as [Ep Ee].
  destruct (give_space_run h (heap_end s) s3) as [->|Hf]; [lia|lia|zlia| |].
  - exists bs'. unfold backed_or_full, backed, backed_to in *. rewrite Ep, Ee in *. split; [done|]. split; [lia|done].
  - eapply outcome_faults; [exact Hb3|reflexivity| |exact Hf]. lia.
Qed.

Lemma align4_spec size :
  is_u32 size ->
  align4 size = (size + 3) mod 4294967296 / 4 * 4 /\
  0 <= align4 size < 4294967296 /\ align4 size mod 4 = 0 /\
  (size <= 4294967292 -> size <= align4 size < size + 4).
Proof using.
  unfold is_u32. intros Hs.
  assert (align4 size = (size + 3) mod 4294967296 / 4 * 4) as ->.
  { unfold align4. change (cnot 32 3) with (cnot 32 (2 ^ 2 - 1)).
    rewrite land_cnot_ones; [done|lia|]. change (2 ^ 32) with 4294967296. unfold u32. zlia. }
  split; [done|]. split; [zlia|]. split; [zlia|]. intros Hle. rewrite Z.mod_small by lia. zlia.
Qed.

Lemma span_mod4 m a bs e : tiles m a bs e -> span bs mod 4 = 0.
Proof using.
  revert a. induction bs as [|b bs IH]; intros a Ht; cbn [tiles span] in *; [done|].
  destruct Ht as (_ & _ & _ & ? & Ht). specialize (IH _ Ht). zlia.
Qed.

(** What an allocation of [size] that answers [r] did to the blocks in use. *)
Definition allocated (size r : Z) (l l' : list (Z * Z)) : Prop :=
  exists n, r mod 4 = 0 /\ HEAP_START < r /\ align4 size <= n /\ r + n <= KERNEL_CEILING /\
    l' ≡ₚ (r, n) :: l /\ forall p m, (p, m) ∈ l -> p + m + 8 <= r \/ r + n + 8 <= p.

Lemma taken_live s pre b post wanted size :
  heap_wf s (pre ++ b :: post) -> fits wanted b = true -> wanted = align4 size -> is_u32 size ->
  let h := heap_start s + span pre in
  exists bs', heap_wf (taken h wanted s) bs' /\
    keeps (live HEAP_START (pre ++ b :: post)) s (taken h wanted s) /\
    u32 (h + 8) = h + 8 /\
    allocated size (h + 8) (live HEAP_START (pre ++ b :: post)) (live HEAP_START bs').
Proof using.
  intros Hwf Hfit -> Hsz h. destruct (align4_spec size Hsz) as (_ & Ha & Ha4 & _).
  destruct (take_block_spec s pre b post h (align4 size) Hwf Hfit) as
    (bs' & Hwf' & (c & rest & -> & Hc & Hcw & Hrest) & Hspan & Hend & Hmem); [lia|done|done|].
  pose proof Hwf as [Hst [He Hal] Ht]. apply tiles_app in Ht as [Hpre Ht]. cbn [tiles] in Ht.
  destruct Ht as (_ & _ & Hb0 & _ & Hpost). fold h in Hpre, Hpost.
  pose proof (tiles_span _ _ _ _ Hpre) as [_ Hlp]. pose proof (tiles_span _ _ _ _ Hpost) as [Hpe Hlpo].
  pose proof (span_mod4 _ _ _ _ Hpre) as Hp4.
  assert (bfree b = true) as Hbf by (by apply andb_true_iff in Hfit as [? _]).
  assert (live HEAP_START (pre ++ b :: post) = live HEAP_START pre ++ live (h + 8 + bsize b) post) as El.
  { rewrite live_app. cbn [live]. rewrite Hbf. cbn [app]. unfold h. by rewrite Hst. }
  assert (8 + bsize c + span rest = 8 + bsize b) as Hsp by exact Hspan.
  destruct Hwf' as [Hst' He' Ht'].
  assert (tiles (hmem (taken h (align4 size) s)) (heap_start s + span pre)
    ((c :: rest) ++ post) (heap_end s)) as Htc.
  { rewrite Hend in Ht'. apply tiles_app in Ht' as [_ Ht']. by rewrite Hst' in Ht'; rewrite Hst. }
  cbn [app tiles] in Htc. destruct Htc as (_ & _ & Hc0 & _ & Htr). fold h in Htr.
  apply tiles_app in Htr as [Htr _]. pose proof (tiles_span _ _ _ _ Htr) as [_ Hlr].
  assert (live HEAP_START (pre ++ (c :: rest) ++ post) =
          live HEAP_START pre ++ (h + 8, bsize c) :: live (h + 8 + bsize b) post) as El'.
  { rewrite live_app. cbn [app live]. rewrite Hc, live_app. rewrite <- Hst. fold h. rewrite Hrest.
    cbn [app]. do 3 f_equal. lia. }
  unfold HEAP_START, KERNEL_CEILING in *.
  exists (pre ++ (c :: rest) ++ post). split; [done|]. split; [|split].
  - intros p n x Hin Hx. apply Hmem. rewrite El in Hin. apply elem_of_app in Hin as [Hin|Hin].
    + rewrite <- Hst in Hin. destruct (live_range _ _ _ _ p n Hpre Hin). lia.
    + destruct (live_range _ _ _ _ p n Hpost Hin). lia.
  - unfold u32. rewrite Z.mod_small; unfold h; lia.
  - exists (bsize c). split; [unfold h; rewrite Hst; zlia|]. unfold HEAP_START, KERNEL_CEILING.
    split; [lia|]. split; [done|]. split; [lia|]. split.
    + rewrite El', El. symmetry. apply Permutation_middle.
    + rewrite El. intros p n Hin. apply elem_of_app in Hin as [Hin|Hin].
      * rewrite <- Hst in Hin. destruct (live_range _ _ _ _ p n Hpre Hin). lia.
      * destruct (live_range _ _ _ _ p n Hpost Hin). lia.
Qed.

Lemma take_block_outcome s pre b post size :
  heap_wf s (pre ++ b :: post) -> fits (align4 size) b = true -> is_u32 size -> backed_or_full s ->
  let h := heap_start s + span pre in
  u32 (h + 8) = h + 8 /\
  outcome (take_block h (align4 size) s) (fun s' => exists bs', heap_wf s' bs' /\
    pages s' = pages s /\ backed_or_full s' /\
    keeps (live HEAP_START (pre ++ b :: post)) s s' /\
    allocated size (h + 8) (live HEAP_START (pre ++ b :: post)) (live HEAP_START bs')).
Proof using.
  intros Hwf Hfit Hsz Hb h.
  destruct (taken_live s pre b post (align4 size) size Hwf Hfit eq_refl Hsz) as (bs' & Hwf' & Hk & Hu & Hal).
  fold h in Hwf', Hk, Hu, Hal. split; [done|].
  destruct (taken_rest h (align4 size) s) as (Ep & Ee & _).
  destruct (take_block_run h (align4 size) s) as [->|[Hsp Hf]].
  - exists bs'. unfold backed_or_full, backed, backed_to in *. by rewrite Ep, Ee.
  - pose proof Hwf as [Hst [He _] Ht]. apply tiles_app in Ht as [Hpre Ht].
    pose proof (tiles_span _ _ _ _ Hpre) as [_ Hlp]. pose proof (tiles_first _ _ _ _ _ Ht) as Hl.
    cbn [tiles] in Ht. destruct Ht as (Hs & _). fold h in Hs, Hl. unfold hsize in Hsp. rewrite Hs in Hsp.
    destruct (align4_spec size Hsz) as (_ & Ha & _). unfold HEAP_START, KERNEL_CEILING in *.
    assert (u32 (h + 8 + align4 size) = h + 8 + align4 size) as En
      by (unfold u32; rewrite Z.mod_small; unfold h; lia).
    rewrite En in Hf. eapply outcome_faults; [exact Hb| | |exact Hf]; unfold HEAP_START, KERNEL_CEILING; unfold h; lia.
Qed.

Lemma keeps_trans l s1 s2 s3 : keeps l s1 s2 -> keeps l s2 s3 -> keeps l s1 s3.
Proof using. intros H1 H2 p n x Hin Hx. by rewrite (H2 p n), (H1 p n). Qed.

Lemma last_block s bs b l :
  heap_wf s bs -> rev bs = b :: l ->
  let h := heap_end s - 8 - bsize b in
  bs = rev l ++ [mkBlock (hsize s h) (negb (is_free s h =? 0))] /\ h = heap_start s + span (rev l).
Proof using.
  intros [_ _ Ht] Er h. apply (f_equal (@rev _)) in Er. rewrite rev_involutive in Er. cbn in Er.
  rewrite Er in Ht. apply tiles_app in Ht as [_ Ht]. cbn [tiles] in Ht.
  destruct Ht as (Hs & Hf & _ & _ & He).
  assert (h = heap_start s + span (rev l)) as Eh by (unfold h; lia).
  split; [|done]. rewrite Er. do 2 f_equal. unfold hsize, is_free. rewrite Eh, Hs, Hf.
  destruct b as [n []]; done.
Qed.

(** No block fits, and the region cannot grow: it has reached its limit, or no
    frame is free. *)
Definition exhausted (wanted : Z) (s : heap) (bs : list block) : Prop :=
  Forall (fun b => fits wanted b = false) bs /\
  (KERNEL_CEILING - 4096 <= heap_end s \/ all_full (pages s)).

(** The search failed: either the heap cannot grow, or it grows and no block
    in use changes. *)
Lemma grow_or_fail s bs b l :
  heap_wf s bs -> isolated (pages s) -> backed_or_full s -> rev bs = b :: l ->
  let (frame, s1) := if heap_end s <? KERNEL_CEILING - 4096 then heap_alloc_frame s else (0, s) in
  (frame = 0 -> s1 = s /\ (KERNEL_CEILING - 4096 <= heap_end s \/ all_full (pages s))) /\
  (frame <> 0 -> heap_end s < KERNEL_CEILING - 4096 /\
    outcome (grow (heap_end s - 8 - bsize b) frame s1) (fun s2 => exists bs2, heap_wf s2 bs2 /\
      heap_end s + 4096 <= heap_end s2 /\ isolated (pages s2) /\ backed_or_full s2 /\
      live HEAP_START bs2 = live HEAP_START bs /\ keeps (live HEAP_START bs) s s2)).
Proof using H0.
  intros Hwf Hiso Hb Er. destruct (Z.ltb_spec (heap_end s) (KERNEL_CEILING - 4096)) as [Hlt|Hge].
  2:{ split; [|done]. intros _. split; [done|]. by left. }
  unfold heap_alloc_frame. destruct (fr_alloc (frames (pages s))) as [frame fr] eqn:Ea. split.
  { intros ->. destruct (fr_alloc_fail _ _ (pg_frames _ _ (iso_wf _ Hiso)) Ea) as [-> Hall].
    rewrite set_frames_same. split; [by destruct s|]. by right. }
  intros Hf. split; [done|]. destruct (alloc_owned _ _ _ Hiso Ea Hf) as (Hi1 & Ef & Hown & Hlow).
  set (s1 := set_pages _ s). assert (heap_wf s1 bs) as Hwf1 by (destruct Hwf; by split).
  destruct (last_block s1 bs b l Hwf1 Er) as [Hbl Hh].
  assert (backed s1 \/ (low_full (pages s1) /\ 65536 <= frame / 4096)) as Hb1.
  { destruct Hb as [Hb|Hb]; [by left|right; by apply Hlow]. }
  pose proof (grow_spec s1 bs frame _ _ Hwf1 Hlt Hi1 (conj Ef Hown) Hb1 Hbl Hh) as Hg.
  eapply outcome_mono; [|exact Hg]. cbv beta.
  intros s2 (bs2 & Hwf2 & Hgr & Hi2 & Hb2 & Hlv & Hk). exists bs2. split; [done|]. split; [|done].
  cbn in Hgr. destruct (wf_end _ _ Hwf) as [_ ?], (wf_end _ _ Hwf2) as [_ ?]. zlia.
Qed.

(** What [kmalloc] does with the heap [s] of blocks [bs] when it returns. *)
Definition malloc_post (size : Z) (s : heap) (bs : list block) (x : Z * heap) : Prop :=
  let (r, s') := x in exists bs', heap_wf s' bs' /\ isolated (pages s') /\ backed_or_full s' /\
    keeps (live HEAP_START bs) s s' /\
    ((r = 0 /\ live HEAP_START bs' = live HEAP_START bs /\ exhausted (align4 size) s' bs') \/
     allocated size r (live HEAP_START bs) (live HEAP_START bs')).

Lemma kmalloc_rec_spec depth size s bs :
  heap_wf s bs -> isolated (pages s) -> backed_or_full s -> is_u32 size ->
  (KERNEL_CEILING - heap_end s) / 4096 <= Z.of_nat depth ->
  outcome (kmalloc_rec depth size s) (malloc_post size s bs).
Proof using H0.
  revert s bs. induction depth as [|depth IH]; intros s bs Hwf Hiso Hb Hsz Hd;
  (pose proof Hwf as [Hst [He Hal] Ht]; pose proof (tiles_span _ _ _ _ Ht) as [Hsp Hl];
   unfold HEAP_START, KERNEL_CEILING in He, Hst; cbn [kmalloc_rec]; cbv zeta;
   destruct (first_fit_spec s bs (align4 size) (Z.to_nat ((heap_end s - heap_start s) / 8))
    (heap_start s) 0 Ht) as [(pre & b & post & -> & Hfit & ->) | [[Hno ->]|Hflt]];
     [lia|lia|zlia| | |];
   cbn [mbind run_bind];
   [destruct (take_block_outcome s pre b post size Hwf Hfit Hsz Hb) as [-> Ho];
    apply outcome_bind; eapply outcome_mono; [|exact Ho]; cbv beta;
    intros s' (bs' & Hwf' & Ep & Hb' & Hk & Hal'); exists bs'; rewrite Ep; do 4 (split; [done|]); by right| |
    apply outcome_bind; eapply outcome_faults; [exact Hb| | |exact Hflt];
      unfold HEAP_START, KERNEL_CEILING; lia]);
  (destruct (rev bs) as [|b l] eqn:Er;
    [apply (f_equal (@rev _)) in Er; rewrite rev_involutive in Er; subst bs; cbn in Hsp; lia|]);
  pose proof (grow_or_fail s bs b l Hwf Hiso Hb Er) as Hg;
  destruct (if heap_end s <? KERNEL_CEILING - 4096 then _ else _) as [frame s1];
  destruct Hg as (Hz & Hg);
  (destruct (Z.eqb_spec frame 0) as [->|Hf]; cbn [negb];
    [destruct (Hz eq_refl) as [-> Hlim]; exists bs; do 4 (split; [done|]); by left|]);
  destruct (Hg Hf) as (Hlt & Ho);
  apply outcome_bind; (eapply outcome_mono; [|exact Ho]); cbv beta;
  intros s2 (bs2 & Hwf2 & Hgr & Hi2 & Hb2 & Hlv & Hk2).
  - exfalso. unfold KERNEL_CEILING in *. zlia.
  - assert ((KERNEL_CEILING - heap_end s2) / 4096 <= Z.of_nat depth) as Hd2 by (unfold KERNEL_CEILING in *; zlia).
    eapply outcome_mono; [|exact (IH s2 bs2 Hwf2 Hi2 Hb2 Hsz Hd2)].
    intros [r s'] (bs' & Hwf' & Hi' & Hb' & Hk & Hr).
    rewrite Hlv in Hk, Hr. exists bs'. do 3 (split; [done|]).
    split; [by eapply keeps_trans|done].
Qed.

Lemma kmalloc_outcome size s bs :
  heap_wf s bs -> isolated (pages s) -> backed_or_full s -> is_u32 size ->
  outcome (kmalloc size s) (malloc_post size s bs).
Proof using H0.
  intros Hwf Hi Hb Hsz. apply kmalloc_rec_spec; try done.
  destruct (wf_end _ _ Hwf). unfold KERNEL_CEILING in *. zlia.
Qed.

(** C4. [kmalloc] on a well-formed heap whose region is mapped, page by page, to
    frames of its own.  It never runs forever.  It may end in a page fault, in
    the kernel's window, only when every frame below [HEAP_START] has been
    taken, so that map_page found none for a table.  When it returns, the heap
    is well-formed, the region it may have grown to is again mapped to frames of
    its own (unless, once more, the frames below [HEAP_START] have run out), and
    the contents of the blocks in use are untouched; the pointer is 0 only if no
    block fits and the region has reached its limit or no frame at all is free,
    and then the blocks in use are as before; any other pointer is 4-byte aligned and
    points to a block of at least [size] bytes (for sizes up to 0xFFFFFFFC) that
    was not in use and lies, header included, apart from every block in use. *)
Theorem kmalloc_correct (size : Z) (s : heap) (bs : list block) :
  heap_wf s bs -> isolated (pages s) -> backed s -> is_u32 size ->
  match kmalloc size s with
  | Ret (r, s') => exists bs', heap_wf s' bs' /\ isolated (pages s') /\
      (backed s' \/ low_full (pages s')) /\ keeps (live HEAP_START bs) s s' /\
      ((r = 0 /\ live HEAP_START bs' = live HEAP_START bs /\ exhausted (align4 size) s' bs') \/
       (allocated size r (live HEAP_START bs) (live HEAP_START bs') /\
        (size <= 4294967292 -> size <= align4 size)))
  | PageFault a p => in_window a /\ reaches p a = false /\ low_full p
  | NoFuel => False
  end.
Proof using H0.
  intros Hwf Hi Hb Hsz. pose proof (kmalloc_outcome size s bs Hwf Hi (or_introl Hb) Hsz) as Ho.
  destruct (kmalloc size s) as [[r s']| |]; [|done|done].
  destruct Ho as (bs' & Hwf' & Hi' & Hb' & Hk & Hr). exists bs'. do 4 (split; [done|]).
  destruct Hr as [?|?]; [by left|]. right. split; [done|]. intros ?. by apply align4_spec.
Qed.

Lemma live_split a bs p n :
  (p, n) ∈ live a bs ->
  exists pre b post, bs = pre ++ b :: post /\ bfree b = false /\ bsize b = n /\ p = a + span pre + 8.
Proof using.
  revert a. induction bs as [|b bs IH]; intros a Hin; cbn [live] in Hin; [by apply not_elem_of_nil in Hin|].
  apply elem_of_app in Hin as [Hin|Hin].
  - destruct (bfree b) eqn:Hb; [by apply not_elem_of_nil in Hin|]. apply list_elem_of_singleton in Hin. simplify_eq.
    exists [], b, bs. cbn [span]. repeat split; (done || lia).
  - destruct (IH _ Hin) as (pre & b' & post & -> & ? & ? & ->).
    exists (b :: pre), b', post. cbn [span]. repeat split; (done || lia).
Qed.

Lemma coalesce_spec post n s h fuel :
  tiles (hmem s) h (mkBlock n true :: post) (heap_end s) -> HEAP_START <= h -> heap_end s < 4294967296 ->
  backed s ->
  (length post <= fuel)%nat ->
  exists s' n' post', coalesce fuel (h + 8) h (u32 (h + 8 + hsize s h)) s = Ret s' /\
    tiles (hmem s') h (mkBlock n' true :: post') (heap_end s) /\
    heap_start s' = heap_start s /\ heap_end s' = heap_end s /\ pages s' = pages s /\
    (forall x, x <> h -> hmem s' x = hmem s x) /\ n' + span post' = n + span post /\ n <= n' /\
    live (h + 8 + n') post' = live (h + 8 + n) post /\
    match post' with [] => True | b :: _ => bfree b = false end.
Proof using.
  revert n s fuel. induction post as [|b post IH]; intros n s fuel Ht Hh He Hb Hf; unfold HEAP_START in *;
    pose proof (tiles_span _ _ _ _ Ht) as [Hend _]; pose proof (tiles_first _ _ _ _ _ Ht) as Hl0;
    cbn [tiles span bsize bfree] in *; destruct Ht as (Hs & Hfr & Hn0 & Hn4 & Ht); unfold hsize; rewrite Hs; unfold u32; rewrite Z.mod_small by lia.
  { exists s, n, []. destruct fuel; cbn [coalesce]; zfalse (h + 8 + n <? heap_end s);
      repeat split; (done || lia). }
  destruct Ht as (Hbs & Hbf & Hb0 & Hb4 & Ht). pose proof (tiles_span _ _ _ _ Ht) as [Hend2 Hl2].
  destruct fuel as [|fuel]; [cbn in Hf; lia|]. cbn [coalesce].
  ztrue (h + 8 + n <? heap_end s). rewrite reach_ok by (apply Hb; unfold HEAP_START; lia).
  unfold is_free at 1. rewrite Hbf.
  destruct (bfree b) eqn:Hbb; cbn [negb Z.eqb].
  2:{ exists s, n, (b :: post). repeat split; try (done || lia). by rewrite Hbb. }
  rewrite reach_ok by (apply Hb; unfold HEAP_START; lia). cbv zeta.
  replace (u32 (hsize s h + (hsize s (h + 8 + n) + 8))) with (n + (bsize b + 8))
    by (unfold hsize, u32; rewrite Hs, Hbs, Z.mod_small; lia).
  set (s1 := set_hsize h (n + (bsize b + 8)) s).
  destruct (IH (n + (bsize b + 8)) s1 fuel) as (s' & n' & post' & Hc & Ht' & ? & ? & ? & Hm & ? & ? & Hlv & ?);
    unfold s1; hcbn; try lia.
  { rewrite Z.eqb_refl. zfalse (h + 4 =? h). repeat split; [done|lia|zlia|].
    replace (h + 8 + (n + (bsize b + 8))) with (h + 8 + n + 8 + bsize b) by lia.
    eapply tiles_ext; [|exact Ht]. intros x Hx. by zfalse (x =? h). }
  { exact Hb. }
  { cbn in Hf. lia. }
  exists s', n', post'. split; [exact Hc|]. do 4 (split; [done|]).
  split; [intros x Hx; rewrite Hm by done; unfold s1; hcbn; by rewrite (proj2 (Z.eqb_neq x h))|].
  split; [lia|]. split; [lia|]. split; [|done]. rewrite Hlv. cbn [live]. rewrite Hbb. cbn [app].
  f_equal. lia.
Qed.

(** [kfree] of a block in use terminates and gives back exactly that block:
    the other blocks in use and their contents stay, the heap stays
    well-formed, and the freed block is merged with every free block that
    follows it, so that it is followed by a block in use or by the end of the
    region. *)
Theorem kfree_correct (s : heap) (bs : list block) (ptr n : Z) :
  heap_wf s bs -> backed s -> (ptr, n) ∈ live HEAP_START bs ->
  exists s' pre n' post, kfree ptr s = Ret s' /\ pages s' = pages s /\ heap_end s' = heap_end s /\
    heap_wf s' (pre ++ mkBlock n' true :: post) /\ ptr = HEAP_START + span pre + 8 /\ n <= n' /\
    live HEAP_START bs ≡ₚ (ptr, n) :: live HEAP_START (pre ++ mkBlock n' true :: post) /\
    keeps (live HEAP_START (pre ++ mkBlock n' true :: post)) s s' /\
    match post with [] => True | b :: _ => bfree b = false end.
Proof using.
  intros [Hst [He Hal] Ht] Hbk Hin. destruct (live_split _ _ _ _ Hin) as (pre & b & post & -> & Hb & <- & ->).
  apply tiles_app in Ht as [Hpre Ht]. rewrite Hst in Hpre, Ht.
  pose proof (tiles_span _ _ _ _ Hpre) as [_ Hlp]. pose proof (tiles_span _ _ _ _ Ht) as [Hend Hlen].
  set (h := HEAP_START + span pre) in *. assert (HEAP_START <= h) by (unfold h; lia).
  cbn [tiles span length] in *. destruct Ht as (Hs & Hf & Hb0 & Hb4 & Ht).
  pose proof (tiles_span _ _ _ _ Ht) as [_ Hlpost].
  unfold kfree. unfold HEAP_START, KERNEL_CEILING in *. zfalse (h + 8 =? 0). cbv zeta.
  replace (u32 (h + 8 - 8)) with h by (unfold u32; rewrite Z.mod_small; lia).
  rewrite !reach_ok by (apply Hbk; unfold HEAP_START; lia).
  set (s1 := set_is_free h 1 s).
  destruct (coalesce_spec post (bsize b) s1 h (Z.to_nat ((heap_end s1 - heap_start s1) / 8)))
    as (s' & n' & post' & -> & Ht' & Hst' & He' & Hp' & Hm & Hsp & Hle & Hlv & Hnext); unfold s1 in *; hcbn.
  { cbn [tiles bsize bfree]. rewrite Z.eqb_refl. zfalse (h =? h + 4). repeat split; try done.
    eapply tiles_ext; [|exact Ht]. intros x Hx. by zfalse (x =? h + 4). }
  { unfold HEAP_START. lia. } { lia. } { exact Hbk. } { zlia. }
  cbn in Hst', He', Hm. exists s', pre, n', post'.
  pose proof (tiles_span _ _ _ _ Ht') as [Hend' _]. cbn [tiles bsize bfree] in Ht'.
  destruct Ht' as (Hs' & Hf' & ? & ? & Htp'). cbn in Htp'. rewrite <- He' in Htp'.
  assert (forall x, x <> h -> x <> h + 4 -> hmem s' x = hmem s x) as Hm'.
  { intros x ? ?. rewrite Hm by done. by zfalse (x =? h + 4). }
  assert (tiles (hmem s') 268435456 pre h) as Hpre'.
  { eapply tiles_ext; [|exact Hpre]. intros x Hx. apply Hm'; lia. }
  assert (live 268435456 (pre ++ mkBlock n' true :: post') =
          live 268435456 pre ++ live (h + 8 + bsize b) post) as El.
  { rewrite live_app. fold h. cbn [live bfree app bsize]. by rewrite Hlv. }
  split; [done|]. split; [exact Hp'|]. split; [exact He'|]. split; [split; [by rewrite Hst', Hst|by rewrite He'|]|].
  { rewrite Hst', Hst. apply tiles_app. fold h. cbn [tiles bsize bfree]. done. }
  split; [done|]. split; [done|]. split; [|split; [|done]].
  - rewrite El, live_app. fold h. cbn [live]. rewrite Hb. cbn [app]. symmetry. apply Permutation_middle.
  - rewrite El. intros p m x Hin' Hx. apply elem_of_app in Hin' as [Hi|Hi].
    + destruct (live_range _ _ _ _ p m Hpre Hi). apply Hm'; lia.
    + destruct (live_range _ _ _ _ p m Ht Hi). apply Hm'; lia.
Qed.

(** [heap_init] on page tables that map nothing in the kernel's window yet. *)
Lemma heap_init_spec s :
  pg_wf (pages s) (kernel_dir (pages s)) -> (forall v, in_window v -> kwalk (pages s) v = None) ->
  ~ all_full (pages s) ->
  outcome (heap_init s) (fun s' => heap_wf s' [mkBlock 4088 true] /\ isolated (pages s') /\ backed s').
Proof using H0.
  intros Hwf Hnone Hsome. unfold heap_init, heap_alloc_frame. hcbn.
  assert (isolated (pages s)) as Hiso.
  { split; [done|..]; intros v; intros; rewrite Hnone in *; done. }
  destruct (fr_alloc (frames (pages s))) as [a fr] eqn:Ea.
  destruct (Z.eq_dec a 0) as [->|Ha].
  { destruct Hsome. exact (proj2 (fr_alloc_fail _ _ (pg_frames _ _ Hwf) Ea)). }
  destruct (alloc_owned _ _ _ Hiso Ea Ha) as (Hi1 & Ef & Hown & _). hcbn.
  change (Z.lor PAGE_PRESENT PAGE_RW) with 3.
  destruct (map_owned _ HEAP_START _ Hi1 Hown) as (Hi2 & _ & _ & Hp);
    [unfold in_window, HEAP_START, KERNEL_CEILING; lia|done|]. rewrite <- Ef in *.
  set (p1 := map_kernel_page _ _ _ _) in *. clearbody p1.
  unfold set_pages; cbn [heap_start heap_end hmem]. set (s1 := mkHeap HEAP_START HEAP_END_MIN (hmem s) p1).
  match goal with |- outcome (reach HEAP_START s1 ?k) _ =>
    destruct (reach_cases HEAP_START s1 k) as [[Hr ->]|[Hr ->]] end.
  2:{ cbn [outcome]. split; [unfold in_window, HEAP_START, KERNEL_CEILING; lia|]. split; [done|].
      destruct Hp as [Hp|?]; [|done]. change (reaches p1 HEAP_START = false) in Hr.
      rewrite Hp in Hr by lia. done. }
  assert (backed s1) as Hb1.
  { intros v Hv. unfold s1, HEAP_END_MIN, HEAP_START in Hv. cbn in Hv. rewrite <- Hr. hcbn.
    assert (in_window v /\ in_window HEAP_START) as [Hv1 Hv2] by (unfold in_window, HEAP_START, KERNEL_CEILING; lia).
    rewrite !reaches_walk by done.
    rewrite (walk_page p1 _ v HEAP_START); [done|by apply window_u32|by apply window_u32|unfold HEAP_START; zlia]. }
  rewrite reach_ok by (apply Hb1; change (heap_end s1) with HEAP_END_MIN; unfold HEAP_START, HEAP_END_MIN; lia).
  cbn [outcome]. split; [|done].
  split; unfold s1; hcbn; [done|split; [unfold HEAP_START, KERNEL_CEILING, HEAP_END_MIN; lia|done]|].
  cbn [tiles bsize bfree]. rewrite !Z.eqb_refl. repeat split; done.
Qed.

(** Rounding the request up to a multiple of 4 wraps around: for the three
    sizes above 0xFFFFFFFC, whenever some block is free, [kmalloc] does not
    refuse but returns a pointer to a block of at most 8 bytes. *)
Theorem kmalloc_huge_size (size : Z) (s : heap) (bs : list block) :
  heap_wf s bs -> backed s -> 4294967293 <= size < 4294967296 -> (exists b, b ∈ bs /\ bfree b = true) ->
  exists r s', kmalloc size s = Ret (r, s') /\ r <> 0 /\ 0 <= hsize s' (r - 8) <= 8.
Proof using.
  intros Hwf Hb Hsz (b0 & Hin & Hb0). pose proof Hwf as [Hst [He Hal] Ht].
  pose proof (tiles_span _ _ _ _ Ht) as [Hsp Hl]. unfold HEAP_START, KERNEL_CEILING in *.
  assert (align4 size = 0) as Ea.
  { destruct (align4_spec size) as (-> & _); [unfold is_u32; lia|]. zlia. }
  destruct (first_fit_spec s bs (align4 size) (Z.to_nat ((heap_end s - heap_start s) / 8))
    (heap_start s) 0 Ht) as [(pre & b & post & -> & Hfit & Hff)|[[Hnone _]|(x & Hx & Hr & _)]];
    [lia|lia|zlia| | |rewrite Hb in Hr by (unfold HEAP_START; lia); done].
  - destruct (take_block_outcome s pre b post size Hwf Hfit) as [Hu _]; [unfold is_u32; lia|by left|].
    assert (kmalloc size s = (s' ← take_block (heap_start s + span pre) (align4 size) s;
                              Ret (u32 (heap_start s + span pre + 8), s'))) as ->.
    { unfold kmalloc. generalize (Z.to_nat ((KERNEL_CEILING - heap_end s) / 4096)).
      intros []; cbn [kmalloc_rec]; by rewrite Hff. }
    rewrite Hu. destruct (take_block_run (heap_start s + span pre) (align4 size) s) as [->|[Hsp' (x & Hx & Hr & _)]].
    2:{ apply tiles_app in Ht as [Hpre Ht]. pose proof (tiles_span _ _ _ _ Hpre) as [_ Hlp].
        pose proof (tiles_first _ _ _ _ _ Ht) as Hfst. cbn [tiles] in Ht. destruct Ht as (Hs & _).
        unfold hsize in Hsp'. rewrite Hs, Ea in Hsp'. rewrite Ea in Hx. unfold u32 in Hx.
        rewrite Z.mod_small in Hx by lia. rewrite Hb in Hr by (unfold HEAP_START; lia). done. }
    cbn [mbind run_bind]. eexists _, _. split; [reflexivity|].
    apply tiles_app in Ht as [Hpre Ht]. pose proof (tiles_span _ _ _ _ Hpre) as [_ Hlp].
    set (h := heap_start s + span pre) in *. split; [unfold h; lia|].
    cbn [tiles] in Ht. destruct Ht as (Hs & _ & Hb0' & _). replace (h + 8 - 8) with h by lia.
    rewrite Ea. unfold taken, hsize. rewrite Hs. 
    destruct (Z.ltb_spec 8 (bsize b - 0)); hcbn; zfalse (h =? h + 4); [rewrite Z.eqb_refl|rewrite Hs]; lia.
  - rewrite Forall_forall in Hnone. specialize (Hnone b0 Hin). unfold fits in Hnone.
    rewrite Hb0, Ea in Hnone. apply list_elem_of_split in Hin as (l1 & l2 & ->).
    apply tiles_app in Ht as [_ Ht]. cbn [tiles] in Ht. cbn [andb] in Hnone. lia.
Qed.

End heap.

(** ** Concrete heaps *)

Definition result {F A} (d : A) (m : run F A) : A := match m with Ret a => a | _ => d end.
Definition returns {F A} (m : run F A) : bool := match m with Ret _ => true | _ => false end.

Lemma result_outcome {F} `{FrameLaws F} {A} (d : A) (m : run F A) Q :
  returns m = true -> outcome m Q -> m = Ret (result d m) /\ Q (result d m).
Proof. by destruct m. Qed.

(** The heap just after [heap_init], with two frames used before. *)
Definition bare_heap : heap := mkHeap 0 0 (fun _ => 0) empty_dir.
Definition fresh_heap : heap := result bare_heap (heap_init bare_heap).

Lemma fresh_ok : heap_wf fresh_heap [mkBlock 4088 true] /\ isolated (pages fresh_heap) /\ backed fresh_heap.
Proof.
  refine (proj2 (result_outcome bare_heap (heap_init bare_heap) (fun s => heap_wf s _ /\ isolated (pages s) /\ backed s) _ _));
    [vm_compute; reflexivity|].
  apply heap_init_spec; [apply empty_dir_wf|done|]. intros Hall.
  destruct two_used_free as (f & Hf & E). rewrite Hall in E by lia. done.
Qed.

(** A request the first page cannot serve: the region grows. *)
Lemma kmalloc_correct_witness :
  match kmalloc 16384 fresh_heap with
  | Ret (r, s') => exists bs', heap_wf s' bs' /\ isolated (pages s') /\
      (backed s' \/ low_full (pages s')) /\ keeps (live HEAP_START [mkBlock 4088 true]) fresh_heap s' /\
      ((r = 0 /\ live HEAP_START bs' = live HEAP_START [mkBlock 4088 true] /\ exhausted (align4 16384) s' bs') \/
       (allocated 16384 r (live HEAP_START [mkBlock 4088 true]) (live HEAP_START bs') /\
        (16384 <= 4294967292 -> 16384 <= align4 16384)))
  | PageFault a p => in_window a /\ reaches p a = false /\ low_full p
  | NoFuel => False
  end.
Proof.
  apply (kmalloc_correct 16384 fresh_heap [mkBlock 4088 true]).
  - apply fresh_ok.
  - apply fresh_ok.
  - apply fresh_ok.
  - unfold is_u32. lia.
Defined.

(** One block of 16 bytes in use at the bottom of the region. *)
Definition one_block : list block := [mkBlock 16 false; mkBlock 4064 true].
Definition one_block_heap : heap :=
  set_is_free HEAP_START 0 (set_hsize HEAP_START 16
    (set_is_free (HEAP_START + 24) 1 (set_hsize (HEAP_START + 24) 4064 fresh_heap))).

Lemma one_block_ok : heap_wf one_block_heap one_block /\ isolated (pages one_block_heap) /\ backed one_block_heap.
Proof.
  unfold one_block_heap. generalize fresh_ok. generalize fresh_heap. intros s ([Hs He Ht] & Hi & Hb). split; [|done].
  pose proof (tiles_span _ _ _ _ Ht) as [Hend _]. cbn [span bsize] in Hend. rewrite Hs in Hend.
  split; [exact Hs|exact He|].
  unfold one_block. cbn [tiles bsize bfree].
  unfold set_is_free, set_hsize, set_word. cbn [hmem heap_start heap_end]. rewrite Hend, Hs.
  repeat split; done.
Qed.

Lemma kfree_correct_witness :
  exists s' pre n' post, kfree 268435464 one_block_heap = Ret s' /\
    pages s' = pages one_block_heap /\ heap_end s' = heap_end one_block_heap /\
    heap_wf s' (pre ++ mkBlock n' true :: post) /\ 268435464 = HEAP_START + span pre + 8 /\ 16 <= n' /\
    live HEAP_START one_block ≡ₚ (268435464, 16) :: live HEAP_START (pre ++ mkBlock n' true :: post) /\
    keeps (live HEAP_START (pre ++ mkBlock n' true :: post)) one_block_heap s' /\
    match post with [] => True | b :: _ => bfree b = false end.
Proof.
  apply (kfree_correct one_block_heap one_block 268435464 16).
  - apply one_block_ok.
  - apply one_block_ok.
  - apply list_elem_of_singleton. reflexivity.
Defined.

Lemma kmalloc_huge_size_witness :
  exists r s', kmalloc 4294967295 one_block_heap = Ret (r, s') /\ r <> 0 /\ 0 <= hsize s' (r - 8) <= 8.
Proof.
  apply (kmalloc_huge_size 4294967295 one_block_heap one_block).
  - apply one_block_ok.
  - apply one_block_ok.
  - lia.
  - exists (mkBlock 4064 true). split; [|reflexivity]. apply list_elem_of_In. simpl. auto.
Defined.
