(* ===== verification/Scheduler.v ===== *)
(** * Processes: kernel/process/scheduler/scheduler.c and kernel/userland/userland.c

    A [Process] is a 12-byte heap block ([esp], [stack_addr], [malloc_addr])
    and the ready queue holds pointers to them; the running process is
    [current].  A new process gets a 16 KiB kernel stack with the interrupt
    frame its first switch will pop.  The user program's pages are set up and
    torn down here too. *)
From S2P Require Import Prelude Bitset Ring Dates FrameAlloc Paging Heap.
Import PQueue.

Definition STACK_SIZE : Z := 16384.
Definition KERNEL_FRAME_SIZE : Z := 44.
Definition USER_FRAME_SIZE : Z := 52.
Definition FRAME_EIP_INDEX : Z := 8.
Definition FRAME_CS_INDEX : Z := 9.
Definition FRAME_EFLAGS_INDEX : Z := 10.
Definition FRAME_USER_ESP_INDEX : Z := 11.
Definition FRAME_SS_INDEX : Z := 12.
Definition INTERRUPT_AND_RESERVED_EFLAGS : Z := 514.
Definition KERNEL_CODE_SEGMENT_SEL : Z := 8.
Definition USER_CODE_SEGMENT_SEL : Z := 27.
Definition USER_DATA_SEGMENT_SEL : Z := 35.
Definition PROCESS_SIZE : Z := 12.
Definition MISC_PAGE_CNT : Z := 255.
Definition CODE_ADDR : Z := KERNEL_CEILING.
Definition STACK_ADDR : Z := KERNEL_CEILING + 4096 * (MISC_PAGE_CNT + 1).
Definition USER_SPACE_END : Z := KERNEL_CEILING + 4096 * (MISC_PAGE_CNT + 2).

Section processes.
Context {F : Type} `{FrameOps F}.

(** The heap (with the paging state), the ready queue, [current], the TSS's
    [esp0], userland's [frames] array and the bytes of user memory. *)
Record kstate : Type := mkK {
  kheap : @heap F; kqueue : pqueue; current : Z; esp0 : Z;
  uframes : list Z; umem : Z -> Z
}.

Definition set_kheap (h : heap) (s : kstate) : kstate :=
  mkK h (kqueue s) (current s) (esp0 s) (uframes s) (umem s).
Definition set_kqueue (q : pqueue) (s : kstate) : kstate :=
  mkK (kheap s) q (current s) (esp0 s) (uframes s) (umem s).
Definition set_current (p : Z) (s : kstate) : kstate :=
  mkK (kheap s) (kqueue s) p (esp0 s) (uframes s) (umem s).
Definition tss_set_esp (n : Z) (s : kstate) : kstate :=
  mkK (kheap s) (kqueue s) (current s) n (uframes s) (umem s).
Definition set_uframes (fs : list Z) (s : kstate) : kstate :=
  mkK (kheap s) (kqueue s) (current s) (esp0 s) fs (umem s).
Definition set_kpages (p : pstate) (s : kstate) : kstate := set_kheap (set_pages p (kheap s)) s.
Definition kpages (s : kstate) : pstate := pages (kheap s).

(** A word of kernel memory. *)
Definition word (s : kstate) (a : Z) : Z := hmem (kheap s) a.
Definition put_word (a v : Z) (s : kstate) : kstate := set_kheap (set_word a v (kheap s)) s.

(** [p->esp] and [p->malloc_addr] *)
Definition p_esp (s : kstate) (p : Z) : Z := word s p.
Definition p_malloc_addr (s : kstate) (p : Z) : Z := word s (p + 8).

Definition k_malloc (size : Z) (s : kstate) : run F (Z * kstate) :=
  '(r, h) ← kmalloc size (kheap s); Ret (r, set_kheap h s).
Definition k_free (ptr : Z) (s : kstate) : run F kstate :=
  h ← kfree ptr (kheap s); Ret (set_kheap h s).
(** The words [ws] are about to be written: the first one the page tables refuse
    faults. *)
Definition k_reach {A} (ws : list Z) (s : kstate) (k : run F A) : run F A :=
  foldr (fun a k => reach a (kheap s) k) k ws.

Definition scheduler_init (s : kstate) : run F kstate :=
  '(p, s) ← k_malloc PROCESS_SIZE s;
  k_reach [u32 (p + 8)] s (Ret (set_current p (put_word (p + 8) 0 s))).

(** [if (current->malloc_addr != 0) tss_set_esp(current->malloc_addr + STACK_SIZE)] *)
Definition enter_current (s : kstate) : kstate :=
  if negb (p_malloc_addr s (current s) =? 0)
  then tss_set_esp (u32 (p_malloc_addr s (current s) + STACK_SIZE)) s else s.

Definition schedule (esp : Z) (s : kstate) : Z * kstate :=
  if pqueue_is_empty (kqueue s) then (esp, s)
  else
    let s := put_word (current s) esp s in
    let s := set_kqueue (pqueue_push (kqueue s) (current s)).2 s in
    let (p, q) := pqueue_pop (kqueue s) in
    let s := set_current p (set_kqueue q s) in
    let s := enter_current s in
    (p_esp s (current s), s).

(** 0 is the return value [NULL]. *)
Definition create_proc_no_forgery (s : kstate) : run F (Z * kstate) :=
  '(p, s) ← k_malloc PROCESS_SIZE s;
  if p =? 0 then Ret (0, s)
  else
    '(stackAlloc, s) ← k_malloc STACK_SIZE s;
    if stackAlloc =? 0 then Ret (0, s)
    else k_reach [p + 8] s (Ret (p, put_word (p + 8) stackAlloc s)).

(** [for (i = 0; i < 8; i++) frame[i] = 0;] *)
Definition zero_registers (frame : Z) (s : kstate) : kstate :=
  for_range 8 0 (fun i s => put_word (frame + 4 * i) 0 s) s.

(** The words of an interrupt frame of [size] bytes at the top of the stack of
    [p], and the saved stack pointer. *)
Definition frame_words (p size : Z) (s : kstate) : list Z :=
  let frame := u32 (p_malloc_addr s p + STACK_SIZE - size) in
  p :: map (fun i => frame + 4 * Z.of_nat i) (seq 0 (Z.to_nat (size / 4))).

(** The saved stack pointer and the interrupt frame it points to. *)
Definition forge_frame (p entry : Z) (s : kstate) : kstate :=
  let s := put_word p (u32 (p_malloc_addr s p + STACK_SIZE - KERNEL_FRAME_SIZE)) s in
  let frame := p_esp s p in
  let s := zero_registers frame s in
  let s := put_word (frame + 4 * FRAME_EIP_INDEX) entry s in
  let s := put_word (frame + 4 * FRAME_CS_INDEX) KERNEL_CODE_SEGMENT_SEL s in
  put_word (frame + 4 * FRAME_EFLAGS_INDEX) INTERRUPT_AND_RESERVED_EFLAGS s.

Definition create_process (entry : Z) (s : kstate) : run F kstate :=
  '(p, s) ← create_proc_no_forgery s;
  if p =? 0 then Ret s
  else
    k_reach (frame_words p KERNEL_FRAME_SIZE s) s
      (let s := forge_frame p entry s in
       Ret (set_kqueue (pqueue_push (kqueue s) p).2 s)).

Definition forge_user_frame (p entry user_stack_top : Z) (s : kstate) : kstate :=
  let s := put_word p (u32 (p_malloc_addr s p + STACK_SIZE - USER_FRAME_SIZE)) s in
  let frame := p_esp s p in
  let s := zero_registers frame s in
  let s := put_word (frame + 4 * FRAME_EIP_INDEX) entry s in
  let s := put_word (frame + 4 * FRAME_CS_INDEX) USER_CODE_SEGMENT_SEL s in
  let s := put_word (frame + 4 * FRAME_EFLAGS_INDEX) INTERRUPT_AND_RESERVED_EFLAGS s in
  let s := put_word (frame + 4 * FRAME_USER_ESP_INDEX) user_stack_top s in
  put_word (frame + 4 * FRAME_SS_INDEX) USER_DATA_SEGMENT_SEL s.

Definition create_user_process (entry user_stack_top : Z) (s : kstate) : run F kstate :=
  '(p, s) ← create_proc_no_forgery s;
  if p =? 0 then Ret s
  else
    k_reach (frame_words p USER_FRAME_SIZE s) s
      (let s := forge_user_frame p entry user_stack_top s in
       Ret (set_kqueue (pqueue_push (kqueue s) p).2 s)).

(** ** userland.c *)

Definition u_alloc_frame (s : kstate) : Z * kstate :=
  let (a, fr) := fr_alloc (frames (kpages s)) in (a, set_kpages (set_frames fr (kpages s)) s).
Definition u_free_frame (a : Z) (s : kstate) : kstate :=
  set_kpages (set_frames (fr_free a (frames (kpages s))) (kpages s)) s.
Definition u_map (virt phys flags : Z) (s : kstate) : kstate :=
  set_kpages (map_kernel_page virt phys flags (kpages s)) s.
Definition u_unmap (virt : Z) (s : kstate) : Z * kstate :=
  let (p, pg) := unmap_kernel_page virt (kpages s) in (p, set_kpages pg s).

Definition USER_FLAGS : Z := Z.lor (Z.lor PAGE_PRESENT PAGE_RW) PAGE_USER.

(** The first loop of [map_misc_pages], from [i] on; [false] is its early return
    after giving the frames back. *)
Fixpoint alloc_misc (n : nat) (i : Z) (s : kstate) : bool * kstate :=
  match n with
  | O => (true, s)
  | S n =>
      let (f, s) := u_alloc_frame s in
      if f =? 0 then
        (false, for_range (Z.to_nat i) 0 (fun j s =>
           set_uframes (<[Z.to_nat j := 0]> (uframes s))
             (u_free_frame (uframes s !!! Z.to_nat j) s)) s)
      else alloc_misc n (i + 1) (set_uframes (<[Z.to_nat i := f]> (uframes s)) s)
  end.

Definition map_misc_pages (s : kstate) : kstate :=
  let (ok, s) := alloc_misc (Z.to_nat MISC_PAGE_CNT) 0 s in
  if negb ok then s
  else
    for_range (Z.to_nat MISC_PAGE_CNT) 0 (fun i s =>
      u_map (CODE_ADDR + 4096 * (i + 1)) (uframes s !!! Z.to_nat i) USER_FLAGS s) s.

(** [prog] is the program image linked between [user_prog_start] and
    [user_prog_end]. *)
Definition userland_init (prog : list Z) (s : kstate) : run F kstate :=
  let (code_frame, s) := u_alloc_frame s in
  let (stack_frame, s) := u_alloc_frame s in
  if code_frame =? 0 then
    Ret (if negb (stack_frame =? 0) then u_free_frame stack_frame s else s)
  else if stack_frame =? 0 then Ret (u_free_frame code_frame s)
  else
    let s := u_map CODE_ADDR code_frame USER_FLAGS s in
    let s := map_misc_pages s in
    let s := u_map STACK_ADDR stack_frame USER_FLAGS s in
    k_reach (map (fun i => CODE_ADDR + Z.of_nat i) (seq 0 (length prog))) s
      (let s := mkK (kheap s) (kqueue s) (current s) (esp0 s) (uframes s)
                  (fun x => if (CODE_ADDR <=? x) && (x <? CODE_ADDR + Z.of_nat (length prog))
                            then prog !!! Z.to_nat (x - CODE_ADDR) else umem s x) in
       create_user_process CODE_ADDR (STACK_ADDR + 4096) s).

Definition userland_teardown (s : kstate) : kstate :=
  let (code_phys, s) := u_unmap CODE_ADDR s in
  let (stack_phys, s) := u_unmap STACK_ADDR s in
  let s := if negb (code_phys =? 0) then u_free_frame code_phys s else s in
  let s := if negb (stack_phys =? 0) then u_free_frame stack_phys s else s in
  for_range (Z.to_nat MISC_PAGE_CNT) 0 (fun j s =>
    if uframes s !!! Z.to_nat j =? 0 then s
    else
      let s := (u_unmap (CODE_ADDR + 4096 * (j + 1)) s).2 in
      u_free_frame (uframes s !!! Z.to_nat j) s) s.

Definition SYSCALL_ERROR : Z := 4294967295.

Definition kill_current (s : kstate) : run F (Z * kstate) :=
  if pqueue_is_empty (kqueue s) then
    s ← k_free 0 s; Ret (SYSCALL_ERROR, s)
  else
    let victim := current s in
    let (next, q) := pqueue_pop (kqueue s) in
    let s := set_current next (set_kqueue q s) in
    let s := enter_current s in
    let s := userland_teardown s in
    s ← k_free (p_malloc_addr s victim) s;
    s ← k_free victim s;
    Ret (p_esp s (current s), s).

(** [timer_irq_handler] of kernel/drivers/timer/timerController.c: count the
    tick, acknowledge the interrupt, switch. *)
Definition timer_irq_handler (esp : Z) (t : Timer.timer) (s : kstate) : Z * Timer.timer * kstate :=
  let t := Timer.mkTimer (u64 (Timer.tick t + 1)) (Timer.startup_epoch t) in
  let (r, s) := schedule esp s in
  (r, t, s).

(** ** Switching *)

(** One switch with room in the queue: the front runs, [current] goes to the back. *)
Lemma schedule_step s esp p ps :
  pq_wf (kqueue s) -> items (kqueue s) = p :: ps -> (length ps < 254)%nat ->
  let (r, s') := schedule esp s in
  pq_wf (kqueue s') /\ items (kqueue s') = ps ++ [current s] /\ current s' = p /\
  r = p_esp s' p /\
  (forall x, word s' x = if x =? current s then esp else word s x) /\
  esp0 s' = (if p_malloc_addr s' p =? 0 then esp0 s else u32 (p_malloc_addr s' p + STACK_SIZE)).
Proof using.
  intros Hwf Hi Hl. unfold schedule. rewrite (pq_empty_items _ Hwf), Hi. cbn [Spec.is_empty].
  cbn [kqueue put_word set_kheap current].
  destruct (pq_push_spec (kqueue s) (current s) Hwf) as [Hwf1 Hp].
  destruct (pqueue_push (kqueue s) (current s)) as [b q1]. cbn [fst snd] in *.
  rewrite Hi in Hp. unfold Spec.push, Spec.capacity in Hp.
  destruct (Nat.ltb_spec (length (p :: ps)) 255) as [_|Hge]; [|cbn in Hge; lia].
  injection Hp as _ E1. cbn [app] in E1.
  cbn [kqueue set_kqueue]. destruct (pq_pop_spec q1 Hwf1) as (Hwf2 & Hi2 & Hv & _).
  destruct (pqueue_pop q1) as [r q2]. cbn [fst snd] in *.
  rewrite E1 in Hi2, Hv. cbn in Hi2, Hv. subst r.
  unfold enter_current. cbn [current set_current].
  destruct (negb _) eqn:En; cbn [kqueue current set_current set_kqueue tss_set_esp esp0].
  - do 3 (split; [done|]). split; [done|]. split; [done|].
    apply negb_true_iff in En. match goal with |- _ = (if ?b then _ else _) => change b with
      (p_malloc_addr (set_current p (set_kqueue q2 (set_kqueue q1 (put_word (current s) esp s)))) p =? 0) end.
    by rewrite En.
  - do 3 (split; [done|]). split; [done|]. split; [done|].
    apply negb_false_iff in En. by rewrite En.
Qed.

(** The values [schedule] returns over a sequence of interrupts. *)
Fixpoint run_schedule (esps : list Z) (s : kstate) : list Z * kstate :=
  match esps with
  | [] => ([], s)
  | e :: esps =>
      let (r, s) := schedule e s in
      let (rs, s) := run_schedule esps s in
      (r :: rs, s)
  end.

Lemma run_schedule_step ps : forall s esps dn,
  length esps = length ps -> pq_wf (kqueue s) -> items (kqueue s) = ps ++ dn ->
  (length (ps ++ dn) < 255)%nat -> NoDup (current s :: ps) ->
  let (rs, s') := run_schedule esps s in
  pq_wf (kqueue s') /\ items (kqueue s') = dn ++ removelast (current s :: ps) /\
  last (current s :: ps) = Some (current s') /\
  rs = map (p_esp s) ps /\
  (forall i p, removelast (current s :: ps) !! i = Some p -> esps !! i = Some (word s' p)) /\
  (forall x, x ∉ removelast (current s :: ps) -> word s' x = word s x).
Proof using.
  induction ps as [|p ps IH]; intros s esps dn Hl Hwf Hi Hlen Hnd;
    destruct esps as [|e esps]; try done.
  - cbn [run_schedule removelast map last]. rewrite Hi, app_nil_r.
    do 4 (split; [done|]). split; [|done]. intros i p. by rewrite lookup_nil.
  - cbn [run_schedule]. cbn in Hi, Hlen.
    pose proof (schedule_step s e p (ps ++ dn) Hwf Hi ltac:(lia)) as Hs.
    destruct (schedule e s) as [r s1]. destruct Hs as (Hwf1 & Hi1 & Hc1 & Hr & Hm1 & _).
    apply NoDup_cons in Hnd as [Hcn Hnd]. 
    specialize (IH s1 esps (dn ++ [current s])). rewrite <- app_assoc in Hi1.
    assert (length (ps ++ dn ++ [current s]) < 255)%nat as Hl1 by (rewrite !length_app in *; cbn; lia).
    specialize (IH ltac:(cbn in Hl; lia) Hwf1 Hi1 Hl1 ltac:(by rewrite Hc1)).
    destruct (run_schedule esps s1) as [rs s'].
    destruct IH as (Hwf' & Hi' & Hc' & Hrs & Hsv & Hfr). rewrite Hc1 in *.
    change (removelast (current s :: p :: ps)) with (current s :: removelast (p :: ps)).
    assert (forall q, q ∈ removelast (p :: ps) -> q ∈ p :: ps) as Hrl.
    { intros q Hq. rewrite (app_removelast_last 0 (l := p :: ps)) by done. set_solver. }
    split; [done|]. split; [rewrite Hi', <- app_assoc; done|]. split; [done|].
    split; [|split].
    + cbn [map]. f_equal.
      * rewrite Hr. unfold p_esp. rewrite Hm1. rewrite (proj2 (Z.eqb_neq p (current s))); [done|set_solver].
      * rewrite Hrs. apply map_ext_in. intros q Hq%list_elem_of_In. unfold p_esp. rewrite Hm1.
        rewrite (proj2 (Z.eqb_neq q (current s))); [done|set_solver].
    + intros [|i] q Hq; cbn in Hq |- *.
      * simplify_eq. rewrite Hfr, Hm1, Z.eqb_refl; [done|]. intros Hin%Hrl. set_solver.
      * by apply Hsv.
    + intros x Hx. rewrite Hfr by set_solver. rewrite Hm1. rewrite (proj2 (Z.eqb_neq x (current s))); [done|set_solver].
Qed.

(** C31. Round robin.  With [n] ready processes beside the running one (at most
    254, so that the ready queue is not full) and distinct process blocks, [n + 1] timer
    interrupts resume every ready process once, in queue order, each with the
    stack pointer it was saved with, and then the first one again with the
    stack pointer it was interrupted with; afterwards the queue and [current]
    are as at the start and each process's block holds the stack pointer of
    its own interrupt. *)
Theorem schedule_round_robin (s : kstate) (ps esps : list Z) (e : Z) :
  pq_wf (kqueue s) -> items (kqueue s) = ps -> ps <> [] -> (length ps < 255)%nat ->
  NoDup (current s :: ps) -> length esps = length ps ->
  let (rs, s') := run_schedule (esps ++ [e]) s in
  rs = map (p_esp s) ps ++ [hd 0 esps] /\
  items (kqueue s') = ps /\ current s' = current s /\ pq_wf (kqueue s') /\
  forall i p, (current s :: ps) !! i = Some p -> (esps ++ [e]) !! i = Some (p_esp s' p).
Proof using.
  intros Hwf Hi Hne Hlen Hnd Hl.
  assert (forall l s, run_schedule (l ++ [e]) s =
    let (rs, s1) := run_schedule l s in let (r, s2) := schedule e s1 in (rs ++ [r], s2)) as Hsnoc.
  { clear. induction l as [|x l IH]; intros s; cbn [run_schedule app].
    - destruct (schedule e s). done.
    - destruct (schedule x s) as [r1 s1]. rewrite IH. destruct (run_schedule l s1) as [rs s2].
      destruct (schedule e s2). done. }
  rewrite Hsnoc. pose proof (run_schedule_step ps s esps [] Hl Hwf) as Hrun.
  rewrite app_nil_r in Hrun. specialize (Hrun Hi ltac:(lia) Hnd).
  destruct (run_schedule esps s) as [rs s1]. destruct Hrun as (Hwf1 & Hi1 & Hc1 & -> & Hsv & Hfr).
  destruct ps as [|p ps]; [done|]. set (mid := removelast (p :: ps)) in *.
  change (removelast (current s :: p :: ps)) with (current s :: mid) in *. cbn [app] in Hi1.
  assert (current s :: p :: ps = (current s :: mid) ++ [current s1]) as Esplit.
  { unfold mid. cbn [last] in Hc1. cbn [app]. f_equal.
    apply last_Some in Hc1 as [l' El]. cbn in El. 
    assert (p :: ps = l' ++ [current s1]) as El' by exact El.
    rewrite El', removelast_last. done. }
  assert (length mid < 254)%nat as Hlm.
  { apply (f_equal length) in Esplit. rewrite length_app in Esplit. cbn in *. lia. }
  pose proof (schedule_step s1 e (current s) mid Hwf1 Hi1 Hlm) as Hs.
  destruct (schedule e s1) as [r s']. destruct Hs as (Hwf' & Hi' & Hc' & Hr & Hm' & _).
  rewrite Esplit in Hnd. apply NoDup_app in Hnd as (Hnd1 & Hdis & _).
  assert (current s <> current s1) as Hcc by (intros E; apply (Hdis (current s)); set_solver).
  destruct esps as [|e0 esps]; [done|].
  assert (word s1 (current s) = e0) as He0.
  { specialize (Hsv 0%nat (current s) eq_refl). cbn in Hsv. congruence. }
  split; [|split; [|split; [done|split; [done|]]]].
  - do 2 f_equal. cbn. rewrite Hr. unfold p_esp. rewrite Hm'.
    by rewrite (proj2 (Z.eqb_neq _ _) Hcc).
  - rewrite Hi'. cbn in Esplit. by injection Esplit as ->.
  - rewrite Esplit. intros i q Hq. unfold p_esp. rewrite Hm'.
    apply lookup_app_Some in Hq as [Hq|[Hge Hq]].
    + rewrite lookup_app_l by (apply lookup_lt_Some in Hq; rewrite Hl; apply (f_equal length) in Esplit;
        rewrite length_app in Esplit; cbn in *; lia).
      destruct (Z.eqb_spec q (current s1)) as [->|]; [|by apply Hsv].
      exfalso. apply (Hdis (current s1)); [by eapply list_elem_of_lookup_2|set_solver].
    + apply list_lookup_singleton_Some in Hq as [Ei <-]. rewrite Z.eqb_refl.
      rewrite lookup_app_r by (rewrite Hl; apply (f_equal length) in Esplit;
        rewrite length_app in Esplit; cbn in *; lia).
      replace (i - length (e0 :: esps))%nat with 0%nat; [done|].
      rewrite Hl. apply (f_equal length) in Esplit. rewrite length_app in Esplit. cbn in *. lia.
Qed.

(** A full ready queue loses the running process: with 255 processes ready
    the push of [current] fails unnoticed, so that after the switch the old
    [current] is neither running nor queued. *)
Theorem schedule_full_queue (s : kstate) (esp p : Z) (ps : list Z) :
  pq_wf (kqueue s) -> items (kqueue s) = p :: ps -> length ps = 254%nat ->
  let (r, s') := schedule esp s in
  current s' = p /\ items (kqueue s') = ps /\
  (current s ∉ p :: ps -> current s <> current s' /\ current s ∉ items (kqueue s')).
Proof using.
  intros Hwf Hi Hl. unfold schedule. rewrite (pq_empty_items _ Hwf), Hi. cbn [Spec.is_empty].
  cbn [kqueue put_word set_kheap current].
  destruct (pq_push_spec (kqueue s) (current s) Hwf) as [Hwf1 Hp].
  destruct (pqueue_push (kqueue s) (current s)) as [b q1]. cbn [fst snd] in *.
  rewrite Hi in Hp. unfold Spec.push, Spec.capacity in Hp.
  destruct (Nat.ltb_spec (length (p :: ps)) 255) as [Hlt|_]; [cbn in Hlt; lia|].
  injection Hp as _ E1. cbn [kqueue set_kqueue]. destruct (pq_pop_spec q1 Hwf1) as (Hwf2 & Hi2 & Hv & _).
  destruct (pqueue_pop q1) as [r q2]. cbn [fst snd] in *.
  rewrite E1 in Hi2, Hv. cbn in Hi2, Hv. subst r.
  unfold enter_current. cbn [current set_current].
  destruct (negb _); cbn [kqueue current set_current set_kqueue tss_set_esp];
    (split; [done|]); (split; [done|]); intros Hn; rewrite Hi2; set_solver.
Qed.

End processes.

(** ** New processes *)

Section creation.
Context {F : Type} `{FrameLaws F}.
Implicit Types s : @kstate F.

(** Writing inside the payloads of blocks in use keeps the heap well-formed. *)
Lemma tiles_payload m m' a bs e :
  tiles m a bs e ->
  (forall x, a <= x < e -> m' x = m x \/ exists p n, (p, n) ∈ live a bs /\ p <= x < p + n) ->
  tiles m' a bs e.
Proof using.
  revert a. induction bs as [|b bs IH]; intros a Ht Hx; [done|].
  pose proof (tiles_first _ _ _ _ _ Ht) as Hf. pose proof Ht as Ht0. cbn [tiles] in Ht |- *.
  destruct Ht as (Hs & Hfr & Hb0 & Hb4 & Ht).
  assert (forall x, a <= x < a + 8 -> m' x = m x) as Hh.
  { intros x Hax. destruct (Hx x ltac:(lia)) as [?|(p & n & Hin & ?)]; [done|].
    destruct (live_range _ _ _ _ p n Ht0 Hin). lia. }
  rewrite !Hh by lia. do 4 (split; [done|]). apply IH; [done|].
  intros x Hax. destruct (Hx x ltac:(lia)) as [?|(p & n & Hin & ?)]; [by left|].
  cbn [live] in Hin. apply elem_of_app in Hin as [Hin|Hin]; [|right; by exists p, n].
  destruct (bfree b); [by apply not_elem_of_nil in Hin|]. apply list_elem_of_singleton in Hin. simplify_eq. lia.
Qed.

Lemma heap_wf_payload s s' bs :
  heap_wf (kheap s) bs -> heap_start (kheap s') = heap_start (kheap s) ->
  heap_end (kheap s') = heap_end (kheap s) ->
  (forall x, word s' x = word s x \/ exists p n, (p, n) ∈ live HEAP_START bs /\ p <= x < p + n) ->
  heap_wf (kheap s') bs.
Proof using.
  intros [Hs He Ht] Hs' He' Hx. split; [congruence|by rewrite He'|].
  rewrite Hs', He'. eapply tiles_payload; [exact Ht|]. rewrite Hs. intros x _. apply Hx.
Qed.

(** A heap in order: its blocks [bs] tile the region, whose pages are mapped to
    frames of its own (or there was no frame left for a table). *)
Definition heap_good (h : @heap F) (bs : list block) : Prop :=
  heap_wf h bs /\ isolated (pages h) /\ backed_or_full h.

Lemma heap_good_payload s s' bs :
  heap_good (kheap s) bs -> pages (kheap s') = pages (kheap s) ->
  heap_start (kheap s') = heap_start (kheap s) -> heap_end (kheap s') = heap_end (kheap s) ->
  (forall x, word s' x = word s x \/ exists p n, (p, n) ∈ live HEAP_START bs /\ p <= x < p + n) ->
  heap_good (kheap s') bs.
Proof using.
  intros (Hwf & Hi & Hb) Ep Es Ee Hx. split; [by apply (heap_wf_payload s)|].
  unfold backed_or_full, backed, backed_to in *. by rewrite Ep, Ee.
Qed.

(** Writing words of the region. *)
Lemma k_reach_outcome {A} ws s bs (k : run F A) Q :
  heap_good (kheap s) bs -> Forall (fun a => HEAP_START <= a < heap_end (kheap s)) ws ->
  outcome k Q -> outcome (k_reach ws s k) Q.
Proof using.
  intros (Hwf & _ & Hb) Hws Hk. induction Hws as [|a ws Ha _ IH]; [done|]. cbn [k_reach foldr].
  destruct (reach_cases a (kheap s) (k_reach ws s k)) as [[_ E]|[Hr E]]; unfold k_reach in *; rewrite E; [done|].
  apply (outcome_faults (kheap s) a (heap_end (kheap s))); [done|lia| |].
  - destruct (wf_end _ _ Hwf). lia.
  - exists a. split; [lia|done].
Qed.

(** [k_malloc] and the rest of the kernel state. *)
Lemma k_malloc_spec size s bs :
  heap_good (kheap s) bs -> is_u32 size ->
  outcome (k_malloc size s) (fun '(r, s') => exists h' bs', s' = set_kheap h' s /\ heap_good h' bs' /\
    keeps (live HEAP_START bs) (kheap s) h' /\
    ((r = 0 /\ live HEAP_START bs' = live HEAP_START bs /\ exhausted (align4 size) h' bs') \/
     allocated size r (live HEAP_START bs) (live HEAP_START bs'))).
Proof using H0.
  intros (Hwf & Hi & Hb) Hsz. unfold k_malloc. apply outcome_bind.
  eapply outcome_mono; [|exact (kmalloc_outcome size (kheap s) bs Hwf Hi Hb Hsz)].
  intros [r h'] (bs' & Hwf' & Hi' & Hb' & Hk & Hr). exists h', bs'. done.
Qed.

(** A process block and its kernel stack, both fresh; or no process, with at
    most the process block allocated and lost, because one of the two requests
    could not be served. *)
Lemma create_proc_spec s bs :
  heap_good (kheap s) bs ->
  outcome (create_proc_no_forgery s) (fun '(p, s') => exists bs', heap_good (kheap s') bs' /\
    keeps (live HEAP_START bs) (kheap s) (kheap s') /\ kqueue s' = kqueue s /\
    ((p = 0 /\ (exists lost, live HEAP_START bs' ≡ₚ lost ++ live HEAP_START bs /\ (length lost <= 1)%nat) /\
      exists size, size ∈ [PROCESS_SIZE; STACK_SIZE] /\ exhausted size (kheap s') bs') \/
     (exists pn stk sn, live HEAP_START bs' ≡ₚ (stk, sn) :: (p, pn) :: live HEAP_START bs /\
        PROCESS_SIZE <= pn /\ STACK_SIZE <= sn /\ HEAP_START < p /\ HEAP_START < stk /\
        stk + sn <= KERNEL_CEILING /\ (p + pn + 8 <= stk \/ stk + sn + 8 <= p) /\
        p_malloc_addr s' p = stk /\
        forall q m, (q, m) ∈ live HEAP_START bs ->
          (q + m + 8 <= p \/ p + pn + 8 <= q) /\ (q + m + 8 <= stk \/ stk + sn + 8 <= q)))).
Proof using H0.
  intros Hg. unfold create_proc_no_forgery. apply outcome_bind.
  eapply outcome_mono; [|apply (k_malloc_spec PROCESS_SIZE s bs Hg); unfold is_u32, PROCESS_SIZE; lia].
  intros [p s1] (h1 & bs1 & -> & Hg1 & Hk1 & Hr1).
  destruct (Z.eqb_spec p 0) as [->|Hp].
  { exists bs1. do 3 (split; [done|]). left. split; [done|].
    destruct Hr1 as [(_ & -> & Hx)|(n & _ & ? & _)]; [|unfold HEAP_START in *; lia].
    split; [exists []; split; [done|cbn; lia]|]. exists PROCESS_SIZE. split; [apply list_elem_of_here|exact Hx]. }
  destruct Hr1 as [[-> _]|(pn & Hp4 & Hps & Hpn & Hpc & Hperm1 & Hdis1)]; [done|].
  change (align4 PROCESS_SIZE) with 12 in Hpn. apply outcome_bind.
  eapply outcome_mono; [|apply (k_malloc_spec STACK_SIZE (set_kheap h1 s) bs1 Hg1); unfold is_u32, STACK_SIZE; lia].
  intros [stk s2] (h2 & bs2 & -> & Hg2 & Hk2 & Hr2).
  assert (keeps (live HEAP_START bs) (kheap s) h2) as Hk12.
  { intros q m x Hin Hx. rewrite (Hk2 q m x); [|rewrite Hperm1; by apply list_elem_of_further|done]. by apply (Hk1 q m). }
  destruct (Z.eqb_spec stk 0) as [->|Hs].
  { exists bs2. do 3 (split; [done|]). left. split; [done|].
    destruct Hr2 as [(_ & -> & Hx)|(n & _ & ? & _)]; [|unfold HEAP_START in *; lia].
    split; [exists [(p, pn)]; split; [by rewrite Hperm1|cbn; lia]|].
    exists STACK_SIZE. split; [apply list_elem_of_further, list_elem_of_here|exact Hx]. }
  destruct Hr2 as [[-> _]|(sn & Hs4 & Hss & Hsn & Hsc & Hperm2 & Hdis2)]; [done|].
  change (align4 STACK_SIZE) with 16384 in Hsn.
  assert ((p, pn) ∈ live HEAP_START bs1) as Hin1 by (rewrite Hperm1; apply list_elem_of_here).
  assert ((p, pn) ∈ live HEAP_START bs2) as Hin2 by (rewrite Hperm2; by apply list_elem_of_further).
  pose proof (Hdis2 p pn Hin1) as Hps2.
  apply (k_reach_outcome _ (set_kheap h2 (set_kheap h1 s)) bs2); [done| |].
  { constructor; [|done]. destruct Hg2 as (Hwf2 & _). pose proof Hwf2 as [Hst2 _ Ht2]. rewrite Hst2 in Ht2.
    destruct (live_range _ _ _ _ p pn Ht2 Hin2). cbn. lia. }
  exists bs2. split; [|split; [|split; [done|]]].
  - eapply (heap_good_payload (set_kheap h2 s)); [exact Hg2|done|done|done|]. intros x.
    unfold word; cbn. destruct (Z.eqb_spec x (p + 8)); [right; exists p, pn|by left]. split; [done|lia].
  - intros q m x Hin Hx. cbn. destruct (Z.eqb_spec x (p + 8)) as [->|]; [|by apply (Hk12 q m)].
    destruct (Hdis1 q m Hin); lia.
  - right. exists pn, stk, sn. unfold PROCESS_SIZE, STACK_SIZE. split; [by rewrite Hperm2, Hperm1|].
    do 6 (split; [done || lia|]). split; [unfold p_malloc_addr, word; cbn; by rewrite Z.eqb_refl|].
    intros q m Hq. split; [by apply Hdis1|]. apply Hdis2. rewrite Hperm1. by apply list_elem_of_further.
Qed.

Lemma word_put a v s x : word (put_word a v s) x = if x =? a then v else word s x.
Proof using. done. Qed.

Lemma zero_registers_spec frame s :
  let s' := zero_registers frame s in
  kqueue s' = kqueue s /\ heap_start (kheap s') = heap_start (kheap s) /\
  heap_end (kheap s') = heap_end (kheap s) /\ pages (kheap s') = pages (kheap s) /\
  (forall i, 0 <= i < 8 -> word s' (frame + 4 * i) = 0) /\
  (forall x, x < frame \/ frame + 32 <= x -> word s' x = word s x) /\
  (forall x, word s' x = word s x \/ frame <= x < frame + 32).
Proof using.
  unfold zero_registers. cbn [for_range]. do 4 (split; [done|]).
  rewrite !Z.add_0_l. split; [|split].
  - intros i Hi. rewrite !word_put. repeat (zcase; try lia).
  - intros x Hx. rewrite !word_put. repeat (zcase; try lia).
  - intros x. rewrite !word_put. repeat (zcase; try lia).
Qed.

(** The registers an [iret] to user mode pops, at stack pointer [f]. *)
Definition user_frame (s : @kstate F) (f entry top : Z) : Prop :=
  (forall i, 0 <= i < 8 -> word s (f + 4 * i) = 0) /\
  word s (f + 32) = entry /\ word s (f + 36) = USER_CODE_SEGMENT_SEL /\
  word s (f + 40) = INTERRUPT_AND_RESERVED_EFLAGS /\
  word s (f + 44) = top /\ word s (f + 48) = USER_DATA_SEGMENT_SEL.

Lemma word_set_kqueue q s x : word (set_kqueue q s) x = word s x.
Proof using. done. Qed.

Lemma forge_user_frame_spec p entry top stk f s s' :
  p_malloc_addr s p = stk -> 0 <= stk < 4294950912 ->
  p + 12 <= stk \/ stk + STACK_SIZE <= p ->
  f = stk + STACK_SIZE - 52 -> s' = forge_user_frame p entry top s ->
  p_esp s' p = f /\ p_malloc_addr s' p = stk /\ user_frame s' f entry top /\
  heap_start (kheap s') = heap_start (kheap s) /\ heap_end (kheap s') = heap_end (kheap s) /\
  pages (kheap s') = pages (kheap s) /\ kqueue s' = kqueue s /\
  forall x, word s' x = word s x \/ x = p \/ f <= x < stk + STACK_SIZE.
Proof using.
  intros Hma Hr Hd Ef Es. unfold STACK_SIZE in *.
  assert (exists s3, s' = put_word (f + 48) USER_DATA_SEGMENT_SEL (put_word (f + 44) top
    (put_word (f + 40) INTERRUPT_AND_RESERVED_EFLAGS
    (put_word (f + 36) USER_CODE_SEGMENT_SEL (put_word (f + 32) entry s3)))) /\
    s3 = zero_registers f (put_word p f s)) as (s3 & -> & E3).
  { exists (zero_registers f (put_word p f s)). split; [|done].
    rewrite Es. unfold forge_user_frame. cbv zeta. unfold p_esp. rewrite word_put, Z.eqb_refl, Hma.
    unfold STACK_SIZE, USER_FRAME_SIZE, u32. rewrite Z.mod_small by lia. rewrite <- Ef. reflexivity. }
  destruct (zero_registers_spec f (put_word p f s)) as (Hq & Hs & He & Hpg & Hz & Hout & Hin).
  rewrite <- E3 in *. clear E3.
  assert (p_esp s3 p = f /\ p_malloc_addr s3 p = stk) as [Hep Hmp].
  { unfold p_esp, p_malloc_addr. rewrite !Hout by lia. rewrite !word_put, Z.eqb_refl.
    by zfalse (p + 8 =? p). }
  unfold p_esp, p_malloc_addr in *. rewrite !word_put.
  split; [|split; [|split; [|split; [exact Hs|split; [exact He|split; [exact Hpg|split; [exact Hq|]]]]]]].
  - repeat (zcase; [exfalso; lia|]). exact Hep.
  - repeat (zcase; [exfalso; lia|]). exact Hmp.
  - unfold user_frame. rewrite !word_put. repeat split; intros; rewrite ?word_put;
      repeat (zcase; try lia); try done. by apply Hz.
  - intros x. rewrite !word_put. repeat (zcase; [right; right; lia|]).
    destruct (Hin x) as [->|]; [|right; right; lia]. rewrite word_put. zcase; auto.
Qed.

(** C39. [create_user_process] on a heap in order.  It ends, in a page fault only
    when the frames below [HEAP_START], where page tables must lie, have run
    out.  When it returns, the heap is in order and the contents of every block
    in use are untouched.  If the request for the process block or the one for
    its stack cannot be served - no block fits, and the region is at its limit
    or no frame is free -, the queue is unchanged and at most the process block is
    lost.  Otherwise there is a fresh process block and a fresh stack, apart
    from each other and from all others, the stack pointer saved in the block points at a
    user-mode interrupt frame that ends exactly at the top of the 16 KiB stack,
    and the process is appended to the ready queue if it is not full. *)
Theorem create_user_process_correct s (bs : list block) (entry top : Z) :
  heap_wf (kheap s) bs -> isolated (kpages s) -> backed (kheap s) -> pq_wf (kqueue s) ->
  match create_user_process entry top s with
  | Ret s' => exists bs', heap_wf (kheap s') bs' /\ isolated (kpages s') /\
      (backed (kheap s') \/ low_full (kpages s')) /\ keeps (live HEAP_START bs) (kheap s) (kheap s') /\
      ((kqueue s' = kqueue s /\
        (exists lost, live HEAP_START bs' ≡ₚ lost ++ live HEAP_START bs /\ (length lost <= 1)%nat) /\
        exists size, size ∈ [PROCESS_SIZE; STACK_SIZE] /\ exhausted size (kheap s') bs') \/
       (exists p pn stk sn, live HEAP_START bs' ≡ₚ (stk, sn) :: (p, pn) :: live HEAP_START bs /\
          PROCESS_SIZE <= pn /\ STACK_SIZE <= sn /\ (p + pn + 8 <= stk \/ stk + sn + 8 <= p) /\
          p_malloc_addr s' p = stk /\ p_esp s' p + 52 = stk + STACK_SIZE /\
          user_frame s' (p_esp s' p) entry top /\
          items (kqueue s') = (Spec.push (items (kqueue s)) p).2))
  | PageFault a p => in_window a /\ reaches p a = false /\ low_full p
  | NoFuel => False
  end.
Proof using H0.
  intros Hwf Hi Hb Hq.
  match goal with |- match ?m with Ret s' => @?Q s' | _ => _ end => change (outcome m Q) end.
  unfold create_user_process. apply outcome_bind.
  eapply outcome_mono; [|exact (create_proc_spec s bs (conj Hwf (conj Hi (or_introl Hb))))].
  intros [p s1] (bs1 & Hg1 & Hk1 & Hq1 & Hr). destruct (Z.eqb_spec p 0) as [->|Hp].
  { exists bs1. destruct Hg1 as (? & ? & ?). do 4 (split; [done|]). left. split; [done|].
    destruct Hr as [[_ ?]|(? & ? & ? & _ & _ & _ & ? & _)]; [done|unfold HEAP_START in *; lia]. }
  destruct Hr as [[-> _]|(pn & stk & sn & Hperm & Hpn & Hsn & Hps & Hss & Hsc & Hdis & Hma & Hall)]; [done|].
  unfold PROCESS_SIZE, HEAP_START, KERNEL_CEILING in *. unfold STACK_SIZE in *.
  assert ((stk, sn) ∈ live 268435456 bs1 /\ (p, pn) ∈ live 268435456 bs1) as [Hi1 Hi2].
  { rewrite Hperm. split; [apply list_elem_of_here|]. apply list_elem_of_further, list_elem_of_here. }
  apply (k_reach_outcome _ s1 bs1); [done| |].
  { destruct Hg1 as ([Hst1 _ Ht1] & _). unfold HEAP_START in *. rewrite Hst1 in Ht1.
    pose proof (live_range _ _ _ _ _ _ Ht1 Hi1). pose proof (live_range _ _ _ _ _ _ Ht1 Hi2).
    unfold frame_words, STACK_SIZE, USER_FRAME_SIZE. rewrite Hma. unfold u32. rewrite Z.mod_small by lia.
    constructor; [lia|]. apply Forall_map, Forall_seq. change (Z.to_nat (52 / 4)) with 13%nat. intros j Hj. lia. }
  destruct (forge_user_frame_spec p entry top stk (stk + 16384 - 52) s1 (forge_user_frame p entry top s1))
    as (Hes & Hma4 & Huf & Hst4 & He4 & Hpg4 & Hq4 & Hfoot);
    [exact Hma|lia|unfold STACK_SIZE; lia|reflexivity|reflexivity|]. unfold STACK_SIZE in Hfoot.
  cbv zeta. generalize dependent (forge_user_frame p entry top s1). intros s4 Hes Hma4 Huf Hst4 He4 Hpg4 Hq4 Hfoot.
  assert (heap_good (kheap s4) bs1) as (Hwf4 & Hi4 & Hb4).
  { apply (heap_good_payload s1 _ bs1 Hg1 Hpg4 Hst4 He4). intros x.
    destruct (Hfoot x) as [?|[-> |?]]; [by left|right; exists p, pn; split; [done|lia]|].
    right. exists stk, sn. split; [done|lia]. }
  exists bs1. split; [done|]. split; [done|]. split; [done|]. split.
  - intros q m x Hin Hx. cbn [kheap set_kqueue]. fold (word s4 x). fold (word s x).
    destruct (Hall q m Hin). destruct (Hfoot x) as [->|[-> |?]]; [by apply (Hk1 q m)|lia|lia].
  - right. exists p, pn, stk, sn. unfold p_esp, p_malloc_addr in *. rewrite !word_set_kqueue.
    rewrite Hes. do 5 (split; [done|]). split; [lia|]. split; [done|].
    cbn [kqueue set_kqueue]. rewrite Hq4, Hq1.
    destruct (pq_push_spec (kqueue s) p Hq) as [_ Hpush]. by rewrite <- Hpush.
Qed.

End creation.

(** ** Tearing the user program down *)

Section teardown.
Context {F : Type} `{FrameLaws F}.
Implicit Types s : @kstate F.

(** The directory and its tables are in order, whatever the allocator holds. *)
Definition pg_tree (p : @pstate F) : Prop := exists fr, pg_wf (set_frames fr p) (kernel_dir p).

(** From [s] to [s'] the pages of [P] (page numbers) lose their mapping and the
    frames of [G] become free; no other translation and no other frame changes. *)
Record cleared s s' (P G : list Z) : Prop := {
  cl_tree : pg_tree (kpages s'); cl_fr : fr_wf (frames (kpages s'));
  cl_dir : kernel_dir (kpages s') = kernel_dir (kpages s); cl_array : uframes s' = uframes s;
  cl_walk v : is_u32 v ->
    kwalk (kpages s') v = if bool_decide (v / 4096 ∈ P) then None else kwalk (kpages s) v;
  cl_used g : 0 <= g < 1048576 ->
    fr_used (frames (kpages s')) g = fr_used (frames (kpages s)) g && negb (bool_decide (g ∈ G))
}.

Lemma cleared_refl s : pg_tree (kpages s) -> fr_wf (frames (kpages s)) -> cleared s s [] [].
Proof using. intros. split; try done. intros g _. by rewrite andb_true_r. Qed.

Lemma cleared_trans s1 s2 s3 P P' G G' :
  cleared s1 s2 P G -> cleared s2 s3 P' G' -> cleared s1 s3 (P ++ P') (G ++ G').
Proof using.
  intros C C'. split; [apply C'|apply C'| | | |].
  - by rewrite (cl_dir _ _ _ _ C'), (cl_dir _ _ _ _ C).
  - by rewrite (cl_array _ _ _ _ C'), (cl_array _ _ _ _ C).
  - intros v Hv. rewrite (cl_walk _ _ _ _ C' v Hv), (cl_walk _ _ _ _ C v Hv).
    rewrite (bool_decide_ext _ _ (elem_of_app P P' (v / 4096))), bool_decide_or.
    by destruct (bool_decide (v / 4096 ∈ P)), (bool_decide (v / 4096 ∈ P')).
  - intros g Hg. rewrite (cl_used _ _ _ _ C' g Hg), (cl_used _ _ _ _ C g Hg).
    rewrite (bool_decide_ext _ _ (elem_of_app G G' g)), bool_decide_or.
    by destruct (fr_used _ g), (bool_decide (g ∈ G)), (bool_decide (g ∈ G')).
Qed.

Lemma unmap_clears v s :
  pg_tree (kpages s) -> fr_wf (frames (kpages s)) -> is_u32 v ->
  cleared s (u_unmap v s).2 [v / 4096] [] /\
  (u_unmap v s).1 = match kwalk (kpages s) v with Some e => e / 4096 * 4096 | None => 0 end.
Proof using.
  intros [fr Hwf] Hfr Hv. unfold u_unmap. change (kernel_dir (kpages s)) with (kernel_dir (set_frames fr (kpages s))) in Hwf.
  pose proof (unmap_spec (set_frames fr (kpages s)) v Hwf Hv) as Hu. rewrite unmap_set_frames in Hu.
  assert (frames (unmap_kernel_page v (kpages s)).2 = frames (kpages s)) as Ef.
  { unfold unmap_kernel_page. by repeat case_match. }
  destruct (unmap_kernel_page v (kpages s)) as [p pg]. cbn [fst snd] in *.
  destruct Hu as (Hwf' & Hk & _ & Hn & Ho & Hp). cbn [kernel_dir set_frames] in Hk.
  split; [|exact Hp]. split; cbn [kpages set_kpages set_kheap kheap set_pages pages uframes].
  - exists fr. by rewrite Hk.
  - by rewrite Ef.
  - exact Hk.
  - done.
  - intros w Hw. rewrite Hk. destruct (bool_decide_reflect (w / 4096 ∈ [v / 4096])) as [E|E].
    + apply list_elem_of_singleton in E. rewrite <- Hn. exact (walk_page (set_frames fr pg) _ w v Hw Hv E).
    + apply Ho; [done|]. intros E'. apply E. rewrite E'. apply list_elem_of_here.
  - intros g Hg. by rewrite Ef, andb_true_r.
Qed.

Lemma free_clears f s :
  pg_tree (kpages s) -> fr_wf (frames (kpages s)) -> 0 < f < 1048576 ->
  cleared s (u_free_frame (4096 * f) s) [] [f].
Proof using H0.
  intros Ht Hwf Hf. destruct (fr_free_ok (frames (kpages s)) (4096 * f) f Hwf) as [Hwf' Hu];
    [rewrite Z.mul_comm; by apply Z.div_mul|done|].
  split; try done. intros g Hg. cbn. rewrite Hu, andb_comm by done. f_equal. f_equal.
  apply Bool.eq_iff_eq_true. by rewrite Z.eqb_eq, bool_decide_eq_true, list_elem_of_singleton.
Qed.

(** The frame a page is mapped to, unless it is frame 0. *)
Definition page_frame s (v : Z) : list Z :=
  match kwalk (kpages s) v with Some e => if e / 4096 =? 0 then [] else [e / 4096] | None => [] end.

Lemma free_page_clears s0 v s :
  pg_tree (kpages s0) -> pg_tree (kpages s) -> fr_wf (frames (kpages s)) ->
  let p := match kwalk (kpages s0) v with Some e => e / 4096 * 4096 | None => 0 end in
  cleared s (if negb (p =? 0) then u_free_frame p s else s) [] (page_frame s0 v).
Proof using H0.
  intros [fr Hwf0] Ht Hfr. unfold page_frame. destruct (kwalk (kpages s0) v) as [e|] eqn:E; [|by apply cleared_refl].
  pose proof (walk_u32 _ _ v e Hwf0 E) as He. unfold is_u32 in He. cbv zeta.
  destruct (Z.eqb_spec (e / 4096) 0) as [Z0|Z0].
  - rewrite Z0. by apply cleared_refl.
  - zfalse (e / 4096 * 4096 =? 0). cbn [negb]. rewrite Z.mul_comm. apply free_clears; [done|done|zlia].
Qed.

(** The entries of [frames] are 0 or addresses of frames. *)
Definition uframes_ok (fs : list Z) : Prop :=
  length fs = Z.to_nat MISC_PAGE_CNT /\
  Forall (fun a => exists f, a = 4096 * f /\ 0 <= f < 1048576) fs.

(** The misc pages with a frame in the array, from the [j]-th on, and those frames. *)
Definition misc_held s (n : nat) (j : Z) : list Z :=
  filter (fun k => uframes s !!! Z.to_nat k <> 0) (map (fun i => j + Z.of_nat i) (seq 0 n)).
Definition misc_page (k : Z) : Z := (CODE_ADDR + 4096 * (k + 1)) / 4096.
Definition misc_frame s (k : Z) : Z := uframes s !!! Z.to_nat k / 4096.

Definition teardown_step (j : Z) s : kstate :=
  if uframes s !!! Z.to_nat j =? 0 then s
  else
    let s := (u_unmap (CODE_ADDR + 4096 * (j + 1)) s).2 in
    u_free_frame (uframes s !!! Z.to_nat j) s.

Lemma teardown_loop n j s :
  pg_tree (kpages s) -> fr_wf (frames (kpages s)) -> uframes_ok (uframes s) ->
  0 <= j -> j + Z.of_nat n <= MISC_PAGE_CNT ->
  cleared s (for_range n j teardown_step s) (misc_page <$> misc_held s n j) (misc_frame s <$> misc_held s n j).
Proof using H0.
  revert j s. induction n as [|n IH]; intros j s Ht Hwf Hok Hj Hn; cbn [for_range]; [by apply cleared_refl|].
  assert (misc_held s (S n) j = (if uframes s !!! Z.to_nat j =? 0 then [] else [j]) ++ misc_held s n (j + 1)) as Em.
  { unfold misc_held. cbn [seq map]. rewrite <- seq_shift, map_map, Z.add_0_r.
    assert (map (fun x => j + Z.of_nat (S x)) (seq 0 n) = map (fun i => j + 1 + Z.of_nat i) (seq 0 n)) as ->
      by (apply map_ext; intros; lia).
    destruct (Z.eqb_spec (uframes s !!! Z.to_nat j) 0) as [E|E]; [rewrite filter_cons_False by tauto|rewrite filter_cons_True by done]; done. }
  assert (cleared s (teardown_step j s) (misc_page <$> (if uframes s !!! Z.to_nat j =? 0 then [] else [j]))
            (misc_frame s <$> (if uframes s !!! Z.to_nat j =? 0 then [] else [j]))) as C1.
  { unfold teardown_step. destruct (Z.eqb_spec (uframes s !!! Z.to_nat j) 0) as [E|E]; [by apply cleared_refl|]. cbv zeta.
    destruct (unmap_clears (CODE_ADDR + 4096 * (j + 1)) s Ht Hwf) as [C _].
    { unfold is_u32, CODE_ADDR, KERNEL_CEILING, MISC_PAGE_CNT in *. lia. }
    rewrite (cl_array _ _ _ _ C). unfold misc_frame. destruct Hok as [Hl Hok]. unfold MISC_PAGE_CNT in *.
    assert (exists f, uframes s !!! Z.to_nat j = 4096 * f /\ 0 <= f < 1048576) as (f & Ef & Hf).
    { rewrite Forall_forall in Hok. apply Hok. apply list_elem_of_lookup_total_2. lia. }
    cbn [fmap list_fmap]. rewrite Ef in *. rewrite (Z.mul_comm 4096 f), Z.div_mul, (Z.mul_comm f) by lia.
    change [f] with ([] ++ [f]). change [misc_page j] with ([misc_page j] ++ []).
    eapply cleared_trans; [exact C|]. apply free_clears; [apply C|apply C|lia]. }
  rewrite Em, !fmap_app. eapply cleared_trans; [exact C1|].
  assert (misc_held s n (j + 1) = misc_held (teardown_step j s) n (j + 1)) as ->
    by (unfold misc_held; by rewrite (cl_array _ _ _ _ C1)).
  assert (misc_frame s <$> misc_held (teardown_step j s) n (j + 1) =
          misc_frame (teardown_step j s) <$> misc_held (teardown_step j s) n (j + 1)) as ->
    by (unfold misc_frame; by rewrite (cl_array _ _ _ _ C1)).
  apply IH; [apply C1|apply C1|by rewrite (cl_array _ _ _ _ C1)|lia|lia].
Qed.

(** The pages of the user program, as page numbers: code, stack and the misc
    pages of the array; and the frames behind them. *)
Definition user_pages s : list Z :=
  [CODE_ADDR / 4096; STACK_ADDR / 4096] ++ (misc_page <$> misc_held s (Z.to_nat MISC_PAGE_CNT) 0).
Definition user_frames s : list Z :=
  page_frame s CODE_ADDR ++ page_frame s STACK_ADDR ++ (misc_frame s <$> misc_held s (Z.to_nat MISC_PAGE_CNT) 0).

Lemma user_addr_u32 : is_u32 CODE_ADDR /\ is_u32 STACK_ADDR.
Proof using. unfold is_u32, STACK_ADDR, CODE_ADDR, KERNEL_CEILING, MISC_PAGE_CNT. lia. Qed.

(** [userland_teardown] unmaps every page of the user program and frees exactly
    the frames behind them; no other translation and no other frame changes.
    It leaves the [frames] array as it was: when it runs again (each
    [kill_current] runs it), it frees the same frames again, whoever holds them
    by then. *)
Theorem userland_teardown_frees s :
  pg_tree (kpages s) -> fr_wf (frames (kpages s)) -> uframes_ok (uframes s) ->
  cleared s (userland_teardown s) (user_pages s) (user_frames s).
Proof using H0.
  intros Ht Hwf Hok. unfold userland_teardown.
  destruct (unmap_clears CODE_ADDR s Ht Hwf) as [C1 E1]; [by apply user_addr_u32|].
  destruct (u_unmap CODE_ADDR s) as [p1 s1]. cbn [fst snd] in *.
  destruct (unmap_clears STACK_ADDR s1 (cl_tree _ _ _ _ C1) (cl_fr _ _ _ _ C1)) as [C2 E2]; [by apply user_addr_u32|].
  destruct (u_unmap STACK_ADDR s1) as [p2 s2]. cbn [fst snd] in *.
  rewrite (cl_walk _ _ _ _ C1) in E2 by apply user_addr_u32.
  rewrite bool_decide_eq_false_2 in E2 by (by rewrite list_elem_of_singleton).
  assert (pg_tree (kpages s2) /\ fr_wf (frames (kpages s2))) as [Ht2 Hf2] by (split; apply C2).
  pose proof (free_page_clears s CODE_ADDR s2 Ht Ht2 Hf2) as C3. cbv zeta in C3. rewrite <- E1 in C3.
  generalize dependent (if negb (p1 =? 0) then u_free_frame p1 s2 else s2). intros s3 C3.
  assert (pg_tree (kpages s3) /\ fr_wf (frames (kpages s3))) as [Ht3 Hf3] by (split; apply C3).
  pose proof (free_page_clears s STACK_ADDR s3 Ht Ht3 Hf3) as C4. cbv zeta in C4. rewrite <- E2 in C4. cbv zeta.
  generalize dependent (if negb (p2 =? 0) then u_free_frame p2 s3 else s3). intros s4 C4.
  pose proof (cleared_trans _ _ _ _ _ _ _ C1 (cleared_trans _ _ _ _ _ _ _ C2 (cleared_trans _ _ _ _ _ _ _ C3 C4))) as C.
  cbn [app] in C. pose proof (cl_array _ _ _ _ C) as Ea.
  pose proof (teardown_loop (Z.to_nat MISC_PAGE_CNT) 0 s4 (cl_tree _ _ _ _ C) (cl_fr _ _ _ _ C)) as C5.
  rewrite Ea in C5. specialize (C5 Hok ltac:(lia) ltac:(unfold MISC_PAGE_CNT; lia)).
  assert (misc_held s4 (Z.to_nat MISC_PAGE_CNT) 0 = misc_held s (Z.to_nat MISC_PAGE_CNT) 0) as Eh by (unfold misc_held; by rewrite Ea).
  assert (misc_frame s4 = misc_frame s) as Ef by (unfold misc_frame; by rewrite Ea).
  rewrite Eh, Ef in C5. unfold user_pages, user_frames. rewrite (app_assoc (page_frame s CODE_ADDR)).
  eapply cleared_trans; [exact C|exact C5].
Qed.

End teardown.

(** ** Killing the running process *)

Section kill.
Context {F : Type} `{FrameLaws F}.
Implicit Types s : @kstate F.

(** The teardown works on pages and frames only. *)
Definition pages_only s s' : Prop :=
  hmem (kheap s') = hmem (kheap s) /\ heap_start (kheap s') = heap_start (kheap s) /\ heap_end (kheap s') = heap_end (kheap s) /\
  kqueue s' = kqueue s /\ current s' = current s /\ esp0 s' = esp0 s.

Lemma pages_only_refl s : pages_only s s.
Proof. done. Qed.
Lemma pages_only_trans s1 s2 s3 : pages_only s1 s2 -> pages_only s2 s3 -> pages_only s1 s3.
Proof. unfold pages_only. intros (A & B & C & E & G & I) (A' & B' & C' & E' & G' & I'). repeat split; congruence. Qed.
Lemma pages_only_unmap v s : pages_only s (u_unmap v s).2.
Proof. unfold u_unmap. by destruct (unmap_kernel_page v (kpages s)). Qed.
Lemma pages_only_free a s : pages_only s (u_free_frame a s).
Proof. done. Qed.

Lemma teardown_pages_only s : pages_only s (userland_teardown s).
Proof.
  unfold userland_teardown. pose proof (pages_only_unmap CODE_ADDR s) as H1. destruct (u_unmap CODE_ADDR s) as [p1 s1].
  pose proof (pages_only_unmap STACK_ADDR s1) as H2. destruct (u_unmap STACK_ADDR s1) as [p2 s2]. cbn [snd] in *.
  set (s3 := if negb (p1 =? 0) then u_free_frame p1 s2 else s2). assert (pages_only s2 s3) as H3 by (unfold s3; destruct (negb (p1 =? 0)); [apply pages_only_free|apply pages_only_refl]).
  set (s4 := if negb (p2 =? 0) then u_free_frame p2 s3 else s3). assert (pages_only s3 s4) as H4 by (unfold s4; destruct (negb (p2 =? 0)); [apply pages_only_free|apply pages_only_refl]).
  assert (pages_only s s4) as Hs by exact (pages_only_trans _ _ _ H1 (pages_only_trans _ _ _ H2 (pages_only_trans _ _ _ H3 H4))). clearbody s4. clear - Hs.
  apply (for_range_ind (fun _ => pages_only s)); [done|]. intros j s5 _ H5. destruct (_ =? 0); [done|].
  eapply pages_only_trans; [exact H5|]. eapply pages_only_trans; [apply pages_only_unmap|apply pages_only_free].
Qed.

Lemma heap_wf_same (h h' : @heap F) bs : hmem h' = hmem h -> heap_start h' = heap_start h -> heap_end h' = heap_end h ->
  heap_wf h bs -> heap_wf h' bs.
Proof. intros Em Es Ee [A B C]. split; rewrite ?Es, ?Ee, ?Em; done. Qed.

Lemma keeps_sub (l l' : list (Z * Z)) (h h' : @heap F) : (forall x, x ∈ l' -> x ∈ l) -> keeps l h h' -> keeps l' h h'.
Proof. intros Hl Hk p n x Hin. apply Hk. by apply Hl. Qed.

Lemma reaches_tree (p : @pstate F) v : pg_tree p -> is_u32 v ->
  reaches p v = match kwalk p v with Some e => writable e | None => false end.
Proof.
  intros [fr Hwf] Hv. pose proof (translate_walk _ _ v Hwf Hv) as E.
  change (translate (set_frames fr p) (kernel_dir p) v) with (translate p (kernel_dir p) v) in E.
  change (walk (set_frames fr p) (kernel_dir p) v) with (kwalk p v) in E.
  unfold reaches. rewrite E. by destruct (kwalk p v).
Qed.

(** The user program's pages lie above the kernel's window. *)
Lemma user_pages_above s v : in_window v -> v / 4096 ∉ user_pages s.
Proof.
  unfold in_window, user_pages, STACK_ADDR, CODE_ADDR, HEAP_START, KERNEL_CEILING. intros Hv Hin.
  apply elem_of_app in Hin as [Hin|Hin].
  - apply elem_of_cons in Hin as [Hin|Hin%list_elem_of_singleton]; unfold MISC_PAGE_CNT in *; zlia.
  - apply list_elem_of_fmap in Hin as (k & E & Hk). unfold misc_held in Hk. apply list_elem_of_filter in Hk as [_ Hk].
    apply list_elem_of_fmap in Hk as (i & -> & _). unfold misc_page, CODE_ADDR, KERNEL_CEILING in E. zlia.
Qed.

Lemma cleared_backed s s' G : cleared s s' (user_pages s) G -> pg_tree (kpages s) ->
  heap_end (kheap s') = heap_end (kheap s) -> heap_end (kheap s) <= KERNEL_CEILING ->
  backed (kheap s) -> backed (kheap s').
Proof.
  intros C Ht Ee He Hb v Hv. rewrite Ee in Hv.
  assert (in_window v) as Hw by (unfold in_window; lia). pose proof (window_u32 v Hw) as Hu.
  specialize (Hb v Hv). fold (kpages s) in Hb. fold (kpages s'). rewrite reaches_tree in Hb |- * by (done || apply C).
  rewrite (cl_walk _ _ _ _ C v Hu), bool_decide_eq_false_2 by (by apply user_pages_above). done.
Qed.

Lemma cleared_from s s1 s' : kheap s1 = kheap s -> uframes s1 = uframes s ->
  cleared s1 s' (user_pages s1) (user_frames s1) -> cleared s s' (user_pages s) (user_frames s).
Proof.
  intros Eh Eu C. assert (user_pages s1 = user_pages s) as Ep by (unfold user_pages, misc_held; by rewrite Eu).
  assert (user_frames s1 = user_frames s) as Ef.
  { unfold user_frames, page_frame, misc_frame, misc_held, kpages. by rewrite Eu, Eh. }
  rewrite Ep, Ef in C. destruct C as [Ct Cf Cd Ca Cw Cu]. unfold kpages in *. rewrite Eh in *.
  split; try done. by rewrite Ca.
Qed.

Lemma cleared_to s s' s'' P G : kpages s'' = kpages s' -> uframes s'' = uframes s' ->
  cleared s s' P G -> cleared s s'' P G.
Proof. intros Ep Eu C. destruct C as [Ct Cf Cd Ca Cw Cu]. split; rewrite ?Ep, ?Eu; done. Qed.

(** Nothing is ready: nothing changes, and the answer is [SYSCALL_ERROR]. *)
Lemma kill_current_alone s : pq_wf (kqueue s) -> items (kqueue s) = [] ->
  kill_current s = Ret (SYSCALL_ERROR, s).
Proof.
  intros Hq Hi. unfold kill_current. rewrite (pq_empty_items _ Hq), Hi. cbn. by destruct s.
Qed.

(** The running process ends: the front of the queue becomes current and its
    saved stack pointer is returned, the block and the stack of the victim are
    given back, no other block in use has changed, and the user program's pages
    and frames are given back. *)
Lemma kill_current_spec s bs next ps vn sn rest nn :
  heap_wf (kheap s) bs -> backed (kheap s) -> pg_tree (kpages s) -> fr_wf (frames (kpages s)) -> uframes_ok (uframes s) ->
  pq_wf (kqueue s) -> items (kqueue s) = next :: ps ->
  live HEAP_START bs ≡ₚ (current s, vn) :: (p_malloc_addr s (current s), sn) :: rest -> 12 <= vn ->
  (next, nn) ∈ rest -> 12 <= nn ->
  exists s' bs', kill_current s = Ret (p_esp s next, s') /\ heap_wf (kheap s') bs' /\ backed (kheap s') /\
    live HEAP_START bs' ≡ₚ rest /\ keeps rest (kheap s) (kheap s') /\ current s' = next /\ items (kqueue s') = ps /\
    esp0 s' = (if p_malloc_addr s next =? 0 then esp0 s else u32 (p_malloc_addr s next + STACK_SIZE)) /\
    cleared s s' (user_pages s) (user_frames s).
Proof.
  intros Hwf Hb Ht Hfr Huf Hq Hi Hlive Hvn Hnext Hnn. unfold kill_current. rewrite (pq_empty_items _ Hq), Hi. cbn [Spec.is_empty].
  destruct (pq_pop_spec _ Hq) as (Hq' & Hi' & Hv & _). destruct (pqueue_pop (kqueue s)) as [p q]. cbn [fst snd] in *.
  rewrite Hi in Hi', Hv. cbn in Hi', Hv. subst p. cbv zeta.
  set (victim := current s) in *. set (stk := p_malloc_addr s victim) in *.
  set (s1 := enter_current (set_current next (set_kqueue q s))).
  assert (kheap s1 = kheap s /\ kqueue s1 = q /\ current s1 = next /\ uframes s1 = uframes s /\
    esp0 s1 = if p_malloc_addr s next =? 0 then esp0 s else u32 (p_malloc_addr s next + STACK_SIZE)) as (E1 & Q1 & C1 & U1 & P1).
  { unfold s1, enter_current. cbn [current set_current].
    change (p_malloc_addr (set_current next (set_kqueue q s)) next) with (p_malloc_addr s next). by destruct (p_malloc_addr s next =? 0). }
  clearbody s1. pose proof (teardown_pages_only s1) as (M2 & S2 & N2 & Q2 & C2 & P2).
  assert (cleared s (userland_teardown s1) (user_pages s) (user_frames s)) as Cl.
  { apply (cleared_from s s1); [done|done|]. apply userland_teardown_frees; unfold kpages in *; rewrite ?E1, ?U1; done. }
  set (s2 := userland_teardown s1) in *. clearbody s2.
  rewrite E1 in M2, S2, N2. assert (heap_wf (kheap s2) bs) as Hwf2 by (by apply (heap_wf_same (kheap s))).
  assert (backed (kheap s2)) as Hb2.
  { apply (cleared_backed s s2 (user_frames s)); try done. destruct (wf_end _ _ Hwf). lia. }
  assert (p_malloc_addr s2 victim = stk) as -> by (unfold stk, p_malloc_addr, word; by rewrite M2).
  destruct (kfree_correct (kheap s2) bs stk sn Hwf2 Hb2) as (h3 & pre & n3 & post & F3 & G3 & N3 & Hwf3 & _ & _ & L3 & K3 & _).
  { rewrite Hlive. apply list_elem_of_further, list_elem_of_here. }
  set (bs3 := pre ++ mkBlock n3 true :: post) in *.
  assert (live HEAP_START bs3 ≡ₚ (victim, vn) :: rest) as L3'.
  { apply (Permutation.Permutation_cons_inv (a := (stk, sn))). rewrite <- L3, Hlive. apply Permutation.perm_swap. }
  unfold k_free. rewrite F3. cbn [mbind run_bind].
  assert (backed h3) as Hb3 by (unfold backed, backed_to in *; by rewrite N3, G3).
  destruct (kfree_correct h3 bs3 victim vn Hwf3 Hb3) as (h4 & pre4 & n4 & post4 & F4 & G4 & N4 & Hwf4 & _ & _ & L4 & K4 & _).
  { rewrite L3'. apply list_elem_of_here. }
  set (bs4 := pre4 ++ mkBlock n4 true :: post4) in *.
  assert (live HEAP_START bs4 ≡ₚ rest) as L4'.
  { apply (Permutation.Permutation_cons_inv (a := (victim, vn))). by rewrite <- L4, L3'. }
  cbn [kheap set_kheap]. rewrite F4. cbn [mbind run_bind].
  assert (keeps rest (kheap s) h4) as Hkeep.
  { intros p n x Hin Hx. rewrite (K4 p n x) by (done || by rewrite L4'). rewrite (K3 p n x); [by rewrite M2| |done].
    rewrite L3'. by apply list_elem_of_further. }
  eexists _, bs4. split.
  - f_equal. f_equal. unfold p_esp, word. cbn [kheap set_kheap current]. rewrite C2, C1. apply (Hkeep next nn); [done|lia].
  - cbn [kheap set_kheap current kqueue esp0]. split; [done|]. split; [unfold backed, backed_to in *; by rewrite N4, G4|].
    split; [done|]. split; [done|]. rewrite C2, C1, Q2, Q1, P2, P1. do 3 (split; [done|]).
    apply (cleared_to s s2); [|done|exact Cl]. unfold kpages. cbn [kheap set_kheap]. by rewrite G4, G3.
Qed.
End kill.

(** ** Concrete states *)

Definition three_procs : pqueue := mkPq (<[0%nat := 200]> (<[1%nat := 300]> (replicate 256 0))) 2 0.
Definition sample_k : kstate := mkK one_block_heap three_procs 100 0 (replicate (Z.to_nat MISC_PAGE_CNT) 20480) (fun _ => 0).

Lemma schedule_round_robin_witness :
  let (rs, s') := run_schedule ([11; 12] ++ [13]) sample_k in
  rs = map (p_esp sample_k) [200; 300] ++ [11] /\
  items (kqueue s') = [200; 300] /\ current s' = 100 /\ pq_wf (kqueue s') /\
  forall i p, [100; 200; 300] !! i = Some p -> ([11; 12] ++ [13]) !! i = Some (p_esp s' p).
Proof.
  apply (schedule_round_robin sample_k [200; 300] [11; 12] 13).
  - split; [reflexivity|]. simpl. lia.
  - reflexivity.
  - discriminate.
  - simpl. lia.
  - apply NoDup_ListNoDup. repeat constructor; simpl; lia.
  - reflexivity.
Defined.

Definition full_queue : pqueue := mkPq (map Z.of_nat (seq 1000 256)) 255 0.

Lemma schedule_full_queue_witness :
  let (r, s') := schedule 7 (set_kqueue full_queue sample_k) in
  current s' = 1000 /\ items (kqueue s') = map Z.of_nat (seq 1001 254) /\
  (100 ∉ 1000 :: map Z.of_nat (seq 1001 254) -> 100 <> current s' /\ 100 ∉ items (kqueue s')).
Proof.
  apply (schedule_full_queue (set_kqueue full_queue sample_k) 7 1000 (map Z.of_nat (seq 1001 254))).
  - split; [reflexivity|]. simpl. lia.
  - vm_compute. reflexivity.
  - reflexivity.
Defined.

Lemma create_user_process_correct_witness :
  match create_user_process 1073741824 1074794496 sample_k with
  | Ret s' => exists bs', heap_wf (kheap s') bs' /\ isolated (kpages s') /\
      (backed (kheap s') \/ low_full (kpages s')) /\ keeps (live HEAP_START one_block) (kheap sample_k) (kheap s') /\
      ((kqueue s' = kqueue sample_k /\
        (exists lost, live HEAP_START bs' ≡ₚ lost ++ live HEAP_START one_block /\ (length lost <= 1)%nat) /\
        exists size, size ∈ [PROCESS_SIZE; STACK_SIZE] /\ exhausted size (kheap s') bs') \/
       (exists p pn stk sn, live HEAP_START bs' ≡ₚ (stk, sn) :: (p, pn) :: live HEAP_START one_block /\
          PROCESS_SIZE <= pn /\ STACK_SIZE <= sn /\ (p + pn + 8 <= stk \/ stk + sn + 8 <= p) /\
          p_malloc_addr s' p = stk /\ p_esp s' p + 52 = stk + STACK_SIZE /\
          user_frame s' (p_esp s' p) 1073741824 1074794496 /\
          items (kqueue s') = (Spec.push (items (kqueue sample_k)) p).2))
  | PageFault a p => in_window a /\ reaches p a = false /\ low_full p
  | NoFuel => False
  end.
Proof.
  apply (create_user_process_correct sample_k one_block 1073741824 1074794496).
  - apply one_block_ok.
  - apply one_block_ok.
  - apply one_block_ok.
  - split; [reflexivity|]. simpl. lia.
Defined.

Definition torn_k : kstate := mkK (mkHeap 0 0 (fun _ => 0) empty_dir) three_procs 100 0
  (replicate (Z.to_nat MISC_PAGE_CNT) 20480) (fun _ => 0).

Lemma empty_dir_tree : pg_tree empty_dir.
Proof. exists two_used. apply empty_dir_wf. Qed.

Lemma userland_teardown_frees_witness :
  cleared torn_k (userland_teardown torn_k) (user_pages torn_k) (user_frames torn_k).
Proof.
  apply (userland_teardown_frees torn_k).
  - apply empty_dir_tree.
  - apply two_used_wf.
  - split; [reflexivity|]. apply Forall_replicate. exists 5. lia.
Defined.
