(* ===== verification/Disk.v ===== *)
(** * Drives, partitions and blocks

    kernel/drivers/disk/ata.c and partition.c, and the part of
    kernel/fs/block/blockController.c that finds the ext2 partitions and reads
    and writes their blocks.  A drive is an array of 512-byte sectors that
    answers every transfer inside its bounds; the bounds checks, which panic,
    are the code's.  [struct fs_info *] is an index into [fs_entries]. *)
From S2P Require Import Prelude Bytes CLib.

Definition ATA_MASTER : Z := 160.
Definition ATA_SLAVE : Z := 176.
Definition BYTES_PER_SECTOR : Z := 512.
Definition BLOCK_SIZE : Z := 4096.
Definition sectors_per_blk : Z := BLOCK_SIZE / BYTES_PER_SECTOR.
Definition EXT2_SUPERBLOCK_OFFSET : Z := 1024.
Definition SUPERBLOCK_SIZE : Z := 1024.
Definition bgdt_blk_n : Z := 1.
Definition first_inode_n : Z := 1.
Definition MAX_MOUNTS : Z := 8.
Definition PARTS_PER_DRIVE : Z := 4.
Definition FS_INFO_LABEL_LEN : Z := 17.

(** ** State *)

(** The fields of [struct ata_drive] used after [ata_identify]. *)
Record ata_drive : Type := mkDrive { supports_read48 : bool; lba_sector_count : Z }.

(** [superblk] and [bgdt] point into the two buffers; whether [superblk] is
    [NULL] is kept. [drive] is the [identify_magic] of the drive pointed to. *)
Record fs_info : Type := mkFs {
  bgdt_buf : list Z; sprblk_buf : list Z; drive : Z; superblk_null : bool;
  start_lba : Z; sector_count : Z; inode_size : Z; inodes_per_grp : Z; blks_per_grp : Z;
  frags_per_grp : Z; ngroups : Z; mountpoint : Z; label : list Z
}.

Record fstate : Type := mkS {
  sectors : Z -> Z -> list Z;       (** drive magic, LBA: 512 bytes *)
  master_drive : ata_drive; slave_drive : ata_drive;
  fs_entries : list fs_info;
  root_fs : Z; root_slot_n : Z;
  epoch_sec : Z;                    (** what [timer_get_epoch_sec] answers *)
  fresh : list Z                    (** what a block from [kmalloc] holds *)
}.

Definition set_sectors (d : Z -> Z -> list Z) (s : fstate) : fstate :=
  mkS d (master_drive s) (slave_drive s) (fs_entries s) (root_fs s) (root_slot_n s) (epoch_sec s) (fresh s).
Definition set_fs_entries (l : list fs_info) (s : fstate) : fstate :=
  mkS (sectors s) (master_drive s) (slave_drive s) l (root_fs s) (root_slot_n s) (epoch_sec s) (fresh s).
Definition set_root_fs (r : Z) (s : fstate) : fstate :=
  mkS (sectors s) (master_drive s) (slave_drive s) (fs_entries s) r (root_slot_n s) (epoch_sec s) (fresh s).
Definition set_root_slot (r : Z) (s : fstate) : fstate :=
  mkS (sectors s) (master_drive s) (slave_drive s) (fs_entries s) (root_fs s) r (epoch_sec s) (fresh s).

Abbreviation FM := (M fstate).
Definition panicM {A} (msg : string) : FM A := haltM (Panic msg).
Definition guardM (b : bool) : FM unit := if b then retM tt else haltM Fault.

(** [fs->...] and [fs->... = ...] *)
Definition get_fs (fs : Z) : FM fs_info := fun s =>
  match fs_entries s !! Z.to_nat fs with
  | Some f => Done f s
  | None => Halted Fault s
  end.
Definition put_fs (fs : Z) (f : fs_info) : FM unit :=
  modM (fun s => set_fs_entries (<[Z.to_nat fs := f]> (fs_entries s)) s).

Definition with_bgdt (b : list Z) (f : fs_info) : fs_info :=
  mkFs b (sprblk_buf f) (drive f) (superblk_null f) (start_lba f) (sector_count f) (inode_size f)
    (inodes_per_grp f) (blks_per_grp f) (frags_per_grp f) (ngroups f) (mountpoint f) (label f).
Definition with_sprblk (b : list Z) (f : fs_info) : fs_info :=
  mkFs (bgdt_buf f) b (drive f) (superblk_null f) (start_lba f) (sector_count f) (inode_size f)
    (inodes_per_grp f) (blks_per_grp f) (frags_per_grp f) (ngroups f) (mountpoint f) (label f).
Definition with_null (b : bool) (f : fs_info) : fs_info :=
  mkFs (bgdt_buf f) (sprblk_buf f) (drive f) b (start_lba f) (sector_count f) (inode_size f)
    (inodes_per_grp f) (blks_per_grp f) (frags_per_grp f) (ngroups f) (mountpoint f) (label f).
Definition with_place (d lba n : Z) (f : fs_info) : fs_info :=
  mkFs (bgdt_buf f) (sprblk_buf f) d (superblk_null f) lba n (inode_size f)
    (inodes_per_grp f) (blks_per_grp f) (frags_per_grp f) (ngroups f) (mountpoint f) (label f).
Definition with_geometry (isz ipg bpg fpg ng : Z) (f : fs_info) : fs_info :=
  mkFs (bgdt_buf f) (sprblk_buf f) (drive f) (superblk_null f) (start_lba f) (sector_count f)
    isz ipg bpg fpg ng (mountpoint f) (label f).
Definition with_mountpoint (m : Z) (f : fs_info) : fs_info :=
  mkFs (bgdt_buf f) (sprblk_buf f) (drive f) (superblk_null f) (start_lba f) (sector_count f)
    (inode_size f) (inodes_per_grp f) (blks_per_grp f) (frags_per_grp f) (ngroups f) m (label f).
Definition with_label (l : list Z) (f : fs_info) : fs_info :=
  mkFs (bgdt_buf f) (sprblk_buf f) (drive f) (superblk_null f) (start_lba f) (sector_count f)
    (inode_size f) (inodes_per_grp f) (blks_per_grp f) (frags_per_grp f) (ngroups f) (mountpoint f) l.

(** ** On-disk structures, by offset *)

(** struct ext2_superblock *)
Definition sb_inode_cnt (b : list Z) : Z := ld32 b 0.
Definition sb_block_cnt (b : list Z) : Z := ld32 b 4.
Definition sb_unalloc_blocks (b : list Z) : Z := ld32 b 12.
Definition sb_unalloc_inodes (b : list Z) : Z := ld32 b 16.
Definition sb_super_block_num (b : list Z) : Z := ld32 b 20.
Definition sb_block_size_adjusted (b : list Z) : Z := ld32 b 24.
Definition sb_blocks_per_group (b : list Z) : Z := ld32 b 32.
Definition sb_frags_per_group (b : list Z) : Z := ld32 b 36.
Definition sb_inodes_per_group (b : list Z) : Z := ld32 b 40.
Definition sb_ext2_signature (b : list Z) : Z := ld16 b 56.
Definition sb_fs_state (b : list Z) : Z := ld16 b 58.
Definition sb_inode_size (b : list Z) : Z := ld16 b 88.
Definition sb_req_features_present (b : list Z) : Z := ld32 b 96.
Definition sb_features_unsupport_ro (b : list Z) : Z := ld32 b 100.
Definition sb_vol_name (b : list Z) : list Z := sub 120 16 b.

(** struct ext2_block_group_descriptor, entry [g] *)
Definition bg_block_bitmap (b : list Z) (g : Z) : Z := ld32 b (32 * g).
Definition bg_inode_bitmap (b : list Z) (g : Z) : Z := ld32 b (32 * g + 4).
Definition bg_inode_table (b : list Z) (g : Z) : Z := ld32 b (32 * g + 8).
Definition bg_unalloc_block_cnt (b : list Z) (g : Z) : Z := ld16 b (32 * g + 12).
Definition bg_unalloc_inode_cnt (b : list Z) (g : Z) : Z := ld16 b (32 * g + 14).
Definition bg_dir_cnt (b : list Z) (g : Z) : Z := ld16 b (32 * g + 16).

(** An index into [bgdt] beyond the one block that is loaded is a fault. *)
Definition bgdt_ok (f : fs_info) (g : Z) : FM unit :=
  guardM ((0 <=? g) && (32 * g + 32 <=? Z.of_nat (length (bgdt_buf f)))).

(** ** ata.c *)

(** [count] sectors from [lba] on, in a row. *)
Definition read_sectors (s : fstate) (d lba : Z) (count : nat) : list Z :=
  concat (map (fun i => sectors s d (lba + Z.of_nat i)) (seq 0 count)).

Definition write_sectors (d lba : Z) (count : nat) (buf : list Z) (s : fstate) : fstate :=
  set_sectors (fun d' l =>
    if (d' =? d) && (lba <=? l) && (l <? lba + Z.of_nat count)
    then sub (Z.to_nat (512 * (l - lba))) 512 buf else sectors s d' l) s.

(** The bounds check of [ata_read48] and [ata_write48]; [false] is the early
    return for an unknown drive. *)
Definition ata_check (d lba count : Z) : FM bool :=
  let* s := getM in
  if d =? ATA_MASTER then
    if lba_sector_count (master_drive s) <? u64 (lba + count)
    then panicM "KERNEL PANIC: LBA OUT OF BOUNDS" else retM true
  else if d =? ATA_SLAVE then
    if lba_sector_count (slave_drive s) <? u64 (lba + count)
    then panicM "KERNEL PANIC: LBA OUT OF BOUNDS" else retM true
  else retM false.

(** [old] is what the buffer held: an unknown drive leaves it alone. *)
Definition ata_read48 (d lba count : Z) (old : list Z) : FM (list Z) :=
  let* ok := ata_check d lba count in
  if ok then let* s := getM in retM (read_sectors s d lba (Z.to_nat count)) else retM old.

Definition ata_write48 (d lba count : Z) (buf : list Z) : FM unit :=
  let* ok := ata_check d lba count in
  if ok then modM (write_sectors d lba (Z.to_nat count) buf) else retM tt.

Definition ata_read48_part (d base_lba part_len lba count : Z) (old : list Z) : FM (list Z) :=
  if part_len <? u64 (lba + count) then panicM "KERNEL PANIC: LBA OUT OF PARTITION BOUNDS"
  else ata_read48 d (u64 (base_lba + lba)) count old.

Definition ata_write48_part (d base_lba part_len lba count : Z) (buf : list Z) : FM unit :=
  if part_len <? u64 (lba + count) then panicM "KERNEL PANIC: LBA OUT OF PARTITION BOUNDS"
  else ata_write48 d (u64 (base_lba + lba)) count buf.

(** The sector count of a drive, from words 100-103 of its IDENTIFY data. *)
Definition identify_lba_count (vals : list Z) : Z :=
  Z.lor (Z.lor (Z.lor (vals !!! 100%nat) (Z.shiftl (vals !!! 101%nat) 16))
               (Z.shiftl (vals !!! 102%nat) 32)) (Z.shiftl (vals !!! 103%nat) 48).
Definition READ48_SUPPORT_BIT : Z := 1024.
Definition identify_supports (vals : list Z) : bool :=
  negb (Z.land (vals !!! 83%nat) READ48_SUPPORT_BIT =? 0).

(** [ata_init] after the two IDENTIFY commands, which answer [m] and, if there
    is a slave, [Some sl]; the slave's earlier fields are zero. *)
Definition ata_init (m : list Z) (sl : option (list Z)) : FM unit :=
  let md := mkDrive (identify_supports m) (identify_lba_count m) in
  let sd := match sl with
            | Some v => mkDrive (identify_supports v)
                          (if identify_supports v then identify_lba_count v else 0)
            | None => mkDrive false 0
            end in
  modM (fun s => mkS (sectors s) md sd (fs_entries s) (root_fs s) (root_slot_n s) (epoch_sec s) (fresh s)) ;;;
  if negb (supports_read48 md)
  then panicM "KERNEL PANIC: INCOMPATBILE HARDWARE, NO 48-BIT PIO SUPPORT"
  else retM tt.

(** ** partition.c *)

Definition read_mbr (d : Z) (dr : ata_drive) : FM (option (list Z)) :=
  if negb (supports_read48 dr) then retM None
  else let* buf := ata_read48 d 0 1 [] in retM (Some buf).

(** ** Blocks *)

(** [block_n * sectors_per_blk] is a 32-bit product. *)
Definition block_lba (block_n : Z) : Z := u32 (block_n * sectors_per_blk).

Definition read_block (fs block_n : Z) : FM (list Z) :=
  let* f := get_fs fs in
  let* s := getM in
  ata_read48_part (drive f) (start_lba f) (sector_count f) (block_lba block_n) sectors_per_blk (fresh s).

Definition write_block (fs block_n : Z) (buf : list Z) : FM unit :=
  let* f := get_fs fs in
  ata_write48_part (drive f) (start_lba f) (sector_count f) (block_lba block_n) sectors_per_blk buf.

(** [ata_write48_part(..., superblk_pos / 512, 2, fs->sprblk_buf)] *)
Definition write_superblock (fs : Z) : FM unit :=
  let* f := get_fs fs in
  ata_write48_part (drive f) (start_lba f) (sector_count f)
    (EXT2_SUPERBLOCK_OFFSET / BYTES_PER_SECTOR) (SUPERBLOCK_SIZE / BYTES_PER_SECTOR) (sprblk_buf f).

(** [write_block(fs, bgdt_blk_n, fs->bgdt)] *)
Definition write_bgdt (fs : Z) : FM unit :=
  let* f := get_fs fs in write_block fs bgdt_blk_n (bgdt_buf f).

(** ** Finding the partitions *)

Definition DRIVE_UNUSED_SIZE : Z := 446.
Definition PART_ENTRY_SIZE : Z := 16.

(** [return true] having only dropped the partition *)
Definition drop_partition (part : Z) (null_superblk : bool) : FM bool :=
  let* f := get_fs part in
  let f := with_place (drive f) (start_lba f) 0 f in
  put_fs part (if null_superblk then with_null true f else f) ;;; retM true.

(** The superblock is loaded (a shift count is taken modulo 32, as the machine
    does): check it, load the descriptors, derive the geometry. *)
Definition load_superblock (part : Z) : FM bool :=
  let* f := get_fs part in
  let sb := sprblk_buf f in
  if negb ((sb_ext2_signature sb =? 61267) &&
           (u32 (Z.shiftl 1024 (sb_block_size_adjusted sb mod 32)) =? 4096)) then drop_partition part true
  else if negb (Z.land (sb_req_features_present sb) (cnot 32 2) =? 0) then drop_partition part true
  else if negb (Z.land (sb_features_unsupport_ro sb) (cnot 32 3) =? 0) then drop_partition part true
  else
    let* b := ata_read48_part (drive f) (start_lba f) (sector_count f)
                (bgdt_blk_n * sectors_per_blk) sectors_per_blk (bgdt_buf f) in
    let bpg := sb_blocks_per_group sb in
    if bpg =? 0 then haltM Fault                     (* division by zero *)
    else
      let f := with_geometry (sb_inode_size sb) (sb_inodes_per_group sb) bpg (sb_frags_per_group sb)
                 (u32 (sb_block_cnt sb + bpg - 1) / bpg) (with_bgdt b f) in
      put_fs part (with_label (sb_vol_name sb ++ [0]) f) ;;;
      retM true.

Definition fill_partition_entry (drive_magic part : Z) : FM bool :=
  let* s := getM in
  let is_master := drive_magic =? ATA_MASTER in
  if negb (is_master || (drive_magic =? ATA_SLAVE)) then retM false
  else
    let dr := if is_master then master_drive s else slave_drive s in
    let* mbr := read_mbr drive_magic dr in
    match mbr with
    | None => if is_master then panicM "KERNEL PANIC: master drive has no MBR" else retM false
    | Some mbr =>
        if negb ((ld8 mbr 510 =? 85) && (ld8 mbr 511 =? 170)) then
          if is_master then panicM "KERNEL PANIC: master drive has a bad MBR signature" else retM false
        else
          let e := DRIVE_UNUSED_SIZE + PART_ENTRY_SIZE * (part mod PARTS_PER_DRIVE) in
          let part_good := ld8 mbr (e + 4) in
          if (part_good =? 5) || (part_good =? 15) then retM true
          else if negb (part_good =? 131) then retM true
          else
            let* f := get_fs part in
            let lba := ld32 mbr (e + 8) in
            let n := ld32 mbr (e + 12) in
            put_fs part (with_place drive_magic lba n f) ;;;
            if (n =? 0) || (lba_sector_count dr <? lba + n) then drop_partition part false
            else
              let* b := ata_read48_part drive_magic lba n (EXT2_SUPERBLOCK_OFFSET / BYTES_PER_SECTOR)
                          (SUPERBLOCK_SIZE / BYTES_PER_SECTOR) (sprblk_buf f) in
              let* f := get_fs part in
              put_fs part (with_null false (with_sprblk b f)) ;;;
              load_superblock part
    end.

(** "deprecatOS" *)
Definition root_label : list Z := [100; 101; 112; 114; 101; 99; 97; 116; 79; 83; 0].

Definition find_root (l : list fs_info) : option nat :=
  fst <$> list_find (fun f => negb (sector_count f =? 0) &&
                      match streq (label f) root_label with Some b => b | None => false end = true) l.

Definition choose_root : FM unit :=
  let* s := getM in
  match find_root (fs_entries s) with
  | None => panicM "KERNEL PANIC: bad drives"
  | Some r => modM (set_root_fs (Z.of_nat r))
  end.

Definition block_init : FM unit :=
  loopM (Z.to_nat MAX_MOUNTS) 0 (fun part =>
    let* ok := fill_partition_entry (if part / PARTS_PER_DRIVE =? 0 then ATA_MASTER else ATA_SLAVE) part in
    retM (if ok then None else Some tt)) ;;;
  choose_root.

(** ** Blocks as the file system sees them *)

Definition fs_at (s : fstate) (fs : Z) (f : fs_info) : Prop := fs_entries s !! Z.to_nat fs = Some f.

Definition drive_size (s : fstate) (d : Z) : Z :=
  lba_sector_count (if d =? ATA_MASTER then master_drive s else slave_drive s).

(** A partition that [fill_partition_entry] accepted. *)
Definition part_wf (s : fstate) (f : fs_info) : Prop :=
  (drive f = ATA_MASTER \/ drive f = ATA_SLAVE) /\ 0 <= start_lba f /\ 0 <= sector_count f < 4294967296 /\
  start_lba f + sector_count f <= drive_size s (drive f) /\ drive_size s (drive f) < 9223372036854775808.

Definition disk_wf (s : fstate) : Prop :=
  forall d l, length (sectors s d l) = 512%nat /\ bytes_ok (sectors s d l).

(** Block [b] lies in the partition. *)
Definition blk_ok (f : fs_info) (b : Z) : Prop := 0 <= b /\ 8 * b + 8 <= sector_count f.

Definition block_bytes (s : fstate) (f : fs_info) (b : Z) : list Z :=
  read_sectors s (drive f) (start_lba f + 8 * b) 8.

Definition put_block (f : fs_info) (b : Z) (buf : list Z) (s : fstate) : fstate :=
  write_sectors (drive f) (start_lba f + 8 * b) 8 buf s.

Lemma length_concat_const {A} (ls : list (list A)) (n : nat) :
  Forall (fun l => length l = n) ls -> length (concat ls) = (n * length ls)%nat.
Proof.
  induction 1 as [|l ls Hl _ IH]; cbn [concat length]; [lia|]. rewrite length_app, Hl, IH. lia.
Qed.

Lemma length_read_sectors s d lba n :
  disk_wf s -> length (read_sectors s d lba n) = (512 * n)%nat.
Proof.
  intros Hd. unfold read_sectors. rewrite (length_concat_const _ 512), length_map, length_seq; [done|].
  apply Forall_forall. intros l Hl. apply list_elem_of_In, in_map_iff in Hl as (i & <- & _). apply Hd.
Qed.

Lemma read_sectors_ok s d lba n : disk_wf s -> bytes_ok (read_sectors s d lba n).
Proof.
  intros Hd. unfold read_sectors, bytes_ok. apply Forall_concat, Forall_forall.
  intros l Hl. apply list_elem_of_In, in_map_iff in Hl as (i & <- & _). apply Hd.
Qed.

Lemma length_block_bytes s f b : disk_wf s -> length (block_bytes s f b) = 4096%nat.
Proof. intros Hd. unfold block_bytes. by rewrite length_read_sectors. Qed.

Lemma block_bytes_ok s f b : disk_wf s -> bytes_ok (block_bytes s f b).
Proof. apply read_sectors_ok. Qed.

Lemma concat_subs {A} (buf : list A) (k n : nat) :
  length buf = (k * n)%nat -> concat (map (fun i => sub (k * i) k buf) (seq 0 n)) = buf.
Proof.
  revert buf. induction n as [|n IH]; intros buf Hl.
  { destruct buf; [done|]. cbn in Hl. lia. }
  cbn [seq map concat]. rewrite <- seq_shift, map_map.
  rewrite <- (take_drop k buf) at 2. f_equal.
  - unfold sub. by rewrite Nat.mul_0_r, drop_0.
  - etrans; [|apply (IH (drop k buf)); rewrite length_drop; lia].
    f_equal. apply map_ext. intros i. unfold sub. rewrite drop_drop. f_equal. f_equal. lia.
Qed.

Lemma read_write_sectors s d lba n buf :
  length buf = (512 * n)%nat -> read_sectors (write_sectors d lba n buf s) d lba n = buf.
Proof.
  intros Hl. unfold read_sectors, write_sectors. cbn [sectors set_sectors].
  etrans; [|apply (concat_subs buf 512 n Hl)]. f_equal. apply map_ext_in. intros i Hi.
  apply in_seq in Hi. rewrite Z.eqb_refl. cbn [andb].
  ztrue ((lba <=? lba + Z.of_nat i) && (lba + Z.of_nat i <? lba + Z.of_nat n)).
  f_equal. lia.
Qed.

Lemma read_write_sectors_disj s d lba n buf lba' n' :
  lba + Z.of_nat n <= lba' \/ lba' + Z.of_nat n' <= lba ->
  read_sectors (write_sectors d lba n buf s) d lba' n' = read_sectors s d lba' n'.
Proof.
  intros Hdis. unfold read_sectors, write_sectors. cbn [sectors set_sectors].
  f_equal. apply map_ext_in. intros i Hi. apply in_seq in Hi. rewrite Z.eqb_refl. cbn [andb].
  destruct (Z.leb_spec lba (lba' + Z.of_nat i)); [|done].
  destruct (Z.ltb_spec (lba' + Z.of_nat i) (lba + Z.of_nat n)); [|done]. lia.
Qed.

Lemma block_bytes_same s f b buf :
  length buf = 4096%nat -> block_bytes (put_block f b buf s) f b = buf.
Proof. intros Hl. by apply read_write_sectors. Qed.

Lemma block_bytes_other s f b b' buf :
  b <> b' -> block_bytes (put_block f b buf s) f b' = block_bytes s f b'.
Proof. intros Hne. apply read_write_sectors_disj. lia. Qed.

Lemma write_sectors_wf s d lba n buf :
  disk_wf s -> length buf = (512 * n)%nat -> bytes_ok buf -> disk_wf (write_sectors d lba n buf s).
Proof.
  intros Hd Hl Hb d' l. unfold write_sectors. cbn [sectors set_sectors].
  destruct (d' =? d); [|apply Hd]. cbn [andb].
  destruct (Z.leb_spec lba l); [|apply Hd]. cbn [andb].
  destruct (Z.ltb_spec l (lba + Z.of_nat n)); [|apply Hd].
  split; [apply length_sub; lia|by apply Forall_sub].
Qed.

Lemma put_block_wf s f b buf :
  disk_wf s -> length buf = 4096%nat -> bytes_ok buf -> disk_wf (put_block f b buf s).
Proof. intros Hd Hl. by apply write_sectors_wf. Qed.

Lemma ata_check_ok s f lba count :
  part_wf s f -> 0 <= lba -> 0 <= count -> lba + count <= sector_count f ->
  ata_check (drive f) (u64 (start_lba f + lba)) count s = Done true s /\
  u64 (start_lba f + lba) = start_lba f + lba.
Proof.
  intros (Hd & H0 & Hc & He & Hm) Hl Hn Hle. unfold u64. rewrite Z.mod_small by lia.
  split; [|done]. unfold ata_check, u64, drive_size in *. mrun. rewrite Z.mod_small by lia.
  destruct Hd as [E|E]; rewrite E in *; cbn in *.
  - by zfalse (lba_sector_count (master_drive s) <? start_lba f + lba + count).
  - by zfalse (lba_sector_count (slave_drive s) <? start_lba f + lba + count).
Qed.

Lemma block_lba_small f b : part_wf f.1 f.2 -> blk_ok f.2 b -> block_lba b = 8 * b.
Proof.
  intros (_ & _ & Hc & _) [H0 Hb]. unfold block_lba, u32. change sectors_per_blk with 8.
  rewrite Z.mod_small; lia.
Qed.

(** Inside the partition the two primitives read and replace the block. *)
Lemma read_block_ok s fs f b :
  fs_at s fs f -> part_wf s f -> blk_ok f b -> read_block fs b s = Done (block_bytes s f b) s.
Proof.
  intros Hf Hp Hb. pose proof (block_lba_small (s, f) b Hp Hb) as El. destruct Hb as [H0 Hb].
  pose proof Hp as (_ & _ & Hc & _).
  unfold read_block, get_fs. mrun. rewrite Hf. unfold ata_read48_part, ata_read48. rewrite El.
  change sectors_per_blk with 8. unfold u64 at 1. rewrite Z.mod_small by lia.
  zfalse (sector_count f <? 8 * b + 8). mrun.
  destruct (ata_check_ok s f (8 * b) 8 Hp) as [-> ->]; [lia..|]. done.
Qed.

Lemma write_block_ok s fs f b buf :
  fs_at s fs f -> part_wf s f -> blk_ok f b -> write_block fs b buf s = Done tt (put_block f b buf s).
Proof.
  intros Hf Hp Hb. pose proof (block_lba_small (s, f) b Hp Hb) as El. destruct Hb as [H0 Hb].
  pose proof Hp as (_ & _ & Hc & _).
  unfold write_block, get_fs. mrun. rewrite Hf. unfold ata_write48_part, ata_write48. rewrite El.
  change sectors_per_blk with 8. unfold u64 at 1. rewrite Z.mod_small by lia.
  zfalse (sector_count f <? 8 * b + 8). mrun.
  destruct (ata_check_ok s f (8 * b) 8 Hp) as [-> ->]; [lia..|]. done.
Qed.

Lemma write_superblock_ok s fs f :
  fs_at s fs f -> part_wf s f -> 4 <= sector_count f ->
  write_superblock fs s = Done tt (write_sectors (drive f) (start_lba f + 2) 2 (sprblk_buf f) s).
Proof.
  intros Hf Hp Hc. pose proof Hp as (_ & _ & Hc' & _).
  unfold write_superblock, get_fs. mrun. rewrite Hf. unfold ata_write48_part, ata_write48.
  change (EXT2_SUPERBLOCK_OFFSET / BYTES_PER_SECTOR) with 2.
  change (SUPERBLOCK_SIZE / BYTES_PER_SECTOR) with 2. change (u64 (2 + 2)) with 4.
  zfalse (sector_count f <? 4). mrun.
  destruct (ata_check_ok s f 2 2 Hp) as [-> ->]; [lia..|]. done.
Qed.

(** ** What a step may change on disk

    [changes f B s s']: of all drives, only sectors of the blocks in [B] of the
    partition of [f] differ. *)
Definition same_place (f f' : fs_info) : Prop :=
  drive f' = drive f /\ start_lba f' = start_lba f /\ sector_count f' = sector_count f.

Definition same_env (s s' : fstate) : Prop :=
  master_drive s' = master_drive s /\ slave_drive s' = slave_drive s /\ root_fs s' = root_fs s /\
  root_slot_n s' = root_slot_n s /\ epoch_sec s' = epoch_sec s /\ fresh s' = fresh s.

Definition changes (f : fs_info) (B : Z -> Prop) (s s' : fstate) : Prop :=
  forall d l, sectors s' d l = sectors s d l \/
    (d = drive f /\ exists b, B b /\ start_lba f + 8 * b <= l < start_lba f + 8 * b + 8).

Lemma changes_refl f B s : changes f B s s.
Proof. by left. Qed.

Lemma changes_trans f B B' B'' s s' s'' :
  changes f B s s' -> changes f B' s' s'' -> (forall b, B b -> B'' b) -> (forall b, B' b -> B'' b) ->
  changes f B'' s s''.
Proof.
  intros H H' HB HB' d l. destruct (H' d l) as [-> | (Hd & b & Hb & Hl)]; [|right; eauto].
  destruct (H d l) as [-> | (Hd & b & Hb & Hl)]; [by left|right; eauto].
Qed.

Lemma changes_block f f' B s s' b :
  changes f B s s' -> same_place f f' -> ~ B b -> block_bytes s' f' b = block_bytes s f b.
Proof.
  intros H (Ed & Es & _) Hb. unfold block_bytes, read_sectors. rewrite Ed, Es. f_equal.
  apply map_ext_in. intros i Hi. apply in_seq in Hi.
  destruct (H (drive f) (start_lba f + 8 * b + Z.of_nat i)) as [-> | (_ & b' & Hb' & Hl)]; [done|].
  replace b' with b in Hb' by lia. done.
Qed.

Lemma changes_put_block f b buf s : changes f (eq b) s (put_block f b buf s).
Proof.
  intros d l. unfold put_block, write_sectors. cbn [sectors set_sectors].
  destruct (Z.eqb_spec d (drive f)) as [->|]; [|by left]. cbn [andb].
  destruct (Z.leb_spec (start_lba f + 8 * b) l); [|by left]. cbn [andb].
  destruct (Z.ltb_spec l (start_lba f + 8 * b + Z.of_nat 8)); [|by left].
  right. split; [done|]. exists b. split; [done|lia].
Qed.

Lemma same_place_block s f f' b : same_place f f' -> block_bytes s f' b = block_bytes s f b.
Proof. intros (Ed & Es & _). unfold block_bytes. by rewrite Ed, Es. Qed.

Lemma same_place_part s s' f f' : same_place f f' -> same_env s s' -> part_wf s f -> part_wf s' f'.
Proof.
  intros (Ed & Es & Ec) (Em & Esl & _). unfold part_wf, drive_size. by rewrite Ed, Es, Ec, Em, Esl.
Qed.

Lemma same_env_refl s : same_env s s.
Proof. done. Qed.
Lemma same_env_trans s s' s'' : same_env s s' -> same_env s' s'' -> same_env s s''.
Proof. unfold same_env. intros (-> & -> & -> & -> & -> & ->). done. Qed.

(** C34. Block writes stay in their partition.  For every 32-bit block number,
    [write_block] either panics with the disk unchanged or replaces exactly the
    eight sectors of one block inside the partition (the block itself when its
    number fits the partition), so that no other partition or drive changes,
    and reading the block back gives the buffer. *)
Theorem write_block_contained (s : fstate) (fs : Z) (f : fs_info) (block_n : Z) (buf : list Z) :
  fs_at s fs f -> part_wf s f -> is_u32 block_n -> length buf = 4096%nat ->
  match write_block fs block_n buf s with
  | Done _ s' =>
      exists b, blk_ok f b /\ (blk_ok f block_n -> b = block_n) /\
        (forall d l, sectors s' d l <> sectors s d l ->
           d = drive f /\ start_lba f <= start_lba f + 8 * b <= l /\
           l < start_lba f + 8 * b + 8 <= start_lba f + sector_count f) /\
        read_block fs b s' = Done buf s'
  | Halted h s' => s' = s /\ ~ blk_ok f block_n /\
      h = Panic "KERNEL PANIC: LBA OUT OF PARTITION BOUNDS"
  end.
Proof.
  intros Hf Hp Hn Hl. unfold is_u32 in Hn. pose proof Hp as (_ & H0 & Hc & Hd).
  set (b := block_n mod 536870912).
  assert (block_lba block_n = 8 * b) as El.
  { unfold block_lba, u32, b. change sectors_per_blk with 8. zlia. }
  destruct (Z.ltb_spec (sector_count f) (8 * b + 8)) as [Hout|Hin].
  - unfold write_block, get_fs. mrun. rewrite Hf. unfold ata_write48_part. rewrite El.
    change sectors_per_blk with 8. unfold u64. rewrite Z.mod_small by (unfold b; zlia).
    ztrue (sector_count f <? 8 * b + 8). unfold panicM. mrun.
    split; [done|]. split; [|done]. intros [? ?]. unfold b in *. rewrite Z.mod_small in Hout; lia.
  - assert (blk_ok f b) as Hb by (split; [unfold b; zlia|lia]).
    pose proof (write_block_ok s fs f b buf Hf Hp Hb) as Hw.
    assert (write_block fs block_n buf s = write_block fs b buf s) as ->.
    { unfold write_block, get_fs. mrun. rewrite Hf. f_equal. rewrite El.
      symmetry. apply (block_lba_small (s, f)); done. }
    rewrite Hw. exists b. split; [done|]. split; [|split].
    + intros [? ?]. unfold b. rewrite Z.mod_small; lia.
    + intros d l Hne. unfold put_block, write_sectors in Hne. cbn [sectors set_sectors] in Hne.
      destruct (Z.eqb_spec d (drive f)); [|done]. cbn [andb] in Hne.
      destruct (Z.leb_spec (start_lba f + 8 * b) l); [|done]. cbn [andb] in Hne.
      destruct (Z.ltb_spec l (start_lba f + 8 * b + Z.of_nat 8)); [|done].
      destruct Hb. split; [done|]. lia.
    + rewrite (read_block_ok (put_block f b buf s) fs f b) by done.
      by rewrite block_bytes_same.
Qed.

(** A state whose master drive holds the given blocks from LBA 8 on. *)
Definition image_state (blocks : Z -> list Z) (f : fs_info) : fstate :=
  mkS (fun d l => sub (Z.to_nat (512 * (l mod 8))) 512 (blocks (l / 8 - 1)))
    (mkDrive true 1000) (mkDrive false 0) [f] 0 0 0 (replicate 4096 0).

Definition empty_fs : fs_info := mkFs [] [] ATA_MASTER false 8 400 128 32 32768 32768 1 0 [].

Lemma write_block_contained_witness :
  let s := image_state (fun _ => replicate 4096 7) empty_fs in
  let buf := replicate 4096 9 in
  match write_block 0 3 buf s with
  | Done _ s' =>
      exists b, blk_ok empty_fs b /\ (blk_ok empty_fs 3 -> b = 3) /\
        (forall d l, sectors s' d l <> sectors s d l ->
           d = drive empty_fs /\ start_lba empty_fs <= start_lba empty_fs + 8 * b <= l /\
           l < start_lba empty_fs + 8 * b + 8 <= start_lba empty_fs + sector_count empty_fs) /\
        read_block 0 b s' = Done buf s'
  | Halted h s' => s' = s /\ ~ blk_ok empty_fs 3 /\
      h = Panic "KERNEL PANIC: LBA OUT OF PARTITION BOUNDS"
  end.
Proof.
  apply write_block_contained.
  - reflexivity.
  - unfold part_wf, drive_size. cbn. lia.
  - unfold is_u32. lia.
  - reflexivity.
Defined.
