(* ===== verification/Bitmap.v ===== *)
(** * Allocation bitmaps: kernel/fs/ext2/bitmapController.c

    One bit per inode and per block in each block group, with the counts of
    free ones kept in the group descriptor and in the superblock.  The theorems
    say what an allocation and a release do to the bitmap, to the counts and to
    the rest of the partition. *)
From S2P Require Import Prelude Bytes Bitset CLib Disk.

Definition INODE_ERROR : Z := 1.
Definition BLOCK_ERROR : Z := 0.

(** [for (group_n = 0; group_n < fs->ngroups; group_n++) if (count > 0) break;] *)
Definition find_group (f : fs_info) (cnt : list Z -> Z -> Z) : FM (option Z) :=
  loopM (Z.to_nat (ngroups f)) 0 (fun g =>
    bgdt_ok f g ;;; retM (if 0 <? cnt (bgdt_buf f) g then Some g else None)).

(** The scan for a clear bit in the first [nbytes] bytes; byte and bit found. *)
Definition find_clear (nbytes : Z) (bitmap : list Z) : FM (option (Z * Z)) :=
  loopM (Z.to_nat nbytes) 0 (fun byte_idx =>
    guardM (byte_idx <? Z.of_nat (length bitmap)) ;;;
    retM (pair byte_idx <$> first_clear 8 0 (ld8 bitmap byte_idx))).

(** [bitmap[byte] |= mask] and [bitmap[byte] &= ~mask] *)
Definition bm_set (bitmap : list Z) (byte bit : Z) : list Z :=
  alter (fun x => set_bit x bit) (Z.to_nat byte) bitmap.
Definition bm_clear (bitmap : list Z) (byte bit : Z) : list Z :=
  alter (fun x => clear_bit 8 x bit) (Z.to_nat byte) bitmap.

(** The counts, in the group descriptor and in the superblock, moved by [d]. *)
Definition add_inode_cnt (g d : Z) (f : fs_info) : fs_info :=
  with_sprblk (st32 (sprblk_buf f) 16 (sb_unalloc_inodes (sprblk_buf f) + d))
    (with_bgdt (st16 (bgdt_buf f) (32 * g + 14) (bg_unalloc_inode_cnt (bgdt_buf f) g + d)) f).
Definition add_block_cnt (g d : Z) (f : fs_info) : fs_info :=
  with_sprblk (st32 (sprblk_buf f) 12 (sb_unalloc_blocks (sprblk_buf f) + d))
    (with_bgdt (st16 (bgdt_buf f) (32 * g + 12) (bg_unalloc_block_cnt (bgdt_buf f) g + d)) f).

(** The new counts and the bitmap go to disk: descriptors, superblock, bitmap. *)
Definition commit (fs : Z) (f : fs_info) (addr : Z) (bitmap : list Z) : FM unit :=
  put_fs fs f ;;; write_bgdt fs ;;; write_superblock fs ;;; write_block fs addr bitmap.

Definition alloc_inode (fs : Z) : FM Z :=
  let* f := get_fs fs in
  let* g := find_group f bg_unalloc_inode_cnt in
  match g with
  | None => retM INODE_ERROR
  | Some g =>
      let addr := bg_inode_bitmap (bgdt_buf f) g in
      let* bitmap := read_block fs addr in
      let* r := find_clear (inodes_per_grp f / 8) bitmap in
      match r with
      | None => panicM "KERNEL PANIC: CORRUPTED UNALLOC_INODE_CNT!!!"
      | Some (byte, bit) =>
          commit fs (add_inode_cnt g (-1) f) addr (bm_set bitmap byte bit) ;;;
          retM (u32 (g * inodes_per_grp f + (8 * byte + bit) + first_inode_n))
      end
  end.

Definition alloc_block (fs : Z) : FM Z :=
  let* f := get_fs fs in
  let* g := find_group f bg_unalloc_block_cnt in
  match g with
  | None => retM BLOCK_ERROR
  | Some g =>
      let addr := bg_block_bitmap (bgdt_buf f) g in
      let* bitmap := read_block fs addr in
      let* r := find_clear BLOCK_SIZE bitmap in
      match r with
      | None => panicM "KERNEL PANIC: CORRUPTED UNALLOC_BLOCK_CNT!!!"
      | Some (byte, bit) =>
          commit fs (add_block_cnt g (-1) f) addr (bm_set bitmap byte bit) ;;;
          retM (u32 (g * blks_per_grp f + (8 * byte + bit) + sb_super_block_num (sprblk_buf f)))
      end
  end.

Definition free_inode (fs inode_n : Z) : FM bool :=
  let* f := get_fs fs in
  guardM (negb (inodes_per_grp f =? 0)) ;;;
  let group_n := u32 (inode_n - first_inode_n) / inodes_per_grp f in
  if (ngroups f <=? group_n) || (sb_inode_cnt (sprblk_buf f) <? inode_n) then retM false
  else
    let bitmap_idx := u32 (inode_n - first_inode_n) mod inodes_per_grp f in
    bgdt_ok f group_n ;;;
    let addr := bg_inode_bitmap (bgdt_buf f) group_n in
    let* bitmap := read_block fs addr in
    let byte := bitmap_idx / 8 in
    let bit := bitmap_idx mod 8 in
    guardM (byte <? Z.of_nat (length bitmap)) ;;;
    let free_alr := bit_free (ld8 bitmap byte) bit in
    (if negb free_alr then commit fs (add_inode_cnt group_n 1 f) addr (bm_clear bitmap byte bit)
     else retM tt) ;;;
    retM true.

Definition free_block (fs block_n : Z) : FM bool :=
  if block_n =? 0 then retM false
  else
    let* f := get_fs fs in
    guardM (negb (blks_per_grp f =? 0)) ;;;
    let rel := u32 (block_n - sb_super_block_num (sprblk_buf f)) in
    let group_n := rel / blks_per_grp f in
    if (ngroups f <=? group_n) || (sb_block_cnt (sprblk_buf f) <=? block_n) then retM false
    else
      let bitmap_idx := rel mod blks_per_grp f in
      bgdt_ok f group_n ;;;
      let addr := bg_block_bitmap (bgdt_buf f) group_n in
      let* bitmap := read_block fs addr in
      let byte := bitmap_idx / 8 in
      let bit := bitmap_idx mod 8 in
      guardM (byte <? Z.of_nat (length bitmap)) ;;;
      let free_alr := bit_free (ld8 bitmap byte) bit in
      (if negb free_alr then commit fs (add_block_cnt group_n 1 f) addr (bm_clear bitmap byte bit)
       else retM tt) ;;;
      retM true.

Definition inode_exists (fs inode_n : Z) : FM bool :=
  let* f := get_fs fs in
  guardM (negb (inodes_per_grp f =? 0)) ;;;
  let group_n := u32 (inode_n - first_inode_n) / inodes_per_grp f in
  if (ngroups f <=? group_n) || (sb_inode_cnt (sprblk_buf f) <? inode_n) then retM false
  else
    let bitmap_idx := u32 (inode_n - first_inode_n) mod inodes_per_grp f in
    bgdt_ok f group_n ;;;
    let* bitmap := read_block fs (bg_inode_bitmap (bgdt_buf f) group_n) in
    let byte := bitmap_idx / 8 in
    guardM (byte <? Z.of_nat (length bitmap)) ;;;
    retM (negb (bit_free (ld8 bitmap byte) (bitmap_idx mod 8))).

(** ** What the bitmaps mean *)

Abbreviation bb f g := (bg_block_bitmap (bgdt_buf f) g).
Abbreviation ib f g := (bg_inode_bitmap (bgdt_buf f) g).

Definition blk_used (s : fstate) (f : fs_info) (b : Z) : bool :=
  bit_at 8 (block_bytes s f (bb f (b / blks_per_grp f))) (b mod blks_per_grp f).
Definition ino_used (s : fstate) (f : fs_info) (i : Z) : bool :=
  bit_at 8 (block_bytes s f (ib f ((i - 1) / inodes_per_grp f))) ((i - 1) mod inodes_per_grp f).

(** The superblock and descriptors on disk are those in memory. *)
Definition synced (s : fstate) (f : fs_info) : Prop :=
  read_sectors s (drive f) (start_lba f + 2) 2 = sprblk_buf f /\ block_bytes s f 1 = bgdt_buf f.

(** A loaded ext2 partition with 4096-byte blocks: the loaded metadata are
    whole, and the bitmaps of the groups are distinct blocks of the partition,
    away from the superblock and the descriptors. *)
Record fs_wf (s : fstate) (f : fs_info) : Prop := mkFsWf {
  wf_part : part_wf s f;
  wf_disk : disk_wf s;
  wf_bgdt : length (bgdt_buf f) = 4096%nat;
  wf_sprblk : length (sprblk_buf f) = 1024%nat;
  wf_bgdt_bytes : bytes_ok (bgdt_buf f);
  wf_sprblk_bytes : bytes_ok (sprblk_buf f);
  wf_size : 16 <= sector_count f;
  wf_ngroups : 0 <= ngroups f <= 128;
  wf_bpg : blks_per_grp f = 32768;
  wf_ipg : 0 < inodes_per_grp f <= 32768 /\ inodes_per_grp f mod 8 = 0;
  wf_first : sb_super_block_num (sprblk_buf f) = 0;
  wf_bitmaps g : 0 <= g < ngroups f ->
    blk_ok f (bb f g) /\ 2 <= bb f g /\ blk_ok f (ib f g) /\ 2 <= ib f g;
  wf_apart g g' : 0 <= g < ngroups f -> 0 <= g' < ngroups f ->
    (bb f g = bb f g' -> g = g') /\ (ib f g = ib f g' -> g = g') /\ bb f g <> ib f g'
}.

(** [f'] is [f] but for the counts of free blocks and inodes. *)
Record same_geom (f f' : fs_info) : Prop := mkGeom {
  sg_place : same_place f f';
  sg_bgdt : length (bgdt_buf f') = length (bgdt_buf f);
  sg_sprblk : length (sprblk_buf f') = length (sprblk_buf f);
  sg_bytes : bytes_ok (bgdt_buf f) -> bytes_ok (bgdt_buf f');
  sg_bytes' : bytes_ok (sprblk_buf f) -> bytes_ok (sprblk_buf f');
  sg_params : ngroups f' = ngroups f /\ blks_per_grp f' = blks_per_grp f /\
    inodes_per_grp f' = inodes_per_grp f /\ inode_size f' = inode_size f /\ mountpoint f' = mountpoint f;
  sg_super off : In off [0; 4; 20] -> ld32 (sprblk_buf f') off = ld32 (sprblk_buf f) off;
  sg_addrs g : 0 <= g < ngroups f -> bb f' g = bb f g /\ ib f' g = ib f g /\
    bg_inode_table (bgdt_buf f') g = bg_inode_table (bgdt_buf f) g
}.

Lemma fs_wf_step s s' f f' :
  fs_wf s f -> same_geom f f' -> same_env s s' -> disk_wf s' -> fs_wf s' f'.
Proof.
  intros W G E D. destruct G as [Hp Hb Hs Hy Hy' (En & Eb & Ei & _) Hsup Ha].
  pose proof Hp as (_ & _ & Ec). destruct W. split; try congruence; try done; auto.
  - by apply (same_place_part s s' f f').
  - unfold sb_super_block_num. rewrite Hsup; [done|]. simpl. tauto.
  - intros g Hg. rewrite En in Hg. destruct (Ha g Hg) as (-> & -> & _).
    unfold blk_ok. rewrite Ec. apply (wf_bitmaps0 g Hg).
  - intros g g' Hg Hg'. rewrite En in *.
    destruct (Ha g Hg) as (-> & -> & _). destruct (Ha g' Hg') as (-> & -> & _). by apply wf_apart0.
Qed.

(** Storing a count leaves every other field of the table alone. *)
Lemma bgdt_st16 f off v g off' n :
  length (bgdt_buf f) = 4096%nat -> 0 <= ngroups f <= 128 -> 0 <= g < ngroups f ->
  In off [12; 14] -> forall g', 0 <= g' < ngroups f -> 0 <= off' -> off' + Z.of_nat n <= 32 ->
  (g <> g' \/ off' + Z.of_nat n <= off \/ off + 2 <= off') ->
  ld n (st16 (bgdt_buf f) (32 * g + off) v) (32 * g' + off') = ld n (bgdt_buf f) (32 * g' + off').
Proof.
  intros Hl Hn Hg Ho g' Hg' H0 H1 Hd. simpl in Ho.
  apply ld_st_disj; rewrite ?Hl; change (Z.of_nat 2) with 2; change (Z.of_nat 4096) with 4096; lia.
Qed.

Lemma count_geom f g off so v w :
  length (bgdt_buf f) = 4096%nat -> length (sprblk_buf f) = 1024%nat -> 0 <= ngroups f <= 128 ->
  0 <= g < ngroups f -> In off [12; 14] -> In so [12; 16] ->
  same_geom f (with_sprblk (st32 (sprblk_buf f) so v) (with_bgdt (st16 (bgdt_buf f) (32 * g + off) w) f)).
Proof.
  intros Hl Hl' Hn Hg Ho Hs.
  assert (0 <= 32 * g + off /\ 32 * g + off + 2 <= 4096) as [? ?] by (simpl in Ho; lia).
  assert (0 <= so /\ so + 4 <= 20) as [? ?] by (simpl in Hs; lia).
  split; cbn [bgdt_buf sprblk_buf with_sprblk with_bgdt drive start_lba sector_count ngroups
              blks_per_grp inodes_per_grp inode_size mountpoint]; try done.
  - apply length_st; rewrite ?Hl; lia.
  - apply length_st; rewrite ?Hl'; lia.
  - apply bytes_ok_st.
  - apply bytes_ok_st.
  - intros o Hoo. apply ld_st_disj; rewrite ?Hl'; change (Z.of_nat 4) with 4; simpl in Hoo, Hs; lia.
  - intros g' Hg'. unfold bg_block_bitmap, bg_inode_bitmap, bg_inode_table.
    replace (32 * g') with (32 * g' + 0) by lia. rewrite <- !Z.add_assoc.
    split; [|split]; apply bgdt_st16; try done; change (Z.of_nat 4) with 4; simpl in Ho; lia.
Qed.

Section counts.
Context (f : fs_info) (g : Z).
Context (Hl : length (bgdt_buf f) = 4096%nat) (Hl' : length (sprblk_buf f) = 1024%nat).
Context (Hn : 0 <= ngroups f <= 128) (Hg : 0 <= g < ngroups f).

Lemma add_block_cnt_geom d : same_geom f (add_block_cnt g d f).
Proof using All. apply count_geom; try done; simpl; tauto. Qed.
Lemma add_inode_cnt_geom d : same_geom f (add_inode_cnt g d f).
Proof using All. apply count_geom; try done; simpl; tauto. Qed.

Lemma add_block_cnt_counts d :
  bg_unalloc_block_cnt (bgdt_buf (add_block_cnt g d f)) g = u16 (bg_unalloc_block_cnt (bgdt_buf f) g + d) /\
  sb_unalloc_blocks (sprblk_buf (add_block_cnt g d f)) = u32 (sb_unalloc_blocks (sprblk_buf f) + d) /\
  (forall g', 0 <= g' < ngroups f -> g' <> g ->
     bg_unalloc_block_cnt (bgdt_buf (add_block_cnt g d f)) g' = bg_unalloc_block_cnt (bgdt_buf f) g') /\
  (forall g', 0 <= g' < ngroups f ->
     bg_unalloc_inode_cnt (bgdt_buf (add_block_cnt g d f)) g' = bg_unalloc_inode_cnt (bgdt_buf f) g').
Proof using All.
  cbn [add_block_cnt with_sprblk with_bgdt bgdt_buf sprblk_buf].
  unfold bg_unalloc_block_cnt, bg_unalloc_inode_cnt, sb_unalloc_blocks.
  split; [|split; [|split]].
  - rewrite ld_st_same; [done|lia|]. rewrite Hl. change (Z.of_nat 2) with 2. lia.
  - rewrite ld_st_same; [done|lia|]. by rewrite Hl'.
  - intros g' Hg' Hne. apply bgdt_st16; try done; simpl; lia.
  - intros g' Hg'. apply bgdt_st16; try done; simpl; lia.
Qed.

Lemma add_inode_cnt_counts d :
  bg_unalloc_inode_cnt (bgdt_buf (add_inode_cnt g d f)) g = u16 (bg_unalloc_inode_cnt (bgdt_buf f) g + d) /\
  sb_unalloc_inodes (sprblk_buf (add_inode_cnt g d f)) = u32 (sb_unalloc_inodes (sprblk_buf f) + d) /\
  (forall g', 0 <= g' < ngroups f -> g' <> g ->
     bg_unalloc_inode_cnt (bgdt_buf (add_inode_cnt g d f)) g' = bg_unalloc_inode_cnt (bgdt_buf f) g') /\
  (forall g', 0 <= g' < ngroups f ->
     bg_unalloc_block_cnt (bgdt_buf (add_inode_cnt g d f)) g' = bg_unalloc_block_cnt (bgdt_buf f) g').
Proof using All.
  cbn [add_inode_cnt with_sprblk with_bgdt bgdt_buf sprblk_buf].
  unfold bg_unalloc_block_cnt, bg_unalloc_inode_cnt, sb_unalloc_inodes.
  split; [|split; [|split]].
  - rewrite ld_st_same; [done|lia|]. rewrite Hl. change (Z.of_nat 2) with 2. lia.
  - rewrite ld_st_same; [done|lia|]. by rewrite Hl'.
  - intros g' Hg' Hne. apply bgdt_st16; try done; simpl; lia.
  - intros g' Hg'. apply bgdt_st16; try done; simpl; lia.
Qed.
End counts.

(** ** Searching *)

Lemma find_group_spec s f cnt :
  length (bgdt_buf f) = 4096%nat -> 0 <= ngroups f <= 128 ->
  exists r, find_group f cnt s = Done r s /\
    match r with
    | Some g => 0 <= g < ngroups f /\ 0 < cnt (bgdt_buf f) g /\
        forall k, 0 <= k < g -> cnt (bgdt_buf f) k <= 0
    | None => forall g, 0 <= g < ngroups f -> cnt (bgdt_buf f) g <= 0
    end.
Proof.
  intros Hl Hn. unfold find_group.
  destruct (loopM_search (Z.to_nat (ngroups f)) 0
    (fun g => bgdt_ok f g ;;; retM (if 0 <? cnt (bgdt_buf f) g then Some g else None))
    (fun g => if 0 <? cnt (bgdt_buf f) g then Some g else None) s) as (r & -> & Hr).
  { intros j Hj. unfold bgdt_ok, guardM. rewrite Hl.
    ztrue ((0 <=? j) && (32 * j + 32 <=? Z.of_nat 4096)). done. }
  exists r. split; [done|]. rewrite Z2Nat.id in Hr by lia. destruct r as [g|].
  - destruct Hr as (j & Hj & Hp & Hk). destruct (Z.ltb_spec 0 (cnt (bgdt_buf f) j)); simplify_eq.
    split; [lia|]. split; [done|]. intros k Hlt. specialize (Hk k Hlt). zcase_hyp Hk; [done|lia].
  - intros g Hg. specialize (Hr g Hg). zcase_hyp Hr; [done|lia].
Qed.

Lemma testbit_ld8 bm byte bit :
  0 <= byte < Z.of_nat (length bm) -> 0 <= bit < 8 -> Z.testbit (ld8 bm byte) bit = bit_at 8 bm (8 * byte + bit).
Proof.
  intros H0 Hb. unfold bit_at. rewrite ld8_lookup by lia.
  replace ((8 * byte + bit) / 8) with byte by zlia.
  replace ((8 * byte + bit) mod 8) with bit by zlia.
  rewrite list_lookup_total_alt.
  destruct (lookup_lt_is_Some_2 bm (Z.to_nat byte)) as [x ->]; [lia|done].
Qed.

Lemma find_clear_spec s nbytes bm :
  0 <= nbytes <= Z.of_nat (length bm) ->
  exists r, find_clear nbytes bm s = Done r s /\
    match r with
    | Some (byte, bit) => 0 <= byte < nbytes /\ 0 <= bit < 8 /\ bit_at 8 bm (8 * byte + bit) = false /\
        forall i, 0 <= i < 8 * byte + bit -> bit_at 8 bm i = true
    | None => forall i, 0 <= i < 8 * nbytes -> bit_at 8 bm i = true
    end.
Proof.
  intros Hn. unfold find_clear.
  destruct (loopM_search (Z.to_nat nbytes) 0
    (fun i => guardM (i <? Z.of_nat (length bm)) ;;; retM (pair i <$> first_clear 8 0 (ld8 bm i)))
    (fun i => pair i <$> first_clear 8 0 (ld8 bm i)) s) as (r & -> & Hr).
  { intros j Hj. unfold guardM. by ztrue (j <? Z.of_nat (length bm)). }
  exists r. split; [done|]. rewrite Z2Nat.id in Hr by lia.
  assert (forall k, 0 <= k < nbytes -> pair k <$> first_clear 8 0 (ld8 bm k) = None ->
            forall b, 0 <= b < 8 -> bit_at 8 bm (8 * k + b) = true) as Hfull.
  { intros k Hk Hp b Hb. apply fmap_None in Hp. rewrite <- testbit_ld8 by lia.
    apply (first_clear_None 8 0); [done..|]. simpl. lia. }
  destruct r as [[byte bit]|].
  - destruct Hr as (j & Hj & Hp & Hk). apply fmap_Some in Hp as (b & Hp & E). injection E as <- <-.
    apply first_clear_Some in Hp as (Hb & Hc & Hlow); [|done]. change (Z.of_nat 8) with 8 in Hb.
    rewrite testbit_ld8 in Hc by lia. split; [lia|]. split; [lia|]. split; [done|].
    intros i Hi. rewrite (Z.div_mod i 8) by lia. destruct (Z.eq_dec (i / 8) byte) as [E|].
    + rewrite E, <- testbit_ld8 by zlia. apply Hlow. zlia.
    + apply Hfull; [zlia| |zlia]. apply Hk. zlia.
  - intros i Hi. rewrite (Z.div_mod i 8) by lia. apply Hfull; [zlia| |zlia]. apply Hr. zlia.
Qed.

Lemma bm_set_bs bm byte bit :
  0 <= byte -> 0 <= bit < 8 -> bm_set bm byte bit = bs_set 8 bm (8 * byte + bit).
Proof.
  intros H0 Hb. unfold bm_set, bs_set.
  replace ((8 * byte + bit) / 8) with byte by zlia. by replace ((8 * byte + bit) mod 8) with bit by zlia.
Qed.

Lemma bm_clear_bs bm i : bm_clear bm (i / 8) (i mod 8) = bs_clear 8 bm i.
Proof. done. Qed.

(** ** Committing

    [committed s s' fs f f' addr bm]: the new counts [f'] are in memory and on
    disk, block [addr] holds [bm], and nothing but blocks 0, 1 and [addr] of
    this partition was written. *)
Record committed (s s' : fstate) (fs : Z) (f f' : fs_info) (addr : Z) (bm : list Z) : Prop := mkCommitted {
  cm_at : fs_at s' fs f';
  cm_entries : fs_entries s' = <[Z.to_nat fs := f']> (fs_entries s);
  cm_env : same_env s s';
  cm_changes : changes f (fun b => b = 0 \/ b = 1 \/ b = addr) s s';
  cm_bitmap : block_bytes s' f' addr = bm;
  cm_synced : synced s' f';
  cm_wf : fs_wf s' f'
}.

Lemma changes_superblock f buf s : changes f (eq 0) s (write_sectors (drive f) (start_lba f + 2) 2 buf s).
Proof.
  intros d l. unfold write_sectors. cbn [sectors set_sectors].
  destruct (Z.eqb_spec d (drive f)) as [->|]; [|by left]. cbn [andb].
  destruct (Z.leb_spec (start_lba f + 2) l); [|by left]. cbn [andb].
  destruct (Z.ltb_spec l (start_lba f + 2 + Z.of_nat 2)); [|by left].
  right. split; [done|]. exists 0. split; [done|lia].
Qed.

Lemma changes_place f f' B s s' : same_place f f' -> changes f' B s s' -> changes f B s s'.
Proof. intros (Ed & Es & _) H d l. specialize (H d l). by rewrite Ed, Es in H. Qed.

Lemma commit_ok s fs f f' addr bm :
  fs_wf s f -> fs_at s fs f -> same_geom f f' -> blk_ok f addr -> 2 <= addr ->
  length bm = 4096%nat -> bytes_ok bm ->
  exists s', commit fs f' addr bm s = Done tt s' /\ committed s s' fs f f' addr bm.
Proof.
  intros W Hf G Hb H2 Hl Hy. pose proof (sg_place f f' G) as P. pose proof P as (Ed & Es & Ec).
  assert (blk_ok f' addr /\ blk_ok f' 1) as [Hb' Hb1].
  { unfold blk_ok in *. rewrite Ec. pose proof (wf_size s f W). lia. }
  set (s1 := set_fs_entries (<[Z.to_nat fs := f']> (fs_entries s)) s).
  assert (fs_at s1 fs f') as Hf1.
  { unfold fs_at, s1. cbn [fs_entries set_fs_entries]. apply list_lookup_insert_eq.
    by eapply lookup_lt_Some. }
  assert (part_wf s1 f') as Hp1 by (apply (same_place_part s s1 f f' P); [done|apply W]).
  assert (length (bgdt_buf f') = 4096%nat) as Hlb by (rewrite (sg_bgdt f f' G); apply W).
  assert (length (sprblk_buf f') = 1024%nat) as Hls by (rewrite (sg_sprblk f f' G); apply W).
  pose proof (sg_bytes f f' G (wf_bgdt_bytes s f W)) as Hbb.
  pose proof (sg_bytes' f f' G (wf_sprblk_bytes s f W)) as Hsb.
  set (s2 := put_block f' 1 (bgdt_buf f') s1).
  set (s3 := write_sectors (drive f') (start_lba f' + 2) 2 (sprblk_buf f') s2).
  set (s4 := put_block f' addr bm s3).
  assert (disk_wf s4) as D4.
  { apply put_block_wf; [|done..]. apply write_sectors_wf; [|done..]. apply put_block_wf; [|done..].
    intros d l. apply (wf_disk s f W). }
  exists s4. split.
  - unfold commit, put_fs, write_bgdt, get_fs. mrun. fold s1. rewrite Hf1.
    rewrite (write_block_ok s1 fs f' 1 _ Hf1 Hp1 Hb1). fold s2.
    rewrite (write_superblock_ok s2 fs f' Hf1 Hp1) by (rewrite Ec; pose proof (wf_size s f W); lia).
    fold s3. by rewrite (write_block_ok s3 fs f' addr bm Hf1 Hp1 Hb').
  - split; [done..| | | |].
    + apply (changes_place f f' _ _ _ P).
      apply (changes_trans f' (fun b => b = 0 \/ b = 1) (eq addr) _ s s3 s4);
        [|apply changes_put_block|naive_solver..].
      apply (changes_trans f' (eq 1) (eq 0) (fun b => b = 0 \/ b = 1) s s2 s3);
        [exact (changes_put_block f' 1 (bgdt_buf f') s1)|apply changes_superblock|naive_solver..].
    + by apply block_bytes_same.
    + split.
      * unfold s4, put_block. rewrite read_write_sectors_disj by lia. by apply read_write_sectors.
      * unfold s4. rewrite block_bytes_other by lia. unfold s3, block_bytes.
        rewrite read_write_sectors_disj by lia. by apply block_bytes_same.
    + by apply (fs_wf_step s s4 f f').
Qed.

(** A bitmap block committed with some bit changed: the bits of every other
    bitmap block, and every other bit of this one, are as they were. *)
Section committed.
Context (s s' : fstate) (fs : Z) (f f' : fs_info) (addr : Z) (bm : list Z).
Context (W : fs_wf s f) (G : same_geom f f') (C : committed s s' fs f f' addr bm).

Lemma committed_other b : 2 <= b -> b <> addr -> block_bytes s' f' b = block_bytes s f b.
Proof using All.
  intros H2 Hne. apply (changes_block f f' _ s s' b (cm_changes _ _ _ _ _ _ _ C)); [apply G|lia].
Qed.

Lemma ino_used_kept i : (forall g, 0 <= g < ngroups f -> ib f g <> addr) ->
  1 <= i <= inodes_per_grp f * ngroups f -> ino_used s' f' i = ino_used s f i.
Proof using All.
  intros Ha Hi. destruct (wf_ipg s f W) as [Hp _]. destruct (sg_params f f' G) as (_ & _ & Ei & _).
  assert (0 <= (i - 1) / inodes_per_grp f < ngroups f) as Hg
    by (split; [apply Z.div_pos; lia|apply Z.div_lt_upper_bound; lia]).
  unfold ino_used. rewrite Ei. destruct (sg_addrs f f' G _ Hg) as (_ & -> & _).
  rewrite committed_other; [done| |by apply Ha]. by apply (wf_bitmaps s f W).
Qed.

Lemma blk_used_kept b : (forall g, 0 <= g < ngroups f -> bb f g <> addr) ->
  0 <= b < blks_per_grp f * ngroups f -> blk_used s' f' b = blk_used s f b.
Proof using All.
  intros Ha Hi. pose proof (wf_bpg s f W) as Hp. destruct (sg_params f f' G) as (_ & Ei & _).
  assert (0 <= b / blks_per_grp f < ngroups f) as Hg by zlia.
  unfold blk_used. rewrite Ei. destruct (sg_addrs f f' G _ Hg) as (-> & _).
  rewrite committed_other; [done| |by apply Ha]. by apply (wf_bitmaps s f W).
Qed.
End committed.

(** ** One bit of one group *)

Definition bit_of (s : fstate) (f : fs_info) (addr : Z -> Z) (per k : Z) : bool :=
  bit_at 8 (block_bytes s f (addr (k / per))) (k mod per).

Section one_bit.
Context (s s' : fstate) (fs : Z) (f f' : fs_info) (addr addr' : Z -> Z) (per g i : Z).
Context (W : fs_wf s f) (G : same_geom f f').
Context (Hper : 0 < per <= 32768) (Hg : 0 <= g < ngroups f) (Hi : 0 <= i < per).
Context (Haddr : forall k, 0 <= k < ngroups f -> 2 <= addr k /\ addr' k = addr k).
Context (Hinj : forall k, 0 <= k < ngroups f -> addr k = addr g -> k = g).

Lemma group_of k : 0 <= k < per * ngroups f ->
  0 <= k / per < ngroups f /\ 0 <= k mod per < per /\ (k / per = g -> (k =? per * g + i) = (k mod per =? i)).
Proof using Hper.
  intros Hk. split; [split; [apply Z.div_pos; lia|apply Z.div_lt_upper_bound; lia]|].
  split; [apply Z.mod_pos_bound; lia|]. intros E. pose proof (Z.div_mod k per ltac:(lia)).
  rewrite E in H. destruct (Z.eqb_spec k (per * g + i)); destruct (Z.eqb_spec (k mod per) i); lia.
Qed.

Lemma bit_of_update bm k :
  committed s s' fs f f' (addr g) bm -> 0 <= k < per * ngroups f ->
  bit_of s' f' addr' per k =
    if decide (k / per = g) then bit_at 8 bm (k mod per) else bit_of s f addr per k.
Proof using All.
  intros C Hk. destruct (group_of k Hk) as (Hkg & _ & _). unfold bit_of.
  destruct (Haddr _ Hkg) as [H2 ->]. case_decide as E.
  - by rewrite E, (cm_bitmap _ _ _ _ _ _ _ C).
  - rewrite (committed_other s s' fs f f' (addr g) bm W G C); [done..|]. intros Ha. by apply E, Hinj.
Qed.

Lemma bm_size k : 0 <= k < per -> 0 <= k < bs_size 8 (block_bytes s f (addr g)).
Proof using Hper W. intros Hk. unfold bs_size. rewrite (length_block_bytes _ _ _ (wf_disk s f W)). lia. Qed.

Lemma bit_of_group : bit_of s f addr per (per * g + i) = bit_at 8 (block_bytes s f (addr g)) i.
Proof using Hper Hi.
  unfold bit_of. rewrite Z.mul_comm, Z.div_add_l, Z.div_small, Z.add_0_r by lia.
  by rewrite Z.add_comm, Z_mod_plus_full, Z.mod_small by lia.
Qed.

Lemma bit_of_set k :
  committed s s' fs f f' (addr g) (bs_set 8 (block_bytes s f (addr g)) i) -> 0 <= k < per * ngroups f ->
  bit_of s' f' addr' per k = (k =? per * g + i) || bit_of s f addr per k.
Proof using All.
  intros C Hk. rewrite (bit_of_update _ k C Hk). destruct (group_of k Hk) as (_ & Hm & Hb).
  case_decide as E.
  - rewrite (Hb E), bit_at_set by (lia || by apply bm_size). unfold bit_of. by rewrite E.
  - destruct (Z.eqb_spec k (per * g + i)) as [->|]; [|done].
    destruct E. rewrite Z.mul_comm, Z.div_add_l, Z.div_small by lia. lia.
Qed.

Lemma bit_of_clear k :
  committed s s' fs f f' (addr g) (bs_clear 8 (block_bytes s f (addr g)) i) -> 0 <= k < per * ngroups f ->
  bit_of s' f' addr' per k = negb (k =? per * g + i) && bit_of s f addr per k.
Proof using All.
  intros C Hk. rewrite (bit_of_update _ k C Hk). destruct (group_of k Hk) as (_ & Hm & Hb).
  case_decide as E.
  - rewrite (Hb E), bit_at_clear; [unfold bit_of; by rewrite E|lia| |by apply bm_size|lia].
    apply (block_bytes_ok s f), W.
  - destruct (Z.eqb_spec k (per * g + i)) as [->|]; [|done].
    destruct E. rewrite Z.mul_comm, Z.div_add_l, Z.div_small by lia. lia.
Qed.
End one_bit.

Lemma blk_used_bit s f b : blk_used s f b = bit_of s f (bg_block_bitmap (bgdt_buf f)) (blks_per_grp f) b.
Proof. done. Qed.
Lemma ino_used_bit s f i :
  ino_used s f i = bit_of s f (bg_inode_bitmap (bgdt_buf f)) (inodes_per_grp f) (i - 1).
Proof. done. Qed.

(** ** Allocation *)

Lemma add_cnt_small x : 0 < x < 65536 -> u16 (x + -1) = x - 1.
Proof. intros H. unfold u16. rewrite Z.mod_small; lia. Qed.

Lemma bg_cnt_range s f g : fs_wf s f ->
  0 <= bg_unalloc_block_cnt (bgdt_buf f) g < 65536 /\ 0 <= bg_unalloc_inode_cnt (bgdt_buf f) g < 65536.
Proof. intros W. split; apply ld_range, W. Qed.

Lemma bs_set_bytes bm i : length bm = 4096%nat -> bytes_ok bm ->
  length (bs_set 8 bm i) = 4096%nat /\ bytes_ok (bs_set 8 bm i).
Proof. intros Hl Hb. rewrite length_bs_set. split; [done|]. by apply (bs_wf_set 8). Qed.

Lemma bs_clear_bytes bm i : length bm = 4096%nat -> bytes_ok bm ->
  length (bs_clear 8 bm i) = 4096%nat /\ bytes_ok (bs_clear 8 bm i).
Proof. intros Hl Hb. rewrite length_bs_clear. split; [done|]. by apply (bs_wf_clear 8). Qed.

(** The three outcomes of an allocation: nothing left, a count that lies, or
    bit [i] of group [g] taken. *)
Section alloc.
Context (s : fstate) (fs : Z) (f : fs_info) (W : fs_wf s f) (Hf : fs_at s fs f).

Lemma alloc_block_spec :
  (alloc_block fs s = Done BLOCK_ERROR s /\
     forall g, 0 <= g < ngroups f -> bg_unalloc_block_cnt (bgdt_buf f) g <= 0) \/
  exists g, 0 <= g < ngroups f /\ 0 < bg_unalloc_block_cnt (bgdt_buf f) g /\
    (forall k, 0 <= k < g -> bg_unalloc_block_cnt (bgdt_buf f) k <= 0) /\
    let bm := block_bytes s f (bb f g) in
    (alloc_block fs s = Halted (Panic "KERNEL PANIC: CORRUPTED UNALLOC_BLOCK_CNT!!!") s /\
       forall i, 0 <= i < 32768 -> bit_at 8 bm i = true) \/
    exists i s', 0 <= g < ngroups f /\ 0 < bg_unalloc_block_cnt (bgdt_buf f) g /\
      0 <= i < 32768 /\ bit_at 8 bm i = false /\ (forall j, 0 <= j < i -> bit_at 8 bm j = true) /\
      alloc_block fs s = Done (32768 * g + i) s' /\
      committed s s' fs f (add_block_cnt g (-1) f) (bb f g) (bs_set 8 bm i).
Proof using All.
  remember (alloc_block fs s) as o eqn:Eo. revert Eo. unfold alloc_block, get_fs. mrun. rewrite Hf.
  destruct (find_group_spec s f bg_unalloc_block_cnt) as (r & -> & Hr); [apply W..|].
  intros Eo. destruct r as [g|]; [|left; done]. right. exists g. destruct Hr as (Hg & Hc & Hlow).
  split; [done|]. split; [done|]. split; [done|]. cbv beta iota zeta in Eo |- *.
  destruct (wf_bitmaps s f W g Hg) as (Hok & H2 & _).
  rewrite (read_block_ok s fs f _ Hf (wf_part s f W) Hok) in Eo.
  set (bm := block_bytes s f (bb f g)) in *.
  assert (length bm = 4096%nat) as Hl by (apply length_block_bytes, W).
  assert (bytes_ok bm) as Hb by (apply block_bytes_ok, W).
  destruct (find_clear_spec s BLOCK_SIZE bm) as (r & E & Hr); [rewrite Hl; done|].
  change BLOCK_SIZE with 4096 in Hr. destruct r as [[byte bit]|]; rewrite E in Eo; [right|left; done].
  destruct Hr as (Hby & Hbi & Hfree & Hfull). rewrite bm_set_bs in Eo by lia.
  destruct (bs_set_bytes bm (8 * byte + bit) Hl Hb) as [Hl' Hb'].
  destruct (commit_ok s fs f (add_block_cnt g (-1) f) (bb f g) (bs_set 8 bm (8 * byte + bit)) W Hf)
    as (s' & Ec & C); try done; [apply add_block_cnt_geom; (done || apply W)|].
  rewrite Ec in Eo. exists (8 * byte + bit), s'. split; [done|]. split; [done|]. split; [lia|]. split; [done|].
  split; [done|]. split; [|done]. rewrite Eo, (wf_bpg s f W), (wf_first s f W). f_equal.
  pose proof (wf_ngroups s f W). unfold u32. rewrite Z.mod_small; lia.
Qed.

Lemma alloc_inode_spec :
  (alloc_inode fs s = Done INODE_ERROR s /\
     forall g, 0 <= g < ngroups f -> bg_unalloc_inode_cnt (bgdt_buf f) g <= 0) \/
  exists g, 0 <= g < ngroups f /\ 0 < bg_unalloc_inode_cnt (bgdt_buf f) g /\
    (forall k, 0 <= k < g -> bg_unalloc_inode_cnt (bgdt_buf f) k <= 0) /\
    let bm := block_bytes s f (ib f g) in
    (alloc_inode fs s = Halted (Panic "KERNEL PANIC: CORRUPTED UNALLOC_INODE_CNT!!!") s /\
       forall i, 0 <= i < inodes_per_grp f -> bit_at 8 bm i = true) \/
    exists i s', 0 <= g < ngroups f /\ 0 < bg_unalloc_inode_cnt (bgdt_buf f) g /\
      0 <= i < inodes_per_grp f /\ bit_at 8 bm i = false /\ (forall j, 0 <= j < i -> bit_at 8 bm j = true) /\
      alloc_inode fs s = Done (inodes_per_grp f * g + i + 1) s' /\
      committed s s' fs f (add_inode_cnt g (-1) f) (ib f g) (bs_set 8 bm i).
Proof using All.
  destruct (wf_ipg s f W) as [Hp Hp8].
  remember (alloc_inode fs s) as o eqn:Eo. revert Eo. unfold alloc_inode, get_fs. mrun. rewrite Hf.
  destruct (find_group_spec s f bg_unalloc_inode_cnt) as (r & -> & Hr); [apply W..|].
  intros Eo. destruct r as [g|]; [|left; done]. right. exists g. destruct Hr as (Hg & Hc & Hlow).
  split; [done|]. split; [done|]. split; [done|]. cbv beta iota zeta in Eo |- *.
  destruct (wf_bitmaps s f W g Hg) as (_ & _ & Hok & H2).
  rewrite (read_block_ok s fs f _ Hf (wf_part s f W) Hok) in Eo.
  set (bm := block_bytes s f (ib f g)) in *.
  assert (length bm = 4096%nat) as Hl by (apply length_block_bytes, W).
  assert (bytes_ok bm) as Hb by (apply block_bytes_ok, W).
  destruct (find_clear_spec s (inodes_per_grp f / 8) bm) as (r & E & Hr); [rewrite Hl; zlia|].
  replace (8 * (inodes_per_grp f / 8)) with (inodes_per_grp f) in Hr by zlia.
  destruct r as [[byte bit]|]; rewrite E in Eo; [right|left; done].
  destruct Hr as (Hby & Hbi & Hfree & Hfull). rewrite bm_set_bs in Eo by lia.
  destruct (bs_set_bytes bm (8 * byte + bit) Hl Hb) as [Hl' Hb'].
  destruct (commit_ok s fs f (add_inode_cnt g (-1) f) (ib f g) (bs_set 8 bm (8 * byte + bit)) W Hf)
    as (s' & Ec & C); try done; [apply add_inode_cnt_geom; (done || apply W)|].
  rewrite Ec in Eo. exists (8 * byte + bit), s'. split; [done|]. split; [done|]. split; [zlia|]. split; [done|].
  split; [done|]. split; [|done]. rewrite Eo. f_equal.
  pose proof (wf_ngroups s f W). change first_inode_n with 1. unfold u32.
  assert (0 <= inodes_per_grp f * g <= 32768 * 128) by nia.
  rewrite Z.mod_small; zlia.
Qed.
End alloc.

(** C12. Block allocation.  On a well-formed partition [alloc_block] returns
    [BLOCK_ERROR] and changes nothing when every group's count is zero, panics
    when a count promises a free block the bitmap does not have, and otherwise
    returns the lowest free block of the first group with a positive count: that
    block and no other becomes used, the group's and the superblock's counts
    drop by one, inode bitmaps are as before, only the superblock, the descriptor
    block and that group's bitmap are written, and memory and disk agree. *)
Theorem alloc_block_correct (s : fstate) (fs : Z) (f : fs_info) :
  fs_wf s f -> fs_at s fs f ->
  match alloc_block fs s with
  | Done b s' =>
      (b = BLOCK_ERROR /\ s' = s /\ forall g, 0 <= g < ngroups f -> bg_unalloc_block_cnt (bgdt_buf f) g = 0) \/
      exists f' g, fs_at s' fs f' /\ fs_wf s' f' /\ synced s' f' /\ same_geom f f' /\
        g = b / blks_per_grp f /\ 0 <= g < ngroups f /\
        (forall k, 0 <= k < g -> bg_unalloc_block_cnt (bgdt_buf f) k = 0) /\
        blk_used s f b = false /\
        (forall b', g * blks_per_grp f <= b' < b -> blk_used s f b' = true) /\
        (forall b', 0 <= b' < blks_per_grp f * ngroups f ->
           blk_used s' f' b' = (b' =? b) || blk_used s f b') /\
        (forall i, 1 <= i <= inodes_per_grp f * ngroups f -> ino_used s' f' i = ino_used s f i) /\
        bg_unalloc_block_cnt (bgdt_buf f') g = bg_unalloc_block_cnt (bgdt_buf f) g - 1 /\
        sb_unalloc_blocks (sprblk_buf f') = u32 (sb_unalloc_blocks (sprblk_buf f) - 1) /\
        changes f (fun x => x = 0 \/ x = 1 \/ x = bb f g) s s'
  | Halted h s' =>
      h = Panic "KERNEL PANIC: CORRUPTED UNALLOC_BLOCK_CNT!!!" /\ s' = s /\
      exists g, 0 <= g < ngroups f /\ 0 < bg_unalloc_block_cnt (bgdt_buf f) g /\
        forall b, g * blks_per_grp f <= b < (g + 1) * blks_per_grp f -> blk_used s f b = true
  end.
Proof.
  intros W Hf. pose proof (wf_bpg s f W) as Hbpg.
  assert (forall g, 0 <= bg_unalloc_block_cnt (bgdt_buf f) g) as Hpos by (intros; by apply (bg_cnt_range s)).
  assert (forall g b, 0 <= b < 32768 -> blk_used s f (32768 * g + b) = bit_at 8 (block_bytes s f (bb f g)) b) as Hu.
  { intros g b Hb. rewrite blk_used_bit, Hbpg. apply (bit_of_group s f _ 32768 g b); lia. }
  destruct (alloc_block_spec s fs f W Hf) as [[-> H] | (g & Hg & Hc & Hlow & [[-> H] | H])].
  - left. split; [done|]. split; [done|]. intros g Hg. specialize (Hpos g). specialize (H g Hg). lia.
  - split; [done|]. split; [done|]. exists g. split; [done|]. split; [done|]. intros b Hb.
    replace b with (32768 * g + (b - 32768 * g)) by lia. rewrite Hu by lia. apply H. lia.
  - destruct H as (i & s' & _ & _ & Hi & Hfree & Hfull & -> & C). right.
    exists (add_block_cnt g (-1) f), g.
    assert (same_geom f (add_block_cnt g (-1) f)) as G by (apply add_block_cnt_geom; (done || apply W)).
    destruct (add_block_cnt_counts f g (wf_bgdt s f W) (wf_sprblk s f W) (wf_ngroups s f W) Hg (-1))
      as (Ec & Es & _ & _).
    split; [apply C|]. split; [apply C|]. split; [apply C|]. split; [done|].
    split; [rewrite Hbpg; zlia|]. split; [done|].
    split; [intros k Hk; specialize (Hpos k); specialize (Hlow k Hk); lia|].
    split; [by rewrite Hu|]. split.
    { intros b' Hb'. replace b' with (32768 * g + (b' - 32768 * g)) by lia. rewrite Hu by lia. apply Hfull. lia. }
    split; [|split; [|split; [|split; [exact Es|apply C]]]].
    + intros b' Hb'. rewrite !blk_used_bit. destruct (sg_params _ _ G) as (_ & -> & _). rewrite Hbpg in *.
      apply (bit_of_set s s' fs f (add_block_cnt g (-1) f)); try done.
      * intros k Hk. destruct (sg_addrs _ _ G k Hk) as (-> & _). by destruct (wf_bitmaps s f W k Hk) as (_ & ? & _).
      * intros k Hk. by apply (wf_apart s f W).
    + intros k Hk. apply (ino_used_kept s s' fs f _ _ _ W G C); [|done].
      intros g' Hg' E. by apply (wf_apart s f W g g' Hg Hg').
    + rewrite Ec. apply add_cnt_small. pose proof (bg_cnt_range s f g W). lia.
Qed.

(** ** Release *)

Section free.
Context (s : fstate) (fs : Z) (f : fs_info) (W : fs_wf s f) (Hf : fs_at s fs f).

Definition free_block_refused (b : Z) : bool :=
  (b =? 0) || (ngroups f <=? b / 32768) || (sb_block_cnt (sprblk_buf f) <=? b).

Lemma free_block_spec b : is_u32 b ->
  let g := b / 32768 in let i := b mod 32768 in
  let bm := block_bytes s f (bb f g) in
  if free_block_refused b then free_block fs b s = Done false s
  else 0 <= g < ngroups f /\ 0 <= i < 32768 /\
    if bit_at 8 bm i then
      exists s', free_block fs b s = Done true s' /\
        committed s s' fs f (add_block_cnt g 1 f) (bb f g) (bs_clear 8 bm i)
    else free_block fs b s = Done true s.
Proof using All.
  intros Hb. cbv zeta. unfold is_u32 in Hb. unfold free_block_refused.
  remember (free_block fs b s) as o eqn:Eo. revert Eo. unfold free_block, get_fs.
  destruct (Z.eqb_spec b 0) as [->|Hne]; [done|]. cbn [orb]. mrun. rewrite Hf, (wf_bpg s f W), (wf_first s f W).
  cbn [negb Z.eqb guardM]. mrun. replace (u32 (b - 0)) with b by (unfold u32; rewrite Z.mod_small; lia).
  destruct (Z.leb_spec (ngroups f) (b / 32768)) as [|Hg]; [done|]. cbn [orb].
  destruct (Z.leb_spec (sb_block_cnt (sprblk_buf f)) b) as [|Hbc]; [done|].
  assert (0 <= b / 32768 < ngroups f) as Hgr by zlia. clear Hg.
  assert (0 <= b mod 32768 < 32768) as Hi by zlia. intros Eo. split; [done|]. split; [done|]. revert Eo.
  generalize dependent (b / 32768). generalize dependent (b mod 32768). clear b Hb Hne Hbc. intros i Hi g Hg.
  unfold bgdt_ok, guardM. rewrite (wf_bgdt s f W). pose proof (wf_ngroups s f W) as Hn.
  ztrue ((0 <=? g) && (32 * g + 32 <=? Z.of_nat 4096)). mrun.
  destruct (wf_bitmaps s f W g Hg) as (Hok & H2 & _).
  rewrite (read_block_ok s fs f _ Hf (wf_part s f W) Hok).
  set (bm := block_bytes s f (bb f g)).
  assert (length bm = 4096%nat) as Hl by (apply length_block_bytes, W).
  assert (bytes_ok bm) as Hby by (apply block_bytes_ok, W).
  rewrite Hl. assert (i / 8 < 4096) as Hi8 by zlia. ztrue (i / 8 <? Z.of_nat 4096). rewrite bit_free_spec, negb_involutive by zlia.
  rewrite testbit_ld8 by (rewrite ?Hl; zlia). rewrite <- Z.div_mod by lia.
  destruct (bit_at 8 bm i) eqn:E; [|done]. rewrite bm_clear_bs.
  destruct (bs_clear_bytes bm i Hl Hby) as [Hl' Hb'].
  destruct (commit_ok s fs f (add_block_cnt g 1 f) (bb f g) (bs_clear 8 bm i) W Hf)
    as (s' & -> & C); try done; [apply add_block_cnt_geom; (done || apply W)|]. eauto.
Qed.
End free.

(** Block release.  [free_block] refuses block 0 and blocks past the end
    of the partition, changing nothing; releasing a block that is already free
    changes nothing; otherwise that block and no other becomes free, the counts
    rise by one, inode bitmaps stay, and only the superblock, the descriptor
    block and the group's bitmap are written.  It never halts. *)
Theorem free_block_correct (s : fstate) (fs : Z) (f : fs_info) (b : Z) :
  fs_wf s f -> fs_at s fs f -> is_u32 b ->
  exists r s', free_block fs b s = Done r s' /\
    r = negb ((b =? 0) || (ngroups f <=? b / 32768) || (sb_block_cnt (sprblk_buf f) <=? b)) /\
    if r && blk_used s f b then
      exists f' g, fs_at s' fs f' /\ fs_wf s' f' /\ synced s' f' /\ same_geom f f' /\
        g = b / blks_per_grp f /\
        (forall b', 0 <= b' < blks_per_grp f * ngroups f ->
           blk_used s' f' b' = negb (b' =? b) && blk_used s f b') /\
        (forall i, 1 <= i <= inodes_per_grp f * ngroups f -> ino_used s' f' i = ino_used s f i) /\
        bg_unalloc_block_cnt (bgdt_buf f') g = u16 (bg_unalloc_block_cnt (bgdt_buf f) g + 1) /\
        sb_unalloc_blocks (sprblk_buf f') = u32 (sb_unalloc_blocks (sprblk_buf f) + 1) /\
        changes f (fun x => x = 0 \/ x = 1 \/ x = bb f g) s s'
    else s' = s.
Proof.
  intros W Hf Hb. pose proof (wf_bpg s f W) as Hbpg.
  pose proof (free_block_spec s fs f W Hf b Hb) as H. cbv zeta in H. unfold free_block_refused in H.
  destruct ((b =? 0) || (ngroups f <=? b / 32768) || (sb_block_cnt (sprblk_buf f) <=? b)) eqn:E.
  { exists false, s. done. }
  destruct H as (Hg & Hi & H). exists true. unfold blk_used at 1. rewrite Hbpg. cbn [negb andb].
  destruct (bit_at 8 _ _); [|eauto]. destruct H as (s' & -> & C). exists s'. split; [done|]. split; [done|].
  exists (add_block_cnt (b / 32768) 1 f), (b / 32768).
  assert (same_geom f (add_block_cnt (b / 32768) 1 f)) as G by (apply add_block_cnt_geom; (done || apply W)).
  destruct (add_block_cnt_counts f (b / 32768) (wf_bgdt s f W) (wf_sprblk s f W) (wf_ngroups s f W) Hg 1)
    as (Ec & Es & _ & _).
  split; [apply C|]. split; [apply C|]. split; [apply C|]. split; [done|].
  split; [done|]. split; [|split; [|split; [done|split; [done|apply C]]]].
  - intros b' Hb'. rewrite !blk_used_bit. destruct (sg_params _ _ G) as (_ & -> & _). rewrite Hbpg in *.
    replace (b' =? b) with (b' =? 32768 * (b / 32768) + b mod 32768) by (f_equal; zlia).
    apply (bit_of_clear s s' fs f (add_block_cnt (b / 32768) 1 f)); try done.
    + intros k Hk. destruct (sg_addrs _ _ G k Hk) as (-> & _). by destruct (wf_bitmaps s f W k Hk) as (_ & ? & _).
    + intros k Hk. by apply (wf_apart s f W).
  - intros k Hk. apply (ino_used_kept s s' fs f _ _ _ W G C); [|done].
    intros g' Hg' E'. by apply (wf_apart s f W (b / 32768) g' Hg Hg').
Qed.

(** ** Undoing an allocation *)

Lemma st_ld n buf off v :
  bytes_ok buf -> 0 <= off -> off + Z.of_nat n <= Z.of_nat (length buf) ->
  st n (st n buf off v) off (ld n buf off) = buf.
Proof.
  intros Hb H0 Hn. unfold st, ld.
  rewrite splice_splice_same by (rewrite ?length_le_bytes; lia).
  rewrite le_bytes_val; [apply splice_sub; lia|by apply Forall_sub|]. symmetry. apply length_sub. lia.
Qed.

Lemma st_mod n buf off v : st n buf off (v mod 256 ^ Z.of_nat n) = st n buf off v.
Proof.
  unfold st. f_equal. revert v. induction n as [|n IH]; intros v; [done|]. cbn [le_bytes].
  rewrite Nat2Z.inj_succ, Z.pow_succ_r by lia. f_equal.
  - rewrite Z.rem_mul_r by lia. rewrite Z.mul_comm, Z_mod_plus_full. apply Z.mod_mod. lia.
  - etrans; [|apply IH]. f_equal. rewrite Z.rem_mul_r by lia. rewrite Z.mul_comm, Z.div_add by lia.
    rewrite Z.div_small by (apply Z.mod_pos_bound; lia). lia.
Qed.

Lemma recount n buf off :
  bytes_ok buf -> 0 <= off -> off + Z.of_nat n <= Z.of_nat (length buf) ->
  st n (st n buf off (ld n buf off + -1)) off (ld n (st n buf off (ld n buf off + -1)) off + 1) = buf.
Proof.
  intros Hb H0 Hn. rewrite ld_st_same by done. rewrite <- st_mod.
  rewrite Zplus_mod_idemp_l. replace (ld n buf off + -1 + 1) with (ld n buf off) by lia.
  rewrite Z.mod_small by (by apply ld_range). by apply st_ld.
Qed.

Lemma add_block_cnt_undo s f g :
  fs_wf s f -> 0 <= g < ngroups f -> add_block_cnt g 1 (add_block_cnt g (-1) f) = f.
Proof.
  intros W Hg. pose proof (wf_ngroups s f W). unfold add_block_cnt, bg_unalloc_block_cnt, sb_unalloc_blocks.
  cbn [bgdt_buf sprblk_buf with_bgdt with_sprblk]. rewrite !recount; [by destruct f|..];
    rewrite ?(wf_sprblk s f W), ?(wf_bgdt s f W); change (Z.of_nat 2) with 2; first [done|lia|apply W].
Qed.

(** Allocating and releasing a block is the identity.  From a state whose
    superblock and descriptors are on disk, if [alloc_block] gives block [b]
    then [free_block] takes it back, and afterwards the loaded metadata, the
    superblock and every block of the partition hold what they did before. *)
Theorem alloc_free_roundtrip (s s1 : fstate) (fs : Z) (f : fs_info) (b : Z) :
  fs_wf s f -> fs_at s fs f -> synced s f ->
  alloc_block fs s = Done b s1 -> 0 < b < sb_block_cnt (sprblk_buf f) ->
  exists s2, free_block fs b s1 = Done true s2 /\
    fs_entries s2 = fs_entries s /\ same_env s s2 /\
    read_sectors s2 (drive f) (start_lba f + 2) 2 = read_sectors s (drive f) (start_lba f + 2) 2 /\
    forall x, 1 <= x -> block_bytes s2 f x = block_bytes s f x.
Proof.
  intros W Hf [Hsy1 Hsy2] Ha Hb.
  destruct (alloc_block_spec s fs f W Hf) as [[E _] | (g & _ & _ & _ & [[E _] | H])];
    [rewrite Ha in E; injection E as ->; change BLOCK_ERROR with 0 in Hb; lia|congruence|].
  destruct H as (i & s' & Hg & _ & Hi & Hfree & _ & E & C). rewrite Ha in E. injection E as -> <-.
  set (f1 := add_block_cnt g (-1) f) in *. set (bm := block_bytes s f (bb f g)) in *.
  assert (same_geom f f1) as G by (apply add_block_cnt_geom; (done || apply W)).
  destruct (sg_addrs f f1 G g Hg) as (Ebb & _ & _). destruct (sg_params f f1 G) as (En & _).
  assert (length bm = 4096%nat) as Hl by (apply length_block_bytes, W).
  pose proof (wf_ngroups s f W) as Hn.
  pose proof (free_block_spec s1 fs f1 (cm_wf _ _ _ _ _ _ _ C) (cm_at _ _ _ _ _ _ _ C) (32768 * g + i)) as F.
  replace ((32768 * g + i) / 32768) with g in F by zlia.
  replace ((32768 * g + i) mod 32768) with i in F by zlia.
  cbv zeta in F. unfold free_block_refused in F. rewrite Ebb, En, (cm_bitmap _ _ _ _ _ _ _ C) in F.
  replace ((32768 * g + i) / 32768) with g in F by zlia.
  replace (sb_block_cnt (sprblk_buf f1)) with (sb_block_cnt (sprblk_buf f)) in F
    by (symmetry; apply (sg_super f f1 G); simpl; tauto).
  rewrite Bool.orb_false_intro in F; [|apply Bool.orb_false_intro; lia|lia].
  rewrite bit_at_set, Z.eqb_refl in F; [|lia|unfold bs_size; rewrite Hl; lia|lia]. cbn [orb] in F.
  destruct F as (_ & _ & s2 & E2 & C2); [unfold is_u32; lia|].
  unfold f1 in C2. rewrite (add_block_cnt_undo s f g W Hg) in C2. fold f1 in C2.
  exists s2. split; [done|]. split; [|split; [|split]].
  - rewrite (cm_entries _ _ _ _ _ _ _ C2), (cm_entries _ _ _ _ _ _ _ C), list_insert_insert_eq.
    by apply list_insert_id.
  - apply (same_env_trans s s1 s2); [apply C|apply C2].
  - rewrite Hsy1. apply (cm_synced _ _ _ _ _ _ _ C2).
  - intros x Hx. destruct (Z.eq_dec x 1) as [->|Hx1].
    { rewrite Hsy2. apply (cm_synced _ _ _ _ _ _ _ C2). }
    destruct (Z.eq_dec x (bb f g)) as [->|Hxb].
    + rewrite (cm_bitmap _ _ _ _ _ _ _ C2). fold bm. apply bs_set_clear; [lia|apply (block_bytes_ok s f), W|unfold bs_size; lia|done].
    + etrans.
      * apply (changes_block f1 f _ s1 s2 x (cm_changes _ _ _ _ _ _ _ C2)); [done|lia].
      * apply (changes_block f f1 _ s s1 x (cm_changes _ _ _ _ _ _ _ C)); [done|lia].
Qed.

(** Inode allocation, as for blocks: nothing left, a lying count, or the
    lowest free inode of the first group with a positive count, whose bit and no
    other is set; its number is one more than its position. *)
Theorem alloc_inode_correct (s : fstate) (fs : Z) (f : fs_info) :
  fs_wf s f -> fs_at s fs f ->
  match alloc_inode fs s with
  | Done i s' =>
      (i = INODE_ERROR /\ s' = s /\ forall g, 0 <= g < ngroups f -> bg_unalloc_inode_cnt (bgdt_buf f) g = 0) \/
      exists f' g, fs_at s' fs f' /\ fs_wf s' f' /\ synced s' f' /\ same_geom f f' /\
        g = (i - 1) / inodes_per_grp f /\ 0 <= g < ngroups f /\ 1 <= i <= inodes_per_grp f * ngroups f /\
        ino_used s f i = false /\
        (forall i', 1 <= i' <= inodes_per_grp f * ngroups f ->
           ino_used s' f' i' = (i' =? i) || ino_used s f i') /\
        (forall b, 0 <= b < blks_per_grp f * ngroups f -> blk_used s' f' b = blk_used s f b) /\
        bg_unalloc_inode_cnt (bgdt_buf f') g = bg_unalloc_inode_cnt (bgdt_buf f) g - 1 /\
        changes f (fun x => x = 0 \/ x = 1 \/ x = ib f g) s s'
  | Halted h s' =>
      h = Panic "KERNEL PANIC: CORRUPTED UNALLOC_INODE_CNT!!!" /\ s' = s /\
      exists g, 0 <= g < ngroups f /\ 0 < bg_unalloc_inode_cnt (bgdt_buf f) g /\
        forall k, 0 <= k < inodes_per_grp f -> ino_used s f (inodes_per_grp f * g + k + 1) = true
  end.
Proof.
  intros W Hf. destruct (wf_ipg s f W) as [Hp _].
  assert (forall g, 0 <= bg_unalloc_inode_cnt (bgdt_buf f) g) as Hpos by (intros; by apply (bg_cnt_range s)).
  assert (forall g k, 0 <= k < inodes_per_grp f ->
    ino_used s f (inodes_per_grp f * g + k + 1) = bit_at 8 (block_bytes s f (ib f g)) k) as Hu.
  { intros g k Hk. rewrite ino_used_bit. rewrite Z.add_simpl_r. by apply bit_of_group. }
  destruct (alloc_inode_spec s fs f W Hf) as [[-> H] | (g & Hg & Hc & Hlow & [[-> H] | H])].
  - left. split; [done|]. split; [done|]. intros g Hg. specialize (Hpos g). specialize (H g Hg). lia.
  - split; [done|]. split; [done|]. exists g. split; [done|]. split; [done|]. intros k Hk.
    rewrite Hu by lia. by apply H.
  - destruct H as (i & s' & _ & _ & Hi & Hfree & _ & -> & C). right.
    exists (add_inode_cnt g (-1) f), g.
    assert (same_geom f (add_inode_cnt g (-1) f)) as G by (apply add_inode_cnt_geom; (done || apply W)).
    destruct (add_inode_cnt_counts f g (wf_bgdt s f W) (wf_sprblk s f W) (wf_ngroups s f W) Hg (-1))
      as (Ec & _ & _ & _).
    split; [apply C|]. split; [apply C|]. split; [apply C|]. split; [done|].
    split; [rewrite Z.add_simpl_r, Z.mul_comm, Z.div_add_l, Z.div_small; lia|]. split; [done|].
    split; [nia|]. split; [by rewrite Hu|]. split; [|split; [|split; [|apply C]]].
    + intros i' Hi'. rewrite !ino_used_bit. destruct (sg_params _ _ G) as (_ & _ & -> & _).
      replace (i' =? inodes_per_grp f * g + i + 1) with (i' - 1 =? inodes_per_grp f * g + i)
        by (destruct (Z.eqb_spec (i' - 1) (inodes_per_grp f * g + i)); lia).
      apply (bit_of_set s s' fs f (add_inode_cnt g (-1) f)); try done; [| |lia].
      * intros k Hk. destruct (sg_addrs _ _ G k Hk) as (_ & -> & _).
        by destruct (wf_bitmaps s f W k Hk) as (_ & _ & _ & ?).
      * intros k Hk. by apply (wf_apart s f W).
    + intros b Hb. apply (blk_used_kept s s' fs f _ _ _ W G C); [|done].
      intros g' Hg' E. by apply (wf_apart s f W g' g Hg' Hg).
    + rewrite Ec. apply add_cnt_small. pose proof (bg_cnt_range s f g W). lia.
Qed.

(** ** A small partition for the witnesses: one group, bitmaps in blocks 2 and
    3, inode table from block 4 on, blocks 0 to 19 and inodes 1 to 11 in use. *)
Module Demo.

Definition sb : list Z :=
  st16 (st16 (st32 (st32 (st32 (st32 (st32 (st32 (replicate 1024 0) 0 32) 4 50) 12 30) 16 21) 24 2) 40 32) 56 61267) 88 128.
Definition bgdt : list Z :=
  st16 (st16 (st32 (st32 (st32 (replicate 4096 0) 0 2) 4 3) 8 4) 12 30) 14 21.
Definition fs : fs_info := mkFs bgdt sb ATA_MASTER false 8 400 128 32 32768 32768 1 0 [].
Definition blocks (b : Z) : list Z :=
  if b =? 0 then splice 1024 sb (replicate 4096 0)
  else if b =? 1 then bgdt
  else if b =? 2 then [255; 255; 15; 0; 0; 0; 252] ++ replicate 4089 255
  else if b =? 3 then [255; 7; 0; 0] ++ replicate 4092 255
  else replicate 4096 0.
Definition state : fstate := image_state blocks fs.

Lemma blocks_ok b : length (blocks b) = 4096%nat /\ bytes_ok (blocks b).
Proof.
  unfold blocks. repeat (zcase; [split; [done|apply (bool_decide_unpack (Forall _ _)); by vm_compute]|]).
  split; [done|]. apply (bool_decide_unpack (Forall _ _)). by vm_compute.
Qed.

Lemma disk_ok : disk_wf state.
Proof.
  intros d l. cbn [sectors state image_state]. destruct (blocks_ok (l / 8 - 1)) as [Hl Hb].
  split; [apply length_sub; rewrite Hl; zlia|by apply Forall_sub].
Qed.

Lemma part_ok : part_wf state fs.
Proof. unfold part_wf, drive_size. cbn. lia. Qed.

Lemma wf : fs_wf state fs.
Proof.
  split; [apply part_ok|apply disk_ok|done|done|apply (bool_decide_unpack (Forall _ _)); by vm_compute|
    apply (bool_decide_unpack (Forall _ _)); by vm_compute|cbn; lia|cbn; lia|done|split; [cbn; lia|done]|done| |].
  - intros g Hg. replace g with 0 by (cbn in Hg; lia). vm_compute. intuition congruence.
  - intros g g' Hg Hg'. replace g with 0 by (cbn in Hg; lia). replace g' with 0 by (cbn in Hg'; lia).
    vm_compute. intuition congruence.
Qed.

End Demo.

(** The value returned, without the state. *)
Definition result {A} (o : outcome fstate A) : option A :=
  match o with Done a _ => Some a | Halted _ _ => None end.

Lemma result_Done {A} (o : outcome fstate A) a : result o = Some a -> exists s, o = Done a s.
Proof. destruct o; simpl; [intros; simplify_eq; eauto|done]. Qed.

(** Block 20 is the first free one. *)
Lemma alloc_block_correct_witness :
  exists s' f', alloc_block 0 Demo.state = Done 20 s' /\ fs_at s' 0 f' /\ fs_wf s' f' /\
    blk_used s' f' 20 = true /\ blk_used s' f' 21 = false.
Proof.
  pose proof (alloc_block_correct Demo.state 0 Demo.fs Demo.wf eq_refl) as H.
  destruct (result_Done (alloc_block 0 Demo.state) 20) as [s' E]; [vm_compute; reflexivity|].
  rewrite E in H. destruct H as [(Hz & _) | (f' & g & Hf & Hw & _ & _ & _ & _ & _ & _ & _ & Hu & _)];
    [discriminate Hz|]. exists s', f'. split; [exact E|]. split; [exact Hf|]. split; [exact Hw|].
  split; (rewrite Hu; [vm_compute; reflexivity|vm_compute; intuition congruence]).
Defined.

Lemma free_block_correct_witness :
  exists s' f', free_block 0 19 Demo.state = Done true s' /\ fs_at s' 0 f' /\
    blk_used s' f' 19 = false /\ blk_used s' f' 18 = true.
Proof.
  destruct (free_block_correct Demo.state 0 Demo.fs 19 Demo.wf eq_refl) as (r & s' & E & Hr & H);
    [unfold is_u32; lia|]. vm_compute in Hr. subst r.
  replace (blk_used Demo.state Demo.fs 19) with true in H by (vm_compute; reflexivity).
  destruct H as (f' & g & Hf & _ & _ & _ & _ & Hu & _). exists s', f'. split; [exact E|]. split; [exact Hf|].
  split; (rewrite Hu; [vm_compute; reflexivity|vm_compute; intuition congruence]).
Defined.

Lemma alloc_free_roundtrip_witness :
  exists s1 s2, alloc_block 0 Demo.state = Done 20 s1 /\ free_block 0 20 s1 = Done true s2 /\
    fs_entries s2 = fs_entries Demo.state /\
    forall x, 1 <= x -> block_bytes s2 Demo.fs x = block_bytes Demo.state Demo.fs x.
Proof.
  destruct (result_Done (alloc_block 0 Demo.state) 20) as [s1 E]; [vm_compute; reflexivity|].
  destruct (alloc_free_roundtrip Demo.state s1 0 Demo.fs 20 Demo.wf eq_refl) as (s2 & E2 & He & _ & _ & Hb).
  - split; vm_compute; reflexivity.
  - exact E.
  - vm_compute. intuition congruence.
  - exists s1, s2. split; [exact E|]. split; [exact E2|]. split; [exact He|exact Hb].
Defined.

Lemma alloc_inode_correct_witness :
  exists s' f', alloc_inode 0 Demo.state = Done 12 s' /\ fs_at s' 0 f' /\
    ino_used s' f' 12 = true /\ ino_used s' f' 13 = false.
Proof.
  pose proof (alloc_inode_correct Demo.state 0 Demo.fs Demo.wf eq_refl) as H.
  destruct (result_Done (alloc_inode 0 Demo.state) 12) as [s' E]; [vm_compute; reflexivity|].
  rewrite E in H. destruct H as [(Hz & _) | (f' & g & Hf & Hw & _ & _ & _ & _ & _ & _ & Hu & _)];
    [discriminate Hz|]. exists s', f'. split; [exact E|]. split; [exact Hf|].
  split; (rewrite Hu; [vm_compute; reflexivity|vm_compute; intuition congruence]).
Defined.
