(* ===== verification/Inode.v ===== *)
(** * Inodes: the inode part of kernel/fs/block/blockController.c

    The on-disk inode, reading and writing it in the inode table, releasing a
    file's blocks, deleting and minting inodes.  The theorems say that the two
    views of an inode are inverse, that the table behaves as a map from inode
    numbers to inodes, and which bytes of the partition a store changes. *)
From S2P Require Import Prelude Bytes Bitset CLib Disk Bitmap.

Definition BIT_32_PER_BLK : Z := BLOCK_SIZE / 4.
Definition INODE_BLK_PTR_AMT : Z := 12.
Definition NO_PERMISSION_MASK : Z := 61440.
Definition INODE_DIR_TYPE : Z := 16384.
Definition INODE_FILE_TYPE : Z := 32768.
Definition INODE_SYMLINK_TYPE : Z := 40960.
Definition INODE_WRITE_SUCCESS : Z := 286331153.
Definition EMPTY_BLOCK : Z := 572662306.

Record ext2_inode : Type := mkInode {
  type_and_perms_lo : Z; user_id_lo : Z; size_lo : Z;
  last_access_time : Z; creation_time : Z; last_mod_time : Z; deletion_time : Z;
  group_id : Z; hard_link_cnt : Z; disk_sectors : Z; flags : Z; unused : Z;
  dir_block_ptr : list Z;
  singly_indir_block_ptr : Z; doubly_indir_block_ptr : Z; triply_indir_block_ptr : Z;
  generation_num : Z; unused_2 : Z; unused_3 : Z; fragment_addr : Z;
  frag_num : Z; frag_size : Z; unused_4 : Z; user_id_hi : Z; group_id_hi : Z; unused_5 : Z
}.

Definition inode_zero : ext2_inode :=
  mkInode 0 0 0 0 0 0 0 0 0 0 0 0 (replicate 12 0) 0 0 0 0 0 0 0 0 0 0 0 0 0.

(** ** Field updates *)

Definition with_blocks (dp : list Z) (sp dbp tp : Z) (i : ext2_inode) : ext2_inode :=
  mkInode (type_and_perms_lo i) (user_id_lo i) (size_lo i) (last_access_time i) (creation_time i)
    (last_mod_time i) (deletion_time i) (group_id i) (hard_link_cnt i) (disk_sectors i) (flags i) (unused i)
    dp sp dbp tp (generation_num i) (unused_2 i) (unused_3 i) (fragment_addr i) (frag_num i) (frag_size i)
    (unused_4 i) (user_id_hi i) (group_id_hi i) (unused_5 i).
Definition set_dir_ptr (k v : Z) (i : ext2_inode) : ext2_inode :=
  with_blocks (<[Z.to_nat k := v]> (dir_block_ptr i)) (singly_indir_block_ptr i)
    (doubly_indir_block_ptr i) (triply_indir_block_ptr i) i.
Definition set_singly (v : Z) (i : ext2_inode) : ext2_inode :=
  with_blocks (dir_block_ptr i) v (doubly_indir_block_ptr i) (triply_indir_block_ptr i) i.
Definition set_doubly (v : Z) (i : ext2_inode) : ext2_inode :=
  with_blocks (dir_block_ptr i) (singly_indir_block_ptr i) v (triply_indir_block_ptr i) i.
Definition set_triply (v : Z) (i : ext2_inode) : ext2_inode :=
  with_blocks (dir_block_ptr i) (singly_indir_block_ptr i) (doubly_indir_block_ptr i) v i.
Definition clear_ptrs (i : ext2_inode) : ext2_inode := with_blocks (replicate 12 0) 0 0 0 i.

(** Type, size, times (access, creation, modification, deletion), links, sectors. *)
Definition with_meta (ty sz at_ ct mt dt hl ds : Z) (i : ext2_inode) : ext2_inode :=
  mkInode ty (user_id_lo i) sz at_ ct mt dt (group_id i) hl ds (flags i) (unused i)
    (dir_block_ptr i) (singly_indir_block_ptr i) (doubly_indir_block_ptr i) (triply_indir_block_ptr i)
    (generation_num i) (unused_2 i) (unused_3 i) (fragment_addr i) (frag_num i) (frag_size i)
    (unused_4 i) (user_id_hi i) (group_id_hi i) (unused_5 i).
Definition set_size (v : Z) (i : ext2_inode) : ext2_inode :=
  with_meta (type_and_perms_lo i) (u32 v) (last_access_time i) (creation_time i) (last_mod_time i)
    (deletion_time i) (hard_link_cnt i) (disk_sectors i) i.
Definition set_access (v : Z) (i : ext2_inode) : ext2_inode :=
  with_meta (type_and_perms_lo i) (size_lo i) (u32 v) (creation_time i) (last_mod_time i)
    (deletion_time i) (hard_link_cnt i) (disk_sectors i) i.
Definition set_mod (v : Z) (i : ext2_inode) : ext2_inode :=
  with_meta (type_and_perms_lo i) (size_lo i) (last_access_time i) (creation_time i) (u32 v)
    (deletion_time i) (hard_link_cnt i) (disk_sectors i) i.
Definition set_deletion (v : Z) (i : ext2_inode) : ext2_inode :=
  with_meta (type_and_perms_lo i) (size_lo i) (last_access_time i) (creation_time i) (last_mod_time i)
    (u32 v) (hard_link_cnt i) (disk_sectors i) i.
Definition set_links (v : Z) (i : ext2_inode) : ext2_inode :=
  with_meta (type_and_perms_lo i) (size_lo i) (last_access_time i) (creation_time i) (last_mod_time i)
    (deletion_time i) (u16 v) (disk_sectors i) i.
Definition set_disk_sectors (v : Z) (i : ext2_inode) : ext2_inode :=
  with_meta (type_and_perms_lo i) (size_lo i) (last_access_time i) (creation_time i) (last_mod_time i)
    (deletion_time i) (hard_link_cnt i) (u32 v) i.

(** [inode->disk_sectors += n * sectors_per_blk] *)
Definition add_disk_sectors (n : Z) (i : ext2_inode) : ext2_inode :=
  set_disk_sectors (disk_sectors i + n * sectors_per_blk) i.

Definition file_type (i : ext2_inode) : Z := Z.land (type_and_perms_lo i) NO_PERMISSION_MASK.

(** ** The 128 bytes of an inode *)

Definition encode (i : ext2_inode) : list Z :=
  le_bytes 2 (type_and_perms_lo i) ++ le_bytes 2 (user_id_lo i) ++ le_bytes 4 (size_lo i) ++
  le_bytes 4 (last_access_time i) ++ le_bytes 4 (creation_time i) ++ le_bytes 4 (last_mod_time i) ++
  le_bytes 4 (deletion_time i) ++ le_bytes 2 (group_id i) ++ le_bytes 2 (hard_link_cnt i) ++
  le_bytes 4 (disk_sectors i) ++ le_bytes 4 (flags i) ++ le_bytes 4 (unused i) ++
  concat (map (le_bytes 4) (dir_block_ptr i)) ++
  le_bytes 4 (singly_indir_block_ptr i) ++ le_bytes 4 (doubly_indir_block_ptr i) ++
  le_bytes 4 (triply_indir_block_ptr i) ++ le_bytes 4 (generation_num i) ++ le_bytes 4 (unused_2 i) ++
  le_bytes 4 (unused_3 i) ++ le_bytes 4 (fragment_addr i) ++ le_bytes 1 (frag_num i) ++
  le_bytes 1 (frag_size i) ++ le_bytes 2 (unused_4 i) ++ le_bytes 2 (user_id_hi i) ++
  le_bytes 2 (group_id_hi i) ++ le_bytes 4 (unused_5 i).

Definition decode (b : list Z) : ext2_inode :=
  mkInode (ld16 b 0) (ld16 b 2) (ld32 b 4) (ld32 b 8) (ld32 b 12) (ld32 b 16) (ld32 b 20) (ld16 b 24)
    (ld16 b 26) (ld32 b 28) (ld32 b 32) (ld32 b 36)
    [ld32 b 40; ld32 b 44; ld32 b 48; ld32 b 52; ld32 b 56; ld32 b 60;
     ld32 b 64; ld32 b 68; ld32 b 72; ld32 b 76; ld32 b 80; ld32 b 84]
    (ld32 b 88) (ld32 b 92) (ld32 b 96) (ld32 b 100) (ld32 b 104) (ld32 b 108) (ld32 b 112)
    (ld8 b 116) (ld8 b 117) (ld16 b 118) (ld16 b 120) (ld16 b 122) (ld32 b 124).

(** ** The inode table *)

(** [None] is [return false]: [out] is not written. An inode that does not lie
    in one block would be read past the buffer. *)
Definition inode_place (f : fs_info) (inode_n : Z) : FM (Z * Z) :=
  let g := u32 (inode_n - 1) / inodes_per_grp f in
  let ind := u32 (inode_n - 1) mod inodes_per_grp f in
  bgdt_ok f g ;;;
  let blk := u32 (bg_inode_table (bgdt_buf f) g + u32 (ind * inode_size f) / BLOCK_SIZE) in
  let off := u32 (ind * inode_size f) mod BLOCK_SIZE in
  guardM (off + 128 <=? BLOCK_SIZE) ;;;
  retM (blk, off).

Definition bad_inode_n (f : fs_info) (inode_n : Z) : bool :=
  (inode_n =? 0) || (sb_inode_cnt (sprblk_buf f) <? inode_n).

Definition get_inode (fs inode_n : Z) : FM (option ext2_inode) :=
  let* f := get_fs fs in
  guardM (negb (inodes_per_grp f =? 0)) ;;;
  if bad_inode_n f inode_n then retM None
  else
    let* p := inode_place f inode_n in
    let* buf := read_block fs p.1 in
    retM (Some (decode (sub (Z.to_nat p.2) 128 buf))).

Definition set_inode (fs inode_n : Z) (i : ext2_inode) : FM bool :=
  let* f := get_fs fs in
  guardM (negb (inodes_per_grp f =? 0)) ;;;
  if bad_inode_n f inode_n then retM false
  else
    let* p := inode_place f inode_n in
    let* buf := read_block fs p.1 in
    write_block fs p.1 (splice (Z.to_nat p.2) (encode i) buf) ;;;
    retM true.

Definition zero_block : list Z := replicate 4096 0.

(** [entries[i]] of an indirect block *)
Definition entry (blk : list Z) (i : Z) : Z := ld32 blk (4 * i).
Definition set_entry (blk : list Z) (i v : Z) : list Z := st32 blk (4 * i) v.

(** ** Whole files: reading and releasing block trees *)

(** What is read so far (from [out_cursor] back) and [*blocks_left]. *)
Fixpoint indir_read_block (fs : Z) (layer : nat) (block_n : Z) (st : list Z * Z) : FM (list Z * Z) :=
  let '(out, blocks_left) := st in
  if block_n =? 0 then
    let span := min (u32 (BIT_32_PER_BLK ^ Z.of_nat layer)) blocks_left in
    retM (out ++ replicate (Z.to_nat (span * BLOCK_SIZE)) 0, blocks_left - span)
  else
    match layer with
    | O => let* b := read_block fs block_n in retM (out ++ b, u32 (blocks_left - 1))
    | S layer =>
        let* entries := read_block fs block_n in
        whileM (Z.to_nat BIT_32_PER_BLK) 0 (fun st => 0 <? st.2)
          (fun i st => indir_read_block fs layer (entry entries i) st) st
    end.

Fixpoint indir_free_block (fs : Z) (layer : nat) (block_n : Z) : FM unit :=
  if block_n =? 0 then retM tt
  else
    match layer with
    | O => free_block fs block_n ;;; retM tt
    | S layer =>
        let* entries := read_block fs block_n in
        forM (Z.to_nat BIT_32_PER_BLK) 0 (fun i => indir_free_block fs layer (entry entries i)) ;;;
        free_block fs block_n ;;; retM tt
    end.

Definition dir_ptr (i : ext2_inode) (k : Z) : Z := default 0 (dir_block_ptr i !! Z.to_nat k).

(** The twelve direct blocks. *)
Definition free_direct (fs : Z) (i : ext2_inode) : FM unit :=
  forM (Z.to_nat INODE_BLK_PTR_AMT) 0 (fun k => indir_free_block fs 0 (dir_ptr i k)).

Definition free_file_blocks (fs : Z) (i : ext2_inode) : FM unit :=
  free_direct fs i ;;;
  indir_free_block fs 1 (singly_indir_block_ptr i) ;;;
  indir_free_block fs 2 (doubly_indir_block_ptr i) ;;;
  indir_free_block fs 3 (triply_indir_block_ptr i).

Definition blocks_for (size : Z) : Z := u32 (size + BLOCK_SIZE - 1) / BLOCK_SIZE.

Definition read_inode (fs : Z) (i : ext2_inode) : FM (list Z) :=
  let* st := whileM (Z.to_nat INODE_BLK_PTR_AMT) 0 (fun st => 0 <? st.2)
               (fun k st => indir_read_block fs 0 (dir_ptr i k) st) ([], blocks_for (size_lo i)) in
  let next layer ptr (st : list Z * Z) := if 0 <? st.2 then indir_read_block fs layer ptr st else retM st in
  let* st := next 1%nat (singly_indir_block_ptr i) st in
  let* st := next 2%nat (doubly_indir_block_ptr i) st in
  let* st := next 3%nat (triply_indir_block_ptr i) st in
  retM st.1.

(** ** Deleting and minting *)

(** [fs->bgdt[group_n].dir_cnt += d; write_block(fs, bgdt_blk_n, fs->bgdt)] *)
Definition add_dir_cnt (fs group_n d : Z) : FM unit :=
  let* f := get_fs fs in
  bgdt_ok f group_n ;;;
  put_fs fs (with_bgdt (st16 (bgdt_buf f) (32 * group_n + 16) (bg_dir_cnt (bgdt_buf f) group_n + d)) f) ;;;
  write_bgdt fs.

Definition delete_inode (fs inode_n : Z) : FM bool :=
  let* r := get_inode fs inode_n in
  match r with
  | None => retM false
  | Some i =>
      (if 0 <? disk_sectors i then free_file_blocks fs i else retM tt) ;;;
      let* s := getM in
      let i := set_deletion (epoch_sec s) (set_links 0 i) in
      let* ok := set_inode fs inode_n i in
      if negb ok then retM false
      else
        let* f := get_fs fs in
        (if file_type i =? INODE_DIR_TYPE
         then add_dir_cnt fs (u32 (inode_n - first_inode_n) / inodes_per_grp f) (-1) else retM tt) ;;;
        free_inode fs inode_n
  end.

(** The inode number and [*out]. *)
Definition mint_inode (fs f_size ty : Z) : FM (Z * option ext2_inode) :=
  let* inode_n := alloc_inode fs in
  if inode_n =? INODE_ERROR then retM (INODE_ERROR, None)
  else
    let* s := getM in
    let t := u32 (epoch_sec s) in
    retM (inode_n, Some (with_meta (u16 ty) (u32 f_size) t t t 0 0 0 inode_zero)).

(** ** Encoding and decoding are inverse *)

Definition fits (n : nat) (v : Z) : Prop := 0 <= v < 256 ^ Z.of_nat n.

Definition inode_wf (i : ext2_inode) : Prop :=
  Forall (fits 2) [type_and_perms_lo i; user_id_lo i; group_id i; hard_link_cnt i; unused_4 i;
                   user_id_hi i; group_id_hi i] /\
  Forall (fits 1) [frag_num i; frag_size i] /\
  Forall (fits 4) [size_lo i; last_access_time i; creation_time i; last_mod_time i; deletion_time i;
                   disk_sectors i; flags i; unused i; singly_indir_block_ptr i; doubly_indir_block_ptr i;
                   triply_indir_block_ptr i; generation_num i; unused_2 i; unused_3 i; fragment_addr i;
                   unused_5 i] /\
  length (dir_block_ptr i) = 12%nat /\ Forall (fits 4) (dir_block_ptr i).

Lemma ld_skip n m v rest off :
  Z.of_nat m <= off -> ld n (le_bytes m v ++ rest) off = ld n rest (off - Z.of_nat m).
Proof.
  intros H. unfold ld, sub. do 2 f_equal. rewrite drop_app_ge by (rewrite length_le_bytes; lia).
  rewrite length_le_bytes. f_equal. lia.
Qed.

Lemma ld_hit n v rest : fits n v -> ld n (le_bytes n v ++ rest) 0 = v.
Proof.
  intros H. unfold ld, sub. cbn [Z.to_nat]. rewrite drop_0, take_app_le by (rewrite length_le_bytes; lia).
  rewrite take_ge by (rewrite length_le_bytes; lia). rewrite le_val_bytes. by apply Z.mod_small.
Qed.

Lemma ld_last n v : fits n v -> ld n (le_bytes n v) 0 = v.
Proof. intros H. rewrite <- (app_nil_r (le_bytes n v)). by apply ld_hit. Qed.

Ltac ld_field :=
  repeat (rewrite ld_skip by done; cbn [Z.of_nat Pos.of_succ_nat Pos.succ Z.sub Z.add Z.opp Z.pos_sub Pos.pred_double Z.pred_double Z.double Z.succ_double]);
  first [apply ld_hit; assumption | apply ld_last; assumption].

Lemma length_encode i : length (dir_block_ptr i) = 12%nat -> length (encode i) = 128%nat.
Proof.
  intros H. unfold encode. repeat rewrite length_app. rewrite !length_le_bytes.
  rewrite (length_concat_const _ 4), length_map, H; [done|].
  apply Forall_map, Forall_true. intros x. apply length_le_bytes.
Qed.

Lemma encode_ok i : bytes_ok (encode i).
Proof.
  unfold encode, bytes_ok. repeat (apply Forall_app; split); try apply le_bytes_ok.
  apply Forall_concat, Forall_map, Forall_true. intros x. apply le_bytes_ok.
Qed.

Lemma decode_encode i : inode_wf i -> decode (encode i) = i.
Proof.
  destruct i as [f0 f1 f2 f3 f4 f5 f6 f7 f8 f9 f10 f11 dp f13 f14 f15 f16 f17 f18 f19 f20 f21 f22 f23 f24 f25].
  unfold inode_wf. cbn [type_and_perms_lo user_id_lo group_id hard_link_cnt unused_4
    user_id_hi group_id_hi frag_num frag_size size_lo last_access_time creation_time last_mod_time
    deletion_time disk_sectors flags unused singly_indir_block_ptr doubly_indir_block_ptr
    triply_indir_block_ptr generation_num unused_2 unused_3 fragment_addr unused_5 dir_block_ptr].
  intros (H2 & H1 & H4 & Hl & Hd). do 12 (destruct dp as [|? dp]; [done|]). destruct dp; [|done].
  clear Hl. decompose_Forall. unfold decode, encode.
  cbn [type_and_perms_lo user_id_lo group_id hard_link_cnt unused_4
    user_id_hi group_id_hi frag_num frag_size size_lo last_access_time creation_time last_mod_time
    deletion_time disk_sectors flags unused singly_indir_block_ptr doubly_indir_block_ptr
    triply_indir_block_ptr generation_num unused_2 unused_3 fragment_addr unused_5 dir_block_ptr map concat].
  rewrite <- !app_assoc, app_nil_l. f_equal; try ld_field.
  repeat (f_equal; [ld_field|]). f_equal. ld_field.
Qed.

Lemma decode_wf b : bytes_ok b -> inode_wf (decode b).
Proof.
  intros Hb. unfold inode_wf, fits. cbn [decode type_and_perms_lo user_id_lo group_id hard_link_cnt unused_4
    user_id_hi group_id_hi frag_num frag_size size_lo last_access_time creation_time last_mod_time
    deletion_time disk_sectors flags unused singly_indir_block_ptr doubly_indir_block_ptr
    triply_indir_block_ptr generation_num unused_2 unused_3 fragment_addr unused_5 dir_block_ptr].
  split; [|split; [|split; [|split; [done|]]]]; repeat (apply List.Forall_cons || apply List.Forall_nil);
    by apply ld_range.
Qed.

(** ** The table as a map *)

(** Inodes of at least 128 bytes that divide a block, whose tables are disjoint
    runs of blocks of the partition after the descriptors. *)
Definition table_blocks (f : fs_info) : Z := (inodes_per_grp f * inode_size f + 4095) / 4096.

Record itable_wf (s : fstate) (f : fs_info) : Prop := mkItable {
  it_fs : fs_wf s f;
  it_size : 128 <= inode_size f <= 4096 /\ 4096 mod inode_size f = 0;
  it_cnt : sb_inode_cnt (sprblk_buf f) <= inodes_per_grp f * ngroups f;
  it_table g k : 0 <= g < ngroups f -> 0 <= k < table_blocks f ->
    2 <= bg_inode_table (bgdt_buf f) g + k /\ blk_ok f (bg_inode_table (bgdt_buf f) g + k);
  it_apart g g' k k' : 0 <= g < ngroups f -> 0 <= g' < ngroups f ->
    0 <= k < table_blocks f -> 0 <= k' < table_blocks f ->
    bg_inode_table (bgdt_buf f) g + k = bg_inode_table (bgdt_buf f) g' + k' -> g = g'
}.

Definition valid_inode_n (f : fs_info) (n : Z) : Prop := 1 <= n <= sb_inode_cnt (sprblk_buf f).

(** Where inode [n] lives. *)
Definition inode_at (f : fs_info) (n : Z) : Z * Z :=
  let a := (n - 1) mod inodes_per_grp f * inode_size f in
  (bg_inode_table (bgdt_buf f) ((n - 1) / inodes_per_grp f) + a / 4096, a mod 4096).

Definition inode_of (s : fstate) (f : fs_info) (n : Z) : ext2_inode :=
  decode (sub (Z.to_nat (inode_at f n).2) 128 (block_bytes s f (inode_at f n).1)).

Section table.
Context (s : fstate) (f : fs_info) (T : itable_wf s f).
Let W := it_fs s f T.

Lemma inode_index n : valid_inode_n f n ->
  0 <= (n - 1) / inodes_per_grp f < ngroups f /\ 0 <= (n - 1) mod inodes_per_grp f < inodes_per_grp f.
Proof using T.
  intros [H1 Hc]. pose proof (it_cnt s f T). destruct (wf_ipg s f (it_fs s f T)) as [Hp _].
  split; [split; [apply Z.div_pos; lia|apply Z.div_lt_upper_bound; lia]|apply Z.mod_pos_bound; lia].
Qed.

Lemma table_offset ind : 0 <= ind < inodes_per_grp f ->
  0 <= ind * inode_size f / 4096 < table_blocks f /\ 0 <= ind * inode_size f < 134217728 /\
  0 <= (ind * inode_size f) mod 4096 /\ (ind * inode_size f) mod 4096 + inode_size f <= 4096.
Proof using T.
  intros Hi. destruct (it_size s f T) as [Hs Hd]. destruct (wf_ipg s f (it_fs s f T)) as [Hp _].
  assert (ind * inode_size f + inode_size f <= inodes_per_grp f * inode_size f) as Hm by nia.
  assert (0 <= ind * inode_size f < 134217728) as Hr by nia. unfold table_blocks.
  split; [split; [zlia|]|split; [done|split; [zlia|]]].
  - assert (ind * inode_size f / 4096 + 1 <= (inodes_per_grp f * inode_size f + 4095) / 4096); [|lia].
    zlia.
  - apply Z.mod_divide in Hd as [q Hq]; [|lia].
    rewrite Hq. rewrite Zmult_mod_distr_r.
    assert (0 < q) by nia. pose proof (Z.mod_pos_bound ind q ltac:(lia)). nia.
Qed.

Lemma inode_at_ok n : valid_inode_n f n ->
  blk_ok f (inode_at f n).1 /\ 2 <= (inode_at f n).1 /\ 0 <= (inode_at f n).2 <= 4096 - 128.
Proof using T.
  intros Hn. destruct (inode_index n Hn) as [Hg Hi]. destruct (table_offset _ Hi) as (Hk & _ & H0 & Ho).
  destruct (it_table s f T _ _ Hg Hk). destruct (it_size s f T). cbn [inode_at fst snd]. repeat split; try lia; apply H1.
Qed.

Lemma inode_at_apart n n' : valid_inode_n f n -> valid_inode_n f n' -> n <> n' ->
  (inode_at f n).1 = (inode_at f n').1 ->
  (inode_at f n).2 + 128 <= (inode_at f n').2 \/ (inode_at f n').2 + 128 <= (inode_at f n).2.
Proof using T.
  intros Hn Hn' Hne. destruct (inode_index n Hn) as [Hg Hi]. destruct (inode_index n' Hn') as [Hg' Hi'].
  destruct (table_offset _ Hi) as (Hk & _). destruct (table_offset _ Hi') as (Hk' & _).
  destruct (wf_ipg s f (it_fs s f T)) as [Hp _]. destruct (it_size s f T) as [Hs _].
  cbn [inode_at fst snd]. intros E. pose proof (it_apart s f T _ _ _ _ Hg Hg' Hk Hk' E) as Eg.
  rewrite Eg in E. pose proof (Z.div_mod (n - 1) (inodes_per_grp f) ltac:(lia)) as D.
  pose proof (Z.div_mod (n' - 1) (inodes_per_grp f) ltac:(lia)) as D'. rewrite Eg in D.
  generalize dependent ((n - 1) mod inodes_per_grp f). generalize dependent ((n' - 1) mod inodes_per_grp f).
  intros a Ha Hka D' b Hb Hkb Heq D. assert (a <> b) by lia.
  assert (a * inode_size f + 128 <= b * inode_size f \/ b * inode_size f + 128 <= a * inode_size f) by nia.
  zlia.
Qed.

Lemma inode_place_ok n : valid_inode_n f n ->
  bad_inode_n f n = false /\ inode_place f n s = Done (inode_at f n) s.
Proof using T.
  intros Hn. destruct (inode_index n Hn) as [Hg Hi]. destruct (table_offset _ Hi) as (Hk & Ha & H0 & Ho).
  destruct (it_table s f T _ _ Hg Hk) as [_ [_ Hb]]. destruct (wf_part s f W) as (_ & _ & Hc & _).
  pose proof (wf_ngroups s f W) as Hng. pose proof (ld_range 4 (sprblk_buf f) 0 (wf_sprblk_bytes s f W)) as Hsz.
  unfold valid_inode_n, sb_inode_cnt in *. change (256 ^ Z.of_nat 4) with 4294967296 in Hsz. split.
  { unfold bad_inode_n, sb_inode_cnt. apply Bool.orb_false_intro; lia. }
  unfold inode_place, bgdt_ok, guardM. mrun. rewrite (wf_bgdt s f W).
  assert (u32 (n - 1) = n - 1) as -> by (unfold u32; rewrite Z.mod_small; lia).
  ztrue ((0 <=? (n - 1) / inodes_per_grp f) && (32 * ((n - 1) / inodes_per_grp f) + 32 <=? Z.of_nat 4096)).
  unfold u32. change BLOCK_SIZE with 4096. rewrite (Z.mod_small (_ * _)) by lia.
  destruct (it_size s f T) as [Hs _].
  ztrue (((n - 1) mod inodes_per_grp f * inode_size f) mod 4096 + 128 <=? 4096).
  rewrite Z.mod_small; [done|]. destruct (it_table s f T _ _ Hg Hk) as [? _]. lia.
Qed.

Lemma get_inode_ok fs n : fs_at s fs f -> valid_inode_n f n ->
  get_inode fs n s = Done (Some (inode_of s f n)) s.
Proof using T.
  intros Hf Hn. destruct (inode_place_ok n Hn) as [Eb Ep]. destruct (inode_at_ok n Hn) as (Hb & _).
  unfold get_inode, get_fs, guardM. mrun. rewrite Hf.
  destruct (wf_ipg s f W) as [Hp _]. zfalse (inodes_per_grp f =? 0). cbn [negb]. rewrite Eb, Ep.
  by rewrite (read_block_ok s fs f _ Hf (wf_part s f W) Hb).
Qed.

Lemma set_inode_ok fs n i : fs_at s fs f -> valid_inode_n f n ->
  set_inode fs n i s =
    Done true (put_block f (inode_at f n).1
                (splice (Z.to_nat (inode_at f n).2) (encode i) (block_bytes s f (inode_at f n).1)) s).
Proof using T.
  intros Hf Hn. destruct (inode_place_ok n Hn) as [Eb Ep]. destruct (inode_at_ok n Hn) as (Hb & _).
  unfold set_inode, get_fs, guardM. mrun. rewrite Hf.
  destruct (wf_ipg s f W) as [Hp _]. zfalse (inodes_per_grp f =? 0). cbn [negb]. rewrite Eb, Ep.
  rewrite (read_block_ok s fs f _ Hf (wf_part s f W) Hb).
  by rewrite (write_block_ok s fs f _ _ Hf (wf_part s f W) Hb).
Qed.
End table.

Lemma itable_wf_step s s' f f' :
  itable_wf s f -> same_geom f f' -> same_env s s' -> disk_wf s' -> itable_wf s' f'.
Proof.
  intros T G E D. destruct G as [P Hb Hs Hy Hy' (En & Eb & Ei & Ez & Em) Hsup Ha] eqn:EG. clear EG.
  destruct T as [W Hsz Hc Ht Hap]. assert (table_blocks f' = table_blocks f) as Et
    by (unfold table_blocks; congruence). pose proof P as (_ & _ & Ec).
  split; rewrite ?En, ?Ei, ?Ez, ?Et; try done.
  - apply (fs_wf_step s s' f f' W); [by split|done..].
  - unfold sb_inode_cnt. rewrite (Hsup 0); [done|simpl; tauto].
  - intros g k Hg Hk. destruct (Ha g Hg) as (_ & _ & ->). unfold blk_ok. rewrite Ec. by apply Ht.
  - intros g g' k k' Hg Hg'. destruct (Ha g Hg) as (_ & _ & ->). destruct (Ha g' Hg') as (_ & _ & ->).
    by apply Hap.
Qed.

Lemma same_geom_refl f : same_geom f f.
Proof. by split. Qed.

Lemma put_block_env f b buf s : same_env s (put_block f b buf s).
Proof. done. Qed.

Lemma set_inode_state s fs f n i :
  itable_wf s f -> fs_at s fs f -> valid_inode_n f n -> inode_wf i ->
  exists s', set_inode fs n i s = Done true s' /\ itable_wf s' f /\ fs_entries s' = fs_entries s /\
    same_env s s' /\ changes f (eq (inode_at f n).1) s s' /\
    inode_of s' f n = i /\
    forall n', valid_inode_n f n' -> n' <> n -> inode_of s' f n' = inode_of s f n'.
Proof.
  intros T Hf Hn Hi. pose proof (it_fs s f T) as W. destruct (inode_at_ok s f T n Hn) as (Hb & _ & Ho).
  rewrite (set_inode_ok s f T fs n i Hf Hn). eexists. split; [done|].
  assert (length (encode i) = 128%nat) as Hl by (apply length_encode, Hi).
  pose proof (length_block_bytes s f (inode_at f n).1 (wf_disk s f W)) as Hlb.
  set (buf := splice _ _ _).
  assert (length buf = 4096%nat) as Hbuf by (unfold buf; rewrite length_splice; lia).
  assert (bytes_ok buf) as Hby by (apply Forall_splice; [apply block_bytes_ok, W|apply encode_ok]).
  split.
  { apply (itable_wf_step s _ f f T); [apply same_geom_refl|done|]. by apply put_block_wf; [apply W|..]. }
  split; [done|]. split; [done|]. split; [apply changes_put_block|]. split.
  - unfold inode_of. rewrite block_bytes_same by done. unfold buf. rewrite <- Hl, sub_splice_same by lia.
    by apply decode_encode.
  - intros n' Hn' Hne. unfold inode_of. destruct (Z.eq_dec (inode_at f n).1 (inode_at f n').1) as [E|E].
    + rewrite <- E, block_bytes_same by done. unfold buf. rewrite sub_splice_disj; [done|lia|].
      destruct (inode_at_ok s f T n' Hn') as (_ & _ & Ho').
      destruct (inode_at_apart s f T n n' Hn Hn'); [lia|done|lia|lia].
    + by rewrite block_bytes_other.
Qed.

(** The inode table is a map.  Storing an inode under a valid number makes
    [get_inode] return exactly that inode for it and the inodes it returned
    before for all other numbers; one block of the table changes.  For number 0
    and for numbers above the inode count both fail and nothing changes. *)
Theorem inode_table_map (s : fstate) (fs : Z) (f : fs_info) (n : Z) (i : ext2_inode) :
  itable_wf s f -> fs_at s fs f -> is_u32 n -> inode_wf i ->
  if (1 <=? n) && (n <=? sb_inode_cnt (sprblk_buf f)) then
    exists s', set_inode fs n i s = Done true s' /\ itable_wf s' f /\ fs_at s' fs f /\
      changes f (eq (inode_at f n).1) s s' /\
      get_inode fs n s' = Done (Some i) s' /\
      forall n' i', valid_inode_n f n' -> n' <> n ->
        get_inode fs n' s = Done (Some i') s -> get_inode fs n' s' = Done (Some i') s'
  else get_inode fs n s = Done None s /\ set_inode fs n i s = Done false s.
Proof.
  intros T Hf Hn Hi. destruct ((1 <=? n) && (n <=? sb_inode_cnt (sprblk_buf f))) eqn:E.
  - assert (valid_inode_n f n) as Hv by (unfold valid_inode_n; lia).
    destruct (set_inode_state s fs f n i T Hf Hv Hi) as (s' & Es & T' & Ef & _ & Hc & Hi' & Ho).
    assert (fs_at s' fs f) as Hf' by (unfold fs_at; by rewrite Ef). exists s'.
    do 4 (split; [done|]). split; [rewrite (get_inode_ok s' f T' fs n Hf' Hv); congruence|].
    intros n' i' Hv' Hne. rewrite (get_inode_ok s f T fs n' Hf Hv').
    rewrite (get_inode_ok s' f T' fs n' Hf' Hv'), (Ho n' Hv' Hne). congruence.
  - assert (bad_inode_n f n = true) as Eb.
    { unfold bad_inode_n, is_u32 in *. destruct (Z.eqb_spec n 0); [done|]. cbn [orb]. lia. }
    destruct (wf_ipg s f (it_fs s f T)) as [Hp _].
    unfold get_inode, set_inode, get_fs, guardM. mrun. rewrite Hf. zfalse (inodes_per_grp f =? 0).
    cbn [negb]. by rewrite Eb.
Qed.

Lemma demo_itable : itable_wf Demo.state Demo.fs.
Proof.
  split; [apply Demo.wf|split; [cbn; lia|done]|vm_compute; congruence| |].
  - intros g k Hg Hk. replace g with 0 by (cbn in Hg; lia).
    replace k with 0 by (unfold table_blocks in Hk; cbn -[Z.div] in Hk; zlia). vm_compute. intuition congruence.
  - intros g g' k k' Hg Hg' _ _ _. cbn in Hg, Hg'. lia.
Qed.

Lemma inode_table_map_witness :
  let i := set_size 5 inode_zero in
  exists s', set_inode 0 12 i Demo.state = Done true s' /\ get_inode 0 12 s' = Done (Some i) s' /\
    get_inode 0 33 s' = Done None s'.
Proof.
  intros i.
  destruct (inode_table_map Demo.state 0 Demo.fs 12 i demo_itable eq_refl) as (s' & Es & T & Hf & _ & Eg & _).
  - unfold is_u32. lia.
  - apply (decode_wf (encode i)), encode_ok.
  - exists s'. split; [exact Es|]. split; [exact Eg|].
    apply (inode_table_map s' 0 Demo.fs 33 i T Hf).
    + unfold is_u32. lia.
    + apply (decode_wf (encode i)), encode_ok.
Defined.
