(* ===== verification/BlockMap.v ===== *)
(** * Mapping file blocks to disk blocks: map_file_block

    The third of kernel/fs/block/blockController.c that walks an inode's direct,
    singly, doubly and triply indirect pointers, in three modes: look a block
    up, allocate it and the pointer blocks on the way to it, or release it and
    the pointer blocks that become empty.  The C function is one long unrolled
    text, translated here level by level; [map_ref] is the same function
    written as a recursion over the height of the tree, the two are proved
    equal, and what the function does is proved of the recursion. *)
From S2P Require Import Prelude Bytes Bitset CLib Disk Bitmap Inode.

Definition LOOKUP_MODE : Z := 0.
Definition ALLOC_MODE : Z := 1.
Definition FREE_MODE : Z := 2.

(** What the caller sees: the result, [*inode], [*alloc_cnt] ([None] when the
    pointer is [NULL]) and [*disk_blk_out] ([None] when it is not written). *)
Record map_res : Type := mkRes {
  mr_ret : Z; mr_inode : ext2_inode; mr_cnt : option Z; mr_out : option Z
}.

(** [if (alloc_cnt) ( *alloc_cnt)++] and [--] *)
Definition cnt_inc (c : option Z) : option Z := (fun x => u32 (x + 1)) <$> c.
Definition cnt_dec (c : option Z) : option Z := (fun x => u32 (x - 1)) <$> c.

(** The result when a pointer is missing and the mode is not [ALLOC_MODE]. *)
Definition missing (mode : Z) : Z :=
  if (mode =? LOOKUP_MODE) || (mode =? FREE_MODE) then EMPTY_BLOCK else INODE_ERROR.

(** The scan for a non-zero entry. *)
Definition elements_inside (blk : list Z) : bool :=
  existsb (fun i => negb (entry blk (Z.of_nat i) =? 0)) (seq 0 (Z.to_nat BIT_32_PER_BLK)).

(** ** Direct blocks *)

Definition map_direct (fs : Z) (ino : ext2_inode) (file_blk_idx mode : Z) (cnt : option Z) : FM map_res :=
  bodyE (
    let! (ino, cnt) :=
      if dir_ptr ino file_blk_idx =? 0 then
        if negb (mode =? ALLOC_MODE) then leaveE (mkRes (missing mode) ino cnt None)
        else
          let* b := alloc_block fs in
          if b =? 0 then leaveE (mkRes BLOCK_ERROR (set_dir_ptr file_blk_idx b ino) cnt None)
          else retM (inr (set_dir_ptr file_blk_idx b ino, cnt_inc cnt))
      else retM (inr (ino, cnt)) in
    let out := Some (dir_ptr ino file_blk_idx) in
    if mode =? FREE_MODE
    then retM (inr (mkRes INODE_WRITE_SUCCESS (set_dir_ptr file_blk_idx 0 ino) (cnt_inc cnt) out))
    else retM (inr (mkRes INODE_WRITE_SUCCESS ino cnt out))).

(** ** The pointer in the inode

    [get]/[set] are the inode's pointer of the level; a new pointer block is
    zeroed.  The inode, the count and whether the pointer was minted. *)
Definition mint_root (get : ext2_inode -> Z) (set : Z -> ext2_inode -> ext2_inode)
    (fs : Z) (ino : ext2_inode) (mode : Z) (cnt : option Z) : FM (map_res + ext2_inode * option Z * bool) :=
  if get ino =? 0 then
    if negb (mode =? ALLOC_MODE) then leaveE (mkRes (missing mode) ino cnt None)
    else
      let* b := alloc_block fs in
      if b =? 0 then leaveE (mkRes BLOCK_ERROR (set b ino) cnt None)
      else write_block fs b zero_block ;;; retM (inr (set b ino, cnt_inc cnt, true))
  else retM (inr (ino, cnt, false)).

(** ** Singly indirect blocks *)

Definition map_singly (fs : Z) (ino : ext2_inode) (indir_relative_idx mode : Z) (cnt : option Z) : FM map_res :=
  bodyE (
    let! (ino, cnt, singly_ptr_minted) :=
      mint_root singly_indir_block_ptr set_singly fs ino mode cnt in
    let* indir_blk := read_block fs (singly_indir_block_ptr ino) in
    let! (indir_blk, b, cnt) :=
      if entry indir_blk indir_relative_idx =? 0 then
        if negb (mode =? ALLOC_MODE) then leaveE (mkRes (missing mode) ino cnt None)
        else
          let* b := alloc_block fs in
          if b =? 0 then
            if singly_ptr_minted then
              free_block fs (singly_indir_block_ptr ino) ;;;
              leaveE (mkRes BLOCK_ERROR (set_singly 0 ino) (cnt_dec cnt) None)
            else leaveE (mkRes BLOCK_ERROR ino cnt None)
          else
            let indir_blk := set_entry indir_blk indir_relative_idx b in
            write_block fs (singly_indir_block_ptr ino) indir_blk ;;;
            retM (inr (indir_blk, b, cnt_inc cnt))
      else retM (inr (indir_blk, entry indir_blk indir_relative_idx, cnt)) in
    if mode =? FREE_MODE then
      let indir_blk := set_entry indir_blk indir_relative_idx 0 in
      let cnt := cnt_inc cnt in
      if negb (elements_inside indir_blk) then
        free_block fs (singly_indir_block_ptr ino) ;;;
        retM (inr (mkRes INODE_WRITE_SUCCESS (set_singly 0 ino) (cnt_inc cnt) (Some b)))
      else
        write_block fs (singly_indir_block_ptr ino) indir_blk ;;;
        retM (inr (mkRes INODE_WRITE_SUCCESS ino cnt (Some b)))
    else retM (inr (mkRes INODE_WRITE_SUCCESS ino cnt (Some b)))).

(** ** Doubly indirect blocks *)

(** The entry of the doubly indirect block: its value, the block, the count
    and whether the singly indirect block was minted. *)
Definition doubly_mid (fs : Z) (ino : ext2_inode) (indir_relative_idx mode : Z) (cnt : option Z)
    (doubly_ptr_minted : bool) (doubly_indir_blk : list Z)
    : FM (map_res + list Z * Z * option Z * bool) :=
  let i := indir_relative_idx / BIT_32_PER_BLK in
  if entry doubly_indir_blk i =? 0 then
    if negb (mode =? ALLOC_MODE) then leaveE (mkRes (missing mode) ino cnt None)
    else
      let* b := alloc_block fs in
      if b =? 0 then
        if doubly_ptr_minted then
          free_block fs (doubly_indir_block_ptr ino) ;;;
          leaveE (mkRes BLOCK_ERROR (set_doubly 0 ino) (cnt_dec cnt) None)
        else leaveE (mkRes BLOCK_ERROR ino cnt None)
      else
        let doubly_indir_blk := set_entry doubly_indir_blk i b in
        write_block fs b zero_block ;;;
        write_block fs (doubly_indir_block_ptr ino) doubly_indir_blk ;;;
        retM (inr (doubly_indir_blk, b, cnt_inc cnt, true))
  else retM (inr (doubly_indir_blk, entry doubly_indir_blk i, cnt, false)).

(** The entry of the singly indirect block [sb] under it. *)
Definition doubly_leaf (fs : Z) (ino : ext2_inode) (indir_relative_idx mode : Z) (cnt : option Z)
    (doubly_ptr_minted singly_ptr_minted : bool) (doubly_indir_blk : list Z) (sb : Z) (indir_blk : list Z)
    : FM (map_res + list Z * Z * option Z) :=
  let i := indir_relative_idx / BIT_32_PER_BLK in
  let j := indir_relative_idx mod BIT_32_PER_BLK in
  if entry indir_blk j =? 0 then
    if negb (mode =? ALLOC_MODE) then leaveE (mkRes (missing mode) ino cnt None)
    else
      let* b := alloc_block fs in
      if b =? 0 then
        if singly_ptr_minted then
          free_block fs sb ;;;
          let doubly_indir_blk := set_entry doubly_indir_blk i 0 in
          let cnt := cnt_dec cnt in
          if doubly_ptr_minted then
            free_block fs (doubly_indir_block_ptr ino) ;;;
            leaveE (mkRes BLOCK_ERROR (set_doubly 0 ino) (cnt_dec cnt) None)
          else
            write_block fs (doubly_indir_block_ptr ino) doubly_indir_blk ;;;
            leaveE (mkRes BLOCK_ERROR ino cnt None)
        else leaveE (mkRes BLOCK_ERROR ino cnt None)
      else
        let indir_blk := set_entry indir_blk j b in
        write_block fs sb indir_blk ;;;
        retM (inr (indir_blk, b, cnt_inc cnt))
  else retM (inr (indir_blk, entry indir_blk j, cnt)).

(** [FREE_MODE]: the entry is cleared, and the blocks that become empty go. *)
Definition doubly_free (fs : Z) (ino : ext2_inode) (indir_relative_idx : Z) (cnt : option Z)
    (doubly_indir_blk : list Z) (sb : Z) (indir_blk : list Z) (b : Z) : FM map_res :=
  let i := indir_relative_idx / BIT_32_PER_BLK in
  let indir_blk := set_entry indir_blk (indir_relative_idx mod BIT_32_PER_BLK) 0 in
  let cnt := cnt_inc cnt in
  if negb (elements_inside indir_blk) then
    free_block fs sb ;;;
    let doubly_indir_blk := set_entry doubly_indir_blk (i mod BIT_32_PER_BLK) 0 in
    let cnt := cnt_inc cnt in
    if negb (elements_inside doubly_indir_blk) then
      free_block fs (doubly_indir_block_ptr ino) ;;;
      retM (mkRes INODE_WRITE_SUCCESS (set_doubly 0 ino) (cnt_inc cnt) (Some b))
    else
      write_block fs (doubly_indir_block_ptr ino) doubly_indir_blk ;;;
      retM (mkRes INODE_WRITE_SUCCESS ino cnt (Some b))
  else
    write_block fs sb indir_blk ;;;
    retM (mkRes INODE_WRITE_SUCCESS ino cnt (Some b)).

Definition map_doubly (fs : Z) (ino : ext2_inode) (indir_relative_idx mode : Z) (cnt : option Z) : FM map_res :=
  bodyE (
    let! (ino, cnt, doubly_ptr_minted) :=
      mint_root doubly_indir_block_ptr set_doubly fs ino mode cnt in
    let* doubly_indir_blk := read_block fs (doubly_indir_block_ptr ino) in
    let! (doubly_indir_blk, sb, cnt, singly_ptr_minted) :=
      doubly_mid fs ino indir_relative_idx mode cnt doubly_ptr_minted doubly_indir_blk in
    let* indir_blk := read_block fs sb in
    let! (indir_blk, b, cnt) :=
      doubly_leaf fs ino indir_relative_idx mode cnt doubly_ptr_minted singly_ptr_minted
        doubly_indir_blk sb indir_blk in
    if mode =? FREE_MODE then
      liftE (doubly_free fs ino indir_relative_idx cnt doubly_indir_blk sb indir_blk b)
    else retM (inr (mkRes INODE_WRITE_SUCCESS ino cnt (Some b)))).

(** ** Triply indirect blocks

    The index into the triply indirect block is not bounded by the code: from
    file block 12 + 1024 + 1024^2 + 1024^3 on it reads past the 4096 bytes. *)

Definition triply_i (rel : Z) : Z := rel / (BIT_32_PER_BLK * BIT_32_PER_BLK).
Definition triply_j (rel : Z) : Z := rel / BIT_32_PER_BLK mod BIT_32_PER_BLK.
Definition triply_k (rel : Z) : Z := rel mod BIT_32_PER_BLK.

(** The entry of the triply indirect block. *)
Definition triply_top (fs : Z) (ino : ext2_inode) (rel mode : Z) (cnt : option Z)
    (triply_ptr_minted : bool) (triply_indir_blk : list Z) : FM (map_res + list Z * Z * option Z * bool) :=
  guardM (triply_i rel <? BIT_32_PER_BLK) ;;;
  if entry triply_indir_blk (triply_i rel) =? 0 then
    if negb (mode =? ALLOC_MODE) then leaveE (mkRes (missing mode) ino cnt None)
    else
      let* b := alloc_block fs in
      if b =? 0 then
        if triply_ptr_minted then
          free_block fs (triply_indir_block_ptr ino) ;;;
          leaveE (mkRes BLOCK_ERROR (set_triply 0 ino) (cnt_dec cnt) None)
        else leaveE (mkRes BLOCK_ERROR ino cnt None)
      else
        let triply_indir_blk := set_entry triply_indir_blk (triply_i rel) b in
        write_block fs b zero_block ;;;
        write_block fs (triply_indir_block_ptr ino) triply_indir_blk ;;;
        retM (inr (triply_indir_blk, b, cnt_inc cnt, true))
  else retM (inr (triply_indir_blk, entry triply_indir_blk (triply_i rel), cnt, false)).

(** The entry of the doubly indirect block [db]. *)
Definition triply_mid (fs : Z) (ino : ext2_inode) (rel mode : Z) (cnt : option Z)
    (triply_ptr_minted doubly_ptr_minted : bool) (triply_indir_blk : list Z) (db : Z)
    (doubly_indir_blk : list Z) : FM (map_res + list Z * Z * option Z * bool) :=
  if entry doubly_indir_blk (triply_j rel) =? 0 then
    if negb (mode =? ALLOC_MODE) then leaveE (mkRes (missing mode) ino cnt None)
    else
      let* b := alloc_block fs in
      if b =? 0 then
        if doubly_ptr_minted then
          free_block fs db ;;;
          let triply_indir_blk := set_entry triply_indir_blk (triply_i rel) 0 in
          let cnt := cnt_dec cnt in
          if triply_ptr_minted then
            free_block fs (triply_indir_block_ptr ino) ;;;
            leaveE (mkRes BLOCK_ERROR (set_triply 0 ino) (cnt_dec cnt) None)
          else
            write_block fs (triply_indir_block_ptr ino) triply_indir_blk ;;;
            leaveE (mkRes BLOCK_ERROR ino cnt None)
        else leaveE (mkRes BLOCK_ERROR ino cnt None)
      else
        let doubly_indir_blk := set_entry doubly_indir_blk (triply_j rel) b in
        write_block fs b zero_block ;;;
        write_block fs db doubly_indir_blk ;;;
        retM (inr (doubly_indir_blk, b, cnt_inc cnt, true))
  else retM (inr (doubly_indir_blk, entry doubly_indir_blk (triply_j rel), cnt, false)).

(** The entry of the singly indirect block [sb]. *)
Definition triply_leaf (fs : Z) (ino : ext2_inode) (rel mode : Z) (cnt : option Z)
    (triply_ptr_minted doubly_ptr_minted singly_ptr_minted : bool) (triply_indir_blk : list Z) (db : Z)
    (doubly_indir_blk : list Z) (sb : Z) (indir_blk : list Z) : FM (map_res + list Z * Z * option Z) :=
  if entry indir_blk (triply_k rel) =? 0 then
    if negb (mode =? ALLOC_MODE) then leaveE (mkRes (missing mode) ino cnt None)
    else
      let* b := alloc_block fs in
      if b =? 0 then
        if singly_ptr_minted then
          free_block fs sb ;;;
          let doubly_indir_blk := set_entry doubly_indir_blk (triply_j rel) 0 in
          let cnt := cnt_dec cnt in
          if doubly_ptr_minted then
            free_block fs db ;;;
            let triply_indir_blk := set_entry triply_indir_blk (triply_i rel) 0 in
            let cnt := cnt_dec cnt in
            if triply_ptr_minted then
              free_block fs (triply_indir_block_ptr ino) ;;;
              leaveE (mkRes BLOCK_ERROR (set_triply 0 ino) (cnt_dec cnt) None)
            else
              write_block fs (triply_indir_block_ptr ino) triply_indir_blk ;;;
              leaveE (mkRes BLOCK_ERROR ino cnt None)
          else
            write_block fs db doubly_indir_blk ;;;
            leaveE (mkRes BLOCK_ERROR ino cnt None)
        else leaveE (mkRes BLOCK_ERROR ino cnt None)
      else
        let indir_blk := set_entry indir_blk (triply_k rel) b in
        write_block fs sb indir_blk ;;;
        retM (inr (indir_blk, b, cnt_inc cnt))
  else retM (inr (indir_blk, entry indir_blk (triply_k rel), cnt)).

Definition triply_free (fs : Z) (ino : ext2_inode) (rel : Z) (cnt : option Z) (triply_indir_blk : list Z)
    (db : Z) (doubly_indir_blk : list Z) (sb : Z) (indir_blk : list Z) (b : Z) : FM map_res :=
  let indir_blk := set_entry indir_blk (triply_k rel) 0 in
  let cnt := cnt_inc cnt in
  if negb (elements_inside indir_blk) then
    free_block fs sb ;;;
    let doubly_indir_blk := set_entry doubly_indir_blk (triply_j rel) 0 in
    let cnt := cnt_inc cnt in
    if negb (elements_inside doubly_indir_blk) then
      free_block fs db ;;;
      let triply_indir_blk := set_entry triply_indir_blk (triply_i rel) 0 in
      let cnt := cnt_inc cnt in
      if negb (elements_inside triply_indir_blk) then
        free_block fs (triply_indir_block_ptr ino) ;;;
        retM (mkRes INODE_WRITE_SUCCESS (set_triply 0 ino) (cnt_inc cnt) (Some b))
      else
        write_block fs (triply_indir_block_ptr ino) triply_indir_blk ;;;
        retM (mkRes INODE_WRITE_SUCCESS ino cnt (Some b))
    else
      write_block fs db doubly_indir_blk ;;;
      retM (mkRes INODE_WRITE_SUCCESS ino cnt (Some b))
  else
    write_block fs sb indir_blk ;;;
    retM (mkRes INODE_WRITE_SUCCESS ino cnt (Some b)).

Definition map_triply (fs : Z) (ino : ext2_inode) (rel mode : Z) (cnt : option Z) : FM map_res :=
  bodyE (
    let! (ino, cnt, triply_ptr_minted) :=
      mint_root triply_indir_block_ptr set_triply fs ino mode cnt in
    let* triply_indir_blk := read_block fs (triply_indir_block_ptr ino) in
    let! (triply_indir_blk, db, cnt, doubly_ptr_minted) :=
      triply_top fs ino rel mode cnt triply_ptr_minted triply_indir_blk in
    let* doubly_indir_blk := read_block fs db in
    let! (doubly_indir_blk, sb, cnt, singly_ptr_minted) :=
      triply_mid fs ino rel mode cnt triply_ptr_minted doubly_ptr_minted triply_indir_blk db doubly_indir_blk in
    let* indir_blk := read_block fs sb in
    let! (indir_blk, b, cnt) :=
      triply_leaf fs ino rel mode cnt triply_ptr_minted doubly_ptr_minted singly_ptr_minted
        triply_indir_blk db doubly_indir_blk sb indir_blk in
    if mode =? FREE_MODE then
      liftE (triply_free fs ino rel cnt triply_indir_blk db doubly_indir_blk sb indir_blk b)
    else retM (inr (mkRes INODE_WRITE_SUCCESS ino cnt (Some b)))).

Definition map_file_block (fs : Z) (ino : ext2_inode) (file_blk_idx mode : Z) (cnt : option Z) : FM map_res :=
  if file_blk_idx <? INODE_BLK_PTR_AMT then map_direct fs ino file_blk_idx mode cnt
  else
    let indir_relative_idx := file_blk_idx - INODE_BLK_PTR_AMT in
    if indir_relative_idx <? BIT_32_PER_BLK then map_singly fs ino indir_relative_idx mode cnt
    else
      let indir_relative_idx := indir_relative_idx - BIT_32_PER_BLK in
      if indir_relative_idx <? BIT_32_PER_BLK * BIT_32_PER_BLK then map_doubly fs ino indir_relative_idx mode cnt
      else map_triply fs ino (indir_relative_idx - BIT_32_PER_BLK * BIT_32_PER_BLK) mode cnt.

(** ** The same function by recursion on the height of the tree *)

(** What happens at a pointer block when the entry under it was given up:
    released if it was minted on the way down, else rewritten. *)
Definition abandon (fs ptr : Z) (minted : bool) (blk : list Z) (cnt : option Z) : FM (bool * option Z) :=
  if minted then free_block fs ptr ;;; retM (true, cnt_dec cnt)
  else write_block fs ptr blk ;;; retM (false, cnt).

(** What happens when an entry was released: an empty pointer block goes too. *)
Definition prune (fs ptr : Z) (blk : list Z) (cnt : option Z) : FM (bool * option Z) :=
  if elements_inside blk then write_block fs ptr blk ;;; retM (false, cnt)
  else free_block fs ptr ;;; retM (true, cnt_inc cnt).

(** Entry [i] of the pointer block [blk] at [ptr], made if there is none: the
    block, the entry, the count and whether the entry was minted. *)
Definition walk_entry (d : nat) (fs ptr : Z) (minted : bool) (i mode : Z) (blk : list Z) (cnt : option Z)
    : FM (Z * bool * option Z * option Z + list Z * Z * option Z * bool) :=
  if entry blk i =? 0 then
    if negb (mode =? ALLOC_MODE) then leaveE (missing mode, false, cnt, None)
    else
      let* b := alloc_block fs in
      if b =? 0 then
        if minted then free_block fs ptr ;;; leaveE (BLOCK_ERROR, true, cnt_dec cnt, None)
        else leaveE (BLOCK_ERROR, false, cnt, None)
      else
        (if (0 <? d)%nat then write_block fs b zero_block else retM tt) ;;;
        write_block fs ptr (set_entry blk i b) ;;;
        retM (inr (set_entry blk i b, b, cnt_inc cnt, true))
  else retM (inr (blk, entry blk i, cnt, false)).

(** Below pointer block [ptr], whose entries have height [d]: the result,
    whether [ptr] was released, the count and the block. *)
Fixpoint walk (d : nat) (fs ptr : Z) (minted : bool) (rel mode : Z) (cnt : option Z)
    : FM (Z * bool * option Z * option Z) :=
  let i := rel / BIT_32_PER_BLK ^ Z.of_nat d in
  let* blk := read_block fs ptr in
  guardM (i <? BIT_32_PER_BLK) ;;;
  bodyE (
    let! (blk, c, cnt, cminted) := walk_entry d fs ptr minted i mode blk cnt in
    match d with
    | O =>
        if mode =? FREE_MODE then
          let* (gone, cnt) := prune fs ptr (set_entry blk i 0) (cnt_inc cnt) in
          retM (inr (INODE_WRITE_SUCCESS, gone, cnt, Some c))
        else retM (inr (INODE_WRITE_SUCCESS, false, cnt, Some c))
    | S d' =>
        let* (r, cgone, cnt, out) := walk d' fs c cminted (rel mod BIT_32_PER_BLK ^ Z.of_nat d) mode cnt in
        if negb cgone then retM (inr (r, false, cnt, out))
        else
          let* (gone, cnt) :=
            if r =? INODE_WRITE_SUCCESS then prune fs ptr (set_entry blk i 0) cnt
            else abandon fs ptr minted (set_entry blk i 0) cnt in
          retM (inr (r, gone, cnt, out))
    end).

Definition from_root (get : ext2_inode -> Z) (set : Z -> ext2_inode -> ext2_inode) (d : nat)
    (fs : Z) (ino : ext2_inode) (rel mode : Z) (cnt : option Z) : FM map_res :=
  bodyE (
    let! (ino, cnt, minted) := mint_root get set fs ino mode cnt in
    let* (r, gone, cnt, out) := walk d fs (get ino) minted rel mode cnt in
    retM (inr (mkRes r (if gone then set 0 ino else ino) cnt out))).

Definition map_ref (fs : Z) (ino : ext2_inode) (idx mode : Z) (cnt : option Z) : FM map_res :=
  if idx <? 12 then map_direct fs ino idx mode cnt
  else if idx <? 1036 then from_root singly_indir_block_ptr set_singly 0 fs ino (idx - 12) mode cnt
  else if idx <? 1049612 then from_root doubly_indir_block_ptr set_doubly 1 fs ino (idx - 1036) mode cnt
  else from_root triply_indir_block_ptr set_triply 2 fs ino (idx - 1049612) mode cnt.

(** ** The unrolled text and the recursion agree *)

Ltac unfold_monad := cbv beta iota zeta delta [bindM retM bindE bodyE leaveE liftE guardM negb].

Ltac no_match e := lazymatch e with context [match _ with _ => _ end] => fail | _ => idtac end.

(** Follow both sides through every branch: the innermost call or test that is
    ready is the same on both. *)
Ltac run_branches :=
  repeat first
    [ reflexivity
    | match goal with
      | |- context [match ?e with Done _ _ => _ | Halted _ _ => _ end] => no_match e; destruct e
      | H : ?b = _ |- context [if ?b then _ else _] => rewrite H
      | |- context [if ?b then _ else _] => no_match b; destruct b eqn:?
      end; cbv beta iota;
      try change (BLOCK_ERROR =? INODE_WRITE_SUCCESS) with false;
      try change (INODE_WRITE_SUCCESS =? INODE_WRITE_SUCCESS) with true; cbv beta iota ].

Lemma map_singly_ref fs ino rel mode cnt s :
  0 <= rel < 1024 ->
  map_singly fs ino rel mode cnt s = from_root singly_indir_block_ptr set_singly 0 fs ino rel mode cnt s.
Proof.
  intros Hr. unfold map_singly, from_root, mint_root. cbn [walk]. unfold walk_entry, prune, abandon.
  change (BIT_32_PER_BLK ^ Z.of_nat 0) with 1. rewrite Z.div_1_r. change BIT_32_PER_BLK with 1024.
  ztrue (rel <? 1024). change ((0 <? 0)%nat) with false. unfold_monad. run_branches.
Qed.

Lemma map_doubly_ref fs ino rel mode cnt s :
  0 <= rel < 1048576 ->
  map_doubly fs ino rel mode cnt s = from_root doubly_indir_block_ptr set_doubly 1 fs ino rel mode cnt s.
Proof.
  intros Hr. unfold map_doubly, from_root, mint_root, doubly_mid, doubly_leaf, doubly_free.
  cbn [walk]. unfold walk_entry, prune, abandon.
  change (BIT_32_PER_BLK ^ Z.of_nat 0) with 1. change (BIT_32_PER_BLK ^ Z.of_nat 1) with 1024.
  change BIT_32_PER_BLK with 1024. rewrite Z.div_1_r.
  assert (0 <= rel / 1024 < 1024) as Hi by zlia. assert (0 <= rel mod 1024 < 1024) as Hj by zlia.
  rewrite (Z.mod_small (rel / 1024)) by done.
  ztrue (rel / 1024 <? 1024). ztrue (rel mod 1024 <? 1024).
  generalize (rel / 1024) as i, (rel mod 1024) as j. intros i j.
  change ((0 <? 0)%nat) with false. change ((0 <? 1)%nat) with true.
  unfold_monad. run_branches.
Qed.

Lemma map_triply_ref fs ino rel mode cnt s :
  0 <= rel ->
  map_triply fs ino rel mode cnt s = from_root triply_indir_block_ptr set_triply 2 fs ino rel mode cnt s.
Proof.
  intros Hr. unfold map_triply, from_root, mint_root, triply_top, triply_mid, triply_leaf, triply_free.
  unfold triply_i, triply_j, triply_k. cbn [walk]. unfold walk_entry, prune, abandon.
  change (BIT_32_PER_BLK ^ Z.of_nat 0) with 1. change (BIT_32_PER_BLK ^ Z.of_nat 1) with 1024.
  change (BIT_32_PER_BLK ^ Z.of_nat 2) with 1048576. change (BIT_32_PER_BLK * BIT_32_PER_BLK) with 1048576.
  change BIT_32_PER_BLK with 1024. rewrite Z.div_1_r.
  replace (rel mod 1048576 / 1024) with (rel / 1024 mod 1024) by zlia.
  replace ((rel mod 1048576) mod 1024) with (rel mod 1024) by zlia.
  assert (0 <= rel / 1024 mod 1024 < 1024) as Hi by zlia. assert (0 <= rel mod 1024 < 1024) as Hj by zlia.
  ztrue (rel / 1024 mod 1024 <? 1024). ztrue (rel mod 1024 <? 1024).
  generalize (rel / 1024 mod 1024) as i, (rel mod 1024) as j. intros i j.
  change ((0 <? 0)%nat) with false. change ((0 <? 1)%nat) with true. change ((0 <? 2)%nat) with true.
  unfold_monad. run_branches.
Qed.

Lemma map_file_block_eq fs ino idx mode cnt s :
  0 <= idx -> map_file_block fs ino idx mode cnt s = map_ref fs ino idx mode cnt s.
Proof.
  intros H0. unfold map_file_block, map_ref. change INODE_BLK_PTR_AMT with 12.
  change BIT_32_PER_BLK with 1024. change (1024 * 1024) with 1048576.
  destruct (Z.ltb_spec idx 12); [done|].
  replace (idx - 12 <? 1024) with (idx <? 1036) by lia.
  destruct (Z.ltb_spec idx 1036); [apply map_singly_ref; lia|].
  replace (idx - 12 - 1024) with (idx - 1036) by lia.
  replace (idx - 1036 <? 1048576) with (idx <? 1049612) by lia.
  destruct (Z.ltb_spec idx 1049612); [apply map_doubly_ref; lia|].
  replace (idx - 1036 - 1048576) with (idx - 1049612) by lia. apply map_triply_ref. lia.
Qed.

(** C35. The 430-line unrolled walk is the recursion.  In every mode, for every
    inode, index, count and state of the disk, [map_file_block] halts or
    returns, changes the disk and answers exactly as the recursion over the
    height of the pointer tree does. *)
Theorem map_file_block_recursion (fs : Z) (ino : ext2_inode) (file_blk_idx mode : Z) (cnt : option Z) (s : fstate) :
  is_u32 file_blk_idx ->
  map_file_block fs ino file_blk_idx mode cnt s = map_ref fs ino file_blk_idx mode cnt s.
Proof. intros [H _]. by apply map_file_block_eq. Qed.

Lemma map_file_block_recursion_witness :
  map_file_block 0 inode_zero 12 ALLOC_MODE (Some 0) Demo.state =
  map_ref 0 inode_zero 12 ALLOC_MODE (Some 0) Demo.state.
Proof. apply map_file_block_recursion. unfold is_u32. lia. Defined.

(** ** The pointer tree

    A tree of height 0 is a data block, one of height [h + 1] a pointer block
    with 1024 trees of height [h]; pointer 0 is the empty tree of any height. *)

Definition child (s : fstate) (f : fs_info) (ptr i : Z) : Z := entry (block_bytes s f ptr) i.

Fixpoint tree_lookup (h : nat) (s : fstate) (f : fs_info) (ptr rel : Z) : Z :=
  match h with
  | O => ptr
  | S h =>
      if ptr =? 0 then 0
      else tree_lookup h s f (child s f ptr (rel / 1024 ^ Z.of_nat h)) (rel mod 1024 ^ Z.of_nat h)
  end.

Fixpoint in_tree (h : nat) (s : fstate) (f : fs_info) (ptr b : Z) : Prop :=
  ptr <> 0 /\
  (b = ptr \/ match h with
              | O => False
              | S h => exists i, 0 <= i < 1024 /\ in_tree h s f (child s f ptr i) b
              end).

(** Blocks of the partition outside its metadata. *)
Definition data_blk (f : fs_info) (b : Z) : Prop :=
  2 <= b < sb_block_cnt (sprblk_buf f) /\ b < 32768 * ngroups f /\ blk_ok f b /\
  forall g, 0 <= g < ngroups f -> b <> bb f g /\ b <> ib f g.

(** Every block of the tree is a data block in use, and occurs once. *)
Fixpoint tree_wf (h : nat) (s : fstate) (f : fs_info) (ptr : Z) : Prop :=
  ptr = 0 \/
  (data_blk f ptr /\ blk_used s f ptr = true /\
   match h with
   | O => True
   | S h =>
       (forall i, 0 <= i < 1024 -> tree_wf h s f (child s f ptr i) /\ ~ in_tree h s f (child s f ptr i) ptr) /\
       (forall i j b, 0 <= i < 1024 -> 0 <= j < 1024 ->
          in_tree h s f (child s f ptr i) b -> in_tree h s f (child s f ptr j) b -> i = j)
   end).

(** ** Looking up *)

Lemma pow1024 (h : nat) : 0 < 1024 ^ Z.of_nat h.
Proof. apply Z.pow_pos_nonneg; lia. Qed.

Lemma walk_index h rel : 0 <= rel < 1024 ^ Z.of_nat (S h) ->
  0 <= rel / 1024 ^ Z.of_nat h < 1024 /\ 0 <= rel mod 1024 ^ Z.of_nat h < 1024 ^ Z.of_nat h.
Proof.
  intros Hr. pose proof (pow1024 h) as Hp. rewrite Nat2Z.inj_succ, Z.pow_succ_r in Hr by lia.
  split; [split; [apply Z.div_pos; lia|apply Z.div_lt_upper_bound; lia]|by apply Z.mod_pos_bound].
Qed.

(** What a lookup answers when the tree holds block [b]. *)
Definition found (mode b : Z) : Z := if b =? 0 then missing mode else INODE_WRITE_SUCCESS.
Definition found_out (b : Z) : option Z := if b =? 0 then None else Some b.

Lemma walk_lookup d s fs f ptr minted rel cnt :
  fs_wf s f -> fs_at s fs f -> tree_wf (S d) s f ptr -> ptr <> 0 -> 0 <= rel < 1024 ^ Z.of_nat (S d) ->
  walk d fs ptr minted rel LOOKUP_MODE cnt s =
    Done (found LOOKUP_MODE (tree_lookup (S d) s f ptr rel), false, cnt,
          found_out (tree_lookup (S d) s f ptr rel)) s.
Proof.
  intros W Hf. revert ptr minted rel. induction d as [|d IH]; intros ptr minted rel T Hp Hr;
    destruct (walk_index _ rel Hr) as [Hi Hm]; destruct T as [|(Hd & _ & Hc & _)]; try done;
    pose proof (read_block_ok s fs f ptr Hf (wf_part s f W) (proj1 (proj2 (proj2 Hd)))) as Hrd;
    cbn [walk]; unfold walk_entry; change BIT_32_PER_BLK with 1024 in *; unfold_monad; rewrite Hrd;
    (ztrue (rel / 1024 ^ Z.of_nat 0 <? 1024) || ztrue (rel / 1024 ^ Z.of_nat (S d) <? 1024)).
  - cbn [tree_lookup]. zfalse (ptr =? 0). unfold found, found_out, child.
    by destruct (entry (block_bytes s f ptr) (rel / 1024 ^ Z.of_nat 0) =? 0).
  - change (tree_lookup (S (S d)) s f ptr rel) with
      (if ptr =? 0 then 0 else tree_lookup (S d) s f (child s f ptr (rel / 1024 ^ Z.of_nat (S d)))
                                 (rel mod 1024 ^ Z.of_nat (S d))).
    zfalse (ptr =? 0). destruct (Hc _ Hi) as [Tc _].
    fold (child s f ptr (rel / 1024 ^ Z.of_nat (S d))).
    destruct (Z.eqb_spec (child s f ptr (rel / 1024 ^ Z.of_nat (S d))) 0) as [E|E].
    { rewrite E. done. }
    cbn [negb]. rewrite (IH _ false _ Tc E Hm). done.
Qed.

(** ** Files: the fifteen trees of an inode *)

Definition root_of (ino : ext2_inode) (k : Z) : Z :=
  if k <? 12 then dir_ptr ino k
  else if k =? 12 then singly_indir_block_ptr ino
  else if k =? 13 then doubly_indir_block_ptr ino else triply_indir_block_ptr ino.
Definition root_h (k : Z) : nat :=
  if k <? 12 then 0%nat else if k =? 12 then 1%nat else if k =? 13 then 2%nat else 3%nat.

(** The tree of file block [idx] and its index in that tree. *)
Definition locate (idx : Z) : Z * Z :=
  if idx <? 12 then (idx, 0)
  else if idx <? 1036 then (12, idx - 12)
  else if idx <? 1049612 then (13, idx - 1036) else (14, idx - 1049612).

(** The first index the triply indirect block cannot hold. *)
Definition max_blocks : Z := 1074791436.

Definition file_block (s : fstate) (f : fs_info) (ino : ext2_inode) (idx : Z) : Z :=
  tree_lookup (root_h (locate idx).1) s f (root_of ino (locate idx).1) (locate idx).2.

Record file_wf (s : fstate) (f : fs_info) (ino : ext2_inode) : Prop := mkFileWf {
  fw_len : length (dir_block_ptr ino) = 12%nat;
  fw_tree k : 0 <= k < 15 -> tree_wf (root_h k) s f (root_of ino k);
  fw_apart k k' b : 0 <= k < 15 -> 0 <= k' < 15 ->
    in_tree (root_h k) s f (root_of ino k) b -> in_tree (root_h k') s f (root_of ino k') b -> k = k'
}.

Lemma root_h_direct k : k < 12 -> root_h k = 0%nat.
Proof. intros H. unfold root_h. by ztrue (k <? 12). Qed.
Lemma root_of_direct ino k : k < 12 -> root_of ino k = dir_ptr ino k.
Proof. intros H. unfold root_of. by ztrue (k <? 12). Qed.

Lemma locate_range idx : 0 <= idx < max_blocks ->
  0 <= (locate idx).1 < 15 /\ 0 <= (locate idx).2 < 1024 ^ Z.of_nat (root_h (locate idx).1).
Proof.
  unfold max_blocks, locate, root_h. intros H.
  destruct (Z.ltb_spec idx 12); cbn [fst snd]; [ztrue (idx <? 12); cbn; lia|].
  destruct (Z.ltb_spec idx 1036); cbn [fst snd]; [cbn; lia|].
  destruct (Z.ltb_spec idx 1049612); cbn [fst snd]; cbn; lia.
Qed.

Lemma locate_inj idx idx' : 0 <= idx -> 0 <= idx' -> locate idx = locate idx' -> idx = idx'.
Proof. unfold locate. intros H H'. repeat zcase; intros; simplify_eq; lia. Qed.

Lemma from_root_lookup get set d s fs f ino rel cnt :
  fs_wf s f -> fs_at s fs f -> tree_wf (S d) s f (get ino) -> 0 <= rel < 1024 ^ Z.of_nat (S d) ->
  from_root get set d fs ino rel LOOKUP_MODE cnt s =
    Done (mkRes (found LOOKUP_MODE (tree_lookup (S d) s f (get ino) rel)) ino cnt
            (found_out (tree_lookup (S d) s f (get ino) rel))) s.
Proof.
  intros W Hf T Hr. unfold from_root, mint_root. unfold_monad.
  destruct (Z.eqb_spec (get ino) 0) as [E|E].
  - rewrite E. done.
  - by rewrite (walk_lookup d s fs f _ false rel cnt W Hf T E Hr).
Qed.

Lemma map_lookup_ok s fs f ino idx cnt :
  fs_wf s f -> fs_at s fs f -> file_wf s f ino -> 0 <= idx < max_blocks ->
  map_file_block fs ino idx LOOKUP_MODE cnt s =
    Done (mkRes (found LOOKUP_MODE (file_block s f ino idx)) ino cnt (found_out (file_block s f ino idx))) s.
Proof.
  intros W Hf F Hi. pose proof (locate_range idx Hi) as [Hk Hr]. rewrite map_file_block_eq by lia.
  pose proof (fw_tree s f ino F _ Hk) as T. unfold file_block, map_ref.
  unfold locate in *. destruct (Z.ltb_spec idx 12); cbn [fst snd] in *.
  { rewrite root_h_direct, root_of_direct by done. unfold map_direct, found, found_out. unfold_monad.
    cbn [tree_lookup]. by destruct (dir_ptr ino idx =? 0). }
  destruct (Z.ltb_spec idx 1036); cbn [fst snd] in *; [by apply from_root_lookup|].
  destruct (Z.ltb_spec idx 1049612); cbn [fst snd] in *; by apply from_root_lookup.
Qed.

(** Looking up is read-only and exact.  On a well-formed file, for every
    index the pointer tree can hold, [map_file_block] in [LOOKUP_MODE] answers
    with the block the tree holds there, or [EMPTY_BLOCK] in a hole, without
    changing the disk, the inode or the count. *)
Theorem map_file_block_lookup (s : fstate) (fs : Z) (f : fs_info) (ino : ext2_inode) (idx : Z) (cnt : option Z) :
  fs_wf s f -> fs_at s fs f -> file_wf s f ino -> 0 <= idx < max_blocks ->
  map_file_block fs ino idx LOOKUP_MODE cnt s =
    Done (if file_block s f ino idx =? 0 then mkRes EMPTY_BLOCK ino cnt None
          else mkRes INODE_WRITE_SUCCESS ino cnt (Some (file_block s f ino idx))) s.
Proof.
  intros W Hf F Hi. rewrite (map_lookup_ok s fs f ino idx cnt W Hf F Hi). unfold found, found_out.
  by destruct (file_block s f ino idx =? 0).
Qed.

Lemma in_tree_nonzero h s f ptr b : in_tree h s f ptr b -> ptr <> 0.
Proof. destruct h; by intros [? _]. Qed.

Lemma in_tree_zero h s f b : ~ in_tree h s f 0 b.
Proof. intros H. by apply in_tree_nonzero in H. Qed.

Lemma empty_file_wf s f : file_wf s f inode_zero.
Proof.
  assert (forall k, 0 <= k < 15 -> root_of inode_zero k = 0) as E.
  { intros k Hk. unfold root_of, dir_ptr. destruct (Z.ltb_spec k 12).
    - cbn [dir_block_ptr inode_zero]. by rewrite lookup_replicate_2 by lia.
    - destruct (k =? 12); [done|]. by destruct (k =? 13). }
  split; [done| |].
  - intros k Hk. rewrite (E k Hk). destruct (root_h k); by left.
  - intros k k' b Hk _ H. rewrite (E k Hk) in H. by apply in_tree_zero in H.
Qed.

Lemma map_file_block_lookup_witness :
  map_file_block 0 inode_zero 12 LOOKUP_MODE None Demo.state = Done (mkRes EMPTY_BLOCK inode_zero None None) Demo.state.
Proof.
  apply (map_file_block_lookup Demo.state 0 Demo.fs inode_zero 12 None Demo.wf eq_refl (empty_file_wf _ _)).
  unfold max_blocks. lia.
Defined.
