(* ===== verification/BlockAlloc.v ===== *)
(** * Allocating file blocks: map_file_block in ALLOC_MODE

    What the allocating walk does to the pointer tree of a file: the wanted
    block and the pointer blocks on the way appear, every other file block stays
    where it was, no block that was in use changes but the tree's own pointer
    blocks, and when the partition is full everything taken on the way is given
    back. *)
From S2P Require Import Prelude Bytes Bitset CLib Disk Bitmap Inode BlockMap.

(** ** Steps of the block layer *)

(** A block that is not the superblock, the descriptors or a bitmap. *)
Definition plain_blk (f : fs_info) (b : Z) : Prop :=
  2 <= b < 32768 * ngroups f /\ forall g, 0 <= g < ngroups f -> b <> bb f g /\ b <> ib f g.

(** Blocks the bitmap shows as free are blocks one may write. *)
Definition bitmap_sound (s : fstate) (f : fs_info) : Prop :=
  forall b, 0 <= b < 32768 * ngroups f -> blk_used s f b = false -> data_blk f b.

Record fs_ok (s : fstate) (fs : Z) (f : fs_info) : Prop := mkFsOk {
  ok_wf : fs_wf s f; ok_at : fs_at s fs f; ok_sound : bitmap_sound s f
}.

(** From [s] to [s'] the partition stays itself. *)
Record step (s s' : fstate) (fs : Z) (f f' : fs_info) : Prop := mkStep {
  st_ok : fs_ok s' fs f';
  st_geom : same_geom f f';
  st_env : same_env s s';
  st_other i : i <> Z.to_nat fs -> fs_entries s' !! i = fs_entries s !! i
}.

Arguments st_ok {s s' fs f f'} _.
Arguments st_geom {s s' fs f f'} _.
Arguments st_env {s s' fs f f'} _.

Lemma same_geom_trans f f' f'' : same_geom f f' -> same_geom f' f'' -> same_geom f f''.
Proof.
  intros G G'. destruct G as [(? & ? & ?) ? ? ? ? (En & ? & ? & ? & ?) Hs Ha].
  destruct G' as [(? & ? & ?) ? ? ? ? (? & ? & ? & ? & ?) Hs' Ha']. split; try congruence; auto.
  - repeat split; congruence.
  - repeat split; congruence.
  - intros off Ho. by rewrite Hs', Hs.
  - intros g Hg. destruct (Ha g Hg) as (? & ? & ?). rewrite <- En in Hg. destruct (Ha' g Hg) as (? & ? & ?).
    repeat split; congruence.
Qed.

Lemma step_refl s fs f : fs_ok s fs f -> step s s fs f f.
Proof. intros O. split; [done|apply same_geom_refl|done|done]. Qed.

Lemma step_trans s s' s'' fs f f' f'' : step s s' fs f f' -> step s' s'' fs f' f'' -> step s s'' fs f f''.
Proof.
  intros [O G E H] [O' G' E' H']. split; [done|by apply (same_geom_trans f f' f'')|
    by apply (same_env_trans s s' s'')|]. intros i Hi. by rewrite H', H.
Qed.

Section geometry.
Context (f f' : fs_info) (G : same_geom f f').

Lemma data_blk_geom b : data_blk f b <-> data_blk f' b.
Proof using G.
  destruct G as [(? & ? & Ec) ? ? ? ? (En & _) Hs Ha]. unfold data_blk, blk_ok, sb_block_cnt.
  rewrite (Hs 4) by (simpl; tauto). rewrite En, Ec.
  split; (intros (? & ? & ? & Hg); do 3 (split; [done|]); intros g Hgr; destruct (Hg g Hgr) as [Hg1 Hg2];
    destruct (Ha g Hgr) as (E1 & E2 & _); split; congruence).
Qed.

Lemma plain_blk_geom b : plain_blk f b <-> plain_blk f' b.
Proof using G.
  destruct G as [_ ? ? ? ? (En & _) Hs Ha]. unfold plain_blk. rewrite En.
  split; (intros (? & Hg); split; [tauto|]; intros g H3; destruct (Hg g H3) as [Hg1 Hg2];
    destruct (Ha g H3) as (E1 & E2 & _); split; congruence).
Qed.
End geometry.

Lemma data_plain f b : data_blk f b -> plain_blk f b.
Proof. intros (H2 & Hn & _ & Hg). split; [lia|done]. Qed.

(** The primitives, as steps. *)
Section primitives.
Context (s : fstate) (fs : Z) (f : fs_info) (O : fs_ok s fs f).
Let W := ok_wf s fs f O.
Let Hf := ok_at s fs f O.

Lemma write_step b buf : data_blk f b -> length buf = 4096%nat -> bytes_ok buf ->
  exists s', write_block fs b buf s = Done tt s' /\ step s s' fs f f /\
    block_bytes s' f b = buf /\ (forall b', b' <> b -> block_bytes s' f b' = block_bytes s f b') /\
    (forall b', 0 <= b' < 32768 * ngroups f -> blk_used s' f b' = blk_used s f b').
Proof using O.
  intros Hb Hl Hy. pose proof Hb as (H2 & Hn & Hok & Hg).
  rewrite (write_block_ok s fs f b buf Hf (wf_part s f W) Hok). eexists. split; [done|].
  assert (forall b', 0 <= b' < 32768 * ngroups f ->
            blk_used (put_block f b buf s) f b' = blk_used s f b') as Hu.
  { intros b' Hb'. unfold blk_used. rewrite (wf_bpg s f W).
    rewrite block_bytes_other; [done|]. apply Hg. zlia. }
  split; [|split; [by apply block_bytes_same|split; [|done]]].
  - split; [|apply same_geom_refl|done|done]. split; [|done|].
    + apply (fs_wf_step s _ f f W); [apply same_geom_refl|done|]. by apply put_block_wf; [apply W|..].
    + intros b' Hb' Hfree. rewrite Hu in Hfree by done. by apply (ok_sound s fs f O).
  - intros b' Hne. by rewrite block_bytes_other.
Qed.

Lemma committed_step s' f' addr bm :
  committed s s' fs f f' addr bm -> same_geom f f' ->
  (forall b, 0 <= b < 32768 * ngroups f -> blk_used s' f' b = false -> blk_used s f b = true -> data_blk f b) ->
  (exists g, 0 <= g < ngroups f /\ (addr = bb f g \/ addr = ib f g)) ->
  step s s' fs f f' /\ forall b, plain_blk f b -> block_bytes s' f' b = block_bytes s f b.
Proof using O.
  intros C G Hs (g & Hg & Ha). split.
  - split; [|done|apply C|].
    + split; [apply C|apply C|]. intros b Hb Hfree. destruct (sg_params _ _ G) as (En & _). rewrite En in Hb.
      apply (data_blk_geom f f' G). destruct (blk_used s f b) eqn:E; [by apply Hs|].
      by apply (ok_sound s fs f O).
    + intros i Hi. rewrite (cm_entries _ _ _ _ _ _ _ C). by rewrite list_lookup_insert_ne.
  - intros b (Hb & Hpl). apply (committed_other s s' fs f f' addr bm W G C); [lia|].
    destruct (Hpl g Hg). destruct Ha; congruence.
Qed.

(** [alloc_block]: nothing left, a lying count, or a fresh data block. *)
Lemma alloc_step :
  alloc_block fs s = Done 0 s \/
  alloc_block fs s = Halted (Panic "KERNEL PANIC: CORRUPTED UNALLOC_BLOCK_CNT!!!") s \/
  exists b s' f', alloc_block fs s = Done b s' /\ step s s' fs f f' /\ data_blk f b /\
    blk_used s f b = false /\ (forall x, plain_blk f x -> block_bytes s' f' x = block_bytes s f x) /\
    (forall x, 0 <= x < 32768 * ngroups f -> blk_used s' f' x = (x =? b) || blk_used s f x) /\
    sb_unalloc_blocks (sprblk_buf f') = u32 (sb_unalloc_blocks (sprblk_buf f) - 1).
Proof using O.
  destruct (alloc_block_spec s fs f W Hf) as [[E _] | (g & _ & _ & _ & [[E _] | H])]; [by left|by right; left|].
  right; right. destruct H as (i & s' & Hg & _ & Hi & Hfree & _ & E & C).
  set (f' := add_block_cnt g (-1) f) in *. set (b := 32768 * g + i) in *.
  assert (same_geom f f') as G by (apply add_block_cnt_geom; (done || apply W)).
  pose proof (wf_bpg s f W) as Hbpg.
  assert (forall x, 0 <= x < 32768 * ngroups f -> blk_used s' f' x = (x =? b) || blk_used s f x) as Hu.
  { intros x Hx. rewrite !blk_used_bit. destruct (sg_params _ _ G) as (_ & -> & _). rewrite Hbpg.
    apply (bit_of_set s s' fs f f'); try done.
    - intros k Hk. destruct (sg_addrs _ _ G k Hk) as (-> & _). by destruct (wf_bitmaps s f W k Hk) as (_ & ? & _).
    - intros k Hk. by apply (wf_apart s f W). }
  assert (blk_used s f b = false) as Hb.
  { rewrite blk_used_bit, Hbpg. unfold b. rewrite bit_of_group by lia. done. }
  assert (0 <= b < 32768 * ngroups f) as Hr by (unfold b; lia).
  destruct (committed_step s' f' _ _ C G) as [St Hpl]; [|by eauto|].
  { intros x Hx Hx' Hx2. rewrite Hu, Hx2, orb_true_r in Hx' by done. done. }
  exists b, s', f'. split; [done|]. split; [done|]. split; [by apply (ok_sound s fs f O)|]. split; [done|].
  split; [done|]. split; [done|]. by apply add_block_cnt_counts; try done; apply W.
Qed.

Lemma free_step b : data_blk f b -> blk_used s f b = true ->
  exists s' f', free_block fs b s = Done true s' /\ step s s' fs f f' /\
    (forall x, plain_blk f x -> block_bytes s' f' x = block_bytes s f x) /\
    (forall x, 0 <= x < 32768 * ngroups f -> blk_used s' f' x = negb (x =? b) && blk_used s f x) /\
    sb_unalloc_blocks (sprblk_buf f') = u32 (sb_unalloc_blocks (sprblk_buf f) + 1).
Proof using O.
  intros Hd Hu. pose proof Hd as (H2 & Hn & Hok & _). pose proof (wf_bpg s f W) as Hbpg.
  pose proof (wf_ngroups s f W) as Hng.
  pose proof (free_block_spec s fs f W Hf b) as H. cbv zeta in H. unfold free_block_refused in H.
  assert (0 <= b / 32768 < ngroups f) as Hg by zlia.
  assert ((b =? 0) || (ngroups f <=? b / 32768) || (sb_block_cnt (sprblk_buf f) <=? b) = false) as E by lia.
  rewrite E in H. clear E. destruct H as (_ & Hi & H).
  { destruct Hok. pose proof (wf_part s f W) as (_ & _ & ? & _). unfold is_u32. lia. }
  unfold blk_used in Hu. rewrite Hbpg in Hu. rewrite Hu in H. destruct H as (s' & E & C).
  set (f' := add_block_cnt (b / 32768) 1 f) in *.
  assert (same_geom f f') as G by (apply add_block_cnt_geom; (done || apply W)).
  assert (forall x, 0 <= x < 32768 * ngroups f -> blk_used s' f' x = negb (x =? b) && blk_used s f x) as Hux.
  { intros x Hx. rewrite !blk_used_bit. destruct (sg_params _ _ G) as (_ & -> & _). rewrite Hbpg.
    replace (x =? b) with (x =? 32768 * (b / 32768) + b mod 32768) by (f_equal; zlia).
    apply (bit_of_clear s s' fs f f'); try done.
    - intros k Hk. destruct (sg_addrs _ _ G k Hk) as (-> & _). by destruct (wf_bitmaps s f W k Hk) as (_ & ? & _).
    - intros k Hk. by apply (wf_apart s f W). }
  destruct (committed_step s' f' _ _ C G) as [St Hpl]; [|by eauto|].
  { intros x Hx Hx' Hx2. rewrite Hux, Hx2, andb_true_r in Hx' by done.
    destruct (Z.eqb_spec x b) as [->|]; done. }
  exists s', f'. split; [done|]. split; [done|]. split; [done|]. split; [done|].
  by apply add_block_cnt_counts; try done; apply W.
Qed.
End primitives.

(** ** Trees whose blocks are not written *)

Lemma in_tree_root h s f ptr : ptr <> 0 -> in_tree h s f ptr ptr.
Proof. destruct h; (split; [done|by left]). Qed.

Lemma in_tree_child h s f ptr i b :
  ptr <> 0 -> 0 <= i < 1024 -> in_tree h s f (child s f ptr i) b -> in_tree (S h) s f ptr b.
Proof. intros Hp Hi H. split; [done|]. right. eauto. Qed.

(** Every block of a well-formed tree is a data block in use. *)
Lemma in_tree_data h s f ptr b : tree_wf h s f ptr -> in_tree h s f ptr b -> data_blk f b /\ blk_used s f b = true.
Proof.
  revert ptr. induction h as [|h IH]; intros ptr T H; pose proof (in_tree_nonzero _ _ _ _ _ H) as Hp;
    destruct T as [|(Hd & Hu & Hc)]; try done; destruct H as [_ [-> | H]]; try done.
  destruct H as (i & Hi & H). destruct Hc as [Hc _]. destruct (Hc i Hi) as [Hw _]. by apply (IH _ Hw).
Qed.

Section same_tree.
Context (s s' : fstate) (f f' : fs_info).

Lemma child_same ptr i : block_bytes s' f' ptr = block_bytes s f ptr -> child s' f' ptr i = child s f ptr i.
Proof using. unfold child. by intros ->. Qed.

Lemma in_tree_same h ptr b :
  (forall x, in_tree h s f ptr x -> block_bytes s' f' x = block_bytes s f x) ->
  in_tree h s' f' ptr b <-> in_tree h s f ptr b.
Proof using.
  revert ptr. induction h as [|h IH]; intros ptr Hs; [done|]. cbn [in_tree].
  split; (intros [Hp [-> | (i & Hi & H)]]; (split; [done|]); [by left|right; exists i; split; [done|]]).
  - rewrite (child_same ptr i) in H by (apply Hs, in_tree_root; done). apply IH in H; [done|].
    intros x Hx. apply Hs. by apply (in_tree_child h s f ptr i).
  - rewrite (child_same ptr i) by (apply Hs, in_tree_root; done). apply IH; [|done].
    intros x Hx. apply Hs. by apply (in_tree_child h s f ptr i).
Qed.

Lemma tree_lookup_same h ptr rel :
  0 <= rel < 1024 ^ Z.of_nat h ->
  (forall x, in_tree h s f ptr x -> block_bytes s' f' x = block_bytes s f x) ->
  tree_lookup h s' f' ptr rel = tree_lookup h s f ptr rel.
Proof using.
  revert ptr rel. induction h as [|h IH]; intros ptr rel Hr Hs; [done|].
  destruct (walk_index h rel Hr) as [Hi Hm]. cbn [tree_lookup]. destruct (Z.eqb_spec ptr 0) as [|Hp]; [done|].
  rewrite (child_same ptr) by (apply Hs, in_tree_root; done).
  apply IH; [done|]. intros x Hx. apply Hs. by apply (in_tree_child h s f ptr (rel / 1024 ^ Z.of_nat h)).
Qed.

Lemma tree_wf_same h ptr :
  same_geom f f' ->
  (forall x, in_tree h s f ptr x -> block_bytes s' f' x = block_bytes s f x /\ blk_used s' f' x = true) ->
  tree_wf h s f ptr -> tree_wf h s' f' ptr.
Proof using.
  intros G. revert ptr. induction h as [|h IH]; intros ptr Hs T;
    (destruct T as [-> | T]; [by left|]); destruct (decide (ptr = 0)) as [->|Hp]; try (by left); right;
    destruct T as (Hd & Hu & Hc); destruct (Hs ptr (in_tree_root _ s f ptr Hp)) as [Eb Eu];
    (split; [by apply (data_blk_geom f f' G)|]; split; [done|]); [done|].
  assert (forall i b, 0 <= i < 1024 ->
            in_tree h s' f' (child s' f' ptr i) b <-> in_tree h s f (child s f ptr i) b) as Hin.
  { intros i b Hi. rewrite (child_same ptr i Eb). apply in_tree_same.
    intros x Hx. apply Hs. by apply (in_tree_child h s f ptr i). }
  destruct Hc as [Hc Hap]. split.
  - intros i Hi. destruct (Hc i Hi) as [Tw Hni]. split; [|by rewrite Hin].
    rewrite (child_same ptr i Eb). apply IH; [|done]. intros x Hx. apply Hs. by apply (in_tree_child h s f ptr i).
  - intros i j b Hi Hj. rewrite !Hin by done. by apply Hap.
Qed.
End same_tree.

(** ** Replacing one child

    The walk changes the tree under child [i] of [ptr], perhaps from empty, and
    the entry [i] of [ptr] itself; [alloc_lift] says what that does to the
    tree of [ptr]. *)
Definition new_or (s : fstate) (f : fs_info) (P : Z -> Prop) (b : Z) : Prop := P b \/ blk_used s f b = false.

Record grown (h : nat) (s s' : fstate) (f f' : fs_info) (c c' : Z) : Prop := mkGrown {
  gr_wf : tree_wf h s' f' c';
  gr_in b : in_tree h s' f' c' b -> new_or s f (in_tree h s f c) b;
  gr_mono b : 0 <= b < 32768 * ngroups f -> blk_used s f b = true -> blk_used s' f' b = true
}.

Arguments gr_wf {h s s' f f' c c'} _.
Arguments gr_in {h s s' f f' c c'} _ b _.
Arguments gr_mono {h s s' f f' c c'} _ b _ _.

Section lift.
Context (h : nat) (s s' : fstate) (f f' : fs_info) (ptr i c' : Z).
Context (G : same_geom f f') (T : tree_wf (S h) s f ptr) (Hp : ptr <> 0) (Hi : 0 <= i < 1024).
Context (Gr : grown h s s' f f' (child s f ptr i) c').
Context (Ei : child s' f' ptr i = c').
Context (Ej : forall j, 0 <= j < 1024 -> j <> i -> child s' f' ptr j = child s f ptr j).
Context (Hk : forall b, plain_blk f b -> blk_used s f b = true -> b <> ptr ->
                ~ in_tree h s f (child s f ptr i) b -> block_bytes s' f' b = block_bytes s f b).

Lemma lift_root : data_blk f ptr /\ blk_used s f ptr = true.
Proof using T Hp. destruct T as [|(? & ? & _)]; done. Qed.

Lemma lift_children j : 0 <= j < 1024 ->
  tree_wf h s f (child s f ptr j) /\ ~ in_tree h s f (child s f ptr j) ptr.
Proof using T Hp. destruct T as [|(_ & _ & Hc & _)]; [done|]. apply Hc. Qed.

Lemma lift_apart j k b : 0 <= j < 1024 -> 0 <= k < 1024 ->
  in_tree h s f (child s f ptr j) b -> in_tree h s f (child s f ptr k) b -> j = k.
Proof using T Hp. destruct T as [|(_ & _ & _ & Ha)]; [done|]. apply Ha. Qed.

(** The blocks of another child are untouched and stay in use. *)
Lemma sibling_kept j b : 0 <= j < 1024 -> j <> i -> in_tree h s f (child s f ptr j) b ->
  block_bytes s' f' b = block_bytes s f b /\ blk_used s' f' b = true.
Proof using T Hp Hi Gr Hk.
  intros Hj Hne Hb. destruct (lift_children j Hj) as [Tj Hnp].
  destruct (in_tree_data h s f _ b Tj Hb) as [Hd Hu]. split.
  - apply Hk; [by apply data_plain|done| |].
    + intros ->. done.
    + intros Hb'. by apply Hne, (lift_apart j i b).
  - apply Gr; [|done]. destruct Hd as (? & ? & _). lia.
Qed.

Lemma sibling_in j b : 0 <= j < 1024 -> j <> i ->
  in_tree h s' f' (child s' f' ptr j) b <-> in_tree h s f (child s f ptr j) b.
Proof using All.
  intros Hj Hne. rewrite Ej by done. apply in_tree_same. intros x Hx. by apply (sibling_kept j x).
Qed.

Lemma lift_used_not_new b : blk_used s f b = true -> new_or s f (in_tree h s f (child s f ptr i)) b ->
  in_tree h s f (child s f ptr i) b.
Proof using. intros Hu [|]; congruence. Qed.

Lemma alloc_lift : grown (S h) s s' f f' ptr ptr.
Proof using All.
  destruct lift_root as [Hd Hu]. split.
  - right. split; [by apply (data_blk_geom f f' G)|].
    split; [apply Gr; [destruct Hd as (? & ? & _); lia|done]|]. split.
    + intros j Hj. destruct (lift_children j Hj) as [Tj Hnp]. destruct (Z.eq_dec j i) as [->|Hne].
      * rewrite Ei. split; [apply Gr|]. intros H. by apply Hnp, lift_used_not_new, Gr.
      * split; [|by rewrite sibling_in]. rewrite Ej by done. apply (tree_wf_same s s' f f' h _ G); [|done].
        intros x Hx. by apply (sibling_kept j x).
    + intros j k b Hj Hk' H1 H2. destruct (Z.eq_dec j i) as [->|Hji]; destruct (Z.eq_dec k i) as [->|Hki]; [done| | |].
      * rewrite sibling_in in H2 by done. destruct (lift_children k Hk') as [Tk _].
        destruct (in_tree_data h s f _ b Tk H2) as [_ Hub]. rewrite Ei in H1.
        apply (lift_apart i k b); [done..| |done]. by apply lift_used_not_new, Gr.
      * rewrite sibling_in in H1 by done. destruct (lift_children j Hj) as [Tj _].
        destruct (in_tree_data h s f _ b Tj H1) as [_ Hub]. rewrite Ei in H2.
        apply (lift_apart j i b); [done..|]. by apply lift_used_not_new, Gr.
      * rewrite sibling_in in H1, H2 by done. by apply (lift_apart j k b).
  - intros b [_ [-> | (j & Hj & H)]].
    + left. by apply in_tree_root.
    + destruct (Z.eq_dec j i) as [->|Hne].
      * rewrite Ei in H. apply (gr_in Gr) in H as [H|H]; [|by right].
        left. by apply (in_tree_child h s f ptr i).
      * rewrite sibling_in in H by done. left. by apply (in_tree_child h s f ptr j).
  - apply Gr.
Qed.

(** Lookups through another entry, or through [i] to another place. *)
Lemma lookup_lift rel rel' :
  rel / 1024 ^ Z.of_nat h = i -> 0 <= rel' < 1024 ^ Z.of_nat (S h) -> rel' <> rel ->
  (forall r, 0 <= r < 1024 ^ Z.of_nat h -> r <> rel mod 1024 ^ Z.of_nat h ->
     tree_lookup h s' f' c' r = tree_lookup h s f (child s f ptr i) r) ->
  tree_lookup (S h) s' f' ptr rel' = tree_lookup (S h) s f ptr rel'.
Proof using All.
  intros Er Hr' Hne Hsame. destruct (walk_index h rel' Hr') as [Hi' Hm']. cbn [tree_lookup].
  zfalse (ptr =? 0). destruct (Z.eq_dec (rel' / 1024 ^ Z.of_nat h) i) as [E|E].
  - rewrite E, Ei. apply Hsame; [done|]. intros Em. apply Hne.
    pose proof (pow1024 h). rewrite (Z.div_mod rel' (1024 ^ Z.of_nat h)), (Z.div_mod rel (1024 ^ Z.of_nat h)) by lia.
    by rewrite E, Er, Em.
  - rewrite Ej by done. apply tree_lookup_same; [done|]. intros x Hx.
    by apply (sibling_kept (rel' / 1024 ^ Z.of_nat h) x).
Qed.
End lift.

(** ** Entries of a pointer block *)

Lemma entry_set_same blk i v :
  length blk = 4096%nat -> 0 <= i < 1024 -> is_u32 v -> entry (set_entry blk i v) i = v.
Proof.
  intros Hl Hi Hv. unfold entry, set_entry. rewrite ld_st_same; [by apply Z.mod_small|lia|].
  rewrite Hl. change (Z.of_nat 4) with 4. lia.
Qed.

Lemma entry_set_other blk i j v :
  length blk = 4096%nat -> 0 <= i < 1024 -> 0 <= j < 1024 -> i <> j ->
  entry (set_entry blk i v) j = entry blk j.
Proof.
  intros Hl Hi Hj Hne. unfold entry, set_entry.
  apply ld_st_disj; rewrite ?Hl; change (Z.of_nat 4) with 4; lia.
Qed.

Lemma set_entry_back blk i v :
  length blk = 4096%nat -> bytes_ok blk -> 0 <= i < 1024 ->
  set_entry (set_entry blk i v) i (entry blk i) = blk.
Proof.
  intros Hl Hb Hi. apply st_ld; [done|lia|]. rewrite Hl. change (Z.of_nat 4) with 4. lia.
Qed.

Lemma set_entry_bytes blk i v :
  length blk = 4096%nat -> bytes_ok blk -> 0 <= i < 1024 ->
  length (set_entry blk i v) = 4096%nat /\ bytes_ok (set_entry blk i v).
Proof.
  intros Hl Hb Hi. split; [|by apply bytes_ok_st]. unfold set_entry.
  rewrite length_st; [done|lia|]. rewrite Hl. change (Z.of_nat 4) with 4. lia.
Qed.

Lemma zero_block_bytes : length zero_block = 4096%nat /\ bytes_ok zero_block.
Proof. split; [apply length_replicate|]. apply Forall_replicate. unfold is_byte. lia. Qed.

Lemma entry_zero_block i : 0 <= i < 1024 -> entry zero_block i = 0.
Proof.
  intros Hi. unfold entry, ld, sub, zero_block. rewrite drop_replicate, take_replicate.
  generalize (4 `min` (4096 - Z.to_nat (4 * i)))%nat. intros n. induction n as [|n IH]; [done|].
  cbn [replicate le_val]. by rewrite IH.
Qed.

Lemma data_u32 s f b : part_wf s f -> data_blk f b -> is_u32 b.
Proof. intros (_ & _ & Hc & _) (H2 & _ & [_ Hb] & _). unfold is_u32. lia. Qed.

(** ** The count *)

Definition cnt_ok (c : option Z) : Prop := match c with Some x => is_u32 x | None => True end.
Definition cnt_add (k : Z) (c : option Z) : option Z := (fun x => u32 (x + k)) <$> c.

Lemma cnt_add_0 c : cnt_ok c -> cnt_add 0 c = c.
Proof. destruct c as [x|]; [|done]. intros H. cbn. f_equal. unfold u32. rewrite Z.add_0_r. by apply Z.mod_small. Qed.
Lemma cnt_inc_add c : cnt_inc c = cnt_add 1 c.
Proof. done. Qed.
Lemma cnt_add_add j k c : cnt_add j (cnt_add k c) = cnt_add (k + j) c.
Proof. destruct c as [x|]; [|done]. cbn. f_equal. unfold u32. rewrite Zplus_mod_idemp_l. f_equal. lia. Qed.
Lemma cnt_dec_inc c : cnt_ok c -> cnt_dec (cnt_inc c) = c.
Proof.
  destruct c as [x|]; [|done]. intros H. cbn. f_equal. unfold u32. rewrite Zminus_mod_idemp_l.
  change (is_u32 x) in H. unfold is_u32 in H. rewrite Z.mod_small; lia.
Qed.
Lemma cnt_ok_inc c : cnt_ok (cnt_inc c).
Proof. destruct c as [x|]; [|done]. cbn. unfold is_u32, u32. zlia. Qed.

Lemma sb_unalloc_range s f : fs_wf s f -> is_u32 (sb_unalloc_blocks (sprblk_buf f)).
Proof. intros W. apply (ld_range 4), W. Qed.

Lemma u32_u32_add x j k : u32 (u32 (x + j) + k) = u32 (x + (j + k)).
Proof. unfold u32. rewrite Zplus_mod_idemp_l. f_equal. lia. Qed.

(** ** A new entry under a pointer block *)

Record minted_block (s s2 : fstate) (fs : Z) (f f2 : fs_info) (ptr b : Z) : Prop := mkMinted {
  me_step : step s s2 fs f f2;
  me_data : data_blk f b;
  me_free : blk_used s f b = false;
  me_keep x : plain_blk f x -> x <> ptr -> x <> b -> block_bytes s2 f2 x = block_bytes s f x;
  me_used x : 0 <= x < 32768 * ngroups f -> blk_used s2 f2 x = (x =? b) || blk_used s f x;
  me_sb : sb_unalloc_blocks (sprblk_buf f2) = u32 (sb_unalloc_blocks (sprblk_buf f) - 1)
}.
Arguments me_step {s s2 fs f f2 ptr b} _.
Arguments me_data {s s2 fs f f2 ptr b} _.
Arguments me_free {s s2 fs f f2 ptr b} _.
Arguments me_keep {s s2 fs f f2 ptr b} _ x _ _ _.
Arguments me_used {s s2 fs f f2 ptr b} _ x _.
Arguments me_sb {s s2 fs f f2 ptr b} _.

Record minted_entry (s s2 : fstate) (fs : Z) (f f2 : fs_info) (ptr i b : Z) : Prop := mkMintedEntry {
  me_block :> minted_block s s2 fs f f2 ptr b;
  me_ptr : block_bytes s2 f2 ptr = set_entry (block_bytes s f ptr) i b
}.
Arguments me_block {s s2 fs f f2 ptr i b} _.
Arguments me_ptr {s s2 fs f f2 ptr i b} _.

(** From a fresh block [b] of [alloc_block], writing the entry. *)
Lemma mint_entry_writes (zero : bool) s s1 fs f f1 ptr i b :
  fs_ok s fs f -> step s s1 fs f f1 -> data_blk f b -> blk_used s f b = false ->
  (forall x, plain_blk f x -> block_bytes s1 f1 x = block_bytes s f x) ->
  (forall x, 0 <= x < 32768 * ngroups f -> blk_used s1 f1 x = (x =? b) || blk_used s f x) ->
  sb_unalloc_blocks (sprblk_buf f1) = u32 (sb_unalloc_blocks (sprblk_buf f) - 1) ->
  data_blk f ptr -> blk_used s f ptr = true -> 0 <= i < 1024 ->
  exists s2, ((if zero then write_block fs b zero_block else retM tt) ;;;
              write_block fs ptr (set_entry (block_bytes s f ptr) i b)) s1 = Done tt s2 /\
    minted_entry s s2 fs f f1 ptr i b /\ (zero = true -> block_bytes s2 f1 b = zero_block).
Proof.
  intros O S1 Db Fb K1 U1 Sb Dp Up Hi. pose proof (ok_wf s fs f O) as W.
  assert (ptr <> b) as Hne by congruence. pose proof (st_geom S1) as G.
  destruct (set_entry_bytes (block_bytes s f ptr) i b) as [Hl Hy];
    [apply length_block_bytes, W|apply block_bytes_ok, W|done|].
  destruct zero_block_bytes as [Hzl Hzy].
  assert (exists s1', (if zero then write_block fs b zero_block else retM tt) s1 = Done tt s1' /\
    step s1 s1' fs f1 f1 /\ (zero = true -> block_bytes s1' f1 b = zero_block) /\
    (forall x, x <> b -> block_bytes s1' f1 x = block_bytes s1 f1 x) /\
    (forall x, 0 <= x < 32768 * ngroups f1 -> blk_used s1' f1 x = blk_used s1 f1 x)) as (s1' & E1 & S1' & Z1 & K1' & U1').
  { destruct zero; [|exists s1; split; [done|]; split; [by apply step_refl, S1|done]].
    destruct (write_step s1 fs f1 (st_ok S1) b zero_block) as (s1' & ? & ? & ? & ? & ?);
      [by apply (data_blk_geom f f1 G)|done|done|]. exists s1'. done. }
  destruct (write_step s1' fs f1 (st_ok S1') ptr (set_entry (block_bytes s f ptr) i b))
    as (s2 & E2 & S2 & B2 & K2 & U2); [by apply (data_blk_geom f f1 G)|done|done|].
  exists s2. split; [by rewrite (bindM_Done _ _ _ _ _ E1)|]. destruct (sg_params _ _ G) as (En & _). split.
  - split; [|done]. split; [|done|done| | |done].
    + apply (step_trans s s1' s2 fs f f1 f1); [|done]. by apply (step_trans s s1 s1' fs f f1 f1).
    + intros x Hx Hxp Hxb. rewrite K2, K1', K1 by done. done.
    + intros x Hx. rewrite U2, U1', U1 by (rewrite ?En; done). done.
  - intros Hz. rewrite K2 by congruence. by apply Z1.
Qed.

(** ** The two ways the walk ends *)

Record alloc_ok (h : nat) (s s' : fstate) (fs : Z) (f f' : fs_info) (ptr rel : Z)
    (cnt cnt' out : option Z) : Prop := mkAllocOk {
  ao_step : step s s' fs f f';
  ao_grown : grown h s s' f f' ptr ptr;
  ao_keep x : plain_blk f x -> blk_used s f x = true -> ~ in_tree h s f ptr x ->
    block_bytes s' f' x = block_bytes s f x;
  ao_out : tree_lookup h s' f' ptr rel <> 0 /\ out = Some (tree_lookup h s' f' ptr rel);
  ao_new : if tree_lookup h s f ptr rel =? 0 then blk_used s f (tree_lookup h s' f' ptr rel) = false
           else tree_lookup h s' f' ptr rel = tree_lookup h s f ptr rel;
  ao_other rel' : 0 <= rel' < 1024 ^ Z.of_nat h -> rel' <> rel ->
    tree_lookup h s' f' ptr rel' = tree_lookup h s f ptr rel';
  ao_cnt : exists k, 0 <= k /\ cnt' = cnt_add k cnt /\
    sb_unalloc_blocks (sprblk_buf f') = u32 (sb_unalloc_blocks (sprblk_buf f) - k)
}.

Arguments ao_step {h s s' fs f f' ptr rel cnt cnt' out} _.
Arguments ao_grown {h s s' fs f f' ptr rel cnt cnt' out} _.
Arguments ao_keep {h s s' fs f f' ptr rel cnt cnt' out} _ x _ _ _.
Arguments ao_out {h s s' fs f f' ptr rel cnt cnt' out} _.
Arguments ao_new {h s s' fs f f' ptr rel cnt cnt' out} _.
Arguments ao_other {h s s' fs f f' ptr rel cnt cnt' out} _ rel' _ _.
Arguments ao_cnt {h s s' fs f f' ptr rel cnt cnt' out} _.

(** A minted pointer block [ptr] is given back; else nothing is left changed. *)
Record alloc_failed (s s' : fstate) (fs : Z) (f f' : fs_info) (ptr : Z) (minted : bool)
    (cnt cnt' : option Z) : Prop := mkAllocFailed {
  af_step : step s s' fs f f';
  af_keep x : plain_blk f x -> blk_used s f x = true -> (minted = true -> x <> ptr) ->
    block_bytes s' f' x = block_bytes s f x;
  af_used x : 0 <= x < 32768 * ngroups f ->
    blk_used s' f' x = blk_used s f x && negb (minted && (x =? ptr));
  af_cnt : cnt' = if minted then cnt_dec cnt else cnt;
  af_sb : sb_unalloc_blocks (sprblk_buf f') =
    u32 (sb_unalloc_blocks (sprblk_buf f) + if minted then 1 else 0)
}.

Arguments af_step {s s' fs f f' ptr minted cnt cnt'} _.
Arguments af_keep {s s' fs f f' ptr minted cnt cnt'} _ x _ _ _.
Arguments af_used {s s' fs f f' ptr minted cnt cnt'} _ x _.
Arguments af_cnt {s s' fs f f' ptr minted cnt cnt'} _.
Arguments af_sb {s s' fs f f' ptr minted cnt cnt'} _.

Lemma alloc_ok_child h s s' fs f f' ptr rel cnt cnt' out :
  tree_wf (S h) s f ptr -> ptr <> 0 -> 0 <= rel < 1024 ^ Z.of_nat (S h) ->
  alloc_ok h s s' fs f f' (child s f ptr (rel / 1024 ^ Z.of_nat h)) (rel mod 1024 ^ Z.of_nat h) cnt cnt' out ->
  alloc_ok (S h) s s' fs f f' ptr rel cnt cnt' out.
Proof.
  intros T Hp Hr A. destruct (walk_index h rel Hr) as [Hi Hm].
  set (i := rel / 1024 ^ Z.of_nat h) in *. pose proof (st_geom (ao_step A)) as G.
  destruct (lift_root h s f ptr T Hp) as [Dp Up]. destruct (lift_children h s f ptr T Hp i Hi) as [_ Hnp].
  assert (block_bytes s' f' ptr = block_bytes s f ptr) as Eb
    by (apply (ao_keep A); [by apply data_plain|done..]).
  assert (forall j, child s' f' ptr j = child s f ptr j) as Ec by (intros; by apply child_same).
  assert (forall x, tree_lookup (S h) x f ptr rel = tree_lookup h x f (child x f ptr i) (rel mod 1024 ^ Z.of_nat h)) as El.
  { intros x. cbn [tree_lookup]. by zfalse (ptr =? 0). }
  assert (tree_lookup (S h) s' f' ptr rel = tree_lookup h s' f' (child s f ptr i) (rel mod 1024 ^ Z.of_nat h)) as El'.
  { cbn [tree_lookup]. zfalse (ptr =? 0). fold i. by rewrite Ec. }
  split; [apply A| | | | | |apply A]; rewrite ?El, ?El'; try apply A.
  - apply (alloc_lift h s s' f f' ptr i (child s f ptr i)); try done; try apply A.
    intros b Hb Hu _ Hn. by apply (ao_keep A).
  - intros x Hx Hu Hn. apply (ao_keep A); [done..|]. intros Hin. apply Hn.
    by apply (in_tree_child h s f ptr i).
  - intros rel' Hr' Hne.
    apply (lookup_lift h s s' f f' ptr i (child s f ptr i)) with (rel := rel); try done; try apply A.
    intros b Hb Hu _ Hn. by apply (ao_keep A).
Qed.

Lemma tree_lookup_zero h s f rel : tree_lookup h s f 0 rel = 0.
Proof. by destruct h. Qed.

Lemma lookup_in_tree h s f ptr rel :
  0 <= rel < 1024 ^ Z.of_nat h -> tree_lookup h s f ptr rel <> 0 -> in_tree h s f ptr (tree_lookup h s f ptr rel).
Proof.
  revert ptr rel. induction h as [|h IH]; intros ptr rel Hr Hl.
  - cbn [tree_lookup] in *. split; [done|by left].
  - destruct (walk_index h rel Hr) as [Hi Hm]. cbn [tree_lookup] in *.
    destruct (Z.eqb_spec ptr 0) as [|Hp]; [done|].
    apply (in_tree_child h s f ptr (rel / 1024 ^ Z.of_nat h)); [done..|]. by apply IH.
Qed.

(** A block that holds no pointers is a tree of its own, without children. *)
Lemma zero_children s f b :
  block_bytes s f b = zero_block ->
  forall i, 0 <= i < 1024 -> child s f b i = 0.
Proof. intros E i Hi. unfold child. rewrite E. by apply entry_zero_block. Qed.

Section fresh_tree.
Context (h : nat) (s : fstate) (f : fs_info) (b : Z).
Context (Hz : match h with O => True | S _ => forall i, 0 <= i < 1024 -> child s f b i = 0 end).

Lemma fresh_in x : in_tree h s f b x -> x = b.
Proof using Hz.
  destruct h as [|h']; intros [_ [-> | H]]; try done. destruct H as (i & Hi & H).
  rewrite Hz in H by done. by apply in_tree_zero in H.
Qed.

Lemma fresh_wf : data_blk f b -> blk_used s f b = true -> tree_wf h s f b.
Proof using Hz.
  intros Hd Hu. destruct h as [|h']; right; (split; [done|]; split; [done|]); [done|]. split.
  - intros i Hi. rewrite (Hz i Hi). split; [|apply in_tree_zero]. destruct h'; by left.
  - intros i j x Hi Hj H. rewrite (Hz i Hi) in H. by apply in_tree_zero in H.
Qed.

Lemma fresh_lookup rel : 0 <= rel < 1024 ^ Z.of_nat h -> b <> 0 ->
  tree_lookup h s f b rel = match h with O => b | S _ => 0 end.
Proof using Hz.
  intros Hr Hb. destruct h as [|h']; [done|]. destruct (walk_index h' rel Hr) as [Hi Hm].
  cbn [tree_lookup]. zfalse (b =? 0). rewrite (Hz _ Hi). apply tree_lookup_zero.
Qed.
End fresh_tree.

(** A tree grown from a fresh block: [b] was free in [s], in use in [s2], and
    the walk below it ended well in [s']. *)
Section fresh_block.
Context (h : nat) (s s2 s' : fstate) (fs : Z) (f f2 f' : fs_info) (ptr b rm : Z) (cnt cnt' out : option Z).
Context (Ok : fs_ok s fs f) (Me : minted_block s s2 fs f f2 ptr b).
Context (Hz : match h with O => True | S _ => forall i, 0 <= i < 1024 -> child s2 f2 b i = 0 end).
Context (A : alloc_ok h s2 s' fs f2 f' b rm cnt cnt' out).

Lemma fb_step : step s s' fs f f'.
Proof using All. exact (step_trans _ _ _ _ _ _ _ (me_step Me) (ao_step A)). Qed.

Lemma fb_b : data_blk f b /\ blk_used s f b = false /\ b <> 0 /\ is_u32 b.
Proof using All.
  destruct Me as [_ Db Fb _ _ _]. split; [done|]. split; [done|]. split; [destruct Db as (? & _); lia|].
  apply (data_u32 s f); [apply (ok_wf _ _ _ Ok)|done].
Qed.

Lemma fb_kept2 x : plain_blk f x -> blk_used s f x = true -> block_bytes s' f' x = block_bytes s2 f2 x.
Proof using All.
  intros Hx Hu. pose proof (st_geom (me_step Me)) as G1.
  apply (ao_keep A); [by apply (plain_blk_geom f f2 G1)| |].
  - rewrite (me_used Me), Hu by (destruct Hx; lia). apply orb_true_r.
  - intros Hin. apply (fresh_in h s2 f2 b Hz) in Hin. destruct fb_b as (_ & ? & _). congruence.
Qed.

Lemma fb_kept x : plain_blk f x -> blk_used s f x = true -> x <> ptr -> block_bytes s' f' x = block_bytes s f x.
Proof using All.
  intros Hx Hu Hne. rewrite fb_kept2 by done. apply (me_keep Me); [done..|].
  destruct fb_b as (_ & ? & _). congruence.
Qed.

Lemma fb_new x : 0 <= x < 32768 * ngroups f -> new_or s2 f2 (in_tree h s2 f2 b) x -> blk_used s f x = false.
Proof using All.
  intros Hx [Hin|Hu]; [apply (fresh_in h s2 f2 b Hz) in Hin as ->; apply fb_b|].
  rewrite (me_used Me) in Hu by done. by apply orb_false_iff in Hu as [_ ?].
Qed.

Lemma fb_in x : in_tree h s' f' b x -> blk_used s f x = false.
Proof using All.
  intros Hin. pose proof (ao_grown A) as Gr. apply fb_new; [|by apply Gr].
  destruct (in_tree_data h s' f' b x (gr_wf Gr) Hin) as [Hd _].
  apply (data_blk_geom f f' (st_geom fb_step)) in Hd as (? & ? & _). lia.
Qed.

Lemma fb_grown : grown h s s' f f' 0 b.
Proof using All.
  pose proof (ao_grown A) as Gr. destruct (sg_params _ _ (st_geom (me_step Me))) as (En & _).
  split; [apply Gr|intros x Hx; right; by apply fb_in|].
  intros x Hx Hu. apply Gr; [by rewrite En|]. rewrite (me_used Me), Hu by done. apply orb_true_r.
Qed.

Lemma fb_lookup_new : 0 <= rm < 1024 ^ Z.of_nat h -> blk_used s f (tree_lookup h s' f' b rm) = false.
Proof using All. intros Hm. apply fb_in, lookup_in_tree; [done|]. apply (ao_out A). Qed.

Lemma fb_lookup_other r : 0 <= rm < 1024 ^ Z.of_nat h -> 0 <= r < 1024 ^ Z.of_nat h -> r <> rm ->
  tree_lookup h s' f' b r = 0.
Proof using All.
  intros Hm Hr Hne. rewrite (ao_other A) by done. rewrite (fresh_lookup h s2 f2 b Hz r Hr) by apply fb_b.
  destruct h; [|done]. cbn in Hr, Hm. lia.
Qed.

Lemma fb_cnt cnt0 : cnt = cnt_inc cnt0 -> exists k, 0 <= k /\ cnt' = cnt_add k cnt0 /\
    sb_unalloc_blocks (sprblk_buf f') = u32 (sb_unalloc_blocks (sprblk_buf f) - k).
Proof using All.
  intros ->. destruct (ao_cnt A) as (k & Hk & Ek & Es). exists (1 + k). split; [lia|].
  split; [by rewrite Ek, cnt_inc_add, cnt_add_add|].
  rewrite Es, (me_sb Me). unfold u32. rewrite Zminus_mod_idemp_l. f_equal. lia.
Qed.
End fresh_block.

(** The same with [b] entry [i] of the pointer block [ptr]. *)
Section fresh_child.
Context (h : nat) (s s2 s' : fstate) (fs : Z) (f f2 f' : fs_info) (ptr b rel : Z) (cnt cnt' out : option Z).
Let i := rel / 1024 ^ Z.of_nat h.
Let rm := rel mod 1024 ^ Z.of_nat h.
Context (Ok : fs_ok s fs f) (T : tree_wf (S h) s f ptr) (Hp : ptr <> 0).
Context (Hr : 0 <= rel < 1024 ^ Z.of_nat (S h)) (Ec : child s f ptr i = 0).
Context (Me : minted_entry s s2 fs f f2 ptr i b).
Context (Hz : match h with O => True | S _ => forall i, 0 <= i < 1024 -> child s2 f2 b i = 0 end).
Context (A : alloc_ok h s2 s' fs f2 f' b rm (cnt_inc cnt) cnt' out).
Let B := me_block Me.

Lemma fc_index : 0 <= i < 1024 /\ 0 <= rm < 1024 ^ Z.of_nat h.
Proof using All. exact (walk_index h rel Hr). Qed.

Lemma fc_ptr : block_bytes s' f' ptr = set_entry (block_bytes s f ptr) i b.
Proof using All.
  destruct (lift_root h s f ptr T Hp) as [Dp Up].
  rewrite (fb_kept2 h s s2 s' fs f f2 f' ptr b rm _ _ _ Ok B Hz A) by (done || by apply data_plain). apply Me.
Qed.

Lemma fc_child : child s' f' ptr i = b.
Proof using All.
  unfold child. rewrite fc_ptr. apply entry_set_same; [apply length_block_bytes, (ok_wf _ _ _ Ok)|apply fc_index|].
  apply (fb_b h s s2 s' fs f f2 f' ptr b rm _ _ _ Ok B Hz A).
Qed.

Lemma fc_sibling j : 0 <= j < 1024 -> j <> i -> child s' f' ptr j = child s f ptr j.
Proof using All.
  intros Hj Hne. unfold child. rewrite fc_ptr.
  apply entry_set_other; [apply length_block_bytes, (ok_wf _ _ _ Ok)|apply fc_index|done|done].
Qed.

Lemma fc_lookup : tree_lookup (S h) s' f' ptr rel = tree_lookup h s' f' b rm /\ tree_lookup (S h) s f ptr rel = 0.
Proof using All.
  cbn [tree_lookup]. zfalse (ptr =? 0). fold i rm. rewrite fc_child, Ec. split; [done|apply tree_lookup_zero].
Qed.

Lemma alloc_ok_fresh : alloc_ok (S h) s s' fs f f' ptr rel cnt cnt' out.
Proof using All.
  destruct fc_index as [Hi Hm]. destruct fc_lookup as [El' El].
  pose proof (fb_step h s s2 s' fs f f2 f' ptr b rm _ _ _ Ok B Hz A) as St. pose proof (st_geom St) as G.
  pose proof (fb_grown h s s2 s' fs f f2 f' ptr b rm _ _ _ Ok B Hz A) as Gr. rewrite <- Ec in Gr.
  pose proof (fb_kept h s s2 s' fs f f2 f' ptr b rm _ _ _ Ok B Hz A) as K0.
  assert (forall x, plain_blk f x -> blk_used s f x = true -> x <> ptr ->
            ~ in_tree h s f (child s f ptr i) x -> block_bytes s' f' x = block_bytes s f x) as K
    by (intros; by apply K0).
  destruct (ao_out A) as [Hne Eo].
  split; [done| | |by rewrite El'| | |by apply (fb_cnt h s s2 s' fs f f2 f' ptr b rm _ _ _ Ok B Hz A)].
  - apply (alloc_lift h s s' f f' ptr i b G T Hp Hi Gr fc_child fc_sibling K).
  - intros x Hx Hu Hn. apply K0; [done..|]. intros ->. by apply Hn, in_tree_root.
  - rewrite El, El'. by apply (fb_lookup_new h s s2 s' fs f f2 f' ptr b rm _ _ _ Ok B Hz A).
  - intros rel' Hr' Hner.
    apply (lookup_lift h s s' f f' ptr i b G T Hp Hi Gr fc_child fc_sibling K rel); [done..|].
    intros r Hrr Hrne. rewrite Ec, tree_lookup_zero.
    by apply (fb_lookup_other h s s2 s' fs f f2 f' ptr b rm _ _ _ Ok B Hz A).
Qed.
End fresh_child.

(** ** Giving up *)

Lemma alloc_failed_none s fs f ptr cnt : fs_ok s fs f -> alloc_failed s s fs f f ptr false cnt cnt.
Proof.
  intros Ok. split; [by apply step_refl|done| |done|].
  - intros x _. cbn. by rewrite andb_true_r.
  - rewrite Z.add_0_r. unfold u32. symmetry. apply Z.mod_small, (sb_unalloc_range s), Ok.
Qed.

Lemma alloc_failed_not_minted s s' fs f f' ptr ptr' cnt cnt' :
  alloc_failed s s' fs f f' ptr false cnt cnt' -> alloc_failed s s' fs f f' ptr' false cnt cnt'.
Proof. intros [? K U ? ?]. split; [done| |done..]. intros x Hx Hu _. by apply K. Qed.

Lemma free_failed s fs f ptr cnt :
  fs_ok s fs f -> data_blk f ptr -> blk_used s f ptr = true ->
  exists s' f', free_block fs ptr s = Done true s' /\ alloc_failed s s' fs f f' ptr true cnt (cnt_dec cnt).
Proof.
  intros Ok Hd Hu. destruct (free_step s fs f Ok ptr Hd Hu) as (s' & f' & E & St & K & U & Sb).
  exists s', f'. split; [done|]. split; [done| | |done|done].
  - intros x Hx _ _. by apply K.
  - intros x Hx. rewrite U by done. cbn. by rewrite andb_comm.
Qed.

(** The entry minted under [ptr] was given back below: [ptr] follows. *)
Lemma abandon_failed s s2 s3 fs f f2 f3 ptr i b minted cnt cnt3 :
  fs_ok s fs f -> data_blk f ptr -> blk_used s f ptr = true -> 0 <= i < 1024 -> cnt_ok cnt ->
  child s f ptr i = 0 -> minted_entry s s2 fs f f2 ptr i b ->
  alloc_failed s2 s3 fs f2 f3 b true (cnt_inc cnt) cnt3 ->
  exists gone cnt' s' f',
    abandon fs ptr minted (set_entry (set_entry (block_bytes s f ptr) i b) i 0) cnt3 s3 = Done (gone, cnt') s' /\
    gone = minted /\ alloc_failed s s' fs f f' ptr minted cnt cnt'.
Proof.
  intros Ok Hd Hu Hi Hc Ec Me F. pose proof (me_step Me) as S1.
  pose proof (step_trans _ _ _ _ _ _ _ S1 (af_step F)) as St.
  pose proof (st_geom St) as G. destruct (sg_params _ _ G) as (En & _).
  pose proof (st_geom S1) as G1. destruct (sg_params _ _ G1) as (En1 & _).
  pose proof (me_free Me) as Fb.
  assert (cnt3 = cnt) as -> by (rewrite (af_cnt F); by apply cnt_dec_inc).
  assert (forall x, 0 <= x < 32768 * ngroups f -> blk_used s3 f3 x = blk_used s f x) as U.
  { intros x Hx. rewrite (af_used F), (me_used Me) by (rewrite ?En1; done).
    cbn [andb]. destruct (Z.eqb_spec x b) as [->|]; cbn; [by rewrite Fb|by rewrite andb_true_r]. }
  assert (forall x, plain_blk f x -> blk_used s f x = true -> x <> ptr -> block_bytes s3 f3 x = block_bytes s f x) as K.
  { intros x Hx Hxu Hne. assert (x <> b) by congruence.
    rewrite (af_keep F); [by apply (me_keep Me)|
      by apply (plain_blk_geom f f2 G1)| |done].
    rewrite (me_used Me), Hxu by (destruct Hx; lia). apply orb_true_r. }
  assert (0 <= ptr < 32768 * ngroups f) as Hpr by (destruct Hd as (? & ? & _); lia).
  assert (sb_unalloc_blocks (sprblk_buf f3) = sb_unalloc_blocks (sprblk_buf f)) as Sb.
  { rewrite (af_sb F), (me_sb Me).
    pose proof (sb_unalloc_range s f (ok_wf _ _ _ Ok)) as Hsb. unfold is_u32, u32 in *.
    rewrite Zplus_mod_idemp_l, Z.mod_small; lia. }
  unfold abandon. destruct minted.
  - destruct (free_failed s3 fs f3 ptr cnt (st_ok St)) as (s' & f' & E & F');
      [by apply (data_blk_geom f f3 G)|by rewrite U|].
    exists true, (cnt_dec cnt), s', f'. split; [mrun; by rewrite E|]. split; [done|].
    split; [exact (step_trans _ _ _ _ _ _ _ St (af_step F'))| | |done|].
    + intros x Hx Hxu Hne. rewrite (af_keep F'); [by apply K; auto|
        by apply (plain_blk_geom f f3 G)| |done]. rewrite U by (destruct Hx; lia). done.
    + intros x Hx. rewrite (af_used F'), U by (rewrite ?En; done). done.
    + by rewrite (af_sb F'), Sb.
  - assert (set_entry (set_entry (block_bytes s f ptr) i b) i 0 = block_bytes s f ptr) as ->.
    { rewrite <- Ec. apply set_entry_back; [apply length_block_bytes, Ok|apply block_bytes_ok, Ok|done]. }
    destruct (write_step s3 fs f3 (st_ok St) ptr (block_bytes s f ptr)) as (s' & E & S' & B & K' & U');
      [by apply (data_blk_geom f f3 G)|apply length_block_bytes, Ok|apply block_bytes_ok, Ok|].
    exists false, cnt, s', f3. split; [mrun; by rewrite E|]. split; [done|].
    split; [exact (step_trans _ _ _ _ _ _ _ St S')| | |done|].
    + intros x Hx Hxu _. destruct (Z.eq_dec x ptr) as [->|Hne]; [done|]. rewrite K' by done. by apply K.
    + intros x Hx. rewrite U', U by (rewrite ?En; done). cbn. by rewrite andb_true_r.
    + rewrite Sb, Z.add_0_r. unfold u32. symmetry. apply Z.mod_small, (sb_unalloc_range s), Ok.
Qed.

(** ** The walk *)

Definition corrupted : halt := Panic "KERNEL PANIC: CORRUPTED UNALLOC_BLOCK_CNT!!!".

Definition walk_post (d : nat) (s : fstate) (fs : Z) (f : fs_info) (ptr : Z) (minted : bool) (rel : Z)
    (cnt : option Z) (o : outcome fstate (Z * bool * option Z * option Z)) : Prop :=
  match o with
  | Done (r, gone, cnt', out) s' => exists f',
      (r = INODE_WRITE_SUCCESS /\ gone = false /\ alloc_ok (S d) s s' fs f f' ptr rel cnt cnt' out) \/
      (r = BLOCK_ERROR /\ gone = minted /\ out = None /\ alloc_failed s s' fs f f' ptr minted cnt cnt')
  | Halted h _ => h = corrupted
  end.

(** An existing block, or one just allocated, is found where it is. *)
Lemma alloc_ok_found h s fs f ptr rel cnt :
  fs_ok s fs f -> tree_wf h s f ptr -> tree_lookup h s f ptr rel <> 0 -> cnt_ok cnt ->
  alloc_ok h s s fs f f ptr rel cnt cnt (Some (tree_lookup h s f ptr rel)).
Proof.
  intros Ok T Hl Hc. split; [by apply step_refl| |done|done| |done|].
  - split; [done|by left|done].
  - by zfalse (tree_lookup h s f ptr rel =? 0).
  - exists 0. split; [done|]. rewrite cnt_add_0 by done. split; [done|].
    rewrite Z.sub_0_r. unfold u32. symmetry. apply Z.mod_small, (sb_unalloc_range s), Ok.
Qed.

(** The entry the walk needs: it was there, it was minted, or there was no room. *)
Lemma walk_entry_alloc d s fs f ptr minted i cnt :
  fs_ok s fs f -> data_blk f ptr -> blk_used s f ptr = true -> 0 <= i < 1024 ->
  match walk_entry d fs ptr minted i ALLOC_MODE (block_bytes s f ptr) cnt s with
  | Done (inl (r, gone, cnt', out)) s' => child s f ptr i = 0 /\ exists f',
      r = BLOCK_ERROR /\ gone = minted /\ out = None /\ alloc_failed s s' fs f f' ptr minted cnt cnt'
  | Done (inr (blk, c, cnt', false)) s' =>
      s' = s /\ blk = block_bytes s f ptr /\ c = child s f ptr i /\ c <> 0 /\ cnt' = cnt
  | Done (inr (blk, b, cnt', true)) s' => child s f ptr i = 0 /\ exists f',
      blk = set_entry (block_bytes s f ptr) i b /\ cnt' = cnt_inc cnt /\ minted_entry s s' fs f f' ptr i b /\
      ((0 < d)%nat -> block_bytes s' f' b = zero_block)
  | Halted h _ => h = corrupted
  end.
Proof.
  intros Ok Hd Hu Hi. unfold walk_entry. fold (child s f ptr i).
  destruct (Z.eqb_spec (child s f ptr i) 0) as [Ec|Ec]; [|done]. cbn [negb ALLOC_MODE Z.eqb Pos.eqb].
  destruct (alloc_step s fs f Ok) as [E | [E | (b & s1 & f1 & E & S1 & Db & Fb & K & U & Sb)]];
    rewrite (bindM_Done _ _ _ _ _ E) || (unfold bindM; rewrite E; done); clear E.
  - cbn [Z.eqb]. destruct minted.
    + destruct (free_failed s fs f ptr cnt Ok Hd Hu) as (s' & f' & E & F).
      rewrite (bindM_Done _ _ _ _ _ E). cbn. split; [done|]. exists f'. done.
    + cbn. split; [done|]. exists f. split; [done|]. split; [done|]. split; [done|]. by apply alloc_failed_none.
  - assert (b <> 0) by (destruct Db as (? & _); lia). zfalse (b =? 0).
    destruct (mint_entry_writes (0 <? d)%nat s s1 fs f f1 ptr i b) as (s2 & E & Me & Hz); [done..|].
    apply bindM_inv in E as ([] & s1' & E1 & E2).
    rewrite (bindM_Done _ _ _ _ _ E1), (bindM_Done _ _ _ _ _ E2). cbn. split; [done|]. exists f1.
    split; [done|]. split; [done|]. split; [done|]. intros Hd0. apply Hz. by apply Nat.ltb_lt.
Qed.

(** The tree that a minted entry is. *)
Lemma minted_used s s2 fs f f2 ptr i b : minted_entry s s2 fs f f2 ptr i b -> blk_used s2 f2 b = true.
Proof.
  intros Me. rewrite (me_used Me), Z.eqb_refl; [done|].
  destruct (me_data Me) as (? & ? & _). lia.
Qed.

Lemma fresh_root_wf h s s2 fs f f2 ptr i b :
  minted_entry s s2 fs f f2 ptr i b -> (forall j, 0 <= j < 1024 -> child s2 f2 b j = 0) -> tree_wf (S h) s2 f2 b.
Proof.
  intros Me Hz. apply fresh_wf; [done| |by apply (minted_used s s2 fs f f2 ptr i)].
  apply (data_blk_geom f f2 (st_geom (me_step Me))), Me.
Qed.

Lemma fresh_found h s s2 fs f f2 ptr i b rel cnt :
  minted_entry s s2 fs f f2 ptr i b -> h = 0%nat -> cnt_ok cnt ->
  alloc_ok h s2 s2 fs f2 f2 b rel cnt cnt (Some b).
Proof.
  intros Me -> Hc. apply (alloc_ok_found 0 s2 fs f2 b rel cnt (st_ok (me_step Me)));
    [|cbn; destruct (me_data Me); lia|done].
  apply (fresh_wf 0 s2 f2 b I); [|by apply (minted_used s s2 fs f f2 ptr i)].
  apply (data_blk_geom f f2 (st_geom (me_step Me))), Me.
Qed.

Lemma walk_alloc d : forall s fs f ptr minted rel cnt,
  fs_ok s fs f -> tree_wf (S d) s f ptr -> ptr <> 0 -> 0 <= rel < 1024 ^ Z.of_nat (S d) -> cnt_ok cnt ->
  (minted = true -> forall i, 0 <= i < 1024 -> child s f ptr i = 0) ->
  walk_post d s fs f ptr minted rel cnt (walk d fs ptr minted rel ALLOC_MODE cnt s).
Proof.
  induction d as [|d IH]; intros s fs f ptr minted rel cnt Ok T Hp Hr Hc Hmz;
    destruct (walk_index _ rel Hr) as [Hi Hm]; destruct (lift_root _ s f ptr T Hp) as [Dp Up];
    pose proof (read_block_ok s fs f ptr (ok_at _ _ _ Ok) (wf_part s f (ok_wf _ _ _ Ok)) (proj1 (proj2 (proj2 Dp)))) as Hrd;
    cbn [walk]; change BIT_32_PER_BLK with 1024 in *; rewrite (bindM_Done _ _ _ _ _ Hrd); unfold guardM;
    [ztrue (rel / 1024 ^ Z.of_nat 0 <? 1024)|ztrue (rel / 1024 ^ Z.of_nat (S d) <? 1024)];
    rewrite (bindM_Done _ _ _ _ _ (eq_refl : retM tt s = Done tt s)); unfold bodyE, bindE.
  - pose proof (walk_entry_alloc 0 s fs f ptr minted _ cnt Ok Dp Up Hi) as H.
    destruct (walk_entry 0 fs ptr minted _ ALLOC_MODE _ cnt s) as [[[[[r gone] cnt'] out]|[[[blk b] cnt'] cm]] s'|h s'] eqn:E;
      unfold bindM; rewrite E; cbn; [|destruct cm|done].
    + destruct H as (_ & f' & H). exists f'. by right.
    + destruct H as (Ec & f' & -> & -> & Me & _). exists f'. left. split; [done|]. split; [done|].
      apply (alloc_ok_fresh 0 s s' s' fs f f' f' ptr b rel cnt); try done.
      apply (fresh_found 0 s s' fs f f' ptr (rel / 1024 ^ Z.of_nat 0) b); [done|done|apply cnt_ok_inc].
    + destruct H as (-> & -> & -> & Hc0 & ->). exists f. left. split; [done|]. split; [done|].
      apply alloc_ok_child; [done..|]. apply alloc_ok_found; [done| |done|done].
      by apply (lift_children 0 s f ptr T Hp).
  - pose proof (walk_entry_alloc (S d) s fs f ptr minted _ cnt Ok Dp Up Hi) as H.
    destruct (walk_entry (S d) fs ptr minted _ ALLOC_MODE _ cnt s) as [[[[[r gone] cnt'] out]|[[[blk b] cnt'] cm]] s'|h s'] eqn:E;
      unfold bindM; rewrite E; cbn -[block_bytes walk abandon prune Z.pow Z.of_nat]; [|destruct cm|done].
    + destruct H as (_ & f' & H). exists f'. by right.
    + destruct H as (Ec & f2 & -> & -> & Me & Hz). specialize (Hz ltac:(lia)).
      pose proof (zero_children s' f2 b Hz) as Hzc.
      assert (b <> 0) as Hb0 by (destruct (me_data Me); lia).
      specialize (IH s' fs f2 b true (rel mod 1024 ^ Z.of_nat (S d)) (cnt_inc cnt)
        (st_ok (me_step Me)) (fresh_root_wf d s s' fs f f2 ptr _ b Me Hzc)
        Hb0 Hm (cnt_ok_inc cnt) (fun _ => Hzc)).
      destruct (walk d fs b true _ ALLOC_MODE _ s') as [[[[r cgone] cnt3] out] s3|h s3]; [|done].
      destruct IH as (f3 & [(-> & -> & A) | (-> & -> & -> & F)]).
      * cbn. exists f3. left. split; [done|]. split; [done|].
        by apply (alloc_ok_fresh (S d) s s' s3 fs f f2 f3 ptr b rel cnt).
      * cbn -[block_bytes abandon Z.pow Z.of_nat].
        destruct (abandon_failed s s' s3 fs f f2 f3 ptr _ b minted cnt cnt3 Ok Dp Up Hi Hc Ec Me F)
          as (gone & cnt' & s4 & f4 & -> & -> & F'). cbn. exists f4. by right.
    + destruct H as (-> & -> & -> & Hc0 & ->).
      assert (minted = false) as -> by (destruct minted; [|done]; by rewrite (Hmz eq_refl _ Hi) in Hc0).
      specialize (IH s fs f (child s f ptr (rel / 1024 ^ Z.of_nat (S d))) false (rel mod 1024 ^ Z.of_nat (S d)) cnt
        Ok (proj1 (lift_children (S d) s f ptr T Hp _ Hi)) Hc0 Hm Hc ltac:(done)).
      destruct (walk d fs _ false _ ALLOC_MODE cnt s) as [[[[r cgone] cnt3] out] s3|h s3]; [|done].
      destruct IH as (f3 & [(-> & -> & A) | (-> & -> & -> & F)]); cbn; exists f3.
      * left. split; [done|]. split; [done|]. by apply alloc_ok_child.
      * right. split; [done|]. split; [done|]. split; [done|]. by apply (alloc_failed_not_minted _ _ _ _ _ _ ptr) in F.
Qed.

(** ** From the inode's pointers *)

Record root_ok (h : nat) (s s' : fstate) (fs : Z) (f f' : fs_info) (c c' rel : Z)
    (cnt cnt' out : option Z) : Prop := mkRootOk {
  ro_step : step s s' fs f f';
  ro_grown : grown h s s' f f' c c';
  ro_keep x : plain_blk f x -> blk_used s f x = true -> ~ in_tree h s f c x ->
    block_bytes s' f' x = block_bytes s f x;
  ro_out : tree_lookup h s' f' c' rel <> 0 /\ out = Some (tree_lookup h s' f' c' rel);
  ro_new : if tree_lookup h s f c rel =? 0 then blk_used s f (tree_lookup h s' f' c' rel) = false
           else tree_lookup h s' f' c' rel = tree_lookup h s f c rel;
  ro_other r : 0 <= r < 1024 ^ Z.of_nat h -> r <> rel ->
    tree_lookup h s' f' c' r = tree_lookup h s f c r;
  ro_cnt : exists k, 0 <= k /\ cnt' = cnt_add k cnt /\
    sb_unalloc_blocks (sprblk_buf f') = u32 (sb_unalloc_blocks (sprblk_buf f) - k)
}.
Arguments ro_step {h s s' fs f f' c c' rel cnt cnt' out} _.
Arguments ro_grown {h s s' fs f f' c c' rel cnt cnt' out} _.
Arguments ro_keep {h s s' fs f f' c c' rel cnt cnt' out} _ x _ _ _.
Arguments ro_out {h s s' fs f f' c c' rel cnt cnt' out} _.
Arguments ro_new {h s s' fs f f' c c' rel cnt cnt' out} _.
Arguments ro_other {h s s' fs f f' c c' rel cnt cnt' out} _ r _ _.
Arguments ro_cnt {h s s' fs f f' c c' rel cnt cnt' out} _.

(** Nothing is left of the attempt. *)
Record undone (s s' : fstate) (fs : Z) (f f' : fs_info) : Prop := mkUndone {
  un_step : step s s' fs f f';
  un_keep x : plain_blk f x -> blk_used s f x = true -> block_bytes s' f' x = block_bytes s f x;
  un_used x : 0 <= x < 32768 * ngroups f -> blk_used s' f' x = blk_used s f x
}.

Lemma root_ok_old h s s' fs f f' c rel cnt cnt' out :
  alloc_ok h s s' fs f f' c rel cnt cnt' out -> root_ok h s s' fs f f' c c rel cnt cnt' out.
Proof. intros []. by split. Qed.

Lemma root_ok_fresh h s s2 s' fs f f2 f' b rel cnt cnt' out :
  fs_ok s fs f -> minted_block s s2 fs f f2 0 b -> 0 <= rel < 1024 ^ Z.of_nat h ->
  match h with O => True | S _ => forall i, 0 <= i < 1024 -> child s2 f2 b i = 0 end ->
  alloc_ok h s2 s' fs f2 f' b rel (cnt_inc cnt) cnt' out ->
  root_ok h s s' fs f f' 0 b rel cnt cnt' out.
Proof.
  intros Ok Me Hr Hz A. split.
  - by apply (fb_step h s s2 s' fs f f2 f' 0 b rel _ _ _ Ok Me Hz A).
  - by apply (fb_grown h s s2 s' fs f f2 f' 0 b rel _ _ _ Ok Me Hz A).
  - intros x Hx Hu _. apply (fb_kept h s s2 s' fs f f2 f' 0 b rel _ _ _ Ok Me Hz A); [done..|]. destruct Hx. lia.
  - apply (ao_out A).
  - rewrite tree_lookup_zero. by apply (fb_lookup_new h s s2 s' fs f f2 f' 0 b rel _ _ _ Ok Me Hz A).
  - intros r Hrr Hne. rewrite tree_lookup_zero.
    by apply (fb_lookup_other h s s2 s' fs f f2 f' 0 b rel _ _ _ Ok Me Hz A).
  - by apply (fb_cnt h s s2 s' fs f f2 f' 0 b rel _ _ _ Ok Me Hz A).
Qed.

Lemma alloc_minted s s1 fs f f1 b :
  step s s1 fs f f1 -> data_blk f b -> blk_used s f b = false ->
  (forall x, plain_blk f x -> block_bytes s1 f1 x = block_bytes s f x) ->
  (forall x, 0 <= x < 32768 * ngroups f -> blk_used s1 f1 x = (x =? b) || blk_used s f x) ->
  sb_unalloc_blocks (sprblk_buf f1) = u32 (sb_unalloc_blocks (sprblk_buf f) - 1) ->
  minted_block s s1 fs f f1 0 b.
Proof. intros St Db Fb K U Sb. split; try done. intros x Hx _ _. by apply K. Qed.

Lemma zeroed_minted s s1 fs f f1 b :
  minted_block s s1 fs f f1 0 b ->
  exists s2, write_block fs b zero_block s1 = Done tt s2 /\ minted_block s s2 fs f f1 0 b /\
    forall i, 0 <= i < 1024 -> child s2 f1 b i = 0.
Proof.
  intros [St Db Fb K U Sb]. pose proof (st_geom St) as G. destruct zero_block_bytes as [Hzl Hzy].
  destruct (write_step s1 fs f1 (st_ok St) b zero_block) as (s2 & E & S2 & B2 & K2 & U2);
    [by apply (data_blk_geom f f1 G)|done|done|]. exists s2. split; [done|].
  split; [|by apply zero_children]. destruct (sg_params _ _ G) as (En & _).
  split; [exact (step_trans _ _ _ _ _ _ _ St S2)|done|done| | |done].
  - intros x Hx H0 Hb. by rewrite K2, K.
  - intros x Hx. rewrite U2, U by (rewrite ?En; done). done.
Qed.

Lemma minted_block_undone s s2 s' fs f f2 f' b cnt cnt' :
  minted_block s s2 fs f f2 0 b -> alloc_failed s2 s' fs f2 f' b true (cnt_inc cnt) cnt' -> cnt_ok cnt ->
  undone s s' fs f f' /\ cnt' = cnt.
Proof.
  intros Me F Hc. destruct (sg_params _ _ (st_geom (me_step Me))) as (En & _). split; [|rewrite (af_cnt F); by apply cnt_dec_inc].
  split; [exact (step_trans _ _ _ _ _ _ _ (me_step Me) (af_step F))| |].
  - intros x Hx Hu. assert (x <> b) by (pose proof (me_free Me); congruence).
    rewrite (af_keep F); [apply (me_keep Me); [done|destruct Hx; lia|done]| | |done].
    + by apply (plain_blk_geom f f2 (st_geom (me_step Me))).
    + rewrite (me_used Me), Hu by (destruct Hx; lia). apply orb_true_r.
  - intros x Hx. rewrite (af_used F), (me_used Me) by (rewrite ?En; done). cbn [andb].
    destruct (Z.eqb_spec x b) as [->|]; cbn; [by rewrite (me_free Me)|by rewrite andb_true_r].
Qed.

Lemma undone_refl s fs f : fs_ok s fs f -> undone s s fs f f.
Proof. intros Ok. split; [by apply step_refl|done|done]. Qed.

Lemma minted_block_used s s2 fs f f2 ptr b : minted_block s s2 fs f f2 ptr b -> blk_used s2 f2 b = true /\ data_blk f2 b.
Proof.
  intros Me. split; [|apply (data_blk_geom f f2 (st_geom (me_step Me))), Me].
  rewrite (me_used Me), Z.eqb_refl; [done|]. destruct (me_data Me) as (? & ? & _). lia.
Qed.

(** What [map_file_block] in [ALLOC_MODE] does at a root pointer. *)
Definition root_post (get : ext2_inode -> Z) (set : Z -> ext2_inode -> ext2_inode) (h : nat)
    (s : fstate) (fs : Z) (f : fs_info) (ino : ext2_inode) (rel : Z) (cnt : option Z)
    (o : outcome fstate map_res) : Prop :=
  match o with
  | Done r s' => exists f',
      (mr_ret r = INODE_WRITE_SUCCESS /\ exists c', mr_inode r = set c' ino /\
         root_ok h s s' fs f f' (get ino) c' rel cnt (mr_cnt r) (mr_out r)) \/
      (mr_ret r = BLOCK_ERROR /\ mr_inode r = ino /\ mr_cnt r = cnt /\ mr_out r = None /\ undone s s' fs f f')
  | Halted h _ => h = corrupted
  end.

Section roots.
Context (get : ext2_inode -> Z) (set : Z -> ext2_inode -> ext2_inode) (ino : ext2_inode).
Context (get_set : forall v, get (set v ino) = v).
Context (set_get : set (get ino) ino = ino).
Context (set_set : forall v w, set v (set w ino) = set v ino).

Lemma from_root_alloc d s fs f rel cnt :
  fs_ok s fs f -> tree_wf (S d) s f (get ino) -> 0 <= rel < 1024 ^ Z.of_nat (S d) -> cnt_ok cnt ->
  root_post get set (S d) s fs f ino rel cnt (from_root get set d fs ino rel ALLOC_MODE cnt s).
Proof using All.
  intros Ok T Hr Hc. unfold from_root, mint_root, bodyE, bindE. change (negb (ALLOC_MODE =? ALLOC_MODE)) with false.
  destruct (Z.eqb_spec (get ino) 0) as [E0|E0]; cbv iota.
  - destruct (alloc_step s fs f Ok) as [E | [E | (b & s1 & f1 & E & S1 & Db & Fb & K & U & Sb)]].
    + unfold bindM at 1 2 3. rewrite E. cbn. exists f. right. rewrite <- E0 at 1. split; [done|].
      rewrite set_get. do 3 (split; [done|]). by apply undone_refl.
    + unfold bindM at 1 2 3. rewrite E. done.
    + assert (b <> 0) as Hb0 by (destruct Db as (? & _); lia).
      destruct (zeroed_minted s s1 fs f f1 b) as (s2 & Ew & Me & Hz); [by apply alloc_minted|].
      destruct (minted_block_used _ _ _ _ _ _ _ Me) as [Ub Dbf].
      pose proof (walk_alloc d s2 fs f1 b true rel (cnt_inc cnt) (st_ok (me_step Me))) as H.
      unfold bindM at 1 2 3. rewrite E. zfalse (b =? 0). rewrite (bindM_Done _ _ _ _ _ Ew).
      cbn -[walk Z.pow Z.of_nat]. rewrite get_set. unfold bindM at 1.
      destruct (walk d fs b true rel ALLOC_MODE (cnt_inc cnt) s2) as [[[[r gone] cnt'] out] s'|h s'];
        [|apply H; [by apply fresh_wf|done|done|apply cnt_ok_inc|done]].
      destruct H as (f' & [(-> & -> & A) | (-> & -> & -> & F)]); [by apply fresh_wf|done|done|apply cnt_ok_inc|done| |].
      * exists f'. left. split; [done|]. exists b. split; [done|]. rewrite E0.
        by apply (root_ok_fresh (S d) s s2 s' fs f f1 f' b rel).
      * exists f'. right. cbn. destruct (minted_block_undone s s2 s' fs f f1 f' b cnt cnt' Me F Hc) as [Un ->].
        split; [done|]. split; [|done]. rewrite set_set, <- E0. apply set_get.
  - pose proof (walk_alloc d s fs f (get ino) false rel cnt Ok T E0 Hr Hc ltac:(done)) as H.
    unfold bindM, retM. cbv beta iota.
    destruct (walk d fs (get ino) false rel ALLOC_MODE cnt s) as [[[[r gone] cnt'] out] s'|h s']; [|done].
    destruct H as (f' & [(-> & -> & A) | (-> & -> & -> & F)]); exists f'; [left|right]; (split; [done|]).
    + exists (get ino). split; [done|]. by apply root_ok_old.
    + split; [done|]. split; [apply (af_cnt F)|]. split; [done|].
      split; [apply F|intros x Hx Hu; by apply (af_keep F)|]. intros x Hx. rewrite (af_used F) by done.
      cbn. apply andb_true_r.
Qed.
End roots.

(** ** Whole files *)

Definition set_root (k v : Z) (ino : ext2_inode) : ext2_inode :=
  if k <? 12 then set_dir_ptr k v ino
  else if k =? 12 then set_singly v ino
  else if k =? 13 then set_doubly v ino else set_triply v ino.

Section lens.
Context (ino : ext2_inode) (Hl : length (dir_block_ptr ino) = 12%nat).

Lemma root_of_set k k' v : 0 <= k < 15 -> 0 <= k' < 15 ->
  root_of (set_root k v ino) k' = if k' =? k then v else root_of ino k'.
Proof using Hl.
  intros Hk Hk'. unfold root_of, set_root, dir_ptr, set_dir_ptr.
  destruct (Z.ltb_spec k 12); destruct (Z.ltb_spec k' 12).
  - cbn [dir_block_ptr with_blocks]. destruct (Z.eqb_spec k' k) as [->|].
    + by rewrite list_lookup_insert_eq by lia.
    + by rewrite list_lookup_insert_ne by lia.
  - zfalse (k' =? k). by repeat zcase.
  - zfalse (k' =? k). by repeat zcase.
  - repeat zcase; (done || lia).
Qed.

Lemma set_root_get k : 0 <= k < 15 -> set_root k (root_of ino k) ino = ino.
Proof using Hl.
  intros Hk. unfold root_of, set_root, dir_ptr, set_dir_ptr. destruct (Z.ltb_spec k 12).
  - destruct (lookup_lt_is_Some_2 (dir_block_ptr ino) (Z.to_nat k)) as [x Hx]; [lia|].
    rewrite Hx. cbn [default]. rewrite list_insert_id by done. by destruct ino.
  - repeat zcase; by destruct ino.
Qed.

Lemma set_root_set k v w : set_root k v (set_root k w ino) = set_root k v ino.
Proof using Hl.
  unfold set_root, set_dir_ptr. destruct (k <? 12).
  - cbn [dir_block_ptr with_blocks]. by rewrite list_insert_insert_eq.
  - destruct (k =? 12); [done|]. by destruct (k =? 13).
Qed.

Lemma set_root_len k v : length (dir_block_ptr (set_root k v ino)) = 12%nat.
Proof using Hl.
  unfold set_root, set_dir_ptr. destruct (k <? 12).
  - cbn [dir_block_ptr with_blocks]. by rewrite length_insert.
  - destruct (k =? 12); [done|]. by destruct (k =? 13).
Qed.
End lens.

Lemma map_direct_alloc s fs f ino k cnt :
  fs_ok s fs f -> tree_wf 0 s f (root_of ino k) -> length (dir_block_ptr ino) = 12%nat -> 0 <= k < 12 -> cnt_ok cnt ->
  root_post (fun i => root_of i k) (set_root k) 0 s fs f ino 0 cnt (map_direct fs ino k ALLOC_MODE cnt s).
Proof.
  intros Ok T Hl Hk Hc.
  pose proof (root_of_set ino Hl k k) as Hg. pose proof (set_root_get ino Hl k ltac:(lia)) as Hs.
  assert (forall i, dir_ptr i k = root_of i k) as Ed by (intros; symmetry; apply root_of_direct; lia).
  assert (forall v, set_dir_ptr k v ino = set_root k v ino) as Es by (intros; unfold set_root; by ztrue (k <? 12)).
  unfold map_direct. rewrite Ed. change (negb (ALLOC_MODE =? ALLOC_MODE)) with false.
  change (ALLOC_MODE =? FREE_MODE) with false. unfold bodyE, bindE.
  destruct (Z.eqb_spec (root_of ino k) 0) as [E0|E0]; cbv iota.
  - destruct (alloc_step s fs f Ok) as [E | [E | (b & s1 & f1 & E & S1 & Db & Fb & K & U & Sb)]];
      unfold bindM, retM, leaveE; rewrite E; cbv beta iota.
    + exists f. right. split; [done|]. cbn [mr_inode]. rewrite Es, <- E0, Hs. do 3 (split; [done|]). by apply undone_refl.
    + done.
    + assert (b <> 0) as Hb0 by (destruct Db as (? & _); lia). zfalse (b =? 0). cbv beta iota.
      pose proof (alloc_minted s s1 fs f f1 b S1 Db Fb K U Sb) as Me.
      destruct (minted_block_used _ _ _ _ _ _ _ Me) as [Ub Dbf].
      exists f1. left. split; [done|]. exists b. rewrite Es. cbn [mr_inode mr_cnt mr_out]. split; [done|].
      rewrite E0, Ed, Hg by lia. rewrite Z.eqb_refl.
      apply (root_ok_fresh 0 s s1 s1 fs f f1 f1 b 0 cnt); [done|done|done|done|].
      apply (alloc_ok_found 0 s1 fs f1 b 0 _ (st_ok S1)); [by apply (fresh_wf 0 s1 f1 b I)|done|apply cnt_ok_inc].
  - exists f. left. split; [done|]. exists (root_of ino k). split; [by rewrite Hs|].
    cbn [mr_cnt mr_out]. rewrite Ed. apply root_ok_old. by apply alloc_ok_found.
Qed.

(** The file blocks of an inode: all blocks of its trees. *)
Definition in_file (s : fstate) (f : fs_info) (ino : ext2_inode) (x : Z) : Prop :=
  exists k, 0 <= k < 15 /\ in_tree (root_h k) s f (root_of ino k) x.

Section file.
Context (s s' : fstate) (fs : Z) (f f' : fs_info) (ino : ext2_inode) (k c' rel : Z) (cnt cnt' out : option Z).
Context (F : file_wf s f ino) (Hk : 0 <= k < 15).
Context (R : root_ok (root_h k) s s' fs f f' (root_of ino k) c' rel cnt cnt' out).
Let Hl := fw_len s f ino F.

Lemma file_sibling_kept j x : 0 <= j < 15 -> j <> k -> in_tree (root_h j) s f (root_of ino j) x ->
  block_bytes s' f' x = block_bytes s f x /\ blk_used s' f' x = true.
Proof using All.
  intros Hj Hne Hx. destruct (in_tree_data _ s f _ x (fw_tree s f ino F j Hj) Hx) as [Hd Hu]. split.
  - apply (ro_keep R); [by apply data_plain|done|]. intros Hx'. by apply Hne, (fw_apart s f ino F j k x).
  - apply (gr_mono (ro_grown R)); [|done]. destruct Hd as (? & ? & _). lia.
Qed.

Lemma file_sibling_in j x : 0 <= j < 15 -> j <> k ->
  in_tree (root_h j) s' f' (root_of ino j) x <-> in_tree (root_h j) s f (root_of ino j) x.
Proof using All. intros Hj Hne. apply in_tree_same. intros y Hy. by apply (file_sibling_kept j y). Qed.

Lemma file_root j : 0 <= j < 15 -> root_of (set_root k c' ino) j = if j =? k then c' else root_of ino j.
Proof using All. intros Hj. by apply root_of_set. Qed.

Lemma file_new x : in_tree (root_h k) s' f' c' x -> blk_used s f x = true -> in_tree (root_h k) s f (root_of ino k) x.
Proof using All. intros Hx Hu. apply (gr_in (ro_grown R)) in Hx as [|]; congruence. Qed.

Lemma file_wf_grown : file_wf s' f' (set_root k c' ino).
Proof using All.
  split.
  - by apply set_root_len.
  - intros j Hj. rewrite file_root by done. destruct (Z.eqb_spec j k) as [->|Hne]; [apply (gr_wf (ro_grown R))|].
    apply (tree_wf_same s s' f f' _ _ (st_geom (ro_step R))); [|by apply F].
    intros x Hx. by apply (file_sibling_kept j x).
  - intros j l x Hj Hll. rewrite !file_root by done.
    destruct (Z.eqb_spec j k) as [->|Hjk]; destruct (Z.eqb_spec l k) as [->|Hlk]; [done| | |].
    + rewrite file_sibling_in by done. intros H1 H2. apply (fw_apart s f ino F k l x); [done..| |done].
      apply file_new; [done|]. by apply (in_tree_data _ s f _ x (fw_tree s f ino F l Hll)).
    + rewrite file_sibling_in by done. intros H1 H2. apply (fw_apart s f ino F j k x); [done..|].
      apply file_new; [done|]. by apply (in_tree_data _ s f _ x (fw_tree s f ino F j Hj)).
    + rewrite !file_sibling_in by done. by apply (fw_apart s f ino F).
Qed.

Lemma file_block_grown idx idx' :
  0 <= idx < max_blocks -> 0 <= idx' < max_blocks -> locate idx = (k, rel) ->
  file_block s' f' (set_root k c' ino) idx' =
    if idx' =? idx then tree_lookup (root_h k) s' f' c' rel else file_block s f ino idx'.
Proof using All.
  intros Hi Hi' E. destruct (locate_range idx' Hi') as [Hj Hr]. unfold file_block.
  rewrite file_root by done. destruct (Z.eqb_spec idx' idx) as [->|Hne].
  - rewrite E. cbn [fst snd]. by rewrite Z.eqb_refl.
  - destruct (Z.eqb_spec (locate idx').1 k) as [Ek|Ek].
    + rewrite Ek in *. apply (ro_other R); [done|]. intros Er. apply Hne.
      apply locate_inj; [lia..|]. rewrite E. destruct (locate idx'). cbn in *. congruence.
    + apply tree_lookup_same; [done|]. intros x Hx. by apply (file_sibling_kept (locate idx').1 x).
Qed.
End file.

Lemma map_ref_alloc s fs f ino idx cnt :
  fs_ok s fs f -> file_wf s f ino -> 0 <= idx < max_blocks -> cnt_ok cnt ->
  let k := (locate idx).1 in
  root_post (fun i => root_of i k) (set_root k) (root_h k) s fs f ino (locate idx).2 cnt
    (map_file_block fs ino idx ALLOC_MODE cnt s).
Proof.
  intros Ok F Hi Hc. cbv zeta. pose proof (locate_range idx Hi) as [Hk Hr]. rewrite map_file_block_eq by lia.
  pose proof (fw_tree s f ino F _ Hk) as T. pose proof (fw_len s f ino F) as Hl. unfold map_ref.
  unfold locate in *. destruct (Z.ltb_spec idx 12); cbn [fst snd] in *.
  { rewrite root_h_direct in * by done. apply map_direct_alloc; (done || lia). }
  destruct (Z.ltb_spec idx 1036); cbn [fst snd] in *.
  { exact (from_root_alloc singly_indir_block_ptr set_singly ino (fun v => eq_refl) (set_root_get ino Hl 12 Hk)
      (fun v w => eq_refl) 0 s fs f (idx - 12) cnt Ok T Hr Hc). }
  destruct (Z.ltb_spec idx 1049612); cbn [fst snd] in *.
  { exact (from_root_alloc doubly_indir_block_ptr set_doubly ino (fun v => eq_refl) (set_root_get ino Hl 13 Hk)
      (fun v w => eq_refl) 1 s fs f (idx - 1036) cnt Ok T Hr Hc). }
  exact (from_root_alloc triply_indir_block_ptr set_triply ino (fun v => eq_refl) (set_root_get ino Hl 14 Hk)
      (fun v w => eq_refl) 2 s fs f (idx - 1049612) cnt Ok T Hr Hc).
Qed.

(** C2. Allocating a file block.  On a well-formed file of a sound partition,
    [map_file_block] in [ALLOC_MODE] succeeds with a block that is then the
    file's block at that index (the one already there, or one that was free),
    keeps the file well-formed and every other file block where it was, leaves
    alone all used blocks outside the file, and counts exactly the blocks it
    took from the superblock's free count; or it fails because the partition is
    full, with inode, count, used blocks and contents as before; or it panics
    because a group's free count promised a block that is not there. *)
Theorem map_file_block_alloc (s : fstate) (fs : Z) (f : fs_info) (ino : ext2_inode) (idx : Z) (cnt : option Z) :
  fs_ok s fs f -> file_wf s f ino -> 0 <= idx < max_blocks -> cnt_ok cnt ->
  match map_file_block fs ino idx ALLOC_MODE cnt s with
  | Done r s' => exists f', step s s' fs f f' /\
      ((mr_ret r = INODE_WRITE_SUCCESS /\ exists b, mr_out r = Some b /\ b <> 0 /\
          (exists k v, mr_inode r = set_root k v ino) /\ file_wf s' f' (mr_inode r) /\
          (if file_block s f ino idx =? 0 then blk_used s f b = false else b = file_block s f ino idx) /\
          (forall idx', 0 <= idx' < max_blocks ->
             file_block s' f' (mr_inode r) idx' = if idx' =? idx then b else file_block s f ino idx') /\
          (forall x, plain_blk f x -> blk_used s f x = true -> ~ in_file s f ino x ->
             block_bytes s' f' x = block_bytes s f x) /\
          exists k, 0 <= k /\ mr_cnt r = cnt_add k cnt /\
            sb_unalloc_blocks (sprblk_buf f') = u32 (sb_unalloc_blocks (sprblk_buf f) - k)) \/
       (mr_ret r = BLOCK_ERROR /\ mr_inode r = ino /\ mr_cnt r = cnt /\ mr_out r = None /\
          (forall x, plain_blk f x -> blk_used s f x = true -> block_bytes s' f' x = block_bytes s f x) /\
          (forall x, 0 <= x < 32768 * ngroups f -> blk_used s' f' x = blk_used s f x)))
  | Halted h _ => h = Panic "KERNEL PANIC: CORRUPTED UNALLOC_BLOCK_CNT!!!"
  end.
Proof.
  intros Ok F Hi Hc. pose proof (map_ref_alloc s fs f ino idx cnt Ok F Hi Hc) as H. cbv zeta in H.
  destruct (locate_range idx Hi) as [Hk Hr]. destruct (map_file_block _ _ _ _ _ _) as [r s'|h s']; [|done].
  destruct H as (f' & [(Er & c' & Ei & R) | (Er & Ei & Ec & Eo & [St K U])]); exists f'.
  - split; [apply R|]. left. split; [done|]. destruct (ro_out R) as [Hne Eo].
    exists (tree_lookup (root_h (locate idx).1) s' f' c' (locate idx).2).
    split; [done|]. split; [done|]. split; [by eexists _, _|]. rewrite Ei.
    split; [by apply (file_wf_grown s s' fs f f' ino _ c' _ cnt _ _ F Hk R)|]. split.
    { pose proof (ro_new R) as Hn. unfold file_block. by destruct (_ =? 0). }
    split; [|split; [|apply R]].
    + intros idx' Hi'. apply (file_block_grown s s' fs f f' ino _ c' _ cnt _ _ F Hk R); [done|done|].
      by destruct (locate idx).
    + intros x Hx Hu Hn. apply (ro_keep R); [done..|]. intros Hin. apply Hn. by exists (locate idx).1.
  - split; [done|]. right. done.
Qed.

(** ** On the sample partition *)

Lemma demo_bitmap b : 0 <= b < 32768 -> blk_used Demo.state Demo.fs b = false -> 20 <= b < 50.
Proof.
  intros Hb. unfold blk_used. cbn [blks_per_grp Demo.fs]. rewrite Z.div_small, Z.mod_small by done.
  assert (block_bytes Demo.state Demo.fs (bb Demo.fs 0) = [255; 255; 15; 0; 0; 0; 252] ++ replicate 4089 255) as ->
    by (vm_compute; reflexivity).
  unfold bit_at. assert (0 <= b mod 8 < 8) as Hm by zlia. assert (0 <= b / 8 < 4096) as Hd by zlia.
  rewrite (Z.div_mod b 8) at 3 4 by lia. generalize dependent (b / 8). generalize dependent (b mod 8). clear b Hb.
  intros m Hm d Hd. destruct (Z.ltb_spec d 7) as [H7|H7].
  - assert (d = 0 \/ d = 1 \/ d = 2 \/ d = 3 \/ d = 4 \/ d = 5 \/ d = 6) as Hd7 by lia.
    assert (m = 0 \/ m = 1 \/ m = 2 \/ m = 3 \/ m = 4 \/ m = 5 \/ m = 6 \/ m = 7) as Hm8 by lia.
    clear -Hd7 Hm8. intuition subst; vm_compute in H; (discriminate || (split; (discriminate || reflexivity))).
  - rewrite lookup_total_app_r by (cbn; lia). rewrite lookup_total_replicate_2 by (cbn; lia).
    assert (m = 0 \/ m = 1 \/ m = 2 \/ m = 3 \/ m = 4 \/ m = 5 \/ m = 6 \/ m = 7) as Hm8 by lia.
    clear -Hm8. intros H. by destruct Hm8 as [-> | [-> | [-> | [-> | [-> | [-> | [-> | ->]]]]]]].
Qed.

Lemma demo_ok : fs_ok Demo.state 0 Demo.fs.
Proof.
  split; [apply Demo.wf|done|]. intros b Hb Hu. cbn [ngroups Demo.fs] in Hb. apply demo_bitmap in Hu; [|lia].
  split; [|split; [cbn; lia|split; [split; cbn; lia|]]].
  - split; [lia|]. change (sb_block_cnt (sprblk_buf Demo.fs)) with 50. lia.
  - intros g Hg. replace g with 0 by (cbn in Hg; lia).
    change (bb Demo.fs 0) with 2. change (ib Demo.fs 0) with 3. lia.
Qed.

(** File block 12 of an empty file needs a pointer block as well. *)
Lemma map_file_block_alloc_witness :
  exists r s' f', map_file_block 0 inode_zero 12 ALLOC_MODE (Some 0) Demo.state = Done r s' /\
    mr_out r = Some 21 /\ mr_cnt r = Some 2 /\ file_wf s' f' (mr_inode r) /\
    file_block s' f' (mr_inode r) 12 = 21 /\ file_block s' f' (mr_inode r) 13 = 0.
Proof.
  pose proof (map_file_block_alloc Demo.state 0 Demo.fs inode_zero 12 (Some 0) demo_ok (empty_file_wf _ _)) as H.
  specialize (H ltac:(unfold max_blocks; lia) ltac:(cbn; unfold is_u32; lia)).
  assert ((fun r => (mr_ret r, mr_out r, mr_cnt r)) <$>
            result (map_file_block 0 inode_zero 12 ALLOC_MODE (Some 0) Demo.state) =
          Some (INODE_WRITE_SUCCESS, Some 21, Some 2)) as E by (vm_compute; reflexivity).
  destruct (map_file_block 0 inode_zero 12 ALLOC_MODE (Some 0) Demo.state) as [r s'|]; [|discriminate E].
  cbn in E. injection E as Er Eo Ec.
  destruct H as (f' & _ & [(_ & b & Eb & _ & _ & Hw & _ & Hblk & _) | (E1 & _)]); [|rewrite Er in E1; discriminate E1].
  rewrite Eo in Eb. injection Eb as <-. exists r, s', f'. split; [reflexivity|]. split; [exact Eo|]. split; [exact Ec|].
  split; [exact Hw|]. split; (rewrite Hblk; [reflexivity|unfold max_blocks; lia]).
Defined.

