(* ===== verification/FileData.v ===== *)
(** * File data: writes below the block map

    The pointer tree of a file decides where its blocks are; writing one of
    its data blocks, or a block outside the file, leaves the tree alone.  These
    lemmas let the clients of the block map (directories, file contents) edit
    blocks without looking into the tree again. *)
From S2P Require Import Prelude Bytes Bitset CLib Disk Bitmap Inode BlockMap BlockAlloc.

(** [s'] is [s] with other contents of block [b]. *)
Record block_edit (s s' : fstate) (f : fs_info) (b : Z) : Prop := mkEdit {
  be_other x : x <> b -> block_bytes s' f x = block_bytes s f x;
  be_used x : data_blk f x -> blk_used s' f x = blk_used s f x
}.
Arguments be_other {s s' f b} _ x _.
Arguments be_used {s s' f b} _ x _.

Section edit.
Context (s s' : fstate) (f : fs_info) (b : Z) (Ed : block_edit s s' f b).

(** Outside the edited block. *)
Lemma edit_tree_other h ptr :
  ~ in_tree h s f ptr b -> tree_wf h s f ptr ->
  tree_wf h s' f ptr /\ (forall x, in_tree h s' f ptr x <-> in_tree h s f ptr x) /\
  forall r, 0 <= r < 1024 ^ Z.of_nat h -> tree_lookup h s' f ptr r = tree_lookup h s f ptr r.
Proof using Ed.
  intros Hn T.
  assert (forall x, in_tree h s f ptr x -> block_bytes s' f x = block_bytes s f x /\ blk_used s' f x = true) as Hs.
  { intros x Hx. destruct (in_tree_data h s f ptr x T Hx) as [Hd Hu]. split.
    - apply (be_other Ed). by intros ->.
    - by rewrite (be_used Ed). }
  split; [apply (tree_wf_same s s' f f h ptr); [apply same_geom_refl|done|done]|].
  split; [intros x; apply in_tree_same; intros; by apply Hs|].
  intros r Hr. apply tree_lookup_same; [done|]. intros x Hx. by apply Hs.
Qed.

(** At a leaf. *)
Lemma edit_tree_leaf h ptr rel :
  tree_wf h s f ptr -> 0 <= rel < 1024 ^ Z.of_nat h -> tree_lookup h s f ptr rel = b -> b <> 0 ->
  tree_wf h s' f ptr /\ (forall x, in_tree h s' f ptr x <-> in_tree h s f ptr x) /\
  forall r, 0 <= r < 1024 ^ Z.of_nat h -> tree_lookup h s' f ptr r = tree_lookup h s f ptr r.
Proof using Ed.
  revert ptr rel. induction h as [|h IH]; intros ptr rel T Hr Hl Hb.
  - cbn [tree_lookup] in Hl. subst ptr. split; [|done]. destruct T as [->|(Hd & Hu & _)]; [by left|].
    right. split; [done|]. split; [by rewrite (be_used Ed)|done].
  - destruct (walk_index h rel Hr) as [Hi Hm]. cbn [tree_lookup] in Hl.
    destruct (Z.eqb_spec ptr 0) as [->|Hp]; [congruence|].
    destruct T as [->|(Hd & Hu & Hc & Hap)]; [done|].
    set (i0 := rel / 1024 ^ Z.of_nat h) in *.
    assert (in_tree h s f (child s f ptr i0) b) as Hin by (rewrite <- Hl; apply lookup_in_tree; congruence).
    assert (ptr <> b) as Hpb by (intros ->; by apply (proj2 (Hc i0 Hi))).
    assert (block_bytes s' f ptr = block_bytes s f ptr) as Ep by (by apply (be_other Ed)).
    assert (forall i, 0 <= i < 1024 -> tree_wf h s' f (child s f ptr i) /\
      (forall x, in_tree h s' f (child s f ptr i) x <-> in_tree h s f (child s f ptr i) x) /\
      forall r, 0 <= r < 1024 ^ Z.of_nat h ->
        tree_lookup h s' f (child s f ptr i) r = tree_lookup h s f (child s f ptr i) r) as Hch.
    { intros i Hii. destruct (Z.eq_dec i i0) as [->|Hne]; [by apply (IH _ _ (proj1 (Hc i0 Hi)) Hm Hl Hb)|].
      apply edit_tree_other; [|by apply Hc]. intros Hx. apply Hne. by apply (Hap i i0 b). }
    split; [|split].
    + right. split; [done|]. split; [by rewrite (be_used Ed)|]. split.
      * intros i Hii. rewrite (child_same s s' f f ptr i Ep). destruct (Hch i Hii) as (Tw & Hx & _).
        split; [done|]. rewrite Hx. by apply Hc.
      * intros i j x Hii Hjj. rewrite !(child_same s s' f f ptr _ Ep).
        rewrite (proj1 (proj2 (Hch i Hii))), (proj1 (proj2 (Hch j Hjj))). by apply Hap.
    + intros x. cbn [in_tree]. split; intros [_ [->|(i & Hii & Hx)]]; (split; [done|]); try (by left); right; exists i;
        (split; [done|]).
      * rewrite (child_same s s' f f ptr i Ep) in Hx. by apply (Hch i Hii).
      * rewrite (child_same s s' f f ptr i Ep). by apply (Hch i Hii).
    + intros r Hrr. destruct (walk_index h r Hrr) as [Hri Hrm]. cbn [tree_lookup].
      rewrite (proj2 (Z.eqb_neq ptr 0)) by done. rewrite (child_same s s' f f ptr _ Ep). by apply Hch.
Qed.

(** An edit of a data block of the file, or of a block outside it. *)
Definition edits_data (ino : ext2_inode) : Prop :=
  ~ in_file s f ino b \/ exists idx, 0 <= idx < max_blocks /\ file_block s f ino idx = b /\ b <> 0.

Lemma edit_file ino :
  file_wf s f ino -> edits_data ino ->
  file_wf s' f ino /\ (forall x, in_file s' f ino x <-> in_file s f ino x) /\
  forall idx, 0 <= idx < max_blocks -> file_block s' f ino idx = file_block s f ino idx.
Proof using Ed.
  intros F He.
  assert (forall k, 0 <= k < 15 -> tree_wf (root_h k) s' f (root_of ino k) /\
    (forall x, in_tree (root_h k) s' f (root_of ino k) x <-> in_tree (root_h k) s f (root_of ino k) x) /\
    forall r, 0 <= r < 1024 ^ Z.of_nat (root_h k) ->
      tree_lookup (root_h k) s' f (root_of ino k) r = tree_lookup (root_h k) s f (root_of ino k) r) as Hk.
  { intros k Hk. destruct He as [Hn|(idx & Hi & Hb & Hne)].
    - apply edit_tree_other; [|by apply F]. intros Hx. apply Hn. by exists k.
    - destruct (locate_range idx Hi) as [Hl Hr]. destruct (Z.eq_dec k (locate idx).1) as [->|Hd].
      + by apply (edit_tree_leaf _ _ (locate idx).2); [apply F| | |].
      + apply edit_tree_other; [|by apply F]. intros Hx. apply Hd.
        apply (fw_apart s f ino F k (locate idx).1 b); [done..|]. unfold file_block in Hb. rewrite <- Hb.
        apply lookup_in_tree; [done|congruence]. }
  split; [|split].
  - split; [apply F|intros k H; by apply Hk|]. intros k k' x H H'.
    rewrite (proj1 (proj2 (Hk k H))), (proj1 (proj2 (Hk k' H'))). by apply F.
  - intros x. unfold in_file. split; intros (k & H & Hx); exists k; (split; [done|]); by apply (Hk k H).
  - intros idx Hi. destruct (locate_range idx Hi) as [Hl Hr]. unfold file_block. by apply Hk.
Qed.
End edit.

(** A file block is where it is for one index only. *)
Lemma tree_lookup_inj h s f ptr r r' :
  tree_wf h s f ptr -> 0 <= r < 1024 ^ Z.of_nat h -> 0 <= r' < 1024 ^ Z.of_nat h ->
  tree_lookup h s f ptr r = tree_lookup h s f ptr r' -> tree_lookup h s f ptr r <> 0 -> r = r'.
Proof.
  revert ptr r r'. induction h as [|h IH]; intros ptr r r' T Hr Hr' E Hn; [simpl in *; lia|].
  destruct (walk_index h r Hr) as [Hi Hm]. destruct (walk_index h r' Hr') as [Hi' Hm']. cbn [tree_lookup] in *.
  destruct (Z.eqb_spec ptr 0); [done|]. destruct T as [|(_ & _ & Hc & Hap)]; [done|].
  pose proof (lookup_in_tree h s f _ _ Hm Hn) as H1.
  pose proof (lookup_in_tree h s f (child s f ptr (r' / 1024 ^ Z.of_nat h)) _ Hm' ltac:(congruence)) as H2.
  rewrite <- E in H2. pose proof (Hap _ _ _ Hi Hi' H1 H2) as Ed. rewrite <- Ed in E.
  pose proof (IH _ _ _ (proj1 (Hc _ Hi)) Hm Hm' E Hn) as Em. pose proof (pow1024 h).
  rewrite (Z.div_mod r (1024 ^ Z.of_nat h)), (Z.div_mod r' (1024 ^ Z.of_nat h)) by lia. congruence.
Qed.

Lemma file_block_in s f ino idx : 0 <= idx < max_blocks -> file_block s f ino idx <> 0 -> in_file s f ino (file_block s f ino idx).
Proof.
  intros Hi Hn. destruct (locate_range idx Hi) as [Hl Hr]. exists (locate idx).1. split; [done|].
  by apply lookup_in_tree.
Qed.

Lemma file_block_data s f ino idx :
  file_wf s f ino -> 0 <= idx < max_blocks -> file_block s f ino idx <> 0 -> data_blk f (file_block s f ino idx).
Proof.
  intros F Hi Hn. destruct (file_block_in s f ino idx Hi Hn) as (k & Hk & Hx).
  by apply (in_tree_data _ s f _ _ (fw_tree s f ino F k Hk) Hx).
Qed.

Lemma file_block_inj s f ino i j :
  file_wf s f ino -> 0 <= i < max_blocks -> 0 <= j < max_blocks ->
  file_block s f ino i = file_block s f ino j -> file_block s f ino i <> 0 -> i = j.
Proof.
  intros F Hi Hj E Hn. destruct (locate_range i Hi) as [Hl Hr]. destruct (locate_range j Hj) as [Hl' Hr'].
  unfold file_block in E, Hn. pose proof (lookup_in_tree _ s f _ _ Hr Hn) as H1.
  pose proof (lookup_in_tree _ s f (root_of ino (locate j).1) _ Hr' ltac:(congruence)) as H2.
  rewrite <- E in H2. pose proof (fw_apart s f ino F _ _ _ Hl Hl' H1 H2) as Ek.
  apply locate_inj; [lia..|]. destruct (locate i) as [k r], (locate j) as [k' r']. cbn [fst snd] in *. subst k'. f_equal.
  by apply (tree_lookup_inj _ s f _ _ _ (fw_tree s f ino F k Hl) Hr Hr').
Qed.
