(* ===== verification/FileOps.v ===== *)
(** * File contents: write, replace, append, insert, truncate

    The rest of kernel/fs/block/blockController.c: the operations on the
    contents of an inode, built on the block map.  A buffer is the list of
    bytes it holds, and reading past it is a fault.  An operation that fills
    [*out] on success answers [Some]. *)
From S2P Require Import Prelude Bytes Bitset CLib Disk Bitmap Inode BlockMap.

(** ** write_inode *)

(** The locals of [write_inode] that live across its loops. *)
Record wstate : Type := mkW {
  w_inode : ext2_inode; blocks_left : Z; buf_cursor : Z;
  flushed : bool; has_double : bool; has_triple : bool
}.
Definition w_set_inode (i : ext2_inode) (w : wstate) : wstate :=
  mkW i (blocks_left w) (buf_cursor w) (flushed w) (has_double w) (has_triple w).
Definition w_took (left cursor : Z) (w : wstate) : wstate :=
  mkW (w_inode w) left cursor (flushed w) (has_double w) (has_triple w).
Definition w_flags (fl dbl tpl : bool) (w : wstate) : wstate :=
  mkW (w_inode w) (blocks_left w) (buf_cursor w) fl dbl tpl.

(** The block filled from the buffer, and the cursor (in 16-bit words) after it. *)
Definition fill_block (buf : list Z) (size cursor : Z) : FM (list Z * Z) :=
  let copy_bytes := min (u32 (size - u32 (cursor * 2))) BLOCK_SIZE in
  guardM (cursor * 2 + copy_bytes <=? Z.of_nat (length buf)) ;;;
  let n := copy_bytes / 2 in
  let curr_blk := splice 0 (sub (Z.to_nat (2 * cursor)) (Z.to_nat (2 * n)) buf) zero_block in
  let cursor := u32 (cursor + n) in
  let curr_blk := if negb (copy_bytes mod 2 =? 0)
                  then st8 curr_blk (copy_bytes - 1) (ld8 buf (cursor * 2)) else curr_blk in
  retM (curr_blk, cursor).

(** A block of data: allocated, counted, filled and written. [None]: no room. *)
Definition write_data_block (fs : Z) (buf : list Z) (w : wstate) : FM (option (Z * wstate)) :=
  let* block_n := alloc_block fs in
  if block_n =? BLOCK_ERROR then retM None
  else
    let w := w_set_inode (add_disk_sectors 1 (w_inode w)) w in
    let* (curr_blk, cursor) := fill_block buf (size_lo (w_inode w)) (buf_cursor w) in
    write_block fs block_n curr_blk ;;;
    retM (Some (block_n, w_took (u32 (blocks_left w - 1)) cursor w)).

Definition write_direct (fs : Z) (buf : list Z) (i : Z) (w : wstate) : FM (Z * ext2_inode + wstate) :=
  let* r := write_data_block fs buf w in
  match r with
  | None => free_direct fs (w_inode w) ;;; leaveE (BLOCK_ERROR, w_inode w)
  | Some (block_n, w) => retM (inr (w_set_inode (set_dir_ptr i block_n (w_inode w)) w))
  end.

Definition free_entries (fs : Z) (layer : nat) (blk : list Z) : FM unit :=
  forM (Z.to_nat BIT_32_PER_BLK) 0 (fun i => indir_free_block fs layer (entry blk i)).

(** One data block under a singly indirect block. *)
Definition write_leaf (fs : Z) (buf : list Z) (triple_ptr_temp : Z) (curr_triply_indir_blk : list Z)
    (doubly_indir_blk_ptr : Z) (curr_doubly_indir_blk : list Z) (indir_blk_ptr : Z)
    (i : Z) (st : wstate * list Z) : FM (Z * ext2_inode + wstate * list Z) :=
  let '(w, curr_indir_blk) := st in
  let* r := write_data_block fs buf w in
  match r with
  | None =>
      free_direct fs (w_inode w) ;;;
      indir_free_block fs 1 (singly_indir_block_ptr (w_inode w)) ;;;
      indir_free_block fs 2 (doubly_indir_block_ptr (w_inode w)) ;;;
      free_entries fs 2 curr_triply_indir_blk ;;;
      free_entries fs 1 curr_doubly_indir_blk ;;;
      free_entries fs 0 curr_indir_blk ;;;
      free_block fs indir_blk_ptr ;;; free_block fs doubly_indir_blk_ptr ;;; free_block fs triple_ptr_temp ;;;
      leaveE (BLOCK_ERROR, w_inode w)
  | Some (block_n, w) => retM (inr (w, set_entry curr_indir_blk i block_n))
  end.

(** One singly indirect block, the first of which is the inode's own. *)
Definition write_singly (fs : Z) (buf : list Z) (triple_ptr_temp : Z) (curr_triply_indir_blk : list Z)
    (doubly_indir_blk_ptr : Z) (i : Z) (st : wstate * list Z) : FM (Z * ext2_inode + wstate * list Z) :=
  let '(w, curr_doubly_indir_blk) := st in
  let* indir_blk_ptr := alloc_block fs in
  if indir_blk_ptr =? BLOCK_ERROR then
    free_direct fs (w_inode w) ;;;
    indir_free_block fs 1 (singly_indir_block_ptr (w_inode w)) ;;;
    indir_free_block fs 2 (doubly_indir_block_ptr (w_inode w)) ;;;
    free_entries fs 2 curr_triply_indir_blk ;;;
    free_entries fs 1 curr_doubly_indir_blk ;;;
    free_block fs doubly_indir_blk_ptr ;;; free_block fs triple_ptr_temp ;;;
    leaveE (BLOCK_ERROR, w_inode w)
  else
    let w := w_set_inode (add_disk_sectors 1 (w_inode w)) w in
    let! (w, curr_indir_blk) :=
      whileE (Z.to_nat BIT_32_PER_BLK) 0 (fun st => 0 <? blocks_left st.1)
        (write_leaf fs buf triple_ptr_temp curr_triply_indir_blk doubly_indir_blk_ptr
           curr_doubly_indir_blk indir_blk_ptr) (w, zero_block) in
    if (0 <? blocks_left w) || negb (flushed w) then
      let* w :=
        if negb (flushed w) && (blocks_left w <=? 0) then
          write_block fs indir_blk_ptr curr_indir_blk ;;; retM (w_flags true (has_double w) (has_triple w) w)
        else if negb (flushed w) then write_block fs indir_blk_ptr curr_indir_blk ;;; retM w
        else retM w in
      if i =? 0 then retM (inr (w_set_inode (set_singly indir_blk_ptr (w_inode w)) w, curr_doubly_indir_blk))
      else retM (inr (w_flags (flushed w) true (has_triple w) w, set_entry curr_doubly_indir_blk (i - 1) indir_blk_ptr))
    else retM (inr (w, curr_doubly_indir_blk)).

(** One doubly indirect block, the first of which is the inode's own. *)
Definition write_doubly (fs : Z) (buf : list Z) (triple_ptr_temp : Z) (i : Z) (st : wstate * list Z)
    : FM (Z * ext2_inode + wstate * list Z) :=
  let '(w, curr_triply_indir_blk) := st in
  let w := w_flags (flushed w) false (has_triple w) w in
  let* doubly_indir_blk_ptr := alloc_block fs in
  if doubly_indir_blk_ptr =? BLOCK_ERROR then
    free_direct fs (w_inode w) ;;;
    free_entries fs 2 curr_triply_indir_blk ;;;
    indir_free_block fs 1 (singly_indir_block_ptr (w_inode w)) ;;;
    indir_free_block fs 2 (doubly_indir_block_ptr (w_inode w)) ;;;
    free_block fs triple_ptr_temp ;;;
    leaveE (BLOCK_ERROR, w_inode w)
  else
    let! (w, curr_doubly_indir_blk) :=
      whileE (Z.to_nat BIT_32_PER_BLK) 0 (fun st => 0 <? blocks_left st.1)
        (write_singly fs buf triple_ptr_temp curr_triply_indir_blk doubly_indir_blk_ptr) (w, zero_block) in
    (if negb (has_double w) then free_block fs doubly_indir_blk_ptr ;;; retM tt else retM tt) ;;;
    let* (w, curr_triply_indir_blk) :=
      if has_double w then
        write_block fs doubly_indir_blk_ptr curr_doubly_indir_blk ;;;
        if negb (i =? 0)
        then retM (w_set_inode (add_disk_sectors 1 (w_inode w)) (w_flags (flushed w) (has_double w) true w),
                   set_entry curr_triply_indir_blk (i - 1) doubly_indir_blk_ptr)
        else retM (w, curr_triply_indir_blk)
      else retM (w, curr_triply_indir_blk) in
    if (i =? 0) && has_double w
    then retM (inr (w_set_inode (add_disk_sectors 1 (set_doubly doubly_indir_blk_ptr (w_inode w))) w,
                    curr_triply_indir_blk))
    else retM (inr (w, curr_triply_indir_blk)).

Definition write_inode (fs : Z) (buf : list Z) (inode : ext2_inode) : FM (Z * ext2_inode) :=
  bodyE (
    let inode := clear_ptrs inode in
    let! w := whileE (Z.to_nat INODE_BLK_PTR_AMT) 0 (fun w => 0 <? blocks_left w) (write_direct fs buf)
                (mkW inode (blocks_for (size_lo inode)) 0 false false false) in
    let* triple_ptr_temp := alloc_block fs in
    if triple_ptr_temp =? BLOCK_ERROR then
      free_direct fs (w_inode w) ;;; leaveE (BLOCK_ERROR, w_inode w)
    else
      let! (w, curr_triply_indir_blk) :=
        whileE (Z.to_nat BIT_32_PER_BLK) 0 (fun st => 0 <? blocks_left st.1)
          (write_doubly fs buf triple_ptr_temp) (w, zero_block) in
      if has_triple w then
        let inode := set_triply triple_ptr_temp (w_inode w) in
        write_block fs triple_ptr_temp curr_triply_indir_blk ;;;
        retM (inr (INODE_WRITE_SUCCESS, add_disk_sectors 1 inode))
      else
        free_block fs triple_ptr_temp ;;;
        retM (inr (INODE_WRITE_SUCCESS, w_inode w))).

(** ** replace_inode *)

Definition replace_inode (fs inode_n : Z) (buf : list Z) (f_size : Z) : FM (Z * option ext2_inode) :=
  let* r := get_inode fs inode_n in
  match r with
  | None => retM (INODE_ERROR, None)
  | Some inode =>
      free_file_blocks fs inode ;;;
      let old_last_mod_time := last_mod_time inode in
      let* s := getM in
      let inode := set_mod (epoch_sec s) (set_disk_sectors 0 (set_size f_size inode)) in
      let* (ret, inode) := write_inode fs buf inode in
      if negb (ret =? INODE_WRITE_SUCCESS) then
        let inode := set_mod old_last_mod_time (set_disk_sectors 0 (set_size 0 (clear_ptrs inode))) in
        let* ok := set_inode fs inode_n inode in
        if negb ok
        then panicM "KERNEL PANIC: Error when trying to recover from a bad write_inode(), disk corruption occured!"
        else retM (INODE_ERROR, None)
      else
        let* ok := set_inode fs inode_n inode in
        if negb ok then retM (INODE_ERROR, None) else retM (INODE_WRITE_SUCCESS, Some inode)
  end.

(** ** append_to_inode *)

(** [*disk_blk_out] after a success, when it has been written. *)
Definition out_blk (r : map_res) : Z := default 0 (mr_out r).

(** [n] bytes of [src] from [from] on, copied over [dst] at [at_]. *)
Definition copy_bytes (dst : list Z) (at_ : Z) (src : list Z) (from n : Z) : FM (list Z) :=
  guardM ((from + n <=? Z.of_nat (length src)) && (at_ + n <=? Z.of_nat (length dst))) ;;;
  retM (splice (Z.to_nat at_) (sub (Z.to_nat from) (Z.to_nat n) src) dst).

(** The locals of [append_to_inode]. *)
Record astate : Type := mkA {
  a_inode : ext2_inode; buf_byte_cursor : Z; bytes_left : Z; alloc_cnt : Z; blk_idx : Z; alloced_backward : bool
}.

(** The last block of the file, when it is not full. *)
Definition append_tail (fs : Z) (buf : list Z) (old_size : Z) (a : astate)
    : FM (Z * option ext2_inode + astate) :=
  let old_blk_cnt := blocks_for old_size in
  if negb (old_size mod BLOCK_SIZE =? 0) then
    let* s := getM in
    let* r := map_file_block fs (a_inode a) (u32 (old_blk_cnt - 1)) LOOKUP_MODE None in
    let! (inode, cnt, tail_blk_n, slack_buf, backward) :=
      if mr_ret r =? EMPTY_BLOCK then
        let* q := map_file_block fs (mr_inode r) (u32 (old_blk_cnt - 1)) ALLOC_MODE (Some (alloc_cnt a)) in
        if negb (mr_ret q =? INODE_WRITE_SUCCESS) then leaveE (INODE_ERROR, None)
        else retM (inr (mr_inode q, default 0 (mr_cnt q), out_blk q, zero_block, true))
      else if mr_ret r =? INODE_WRITE_SUCCESS then
        let* b := read_block fs (out_blk r) in
        retM (inr (mr_inode r, alloc_cnt a, out_blk r, b, alloced_backward a))
      else leaveE (INODE_ERROR, None) in
    let tail_off := old_size mod BLOCK_SIZE in
    let splice_len := min (bytes_left a) (BLOCK_SIZE - tail_off) in
    let* slack_buf := copy_bytes slack_buf tail_off buf (buf_byte_cursor a) splice_len in
    write_block fs tail_blk_n slack_buf ;;;
    retM (inr (mkA inode (u32 (buf_byte_cursor a + splice_len)) (u32 (bytes_left a - splice_len)) cnt
                 (blk_idx a) backward))
  else retM (inr a).

Definition append_panic : string :=
  "KERNEL PANIC: Inode free block operation failed when attempting to free block after append failure, disk corruption occurred!!".

(** [FREE_MODE] on file block [i], which must succeed, then [free_block]. *)
Definition unmap_block (fs : Z) (msg : string) (i : Z) (inode : ext2_inode) (cnt : option Z)
    : FM (ext2_inode * option Z) :=
  let* r := map_file_block fs inode i FREE_MODE cnt in
  if negb (mr_ret r =? INODE_WRITE_SUCCESS) then panicM msg
  else free_block fs (out_blk r) ;;; retM (mr_inode r, mr_cnt r).

(** No room in the middle: the blocks appended so far are released. *)
Definition append_unwind (fs old_blk_cnt : Z) (a : astate) : FM (Z * option ext2_inode) :=
  let* inode := whileM (Z.to_nat (blk_idx a)) old_blk_cnt (fun _ => true) (fun i inode =>
                  let* (inode, _) := unmap_block fs append_panic i inode None in retM inode) (a_inode a) in
  (if alloced_backward a then unmap_block fs append_panic (u32 (old_blk_cnt - 1)) inode None ;;; retM tt
   else retM tt) ;;;
  retM (INODE_ERROR, None).

(** [while (bytes_left > 0)]: each turn takes a block's worth. *)
Fixpoint append_loop (fuel : nat) (fs : Z) (buf : list Z) (old_blk_cnt : Z) (a : astate)
    : FM (Z * option ext2_inode + astate) :=
  match fuel with
  | O => haltM OutOfFuel
  | S fuel =>
      if negb (0 <? bytes_left a) then retM (inr a)
      else
        let* r := map_file_block fs (a_inode a) (u32 (old_blk_cnt + blk_idx a)) ALLOC_MODE (Some (alloc_cnt a)) in
        if negb (mr_ret r =? INODE_WRITE_SUCCESS) then
          let* e := append_unwind fs old_blk_cnt
                      (mkA (mr_inode r) (buf_byte_cursor a) (bytes_left a) (default 0 (mr_cnt r)) (blk_idx a)
                         (alloced_backward a)) in
          leaveE e
        else
          let* s := getM in
          let add_amt := min (bytes_left a) BLOCK_SIZE in
          let* curr_blk := copy_bytes (fresh s) 0 buf (buf_byte_cursor a) add_amt in
          write_block fs (out_blk r) curr_blk ;;;
          append_loop fuel fs buf old_blk_cnt
            (mkA (mr_inode r) (u32 (buf_byte_cursor a + add_amt)) (u32 (bytes_left a - add_amt))
               (default 0 (mr_cnt r)) (u32 (blk_idx a + 1)) (alloced_backward a))
  end.

Definition append_to_inode (fs inode_n : Z) (buf : list Z) (f_size : Z) : FM (Z * option ext2_inode) :=
  let* r := get_inode fs inode_n in
  match r with
  | None => retM (INODE_ERROR, None)
  | Some inode =>
      let old_size := size_lo inode in
      if u32 (old_size + f_size) <? old_size then retM (INODE_ERROR, None)
      else
        bodyE (
          let! a := append_tail fs buf old_size (mkA inode 0 f_size 0 0 false) in
          let! a := append_loop (S (Z.to_nat (f_size / BLOCK_SIZE + 2))) fs buf (blocks_for old_size) a in
          let inode := add_disk_sectors (alloc_cnt a) (set_size (size_lo (a_inode a) + f_size) (a_inode a)) in
          let* s := getM in
          let inode := set_mod (epoch_sec s) inode in
          let* ok := set_inode fs inode_n inode in
          if negb ok then leaveE (INODE_ERROR, None) else retM (inr (INODE_WRITE_SUCCESS, Some inode)))
  end.

(** ** put_inode, truncate_inode *)

Definition put_inode (fs : Z) (buf : list Z) (f_size : Z) (is_dir : bool) : FM (Z * option ext2_inode) :=
  let ty := if is_dir then INODE_DIR_TYPE else INODE_FILE_TYPE in
  let* r := mint_inode fs f_size ty in
  match r with
  | (inode_n, Some inode) =>
      let* (ret, inode) := write_inode fs buf inode in
      if negb (ret =? INODE_WRITE_SUCCESS) then free_inode fs inode_n ;;; retM (INODE_ERROR, None)
      else
        let* f := get_fs fs in
        guardM (negb (inodes_per_grp f =? 0)) ;;;
        let group_n := u32 (inode_n - first_inode_n) / inodes_per_grp f in
        if (ngroups f <=? group_n) || (sb_inode_cnt (sprblk_buf f) <? inode_n)
        then panicM "mint_inode() failed to return a correct value!! disk corruption likely :-("
        else
          let* ok := set_inode fs inode_n inode in
          if negb ok then retM (INODE_ERROR, Some inode)
          else
            (if is_dir then add_dir_cnt fs group_n 1 else retM tt) ;;;
            retM (inode_n, Some inode)
  | (_, None) => retM (INODE_ERROR, None)
  end.

(** The blocks from [remove_start] on are released. *)
Definition truncate_blocks (fs remove_start total_blocks : Z) (inode : ext2_inode)
    : FM (Z * option ext2_inode + ext2_inode * Z) :=
  whileE (Z.to_nat (total_blocks - remove_start)) remove_start (fun _ => true)
    (fun blk st =>
       let* r := map_file_block fs st.1 blk FREE_MODE (Some st.2) in
       if negb (mr_ret r =? INODE_WRITE_SUCCESS) && negb (mr_ret r =? EMPTY_BLOCK)
       then leaveE (INODE_ERROR, None)
       else if mr_ret r =? EMPTY_BLOCK then retM (inr (mr_inode r, default 0 (mr_cnt r)))
       else free_block fs (out_blk r) ;;; retM (inr (mr_inode r, default 0 (mr_cnt r)))) (inode, 0).

(** The bytes of the last block past the new size are zeroed. *)
Definition truncate_tail (fs new_size : Z) (inode : ext2_inode) : FM (Z * option ext2_inode + unit) :=
  if negb (new_size mod BLOCK_SIZE =? 0) then
    let* r := map_file_block fs inode (new_size / BLOCK_SIZE) LOOKUP_MODE None in
    if negb (mr_ret r =? INODE_WRITE_SUCCESS) && negb (mr_ret r =? EMPTY_BLOCK)
    then leaveE (INODE_ERROR, None)
    else if negb (mr_ret r =? EMPTY_BLOCK) then
      let start := new_size mod BLOCK_SIZE in
      let* byte_buf := read_block fs (out_blk r) in
      write_block fs (out_blk r) (splice (Z.to_nat start) (replicate (Z.to_nat (BLOCK_SIZE - start)) 0) byte_buf) ;;;
      retM (inr tt)
    else retM (inr tt)
  else retM (inr tt).

Definition truncate_inode (fs inode_n new_size : Z) : FM (Z * option ext2_inode) :=
  let* r := get_inode fs inode_n in
  match r with
  | None => retM (INODE_ERROR, None)
  | Some inode =>
      if size_lo inode <? new_size then retM (INODE_ERROR, None)
      else
        bodyE (
          let! (inode, free_cnt) := truncate_blocks fs (blocks_for new_size) (blocks_for (size_lo inode)) inode in
          let! _ := truncate_tail fs new_size inode in
          let* s := getM in
          let inode := set_access (epoch_sec s) (set_mod (epoch_sec s)
                         (set_size new_size (add_disk_sectors (- free_cnt) inode))) in
          let* ok := set_inode fs inode_n inode in
          if negb ok then leaveE (INODE_ERROR, None) else retM (inr (INODE_WRITE_SUCCESS, Some inode)))
  end.

(** ** insert_in_inode *)

Definition unwind_panic : string :=
  "KERNEL PANIC: Attempted to recover data after a failed insert, but map_file_block() FREE_MODE failed!!".

Definition unwind_insert (fs inode_n : Z) (inode : ext2_inode) (unwind_buf : list Z) (free_cnt minted_cnt : Z)
    : FM unit :=
  let unwind_cursor := Z.of_nat (length unwind_buf) in
  let* (inode, u_cnt) :=
    whileM (length unwind_buf) 0 (fun _ => true) (fun i st =>
      let* (inode, cnt) := unmap_block fs unwind_panic (default 0 (unwind_buf !! Z.to_nat i)) st.1 (Some st.2) in
      retM (inode, default 0 cnt)) (inode, 0) in
  let inode := add_disk_sectors (- u32 (free_cnt + u32 (u_cnt - unwind_cursor - minted_cnt))) inode in
  let* ok := set_inode fs inode_n inode in
  if negb ok
  then panicM "KERNEL PANIC: Attempted to recover data after a failed insert, but set_inode() failed!!"
  else retM tt.

(** The locals that live across the loops of [insert_in_inode]; [unwind_buf]
    holds what has been pushed, at most [cap] entries. *)
Record istate : Type := mkI {
  i_inode : ext2_inode; i_alloc_cnt : Z; free_cnt : Z; unwind_buf : list Z; minted_cnt : Z
}.

Definition insert_fail {A} (fs inode_n ret : Z) (inode : ext2_inode) (st : istate)
    : FM (Z * option ext2_inode + A) :=
  unwind_insert fs inode_n inode (unwind_buf st) (free_cnt st) (minted_cnt st) ;;; leaveE (ret, None).

(** [map_file_block(..., ALLOC_MODE, ..., &alloc_cnt)] and, if it allocated, a
    note for [unwind_insert]; [ret_of] is what a failure returns. *)
Definition insert_alloc (fs inode_n cap : Z) (ret_of : Z -> Z) (idx : Z) (st : istate)
    : FM (Z * option ext2_inode + istate * Z) :=
  let* r := map_file_block fs (i_inode st) idx ALLOC_MODE (Some (i_alloc_cnt st)) in
  let cnt := default 0 (mr_cnt r) in
  if negb (mr_ret r =? INODE_WRITE_SUCCESS) then insert_fail fs inode_n (ret_of (mr_ret r)) (mr_inode r) st
  else if negb (i_alloc_cnt st =? cnt) then
    let* _ := guardM (Z.of_nat (length (unwind_buf st)) <? cap) in
    retM (inr (mkI (mr_inode r) cnt (free_cnt st) (unwind_buf st ++ [idx])
                 (u32 (minted_cnt st + u32 (cnt - i_alloc_cnt st) - 1)), out_blk r))
  else retM (inr (mkI (mr_inode r) cnt (free_cnt st) (unwind_buf st) (minted_cnt st), out_blk r)).

(** [LOOKUP_MODE] that may find a hole: [None] is a hole. *)
Definition insert_lookup (fs inode_n idx : Z) (st : istate) : FM (Z * option ext2_inode + option Z) :=
  let* r := map_file_block fs (i_inode st) idx LOOKUP_MODE None in
  if negb (mr_ret r =? INODE_WRITE_SUCCESS) && negb (mr_ret r =? EMPTY_BLOCK)
  then insert_fail fs inode_n (mr_ret r) (mr_inode r) st
  else retM (inr (if mr_ret r =? EMPTY_BLOCK then None else Some (out_blk r))).

(** [rem] bytes from the end of the lower block, the rest from the upper one. *)
Definition shifted_block (rem : Z) (lo hi : option (list Z)) : list Z :=
  (match lo with
   | Some blk_lo => sub (Z.to_nat (BLOCK_SIZE - rem)) (Z.to_nat rem) blk_lo
   | None => replicate (Z.to_nat rem) 0
   end) ++
  (match hi with
   | Some blk_hi => sub 0 (Z.to_nat (BLOCK_SIZE - rem)) blk_hi
   | None => replicate (Z.to_nat (BLOCK_SIZE - rem)) 0
   end).

Definition read_opt (fs : Z) (b : option Z) : FM (option (list Z)) :=
  match b with
  | Some b => let* blk := read_block fs b in retM (Some blk)
  | None => retM None
  end.

(** One turn of the loop that moves the old contents up by [f_size] bytes. *)
Definition shift_step (fs inode_n cap rem shift_blks dest_blk : Z) (st : istate)
    : FM (Z * option ext2_inode + istate) :=
  let src_blk := u32 (dest_blk - shift_blks) in
  let! hi := insert_lookup fs inode_n src_blk st in
  let! lo := if negb (rem =? 0) then insert_lookup fs inode_n (u32 (src_blk - 1)) st else retM (inr None) in
  match lo, hi with
  | None, None =>
      let* r := map_file_block fs (i_inode st) dest_blk FREE_MODE (Some (free_cnt st)) in
      (if mr_ret r =? INODE_WRITE_SUCCESS then free_block fs (out_blk r) ;;; retM tt else retM tt) ;;;
      retM (inr (mkI (mr_inode r) (i_alloc_cnt st) (default 0 (mr_cnt r)) (unwind_buf st) (minted_cnt st)))
  | _, _ =>
      let! (st, new_blk_n) := insert_alloc fs inode_n cap (fun r => r) dest_blk st in
      let* blk_lo := read_opt fs lo in
      let* blk_hi := read_opt fs hi in
      write_block fs new_blk_n (shifted_block rem blk_lo blk_hi) ;;;
      retM (inr st)
  end.

Fixpoint shift_loop (fuel : nat) (fs inode_n cap rem shift_blks bottom split dest_blk : Z) (st : istate)
    : FM (Z * option ext2_inode + istate) :=
  match fuel with
  | O => haltM OutOfFuel
  | S fuel =>
      if (dest_blk <? bottom) || ((dest_blk =? bottom) && negb (split =? 0)) then retM (inr st)
      else
        let! st := shift_step fs inode_n cap rem shift_blks dest_blk st in
        shift_loop fuel fs inode_n cap rem shift_blks bottom split (u32 (dest_blk - 1)) st
  end.

(** The block the inserted bytes end in: its upper part comes from [offset] on. *)
Fixpoint partial_fill (fuel : nat) (fs inode_n needed src_byte buf_idx : Z) (blk : list Z) (st : istate)
    : FM (Z * option ext2_inode + list Z) :=
  match fuel with
  | O => haltM OutOfFuel
  | S fuel =>
      if negb (0 <? needed) then retM (inr blk)
      else
        let src_offset := src_byte mod BLOCK_SIZE in
        let chunk := min needed (BLOCK_SIZE - src_offset) in
        let! src := insert_lookup fs inode_n (src_byte / BLOCK_SIZE) st in
        let* blk := match src with
                    | None => copy_bytes blk buf_idx (replicate (Z.to_nat chunk) 0) 0 chunk
                    | Some b => let* src := read_block fs b in copy_bytes blk buf_idx src src_offset chunk
                    end in
        partial_fill fuel fs inode_n (u32 (needed - chunk)) (u32 (src_byte + chunk)) (buf_idx + chunk) blk st
  end.

Definition insert_partial (fs inode_n cap split bottom offset : Z) (st : istate)
    : FM (Z * option ext2_inode + istate) :=
  if negb (split =? 0) then
    let! (st, partial_dest_blk) := insert_alloc fs inode_n cap (fun _ => INODE_ERROR) bottom st in
    let* blk := read_block fs partial_dest_blk in
    let! blk := partial_fill 4 fs inode_n (BLOCK_SIZE - split) offset split blk st in
    write_block fs partial_dest_blk blk ;;;
    retM (inr st)
  else retM (inr st).

(** The inserted bytes themselves. *)
Fixpoint insert_data (fuel : nat) (fs inode_n cap : Z) (buf : list Z) (offset old_size dest_byte buf_idx remaining : Z)
    (st : istate) : FM (Z * option ext2_inode + istate) :=
  match fuel with
  | O => haltM OutOfFuel
  | S fuel =>
      if negb (0 <? remaining) then retM (inr st)
      else
        let blk_offset := dest_byte mod BLOCK_SIZE in
        let chunk := min remaining (BLOCK_SIZE - blk_offset) in
        let! (st, blk_n) := insert_alloc fs inode_n cap (fun r => r) (dest_byte / BLOCK_SIZE) st in
        let* s := getM in
        let* blk := if negb (blk_offset =? 0) || negb (chunk =? BLOCK_SIZE)
                    then read_block fs blk_n else retM (fresh s) in
        let blk :=
          if (dest_byte =? offset) && (old_size <=? dest_byte - blk_offset) then
            let block_start := dest_byte - blk_offset in
            let zero_from := if block_start <? old_size then old_size - block_start else 0 in
            splice (Z.to_nat zero_from) (replicate (Z.to_nat (blk_offset - zero_from)) 0) blk
          else blk in
        let* blk := copy_bytes blk blk_offset buf buf_idx chunk in
        write_block fs blk_n blk ;;;
        insert_data fuel fs inode_n cap buf offset old_size (u32 (dest_byte + chunk)) (u32 (buf_idx + chunk))
          (u32 (remaining - chunk)) st
  end.

Definition insert_in_inode (fs inode_n : Z) (buf : list Z) (f_size offset : Z) : FM (Z * option ext2_inode) :=
  if f_size =? 0 then retM (INODE_WRITE_SUCCESS, None)
  else
    let* r := get_inode fs inode_n in
    match r with
    | None => retM (INODE_ERROR, None)
    | Some inode =>
        let old_size := size_lo inode in
        if (u32 (offset + f_size) <? offset) || (u32 (old_size + f_size) <? old_size) then retM (INODE_ERROR, None)
        else
          let new_size := max (u32 (offset + f_size)) (u32 (old_size + f_size)) in
          let top := u32 (blocks_for new_size - 1) in
          let bottom := u32 (offset + f_size) / BLOCK_SIZE in
          let cap := u32 (top - offset / BLOCK_SIZE + 1) in
          let split := u32 (offset + f_size) mod BLOCK_SIZE in
          bodyE (
            let! st := shift_loop (S (S (Z.to_nat (top - bottom)))) fs inode_n cap (f_size mod BLOCK_SIZE)
                         (f_size / BLOCK_SIZE) bottom split top (mkI inode 0 0 [] 0) in
            let! st := insert_partial fs inode_n cap split bottom offset st in
            let! st := insert_data (S (Z.to_nat (f_size / BLOCK_SIZE + 2))) fs inode_n cap buf offset old_size
                         offset 0 f_size st in
            let inode := set_size new_size (i_inode st) in
            let inode := if free_cnt st <=? i_alloc_cnt st
                         then add_disk_sectors (i_alloc_cnt st - free_cnt st) inode
                         else add_disk_sectors (- (free_cnt st - i_alloc_cnt st)) inode in
            let* s := getM in
            let inode := set_access (epoch_sec s) (set_mod (epoch_sec s) inode) in
            let* ok := set_inode fs inode_n inode in
            if negb ok then leaveE (INODE_ERROR, None) else retM (inr (INODE_WRITE_SUCCESS, Some inode)))
    end.
