(* ===== verification/Mount.v ===== *)
(** * Mount points: kernel/fs/mount/mount.c, without path lookup

    Which inodes of the root partition stand for the root directory of a
    mounted partition, and back, and the clean/dirty mark in the superblock.
    [mount_fs] and [umount_fs], which look paths up, are in Path.v.  The file
    system has no console: the warning of [mark_fs_state] at boot is
    [Boot.mount_messages]; what it, [mount_fs] and [umount_fs] print later is not
    modelled. *)
From S2P Require Import Prelude Bytes Bitset CLib Disk Bitmap.

Definition ROOT_INODE_N : Z := 2.
Definition FS_STATE_VALID_BIT : Z := 1.

(** [fs->superblk->fs_state = v] and the superblock goes to disk; a null
    [superblk] is a fault. *)
Definition mark_fs_state (fs : Z) (set_valid : bool) : FM unit :=
  let* f := get_fs fs in
  guardM (negb (superblk_null f)) ;;;
  let st := sb_fs_state (sprblk_buf f) in
  let st' := if set_valid then Z.lor st FS_STATE_VALID_BIT else Z.land st (cnot 16 FS_STATE_VALID_BIT) in
  put_fs fs (with_sprblk (st16 (sprblk_buf f) 58 st') f) ;;;
  write_superblock fs.

Definition mount_init : FM unit :=
  let* s := getM in
  modM (set_root_slot (root_fs s)) ;;;
  mark_fs_state (root_fs s) false.

(** The partition and inode to use, and whether they were replaced. *)
Definition return_mnt_root (fs inode_n : Z) : FM (Z * Z * bool) :=
  let* s := getM in
  if negb (fs =? root_fs s) then retM (fs, inode_n, false)
  else
    let* r := loopM (Z.to_nat MAX_MOUNTS) 0 (fun part =>
                let* f := get_fs part in
                retM (if mountpoint f =? inode_n then Some part else None)) in
    match r with
    | Some part => retM (part, ROOT_INODE_N, true)
    | None => retM (fs, inode_n, false)
    end.

Definition return_mnt_mountpoint (fs inode_n : Z) : FM (Z * Z * bool) :=
  let* s := getM in
  if (fs =? root_fs s) || negb (inode_n =? ROOT_INODE_N) then retM (fs, inode_n, false)
  else
    let* f := get_fs fs in
    retM (root_fs s, mountpoint f, true).
