(* ===== verification/DirBlock.v ===== *)
(** * Directory blocks: the entries of kernel/fs/ext2/directoryController.c

    One block of a directory is a chain of variable-length entries.  The
    loops of the source over one block are pure functions on its bytes here:
    [find_name], [find_other], [place_entry], [remove_entry], [lookup] and
    [ls_dir].  Names are C strings: lists of bytes with their terminator;
    reading past one is a fault.

    The contract is an association list: [repr b d] says that the block [b]
    is well-formed and holds the names [d], in order.  Searching, inserting
    and removing implement the operations of that list, and keep [repr]. *)
From S2P Require Import Prelude Bytes Bitset CLib Disk Inode.

Definition NAME_LEN : Z := 256.
Definition MAX_DIR_DEPTH : Z := 1024.
Definition MAX_SYMLINK_LEN : Z := 59.

(** ** Entries *)

(** [ALIGN4] on an [int] *)
Definition ALIGN4 (x : Z) : Z := Z.land (x + 3) (Z.lnot 3).

(** struct ext2_directory_entry at offset [c] *)
Definition de_inode (b : list Z) (c : Z) : Z := ld32 b c.
Definition de_size (b : list Z) (c : Z) : Z := ld16 b (c + 4).
Definition de_name_len (b : list Z) (c : Z) : Z := ld8 b (c + 6).
Definition de_name (b : list Z) (c : Z) : list Z := sub (Z.to_nat (c + 8)) (Z.to_nat (de_name_len b c)) b.
Definition true_size (b : list Z) (c : Z) : Z := ALIGN4 (8 + de_name_len b c).

(** The test on every entry but those of [lookup]. *)
Definition bad_entry (b : list Z) (c : Z) : bool :=
  (de_size b c <? 8) || (de_size b c <? true_size b c) || (BLOCK_SIZE <? c + de_size b c).

(** [len] bytes of an entry's name against a C string: [uint8_t] against
    (signed) [char], then the terminator. [None] reads past a buffer. *)
Fixpoint comp_name (len : nat) (a b : list Z) : option bool :=
  match len, a, b with
  | O, _, y :: _ => Some (y =? 0)
  | S len, x :: a, y :: b => if negb (x =? schar y) then Some false else comp_name len a b
  | _, _, _ => None
  end.

(** [comp_name(entry->name, entry->name_len_lo, name)] *)
Definition comp_entry (b : list Z) (c : Z) (name : list Z) : option bool :=
  comp_name (Z.to_nat (de_name_len b c)) (drop (Z.to_nat (c + 8)) b) name.

(** What a scan of one block ends with. *)
Inductive scan (A : Type) : Type :=
| ScHit (a : A)       (** the loop body left the loop *)
| ScEnd               (** the end of the block *)
| ScBad               (** a malformed entry *)
| ScFault             (** an access outside a buffer *)
| ScFuel.             (** the loop bound was too small *)
Arguments ScHit {A} a.
Arguments ScEnd {A}.
Arguments ScBad {A}.
Arguments ScFault {A}.
Arguments ScFuel {A}.

(** [while (cursor < BLOCK_SIZE)]; [visit] sees the entry and the one before. *)
Fixpoint scan_block {A} (fuel : nat) (b : list Z) (cursor prev : Z) (visit : Z -> Z -> option (scan A)) : scan A :=
  match fuel with
  | O => ScFuel
  | S fuel =>
      if BLOCK_SIZE <=? cursor then ScEnd
      else if Z.of_nat (length b) <? cursor + 8 then ScFault
      else if bad_entry b cursor then ScBad
      else
        match visit cursor prev with
        | Some r => r
        | None => scan_block fuel b (cursor + de_size b cursor) cursor visit
        end
  end.

(** An entry takes at least 8 bytes. *)
Definition scan_fuel : nat := 514.

(** [entry->inode != 0 && comp_name(entry->name, entry->name_len_lo, name)] *)
Definition entry_is (b name : list Z) (c : Z) : option bool :=
  if de_inode b c =? 0 then Some false else comp_entry b c name.

Definition find_name (b name : list Z) : scan (Z * Z) :=
  scan_block scan_fuel b 0 0 (fun c prev =>
    match entry_is b name c with
    | None => Some ScFault
    | Some true => Some (ScHit (c, prev))
    | Some false => None
    end).

Definition DOT : list Z := [46; 0].
Definition DOTDOT : list Z := [46; 46; 0].

(** An entry in use that is neither "." nor "..". *)
Definition find_other (b : list Z) : scan unit :=
  scan_block scan_fuel b 0 0 (fun c _ =>
    if de_inode b c =? 0 then None
    else
      match comp_entry b c DOT with
      | None => Some ScFault
      | Some true => None
      | Some false =>
          match comp_entry b c DOTDOT with
          | None => Some ScFault
          | Some true => None
          | Some false => Some (ScHit tt)
          end
      end).

(** The type byte of an entry for an inode. *)
Definition entry_type (child : ext2_inode) : Z :=
  if file_type child =? INODE_SYMLINK_TYPE then 7
  else if file_type child =? INODE_DIR_TYPE then 2 else 1.

(** Inode, name and type of the entry at [c]. *)
Definition fill_entry (b : list Z) (c inode_n len : Z) (name : list Z) (ty : Z) : list Z :=
  st8 (splice (Z.to_nat (c + 8)) (sub 0 (Z.to_nat len) name) (st8 (st32 b c inode_n) (c + 6) len)) (c + 7) ty.

(** Where an entry of [needed] bytes fits: an unused entry, or the slack after
    one; the new contents of the block. *)
Definition place_entry (b : list Z) (inode_n len needed : Z) (name : list Z) (ty : Z) : scan (list Z) :=
  scan_block scan_fuel b 0 0 (fun c _ =>
    if (de_inode b c =? 0) && (needed <=? de_size b c) then
      Some (ScHit (fill_entry b c inode_n len name ty))
    else
      let slack := de_size b c - true_size b c in
      if needed <=? slack then
        let c' := c + true_size b c in
        Some (ScHit (fill_entry (st16 (st16 b (c + 4) (true_size b c)) (c' + 4) slack) c' inode_n len name ty))
      else None).

(** The entry at [c] taken out: the first one is marked unused, another is
    joined to the one before it. *)
Definition remove_entry (b : list Z) (c prev : Z) : list Z :=
  if c =? 0 then st32 b c 0 else st16 b (prev + 4) (de_size b prev + de_size b c).

(** The block of a directory with no entry: one unused entry over all of it. *)
Definition seed_block : list Z := st16 zero_block 4 BLOCK_SIZE.

(** ** [lookup], which trusts the entries *)

Fixpoint lookup_from (fuel : nat) (b name : list Z) (cursor size : Z) : scan Z :=
  match fuel with
  | O => ScFuel
  | S fuel =>
      if size <=? cursor then ScEnd
      else if Z.of_nat (length b) <? cursor + 8 then ScFault
      else
        let next := u32 (cursor + de_size b cursor) in
        if de_size b cursor =? 0 then ScBad
        else if de_inode b cursor =? 0 then lookup_from fuel b name next size
        else
          match comp_entry b cursor name with
          | None => ScFault
          | Some true => ScHit (de_inode b cursor)
          | Some false => lookup_from fuel b name next size
          end
  end.
Definition lookup (b name : list Z) (size : Z) : scan Z := lookup_from (S (Z.to_nat size)) b name 0 size.

(** [ls_dir]: the rows so far; [inl] is [return false] with them. *)
Fixpoint ls_dir_from (fuel : nat) (b : list Z) (cursor size max : Z) (rows : list (Z * list Z))
    : option (list (Z * list Z) + list (Z * list Z)) :=
  match fuel with
  | O => None
  | S fuel =>
      if size <=? cursor then Some (inr rows)
      else if Z.of_nat (length rows) =? max then Some (inl rows)
      else if Z.of_nat (length b) <? cursor + 8 then None
      else
        let next := u32 (cursor + de_size b cursor) in
        if de_size b cursor =? 0 then Some (inl rows)
        else if de_inode b cursor =? 0 then ls_dir_from fuel b next size max rows
        else if Z.of_nat (length b) <? cursor + 8 + de_name_len b cursor then None
        else ls_dir_from fuel b next size max (rows ++ [(de_inode b cursor, de_name b cursor ++ [0])])
  end.
Definition ls_dir (b : list Z) (size max : Z) : option (list (Z * list Z) + list (Z * list Z)) :=
  ls_dir_from (S (Z.to_nat size)) b 0 size max [].

(** ** Chains of entries *)

Definition ok_entry (b : list Z) (c : Z) : Prop := 0 <= c /\ bad_entry b c = false.

(** The entries at the offsets [l] lead from [c] to [e]. *)
Inductive seg (b : list Z) : Z -> list Z -> Z -> Prop :=
| seg_nil c : seg b c [] c
| seg_cons c l e : ok_entry b c -> seg b (c + de_size b c) l e -> seg b c (c :: l) e.

Definition live_entry (b : list Z) (c : Z) : option (list Z * Z) :=
  if de_inode b c =? 0 then None else Some (de_name b c, de_inode b c).
Definition live (b l : list Z) : list (list Z * Z) := omap (live_entry b) l.

(** No name holds a terminator. *)
Definition plain_name (n : list Z) : Prop := Forall (fun x => x <> 0) n.

(** The block [b] is well-formed and holds the names [d]. *)
Definition repr (b : list Z) (d : list (list Z * Z)) : Prop :=
  length b = 4096%nat /\ bytes_ok b /\ Forall (fun p => plain_name p.1) d /\
  exists l, seg b 0 l BLOCK_SIZE /\ live b l = d.

(** Searching and deleting in an association list. *)
Fixpoint afind (n : list Z) (d : list (list Z * Z)) : option Z :=
  match d with
  | [] => None
  | (m, i) :: d => if decide (m = n) then Some i else afind n d
  end.
Fixpoint adel (n : list Z) (d : list (list Z * Z)) : list (list Z * Z) :=
  match d with
  | [] => []
  | (m, i) :: d => if decide (m = n) then d else (m, i) :: adel n d
  end.

Lemma afind_app n d1 d2 : afind n d1 = None -> afind n (d1 ++ d2) = afind n d2.
Proof. induction d1 as [|[m i] d1 IH]; simpl; [done|]. by case_decide. Qed.

Lemma adel_app n d1 d2 : afind n d1 = None -> adel n (d1 ++ d2) = d1 ++ adel n d2.
Proof. induction d1 as [|[m i] d1 IH]; simpl; [done|]. case_decide; [done|]. intros. by rewrite IH. Qed.

Lemma afind_concat_none n ds : (forall i d, ds !! i = Some d -> afind n d = None) -> afind n (concat ds) = None.
Proof.
  induction ds as [|d ds IH]; intros H; simpl; [done|]. rewrite afind_app by (apply (H 0%nat); done).
  apply IH. intros i d' Hi. by apply (H (S i)).
Qed.

Lemma afind_concat_some n ds j d i :
  ds !! j = Some d -> afind n d = Some i -> (forall k d', (k < j)%nat -> ds !! k = Some d' -> afind n d' = None) ->
  afind n (concat ds) = Some i.
Proof.
  revert j. induction ds as [|d0 ds IH]; intros j Hd Hi Hk; [done|]. simpl. destruct j as [|j].
  - injection Hd as ->. clear -Hi. induction d as [|[m x] d IH]; simpl in *; [done|]. by case_decide; [|apply IH].
  - rewrite afind_app by (apply (Hk 0%nat); [lia|done]). apply (IH j); [done..|].
    intros k d' H. apply (Hk (S k)). lia.
Qed.

Lemma ALIGN4_spec x : 0 <= x -> x <= ALIGN4 x < x + 4.
Proof.
  intros H. unfold ALIGN4. rewrite <- Z.ldiff_land.
  assert (Z.ldiff (x + 3) 3 = (x + 3) / 4 * 4) as ->; [|zlia].
  change (Z.ldiff (x + 3) 3) with (Z.ldiff (x + 3) (Z.ones 2)).
  by rewrite Z.ldiff_ones_r, Z.shiftr_div_pow2, Z.shiftl_mul_pow2 by lia.
Qed.

Lemma ok_entry_bounds b c :
  bytes_ok b -> ok_entry b c ->
  0 <= c /\ 0 <= de_name_len b c < 256 /\ 8 + de_name_len b c <= true_size b c <= de_size b c /\
  8 <= de_size b c /\ c + de_size b c <= 4096.
Proof.
  intros Hb [Hc H]. unfold bad_entry in H. apply orb_false_iff in H as [H1 H2].
  apply orb_false_iff in H1 as [H0 H1].
  pose proof (ld_range 1 b (c + 6) Hb) as Hn. fold (de_name_len b c) in Hn. change (256 ^ Z.of_nat 1) with 256 in Hn.
  pose proof (ALIGN4_spec (8 + de_name_len b c)) as Ha. fold (true_size b c) in Ha.
  unfold BLOCK_SIZE in *. lia.
Qed.

Lemma seg_bounds b c l e :
  bytes_ok b -> seg b c l e ->
  c + 8 * Z.of_nat (length l) <= e /\ (e <= 4096 \/ l = []) /\ Forall (fun x => ok_entry b x /\ c <= x < e) l.
Proof.
  intros Hb. induction 1 as [c|c l e Hc Hs (IH1 & IH2 & IH3)].
  - simpl. split; [lia|]. split; [by right|constructor].
  - pose proof (ok_entry_bounds b c Hb Hc). simpl length. rewrite Nat2Z.inj_succ.
    split; [lia|]. split.
    { left. destruct IH2 as [?| ->]; [done|]. inversion Hs; subst. lia. }
    constructor; [split; [done|lia]|]. eapply Forall_impl; [exact IH3|]. simpl. intros x [? ?]. split; [done|lia].
Qed.

Lemma seg_app b c l1 m l2 e : seg b c l1 m -> seg b m l2 e -> seg b c (l1 ++ l2) e.
Proof. induction 1 as [|c l m Hc Hs IH]; [done|]. intros H2. simpl. constructor; auto. Qed.

Lemma seg_split b c l1 l2 e :
  seg b c (l1 ++ l2) e -> exists m, seg b c l1 m /\ seg b m l2 e.
Proof.
  revert c. induction l1 as [|x l1 IH]; intros c H; simpl in *.
  - exists c. split; [constructor|done].
  - inversion H as [|? ? ? Hc Hs]; subst. destruct (IH _ Hs) as (m & H1 & H2). exists m. split; [by constructor|done].
Qed.

Lemma seg_mid b c l1 x l2 e :
  seg b c (l1 ++ x :: l2) e -> seg b c l1 x /\ ok_entry b x /\ seg b (x + de_size b x) l2 e.
Proof. intros H. apply seg_split in H as (m & H1 & H2). inversion H2; by subst. Qed.

(** ** The loop over one block is a scan of the list of its entries *)

Fixpoint scan_list {A} (l : list Z) (prev : Z) (visit : Z -> Z -> option (scan A)) : scan A :=
  match l with
  | [] => ScEnd
  | c :: l => match visit c prev with Some r => r | None => scan_list l c visit end
  end.

Lemma scan_seg {A} fuel b c l prev (visit : Z -> Z -> option (scan A)) :
  length b = 4096%nat -> bytes_ok b -> seg b c l BLOCK_SIZE -> (length l < fuel)%nat ->
  scan_block fuel b c prev visit = scan_list l prev visit.
Proof.
  intros Hlen Hb Hs. remember BLOCK_SIZE as e eqn:He. revert fuel prev.
  induction Hs as [c|c l e Hc Hs IH]; intros [|fuel] prev Hf; simpl in Hf; try lia; cbn [scan_block scan_list].
  - subst. by rewrite Z.leb_refl.
  - pose proof (ok_entry_bounds b c Hb Hc) as Hbd. rewrite Hlen.
    rewrite (proj2 (Z.leb_gt BLOCK_SIZE c)) by (unfold BLOCK_SIZE; lia). zfalse (Z.of_nat 4096 <? c + 8).
    rewrite (proj2 Hc). destruct (visit c prev); [done|]. apply IH; [done|lia].
Qed.

Lemma scan_repr {A} b d l (visit : Z -> Z -> option (scan A)) :
  length b = 4096%nat -> bytes_ok b -> seg b 0 l BLOCK_SIZE -> live b l = d ->
  scan_block scan_fuel b 0 0 visit = scan_list l 0 visit.
Proof.
  intros Hlen Hb Hs _. apply scan_seg; [done..|].
  pose proof (seg_bounds b 0 l _ Hb Hs) as (H & _). unfold BLOCK_SIZE in H. unfold scan_fuel. lia.
Qed.

Definition last_of (prev : Z) (l : list Z) : Z := default prev (last l).

(** When [visit] answers exactly on the entries with [p]: the first of them. *)
Lemma scan_list_first {A} (p : Z -> bool) (r : Z -> Z -> scan A) visit l prev :
  (forall c q, c ∈ l -> visit c q = if p c then Some (r c q) else None) ->
  (Forall (fun c => p c = false) l /\ scan_list l prev visit = ScEnd) \/
  exists l1 c l2, l = l1 ++ c :: l2 /\ Forall (fun c => p c = false) l1 /\ p c = true /\
    scan_list l prev visit = r c (last_of prev l1).
Proof.
  revert prev. induction l as [|c l IH]; intros prev Hv; [left; by split|].
  cbn [scan_list]. rewrite Hv by set_solver. destruct (p c) eqn:Ep.
  - right. exists [], c, l. done.
  - destruct (IH c) as [[Hf He]|(l1 & c' & l2 & -> & Hf & Hp & He)].
    + intros c' q Hin. apply Hv. set_solver.
    + left. split; [by constructor|done].
    + right. exists (c :: l1), c', l2. split; [done|]. split; [by constructor|]. split; [done|].
      rewrite He. unfold last_of. rewrite last_cons. by destruct (last l1).
Qed.

(** ** Finding a name *)

(** [comp_name] sees the bytes of the C string as signed. *)
Definition ascii (n : list Z) : Prop := Forall (fun x => x < 128) n.
#[export] Instance ascii_dec n : Decision (ascii n).
Proof. unfold ascii. apply _. Defined.

Lemma comp_name_spec len a n t :
  (len <= length a)%nat -> bytes_ok (take len a) -> plain_name (take len a) -> bytes_ok n -> plain_name n ->
  comp_name len a (n ++ 0 :: t) = Some (bool_decide (take len a = n /\ ascii n)).
Proof.
  revert a n. induction len as [|len IH]; intros a n Hl Ha Hp Hn Hz.
  - cbn [take]. destruct n as [|y n]; cbn [comp_name app].
    + rewrite bool_decide_eq_true_2; [done|]. by split; [|constructor].
    + inversion Hz. rewrite (proj2 (Z.eqb_neq y 0)) by done.
      rewrite bool_decide_eq_false_2; [done|]. by intros [? _].
  - destruct a as [|x a]; simpl in Hl; [lia|]. cbn [take] in *.
    inversion Ha as [|? ? Hx Ha']; inversion Hp as [|? ? Hx0 Hp']; subst.
    destruct n as [|y n]; cbn [comp_name app].
    + unfold schar. simpl (if 0 <? 128 then 0 else _). rewrite (proj2 (Z.eqb_neq x 0)) by done. 
      rewrite bool_decide_eq_false_2; [done|]. by intros [? _].
    + inversion Hn as [|? ? Hy Hn']; inversion Hz as [|? ? Hy0 Hz']; subst. unfold schar, is_byte in *.
      destruct (Z.ltb_spec y 128).
      * destruct (Z.eqb_spec x y) as [->|Hne]; cbn [negb].
        -- rewrite (IH a n) by (done || lia). f_equal. apply bool_decide_ext. unfold ascii. rewrite Forall_cons.
           split; [intros (-> & ?); done|intros (He & _ & ?); by simplify_eq].
        -- rewrite bool_decide_eq_false_2; [done|]. intros [? _]. congruence.
      * rewrite (proj2 (Z.eqb_neq x (y - 256))) by lia. cbn [negb]. rewrite bool_decide_eq_false_2; [done|].
        intros [_ Hc]. inversion Hc. lia.
Qed.

Lemma entry_is_spec b c n t :
  length b = 4096%nat -> bytes_ok b -> ok_entry b c ->
  match live_entry b c with Some p => plain_name p.1 | None => True end -> bytes_ok n -> plain_name n ->
  entry_is b (n ++ 0 :: t) c = Some (bool_decide (fst <$> live_entry b c = Some n /\ ascii n)).
Proof.
  intros Hlen Hb Hc Hp Hn Hz. unfold entry_is, live_entry in *. destruct (de_inode b c =? 0) eqn:Ei.
  { rewrite bool_decide_eq_false_2; [done|]. by intros [? _]. }
  pose proof (ok_entry_bounds b c Hb Hc). simpl in Hp. unfold comp_entry.
  rewrite comp_name_spec; [|rewrite length_drop; lia|by apply Forall_take, Forall_drop|done|done|done].
  f_equal. apply bool_decide_ext. simpl. fold (sub (Z.to_nat (c + 8)) (Z.to_nat (de_name_len b c)) b).
  fold (de_name b c). split; intros [He ?]; split; congruence.
Qed.

Lemma live_entries_app b l1 l2 : live b (l1 ++ l2) = live b l1 ++ live b l2.
Proof. apply omap_app. Qed.

Lemma live_cons b c l : live b (c :: l) = match live_entry b c with Some p => p :: live b l | None => live b l end.
Proof. done. Qed.

Lemma live_plain b l c :
  Forall (fun p => plain_name p.1) (live b l) -> c ∈ l ->
  match live_entry b c with Some p => plain_name p.1 | None => True end.
Proof.
  intros H Hin. destruct (live_entry b c) as [p|] eqn:E; [|done]. rewrite Forall_forall in H. apply (H p).
  apply list_elem_of_omap. eauto.
Qed.

Lemma afind_live b n l : Forall (fun c => bool_decide (fst <$> live_entry b c = Some n /\ ascii n) = false) l ->
  ascii n -> afind n (live b l) = None.
Proof.
  intros H Ha. induction H as [|c l Hc _ IH]; [done|]. rewrite live_cons. destruct (live_entry b c) as [[m i]|]; [|done].
  simpl in *. apply bool_decide_eq_false in Hc. case_decide; [|done]. subst. destruct Hc. done.
Qed.

(** What a search of a block finds, with the shape of its chain. *)
Lemma find_name_first b l n t :
  length b = 4096%nat -> bytes_ok b -> seg b 0 l BLOCK_SIZE -> Forall (fun p => plain_name p.1) (live b l) ->
  bytes_ok n -> plain_name n ->
  (find_name b (n ++ 0 :: t) = ScEnd /\ (ascii n -> afind n (live b l) = None)) \/
  exists l1 c l2, l = l1 ++ c :: l2 /\ find_name b (n ++ 0 :: t) = ScHit (c, last_of 0 l1) /\ ascii n /\
    afind n (live b l1) = None /\ live_entry b c = Some (n, de_inode b c).
Proof.
  intros Hlen Hb Hs Hp Hn Hz. unfold find_name. rewrite (scan_repr b _ l) by done.
  destruct (scan_list_first (fun c => bool_decide (fst <$> live_entry b c = Some n /\ ascii n))
    (fun c q => ScHit (c, q)) (fun c prev => match entry_is b (n ++ 0 :: t) c with
      | None => Some ScFault | Some true => Some (ScHit (c, prev)) | Some false => None end) l 0)
    as [[Hf He]|(l1 & c & l2 & -> & Hf & Hc & He)].
  - intros c q Hin. pose proof (seg_bounds b 0 l _ Hb Hs) as (_ & _ & Hok). rewrite Forall_forall in Hok.
    destruct (Hok c Hin) as [Hoc _]. pose proof (live_plain b l c Hp Hin). rewrite entry_is_spec by done.
    by destruct (bool_decide _).
  - left. split; [done|]. intros Ha. by apply afind_live.
  - right. exists l1, c, l2. apply bool_decide_eq_true in Hc as [Hc Ha]. split; [done|]. split; [done|]. split; [done|].
    split; [by apply afind_live|]. unfold live_entry in *. destruct (de_inode b c =? 0); simplify_eq/=. congruence.
Qed.

Lemma find_name_spec b d name n :
  repr b d -> cstr name = Some n -> bytes_ok n ->
  match find_name b name with
  | ScHit (c, _) => ascii n /\ afind n d = Some (de_inode b c)
  | ScEnd => ascii n -> afind n d = None
  | _ => False
  end.
Proof.
  intros (Hlen & Hb & Hp & l & Hs & <-) Hn Hby. apply cstr_split in Hn as (t & -> & Hz).
  destruct (find_name_first b l n t) as [[-> H]|(l1 & c & l2 & -> & -> & Ha & Hf & He)]; try done.
  split; [done|]. rewrite live_entries_app, afind_app by done. rewrite live_cons, He. simpl. by rewrite decide_True.
Qed.

(** C37. Searching a well-formed directory block for a C string answers with
    the inode of the first entry of that name, or that there is none; it never
    reads outside the block. A name with a byte of 0x80 or more is never
    found, even when an entry has it. *)
Theorem find_name_correct b d name n :
  repr b d -> cstr name = Some n -> bytes_ok n ->
  match find_name b name with
  | ScHit (c, _) => ascii n /\ afind n d = Some (de_inode b c)
  | ScEnd => ascii n -> afind n d = None
  | _ => False
  end.
Proof. apply find_name_spec. Qed.

(** ** Editing a block *)

(** The buffers hold the same bytes from [lo] to [hi]. *)
Definition agree (lo hi : Z) (b b' : list Z) : Prop :=
  forall i : nat, lo <= Z.of_nat i < hi -> b !! i = b' !! i.

Lemma agree_trans lo hi b1 b2 b3 : agree lo hi b1 b2 -> agree lo hi b2 b3 -> agree lo hi b1 b3.
Proof. intros H1 H2 i Hi. by rewrite H1, H2. Qed.

Lemma agree_weaken lo hi lo' hi' b b' : agree lo hi b b' -> lo <= lo' -> hi' <= hi -> agree lo' hi' b b'.
Proof. intros H ? ? i Hi. apply H. lia. Qed.

Lemma agree_splice lo hi off x b :
  (off + length x <= length b)%nat -> hi <= Z.of_nat off \/ Z.of_nat (off + length x) <= lo ->
  agree lo hi b (splice off x b).
Proof. intros H Hd i Hi. rewrite lookup_splice by done. zcase; [done|]. zcase; [lia|done]. Qed.

Lemma agree_st lo hi n b off v :
  0 <= off -> off + Z.of_nat n <= Z.of_nat (length b) -> hi <= off \/ off + Z.of_nat n <= lo ->
  agree lo hi b (st n b off v).
Proof. intros. apply agree_splice; rewrite length_le_bytes; lia. Qed.

Lemma sub_agree lo hi b b' off n :
  agree lo hi b b' -> lo <= Z.of_nat off -> Z.of_nat (off + n) <= hi -> sub off n b = sub off n b'.
Proof.
  intros H Hl Hh. apply list_eq. intros i. destruct (Nat.ltb_spec i n).
  - rewrite !lookup_sub by done. apply H. lia.
  - unfold sub. by rewrite !lookup_take_ge by lia.
Qed.

Lemma ld_agree lo hi b b' n off :
  agree lo hi b b' -> 0 <= off -> lo <= off -> off + Z.of_nat n <= hi -> ld n b off = ld n b' off.
Proof. intros. unfold ld. f_equal. apply (sub_agree lo hi); [done|lia..]. Qed.

Lemma ok_entry_intro b c :
  0 <= c -> 8 <= de_size b c -> true_size b c <= de_size b c -> c + de_size b c <= 4096 -> ok_entry b c.
Proof.
  intros H0 H1 H2 H3. split; [done|]. unfold bad_entry, BLOCK_SIZE.
  by rewrite !(proj2 (Z.ltb_ge _ _)) by lia.
Qed.

(** An entry whose bytes are kept, but for its size. *)
Lemma live_entry_agree b b' c :
  0 <= c -> 0 <= de_name_len b c -> agree c (c + 4) b b' -> agree (c + 6) (c + 8 + de_name_len b c) b b' ->
  live_entry b' c = live_entry b c /\ de_name_len b' c = de_name_len b c.
Proof.
  intros Hc Hn H1 H2.
  assert (de_name_len b' c = de_name_len b c) as En.
  { symmetry. apply (ld_agree (c + 6) (c + 8 + de_name_len b c)); [done|lia..]. }
  assert (de_inode b' c = de_inode b c) as Ei.
  { symmetry. apply (ld_agree c (c + 4)); [done|lia..]. }
  split; [|done]. unfold live_entry. rewrite Ei. destruct (de_inode b c =? 0); [done|]. do 2 f_equal.
  unfold de_name. rewrite En. symmetry. apply (sub_agree (c + 6) (c + 8 + de_name_len b c)); [done|lia..].
Qed.

Lemma ok_entry_grown b b' c :
  bytes_ok b -> ok_entry b c -> de_name_len b' c = de_name_len b c -> de_size b c <= de_size b' c ->
  c + de_size b' c <= 4096 -> ok_entry b' c.
Proof.
  intros Hb Hc En Hs He. pose proof (ok_entry_bounds b c Hb Hc) as Hbd.
  apply ok_entry_intro; [lia..| |lia]. unfold true_size in *. rewrite En. lia.
Qed.

Lemma entry_agree b b' c :
  bytes_ok b -> ok_entry b c -> agree c (c + de_size b c) b b' ->
  ok_entry b' c /\ live_entry b' c = live_entry b c /\ de_size b' c = de_size b c.
Proof.
  intros Hb Hc H. pose proof (ok_entry_bounds b c Hb Hc) as (? & ? & ? & ? & ?).
  destruct (live_entry_agree b b' c) as [El En]; [lia..|apply (agree_weaken _ _ _ _ _ _ H); lia|apply (agree_weaken _ _ _ _ _ _ H); lia|].
  assert (de_size b' c = de_size b c) as Es.
  { symmetry. apply (ld_agree c (c + de_size b c)); [done|lia..]. }
  split; [|done]. apply (ok_entry_grown b); [done..|lia|lia].
Qed.

Lemma seg_agree b b' c l e :
  bytes_ok b -> seg b c l e -> agree c e b b' -> seg b' c l e /\ live b' l = live b l.
Proof.
  intros Hb Hs. induction Hs as [c|c l e Hc Hs IH]; intros Ha; [split; [constructor|done]|].
  pose proof (ok_entry_bounds b c Hb Hc). pose proof (seg_bounds _ _ _ _ Hb Hs) as (? & _ & _).
  destruct (entry_agree b b' c) as (Hc' & El & Es); [done..|apply (agree_weaken _ _ _ _ _ _ Ha); lia|].
  destruct IH as [Hs' Hl]; [apply (agree_weaken _ _ _ _ _ _ Ha); lia|].
  split; [constructor; [done|by rewrite Es]|]. by rewrite !live_cons, El, Hl.
Qed.

Lemma fill_entry_spec b b' c inode_n n t ty :
  length b = 4096%nat -> bytes_ok b -> bytes_ok n -> 0 <= c -> c + 8 + Z.of_nat (length n) <= 4096 ->
  Z.of_nat (length n) < 256 -> 0 < inode_n < 4294967296 ->
  b' = fill_entry b c inode_n (Z.of_nat (length n)) (n ++ t) ty ->
  length b' = 4096%nat /\ bytes_ok b' /\
  (forall lo hi, hi <= c \/ c + 8 + Z.of_nat (length n) <= lo -> agree lo hi b b') /\
  live_entry b' c = Some (n, inode_n) /\ de_size b' c = de_size b c /\ true_size b' c = ALIGN4 (8 + Z.of_nat (length n)).
Proof.
  intros Hlen Hb Hn Hc He Hl Hi Eb. unfold fill_entry in Eb.
  assert (sub 0 (Z.to_nat (Z.of_nat (length n))) (n ++ t) = n) as En.
  { unfold sub. rewrite drop_0, Nat2Z.id. by rewrite take_app_le, take_ge by lia. }
  rewrite En in Eb. clear En. set (b1 := st32 b c inode_n) in Eb. set (b2 := st8 b1 (c + 6) (Z.of_nat (length n))) in Eb.
  set (b3 := splice (Z.to_nat (c + 8)) n b2) in Eb.
  assert (length b1 = 4096%nat) as L1 by (unfold b1; rewrite length_st; lia).
  assert (length b2 = 4096%nat) as L2 by (unfold b2; rewrite length_st; lia).
  assert (length b3 = 4096%nat) as L3 by (unfold b3; rewrite length_splice; lia).
  assert (length b' = 4096%nat) as L' by (rewrite Eb, length_st; lia).
  assert (forall lo hi, hi <= c \/ c + 8 + Z.of_nat (length n) <= lo \/ (c + 4 <= lo /\ hi <= c + 6) -> agree lo hi b b') as Ha.
  { intros lo hi Hd. apply (agree_trans _ _ _ b1); [apply agree_st; lia|]. apply (agree_trans _ _ _ b2); [apply agree_st; lia|].
    apply (agree_trans _ _ _ b3); [apply agree_splice; lia|]. rewrite Eb. apply agree_st; lia. }
  assert (de_inode b' c = inode_n) as Hino.
  { unfold de_inode. rewrite Eb, ld_st_disj by lia. unfold b3, ld. rewrite sub_splice_disj by lia.
    fold (ld32 b2 c). unfold b2. rewrite ld_st_disj by lia. unfold b1. rewrite ld_st_same by lia.
    apply Z.mod_small. change (256 ^ Z.of_nat 4) with 4294967296. lia. }
  assert (de_name_len b' c = Z.of_nat (length n)) as Hnl.
  { unfold de_name_len. rewrite Eb, ld_st_disj by lia. unfold b3, ld. rewrite sub_splice_disj by lia.
    fold (ld8 b2 (c + 6)). unfold b2. rewrite ld_st_same by lia. apply Z.mod_small. change (256 ^ Z.of_nat 1) with 256. lia. }
  split; [done|]. split; [by rewrite Eb; unfold b3, b2, b1; apply bytes_ok_st, Forall_splice; [apply bytes_ok_st, bytes_ok_st|]|].
  split; [intros lo hi Hd; apply Ha; lia|]. split; [|split].
  - unfold live_entry. rewrite Hino, (proj2 (Z.eqb_neq inode_n 0)) by lia. do 2 f_equal. unfold de_name. rewrite Hnl.
    rewrite Eb. unfold st. rewrite sub_splice_disj by (rewrite length_le_bytes; lia). rewrite Nat2Z.id. unfold b3.
    apply sub_splice_same. lia.
  - symmetry. apply (ld_agree (c + 4) (c + 6)); [apply Ha; lia|lia..].
  - unfold true_size. by rewrite Hnl.
Qed.

(** The bytes of an entry that its name does not need. *)
Definition room (b : list Z) (c : Z) : Z := de_size b c - (if de_inode b c =? 0 then 0 else true_size b c).

(** A new entry in an unused one. *)
Lemma place_unused b l1 c l2 inode_n n t ty b' :
  length b = 4096%nat -> bytes_ok b -> seg b 0 (l1 ++ c :: l2) BLOCK_SIZE -> bytes_ok n ->
  Z.of_nat (length n) < 256 -> 0 < inode_n < 4294967296 -> ALIGN4 (8 + Z.of_nat (length n)) <= de_size b c ->
  b' = fill_entry b c inode_n (Z.of_nat (length n)) (n ++ t) ty ->
  length b' = 4096%nat /\ bytes_ok b' /\ seg b' 0 (l1 ++ c :: l2) BLOCK_SIZE /\
  live b' (l1 ++ c :: l2) = live b l1 ++ (n, inode_n) :: live b l2.
Proof.
  intros Hlen Hb Hs Hn Hl Hi Hfit Eb. apply seg_mid in Hs as (H1 & Hc & H3).
  pose proof (ok_entry_bounds b c Hb Hc) as Hbd. pose proof (ALIGN4_spec (8 + Z.of_nat (length n))) as HA.
  destruct (fill_entry_spec b b' c inode_n n t ty) as (L & B & Ha & El & Es & Et); [done..|lia|lia|done|done|done|].
  destruct (seg_agree b b' 0 l1 c) as [S1 V1]; [done|done|apply Ha; lia|].
  destruct (seg_agree b b' (c + de_size b c) l2 BLOCK_SIZE) as [S2 V2]; [done|done|apply Ha; lia|].
  split; [done|]. split; [done|]. split.
  - apply (seg_app _ _ _ c); [done|]. constructor; [|by rewrite Es]. apply ok_entry_intro; lia.
  - by rewrite live_entries_app, live_cons, V1, V2, El.
Qed.

(** A new entry in the slack of another. *)
Lemma place_slack b l1 c l2 inode_n n t ty b' :
  length b = 4096%nat -> bytes_ok b -> seg b 0 (l1 ++ c :: l2) BLOCK_SIZE -> bytes_ok n ->
  Z.of_nat (length n) < 256 -> 0 < inode_n < 4294967296 ->
  ALIGN4 (8 + Z.of_nat (length n)) <= de_size b c - true_size b c ->
  b' = fill_entry (st16 (st16 b (c + 4) (true_size b c)) (c + true_size b c + 4) (de_size b c - true_size b c))
         (c + true_size b c) inode_n (Z.of_nat (length n)) (n ++ t) ty ->
  length b' = 4096%nat /\ bytes_ok b' /\ seg b' 0 (l1 ++ c :: c + true_size b c :: l2) BLOCK_SIZE /\
  live b' (l1 ++ c :: c + true_size b c :: l2) = live b (l1 ++ [c]) ++ (n, inode_n) :: live b l2.
Proof.
  intros Hlen Hb Hs Hn Hl Hi Hfit Eb. apply seg_mid in Hs as (H1 & Hc & H3).
  pose proof (ok_entry_bounds b c Hb Hc) as Hbd. pose proof (ALIGN4_spec (8 + Z.of_nat (length n))) as HA.
  set (ts := true_size b c) in *. set (sz := de_size b c) in *. set (b1 := st16 b (c + 4) ts) in Eb.
  set (b2 := st16 b1 (c + ts + 4) (sz - ts)) in Eb.
  assert (length b1 = 4096%nat) as L1 by (unfold b1; rewrite length_st; lia).
  assert (length b2 = 4096%nat) as L2 by (unfold b2; rewrite length_st; lia).
  destruct (fill_entry_spec b2 b' (c + ts) inode_n n t ty) as (L & B & Ha & El & Es & Et);
    [done|by unfold b2, b1; auto with kernel|done|lia..|done|].
  assert (forall lo hi, (hi <= c + 4 \/ c + 6 <= lo) -> (hi <= c + ts \/ c + sz <= lo) -> agree lo hi b b') as Hag.
  { intros lo hi Hd Hd'. apply (agree_trans _ _ _ b1); [apply agree_st; lia|].
    apply (agree_trans _ _ _ b2); [apply agree_st; lia|]. apply Ha. lia. }
  assert (de_size b' c = ts) as Hsz.
  { transitivity (ld16 b2 (c + 4)); [symmetry; apply (ld_agree 0 (c + ts)); [apply Ha; lia|lia..]|].
    unfold b2. rewrite ld_st_disj by lia. unfold b1. rewrite ld_st_same by lia. apply Z.mod_small.
    change (256 ^ Z.of_nat 2) with 65536. lia. }
  assert (de_size b' (c + ts) = sz - ts) as Hsz'.
  { rewrite Es. unfold de_size, b2. rewrite ld_st_same by lia. apply Z.mod_small. change (256 ^ Z.of_nat 2) with 65536. lia. }
  destruct (live_entry_agree b b' c) as [Ec En]; [lia|lia|apply Hag; lia|apply Hag; lia|].
  destruct (seg_agree b b' 0 l1 c) as [S1 V1]; [done|done|apply Hag; lia|].
  destruct (seg_agree b b' (c + sz) l2 BLOCK_SIZE) as [S2 V2]; [done|done|apply Hag; lia|].
  assert (true_size b' c = ts) as Hts by (unfold true_size, ts; by rewrite En).
  split; [done|]. split; [done|]. split.
  - apply (seg_app _ _ _ c); [done|]. constructor; [apply ok_entry_intro; lia|]. rewrite Hsz.
    constructor; [apply ok_entry_intro; lia|]. rewrite Hsz'. by replace (c + ts + (sz - ts)) with (c + sz) by lia.
  - rewrite !live_entries_app, !live_cons, V1, V2, Ec, El. destruct (live_entry b c); simpl; by rewrite <- !app_assoc.
Qed.

Definition place_at (b : list Z) (inode_n len : Z) (name : list Z) (ty c : Z) : list Z :=
  if de_inode b c =? 0 then fill_entry b c inode_n len name ty
  else fill_entry (st16 (st16 b (c + 4) (true_size b c)) (c + true_size b c + 4) (de_size b c - true_size b c))
         (c + true_size b c) inode_n len name ty.

Lemma place_spec b d name n inode_n ty :
  repr b d -> cstr name = Some n -> bytes_ok n -> Z.of_nat (length n) < 256 -> 0 < inode_n < 4294967296 ->
  match place_entry b inode_n (Z.of_nat (length n)) (ALIGN4 (8 + Z.of_nat (length n))) name ty with
  | ScHit b' => exists d1 d2, d = d1 ++ d2 /\ repr b' (d1 ++ (n, inode_n) :: d2)
  | ScEnd => exists l, seg b 0 l BLOCK_SIZE /\ Forall (fun c => room b c < ALIGN4 (8 + Z.of_nat (length n))) l
  | _ => False
  end.
Proof.
  intros (Hlen & Hb & Hp & l & Hs & <-) Hn Hby Hl Hi. apply cstr_split in Hn as (t & -> & Hz).
  set (needed := ALIGN4 _). unfold place_entry. rewrite (scan_repr b _ l) by done.
  edestruct (scan_list_first (fun c => needed <=? room b c)
    (fun c _ => ScHit (place_at b inode_n (Z.of_nat (length n)) (n ++ 0 :: t) ty c)))
    as [[Hf ->]|(l1 & c & l2 & -> & Hf & Hc & ->)].
  - intros c q Hin. pose proof (seg_bounds b 0 l _ Hb Hs) as (_ & _ & Hok). rewrite Forall_forall in Hok.
    destruct (Hok c Hin) as [Hoc _]. pose proof (ok_entry_bounds b c Hb Hoc) as Hbd. unfold room, place_at.
    destruct (de_inode b c =? 0) eqn:Ei; cbn [andb].
    + rewrite Z.sub_0_r. destruct (needed <=? de_size b c) eqn:En; [reflexivity|]. by zfalse (needed <=? de_size b c - true_size b c).
    + reflexivity.
  - exists l. split; [done|]. eapply Forall_impl; [exact Hf|]. simpl. lia.
  - unfold room in Hc. unfold place_at. destruct (de_inode b c =? 0) eqn:Ei.
    + destruct (place_unused b l1 c l2 inode_n n (0 :: t) ty _ Hlen Hb Hs Hby Hl Hi ltac:(lia) eq_refl) as (L & B & S & V).
      exists (live b l1), (live b l2). unfold live_entry in *. rewrite live_entries_app, live_cons in Hp |- *.
      unfold live_entry in *. rewrite Ei in *. split; [done|]. split; [done|]. split; [done|]. split; [|by eexists].
      apply Forall_app in Hp as [? ?]. apply Forall_app. split; [done|]. by constructor.
    + destruct (place_slack b l1 c l2 inode_n n (0 :: t) ty _ Hlen Hb Hs Hby Hl Hi ltac:(lia) eq_refl) as (L & B & S & V).
      exists (live b (l1 ++ [c])), (live b l2).
      replace (l1 ++ c :: l2) with ((l1 ++ [c]) ++ l2) in Hp |- * by (by rewrite <- app_assoc). rewrite live_entries_app in Hp |- *.
      split; [done|]. split; [done|]. split; [done|]. split; [|eexists; split; [exact S|exact V]].
      apply Forall_app in Hp as [? ?]. apply Forall_app. split; [done|]. by constructor.
Qed.

(** Inserting into a well-formed block puts the name, with its inode, at
    one place among the names there and keeps the block well-formed; when it
    reports that there is no room, every entry has less room than needed. *)
Theorem place_entry_correct b d name n inode_n ty :
  repr b d -> cstr name = Some n -> bytes_ok n -> Z.of_nat (length n) < 256 -> 0 < inode_n < 4294967296 ->
  match place_entry b inode_n (Z.of_nat (length n)) (ALIGN4 (8 + Z.of_nat (length n))) name ty with
  | ScHit b' => exists d1 d2, d = d1 ++ d2 /\ repr b' (d1 ++ (n, inode_n) :: d2)
  | ScEnd => exists l, seg b 0 l BLOCK_SIZE /\ Forall (fun c => room b c < ALIGN4 (8 + Z.of_nat (length n))) l
  | _ => False
  end.
Proof. apply place_spec. Qed.

(** ** Removing a name *)

Lemma ld_st32_inode b c v : 
  length b = 4096%nat -> 0 <= c -> c + 8 <= 4096 -> 0 <= v < 4294967296 ->
  de_inode (st32 b c v) c = v /\ agree (c + 4) 4096 b (st32 b c v) /\ agree 0 c b (st32 b c v).
Proof.
  intros Hlen Hc He Hv. split; [|split; apply agree_st; lia].
  unfold de_inode. rewrite ld_st_same by lia. apply Z.mod_small. change (256 ^ Z.of_nat 4) with 4294967296. lia.
Qed.

(** A new inode number in one entry: 0 takes the entry out of use. *)
Lemma set_inode_entry b l1 c l2 v :
  length b = 4096%nat -> bytes_ok b -> seg b 0 (l1 ++ c :: l2) BLOCK_SIZE -> 0 <= v < 4294967296 ->
  let b' := st32 b c v in
  length b' = 4096%nat /\ bytes_ok b' /\ seg b' 0 (l1 ++ c :: l2) BLOCK_SIZE /\
  live b' (l1 ++ c :: l2) = live b l1 ++ (if v =? 0 then [] else [(de_name b c, v)]) ++ live b l2.
Proof.
  intros Hlen Hb Hs Hv b'. apply seg_mid in Hs as (H1 & Hc & H3). pose proof (ok_entry_bounds b c Hb Hc) as Hbd.
  destruct (ld_st32_inode b c v) as (Hi & Ha & Ha'); [done|lia..|]. fold b' in Hi, Ha, Ha'.
  assert (de_size b' c = de_size b c) as Es by (symmetry; apply (ld_agree (c + 4) 4096); [done|lia..]).
  assert (de_name_len b' c = de_name_len b c) as En by (symmetry; apply (ld_agree (c + 4) 4096); [done|lia..]).
  destruct (seg_agree b b' 0 l1 c) as [S1 V1]; [done..|].
  destruct (seg_agree b b' (c + de_size b c) l2 BLOCK_SIZE) as [S2 V2];
    [done|done|apply (agree_weaken _ _ _ _ _ _ Ha); unfold BLOCK_SIZE; lia|].
  split; [unfold b'; rewrite length_st; lia|]. split; [by apply bytes_ok_st|]. split.
  - apply (seg_app _ _ _ c); [done|]. constructor; [|by rewrite Es].
    apply (ok_entry_grown b); [done..|lia|lia].
  - rewrite live_entries_app, live_cons, V1, V2. f_equal. unfold live_entry. rewrite Hi. destruct (v =? 0); [done|].
    simpl. do 2 f_equal. unfold de_name. rewrite En. symmetry. apply (sub_agree (c + 4) 4096); [done|lia..].
Qed.

(** An entry joined to the one before it. *)
Lemma join_entry b l1 p c l2 :
  length b = 4096%nat -> bytes_ok b -> seg b 0 (l1 ++ p :: c :: l2) BLOCK_SIZE ->
  let b' := st16 b (p + 4) (de_size b p + de_size b c) in
  length b' = 4096%nat /\ bytes_ok b' /\ seg b' 0 (l1 ++ p :: l2) BLOCK_SIZE /\
  live b' (l1 ++ p :: l2) = live b (l1 ++ [p]) ++ live b l2.
Proof.
  intros Hlen Hb Hs b'. apply seg_mid in Hs as (H1 & Hp & H2). inversion H2 as [|? ? ? Hc H3]; subst c.
  pose proof (ok_entry_bounds b p Hb Hp) as Bp. pose proof (ok_entry_bounds b _ Hb Hc) as Bc.
  set (sp := de_size b p) in *. set (sc := de_size b (p + sp)) in *.
  assert (forall lo hi, hi <= p + 4 \/ p + 6 <= lo -> agree lo hi b b') as Ha.
  { intros lo hi Hd. apply agree_st; lia. }
  assert (de_size b' p = sp + sc) as Es.
  { unfold de_size, b'. rewrite ld_st_same by lia. apply Z.mod_small. change (256 ^ Z.of_nat 2) with 65536. lia. }
  destruct (live_entry_agree b b' p) as [El En]; [lia|lia|apply Ha; lia|apply Ha; lia|].
  destruct (seg_agree b b' 0 l1 p) as [S1 V1]; [done|done|apply Ha; lia|].
  destruct (seg_agree b b' (p + sp + sc) l2 BLOCK_SIZE) as [S2 V2]; [done|done|apply Ha; lia|].
  split; [unfold b'; rewrite length_st; lia|]. split; [by apply bytes_ok_st|]. split.
  - apply (seg_app _ _ _ p); [done|]. constructor; [|rewrite Es; by replace (p + (sp + sc)) with (p + sp + sc) by lia].
    apply (ok_entry_grown b); [done..|lia|lia].
  - rewrite !live_entries_app, !live_cons, V1, V2, El. destruct (live_entry b p); simpl; by rewrite <- app_assoc.
Qed.

Lemma remove_entry_live b l1 c l2 :
  length b = 4096%nat -> bytes_ok b -> seg b 0 (l1 ++ c :: l2) BLOCK_SIZE ->
  let b' := remove_entry b c (last_of 0 l1) in
  length b' = 4096%nat /\ bytes_ok b' /\ exists l, seg b' 0 l BLOCK_SIZE /\ live b' l = live b l1 ++ live b l2.
Proof.
  intros Hlen Hb Hs. unfold remove_entry. destruct l1 as [|p l1 _] using rev_ind.
  - assert (c = 0) as -> by (inversion Hs; done). cbn [Z.eqb].
    destruct (set_inode_entry b [] 0 l2 0) as (L & B & S & V); [done..|lia|]. split; [done|]. split; [done|].
    eexists. split; [exact S|exact V].
  - assert (c <> 0) as Hne.
    { apply seg_mid in Hs as (H1 & Hc & _). pose proof (seg_bounds b 0 _ _ Hb H1) as (Hlb & _).
      rewrite length_app in Hlb. simpl in Hlb. lia. }
    rewrite (proj2 (Z.eqb_neq c 0)) by done. unfold last_of. rewrite last_snoc. cbn [default].
    rewrite <- app_assoc in Hs. simpl in Hs.
    destruct (join_entry b l1 p c l2) as (L & B & S & V); [done..|]. split; [done|]. split; [done|]. eauto.
Qed.

Lemma remove_spec b d name n c prev :
  repr b d -> cstr name = Some n -> bytes_ok n -> find_name b name = ScHit (c, prev) ->
  repr (remove_entry b c prev) (adel n d).
Proof.
  intros (Hlen & Hb & Hp & l & Hs & <-) Hn Hby Hf. apply cstr_split in Hn as (t & -> & Hz).
  destruct (find_name_first b l n t) as [[E _]|(l1 & x & l2 & -> & E & Ha & Hnone & He)]; try done; [congruence|].
  rewrite E in Hf. simplify_eq. destruct (remove_entry_live b l1 c l2) as (L & B & S); [done..|].
  rewrite live_entries_app, live_cons, He in Hp |- *. rewrite adel_app by done. cbn [adel]. rewrite decide_True by done.
  split; [done|]. split; [done|]. split; [|done].
  apply Forall_app in Hp as [? Hp]. inversion Hp. by apply Forall_app.
Qed.

(** Removing the entry that a search of a well-formed block found takes
    exactly that name out and keeps the block well-formed. *)
Theorem remove_entry_correct b d name n c prev :
  repr b d -> cstr name = Some n -> bytes_ok n -> find_name b name = ScHit (c, prev) ->
  repr (remove_entry b c prev) (adel n d).
Proof. apply remove_spec. Qed.

(** ** The blocks the kernel writes *)

Lemma seed_repr : repr seed_block [].
Proof.
  split; [by vm_compute|]. split; [apply bytes_ok_st; unfold zero_block; by apply Forall_replicate|]. split; [constructor|].
  exists [0]. split; [|by vm_compute].
  constructor; [split; [lia|by vm_compute]|].
  assert (0 + de_size seed_block 0 = BLOCK_SIZE) as -> by (by vm_compute). constructor.
Qed.

(** A name [dir_insert] accepts. *)
Definition good_name (name n : list Z) : Prop :=
  cstr name = Some n /\ bytes_ok n /\ 0 < Z.of_nat (length n) < 256.

(** How a directory block comes to be: made by [make_dir], or by [dir_grow]
    with its first entry; then edited by [dir_insert], by [dir_remove] and by
    [dir_set_parent_entry]. *)
Inductive dir_block : list Z -> Prop :=
| db_seed : dir_block seed_block
| db_grow inode_n name n ty :
    good_name name n -> 0 < inode_n < 4294967296 ->
    dir_block (fill_entry seed_block 0 inode_n (Z.of_nat (length n)) name ty)
| db_insert b b' inode_n name n ty :
    dir_block b -> good_name name n -> 0 < inode_n < 4294967296 ->
    place_entry b inode_n (Z.of_nat (length n)) (ALIGN4 (8 + Z.of_nat (length n))) name ty = ScHit b' ->
    dir_block b'
| db_remove b name n c prev :
    dir_block b -> good_name name n -> find_name b name = ScHit (c, prev) -> dir_block (remove_entry b c prev)
| db_parent b c prev inode_n :
    dir_block b -> find_name b DOTDOT = ScHit (c, prev) -> 0 < inode_n < 4294967296 -> dir_block (st32 b c inode_n).

Lemma parent_repr b d c prev v :
  repr b d -> find_name b DOTDOT = ScHit (c, prev) -> 0 < v < 4294967296 -> exists d', repr (st32 b c v) d'.
Proof.
  intros (Hlen & Hb & Hp & l & Hs & <-) Hf Hv.
  destruct (find_name_first b l [46; 46] []) as [[E _]|(l1 & x & l2 & -> & E & Ha & Hnone & He)]; try done.
  - by repeat constructor.
  - by repeat constructor.
  - change ([46; 46] ++ [0]) with DOTDOT in E. congruence.
  - change ([46; 46] ++ [0]) with DOTDOT in E. rewrite E in Hf. simplify_eq.
    destruct (set_inode_entry b l1 c l2 v) as (L & B & S & V); [done..|lia|].
    eexists. split; [exact L|]. split; [exact B|]. split; [|eexists; split; [exact S|exact V]].
    rewrite live_entries_app, live_cons, He in Hp. apply Forall_app in Hp as [? Hp]. inversion Hp as [|? ? Hn Hp']; subst.
    apply Forall_app. split; [done|]. apply Forall_app. split; [|done]. rewrite (proj2 (Z.eqb_neq v 0)) by lia.
    constructor; [|constructor]. unfold live_entry in He. destruct (de_inode b c =? 0); [done|].
    injection He as He. cbn [fst] in *. by rewrite He.
Qed.

Lemma grow_repr inode_n name n ty :
  good_name name n -> 0 < inode_n < 4294967296 ->
  repr (fill_entry seed_block 0 inode_n (Z.of_nat (length n)) name ty) [(n, inode_n)].
Proof.
  intros (Hn & Hb & Hl) Hi. apply cstr_split in Hn as (t & -> & Hz).
  destruct seed_repr as (L & B & _ & _). pose proof (ALIGN4_spec (8 + Z.of_nat (length n))) as HA.
  assert (de_size seed_block 0 = 4096) as Es by (by vm_compute).
  destruct (place_unused seed_block [] 0 [] inode_n n (0 :: t) ty
    (fill_entry seed_block 0 inode_n (Z.of_nat (length n)) (n ++ 0 :: t) ty) L B) as (L' & B' & S' & V');
    [|done|lia|done|rewrite Es; lia|done|].
  - constructor; [split; [lia|by vm_compute]|]. rewrite Es. constructor.
  - split; [done|]. split; [done|]. split; [by repeat constructor|]. eexists. split; [exact S'|exact V'].
Qed.

(** C28. Every directory block the kernel makes and edits stays well-formed:
    its entries tile the block exactly, none overlaps another or the end, and
    no name holds a terminator. *)
Theorem dir_block_invariant b : dir_block b -> exists d, repr b d.
Proof.
  induction 1 as [|inode_n name n ty Hn Hi|b b' inode_n name n ty _ [d IH] (Hn & Hb & Hl) Hi Hp
    |b name n c prev _ [d IH] (Hn & Hb & _) Hf|b c prev inode_n _ [d IH] Hf Hi].
  - eexists. apply seed_repr.
  - eexists. by apply grow_repr.
  - pose proof (place_spec b d _ _ inode_n ty IH Hn Hb ltac:(lia) Hi) as H. rewrite Hp in H.
    destruct H as (d1 & d2 & _ & H). eauto.
  - exists (adel n d). by eapply remove_spec.
  - by eapply parent_repr.
Qed.

(** ** Termination *)

Lemma scan_block_fuel {A} fuel b c prev (visit : Z -> Z -> option (scan A)) :
  (forall x q, visit x q <> Some ScFuel) -> (1 <= fuel)%nat -> 4096 - c <= 8 * (Z.of_nat fuel - 1) ->
  scan_block fuel b c prev visit <> ScFuel.
Proof.
  intros Hv. revert c prev. induction fuel as [|fuel IH]; intros c prev H1 Hf; [lia|]. cbn [scan_block].
  unfold BLOCK_SIZE. destruct (Z.leb_spec 4096 c); [done|]. destruct (_ <? c + 8); [done|].
  destruct (bad_entry b c) eqn:Eb; [done|]. destruct (visit c prev) as [r|] eqn:Ev; [specialize (Hv c prev); congruence|].
  unfold bad_entry in Eb. apply orb_false_iff in Eb as [Eb _]. apply orb_false_iff in Eb as [Eb _].
  apply Z.ltb_ge in Eb. apply IH; lia.
Qed.

Lemma lookup_from_fuel fuel b name c size :
  bytes_ok b -> 0 <= c -> size <= 1000000 -> (1 <= fuel)%nat -> size - c <= Z.of_nat fuel - 1 ->
  lookup_from fuel b name c size <> ScFuel.
Proof.
  intros Hb. revert c. induction fuel as [|fuel IH]; intros c Hc Hs H1 Hf; [lia|]. cbn [lookup_from].
  destruct (Z.leb_spec size c); [done|]. destruct (_ <? c + 8); [done|].
  pose proof (ld_range 2 b (c + 4) Hb) as Hr. fold (de_size b c) in Hr. change (256 ^ Z.of_nat 2) with 65536 in Hr.
  destruct (Z.eqb_spec (de_size b c) 0); [done|].
  assert (u32 (c + de_size b c) = c + de_size b c) as -> by (unfold u32; rewrite Z.mod_small; lia).
  assert (lookup_from fuel b name (c + de_size b c) size <> ScFuel) as Hn by (apply IH; lia).
  destruct (de_inode b c =? 0); [done|]. by destruct (comp_entry b c name) as [[]|].
Qed.

Lemma find_name_fuel b name : find_name b name <> ScFuel.
Proof.
  apply scan_block_fuel; [|unfold scan_fuel; lia..]. intros x q. by destruct (entry_is b name x) as [[]|].
Qed.

(** C29. The loops over a directory block end on every block, however
    corrupted: each turn moves by at least one entry header (by at least one
    byte in [lookup]), so 513 turns (4096 in [lookup]) are enough. *)
Theorem directory_loops_terminate b name inode_n len needed ty :
  bytes_ok b ->
  find_name b name <> ScFuel /\ find_other b <> ScFuel /\
  place_entry b inode_n len needed name ty <> ScFuel /\ lookup b name BLOCK_SIZE <> ScFuel.
Proof.
  intros Hb. split; [apply find_name_fuel|]. split; [|split].
  - apply scan_block_fuel; [|unfold scan_fuel; lia..]. intros x q. destruct (de_inode b x =? 0); [done|].
    destruct (comp_entry b x DOT) as [[]|]; [done| |done]. by destruct (comp_entry b x DOTDOT) as [[]|].
  - apply scan_block_fuel; [|unfold scan_fuel; lia..]. intros x q. destruct (_ && _); [done|].
    cbv zeta. by destruct (needed <=? _).
  - apply lookup_from_fuel; [done|lia|unfold BLOCK_SIZE; lia..].
Qed.

(** ** Concrete instances *)

(** The block of the root directory after its first entry, then with a file
    "ab" in the slack of that entry. *)
Definition demo_block : list Z := fill_entry seed_block 0 2 1 DOT 2.
Definition demo_name : list Z := [97; 98; 0].

Lemma demo_dot : good_name DOT [46].
Proof. split; [done|]. split; [by repeat constructor|simpl; lia]. Qed.

Lemma demo_repr : repr demo_block [([46], 2)].
Proof. apply (grow_repr 2 DOT [46] 2 demo_dot). lia. Qed.

Lemma find_name_correct_witness :
  match find_name demo_block DOT with
  | ScHit (c, _) => ascii [46] /\ afind [46] [([46], 2)] = Some (de_inode demo_block c)
  | ScEnd => ascii [46] -> afind [46] [([46], 2)] = None
  | _ => False
  end.
Proof. apply (find_name_correct demo_block [([46], 2)] DOT [46]); [exact demo_repr|done|by repeat constructor]. Defined.

Lemma place_entry_correct_witness :
  match place_entry demo_block 12 2 12 demo_name 1 with
  | ScHit b' => exists d1 d2, [([46], 2)] = d1 ++ d2 /\ repr b' (d1 ++ ([97; 98], 12) :: d2)
  | ScEnd => exists l, seg demo_block 0 l BLOCK_SIZE /\ Forall (fun c => room demo_block c < 12) l
  | _ => False
  end.
Proof.
  apply (place_entry_correct demo_block [([46], 2)] demo_name [97; 98] 12 1);
    [exact demo_repr|done|by repeat constructor|simpl; lia|lia].
Defined.

Lemma remove_entry_correct_witness : repr (remove_entry demo_block 0 0) [].
Proof.
  apply (remove_entry_correct demo_block [([46], 2)] DOT [46] 0 0);
    [exact demo_repr|done|by repeat constructor|by vm_compute].
Defined.

Lemma dir_block_invariant_witness : exists d, repr (remove_entry demo_block 0 0) d.
Proof.
  apply (dir_block_invariant _).
  apply (db_remove demo_block DOT [46] 0 0); [|exact demo_dot|by vm_compute].
  apply (db_grow 2 DOT [46] 2 demo_dot). lia.
Defined.

Lemma directory_loops_terminate_witness :
  find_name zero_block DOT <> ScFuel /\ find_other zero_block <> ScFuel /\
  place_entry zero_block 12 2 12 demo_name 1 <> ScFuel /\ DirBlock.lookup zero_block DOT BLOCK_SIZE <> ScFuel.
Proof.
  destruct (directory_loops_terminate zero_block DOT 12 2 12 1) as (H1 & H2 & _ & H4);
    [unfold zero_block; by apply Forall_replicate|].
  destruct (directory_loops_terminate zero_block demo_name 12 2 12 1) as (_ & _ & H3 & _);
    [unfold zero_block; by apply Forall_replicate|].
  done.
Defined.
