(* ===== verification/Dir.v ===== *)
(** * Directories: kernel/fs/ext2/directoryController.c, without path lookup

    The operations on directories: a directory is a file whose blocks hold
    the chains of entries of DirBlock.v.  [dir_insert] and [dir_remove] keep
    link counts and times; files, directories and symbolic links are made,
    unlinked and renamed with them. *)
From S2P Require Import Prelude Bytes Bitset CLib Disk Bitmap Inode BlockMap FileOps Mount DirBlock.

(** ** Operations on directories *)

(** The answer of a scan, in the file-system monad. *)
Definition scanM {A} (r : scan A) : FM (scan A) :=
  match r with
  | ScFault => haltM Fault
  | ScFuel => haltM OutOfFuel
  | r => retM r
  end.

(** [for (i = 0; i < inode.size_lo / BLOCK_SIZE; i++)]: each block is looked up
    and read, then [body] sees its number and contents; [fail] is the answer
    when a block is missing. *)
Definition for_blocks {A} (fs : Z) (inode : ext2_inode) (fail : A) (body : Z -> list Z -> FM (option A))
    : FM (option A) :=
  loopM (Z.to_nat (size_lo inode / BLOCK_SIZE)) 0 (fun i =>
    let* r := map_file_block fs inode i LOOKUP_MODE None in
    if negb (mr_ret r =? INODE_WRITE_SUCCESS) then retM (Some fail)
    else let* scratch := read_block fs (out_blk r) in body (out_blk r) scratch).

(** The inode number; [None] with [*out = INODE_ERROR] when the blocks were all
    scanned is not told apart from [None] with [*out] untouched. *)
Definition name_in (fs : Z) (inode : ext2_inode) (name : list Z) : FM (option Z) :=
  let* r := for_blocks fs inode None (fun _ scratch =>
              let* sc := scanM (find_name scratch name) in
              retM (match sc with ScHit (c, _) => Some (Some (de_inode scratch c)) | _ => None end)) in
  retM (default None r).

Definition is_dir (i : ext2_inode) : bool := file_type i =? INODE_DIR_TYPE.

Definition dir_contains (fs parent_inode_n : Z) (name : list Z) : FM (option Z) :=
  let* (fs, parent_inode_n, _) := return_mnt_root fs parent_inode_n in
  let* r := get_inode fs parent_inode_n in
  match r with
  | None => retM None
  | Some parent_inode => if negb (is_dir parent_inode) then retM None else name_in fs parent_inode name
  end.

Definition dir_is_empty (fs : Z) (inode : ext2_inode) : FM bool :=
  let* r := for_blocks fs inode false (fun _ scan =>
              let* sc := scanM (find_other scan) in
              retM (match sc with ScHit _ => Some false | _ => None end)) in
  retM (default true r).

(** [len] of a name, up to [NAME_LEN]. *)
Fixpoint name_len_from (fuel : nat) (len : Z) (name : list Z) : option Z :=
  match fuel, name with
  | O, _ => Some len
  | S _, [] => None
  | S fuel, c :: name => if c =? 0 then Some len else name_len_from fuel (len + 1) name
  end.
Definition name_len (name : list Z) : FM Z :=
  match name_len_from (Z.to_nat NAME_LEN) 0 name with
  | Some n => retM n
  | None => haltM Fault
  end.
Definition bad_len (len : Z) : bool := (len =? 0) || (NAME_LEN <=? len).

(** The link count of the child and the times go to disk ([d] is 1 or -1). *)
Definition relink (fs parent_n : Z) (parent : ext2_inode) (child_n : Z) (child : ext2_inode) (d : Z) : FM bool :=
  let* s := getM in
  let child := set_links (hard_link_cnt child + d) child in
  if parent_n =? child_n then set_inode fs child_n (set_mod (epoch_sec s) child)
  else
    let* ok := set_inode fs child_n child in
    if negb ok then retM false else set_inode fs parent_n (set_mod (epoch_sec s) parent).

Definition MAX_FILE_SIZE : Z :=
  BLOCK_SIZE * INODE_BLK_PTR_AMT + BLOCK_SIZE * BIT_32_PER_BLK +
  BLOCK_SIZE * BIT_32_PER_BLK * BIT_32_PER_BLK + BLOCK_SIZE * BIT_32_PER_BLK * BIT_32_PER_BLK * BIT_32_PER_BLK.

(** A new block at the end of the directory, with one entry. *)
Definition dir_grow (fs parent_n : Z) (parent : ext2_inode) (child_n : Z) (child : ext2_inode)
    (len needed : Z) (name : list Z) : FM bool :=
  if MAX_FILE_SIZE <? size_lo parent + needed then retM false
  else
    let* r := map_file_block fs parent (blocks_for (size_lo parent)) ALLOC_MODE (Some 0) in
    if negb (mr_ret r =? INODE_WRITE_SUCCESS) then retM false
    else
      let parent := add_disk_sectors (default 0 (mr_cnt r)) (mr_inode r) in
      write_block fs (out_blk r)
        (fill_entry seed_block 0 child_n len name (entry_type child)) ;;;
      let parent := set_size (size_lo parent + BLOCK_SIZE) parent in
      let* s := getM in
      if parent_n =? child_n
      then set_inode fs parent_n (set_links (hard_link_cnt parent + 1) (set_mod (epoch_sec s) parent))
      else
        let* ok := set_inode fs child_n (set_links (hard_link_cnt child + 1) child) in
        if negb ok then retM false else set_inode fs parent_n (set_mod (epoch_sec s) parent).

Definition dir_insert (fs parent_inode_n : Z) (name : list Z) (child_inode_n : Z) : FM bool :=
  let* len := name_len name in
  if bad_len len then retM false
  else
    let* r := get_inode fs child_inode_n in
    match r with
    | None => retM false
    | Some child_inode =>
        let child_fs := fs in
        let* (fs, parent_inode_n, _) := return_mnt_root fs parent_inode_n in
        if negb (fs =? child_fs) then retM false
        else
          let* r := get_inode fs parent_inode_n in
          match r with
          | None => retM false
          | Some parent_inode =>
              if negb (is_dir parent_inode) then retM false
              else
                let needed := ALIGN4 (8 + len) in
                let* r := for_blocks fs parent_inode false (fun dest_blk scratch =>
                            let* sc := scanM (place_entry scratch child_inode_n len needed name
                                                (entry_type child_inode)) in
                            match sc with
                            | ScHit scratch =>
                                write_block fs dest_blk scratch ;;;
                                let* ok := relink fs parent_inode_n parent_inode child_inode_n child_inode 1 in
                                retM (Some ok)
                            | ScBad => retM (Some false)
                            | _ => retM None
                            end) in
                match r with
                | Some ok => retM ok
                | None => dir_grow fs parent_inode_n parent_inode child_inode_n child_inode len needed name
                end
          end
    end.

(** Success and [*removed_inode_n]. *)
Definition dir_remove (fs parent_inode_n : Z) (name : list Z) : FM (bool * option Z) :=
  let* len := name_len name in
  if bad_len len then retM (false, None)
  else
    let* (fs, parent_inode_n, _) := return_mnt_root fs parent_inode_n in
    let* r := get_inode fs parent_inode_n in
    match r with
    | None => retM (false, None)
    | Some parent_inode =>
        if negb (is_dir parent_inode) then retM (false, None)
        else
          let* r := for_blocks fs parent_inode (false, None) (fun dest_blk scratch =>
                      let* sc := scanM (find_name scratch name) in
                      match sc with
                      | ScHit (c, prev) =>
                          let inode_n := de_inode scratch c in
                          write_block fs dest_blk (remove_entry scratch c prev) ;;;
                          let* r := get_inode fs inode_n in
                          match r with
                          | None => retM (Some (false, Some inode_n))
                          | Some inode =>
                              let* ok := relink fs parent_inode_n parent_inode inode_n inode (-1) in
                              retM (Some (ok, Some inode_n))
                          end
                      | ScBad => retM (Some (false, None))
                      | _ => retM None
                      end) in
          retM (default (false, None) r)
    end.

(** ** Making and removing directories and files *)

(** An access of [CLib] in the file-system monad. *)
Definition liftO {A} (r : option A) : FM A :=
  match r with
  | Some a => retM a
  | None => haltM Fault
  end.

(** [if (c) return e;] *)
Definition failE {E} (c : bool) (e : E) : FM (E + unit) := if c then leaveE e else retM (inr tt).

(** [if (!get_inode(fs, n, &ino)) return e;] *)
Definition inodeE {E} (fs n : Z) (e : E) : FM (E + ext2_inode) :=
  let* r := get_inode fs n in
  match r with
  | None => leaveE e
  | Some i => retM (inr i)
  end.

(** [streq(name, ".") || streq(name, "..")] *)
Definition is_dots (name : list Z) : FM bool :=
  let* a := liftO (streq name DOT) in if a then retM true else liftO (streq name DOTDOT).

(** The return value, and [*fs_out] when it was written. *)
Definition make_dir (fs parent_inode_n : Z) (name : list Z) : FM (Z * option Z) :=
  let err := (INODE_ERROR, None) in
  bodyE (
    let! len := liftE (name_len name) in
    let! _ := failE (bad_len len) err in
    let! (fs, parent_inode_n, _) := liftE (return_mnt_root fs parent_inode_n) in
    let! parent_inode := inodeE fs parent_inode_n err in
    let! _ := failE (negb (is_dir parent_inode)) err in
    let! found := liftE (name_in fs parent_inode name) in
    let! _ := failE (bool_decide (is_Some found)) err in
    let! (child_n, _) := liftE (put_inode fs seed_block BLOCK_SIZE true) in
    let! _ := failE (child_n =? INODE_ERROR) err in
    let! ok := liftE (dir_insert fs child_n DOT child_n) in
    let! _ := failE (negb ok) err in
    let! ok := liftE (dir_insert fs child_n DOTDOT parent_inode_n) in
    let! _ := failE (negb ok) err in
    let! ok := liftE (dir_insert fs parent_inode_n name child_n) in
    let! _ := failE (negb ok) err in
    retM (inr (child_n, Some fs))).

Definition make_file (fs parent_inode_n : Z) (name : list Z) : FM (Z * option Z) :=
  let err := (INODE_ERROR, None) in
  bodyE (
    let! len := liftE (name_len name) in
    let! _ := failE (bad_len len) err in
    let! (fs, parent_inode_n, _) := liftE (return_mnt_root fs parent_inode_n) in
    let! parent_inode := inodeE fs parent_inode_n err in
    let! _ := failE (negb (is_dir parent_inode)) err in
    let! found := liftE (name_in fs parent_inode name) in
    let! _ := failE (bool_decide (is_Some found)) err in
    let! (child_inode_n, _) := liftE (put_inode fs [] 0 false) in
    let! _ := failE (child_inode_n =? INODE_ERROR) err in
    let! ok := liftE (dir_insert fs parent_inode_n name child_inode_n) in
    if negb ok then free_inode fs child_inode_n ;;; leaveE err
    else retM (inr (child_inode_n, Some fs))).

(** The parent and the entry [name] in it. *)
Definition find_child (fs parent_inode_n : Z) (name : list Z) : FM (bool + ext2_inode * Z) :=
  let! parent_inode := inodeE fs parent_inode_n false in
  let! _ := failE (negb (is_dir parent_inode)) false in
  let! found := liftE (name_in fs parent_inode name) in
  match found with
  | None => leaveE false
  | Some n => retM (inr (parent_inode, n))
  end.

(** The name is removed; the inode number it had. [removed_inode_n] is set
    whenever [dir_remove] succeeds. *)
Definition removeE (fs parent_inode_n : Z) (name : list Z) : FM (bool + Z) :=
  let* (ok, removed) := dir_remove fs parent_inode_n name in
  if negb ok then leaveE false else retM (inr (default 0 removed)).

Definition unlink_inode (fs parent_inode_n : Z) (name : list Z) : FM bool :=
  bodyE (
    let! (fs, parent_inode_n, _) := liftE (return_mnt_root fs parent_inode_n) in
    let! (_, remove_inode_n) := find_child fs parent_inode_n name in
    let! to_remove := inodeE fs remove_inode_n false in
    let! _ := failE (is_dir to_remove) false in
    let! removed := removeE fs parent_inode_n name in
    let! removed_inode := inodeE fs removed false in
    if hard_link_cnt removed_inode =? 0 then
      let! ok := liftE (delete_inode fs removed) in
      let! _ := failE (negb ok) false in
      retM (inr true)
    else retM (inr true)).

(** [ino.hard_link_cnt += d] on disk *)
Definition add_links (fs n d : Z) : FM (bool + unit) :=
  let! i := inodeE fs n false in
  let! ok := liftE (set_inode fs n (set_links (hard_link_cnt i + d) i)) in
  failE (negb ok) false.

Definition unlink_dir (fs parent_inode_n : Z) (name : list Z) : FM bool :=
  bodyE (
    let! dots := liftE (is_dots name) in
    let! _ := failE dots false in
    let! (fs, parent_inode_n, _) := liftE (return_mnt_root fs parent_inode_n) in
    let! (_, remove_inode_n) := find_child fs parent_inode_n name in
    let! (_, busy) := liftE (return_mnt_root fs remove_inode_n) in
    let! _ := failE busy false in
    let! to_remove := inodeE fs remove_inode_n false in
    let! _ := failE (negb (is_dir to_remove)) false in
    let! empty := liftE (dir_is_empty fs to_remove) in
    let! _ := failE (negb empty) false in
    let! removed := removeE fs parent_inode_n name in
    let! _ := add_links fs parent_inode_n (-1) in
    let! _ := inodeE fs removed false in
    let! ok := liftE (delete_inode fs removed) in
    let! _ := failE (negb ok) false in
    retM (inr true)).

(** ** Renaming *)

Definition dir_set_parent_entry (fs child_n new_parent_n : Z) : FM bool :=
  bodyE (
    let! child_inode := inodeE fs child_n false in
    let! _ := failE (negb (is_dir child_inode)) false in
    let! new_parent_inode := inodeE fs new_parent_n false in
    let! _ := failE (negb (is_dir new_parent_inode)) false in
    let! r := liftE (for_blocks fs child_inode false (fun dest_blk scratch =>
                let* sc := scanM (find_name scratch DOTDOT) in
                match sc with
                | ScHit (c, _) => write_block fs dest_blk (st32 scratch c new_parent_n) ;;; retM (Some true)
                | ScBad => retM (Some false)
                | _ => retM None
                end)) in
    retM (inr (default false r))).

Definition is_ancestor (fs maybe_ancestor maybe_descendant : Z) : FM bool :=
  let* r := whileE (Z.to_nat MAX_DIR_DEPTH) 0 (fun _ => true) (fun _ cur =>
              let! _ := failE (cur =? maybe_ancestor) true in
              let! _ := failE (cur =? ROOT_INODE_N) false in
              let! ino := inodeE fs cur true in
              let! found := liftE (name_in fs ino DOTDOT) in
              match found with
              | None => leaveE true
              | Some cur => retM (inr cur)
              end) maybe_descendant in
  retM (match r with inl b => b | inr _ => true end).

(** The checks of [rename_inode]: the child and its inode. *)
Definition rename_check (fs old_parent_n : Z) (old_name : list Z) (new_parent_n : Z) (new_name : list Z)
    : FM (bool + Z * ext2_inode) :=
  let! old_parent := inodeE fs old_parent_n false in
  let! _ := failE (negb (is_dir old_parent)) false in
  let! new_parent := inodeE fs new_parent_n false in
  let! _ := failE (negb (is_dir new_parent)) false in
  let! found := liftE (name_in fs old_parent old_name) in
  match found with
  | None => leaveE false
  | Some child_n =>
      let! (_, busy) := liftE (return_mnt_root fs child_n) in
      let! _ := failE busy false in
      let! taken := liftE (name_in fs new_parent new_name) in
      let! _ := failE (bool_decide (is_Some taken)) false in
      let! _ := failE (child_n =? ROOT_INODE_N) false in
      let! child := inodeE fs child_n false in
      if is_dir child then
        let! bad := liftE (is_ancestor fs child_n new_parent_n) in
        let! _ := failE bad false in
        retM (inr (child_n, child))
      else retM (inr (child_n, child))
  end.

Definition rename_inode (fs old_parent_n : Z) (old_name : list Z) (new_parent_n : Z) (new_name : list Z) : FM bool :=
  bodyE (
    let! dots := liftE (is_dots old_name) in
    let! _ := failE dots false in
    let! dots := liftE (is_dots new_name) in
    let! _ := failE dots false in
    let! (old_fs, old_parent_n, _) := liftE (return_mnt_root fs old_parent_n) in
    let! (new_fs, new_parent_n, _) := liftE (return_mnt_root fs new_parent_n) in
    let! _ := failE (negb (old_fs =? new_fs)) false in
    let fs := old_fs in
    let! (child_n, child) := rename_check fs old_parent_n old_name new_parent_n new_name in
    let! ok := liftE (dir_insert fs new_parent_n new_name child_n) in
    let! _ := failE (negb ok) false in
    let! _ := removeE fs old_parent_n old_name in
    if negb (old_parent_n =? new_parent_n) && is_dir child then
      let! ok := liftE (dir_set_parent_entry fs child_n new_parent_n) in
      let! _ := failE (negb ok) false in
      let! _ := add_links fs old_parent_n (-1) in
      let! _ := add_links fs new_parent_n 1 in
      retM (inr true)
    else retM (inr true)).

(** ** Symbolic links *)

(** A short target takes the 60 bytes of the block pointers (and their
    terminator): offset 40 of the inode. *)
Definition inline_target (target : list Z) (len : Z) (i : ext2_inode) : ext2_inode :=
  decode (splice 40 (take (Z.to_nat (len + 1)) target) (encode i)).

(** The link as it goes to disk, and its block (0: none). *)
Definition store_target (fs link_n : Z) (target : list Z) (len : Z) (symlink : ext2_inode)
    : FM (bool + ext2_inode * Z) :=
  if MAX_SYMLINK_LEN <? len then
    let* r := map_file_block fs symlink 0 ALLOC_MODE None in
    if negb (mr_ret r =? INODE_WRITE_SUCCESS) then free_inode fs link_n ;;; leaveE false
    else
      let* s := getM in
      let* buf := copy_bytes (fresh s) 0 target 0 (len + 1) in
      write_block fs (out_blk r) buf ;;;
      retM (inr (add_disk_sectors 1 (mr_inode r), out_blk r))
  else retM (inr (inline_target target len symlink, 0)).

(** [free_inode(fs, link_n); if (block_n) free_block(fs, block_n); return false;] *)
Definition drop_link (fs link_n block_n : Z) : FM (bool + unit) :=
  free_inode fs link_n ;;;
  (if negb (block_n =? 0) then free_block fs block_n ;;; retM tt else retM tt) ;;;
  leaveE false.

Definition make_symlink (fs parent_n : Z) (name target : list Z) : FM bool :=
  bodyE (
    let! len := liftE (liftO (strlen target)) in
    let! _ := failE ((len =? 0) || (BLOCK_SIZE <=? len)) false in
    let! (fs, parent_n, _) := liftE (return_mnt_root fs parent_n) in
    let! (link_n, symlink) := liftE (mint_inode fs len INODE_SYMLINK_TYPE) in
    match symlink with
    | None => leaveE false
    | Some symlink =>
        let! (symlink, block_n) := store_target fs link_n target len symlink in
        let! ok := liftE (set_inode fs link_n symlink) in
        let! _ := if negb ok then drop_link fs link_n block_n else retM (inr tt) in
        let! ok := liftE (dir_insert fs parent_n name link_n) in
        let! _ := if negb ok then drop_link fs link_n block_n else retM (inr tt) in
        retM (inr true)
    end).
