(* ===== verification/DirSpec.v ===== *)
(** * What directories promise

    A directory is the association list of its blocks: [dir_at s fs f n ds]
    says that inode [n] of the partition is a well-formed directory whose
    blocks hold the names [ds].  Looking a name up, inserting it and removing
    it act on that list; the block map, the inode table and the other inodes
    of the partition are as they were. *)
From S2P Require Import Prelude Bytes Bitset CLib Disk Bitmap Inode BlockMap BlockAlloc FileData FileOps Mount DirBlock Dir.

(** The inode tables keep clear of the bitmaps. *)
Definition tables_apart (f : fs_info) : Prop :=
  forall m g, valid_inode_n f m -> 0 <= g < ngroups f -> (inode_at f m).1 <> bb f g /\ (inode_at f m).1 <> ib f g.

Record dir_at (s : fstate) (fs : Z) (f : fs_info) (n : Z) (ds : list (list (list Z * Z))) : Prop := mkDirAt {
  da_it : itable_wf s f;
  da_at : fs_at s fs f;
  da_tables : tables_apart f;
  da_n : valid_inode_n f n;
  da_dir : is_dir (inode_of s f n) = true;
  da_file : file_wf s f (inode_of s f n);
  da_size : size_lo (inode_of s f n) = 4096 * Z.of_nat (length ds);
  da_apart m : valid_inode_n f m -> ~ in_file s f (inode_of s f n) (inode_at f m).1;
  da_blk i d : ds !! i = Some d ->
    file_block s f (inode_of s f n) (Z.of_nat i) <> 0 /\
    repr (block_bytes s f (file_block s f (inode_of s f n) (Z.of_nat i))) d
}.

Arguments da_it {s fs f n ds} _.
Arguments da_at {s fs f n ds} _.
Arguments da_tables {s fs f n ds} _.
Arguments da_n {s fs f n ds} _.
Arguments da_dir {s fs f n ds} _.
Arguments da_file {s fs f n ds} _.
Arguments da_size {s fs f n ds} _.
Arguments da_apart {s fs f n ds} _ m _ _.
Arguments da_blk {s fs f n ds} _ i d _.

(** Inode [n] is no mount point. *)
Definition not_mounted (s : fstate) (fs n : Z) : Prop :=
  fs <> root_fs s \/ ((8 <= length (fs_entries s))%nat /\ Forall (fun f => mountpoint f <> n) (fs_entries s)).

Lemma return_mnt_root_plain s fs n : not_mounted s fs n -> return_mnt_root fs n s = Done (fs, n, false) s.
Proof.
  intros H. unfold return_mnt_root. mrun. destruct (Z.eqb_spec fs (root_fs s)) as [E|E]; cbn [negb]; [|done].
  destruct H as [?|[Hl Hf]]; [done|].
  destruct (loopM_search (Z.to_nat MAX_MOUNTS) 0 (fun part => let* f := get_fs part in
      retM (if mountpoint f =? n then Some part else None)) (fun _ => None) s) as (r & Er & Hr).
  - intros j Hj. change (Z.of_nat (Z.to_nat MAX_MOUNTS)) with 8 in Hj. unfold get_fs. mrun.
    destruct (lookup_lt_is_Some_2 (fs_entries s) (Z.to_nat j)) as [x Ex]; [lia|]. rewrite Ex.
    rewrite Forall_lookup in Hf. by rewrite (proj2 (Z.eqb_neq _ _) (Hf _ _ Ex)).
  - revert Er. mrun. intros ->. destruct r as [v|]; [|done]. destruct Hr as (j & _ & Hj & _). done.
Qed.

Lemma not_mounted_same s s' fs n :
  root_fs s' = root_fs s -> fs_entries s' = fs_entries s -> not_mounted s fs n -> not_mounted s' fs n.
Proof. unfold not_mounted. by intros -> ->. Qed.

(** ** Reading *)

Section reading.
Context (s : fstate) (fs : Z) (f : fs_info) (n : Z) (ds : list (list (list Z * Z))) (D : dir_at s fs f n ds).
Let ino := inode_of s f n.

Lemma inode_of_wf m : inode_wf (inode_of s f m).
Proof using D. apply decode_wf, Forall_sub, block_bytes_ok, (it_fs s f (da_it D)). Qed.

Lemma dir_len : 0 <= 4096 * Z.of_nat (length ds) < 4294967296 /\ size_lo ino / BLOCK_SIZE = Z.of_nat (length ds).
Proof using D.
  pose proof (inode_of_wf n) as (_ & _ & H4 & _). rewrite Forall_cons in H4. destruct H4 as [Hs _]. unfold fits in Hs.
  rewrite (da_size D) in Hs. change (256 ^ Z.of_nat 4) with 4294967296 in Hs. split; [done|].
  unfold ino. rewrite (da_size D). unfold BLOCK_SIZE. zlia.
Qed.

Lemma dir_block_at i d : ds !! i = Some d ->
  0 <= Z.of_nat i < max_blocks /\ file_block s f ino (Z.of_nat i) <> 0 /\
  data_blk f (file_block s f ino (Z.of_nat i)) /\ repr (block_bytes s f (file_block s f ino (Z.of_nat i))) d.
Proof using D.
  intros Hd. pose proof (lookup_lt_Some _ _ _ Hd). pose proof dir_len as [Hl _].
  destruct (da_blk D i d Hd) as [Hn Hr]. assert (0 <= Z.of_nat i < max_blocks) by (unfold max_blocks; lia).
  split; [done|]. split; [done|]. split; [by apply file_block_data; [apply (da_file D)|..]|done].
Qed.

(** One turn of the loop over the blocks of the directory. *)
Lemma for_blocks_turn {A} (fail : A) body i d : ds !! i = Some d ->
  (let* r := map_file_block fs ino (Z.of_nat i) LOOKUP_MODE None in
   if negb (mr_ret r =? INODE_WRITE_SUCCESS) then retM (Some fail)
   else let* scratch := read_block fs (out_blk r) in body (out_blk r) scratch) s =
  body (file_block s f ino (Z.of_nat i)) (block_bytes s f (file_block s f ino (Z.of_nat i))) s.
Proof using D.
  intros Hd. destruct (dir_block_at i d Hd) as (Hi & Hn & Hb & _). pose proof (it_fs s f (da_it D)) as W.
  rewrite (bindM_Done _ _ _ _ _ (map_lookup_ok s fs f ino _ None W (da_at D) (da_file D) Hi)).
  unfold found, found_out. rewrite (proj2 (Z.eqb_neq _ 0) Hn). cbn [mr_ret mr_out]. rewrite Z.eqb_refl. cbn [negb].
  unfold out_blk. cbn [mr_out default].
  by rewrite (bindM_Done _ _ _ _ _ (read_block_ok s fs f _ (da_at D) (wf_part s f W) (proj1 (proj2 (proj2 Hb))))).
Qed.

(** A loop that reads: it stops at the first block with an answer. *)
Lemma for_blocks_search {A} (fail : A) body (p : Z -> option A) :
  (forall i d, ds !! i = Some d ->
     body (file_block s f ino (Z.of_nat i)) (block_bytes s f (file_block s f ino (Z.of_nat i))) s =
     Done (p (Z.of_nat i)) s) ->
  exists r, for_blocks fs ino fail body s = Done r s /\
    match r with
    | Some v => exists j, (j < length ds)%nat /\ p (Z.of_nat j) = Some v /\ forall k, (k < j)%nat -> p (Z.of_nat k) = None
    | None => forall j, (j < length ds)%nat -> p (Z.of_nat j) = None
    end.
Proof using D.
  intros Hb. unfold for_blocks. destruct dir_len as [Hl ->]. rewrite Nat2Z.id.
  destruct (loopM_search (length ds) 0 (fun i => let* r := map_file_block fs ino i LOOKUP_MODE None in
    if negb (mr_ret r =? INODE_WRITE_SUCCESS) then retM (Some fail)
    else let* scratch := read_block fs (out_blk r) in body (out_blk r) scratch) p s) as (r & -> & Hr).
  - intros j Hj. destruct (lookup_lt_is_Some_2 ds (Z.to_nat j)) as [d Hd]; [lia|].
    rewrite <- (Z2Nat.id j) at 1 2 by lia. rewrite (for_blocks_turn fail body _ d Hd), (Hb _ d Hd). by rewrite Z2Nat.id by lia.
  - exists r. split; [done|]. destruct r as [v|].
    + destruct Hr as (j & Hj & Hp & Hk). exists (Z.to_nat j). rewrite Z2Nat.id by lia. split; [lia|]. split; [done|].
      intros k H. apply Hk. lia.
    + intros j H. apply Hr. lia.
Qed.
End reading.

(** ** Looking a name up *)

Definition dir_find (m : list Z) (ds : list (list (list Z * Z))) : option Z :=
  if decide (ascii m) then afind m (concat ds) else None.

Section lookup.
Context (s : fstate) (fs : Z) (f : fs_info) (n : Z) (ds : list (list (list Z * Z))) (D : dir_at s fs f n ds).
Context (name m : list Z) (Hm : cstr name = Some m) (Hb : bytes_ok m).
Let ino := inode_of s f n.

Lemma find_block i d : ds !! i = Some d ->
  match find_name (block_bytes s f (file_block s f ino (Z.of_nat i))) name with
  | ScHit (c, _) => ascii m /\ afind m d = Some (de_inode (block_bytes s f (file_block s f ino (Z.of_nat i))) c)
  | ScEnd => ascii m -> afind m d = None
  | _ => False
  end.
Proof using D Hm Hb.
  intros Hd. destruct (dir_block_at s fs f n ds D i d Hd) as (_ & _ & _ & Hr).
  by apply (find_name_spec _ d name m).
Qed.

(** A loop that answers block by block answers for the directory. *)
Lemma for_blocks_find body :
  (forall i d, ds !! i = Some d ->
     body (file_block s f ino (Z.of_nat i)) (block_bytes s f (file_block s f ino (Z.of_nat i))) s =
     Done (if decide (ascii m) then Some <$> afind m d else None) s) ->
  exists r, for_blocks fs ino None body s = Done r s /\ default None r = dir_find m ds.
Proof using D Hm Hb.
  intros Hbody.
  set (q := fun i => if decide (ascii m) then Some <$> (ds !! Z.to_nat i ≫= afind m) else None).
  assert (forall j d, ds !! j = Some d -> q (Z.of_nat j) = if decide (ascii m) then Some <$> afind m d else None) as Hq.
  { intros j d Hd. unfold q. rewrite Nat2Z.id, Hd. done. }
  destruct (for_blocks_search s fs f n ds D None body q) as (r & Er & Hr).
  { intros i d Hd. rewrite (Hq i d Hd). exact (Hbody i d Hd). }
  exists r. split; [done|]. unfold dir_find.
  case_decide as Ha; destruct r as [v|]; cbn [default].
  - destruct Hr as (j & Hj & Hp & Hk). destruct (lookup_lt_is_Some_2 ds j Hj) as [d Hd].
    rewrite (Hq j d Hd) in Hp. destruct (afind m d) as [i|] eqn:E; [|done]. injection Hp as <-. symmetry.
    apply (afind_concat_some m ds j d i Hd E). intros k d' Hkj Hd'. specialize (Hk k Hkj). rewrite (Hq k d' Hd') in Hk.
    by destruct (afind m d').
  - symmetry. apply afind_concat_none. intros i d Hd. specialize (Hr i (lookup_lt_Some _ _ _ Hd)).
    rewrite (Hq i d Hd) in Hr. by destruct (afind m d).
  - destruct Hr as (j & Hj & Hp & _). destruct (lookup_lt_is_Some_2 ds j Hj) as [d Hd]. by rewrite (Hq j d Hd) in Hp.
  - done.
Qed.

Lemma name_in_spec : name_in fs ino name s = Done (dir_find m ds) s.
Proof using D Hm Hb.
  unfold name_in. destruct (for_blocks_find (fun _ scratch =>
      let* sc := scanM (find_name scratch name) in
      retM (match sc with ScHit (c, _) => Some (Some (de_inode scratch c)) | _ => None end))) as (r & Er & Hr).
  { intros i d Hd. pose proof (find_block i d Hd) as H. unfold scanM.
    destruct (find_name _ name) as [[c p]| | | |]; [| |done..].
    - destruct H as [Ha ->]. by rewrite decide_True.
    - case_decide; [|done]. by rewrite H. }
  rewrite (bindM_Done _ _ _ _ _ Er). unfold retM. by f_equal.
Qed.

Lemma dir_contains_spec : not_mounted s fs n -> dir_contains fs n name s = Done (dir_find m ds) s.
Proof using D Hm Hb.
  intros Hn. unfold dir_contains. rewrite (bindM_Done _ _ _ _ _ (return_mnt_root_plain s fs n Hn)).
  rewrite (bindM_Done _ _ _ _ _ (get_inode_ok s f (da_it D) fs n (da_at D) (da_n D))).
  rewrite (da_dir D). cbn [negb]. apply name_in_spec.
Qed.
End lookup.

(** ** Editing *)

(** The inodes [i] and [i'] have the same type, size and blocks. *)
Record same_body (i i' : ext2_inode) : Prop := mkBody {
  sb_type : file_type i' = file_type i;
  sb_size : size_lo i' = size_lo i;
  sb_roots k : root_of i' k = root_of i k;
  sb_len : length (dir_block_ptr i') = length (dir_block_ptr i)
}.

Lemma body_file s f i i' : same_body i i' -> file_wf s f i -> file_wf s f i'.
Proof.
  intros [_ _ R L] [F1 F2 F3]. split; [congruence| |].
  - intros k Hk. rewrite R. by apply F2.
  - intros k k' b Hk Hk'. rewrite !R. by apply F3.
Qed.

Lemma body_block s f i i' idx : same_body i i' -> file_block s f i' idx = file_block s f i idx.
Proof. intros [_ _ R _]. unfold file_block. by rewrite R. Qed.

Lemma body_in s f i i' x : same_body i i' -> in_file s f i' x <-> in_file s f i x.
Proof. intros [_ _ R _]. unfold in_file. by setoid_rewrite R. Qed.

(** What a step of a directory operation keeps. *)
Record quiet (s s' : fstate) (f : fs_info) : Prop := mkQuiet {
  qu_entries : fs_entries s' = fs_entries s;
  qu_env : same_env s s'
}.
Lemma quiet_trans s s' s'' f : quiet s s' f -> quiet s' s'' f -> quiet s s'' f.
Proof. intros [E V] [E' V']. split; [congruence|by apply (same_env_trans s s' s'')]. Qed.

Section editing.
Context (s : fstate) (fs : Z) (f : fs_info) (n : Z) (ds : list (list (list Z * Z))) (D : dir_at s fs f n ds).

Lemma used_apart s' b x :
  (forall y, y <> b -> block_bytes s' f y = block_bytes s f y) -> (forall g, 0 <= g < ngroups f -> b <> bb f g) ->
  data_blk f x -> blk_used s' f x = blk_used s f x.
Proof using D.
  intros Ho Hg Hx. pose proof (it_fs s f (da_it D)) as W. unfold blk_used. rewrite (wf_bpg s f W).
  rewrite Ho; [done|]. apply not_eq_sym, Hg. destruct Hx as (? & ? & _). zlia.
Qed.

Lemma dir_write i d d' buf : ds !! i = Some d -> repr buf d' ->
  let b := file_block s f (inode_of s f n) (Z.of_nat i) in
  exists s', write_block fs b buf s = Done tt s' /\ dir_at s' fs f n (<[i := d']> ds) /\ quiet s s' f /\
    changes f (eq b) s s' /\ forall m, valid_inode_n f m -> inode_of s' f m = inode_of s f m.
Proof using D.
  intros Hd Hr b. pose proof (it_fs s f (da_it D)) as W. pose proof (lookup_lt_Some _ _ _ Hd) as Hil.
  destruct (dir_block_at s fs f n ds D i d Hd) as (Hi & Hn & Hb & _). fold b in Hn, Hb.
  rewrite (write_block_ok s fs f b buf (da_at D) (wf_part s f W) (proj1 (proj2 (proj2 Hb)))). eexists. split; [done|].
  destruct Hr as (Hlen & Hby & Hr).
  set (s' := put_block f b buf s). assert (changes f (eq b) s s') as Hc by apply changes_put_block.
  assert (forall y, y <> b -> block_bytes s' f y = block_bytes s f y) as Ho by (intros; by apply block_bytes_other).
  assert (block_edit s s' f b) as Ed.
  { split; [done|]. intros x. apply (used_apart s' b x); [done|]. intros g Hg. by apply Hb. }
  assert (forall m, valid_inode_n f m -> inode_of s' f m = inode_of s f m) as Him.
  { intros m Hm. unfold inode_of. rewrite Ho; [done|]. intros E. apply (da_apart D m Hm). rewrite E.
    by apply file_block_in. }
  destruct (edit_file s s' f b Ed (inode_of s f n) (da_file D)) as (F' & In' & Bl'); [right; by exists (Z.of_nat i)|].
  assert (itable_wf s' f) as T'.
  { apply (itable_wf_step s s' f f (da_it D)); [apply same_geom_refl|done|]. by apply put_block_wf; [apply W|..]. }
  split; [|split; [by split|split; [done|done]]].
  split; rewrite ?(Him n (da_n D)); [done|apply D|apply D|apply D|apply D|done|..].
  - rewrite length_insert. exact (da_size D).
  - intros m Hm. rewrite In'. by apply (da_apart D).
  - intros j dj Hj. assert (j < length ds)%nat as Hjl by (apply lookup_lt_Some in Hj; by rewrite length_insert in Hj).
    destruct (lookup_lt_is_Some_2 ds j Hjl) as [dj0 Hj0]. destruct (dir_block_at s fs f n ds D j dj0 Hj0) as (Hjm & Hjn & _ & Hrj).
    rewrite Bl' by done. split; [done|]. destruct (Nat.eq_dec i j) as [->|Hne].
    + rewrite list_lookup_insert_eq in Hj by done. injection Hj as <-. fold b. unfold s'. rewrite block_bytes_same by done. done.
    + rewrite list_lookup_insert_ne in Hj by done. rewrite Hj0 in Hj. injection Hj as <-. rewrite Ho; [done|].
      intros E. apply Hne. apply Nat2Z.inj. symmetry. by apply (file_block_inj s f (inode_of s f n)); [apply D|..].
Qed.

Lemma dir_set_inode c i' :
  valid_inode_n f c -> inode_wf i' -> (c = n -> same_body (inode_of s f n) i') ->
  exists s', set_inode fs c i' s = Done true s' /\ dir_at s' fs f n ds /\ quiet s s' f /\ inode_of s' f c = i' /\
    changes f (eq (inode_at f c).1) s s' /\
    forall m, valid_inode_n f m -> m <> c -> inode_of s' f m = inode_of s f m.
Proof using D.
  intros Hc Hi' Hsb. destruct (set_inode_state s fs f c i' (da_it D) (da_at D) Hc Hi')
    as (s' & Es & T' & Ee & Ev & Hch & Ei & Hoth).
  exists s'. split; [done|]. set (b := (inode_at f c).1) in *.
  assert (forall y, y <> b -> block_bytes s' f y = block_bytes s f y) as Ho.
  { intros y Hy. by apply (changes_block f f (eq b)); [|done|apply not_eq_sym]. }
  assert (block_edit s s' f b) as Ed.
  { split; [done|]. intros x. apply (used_apart s' b x); [done|]. intros g Hg. by apply (da_tables D). }
  destruct (edit_file s s' f b Ed (inode_of s f n) (da_file D)) as (F' & In' & Bl'); [left; by apply (da_apart D)|].
  assert (same_body (inode_of s f n) (inode_of s' f n)) as B.
  { destruct (Z.eq_dec c n) as [->|Hne]; [rewrite Ei; by apply Hsb|]. rewrite Hoth; [done|apply D|by apply not_eq_sym]. }
  split; [|split; [by split|split; [done|split; [done|by intros; apply Hoth]]]]. split.
  - done.
  - unfold fs_at. rewrite Ee. apply D.
  - apply D.
  - apply D.
  - unfold is_dir. rewrite (sb_type _ _ B). exact (da_dir D).
  - by apply (body_file _ _ _ _ B).
  - rewrite (sb_size _ _ B). exact (da_size D).
  - intros m Hm. rewrite (body_in _ _ _ _ _ B), In'. by apply (da_apart D).
  - intros j dj Hj. destruct (dir_block_at s fs f n ds D j dj Hj) as (Hjm & Hjn & Hjb & Hrj).
    rewrite (body_block _ _ _ _ _ B), Bl' by done. split; [done|]. rewrite Ho; [done|]. intros E.
    apply (da_apart D c Hc). fold b. rewrite <- E. by apply file_block_in.
Qed.
End editing.

(** ** Link counts and times *)

Lemma links_wf d i : inode_wf i -> inode_wf (set_links d i).
Proof.
  intros (H2 & H1 & H4 & H5). split; [|done]. rewrite !Forall_cons in H2 |- *. unfold fits, u16 in *.
  cbn [type_and_perms_lo user_id_lo group_id hard_link_cnt unused_4 user_id_hi group_id_hi set_links with_meta] in *.
  change (256 ^ Z.of_nat 2) with 65536 in *. pose proof (Z.mod_pos_bound d 65536 ltac:(lia)). intuition.
Qed.
Lemma mod_wf t i : inode_wf i -> inode_wf (set_mod t i).
Proof.
  intros (H2 & H1 & H4 & H5). split; [done|]. split; [done|]. split; [|done]. rewrite !Forall_cons in H4 |- *. unfold fits, u32 in *.
  cbn [size_lo last_access_time creation_time last_mod_time deletion_time disk_sectors flags unused
    singly_indir_block_ptr doubly_indir_block_ptr triply_indir_block_ptr generation_num unused_2 unused_3
    fragment_addr unused_5 set_mod with_meta] in *.
  change (256 ^ Z.of_nat 4) with 4294967296 in *. pose proof (Z.mod_pos_bound t 4294967296 ltac:(lia)). intuition.
Qed.
Lemma links_body d i : same_body i (set_links d i).
Proof. by split. Qed.
Lemma mod_body t i : same_body i (set_mod t i).
Proof. by split. Qed.
Lemma body_trans i i' i'' : same_body i i' -> same_body i' i'' -> same_body i i''.
Proof. intros [] []. split; congruence. Qed.

(** The inodes after [relink]: the child's count moves by [d]; the directory
    is marked as modified. *)
Record relinked (s s' : fstate) (f : fs_info) (n c d : Z) : Prop := mkRelinked {
  rl_child : inode_of s' f c = (if c =? n then set_mod (epoch_sec s) else id) (set_links (hard_link_cnt (inode_of s f c) + d) (inode_of s f c));
  rl_parent : c <> n -> inode_of s' f n = set_mod (epoch_sec s) (inode_of s f n);
  rl_other m : valid_inode_n f m -> m <> c -> m <> n -> inode_of s' f m = inode_of s f m
}.

Lemma relink_spec s fs f n ds c d :
  dir_at s fs f n ds -> valid_inode_n f c ->
  exists s', relink fs n (inode_of s f n) c (inode_of s f c) d s = Done true s' /\ dir_at s' fs f n ds /\
    quiet s s' f /\ relinked s s' f n c d.
Proof.
  intros D Hc. unfold relink. mrun. rewrite Z.eqb_sym.
  pose proof (links_wf (hard_link_cnt (inode_of s f c) + d) _ (inode_of_wf s fs f n ds D c)) as Wc.
  destruct (Z.eqb_spec c n) as [->|Hne].
  - destruct (dir_set_inode s fs f n ds D n (set_mod (epoch_sec s) (set_links (hard_link_cnt (inode_of s f n) + d) (inode_of s f n))))
      as (s' & -> & D' & Q & Ei & _ & Ho); [done|by apply mod_wf| |].
    { intros _. eapply body_trans; [apply links_body|apply mod_body]. }
    exists s'. split; [done|]. split; [done|]. split; [done|]. split; [by rewrite Z.eqb_refl|done|by intros; apply Ho].
  - destruct (dir_set_inode s fs f n ds D c (set_links (hard_link_cnt (inode_of s f c) + d) (inode_of s f c)))
      as (s1 & -> & D1 & Q1 & E1 & _ & O1); [done..|]. cbn [negb].
    destruct (dir_set_inode s1 fs f n ds D1 n (set_mod (epoch_sec s) (inode_of s f n)))
      as (s' & -> & D' & Q & Ei & _ & Ho); [apply D|apply mod_wf, (inode_of_wf s fs f n ds D)| |].
    { intros _. rewrite O1; [apply mod_body|apply D|by apply not_eq_sym]. }
    exists s'. split; [done|]. split; [done|]. split; [by apply (quiet_trans s s1 s')|]. split.
    + rewrite Ho by done. rewrite E1. by rewrite (proj2 (Z.eqb_neq c n)).
    + done.
    + intros m Hm Hmc Hmn. rewrite Ho, O1 by done. done.
Qed.

(** ** Inserting where there is room *)

Lemma name_len_from_spec fuel len name m :
  cstr name = Some m -> (length m < fuel)%nat -> name_len_from fuel len name = Some (len + Z.of_nat (length m)).
Proof.
  revert fuel len m. induction name as [|c name IH]; intros fuel len m H Hf; [done|]. simpl in H.
  destruct fuel as [|fuel]; [lia|]. cbn [name_len_from]. destruct (Z.eqb_spec c 0) as [->|Hc].
  - injection H as <-. simpl. f_equal. lia.
  - destruct (cstr name) as [m'|]; [|done]. injection H as <-. simpl in Hf. rewrite (IH fuel (len + 1) m') by (done || lia).
    f_equal. simpl. lia.
Qed.

Lemma name_len_good name m s : good_name name m ->
  name_len name s = Done (Z.of_nat (length m)) s /\ bad_len (Z.of_nat (length m)) = false.
Proof.
  intros (Hc & _ & Hl). unfold name_len. rewrite (name_len_from_spec _ 0 name m Hc) by (unfold NAME_LEN; lia).
  split; [done|]. unfold bad_len, NAME_LEN. lia.
Qed.

Section inserting.
Context (s : fstate) (fs : Z) (f : fs_info) (n : Z) (ds : list (list (list Z * Z))) (D : dir_at s fs f n ds).
Context (name m : list Z) (Hg : good_name name m) (c : Z) (Hc : valid_inode_n f c) (Hn : not_mounted s fs n).
Let ino := inode_of s f n.
Let len := Z.of_nat (length m).
Let needed := ALIGN4 (8 + len).
Let blk (i : Z) := block_bytes s f (file_block s f ino i).
Let placed (i : Z) := place_entry (blk i) c len needed name (entry_type (inode_of s f c)).

(** Some block has room for the entry. *)
Definition has_room : Prop :=
  exists i b', (i < length ds)%nat /\ placed (Z.of_nat i) = ScHit b'.

Lemma valid_range : 0 < c < 4294967296.
Proof using All.
  pose proof (ld_range 4 (sprblk_buf f) 0 (wf_sprblk_bytes s f (it_fs s f (da_it D)))) as H.
  destruct Hc as [H1 H2]. unfold sb_inode_cnt in H2. change (256 ^ Z.of_nat 4) with 4294967296 in H. lia.
Qed.

Lemma placed_spec i d : ds !! i = Some d ->
  match placed (Z.of_nat i) with
  | ScHit b' => exists d1 d2, d = d1 ++ d2 /\ repr b' (d1 ++ (m, c) :: d2)
  | ScEnd => True
  | _ => False
  end.
Proof using All.
  intros Hd. destruct (dir_block_at s fs f n ds D i d Hd) as (_ & _ & _ & Hr). destruct Hg as (H1 & H2 & H3).
  pose proof (place_spec _ d name m c (entry_type (inode_of s f c)) Hr H1 H2 ltac:(lia) valid_range) as H.
  unfold placed, blk, needed, len. fold ino. fold ino in H. by destruct (place_entry _ _ _ _ _ _).
Qed.

(** The turn that finds room. *)
Lemma insert_turn i d b' : ds !! i = Some d -> placed (Z.of_nat i) = ScHit b' ->
  exists s' d1 d2, d = d1 ++ d2 /\ dir_at s' fs f n (<[i := d1 ++ (m, c) :: d2]> ds) /\ quiet s s' f /\
    relinked s s' f n c 1 /\
    (write_block fs (file_block s f ino (Z.of_nat i)) b' ;;;
     let* ok := relink fs n ino c (inode_of s f c) 1 in retM (Some ok)) s = Done (Some true) s'.
Proof using All.
  intros Hd Hp. pose proof (placed_spec i d Hd) as H. rewrite Hp in H. destruct H as (d1 & d2 & Ed & Hr).
  destruct (dir_write s fs f n ds D i d _ b' Hd Hr) as (s1 & E1 & D1 & Q1 & _ & I1).
  destruct (relink_spec s1 fs f n _ c 1 D1 Hc) as (s' & E & D' & Q & [Rc Rp Ro]).
  exists s', d1, d2. split; [done|]. split; [done|]. split; [by apply (quiet_trans s s1 s')|].
  pose proof (qu_env _ _ _ Q1) as (_ & _ & _ & _ & Et & _). split.
  - split; [by rewrite Rc, I1, Et|intros Hne; by rewrite Rp, I1, Et by (done || apply D)|].
    intros x Hx Hxc Hxn. rewrite Ro, I1 by done. done.
  - fold ino in E1. rewrite (bindM_Done _ _ _ _ _ E1). rewrite (I1 n (da_n D)), (I1 c Hc) in E. fold ino in E.
    by rewrite (bindM_Done _ _ _ _ _ E).
Qed.

Lemma dir_insert_spec : has_room ->
  exists s' i d1 d2, dir_insert fs n name c s = Done true s' /\ ds !! i = Some (d1 ++ d2) /\
    dir_at s' fs f n (<[i := d1 ++ (m, c) :: d2]> ds) /\ quiet s s' f /\ relinked s s' f n c 1.
Proof using All.
  intros (i0 & b0 & Hi0 & Hp0). destruct (name_len_good name m s Hg) as [El Eb].
  destruct (dir_len s fs f n ds D) as [Hl Ed].
  set (body := fun i => let* r := map_file_block fs ino i LOOKUP_MODE None in
    if negb (mr_ret r =? INODE_WRITE_SUCCESS) then retM (Some false)
    else let* scratch := read_block fs (out_blk r) in
         let* sc := scanM (place_entry scratch c len needed name (entry_type (inode_of s f c))) in
         match sc with
         | ScHit scratch' => write_block fs (out_blk r) scratch' ;;;
             let* ok := relink fs n ino c (inode_of s f c) 1 in retM (Some ok)
         | ScBad => retM (Some false)
         | _ => retM None
         end).
  assert (forall i d, ds !! i = Some d -> body (Z.of_nat i) s =
    (let* sc := scanM (placed (Z.of_nat i)) in
     match sc with
     | ScHit scratch' => write_block fs (file_block s f ino (Z.of_nat i)) scratch' ;;;
         let* ok := relink fs n ino c (inode_of s f c) 1 in retM (Some ok)
     | ScBad => retM (Some false)
     | _ => retM None
     end) s) as Hbody.
  { intros i d Hd. exact (for_blocks_turn s fs f n ds D false (fun dest_blk scratch =>
      let* sc := scanM (place_entry scratch c len needed name (entry_type (inode_of s f c))) in
      match sc with
      | ScHit scratch' => write_block fs dest_blk scratch' ;;;
          let* ok := relink fs n ino c (inode_of s f c) 1 in retM (Some ok)
      | ScBad => retM (Some false)
      | _ => retM None
      end) i d Hd). }
  assert (exists s' i d1 d2, loopM (Z.to_nat (size_lo ino / BLOCK_SIZE)) 0 body s = Done (Some true) s' /\
    ds !! i = Some (d1 ++ d2) /\ dir_at s' fs f n (<[i := d1 ++ (m, c) :: d2]> ds) /\ quiet s s' f /\
    relinked s s' f n c 1) as (s' & i & d1 & d2 & Eloop & H).
  { unfold ino at 1. rewrite Ed, Nat2Z.id.
    destruct (loopM_first (length ds) 0 body (fun j => match placed j with ScHit _ => true | _ => false end) s)
      as [[_ Hno]|(j & Hj & Hp & _ & Hv)].
    - intros j Hj Hp. destruct (lookup_lt_is_Some_2 ds (Z.to_nat j)) as [d Hd]; [lia|].
      rewrite <- (Z2Nat.id j) in Hp |- * by lia. rewrite (Hbody _ d Hd). pose proof (placed_spec _ d Hd) as H.
      destruct (placed (Z.of_nat (Z.to_nat j))) as [b'| | | |]; [discriminate Hp|reflexivity|destruct H..].
    - specialize (Hno (Z.of_nat i0) ltac:(lia)). by rewrite Hp0 in Hno.
    - destruct (lookup_lt_is_Some_2 ds (Z.to_nat j)) as [d Hd]; [lia|].
      rewrite <- (Z2Nat.id j) in Hp, Hv by lia. destruct (placed (Z.of_nat (Z.to_nat j))) as [b'| | | |] eqn:Epl; [|discriminate Hp..].
      destruct (insert_turn _ d b' Hd Epl) as (s' & d1 & d2 & -> & D' & Q & R & E).
      exists s', (Z.to_nat j), d1, d2. split; [|done]. apply Hv. rewrite (Hbody _ _ Hd), Epl. exact E. }
  exists s', i, d1, d2. split; [|done]. unfold dir_insert. rewrite (bindM_Done _ _ _ _ _ El), Eb.
  rewrite (bindM_Done _ _ _ _ _ (get_inode_ok s f (da_it D) fs c (da_at D) Hc)).
  rewrite (bindM_Done _ _ _ _ _ (return_mnt_root_plain s fs n Hn)). rewrite Z.eqb_refl. cbn [negb].
  rewrite (bindM_Done _ _ _ _ _ (get_inode_ok s f (da_it D) fs n (da_at D) (da_n D))).
  rewrite (da_dir D). cbn [negb].
  fold len. fold needed. fold ino. unfold for_blocks.
  fold body. by rewrite (bindM_Done _ _ _ _ _ Eloop).
Qed.
End inserting.

(** ** Removing *)

Section removing.
Context (s : fstate) (fs : Z) (f : fs_info) (n : Z) (ds : list (list (list Z * Z))) (D : dir_at s fs f n ds).
Context (name m : list Z) (Hg : good_name name m) (Hn : not_mounted s fs n).
Let ino := inode_of s f n.
Let blk (i : Z) := block_bytes s f (file_block s f ino i).

(** What [dir_remove] does with a block. *)
Definition remove_body (dest_blk : Z) (scratch : list Z) : FM (option (bool * option Z)) :=
  let* sc := scanM (find_name scratch name) in
  match sc with
  | ScHit (c, prev) =>
      let inode_n := de_inode scratch c in
      write_block fs dest_blk (remove_entry scratch c prev) ;;;
      let* r := get_inode fs inode_n in
      match r with
      | None => retM (Some (false, Some inode_n))
      | Some inode => let* ok := relink fs n ino inode_n inode (-1) in retM (Some (ok, Some inode_n))
      end
  | ScBad => retM (Some (false, None))
  | _ => retM None
  end.

(** The turn that finds the name. *)
Lemma remove_turn i d c prev x : ds !! i = Some d -> find_name (blk (Z.of_nat i)) name = ScHit (c, prev) ->
  x = de_inode (blk (Z.of_nat i)) c -> valid_inode_n f x ->
  exists s', remove_body (file_block s f ino (Z.of_nat i)) (blk (Z.of_nat i)) s = Done (Some (true, Some x)) s' /\
    dir_at s' fs f n (<[i := adel m d]> ds) /\ quiet s s' f /\ relinked s s' f n x (-1).
Proof using All.
  intros Hd Hf -> Hx. destruct Hg as (H1 & H2 & _).
  destruct (dir_block_at s fs f n ds D i d Hd) as (_ & _ & _ & Hr). fold ino in Hr. fold (blk (Z.of_nat i)) in Hr.
  pose proof (remove_spec _ d name m c prev Hr H1 H2 Hf) as Hr'.
  destruct (dir_write s fs f n ds D i d _ _ Hd Hr') as (s1 & E1 & D1 & Q1 & _ & I1). fold ino in E1.
  destruct (relink_spec s1 fs f n _ _ (-1) D1 Hx) as (s' & E & D' & Q & [Rc Rp Ro]).
  rewrite (I1 n (da_n D)) in E. fold ino in E.
  exists s'. split; [|split; [done|split; [by apply (quiet_trans s s1 s')|]]].
  - unfold remove_body. rewrite Hf. unfold scanM. rewrite (bindM_Done _ _ _ _ _ (eq_refl : retM _ s = Done _ s)).
    rewrite (bindM_Done _ _ _ _ _ E1).
    rewrite (bindM_Done _ _ _ _ _ (get_inode_ok s1 f (da_it D1) fs _ (da_at D1) Hx)).
    by rewrite (bindM_Done _ _ _ _ _ E).
  - pose proof (qu_env _ _ _ Q1) as (_ & _ & _ & _ & Et & _).
    split; [by rewrite Rc, I1, Et|intros Hne; by rewrite Rp, I1, Et by (done || apply D)|].
    intros y Hy Hyc Hyn. rewrite Ro, I1 by done. done.
Qed.

Lemma dir_remove_spec :
  match dir_find m ds with
  | None => dir_remove fs n name s = Done (false, None) s
  | Some x => valid_inode_n f x ->
      exists s' i d, dir_remove fs n name s = Done (true, Some x) s' /\ ds !! i = Some d /\
        (forall k d', (k < i)%nat -> ds !! k = Some d' -> afind m d' = None) /\ afind m d = Some x /\
        dir_at s' fs f n (<[i := adel m d]> ds) /\ quiet s s' f /\ relinked s s' f n x (-1)
  end.
Proof using All.
  destruct (name_len_good name m s Hg) as [El Eb]. pose proof Hg as (H1 & H2 & _).
  set (body := fun i => let* r := map_file_block fs ino i LOOKUP_MODE None in
    if negb (mr_ret r =? INODE_WRITE_SUCCESS) then retM (Some (false, None))
    else let* scratch := read_block fs (out_blk r) in remove_body (out_blk r) scratch).
  assert (forall i d, ds !! i = Some d ->
    body (Z.of_nat i) s = remove_body (file_block s f ino (Z.of_nat i)) (blk (Z.of_nat i)) s) as Hbody.
  { intros i d Hd. exact (for_blocks_turn s fs f n ds D (false, None) remove_body i d Hd). }
  assert (dir_remove fs n name s = (let* r := loopM (length ds) 0 body in retM (default (false, None) r)) s) as ->.
  { unfold dir_remove. rewrite (bindM_Done _ _ _ _ _ El), Eb.
    rewrite (bindM_Done _ _ _ _ _ (return_mnt_root_plain s fs n Hn)).
    rewrite (bindM_Done _ _ _ _ _ (get_inode_ok s f (da_it D) fs n (da_at D) (da_n D))).
    rewrite (da_dir D). cbn [negb]. fold ino. unfold for_blocks. destruct (dir_len s fs f n ds D) as [_ Ed].
    fold ino in Ed. rewrite Ed, Nat2Z.id. unfold body, remove_body. reflexivity. }
  assert (forall i d, ds !! i = Some d -> match find_name (blk (Z.of_nat i)) name with
    | ScHit (c, _) => ascii m /\ afind m d = Some (de_inode (blk (Z.of_nat i)) c)
    | ScEnd => ascii m -> afind m d = None | _ => False end) as Hfind
    by exact (find_block s fs f n ds D name m H1 H2).
  destruct (loopM_first (length ds) 0 body (fun j => match find_name (blk j) name with ScHit _ => true | _ => false end) s)
    as [[El' Hno]|(j & Hj & Hp & Hk & Hv)].
  - intros j Hj Hp. destruct (lookup_lt_is_Some_2 ds (Z.to_nat j)) as [d Hd]; [lia|].
    rewrite <- (Z2Nat.id j) in Hp |- * by lia. rewrite (Hbody _ d Hd). pose proof (Hfind _ d Hd) as H. unfold remove_body.
    destruct (find_name (blk (Z.of_nat (Z.to_nat j))) name) as [[]| | | |]; [discriminate Hp|reflexivity|destruct H..].
  - unfold dir_find. rewrite (bindM_Done _ _ _ _ _ El'). case_decide as Ha; [|done].
    rewrite afind_concat_none; [done|]. intros i d Hd. pose proof (lookup_lt_Some _ _ _ Hd) as Hil.
    specialize (Hno (Z.of_nat i) ltac:(lia)). pose proof (Hfind i d Hd) as H.
    destruct (find_name (blk (Z.of_nat i)) name) as [[]| | | |]; [discriminate Hno|by apply H|destruct H..].
  - destruct (lookup_lt_is_Some_2 ds (Z.to_nat j)) as [d Hd]; [lia|]. pose proof (Hfind _ d Hd) as H.
    rewrite <- (Z2Nat.id j) in Hp, Hv by lia.
    destruct (find_name (blk (Z.of_nat (Z.to_nat j))) name) as [[c prev]| | | |] eqn:Ef; [|discriminate Hp..].
    destruct H as [Ha Hx]. unfold dir_find. rewrite decide_True by done.
    assert (forall k d', (k < Z.to_nat j)%nat -> ds !! k = Some d' -> afind m d' = None) as Hbefore.
    { intros k d' Hkj Hd'. specialize (Hk (Z.of_nat k) ltac:(lia)). pose proof (Hfind k d' Hd') as H.
      destruct (find_name (blk (Z.of_nat k)) name) as [[]| | | |]; [discriminate Hk|by apply H|destruct H..]. }
    rewrite (afind_concat_some m ds _ d _ Hd Hx Hbefore). intros Hval.
    destruct (remove_turn _ d c prev _ Hd Ef eq_refl Hval) as (s' & E & D' & Q & R).
    exists s', (Z.to_nat j), d. split; [|done].
    rewrite (bindM_Done _ _ _ _ _ (Hv _ s' (eq_trans (Hbody _ d Hd) E))). done.
Qed.
End removing.

(** ** The contract *)

Lemma concat_insert {A} (ds : list (list A)) i d x :
  ds !! i = Some d -> concat ds = concat (take i ds) ++ d ++ concat (drop (S i) ds) /\
  concat (<[i := x]> ds) = concat (take i ds) ++ x ++ concat (drop (S i) ds).
Proof.
  intros Hd. split.
  - rewrite <- (take_drop_middle ds i d Hd) at 1. by rewrite concat_app.
  - rewrite insert_take_drop by (by apply lookup_lt_Some in Hd). by rewrite concat_app.
Qed.

Lemma afind_concat_take m (ds : list (list (list Z * Z))) i :
  (forall k d', (k < i)%nat -> ds !! k = Some d' -> afind m d' = None) -> afind m (concat (take i ds)) = None.
Proof.
  intros H. apply afind_concat_none. intros k d Hk. apply lookup_take_Some in Hk as [Hk ?]. by apply (H k).
Qed.

Lemma afind_other m m' c d1 d2 : m' <> m -> afind m' (d1 ++ (m, c) :: d2) = afind m' (d1 ++ d2).
Proof.
  intros Hne. induction d1 as [|[k i] d1 IH]; simpl; [by rewrite decide_False by congruence|].
  by case_decide.
Qed.

Lemma adel_other m m' d : m' <> m -> afind m' (adel m d) = afind m' d.
Proof.
  intros Hne. induction d as [|[k i] d IH]; simpl; [done|]. destruct (decide (k = m)) as [->|].
  - by rewrite decide_False by congruence.
  - simpl. by case_decide.
Qed.

Lemma afind_none_app m d1 d2 : afind m (d1 ++ d2) = None -> afind m d1 = None.
Proof. induction d1 as [|[k i] d1 IH]; simpl; [done|]. by case_decide. Qed.

Lemma insert_list s fs f n ds name m c :
  dir_at s fs f n ds -> good_name name m -> valid_inode_n f c -> not_mounted s fs n -> has_room s f n ds name m c ->
  exists s' ds' d1 d2, dir_insert fs n name c s = Done true s' /\ dir_at s' fs f n ds' /\ not_mounted s' fs n /\
    concat ds = d1 ++ d2 /\ concat ds' = d1 ++ (m, c) :: d2 /\ relinked s s' f n c 1.
Proof.
  intros D Hg Hc Hn Hr. destruct (dir_insert_spec s fs f n ds D name m Hg c Hc Hn Hr)
    as (s' & i & d1 & d2 & E & Hd & D' & [Qe Qv] & R).
  destruct (concat_insert ds i _ (d1 ++ (m, c) :: d2) Hd) as [C1 C2].
  exists s', (<[i := d1 ++ (m, c) :: d2]> ds), (concat (take i ds) ++ d1), (d2 ++ concat (drop (S i) ds)).
  split; [done|]. split; [done|]. split; [apply (not_mounted_same s s'); [apply Qv|done|done]|].
  rewrite C1, C2, <- !app_assoc. done.
Qed.

Lemma remove_list s fs f n ds name m x :
  dir_at s fs f n ds -> good_name name m -> not_mounted s fs n -> dir_find m ds = Some x -> valid_inode_n f x ->
  exists s' ds', dir_remove fs n name s = Done (true, Some x) s' /\ dir_at s' fs f n ds' /\ not_mounted s' fs n /\
    concat ds' = adel m (concat ds) /\ relinked s s' f n x (-1).
Proof.
  intros D Hg Hn Hx Hv. pose proof (dir_remove_spec s fs f n ds D name m Hg Hn) as H. rewrite Hx in H.
  destruct (H Hv) as (s' & i & d & E & Hd & Hk & Ha & D' & [Qe Qv] & R).
  destruct (concat_insert ds i d (adel m d) Hd) as [C1 C2].
  exists s', (<[i := adel m d]> ds). split; [done|]. split; [done|].
  split; [apply (not_mounted_same s s'); [apply Qv|done|done]|]. split; [|done].
  rewrite C2, C1, adel_app by (by apply afind_concat_take). f_equal.
  clear -Ha. induction d as [|[k y] d IH]; simpl in *; [done|]. case_decide; [done|]. simpl. by rewrite IH.
Qed.

(** C9. Inserting a name into a directory with room for it puts the name, with
    the inode of the child, at one place of the directory's list; the child's
    link count goes up by one, the directory is marked as modified, and all
    other inodes and names are as before.  An ASCII name that was not there is
    then found with that inode, and every other name is found as before. *)
Theorem dir_insert_correct s fs f n ds name m c :
  dir_at s fs f n ds -> good_name name m -> valid_inode_n f c -> not_mounted s fs n -> has_room s f n ds name m c ->
  exists s' ds' d1 d2, dir_insert fs n name c s = Done true s' /\ dir_at s' fs f n ds' /\
    concat ds = d1 ++ d2 /\ concat ds' = d1 ++ (m, c) :: d2 /\ relinked s s' f n c 1 /\
    (ascii m -> dir_find m ds = None -> dir_contains fs n name s' = Done (Some c) s') /\
    forall name' m', cstr name' = Some m' -> bytes_ok m' -> m' <> m ->
      dir_contains fs n name' s' = Done (dir_find m' ds) s'.
Proof.
  intros D Hg Hc Hn Hr. destruct (insert_list s fs f n ds name m c D Hg Hc Hn Hr) as (s' & ds' & d1 & d2 & E & D' & Hn' & C1 & C2 & R).
  exists s', ds', d1, d2. split; [done|]. split; [done|]. split; [done|]. split; [done|]. split; [done|].
  destruct Hg as (H1 & H2 & _). split.
  - intros Ha Hnone. rewrite (dir_contains_spec s' fs f n ds' D' name m H1 H2 Hn'). f_equal.
    unfold dir_find in *. rewrite decide_True in Hnone |- * by done. rewrite C2, afind_app.
    + simpl. by rewrite decide_True.
    + rewrite C1 in Hnone. by apply afind_none_app in Hnone.
  - intros name' m' Hm' Hb' Hne. rewrite (dir_contains_spec s' fs f n ds' D' name' m' Hm' Hb' Hn'). f_equal.
    unfold dir_find. case_decide; [|done]. by rewrite C1, C2, afind_other.
Qed.

(** C10. Removing a name takes its first entry out of the directory's list and
    answers with its inode, whose link count goes down by one; every other name
    is found as before.  When the directory does not hold the name, nothing
    changes and the removal fails. *)
Theorem dir_remove_correct s fs f n ds name m :
  dir_at s fs f n ds -> good_name name m -> not_mounted s fs n ->
  match dir_find m ds with
  | None => dir_remove fs n name s = Done (false, None) s
  | Some x => valid_inode_n f x ->
      exists s' ds', dir_remove fs n name s = Done (true, Some x) s' /\ dir_at s' fs f n ds' /\
        concat ds' = adel m (concat ds) /\ relinked s s' f n x (-1) /\
        forall name' m', cstr name' = Some m' -> bytes_ok m' -> m' <> m ->
          dir_contains fs n name' s' = Done (dir_find m' ds) s'
  end.
Proof.
  intros D Hg Hn. destruct (dir_find m ds) as [x|] eqn:Ex.
  - intros Hv. destruct (remove_list s fs f n ds name m x D Hg Hn Ex Hv) as (s' & ds' & E & D' & Hn' & C & R).
    exists s', ds'. split; [done|]. split; [done|]. split; [done|]. split; [done|].
    intros name' m' Hm' Hb' Hne. rewrite (dir_contains_spec s' fs f n ds' D' name' m' Hm' Hb' Hn'). f_equal.
    unfold dir_find. case_decide; [|done]. by rewrite C, adel_other.
  - pose proof (dir_remove_spec s fs f n ds D name m Hg Hn) as H. by rewrite Ex in H.
Qed.

(** Inserting an ASCII name that is not in the directory and removing it
    again gives back the list of names and the link count of the child. *)
Theorem dir_insert_remove s fs f n ds name m c :
  dir_at s fs f n ds -> good_name name m -> valid_inode_n f c -> not_mounted s fs n -> has_room s f n ds name m c ->
  ascii m -> dir_find m ds = None ->
  exists s1 s2 ds2, dir_insert fs n name c s = Done true s1 /\ dir_remove fs n name s1 = Done (true, Some c) s2 /\
    dir_at s2 fs f n ds2 /\ concat ds2 = concat ds /\
    hard_link_cnt (inode_of s2 f c) = hard_link_cnt (inode_of s f c).
Proof.
  intros D Hg Hc Hn Hr Ha Hnone.
  destruct (insert_list s fs f n ds name m c D Hg Hc Hn Hr) as (s1 & ds1 & d1 & d2 & E1 & D1 & Hn1 & C1 & C2 & R1).
  assert (afind m d1 = None) as Hd1.
  { unfold dir_find in Hnone. rewrite decide_True, C1 in Hnone by done. by apply afind_none_app in Hnone. }
  assert (dir_find m ds1 = Some c) as Hx.
  { unfold dir_find. rewrite decide_True, C2, afind_app by done. simpl. by rewrite decide_True. }
  destruct (remove_list s1 fs f n ds1 name m c D1 Hg Hn1 Hx Hc) as (s2 & ds2 & E2 & D2 & Hn2 & C3 & R2).
  exists s1, s2, ds2. split; [done|]. split; [done|]. split; [done|]. split.
  - rewrite C3, C2, adel_app, C1 by done. simpl. by rewrite decide_True.
  - pose proof (inode_of_wf s fs f n ds D c) as (H2 & _). rewrite !Forall_cons in H2.
    destruct H2 as (_ & _ & _ & Hl & _). unfold fits in Hl. change (256 ^ Z.of_nat 2) with 65536 in Hl.
    rewrite (rl_child _ _ _ _ _ _ R2), (rl_child _ _ _ _ _ _ R1). destruct (c =? n); unfold set_mod, set_links, id, u16;
      cbn [hard_link_cnt with_meta]; zlia.
Qed.

(** ** A sample partition with a root directory *)

Module RootDir.

(** Inode 2, in block 10. *)
Definition ino : ext2_inode :=
  with_blocks (10 :: replicate 11 0) 0 0 0 (with_meta 16877 4096 0 0 0 0 2 8 inode_zero).
Definition blocks (b : Z) : list Z :=
  if b =? 4 then splice 128 (encode ino) zero_block else if b =? 10 then demo_block else Demo.blocks b.
Definition unused_entry : fs_info := mkFs [] [] 0 true 0 0 0 0 0 0 0 0 [].
Definition state : fstate :=
  set_fs_entries (Demo.fs :: replicate 7 unused_entry) (image_state blocks Demo.fs).

Lemma root_blocks_ok b : length (blocks b) = 4096%nat /\ bytes_ok (blocks b).
Proof.
  unfold blocks. destruct (b =? 4).
  { split; [done|]. apply (bool_decide_unpack (Forall _ _)). by vm_compute. }
  destruct (b =? 10); [|apply Demo.blocks_ok].
  split; [by vm_compute|]. apply (bool_decide_unpack (Forall _ _)). by vm_compute.
Qed.

Lemma root_disk_ok : disk_wf state.
Proof.
  intros d l. cbn [sectors state image_state set_fs_entries]. destruct (root_blocks_ok (l / 8 - 1)) as [Hl Hb].
  split; [apply length_sub; rewrite Hl; zlia|by apply Forall_sub].
Qed.

Lemma itable : itable_wf state Demo.fs.
Proof. apply (itable_wf_step Demo.state state Demo.fs Demo.fs demo_itable (same_geom_refl _)); [done|apply root_disk_ok]. Qed.

Lemma table m : valid_inode_n Demo.fs m -> (inode_at Demo.fs m).1 = 4.
Proof.
  intros [H1 H2]. change (sb_inode_cnt (sprblk_buf Demo.fs)) with 32 in H2. unfold inode_at. cbn [fst inodes_per_grp Demo.fs inode_size].
  rewrite (Z.div_small (m - 1)), (Z.mod_small (m - 1)) by lia. rewrite (Z.div_small ((m - 1) * 128)) by lia. by vm_compute.
Qed.

Lemma inode_2 : inode_of state Demo.fs 2 = ino.
Proof. by vm_compute. Qed.

Lemma roots k : 0 <= k < 15 -> root_of ino k = if k =? 0 then 10 else 0.
Proof.
  intros Hk. assert (Forall (fun k => root_of ino k = if k =? 0 then 10 else 0) (seqZ 0 15)) as H by (by repeat constructor).
  rewrite Forall_forall in H. apply H, elem_of_seqZ. lia.
Qed.

Lemma file : file_wf state Demo.fs ino.
Proof.
  split; [done| |].
  - intros k Hk. rewrite roots by done. destruct (Z.eqb_spec k 0) as [->|Hne]; [|destruct (root_h k); by left].
    right. split; [|split; [by vm_compute|done]]. split; [vm_compute; intuition congruence|].
    split; [vm_compute; congruence|]. split; [vm_compute; intuition congruence|].
    intros g Hg. replace g with 0 by (cbn in Hg; lia). vm_compute. intuition congruence.
  - intros k k' x Hk Hk'. rewrite !roots by done. destruct (Z.eqb_spec k 0) as [->|]; [|by intros ?%in_tree_zero].
    destruct (Z.eqb_spec k' 0) as [->|]; [done|]. by intros _ ?%in_tree_zero.
Qed.

Lemma at_root : dir_at state 0 Demo.fs 2 [[([46], 2)]].
Proof.
  split; rewrite ?inode_2; [apply itable|done| |vm_compute; intuition congruence|done|apply file|done| |].
  - intros m g Hm Hg. rewrite table by done. replace g with 0 by (cbn in Hg; lia). vm_compute. intuition congruence.
  - intros m Hm (k & Hk & Hx). rewrite table, roots in Hx by done. destruct (Z.eqb_spec k 0) as [->|]; [|by apply in_tree_zero in Hx].
    destruct Hx as [_ [?|[]]]. lia.
  - intros [|i] d Hd; [|by destruct i]. injection Hd as <-. split; [by vm_compute|].
    assert (block_bytes state Demo.fs (file_block state Demo.fs ino (Z.of_nat 0)) = demo_block) as -> by (by vm_compute).
    apply demo_repr.
Qed.

Lemma unmounted : not_mounted state 0 2.
Proof. right. split; [cbn; lia|]. by repeat constructor. Qed.

Lemma good : good_name demo_name [97; 98].
Proof. split; [done|]. split; [by repeat constructor|simpl; lia]. Qed.

Lemma valid_12 : valid_inode_n Demo.fs 12.
Proof. vm_compute. intuition congruence. Qed.

Lemma room : has_room state Demo.fs 2 [[([46], 2)]] demo_name [97; 98] 12.
Proof.
  exists 0%nat.
  assert (match place_entry (block_bytes state Demo.fs (file_block state Demo.fs (inode_of state Demo.fs 2) (Z.of_nat 0)))
      12 (Z.of_nat 2) (ALIGN4 (8 + Z.of_nat 2)) demo_name (entry_type (inode_of state Demo.fs 12)) with ScHit _ => true | _ => false end = true)
    as H by (by vm_compute).
  destruct (place_entry _ _ _ _ _ _) as [b'| | | |] eqn:E; [|discriminate H..]. exists b'. split; [simpl; lia|reflexivity].
Qed.

End RootDir.

Lemma dir_insert_correct_witness :
  exists s', dir_insert 0 2 demo_name 12 RootDir.state = Done true s' /\
    dir_contains 0 2 demo_name s' = Done (Some 12) s' /\ dir_contains 0 2 DOT s' = Done (Some 2) s'.
Proof.
  destruct (dir_insert_correct _ _ _ _ _ _ _ _ RootDir.at_root RootDir.good RootDir.valid_12 RootDir.unmounted RootDir.room)
    as (s' & ds' & d1 & d2 & E & _ & _ & _ & _ & H1 & H2).
  exists s'. split; [exact E|]. split.
  - apply H1; [by repeat constructor|done].
  - rewrite (H2 DOT [46]); [done|done|by repeat constructor|done].
Defined.

Lemma dir_remove_correct_witness :
  exists s' ds', dir_remove 0 2 DOT RootDir.state = Done (true, Some 2) s' /\ dir_at s' 0 Demo.fs 2 ds' /\ concat ds' = [].
Proof.
  destruct (dir_remove_correct _ _ _ _ _ DOT [46] RootDir.at_root demo_dot RootDir.unmounted) as (s' & ds' & E & D & C & _);
    [vm_compute; intuition congruence|]. exists s', ds'. split; [exact E|]. split; [exact D|exact C].
Defined.

Lemma dir_insert_remove_witness :
  exists s1 s2 ds2, dir_insert 0 2 demo_name 12 RootDir.state = Done true s1 /\
    dir_remove 0 2 demo_name s1 = Done (true, Some 12) s2 /\ dir_at s2 0 Demo.fs 2 ds2 /\ concat ds2 = [([46], 2)].
Proof.
  destruct (dir_insert_remove _ _ _ _ _ _ _ _ RootDir.at_root RootDir.good RootDir.valid_12 RootDir.unmounted RootDir.room)
    as (s1 & s2 & ds2 & E1 & E2 & D & C & _); [by repeat constructor|done|].
  exists s1, s2, ds2. split; [exact E1|]. split; [exact E2|]. split; [exact D|exact C].
Defined.
