(* ===== verification/Path.v ===== *)
(** * Path resolution and mounting: [lookup_path], [mount_fs], [umount_fs]

    [lookup_path] of kernel/fs/ext2/directoryController.c walks a path one
    component at a time, crossing mount points both ways, and starts over with
    a spliced path at every symbolic link it follows.  The two path buffers
    of the source alternate (a splice reads the one and writes the other), so a
    path is passed by value; of a spliced buffer only the bytes up to its
    terminator are ever read. *)
From S2P Require Import Prelude Bytes Bitset CLib Disk Bitmap Inode BlockMap FileOps Mount DirBlock Dir.

Definition SYMLINK_MAX_DEPTH : Z := 8.
Definition PATH_LEN : Z := 4096.
Definition SLASH : Z := 47.

(** The length of [p], up to [PATH_LEN]. *)
Definition path_len (p : list Z) : option Z := name_len_from (Z.to_nat PATH_LEN) 0 p.

(** [while (c != '/')]: [j] runs past the next slash, or to [len + 1]. *)
Fixpoint slash_loop (fuel : nat) (p : list Z) (len j c : Z) : option Z :=
  match fuel with
  | O => None
  | S fuel =>
      if c =? SLASH then Some j
      else if len <=? j then Some (len + 1)
      else match p !! Z.to_nat j with
           | None => None
           | Some c => slash_loop fuel p len (j + 1) c
           end
  end.

(** [j] after the adjustments that follow the loop: the end of the component. *)
Definition next_slash (p : list Z) (len ind : Z) : option Z :=
  match p !! Z.to_nat ind with
  | None => None
  | Some c =>
      match slash_loop (S (S (Z.to_nat len))) p len ind c with
      | None => None
      | Some j => Some (if j - 1 <? ind then ind else j - 1)
      end
  end.

(** ** Splicing a symbolic link *)

Inductive spliced : Type :=
| SpDone (dst : list Z) | SpLong | SpFault | SpFuel.

(** [for (k = k0; k < n; k++) { if (w >= PATH_LEN - 1) return false; dst[w++] = src[k]; }] *)
Fixpoint splice_loop (fuel : nat) (src : list Z) (k n : Z) (dst : list Z) : spliced :=
  match fuel with
  | O => SpFuel
  | S fuel =>
      if n <=? k then SpDone dst
      else if PATH_LEN - 1 <=? Z.of_nat (length dst) then SpLong
      else match src !! Z.to_nat k with
           | None => SpFault
           | Some b => splice_loop fuel src (k + 1) n (dst ++ [b])
           end
  end.

(** Every turn but the last writes a byte of the buffer. *)
Definition splice_fuel : nat := Z.to_nat PATH_LEN + 1.

(** The target in place of the component [p[ind..j)], without the terminator. *)
Definition splice_path (p : list Z) (len ind j : Z) (target : list Z) (tlen : Z) : spliced :=
  match target with
  | [] => SpFault
  | t0 :: _ =>
      let dst := if negb (t0 =? SLASH) then take (Z.to_nat ind) p else [] in
      match splice_loop splice_fuel target 0 tlen dst with
      | SpDone dst => splice_loop splice_fuel p j len dst
      | r => r
      end
  end.

(** Where the target of a link is: in the inode, or in its first block. *)
Definition link_target (fs : Z) (ino : ext2_inode) : FM (list Z) :=
  if disk_sectors ino =? 0 then retM (drop 40 (encode ino))
  else read_block fs (default 0 (dir_block_ptr ino !! 0%nat)).

(** ** lookup_path *)

(** How one component, and a whole walk, ends. *)
Inductive hop : Type :=
| HFail | HLeaf (fs n : Z) | HSplice (p : list Z) | HNext (ind fs n : Z).
Inductive walked : Type :=
| WFail | WFound (fs n : Z) | WSplice (p : list Z).

(** The entry [name] of the directory [ino]; malformed blocks are skipped. *)
Definition lookup_blocks (fs : Z) (ino : ext2_inode) (name : list Z) : FM (option Z) :=
  let* r := loopM (Z.to_nat (blocks_for (size_lo ino))) 0 (fun relative_blk =>
              let* r := map_file_block fs ino relative_blk LOOKUP_MODE None in
              if negb (mr_ret r =? INODE_WRITE_SUCCESS) then retM (Some None)
              else
                let* blk_buf := read_block fs (out_blk r) in
                let* sc := scanM (lookup blk_buf name BLOCK_SIZE) in
                retM (match sc with ScHit n => Some (Some n) | _ => None end)) in
  retM (default None r).

(** A symbolic link in place of the component: the path to start over with. *)
Definition follow_link (fs : Z) (ino : ext2_inode) (p : list Z) (len ind j : Z) : FM hop :=
  let* target := link_target fs ino in
  match splice_path p len ind j target (size_lo ino) with
  | SpDone dst => retM (HSplice (dst ++ [0]))
  | SpLong => retM HFail
  | SpFault => haltM Fault
  | SpFuel => haltM OutOfFuel
  end.

(** The body of [while (ind < len)]. *)
Definition component (p : list Z) (len : Z) (follow_leaf_link : bool) (ind curr_fs curr_n : Z) : FM hop :=
  let* j := liftO (next_slash p len ind) in
  let subdir_len := j - ind in
  if subdir_len =? 0 then retM (HNext (j + 1) curr_fs curr_n)
  else if NAME_LEN <=? subdir_len then retM HFail
  else
    let name := sub (Z.to_nat ind) (Z.to_nat subdir_len) p ++ [0] in
    let* (curr_fs, curr_n, _) := return_mnt_root curr_fs curr_n in
    let* r := get_inode curr_fs curr_n in
    match r with
    | None => retM HFail
    | Some ino =>
        if negb (is_dir ino) then retM HFail
        else
          let* found := lookup_blocks curr_fs ino name in
          match found with
          | None => retM HFail
          | Some curr_n =>
              let* r := get_inode curr_fs curr_n in
              match r with
              | None => retM HFail
              | Some ino =>
                  let* (new_fs, new_n, _) := return_mnt_mountpoint curr_fs curr_n in
                  if (j =? len) && negb follow_leaf_link then retM (HLeaf new_fs new_n)
                  else if file_type ino =? INODE_SYMLINK_TYPE then follow_link new_fs ino p len ind j
                  else retM (HNext (j + 1) new_fs new_n)
              end
          end
    end.

Fixpoint walk_path (fuel : nat) (p : list Z) (len : Z) (follow_leaf_link : bool) (ind curr_fs curr_n : Z)
    : FM walked :=
  match fuel with
  | O => haltM OutOfFuel
  | S fuel =>
      if len <=? ind then retM (WFound curr_fs curr_n)
      else
        let* h := component p len follow_leaf_link ind curr_fs curr_n in
        match h with
        | HFail => retM WFail
        | HLeaf fs n => retM (WFound fs n)
        | HSplice p => retM (WSplice p)
        | HNext ind fs n => walk_path fuel p len follow_leaf_link ind fs n
        end
  end.

(** One turn of the outer loop: every component moves [ind] forward. *)
Definition walk_round (p : list Z) (follow_leaf_link : bool) : FM walked :=
  let* len := liftO (path_len p) in
  if len =? PATH_LEN then retM WFail
  else
    let* s := getM in
    walk_path (S (Z.to_nat len)) p len follow_leaf_link 1 (root_fs s) ROOT_INODE_N.

(** [for (splices = 0; splices <= SYMLINK_MAX_DEPTH; splices++)] *)
Fixpoint splice_rounds (n : nat) (p : list Z) (follow_leaf_link : bool) : FM (option (Z * Z)) :=
  match n with
  | O => retM None
  | S n =>
      let* w := walk_round p follow_leaf_link in
      match w with
      | WFail => retM None
      | WFound fs n => retM (Some (fs, n))
      | WSplice p => splice_rounds n p follow_leaf_link
      end
  end.

(** [*fs_out] and [*out]; the partition the caller passes is not used. *)
Definition lookup_path (fs : Z) (path : list Z) (follow_leaf_link : bool) : FM (option (Z * Z)) :=
  let* c := liftO (path !! 0%nat) in
  if negb (c =? SLASH) then retM None
  else splice_rounds (Z.to_nat (SYMLINK_MAX_DEPTH + 1)) path follow_leaf_link.

(** ** mount_fs and umount_fs *)

(** "/mnt/" *)
Definition MOUNT_PATH_SEED : list Z := [47; 109; 110; 116; 47].

(** [vol_name] copied over the label; [inl] is the label at a slash. *)
Fixpoint copy_label (vol : list Z) (j : nat) (lab : list Z) (found_char : bool) : list Z + list Z * bool :=
  match vol with
  | [] => inr (lab, found_char)
  | v :: vol =>
      if v =? SLASH then inl (<[0%nat := 0]> lab)
      else copy_label vol (S j) (<[j := v]> lab) (found_char || negb (v =? 0))
  end.

(** [for (j = root_slot_n + 1; j < MAX_MOUNTS; j++)] over the partitions in use *)
Definition for_parts {A} (body : Z -> fs_info -> FM (option A)) : FM (option A) :=
  let* s := getM in
  loopM (Z.to_nat (MAX_MOUNTS - u32 (root_slot_n s + 1))) (u32 (root_slot_n s + 1)) (fun j =>
    let* f := get_fs j in
    if sector_count f =? 0 then retM None else body j f).

(** Some other partition has the label of [i]. *)
Definition dup_label (i : Z) : FM bool :=
  let* r := for_parts (fun j fj =>
              if j =? i then retM None
              else
                let* fi := get_fs i in
                let* eq := liftO (streq (label fi) (label fj)) in
                retM (if eq then Some true else None)) in
  retM (default false r).

(** The mount of partition [i], whose label was asked for. *)
Definition mount_part (i : Z) (f : fs_info) (lbl : list Z) : FM bool :=
  bodyE (
    let! _ := failE (negb (mountpoint f =? 0)) false in
    let! dots := liftE (is_dots lbl) in
    let! _ := failE dots false in
    let! _ := liftE (guardM (negb (superblk_null f))) in
    match copy_label (sb_vol_name (sprblk_buf f)) 0 (label f) false with
    | inl lab => put_fs i (with_label lab f) ;;; leaveE false
    | inr (lab, found_char) =>
        let! _ := liftE (put_fs i (with_label lab f)) in
        let! _ := failE (negb found_char) false in
        let lab := <[16%nat := 0]> lab in
        let! _ := liftE (put_fs i (with_label lab f)) in
        let! dup := liftE (dup_label i) in
        let! _ := failE dup false in
        let! s := liftE getM in
        let! r := liftE (lookup_path (root_fs s) (MOUNT_PATH_SEED ++ lab) false) in
        match r with
        | None => leaveE false
        | Some (mnt_fs, mount_inode_n) =>
            let! _ := failE (negb (mnt_fs =? root_fs s)) false in
            let! mount_inode := inodeE (root_fs s) mount_inode_n false in
            let! _ := failE (negb (is_dir mount_inode)) false in
            let! f := liftE (get_fs i) in
            let! _ := liftE (put_fs i (with_mountpoint mount_inode_n f)) in
            let! _ := liftE (mark_fs_state i false) in
            retM (inr true)
        end
    end).

Definition mount_fs (lbl : list Z) : FM bool :=
  let* r := for_parts (fun i f =>
              let* eq := liftO (streq (label f) lbl) in
              if negb eq then retM None
              else let* ok := mount_part i f lbl in retM (Some ok)) in
  retM (default false r).

Definition umount_fs (lbl : list Z) : FM bool :=
  let* r := for_parts (fun i f =>
              let* eq := liftO (streq (label f) lbl) in
              if negb eq then retM None
              else if mountpoint f =? 0 then retM (Some false)
              else
                mark_fs_state i true ;;;
                let* f := get_fs i in
                put_fs i (with_mountpoint 0 f) ;;;
                retM (Some true)) in
  retM (default false r).
