(* ===== verification/PathSpec.v ===== *)
(** * What path resolution promises

    [lookup_path] only reads, ends after at most nine walks whatever the disk
    holds, never writes past its path buffers, and resolves a path without
    symbolic links to the inode its components lead to, across mount points. *)
From S2P Require Import Prelude Bytes Bitset CLib Disk Bitmap Inode BlockMap BlockAlloc FileData FileOps Mount DirBlock Dir DirSpec Path.

(** ** Code that only reads *)

(** From [s], [m] ends with the state unchanged and an answer in [Q], or the
    machine stops for a reason other than a loop bound. *)
Definition reads {A} (s : fstate) (Q : A -> Prop) (m : FM A) : Prop :=
  match m s with
  | Done a s' => s' = s /\ Q a
  | Halted h _ => h <> OutOfFuel
  end.

Create HintDb reads.

Section reads.
Context (s : fstate).

Lemma reads_ret {A} (Q : A -> Prop) a : Q a -> reads s Q (retM a).
Proof using. by split. Qed.

Lemma reads_bind {A B} (P : A -> Prop) (Q : B -> Prop) m k :
  reads s P m -> (forall a, P a -> reads s Q (k a)) -> reads s Q (bindM m k).
Proof using.
  unfold reads, bindM. destruct (m s) as [a s'|h s']; [|done]. intros [-> Ha] Hk. by apply Hk.
Qed.

Lemma reads_mono {A} (P Q : A -> Prop) m : reads s P m -> (forall a, P a -> Q a) -> reads s Q m.
Proof using. unfold reads. destruct (m s); [|done]. intros [-> Ha] Hm. by split; [|apply Hm]. Qed.

Lemma reads_any {A} (P : A -> Prop) m : reads s P m -> reads s (fun _ => True) m.
Proof using. intros H. by apply (reads_mono P). Qed.

Lemma reads_halt {A} (Q : A -> Prop) h : h <> OutOfFuel -> reads s Q (haltM h).
Proof using. done. Qed.

Lemma reads_guard b : reads s (fun _ => True) (guardM b).
Proof using. by destruct b. Qed.

Lemma reads_get : reads s (eq s) getM.
Proof using. done. Qed.

Lemma reads_get_fs fs : reads s (fun _ => True) (get_fs fs).
Proof using. unfold reads, get_fs. by destruct (fs_entries s !! _). Qed.

Lemma reads_liftO {A} (Q : A -> Prop) r : (forall a, r = Some a -> Q a) -> reads s Q (liftO r).
Proof using. intros H. destruct r; [split; [done|by apply H]|done]. Qed.

Lemma reads_loopM {R} (Q : R -> Prop) n i body :
  (forall j, i <= j -> reads s (fun r => forall v, r = Some v -> Q v) (body j)) ->
  reads s (fun r => forall v, r = Some v -> Q v) (loopM n i body).
Proof using.
  revert i. induction n as [|n IH]; intros i H; cbn [loopM]; [by split|].
  eapply reads_bind; [apply H; lia|]. intros [v|] Hv; [by apply reads_ret|]. apply IH. intros j Hj. apply H. lia.
Qed.

Lemma reads_bodyE {E} (Q : E -> Prop) (m : FM (E + E)) :
  reads s (fun r => match r with inl e | inr e => Q e end) m -> reads s Q (bodyE m).
Proof using. intros H. eapply reads_bind; [exact H|]. intros [e|e] He; by apply reads_ret. Qed.

Lemma reads_bindE {E A B} (P : A -> Prop) (Q : E + B -> Prop) (m : FM (E + A)) (k : A -> FM (E + B)) :
  reads s (fun r => match r with inl e => Q (inl e) | inr a => P a end) m ->
  (forall a, P a -> reads s Q (k a)) -> reads s Q (bindE m k).
Proof using. intros H Hk. eapply reads_bind; [exact H|]. intros [e|a] Ha; [by apply reads_ret|by apply Hk]. Qed.
End reads.

#[export] Hint Resolve reads_ret reads_guard reads_get_fs : reads.

(** ** The primitives under a path lookup *)

Section primitives.
Context (s : fstate) (Hd : disk_wf s) (Hfr : bytes_ok (fresh s)).

Lemma reads_ata_check d lba count : reads s (fun _ => True) (ata_check d lba count).
Proof using.
  unfold ata_check. eapply reads_bind; [apply reads_get|]. intros s' <-.
  destruct (d =? ATA_MASTER); [by destruct (_ <? _)|]. destruct (d =? ATA_SLAVE); [by destruct (_ <? _)|done].
Qed.

Lemma reads_read_block fs b : reads s bytes_ok (read_block fs b).
Proof using Hd Hfr.
  unfold read_block. eapply reads_bind; [apply reads_get_fs|]. intros f _.
  eapply reads_bind; [apply reads_get|]. intros s' <-. unfold ata_read48_part. destruct (_ <? _); [done|].
  unfold ata_read48. eapply reads_bind; [apply reads_ata_check|]. intros [] _; [|by apply reads_ret].
  eapply reads_bind; [apply reads_get|]. intros s' <-. apply reads_ret. by apply read_sectors_ok.
Qed.

(** In [LOOKUP_MODE] the walk mints and releases nothing. *)
Lemma reads_walk d fs ptr rel cnt :
  reads s (fun r => r.1.1.2 = false) (walk d fs ptr false rel LOOKUP_MODE cnt).
Proof using Hd Hfr.
  revert ptr rel cnt. induction d as [|d IH]; intros ptr rel cnt; cbn [walk];
    (eapply reads_bind; [apply reads_read_block|]); intros blk _;
    (eapply reads_bind; [apply reads_guard|]); intros _ _; apply reads_bodyE;
    (eapply (reads_bindE _ (fun r => r.2 = false));
      [unfold walk_entry; destruct (entry blk _ =? 0); by apply reads_ret|]);
    intros [[[blk' c] cnt'] cm] Hcm; cbn in Hcm; subst cm; [by apply reads_ret|].
  eapply reads_bind; [apply IH|]. intros [[[r gone] cnt''] out] Hg. cbn in Hg. subst gone. by apply reads_ret.
Qed.

Lemma reads_map_lookup fs ino idx cnt : 0 <= idx -> reads s (fun _ => True) (map_file_block fs ino idx LOOKUP_MODE cnt).
Proof using Hd Hfr.
  intros H0. unfold reads. rewrite map_file_block_eq by done.
  change (reads s (fun _ => True) (map_ref fs ino idx LOOKUP_MODE cnt)). unfold map_ref.
  assert (forall get set d rel, reads s (fun _ => True) (from_root get set d fs ino rel LOOKUP_MODE cnt)) as Hr.
  { intros get set d rel. apply reads_bodyE. eapply (reads_bindE _ (fun r => r.2 = false)).
    - unfold mint_root. destruct (get ino =? 0); by apply reads_ret.
    - intros [[ino' cnt'] m] Hm. cbn in Hm. subst m. eapply reads_bind; [apply reads_walk|].
      intros [[[r gone] cnt''] out] _. by apply reads_ret. }
  destruct (idx <? 12).
  { unfold map_direct. apply reads_bodyE. eapply (reads_bindE _ (fun _ => True)).
    - destruct (dir_ptr ino idx =? 0); by apply reads_ret.
    - intros [ino' cnt'] _. by apply reads_ret. }
  destruct (idx <? 1036); [apply Hr|]. destruct (idx <? 1049612); apply Hr.
Qed.

Lemma reads_get_inode fs n : reads s (fun r => forall i, r = Some i -> inode_wf i) (get_inode fs n).
Proof using Hd Hfr.
  unfold get_inode. eapply reads_bind; [apply reads_get_fs|]. intros f _.
  eapply reads_bind; [apply reads_guard|]. intros _ _. destruct (bad_inode_n f n); [by apply reads_ret|].
  eapply (reads_bind _ (fun _ => True)).
  - unfold inode_place, bgdt_ok. eapply reads_bind; [apply reads_guard|]. intros _ _.
    eapply reads_bind; [apply reads_guard|]. intros _ _. by apply reads_ret.
  - intros pl _. eapply reads_bind; [apply reads_read_block|]. intros buf Hb. apply reads_ret. intros i [= <-].
    by apply decode_wf, Forall_sub.
Qed.

Lemma reads_return_mnt_root fs n : reads s (fun _ => True) (return_mnt_root fs n).
Proof using.
  unfold return_mnt_root. eapply reads_bind; [apply reads_get|]. intros s' <-. destruct (negb _); [by apply reads_ret|].
  eapply (reads_bind _ (fun _ => True)); [|intros [v|] _; by apply reads_ret].
  eapply reads_any, (reads_loopM s (fun _ => True)). intros j _.
  eapply reads_bind; [apply reads_get_fs|]. intros f _. by apply reads_ret.
Qed.

Lemma reads_return_mnt_mountpoint fs n : reads s (fun _ => True) (return_mnt_mountpoint fs n).
Proof using.
  unfold return_mnt_mountpoint. eapply reads_bind; [apply reads_get|]. intros s' <-. destruct (_ || _); [by apply reads_ret|].
  eapply reads_bind; [apply reads_get_fs|]. intros f _. by apply reads_ret.
Qed.

Lemma reads_lookup_blocks fs ino name : reads s (fun _ => True) (lookup_blocks fs ino name).
Proof using Hd Hfr.
  unfold lookup_blocks. eapply (reads_bind _ (fun _ => True)); [|intros; by apply reads_ret].
  eapply reads_any, (reads_loopM s (fun _ => True)). intros j Hj.
  eapply reads_bind; [by apply reads_map_lookup|]. intros r _. destruct (negb _); [by apply reads_ret|].
  eapply reads_bind; [apply reads_read_block|]. intros buf Hb.
  eapply (reads_bind _ (fun _ => True)); [|intros; by apply reads_ret].
  pose proof (lookup_from_fuel (S (Z.to_nat BLOCK_SIZE)) buf name 0 BLOCK_SIZE Hb ltac:(lia) ltac:(unfold BLOCK_SIZE; lia)
    ltac:(lia) ltac:(unfold BLOCK_SIZE; lia)) as Hf.
  unfold DirBlock.lookup, scanM. by destruct (lookup_from _ _ _ _ _).
Qed.
End primitives.

(** ** Paths and splices *)

Lemma name_len_from_inv fuel len p n :
  name_len_from fuel len p = Some n ->
  len <= n <= len + Z.of_nat fuel /\ n - len <= Z.of_nat (length p) /\
  (forall i, 0 <= i < n - len -> exists c, p !! Z.to_nat i = Some c /\ c <> 0) /\
  (n < len + Z.of_nat fuel -> p !! Z.to_nat (n - len) = Some 0).
Proof.
  revert len p. induction fuel as [|fuel IH]; intros len p H; cbn [name_len_from] in H.
  - injection H as <-. repeat split; lia.
  - destruct p as [|c p]; [done|]. destruct (Z.eqb_spec c 0) as [->|Hc].
    + injection H as <-. cbn [length]. repeat split; try lia. by rewrite Z.sub_diag.
    + apply IH in H as (H1 & H2 & H3 & H4). cbn [length]. repeat split; try lia.
      * intros i Hi. destruct (Z.eq_dec i 0) as [->|]; [by exists c|].
        replace (Z.to_nat i) with (S (Z.to_nat (i - 1))) by lia. apply H3. lia.
      * intros Hn. replace (Z.to_nat (n - len)) with (S (Z.to_nat (n - (len + 1)))) by lia. apply H4. lia.
Qed.

Lemma path_len_inv p len : path_len p = Some len ->
  0 <= len <= PATH_LEN /\ len <= Z.of_nat (length p) /\
  (forall i, 0 <= i < len -> exists c, p !! Z.to_nat i = Some c /\ c <> 0) /\
  (len < PATH_LEN -> p !! Z.to_nat len = Some 0).
Proof.
  intros H. apply name_len_from_inv in H as (H1 & H2 & H3 & H4). unfold PATH_LEN in *. rewrite !Z.sub_0_r in *.
  repeat split; try lia; [intros i Hi; apply H3; lia|intros Hl; apply H4; lia].
Qed.

(** A terminated string has a length. *)
Lemma name_len_from_terminated fuel len q : exists n, name_len_from fuel len (q ++ [0]) = Some n.
Proof.
  revert len q. induction fuel as [|fuel IH]; intros len q; [by eexists|].
  destruct q as [|c q]; cbn; [by eexists|]. destruct (c =? 0); [by eexists|apply IH].
Qed.

Lemma slash_loop_spec fuel p len j c :
  (forall i, 0 <= i < len -> is_Some (p !! Z.to_nat i)) -> 0 <= j <= len -> len - j < Z.of_nat fuel ->
  exists r, slash_loop fuel p len j c = Some r /\
    if c =? SLASH then r = j
    else exists e, r = e + 1 /\ j <= e <= len /\ (forall i, j <= i < e -> p !! Z.to_nat i <> Some SLASH) /\
      (e < len -> p !! Z.to_nat e = Some SLASH).
Proof.
  intros Hp. revert j c. induction fuel as [|fuel IH]; intros j c Hj Hf; [lia|]. cbn [slash_loop].
  destruct (c =? SLASH); [by exists j|]. destruct (Z.leb_spec len j).
  { exists (len + 1). split; [done|]. exists len. repeat split; lia. }
  destruct (Hp j ltac:(lia)) as [c' Hc']. rewrite Hc'. destruct (IH (j + 1) c') as (r & -> & Hr); [lia..|].
  exists r. split; [done|]. destruct (Z.eqb_spec c' SLASH) as [->|Hne].
  - exists j. repeat split; try lia. by intros _.
  - destruct Hr as (e & -> & He & Hno & Hsl). exists e. repeat split; try lia; [|done].
    intros i Hi. destruct (Z.eq_dec i j) as [->|]; [congruence|]. apply Hno. lia.
Qed.

(** The end of the component that starts at [ind]. *)
Lemma next_slash_spec p len ind : path_len p = Some len -> 0 <= ind < len ->
  exists j, next_slash p len ind = Some j /\ ind <= j <= len /\
    (forall i, ind <= i < j -> p !! Z.to_nat i <> Some SLASH) /\ (j < len -> p !! Z.to_nat j = Some SLASH).
Proof.
  intros Hl Hi. apply path_len_inv in Hl as (_ & _ & Hc & _). destruct (Hc ind Hi) as (c & Ec & _).
  unfold next_slash. rewrite Ec. destruct (slash_loop_spec (S (S (Z.to_nat len))) p len ind c) as (r & -> & Hr); [|lia..|].
  { intros i Hii. destruct (Hc i Hii) as (x & -> & _). by eexists. }
  destruct (Z.eqb_spec c SLASH) as [->|Hne].
  - subst r. exists ind. ztrue (ind - 1 <? ind). repeat split; try lia. by intros _.
  - destruct Hr as (e & -> & He & Hno & Hsl). exists e. zfalse (e + 1 - 1 <? ind).
    replace (e + 1 - 1) with e by lia. done.
Qed.

Lemma splice_loop_fuel fuel src k n dst :
  Z.of_nat (length dst) <= 4095 -> 4095 - Z.of_nat (length dst) < Z.of_nat fuel ->
  match splice_loop fuel src k n dst with
  | SpDone d => Z.of_nat (length d) <= 4095
  | SpFuel => False
  | _ => True
  end.
Proof.
  revert k dst. induction fuel as [|fuel IH]; intros k dst Hl Hf; [lia|]. cbn [splice_loop].
  destruct (n <=? k); [done|]. unfold PATH_LEN. destruct (Z.leb_spec (4096 - 1) (Z.of_nat (length dst))); [done|].
  destruct (src !! Z.to_nat k); [|done]. apply IH; rewrite length_app; simpl; lia.
Qed.

Lemma splice_loop_spec fuel src k n dst :
  0 <= k <= n -> n <= Z.of_nat (length src) -> Z.of_nat (length dst) <= 4095 ->
  4095 - Z.of_nat (length dst) < Z.of_nat fuel ->
  splice_loop fuel src k n dst =
    if Z.of_nat (length dst) + (n - k) <=? 4095 then SpDone (dst ++ sub (Z.to_nat k) (Z.to_nat (n - k)) src) else SpLong.
Proof.
  revert k dst. induction fuel as [|fuel IH]; intros k dst Hk Hn Hl Hf; [lia|]. cbn [splice_loop].
  destruct (Z.leb_spec n k).
  { replace (n - k) with 0 by lia. ztrue (Z.of_nat (length dst) + 0 <=? 4095). unfold sub. simpl. by rewrite app_nil_r. }
  unfold PATH_LEN. destruct (Z.leb_spec (4096 - 1) (Z.of_nat (length dst))).
  { by zfalse (Z.of_nat (length dst) + (n - k) <=? 4095). }
  destruct (lookup_lt_is_Some_2 src (Z.to_nat k)) as [b Hb]; [lia|]. rewrite Hb.
  rewrite IH; rewrite ?length_app; cbn [length]; try lia.
  replace (Z.of_nat (length dst + 1) + (n - (k + 1))) with (Z.of_nat (length dst) + (n - k)) by lia.
  destruct (_ <=? _); [|done]. f_equal. rewrite <- app_assoc. f_equal. unfold sub.
  rewrite (drop_S src b (Z.to_nat k)) by done. replace (Z.to_nat (n - k)) with (S (Z.to_nat (n - (k + 1)))) by lia.
  cbn [app take]. f_equal. do 2 f_equal. lia.
Qed.

(** The path a symbolic link stands for: component [ind, j) of the path is
    replaced by the target, which starts over when it is absolute. *)
Definition spliced_path (p : list Z) (len ind j : Z) (target : list Z) (tlen : Z) : list Z :=
  (if bool_decide (head target = Some SLASH) then [] else take (Z.to_nat ind) p) ++
  take (Z.to_nat tlen) target ++ sub (Z.to_nat j) (Z.to_nat (len - j)) p.

(** Splicing a symbolic link: the bytes of the target replace the component,
    after the path so far when the target is relative, and the rest of the
    path follows; if that is more than 4095 bytes the lookup fails, so path
    and terminator always fit the 4096-byte buffer. *)
Theorem splice_path_correct (p : list Z) (len ind j : Z) (target : list Z) (tlen : Z) :
  path_len p = Some len -> len < PATH_LEN -> 1 <= ind <= j -> j <= len ->
  target <> [] -> 0 <= tlen <= Z.of_nat (length target) ->
  let full := spliced_path p len ind j target tlen in
  splice_path p len ind j target tlen = if Z.of_nat (length full) <? PATH_LEN then SpDone full else SpLong.
Proof.
  intros Hl Hlt Hi Hj Ht Htl full. unfold spliced_path in full. apply path_len_inv in Hl as (_ & Hlp & _ & _). unfold PATH_LEN in *.
  set (pre := if bool_decide (head target = Some SLASH) then [] else take (Z.to_nat ind) p) in full.
  assert (Z.of_nat (length pre) <= 4095) as Hpre.
  { unfold pre. destruct (bool_decide _); simpl; [lia|]. rewrite length_take. lia. }
  assert (splice_path p len ind j target tlen = match splice_loop splice_fuel target 0 tlen pre with
            | SpDone dst => splice_loop splice_fuel p j len dst | r => r end) as ->.
  { unfold splice_path, pre. destruct target as [|t0 tgt]; [done|]. cbn [head]. destruct (Z.eqb_spec t0 SLASH) as [->|Hne].
    - by rewrite bool_decide_eq_true_2.
    - rewrite bool_decide_eq_false_2; [done|]. congruence. }
  assert (Z.of_nat (length full) = Z.of_nat (length pre) + tlen + (len - j)) as Hfull.
  { unfold full. rewrite !length_app, length_take, length_sub by lia. lia. }
  rewrite Hfull. assert (Z.of_nat splice_fuel = 4097) as Hsf by done.
  rewrite splice_loop_spec by lia. rewrite Z.sub_0_r. destruct (Z.leb_spec (Z.of_nat (length pre) + tlen) 4095).
  - rewrite splice_loop_spec; rewrite ?length_app, ?length_sub by lia; try lia.
    replace (Z.of_nat (length pre + Z.to_nat tlen) + (len - j)) with (Z.of_nat (length pre) + tlen + (len - j)) by lia.
    destruct (Z.leb_spec (Z.of_nat (length pre) + tlen + (len - j)) 4095).
    + ztrue (Z.of_nat (length pre) + tlen + (len - j) <? 4096). f_equal. unfold full. rewrite <- app_assoc. do 2 f_equal.
    + by zfalse (Z.of_nat (length pre) + tlen + (len - j) <? 4096).
  - by zfalse (Z.of_nat (length pre) + tlen + (len - j) <? 4096).
Qed.

Lemma splice_path_correct_witness :
  splice_path [47; 97; 47; 98; 0] 4 1 2 [120; 121; 0] 2 = SpDone [47; 120; 121; 47; 98].
Proof. rewrite splice_path_correct; [reflexivity|reflexivity|unfold PATH_LEN; lia|lia|lia|done|simpl; lia]. Defined.

(** ** Termination *)

Section termination.
Context (s : fstate) (Hd : disk_wf s) (Hfr : bytes_ok (fresh s)).

(** A path whose length scan stays in its buffer. *)
Definition path_ok (p : list Z) : Prop := is_Some (path_len p).

Lemma splice_path_fuel p len ind j target tlen :
  path_len p = Some len -> len < PATH_LEN -> 0 <= ind < len -> splice_path p len ind j target tlen <> SpFuel.
Proof using.
  intros Hl Hlt Hi. apply path_len_inv in Hl as (_ & Hlp & _ & _). unfold PATH_LEN in *. unfold splice_path.
  destruct target as [|t0 tgt]; [done|].
  set (dst := if negb (t0 =? SLASH) then take (Z.to_nat ind) p else []).
  assert (Z.of_nat (length dst) <= 4095) as Hdst by (unfold dst; destruct (negb _); [rewrite length_take; lia|simpl; lia]).
  assert (Z.of_nat splice_fuel = 4097) as Hsf by done.
  pose proof (splice_loop_fuel splice_fuel (t0 :: tgt) 0 tlen dst Hdst ltac:(lia)) as H1.
  destruct (splice_loop splice_fuel (t0 :: tgt) 0 tlen dst) as [d| | |]; [|done..].
  pose proof (splice_loop_fuel splice_fuel p j len d H1 ltac:(lia)) as H2.
  by destruct (splice_loop splice_fuel p j len d).
Qed.

Lemma reads_component p len follow ind fs n :
  path_len p = Some len -> len < PATH_LEN -> 0 <= ind < len ->
  reads s (fun h => match h with HNext ind' _ _ => ind < ind' | HSplice p' => path_ok p' | _ => True end)
    (component p len follow ind fs n).
Proof using Hd Hfr.
  intros Hl Hlt Hi. unfold component. destruct (next_slash_spec p len ind Hl Hi) as (j & Ej & Hj & _).
  eapply (reads_bind s (fun x => x = j)); [apply reads_liftO; congruence|]. intros x ->.
  destruct (j - ind =? 0); [apply reads_ret; lia|]. destruct (NAME_LEN <=? _); [by apply reads_ret|].
  eapply reads_bind; [apply reads_return_mnt_root|]. intros [[fs1 n1] m1] _.
  eapply reads_bind; [by apply reads_get_inode|]. intros [ino|] _; [|by apply reads_ret].
  destruct (negb _); [by apply reads_ret|].
  eapply reads_bind; [by apply reads_lookup_blocks|]. intros [n2|] _; [|by apply reads_ret].
  eapply reads_bind; [by apply reads_get_inode|]. intros [ino2|] _; [|by apply reads_ret].
  eapply reads_bind; [apply reads_return_mnt_mountpoint|]. intros [[fs3 n3] m3] _.
  destruct (_ && _); [by apply reads_ret|]. destruct (_ =? _); [|apply reads_ret; lia].
  unfold follow_link. eapply (reads_bind s (fun _ => True)).
  { unfold link_target. destruct (_ =? 0); [by apply reads_ret|]. eapply reads_any. by apply reads_read_block. }
  intros target _. pose proof (splice_path_fuel p len ind j target (size_lo ino2) Hl Hlt Hi) as Hf.
  destruct (splice_path _ _ _ _ _ _) as [dst| | |]; [|by apply reads_ret|by apply reads_halt|done].
  apply reads_ret. apply name_len_from_terminated.
Qed.

Lemma reads_walk_path fuel p len follow ind fs n :
  path_len p = Some len -> len < PATH_LEN -> 0 <= ind -> (1 <= fuel)%nat -> len - ind < Z.of_nat fuel ->
  reads s (fun w => match w with WSplice p' => path_ok p' | _ => True end) (walk_path fuel p len follow ind fs n).
Proof using Hd Hfr.
  intros Hl Hlt. revert ind fs n. induction fuel as [|fuel IH]; intros ind fs n Hi H1 Hf; [lia|]. cbn [walk_path].
  destruct (Z.leb_spec len ind); [by apply reads_ret|].
  eapply reads_bind; [by apply reads_component|].
  intros [|fs' n'|p'|ind' fs' n'] Hh; [by apply reads_ret..|]. apply IH; lia.
Qed.

Lemma reads_splice_rounds k p follow : path_ok p -> reads s (fun _ => True) (splice_rounds k p follow).
Proof using Hd Hfr.
  revert p. induction k as [|k IH]; intros p Hp; cbn [splice_rounds]; [by apply reads_ret|].
  eapply (reads_bind s (fun w => match w with WSplice p' => path_ok p' | _ => True end)).
  - destruct Hp as [len Hl]. unfold walk_round. rewrite Hl. eapply (reads_bind s (fun x => x = len)); [by apply reads_ret|].
    intros x ->. pose proof (path_len_inv p len Hl) as (Hr & _). destruct (Z.eqb_spec len PATH_LEN); [by apply reads_ret|].
    eapply reads_bind; [apply reads_get|]. intros s' <-. apply reads_walk_path; [done|lia..].
  - intros [|fs n|p'] Hw; [by apply reads_ret..|]. by apply IH.
Qed.
End termination.



(** ** The unchecked search agrees with the checked one *)

Definition name_visit (b name : list Z) (c prev : Z) : option (scan (Z * Z)) :=
  match entry_is b name c with
  | None => Some ScFault
  | Some true => Some (ScHit (c, prev))
  | Some false => None
  end.

Definition hit_inode (b : list Z) (r : scan (Z * Z)) : scan Z :=
  match r with
  | ScHit (c, _) => ScHit (de_inode b c)
  | ScEnd => ScEnd | ScBad => ScBad | ScFault => ScFault | ScFuel => ScFuel
  end.

Lemma lookup_seg fuel b c l prev name :
  length b = 4096%nat -> bytes_ok b -> seg b c l BLOCK_SIZE -> (length l < fuel)%nat ->
  lookup_from fuel b name c BLOCK_SIZE = hit_inode b (scan_list l prev (name_visit b name)).
Proof.
  intros Hlen Hb Hs. remember BLOCK_SIZE as e eqn:He. revert fuel prev.
  induction Hs as [c|c l e Hc Hs IH]; intros [|fuel] prev Hf; simpl in Hf; try lia; cbn [lookup_from scan_list].
  - subst. by rewrite Z.leb_refl.
  - pose proof (ok_entry_bounds b c Hb Hc) as Hbd. subst e. rewrite Hlen.
    rewrite (proj2 (Z.leb_gt BLOCK_SIZE c)) by (unfold BLOCK_SIZE; lia). zfalse (Z.of_nat 4096 <? c + 8).
    rewrite (proj2 (Z.eqb_neq (de_size b c) 0)) by lia.
    assert (u32 (c + de_size b c) = c + de_size b c) as -> by (unfold u32; rewrite Z.mod_small; lia).
    unfold name_visit at 1, entry_is. destruct (de_inode b c =? 0); [apply IH; [done|lia]|].
    destruct (comp_entry b c name) as [[]|]; [done| |done]. apply IH; [done|lia].
Qed.

Lemma lookup_is_find b l name :
  length b = 4096%nat -> bytes_ok b -> seg b 0 l BLOCK_SIZE ->
  DirBlock.lookup b name BLOCK_SIZE = hit_inode b (find_name b name).
Proof.
  intros Hlen Hb Hs. pose proof (seg_bounds b 0 l _ Hb Hs) as (Hl & _).
  assert (find_name b name = scan_list l 0 (name_visit b name)) as -> by exact (scan_repr b (live b l) l _ Hlen Hb Hs eq_refl).
  apply lookup_seg; [exact Hlen|exact Hb|exact Hs|]. unfold BLOCK_SIZE in *. lia.
Qed.

Lemma lookup_repr b d name m :
  repr b d -> cstr name = Some m -> bytes_ok m ->
  DirBlock.lookup b name BLOCK_SIZE =
    match (if decide (ascii m) then afind m d else None) with Some i => ScHit i | None => ScEnd end.
Proof.
  intros R Hm Hby. pose proof (find_name_spec b d name m R Hm Hby) as H. destruct R as (Hlen & Hb & _ & l & Hs & _).
  rewrite (lookup_is_find b l name Hlen Hb Hs). destruct (find_name b name) as [[c p]| | | |]; [| |destruct H..].
  - destruct H as [Ha ->]. by rewrite decide_True.
  - case_decide as Ha; [|done]. by rewrite (H Ha).
Qed.

Lemma lookup_blocks_spec s fs f n ds name m :
  dir_at s fs f n ds -> cstr name = Some m -> bytes_ok m ->
  lookup_blocks fs (inode_of s f n) name s = Done (dir_find m ds) s.
Proof.
  intros D Hm Hb. destruct (for_blocks_find s fs f n ds D name m Hm Hb (fun _ blk_buf =>
      let* sc := scanM (DirBlock.lookup blk_buf name BLOCK_SIZE) in
      retM (match sc with ScHit n => Some (Some n) | _ => None end))) as (r & Er & Hr).
  { intros i d Hd. destruct (dir_block_at s fs f n ds D i d Hd) as (_ & _ & _ & R).
    rewrite (lookup_repr _ d name m R Hm Hb). case_decide; [|done]. by destruct (afind m d). }
  assert (blocks_for (size_lo (inode_of s f n)) = size_lo (inode_of s f n) / BLOCK_SIZE) as Eb.
  { destruct (dir_len s fs f n ds D) as [Hl _]. rewrite (da_size D). unfold blocks_for, u32, BLOCK_SIZE.
    rewrite Z.mod_small by lia. zlia. }
  unfold lookup_blocks. rewrite Eb. unfold for_blocks in Er. rewrite (bindM_Done _ _ _ _ _ Er). unfold retM. by f_equal.
Qed.

(** ** Resolving a path *)

(** A component of a path. *)
Definition comp_ok (m : list Z) : Prop :=
  bytes_ok m /\ plain_name m /\ Forall (fun c => c <> SLASH) m /\ 0 < Z.of_nat (length m) < NAME_LEN.

(** From inode [n] of [fs], the name [m] leads to [n'] of [fs']: into the
    partition mounted on [n], to the entry [m] of the directory there, which is
    no symbolic link, and out again if that is the root of a mounted one. *)
Inductive dir_step (s : fstate) (m : list Z) : Z * Z -> Z * Z -> Prop :=
| dir_step_intro fs n fs1 n1 b1 f ds x fs' n' b2 :
    return_mnt_root fs n s = Done (fs1, n1, b1) s -> dir_at s fs1 f n1 ds -> dir_find m ds = Some x ->
    valid_inode_n f x -> file_type (inode_of s f x) <> INODE_SYMLINK_TYPE ->
    return_mnt_mountpoint fs1 x s = Done (fs', n', b2) s -> dir_step s m (fs, n) (fs', n').

Inductive path_steps (s : fstate) : Z * Z -> list (list Z) -> Z * Z -> Prop :=
| steps_nil a : path_steps s a [] a
| steps_cons a m b ms c : dir_step s m a b -> path_steps s b ms c -> path_steps s a (m :: ms) c.

(** "/a/b/c" *)
Definition slashed (ms : list (list Z)) : list Z := concat (map (cons SLASH) ms).
Definition path_of (ms : list (list Z)) : list Z :=
  match ms with
  | [] => [SLASH; 0]
  | _ => slashed ms ++ [0]
  end.

Lemma component_end p len pre m rest :
  path_len p = Some len -> p = pre ++ SLASH :: m ++ rest -> len = Z.of_nat (length p) - 1 -> comp_ok m ->
  (rest = [0] \/ exists r, rest = SLASH :: r ++ [0]) ->
  next_slash p len (Z.of_nat (length pre) + 1) = Some (Z.of_nat (length pre) + 1 + Z.of_nat (length m)) /\
  sub (Z.to_nat (Z.of_nat (length pre) + 1)) (length m) p = m.
Proof.
  intros Hl Ep El (_ & _ & Hns & Hm) Hrest.
  assert (Z.of_nat (length p) = Z.of_nat (length pre) + 1 + Z.of_nat (length m) + Z.of_nat (length rest)) as Elen.
  { rewrite Ep, length_app. cbn [length]. rewrite length_app. lia. }
  assert (0 < Z.of_nat (length rest)) as Hr by (destruct Hrest as [->|(r & ->)]; cbn [length]; lia).
  set (ind := Z.of_nat (length pre) + 1) in *.
  assert (forall i : nat, p !! (Z.to_nat ind + i)%nat = (m ++ rest) !! i) as Hat.
  { intros i. rewrite Ep. replace (Z.to_nat ind + i)%nat with (length (pre ++ [SLASH]) + i)%nat by (rewrite length_app; cbn; lia).
    rewrite <- lookup_drop. f_equal. replace (pre ++ SLASH :: m ++ rest) with ((pre ++ [SLASH]) ++ m ++ rest) by (by rewrite <- app_assoc).
    by rewrite drop_app_length. }
  split.
  - destruct (next_slash_spec p len ind Hl) as (j & -> & Hj & Hno & Hsl); [lia|]. f_equal.
    destruct (Z.lt_trichotomy j (ind + Z.of_nat (length m))) as [Hlt|[->|Hgt]]; [|done|].
    + exfalso. specialize (Hsl ltac:(lia)). replace (Z.to_nat j) with (Z.to_nat ind + Z.to_nat (j - ind))%nat in Hsl by lia.
      rewrite Hat, lookup_app_l in Hsl by lia. rewrite Forall_lookup in Hns. by apply (Hns _ _ Hsl).
    + exfalso. destruct Hrest as [->|(r & ->)]; [cbn [length] in *; lia|]. apply (Hno (ind + Z.of_nat (length m)) ltac:(lia)).
      replace (Z.to_nat (ind + Z.of_nat (length m))) with (Z.to_nat ind + length m)%nat by lia. rewrite Hat.
      by rewrite lookup_app_r, Nat.sub_diag by lia.
  - apply list_eq. intros i. destruct (Nat.ltb_spec i (length m)).
    + rewrite lookup_sub by done. by rewrite Hat, lookup_app_l.
    + rewrite lookup_ge_None_2; [by rewrite lookup_ge_None_2|]. unfold sub. rewrite length_take. lia.
Qed.

Lemma cstr_terminated m : plain_name m -> cstr (m ++ [0]) = Some m.
Proof.
  induction 1 as [|c m Hc Hm IH]; [done|]. simpl. rewrite (proj2 (Z.eqb_neq c 0)) by done. by rewrite IH.
Qed.

(** One component. *)
Lemma component_spec s p len pre m rest follow fs n fs' n' :
  path_len p = Some len -> p = pre ++ SLASH :: m ++ rest -> len = Z.of_nat (length p) - 1 -> comp_ok m ->
  (rest = [0] \/ exists r, rest = SLASH :: r ++ [0]) -> dir_step s m (fs, n) (fs', n') ->
  let j := Z.of_nat (length pre) + 1 + Z.of_nat (length m) in
  component p len follow (Z.of_nat (length pre) + 1) fs n s =
    Done (if (j =? len) && negb follow then HLeaf fs' n' else HNext (j + 1) fs' n') s.
Proof.
  intros Hl Ep El Hok Hrest Hst j. destruct (component_end p len pre m rest Hl Ep El Hok Hrest) as [Ej Es]. fold j in Ej.
  destruct Hok as (Hby & Hpl & _ & Hlen). inversion Hst as [? ? fs1 n1 b1 f ds x ? ? b2 E1 D Hx Hv Hty E2]; subst.
  unfold component. rewrite Ej. rewrite (bindM_Done _ _ _ _ _ (eq_refl : liftO (Some j) s = Done j s)).
  replace (j - (Z.of_nat (length pre) + 1)) with (Z.of_nat (length m)) by lia.
  zfalse (Z.of_nat (length m) =? 0). zfalse (NAME_LEN <=? Z.of_nat (length m)).
  rewrite Nat2Z.id, Es. rewrite (bindM_Done _ _ _ _ _ E1).
  rewrite (bindM_Done _ _ _ _ _ (get_inode_ok s f (da_it D) fs1 n1 (da_at D) (da_n D))). rewrite (da_dir D). cbn [negb].
  rewrite (bindM_Done _ _ _ _ _ (lookup_blocks_spec s fs1 f n1 ds (m ++ [0]) m D (cstr_terminated m Hpl) Hby)), Hx.
  rewrite (bindM_Done _ _ _ _ _ (get_inode_ok s f (da_it D) fs1 x (da_at D) Hv)).
  rewrite (bindM_Done _ _ _ _ _ E2). destruct (_ && _); [done|].
  by rewrite (proj2 (Z.eqb_neq _ _) Hty).
Qed.

Lemma slashed_cons m ms : slashed (m :: ms) = SLASH :: m ++ slashed ms.
Proof. done. Qed.

Lemma walk_path_spec s follow ms : forall fuel p len pre fs n fs' n',
  path_len p = Some len -> p = pre ++ slashed ms ++ [0] -> len = Z.of_nat (length p) - 1 -> Forall comp_ok ms ->
  path_steps s (fs, n) ms (fs', n') -> (length ms < fuel)%nat ->
  walk_path fuel p len follow (Z.of_nat (length pre) + 1) fs n s = Done (WFound fs' n') s.
Proof.
  induction ms as [|m ms IH]; intros fuel p len pre fs n fs' n' Hl Ep El Hok Hst Hf;
    (destruct fuel as [|fuel]; [simpl in Hf; lia|]); cbn [walk_path].
  - inversion Hst; subst fs' n'. rewrite Ep, !length_app in El. simpl in El.
    by ztrue (len <=? Z.of_nat (length pre) + 1).
  - inversion Hst as [|? ? [fs1 n1] ? ? H1 H2]; subst. inversion Hok as [|? ? Hm Hok']; subst.
    assert (Z.of_nat (length (pre ++ slashed (m :: ms) ++ [0])) =
            Z.of_nat (length pre) + 1 + Z.of_nat (length m) + Z.of_nat (length (slashed ms)) + 1) as Elen.
    { rewrite slashed_cons, !length_app. cbn [length]. rewrite length_app. lia. }
    set (p := pre ++ slashed (m :: ms) ++ [0]) in *.
    assert (p = pre ++ SLASH :: m ++ (slashed ms ++ [0])) as Ep.
    { unfold p. rewrite slashed_cons. cbn [app]. by rewrite <- !app_assoc. }
    assert (slashed ms ++ [0] = [0] \/ exists r, slashed ms ++ [0] = SLASH :: r ++ [0]) as Hrest.
    { destruct ms as [|m' ms']; [by left|right]. exists (m' ++ slashed ms'). done. }
    destruct Hm as (? & ? & ? & Hmlen). pose proof Hl as Hl'.
    zfalse (Z.of_nat (length p) - 1 <=? Z.of_nat (length pre) + 1).
    rewrite (bindM_Done _ _ _ _ _ (component_spec s p _ pre m _ follow fs n fs1 n1 Hl Ep eq_refl ltac:(done) Hrest H1)).
    destruct ((Z.of_nat (length pre) + 1 + Z.of_nat (length m) =? Z.of_nat (length p) - 1) && negb follow) eqn:Ej.
    + apply andb_true_iff in Ej as [Ej _]. destruct ms as [|m' ms'].
      * by inversion H2.
      * exfalso. rewrite slashed_cons in Elen. cbn [length] in Elen. lia.
    + specialize (IH fuel p (Z.of_nat (length p) - 1) (pre ++ SLASH :: m) fs1 n1 fs' n' Hl).
      rewrite length_app in IH. cbn [length] in IH.
      replace (Z.of_nat (length pre) + 1 + Z.of_nat (length m) + 1) with (Z.of_nat (length pre + S (length m)) + 1) by lia.
      apply IH; [|done..|simpl in Hf; lia]. rewrite Ep. by rewrite <- app_assoc.
Qed.

Lemma path_len_of p : plain_name p -> Z.of_nat (length p) < PATH_LEN -> path_len (p ++ [0]) = Some (Z.of_nat (length p)).
Proof.
  intros Hp Hl. unfold path_len. rewrite (name_len_from_spec _ 0 (p ++ [0]) p (cstr_terminated p Hp)); [done|].
  unfold PATH_LEN in *. lia.
Qed.

Lemma slashed_plain ms : Forall comp_ok ms -> plain_name (slashed ms).
Proof.
  intros H. apply Forall_concat, Forall_map. eapply Forall_impl; [exact H|]. intros m (_ & Hp & _). constructor; [|done].
  unfold SLASH. lia.
Qed.

Lemma slashed_length ms : (length ms <= length (slashed ms))%nat.
Proof. induction ms as [|m ms IH]; [done|]. rewrite slashed_cons. cbn [length]. rewrite length_app. lia. Qed.

(** C17. Resolving a path: when the components of "/a/b/c" lead from the root of
    the root partition through directories, into mounted partitions and out of
    them again, with no symbolic link among them, [lookup_path] answers with
    the partition and the inode they lead to, and changes nothing. *)
Theorem lookup_path_resolves (s : fstate) (fs : Z) (ms : list (list Z)) (follow : bool) (fs' n' : Z) :
  Forall comp_ok ms -> Z.of_nat (length (slashed ms)) < PATH_LEN ->
  path_steps s (root_fs s, ROOT_INODE_N) ms (fs', n') ->
  lookup_path fs (path_of ms) follow s = Done (Some (fs', n')) s.
Proof.
  intros Hok Hlen Hst.
  assert (exists p len, path_of ms = p ++ [0] /\ head (path_of ms) = Some SLASH /\ path_len (p ++ [0]) = Some len /\
    len < PATH_LEN /\ walk_path (S (Z.to_nat len)) (p ++ [0]) len follow 1 (root_fs s) ROOT_INODE_N s =
      Done (WFound fs' n') s) as (p & len & Ep & Eh & El & Hlt & Ew).
  { destruct ms as [|m ms'].
    - exists [SLASH], 1. inversion Hst; subst. done.
    - exists (slashed (m :: ms')), (Z.of_nat (length (slashed (m :: ms')))). split; [done|]. split; [done|].
      pose proof (path_len_of _ (slashed_plain _ Hok) Hlen) as Hl. split; [done|]. split; [done|].
      apply (walk_path_spec s follow (m :: ms') _ _ _ [] _ _ _ _ Hl); [done| |done|done|].
      + rewrite length_app. simpl. lia.
      + pose proof (slashed_length (m :: ms')). lia. }
  assert (walk_round (p ++ [0]) follow s = Done (WFound fs' n') s) as Er.
  { unfold walk_round. rewrite El, (bindM_Done _ _ _ _ _ (eq_refl : liftO (Some len) s = Done len s)).
    rewrite (proj2 (Z.eqb_neq len PATH_LEN)) by lia. by rewrite (bindM_Done _ _ _ _ _ (eq_refl : getM s = Done s s)). }
  unfold lookup_path. rewrite <- head_lookup, Eh, (bindM_Done _ _ _ _ _ (eq_refl : liftO (Some SLASH) s = Done SLASH s)).
  rewrite Z.eqb_refl. cbn [negb]. change (Z.to_nat (SYMLINK_MAX_DEPTH + 1)) with 9%nat. cbn [splice_rounds].
  rewrite Ep. by rewrite (bindM_Done _ _ _ _ _ Er).
Qed.

(** "/." on the sample partition. *)
Lemma lookup_path_resolves_witness :
  lookup_path 0 (path_of [[46]]) true RootDir.state = Done (Some (0, 2)) RootDir.state.
Proof.
  apply (lookup_path_resolves RootDir.state 0 [[46]] true 0 2).
  - constructor; [|constructor]. split; [by repeat constructor|]. split; [by repeat constructor|].
    split; [by repeat constructor|]. unfold NAME_LEN. simpl. lia.
  - by vm_compute.
  - apply (steps_cons _ _ _ (0, 2)); [|constructor].
    apply (dir_step_intro _ _ 0 2 0 2 false Demo.fs [[([46], 2)]] 2 0 2 false);
      [exact (return_mnt_root_plain RootDir.state 0 2 RootDir.unmounted)|exact RootDir.at_root|done| | |done].
    + vm_compute. intuition congruence.
    + by vm_compute.
Defined.

(** ** Mount points *)

(** Partition [i] is the one mounted on inode [mp] of the root partition. *)
Record mounted_on (s : fstate) (i : Z) (f : fs_info) (mp : Z) : Prop := mkMounted {
  mo_at : fs_at s i f;
  mo_range : 0 <= i < MAX_MOUNTS;
  mo_table : (Z.to_nat MAX_MOUNTS <= length (fs_entries s))%nat;
  mo_other : i <> root_fs s;
  mo_mp : mountpoint f = mp;
  mo_only j g : 0 <= j < MAX_MOUNTS -> fs_at s j g -> mountpoint g = mp -> j = i
}.

(** The scan of the mount table finds the first partition with that mount point. *)
Lemma return_mnt_root_first s n :
  (Z.to_nat MAX_MOUNTS <= length (fs_entries s))%nat ->
  (exists i f, 0 <= i < MAX_MOUNTS /\ fs_at s i f /\ mountpoint f = n /\
     (forall j g, 0 <= j < i -> fs_at s j g -> mountpoint g <> n) /\
     return_mnt_root (root_fs s) n s = Done (i, ROOT_INODE_N, true) s) \/
  (forall i f, 0 <= i < MAX_MOUNTS -> fs_at s i f -> mountpoint f <> n) /\
    return_mnt_root (root_fs s) n s = Done (root_fs s, n, false) s.
Proof.
  intros Hl. assert (forall j, 0 <= j < MAX_MOUNTS -> exists g, fs_at s j g) as Hat.
  { intros j Hj. apply (lookup_lt_is_Some_2 (fs_entries s) (Z.to_nat j)). unfold MAX_MOUNTS in *. lia. }
  set (body := fun part => let* f := get_fs part in retM (if mountpoint f =? n then Some part else None)).
  set (p := fun j => match fs_entries s !! Z.to_nat j with
                     | Some g => if mountpoint g =? n then Some j else None | None => None end).
  destruct (loopM_search (Z.to_nat MAX_MOUNTS) 0 body p s) as (r & Er & Hr).
  { intros j Hj. destruct (Hat j) as [g Hg]; [unfold MAX_MOUNTS in *; lia|]. unfold body, p, get_fs. mrun. by rewrite Hg. }
  assert (return_mnt_root (root_fs s) n s = Done (match r with Some i => (i, ROOT_INODE_N, true) | None => (root_fs s, n, false) end) s) as ->.
  { unfold return_mnt_root. rewrite (bindM_Done _ _ _ _ _ (eq_refl : getM s = Done s s)), Z.eqb_refl. cbn [negb].
    fold body. rewrite (bindM_Done _ _ _ _ _ Er). by destruct r. }
  change (Z.of_nat (Z.to_nat MAX_MOUNTS)) with MAX_MOUNTS in Hr. destruct r as [v|].
  - left. destruct Hr as (j & Hj & Hp & Hk). unfold p in Hp. destruct (fs_entries s !! Z.to_nat j) as [g|] eqn:Eg; [|done].
    destruct (Z.eqb_spec (mountpoint g) n) as [Em|]; [|done]. injection Hp as <-. exists j, g.
    split; [done|]. split; [done|]. split; [done|]. split; [|done].
    intros k h Hkj Hh He. specialize (Hk k Hkj). unfold p in Hk. rewrite Hh, He, Z.eqb_refl in Hk. done.
  - right. split; [|done]. intros i f Hi Hf He. specialize (Hr i Hi). unfold p in Hr. by rewrite Hf, He, Z.eqb_refl in Hr.
Qed.

(** Inode number 0 stands for the root of the first partition that is not mounted. *)
Lemma inode_zero_is_mounted s :
  (Z.to_nat MAX_MOUNTS <= length (fs_entries s))%nat ->
  (exists i f, 0 <= i < MAX_MOUNTS /\ fs_at s i f /\ mountpoint f = 0) ->
  exists i f, fs_at s i f /\ mountpoint f = 0 /\ return_mnt_root (root_fs s) 0 s = Done (i, ROOT_INODE_N, true) s.
Proof.
  intros Hl (j & g & Hj & Hg & He).
  destruct (return_mnt_root_first s 0 Hl) as [(i & f & _ & Hf & Hm & _ & E)|[Hno _]]; [by exists i, f|].
  by destruct (Hno j g Hj Hg).
Qed.

(** C36. Crossing a mount point and coming back are inverse: the inode a
    partition is mounted on leads to the root of that partition, the root of
    the partition leads back to that inode, and no other inode of either is
    taken for a mount point.  Since ".." in the root of a partition is that root
    itself, ".." of a mount point is the mount point again, not the directory
    it lies in. *)
Theorem mount_crossing (s : fstate) (i : Z) (f : fs_info) (mp : Z) :
  mounted_on s i f mp ->
  return_mnt_root (root_fs s) mp s = Done (i, ROOT_INODE_N, true) s /\
  return_mnt_mountpoint i ROOT_INODE_N s = Done (root_fs s, mp, true) s /\
  (forall n, n <> ROOT_INODE_N -> return_mnt_mountpoint i n s = Done (i, n, false) s) /\
  (forall n, (forall j g, 0 <= j < MAX_MOUNTS -> fs_at s j g -> mountpoint g <> n) ->
     return_mnt_root (root_fs s) n s = Done (root_fs s, n, false) s) /\
  (forall ds, dir_at s i f ROOT_INODE_N ds -> dir_find [46; 46] ds = Some ROOT_INODE_N ->
     dir_step s [46; 46] (root_fs s, mp) (root_fs s, mp)).
Proof.
  intros [Hat Hr Hl Ho Hm Honly].
  assert (return_mnt_root (root_fs s) mp s = Done (i, ROOT_INODE_N, true) s) as E1.
  { destruct (return_mnt_root_first s mp Hl) as [(j & g & Hj & Hg & He & _ & ->)|[Hno _]].
    - by rewrite (Honly j g Hj Hg He).
    - by destruct (Hno i f Hr Hat). }
  assert (return_mnt_mountpoint i ROOT_INODE_N s = Done (root_fs s, mp, true) s) as E2.
  { unfold return_mnt_mountpoint. mrun. rewrite (proj2 (Z.eqb_neq _ _) Ho). cbn. unfold get_fs. by rewrite Hat, Hm. }
  split; [done|]. split; [done|]. split; [|split].
  - intros n Hn. unfold return_mnt_mountpoint. mrun. rewrite (proj2 (Z.eqb_neq _ _) Ho), (proj2 (Z.eqb_neq _ _) Hn). done.
  - intros n Hn. destruct (return_mnt_root_first s n Hl) as [(j & g & Hj & Hg & He & _)|[_ E]]; [|done]. by destruct (Hn j g Hj Hg).
  - intros ds D Hd. apply (dir_step_intro _ _ _ _ _ _ _ f ds ROOT_INODE_N _ _ true E1 D Hd (da_n D)); [|exact E2].
    pose proof (da_dir D) as Hdir. unfold is_dir in Hdir. apply Z.eqb_eq in Hdir. rewrite Hdir. done.
Qed.

(** A second partition, mounted on inode 5. *)
Lemma mount_crossing_witness :
  let s := set_fs_entries (Demo.fs :: with_mountpoint 5 Demo.fs :: replicate 6 RootDir.unused_entry) RootDir.state in
  return_mnt_root 0 5 s = Done (1, 2, true) s /\ return_mnt_mountpoint 1 2 s = Done (0, 5, true) s.
Proof.
  intros s. destruct (mount_crossing s 1 (with_mountpoint 5 Demo.fs) 5) as (H1 & H2 & _); [|split; [exact H1|exact H2]].
  split; [done|unfold MAX_MOUNTS; lia|by vm_compute; lia|done|done|].
  intros j g Hj Hg He. unfold MAX_MOUNTS in Hj.
  assert (j = 0 \/ j = 1 \/ 2 <= j) as [->|[->|H2]] by lia; [|done|].
  - injection Hg as <-. discriminate He.
  - unfold fs_at in Hg. cbn [fs_entries s set_fs_entries] in Hg.
    replace (Z.to_nat j) with (S (S (Z.to_nat (j - 2)))) in Hg by lia. cbn [lookup list_lookup] in Hg.
    apply lookup_replicate in Hg as [-> _]. discriminate He.
Defined.
