(* ===== verification/Keyboard.v ===== *)
(** * The keyboard: kernel/drivers/keyboard/keyboard.c

    A byte-driven state machine: each interrupt hands one scancode of the
    controller (set 1) to [keyboard_handler], which keeps track of the E0 and
    E1 prefixes, of the keys that are down and of the lock keys, and pushes the
    character of a pressed key into the ring buffer.  The scan code itself is
    an input; calls of [fb_scrollback] are recorded with their argument. *)
From S2P Require Import Prelude Bytes Ring.
Import RingBuffer.

Inductive KeyCode : Type :=
| KEY_NONE | KEY_ESC | KEY_1 | KEY_2 | KEY_3 | KEY_4 | KEY_5 | KEY_6 | KEY_7 | KEY_8 | KEY_9 | KEY_0 |
KEY_MINUS | KEY_EQUALS | KEY_BACKSPACE | KEY_TAB | KEY_Q | KEY_W | KEY_E | KEY_R | KEY_T | KEY_Y | KEY_U |
KEY_I | KEY_O | KEY_P | KEY_LBRACKET | KEY_RBRACKET | KEY_ENTER | KEY_LCTRL | KEY_A | KEY_S | KEY_D | KEY_F |
KEY_G | KEY_H | KEY_J | KEY_K | KEY_L | KEY_SEMICOLON | KEY_APOSTROPHE | KEY_GRAVE | KEY_LSHIFT |
KEY_BACKSLASH | KEY_Z | KEY_X | KEY_C | KEY_V | KEY_B | KEY_N | KEY_M | KEY_COMMA | KEY_PERIOD | KEY_SLASH |
KEY_RSHIFT | KEY_NUMPAD_STAR | KEY_LALT | KEY_SPACE | KEY_CAPSLOCK | KEY_F1 | KEY_F2 | KEY_F3 | KEY_F4 |
KEY_F5 | KEY_F6 | KEY_F7 | KEY_F8 | KEY_F9 | KEY_F10 | KEY_NUMLOCK | KEY_SCROLLLOCK | KEY_F11 | KEY_F12 |
KEY_RCTRL | KEY_RALT | KEY_UP | KEY_DOWN | KEY_LEFT | KEY_RIGHT | KEY_HOME | KEY_END | KEY_PGUP | KEY_PGDN |
KEY_INSERT | KEY_DELETE | KEY_NUMPAD_ENTER | KEY_NUMPAD_SLASH | KEY_LGUI | KEY_RGUI | KEY_MENU |
KEY_PRINTSCREEN | KEY_PAUSE.

#[export] Instance KeyCode_eq_dec : EqDecision KeyCode.
Proof. solve_decision. Defined.

Definition KEY_EXTENDED_PREFIX : Z := 0xE0.
Definition KEY_PAUSE_PREFIX : Z := 0xE1.
Definition KEY_RELEASE_BIT : Z := 0x80.

(** ** The tables *)

Definition scancode_to_keycode (scancode : Z) : KeyCode :=
  match scancode with
  | 0x01 => KEY_ESC | 0x02 => KEY_1 | 0x03 => KEY_2 | 0x04 => KEY_3 | 0x05 => KEY_4 | 0x06 => KEY_5
  | 0x07 => KEY_6 | 0x08 => KEY_7 | 0x09 => KEY_8 | 0x0A => KEY_9 | 0x0B => KEY_0 | 0x0C => KEY_MINUS
  | 0x0D => KEY_EQUALS | 0x0E => KEY_BACKSPACE | 0x0F => KEY_TAB | 0x10 => KEY_Q | 0x11 => KEY_W
  | 0x12 => KEY_E | 0x13 => KEY_R | 0x14 => KEY_T | 0x15 => KEY_Y | 0x16 => KEY_U | 0x17 => KEY_I
  | 0x18 => KEY_O | 0x19 => KEY_P | 0x1A => KEY_LBRACKET | 0x1B => KEY_RBRACKET | 0x1C => KEY_ENTER
  | 0x1D => KEY_LCTRL | 0x1E => KEY_A | 0x1F => KEY_S | 0x20 => KEY_D | 0x21 => KEY_F | 0x22 => KEY_G
  | 0x23 => KEY_H | 0x24 => KEY_J | 0x25 => KEY_K | 0x26 => KEY_L | 0x27 => KEY_SEMICOLON
  | 0x28 => KEY_APOSTROPHE | 0x29 => KEY_GRAVE | 0x2A => KEY_LSHIFT | 0x2B => KEY_BACKSLASH | 0x2C => KEY_Z
  | 0x2D => KEY_X | 0x2E => KEY_C | 0x2F => KEY_V | 0x30 => KEY_B | 0x31 => KEY_N | 0x32 => KEY_M
  | 0x33 => KEY_COMMA | 0x34 => KEY_PERIOD | 0x35 => KEY_SLASH | 0x36 => KEY_RSHIFT | 0x37 => KEY_NUMPAD_STAR
  | 0x38 => KEY_LALT | 0x39 => KEY_SPACE | 0x3A => KEY_CAPSLOCK | 0x3B => KEY_F1 | 0x3C => KEY_F2
  | 0x3D => KEY_F3 | 0x3E => KEY_F4 | 0x3F => KEY_F5 | 0x40 => KEY_F6 | 0x41 => KEY_F7 | 0x42 => KEY_F8
  | 0x43 => KEY_F9 | 0x44 => KEY_F10 | 0x45 => KEY_NUMLOCK | 0x46 => KEY_SCROLLLOCK | 0x57 => KEY_F11
  | 0x58 => KEY_F12
  | _ => KEY_NONE
  end.

Definition extended_scancode_to_keycode (scancode : Z) : KeyCode :=
  match scancode with
  | 0x1C => KEY_NUMPAD_ENTER | 0x1D => KEY_RCTRL | 0x35 => KEY_NUMPAD_SLASH | 0x37 => KEY_PRINTSCREEN
  | 0x38 => KEY_RALT | 0x47 => KEY_HOME | 0x48 => KEY_UP | 0x49 => KEY_PGUP | 0x4B => KEY_LEFT
  | 0x4D => KEY_RIGHT | 0x4F => KEY_END | 0x50 => KEY_DOWN | 0x51 => KEY_PGDN | 0x52 => KEY_INSERT
  | 0x53 => KEY_DELETE | 0x5B => KEY_LGUI | 0x5C => KEY_RGUI | 0x5D => KEY_MENU
  | _ => KEY_NONE
  end.

(** ** The state *)

(** The file's globals, the statics of [keyboard_handler], and the calls of
    [fb_scrollback] so far. *)
Record kbd : Type := mkKbd {
  keys_down : KeyCode -> bool; capslock : bool; scrollock : bool; numlock : bool; g_rb : ringBuffer;
  e0_pending : bool; e1_skip : Z; scrolls : list Z
}.

Definition shift_down (k : kbd) : bool := keys_down k KEY_RSHIFT || keys_down k KEY_LSHIFT.

(** A [char]: its byte. *)
Definition keycode_to_char (k : kbd) (key : KeyCode) : Z :=
  let shift := shift_down k in
  let uppercase := xorb shift (capslock k) in
  match key with
  | KEY_A => if uppercase then 65 else 97 | KEY_B => if uppercase then 66 else 98
  | KEY_C => if uppercase then 67 else 99 | KEY_D => if uppercase then 68 else 100
  | KEY_E => if uppercase then 69 else 101 | KEY_F => if uppercase then 70 else 102
  | KEY_G => if uppercase then 71 else 103 | KEY_H => if uppercase then 72 else 104
  | KEY_I => if uppercase then 73 else 105 | KEY_J => if uppercase then 74 else 106
  | KEY_K => if uppercase then 75 else 107 | KEY_L => if uppercase then 76 else 108
  | KEY_M => if uppercase then 77 else 109 | KEY_N => if uppercase then 78 else 110
  | KEY_O => if uppercase then 79 else 111 | KEY_P => if uppercase then 80 else 112
  | KEY_Q => if uppercase then 81 else 113 | KEY_R => if uppercase then 82 else 114
  | KEY_S => if uppercase then 83 else 115 | KEY_T => if uppercase then 84 else 116
  | KEY_U => if uppercase then 85 else 117 | KEY_V => if uppercase then 86 else 118
  | KEY_W => if uppercase then 87 else 119 | KEY_X => if uppercase then 88 else 120
  | KEY_Y => if uppercase then 89 else 121 | KEY_Z => if uppercase then 90 else 122
  | KEY_1 => if shift then 33 else 49 | KEY_2 => if shift then 64 else 50 | KEY_3 => if shift then 35 else 51
  | KEY_4 => if shift then 36 else 52 | KEY_5 => if shift then 37 else 53 | KEY_6 => if shift then 94 else 54
  | KEY_7 => if shift then 38 else 55 | KEY_8 => if shift then 42 else 56 | KEY_9 => if shift then 40 else 57
  | KEY_0 => if shift then 41 else 48 | KEY_MINUS => if shift then 95 else 45
  | KEY_EQUALS => if shift then 43 else 61 | KEY_LBRACKET => if shift then 123 else 91
  | KEY_RBRACKET => if shift then 125 else 93 | KEY_SEMICOLON => if shift then 58 else 59
  | KEY_APOSTROPHE => if shift then 34 else 39 | KEY_GRAVE => if shift then 126 else 96
  | KEY_BACKSLASH => if shift then 124 else 92 | KEY_COMMA => if shift then 60 else 44
  | KEY_PERIOD => if shift then 62 else 46 | KEY_SLASH => if shift then 63 else 47 | KEY_NUMPAD_SLASH => 47
  | KEY_NUMPAD_ENTER => 10 | KEY_SPACE => 32 | KEY_TAB => 9 | KEY_ENTER => 10 | KEY_BACKSPACE => 8
  | KEY_ESC => 27 | KEY_LEFT => 130 | KEY_RIGHT => 131 | KEY_UP => 128 | KEY_DOWN => 129
  | _ => 0
  end.

Definition char_to_keycode (c : Z) : KeyCode :=
  match c with
  | 97 | 65 => KEY_A | 98 | 66 => KEY_B | 99 | 67 => KEY_C | 100 | 68 => KEY_D | 101 | 69 => KEY_E
  | 102 | 70 => KEY_F | 103 | 71 => KEY_G | 104 | 72 => KEY_H | 105 | 73 => KEY_I | 106 | 74 => KEY_J
  | 107 | 75 => KEY_K | 108 | 76 => KEY_L | 109 | 77 => KEY_M | 110 | 78 => KEY_N | 111 | 79 => KEY_O
  | 112 | 80 => KEY_P | 113 | 81 => KEY_Q | 114 | 82 => KEY_R | 115 | 83 => KEY_S | 116 | 84 => KEY_T
  | 117 | 85 => KEY_U | 118 | 86 => KEY_V | 119 | 87 => KEY_W | 120 | 88 => KEY_X | 121 | 89 => KEY_Y
  | 122 | 90 => KEY_Z | 49 | 33 => KEY_1 | 50 | 64 => KEY_2 | 51 | 35 => KEY_3 | 52 | 36 => KEY_4
  | 53 | 37 => KEY_5 | 54 | 94 => KEY_6 | 55 | 38 => KEY_7 | 56 | 42 => KEY_8 | 57 | 40 => KEY_9
  | 48 | 41 => KEY_0 | 45 | 95 => KEY_MINUS | 61 | 43 => KEY_EQUALS | 91 | 123 => KEY_LBRACKET
  | 93 | 125 => KEY_RBRACKET | 59 | 58 => KEY_SEMICOLON | 39 | 34 => KEY_APOSTROPHE | 96 | 126 => KEY_GRAVE
  | 92 | 124 => KEY_BACKSLASH | 44 | 60 => KEY_COMMA | 46 | 62 => KEY_PERIOD | 47 | 63 => KEY_SLASH
  | 32 => KEY_SPACE | 9 => KEY_TAB | 10 => KEY_ENTER
  | _ => KEY_NONE
  end.

(** ** The handler *)

Definition set_prefix (e0 : bool) (e1 : Z) (k : kbd) : kbd :=
  mkKbd (keys_down k) (capslock k) (scrollock k) (numlock k) (g_rb k) e0 e1 (scrolls k).
Definition set_key (key : KeyCode) (down : bool) (k : kbd) : kbd :=
  mkKbd (fun x => if decide (x = key) then down else keys_down k x) (capslock k) (scrollock k) (numlock k) (g_rb k)
    (e0_pending k) (e1_skip k) (scrolls k).
Definition set_locks (caps scroll num : bool) (k : kbd) : kbd :=
  mkKbd (keys_down k) caps scroll num (g_rb k) (e0_pending k) (e1_skip k) (scrolls k).
Definition fb_scrollback (n : Z) (k : kbd) : kbd :=
  mkKbd (keys_down k) (capslock k) (scrollock k) (numlock k) (g_rb k) (e0_pending k) (e1_skip k) (scrolls k ++ [n]).
Definition push_char (c : Z) (k : kbd) : kbd :=
  mkKbd (keys_down k) (capslock k) (scrollock k) (numlock k) (rb_push (g_rb k) c).2 (e0_pending k) (e1_skip k) (scrolls k).

Definition strip_key (key : Z) : Z := Z.land key 0x7F.

Definition keyboard_init (k : kbd) : kbd :=
  mkKbd (keys_down k) (capslock k) (scrollock k) (numlock k) (rb_init (g_rb k)) (e0_pending k) (e1_skip k) (scrolls k).

Definition key_is (key k : KeyCode) : bool := bool_decide (key = k).

(** The rest of [keyboard_handler] once the key is known; [rows] is what
    [fb_get_screen_dims] answers. *)
Definition key_event (rows : Z) (released : bool) (key : KeyCode) (k : kbd) : kbd :=
  let toggle x b := if key_is key x && negb released then negb b else b in
  let k := set_locks (toggle KEY_CAPSLOCK (capslock k)) (toggle KEY_SCROLLLOCK (scrollock k))
             (toggle KEY_NUMLOCK (numlock k)) k in
  let k := set_key key (negb released) k in
  if negb released && (key_is key KEY_UP || key_is key KEY_DOWN) && (keys_down k KEY_LSHIFT || keys_down k KEY_RSHIFT)
  then fb_scrollback (if key_is key KEY_UP then 1 else -1) k
  else
    let k := if negb released && (key_is key KEY_PGUP || key_is key KEY_PGDN)
             then fb_scrollback (if key_is key KEY_PGUP then rows - 1 else - (rows - 1)) k else k in
    let c := keycode_to_char k key in
    if negb released && negb (c =? 0) then push_char c k else k.

Definition keyboard_handler (rows scancode : Z) (k : kbd) : kbd :=
  if negb (e1_skip k =? 0) then set_prefix (e0_pending k) (u8 (e1_skip k - 1)) k
  else if scancode =? KEY_EXTENDED_PREFIX then set_prefix true (e1_skip k) k
  else if scancode =? KEY_PAUSE_PREFIX then set_prefix (e0_pending k) 5 k
  else
    let released := negb (Z.land scancode KEY_RELEASE_BIT =? 0) in
    let raw_key := Z.land scancode 0x7F in
    let key := if e0_pending k then extended_scancode_to_keycode raw_key else scancode_to_keycode raw_key in
    let k := set_prefix false (e1_skip k) k in
    if key_is key KEY_NONE then k else key_event rows released key k.

Definition is_key_held (k : kbd) (key : Z) : bool := keys_down k (char_to_keycode key).

(** ** What the controller sends

    Scan code set 1 of the PC keyboard, key by key: whether the code follows an
    E0 prefix, and the code.  [None] is no key, or the Pause key, which sends six
    bytes once and has no release. *)
Definition set1 (key : KeyCode) : option (bool * Z) :=
  match key with
  | KEY_ESC => Some (false, 0x01) | KEY_BACKSPACE => Some (false, 0x0E) | KEY_TAB => Some (false, 0x0F)
  | KEY_1 => Some (false, 0x02) | KEY_2 => Some (false, 0x03) | KEY_3 => Some (false, 0x04)
  | KEY_4 => Some (false, 0x05) | KEY_5 => Some (false, 0x06) | KEY_6 => Some (false, 0x07)
  | KEY_7 => Some (false, 0x08) | KEY_8 => Some (false, 0x09) | KEY_9 => Some (false, 0x0A)
  | KEY_0 => Some (false, 0x0B) | KEY_MINUS => Some (false, 0x0C) | KEY_EQUALS => Some (false, 0x0D)
  | KEY_A => Some (false, 0x1E) | KEY_B => Some (false, 0x30) | KEY_C => Some (false, 0x2E)
  | KEY_D => Some (false, 0x20) | KEY_E => Some (false, 0x12) | KEY_F => Some (false, 0x21)
  | KEY_G => Some (false, 0x22) | KEY_H => Some (false, 0x23) | KEY_I => Some (false, 0x17)
  | KEY_J => Some (false, 0x24) | KEY_K => Some (false, 0x25) | KEY_L => Some (false, 0x26)
  | KEY_M => Some (false, 0x32) | KEY_N => Some (false, 0x31) | KEY_O => Some (false, 0x18)
  | KEY_P => Some (false, 0x19) | KEY_Q => Some (false, 0x10) | KEY_R => Some (false, 0x13)
  | KEY_S => Some (false, 0x1F) | KEY_T => Some (false, 0x14) | KEY_U => Some (false, 0x16)
  | KEY_V => Some (false, 0x2F) | KEY_W => Some (false, 0x11) | KEY_X => Some (false, 0x2D)
  | KEY_Y => Some (false, 0x15) | KEY_Z => Some (false, 0x2C)
  | KEY_LBRACKET => Some (false, 0x1A) | KEY_RBRACKET => Some (false, 0x1B) | KEY_SEMICOLON => Some (false, 0x27)
  | KEY_APOSTROPHE => Some (false, 0x28) | KEY_GRAVE => Some (false, 0x29) | KEY_BACKSLASH => Some (false, 0x2B)
  | KEY_COMMA => Some (false, 0x33) | KEY_PERIOD => Some (false, 0x34) | KEY_SLASH => Some (false, 0x35)
  | KEY_ENTER => Some (false, 0x1C) | KEY_SPACE => Some (false, 0x39) | KEY_NUMPAD_STAR => Some (false, 0x37)
  | KEY_LSHIFT => Some (false, 0x2A) | KEY_RSHIFT => Some (false, 0x36) | KEY_LCTRL => Some (false, 0x1D)
  | KEY_LALT => Some (false, 0x38) | KEY_CAPSLOCK => Some (false, 0x3A) | KEY_NUMLOCK => Some (false, 0x45)
  | KEY_SCROLLLOCK => Some (false, 0x46)
  | KEY_F1 => Some (false, 0x3B) | KEY_F2 => Some (false, 0x3C) | KEY_F3 => Some (false, 0x3D)
  | KEY_F4 => Some (false, 0x3E) | KEY_F5 => Some (false, 0x3F) | KEY_F6 => Some (false, 0x40)
  | KEY_F7 => Some (false, 0x41) | KEY_F8 => Some (false, 0x42) | KEY_F9 => Some (false, 0x43)
  | KEY_F10 => Some (false, 0x44) | KEY_F11 => Some (false, 0x57) | KEY_F12 => Some (false, 0x58)
  | KEY_RCTRL => Some (true, 0x1D) | KEY_RALT => Some (true, 0x38) | KEY_NUMPAD_ENTER => Some (true, 0x1C)
  | KEY_NUMPAD_SLASH => Some (true, 0x35) | KEY_PRINTSCREEN => Some (true, 0x37)
  | KEY_UP => Some (true, 0x48) | KEY_DOWN => Some (true, 0x50) | KEY_LEFT => Some (true, 0x4B)
  | KEY_RIGHT => Some (true, 0x4D) | KEY_HOME => Some (true, 0x47) | KEY_END => Some (true, 0x4F)
  | KEY_PGUP => Some (true, 0x49) | KEY_PGDN => Some (true, 0x51) | KEY_INSERT => Some (true, 0x52)
  | KEY_DELETE => Some (true, 0x53) | KEY_LGUI => Some (true, 0x5B) | KEY_RGUI => Some (true, 0x5C)
  | KEY_MENU => Some (true, 0x5D)
  | KEY_NONE | KEY_PAUSE => None
  end.

(** A named key goes down (or repeats) or up; Pause; or a key the driver has no
    name for (the keys of the numeric pad, the shifts the controller makes up
    around some extended keys). *)
Inductive kevent : Type :=
| Press (key : KeyCode) | Release (key : KeyCode) | Pause | Unnamed (ext : bool) (sc : Z) (up : bool).

Definition code_bytes (ext : bool) (sc : Z) (up : bool) : list Z :=
  (if ext then [0xE0] else []) ++ [if up then sc + 0x80 else sc].
Definition scan_codes (ev : kevent) : list Z :=
  match ev with
  | Press key => match set1 key with Some (ext, sc) => code_bytes ext sc false | None => [] end
  | Release key => match set1 key with Some (ext, sc) => code_bytes ext sc true | None => [] end
  | Pause => [0xE1; 0x1D; 0x45; 0xE1; 0x9D; 0xC5]
  | Unnamed ext sc up => code_bytes ext sc up
  end.

Definition event_ok (ev : kevent) : Prop :=
  match ev with
  | Press key | Release key => set1 key <> None
  | Pause => True
  | Unnamed ext sc _ => 0 < sc < 0x60 /\ forall key, set1 key <> Some (ext, sc)
  end.

(** *** What a keyboard does *)

(** The keys of a US keyboard that print, row by row: the code of the leftmost
    key, then the characters of the row without and with shift. *)
Definition us_rows : list (Z * list Z * list Z) :=
  [(0x02, bytes_of "1234567890-=", bytes_of "!@#$%^&*()_+");
   (0x10, bytes_of "qwertyuiop[]", bytes_of "QWERTYUIOP{}");
   (0x1E, bytes_of "asdfghjkl;'`", bytes_of "ASDFGHJKL:" ++ [34] ++ bytes_of "~");
   (0x2B, bytes_of "\zxcvbnm,./", bytes_of "|ZXCVBNM<>?")].

Definition in_row (sc : Z) (row : Z * list Z * list Z) : option (Z * Z) :=
  let '(first, low, high) := row in
  if sc <? first then None
  else low' ← low !! Z.to_nat (sc - first); high' ← high !! Z.to_nat (sc - first); Some (low', high').
Definition printed (sc : Z) : option (Z * Z) := hd_error (omap (in_row sc) us_rows).

(** The other keys that send a character. *)
Definition editing_char (key : KeyCode) : option Z :=
  match key with
  | KEY_ENTER | KEY_NUMPAD_ENTER => Some 10 | KEY_SPACE => Some 32 | KEY_TAB => Some 9 | KEY_BACKSPACE => Some 8
  | KEY_ESC => Some 27 | KEY_NUMPAD_SLASH => Some 47
  | KEY_UP => Some 0x80 | KEY_DOWN => Some 0x81 | KEY_LEFT => Some 0x82 | KEY_RIGHT => Some 0x83
  | _ => None
  end.

(** The keys held, the three locks, the characters waiting to be read and the
    requests to scroll. *)
Record typist : Type := mkTypist {
  held : KeyCode -> bool; caps : bool; scroll : bool; num : bool; waiting : list Z; scrolled : list Z
}.
Definition shifted (t : typist) : bool := held t KEY_LSHIFT || held t KEY_RSHIFT.

(** Letters follow shift and caps lock, the rest shift alone. *)
Definition types (t : typist) (key : KeyCode) : option Z :=
  match set1 key with
  | Some (false, sc) =>
      match printed sc with
      | Some (low, high) =>
          let up := if (97 <=? low) && (low <=? 122) then xorb (shifted t) (caps t) else shifted t in
          Some (if up then high else low)
      | None => editing_char key
      end
  | _ => editing_char key
  end.

(** Shift with an arrow scrolls by a line, the page keys by a page less a line. *)
Definition scrolls_by (rows : Z) (t : typist) (key : KeyCode) : option Z :=
  match key with
  | KEY_UP => if shifted t then Some 1 else None
  | KEY_DOWN => if shifted t then Some (-1) else None
  | KEY_PGUP => Some (rows - 1)
  | KEY_PGDN => Some (1 - rows)
  | _ => None
  end.

Definition hold (key : KeyCode) (down : bool) (t : typist) : typist :=
  mkTypist (fun x => if decide (x = key) then down else held t x) (caps t) (scroll t) (num t) (waiting t) (scrolled t).
Definition lock (key : KeyCode) (t : typist) : typist :=
  match key with
  | KEY_CAPSLOCK => mkTypist (held t) (negb (caps t)) (scroll t) (num t) (waiting t) (scrolled t)
  | KEY_SCROLLLOCK => mkTypist (held t) (caps t) (negb (scroll t)) (num t) (waiting t) (scrolled t)
  | KEY_NUMLOCK => mkTypist (held t) (caps t) (scroll t) (negb (num t)) (waiting t) (scrolled t)
  | _ => t
  end.

(** What an event does: at most 255 characters wait. *)
Definition act (rows : Z) (t : typist) (ev : kevent) : typist :=
  match ev with
  | Press key =>
      let t := hold key true (lock key t) in
      match scrolls_by rows t key with
      | Some n => mkTypist (held t) (caps t) (scroll t) (num t) (waiting t) (scrolled t ++ [n])
      | None =>
          match types t key with
          | Some c => mkTypist (held t) (caps t) (scroll t) (num t) (Spec.push (waiting t) c).2 (scrolled t)
          | None => t
          end
      end
  | Release key => hold key false t
  | Pause | Unnamed _ _ _ => t
  end.

(** The driver's state is that of the keyboard. *)
Record sees (k : kbd) (t : typist) : Prop := mkSees {
  se_held key : keys_down k key = held t key; se_caps : capslock k = caps t; se_scroll : scrollock k = scroll t;
  se_num : numlock k = num t; se_ring : rb_wf (g_rb k); se_waiting : items (g_rb k) = waiting t;
  se_scrolled : scrolls k = scrolled t
}.

Definition idle (k : kbd) : Prop := e0_pending k = false /\ e1_skip k = 0.

Definition interrupts (rows : Z) (k : kbd) (bytes : list Z) : kbd :=
  fold_left (fun k sc => keyboard_handler rows sc k) bytes k.

(** The tables name every key by its code, and no other code. *)
Lemma set1_decoded key ext sc : set1 key = Some (ext, sc) ->
  0 < sc < 0x60 /\ key <> KEY_NONE /\ (if ext then extended_scancode_to_keycode sc else scancode_to_keycode sc) = key.
Proof. destruct key; intros [= <- <-]; (split; [lia|done]). Qed.

Lemma unnamed_decoded ext sc : 0 < sc < 0x60 -> (forall key, set1 key <> Some (ext, sc)) ->
  (if ext then extended_scancode_to_keycode sc else scancode_to_keycode sc) = KEY_NONE.
Proof.
  intros Hs Hn. assert (Forall (fun sc =>
    (scancode_to_keycode sc = KEY_NONE \/ set1 (scancode_to_keycode sc) = Some (false, sc)) /\
    (extended_scancode_to_keycode sc = KEY_NONE \/ set1 (extended_scancode_to_keycode sc) = Some (true, sc))) (seqZ 1 95)) as HF
    by (apply (bool_decide_unpack (Forall _ _)); by vm_compute).
  rewrite Forall_forall in HF. destruct (HF sc) as [[H1|H1] [H2|H2]]; [apply elem_of_seqZ; lia|..]; destruct ext; try done; by destruct (Hn _ H1) || by destruct (Hn _ H2).
Qed.

(** A code, and the code with the release bit. *)
Lemma code_bits sc : 0 < sc < 0x60 ->
  Z.land sc 0x80 = 0 /\ Z.land sc 0x7F = sc /\ Z.land (sc + 128) 0x80 <> 0 /\ Z.land (sc + 128) 0x7F = sc.
Proof.
  intros H. assert (Forall (fun sc => Z.land sc 0x80 = 0 /\ Z.land sc 0x7F = sc /\ Z.land (sc + 128) 0x80 = 128 /\
    Z.land (sc + 128) 0x7F = sc) (seqZ 1 95)) as HF by (apply (bool_decide_unpack (Forall _ _)); by vm_compute).
  rewrite Forall_forall in HF. destruct (HF sc) as (H1 & H2 & H3 & H4); [apply elem_of_seqZ; lia|].
  rewrite H3. done.
Qed.

Lemma set_prefix_idle k : idle k -> set_prefix false 0 k = k.
Proof. destruct k. intros [??]. simpl in *. by subst. Qed.

Lemma idle_key_event rows released key k : idle k -> idle (key_event rows released key k).
Proof.
  intros [H0 H1]. unfold key_event. repeat (destruct (_ && _)); done.
Qed.

(** One code byte, with its prefix seen or not. *)
Lemma handler_code rows key k sc (ext released : bool) :
  idle k -> 0 < sc < 0x60 -> key <> KEY_NONE ->
  (if ext then extended_scancode_to_keycode sc else scancode_to_keycode sc) = key ->
  keyboard_handler rows (if released then sc + 128 else sc) (set_prefix ext 0 k) = key_event rows released key k.
Proof.
  intros Hi Hs Hk Ht. destruct (code_bits sc Hs) as (H1 & H2 & H3 & H4). unfold keyboard_handler.
  cbn [e1_skip set_prefix e0_pending Z.eqb negb]. unfold KEY_EXTENDED_PREFIX, KEY_PAUSE_PREFIX, KEY_RELEASE_BIT.
  assert (key_is key KEY_NONE = false) as Hn by (by apply bool_decide_eq_false).
  assert (set_prefix false 0 (set_prefix ext 0 k) = k) as Hsp by (by rewrite <- (set_prefix_idle k Hi) at 2).
  destruct released.
  - rewrite (proj2 (Z.eqb_neq (sc + 128) 0xE0)), (proj2 (Z.eqb_neq (sc + 128) 0xE1)) by lia.
    rewrite H4, Ht, Hn, (proj2 (Z.eqb_neq _ 0) H3). cbn [negb]. by rewrite Hsp.
  - rewrite (proj2 (Z.eqb_neq sc 0xE0)), (proj2 (Z.eqb_neq sc 0xE1)) by lia.
    rewrite H2, Ht, Hn, H1. cbn [Z.eqb negb]. by rewrite Hsp.
Qed.

(** A code that names no key is dropped. *)
Lemma handler_unnamed rows k sc (ext up : bool) :
  idle k -> 0 < sc < 0x60 -> (if ext then extended_scancode_to_keycode sc else scancode_to_keycode sc) = KEY_NONE ->
  keyboard_handler rows (if up then sc + 128 else sc) (set_prefix ext 0 k) = k.
Proof.
  intros Hi Hs Ht. destruct (code_bits sc Hs) as (H1 & H2 & H3 & H4). unfold keyboard_handler.
  cbn [e1_skip set_prefix e0_pending Z.eqb negb]. unfold KEY_EXTENDED_PREFIX, KEY_PAUSE_PREFIX.
  assert (set_prefix false 0 (set_prefix ext 0 k) = k) as Hsp by (by rewrite <- (set_prefix_idle k Hi) at 2).
  destruct up.
  - rewrite (proj2 (Z.eqb_neq (sc + 128) 0xE0)), (proj2 (Z.eqb_neq (sc + 128) 0xE1)) by lia. by rewrite H4, Ht.
  - rewrite (proj2 (Z.eqb_neq sc 0xE0)), (proj2 (Z.eqb_neq sc 0xE1)) by lia. by rewrite H2, Ht.
Qed.

(** The bytes of a code lead to the last one with the prefix seen. *)
Lemma interrupts_code rows k ext sc up : idle k ->
  interrupts rows k (code_bytes ext sc up) = keyboard_handler rows (if up then sc + 128 else sc) (set_prefix ext 0 k).
Proof.
  intros Hi. unfold interrupts, code_bytes. destruct ext; cbn [app fold_left]; [|by rewrite set_prefix_idle].
  f_equal. unfold keyboard_handler. destruct Hi as [H0 H1]. by rewrite H1.
Qed.

Lemma key_is_spec key x : key_is key x = if decide (key = x) then true else false.
Proof. unfold key_is. by destruct (decide (key = x)) as [->|]; [rewrite bool_decide_eq_true_2|rewrite bool_decide_eq_false_2]. Qed.

(** The character table is that of the US keyboard. *)
Lemma keycode_to_char_types k t key : sees k t -> keycode_to_char k key = default 0 (types t key).
Proof.
  intros S. unfold keycode_to_char, types. assert (shift_down k = shifted t) as ->.
  { unfold shift_down, shifted. rewrite !(se_held _ _ S). apply orb_comm. }
  rewrite (se_caps _ _ S). destruct key; try reflexivity; by destruct (shifted t), (caps t).
Qed.

Lemma types_nonzero t key c : types t key = Some c -> c <> 0.
Proof. unfold types. destruct key; cbn; try done; destruct (shifted t), (caps t); by intros [= <-]. Qed.

Lemma sees_hold k t key down : sees k t -> sees (set_key key down k) (hold key down t).
Proof. intros S. split; try apply S. intros x. cbn. by rewrite (se_held _ _ S). Qed.

Lemma sees_lock k t key : sees k t ->
  sees (set_locks (if key_is key KEY_CAPSLOCK && negb false then negb (capslock k) else capslock k)
         (if key_is key KEY_SCROLLLOCK && negb false then negb (scrollock k) else scrollock k)
         (if key_is key KEY_NUMLOCK && negb false then negb (numlock k) else numlock k) k) (lock key t).
Proof. intros S. destruct key; (split; cbn; try apply S); f_equal; apply S. Qed.

Lemma scrolls_by_spec rows t k key : sees k t ->
  scrolls_by rows t key =
    if (key_is key KEY_UP || key_is key KEY_DOWN) && (keys_down k KEY_LSHIFT || keys_down k KEY_RSHIFT)
    then Some (if key_is key KEY_UP then 1 else -1)
    else if key_is key KEY_PGUP || key_is key KEY_PGDN
    then Some (if key_is key KEY_PGUP then rows - 1 else - (rows - 1)) else None.
Proof.
  intros S. rewrite !(se_held _ _ S). fold (shifted t). rewrite !key_is_spec. unfold scrolls_by.
  destruct key; cbn; try done; try (by destruct (shifted t)).
  change (Some (1 - rows) = Some (- (rows - 1))). f_equal. lia.
Qed.

Lemma sees_press rows k t key : sees k t -> sees (key_event rows false key k) (act rows t (Press key)).
Proof.
  intros S. unfold key_event. cbn [act]. pose proof (sees_hold _ _ key true (sees_lock k t key S)) as S1.
  cbv zeta. set (k1 := set_key key (negb false) _). fold k1 in S1. set (t1 := hold key true (lock key t)) in *.
  change (sees k1 t1) in S1. clearbody k1 t1. cbn [negb andb].
  rewrite (scrolls_by_spec rows t1 k1 key S1).
  destruct ((key_is key KEY_UP || key_is key KEY_DOWN) && _).
  { split; try apply S1. cbn. by rewrite (se_scrolled _ _ S1). }
  destruct (key_is key KEY_PGUP || key_is key KEY_PGDN) eqn:Ep.
  - assert (keycode_to_char (fb_scrollback (if key_is key KEY_PGUP then rows - 1 else - (rows - 1)) k1) key = 0) as ->.
    { rewrite !key_is_spec in Ep. by destruct key. }
    split; try apply S1. cbn. by rewrite (se_scrolled _ _ S1).
  - rewrite (keycode_to_char_types k1 t1 key S1). destruct (types t1 key) as [c|] eqn:Ec; [|done]. change (default 0 (Some c)) with c.
    rewrite (proj2 (Z.eqb_neq c 0)) by (by eapply types_nonzero). cbn [negb].
    pose proof (rb_push_spec (g_rb k1) c (se_ring _ _ S1)) as Hp. unfold push_char.
    destruct (rb_push (g_rb k1) c) as [b rb']. destruct Hp as [Hw Hp].
    split; try apply S1; cbn; [done|]. by rewrite <- (se_waiting _ _ S1), <- Hp.
Qed.

Lemma sees_release rows k t key : sees k t -> sees (key_event rows true key k) (act rows t (Release key)).
Proof.
  intros S. unfold key_event. cbn [act negb andb]. rewrite !andb_false_r.
  replace (set_locks (capslock k) (scrollock k) (numlock k) k) with k by (by destruct k). by apply sees_hold.
Qed.

Lemma interrupts_event rows k t ev : sees k t -> idle k -> event_ok ev ->
  sees (interrupts rows k (scan_codes ev)) (act rows t ev) /\ idle (interrupts rows k (scan_codes ev)).
Proof.
  intros S Hi Hok. destruct ev as [key|key| |ext sc up]; cbn [scan_codes event_ok] in *.
  - destruct (set1 key) as [[ext sc]|] eqn:E; [|done]. destruct (set1_decoded key ext sc E) as (Hs & Hn & Ht).
    rewrite interrupts_code, (handler_code rows key k sc ext false Hi Hs Hn Ht) by done.
    split; [by apply sees_press|by apply idle_key_event].
  - destruct (set1 key) as [[ext sc]|] eqn:E; [|done]. destruct (set1_decoded key ext sc E) as (Hs & Hn & Ht).
    rewrite interrupts_code, (handler_code rows key k sc ext true Hi Hs Hn Ht) by done.
    split; [by apply sees_release|by apply idle_key_event].
  - assert (interrupts rows k [0xE1; 0x1D; 0x45; 0xE1; 0x9D; 0xC5] = k) as ->; [|done].
    destruct Hi as [H0 H1]. destruct k. cbn in *. by subst.
  - destruct Hok as [Hs Hn]. rewrite interrupts_code, handler_unnamed by (done || by apply unnamed_decoded). done.
Qed.

(** C32. The driver is a US keyboard on scan code set 1.  Whatever keys are pressed,
    repeated, released and held, with E0-prefixed keys, Pause and keys without a
    name among them, when the bytes the controller sends for these events arrive one per
    interrupt, the driver ends with the keys marked down that are held, the three
    locks toggled by their keys, the characters waiting that the layout gives
    for the keys under shift and caps lock (in order, at most 255 of them), and
    the scroll requests of the arrows with shift and of the page keys; and it
    waits for a new event. *)
Theorem keyboard_decodes (rows : Z) (k : kbd) (t : typist) (evs : list kevent) :
  sees k t -> idle k -> Forall event_ok evs ->
  let k' := interrupts rows k (concat (map scan_codes evs)) in
  sees k' (fold_left (act rows) evs t) /\ idle k'.
Proof.
  intros S Hi Hok. revert k t S Hi. induction Hok as [|ev evs Hev _ IH]; intros k t S Hi; [done|].
  cbn [map concat fold_left]. destruct (interrupts_event rows k t ev S Hi Hev) as [S' Hi'].
  unfold interrupts. rewrite fold_left_app. fold (interrupts rows k (scan_codes ev)). by apply IH.
Qed.

Definition demo_kbd : kbd := mkKbd (fun _ => false) false false false (mkRb (replicate 256 0) 0 0) false 0 [].

(** Shift-A, Pause, caps lock, s, the 7 of the numeric pad, then the right arrow. *)
Lemma keyboard_decodes_witness :
  let k := interrupts 25 demo_kbd [0x2A; 0x1E; 0x9E; 0xAA; 0xE1; 0x1D; 0x45; 0xE1; 0x9D; 0xC5; 0x3A; 0xBA; 0x1F; 0x47; 0xE0; 0x4D] in
  items (g_rb k) = bytes_of "AS" ++ [0x83] /\ keys_down k KEY_LSHIFT = false /\ keys_down k KEY_S = true /\ capslock k = true.
Proof.
  intros k.
  destruct (keyboard_decodes 25 demo_kbd (mkTypist (fun _ => false) false false false [] [])
    [Press KEY_LSHIFT; Press KEY_A; Release KEY_A; Release KEY_LSHIFT; Pause; Press KEY_CAPSLOCK; Release KEY_CAPSLOCK; Press KEY_S;
     Unnamed false 0x47 false; Press KEY_RIGHT]) as [S _].
  - by split.
  - done.
  - repeat constructor; try done. by intros [].
  - change (interrupts 25 demo_kbd _) with k in S. split; [exact (se_waiting _ _ S)|].
    rewrite !(se_held _ _ S), (se_caps _ _ S). done.
Defined.
