(* ===== verification/Screen.v ===== *)
(** * The frame buffer console: kernel/drivers/fb/fbController.c

    The console keeps the text of the screen in [shadow], the lines that
    scrolled off in the ring [history], and paints 8x16 glyphs into the linear
    frame buffer.  The frame buffer is a function from scan line and pixel to
    colour: pixel [x] of line [y] is the 32-bit word at
    [base + y * pitch + 4 * x], and an access beyond the last line or the pitch
    of a line is a fault, as is an access outside [shadow], [history] or the
    font.  The font is the file boot.S includes, a parameter. *)
From S2P Require Import Prelude Bytes FrameAlloc Paging.

Definition GLYPH_WIDTH : Z := 8.
Definition GLYPH_HEIGHT : Z := 16.
Definition PALETTE_SIZE : Z := 16.
Definition HISTORY_LINES : Z := 256.
Definition BLACK : Z := 0.
Definition WHITE : Z := 15.
Definition SPACE : Z := 32.

Definition palette : list Z :=
  [0x000000; 0x0000AA; 0x00AA00; 0x00AAAA; 0xAA0000; 0xAA00AA; 0xAA5500; 0xAAAAAA;
   0x555555; 0x5555FF; 0x55FF55; 0x55FFFF; 0xFF5555; 0xFF55FF; 0xFFFF55; 0xFFFFFF].

Record FBChar : Type := mkChar { ch : Z; color : Z }.

#[export] Instance FBChar_eq_dec : EqDecision FBChar.
Proof. solve_decision. Defined.

(** The statics of the file, and the pixels. *)
Record fb : Type := mkFb {
  col : Z; row : Z; cursor_col : Z; cursor_row : Z; cols : Z; rows : Z;
  base : Z; pitch : Z; width : Z; height : Z;
  shadow : list FBChar; history : list FBChar; hist_head : Z; hist_count : Z; view_offset : Z;
  scrollback_on : bool;
  pix : Z -> Z -> Z
}.

Definition with_pos (r c : Z) (s : fb) : fb :=
  mkFb c r (cursor_col s) (cursor_row s) (cols s) (rows s) (base s) (pitch s) (width s) (height s)
    (shadow s) (history s) (hist_head s) (hist_count s) (view_offset s) (scrollback_on s) (pix s).
Definition with_cursor (r c : Z) (s : fb) : fb :=
  mkFb (col s) (row s) c r (cols s) (rows s) (base s) (pitch s) (width s) (height s)
    (shadow s) (history s) (hist_head s) (hist_count s) (view_offset s) (scrollback_on s) (pix s).
Definition with_shadow (sh : list FBChar) (s : fb) : fb :=
  mkFb (col s) (row s) (cursor_col s) (cursor_row s) (cols s) (rows s) (base s) (pitch s) (width s) (height s)
    sh (history s) (hist_head s) (hist_count s) (view_offset s) (scrollback_on s) (pix s).
Definition with_history (h : list FBChar) (hd n : Z) (s : fb) : fb :=
  mkFb (col s) (row s) (cursor_col s) (cursor_row s) (cols s) (rows s) (base s) (pitch s) (width s) (height s)
    (shadow s) h hd n (view_offset s) (scrollback_on s) (pix s).
Definition with_view (off : Z) (s : fb) : fb :=
  mkFb (col s) (row s) (cursor_col s) (cursor_row s) (cols s) (rows s) (base s) (pitch s) (width s) (height s)
    (shadow s) (history s) (hist_head s) (hist_count s) off (scrollback_on s) (pix s).
Definition with_scrollback (b : bool) (s : fb) : fb :=
  mkFb (col s) (row s) (cursor_col s) (cursor_row s) (cols s) (rows s) (base s) (pitch s) (width s) (height s)
    (shadow s) (history s) (hist_head s) (hist_count s) (view_offset s) b (pix s).
Definition with_pix (p : Z -> Z -> Z) (s : fb) : fb :=
  mkFb (col s) (row s) (cursor_col s) (cursor_row s) (cols s) (rows s) (base s) (pitch s) (width s) (height s)
    (shadow s) (history s) (hist_head s) (hist_count s) (view_offset s) (scrollback_on s) p.

Abbreviation FbM := (M fb).

(** ** Accesses *)

Definition get_at {A S} (l : list A) (i : Z) : M S A :=
  match (if 0 <=? i then l !! Z.to_nat i else None) with
  | Some x => retM x
  | None => haltM Fault
  end.

Definition set_shadow (i : Z) (x : FBChar) : FbM unit :=
  let* s := getM in
  if (0 <=? i) && (i <? Z.of_nat (length (shadow s))) then putM (with_shadow (<[Z.to_nat i := x]> (shadow s)) s)
  else haltM Fault.

(** [line[x] = v] for the scan line [y]. *)
Definition put_pixel (y x v : Z) : FbM unit :=
  let* s := getM in
  if (0 <=? y) && (y <? height s) && (0 <=? x) && (4 * x + 4 <=? pitch s)
  then putM (with_pix (fun y' x' => if (y' =? y) && (x' =? x) then v else pix s y' x') s)
  else haltM Fault.

(** [memmove] and [memset] of whole scan lines. *)
Definition move_lines (dst src n : Z) : FbM unit :=
  let* s := getM in
  if (0 <=? n) && (0 <=? dst) && (0 <=? src) && (dst + n <=? height s) && (src + n <=? height s)
  then putM (with_pix (fun y x => if (dst <=? y) && (y <? dst + n) then pix s (src + (y - dst)) x else pix s y x) s)
  else haltM Fault.
Definition clear_lines (dst n : Z) : FbM unit :=
  let* s := getM in
  if (0 <=? n) && (0 <=? dst) && (dst + n <=? height s)
  then putM (with_pix (fun y x => if (dst <=? y) && (y <? dst + n) then 0 else pix s y x) s)
  else haltM Fault.

Definition blank : FBChar := mkChar SPACE 0.

(** ** fb_init *)

Record fb_info : Type := mkFbInfo {
  fi_flags : Z; fi_addrLo : Z; fi_addrHi : Z; fi_pitch : Z; fi_width : Z; fi_height : Z; fi_bpp : Z; fi_type : Z
}.

Section init.
Context {F : Type} `{FrameLaws F}.

(** The identity mapping of the pages of the frame buffer. *)
Definition fb_map (info : fb_info) (p : pstate (F := F)) : pstate (F := F) :=
  let start := Z.land (fi_addrLo info) (cnot 32 0xFFF) in
  let end_no_round := u32 (fi_addrLo info + fi_pitch info * fi_height info) in
  let end_ := Z.land (u32 (end_no_round + 0xFFF)) (cnot 32 0xFFF) in
  for_range (Z.to_nat ((end_ - start) / 0x1000)) 0
    (fun k p => map_kernel_page (start + 0x1000 * k) (start + 0x1000 * k) (Z.lor PAGE_PRESENT PAGE_RW) p) p.

(** [sh] and [hi] are the arrays [kmalloc] returns, with what they hold, and
    [pix0] what the frame buffer holds; [None] is the panic on hardware that
    is not supported. *)
Definition fb_init (info : fb_info) (sh hi : list FBChar) (pix0 : Z -> Z -> Z) (p : pstate (F := F)) : option (fb * pstate (F := F)) :=
  if Z.land (fi_flags info) (Z.shiftl 1 12) =? 0 then None
  else if negb (fi_type info =? 1) then None
  else if negb (fi_addrHi info =? 0) then None
  else if negb (fi_bpp info =? 32) then None
  else
    let p := fb_map info p in
    let cols := fi_width info / GLYPH_WIDTH in
    let rows := fi_height info / GLYPH_HEIGHT in
    let sh := for_range (Z.to_nat rows) 0 (fun r sh =>
                for_range (Z.to_nat cols) 0 (fun c sh => <[Z.to_nat (r * cols + c) := blank]> sh) sh) sh in
    Some (mkFb 0 0 0 0 cols rows (fi_addrLo info) (fi_pitch info) (fi_width info) (fi_height info)
            sh hi 0 0 0 true
            (fun y x => if (0 <=? y) && (y <? fi_height info) && (0 <=? x) && (4 * x + 4 <=? fi_pitch info)
                        then 0 else pix0 y x), p).

End init.

(** ** Painting *)

Section font.
Context (font8x16 : list Z).

(** [(glyph[i] >> (7 - b)) & 1] for the glyph of [c]. *)
Definition glyph_bit {S} (c i b : Z) : M S bool :=
  let* g := get_at font8x16 (c * GLYPH_HEIGHT + i) in
  retM (negb (Z.land (Z.shiftr g (7 - b)) 1 =? 0)).

Definition draw_cursor : FbM unit :=
  let* s := getM in
  let color_val := palette !!! Z.to_nat WHITE in
  forM 16 0 (fun r => forM 8 0 (fun b =>
    put_pixel (row s * GLYPH_HEIGHT + r) (col s * GLYPH_WIDTH + b) color_val)) ;;;
  let* curr := get_at (shadow s) (row s * cols s + col s) in
  (if negb (ch curr =? SPACE) then
     forM 16 0 (fun r => forM 8 0 (fun b =>
       let* val := glyph_bit (ch curr) r b in
       if val then put_pixel (row s * GLYPH_HEIGHT + r) (col s * GLYPH_WIDTH + b) (palette !!! Z.to_nat BLACK)
       else retM tt))
   else retM tt) ;;;
  modM (fun s => with_cursor (row s) (col s) s).

Definition blit_glyph (r c chr colr : Z) : FbM unit :=
  if PALETTE_SIZE <=? colr then retM tt
  else
    let color_val := palette !!! Z.to_nat colr in
    forM 16 0 (fun i => forM 8 0 (fun b =>
      let* val := glyph_bit chr i b in
      put_pixel (r * GLYPH_HEIGHT + i) (c * GLYPH_WIDTH + b) (if val then color_val else palette !!! Z.to_nat BLACK))).

Definition draw_char_forced (c colr : Z) : FbM unit :=
  if PALETTE_SIZE <=? colr then retM tt
  else
    let* s := getM in
    blit_glyph (row s) (col s) c colr ;;;
    set_shadow (row s * cols s + col s) (mkChar c colr).

Definition draw_char (c colr : Z) : FbM unit :=
  let* s := getM in
  let* curr := get_at (shadow s) (row s * cols s + col s) in
  if (ch curr =? c) && (color curr =? colr) then retM tt else draw_char_forced c colr.

Definition del_cursor : FbM unit :=
  let* s := getM in
  modM (with_pos (cursor_row s) (cursor_col s)) ;;;
  let* curr := get_at (shadow s) (cursor_row s * cols s + cursor_col s) in
  draw_char_forced (ch curr) (color curr) ;;;
  modM (with_pos (row s) (col s)).

(** [memcpy(&history[head*cols], &shadow[0], cols * sizeof(FBChar))]. *)
Definition save_line : FbM unit :=
  let* s := getM in
  if (0 <=? cols s) && (cols s <=? Z.of_nat (length (shadow s))) && (0 <=? hist_head s * cols s) &&
     (hist_head s * cols s + cols s <=? Z.of_nat (length (history s)))
  then putM (with_history (splice (Z.to_nat (hist_head s * cols s)) (take (Z.to_nat (cols s)) (shadow s)) (history s))
               (hist_head s) (hist_count s) s)
  else haltM Fault.

Definition scroll : FbM unit :=
  del_cursor ;;;
  save_line ;;;
  modM (fun s => with_history (history s) ((hist_head s + 1) mod HISTORY_LINES)
                   (if hist_count s <? HISTORY_LINES then hist_count s + 1 else hist_count s) s) ;;;
  let* s := getM in
  forM (Z.to_nat (rows s - 1)) 1 (fun r => forM (Z.to_nat (cols s)) 0 (fun c =>
    let* s := getM in
    let* curr := get_at (shadow s) (r * cols s + c) in
    set_shadow ((r - 1) * cols s + c) curr)) ;;;
  forM (Z.to_nat (cols s)) 0 (fun c => set_shadow ((rows s - 1) * cols s + c) blank) ;;;
  modM (with_pos (rows s - 1) 0) ;;;
  move_lines 0 GLYPH_HEIGHT ((rows s - 1) * GLYPH_HEIGHT) ;;;
  clear_lines ((rows s - 1) * GLYPH_HEIGHT) GLYPH_HEIGHT ;;;
  draw_cursor.

Definition view_repaint : FbM unit :=
  let* s := getM in
  forM (Z.to_nat (rows s)) 0 (fun r =>
    let logical := hist_count s + r - view_offset s in
    forM (Z.to_nat (cols s)) 0 (fun c =>
      let* x := if logical <? hist_count s
                then get_at (history s)
                       (Z.rem (hist_head s - hist_count s + logical + HISTORY_LINES) HISTORY_LINES * cols s + c)
                else get_at (shadow s) ((logical - hist_count s) * cols s + c) in
      blit_glyph r c (ch x) (color x))).

Definition snap_to_live : FbM unit :=
  let* s := getM in
  forM (Z.to_nat (rows s)) 0 (fun r => forM (Z.to_nat (cols s)) 0 (fun c =>
    let* cell := get_at (shadow s) (r * cols s + c) in
    blit_glyph r c (ch cell) (color cell))) ;;;
  draw_cursor.

(** ** The operations *)

(** [view_offset + delta] is a sum of [int]s and exact: [view_offset] is at most
    the count of the history lines, and both calls, of keyboard.c, pass 1 or the number of
    rows less 1, up or down; a sum out of range would be undefined. *)
Definition fb_scrollback (delta : Z) : FbM unit :=
  let* s := getM in
  if negb (scrollback_on s) then retM tt
  else
    let off := view_offset s + delta in
    let off := if hist_count s <? off then hist_count s else off in
    let off := if off <? 0 then 0 else off in
    if off =? view_offset s then retM tt
    else
      modM (with_view off) ;;;
      if off =? 0 then snap_to_live else view_repaint.

Definition upd_row : FbM unit :=
  modM (fun s => with_pos (row s + 1) (col s) s) ;;;
  let* s := getM in
  if row s <? rows s then retM tt else scroll.

Definition upd_col : FbM unit :=
  modM (fun s => with_pos (row s) (col s + 1) s) ;;;
  let* s := getM in
  if col s <? cols s then retM tt
  else modM (fun s => with_pos (row s) 0 s) ;;; upd_row.

(** [if (view_offset) { view_offset = 0; snap_to_live(); }] *)
Definition leave_view : FbM unit :=
  let* s := getM in
  if negb (view_offset s =? 0) then modM (with_view 0) ;;; snap_to_live else retM tt.

Definition fb_draw_char_no_upd (c colr : Z) : FbM unit :=
  leave_view ;;;
  if negb (c =? 8) && negb (c =? 10) then draw_char c colr ;;; upd_col
  else if negb (c =? 10) then
    let* s := getM in
    if 0 <? col s then modM (fun s => with_pos (row s) (col s - 1) s) ;;; draw_char SPACE 0 else retM tt
  else upd_row ;;; modM (fun s => with_pos (row s) 0 s).

Definition fb_draw_char_upd (c colr : Z) : FbM unit :=
  leave_view ;;;
  (if negb (c =? 8) && negb (c =? 10) then draw_char c colr ;;; upd_col
   else if negb (c =? 10) then
     let* s := getM in
     if 0 <? col s then modM (fun s => with_pos (row s) (col s - 1) s) ;;; draw_char SPACE 0 else retM tt
   else upd_row ;;; modM (fun s => with_pos (row s) 0 s)) ;;;
  del_cursor ;;;
  draw_cursor.

(** [str] is the memory from the pointer on; running past it is a fault.
    The counter wraps at 2^31, further than any string of the model. *)
Fixpoint fb_draw_string (str : list Z) (colr : Z) : FbM unit :=
  match str with
  | [] => haltM Fault
  | c :: str => if c =? 0 then retM tt else fb_draw_char_upd c colr ;;; fb_draw_string str colr
  end.
Fixpoint fb_draw_string_no_upd (str : list Z) (colr : Z) : FbM unit :=
  match str with
  | [] => haltM Fault
  | c :: str => if c =? 0 then retM tt else fb_draw_char_no_upd c colr ;;; fb_draw_string_no_upd str colr
  end.

Definition fb_get_screen_dims : FbM (Z * Z) := let* s := getM in retM (rows s, cols s).
Definition fb_get_cursor : FbM (Z * Z) := let* s := getM in retM (row s, col s).

Definition fb_set_cursor_no_upd (in_row in_col : Z) : FbM bool :=
  leave_view ;;;
  let* s := getM in
  if (rows s <=? in_row) || (cols s <=? in_col) then retM false
  else modM (with_pos in_row in_col) ;;; retM true.

Definition fb_set_cursor (in_row in_col : Z) : FbM bool :=
  leave_view ;;;
  let* s := getM in
  if (rows s <=? in_row) || (cols s <=? in_col) then retM false
  else modM (with_pos in_row in_col) ;;; del_cursor ;;; draw_cursor ;;; retM true.

Definition fb_clear_screen : FbM unit :=
  leave_view ;;;
  let* s := getM in
  forM (Z.to_nat (rows s)) 0 (fun r => forM (Z.to_nat (cols s)) 0 (fun c =>
    modM (with_pos r c) ;;; draw_char (ch blank) (color blank))) ;;;
  modM (with_pos 0 0) ;;;
  del_cursor ;;;
  draw_cursor.

Definition fb_set_scrollback (b : bool) : FbM unit := modM (with_scrollback b).

End font.
