(* ===== verification/ScreenSpec.v ===== *)
(** * The console as a terminal: what fbController.c promises

    [term] is the console without pixels: the lines that scrolled off and the
    lines of the screen as one transcript, a position, and a view of the
    transcript.  The theorems say that every operation of the console stays
    inside its arrays and the frame buffer ([fb_wf], [fb_ops_typed]), and that
    the pixels always show the view of the terminal ([fb_refines_terminal]). *)
From S2P Require Import Prelude Bytes FrameAlloc Paging Screen.

(** ** The terminal *)

Record term : Type := mkTerm {
  t_cols : Z; t_rows : Z;
  t_past : list FBChar;      (** the lines that scrolled off, oldest first *)
  t_screen : list FBChar;    (** the lines of the screen *)
  t_row : Z; t_col : Z; t_view : Z; t_scrollable : bool
}.

Definition t_move (r c : Z) (t : term) : term :=
  mkTerm (t_cols t) (t_rows t) (t_past t) (t_screen t) r c (t_view t) (t_scrollable t).
Definition t_look (off : Z) (t : term) : term :=
  mkTerm (t_cols t) (t_rows t) (t_past t) (t_screen t) (t_row t) (t_col t) off (t_scrollable t).

Definition last_n {A} (n : nat) (l : list A) : list A := drop (length l - n) l.

(** The first line leaves the screen; of the lines that left, 256 are kept. *)
Definition t_scroll (t : term) : term :=
  let w := Z.to_nat (t_cols t) in
  mkTerm (t_cols t) (t_rows t) (last_n (256 * w) (t_past t ++ take w (t_screen t)))
    (drop w (t_screen t) ++ replicate w blank) (t_rows t - 1) 0 (t_view t) (t_scrollable t).

Definition t_newrow (t : term) : term :=
  if t_row t + 1 <? t_rows t then t_move (t_row t + 1) (t_col t) t else t_scroll t.
Definition t_advance (t : term) : term :=
  if t_col t + 1 <? t_cols t then t_move (t_row t) (t_col t + 1) t else t_newrow (t_move (t_row t) 0 t).

(** A colour outside the palette draws nothing. *)
Definition t_put (x : FBChar) (t : term) : term :=
  if color x <? PALETTE_SIZE
  then mkTerm (t_cols t) (t_rows t) (t_past t) (<[Z.to_nat (t_row t * t_cols t + t_col t) := x]> (t_screen t))
         (t_row t) (t_col t) (t_view t) (t_scrollable t)
  else t.

Definition t_char (c colr : Z) (t : term) : term :=
  let t := t_look 0 t in
  if c =? 8 then if 0 <? t_col t then t_put blank (t_move (t_row t) (t_col t - 1) t) else t
  else if c =? 10 then let t := t_newrow t in t_move (t_row t) 0 t
  else t_advance (t_put (mkChar c colr) t).

Definition t_set_cursor (r c : Z) (t : term) : term :=
  let t := t_look 0 t in
  if (r <? t_rows t) && (c <? t_cols t) then t_move r c t else t.

Definition t_clear (t : term) : term :=
  mkTerm (t_cols t) (t_rows t) (t_past t) (replicate (Z.to_nat (t_rows t * t_cols t)) blank) 0 0 0 (t_scrollable t).

(** The view moves between the present and the oldest line kept. *)
Definition t_scrollback (delta : Z) (t : term) : term :=
  if t_scrollable t
  then t_look (Z.max 0 (Z.min (Z.of_nat (length (t_past t)) / t_cols t) (t_view t + delta))) t
  else t.
Definition t_allow (b : bool) (t : term) : term :=
  mkTerm (t_cols t) (t_rows t) (t_past t) (t_screen t) (t_row t) (t_col t) (t_view t) b.

(** What the user sees at row [r], column [c]: the transcript, seen [t_view]
    lines above the screen. *)
Definition t_visible (t : term) (r c : Z) : option FBChar :=
  (t_past t ++ t_screen t) !!
    Z.to_nat (Z.of_nat (length (t_past t)) + (r - t_view t) * t_cols t + c).

(** ** The state of the console *)

Definition cell_ok (x : FBChar) : Prop := 0 <= ch x < 256 /\ 0 <= color x < PALETTE_SIZE.

(** Line [i] of the history, counted from the oldest, and all of them. *)
Definition past_line (s : fb) (i : Z) : list FBChar :=
  sub (Z.to_nat ((hist_head s - hist_count s + i) mod HISTORY_LINES * cols s)) (Z.to_nat (cols s)) (history s).
Definition past (s : fb) : list FBChar := concat (past_line s <$> seqZ 0 (hist_count s)).

Definition abs (s : fb) : term :=
  mkTerm (cols s) (rows s) (past s) (shadow s) (row s) (col s) (view_offset s) (scrollback_on s).

(** Everything but the positions. *)
Record geometry (s : fb) : Prop := mkGeometry {
  g_cols : 0 < cols s; g_rows : 0 < rows s; g_width : cols s = width s / 8; g_height : rows s = height s / 16;
  g_pitch : 0 <= width s /\ 4 * width s <= pitch s;
  g_shadow : Z.of_nat (length (shadow s)) = rows s * cols s;
  g_history : Z.of_nat (length (history s)) = HISTORY_LINES * cols s;
  g_head : 0 <= hist_head s < HISTORY_LINES; g_count : 0 <= hist_count s <= HISTORY_LINES;
  g_view : 0 <= view_offset s <= hist_count s;
  g_cells : Forall cell_ok (shadow s); g_past : Forall cell_ok (past s)
}.

Definition on_screen (s : fb) (r c : Z) : Prop := 0 <= r < rows s /\ 0 <= c < cols s.

Record fb_wf (s : fb) : Prop := mkFbWf {
  w_geom : geometry s; w_pos : on_screen s (row s) (col s); w_cursor : on_screen s (cursor_row s) (cursor_col s)
}.

Definition idx (s : fb) (r c : Z) : nat := Z.to_nat (r * cols s + c).

Section spec.
Context (font8x16 : list Z) (Hfont : length font8x16 = 4096%nat).

(** ** Pixels *)

Definition glyph_on (c i b : Z) : bool :=
  negb (Z.land (Z.shiftr (font8x16 !!! Z.to_nat (c * 16 + i)) (7 - b)) 1 =? 0).
Definition glyph_colour (x : FBChar) (i b : Z) : Z :=
  if glyph_on (ch x) i b then palette !!! Z.to_nat (color x) else 0.
Definition cursor_colour (x : FBChar) (i b : Z) : Z :=
  if negb (ch x =? SPACE) && glyph_on (ch x) i b then 0 else 0xFFFFFF.

(** The 8x16 pixels of a cell. *)
Definition paints (s : fb) (r c : Z) (f : Z -> Z -> Z) : Prop :=
  forall i b, 0 <= i < 16 -> 0 <= b < 8 -> pix s (r * 16 + i) (c * 8 + b) = f i b.
Definition shows (s : fb) (r c : Z) (x : FBChar) : Prop := paints s r c (glyph_colour x).

Definition in_cell (r c y x : Z) : bool := (r * 16 <=? y) && (y <? r * 16 + 16) && (c * 8 <=? x) && (x <? c * 8 + 8).

(** [s'] is [s] with the pixels [f] says painted in cell [(r, c)]. *)
Definition painted (s s' : fb) (r c : Z) (f : Z -> Z -> option Z) : Prop :=
  exists p, s' = with_pix p s /\ forall y x,
    p y x = if in_cell r c y x then default (pix s y x) (f (y - r * 16) (x - c * 8)) else pix s y x.

Lemma wp_get_at {A S} (l : list A) i x Q (s : S) : 0 <= i -> l !! Z.to_nat i = Some x -> Q x s -> wp (get_at l i) Q s.
Proof. intros Hi Hx HQ. unfold get_at. ztrue (0 <=? i). by rewrite Hx. Qed.

Lemma wp_glyph_bit {S} c i b Q (s : S) :
  0 <= c < 256 -> 0 <= i < 16 -> Q (glyph_on c i b) s -> wp (glyph_bit font8x16 c i b) Q s.
Proof using Hfont.
  intros Hc Hi HQ. unfold glyph_bit, GLYPH_HEIGHT. wp_step.
  destruct (lookup_lt_is_Some_2 font8x16 (Z.to_nat (c * 16 + i))) as [g Hg]; [lia|].
  apply (wp_get_at _ _ g); [lia|done|]. apply wp_ret. unfold glyph_on in HQ.
  by rewrite (list_lookup_total_correct _ _ _ Hg) in HQ.
Qed.

Lemma in_frame s r c i b : geometry s -> on_screen s r c -> 0 <= i < 16 -> 0 <= b < 8 ->
  (0 <=? r * 16 + i) && (r * 16 + i <? height s) && (0 <=? c * 8 + b) && (4 * (c * 8 + b) + 4 <=? pitch s) = true.
Proof.
  intros Hg [Hr Hc] Hi Hb. destruct (g_pitch s Hg). pose proof (g_width s Hg). pose proof (g_height s Hg).
  assert (r * 16 + 16 <= height s) by zlia. assert (c * 8 + 8 <= width s) by zlia.
  rewrite !andb_true_iff, Z.ltb_lt, !Z.leb_le. lia.
Qed.

Lemma wp_put_pixel s r c i b v (Q : unit -> fb -> Prop) : geometry s -> on_screen s r c -> 0 <= i < 16 -> 0 <= b < 8 ->
  Q tt (with_pix (fun y' x' => if (y' =? r * 16 + i) && (x' =? c * 8 + b) then v else pix s y' x') s) ->
  wp (put_pixel (r * 16 + i) (c * 8 + b) v) Q s.
Proof.
  intros Hg Hs Hi Hb HQ. unfold put_pixel. wp_step. wp_step. rewrite in_frame by done. by apply wp_put.
Qed.

(** The double loop over the pixels of a cell, with a body that paints what
    [f] says. *)
Lemma wp_paint_cell s r c (f : Z -> Z -> option Z) (body : Z -> Z -> FbM unit) :
  geometry s -> on_screen s r c ->
  (forall i b s', 0 <= i < 16 -> 0 <= b < 8 -> forall Q : unit -> fb -> Prop,
     match f i b with
     | Some v => wp (put_pixel (r * 16 + i) (c * 8 + b) v) Q s'
     | None => Q tt s' end -> wp (body i b) Q s') ->
  wp (forM 16 0 (fun i => forM 8 0 (fun b => body i b))) (fun _ s' => painted s s' r c f) s.
Proof.
  intros Hg Hs Hbody.
  pose (I := fun i b (s' : fb) => exists p, s' = with_pix p s /\ forall y x, p y x =
    if in_cell r c y x && ((y - r * 16 <? i) || ((y - r * 16 =? i) && (x - c * 8 <? b)))
    then default (pix s y x) (f (y - r * 16) (x - c * 8)) else pix s y x).
  assert (forall i b s', 0 <= i < 16 -> 0 <= b < 8 -> I i b s' -> wp (body i b) (fun _ => I i (b + 1)) s') as Hstep.
  { intros i b s' Hi Hb (p & -> & Hp). apply Hbody; [done|done|].
    assert (forall y x, negb ((y =? r * 16 + i) && (x =? c * 8 + b)) = true ->
      in_cell r c y x && ((y - r * 16 <? i) || ((y - r * 16 =? i) && (x - c * 8 <? b))) =
      in_cell r c y x && ((y - r * 16 <? i) || ((y - r * 16 =? i) && (x - c * 8 <? b + 1)))) as Hne.
    { intros y x H. f_equal. f_equal. destruct (Z.eqb_spec (y - r * 16) i); [|done]. simpl.
      destruct (Z.eqb_spec y (r * 16 + i)); [|lia]. destruct (Z.eqb_spec x (c * 8 + b)); [done|]. lia. }
    assert (in_cell r c (r * 16 + i) (c * 8 + b) = true) as Hin.
    { unfold in_cell. rewrite !andb_true_iff, !Z.ltb_lt, !Z.leb_le. lia. }
    destruct (f i b) as [v|] eqn:Ef.
    - apply wp_put_pixel; [by destruct Hg|done..|]. exists (fun y' x' => if (y' =? r * 16 + i) && (x' =? c * 8 + b) then v else p y' x').
      split; [done|]. intros y x. destruct (_ && _) eqn:E at 1.
      + apply andb_true_iff in E as [->%Z.eqb_eq ->%Z.eqb_eq]. rewrite Hin.
        replace (r * 16 + i - r * 16) with i by lia. replace (c * 8 + b - c * 8) with b by lia.
        rewrite Ef, Z.ltb_irrefl, Z.eqb_refl. ztrue (b <? b + 1). done.
      + rewrite Hp, Hne; [done|]. by rewrite E.
    - exists p. split; [done|]. intros y x. rewrite Hp. destruct ((y =? r * 16 + i) && (x =? c * 8 + b)) eqn:E.
      + apply andb_true_iff in E as [->%Z.eqb_eq ->%Z.eqb_eq]. rewrite Hin.
        replace (r * 16 + i - r * 16) with i by lia. replace (c * 8 + b - c * 8) with b by lia.
        rewrite Ef, Z.ltb_irrefl, Z.ltb_irrefl, Z.eqb_refl. simpl. by destruct (_ <? _).
      + rewrite Hne; [done|]. by rewrite E. }
  eapply wp_mono; [apply (wp_forM (fun i => I i 0))|].
  - exists (pix s). split; [by destruct s|]. intros y x. destruct (in_cell r c y x) eqn:E; [|done].
    unfold in_cell in E. apply andb_true_iff in E as [[[E1%Z.leb_le E2]%andb_true_iff E3%Z.leb_le]%andb_true_iff _].
    zfalse (y - r * 16 <? 0). by zfalse ((y - r * 16 =? 0) && (x - c * 8 <? 0)).
  - intros i s' Hi HI. eapply wp_mono; [apply (wp_forM (I i)); [done|]; intros b s'' Hb; apply Hstep; lia|].
    intros u s'' (p & -> & Hp). exists p. split; [done|]. intros y x. rewrite Hp. unfold in_cell.
    destruct (Z.leb_spec (r * 16) y), (Z.ltb_spec y (r * 16 + 16)), (Z.leb_spec (c * 8) x), (Z.ltb_spec x (c * 8 + 8)); try done. cbn [andb].
    assert (((y - r * 16 <? i) || ((y - r * 16 =? i) && (x - c * 8 <? 0 + Z.of_nat 8))) =
            ((y - r * 16 <? i + 1) || ((y - r * 16 =? i + 1) && (x - c * 8 <? 0)))) as ->; [|done].
    repeat zcase; cbn; try done; lia.
  - intros u s' (p & -> & Hp). exists p. split; [done|]. intros y x. rewrite Hp.
    destruct (in_cell r c y x) eqn:E; [|done]. cbn [andb].
    unfold in_cell in E. apply andb_true_iff in E as [[[_ E2%Z.ltb_lt]%andb_true_iff _]%andb_true_iff _].
    by ztrue (y - r * 16 <? 0 + Z.of_nat 16).
Qed.

(** The painted cell, and every other cell. *)
Lemma painted_here s s' r c f : painted s s' r c (fun i b => Some (f i b)) -> paints s' r c f.
Proof.
  intros (p & -> & Hp) i b Hi Hb. simpl. rewrite Hp. unfold in_cell.
  ztrue (r * 16 <=? r * 16 + i). ztrue (r * 16 + i <? r * 16 + 16). ztrue (c * 8 <=? c * 8 + b). ztrue (c * 8 + b <? c * 8 + 8).
  cbn [andb]. replace (r * 16 + i - r * 16) with i by lia. by replace (c * 8 + b - c * 8) with b by lia.
Qed.

Lemma painted_away s s' r c f r' c' g : painted s s' r c f -> (r', c') <> (r, c) -> paints s r' c' g -> paints s' r' c' g.
Proof.
  intros (p & -> & Hp) Hne H i b Hi Hb. simpl. rewrite Hp.
  assert (in_cell r c (r' * 16 + i) (c' * 8 + b) = false) as ->; [|by apply H].
  destruct (in_cell _ _ _ _) eqn:E; [|done]. destruct Hne. unfold in_cell in E.
  rewrite !andb_true_iff, !Z.ltb_lt, !Z.leb_le in E. f_equal; lia.
Qed.

Lemma painted_trans s s1 s2 r c f g h :
  painted s s1 r c f -> painted s1 s2 r c g ->
  (forall i b, 0 <= i < 16 -> 0 <= b < 8 -> h i b = match g i b with Some v => Some v | None => f i b end) ->
  painted s s2 r c h.
Proof.
  intros (p & -> & Hp) (q & -> & Hq) Hh. exists q. split; [done|]. intros y x. rewrite Hq. simpl. rewrite Hp.
  destruct (in_cell r c y x) eqn:E; [|done]. unfold in_cell in E. rewrite !andb_true_iff, !Z.ltb_lt, !Z.leb_le in E.
  rewrite Hh by lia. by destruct (g _ _).
Qed.

Lemma shadow_at s r c : geometry s -> on_screen s r c ->
  exists x, shadow s !! idx s r c = Some x /\ cell_ok x /\ 0 <= r * cols s + c < rows s * cols s.
Proof.
  intros Hg [Hr Hc]. assert (0 <= r * cols s + c < rows s * cols s) as Hi by nia.
  destruct (lookup_lt_is_Some_2 (shadow s) (idx s r c)) as [x Hx].
  { unfold idx. pose proof (g_shadow s Hg). lia. }
  exists x. split; [done|]. split; [|done]. pose proof (g_cells s Hg) as H. rewrite Forall_lookup in H. by eapply H.
Qed.

(** ** The painting routines *)

Lemma blit_spec s r c x : geometry s -> on_screen s r c -> cell_ok x ->
  wp (blit_glyph font8x16 r c (ch x) (color x)) (fun _ s' => painted s s' r c (fun i b => Some (glyph_colour x i b))) s.
Proof using Hfont.
  intros Hg Hs [Hc Hx]. unfold blit_glyph. unfold PALETTE_SIZE in *. zfalse (16 <=? color x).
  apply wp_paint_cell; [done|done|]. intros i b s' Hi Hb Q HQ. wp_step. by apply wp_glyph_bit.
Qed.

Lemma draw_cursor_spec s : geometry s -> on_screen s (row s) (col s) -> exists x,
  shadow s !! idx s (row s) (col s) = Some x /\
  wp (draw_cursor font8x16) (fun _ s' => exists s1,
    painted s s1 (row s) (col s) (fun i b => Some (cursor_colour x i b)) /\ s' = with_cursor (row s) (col s) s1) s.
Proof using Hfont.
  intros Hg Hs. destruct (shadow_at s _ _ Hg Hs) as (x & Hx & [Hc _] & Hi). exists x. split; [done|].
  unfold draw_cursor. wp_step. wp_step. wp_step.
  eapply wp_mono; [apply (wp_paint_cell s (row s) (col s) (fun _ _ => Some 0xFFFFFF)); [done|done|]; intros i b s' _ _ Q HQ; exact HQ|].
  intros u s1 H1. wp_step. apply (wp_get_at _ _ x); [lia|done|]. wp_step.
  destruct (Z.eqb_spec (ch x) SPACE) as [E|E]; cbn [negb].
  - apply wp_ret, wp_mod. exists s1. split; [|by destruct H1 as (p & -> & _)].
    destruct H1 as (p & -> & Hp). exists p. split; [done|]. intros y z. rewrite Hp. unfold cursor_colour. by rewrite E.
  - assert (geometry s1) as Hg1 by (by destruct H1 as (p & -> & _), Hg).
    assert (on_screen s1 (row s) (col s)) as Hs1 by (by destruct H1 as (p & -> & _)).
    eapply wp_mono; [apply (wp_paint_cell s1 (row s) (col s) (fun i b => if glyph_on (ch x) i b then Some 0 else None) _ Hg1 Hs1)|].
    + intros i b s' Hi' Hb Q HQ. wp_step. apply wp_glyph_bit; [done|done|]. cbv beta.
      destruct (glyph_on _ _ _); [exact HQ|by apply wp_ret].
    + intros u2 s2 H2. apply wp_mod. exists s2. split.
      * eapply painted_trans; [exact H1|exact H2|]. intros i b _ _. unfold cursor_colour.
        destruct (Z.eqb_spec (ch x) SPACE); [done|]. cbn [negb andb]. by destruct (glyph_on _ _ _).
      * by destruct H1 as (p & -> & _), H2 as (q & -> & _).
Qed.

(** ** The live screen *)

(** The screen shows [shadow], except perhaps at one cell. *)
Definition live_but (s : fb) (r0 c0 : Z) : Prop := forall r c x,
  on_screen s r c -> (r, c) <> (r0, c0) -> shadow s !! idx s r c = Some x -> shows s r c x.
Definition live_all (s : fb) : Prop := forall r c x,
  on_screen s r c -> shadow s !! idx s r c = Some x -> shows s r c x.

(** The console shows the present: the cursor may or may not be painted. *)
Record live (s : fb) : Prop := mkLive {
  l_geom : geometry s; l_now : view_offset s = 0; l_cursor : on_screen s (cursor_row s) (cursor_col s);
  l_shows : live_but s (cursor_row s) (cursor_col s)
}.

Lemma live_all_but s r c : live_all s -> live_but s r c.
Proof. intros H r' c' x Hs _ Hx. by eapply H. Qed.

(** The cursor is painted at the position. *)
Definition cursor_shown (s : fb) : Prop :=
  cursor_row s = row s /\ cursor_col s = col s /\
  exists x, shadow s !! idx s (row s) (col s) = Some x /\ paints s (row s) (col s) (cursor_colour x).

Lemma idx_inj s r c r2 c2 : on_screen s r c -> on_screen s r2 c2 -> idx s r c = idx s r2 c2 -> r = r2 /\ c = c2.
Proof.
  unfold on_screen, idx. intros [Hr Hc] [Hr2 Hc2] H. assert (r * cols s + c = r2 * cols s + c2) by nia.
  apply (Z.div_mod_unique (cols s)); lia.
Qed.

Lemma del_cursor_spec s : live s ->
  wp (del_cursor font8x16) (fun _ s' => (exists p, s' = with_pix p s) /\ live_all s') s.
Proof using Hfont.
  intros [Hg Hv Hs Hl]. destruct (shadow_at s _ _ Hg Hs) as (x & Hx & Hc & Hi).
  unfold del_cursor. wp_steps. apply (wp_get_at _ _ x); [lia|done|]. wp_step. unfold draw_char_forced.
  destruct Hc as [Hc1 Hc2]. pose proof Hc2 as Hc3. unfold PALETTE_SIZE in Hc3. unfold PALETTE_SIZE at 1. zfalse (16 <=? color x).
  wp_steps. cbn [row col cols with_pos].
  set (s0 := with_pos (cursor_row s) (cursor_col s) s).
  eapply wp_mono; [apply (blit_spec s0); [by destruct Hg|done|done]|].
  intros u s1 H1. assert (exists p, s1 = with_pix p s0) as [p ->] by (destruct H1 as (p & -> & _); eauto).
  unfold set_shadow. wp_steps. cbn [shadow with_pix s0 with_pos].
  pose proof (g_shadow s Hg).
  ztrue ((0 <=? cursor_row s * cols s + cursor_col s) && (cursor_row s * cols s + cursor_col s <? Z.of_nat (length (shadow s)))).
  apply wp_put, wp_mod. unfold idx in Hx. destruct x as [cx kx]. cbn [ch color] in *. rewrite list_insert_id by done.
  split; [exists p; by destruct s|].
  intros r c y Hrc Hy. change (on_screen s r c) in Hrc. change (shadow s !! idx s r c = Some y) in Hy.
  change (shows (with_pix p s0) r c y).
  destruct (decide ((r, c) = (cursor_row s, cursor_col s))) as [[= -> ->]|Hne].
  - assert (y = mkChar cx kx) as -> by (unfold idx in Hy; congruence). by eapply painted_here.
  - eapply painted_away; [exact H1|done|]. exact (Hl r c y Hrc Hne Hy).
Qed.

Lemma draw_cursor_live s : geometry s -> on_screen s (row s) (col s) -> live_all s -> view_offset s = 0 ->
  wp (draw_cursor font8x16) (fun _ s' =>
    (exists p, s' = with_cursor (row s) (col s) (with_pix p s)) /\ live s' /\ cursor_shown s') s.
Proof using Hfont.
  intros Hg Hs Hl Hv. destruct (draw_cursor_spec s Hg Hs) as (x & Hx & H). eapply wp_mono; [exact H|].
  intros u s' (s1 & H1 & ->). assert (exists p, s1 = with_pix p s) as [p ->] by (destruct H1 as (p & -> & _); eauto).
  split; [eauto|]. split.
  - split; [by destruct Hg|done|done|]. intros r c y Hrc Hne Hy. change (paints (with_pix p s) r c (glyph_colour y)).
    eapply painted_away; [exact H1|exact Hne|]. exact (Hl r c y Hrc Hy).
  - split; [done|]. split; [done|]. exists x. split; [done|]. exact (painted_here _ _ _ _ _ H1).
Qed.

Lemma geometry_shadow s sh :
  geometry s -> length sh = length (shadow s) -> Forall cell_ok sh -> geometry (with_shadow sh s).
Proof. intros [] Hl Hc. split; try done. cbn [shadow with_shadow rows cols]. by rewrite Hl. Qed.

Lemma draw_char_spec s c k : live s -> on_screen s (row s) (col s) -> 0 <= c < 256 -> 0 <= k ->
  wp (draw_char font8x16 c k) (fun _ s' => live s' /\ exists p, s' = with_pix p
    (with_shadow (if k <? PALETTE_SIZE then <[idx s (row s) (col s) := mkChar c k]> (shadow s) else shadow s) s)) s.
Proof using Hfont.
  intros Hlv Hs Hc Hk. pose proof Hlv as [Hg Hv Hcu Hl]. destruct (shadow_at s _ _ Hg Hs) as (x & Hx & Hok & Hi).
  unfold draw_char. wp_steps. apply (wp_get_at _ _ x); [lia|done|].
  assert (s = with_pix (pix s) (with_shadow (shadow s) s)) as Hid by (by destruct s).
  destruct ((ch x =? c) && (color x =? k)) eqn:E.
  { apply andb_true_iff in E as [<-%Z.eqb_eq <-%Z.eqb_eq]. apply wp_ret. split; [done|]. exists (pix s).
    destruct (_ <? _); [|done]. rewrite list_insert_id; [done|]. by destruct x. }
  unfold draw_char_forced, PALETTE_SIZE. destruct (Z.leb_spec 16 k).
  { apply wp_ret. split; [done|]. exists (pix s). by zfalse (k <? 16). }
  ztrue (k <? 16). wp_steps.
  eapply wp_mono; [apply (blit_spec s (row s) (col s) (mkChar c k)); [done|done|by split]|].
  intros u s1 H1. assert (exists p, s1 = with_pix p s) as [p ->] by (destruct H1 as (p & -> & _); eauto).
  unfold set_shadow. wp_steps. cbn [shadow with_pix row col cols].
  pose proof (g_shadow s Hg).
  ztrue ((0 <=? row s * cols s + col s) && (row s * cols s + col s <? Z.of_nat (length (shadow s)))).
  apply wp_put. split; [|exists p; done].
  assert (geometry (with_shadow (<[idx s (row s) (col s) := mkChar c k]> (shadow s)) s)) as Hg'.
  { apply geometry_shadow; [done|apply length_insert|]. apply Forall_insert; [apply Hg|by split]. }
  split; [by destruct Hg'|done|done|].
  intros r' c' y Hrc Hne Hy. change (on_screen s r' c') in Hrc.
  change (<[idx s (row s) (col s) := mkChar c k]> (shadow s) !! idx s r' c' = Some y) in Hy.
  change (shows (with_pix p s) r' c' y). destruct (decide ((r', c') = (row s, col s))) as [[= -> ->]|Hne2].
  - rewrite list_lookup_insert_eq in Hy by (by apply lookup_lt_Some in Hx). injection Hy as <-.
    exact (painted_here _ _ _ _ _ H1).
  - rewrite list_lookup_insert_ne in Hy; [|intros Ei; apply (idx_inj s) in Ei; [|done..]; destruct Ei; congruence].
    eapply painted_away; [exact H1|exact Hne2|]. exact (Hl r' c' y Hrc Hne Hy).
Qed.

(** ** Repainting all cells *)

Lemma wp_blit_all s (g : Z -> Z -> FBChar) (body : Z -> Z -> FbM unit) :
  geometry s -> (forall r c, on_screen s r c -> cell_ok (g r c)) ->
  (forall r c s' (Q : unit -> fb -> Prop), on_screen s r c ->
     wp (blit_glyph font8x16 r c (ch (g r c)) (color (g r c))) Q s' -> wp (body r c) Q s') ->
  wp (forM (Z.to_nat (rows s)) 0 (fun r => forM (Z.to_nat (cols s)) 0 (fun c => body r c)))
    (fun _ s' => (exists p, s' = with_pix p s) /\ forall r c, on_screen s r c -> shows s' r c (g r c)) s.
Proof using Hfont.
  intros Hg Hok Hbody. pose proof (g_rows s Hg). pose proof (g_cols s Hg).
  pose (J := fun r c s' => (exists p, s' = with_pix p s) /\ forall r' c', on_screen s r' c' ->
    r' < r \/ (r' = r /\ c' < c) -> shows s' r' c' (g r' c')).
  eapply wp_mono; [apply (wp_forM (fun r => J r 0))|].
  - split; [exists (pix s); by destruct s|]. unfold on_screen. intros; lia.
  - intros r s1 Hr H1. eapply wp_mono; [apply (wp_forM (J r)); [exact H1|]|].
    + intros c s2 Hc [[p ->] H2]. assert (on_screen s r c) as Hs by (unfold on_screen; lia).
      apply Hbody; [done|]. eapply wp_mono; [apply blit_spec; [by destruct Hg|done|by apply Hok]|].
      intros u s3 H3. split; [destruct H3 as (q & -> & _); by exists q|].
      intros r' c' Hs' Hlt. destruct (decide ((r', c') = (r, c))) as [[= -> ->]|Hne]; [exact (painted_here _ _ _ _ _ H3)|].
      eapply painted_away; [exact H3|done|]. apply H2; [done|].
      assert (r' <> r \/ c' <> c) by (destruct (Z.eq_dec r' r), (Z.eq_dec c' c); subst; auto). lia.
    + intros u s2 [Hp H2]. split; [done|]. intros r' c' Hs' Hlt. apply H2; [done|]. unfold on_screen in Hs'. lia.
  - intros u s' [Hp H']. split; [done|]. intros r c Hs. apply H'; [done|]. unfold on_screen in Hs. lia.
Qed.

(** What the console leaves alone when it repaints. *)
Lemma snap_to_live_spec s : geometry s -> on_screen s (row s) (col s) -> view_offset s = 0 ->
  wp (snap_to_live font8x16) (fun _ s' =>
    (exists p, s' = with_cursor (row s) (col s) (with_pix p s)) /\ live s' /\ cursor_shown s') s.
Proof using Hfont.
  intros Hg Hs Hv. unfold snap_to_live. wp_steps.
  eapply wp_mono; [apply (wp_blit_all s (fun r c => default blank (shadow s !! idx s r c))); [done| |]|].
  - intros r c Hrc. by destruct (shadow_at s r c Hg Hrc) as (x & -> & Hx & _).
  - intros r c s' Q Hrc HQ. destruct (shadow_at s r c Hg Hrc) as (x & Hx & _ & Hi). wp_step.
    apply (wp_get_at _ _ x); [lia|done|]. by rewrite Hx in HQ.
  - intros u s' [[p ->] H]. eapply wp_mono; [apply (draw_cursor_live (with_pix p s)); [by destruct Hg|done| |done]|].
    + intros r c x Hrc Hx. specialize (H r c Hrc). by rewrite (Hx : shadow s !! idx s r c = Some x) in H.
    + intros u2 s2 ([q ->] & Hl & Hc). split; [by exists q|done].
Qed.

Lemma leave_view_spec s : geometry s -> on_screen s (row s) (col s) -> (view_offset s = 0 -> live s) ->
  wp (leave_view font8x16) (fun _ s' => live s' /\ on_screen s' (row s') (col s') /\ abs s' = t_look 0 (abs s)) s.
Proof using Hfont.
  intros Hg Hs Hl. unfold leave_view. wp_steps. destruct (Z.eqb_spec (view_offset s) 0) as [E|E]; cbn [negb].
  - apply wp_ret. split; [auto|]. split; [done|]. unfold abs, t_look. cbn. by rewrite E.
  - wp_steps. pose proof (g_count s Hg).
    assert (geometry (with_view 0 s)) as Hg' by (destruct Hg; split; try done; cbn; lia).
    eapply wp_mono; [apply (snap_to_live_spec (with_view 0 s) Hg'); done|].
    intros u s' ([p ->] & Hl' & _). done.
Qed.

(** ** The history *)

Lemma concat_uniform {A} n (ls : list (list A)) : Forall (fun l => length l = n) ls ->
  length (concat ls) = (length ls * n)%nat /\
  forall i j l, ls !! i = Some l -> (j < n)%nat -> concat ls !! (i * n + j)%nat = l !! j.
Proof.
  induction 1 as [|l ls Hl _ [IH1 IH2]]; [done|]. cbn [concat]. split; [rewrite length_app, IH1; simpl; lia|].
  intros [|i] j l' Hi Hj; simpl in Hi.
  - injection Hi as <-. simpl. by rewrite lookup_app_l by lia.
  - rewrite lookup_app_r by lia. rewrite <- (IH2 i j l' Hi Hj). f_equal. simpl. lia.
Qed.

Lemma slot_range s i : geometry s ->
  0 <= (hist_head s - hist_count s + i) mod HISTORY_LINES * cols s /\
  (hist_head s - hist_count s + i) mod HISTORY_LINES * cols s + cols s <= Z.of_nat (length (history s)).
Proof.
  intros Hg. rewrite (g_history s Hg). pose proof (g_cols s Hg).
  pose proof (Z.mod_pos_bound (hist_head s - hist_count s + i) HISTORY_LINES eq_refl). unfold HISTORY_LINES in *.
  set (m := (hist_head s - hist_count s + i) mod 256) in *. nia.
Qed.

Lemma length_past_line s i : geometry s -> length (past_line s i) = Z.to_nat (cols s).
Proof. intros Hg. unfold past_line. pose proof (slot_range s i Hg). pose proof (g_cols s Hg). apply length_sub. lia. Qed.

Lemma past_uniform s : geometry s -> Forall (fun l => length l = Z.to_nat (cols s)) (past_line s <$> seqZ 0 (hist_count s)).
Proof. intros Hg. apply Forall_fmap, Forall_true. intros i. by apply length_past_line. Qed.

Lemma length_past s : geometry s -> Z.of_nat (length (past s)) = hist_count s * cols s.
Proof.
  intros Hg. unfold past. rewrite (proj1 (concat_uniform _ _ (past_uniform s Hg))), length_fmap, length_seqZ.
  pose proof (g_count s Hg). pose proof (g_cols s Hg). nia.
Qed.

Lemma lookup_past s l c : geometry s -> 0 <= l < hist_count s -> 0 <= c < cols s ->
  past s !! Z.to_nat (l * cols s + c) =
  history s !! Z.to_nat ((hist_head s - hist_count s + l) mod HISTORY_LINES * cols s + c).
Proof.
  intros Hg Hl Hc. unfold past.
  replace (Z.to_nat (l * cols s + c)) with (Z.to_nat l * Z.to_nat (cols s) + Z.to_nat c)%nat by nia.
  rewrite (proj2 (concat_uniform _ _ (past_uniform s Hg)) _ _ (past_line s l)); [| |lia].
  - unfold past_line. rewrite lookup_sub by lia. pose proof (slot_range s l Hg). f_equal. lia.
  - rewrite list_lookup_fmap, lookup_seqZ_lt by lia. simpl. do 2 f_equal. lia.
Qed.

(** What is visible, in the terms of the arrays. *)
Lemma visible_spec s r c : geometry s -> on_screen s r c ->
  let logical := hist_count s + r - view_offset s in
  exists x, t_visible (abs s) r c = Some x /\ cell_ok x /\
    if logical <? hist_count s
    then history s !! Z.to_nat ((hist_head s - hist_count s + logical) mod HISTORY_LINES * cols s + c) = Some x
    else shadow s !! idx s (logical - hist_count s) c = Some x.
Proof.
  intros Hg [Hr Hc] logical. pose proof (length_past s Hg) as Hlen. pose proof (g_view s Hg). pose proof (g_cols s Hg).
  assert (0 <= logical) by lia. unfold t_visible. cbn [abs t_past t_screen t_view t_cols]. rewrite Hlen.
  replace (hist_count s * cols s + (r - view_offset s) * cols s + c) with (logical * cols s + c) by (unfold logical; lia).
  destruct (Z.ltb_spec logical (hist_count s)) as [Hl|Hl].
  - assert (Z.to_nat (logical * cols s + c) < length (past s))%nat as Hin by nia. rewrite lookup_app_l by done.
    destruct (lookup_lt_is_Some_2 _ _ Hin) as [x Hx]. exists x. split; [done|].
    pose proof (g_past s Hg) as HF. rewrite Forall_lookup in HF. split; [by eapply HF|]. by rewrite <- lookup_past.
  - assert (on_screen s (logical - hist_count s) c) as Hs by (unfold on_screen, logical in *; lia).
    destruct (shadow_at s _ _ Hg Hs) as (x & Hx & Hok & Hi). exists x.
    split; [|done]. rewrite lookup_app_r by nia. rewrite <- Hx. f_equal. unfold idx. nia.
Qed.

Lemma view_repaint_spec s : geometry s ->
  wp (view_repaint font8x16) (fun _ s' => (exists p, s' = with_pix p s) /\
    forall r c, on_screen s r c -> exists x, t_visible (abs s) r c = Some x /\ shows s' r c x) s.
Proof using Hfont.
  intros Hg. unfold view_repaint. wp_steps.
  eapply wp_mono; [apply (wp_blit_all s (fun r c => default blank (t_visible (abs s) r c))
      (fun r c => let* x := if hist_count s + r - view_offset s <? hist_count s then _ else _ in _)); [done| |]|].
  - intros r c Hrc. by destruct (visible_spec s r c Hg Hrc) as (x & -> & Hx & _).
  - intros r c s' Q Hrc HQ. destruct (visible_spec s r c Hg Hrc) as (x & Hv & _ & Hx). rewrite Hv in HQ. wp_step.
    pose proof (g_count s Hg). pose proof (g_head s Hg). pose proof (g_view s Hg). pose proof (g_cols s Hg). pose proof Hrc as [Hr Hc].
    destruct (Z.ltb_spec (hist_count s + r - view_offset s) (hist_count s)).
    + set (l := hist_count s + r - view_offset s) in *. unfold HISTORY_LINES in *.
      rewrite Z.rem_mod_nonneg by lia. replace (hist_head s - hist_count s + l + 256) with (hist_head s - hist_count s + l + 1 * 256) by lia.
      rewrite Z_mod_plus_full. pose proof (Z.mod_pos_bound (hist_head s - hist_count s + l) 256 eq_refl).
      apply (wp_get_at _ _ x); [nia|done|done].
    + apply (wp_get_at _ _ x); [nia|exact Hx|done].
  - intros u s' [Hp H]. split; [done|]. intros r c Hrc. destruct (visible_spec s r c Hg Hrc) as (x & Hv & _).
    exists x. split; [done|]. specialize (H r c Hrc). by rewrite Hv in H.
Qed.

(** A line pushed into the ring: the oldest one goes when 256 are kept. *)
Definition pushed (s : fb) : fb :=
  with_history (splice (Z.to_nat (hist_head s * cols s)) (take (Z.to_nat (cols s)) (shadow s)) (history s))
    ((hist_head s + 1) mod HISTORY_LINES)
    (if hist_count s <? HISTORY_LINES then hist_count s + 1 else hist_count s) s.

Lemma push_fits s : geometry s ->
  length (take (Z.to_nat (cols s)) (shadow s)) = Z.to_nat (cols s) /\
  0 <= hist_head s * cols s /\ hist_head s * cols s + cols s <= Z.of_nat (length (history s)) /\
  cols s <= Z.of_nat (length (shadow s)).
Proof.
  intros Hg. pose proof (g_shadow s Hg). pose proof (g_rows s Hg). pose proof (g_cols s Hg). pose proof (g_history s Hg).
  pose proof (g_head s Hg). unfold HISTORY_LINES in *. rewrite length_take. split; [nia|]. split; [nia|]. split; nia.
Qed.

Lemma past_line_pushed s i : geometry s ->
  past_line (pushed s) i =
  let d := if hist_count s <? HISTORY_LINES then 0 else 1 in
  if i + d =? hist_count s then take (Z.to_nat (cols s)) (shadow s)
  else if (0 <=? i) && (i + d <? hist_count s) then past_line s (i + d) else past_line (pushed s) i.
Proof.
  intros Hg. cbv zeta. set (d := if hist_count s <? HISTORY_LINES then 0 else 1). destruct (push_fits s Hg) as (Hl & H0 & H1 & _). pose proof (g_count s Hg). pose proof (g_head s Hg). pose proof (g_cols s Hg).
  unfold past_line, pushed. cbn [hist_head hist_count cols history with_history].
  assert (((hist_head s + 1) mod HISTORY_LINES - (if hist_count s <? HISTORY_LINES then hist_count s + 1 else hist_count s) + i)
            mod HISTORY_LINES = (hist_head s - hist_count s + (i + d)) mod HISTORY_LINES) as E.
  { rewrite <- Zplus_mod_idemp_l, Zminus_mod_idemp_l, Zplus_mod_idemp_l. f_equal. unfold d. destruct (_ <? _); lia. }
  destruct (Z.eqb_spec (i + d) (hist_count s)) as [Ed|Hd].
  - rewrite E, Ed. replace (hist_head s - hist_count s + hist_count s) with (hist_head s) by lia.
    rewrite Z.mod_small by done. set (w := take (Z.to_nat (cols s)) (shadow s)) in *. rewrite <- Hl. apply sub_splice_same. lia.
  - destruct (_ && _) eqn:Eb; [|done]. rewrite E. apply andb_true_iff in Eb as [Hi%Z.leb_le Hid%Z.ltb_lt].
    apply sub_splice_disj; [lia|]. rewrite Hl.
    assert ((hist_head s - hist_count s + (i + d)) mod HISTORY_LINES <> hist_head s) as Hne.
    { assert (1 <= hist_count s - (i + d) <= 255) as Ht.
      { unfold HISTORY_LINES in *. unfold d in *. destruct (Z.ltb_spec (hist_count s) 256); lia. }
      unfold HISTORY_LINES in *. clear - H2 Ht. zlia. }
    pose proof (Z.mod_pos_bound (hist_head s - hist_count s + (i + d)) HISTORY_LINES eq_refl).
    set (m := (hist_head s - hist_count s + (i + d)) mod HISTORY_LINES) in *.
    assert (m < hist_head s \/ hist_head s < m) as [|] by lia; [left|right]; nia.
Qed.

Lemma past_pushed s : geometry s ->
  past (pushed s) = last_n (256 * Z.to_nat (cols s)) (past s ++ take (Z.to_nat (cols s)) (shadow s)).
Proof.
  intros Hg. destruct (push_fits s Hg) as (Hl & _). pose proof (g_count s Hg). pose proof (length_past s Hg) as Hp. pose proof (g_cols s Hg).
  unfold last_n. rewrite length_app, Hl. unfold past at 1. cbn [hist_count pushed with_history].
  destruct (Z.ltb_spec (hist_count s) HISTORY_LINES) as [Hc|Hc]; unfold HISTORY_LINES in *.
  - replace (length (past s) + Z.to_nat (cols s) - 256 * Z.to_nat (cols s))%nat with 0%nat by nia. rewrite drop_0.
    rewrite seqZ_app by lia. rewrite fmap_app, concat_app. f_equal.
    + unfold past. f_equal. apply list_fmap_ext. intros k i Hi. apply lookup_seqZ in Hi as [-> Hi].
      rewrite past_line_pushed by done. unfold HISTORY_LINES. ztrue (hist_count s <? 256). cbv zeta.
      zfalse (0 + Z.of_nat k + 0 =? hist_count s). ztrue ((0 <=? 0 + Z.of_nat k) && (0 + Z.of_nat k + 0 <? hist_count s)). f_equal. lia.
    + rewrite (seqZ_cons _ 1) by lia. cbn [fmap list_fmap concat]. rewrite app_nil_r, past_line_pushed by done.
      unfold HISTORY_LINES. ztrue (hist_count s <? 256). cbv zeta. by ztrue (0 + hist_count s + 0 =? hist_count s).
  - assert (hist_count s = 256) as Hc' by lia.
    replace (length (past s) + Z.to_nat (cols s) - 256 * Z.to_nat (cols s))%nat with (Z.to_nat (cols s)) by nia.
    assert (seqZ 0 256 = seqZ 0 255 ++ seqZ (0 + 255) 1) as Hseq by (rewrite <- seqZ_app by lia; done).
    unfold past. rewrite Hc'. rewrite Hseq at 1. rewrite (seqZ_cons 0 256) by lia. cbn [fmap list_fmap concat]. rewrite <- app_assoc.
    rewrite <- (length_past_line s 0 Hg) at 1. rewrite drop_app_length.
    rewrite fmap_app, concat_app. f_equal.
    + f_equal. change (Z.pred 256) with 255. change (Z.succ 0) with (1 + 0). rewrite <- (fmap_add_seqZ 1 0), <- list_fmap_compose.
      apply list_fmap_ext. intros k i Hi. apply lookup_seqZ in Hi as [-> Hi].
      rewrite past_line_pushed by done. unfold HISTORY_LINES. zfalse (hist_count s <? 256). cbv zeta.
      zfalse (0 + Z.of_nat k + 1 =? hist_count s). ztrue ((0 <=? 0 + Z.of_nat k) && (0 + Z.of_nat k + 1 <? hist_count s)).
      simpl. f_equal. lia.
    + rewrite (seqZ_cons _ 1) by lia. cbn [fmap list_fmap concat]. rewrite app_nil_r, past_line_pushed by done.
      unfold HISTORY_LINES. zfalse (hist_count s <? 256). cbv zeta. by ztrue (0 + 255 + 1 =? hist_count s).
Qed.

Lemma geometry_pushed s : geometry s -> geometry (pushed s).
Proof.
  intros Hg. pose proof (past_pushed s Hg) as Hp. destruct (push_fits s Hg) as (Hl & ? & ? & ?). destruct Hg.
  split; try done; cbn [hist_head hist_count view_offset history cols pushed with_history].
  - rewrite length_splice; [done|lia].
  - unfold HISTORY_LINES. apply Z.mod_pos_bound. lia.
  - destruct (Z.ltb_spec (hist_count s) HISTORY_LINES); lia.
  - destruct (_ <? _); lia.
  - rewrite Hp. unfold last_n. apply Forall_drop, Forall_app. split; [done|by apply Forall_take].
Qed.

(** ** Scrolling *)

Lemma wp_set_shadow s i x (Q : unit -> fb -> Prop) : 0 <= i < Z.of_nat (length (shadow s)) ->
  Q tt (with_shadow (<[Z.to_nat i := x]> (shadow s)) s) -> wp (set_shadow i x) Q s.
Proof.
  intros Hi HQ. unfold set_shadow. wp_steps. ztrue ((0 <=? i) && (i <? Z.of_nat (length (shadow s)))). by apply wp_put.
Qed.

(** The shadow while its first [n] cells have been overwritten. *)
Definition shifting (s : fb) (f : nat -> option FBChar) (n : Z) (s' : fb) : Prop :=
  exists sh, s' = with_shadow sh s /\ length sh = length (shadow s) /\
    forall k, sh !! k = if Z.of_nat k <? n then f k else shadow s !! k.

Lemma shifting_step s f n s' x (Q : unit -> fb -> Prop) :
  shifting s f n s' -> 0 <= n < Z.of_nat (length (shadow s)) -> f (Z.to_nat n) = Some x ->
  (forall s'', shifting s f (n + 1) s'' -> Q tt s'') -> wp (set_shadow n x) Q s'.
Proof.
  intros (sh & -> & Hl & Hk) Hn Hf HQ. apply wp_set_shadow; [cbn; lia|]. apply HQ. cbn [shadow with_shadow].
  exists (<[Z.to_nat n := x]> sh). split; [done|]. rewrite length_insert. split; [done|]. intros k.
  destruct (decide (k = Z.to_nat n)) as [->|Hne].
  - rewrite list_lookup_insert_eq by lia. by ztrue (Z.of_nat (Z.to_nat n) <? n + 1).
  - rewrite list_lookup_insert_ne by done. rewrite Hk. destruct (Z.ltb_spec (Z.of_nat k) n).
    + by ztrue (Z.of_nat k <? n + 1).
    + by zfalse (Z.of_nat k <? n + 1).
Qed.

Definition shift_body (r c : Z) : FbM unit :=
  let* s := getM in
  let* curr := get_at (shadow s) (r * cols s + c) in
  set_shadow ((r - 1) * cols s + c) curr.

Definition shifted (s : fb) : list FBChar :=
  drop (Z.to_nat (cols s)) (shadow s) ++ replicate (Z.to_nat (cols s)) blank.

(** The two loops of [scroll] over the shadow. *)
Lemma shift_loops s : geometry s ->
  wp (forM (Z.to_nat (rows s - 1)) 1 (fun r => forM (Z.to_nat (cols s)) 0 (fun c => shift_body r c)) ;;;
      forM (Z.to_nat (cols s)) 0 (fun c => set_shadow ((rows s - 1) * cols s + c) blank))
    (fun _ s' => s' = with_shadow (shifted s) s) s.
Proof.
  intros Hg. pose proof (g_shadow s Hg) as Hsh. pose proof (g_rows s Hg). pose proof (g_cols s Hg).
  set (f := fun k => shifted s !! k).
  assert (length (shifted s) = length (shadow s)) as Hls.
  { unfold shifted. rewrite length_app, length_drop, length_replicate. nia. }
  assert (forall k, 0 <= k < (rows s - 1) * cols s -> f (Z.to_nat k) = shadow s !! Z.to_nat (k + cols s)) as Hf1.
  { intros k Hk. unfold f, shifted. rewrite lookup_app_l by (rewrite length_drop; nia). rewrite lookup_drop. f_equal. lia. }
  assert (forall c, 0 <= c < cols s -> f (Z.to_nat ((rows s - 1) * cols s + c)) = Some blank) as Hf2.
  { intros c Hc. unfold f, shifted. rewrite lookup_app_r by (rewrite length_drop; nia). apply lookup_replicate.
    rewrite length_drop. split; [done|nia]. }
  wp_step. eapply wp_mono; [apply (wp_forM (fun r => shifting s f ((r - 1) * cols s)))|].
  - exists (shadow s). split; [by destruct s|]. split; [done|]. intros k. by zfalse (Z.of_nat k <? (1 - 1) * cols s).
  - intros r s1 Hr H1. eapply wp_mono; [apply (wp_forM (fun c => shifting s f ((r - 1) * cols s + c)))|].
    + by rewrite Z.add_0_r.
    + intros c s2 Hc H2. pose proof H2 as (sh & -> & Hl & Hk). unfold shift_body. wp_steps. cbn [shadow with_shadow cols].
      assert (0 <= (r - 1) * cols s + c < (rows s - 1) * cols s) as Hi by nia.
      destruct (lookup_lt_is_Some_2 sh (Z.to_nat (r * cols s + c))) as [x Hx]; [nia|].
      apply (wp_get_at _ _ x); [nia|done|]. eapply shifting_step; [exact H2|nia| |].
      * rewrite Hf1 by done. rewrite Hk in Hx. rewrite (proj2 (Z.ltb_ge _ _)) in Hx by nia.
        rewrite <- Hx. f_equal. lia.
      * intros s3. by replace ((r - 1) * cols s + (c + 1)) with ((r - 1) * cols s + c + 1) by lia.
    + intros u s2. replace ((r - 1) * cols s + (0 + Z.of_nat (Z.to_nat (cols s)))) with ((r + 1 - 1) * cols s) by lia. done.
  - intros u s1 H1. replace (1 + Z.of_nat (Z.to_nat (rows s - 1)) - 1) with (rows s - 1) in H1 by lia.
    eapply wp_mono; [apply (wp_forM (fun c => shifting s f ((rows s - 1) * cols s + c)))|].
    + by rewrite Z.add_0_r.
    + intros c s2 Hc H2. eapply shifting_step; [exact H2|nia|apply Hf2; lia|].
      intros s3. by replace ((rows s - 1) * cols s + (c + 1)) with ((rows s - 1) * cols s + c + 1) by lia.
    + intros u2 s2 (sh & -> & Hl & Hk). f_equal. apply list_eq. intros k. rewrite Hk. unfold f.
      destruct (Z.ltb_spec (Z.of_nat k) ((rows s - 1) * cols s + (0 + Z.of_nat (Z.to_nat (cols s))))); [done|].
      rewrite !lookup_ge_None_2; [done|nia|nia].
Qed.

Lemma shifted_ok s : geometry s -> length (shifted s) = length (shadow s) /\ Forall cell_ok (shifted s).
Proof.
  intros Hg. pose proof (g_shadow s Hg). pose proof (g_rows s Hg). pose proof (g_cols s Hg). unfold shifted. split.
  - rewrite length_app, length_drop, length_replicate. nia.
  - apply Forall_app. split; [apply Forall_drop, Hg|]. apply Forall_replicate. unfold cell_ok, PALETTE_SIZE. simpl. unfold SPACE. lia.
Qed.

Lemma lookup_shifted s r c : geometry s -> on_screen s r c ->
  shifted s !! idx s r c = if r =? rows s - 1 then Some blank else shadow s !! idx s (r + 1) c.
Proof.
  intros Hg [Hr Hc]. pose proof (g_shadow s Hg). pose proof (g_rows s Hg). pose proof (g_cols s Hg). unfold shifted, idx.
  destruct (Z.eqb_spec r (rows s - 1)) as [->|Hne].
  - rewrite lookup_app_r by (rewrite length_drop; nia). apply lookup_replicate. rewrite length_drop. split; [done|nia].
  - rewrite lookup_app_l by (rewrite length_drop; nia). rewrite lookup_drop. f_equal. nia.
Qed.

Lemma wp_unbind {A B} (m : FbM A) (k : A -> FbM B) Q s : wp (bindM m k) Q s -> wp m (fun a => wp (k a) Q) s.
Proof. unfold wp, bindM. by destruct (m s). Qed.

Lemma wp_move_lines s dst src n (Q : unit -> fb -> Prop) :
  0 <= n -> 0 <= dst -> 0 <= src -> dst + n <= height s -> src + n <= height s ->
  Q tt (with_pix (fun y x => if (dst <=? y) && (y <? dst + n) then pix s (src + (y - dst)) x else pix s y x) s) ->
  wp (move_lines dst src n) Q s.
Proof.
  intros ? ? ? ? ? HQ. unfold move_lines. wp_steps.
  ztrue ((0 <=? n) && (0 <=? dst) && (0 <=? src) && (dst + n <=? height s) && (src + n <=? height s)). by apply wp_put.
Qed.
Lemma wp_clear_lines s dst n (Q : unit -> fb -> Prop) : 0 <= n -> 0 <= dst -> dst + n <= height s ->
  Q tt (with_pix (fun y x => if (dst <=? y) && (y <? dst + n) then 0 else pix s y x) s) ->
  wp (clear_lines dst n) Q s.
Proof.
  intros ? ? ? HQ. unfold clear_lines. wp_steps.
  ztrue ((0 <=? n) && (0 <=? dst) && (dst + n <=? height s)). by apply wp_put.
Qed.

(** Moving the pixels up by one line keeps the screen in step with the shadow. *)
Lemma live_shifted s :
  geometry s -> live_all s ->
  live_all (with_pix (fun y x =>
      if ((rows s - 1) * GLYPH_HEIGHT <=? y) && (y <? (rows s - 1) * GLYPH_HEIGHT + GLYPH_HEIGHT) then 0
      else if (0 <=? y) && (y <? 0 + (rows s - 1) * GLYPH_HEIGHT) then pix s (GLYPH_HEIGHT + (y - 0)) x else pix s y x)
    (with_shadow (shifted s) s)).
Proof.
  intros Hg Hl r c x Hrc Hx i b Hi Hb. change (on_screen s r c) in Hrc. change (shifted s !! idx s r c = Some x) in Hx.
  rewrite lookup_shifted in Hx by done. destruct Hrc as [Hr Hc]. unfold GLYPH_HEIGHT. cbn [pix with_pix].
  destruct (Z.eqb_spec r (rows s - 1)) as [->|Hne].
  - ztrue (((rows s - 1) * 16 <=? (rows s - 1) * 16 + i) && ((rows s - 1) * 16 + i <? (rows s - 1) * 16 + 16)).
    injection Hx as <-. unfold glyph_colour. by destruct (glyph_on _ _ _).
  - zfalse (((rows s - 1) * 16 <=? r * 16 + i) && (r * 16 + i <? (rows s - 1) * 16 + 16)).
    ztrue ((0 <=? r * 16 + i) && (r * 16 + i <? 0 + (rows s - 1) * 16)).
    replace (16 + (r * 16 + i - 0)) with ((r + 1) * 16 + i) by lia.
    apply Hl; [unfold on_screen; lia|done|done|done].
Qed.

(** A position reached with the cursor or without it. *)
Definition settled (s : fb) (t : term) : Prop := live s /\ on_screen s (row s) (col s) /\ abs s = t.

Lemma scroll_spec s : live s ->
  wp (scroll font8x16) (fun _ s' => settled s' (t_scroll (abs s)) /\ cursor_shown s') s.
Proof using Hfont.
  intros Hlv. pose proof Hlv as [Hg Hv Hcu _]. unfold scroll. wp_step. eapply wp_mono; [by apply del_cursor_spec|].
  intros _ s1 [[p ->] Hl1]. set (s1 := with_pix p s) in *. assert (geometry s1) as Hg1 by (by destruct Hg).
  destruct (push_fits s1 Hg1) as (Hlen & H1 & H2 & H3). pose proof (g_cols s1 Hg1). pose proof (g_rows s1 Hg1).
  unfold save_line. wp_steps.
  ztrue ((0 <=? cols s1) && (cols s1 <=? Z.of_nat (length (shadow s1))) && (0 <=? hist_head s1 * cols s1) &&
         (hist_head s1 * cols s1 + cols s1 <=? Z.of_nat (length (history s1)))).
  wp_steps. match goal with |- wp _ _ ?x => change x with (pushed s1) end.
  assert (geometry (pushed s1)) as Hg2 by (by apply geometry_pushed).
  eapply wp_mono; [exact (wp_unbind _ _ _ _ (shift_loops (pushed s1) Hg2))|].
  intros u0 s1' Hs1'. wp_step. eapply wp_mono; [exact Hs1'|]. intros _ s2 ->. set (s2 := with_shadow (shifted (pushed s1)) (pushed s1)).
  destruct (shifted_ok (pushed s1) Hg2) as [Hsl Hsc].
  assert (geometry s2) as Hg3 by (by apply geometry_shadow).
  pose proof (g_height s2 Hg3) as Hh. change (rows (pushed s1)) with (rows s1) in *. change (rows s2) with (rows s1) in *.
  wp_steps. unfold GLYPH_HEIGHT.
  assert (rows s1 * 16 <= height s2) by zlia.
  apply wp_move_lines; [lia|lia|lia|cbn; cbn in *; lia|cbn; cbn in *; lia|]. cbv beta. wp_steps.
  apply wp_clear_lines; [lia|lia|cbn; cbn in *; lia|]. cbv beta.
  match goal with |- wp _ _ ?x => set (s4 := x) end.
  assert (geometry s4) as Hg4 by (by destruct Hg3).
  assert (live_all s4) as Hl4.
  { assert (live_all (pushed s1)) as Hlp by exact Hl1. pose proof (live_shifted (pushed s1) Hg2 Hlp) as HL. exact HL. }
  assert (on_screen s4 (row s4) (col s4)) as Ho4 by (unfold on_screen; cbn in *; lia).
  eapply wp_mono; [by apply (draw_cursor_live s4)|]. intros u s5 ([q ->] & Hl5 & Hc5). split; [|done].
  split; [done|]. split; [done|]. unfold abs, t_scroll. cbn [t_cols t_rows t_past t_screen t_view t_scrollable].
  change (past (with_cursor (row s4) (col s4) (with_pix q s4))) with (past (pushed s1)).
  rewrite (past_pushed s1 Hg1). reflexivity.
Qed.

(** ** Characters *)

Lemma live_pos r c s : live s -> live (with_pos r c s).
Proof. by intros [[] ? ? ?]. Qed.

Lemma upd_row_spec s : live s -> on_screen s (row s) (col s) ->
  wp (upd_row font8x16) (fun _ s' => settled s' (t_newrow (abs s))) s.
Proof using Hfont.
  intros Hl Hs. unfold upd_row. wp_steps. cbn [row rows with_pos].
  unfold t_newrow. cbn [t_row t_rows abs]. destruct (Z.ltb_spec (row s + 1) (rows s)).
  - apply wp_ret. split; [by apply live_pos|]. split; [|done]. unfold on_screen in *. cbn. lia.
  - eapply wp_mono; [by apply scroll_spec, live_pos|]. intros u s' [H' _]. exact H'.
Qed.

Lemma upd_col_spec s : live s -> on_screen s (row s) (col s) ->
  wp (upd_col font8x16) (fun _ s' => settled s' (t_advance (abs s))) s.
Proof using Hfont.
  intros Hl Hs. unfold upd_col. wp_steps. cbn [col cols with_pos].
  unfold t_advance. cbn [t_col t_cols abs]. destruct (Z.ltb_spec (col s + 1) (cols s)).
  - apply wp_ret. split; [by apply live_pos|]. split; [|done]. unfold on_screen in *. cbn. lia.
  - wp_steps. eapply wp_mono; [apply (upd_row_spec (with_pos (row s) 0 s)); [by apply live_pos|]|done].
    unfold on_screen in *. cbn. lia.
Qed.

Lemma put_spec s c k : live s -> on_screen s (row s) (col s) -> 0 <= c < 256 -> 0 <= k ->
  wp (draw_char font8x16 c k) (fun _ s' => settled s' (t_put (mkChar c k) (abs s))) s.
Proof using Hfont.
  intros Hl Hs Hc Hk. eapply wp_mono; [by apply draw_char_spec|]. intros u s' [Hl' [p ->]]. split; [done|]. split; [done|].
  unfold t_put. cbn [color]. by destruct (k <? PALETTE_SIZE).
Qed.

(** The part [fb_draw_char_upd] and [fb_draw_char_no_upd] share. *)
Definition draw_body (c k : Z) : FbM unit :=
  if negb (c =? 8) && negb (c =? 10) then draw_char font8x16 c k ;;; upd_col font8x16
  else if negb (c =? 10) then
    let* s := getM in
    if 0 <? col s then modM (fun s => with_pos (row s) (col s - 1) s) ;;; draw_char font8x16 SPACE 0 else retM tt
  else upd_row font8x16 ;;; modM (fun s => with_pos (row s) 0 s).

Lemma draw_body_spec s t c k : settled s (t_look 0 t) -> 0 <= c < 256 -> 0 <= k ->
  wp (draw_body c k) (fun _ s' => settled s' (t_char c k t)) s.
Proof using Hfont.
  intros (Hl & Hs & Ha) Hc Hk. unfold draw_body, t_char. rewrite <- Ha.
  destruct (Z.eqb_spec c 8) as [->|H8]; cbn [negb andb].
  - destruct (Z.eqb_spec 8 10); [lia|]. cbn [negb]. wp_steps. cbn [t_col abs]. destruct (Z.ltb_spec 0 (col s)).
    + wp_steps. eapply wp_mono; [apply (put_spec (with_pos (row s) (col s - 1) s) SPACE 0); [by apply live_pos| |unfold SPACE; lia|lia]|].
      * unfold on_screen in *. cbn. lia.
      * intros u s' H'. exact H'.
    + by apply wp_ret.
  - destruct (Z.eqb_spec c 10) as [->|H10]; cbn [negb].
    + wp_step. eapply wp_mono; [by apply upd_row_spec|]. intros u s' (Hl' & Hs' & <-). apply wp_mod.
      split; [by apply live_pos|]. split; [|done]. unfold on_screen in *. cbn. pose proof (g_cols _ (l_geom _ Hl')). lia.
    + wp_step. eapply wp_mono; [by apply put_spec|]. intros u s' (Hl' & Hs' & <-).
      eapply wp_mono; [by apply upd_col_spec|]. done.
Qed.

Lemma redraw_cursor s t : settled s t ->
  wp (del_cursor font8x16 ;;; draw_cursor font8x16) (fun _ s' => settled s' t /\ cursor_shown s') s.
Proof using Hfont.
  intros (Hl & Hs & <-). wp_step. eapply wp_mono; [by apply del_cursor_spec|]. intros u s1 [[p ->] Hl1].
  destruct Hl as [Hg Hv Hc _].
  eapply wp_mono; [apply (draw_cursor_live (with_pix p s)); [by destruct Hg|done|done|done]|].
  intros u2 s2 ([q ->] & Hl2 & Hc2). done.
Qed.

(** ** What the user sees *)

(** Every cell shows what is visible there, but for the cell of the cursor
    while the console shows the present. *)
Definition displays (s : fb) : Prop := forall r c,
  on_screen s r c -> (view_offset s = 0 -> (r, c) <> (cursor_row s, cursor_col s)) ->
  exists x, t_visible (abs s) r c = Some x /\ shows s r c x.

Lemma visible_now s r c : geometry s -> on_screen s r c -> view_offset s = 0 ->
  t_visible (abs s) r c = shadow s !! idx s r c.
Proof.
  intros Hg Hs Hv. destruct (visible_spec s r c Hg Hs) as (x & -> & _ & Hx). rewrite Hv in Hx. destruct Hs as [Hr _].
  rewrite (proj2 (Z.ltb_ge _ _)) in Hx by lia. symmetry. by replace (hist_count s + r - 0 - hist_count s) with r in Hx by lia.
Qed.

Lemma displays_live s : fb_wf s -> displays s -> view_offset s = 0 -> live s.
Proof.
  intros [Hg Hs Hc] Hd Hv. split; [done..|]. intros r c x Hrc Hne Hx. destruct (Hd r c Hrc (fun _ => Hne)) as (y & Hy & Hsh).
  rewrite visible_now in Hy by done. assert (x = y) as -> by congruence. done.
Qed.

Lemma settled_displays s t : settled s t -> fb_wf s /\ displays s /\ abs s = t.
Proof.
  intros ([Hg Hv Hc Hl] & Hs & Ha). split; [done|]. split; [|done]. intros r c Hrc Hne.
  destruct (shadow_at s r c Hg Hrc) as (x & Hx & _). exists x. rewrite visible_now by done. split; [done|].
  exact (Hl r c x Hrc (Hne Hv) Hx).
Qed.

Lemma enter_live s : fb_wf s -> displays s ->
  wp (leave_view font8x16) (fun _ s' => settled s' (t_look 0 (abs s))) s.
Proof using Hfont.
  intros Hw Hd. apply leave_view_spec; [apply Hw|apply Hw|]. by apply displays_live.
Qed.

Lemma draw_char_no_upd_spec s c k : fb_wf s -> displays s -> 0 <= c < 256 -> 0 <= k ->
  wp (fb_draw_char_no_upd font8x16 c k) (fun _ s' => settled s' (t_char c k (abs s))) s.
Proof using Hfont.
  intros Hw Hd Hc Hk. unfold fb_draw_char_no_upd. wp_step. eapply wp_mono; [by apply enter_live|].
  intros u s1 H1. exact (draw_body_spec s1 (abs s) c k H1 Hc Hk).
Qed.

Lemma draw_char_upd_spec s c k : fb_wf s -> displays s -> 0 <= c < 256 -> 0 <= k ->
  wp (fb_draw_char_upd font8x16 c k) (fun _ s' => settled s' (t_char c k (abs s)) /\ cursor_shown s') s.
Proof using Hfont.
  intros Hw Hd Hc Hk. unfold fb_draw_char_upd. wp_step. eapply wp_mono; [by apply enter_live|].
  intros u s1 H1. wp_step. eapply wp_mono; [exact (draw_body_spec s1 (abs s) c k H1 Hc Hk)|].
  intros u2 s2 H2. by apply redraw_cursor.
Qed.

Lemma set_cursor_no_upd_spec s r c : fb_wf s -> displays s -> 0 <= r -> 0 <= c ->
  wp (fb_set_cursor_no_upd font8x16 r c) (fun ok s' =>
    settled s' (t_set_cursor r c (abs s)) /\ ok = (r <? rows s) && (c <? cols s)) s.
Proof using Hfont.
  intros Hw Hd Hr Hc. unfold fb_set_cursor_no_upd, t_set_cursor. wp_step. eapply wp_mono; [by apply enter_live|].
  intros u s1 (Hl & Hs & Ha). rewrite <- Ha. wp_steps. cbn [t_rows t_cols abs].
  assert (rows s1 = rows s /\ cols s1 = cols s) as [E1 E2] by (split; [exact (f_equal t_rows Ha)|exact (f_equal t_cols Ha)]).
  rewrite E1, E2. destruct (Z.leb_spec (rows s) r); cbn [orb].
  { apply wp_ret. by zfalse (r <? rows s). }
  ztrue (r <? rows s). destruct (Z.leb_spec (cols s) c); cbn [andb].
  { apply wp_ret. by zfalse (c <? cols s). }
  ztrue (c <? cols s). wp_steps. split; [|done]. split; [by apply live_pos|]. split; [|done]. unfold on_screen. cbn. lia.
Qed.

Lemma set_cursor_spec s r c : fb_wf s -> displays s -> 0 <= r -> 0 <= c ->
  wp (fb_set_cursor font8x16 r c) (fun ok s' =>
    settled s' (t_set_cursor r c (abs s)) /\ ok = (r <? rows s) && (c <? cols s) /\ (ok = true -> cursor_shown s')) s.
Proof using Hfont.
  intros Hw Hd Hr Hc. unfold fb_set_cursor, t_set_cursor. wp_step. eapply wp_mono; [by apply enter_live|].
  intros u s1 (Hl & Hs & Ha). rewrite <- Ha. wp_step. wp_step. cbn [t_rows t_cols abs].
  assert (rows s1 = rows s /\ cols s1 = cols s) as [E1 E2] by (split; [exact (f_equal t_rows Ha)|exact (f_equal t_cols Ha)]).
  rewrite E1, E2. destruct (Z.leb_spec (rows s) r); cbn [orb].
  { apply wp_ret. by zfalse (r <? rows s). }
  ztrue (r <? rows s). destruct (Z.leb_spec (cols s) c); cbn [andb].
  { apply wp_ret. by zfalse (c <? cols s). }
  ztrue (c <? cols s). wp_step. wp_step.
  assert (settled (with_pos r c s1) (t_move r c (abs s1))) as Hset.
  { split; [by apply live_pos|]. split; [|done]. unfold on_screen. cbn. lia. }
  wp_step. eapply wp_mono; [exact (wp_unbind _ _ _ _ (redraw_cursor _ _ Hset))|].
  intros u2 s2 H2. wp_step. eapply wp_mono; [exact H2|]. intros u3 s3 [H3 H3']. by apply wp_ret.
Qed.

(** The screen while its first [n] cells have been cleared. *)
Definition clearing (s : fb) (n : Z) (s' : fb) : Prop :=
  live s' /\ exists p sh r c, s' = with_pos r c (with_pix p (with_shadow sh s)) /\ length sh = length (shadow s) /\
    forall k, sh !! k = if Z.of_nat k <? n then Some blank else shadow s !! k.

Lemma clear_cell s r c s' : on_screen s r c -> geometry s -> clearing s (r * cols s + c) s' ->
  wp (modM (with_pos r c) ;;; draw_char font8x16 (ch blank) (color blank)) (fun _ => clearing s (r * cols s + c + 1)) s'.
Proof using Hfont.
  intros Hrc Hg (Hl & p & sh & r0 & c0 & -> & Hlen & Hk). wp_steps. cbn [ch color blank].
  eapply wp_mono; [apply draw_char_spec; [by apply live_pos|exact Hrc|unfold SPACE; lia|lia]|].
  intros u s2 [Hl2 [q ->]]. split; [done|]. cbn [Z.ltb Z.compare PALETTE_SIZE].
  exists q, (<[idx s r c := blank]> sh), r, c. split; [done|]. rewrite length_insert. split; [done|]. intros k.
  destruct (shadow_at s r c Hg Hrc) as (x & Hx & _ & Hi). apply lookup_lt_Some in Hx.
  destruct (decide (k = idx s r c)) as [->|Hne].
  - rewrite list_lookup_insert_eq by lia. unfold idx. by ztrue (Z.of_nat (Z.to_nat (r * cols s + c)) <? r * cols s + c + 1).
  - rewrite list_lookup_insert_ne by done. rewrite Hk. unfold idx in Hne. destruct (Z.ltb_spec (Z.of_nat k) (r * cols s + c)).
    + by ztrue (Z.of_nat k <? r * cols s + c + 1).
    + by zfalse (Z.of_nat k <? r * cols s + c + 1).
Qed.

Lemma clear_screen_spec s : fb_wf s -> displays s ->
  wp (fb_clear_screen font8x16) (fun _ s' => settled s' (t_clear (abs s)) /\ cursor_shown s') s.
Proof using Hfont.
  intros Hw Hd. unfold fb_clear_screen. wp_step. eapply wp_mono; [by apply enter_live|].
  intros u s1 (Hl & Hs & Ha). pose proof (l_geom _ Hl) as Hg. pose proof (g_rows _ Hg). pose proof (g_cols _ Hg). pose proof (g_shadow _ Hg).
  wp_steps. eapply wp_mono; [apply (wp_forM (fun r => clearing s1 (r * cols s1)))|].
  - split; [done|]. exists (pix s1), (shadow s1), (row s1), (col s1). split; [by destruct s1|]. split; [done|].
    intros k. by zfalse (Z.of_nat k <? 0 * cols s1).
  - intros r s2 Hr H2. eapply wp_mono; [apply (wp_forM (fun c => clearing s1 (r * cols s1 + c)))|].
    + by rewrite Z.add_0_r.
    + intros c s3 Hc H3. replace (r * cols s1 + (c + 1)) with (r * cols s1 + c + 1) by lia.
      apply clear_cell; [unfold on_screen; lia|done|done].
    + intros u2 s3. by replace (r * cols s1 + (0 + Z.of_nat (Z.to_nat (cols s1)))) with ((r + 1) * cols s1) by lia.
  - intros u2 s2 (Hl2 & p & sh & r & c & -> & Hlen & Hk). wp_steps.
    assert (sh = replicate (Z.to_nat (rows s1 * cols s1)) blank) as ->.
    { apply list_eq. intros k. rewrite Hk. destruct (Z.ltb_spec (Z.of_nat k) ((0 + Z.of_nat (Z.to_nat (rows s1))) * cols s1)).
      - symmetry. apply lookup_replicate. split; [done|nia].
      - rewrite !lookup_ge_None_2; [done|rewrite length_replicate; nia|nia]. }
    apply wp_unbind, redraw_cursor. split; [by apply live_pos|]. split; [unfold on_screen; cbn; lia|].
    unfold t_clear. pose proof (l_now _ Hl) as Hv. rewrite <- (f_equal t_rows Ha : _ = t_rows (abs s)), <- (f_equal t_cols Ha : _ = t_cols (abs s)),
      <- (f_equal t_past Ha : _ = t_past (abs s)), <- (f_equal t_scrollable Ha : _ = t_scrollable (abs s)).
    unfold abs. cbn. by rewrite Hv.
Qed.

Lemma scrollback_spec s d : fb_wf s -> displays s ->
  wp (fb_scrollback font8x16 d) (fun _ s' => fb_wf s' /\ displays s' /\ abs s' = t_scrollback d (abs s)) s.
Proof using Hfont.
  intros Hw Hd. pose proof (w_geom s Hw) as Hg. pose proof (g_cols s Hg). pose proof (g_view s Hg). pose proof (g_count s Hg).
  unfold fb_scrollback, t_scrollback. cbn [t_scrollable t_past t_cols t_view abs]. wp_steps.
  destruct (scrollback_on s); cbn [negb]; [|by apply wp_ret].
  rewrite length_past, Z.div_mul by (done || lia).
  set (off := if (if hist_count s <? view_offset s + d then _ else _) <? 0 then _ else _).
  assert (off = Z.max 0 (Z.min (hist_count s) (view_offset s + d))) as ->.
  { unfold off. destruct (Z.ltb_spec (hist_count s) (view_offset s + d)); zcase; lia. }
  set (off := Z.max _ _). destruct (Z.eqb_spec off (view_offset s)) as [->|Hne].
  { apply wp_ret. split; [done|]. split; [done|]. by destruct s. }
  wp_steps. assert (geometry (with_view off s)) as Hg' by (destruct Hg; split; try done; cbn; lia).
  destruct (Z.eqb_spec off 0) as [E0|E0].
  - eapply wp_mono; [apply (snap_to_live_spec (with_view off s)); [done|apply Hw|done]|].
    intros u s' ([p ->] & Hl & _). apply settled_displays. split; [done|]. split; [apply Hw|done].
  - eapply wp_mono; [by apply view_repaint_spec|]. intros u s' [[p ->] H']. split; [|split; [|done]].
    + destruct Hw as [_ Hp Hc]. split; [by destruct Hg'|exact Hp|exact Hc].
    + intros r c Hrc _. exact (H' r c Hrc).
Qed.

(** ** Sequences of operations *)

(** The calls of the console, as the system calls and the keyboard make them;
    [upd] chooses between the two variants of a routine. *)
Inductive fb_op : Type :=
| DrawChar (upd : bool) (c colr : Z)
| DrawString (upd : bool) (str : list Z) (colr : Z)
| SetCursor (upd : bool) (r c : Z)
| ClearScreen
| Scrollback (delta : Z)
| SetScrollback (b : bool).

Definition run_op (op : fb_op) : FbM unit :=
  match op with
  | DrawChar upd c k => if upd then fb_draw_char_upd font8x16 c k else fb_draw_char_no_upd font8x16 c k
  | DrawString upd str k => if upd then fb_draw_string font8x16 str k else fb_draw_string_no_upd font8x16 str k
  | SetCursor upd r c => (if upd then fb_set_cursor font8x16 r c else fb_set_cursor_no_upd font8x16 r c) ;;; retM tt
  | ClearScreen => fb_clear_screen font8x16
  | Scrollback d => fb_scrollback font8x16 d
  | SetScrollback b => fb_set_scrollback b
  end.

Fixpoint run_ops (ops : list fb_op) : FbM unit :=
  match ops with
  | [] => retM tt
  | op :: ops => run_op op ;;; run_ops ops
  end.

Fixpoint t_string (str : list Z) (k : Z) (t : term) : term :=
  match str with
  | [] => t
  | c :: str => if c =? 0 then t else t_string str k (t_char c k t)
  end.

Definition t_op (t : term) (op : fb_op) : term :=
  match op with
  | DrawChar _ c k => t_char c k t
  | DrawString _ str k => t_string str k t
  | SetCursor _ r c => t_set_cursor r c t
  | ClearScreen => t_clear t
  | Scrollback d => t_scrollback d t
  | SetScrollback b => t_allow b t
  end.

(** Arguments of their C types, strings with a terminator. *)
Definition op_ok (op : fb_op) : Prop :=
  match op with
  | DrawChar _ c k => is_byte c /\ is_byte k
  | DrawString _ str k => bytes_ok str /\ 0 ∈ str /\ is_byte k
  | SetCursor _ r c => is_u32 r /\ is_u32 c
  | _ => True
  end.

(** The operations that end by painting the cursor. *)
Definition redraws (op : fb_op) : bool :=
  match op with DrawChar upd _ _ => upd | ClearScreen => true | _ => false end.

Definition op_spec (op : fb_op) (s : fb) (s' : fb) : Prop :=
  fb_wf s' /\ displays s' /\ abs s' = t_op (abs s) op /\ (redraws op = true -> cursor_shown s').

Lemma settled_op op s s' : settled s' (t_op (abs s) op) -> (redraws op = true -> cursor_shown s') -> op_spec op s s'.
Proof. intros H Hc. apply settled_displays in H as (? & ? & ?). done. Qed.

Lemma draw_string_spec (upd : bool) str k s : bytes_ok str -> 0 ∈ str -> is_byte k -> fb_wf s -> displays s ->
  wp (run_op (DrawString upd str k)) (fun _ s' => op_spec (DrawString upd str k) s s') s.
Proof using Hfont.
  intros Hb Hin Hk. enough (forall s, fb_wf s -> displays s -> wp (run_op (DrawString upd str k)) (fun _ s' =>
    fb_wf s' /\ displays s' /\ abs s' = t_string str k (abs s)) s) as Hgen.
  { intros Hw Hd. eapply wp_mono; [by apply Hgen|]. intros u s' (? & ? & ?). done. }
  clear s; induction Hb as [|c str Hc Hb IH]; intros s Hw Hd; [by apply elem_of_nil in Hin|].
  destruct (Z.eqb_spec c 0) as [->|Hne]; [destruct upd; done|].
  assert (0 ∈ str) as Hin' by (apply elem_of_cons in Hin as [?|?]; [by subst|done]).
  assert (wp (run_op (DrawChar upd c k)) (fun _ s' => settled s' (t_char c k (abs s))) s) as H1.
  { unfold is_byte in *. destruct upd; cbn [run_op]; [|apply draw_char_no_upd_spec; [done|done|lia|lia]].
    eapply wp_mono; [apply draw_char_upd_spec; [done|done|lia|lia]|]. by intros u s' [? _]. }
  specialize (IH Hin').
  assert (wp (run_op (DrawChar upd c k) ;;; run_op (DrawString upd str k)) (fun _ s' =>
    fb_wf s' /\ displays s' /\ abs s' = t_string str k (t_char c k (abs s))) s) as H2.
  { wp_step. eapply wp_mono; [exact H1|]. intros u s1 H. apply settled_displays in H as (Hw1 & Hd1 & Ha1).
    rewrite <- Ha1. by apply IH. }
  cbn [t_string]. rewrite (proj2 (Z.eqb_neq c 0) Hne).
  destruct upd; cbn [run_op fb_draw_string fb_draw_string_no_upd]; rewrite (proj2 (Z.eqb_neq c 0) Hne); exact H2.
Qed.

Lemma run_op_spec op s : op_ok op -> fb_wf s -> displays s -> wp (run_op op) (fun _ s' => op_spec op s s') s.
Proof using Hfont.
  intros Hok Hw Hd. destruct op as [upd c k|upd str k|upd r c| |d|b]; cbn [op_ok] in *.
  - destruct Hok as [Hc Hk]. unfold is_byte in *. destruct upd; cbn [run_op].
    + eapply wp_mono; [apply draw_char_upd_spec; [done|done|lia|lia]|]. intros u s' [H ?]. by apply settled_op.
    + eapply wp_mono; [apply draw_char_no_upd_spec; [done|done|lia|lia]|]. intros u s' H. by apply settled_op.
  - destruct Hok as (? & ? & ?). by apply draw_string_spec.
  - destruct Hok as [Hr Hc]. unfold is_u32 in *. destruct upd; cbn [run_op]; wp_step.
    + eapply wp_mono; [apply set_cursor_spec; [done|done|lia|lia]|]. intros u s' (H & _). apply wp_ret. by apply settled_op.
    + eapply wp_mono; [apply set_cursor_no_upd_spec; [done|done|lia|lia]|]. intros u s' (H & _). apply wp_ret. by apply settled_op.
  - eapply wp_mono; [by apply clear_screen_spec|]. intros u s' [H ?]. by apply settled_op.
  - eapply wp_mono; [by apply scrollback_spec|]. intros u s' (? & ? & ?). done.
  - cbn [run_op]. apply wp_mod. split; [|done]. destruct Hw as [[] ? ?]. done.
Qed.

Lemma run_ops_spec ops s : Forall op_ok ops -> fb_wf s -> displays s ->
  wp (run_ops ops) (fun _ s' => fb_wf s' /\ displays s' /\ abs s' = fold_left t_op ops (abs s) /\
    forall op, last ops = Some op -> redraws op = true -> cursor_shown s') s.
Proof using Hfont.
  intros Hok. revert s. induction Hok as [|op ops Hop _ IH]; intros s Hw Hd; cbn [run_ops fold_left]; [done|].
  wp_step. eapply wp_mono; [by apply run_op_spec|]. intros u s1 (Hw1 & Hd1 & <- & Hc1).
  destruct ops as [|op2 ops]; [|by apply IH]. apply wp_ret. split; [done|]. split; [done|]. split; [done|].
  intros op' [= <-]. exact Hc1.
Qed.

(** ** From the boot *)

(** A video mode with at least one cell, whose lines hold their pixels. *)
Definition mode_ok (info : fb_info) : Prop :=
  8 <= fi_width info /\ 16 <= fi_height info /\ 4 * fi_width info <= fi_pitch info.

Definition blank_term (rows cols : Z) : term :=
  mkTerm cols rows [] (replicate (Z.to_nat (rows * cols)) blank) 0 0 0 true.

Lemma blank_loops rows cols (sh : list FBChar) : 0 <= rows -> 0 < cols -> Z.of_nat (length sh) = rows * cols ->
  for_range (Z.to_nat rows) 0 (fun r sh =>
    for_range (Z.to_nat cols) 0 (fun c sh => <[Z.to_nat (r * cols + c) := blank]> sh) sh) sh =
  replicate (Z.to_nat (rows * cols)) blank.
Proof.
  intros Hr Hc Hl.
  pose (I := fun n (l : list FBChar) => length l = length sh /\ forall k, Z.of_nat k < n -> Z.of_nat k < rows * cols -> l !! k = Some blank).
  assert (I (rows * cols) (for_range (Z.to_nat rows) 0 (fun r sh =>
    for_range (Z.to_nat cols) 0 (fun c sh => <[Z.to_nat (r * cols + c) := blank]> sh) sh) sh)) as [H1 H2].
  { replace (rows * cols) with ((0 + Z.of_nat (Z.to_nat rows)) * cols) at 1 by lia.
    apply (for_range_ind (fun r => I (r * cols))); [split; [done|lia]|].
    intros r l Hr' HI. replace ((r + 1) * cols) with (r * cols + (0 + Z.of_nat (Z.to_nat cols))) by lia.
    apply (for_range_ind (fun c => I (r * cols + c))); [by rewrite Z.add_0_r|].
    intros c l' Hc' [H1 H2]. split; [by rewrite length_insert|]. intros k Hk Hk'.
    destruct (decide (k = Z.to_nat (r * cols + c))) as [->|Hne]; [apply list_lookup_insert_eq; nia|].
    rewrite list_lookup_insert_ne by done. apply H2; lia. }
  apply list_eq. intros k. destruct (decide (Z.of_nat k < rows * cols)).
  - rewrite H2 by lia. symmetry. apply lookup_replicate. split; [done|lia].
  - rewrite !lookup_ge_None_2; [done|rewrite length_replicate; lia|lia].
Qed.

Section boot.
Context {F : Type} `{FrameLaws F}.
Implicit Type p : pstate (F := F).

Lemma fb_init_spec info sh hi pix0 p s p' :
  fb_init info sh hi pix0 p = Some (s, p') -> mode_ok info ->
  Z.of_nat (length sh) = (fi_height info / 16) * (fi_width info / 8) ->
  Z.of_nat (length hi) = HISTORY_LINES * (fi_width info / 8) ->
  fb_wf s /\ displays s /\ abs s = blank_term (fi_height info / 16) (fi_width info / 8).
Proof.
  intros E (Hw & Hh & Hp) Hsh Hhi. unfold fb_init in E. destruct (_ =? 0); [done|]. do 3 (destruct (negb _); [done|]).
  unfold GLYPH_WIDTH, GLYPH_HEIGHT in E. assert (0 < fi_width info / 8) by zlia. assert (0 < fi_height info / 16) by zlia.
  rewrite blank_loops in E by lia. injection E as <- <-.
  set (s := mkFb _ _ _ _ _ _ _ _ _ _ _ _ _ _ _ _ _).
  assert (geometry s) as Hg.
  { split; cbn; try lia; try done; unfold HISTORY_LINES in *; try lia.
    - rewrite length_replicate. nia.
    - apply Forall_replicate. unfold cell_ok, PALETTE_SIZE. simpl. unfold SPACE. lia. }
  apply (settled_displays s). split; [|split; [by split; cbn; lia|done]]. split; [done|done|by split; cbn; lia|].
  intros r c x [Hr Hc] _ Hx i b Hi Hb. cbn in Hr, Hc. change (replicate (Z.to_nat (fi_height info / 16 * (fi_width info / 8))) blank !! idx s r c = Some x) in Hx.
  apply lookup_replicate in Hx as [-> _]. cbn [pix s].
  assert (r * 16 + 16 <= fi_height info) by zlia. assert (c * 8 + 8 <= fi_width info) by zlia.
  ztrue ((0 <=? r * 16 + i) && (r * 16 + i <? fi_height info) && (0 <=? c * 8 + b) && (4 * (c * 8 + b) + 4 <=? fi_pitch info)).
  unfold glyph_colour. by destruct (glyph_on _ _ _).
Qed.

End boot.

End spec.

(** ** The properties *)

Section properties.
Context {F : Type} `{FrameOps F}.

(** C30. Every state the console reaches from [fb_init], by any sequence of
    calls, is well-formed: no call reads or writes outside the shadow, the
    history, the font or the frame buffer; position and cursor stay on the
    screen, the history index and the view stay in range, and every cell holds
    a byte and a colour of the palette. *)
Theorem fb_ops_typed (font8x16 : list Z) (info : fb_info) (sh hi : list FBChar) (pix0 : Z -> Z -> Z)
    (p : pstate (F := F)) (s : fb) (p' : pstate) (ops : list fb_op) :
  length font8x16 = 4096%nat -> mode_ok info ->
  Z.of_nat (length sh) = fi_height info / 16 * (fi_width info / 8) ->
  Z.of_nat (length hi) = HISTORY_LINES * (fi_width info / 8) ->
  fb_init info sh hi pix0 p = Some (s, p') -> Forall op_ok ops ->
  exists s', run_ops font8x16 ops s = Done tt s' /\ fb_wf s'.
Proof.
  intros Hf Hm Hsh Hhi Hi Hok. destruct (fb_init_spec font8x16 Hf _ _ _ _ _ _ _ Hi Hm Hsh Hhi) as (Hw & Hd & _).
  destruct (wp_inv _ _ _ (run_ops_spec font8x16 Hf ops s Hok Hw Hd)) as ([] & s' & E & Hw' & _). eauto.
Qed.

(** C5. The console is a terminal: after any sequence of calls the screen, cell
    by cell and pixel by pixel, shows the window on the transcript that the
    same calls give on the abstract terminal, with the last 256 lines that
    scrolled off in it; after a call that redraws the cursor, the cell at the
    position shows it inverted.  Only the cell of the cursor is not fixed
    otherwise. *)
Theorem fb_refines_terminal (font8x16 : list Z) (info : fb_info) (sh hi : list FBChar) (pix0 : Z -> Z -> Z)
    (p : pstate (F := F)) (s : fb) (p' : pstate) (ops : list fb_op) :
  length font8x16 = 4096%nat -> mode_ok info ->
  Z.of_nat (length sh) = fi_height info / 16 * (fi_width info / 8) ->
  Z.of_nat (length hi) = HISTORY_LINES * (fi_width info / 8) ->
  fb_init info sh hi pix0 p = Some (s, p') -> Forall op_ok ops ->
  exists s', run_ops font8x16 ops s = Done tt s' /\
    abs s' = fold_left t_op ops (blank_term (fi_height info / 16) (fi_width info / 8)) /\
    displays font8x16 s' /\
    forall op, last ops = Some op -> redraws op = true -> cursor_shown font8x16 s'.
Proof.
  intros Hf Hm Hsh Hhi Hi Hok. destruct (fb_init_spec font8x16 Hf _ _ _ _ _ _ _ Hi Hm Hsh Hhi) as (Hw & Hd & Ha).
  destruct (wp_inv _ _ _ (run_ops_spec font8x16 Hf ops s Hok Hw Hd)) as ([] & s' & E & _ & Hd' & Ha' & Hc').
  exists s'. rewrite <- Ha. done.
Qed.

End properties.

(** A font, a mode of two rows of three cells, and a text that scrolls. *)
Definition demo_font : list Z := (fun i => u8 (7 * i)) <$> seqZ 0 4096.
Definition demo_info : fb_info := mkFbInfo 4096 0xFD000000 0 100 24 32 32 1.
Definition demo_ops : list fb_op :=
  [DrawChar true 65 15; DrawChar false 66 7; DrawChar true 10 0; DrawString true [67; 68; 69; 70; 0] 15;
   DrawChar true 8 0; Scrollback 1].

Lemma demo_font_length : length demo_font = 4096%nat.
Proof. reflexivity. Qed.
Lemma demo_mode : mode_ok demo_info.
Proof. unfold mode_ok. simpl. lia. Qed.
Lemma demo_ops_ok : Forall op_ok demo_ops.
Proof.
  unfold demo_ops, op_ok, bytes_ok, is_byte. repeat constructor; try lia. all: apply list_elem_of_In; simpl; auto 6.
Qed.

Lemma fb_ops_typed_witness : exists s s',
  fst <$> fb_init demo_info (replicate 6 blank) (replicate 768 blank) (fun _ _ => 0) empty_dir = Some s /\
  run_ops demo_font demo_ops s = Done tt s' /\ fb_wf s'.
Proof.
  destruct (fb_init demo_info (replicate 6 blank) (replicate 768 blank) (fun _ _ => 0) empty_dir) as [[s p']|] eqn:E;
    [|discriminate E].
  destruct (fb_ops_typed demo_font demo_info (replicate 6 blank) (replicate 768 blank) (fun _ _ => 0) empty_dir s p' demo_ops
              demo_font_length demo_mode eq_refl eq_refl E demo_ops_ok) as (s' & H1 & H2).
  exists s, s'. done.
Defined.

Lemma fb_refines_terminal_witness : exists s s',
  fst <$> fb_init demo_info (replicate 6 blank) (replicate 768 blank) (fun _ _ => 0) empty_dir = Some s /\
  run_ops demo_font demo_ops s = Done tt s' /\
  displays demo_font s' /\
  t_past (abs s') = [mkChar 65 15; mkChar 66 7; blank] /\ t_screen (abs s') = [mkChar 67 15; mkChar 68 15; mkChar 69 15; blank; blank; blank] /\
  t_view (abs s') = 1 /\ t_visible (abs s') 0 0 = Some (mkChar 65 15).
Proof.
  destruct (fb_init demo_info (replicate 6 blank) (replicate 768 blank) (fun _ _ => 0) empty_dir) as [[s p']|] eqn:E;
    [|discriminate E].
  destruct (fb_refines_terminal demo_font demo_info (replicate 6 blank) (replicate 768 blank) (fun _ _ => 0) empty_dir s p' demo_ops
              demo_font_length demo_mode eq_refl eq_refl E demo_ops_ok) as (s' & H1 & H2 & H3 & _).
  exists s, s'. rewrite H2. split; [done|]. split; [done|]. split; [done|]. repeat split; vm_compute; reflexivity.
Defined.

(** The blank screen of that mode. *)
Definition demo_screen : fb :=
  mkFb 0 0 0 0 3 2 0xFD000000 100 24 32 (replicate 6 blank) (replicate 768 blank) 0 0 0 true
    (fun y x => if (0 <=? y) && (y <? 32) && (0 <=? x) && (4 * x + 4 <=? 100) then 0 else 0).
Lemma demo_screen_ok : fb_wf demo_screen /\ displays demo_font demo_screen.
Proof.
  destruct (fb_init_spec demo_font demo_font_length demo_info (replicate 6 blank) (replicate 768 blank) (fun _ _ => 0) empty_dir
              demo_screen (fb_map demo_info empty_dir)) as (? & ? & _); [reflexivity|exact demo_mode|done..].
Qed.
