(* ===== verification/Ports.v ===== *)
(** * Port input and output, and the serial port

    portio.h wraps the four port instructions; what answers them is hardware,
    the class [Ports] of a state of the devices.  On top of it comes
    kernel/drivers/serial/serialController.c.  The class [Uart] states what the
    driver relies on of the 16550 at COM1: its registers follow the programming
    model [uart_write], and the transmitter becomes ready after a bounded number
    of reads of its status. *)
From S2P Require Import Prelude.

(** ** The instructions *)

(** [patience] bounds the polling loops of the source that have no bound. *)
Class Ports (D : Type) := {
  in8 : Z -> D -> Z * D; in16 : Z -> D -> Z * D;
  out8 : Z -> Z -> D -> D; out16 : Z -> Z -> D -> D;
  patience : nat
}.

(** Run a routine on a part of a larger state. *)
Definition onM {S T A} (get : T -> S) (set : S -> T -> T) (op : M S A) : M T A := fun t =>
  match op (get t) with
  | Done a s => Done a (set s t)
  | Halted h s => Halted h (set s t)
  end.

Lemma wp_onM {S T A} (get : T -> S) set (op : M S A) Q t :
  wp op (fun a s => Q a (set s t)) (get t) -> wp (onM get set op) Q t.
Proof. unfold wp, onM. by destruct (op (get t)). Qed.

Lemma bindM_ext {S A B} (m : M S A) (f g : A -> M S B) (t : S) : (forall x t, f x t = g x t) -> bindM m f t = bindM m g t.
Proof. intros Hfg. unfold bindM. destruct (m t); [apply Hfg|done]. Qed.

Lemma bindM_Halted {S A B} (m : M S A) (f : A -> M S B) (t : S) h t' : m t = Halted h t' -> bindM m f t = Halted h t'.
Proof. unfold bindM. by intros ->. Qed.

Lemma bindM_assoc {S A B C} (m : M S A) (f : A -> M S B) (g : B -> M S C) (t : S) :
  bindM (bindM m f) g t = bindM m (fun x => bindM (f x) g) t.
Proof. unfold bindM. by destruct (m t). Qed.

(** A step that returns, in front of one that may stop the machine. *)
Lemma bind_outcome {S A B} (R : outcome S B -> Prop) (m : M S A) (f : A -> M S B) (t : S) :
  wp m (fun x t' => R (f x t')) t -> R (bindM m f t).
Proof. unfold wp, bindM. destruct (m t); [done|by intros []]. Qed.

(** A loop that runs at most [p] times and leaves with [inr].  It is a tree of
    doublings, so that a bound of a hundred million is no obstacle to running it;
    [iterN] is the plain loop it stands for. *)
Fixpoint iterM {S A R} (p : positive) (body : A -> M S (A + R)) (a : A) : M S (A + R) :=
  match p with
  | xH => body a
  | xO p =>
      let* r := iterM p body a in
      match r with inl a => iterM p body a | inr r => retM (inr r) end
  | xI p =>
      let* r := body a in
      match r with
      | inl a =>
          let* r := iterM p body a in
          match r with inl a => iterM p body a | inr r => retM (inr r) end
      | inr r => retM (inr r)
      end
  end.
Fixpoint iterN {S A R} (n : nat) (body : A -> M S (A + R)) (a : A) : M S (A + R) :=
  match n with
  | O => retM (inl a)
  | Datatypes.S n =>
      let* r := body a in
      match r with inl a => iterN n body a | inr r => retM (inr r) end
  end.

Lemma iterN_add {S A R} n m (body : A -> M S (A + R)) a s :
  iterN (n + m) body a s =
  (let* r := iterN n body a in match r with inl a => iterN m body a | inr r => retM (inr r) end) s.
Proof.
  revert a s. induction n as [|n IH]; intros a s; [done|]. cbn [Nat.add iterN]. unfold bindM in *.
  destruct (body a s) as [[a'|r] s'|]; [apply IH|done|done].
Qed.

Lemma iterM_iterN {S A R} p (body : A -> M S (A + R)) a s : iterM p body a s = iterN (Pos.to_nat p) body a s.
Proof.
  revert a s. induction p as [p IH|p IH|]; intros a s; cbn [iterM].
  - rewrite Pos2Nat.inj_xI. cbn [iterN]. unfold bindM at 1 3. destruct (body a s) as [[a'|r] s'|]; [|done|done].
    replace (2 * Pos.to_nat p)%nat with (Pos.to_nat p + Pos.to_nat p)%nat by lia. rewrite iterN_add. unfold bindM.
    rewrite IH. destruct (iterN _ body a' s') as [[a2|r] s2|]; [apply IH|done|done].
  - rewrite Pos2Nat.inj_xO. replace (2 * Pos.to_nat p)%nat with (Pos.to_nat p + Pos.to_nat p)%nat by lia.
    rewrite iterN_add. unfold bindM. rewrite IH. destruct (iterN _ body a s) as [[a2|r] s2|]; [apply IH|done|done].
  - change (Pos.to_nat 1) with 1%nat. cbn [iterN]. unfold bindM. by destruct (body a s) as [[a'|r] s'|].
Qed.

(** A loop that leaves once a measure of the state has run down. *)
Lemma wp_iterM {S A R} (I : nat -> A -> S -> Prop) (Q : A + R -> S -> Prop) p (body : A -> M S (A + R)) n a s :
  (n < Pos.to_nat p)%nat -> I n a s ->
  (forall a s, I 0%nat a s -> wp (body a) (fun r s' => (exists x, r = inr x) /\ Q r s') s) ->
  (forall n a s, I (Datatypes.S n) a s -> wp (body a) (fun r s' => exists a', r = inl a' /\ I n a' s') s) ->
  wp (iterM p body a) Q s.
Proof.
  intros Hn HI H0 HS. unfold wp. rewrite iterM_iterN. generalize dependent (Pos.to_nat p). intros m. revert m a s HI.
  induction n as [|n IH]; intros [|m] a s HI Hm; [lia| |lia|]; cbn [iterN]; unfold bindM.
  - specialize (H0 a s HI). unfold wp in H0. destruct (body a s) as [r s'|]; [|done]. by destruct H0 as [[x ->] HQ].
  - specialize (HS n a s HI). unfold wp in HS. destruct (body a s) as [r s'|]; [|done].
    destruct HS as (a' & -> & HI'). apply IH; [done|lia].
Qed.

Section io.
Context {D : Type} `{Ports D}.

Definition inb (port : Z) : M D Z := fun d => let (v, d') := in8 (u16 port) d in Done (u8 v) d'.
Definition inw (port : Z) : M D Z := fun d => let (v, d') := in16 (u16 port) d in Done (u16 v) d'.
Definition outb (port val : Z) : M D unit := modM (out8 (u16 port) (u8 val)).
Definition outw (port val : Z) : M D unit := modM (out16 (u16 port) (u16 val)).

Lemma wp_inb port Q d v d' : in8 (u16 port) d = (v, d') -> Q (u8 v) d' -> wp (inb port) Q d.
Proof. unfold wp, inb. by intros ->. Qed.
Lemma wp_inw port Q d v d' : in16 (u16 port) d = (v, d') -> Q (u16 v) d' -> wp (inw port) Q d.
Proof. unfold wp, inw. by intros ->. Qed.
Lemma wp_outb port val Q d : Q tt (out8 (u16 port) (u8 val) d) -> wp (outb port val) Q d.
Proof. done. Qed.
Lemma wp_outw port val Q d : Q tt (out16 (u16 port) (u16 val) d) -> wp (outw port val) Q d.
Proof. done. Qed.

(** ** The serial port *)

Definition UART_CLOCK_HZ : Z := 115200.
Definition BAUD_RATE : Z := 115200.
Definition COM1 : Z := 0x3F8.

Definition serial_init : M D unit :=
  outb (COM1 + 1) 0x00 ;;;
  outb (COM1 + 3) 0x80 ;;;
  let divisor := u16 (UART_CLOCK_HZ / BAUD_RATE) in
  outb (COM1 + 0) (u8 (Z.land divisor 0xFF)) ;;;
  outb (COM1 + 1) (u8 (Z.shiftr divisor 8)) ;;;
  outb (COM1 + 3) 0x03 ;;;
  outb (COM1 + 2) 0xC7 ;;;
  outb (COM1 + 4) 0x03.

Definition serial_receive_char : M D Z :=
  let* v := inb (COM1 + 5) in
  if Z.land v 1 =? 0 then retM 0 else inb (COM1 + 0).

(** The bytes the loop writes into [buffer]. *)
Fixpoint serial_receive_n (n : nat) : M D (list Z) :=
  match n with
  | O => retM []
  | S n => let* c := serial_receive_char in let* l := serial_receive_n n in retM (c :: l)
  end.
Definition serial_receive (size : Z) : M D (list Z) := serial_receive_n (Z.to_nat size).

(** [while (!(inb(COM1 + 5) & (1 << 5))) ;] *)
Fixpoint await_transmitter (n : nat) : M D unit :=
  match n with
  | O => haltM OutOfFuel
  | S n =>
      let* v := inb (COM1 + 5) in
      if Z.land v (Z.shiftl 1 5) =? 0 then await_transmitter n else retM tt
  end.
Definition serial_write_char (c : Z) : M D unit := await_transmitter patience ;;; outb (COM1 + 0) (u8 c).

(** [str] is the memory from the pointer on; running past it is a fault. *)
Fixpoint serial_write_string (str : list Z) : M D unit :=
  match str with
  | [] => haltM Fault
  | c :: str => if c =? 0 then retM tt else serial_write_char c ;;; serial_write_string str
  end.
End io.

(** ** The 16550 *)

(** The registers a driver writes, the bytes handed to the transmitter so far
    and the bytes waiting to be read.  Bit 7 of the line control register gives
    the first two ports to the divisor latch. *)
Record uart : Type := mkUart {
  ier : Z; fcr : Z; lcr : Z; mcr : Z; dll : Z; dlm : Z; sent : list Z; received : list Z
}.

Definition dlab (u : uart) : bool := Z.testbit (lcr u) 7.

Definition uart_write (port v : Z) (u : uart) : uart :=
  if port =? COM1 then
    if dlab u then mkUart (ier u) (fcr u) (lcr u) (mcr u) v (dlm u) (sent u) (received u)
    else mkUart (ier u) (fcr u) (lcr u) (mcr u) (dll u) (dlm u) (sent u ++ [v]) (received u)
  else if port =? COM1 + 1 then
    if dlab u then mkUart (ier u) (fcr u) (lcr u) (mcr u) (dll u) v (sent u) (received u)
    else mkUart v (fcr u) (lcr u) (mcr u) (dll u) (dlm u) (sent u) (received u)
  else if port =? COM1 + 2 then
    mkUart (ier u) v (lcr u) (mcr u) (dll u) (dlm u) (sent u) (if Z.testbit v 1 then [] else received u)
  else if port =? COM1 + 3 then mkUart (ier u) (fcr u) v (mcr u) (dll u) (dlm u) (sent u) (received u)
  else if port =? COM1 + 4 then mkUart (ier u) (fcr u) (lcr u) v (dll u) (dlm u) (sent u) (received u)
  else u.

(** [busy d]: how often the line status will still say that the transmitter
    holds a byte.  A byte written earlier is lost, so the law for a write to the
    data port asks for an idle transmitter.  The other end of the line is quiet:
    no byte arrives while the driver runs. *)
Class Uart (D : Type) `{Ports D} := {
  uart_of : D -> uart;
  busy : D -> nat;
  busy_bounded d : (busy d < patience)%nat;
  uart_lsr d v d' : in8 (COM1 + 5) d = (v, d') ->
    uart_of d' = uart_of d /\ busy d' = Nat.pred (busy d) /\
    Z.testbit v 5 = (busy d =? 0)%nat /\ Z.testbit v 0 = negb (bool_decide (received (uart_of d) = []));
  uart_rbr d b l v d' : in8 COM1 d = (v, d') -> dlab (uart_of d) = false -> received (uart_of d) = b :: l ->
    v = b /\
    uart_of d' = mkUart (ier (uart_of d)) (fcr (uart_of d)) (lcr (uart_of d)) (mcr (uart_of d))
      (dll (uart_of d)) (dlm (uart_of d)) (sent (uart_of d)) l;
  uart_out d port v : is_byte v -> COM1 <= port < COM1 + 5 ->
    (port = COM1 -> dlab (uart_of d) = false -> busy d = 0%nat) ->
    uart_of (out8 port v d) = uart_write port v (uart_of d)
}.

Section serial.
Context {D : Type} `{Uart D}.

Lemma land_bit v b : 0 <= b -> (Z.land v (Z.shiftl 1 b) =? 0) = negb (Z.testbit v b).
Proof. apply bit_free_spec. Qed.

Lemma u8_bit v b : 0 <= b < 8 -> Z.testbit (u8 v) b = Z.testbit v b.
Proof. intros Hb. unfold u8. change 256 with (2 ^ 8). by rewrite Z.mod_pow2_bits_low by lia. Qed.

Lemma await_transmitter_spec n d : (busy d < n)%nat ->
  wp (await_transmitter n) (fun _ d' => uart_of d' = uart_of d /\ busy d' = 0%nat) d.
Proof.
  revert d. induction n as [|n IH]; intros d Hn; [lia|]. cbn [await_transmitter]. wp_step.
  destruct (in8 (COM1 + 5) d) as [v d'] eqn:E. apply (wp_inb (COM1 + 5) _ _ v d' E).
  apply uart_lsr in E as (Eu & Eb & E5 & _). rewrite land_bit, u8_bit, E5 by lia.
  destruct (Nat.eqb_spec (busy d) 0); cbn [negb].
  - apply wp_ret. split; [done|lia].
  - eapply wp_mono; [apply IH; lia|]. cbv beta. intros _ d2 [-> ->]. done.
Qed.

(** Writing a character ends and hands exactly that byte to the line. *)
Lemma serial_write_char_spec c d : dlab (uart_of d) = false ->
  wp (serial_write_char c) (fun _ d' => uart_of d' = uart_write COM1 (u8 c) (uart_of d)) d.
Proof.
  intros Hl. unfold serial_write_char. wp_step. eapply wp_mono; [apply await_transmitter_spec, busy_bounded|].
  cbv beta. intros _ d1 [Hu Hb]. apply wp_outb.
  assert (u8 (u8 c) = u8 c) as -> by (unfold u8; by rewrite Z.mod_mod).
  change (u16 (COM1 + 0)) with COM1. rewrite <- Hu. apply uart_out; [unfold is_byte, u8; zlia|lia|done].
Qed.

(** A terminated string goes out byte by byte. *)
Definition transmit (l : list Z) (u : uart) : uart :=
  mkUart (ier u) (fcr u) (lcr u) (mcr u) (dll u) (dlm u) (sent u ++ l) (received u).

Lemma transmit_nil u : transmit [] u = u.
Proof. destruct u. unfold transmit. simpl. by rewrite app_nil_r. Qed.
Lemma transmit_app x y u : transmit (x ++ y) u = transmit y (transmit x u).
Proof. unfold transmit. simpl. by rewrite app_assoc. Qed.
Lemma transmit_dlab x u : dlab (transmit x u) = dlab u.
Proof. done. Qed.

Lemma serial_char_transmits c d : is_byte c -> dlab (uart_of d) = false ->
  wp (serial_write_char c) (fun _ d' => uart_of d' = transmit [c] (uart_of d)) d.
Proof.
  intros Hc Hl. eapply wp_mono; [by apply serial_write_char_spec|]. cbv beta. intros _ d' ->.
  unfold uart_write, transmit. rewrite Z.eqb_refl, Hl. unfold u8. by rewrite Z.mod_small by done.
Qed.

Lemma serial_string_transmits x tail d : Forall (fun c => 0 < c < 256) x -> dlab (uart_of d) = false ->
  wp (serial_write_string (x ++ 0 :: tail)) (fun _ d' => uart_of d' = transmit x (uart_of d)) d.
Proof.
  intros Hx. revert d. induction Hx as [|c x Hc Hx IH]; intros d Hl; cbn [app serial_write_string].
  - apply wp_ret. by rewrite transmit_nil.
  - zfalse (c =? 0). wp_step. eapply wp_mono; [apply serial_char_transmits; [unfold is_byte; lia|done]|].
    cbv beta. intros _ d1 Hu. eapply wp_mono; [apply IH; by rewrite Hu|]. cbv beta.
    intros _ d2 ->. by rewrite Hu, <- transmit_app.
Qed.

(** The driver leaves the port at 115200 baud (divisor 1), eight data bits, no
    parity, one stop bit (3), interrupts off and the divisor latch closed. *)
Lemma serial_init_spec d : dlab (uart_of d) = false ->
  wp serial_init (fun _ d' => uart_of d' = mkUart 0 0xC7 3 3 1 0 (sent (uart_of d)) []) d.
Proof.
  intros Hl. unfold serial_init. repeat (wp_step; apply wp_outb); apply wp_outb.
  assert (forall e p v u, uart_of e = u -> is_byte v -> COM1 <= p < COM1 + 5 -> (p = COM1 -> dlab u = true) ->
    uart_of (out8 p v e) = uart_write p v u) as Hout.
  { intros e p v u <- Hv Hp Hd. apply uart_out; [done|done|]. intros Ep Hf. rewrite (Hd Ep) in Hf. done. }
  assert (uart_of (out8 (u16 (COM1 + 1)) (u8 0) d) = mkUart 0 (fcr (uart_of d)) (lcr (uart_of d)) (mcr (uart_of d))
    (dll (uart_of d)) (dlm (uart_of d)) (sent (uart_of d)) (received (uart_of d))) as H1.
  { rewrite (Hout _ _ _ _ eq_refl); [|done..]. unfold uart_write. rewrite Hl. done. }
  let rec go := first [exact H1|eapply Hout; [go|vm_compute; done..]] in etransitivity; [go|reflexivity].
Qed.

Lemma serial_receive_char_spec d : dlab (uart_of d) = false -> Forall is_byte (received (uart_of d)) ->
  wp serial_receive_char (fun c d' =>
    c = hd 0 (received (uart_of d)) /\ dlab (uart_of d') = false /\ sent (uart_of d') = sent (uart_of d) /\
    received (uart_of d') = tl (received (uart_of d))) d.
Proof.
  intros Hl Hb. unfold serial_receive_char. wp_step. destruct (in8 (COM1 + 5) d) as [v d1] eqn:E.
  apply (wp_inb (COM1 + 5) _ _ v d1 E). apply uart_lsr in E as (Eu & _ & _ & E0).
  change 1 with (Z.shiftl 1 0). rewrite land_bit, u8_bit, E0 by lia. rewrite <- Eu in *.
  destruct (received (uart_of d1)) as [|b l] eqn:Er.
  - rewrite bool_decide_true by done. apply wp_ret. by rewrite Er.
  - rewrite bool_decide_false by done. cbn [negb]. destruct (in8 COM1 d1) as [w d2] eqn:E2.
    apply (wp_inb (COM1 + 0) _ _ w d2 E2). apply (uart_rbr d1 b l) in E2 as [-> ->]; [|done|done].
    apply Forall_cons in Hb as [Hb _]. unfold u8. by rewrite Z.mod_small by done.
Qed.

(** Receiving fills the buffer with the bytes that wait, in order, and zeros. *)
Lemma serial_receive_spec size d : dlab (uart_of d) = false -> Forall is_byte (received (uart_of d)) ->
  wp (serial_receive size) (fun l d' =>
    l = take (Z.to_nat size) (received (uart_of d) ++ replicate (Z.to_nat size) 0) /\
    received (uart_of d') = drop (Z.to_nat size) (received (uart_of d))) d.
Proof.
  unfold serial_receive. generalize (Z.to_nat size). intros n. revert d.
  induction n as [|n IH]; intros d Hl Hb; cbn [serial_receive_n]; [by apply wp_ret|].
  wp_step. eapply wp_mono; [by apply serial_receive_char_spec|]. cbv beta. intros c d1 (-> & Hl1 & _ & Hr1).
  wp_step. eapply wp_mono; [apply IH; [done|]|].
  { rewrite Hr1. by destruct Hb. }
  cbv beta. intros l d2 [-> Hr2]. apply wp_ret. rewrite Hr2, Hr1.
  destruct (received (uart_of d)) as [|b x]; simpl.
  - by rewrite drop_nil.
  - change (0 :: replicate n 0) with (replicate (S n) 0). split; [|done].
    rewrite !take_app, !take_replicate. do 3 f_equal. lia.
Qed.
End serial.

(** ** A serial port

    A 16550 on its own whose transmitter is busy for two reads after a byte. *)
Module SlowLine.

Record line : Type := mkLine { regs : uart; wait : nat }.

Definition lsr (d : line) : Z :=
  (if (Nat.min (wait d) 2 =? 0)%nat then 0x20 else 0) + (if bool_decide (received (regs d) = []) then 0 else 1).

Definition line_in8 (port : Z) (d : line) : Z * line :=
  let u := regs d in
  if port =? COM1 + 5 then (lsr d, mkLine u (Nat.pred (Nat.min (wait d) 2)))
  else if (port =? COM1) && negb (dlab u) then
    match received u with
    | [] => (0, d)
    | b :: l => (b, mkLine (mkUart (ier u) (fcr u) (lcr u) (mcr u) (dll u) (dlm u) (sent u) l) (wait d))
    end
  else (0, d).
Definition line_out8 (port v : Z) (d : line) : line :=
  mkLine (uart_write port v (regs d)) (if (port =? COM1) && negb (dlab (regs d)) then 2 else wait d).

#[global] Instance line_ports : Ports line := {
  in8 := line_in8; in16 _ d := (0, d); out8 := line_out8; out16 _ _ d := d; patience := 3
}.

#[global, refine] Instance line_uart : Uart line := {
  uart_of := regs; busy d := Nat.min (wait d) 2
}.
Proof.
  - intros d. cbn. lia.
  - intros d v d' [= <- <-]. cbn [regs wait]. split; [done|]. split; [lia|]. unfold lsr.
    destruct (Nat.min (wait d) 2) as [|[]]; case_bool_decide; done.
  - intros d b l v d' E Hl Er. unfold in8 in E. cbn in E. unfold line_in8 in E. rewrite Hl in E. cbn in E. rewrite Er in E. by injection E as <- <-.
  - done.
Defined.

Definition idle : line := mkLine (mkUart 0 0 0 0 0 0 [] []) 0.
End SlowLine.
