(* ===== verification/Kprintf.v ===== *)
(** * Diagnostics: etc/kernel/kprintf/kprintf.c and etc/kernel/hex/hexPrinter.c

    kprintf sends a text with colour escapes to the serial port, to the frame
    buffer console once that is up, and to a log; kprintf_init replays the log
    on the console.  The state is the devices behind the ports, the console and
    the statics of the file.  A string is the memory from its pointer on, and
    running past it is a fault. *)
From S2P Require Import Prelude Bytes CLib Screen ScreenSpec Ports.

Definition RED : Z := 4.
Definition GREEN : Z := 2.
Definition YELLOW : Z := 14.

(** ** kprintf.c *)

Definition PALETTE_LENGTH : nat := 8.
Definition IS_PRINTING_FLAG : Z := 1.
Definition BUFFER_SIZE : Z := 65536.
Definition sizeof_FBChar : Z := 2.
Definition ESC : Z := 0x1b.

(** The strings of the table, with their terminators. *)
Definition esc_clr_palette_foregrnd : list (list Z * Z) :=
  [([51; 48; 0], BLACK); ([51; 49; 0], RED); ([51; 50; 0], GREEN); ([51; 51; 0], YELLOW); ([51; 52; 0], 1);
   ([51; 53; 0], 5); ([51; 54; 0], 3); ([51; 55; 0], WHITE); ([51; 57; 0], WHITE)].

Record console (D : Type) : Type := mkCon {
  dev : D; scr : fb; good_to_fb : bool; buf : list FBChar; curr_buf_ind : Z
}.
Arguments mkCon {D}. Arguments dev {D}. Arguments scr {D}. Arguments good_to_fb {D}.
Arguments buf {D}. Arguments curr_buf_ind {D}.

Section diagnostics.
Context {D : Type} `{Ports D} (font8x16 : list Z).
Local Abbreviation con := (console D).
Local Abbreviation KM := (M con).

Definition set_dev (d : D) (k : con) : con := mkCon d (scr k) (good_to_fb k) (buf k) (curr_buf_ind k).
Definition set_scr (s : fb) (k : con) : con := mkCon (dev k) s (good_to_fb k) (buf k) (curr_buf_ind k).

Definition on_dev {A} (op : M D A) : KM A := onM dev set_dev op.
Definition on_fb {A} (op : FbM A) : KM A := onM scr set_scr op.

(** The first eight entries are searched; no hit leaves the colour. *)
Fixpoint find_colour (entries : list (list Z * Z)) (clr_seq : list Z) (clr : Z) : KM Z :=
  match entries with
  | [] => retM clr
  | (esc_clr, fb_clr) :: entries =>
      match streq clr_seq esc_clr with
      | None => haltM Fault
      | Some true => retM fb_clr
      | Some false => find_colour entries clr_seq clr
      end
  end.

Definition warn (msg : string) : KM unit :=
  let str := bytes_of msg ++ [10; 0] in
  let* k := getM in
  (if good_to_fb k then on_fb (fb_draw_string font8x16 (10 :: str) YELLOW) else retM tt) ;;;
  on_dev (serial_write_string (10 :: str)).
Definition warn_length : KM unit := warn "kprintf: WARNING (malformed escape sequence, length err), returning early!".
Definition warn_invalid : KM unit := warn "kprintf: WARNING (malformed escape sequence, invalid seq), returning early!".

(** [if (curr_buf_ind < BUFFER_SIZE / sizeof(FBChar)) buf[curr_buf_ind++] = x;] *)
Definition log_char (x : FBChar) : KM unit :=
  let* k := getM in
  if curr_buf_ind k <? BUFFER_SIZE / sizeof_FBChar then
    if Z.of_nat (length (buf k)) <=? curr_buf_ind k then haltM Fault
    else putM (mkCon (dev k) (scr k) (good_to_fb k) (<[Z.to_nat (curr_buf_ind k) := x]> (buf k)) (curr_buf_ind k + 1))
  else retM tt.

Definition emit (c clr : Z) : KM unit :=
  let* k := getM in
  (if good_to_fb k then on_fb (fb_draw_char_upd font8x16 c clr) else retM tt) ;;;
  log_char (mkChar c clr) ;;;
  on_dev (serial_write_char c).

Fixpoint kprintf_loop (str : list Z) (clr status_flags : Z) : KM unit :=
  match str with
  | [] => haltM Fault
  | c :: str =>
      if c =? 0 then retM tt
      else if c =? ESC then
        match str with
        | [] => haltM Fault
        | s1 :: str =>
            if s1 =? 0 then warn_length
            else
              match str with
              | [] => haltM Fault
              | s2 :: str =>
                  if s2 =? 0 then warn_length
                  else if (s1 =? 51) && negb (s2 =? 56) then
                    if s2 =? 57 then kprintf_loop str WHITE (Z.land status_flags (cnot 8 IS_PRINTING_FLAG))
                    else
                      let* clr := find_colour (take PALETTE_LENGTH esc_clr_palette_foregrnd) [s1; s2; 0] clr in
                      kprintf_loop str clr (Z.lor status_flags IS_PRINTING_FLAG)
                  else warn_invalid
              end
        end
      else
        (if negb (Z.land status_flags IS_PRINTING_FLAG =? 0) then emit c clr else retM tt) ;;;
        kprintf_loop str clr status_flags
  end.
Definition kprintf (str : list Z) : KM unit := kprintf_loop str WHITE 0.

Definition kprintf_init : KM unit :=
  modM (fun k => mkCon (dev k) (scr k) true (buf k) (curr_buf_ind k)) ;;;
  let* k := getM in
  forM (Z.to_nat (curr_buf_ind k)) 0 (fun i =>
    let* k := getM in
    let* x := get_at (buf k) i in
    on_fb (fb_draw_char_upd font8x16 (ch x) (color x))).

(** ** hexPrinter.c *)

Definition hex_digits : list Z := bytes_of "0123456789ABCDEF".

(** [for (int i = 7; i >= 0; i--)], with [j = 7 - i]. *)
Definition print_hex (v clr : Z) : KM unit :=
  forM 8 0 (fun j =>
    let nib := Z.land (Z.shiftr v ((7 - j) * 4)) 0xF in
    let* c := get_at hex_digits nib in
    on_dev (serial_write_char c) ;;;
    on_fb (fb_draw_char_upd font8x16 c clr)).

(** ** panic, of kernel/exceptions/exceptions.c *)

Definition panic {A} (msg : string) : KM A :=
  on_fb (fb_draw_char_upd font8x16 10 RED) ;;;
  on_fb (fb_draw_string font8x16 (bytes_of msg ++ [0]) RED) ;;;
  haltM (Panic msg).
End diagnostics.

(** ** What is printed *)

(** The text of the source as the macros of kprintf.h build it: pieces, each
    with the digit of its escape, 9 for KPRINTF_RESET. *)
Definition piece : Type := Z * list Z.

Definition piece_ok (p : piece) : Prop :=
  (0 <= p.1 <= 7 \/ p.1 = 9) /\ Forall (fun c => 0 < c < 256 /\ c <> ESC) p.2.
#[export] Instance piece_ok_dec p : Decision (piece_ok p).
Proof. unfold piece_ok. apply _. Defined.
Ltac pieces := apply (bool_decide_unpack _); vm_compute; exact I.

Definition piece_str (p : piece) : list Z := ESC :: 51 :: 48 + p.1 :: p.2.
Definition render (ps : list piece) : list Z := concat (piece_str <$> ps).

Definition colours : list Z := [BLACK; RED; GREEN; YELLOW; 1; 5; 3; WHITE].
Definition piece_cells (p : piece) : list FBChar :=
  if p.1 =? 9 then [] else (fun c => mkChar c (colours !!! Z.to_nat p.1)) <$> p.2.
Definition cells (ps : list piece) : list FBChar := concat (piece_cells <$> ps).

Definition t_cells (xs : list FBChar) (t : term) : term := fold_left (fun t x => t_char (ch x) (color x) t) xs t.

Lemma take_take_app {A} n (x y : list A) : take n (take n x ++ y) = take n (x ++ y).
Proof.
  rewrite !take_app, take_take, length_take, Nat.min_id. f_equal.
  destruct (decide (n <= length x)%nat); [|f_equal; lia]. by replace (n - _)%nat with 0%nat by lia; replace (n - length x)%nat with 0%nat by lia.
Qed.

Section spec.
Context {D : Type} `{Uart D} (font8x16 : list Z) (Hfont : length font8x16 = 4096%nat).
Local Abbreviation con := (console D).
Implicit Types k : con.

Definition LOG_CELLS : nat := Z.to_nat (BUFFER_SIZE / sizeof_FBChar).
Definition log k : list FBChar := take (Z.to_nat (curr_buf_ind k)) (buf k).

Definition printable (x : FBChar) : Prop := is_byte (ch x) /\ 0 <= color x.

Record con_ok k : Prop := mkConOk {
  c_line : dlab (uart_of (dev k)) = false;
  c_buf : length (buf k) = LOG_CELLS; c_ind : 0 <= curr_buf_ind k <= Z.of_nat LOG_CELLS;
  c_cells : Forall printable (log k);
  c_scr : good_to_fb k = true -> fb_wf (scr k) /\ displays font8x16 (scr k)
}.

(** [k'] is [k] after the cells [xs] were printed: on the line, in the log as
    far as it reaches, and on the terminal when the console is up. *)
Record output (xs : list FBChar) k k' : Prop := mkOutput {
  o_ok : con_ok k';
  o_line : uart_of (dev k') = transmit (ch <$> xs) (uart_of (dev k));
  o_good : good_to_fb k' = good_to_fb k;
  o_scr : if good_to_fb k then abs (scr k') = t_cells xs (abs (scr k)) else scr k' = scr k;
  o_log : log k' = take LOG_CELLS (log k ++ xs)
}.

Lemma length_log k : con_ok k -> length (log k) = Z.to_nat (curr_buf_ind k).
Proof. intros [_ Hb Hi _ _]. unfold log. rewrite length_take, Hb. lia. Qed.

Lemma output_nil k : con_ok k -> output [] k k.
Proof.
  intros Hk. split; [done|by rewrite transmit_nil|done|by destruct (good_to_fb k)|].
  rewrite app_nil_r, take_ge; [done|]. rewrite length_log by done. destruct Hk. lia.
Qed.

Lemma output_trans xs ys k1 k2 k3 : output xs k1 k2 -> output ys k2 k3 -> output (xs ++ ys) k1 k3.
Proof.
  intros [_ L1 G1 S1 B1] [K L2 G2 S2 B2]. split; [done| |congruence| |].
  - by rewrite L2, L1, <- transmit_app, fmap_app.
  - rewrite G1 in S2. destruct (good_to_fb k1); [|congruence]. by rewrite S2, S1; unfold t_cells; rewrite fold_left_app.
  - by rewrite B2, B1, take_take_app, app_assoc.
Qed.

Lemma log_char_spec x k : con_ok k -> printable x ->
  wp (log_char x) (fun _ k' => exists b i, k' = mkCon (dev k) (scr k) (good_to_fb k) b i /\ con_ok k' /\
    log k' = take LOG_CELLS (log k ++ [x])) k.
Proof.
  intros Hk Hx. pose proof (length_log k Hk) as Hlen. destruct Hk as [Hl Hb Hi Hc Hs]. unfold log_char. wp_step. wp_step.
  change (BUFFER_SIZE / sizeof_FBChar) with (Z.of_nat LOG_CELLS). rewrite Hb.
  destruct (Z.ltb_spec (curr_buf_ind k) (Z.of_nat LOG_CELLS)).
  - rewrite (proj2 (Z.leb_gt _ _)) by done. wp_step. eexists _, _. split; [done|].
    assert (log (mkCon (dev k) (scr k) (good_to_fb k) (<[Z.to_nat (curr_buf_ind k):=x]> (buf k)) (curr_buf_ind k + 1)) = log k ++ [x]) as Elog.
    { unfold log. cbn [curr_buf_ind buf]. rewrite Z2Nat.inj_add, Nat.add_1_r by lia.
      by rewrite (take_S_r _ _ x), take_insert_ge by (try lia; apply list_lookup_insert_eq; lia). }
    rewrite Elog, take_ge by (rewrite length_app; simpl; lia). split; [|done].
    split; cbn [dev buf curr_buf_ind good_to_fb scr]; [done|by rewrite length_insert|lia| |done].
    rewrite Elog. apply Forall_app. by auto.
  - wp_step. exists (buf k), (curr_buf_ind k). destruct k as [d s g b i]; cbn in *. split; [done|]. split; [by split|].
    assert (i = Z.of_nat LOG_CELLS) as -> by lia. rewrite take_app_le by (rewrite Hlen; lia).
    unfold log. cbn. rewrite take_take. by rewrite Nat2Z.id, Nat.min_id.
Qed.

Lemma on_dev_spec {A} (op : M D A) Q k : wp op (fun a d => Q a (set_dev d k)) (dev k) -> wp (on_dev op) Q k.
Proof. apply wp_onM. Qed.
Lemma on_fb_spec {A} (op : FbM A) Q k : wp op (fun a s => Q a (set_scr s k)) (scr k) -> wp (on_fb op) Q k.
Proof. apply wp_onM. Qed.

Lemma draw_spec s c clr : fb_wf s -> displays font8x16 s -> 0 <= c < 256 -> 0 <= clr ->
  wp (fb_draw_char_upd font8x16 c clr) (fun _ s' => fb_wf s' /\ displays font8x16 s' /\ abs s' = t_char c clr (abs s)) s.
Proof using Hfont.
  intros Hw Hd Hc Hk. eapply wp_mono; [by apply draw_char_upd_spec|]. intros u s' [Hs _]. by apply settled_displays.
Qed.

Lemma emit_spec c clr k : con_ok k -> is_byte c -> 0 <= clr ->
  wp (emit font8x16 c clr) (fun _ => output [mkChar c clr] k) k.
Proof using Hfont.
  intros Hk Hc Hclr. unfold emit. wp_step. wp_step. wp_step.
  assert (wp (if good_to_fb k then on_fb (fb_draw_char_upd font8x16 c clr) else retM tt) (fun _ k1 =>
    con_ok k1 /\ dev k1 = dev k /\ good_to_fb k1 = good_to_fb k /\ log k1 = log k /\
    if good_to_fb k then abs (scr k1) = t_char c clr (abs (scr k)) else scr k1 = scr k) k) as Hdraw.
  { destruct (good_to_fb k) eqn:Eg; [|by apply wp_ret]. destruct Hk as [Hl Hb Hi Hc' Hs]. destruct (Hs Eg) as [Hw Hd].
    apply on_fb_spec. eapply wp_mono; [by apply draw_spec|]. cbv beta. intros _ s' (Hw' & Hd' & Ha').
    split; [by split|done]. }
  eapply wp_mono; [exact Hdraw|]. cbv beta. intros _ k1 (Hk1 & Hdev & Hg & Hlog & Hscr). wp_step.
  eapply wp_mono; [by apply log_char_spec|]. cbv beta. intros _ k2 (b & i & -> & Hk2 & Hlog2).
  apply on_dev_spec. eapply wp_mono; [apply serial_char_transmits; [done|apply Hk2]|]. cbv beta. intros _ d' Hu.
  cbn [dev] in *. split; cbn [dev scr good_to_fb set_dev] in *.
  - destruct Hk2; split; cbn in *; [by rewrite Hu|done..].
  - by rewrite Hu, Hdev.
  - done.
  - done.
  - by rewrite <- Hlog.
Qed.

(** *** A formatted text *)

Lemma find_colour_spec d clr k : 0 <= d <= 7 ->
  find_colour (take PALETTE_LENGTH esc_clr_palette_foregrnd) [51; 48 + d; 0] clr k = Done (colours !!! Z.to_nat d) k.
Proof.
  intros Hd. assert (d = 0 \/ d = 1 \/ d = 2 \/ d = 3 \/ d = 4 \/ d = 5 \/ d = 6 \/ d = 7) as Hc by lia.
  by destruct Hc as [->|[->|[->|[->|[->|[->|[->| ->]]]]]]].
Qed.

Lemma colours_nonneg d : 0 <= colours !!! d.
Proof. do 8 (destruct d; [done|]). by destruct d. Qed.

(** Plain characters: printed when the flag is set, else skipped. *)
Lemma kprintf_text x rest clr (b : bool) k Q : Forall (fun c => 0 < c < 256 /\ c <> ESC) x -> con_ok k -> 0 <= clr ->
  (forall k', output (if b then (fun c => mkChar c clr) <$> x else []) k k' ->
    wp (kprintf_loop font8x16 rest clr (Z.b2z b)) Q k') ->
  wp (kprintf_loop font8x16 (x ++ rest) clr (Z.b2z b)) Q k.
Proof using Hfont.
  intros Hx. revert k. induction Hx as [|c x [Hc Hne] Hx IH]; intros k Hk Hclr Hnext; cbn [app].
  - apply Hnext. destruct b; by apply output_nil.
  - cbn [kprintf_loop]. rewrite (proj2 (Z.eqb_neq c 0)), (proj2 (Z.eqb_neq c ESC)) by lia. wp_step.
    destruct b; cbn [Z.b2z Z.land Z.eqb negb].
    + change (negb (Z.land 1 IS_PRINTING_FLAG =? 0)) with true. cbv iota.
      eapply wp_mono; [apply emit_spec; [done|unfold is_byte; lia|done]|].
      cbv beta. intros _ k1 Hout. apply (IH k1); [apply Hout|done|]. intros k2 Hout2. apply Hnext.
      exact (output_trans [_] _ _ _ _ Hout Hout2).
    + by apply IH.
Qed.

Lemma kprintf_pieces ps rest k clr (b : bool) Q : Forall piece_ok ps -> con_ok k -> 0 <= clr ->
  (forall k' clr' (b' : bool), output (cells ps) k k' -> 0 <= clr' ->
    wp (kprintf_loop font8x16 rest clr' (Z.b2z b')) Q k') ->
  wp (kprintf_loop font8x16 (render ps ++ rest) clr (Z.b2z b)) Q k.
Proof using Hfont.
  intros Hps. revert k clr b. induction Hps as [|[d x] ps [Hd Hx] Hps IH]; intros k clr b Hk Hclr Hnext.
  - apply Hnext; [by apply output_nil|done].
  - cbn [fst snd] in Hd, Hx.
    assert (forall clr' (b' : bool), 0 <= clr' -> (if b' then (fun c => mkChar c clr') <$> x else []) = piece_cells (d, x) ->
      wp (kprintf_loop font8x16 (x ++ render ps ++ rest) clr' (Z.b2z b')) Q k) as Hrest.
    { intros clr' b' Hclr' Hcells. apply kprintf_text; [done|done|done|]. intros k1 H1. rewrite Hcells in H1.
      apply IH; [apply H1|done|]. intros k2 clr2 b2 H2 Hclr2. apply Hnext; [|done]. by apply (output_trans (piece_cells (d, x)) _ k k1). }
    unfold render. cbn [fmap list_fmap concat]. rewrite <- app_assoc. unfold piece_str. cbn [fst snd app kprintf_loop].
    change (ESC =? 0) with false. change (ESC =? ESC) with true. change (51 =? 0) with false. change (51 =? 51) with true.
    zfalse (48 + d =? 0). zfalse (48 + d =? 56). cbn [negb andb]. cbv iota.
    destruct (Z.eqb_spec (48 + d) 57) as [E9|E9].
    + assert (d = 9) as -> by lia. replace (Z.land (Z.b2z b) (cnot 8 IS_PRINTING_FLAG)) with (Z.b2z false) by by destruct b.
      by apply Hrest.
    + wp_step. unfold wp at 1. rewrite find_colour_spec by lia.
      replace (Z.lor (Z.b2z b) IS_PRINTING_FLAG) with (Z.b2z true) by by destruct b.
      apply Hrest; [apply colours_nonneg|]. unfold piece_cells. cbn [fst snd]. by rewrite (proj2 (Z.eqb_neq d 9)) by lia.
Qed.

(** A text of well-formed pieces is printed: every character in the colour of
    its piece, and nothing of a piece under KPRINTF_RESET. *)
Lemma kprintf_prints ps tail k : Forall piece_ok ps -> con_ok k ->
  wp (kprintf font8x16 (render ps ++ 0 :: tail)) (fun _ => output (cells ps) k) k.
Proof using Hfont.
  intros Hps Hk. apply (kprintf_pieces ps _ k WHITE false); [done|done|done|].
  intros k' clr b Ho _. cbn [kprintf_loop]. by apply wp_ret.
Qed.

(** *** The log *)

Lemma kprintf_init_spec k : con_ok k -> fb_wf (scr k) -> displays font8x16 (scr k) ->
  wp (kprintf_init font8x16) (fun _ k' => con_ok k' /\ dev k' = dev k /\ good_to_fb k' = true /\ log k' = log k /\
    abs (scr k') = t_cells (log k) (abs (scr k))) k.
Proof using Hfont.
  intros Hk Hw Hd. pose proof (length_log k Hk) as Hlen. unfold kprintf_init. wp_step. wp_step. wp_step. wp_step.
  cbn [curr_buf_ind]. pose proof (c_ind _ Hk) as Hi.
  eapply wp_mono; [apply (wp_forM (fun i k' => con_ok k' /\ dev k' = dev k /\ good_to_fb k' = true /\ buf k' = buf k /\
    curr_buf_ind k' = curr_buf_ind k /\ fb_wf (scr k') /\ displays font8x16 (scr k') /\
    abs (scr k') = t_cells (take (Z.to_nat i) (log k)) (abs (scr k))))|].
  - destruct Hk. split; [by split; [..|intros _]|]. by rewrite take_0.
  - intros i k1 Hin (Hk1 & Hdev & Hg & Hb & Hc & Hw1 & Hd1 & Ha). wp_step. wp_step. wp_step.
    destruct (lookup_lt_is_Some_2 (log k) (Z.to_nat i)) as [x Hx]; [lia|].
    assert (buf k !! Z.to_nat i = Some x) as Hx' by (unfold log in Hx; by apply lookup_take_Some in Hx as [? _]).
    rewrite Hb. unfold get_at. rewrite (proj2 (Z.leb_le 0 i)), Hx' by lia. wp_step. apply on_fb_spec.
    destruct (Forall_lookup_1 _ _ _ _ (c_cells _ Hk) Hx) as [Hc1 Hc2].
    eapply wp_mono; [by apply draw_spec|]. cbv beta. intros _ s' (Hw' & Hd' & Ha').
    cbn [set_scr scr dev good_to_fb buf curr_buf_ind]. split; [by destruct Hk1; split|].
    do 6 (split; [done|]). rewrite Ha', Ha, Z2Nat.inj_add, Nat.add_1_r by lia. rewrite (take_S_r _ _ x) by done.
    unfold t_cells. by rewrite fold_left_app.
  - cbv beta. rewrite Z.add_0_l, Z2Nat.id, take_ge by lia. intros _ k' (? & ? & ? & Eb & Ec & ? & ? & ?).
    do 3 (split; [done|]). split; [|done]. unfold log. by rewrite Eb, Ec.
Qed.

(** *** Malformed escapes *)

Lemma draw_string_shows x tail clr s : Forall (fun c => 0 < c < 256) x -> 0 <= clr -> fb_wf s -> displays font8x16 s ->
  wp (fb_draw_string font8x16 (x ++ 0 :: tail) clr) (fun _ s' => fb_wf s' /\ displays font8x16 s' /\
    abs s' = t_cells ((fun c => mkChar c clr) <$> x) (abs s)) s.
Proof using Hfont.
  intros Hx Hclr. revert s. induction Hx as [|c x Hc Hx IH]; intros s Hw Hd; cbn [app fb_draw_string]; [by apply wp_ret|].
  zfalse (c =? 0). wp_step. eapply wp_mono; [apply draw_spec; [done|done|lia|done]|]. cbv beta. intros _ s1 (Hw1 & Hd1 & Ha1).
  eapply wp_mono; [by apply IH|]. cbv beta. intros _ s2 (Hw2 & Hd2 & Ha2). split; [done|]. split; [done|]. by rewrite Ha2, Ha1.
Qed.

(** A message outside the log: on the line, and on the terminal when it is up. *)
Record notice (clr : Z) (x : list Z) k k' : Prop := mkNotice {
  n_ok : con_ok k';
  n_line : uart_of (dev k') = transmit x (uart_of (dev k));
  n_log : log k' = log k; n_good : good_to_fb k' = good_to_fb k;
  n_scr : if good_to_fb k then abs (scr k') = t_cells ((fun c => mkChar c clr) <$> x) (abs (scr k)) else scr k' = scr k
}.

Lemma notice_parts clr x k s d : con_ok k -> uart_of d = transmit x (uart_of (dev k)) ->
  (good_to_fb k = true -> fb_wf s /\ displays font8x16 s) ->
  (if good_to_fb k then abs s = t_cells ((fun c => mkChar c clr) <$> x) (abs (scr k)) else s = scr k) ->
  notice clr x k (mkCon d s (good_to_fb k) (buf k) (curr_buf_ind k)).
Proof. intros [] Hu Hs Ha. split; [|done..]. split; cbn; [by rewrite Hu|done..]. Qed.

Definition text_ok (x : list Z) : Prop := Forall (fun c => 0 < c < 256) x.
#[local] Instance text_ok_dec x : Decision (text_ok x).
Proof. unfold text_ok. apply _. Defined.

Lemma warn_spec msg k : text_ok (bytes_of msg) -> con_ok k ->
  wp (warn font8x16 msg) (fun _ => notice YELLOW (10 :: bytes_of msg ++ [10]) k) k.
Proof using Hfont.
  intros Hm Hk. set (x := 10 :: bytes_of msg ++ [10]).
  assert (text_ok x) as Hx. { apply Forall_cons. split; [done|]. apply Forall_app. by repeat constructor. }
  unfold warn. change (10 :: bytes_of msg ++ [10; 0]) with (10 :: bytes_of msg ++ [10] ++ [0]).
  replace (10 :: bytes_of msg ++ [10] ++ [0]) with (x ++ [0]) by (unfold x; by rewrite app_assoc).
  wp_step. wp_step. wp_step.
  assert (wp (if good_to_fb k then on_fb (fb_draw_string font8x16 (x ++ [0]) YELLOW) else retM tt) (fun _ k1 =>
    exists s, k1 = set_scr s k /\ (good_to_fb k = true -> fb_wf s /\ displays font8x16 s) /\
    if good_to_fb k then abs s = t_cells ((fun c => mkChar c YELLOW) <$> x) (abs (scr k)) else s = scr k) k) as Hdraw.
  { destruct (good_to_fb k) eqn:Eg; [|apply wp_ret; exists (scr k); by destruct k]. destruct (c_scr _ Hk Eg) as [Hw Hd].
    apply on_fb_spec. eapply wp_mono; [by apply (draw_string_shows x [])|]. cbv beta. intros _ s (? & ? & ?). by exists s. }
  eapply wp_mono; [exact Hdraw|]. cbv beta. intros _ k1 (s & -> & Hs & Ha). apply on_dev_spec.
  eapply wp_mono; [apply (serial_string_transmits x []); [done|apply Hk]|]. cbv beta. intros _ d Hu. by apply (notice_parts _ _ k s d).
Qed.

Inductive malformed : list Z -> string -> Prop :=
| cut_short_1 tail : malformed (ESC :: 0 :: tail) "kprintf: WARNING (malformed escape sequence, length err), returning early!"
| cut_short_2 a tail : a <> 0 -> malformed (ESC :: a :: 0 :: tail) "kprintf: WARNING (malformed escape sequence, length err), returning early!"
| not_a_colour a b tail : a <> 0 -> b <> 0 -> a <> 51 \/ b = 56 ->
    malformed (ESC :: a :: b :: tail) "kprintf: WARNING (malformed escape sequence, invalid seq), returning early!".

(** A malformed escape ends the text there, with a warning. *)
Lemma kprintf_malformed ps rest msg k : Forall piece_ok ps -> con_ok k -> malformed rest msg ->
  wp (kprintf font8x16 (render ps ++ rest)) (fun _ k' => exists k1,
    output (cells ps) k k1 /\ notice YELLOW (10 :: bytes_of msg ++ [10]) k1 k') k.
Proof using Hfont.
  intros Hps Hk Hm. apply (kprintf_pieces ps _ k WHITE false); [done|done|done|]. intros k1 clr b Ho _.
  assert (wp (warn font8x16 msg) (fun _ k' => exists k1, output (cells ps) k k1 /\ notice YELLOW (10 :: bytes_of msg ++ [10]) k1 k') k1) as Hw.
  { eapply wp_mono; [apply warn_spec; [|apply Ho]|]; [|by eauto].
    destruct Hm; apply (bool_decide_unpack _); vm_compute; exact I. }
  destruct Hm as [tail|a tail Ha|a b' tail Ha Hb Hab]; cbn [kprintf_loop]; change (ESC =? 0) with false; change (ESC =? ESC) with true; cbv iota.
  - exact Hw.
  - rewrite (proj2 (Z.eqb_neq a 0)) by done. exact Hw.
  - rewrite (proj2 (Z.eqb_neq a 0)), (proj2 (Z.eqb_neq b' 0)) by done.
    replace ((a =? 51) && negb (b' =? 56)) with false; [exact Hw|].
    destruct Hab as [Ha'| ->]; [|by rewrite andb_false_r]. by rewrite (proj2 (Z.eqb_neq a 51)).
Qed.

(** *** Numbers *)

Definition hex_nibs (v : Z) : list Z := (fun i => v / 16 ^ (7 - i) mod 16) <$> seqZ 0 8.
Definition hex_of (v : Z) : list Z := (fun n => hex_digits !!! Z.to_nat n) <$> hex_nibs v.

Definition hex_val (l : list Z) : Z := fold_left (fun a n => 16 * a + n) l 0.
Lemma hex_nibs_val v : is_u32 v -> hex_val (hex_nibs v) = v.
Proof.
  intros Hv. unfold is_u32 in Hv.
  assert (forall i j, j = i + 1 -> 0 <= i -> 16 * (v / 16 ^ j) + v / 16 ^ i mod 16 = v / 16 ^ i) as Hstep.
  { intros i j -> Hi. rewrite Z.pow_add_r, <- Z.div_div by lia. symmetry. apply Z.div_mod. lia. }
  unfold hex_nibs, hex_val. change (seqZ 0 8) with [0; 1; 2; 3; 4; 5; 6; 7]. cbn [fmap list_fmap fold_left].
  rewrite Z.mul_0_r, Z.add_0_l, (Z.mod_small (_ / 16 ^ (7 - 0))) by (change (16 ^ (7 - 0)) with 268435456; zlia).
  rewrite (Hstep (7 - 1)), (Hstep (7 - 2)), (Hstep (7 - 3)), (Hstep (7 - 4)), (Hstep (7 - 5)), (Hstep (7 - 6)), (Hstep (7 - 7)) by lia.
  apply Z.div_1_r.
Qed.

Lemma hex_digit_ok n : 0 <= n < 16 -> exists c, hex_digits !! Z.to_nat n = Some c /\ 0 < c < 256.
Proof.
  intros Hn. destruct (lookup_lt_is_Some_2 hex_digits (Z.to_nat n)) as [c Hc].
  { change (length hex_digits) with 16%nat. lia. }
  exists c. split; [done|]. assert (Forall (fun c => 0 < c < 256) hex_digits) as HF by by repeat constructor.
  exact (Forall_lookup_1 _ _ _ _ HF Hc).
Qed.

(** print_hex draws on the console whether it is up or not; here it is. *)
Lemma print_hex_spec v clr k : is_u32 v -> 0 <= clr -> con_ok k -> good_to_fb k = true ->
  wp (print_hex font8x16 v clr) (fun _ => notice clr (hex_of v) k) k.
Proof using Hfont.
  intros Hv Hclr Hk Hg. unfold print_hex.
  eapply wp_mono; [apply (wp_forM (fun j k' => notice clr (take (Z.to_nat j) (hex_of v)) k k'))|].
  - split; [done|by rewrite transmit_nil|done|done|by rewrite Hg].
  - intros j k1 Hj [Hk1 Hu Hl Hg1 Ha]. rewrite Hg in Ha. 
    assert (Z.land (v ≫ ((7 - j) * 4)) 15 = v / 16 ^ (7 - j) mod 16) as Hnib.
    { change 15 with (Z.ones 4). rewrite Z.land_ones, Z.shiftr_div_pow2 by lia. do 2 f_equal. change 16 with (2 ^ 4).
      rewrite <- Z.pow_mul_r by lia. f_equal. lia. }
    rewrite Hnib. set (n := v / 16 ^ (7 - j) mod 16). assert (0 <= n < 16) as Hn by (apply Z.mod_pos_bound; lia).
    destruct (hex_digit_ok n Hn) as (c & Hc & Hcb).
    assert (hex_of v !! Z.to_nat j = Some c) as Hlk.
    { unfold hex_of, hex_nibs. rewrite !list_lookup_fmap, lookup_seqZ_lt by lia. cbn. rewrite Z2Nat.id by lia. fold n.
      by rewrite (list_lookup_total_correct _ _ _ Hc). }
    wp_step. unfold get_at. rewrite (proj2 (Z.leb_le 0 n)), Hc by lia. wp_step. wp_step. apply on_dev_spec.
    eapply wp_mono; [apply serial_char_transmits; [unfold is_byte; lia|apply Hk1]|]. cbv beta. intros _ d Hd.
    apply on_fb_spec. destruct (c_scr _ Hk1) as [Hw Hdis]; [congruence|].
    eapply wp_mono; [apply draw_spec; [done|done|lia|done]|]. cbv beta. intros _ s (Hw' & Hd' & Ha').
    rewrite Z2Nat.inj_add, Nat.add_1_r, (take_S_r _ _ c) by (done || lia).
    destruct Hk1. split; cbn [set_dev set_scr dev scr good_to_fb].
    + split; cbn; [by rewrite Hd|done..].
    + by rewrite Hd, Hu, <- transmit_app.
    + done.
    + done.
    + cbn [set_dev scr] in Ha'. rewrite Hg, Ha', Ha. unfold t_cells. by rewrite fmap_app, fold_left_app.
  - cbv beta. intros _ k'. by rewrite take_ge.
Qed.

(** panic writes its message on the console and stops for good. *)
Lemma panic_spec {A} msg k : text_ok (bytes_of msg) -> fb_wf (scr k) -> displays font8x16 (scr k) ->
  exists s, panic (A := A) font8x16 msg k = Halted (Panic msg) (set_scr s k) /\ displays font8x16 s /\
    abs s = t_cells ((fun c => mkChar c RED) <$> (10 :: bytes_of msg)) (abs (scr k)).
Proof using Hfont.
  intros Hm Hw Hd. unfold panic, on_fb, onM, bindM.
  destruct (wp_inv _ _ _ (draw_spec (scr k) 10 RED Hw Hd ltac:(lia) ltac:(done))) as (u & s1 & E1 & Hw1 & Hd1 & Ha1). rewrite E1.
  destruct (wp_inv _ _ _ (draw_string_shows (bytes_of msg) [] RED s1 Hm ltac:(done) Hw1 Hd1)) as (u2 & s2 & E2 & Hw2 & Hd2 & Ha2).
  cbn [scr set_scr]. rewrite E2. exists s2. split; [done|]. split; [done|]. rewrite Ha2, Ha1. done.
Qed.
End spec.

(** ** What printing leaves alone

    A property of the devices that the serial port does not disturb outlives
    every routine of this file. *)

Section frame.
Context {D : Type} `{Ports D} (font8x16 : list Z) (R : D -> Prop).
Context (Rin : forall d, R d -> R (in8 (COM1 + 5) d).2) (Rout : forall d v, is_byte v -> R d -> R (out8 COM1 v d)).
Local Abbreviation con := (console D).

Definition dev_keeps {A} (m : M con A) : Prop := forall k a k', m k = Done a k' -> R (dev k) -> R (dev k').

Lemma dev_keeps_ret {A} (a : A) : dev_keeps (retM a).
Proof. by intros k x k' [= _ <-]. Qed.
Lemma dev_keeps_halt {A} h : dev_keeps (haltM (A := A) h).
Proof. by intros k x k' [=]. Qed.
Lemma dev_keeps_bind {A B} (m : M con A) (f : A -> M con B) : dev_keeps m -> (forall a, dev_keeps (f a)) -> dev_keeps (bindM m f).
Proof. intros Hm Hf k b k' E HR. apply bindM_inv in E as (a & k1 & E1 & E2). eapply Hf; [exact E2|]. by eapply Hm. Qed.
Lemma dev_keeps_get {B} (f : con -> M con B) : (forall k, dev_keeps (f k)) -> dev_keeps (bindM getM f).
Proof. intros Hf. apply dev_keeps_bind; [|done]. by intros k a k' [= <- <-]. Qed.
Lemma dev_keeps_if {A} (c : bool) (m n : M con A) : dev_keeps m -> dev_keeps n -> dev_keeps (if c then m else n).
Proof. by destruct c. Qed.
Lemma dev_keeps_fb {A} (op : FbM A) : dev_keeps (on_fb op).
Proof. intros k a k' E HR. unfold on_fb, onM in E. destruct (op (scr k)); [by injection E as <- <-|done]. Qed.
Lemma dev_keeps_get_at {A} (l : list A) i : dev_keeps (get_at l i).
Proof. unfold get_at. destruct (if 0 <=? i then _ else _); [apply dev_keeps_ret|apply dev_keeps_halt]. Qed.
Lemma dev_keeps_for n i (body : Z -> M con unit) : (forall j, dev_keeps (body j)) -> dev_keeps (forM n i body).
Proof. intros Hb. revert i. induction n as [|n IH]; intros i; [apply dev_keeps_ret|]. by apply dev_keeps_bind. Qed.

Lemma await_keeps n d u d' : await_transmitter n d = Done u d' -> R d -> R d'.
Proof using Rin.
  revert d. induction n as [|n IH]; intros d E HR; [done|]. cbn [await_transmitter] in E. unfold bindM, inb in E.
  change (u16 (COM1 + 5)) with (COM1 + 5) in E. pose proof (Rin d HR) as HR1. destruct (in8 (COM1 + 5) d) as [v d1]. cbn [snd] in HR1.
  destruct (_ =? 0); [by eapply IH|]. by injection E as _ <-.
Qed.
Lemma dev_keeps_serial c : dev_keeps (on_dev (serial_write_char c)).
Proof using Rin Rout.
  intros k a k' E HR. unfold on_dev, onM, serial_write_char, bindM in E.
  destruct (await_transmitter patience (dev k)) as [u d1|] eqn:E1; [|done]. apply await_keeps in E1; [|done].
  injection E as _ <-. apply Rout; [unfold is_byte, u8; zlia|done].
Qed.
Lemma dev_keeps_serial_string str : dev_keeps (on_dev (serial_write_string str)).
Proof using Rin Rout.
  induction str as [|c str IH]; [by intros k a k' [=]|]. intros k a k' E HR. unfold on_dev, onM in E. cbn [serial_write_string] in E.
  destruct (c =? 0); [by injection E as _ <-|].
  unfold bindM in E. destruct (serial_write_char c (dev k)) as [u d1|] eqn:E1; [|done].
  assert (R d1) as HR1.
  { apply (dev_keeps_serial c k tt (set_dev d1 k)); [|done]. unfold on_dev, onM. by rewrite E1; destruct u. }
  apply (IH (set_dev d1 k) a k'); [|done]. unfold on_dev, onM. cbn [dev set_dev]. destruct (serial_write_string str d1); [|done]. by injection E as <- <-.
Qed.

Lemma dev_keeps_log x : dev_keeps (log_char x).
Proof.
  intros k a k' E HR. unfold log_char, bindM, getM in E. destruct (_ <? _); [|by injection E as _ <-].
  destruct (_ <=? _); [done|]. by injection E as _ <-.
Qed.
Lemma dev_keeps_warn msg : dev_keeps (warn font8x16 msg).
Proof using Rin Rout.
  apply dev_keeps_get. intros k. apply dev_keeps_bind; [|intros _; apply dev_keeps_serial_string]. apply dev_keeps_if; [apply dev_keeps_fb|apply dev_keeps_ret].
Qed.
Lemma dev_keeps_emit c clr : dev_keeps (emit font8x16 c clr).
Proof using Rin Rout.
  apply dev_keeps_get. intros k. apply dev_keeps_bind; [apply dev_keeps_if; [apply dev_keeps_fb|apply dev_keeps_ret]|]. intros _.
  apply dev_keeps_bind; [apply dev_keeps_log|]. intros _. apply dev_keeps_serial.
Qed.
Lemma dev_keeps_find entries seq clr : dev_keeps (find_colour (D := D) entries seq clr).
Proof.
  induction entries as [|[e c] entries IH]; [apply dev_keeps_ret|]. cbn [find_colour].
  destruct (streq seq e) as [[]|]; [apply dev_keeps_ret|done|apply dev_keeps_halt].
Qed.

Lemma dev_keeps_kprintf_loop str clr fl : dev_keeps (kprintf_loop font8x16 str clr fl).
Proof using Rin Rout.
  revert clr fl. induction str as [[|c str] IH] using (induction_ltof1 _ (@length Z)); intros clr fl; [apply dev_keeps_halt|].
  cbn [kprintf_loop]. apply dev_keeps_if; [apply dev_keeps_ret|]. apply dev_keeps_if.
  - destruct str as [|s1 str]; [apply dev_keeps_halt|]. apply dev_keeps_if; [apply dev_keeps_warn|].
    destruct str as [|s2 str]; [apply dev_keeps_halt|]. apply dev_keeps_if; [apply dev_keeps_warn|]. apply dev_keeps_if; [|apply dev_keeps_warn].
    apply dev_keeps_if; [apply IH; unfold ltof; simpl; lia|]. apply dev_keeps_bind; [apply dev_keeps_find|]. intros clr'. apply IH. unfold ltof. simpl. lia.
  - apply dev_keeps_bind; [apply dev_keeps_if; [apply dev_keeps_emit|apply dev_keeps_ret]|]. intros _. apply IH. unfold ltof. simpl. lia.
Qed.
Lemma dev_keeps_kprintf str : dev_keeps (kprintf font8x16 str).
Proof using Rin Rout. apply dev_keeps_kprintf_loop. Qed.
Lemma dev_keeps_print_hex v clr : dev_keeps (print_hex font8x16 v clr).
Proof using Rin Rout.
  apply dev_keeps_for. intros j. apply dev_keeps_bind; [apply dev_keeps_get_at|]. intros c. apply dev_keeps_bind; [apply dev_keeps_serial|]. intros _. apply dev_keeps_fb.
Qed.
End frame.

(** ** Reports

    Diagnostics made of several messages, numbers and names in one colour, once
    the console is up. *)

(** A message of one piece and KPRINTF_RESET. *)
Definition message {D} `{Ports D} (font8x16 : list Z) (digit : Z) (text : list Z) : M (console D) unit :=
  kprintf font8x16 (render [(digit, text); (9, [])] ++ [0]).

Section report.
Context {D : Type} `{Uart D} (font8x16 : list Z) (Hfont : length font8x16 = 4096%nat).
Local Abbreviation con := (console D).
Implicit Types k : con.

(** [x] went out on the line and [z] appeared on the terminal in colour [clr]. *)
Record shown (clr : Z) (x z : list Z) k k' : Prop := mkShown {
  sh_ok : con_ok font8x16 k'; sh_good : good_to_fb k' = true;
  sh_line : uart_of (dev k') = transmit x (uart_of (dev k));
  sh_scr : abs (scr k') = t_cells ((fun c => mkChar c clr) <$> z) (abs (scr k))
}.

Lemma shown_nil clr k : con_ok font8x16 k -> good_to_fb k = true -> shown clr [] [] k k.
Proof. intros Hk Hg. split; [done|done|by rewrite transmit_nil|done]. Qed.
Lemma shown_app clr x z x' z' k k1 k2 : shown clr x z k k1 -> shown clr x' z' k1 k2 -> shown clr (x ++ x') (z ++ z') k k2.
Proof.
  intros [K1 G1 L1 S1] [K2 G2 L2 S2]. split; [done|done| |].
  - by rewrite L2, L1, <- transmit_app.
  - rewrite S2, S1. unfold t_cells. by rewrite fmap_app, fold_left_app.
Qed.

Definition reports (clr : Z) (x z : list Z) (m : M con unit) : Prop :=
  forall k, con_ok font8x16 k -> good_to_fb k = true -> wp m (fun _ => shown clr x z k) k.

Lemma reports_nil clr : reports clr [] [] (retM tt).
Proof. intros k Hk Hg. apply wp_ret. by apply shown_nil. Qed.
Lemma reports_seq clr x z x' z' (m n : M con unit) : reports clr x z m -> reports clr x' z' n -> reports clr (x ++ x') (z ++ z') (m ;;; n).
Proof.
  intros Hm Hn k Hk Hg. wp_step. eapply wp_mono; [by apply Hm|]. cbv beta. intros _ k1 Hs1.
  eapply wp_mono; [apply Hn; by destruct Hs1|]. cbv beta. intros _ k2 Hs2. by eapply shown_app.
Qed.

Lemma reports_message d text : 0 <= d <= 7 -> Forall (fun c => 0 < c < 256 /\ c <> ESC) text ->
  reports (colours !!! Z.to_nat d) text text (message font8x16 d text).
Proof using Hfont.
  intros Hd Ht k Hk Hg.
  eapply wp_mono; [apply (kprintf_prints font8x16 Hfont [(d, text); (9, [])] []); [|done]|].
  { constructor; [by split; [left|]|]. constructor; [|done]. split; [by right|done]. }
  cbv beta. intros _ k' [K1 L1 G1 S1 _].
  assert (cells [(d, text); (9, [])] = (fun c => mkChar c (colours !!! Z.to_nat d)) <$> text) as E.
  { unfold cells, piece_cells. cbn [fmap list_fmap fst snd concat]. rewrite (proj2 (Z.eqb_neq d 9)) by lia. by rewrite !app_nil_r. }
  rewrite E in *. rewrite Hg in S1. split; [done|by rewrite G1| |done].
  rewrite L1, <- list_fmap_compose. f_equal. by rewrite list_fmap_id.
Qed.
Lemma reports_serial clr x (m : M D unit) : (forall d, dlab (uart_of d) = false -> wp m (fun _ d' => uart_of d' = transmit x (uart_of d)) d) ->
  reports clr x [] (on_dev m).
Proof.
  intros Hm k Hk Hg. apply on_dev_spec. eapply wp_mono; [apply Hm, Hk|]. cbv beta. intros _ d Hd.
  split; [|done|done|done]. destruct Hk. split; cbn; [by rewrite Hd|done..].
Qed.
Lemma reports_draw clr x : text_ok x -> 0 <= clr -> reports clr [] x (on_fb (fb_draw_string font8x16 (x ++ [0]) clr)).
Proof using Hfont.
  intros Hx Hc k Hk Hg. apply on_fb_spec. destruct (c_scr _ _ Hk Hg) as [Hw Hd].
  eapply wp_mono; [by apply (draw_string_shows font8x16 Hfont x [])|]. cbv beta. intros _ s (Hw' & Hd' & Ha).
  split; [|done|by rewrite transmit_nil|done]. destruct Hk. by split.
Qed.
Lemma reports_hex clr v : is_u32 v -> 0 <= clr -> reports clr (hex_of v) (hex_of v) (print_hex font8x16 v clr).
Proof using Hfont.
  intros Hv Hc k Hk Hg. eapply wp_mono; [by apply print_hex_spec|]. cbv beta.
  intros _ k' [K1 L1 _ G1 S1]. rewrite Hg in S1. split; [done|by rewrite G1|done|done].
Qed.
End report.

(** Texts of the source are made of characters. *)
Ltac chars := repeat constructor; (lia || discriminate || (unfold ESC; lia)).

(** ** The boot log *)

Section boot_log.
Context {D : Type} `{Uart D} (font8x16 : list Z).
Local Abbreviation con := (console D).
Implicit Types k : con.

Fixpoint kprintfs (ms : list (list piece)) : M con unit :=
  match ms with
  | [] => retM tt
  | m :: ms => kprintf font8x16 (render m ++ [0]) ;;; kprintfs ms
  end.

Lemma cells_app ps qs : cells (ps ++ qs) = cells ps ++ cells qs.
Proof. unfold cells. by rewrite fmap_app, concat_app. Qed.

Lemma kprintfs_prints ms k : length font8x16 = 4096%nat -> Forall (Forall piece_ok) ms -> con_ok font8x16 k ->
  wp (kprintfs ms) (fun _ => output font8x16 (cells (concat ms)) k) k.
Proof.
  intros Hf Hms. revert k. induction Hms as [|m ms Hm Hms IH]; intros k Hk; cbn [kprintfs concat].
  - apply wp_ret. by apply output_nil.
  - wp_step. eapply wp_mono; [by apply (kprintf_prints font8x16 Hf m [])|]. cbv beta. intros _ k1 H1.
    eapply wp_mono; [apply IH, H1|]. cbv beta. intros _ k2 H2. rewrite cells_app. by eapply output_trans.
Qed.

(** C24. The boot log: messages printed before the console is up appear on it,
    in order, colour and place, ahead of the later ones, as soon as it is.  After
    messages [ms1], the set-up of a screen [s], [kprintf_init] and messages
    [ms2], the terminal has received exactly the text of [ms1] and [ms2], the
    screen shows it, and the same bytes went out on the serial line, provided
    [ms1] fits the log of 32768 characters. *)
Theorem kprintf_boot_log ms1 ms2 (s : fb) k :
  length font8x16 = 4096%nat -> con_ok font8x16 k -> good_to_fb k = false -> log k = [] ->
  Forall (Forall piece_ok) ms1 -> Forall (Forall piece_ok) ms2 -> fb_wf s -> displays font8x16 s ->
  (length (cells (concat ms1)) <= LOG_CELLS)%nat ->
  let xs := cells (concat (ms1 ++ ms2)) in
  wp (kprintfs ms1 ;;; modM (set_scr s) ;;; kprintf_init font8x16 ;;; kprintfs ms2) (fun _ k' =>
    abs (scr k') = t_cells xs (abs s) /\ fb_wf (scr k') /\ displays font8x16 (scr k') /\
    sent (uart_of (dev k')) = sent (uart_of (dev k)) ++ (ch <$> xs)) k.
Proof.
  intros Hf Hk Hg Hl Hm1 Hm2 Hw Hd Hfit xs. wp_step.
  eapply wp_mono; [by apply kprintfs_prints|]. cbv beta. intros _ k1 [K1 L1 G1 _ B1].
  rewrite Hl, app_nil_l, take_ge in B1 by done. wp_step. wp_step. wp_step.
  assert (con_ok font8x16 (set_scr s k1)) as K1' by (destruct K1; by split).
  eapply wp_mono; [by apply kprintf_init_spec|]. cbv beta. intros _ k2 (K2 & D2 & G2 & B2 & S2).
  eapply wp_mono; [by apply kprintfs_prints|]. cbv beta. intros _ k3 [K3 L3 G3 S3 _].
  rewrite G2 in S3, G3. destruct (c_scr _ _ K3 G3) as [Hw3 Hd3]. split; [|split; [done|split; [done|]]].
  - rewrite S3, S2. change (log (set_scr s k1)) with (log k1). rewrite B1. unfold t_cells. rewrite <- fold_left_app.
    unfold xs. by rewrite concat_app, cells_app.
  - rewrite L3, D2. cbn [set_scr dev]. rewrite L1. cbn [transmit sent]. unfold xs. by rewrite concat_app, cells_app, fmap_app, app_assoc.
Qed.
End boot_log.

(** Two messages around the set-up of a console of two rows and three columns. *)
Definition demo_con : console SlowLine.line := mkCon SlowLine.idle demo_screen false (replicate LOG_CELLS blank) 0.

Lemma demo_con_ok : con_ok demo_font demo_con.
Proof. split; [done|apply length_replicate|cbn [curr_buf_ind demo_con]; lia|constructor|done]. Qed.

Lemma kprintf_boot_log_witness : exists k',
  (kprintfs demo_font [[(2, [42]); (9, [33]); (7, [33])]] ;;; modM (set_scr demo_screen) ;;; kprintf_init demo_font ;;;
    kprintfs demo_font [[(1, [75])]]) demo_con = Done tt k' /\
  t_screen (abs (scr k')) = [mkChar 42 GREEN; mkChar 33 WHITE; mkChar 75 RED; blank; blank; blank] /\
  sent (SlowLine.regs (dev k')) = [42; 33; 75].
Proof.
  destruct demo_screen_ok as [Hw Hd].
  destruct (wp_inv _ _ _ (kprintf_boot_log demo_font [[(2, [42]); (9, [33]); (7, [33])]] [[(1, [75])]] demo_screen demo_con
    demo_font_length demo_con_ok eq_refl eq_refl ltac:(by repeat constructor; cbn; (lia || done)) ltac:(by repeat constructor; cbn; (lia || done)) Hw Hd
    ltac:(apply Nat.leb_le; vm_compute; reflexivity))) as ([] & k' & E & Ha & _ & _ & Hs).
  exists k'. split; [exact E|]. split; [by rewrite Ha|exact Hs].
Defined.
