(* ===== verification/Ata.v ===== *)
(** * The ATA driver at its ports: kernel/drivers/disk/ata.c

    The transfers of [Disk] are promises about a drive; here is the code that
    keeps them, with every port access, polling loop and panic.  The drives are
    hardware: the class [AtaBus] says what the driver relies on, a programming
    model [bus] of the two drives on the primary channel (task file registers
    two deep for 48-bit addresses, a data port that passes whole sectors) and a
    bounded time in which a drive is busy.  A buffer is a list of bytes the code
    accesses as little-endian words. *)
From S2P Require Import Prelude Bytes CLib Disk Screen ScreenSpec Ports Kprintf.

Definition MAX_POLL_REPEAT : positive := 100000000.
Definition DRIVE_SELECT_IO_PORT : Z := 0x1F6.
Definition SECTOR_COUNT_PORT : Z := 0x1F2.
Definition LBA_LO_PORT : Z := 0x1F3.
Definition LBA_MID_PORT : Z := 0x1F4.
Definition LBA_HI_PORT : Z := 0x1F5.
Definition COMMAND_IO_PORT : Z := 0x1F7.
Definition STATUS_PORT : Z := COMMAND_IO_PORT.
Definition DATA_PORT : Z := 0x1F0.
Definition ALT_STATUS_PORT : Z := 0x3F6.
Definition ERR_PORT : Z := 0x1F1.
Definition DEVICE_CONTROL_PORT : Z := ALT_STATUS_PORT.
Definition BSY_BIT : Z := Z.shiftl 1 7.
Definition DRQ_BIT : Z := Z.shiftl 1 3.
Definition DF_BIT : Z := Z.shiftl 1 5.
Definition ERR_BIT : Z := 1.
Definition NIEN_BIT : Z := 2.
Definition READ_EXT : Z := 0x24.
Definition WRITE_EXT : Z := 0x34.
Definition IDENTIFY_VALUE_LENGTH : nat := 256.
Definition WORDS_PER_SECTOR : Z := BYTES_PER_SECTOR / 2.
Definition IDENTIFY_CMD : Z := 0xEC.
Definition FLUSH_EXT_CMD : Z := 0xEA.
Definition FLUSH_CACHE_CMD : Z := 0xE7.
Definition LBA48_MASTER_DRIVE : Z := 0x40.
Definition LBA48_SLAVE_DRIVE : Z := 0x50.

(** [struct ata_drive]; the first two fields used later are those of [Disk]. *)
Record drive_info : Type := mkInfo { identify_magic : Z; geometry48 : ata_drive; identify_values : list Z }.

(** The console, for diagnostics, and the statics of the file. *)
Record ata (D : Type) : Type := mkAta {
  con : console D; master : drive_info; slave : drive_info; has_slave : bool
}.
Arguments mkAta {D}. Arguments con {D}. Arguments master {D}. Arguments slave {D}. Arguments has_slave {D}.

Definition set_values (i : nat) (v : Z) (d : drive_info) : drive_info :=
  mkInfo (identify_magic d) (geometry48 d) (<[i := v]> (identify_values d)).
Definition set_geometry (g : ata_drive) (d : drive_info) : drive_info := mkInfo (identify_magic d) g (identify_values d).
Definition set_magic (m : Z) (d : drive_info) : drive_info := mkInfo m (geometry48 d) (identify_values d).

Section driver.
Context {D : Type} `{Ports D} (font8x16 : list Z).
Local Abbreviation KM := (M (console D)).
Local Abbreviation AM := (M (ata D)).

Definition isset (v bit : Z) : bool := negb (Z.land v bit =? 0).

Definition set_con (k : console D) (a : ata D) : ata D := mkAta k (master a) (slave a) (has_slave a).
Definition set_master (d : drive_info) (a : ata D) : ata D := mkAta (con a) d (slave a) (has_slave a).
Definition set_slave (d : drive_info) (a : ata D) : ata D := mkAta (con a) (master a) d (has_slave a).
Definition set_has_slave (b : bool) (a : ata D) : ata D := mkAta (con a) (master a) (slave a) b.
Definition on_con {A} (op : KM A) : AM A := onM con set_con op.

Definition poll : KM unit :=
  let* test := on_dev (inb STATUS_PORT) in
  let* r := iterM MAX_POLL_REPEAT (fun test =>
    if isset test DF_BIT || isset test ERR_BIT then
      let* err := on_dev (inb ERR_PORT) in
      print_hex font8x16 err RED ;;;
      panic font8x16 "KERNEL PANIC: POLL ABORTED"
    else if negb (isset test BSY_BIT) && isset test DRQ_BIT then retM (inr tt)
    else let* test := on_dev (inb STATUS_PORT) in retM (inl test)) test in
  match r with
  | inr _ => retM tt
  | inl _ => panic font8x16 "KERNEL PANIC: POLL UNRESPONSIVE"
  end.

Definition wait_bsy_clear : KM unit :=
  let* r := iterM MAX_POLL_REPEAT (fun _ : unit =>
    let* v := on_dev (inb STATUS_PORT) in
    if negb (isset v BSY_BIT) then retM (inr tt) else retM (inl tt)) tt in
  match r with
  | inr _ => retM tt
  | inl _ => panic font8x16 "KERNEL PANIC: BSY CLEAR UNRESPONSIVE"
  end.

Definition wait_100_ns : KM unit := let* _ := on_dev (inb ALT_STATUS_PORT) in retM tt.
(** [for (int k = 0; k < 4; k++) wait_100_ns();] *)
Definition settle : KM unit := forM 4 0 (fun _ => wait_100_ns).

Definition ata_identify (drive : Z) : AM bool :=
  let out port v := on_con (on_dev (outb port v)) in
  out DRIVE_SELECT_IO_PORT drive ;;;
  on_con settle ;;;
  out SECTOR_COUNT_PORT 0 ;;;
  out LBA_LO_PORT 0 ;;;
  out LBA_MID_PORT 0 ;;;
  out LBA_HI_PORT 0 ;;;
  out COMMAND_IO_PORT IDENTIFY_CMD ;;;
  let* identity := on_con (on_dev (inb STATUS_PORT)) in
  if (identity =? 0) || (identity =? 0xFF) then
    if drive =? ATA_MASTER then on_con (panic font8x16 "KERNEL PANIC: FLOATING BUS ON MASTER DRIVE")
    else
      on_con (kprintf font8x16 (render [(1, 10 :: bytes_of "WARNING: FLOATING BUS ON SLAVE DRIVE"); (9, [])] ++ [0])) ;;;
      retM false
  else
    on_con wait_bsy_clear ;;;
    (* the second port is read only when the first answers 0 *)
    let* mid := on_con (on_dev (inb LBA_MID_PORT)) in
    let* bad := (if negb (mid =? 0) then retM true
                 else let* hi := on_con (on_dev (inb LBA_HI_PORT)) in retM (negb (hi =? 0))) in
    if bad then
      if drive =? ATA_MASTER then on_con (panic font8x16 "KERNEL PANIC: INCOMPATIBLE HARDWARE ON MASTER DRIVE")
      else
        on_con (kprintf font8x16 (render [(1, 10 :: bytes_of "WARNING: INCOMPATBILE HARDWARE ON SLAVE DRIVE"); (9, [])] ++ [0])) ;;;
        retM false
    else
      on_con poll ;;;
      forM IDENTIFY_VALUE_LENGTH 0 (fun i =>
        let* val := on_con (on_dev (inw DATA_PORT)) in
        if drive =? ATA_MASTER then modM (fun a => set_master (set_values (Z.to_nat i) val (master a)) a)
        else modM (fun a => set_slave (set_values (Z.to_nat i) val (slave a)) a)) ;;;
      retM true.

(** The early return and the panic in front of both transfers. *)
Definition sector_bounds (drive lba count : Z) : AM bool :=
  let* a := getM in
  let check n :=
    if n <? u64 (lba + count) then on_con (panic font8x16 "KERNEL PANIC: LBA OUT OF BOUNDS") else retM true in
  if drive =? ATA_MASTER then check (lba_sector_count (geometry48 (master a)))
  else if drive =? ATA_SLAVE then check (lba_sector_count (geometry48 (slave a)))
  else retM false.

(** The drive, the two halves of count and address, and the command.  outb
    keeps the low byte of what it is given. *)
Definition send_command (drive lba count cmd : Z) : KM unit :=
  (if drive =? ATA_MASTER then on_dev (outb DRIVE_SELECT_IO_PORT LBA48_MASTER_DRIVE)
   else on_dev (outb DRIVE_SELECT_IO_PORT LBA48_SLAVE_DRIVE)) ;;;
  on_dev (outb SECTOR_COUNT_PORT (Z.shiftr count 8)) ;;;
  on_dev (outb LBA_LO_PORT (Z.shiftr lba 24)) ;;;
  on_dev (outb LBA_MID_PORT (Z.shiftr lba 32)) ;;;
  on_dev (outb LBA_HI_PORT (Z.shiftr lba 40)) ;;;
  on_dev (outb SECTOR_COUNT_PORT (Z.land count 0xFF)) ;;;
  on_dev (outb LBA_LO_PORT (Z.land lba 0xFF)) ;;;
  on_dev (outb LBA_MID_PORT (Z.shiftr lba 8)) ;;;
  on_dev (outb LBA_HI_PORT (Z.shiftr lba 16)) ;;;
  on_dev (outb COMMAND_IO_PORT cmd).

(** [for (j < WORDS_PER_SECTOR) buf[i * WORDS_PER_SECTOR + j] = inw(DATA_PORT);]
    with the buffer threaded through; a store behind it is a fault. *)
Fixpoint read_words (n : nat) (at_word : Z) (buf : list Z) : KM (list Z) :=
  match n with
  | O => retM buf
  | S n =>
      let* val := on_dev (inw DATA_PORT) in
      if Z.of_nat (length buf) <? 2 * at_word + 2 then haltM Fault
      else read_words n (at_word + 1) (st16 buf (2 * at_word) val)
  end.
Fixpoint read_loop (n : nat) (i : Z) (buf : list Z) : KM (list Z) :=
  match n with
  | O => retM buf
  | S n =>
      poll ;;;
      let* buf := read_words (Z.to_nat WORDS_PER_SECTOR) (i * WORDS_PER_SECTOR) buf in
      settle ;;;
      read_loop n (i + 1) buf
  end.

Definition ata_read48 (drive lba count : Z) (buf : list Z) : AM (list Z) :=
  let* ok := sector_bounds drive lba count in
  if negb ok then retM buf
  else
    on_con wait_bsy_clear ;;;
    on_con (send_command drive lba count READ_EXT) ;;;
    on_con settle ;;;
    on_con (read_loop (Z.to_nat count) 0 buf).

Definition write_words (i : Z) (buf : list Z) : KM unit :=
  forM (Z.to_nat WORDS_PER_SECTOR) 0 (fun j =>
    let off := 2 * (i * WORDS_PER_SECTOR + j) in
    if Z.of_nat (length buf) <? off + 2 then haltM Fault else on_dev (outw DATA_PORT (ld16 buf off))).

Definition ata_write48 (drive lba count : Z) (buf : list Z) : AM unit :=
  let* ok := sector_bounds drive lba count in
  if negb ok then retM tt
  else
    on_con wait_bsy_clear ;;;
    on_con (send_command drive lba count WRITE_EXT) ;;;
    on_con (forM (Z.to_nat count) 0 (fun i => poll ;;; write_words i buf ;;; settle)) ;;;
    on_con wait_bsy_clear ;;;
    on_con (on_dev (outb COMMAND_IO_PORT FLUSH_EXT_CMD)) ;;;
    on_con settle ;;;
    on_con wait_bsy_clear.

Definition flush_drive (select : Z) : KM unit :=
  on_dev (outb DRIVE_SELECT_IO_PORT select) ;;;
  on_dev (outb COMMAND_IO_PORT FLUSH_CACHE_CMD) ;;;
  settle ;;;
  wait_bsy_clear.
Definition ata_flush_drives : AM unit :=
  on_con (flush_drive LBA48_MASTER_DRIVE) ;;;
  let* a := getM in
  if has_slave a then on_con (flush_drive LBA48_SLAVE_DRIVE) else retM tt.

Definition slave_warning : list Z :=
  10 :: bytes_of "Identification failed for the slave driver. Highly recommended to reboot and try again if you are sure this is not a hardware issue. Initialization has continued without." ++ [10].

(** The rest of [ata_init], from the answers of both drives on. *)
Definition init_geometry (b : bool) : AM unit :=
  let* a := getM in
  let vals := identify_values (master a) in
  modM (set_master (set_geometry (mkDrive (identify_supports vals) (identify_lba_count vals)) (master a))) ;;;
  (if b then
     let vals := identify_values (slave a) in
     modM (set_slave (set_geometry (mkDrive (identify_supports vals) (identify_lba_count vals)) (slave a)))
   else retM tt) ;;;
  let* a := getM in
  if negb (supports_read48 (geometry48 (master a))) then
    on_con (panic font8x16 "KERNEL PANIC: INCOMPATBILE HARDWARE, NO 48-BIT PIO SUPPORT")
  else if b && negb (supports_read48 (geometry48 (slave a))) then
    on_con (kprintf font8x16 (render [(3, 10 :: bytes_of "Slave drive does not support read48, unusable."); (9, [])] ++ [0])) ;;;
    modM (set_slave (set_geometry (mkDrive (supports_read48 (geometry48 (slave a))) 0) (slave a)))
  else retM tt.

Definition ata_init : AM unit :=
  modM (fun a => set_slave (set_magic ATA_SLAVE (slave a)) (set_master (set_magic ATA_MASTER (master a)) a)) ;;;
  let* _ := ata_identify ATA_MASTER in
  let* b := ata_identify ATA_SLAVE in
  modM (set_has_slave true) ;;;
  (if negb b then
     modM (set_has_slave false) ;;;
     on_con (kprintf font8x16 (render [(3, slave_warning); (9, [])] ++ [0]))
   else retM tt) ;;;
  on_con (on_dev (outb DEVICE_CONTROL_PORT NIEN_BIT)) ;;;
  init_geometry b.
End driver.

(** ** The drives *)

(** What an IDENTIFY command finds: no drive, a drive with its 256 words, or a
    packet device, which answers with a signature. *)
Inductive identity : Type :=
| Absent
| AtaDrive (words : list Z)
| Packet (sig_mid sig_hi : Z).

#[export] Instance identity_eq_dec : EqDecision identity.
Proof. solve_decision. Defined.

(** A transfer: words still to be read, or the next sector to be written, the
    number of sectors left and the words of the sector so far. *)
Inductive xfer : Type :=
| Idle
| DataIn (ws : list Z)
| DataOut (drive lba : Z) (left : nat) (acc : list Z).

(** A register of the 48-bit command set holds the value written last and the
    one before. *)
Record bus : Type := mkBus {
  devsel : Z; count_reg : Z * Z; lo_reg : Z * Z; mid_reg : Z * Z; hi_reg : Z * Z;
  pending : xfer;
  media : Z -> Z -> list Z;         (** drive magic, LBA: 512 bytes *)
  dirty : Z -> bool;                (** written data not yet flushed *)
  drives : Z -> identity
}.

Definition set_pending (x : xfer) (b : bus) : bus :=
  mkBus (devsel b) (count_reg b) (lo_reg b) (mid_reg b) (hi_reg b) x (media b) (dirty b) (drives b).
Definition set_dirty (d : Z) (v : bool) (b : bus) : bus :=
  mkBus (devsel b) (count_reg b) (lo_reg b) (mid_reg b) (hi_reg b) (pending b) (media b)
    (fun d' => if d' =? d then v else dirty b d') (drives b).
Definition set_media (d lba : Z) (x : list Z) (b : bus) : bus :=
  mkBus (devsel b) (count_reg b) (lo_reg b) (mid_reg b) (hi_reg b) (pending b)
    (fun d' l => if (d' =? d) && (l =? lba) then x else media b d' l) (dirty b) (drives b).

Definition selected (b : bus) : Z := if Z.testbit (devsel b) 4 then ATA_SLAVE else ATA_MASTER.
Definition lba48 (b : bus) : Z :=
  (lo_reg b).1 + 2 ^ 8 * (mid_reg b).1 + 2 ^ 16 * (hi_reg b).1 +
  2 ^ 24 * (lo_reg b).2 + 2 ^ 32 * (mid_reg b).2 + 2 ^ 40 * (hi_reg b).2.
Definition count48 (b : bus) : Z := (count_reg b).1 + 2 ^ 8 * (count_reg b).2.

Definition words_of (x : list Z) : list Z := (fun j => ld16 x (2 * j)) <$> seqZ 0 256.
Definition bytes_of_words (ws : list Z) : list Z := concat (le_bytes 2 <$> ws).
Definition sector_words (b : bus) (d lba : Z) (n : nat) : list Z :=
  concat ((fun i => words_of (media b d (lba + Z.of_nat i))) <$> seq 0 n).

(** The commands of the driver; [None] is behaviour nothing here relies on: a
    command in the middle of a transfer, one outside the drive, a count of 0. *)
Definition bus_command (v : Z) (b : bus) : option bus :=
  match pending b, drives b (selected b) with
  | Idle, Absent => Some b
  | Idle, Packet m h =>
      if v =? IDENTIFY_CMD then
        Some (mkBus (devsel b) (count_reg b) (lo_reg b) (m, (mid_reg b).1) (h, (hi_reg b).1) Idle (media b) (dirty b) (drives b))
      else None
  | Idle, AtaDrive ws =>
      let d := selected b in
      if v =? IDENTIFY_CMD then Some (set_pending (DataIn ws) b)
      else if (v =? FLUSH_EXT_CMD) || (v =? FLUSH_CACHE_CMD) then Some (set_dirty d false b)
      else if negb (Z.testbit (devsel b) 6 && (0 <? count48 b) && (lba48 b + count48 b <=? identify_lba_count ws)) then None
      else if v =? READ_EXT then Some (set_pending (DataIn (sector_words b d (lba48 b) (Z.to_nat (count48 b)))) b)
      else if v =? WRITE_EXT then Some (set_pending (DataOut d (lba48 b) (Z.to_nat (count48 b)) []) b)
      else None
  | _, _ => None
  end.

(** A write to a register keeps the value before. *)
Definition put_select (v : Z) (b : bus) : bus :=
  mkBus v (count_reg b) (lo_reg b) (mid_reg b) (hi_reg b) (pending b) (media b) (dirty b) (drives b).
Definition put_count (v : Z) (b : bus) : bus :=
  mkBus (devsel b) (v, (count_reg b).1) (lo_reg b) (mid_reg b) (hi_reg b) (pending b) (media b) (dirty b) (drives b).
Definition put_lo (v : Z) (b : bus) : bus :=
  mkBus (devsel b) (count_reg b) (v, (lo_reg b).1) (mid_reg b) (hi_reg b) (pending b) (media b) (dirty b) (drives b).
Definition put_mid (v : Z) (b : bus) : bus :=
  mkBus (devsel b) (count_reg b) (lo_reg b) (v, (mid_reg b).1) (hi_reg b) (pending b) (media b) (dirty b) (drives b).
Definition put_hi (v : Z) (b : bus) : bus :=
  mkBus (devsel b) (count_reg b) (lo_reg b) (mid_reg b) (v, (hi_reg b).1) (pending b) (media b) (dirty b) (drives b).

Definition bus_out (port v : Z) (b : bus) : option bus :=
  if port =? COMMAND_IO_PORT then bus_command v b
  else if port =? DRIVE_SELECT_IO_PORT then Some (put_select v b)
  else if port =? SECTOR_COUNT_PORT then Some (put_count v b)
  else if port =? LBA_LO_PORT then Some (put_lo v b)
  else if port =? LBA_MID_PORT then Some (put_mid v b)
  else if port =? LBA_HI_PORT then Some (put_hi v b)
  else if port =? DEVICE_CONTROL_PORT then Some b
  else None.

(** A word through the data port. *)
Definition bus_data_in (ws : list Z) (b : bus) : bus :=
  set_pending (if bool_decide (ws = []) then Idle else DataIn ws) b.
Definition bus_data_out (d lba : Z) (left : nat) (acc : list Z) (w : Z) (b : bus) : bus :=
  if (length acc =? 255)%nat then
    set_pending (if (left =? 1)%nat then Idle else DataOut d (lba + 1) (left - 1) [])
      (set_dirty d true (set_media d lba (bytes_of_words (acc ++ [w])) b))
  else set_pending (DataOut d lba left (acc ++ [w])) b.

Definition ata_ports : list Z :=
  [DATA_PORT; ERR_PORT; SECTOR_COUNT_PORT; LBA_LO_PORT; LBA_MID_PORT; LBA_HI_PORT; DRIVE_SELECT_IO_PORT; COMMAND_IO_PORT; ALT_STATUS_PORT].

(** [bsy d]: how often the status will still say that the drive is busy.  While
    it is, only the status is defined.  A drive goes busy after a command and
    between sectors, not inside one, and not after the last word read.  Where
    there is no second drive the first answers for it with a zero status; a
    channel without any drive floats. *)
Class AtaBus (D : Type) `{Uart D} := {
  bus_of : D -> bus;
  bsy : D -> nat;
  bsy_bounded d : (bsy d < Pos.to_nat MAX_POLL_REPEAT)%nat;
  ata_status d v d' : in8 STATUS_PORT d = (v, d') -> drives (bus_of d) (selected (bus_of d)) <> Absent ->
    bus_of d' = bus_of d /\ bsy d' = Nat.pred (bsy d) /\ 0 < v < 255 /\
    Z.testbit v 7 = negb (bsy d =? 0)%nat /\
    (bsy d = 0%nat -> Z.testbit v 3 = match pending (bus_of d) with Idle => false | _ => true end) /\
    (pending (bus_of d) <> Idle -> Z.testbit v 5 = false /\ Z.testbit v 0 = false);
  ata_absent d v d' : in8 STATUS_PORT d = (v, d') -> drives (bus_of d) (selected (bus_of d)) = Absent ->
    bus_of d' = bus_of d /\ bsy d' = bsy d /\ (v = 0 \/ v = 255 /\ drives (bus_of d) ATA_MASTER = Absent);
  ata_alt d v d' : in8 ALT_STATUS_PORT d = (v, d') -> bus_of d' = bus_of d /\ (bsy d' <= bsy d)%nat;
  ata_mid d v d' : in8 LBA_MID_PORT d = (v, d') -> bsy d = 0%nat ->
    bus_of d' = bus_of d /\ bsy d' = 0%nat /\ v = (mid_reg (bus_of d)).1;
  ata_hi d v d' : in8 LBA_HI_PORT d = (v, d') -> bsy d = 0%nat ->
    bus_of d' = bus_of d /\ bsy d' = 0%nat /\ v = (hi_reg (bus_of d)).1;
  ata_out d port v b : is_byte v -> bsy d = 0%nat -> bus_out port v (bus_of d) = Some b ->
    bus_of (out8 port v d) = b /\ (port <> COMMAND_IO_PORT \/ drives b (selected b) = Absent -> bsy (out8 port v d) = 0%nat);
  ata_in d w ws v d' : in16 DATA_PORT d = (v, d') -> bsy d = 0%nat -> pending (bus_of d) = DataIn (w :: ws) ->
    v = w /\ bus_of d' = bus_data_in ws (bus_of d) /\
    (ws = [] \/ Z.of_nat (length ws) mod 256 <> 0 -> bsy d' = 0%nat);
  ata_data_out d w dr lba left acc : 0 <= w < 65536 -> bsy d = 0%nat -> pending (bus_of d) = DataOut dr lba left acc ->
    (0 < left)%nat -> bus_of (out16 DATA_PORT w d) = bus_data_out dr lba left acc w (bus_of d) /\
    (length acc <> 255%nat -> bsy (out16 DATA_PORT w d) = 0%nat);
  (** The two devices do not share ports. *)
  ata_not_uart port d : port ∈ ata_ports ->
    uart_of (in8 port d).2 = uart_of d /\ uart_of (in16 port d).2 = uart_of d /\
    forall v, uart_of (out8 port v d) = uart_of d /\ uart_of (out16 port v d) = uart_of d;
  uart_not_ata port d : COM1 <= port <= COM1 + 5 ->
    (bus_of (in8 port d).2 = bus_of d /\ bsy (in8 port d).2 = bsy d) /\
    forall v, bus_of (out8 port v d) = bus_of d /\ bsy (out8 port v d) = bsy d
}.

(** ** Words and bytes *)

Lemma splice_app {A} off (x y l : list A) :
  (off + length x <= length l)%nat -> splice (off + length x) y (splice off x l) = splice off (x ++ y) l.
Proof.
  intros Hl. unfold splice. rewrite !app_assoc. f_equal.
  - f_equal. rewrite take_app_le by (rewrite length_app, length_take; lia).
    apply take_ge. rewrite length_app, length_take. lia.
  - rewrite drop_app_ge by (rewrite length_app, length_take; lia). rewrite length_app, length_take, drop_drop, length_app. f_equal. lia.
Qed.

Lemma le_bytes_u16 v : le_bytes 2 (u16 v) = le_bytes 2 v.
Proof. unfold u16. cbn [le_bytes]. f_equal; [|f_equal]; zlia. Qed.

Lemma length_bytes_of_words ws : length (bytes_of_words ws) = (2 * length ws)%nat.
Proof. unfold bytes_of_words. induction ws as [|w ws IH]; [done|]. cbn [fmap list_fmap concat]. rewrite length_app, length_le_bytes, IH. cbn [length]. lia. Qed.

Lemma bytes_of_words_app x y : bytes_of_words (x ++ y) = bytes_of_words x ++ bytes_of_words y.
Proof. unfold bytes_of_words. by rewrite fmap_app, concat_app. Qed.

Lemma sub_sub {A} a n b m (l : list A) : (b + m <= n)%nat -> sub b m (sub a n l) = sub (a + b) m l.
Proof. intros Hn. unfold sub. rewrite skipn_firstn_comm, take_take, drop_drop. f_equal. lia. Qed.

(** The bytes of [n] words of a buffer are those bytes of the buffer. *)
Lemma bytes_of_ld16 buf off n : bytes_ok buf -> 0 <= off -> (Z.to_nat off + 2 * n <= length buf)%nat ->
  bytes_of_words ((fun j => ld16 buf (off + 2 * j)) <$> seqZ 0 (Z.of_nat n)) = sub (Z.to_nat off) (2 * n) buf.
Proof.
  intros Hb Ho. induction n as [|n IH]; intros Hl; [done|].
  rewrite seqZ_S, fmap_app, bytes_of_words_app, IH by lia.
  unfold bytes_of_words. cbn [fmap list_fmap concat]. rewrite app_nil_r. unfold ld.
  rewrite le_bytes_val; [|by apply Forall_sub|by rewrite length_sub by lia].
  replace (Z.to_nat (off + 2 * (0 + Z.of_nat n))) with (Z.to_nat off + 2 * n)%nat by lia.
  replace (2 * S n)%nat with (2 * n + 2)%nat by lia. unfold sub. rewrite <- drop_drop.
  apply take_take_drop.
Qed.

(** ** The protocol *)

Section protocol.
Context {D : Type} `{AtaBus D} (font8x16 : list Z).
Local Abbreviation KM := (M (console D)).
Implicit Types (k : console D) (d : D) (b : bus).

(** Of the console only the devices have changed, not the serial port, and they
    are in [Q]. *)
Definition moved k (Q : D -> Prop) (k' : console D) : Prop :=
  exists d, k' = set_dev d k /\ uart_of d = uart_of (dev k) /\ Q d.

Lemma moved_mono k P Q k' : moved k P k' -> (forall d, P d -> Q d) -> moved k Q k'.
Proof. intros (d & -> & Hu & HP) HPQ. exists d. eauto. Qed.

Lemma wp_moved {A B} (m : KM A) (f : A -> KM B) (P : A -> D -> Prop) (Q : B -> D -> Prop) k :
  wp m (fun a => moved k (P a)) k -> (forall a k1, P a (dev k1) -> wp (f a) (fun r => moved k1 (Q r)) k1) ->
  wp (bindM m f) (fun r => moved k (Q r)) k.
Proof.
  intros Hm Hf. wp_step. eapply wp_mono; [exact Hm|]. cbv beta. intros a k1 (d & -> & Hu & HP).
  eapply wp_mono; [apply Hf, HP|]. cbv beta. intros r k2 (d2 & -> & Hu2 & HQ).
  exists d2. split; [done|]. split; [by rewrite Hu2|done].
Qed.

Lemma moved_ret {A} (a : A) (Q : A -> D -> Prop) k : Q a (dev k) -> wp (retM a) (fun r => moved k (Q r)) k.
Proof. intros HQ. apply wp_ret. exists (dev k). by destruct k. Qed.

Lemma in8_moved port (Q : Z -> D -> Prop) k : u16 port ∈ ata_ports ->
  (forall v d, in8 (u16 port) (dev k) = (v, d) -> Q (u8 v) d) -> wp (on_dev (inb port)) (fun v => moved k (Q v)) k.
Proof.
  intros Hp HQ. apply on_dev_spec. destruct (in8 (u16 port) (dev k)) as [v d] eqn:E. apply (wp_inb port _ _ v d E).
  exists d. split; [done|]. split; [|by apply HQ]. destruct (ata_not_uart _ (dev k) Hp) as [Hu _]. by rewrite E in Hu.
Qed.
Lemma in16_moved port (Q : Z -> D -> Prop) k : u16 port ∈ ata_ports ->
  (forall v d, in16 (u16 port) (dev k) = (v, d) -> Q (u16 v) d) -> wp (on_dev (inw port)) (fun v => moved k (Q v)) k.
Proof.
  intros Hp HQ. apply on_dev_spec. destruct (in16 (u16 port) (dev k)) as [v d] eqn:E. apply (wp_inw port _ _ v d E).
  exists d. split; [done|]. split; [|by apply HQ]. destruct (ata_not_uart _ (dev k) Hp) as (_ & Hu & _). by rewrite E in Hu.
Qed.
Lemma out8_moved port v (Q : D -> Prop) k : u16 port ∈ ata_ports ->
  Q (out8 (u16 port) (u8 v) (dev k)) -> wp (on_dev (outb port v)) (fun _ => moved k Q) k.
Proof.
  intros Hp HQ. apply on_dev_spec, wp_outb. eexists. split; [reflexivity|]. split; [|done].
  destruct (ata_not_uart _ (dev k) Hp) as (_ & _ & Hu). apply Hu.
Qed.
Lemma out16_moved port v (Q : D -> Prop) k : u16 port ∈ ata_ports ->
  Q (out16 (u16 port) (u16 v) (dev k)) -> wp (on_dev (outw port v)) (fun _ => moved k Q) k.
Proof.
  intros Hp HQ. apply on_dev_spec, wp_outw. eexists. split; [reflexivity|]. split; [|done].
  destruct (ata_not_uart _ (dev k) Hp) as (_ & _ & Hu). apply Hu.
Qed.

(** The drive is there and not busy, and the bus is [b]. *)
Definition at_rest b d : Prop := bus_of d = b /\ bsy d = 0%nat.
Definition on_bus b d : Prop := bus_of d = b.
Definition present b : Prop := drives b (selected b) <> Absent.

Lemma isset_bit v i : 0 <= i < 8 -> isset (u8 v) (Z.shiftl 1 i) = Z.testbit v i.
Proof. intros Hi. unfold isset. by rewrite land_bit, u8_bit, negb_involutive by lia. Qed.

Lemma ata_port_in p : bool_decide (p ∈ ata_ports) = true -> p ∈ ata_ports.
Proof. apply bool_decide_eq_true. Qed.

(** A polling loop leaves before its bound when a measure of the device runs down. *)
Lemma iter_moved {A R} (I : nat -> A -> D -> Prop) (Q : R -> D -> Prop) p (body : A -> KM (A + R)) n a k :
  (n < Pos.to_nat p)%nat -> I n a (dev k) ->
  (forall a k1, I 0%nat a (dev k1) -> wp (body a) (fun r => moved k1 (fun d => exists x, r = inr x /\ Q x d)) k1) ->
  (forall n a k1, I (S n) a (dev k1) -> wp (body a) (fun r => moved k1 (fun d => exists a', r = inl a' /\ I n a' d)) k1) ->
  wp (iterM p body a) (fun r => moved k (fun d => exists x, r = inr x /\ Q x d)) k.
Proof.
  intros Hn HI Hzero Hsucc. apply (wp_iterM (fun n a => moved k (I n a)) _ _ _ n); [done| | |].
  - exists (dev k). by destruct k.
  - clear HI. intros a1 k1 (d & -> & Hu & HI). eapply wp_mono; [apply Hzero, HI|]. cbv beta.
    intros r k2 (d2 & -> & Hu2 & x & -> & HQ). split; [eauto|]. exists d2. split; [done|]. split; [by rewrite Hu2|eauto].
  - clear HI. intros m a1 k1 (d & -> & Hu & HI). eapply wp_mono; [apply (Hsucc m), HI|]. cbv beta.
    intros r k2 (d2 & -> & Hu2 & a' & -> & HI'). exists a'. split; [done|]. exists d2. split; [done|]. split; [by rewrite Hu2|done].
Qed.

Lemma wait_bsy_clear_spec b k : present b -> on_bus b (dev k) -> wp (wait_bsy_clear font8x16) (fun _ => moved k (at_rest b)) k.
Proof.
  intros Hp Hb. unfold wait_bsy_clear.
  assert (forall k1, on_bus b (dev k1) -> wp (let* v := on_dev (inb STATUS_PORT) in
     if negb (isset v BSY_BIT) then retM (inr tt) else retM (inl tt)) (fun r : unit + unit => moved k1 (fun d =>
       on_bus b d /\ bsy d = Nat.pred (bsy (dev k1)) /\ r = if (bsy (dev k1) =? 0)%nat then inr tt else inl tt)) k1) as Hread.
  { intros k1 Hb1. apply (wp_moved _ _ (fun v d => on_bus b d /\ bsy d = Nat.pred (bsy (dev k1)) /\ isset v BSY_BIT = negb (bsy (dev k1) =? 0)%nat)).
    - apply in8_moved; [by apply ata_port_in|]. intros v d E. apply ata_status in E as (E1 & E2 & _ & E7 & _); [|by rewrite Hb1].
      unfold on_bus. rewrite E1. split; [done|]. split; [done|]. unfold BSY_BIT. by rewrite isset_bit, E7.
    - intros v k2 (? & ? & ->). rewrite negb_involutive. destruct (_ =? 0)%nat; by apply moved_ret. }
  apply (wp_moved _ _ (fun r d => exists x, r = inr x /\ at_rest b d)).
  - apply (iter_moved (fun n _ d => on_bus b d /\ bsy d = n) (fun _ => at_rest b) _ _ (bsy (dev k))).
    + apply bsy_bounded.
    + done.
    + intros [] k1 [Hb1 E]. eapply wp_mono; [by apply Hread|]. cbv beta. intros r k2 Hm. eapply moved_mono; [exact Hm|].
      cbv beta. intros d (? & ? & ->). rewrite E in *. by exists tt.
    + intros n [] k1 [Hb1 E]. eapply wp_mono; [by apply Hread|]. cbv beta. intros r k2 Hm. eapply moved_mono; [exact Hm|].
      cbv beta. intros d (? & ? & ->). rewrite E in *. by exists tt.
  - intros r k1 (x & -> & Hr). by apply moved_ret.
Qed.

(** Where the selected drive is missing the first one answers for it. *)
Lemma wait_bsy_absent b k : drives b (selected b) = Absent -> drives b ATA_MASTER <> Absent -> at_rest b (dev k) ->
  wp (wait_bsy_clear font8x16) (fun _ => moved k (at_rest b)) k.
Proof.
  intros Ha Hm [Hb Hz]. unfold wait_bsy_clear. apply (wp_moved _ _ (fun r d => exists x, r = inr x /\ at_rest b d)).
  - apply (iter_moved (fun n _ d => n = 0%nat /\ at_rest b d) (fun _ => at_rest b) _ _ 0); [lia|done| |by intros ??? [??]].
    intros [] k1 [_ [Hb1 Hz1]]. apply (wp_moved _ _ (fun v d => at_rest b d /\ v = 0)).
    + apply in8_moved; [by apply ata_port_in|]. intros v d E. apply ata_absent in E as (E1 & E2 & Ev); [|by rewrite Hb1].
      unfold at_rest. rewrite E1, E2, Hb1. split; [done|]. destruct Ev as [->|[_ Ev]]; [done|]. by rewrite Hb1 in Ev.
    + intros v k2 [Hr ->]. apply moved_ret. by exists tt.
  - intros r k1 (x & -> & Hr). by apply moved_ret.
Qed.

Lemma poll_spec b k : present b -> pending b <> Idle -> on_bus b (dev k) -> wp (poll font8x16) (fun _ => moved k (at_rest b)) k.
Proof.
  intros Hp Hx Hb. unfold poll.
  (* a status value read when the drive was busy n more times *)
  set (reads n v d := on_bus b d /\ bsy d = Nat.pred n /\ isset v BSY_BIT = negb (n =? 0)%nat /\ (n = 0%nat -> isset v DRQ_BIT = true) /\
    isset v DF_BIT = false /\ isset v ERR_BIT = false).
  assert (forall k1, on_bus b (dev k1) -> wp (on_dev (inb STATUS_PORT)) (fun v => moved k1 (reads (bsy (dev k1)) v)) k1) as Hread.
  { intros k1 Hb1. apply in8_moved; [by apply ata_port_in|]. intros v d E. apply ata_status in E as (E1 & E2 & _ & E7 & E3 & E50); [|by rewrite Hb1].
    unfold reads, on_bus. rewrite Hb1 in *. destruct (E50 Hx) as [E5 E0].
    change ERR_BIT with (Z.shiftl 1 0). unfold BSY_BIT, DRQ_BIT, DF_BIT. rewrite !isset_bit by lia.
    split; [done|]. split; [done|]. split; [done|]. split; [|done]. intros Hz. rewrite (E3 Hz). by destruct (pending b). }
  apply (wp_moved _ _ (reads (bsy (dev k)))); [by apply Hread|]. intros v k1 Hv.
  apply (wp_moved _ _ (fun r d => exists x, r = inr x /\ at_rest b d)); [|by intros r k2 (x & -> & Hr); apply moved_ret].
  apply (iter_moved reads (fun _ => at_rest b) _ _ (bsy (dev k))); [apply bsy_bounded|done| |].
  - intros w k2 (Hb2 & Hz & E7 & E3 & -> & ->). rewrite E7, (E3 eq_refl). apply moved_ret. by exists tt.
  - intros n w k2 (Hb2 & Hz & E7 & _ & -> & ->). rewrite E7. cbn [Nat.eqb negb andb orb].
    apply (wp_moved _ _ (reads (bsy (dev k2)))); [by apply Hread|]. intros w' k3 Hw'. apply moved_ret. exists w'.
    split; [done|]. rewrite Hz in Hw'. exact Hw'.
Qed.

Lemma settle_spec b n k : on_bus b (dev k) -> (bsy (dev k) <= n)%nat ->
  wp settle (fun _ => moved k (fun d => on_bus b d /\ (bsy d <= n)%nat)) k.
Proof.
  intros Hb Hn. unfold settle. eapply wp_mono; [apply (wp_forM (fun _ => moved k (fun d => on_bus b d /\ (bsy d <= n)%nat)))|done].
  - exists (dev k). by destruct k.
  - intros j k1 _ (d & -> & Hu & Hb1 & Hn1). unfold wait_100_ns. 
    assert (wp (let* _ := on_dev (inb ALT_STATUS_PORT) in retM tt) (fun _ => moved (set_dev d k) (fun d => on_bus b d /\ (bsy d <= n)%nat)) (set_dev d k)) as Hw.
    { apply (wp_moved _ _ (fun _ d => on_bus b d /\ (bsy d <= n)%nat)); [|intros v k2 Hk2; by apply moved_ret].
      apply in8_moved; [by apply ata_port_in|]. intros v d2 E. apply ata_alt in E as [E1 E2]. cbn in *. unfold on_bus in *. rewrite E1. split; [done|lia]. }
    eapply wp_mono; [exact Hw|]. cbv beta. intros _ k2 (d2 & -> & Hu2 & HQ). exists d2. split; [done|]. split; [by rewrite Hu2|done].
Qed.

Lemma out_spec b b' port v k : u16 port ∈ ata_ports -> at_rest b (dev k) -> bus_out (u16 port) (u8 v) b = Some b' ->
  wp (on_dev (outb port v)) (fun _ => moved k (fun d => on_bus b' d /\
    (u16 port <> COMMAND_IO_PORT \/ drives b' (selected b') = Absent -> bsy d = 0%nat))) k.
Proof.
  intros Hp [Hb Hz] Ho. apply out8_moved; [done|]. rewrite <- Hb in Ho.
  by apply ata_out in Ho; [|unfold is_byte, u8; zlia|].
Qed.

Lemma out_reg_spec b b' port v k : u16 port ∈ ata_ports -> u16 port <> COMMAND_IO_PORT -> at_rest b (dev k) ->
  bus_out (u16 port) (u8 v) b = Some b' -> wp (on_dev (outb port v)) (fun _ => moved k (at_rest b')) k.
Proof.
  intros Hp Hc Hr Ho. eapply wp_mono; [by eapply out_spec|]. cbv beta. intros _ k' Hm. eapply moved_mono; [exact Hm|].
  cbv beta. intros d [Hb Hz]. split; [done|]. apply Hz. by left.
Qed.

(** The task file after [send_command], before the command itself. *)
Definition tasked b (drive lba count : Z) : bus :=
  mkBus (if drive =? ATA_MASTER then LBA48_MASTER_DRIVE else LBA48_SLAVE_DRIVE)
    (u8 (Z.land count 0xFF), u8 (Z.shiftr count 8)) (u8 (Z.land lba 0xFF), u8 (Z.shiftr lba 24))
    (u8 (Z.shiftr lba 8), u8 (Z.shiftr lba 32)) (u8 (Z.shiftr lba 16), u8 (Z.shiftr lba 40))
    (pending b) (media b) (dirty b) (drives b).

Lemma tasked_puts b (drive lba count : Z) (sel := if drive =? ATA_MASTER then LBA48_MASTER_DRIVE else LBA48_SLAVE_DRIVE) :
  put_hi (u8 (Z.shiftr lba 16)) (put_mid (u8 (Z.shiftr lba 8)) (put_lo (u8 (Z.land lba 0xFF)) (put_count (u8 (Z.land count 0xFF))
    (put_hi (u8 (Z.shiftr lba 40)) (put_mid (u8 (Z.shiftr lba 32)) (put_lo (u8 (Z.shiftr lba 24)) (put_count (u8 (Z.shiftr count 8))
      (put_select sel b)))))))) = tasked b drive lba count.
Proof.
  destruct b as [s [c1 c2] [l1 l2] [m1 m2] [h1 h2] x me di dr].
  assert (forall s c1 c2 lo mi hi v, put_count v (mkBus s (c1, c2) lo mi hi x me di dr) = mkBus s (v, c1) lo mi hi x me di dr) as Ec by done.
  assert (forall s c l1 l2 mi hi v, put_lo v (mkBus s c (l1, l2) mi hi x me di dr) = mkBus s c (v, l1) mi hi x me di dr) as El by done.
  assert (forall s c lo m1 m2 hi v, put_mid v (mkBus s c lo (m1, m2) hi x me di dr) = mkBus s c lo (v, m1) hi x me di dr) as Em by done.
  assert (forall s c lo mi h1 h2 v, put_hi v (mkBus s c lo mi (h1, h2) x me di dr) = mkBus s c lo mi (v, h1) x me di dr) as Eh by done.
  change (put_select sel _) with (mkBus sel (c1, c2) (l1, l2) (m1, m2) (h1, h2) x me di dr).
  by rewrite Ec, El, Em, Eh, Ec, El, Em, Eh.
Qed.

Lemma tasked_lba b drive lba count : 0 <= lba < 2 ^ 48 -> lba48 (tasked b drive lba count) = lba.
Proof.
  intros Hl. unfold lba48, tasked. cbn [lo_reg mid_reg hi_reg fst snd]. unfold u8. rewrite !Z.shiftr_div_pow2 by lia.
  change 0xFF with (Z.ones 8). rewrite Z.land_ones, Z.mod_mod by lia.
  transitivity (le_val (le_bytes 6 lba)); [|rewrite le_val_bytes; by apply Z.mod_small].
  cbn [le_bytes le_val]. rewrite !Z.div_div by lia. change (2 ^ 8) with 256. change (2 ^ 16) with (256 * 256).
  change (2 ^ 24) with (256 * 256 * 256). change (2 ^ 32) with (256 * 256 * 256 * 256).
  change (2 ^ 40) with (256 * 256 * 256 * 256 * 256). rewrite ?Z.mul_assoc. lia.
Qed.
Lemma tasked_count b drive lba count : 0 <= count < 65536 -> count48 (tasked b drive lba count) = count.
Proof.
  intros Hc. unfold count48, tasked. cbn [count_reg fst snd]. unfold u8. rewrite Z.shiftr_div_pow2 by lia.
  change 0xFF with (Z.ones 8). rewrite Z.land_ones, Z.mod_mod by lia. zlia.
Qed.
Lemma tasked_selected b drive lba count : drive = ATA_MASTER \/ drive = ATA_SLAVE -> selected (tasked b drive lba count) = drive.
Proof. by intros [-> | ->]. Qed.

Lemma send_command_spec b b' drive lba count cmd k : at_rest b (dev k) ->
  bus_command (u8 cmd) (tasked b drive lba count) = Some b' ->
  wp (send_command drive lba count cmd) (fun _ => moved k (on_bus b')) k.
Proof.
  intros Hr Hc. unfold send_command.
  assert (forall b0 b1 port v (m : KM unit) k0, u16 port ∈ ata_ports -> u16 port <> COMMAND_IO_PORT -> at_rest b0 (dev k0) ->
    bus_out (u16 port) (u8 v) b0 = Some b1 ->
    (forall k1, at_rest b1 (dev k1) -> wp m (fun _ => moved k1 (on_bus b')) k1) ->
    wp (on_dev (outb port v) ;;; m) (fun _ => moved k0 (on_bus b')) k0) as Hstep.
  { intros b0 b1 port v m k0 Hp Hne Hr0 Ho Hm. eapply wp_moved; [by eapply out_reg_spec|]. cbv beta. intros _. apply Hm. }
  set (sel := if drive =? ATA_MASTER then LBA48_MASTER_DRIVE else LBA48_SLAVE_DRIVE).
  assert (forall m : KM unit, (forall k1, at_rest (put_select sel b) (dev k1) -> wp m (fun _ => moved k1 (on_bus b')) k1) ->
    wp ((if drive =? ATA_MASTER then on_dev (outb DRIVE_SELECT_IO_PORT LBA48_MASTER_DRIVE)
         else on_dev (outb DRIVE_SELECT_IO_PORT LBA48_SLAVE_DRIVE)) ;;; m) (fun _ => moved k (on_bus b')) k) as Hsel.
  { intros m Hm. unfold sel in Hm. destruct (drive =? ATA_MASTER);
      (eapply Hstep; [by apply ata_port_in|done|exact Hr|reflexivity|exact Hm]). }
  apply Hsel. clear Hsel k Hr.
  do 8 (intros k Hr; eapply Hstep; [by apply ata_port_in|done|exact Hr|reflexivity|clear k Hr]).
  intros k Hr. unfold sel in Hr. rewrite (tasked_puts b drive lba count) in Hr.
  eapply wp_mono; [apply (out_spec (tasked b drive lba count) b'); [by apply ata_port_in|exact Hr|]|].
  { unfold bus_out. change (u16 COMMAND_IO_PORT =? COMMAND_IO_PORT) with true. exact Hc. }
  cbv beta. intros _ k' Hm. eapply moved_mono; [exact Hm|]. by intros d [? _].
Qed.

(** *** Reading *)

Lemma bus_data_in_twice ws ws' b : bus_data_in ws' (bus_data_in ws b) = bus_data_in ws' b.
Proof. by destruct b. Qed.

(** The words of a sector, or the last part of one, arrive in the buffer. *)
Lemma read_words_spec ws rest b at_word buf k : (length ws <= 256)%nat -> Z.of_nat (length rest) mod 256 = 0 ->
  0 <= at_word -> 2 * (at_word + Z.of_nat (length ws)) <= Z.of_nat (length buf) ->
  on_bus (bus_data_in (ws ++ rest) b) (dev k) -> (ws ++ rest <> [] -> bsy (dev k) = 0%nat) -> ws <> [] \/ bsy (dev k) = 0%nat \/ rest <> [] ->
  wp (read_words (length ws) at_word buf) (fun out => moved k (fun d =>
    out = splice (Z.to_nat (2 * at_word)) (bytes_of_words ws) buf /\ on_bus (bus_data_in rest b) d /\ (rest = [] -> bsy d = 0%nat))) k.
Proof.
  revert at_word buf k. induction ws as [|w ws IH]; intros at_word buf k Hlen Hrest Hat Hbuf Hb Hz Hor; cbn [length read_words].
  - apply moved_ret. split; [|split; [done|]].
    + unfold splice. cbn. by rewrite Nat.add_0_r, take_drop.
    + intros ->. destruct Hor as [?|[?|?]]; done.
  - cbn [length] in Hlen, Hbuf. specialize (Hz ltac:(done)).
    apply (wp_moved _ _ (fun v d => v = u16 w /\ on_bus (bus_data_in (ws ++ rest) b) d /\ (ws ++ rest <> [] -> ws <> [] -> bsy d = 0%nat) /\
      (ws ++ rest = [] -> bsy d = 0%nat))).
    + apply in16_moved; [by apply ata_port_in|]. intros v d E. apply (ata_in _ w (ws ++ rest)) in E; [|done|by rewrite Hb].
      destruct E as (-> & Eb & Ez). split; [done|]. rewrite Hb in Eb. cbn [app] in Eb. rewrite bus_data_in_twice in Eb.
      split; [exact Eb|]. split; [|intros En; apply Ez; by left]. intros _ Hne. apply Ez. right.
      rewrite length_app, Nat2Z.inj_add. destruct ws; [done|]. cbn [length] in *. zlia.
    + intros v k1 (-> & Hb1 & Hz1 & Hz1'). zfalse (Z.of_nat (length buf) <? 2 * at_word + 2).
      assert (st16 buf (2 * at_word) (u16 w) = splice (Z.to_nat (2 * at_word)) (le_bytes 2 w) buf) as Est by (unfold st; by rewrite le_bytes_u16).
      assert (length (splice (Z.to_nat (2 * at_word)) (le_bytes 2 w) buf) = length buf) as Hlb
        by (rewrite length_splice; [done|rewrite length_le_bytes; lia]).
      destruct (decide (ws = [])) as [->|Hne].
      * cbn [length read_words]. apply moved_ret. rewrite Est. split; [done|]. split; [done|]. intros ->. by apply Hz1'.
      * eapply wp_mono; [apply IH; [lia|done|lia|rewrite Est, Hlb; lia|done|..]|].
        -- intros Hn. by apply Hz1.
        -- by left.
        -- cbv beta. intros out k2 Hm. eapply moved_mono; [exact Hm|]. cbv beta. intros d (-> & Hb2 & Hz2). split; [|done].
           rewrite Est. replace (Z.to_nat (2 * (at_word + 1))) with (Z.to_nat (2 * at_word) + length (le_bytes 2 w))%nat by (rewrite length_le_bytes; lia).
           rewrite splice_app by (rewrite length_le_bytes; lia). done.
Qed.

(** Sector after sector: the loop returns the words the command promised. *)
Lemma read_loop_spec (wss : list (list Z)) b i buf k : Forall (fun ws => length ws = 256%nat) wss -> present b -> 0 <= i ->
  512 * (i + Z.of_nat (length wss)) <= Z.of_nat (length buf) ->
  on_bus (bus_data_in (concat wss) b) (dev k) -> (wss = [] -> bsy (dev k) = 0%nat) ->
  wp (read_loop font8x16 (length wss) i buf) (fun out => moved k (fun d =>
    out = splice (Z.to_nat (512 * i)) (bytes_of_words (concat wss)) buf /\ at_rest (bus_data_in [] b) d)) k.
Proof.
  intros Hw Hp. revert i buf k. induction Hw as [|ws wss Hws Hw IH]; intros i buf k Hi Hbuf Hb Hz; cbn [length read_loop].
  - apply moved_ret. split; [|by split; [|apply Hz]]. unfold splice. cbn. by rewrite Nat.add_0_r, take_drop.
  - cbn [length] in Hbuf. cbn [concat] in *. assert (ws <> []) as Hne by (by intros ->).
    assert (ws ++ concat wss <> []) as Hne' by (by destruct ws).
    apply (wp_moved _ _ (fun _ => at_rest (bus_data_in (ws ++ concat wss) b))).
    { apply poll_spec; [exact Hp| |done]. cbn. by rewrite bool_decide_false. }
    intros _ k1 [Hb1 Hz1].
    assert (Z.of_nat (length (concat wss)) mod 256 = 0) as Hmod.
    { clear - Hw. induction Hw as [|x l Hx Hl IHl]; [done|]. cbn [concat]. rewrite length_app, Hx. zlia. }
    apply (wp_moved _ _ (fun out d => out = splice (Z.to_nat (512 * i)) (bytes_of_words ws) buf /\ on_bus (bus_data_in (concat wss) b) d /\
      (concat wss = [] -> bsy d = 0%nat))).
    { change (Z.to_nat WORDS_PER_SECTOR) with 256%nat. rewrite <- Hws. change WORDS_PER_SECTOR with 256.
      replace (Z.to_nat (512 * i)) with (Z.to_nat (2 * (i * 256))) by lia.
      apply read_words_spec; [lia|done|lia|rewrite Hws; lia|done|done|by left]. }
    intros out k2 (-> & Hb2 & Hz2).
    apply (wp_moved _ _ (fun _ d => on_bus (bus_data_in (concat wss) b) d /\ (bsy d <= bsy (dev k2))%nat)); [by apply settle_spec|].
    intros _ k3 [Hb3 Hz3].
    assert (Z.to_nat (512 * i) + length (bytes_of_words ws) <= length buf)%nat as Hfit by (rewrite length_bytes_of_words, Hws; lia).
    eapply wp_mono; [apply IH; [lia|rewrite length_splice by done; lia|done|]|].
    { intros ->. specialize (Hz2 eq_refl). lia. }
    cbv beta. intros out k4 Hm. eapply moved_mono; [exact Hm|]. cbv beta. intros d [-> Hr]. split; [|done].
    replace (Z.to_nat (512 * (i + 1))) with (Z.to_nat (512 * i) + length (bytes_of_words ws))%nat by (rewrite length_bytes_of_words, Hws; lia).
    by rewrite splice_app, bytes_of_words_app by done.
Qed.

(** *** Writing *)

Definition sector_done (dr lba : Z) (left : nat) (x : list Z) b : bus :=
  set_pending (if (left =? 1)%nat then Idle else DataOut dr (lba + 1) (left - 1) []) (set_dirty dr true (set_media dr lba x b)).

Lemma write_words_spec dr lba left i buf b k : bytes_ok buf -> 0 <= i -> 512 * (i + 1) <= Z.of_nat (length buf) -> (0 < left)%nat ->
  pending b = DataOut dr lba left [] -> at_rest b (dev k) ->
  wp (write_words i buf) (fun _ => moved k (on_bus (sector_done dr lba left (sub (Z.to_nat (512 * i)) 512 buf) b))) k.
Proof.
  intros Hbuf Hi Hl Hleft Hp Hr. unfold write_words. change (Z.to_nat WORDS_PER_SECTOR) with 256%nat.
  set (ws j := (fun j => ld16 buf (512 * i + 2 * j)) <$> seqZ 0 j).
  assert (forall j, 0 <= j -> length (ws j) = Z.to_nat j) as Hlen by (intros j Hj; unfold ws; by rewrite length_fmap, length_seqZ).
  assert (forall j, 0 <= j -> ws (j + 1) = ws j ++ [ld16 buf (512 * i + 2 * j)]) as Hws.
  { intros j Hj. unfold ws. by rewrite (seqZ_app 0 j 1), fmap_app by lia. }
  eapply wp_mono; [apply (wp_forM (fun j => moved k (fun d =>
    if j =? 256 then on_bus (sector_done dr lba left (bytes_of_words (ws 256)) b) d
    else at_rest (set_pending (DataOut dr lba left (ws j)) b) d)))|].
  - exists (dev k). split; [by destruct k|]. split; [done|]. cbn [Z.eqb]. destruct Hr as [Hr1 Hr2]. split; [|done].
    rewrite Hr1. destruct b. cbn in *. by subst.
  - intros j k1 Hj (d & -> & Hu & HI). rewrite (proj2 (Z.eqb_neq j 256)) in HI by lia. destruct HI as [Hb1 Hz1]. change WORDS_PER_SECTOR with 256.
    rewrite (proj2 (Z.ltb_ge _ _)) by lia. replace (2 * (i * 256 + j)) with (512 * i + 2 * j) by lia.
    set (w := ld16 buf (512 * i + 2 * j)).
    assert (0 <= w < 65536) as Hw by exact (ld_range 2 buf _ Hbuf).
    eapply wp_mono; [apply (out16_moved _ _ (fun d => if j + 1 =? 256 then on_bus (sector_done dr lba left (bytes_of_words (ws 256)) b) d
      else at_rest (set_pending (DataOut dr lba left (ws (j + 1))) b) d)); [by apply ata_port_in|]|].
    + cbn [dev set_dev]. assert (u16 w = w) as -> by (unfold u16; by apply Z.mod_small).
      assert (u16 DATA_PORT = DATA_PORT) as -> by done.
      destruct (ata_data_out d w dr lba left (ws j)) as [Eb Ez]; [done|done|by rewrite Hb1|done|].
      rewrite Hb1 in Eb. unfold bus_data_out in Eb. rewrite Hlen in Eb, Ez by lia.
      destruct (Z.eqb_spec (j + 1) 256) as [E|E].
      * assert (j = 255) as -> by lia. change (Z.to_nat 255 =? 255)%nat with true in Eb. cbv iota in Eb. unfold on_bus. rewrite Eb.
        unfold sector_done. unfold w. rewrite <- (Hws 255) by lia. change (255 + 1) with 256. by destruct b.
      * rewrite (proj2 (Nat.eqb_neq _ _)) in Eb by lia. split; [|apply Ez; lia]. rewrite Eb, (Hws j) by lia. by destruct b.
    + cbv beta. intros _ k2 (d2 & -> & Hu2 & HQ). exists d2. split; [done|]. split; [by rewrite Hu2|done].
  - cbv beta. intros _ k' Hm. eapply moved_mono; [exact Hm|]. cbv beta. intros d Hd. change (0 + Z.of_nat 256 =? 256) with true in Hd. cbv iota in Hd.
    unfold ws in Hd. change 256 with (Z.of_nat 256) in Hd. rewrite bytes_of_ld16 in Hd by (done || lia).
    exact Hd.
Qed.

(** The bus after [n] of [total] sectors from [lba] on. *)
Record written (dr lba : Z) (total n : nat) (buf : list Z) b0 b : Prop := mkWritten {
  wr_pending : pending b = if (n =? total)%nat then Idle else DataOut dr (lba + Z.of_nat n) (total - n) [];
  wr_media (d l : Z) : media b d l =
    if (d =? dr) && (lba <=? l) && (l <? lba + Z.of_nat n) then sub (Z.to_nat (512 * (l - lba))) 512 buf else media b0 d l;
  wr_dirty (d : Z) : d <> dr -> dirty b d = dirty b0 d;
  wr_drives : drives b = drives b0; wr_sel : devsel b = devsel b0
}.

Lemma written_step dr lba total n buf b0 b : (n < total)%nat -> written dr lba total n buf b0 b ->
  written dr lba total (S n) buf b0
    (sector_done dr (lba + Z.of_nat n) (total - n) (sub (Z.to_nat (512 * Z.of_nat n)) 512 buf) b).
Proof.
  intros Hn [W1 W2 W3 W4 W5]. unfold sector_done. split; cbn [pending set_pending media set_dirty set_media dirty drives devsel].
  - destruct (Nat.eqb_spec (total - n) 1), (Nat.eqb_spec (S n) total); try lia; [done|]. f_equal; lia.
  - intros d l. rewrite W2. destruct (Z.eqb_spec d dr) as [->|]; [|done]. cbn [andb].
    destruct (Z.eqb_spec l (lba + Z.of_nat n)) as [->|Hne].
    + rewrite (proj2 (Z.leb_le _ _)), (proj2 (Z.ltb_lt _ _)) by lia. cbn [andb]. do 3 f_equal. lia.
    + destruct (Z.leb_spec lba l), (Z.ltb_spec l (lba + Z.of_nat n)), (Z.ltb_spec l (lba + Z.of_nat (S n))); (lia || done).
  - intros d Hd. rewrite (proj2 (Z.eqb_neq d dr)) by done. by apply W3.
  - done.
  - done.
Qed.

(** *** The whole transfers, from a bus at rest *)

Lemma wait_bsy_clear_any b k : drives b ATA_MASTER <> Absent -> at_rest b (dev k) ->
  wp (wait_bsy_clear font8x16) (fun _ => moved k (at_rest b)) k.
Proof.
  intros Hm Hr. destruct (decide (drives b (selected b) = Absent)) as [Ha|Ha].
  - by apply wait_bsy_absent.
  - apply wait_bsy_clear_spec; [done|apply Hr].
Qed.

(** What a transfer leaves: no command under way, the same drives. *)
Definition same_drives b b' : Prop := pending b' = Idle /\ drives b' = drives b.

Lemma concat_sector_words b dr lba n : concat ((fun i => words_of (media b dr (lba + Z.of_nat i))) <$> seq 0 n) = sector_words b dr lba n.
Proof. done. Qed.

Lemma command_ok b dr lba count ws cmd : dr = ATA_MASTER \/ dr = ATA_SLAVE -> pending b = Idle -> drives b dr = AtaDrive ws ->
  0 <= lba -> 0 < count < 65536 -> lba + count <= identify_lba_count ws -> identify_lba_count ws <= 2 ^ 48 ->
  cmd = READ_EXT \/ cmd = WRITE_EXT ->
  let b1 := tasked b dr lba count in
  bus_command (u8 cmd) b1 = Some (set_pending (if cmd =? READ_EXT then DataIn (sector_words b dr lba (Z.to_nat count))
                                              else DataOut dr lba (Z.to_nat count) []) b1).
Proof.
  intros Hdr Hidle Hd Hl Hc Hcap H48 Hcmd b1. unfold bus_command.
  pose proof (tasked_selected b dr lba count Hdr) as Esel. pose proof (tasked_lba b dr lba count ltac:(lia)) as El.
  pose proof (tasked_count b dr lba count ltac:(lia)) as Ec. fold b1 in Esel, El, Ec. rewrite Esel, El, Ec.
  assert (pending b1 = Idle) as -> by done. assert (drives b1 = drives b) as -> by done. rewrite Hd.
  assert (Z.testbit (devsel b1) 6 = true) as -> by (destruct Hdr as [-> | ->]; done).
  rewrite (proj2 (Z.ltb_lt 0 count)), (proj2 (Z.leb_le _ _)) by lia. by destruct Hcmd as [-> | ->].
Qed.

Lemma read_protocol b dr lba count ws buf k : dr = ATA_MASTER \/ dr = ATA_SLAVE -> pending b = Idle -> drives b ATA_MASTER <> Absent ->
  drives b dr = AtaDrive ws -> 0 <= lba -> 0 < count < 65536 -> lba + count <= identify_lba_count ws -> identify_lba_count ws <= 2 ^ 48 ->
  Z.of_nat (length buf) = 512 * count -> at_rest b (dev k) ->
  wp (wait_bsy_clear font8x16 ;;; send_command dr lba count READ_EXT ;;; settle ;;; read_loop font8x16 (Z.to_nat count) 0 buf)
    (fun out => moved k (fun d => out = bytes_of_words (sector_words b dr lba (Z.to_nat count)) /\
      exists b', at_rest b' d /\ same_drives b b' /\ media b' = media b /\ dirty b' = dirty b)) k.
Proof.
  intros Hdr Hidle Hm Hd Hl Hc Hcap H48 Hbuf Hr.
  apply (wp_moved _ _ (fun _ => at_rest b)); [by apply wait_bsy_clear_any|]. intros _ k1 Hr1.
  set (b1 := tasked b dr lba count). set (n := Z.to_nat count).
  set (wss := (fun i => words_of (media b dr (lba + Z.of_nat i))) <$> seq 0 n).
  assert (Forall (fun ws => length ws = 256%nat) wss) as Hwss.
  { apply Forall_fmap, Forall_forall. intros i _. unfold words_of. cbn. by rewrite length_fmap. }
  assert (length wss = n) as Hlen by (unfold wss; by rewrite length_fmap, length_seq).
  assert (concat wss <> []) as Hne.
  { destruct wss as [|x wss]; [cbn in Hlen; lia|]. apply Forall_cons in Hwss as [Hx _]. destruct x; done. }
  apply (wp_moved _ _ (fun _ => on_bus (bus_data_in (concat wss) b1))).
  { apply (send_command_spec b); [done|]. rewrite (command_ok b dr lba count ws) by (done || by left). unfold bus_data_in.
    by rewrite bool_decide_false. }
  intros _ k2 Hb2. apply (wp_moved _ _ (fun _ d => on_bus (bus_data_in (concat wss) b1) d /\ (bsy d <= bsy (dev k2))%nat)); [by apply settle_spec|].
  intros _ k3 [Hb3 _]. rewrite <- Hlen.
  eapply wp_mono; [apply (read_loop_spec wss b1); [done| |done|lia|done|]|].
  - unfold present. unfold b1. rewrite (tasked_selected b dr lba count Hdr). cbn. by rewrite Hd.
  - intros ->. done.
  - cbv beta. intros out k4 Hmv. eapply moved_mono; [exact Hmv|]. cbv beta. intros d [-> Hr4]. split.
    + rewrite Z.mul_0_r. change (Z.to_nat 0) with 0%nat. rewrite splice_all; [by rewrite Hlen|]. rewrite length_bytes_of_words. rewrite (length_concat_const _ 256), Hlen by done. lia.
    + by exists (bus_data_in [] b1).
Qed.

Lemma write_protocol b dr lba count ws buf k : dr = ATA_MASTER \/ dr = ATA_SLAVE -> pending b = Idle -> drives b ATA_MASTER <> Absent ->
  drives b dr = AtaDrive ws -> 0 <= lba -> 0 < count < 65536 -> lba + count <= identify_lba_count ws -> identify_lba_count ws <= 2 ^ 48 ->
  Z.of_nat (length buf) = 512 * count -> bytes_ok buf -> at_rest b (dev k) ->
  wp (wait_bsy_clear font8x16 ;;; send_command dr lba count WRITE_EXT ;;;
      forM (Z.to_nat count) 0 (fun i => poll font8x16 ;;; write_words i buf ;;; settle) ;;;
      wait_bsy_clear font8x16 ;;; on_dev (outb COMMAND_IO_PORT FLUSH_EXT_CMD) ;;; settle ;;; wait_bsy_clear font8x16)
    (fun _ => moved k (fun d => exists b', at_rest b' d /\ same_drives b b' /\ dirty b' dr = false /\
      (forall d l : Z, media b' d l = if (d =? dr) && (lba <=? l) && (l <? lba + count) then sub (Z.to_nat (512 * (l - lba))) 512 buf else media b d l) /\
      forall d : Z, d <> dr -> dirty b' d = dirty b d)) k.
Proof.
  intros Hdr Hidle Hm Hd Hl Hc Hcap H48 Hbuf Hbytes Hr.
  apply (wp_moved _ _ (fun _ => at_rest b)); [by apply wait_bsy_clear_any|]. intros _ k1 Hr1.
  set (b1 := tasked b dr lba count). set (n := Z.to_nat count).
  assert (forall b2, drives b2 = drives b1 -> devsel b2 = devsel b1 -> selected b2 = dr) as Hsel.
  { intros b2 _ E. rewrite <- (tasked_selected b dr lba count Hdr). unfold selected. by rewrite E. }
  assert (forall b2, drives b2 = drives b1 -> devsel b2 = devsel b1 -> present b2) as Hpres.
  { intros b2 E1 E2. unfold present. rewrite (Hsel b2 E1 E2), E1. cbn. by rewrite Hd. }
  apply (wp_moved _ _ (fun _ => on_bus (set_pending (DataOut dr lba n []) b1))).
  { apply (send_command_spec b); [done|]. by rewrite (command_ok b dr lba count ws) by (done || by right). }
  intros _ k2 Hb2. set (b2 := set_pending (DataOut dr lba n []) b1) in *.
  apply (wp_moved _ _ (fun _ d => exists b', on_bus b' d /\ written dr lba n n buf b1 b')).
  { eapply wp_mono; [apply (wp_forM (fun i => moved k2 (fun d => exists b', on_bus b' d /\ written dr lba n (Z.to_nat i) buf b1 b')))|].
    - exists (dev k2). split; [by destruct k2|]. split; [done|]. exists b2. split; [done|]. split.
      + cbn [b2 pending set_pending]. rewrite (proj2 (Nat.eqb_neq _ _)) by lia. by rewrite Nat.sub_0_r, Z.add_0_r.
      + intros d l. rewrite Z.add_0_r. destruct (Z.leb_spec lba l), (Z.ltb_spec l lba); try lia; by rewrite ?andb_false_r.
      + done.
      + done.
      + done.
    - intros i k3 Hi (d & -> & Hu & b3 & Hb3 & W).
      assert (wp (poll font8x16 ;;; write_words i buf ;;; settle) (fun _ => moved (set_dev d k2) (fun d => exists b', on_bus b' d /\
         written dr lba n (Z.to_nat (i + 1)) buf b1 b')) (set_dev d k2)) as Hbody.
      { pose proof W as [W1 _ _ W4 W5]. rewrite (proj2 (Nat.eqb_neq _ _)), Z2Nat.id in W1 by lia.
        apply (wp_moved _ _ (fun _ => at_rest b3)); [apply poll_spec; [by apply Hpres|by rewrite W1|done]|]. intros _ k4 Hr4.
        apply (wp_moved _ _ (fun _ => on_bus (sector_done dr (lba + i) (n - Z.to_nat i) (sub (Z.to_nat (512 * i)) 512 buf) b3))).
        { apply write_words_spec; [done|lia|lia|lia|done|done]. }
        intros _ k5 Hb5. eapply wp_mono; [by apply settle_spec|]. cbv beta. intros _ k6 Hmv. eapply moved_mono; [exact Hmv|].
        cbv beta. intros d6 [Hb6 _]. eexists. split; [exact Hb6|]. rewrite Z2Nat.inj_add, Nat.add_1_r by lia.
        pose proof (written_step dr lba n (Z.to_nat i) buf b1 b3 ltac:(lia) W) as Hst. by rewrite !Z2Nat.id in Hst by lia. }
      eapply wp_mono; [exact Hbody|]. cbv beta. intros _ k4 (d4 & -> & Hu4 & HQ). exists d4. split; [done|]. split; [by rewrite Hu4|done].
    - cbv beta. intros _ k3 Hmv. eapply moved_mono; [exact Hmv|]. cbv beta. intros d (b3 & Hb3 & W). exists b3. split; [done|].
      by replace n with (Z.to_nat (0 + Z.of_nat n)) at 2 by lia. }
  intros _ k3 (b3 & Hb3 & [W1 W2 W3 W4 W5]). rewrite Nat.eqb_refl in W1.
  apply (wp_moved _ _ (fun _ => at_rest b3)); [apply wait_bsy_clear_spec; [by apply Hpres|done]|]. intros _ k4 Hr4.
  apply (wp_moved _ _ (fun _ => on_bus (set_dirty dr false b3))).
  { eapply wp_mono; [apply (out_spec b3 (set_dirty dr false b3)); [by apply ata_port_in|done|]|].
    - unfold bus_out. change (u16 COMMAND_IO_PORT =? COMMAND_IO_PORT) with true. unfold bus_command. rewrite W1, (Hsel b3) by done.
      rewrite W4. change (drives b1) with (drives b). by rewrite Hd.
    - cbv beta. intros _ k5 Hmv. eapply moved_mono; [exact Hmv|]. by intros d [? _]. }
  intros _ k5 Hb5. apply (wp_moved _ _ (fun _ d => on_bus (set_dirty dr false b3) d /\ (bsy d <= bsy (dev k5))%nat)); [by apply settle_spec|].
  intros _ k6 [Hb6 _]. eapply wp_mono; [apply (wait_bsy_clear_spec (set_dirty dr false b3)); [by apply Hpres|done]|].
  cbv beta. intros _ k7 Hmv. eapply moved_mono; [exact Hmv|]. cbv beta. intros d Hr7. exists (set_dirty dr false b3). split; [done|].
  split; [by split|]. split; [cbn; by rewrite Z.eqb_refl|]. split.
  - intros d' l. cbn [media set_dirty]. rewrite W2. by replace (lba + Z.of_nat n) with (lba + count) by lia.
  - intros d' Hd'. cbn [dirty set_dirty]. rewrite (proj2 (Z.eqb_neq _ _)) by done. by rewrite W3.
Qed.
End protocol.

(** ** Refinement of the drives of [Disk] *)

Lemma bytes_of_words_concat wss : bytes_of_words (concat wss) = concat (bytes_of_words <$> wss).
Proof. induction wss as [|ws wss IH]; [done|]. cbn [concat fmap list_fmap]. by rewrite bytes_of_words_app, IH. Qed.

Lemma bytes_words_of x : length x = 512%nat -> bytes_ok x -> bytes_of_words (words_of x) = x.
Proof.
  intros Hl Hb. transitivity (sub (Z.to_nat 0) (2 * 256) x); [|by rewrite sub_all].
  rewrite <- bytes_of_ld16 by (done || lia). reflexivity.
Qed.

Section refinement.
Context {D : Type} `{AtaBus D} (font8x16 : list Z).
Implicit Types (a : ata D) (s : fstate).

Definition bus_at a : bus := bus_of (dev (con a)).

(** The driver between two transfers: the console works, no command is under
    way, and the drives hold the sectors of [s]; a sector count that is not 0
    belongs to a drive that is there, has so many sectors, and no more than a
    48-bit address reaches. *)
Record ready a s : Prop := mkReady {
  r_con : con_ok font8x16 (con a);
  r_scr : fb_wf (scr (con a)) /\ displays font8x16 (scr (con a));
  r_idle : pending (bus_at a) = Idle; r_rest : bsy (dev (con a)) = 0%nat;
  r_first : drives (bus_at a) ATA_MASTER <> Absent;
  r_media dr l : media (bus_at a) dr l = sectors s dr l; r_disk : disk_wf s;
  r_master : geometry48 (master a) = master_drive s; r_slave : geometry48 (slave a) = slave_drive s;
  r_size dr : dr = ATA_MASTER \/ dr = ATA_SLAVE -> 0 < drive_size s dr ->
    exists ws, drives (bus_at a) dr = AtaDrive ws /\ drive_size s dr <= identify_lba_count ws <= 2 ^ 48
}.

(** Every outcome of [n] on [s] is the outcome of the driver. *)
Definition simulates {A} (m : M (ata D) A) (n : FM A) a s : Prop :=
  match n s with
  | Done r s' => exists a', m a = Done r a' /\ ready a' s'
  | Halted h _ => exists a', m a = Halted h a'
  end.

Lemma on_con_bind {A B} (m : M (console D) A) (f : A -> M (console D) B) a :
  bindM (on_con m) (fun x => on_con (f x)) a = on_con (bindM m f) a.
Proof.
  destruct a as [k ma sl hs]. unfold on_con, onM, bindM. cbn [con]. destruct (m k) as [x k1|h k1]; [|done].
  cbn [set_con con master slave has_slave]. by destruct (f x k1).
Qed.
(** From the devices to the driver: only the devices behind the console change. *)
Lemma on_con_moved {A} (m : M (console D) A) (Q : A -> D -> Prop) a :
  wp m (fun x => moved (con a) (Q x)) (con a) ->
  exists x d, on_con m a = Done x (set_con (set_dev d (con a)) a) /\ uart_of d = uart_of (dev (con a)) /\ Q x d.
Proof.
  intros Hw. apply wp_inv in Hw as (x & k & E & d & -> & Hu & HQ). exists x, d. unfold on_con, onM. by rewrite E.
Qed.

Lemma ready_moved a s s' d b' : ready a s -> uart_of d = uart_of (dev (con a)) -> at_rest b' d -> same_drives (bus_at a) b' ->
  (forall dr l, media b' dr l = sectors s' dr l) -> disk_wf s' -> master_drive s' = master_drive s -> slave_drive s' = slave_drive s ->
  ready (set_con (set_dev d (con a)) a) s'.
Proof.
  intros [] Hu [Hb Hz] [Hp Hd] Hm Hw Em Es. split; cbn [con set_con]; unfold bus_at; cbn [con set_con dev set_dev scr master slave].
  - destruct r_con0. split; cbn; [by rewrite Hu|done..].
  - done.
  - by rewrite Hb.
  - done.
  - by rewrite Hb, Hd.
  - by rewrite Hb.
  - done.
  - by rewrite Em.
  - by rewrite Es.
  - intros dr Hdr. unfold drive_size. rewrite Em, Es, Hb, Hd. by apply r_size0.
Qed.

(** The bounds check: the early return, the panic, or a drive that is there. *)
Lemma sector_bounds_spec dr lba count a s : length font8x16 = 4096%nat -> ready a s -> 0 <= lba -> 0 < count -> lba + count < 2 ^ 64 ->
  match ata_check dr lba count s with
  | Done ok s' => s' = s /\ sector_bounds font8x16 dr lba count a = Done ok a /\
      (ok = true -> (dr = ATA_MASTER \/ dr = ATA_SLAVE) /\ exists ws, drives (bus_at a) dr = AtaDrive ws /\
        lba + count <= identify_lba_count ws /\ identify_lba_count ws <= 2 ^ 48)
  | Halted h s' => s' = s /\ exists a', sector_bounds font8x16 dr lba count a = Halted h a'
  end.
Proof.
  intros Hf Hr Hl Hc Hlt.
  assert (forall n, n = drive_size s dr -> dr = ATA_MASTER \/ dr = ATA_SLAVE ->
    match (if n <? u64 (lba + count) then panicM "KERNEL PANIC: LBA OUT OF BOUNDS" else retM true) s with
    | Done ok s' => s' = s /\ (if n <? u64 (lba + count) then on_con (panic font8x16 "KERNEL PANIC: LBA OUT OF BOUNDS") else retM true) a = Done ok a /\
        (ok = true -> (dr = ATA_MASTER \/ dr = ATA_SLAVE) /\ exists ws, drives (bus_at a) dr = AtaDrive ws /\
          lba + count <= identify_lba_count ws /\ identify_lba_count ws <= 2 ^ 48)
    | Halted h s' => s' = s /\ exists a', (if n <? u64 (lba + count) then on_con (panic font8x16 "KERNEL PANIC: LBA OUT OF BOUNDS") else retM true) a = Halted h a'
    end) as Hcheck.
  { intros n -> Hdr. unfold u64. rewrite Z.mod_small by lia. destruct (Z.ltb_spec (drive_size s dr) (lba + count)) as [Hout|Hin].
    - cbn. split; [done|]. destruct (r_scr _ _ Hr) as [Hw Hd].
      destruct (panic_spec (A := bool) font8x16 Hf "KERNEL PANIC: LBA OUT OF BOUNDS" (con a)) as (s1 & E & _); [|done|done|].
      { apply (bool_decide_unpack _); vm_compute; exact I. }
      eexists. unfold on_con, onM. by rewrite E.
    - cbn. split; [done|]. split; [done|]. intros _. split; [done|].
      destruct (r_size _ _ Hr dr Hdr ltac:(lia)) as (ws & Hws & H1' & H2'). exists ws. split; [done|]. lia. }
  unfold ata_check, sector_bounds. unfold bindM at 1, getM at 1.
  destruct (Z.eqb_spec dr ATA_MASTER) as [Em|Em]; [|destruct (Z.eqb_spec dr ATA_SLAVE) as [Es|Es]].
  - specialize (Hcheck (lba_sector_count (master_drive s))). rewrite <- (r_master _ _ Hr) in Hcheck |- *. 
    subst dr. cbv iota. unfold bindM, getM in *. apply Hcheck; [|by left]. unfold drive_size. rewrite Z.eqb_refl. by rewrite (r_master _ _ Hr).
  - specialize (Hcheck (lba_sector_count (slave_drive s))). rewrite <- (r_slave _ _ Hr) in Hcheck |- *.
    subst dr. cbv iota. unfold bindM, getM in *. apply Hcheck; [|by right]. by rewrite (r_slave _ _ Hr).
  - done.
Qed.

Lemma on_con_seq {A B} (m1 : M (console D) A) (rest : M (ata D) B) (m2 : M (console D) B) a :
  (forall t, rest t = on_con m2 t) -> (on_con m1 ;;; rest) a = on_con (m1 ;;; m2) a.
Proof. intros Hr. rewrite <- on_con_bind. apply bindM_ext. intros _ t. apply Hr. Qed.

Lemma sector_words_bytes a s dr lba n : ready a s -> bytes_of_words (sector_words (bus_at a) dr lba n) = read_sectors s dr lba n.
Proof.
  intros Hr. unfold sector_words, read_sectors. rewrite bytes_of_words_concat. f_equal. rewrite <- list_fmap_compose. apply list_fmap_ext.
  intros i j _. cbn. rewrite (r_media _ _ Hr). destruct (r_disk _ _ Hr dr (lba + Z.of_nat j)). by apply bytes_words_of.
Qed.

Lemma read_simulates dr lba count buf a s : length font8x16 = 4096%nat -> ready a s -> 0 <= lba -> 0 < count < 65536 ->
  lba + count < 2 ^ 64 -> Z.of_nat (length buf) = 512 * count ->
  simulates (ata_read48 font8x16 dr lba count buf) (Disk.ata_read48 dr lba count buf) a s.
Proof.
  intros Hf Hr Hl Hc Hlt Hbuf. unfold simulates, Disk.ata_read48, ata_read48, bindM at 1.
  pose proof (sector_bounds_spec dr lba count a s Hf Hr Hl ltac:(lia) Hlt) as Hb.
  destruct (ata_check dr lba count s) as [ok s'|h s']; cycle 1.
  { destruct Hb as [-> [a' E]]. exists a'. unfold bindM at 1. by rewrite E. }
  destruct Hb as (-> & E & Hok). destruct ok; cbn [negb]; cycle 1.
  { exists a. unfold bindM at 1. by rewrite E. }
  destruct (Hok eq_refl) as (Hdr & ws & Hws & Hcap & H48).
  destruct (on_con_moved _ _ a (read_protocol font8x16 (bus_at a) dr lba count ws buf (con a) Hdr (r_idle _ _ Hr) (r_first _ _ Hr) Hws Hl Hc Hcap H48 Hbuf
    (conj eq_refl (r_rest _ _ Hr)))) as (x & d & E1 & Hu & -> & b' & Hrest & Hsame & Hmedia & _).
  exists (set_con (set_dev d (con a)) a). unfold bindM at 1. rewrite E. cbn [negb]. split.
  - rewrite <- (sector_words_bytes a s dr lba (Z.to_nat count) Hr), <- E1.
    apply on_con_seq. intros t1. apply on_con_seq. intros t2. by apply on_con_seq.
  - apply (ready_moved a s s d b'); [done|done|done|done| |apply Hr|done|done]. intros d' l. rewrite Hmedia. by apply (r_media _ _ Hr).
Qed.

Lemma write_simulates dr lba count buf a s : length font8x16 = 4096%nat -> ready a s -> 0 <= lba -> 0 < count < 65536 ->
  lba + count < 2 ^ 64 -> Z.of_nat (length buf) = 512 * count -> bytes_ok buf ->
  simulates (ata_write48 font8x16 dr lba count buf) (Disk.ata_write48 dr lba count buf) a s /\
  forall a', dr = ATA_MASTER \/ dr = ATA_SLAVE -> ata_write48 font8x16 dr lba count buf a = Done tt a' -> dirty (bus_at a') dr = false.
Proof.
  intros Hf Hr Hl Hc Hlt Hbuf Hbytes. unfold simulates, Disk.ata_write48, ata_write48. unfold bindM at 1.
  pose proof (sector_bounds_spec dr lba count a s Hf Hr Hl ltac:(lia) Hlt) as Hb.
  destruct (ata_check dr lba count s) as [ok s'|h s'] eqn:Echk; cycle 1.
  { destruct Hb as [-> [a' E]]. rewrite !(bindM_Halted _ _ _ _ _ E). split; [by exists a'|]. done. }
  destruct Hb as (-> & E & Hok). rewrite !(bindM_Done _ _ _ _ _ E). destruct ok; cbn [negb]; cycle 1.
  { split; [by exists a|]. intros a' Hdr _. exfalso. revert Echk. unfold ata_check. unfold bindM, getM.
    destruct Hdr as [-> | ->]; cbn [Z.eqb Pos.eqb ATA_MASTER ATA_SLAVE]; by destruct (_ <? _). }
  destruct (Hok eq_refl) as (Hdr & ws & Hws & Hcap & H48).
  destruct (on_con_moved _ _ a (write_protocol font8x16 (bus_at a) dr lba count ws buf (con a) Hdr (r_idle _ _ Hr) (r_first _ _ Hr) Hws Hl Hc Hcap H48 Hbuf Hbytes
    (conj eq_refl (r_rest _ _ Hr)))) as ([] & d & E1 & Hu & b' & Hrest & Hsame & Hclean & Hmedia & _).
  unfold modM. cbv beta iota. match goal with |- (exists a', ?m = _ /\ _) /\ _ => assert (m = Done tt (set_con (set_dev d (con a)) a)) as Erun end.
  { rewrite <- E1. apply on_con_seq; intros t1. apply on_con_seq; intros t2. apply on_con_seq; intros t3. apply on_con_seq; intros t4.
    apply on_con_seq; intros t5. by apply on_con_seq. }
  split; [|intros a' _ Ea'].
  - eexists. split; [exact Erun|]. apply (ready_moved a s _ d b'); [done|done|done|done| | |done|done].
    + intros d' l. rewrite Hmedia. cbn [write_sectors set_sectors sectors]. rewrite Z2Nat.id by lia. by rewrite (r_media _ _ Hr).
    + apply write_sectors_wf; [apply Hr|lia|done].
  - rewrite Erun in Ea'. injection Ea' as <-. unfold bus_at. cbn. destruct Hrest as [-> _]. done.
Qed.
End refinement.

(** ** Finding the drives *)

Section init.
Context {D : Type} `{AtaBus D} (font8x16 : list Z) (Hfont : length font8x16 = 4096%nat).
Implicit Types (k : console D) (b : bus).
Local Abbreviation KM := (M (console D)).
Local Abbreviation AM := (M (ata D)).

Lemma wp_con {A B} (m : KM A) (f : A -> AM B) (P : A -> D -> Prop) Q k ma sl hs :
  wp m (fun x => moved k (P x)) k ->
  (forall x k1, moved k (P x) k1 -> wp (f x) Q (mkAta k1 ma sl hs)) -> wp (bindM (on_con m) f) Q (mkAta k ma sl hs).
Proof.
  intros Hm Hf. wp_step. unfold on_con. apply wp_onM. cbn [con]. eapply wp_mono; [exact Hm|]. cbv beta. intros x k1 Hk1. by apply Hf.
Qed.

Lemma moved_trans k P k1 Q k2 : moved k P k1 -> moved k1 Q k2 -> moved k Q k2.
Proof. intros (d1 & -> & Hu1 & _) (d2 & -> & Hu2 & HQ). exists d2. split; [done|]. split; [by rewrite Hu2|done]. Qed.
Lemma moved_dev k P k1 : moved k P k1 -> P (dev k1).
Proof. by intros (d & -> & _ & HP). Qed.

(** The bus after the registers were cleared for IDENTIFY. *)
Definition cleared dr b : bus := put_hi 0 (put_mid 0 (put_lo 0 (put_count 0 (put_select dr b)))).

Lemma cleared_command_in dr b ws : dr = ATA_MASTER \/ dr = ATA_SLAVE -> pending b = Idle -> drives b dr = AtaDrive ws ->
  bus_command IDENTIFY_CMD (cleared dr b) = Some (set_pending (DataIn ws) (cleared dr b)).
Proof. intros Hdr Hp Hd. unfold bus_command. cbn [cleared pending put_hi put_mid put_lo put_count put_select]. rewrite Hp. destruct Hdr as [-> | ->]; cbn; by rewrite Hd. Qed.

(** Select, settle, clear and send: what both outcomes have in common. *)
Lemma identify_start dr b (f : Z -> AM bool) Q k ma sl hs : dr = ATA_MASTER \/ dr = ATA_SLAVE -> at_rest b (dev k) ->
  forall b', bus_command IDENTIFY_CMD (cleared dr b) = Some b' ->
  (forall k1, moved k (fun d => on_bus b' d /\ (drives b' (selected b') = Absent -> bsy d = 0%nat)) k1 ->
    wp (let* v := on_con (on_dev (inb STATUS_PORT)) in f v) Q (mkAta k1 ma sl hs)) ->
  wp (on_con (on_dev (outb DRIVE_SELECT_IO_PORT dr)) ;;; on_con settle ;;;
      on_con (on_dev (outb SECTOR_COUNT_PORT 0)) ;;; on_con (on_dev (outb LBA_LO_PORT 0)) ;;;
      on_con (on_dev (outb LBA_MID_PORT 0)) ;;; on_con (on_dev (outb LBA_HI_PORT 0)) ;;;
      on_con (on_dev (outb COMMAND_IO_PORT IDENTIFY_CMD)) ;;;
      let* v := on_con (on_dev (inb STATUS_PORT)) in f v) Q (mkAta k ma sl hs).
Proof.
  intros Hdr Hr b' Hcmd Hnext. assert (u8 dr = dr) as Hu8 by (by destruct Hdr as [-> | ->]).
  eapply wp_con; [apply (out_reg_spec b (put_select dr b)); [by apply ata_port_in|done|exact Hr|rewrite Hu8; reflexivity]|]. intros ? k1 M1.
  eapply wp_con; [apply (settle_spec (put_select dr b) 0); [apply (moved_dev _ _ _ M1)|rewrite (proj2 (moved_dev _ _ _ M1)); lia]|].
  intros ? k2 M2. pose proof (moved_dev _ _ _ M2) as [B2 Z2].
  assert (at_rest (put_select dr b) (dev k2)) as R2 by (split; [done|lia]).
  eapply wp_con; [eapply (out_reg_spec _ _ _ _ k2); [by apply ata_port_in|done|exact R2|reflexivity]|]. intros ? k3 M3.
  eapply wp_con; [eapply (out_reg_spec _ _ _ _ k3); [by apply ata_port_in|done|exact (moved_dev _ _ _ M3)|reflexivity]|]. intros ? k4 M4.
  eapply wp_con; [eapply (out_reg_spec _ _ _ _ k4); [by apply ata_port_in|done|exact (moved_dev _ _ _ M4)|reflexivity]|]. intros ? k5 M5.
  eapply wp_con; [eapply (out_reg_spec _ _ _ _ k5); [by apply ata_port_in|done|exact (moved_dev _ _ _ M5)|reflexivity]|]. intros ? k6 M6.
  eapply wp_con; [apply (out_spec (cleared dr b) b' _ _ k6); [by apply ata_port_in|exact (moved_dev _ _ _ M6)|exact Hcmd]|]. intros ? k7 M7.
  apply Hnext. eapply moved_mono; [exact (moved_trans _ _ _ _ _ M1 (moved_trans _ _ _ _ _ M2 (moved_trans _ _ _ _ _ M3 (moved_trans _ _ _ _ _ M4
    (moved_trans _ _ _ _ _ M5 (moved_trans _ _ _ _ _ M6 M7))))))|].
  cbv beta. intros d [? Hz]. split; [done|]. intros Ha. apply Hz. by right.
Qed.

(** The 256 words end up in the structure of the drive. *)
Definition put_values dr (ws : list Z) (ma sl : drive_info) : drive_info * drive_info :=
  let put d := mkInfo (identify_magic d) (geometry48 d) ws in
  if dr =? ATA_MASTER then (put ma, sl) else (ma, put sl).
Definition some_values dr (n : nat) (ws : list Z) (ma sl : drive_info) : drive_info * drive_info :=
  let put d := mkInfo (identify_magic d) (geometry48 d) (take n ws ++ drop n (identify_values d)) in
  if dr =? ATA_MASTER then (put ma, sl) else (ma, put sl).

Lemma insert_take_drop {A} n (ws l : list A) w : length l = length ws -> ws !! n = Some w ->
  <[n := w]> (take n ws ++ drop n l) = take (S n) ws ++ drop (S n) l.
Proof.
  intros Hl Hw. pose proof (lookup_lt_Some _ _ _ Hw). rewrite insert_app_r_alt by (rewrite length_take; lia).
  rewrite length_take, Nat.min_l, Nat.sub_diag by lia. rewrite (take_S_r _ _ w) by done. rewrite <- app_assoc. f_equal.
  destruct (drop n l) as [|x t] eqn:E; [apply (f_equal length) in E; rewrite length_drop in E; simpl in E; lia|].
  cbn. f_equal. replace (S n) with (n + 1)%nat by lia. by rewrite <- drop_drop, E.
Qed.

Lemma identify_words dr b ws k ma sl hs : length ws = 256%nat -> Forall (fun w => 0 <= w < 65536) ws ->
  length (identify_values ma) = 256%nat -> length (identify_values sl) = 256%nat -> at_rest (set_pending (DataIn ws) b) (dev k) ->
  wp (forM IDENTIFY_VALUE_LENGTH 0 (fun i =>
        let* val := on_con (on_dev (inw DATA_PORT)) in
        if dr =? ATA_MASTER then modM (fun a : ata D => set_master (set_values (Z.to_nat i) val (master a)) a)
        else modM (fun a : ata D => set_slave (set_values (Z.to_nat i) val (slave a)) a)))
    (fun _ a' => exists k', a' = mkAta k' (put_values dr ws ma sl).1 (put_values dr ws ma sl).2 hs /\
      moved k (at_rest (set_pending Idle b)) k') (mkAta k ma sl hs).
Proof.
  intros Hl Hws Hlm Hls Hr.
  eapply wp_mono; [apply (wp_forM (fun i a => exists k', a = mkAta k' (some_values dr (Z.to_nat i) ws ma sl).1 (some_values dr (Z.to_nat i) ws ma sl).2 hs /\
    moved k (at_rest (bus_data_in (drop (Z.to_nat i) ws) b)) k'))|].
  - exists k. split.
    + unfold some_values. destruct (dr =? ATA_MASTER); cbn [fst snd]; destruct ma, sl; done.
    + exists (dev k). split; [by destruct k|]. split; [done|]. cbn. unfold bus_data_in. rewrite drop_0, bool_decide_false; [done|]. by destruct ws.
  - intros i a Hi (k1 & -> & M1). pose proof (moved_dev _ _ _ M1) as [B1 Z1].
    change (Z.of_nat IDENTIFY_VALUE_LENGTH) with 256 in Hi.
    destruct (lookup_lt_is_Some_2 ws (Z.to_nat i)) as [w Hw]; [lia|]. pose proof (Forall_lookup_1 _ _ _ _ Hws Hw) as Hw16. cbv beta in Hw16.
    rewrite (drop_S _ w) in B1 by done.
    eapply wp_con; [apply (in16_moved DATA_PORT (fun v d => v = w /\ at_rest (bus_data_in (drop (S (Z.to_nat i)) ws) b) d)); [by apply ata_port_in|]|].
    + intros v d E. apply (ata_in _ w (drop (S (Z.to_nat i)) ws)) in E as (-> & E1 & E2); [|done|by rewrite B1].
      split; [unfold u16; by apply Z.mod_small|]. split.
      * rewrite E1, B1. apply bus_data_in_twice.
      * apply E2. destruct (drop (S (Z.to_nat i)) ws) as [|y t] eqn:Ed; [by left|right]. rewrite <- Ed, length_drop, Hl.
        apply (f_equal length) in Ed. rewrite length_drop, Hl in Ed. cbn [length] in Ed. zlia.
    + intros v k2 M2. pose proof (moved_dev _ _ _ M2) as [-> R2].
      assert (moved k (at_rest (bus_data_in (drop (Z.to_nat (i + 1)) ws) b)) k2) as M3.
      { eapply moved_mono; [exact (moved_trans _ _ _ _ _ M1 M2)|]. cbv beta. intros d [_ ?]. by rewrite Z2Nat.inj_add, Nat.add_1_r by lia. }
      unfold some_values. destruct (dr =? ATA_MASTER); wp_step; exists k2; (split; [|exact M3]);
        unfold set_master, set_slave, set_values; cbn [fst snd con master slave has_slave identify_magic geometry48 identify_values];
        rewrite insert_take_drop by (done || lia); by rewrite Z2Nat.inj_add, Nat.add_1_r by lia.
  - cbv beta. intros _ a (k' & -> & M'). exists k'. change (Z.to_nat (0 + Z.of_nat IDENTIFY_VALUE_LENGTH)) with 256%nat in *. split.
    + unfold some_values, put_values. rewrite (take_ge ws) by lia.
      destruct (dr =? ATA_MASTER); cbn [fst snd]; by rewrite drop_ge, app_nil_r by lia.
    + rewrite drop_ge in M' by lia. exact M'.
Qed.

Lemma identify_drive dr b ws k ma sl hs : dr = ATA_MASTER \/ dr = ATA_SLAVE -> at_rest b (dev k) -> pending b = Idle ->
  drives b dr = AtaDrive ws -> length ws = 256%nat -> Forall (fun w => 0 <= w < 65536) ws ->
  length (identify_values ma) = 256%nat -> length (identify_values sl) = 256%nat ->
  wp (ata_identify font8x16 dr) (fun r a' => r = true /\ exists k', a' = mkAta k' (put_values dr ws ma sl).1 (put_values dr ws ma sl).2 hs /\
    moved k (at_rest (cleared dr b)) k') (mkAta k ma sl hs).
Proof.
  intros Hdr Hr Hp Hd Hl Hws Hlm Hls. unfold ata_identify.
  apply (identify_start dr b _ _ k ma sl hs Hdr Hr _ (cleared_command_in dr b ws Hdr Hp Hd)). set (b1 := set_pending (DataIn ws) (cleared dr b)).
  assert (selected b1 = dr) as Hsel by (by destruct Hdr as [-> | ->]). assert (present b1) as Hpres by (unfold present; rewrite Hsel; cbn; by rewrite Hd).
  intros k1 M1. pose proof (moved_dev _ _ _ M1) as [B1 _].
  eapply wp_con; [apply (in8_moved STATUS_PORT (fun v d => on_bus b1 d /\ 0 < v < 255)); [by apply ata_port_in|]|].
  { intros v d E. apply ata_status in E as (E1 & _ & Ev & _); [|by rewrite B1]. split; [unfold on_bus; by rewrite E1|].
    unfold u8. by rewrite Z.mod_small by lia. }
  intros v k2 M2. pose proof (moved_dev _ _ _ M2) as [B2 Hv]. rewrite (proj2 (Z.eqb_neq v 0)), (proj2 (Z.eqb_neq v 255)) by lia. cbn [orb].
  eapply wp_con; [by apply (wait_bsy_clear_spec font8x16 b1)|]. intros ? k3 M3. pose proof (moved_dev _ _ _ M3) as [B3 Z3].
  eapply wp_con; [apply (in8_moved LBA_MID_PORT (fun v d => v = 0 /\ at_rest b1 d)); [by apply ata_port_in|]|].
  { intros w d E. apply ata_mid in E as (E1 & E2 & ->); [|done]. rewrite B3 in *. done. }
  intros w k4 M4. pose proof (moved_dev _ _ _ M4) as [-> [B4 Z4]]. cbn [Z.eqb negb].
  wp_step. eapply wp_con; [apply (in8_moved LBA_HI_PORT (fun v d => v = 0 /\ at_rest b1 d)); [by apply ata_port_in|]|].
  { intros w' d E. apply ata_hi in E as (E1 & E2 & ->); [|done]. rewrite B4 in *. done. }
  intros w' k5 M5. pose proof (moved_dev _ _ _ M5) as [-> [B5 Z5]]. wp_step. cbn [Z.eqb negb].
  eapply wp_con; [apply (poll_spec font8x16 b1); [done|done|done]|]. intros ? k6 M6. wp_step.
  eapply wp_mono; [apply (identify_words dr (cleared dr b) ws); [done|done|done|done|exact (moved_dev _ _ _ M6)]|].
  cbv beta. intros _ a' (k7 & -> & M7). wp_step. split; [done|]. exists k7. split; [done|].
  eapply moved_mono; [exact (moved_trans _ _ _ _ _ M1 (moved_trans _ _ _ _ _ M2 (moved_trans _ _ _ _ _ M3 (moved_trans _ _ _ _ _ M4
    (moved_trans _ _ _ _ _ M5 (moved_trans _ _ _ _ _ M6 M7))))))|].
  intros d [B7 Z7]. split; [|done]. rewrite B7. unfold cleared. rewrite <- Hp. by destruct b.
Qed.

(** Printing does not touch the drives. *)
Lemma print_at_rest ps k b : Forall piece_ok ps -> con_ok font8x16 k -> at_rest b (dev k) ->
  wp (kprintf font8x16 (render ps ++ [0])) (fun _ k' => output font8x16 (cells ps) k k' /\ at_rest b (dev k')) k.
Proof using Hfont.
  intros Hps Hk Hr. destruct (wp_inv _ _ _ (kprintf_prints font8x16 Hfont ps [] k Hps Hk)) as ([] & k' & E & Ho).
  unfold wp. rewrite E. split; [done|]. revert Hr. apply (dev_keeps_kprintf font8x16 (at_rest b)) in E; [done| |].
  - intros d [Hb Hz]. destruct (uart_not_ata (COM1 + 5) d ltac:(lia)) as [[E1 E2] _]. split; [by rewrite E1|by rewrite E2].
  - intros d v _ [Hb Hz]. destruct (uart_not_ata COM1 d ltac:(lia)) as [_ Hv]. destruct (Hv v) as [E1 E2]. split; [by rewrite E1|by rewrite E2].
Qed.

(** A console that was only printed on, and a bus at rest in a state with the
    same drives and sectors. *)
Definition printed_on k b k' : Prop :=
  exists k1 xs b', moved k (fun _ => True) k1 /\ output font8x16 xs k1 k' /\ at_rest b' (dev k') /\ same_drives b b' /\ media b' = media b.

Lemma moved_con_ok k P k1 : con_ok font8x16 k -> moved k P k1 -> con_ok font8x16 k1.
Proof. intros [] (d & -> & Hu & _). split; cbn; [by rewrite Hu|done..]. Qed.

Lemma identify_absent b k ma sl hs : con_ok font8x16 k -> at_rest b (dev k) -> pending b = Idle -> drives b ATA_SLAVE = Absent ->
  wp (ata_identify font8x16 ATA_SLAVE) (fun r a' => r = false /\ exists k', a' = mkAta k' ma sl hs /\ printed_on k b k') (mkAta k ma sl hs).
Proof using Hfont.
  intros Hk Hr Hp Ha. unfold ata_identify.
  assert (bus_command IDENTIFY_CMD (cleared ATA_SLAVE b) = Some (cleared ATA_SLAVE b)) as Hcmd.
  { unfold bus_command. cbn [cleared pending put_hi put_mid put_lo put_count put_select]. rewrite Hp. cbn. by rewrite Ha. }
  apply (identify_start ATA_SLAVE b _ _ k ma sl hs (or_intror eq_refl) Hr _ Hcmd). set (b1 := cleared ATA_SLAVE b) in *.
  assert (drives b1 (selected b1) = Absent) as Habs by done.
  intros k1 M1. pose proof (moved_dev _ _ _ M1) as [B1 Z1]. specialize (Z1 Habs).
  eapply wp_con; [apply (in8_moved STATUS_PORT (fun v d => at_rest b1 d /\ (v = 0 \/ v = 255))); [by apply ata_port_in|]|].
  { intros v d E. apply ata_absent in E as (E1 & E2 & Ev); [|by rewrite B1]. split; [split; [by rewrite E1|by rewrite E2]|].
    destruct Ev as [->|[-> _]]; [by left|by right]. }
  intros v k2 M2. pose proof (moved_dev _ _ _ M2) as [R2 Hv].
  replace ((v =? 0) || (v =? 255)) with true by (destruct Hv as [-> | ->]; done). change (ATA_SLAVE =? ATA_MASTER) with false. cbv iota.
  wp_step. apply wp_onM. cbn [con]. eapply wp_mono; [apply (print_at_rest _ k2 b1); [pieces|by eapply moved_con_ok, M2; eapply moved_con_ok, M1|done]|].
  cbv beta. intros _ k3 [Ho R3]. wp_step. split; [done|]. exists k3. split; [done|].
  eexists k2, _, b1. split; [eapply moved_mono; [exact (moved_trans _ _ _ _ _ M1 M2)|done]|]. split; [exact Ho|]. split; [done|]. by split.
Qed.

Lemma identify_packet m h b k ma sl hs : con_ok font8x16 k -> at_rest b (dev k) -> pending b = Idle ->
  drives b ATA_SLAVE = Packet m h -> is_byte m -> is_byte h -> m <> 0 \/ h <> 0 ->
  wp (ata_identify font8x16 ATA_SLAVE) (fun r a' => r = false /\ exists k', a' = mkAta k' ma sl hs /\ printed_on k b k') (mkAta k ma sl hs).
Proof using Hfont.
  intros Hk Hr Hp Hpk Hm Hh Hmh. unfold ata_identify.
  set (b1 := mkBus (devsel (cleared ATA_SLAVE b)) (count_reg (cleared ATA_SLAVE b)) (lo_reg (cleared ATA_SLAVE b)) (m, 0) (h, 0) Idle (media b) (dirty b) (drives b)).
  assert (bus_command IDENTIFY_CMD (cleared ATA_SLAVE b) = Some b1) as Hcmd.
  { unfold bus_command. cbn [cleared pending put_hi put_mid put_lo put_count put_select]. rewrite Hp. cbn. by rewrite Hpk. }
  apply (identify_start ATA_SLAVE b _ _ k ma sl hs (or_intror eq_refl) Hr _ Hcmd). clear Hcmd.
  assert (present b1) as Hpres by (unfold present; cbn; by rewrite Hpk).
  intros k1 M1. pose proof (moved_dev _ _ _ M1) as [B1 _].
  eapply wp_con; [apply (in8_moved STATUS_PORT (fun v d => on_bus b1 d /\ 0 < v < 255)); [by apply ata_port_in|]|].
  { intros v d E. apply ata_status in E as (E1 & _ & Ev & _); [|by rewrite B1]. split; [unfold on_bus; by rewrite E1|].
    unfold u8. by rewrite Z.mod_small by lia. }
  intros v k2 M2. pose proof (moved_dev _ _ _ M2) as [B2 Hv]. rewrite (proj2 (Z.eqb_neq v 0)), (proj2 (Z.eqb_neq v 255)) by lia. cbn [orb].
  eapply wp_con; [by apply (wait_bsy_clear_spec font8x16 b1)|]. intros ? k3 M3. pose proof (moved_dev _ _ _ M3) as [B3 Z3].
  eapply wp_con; [apply (in8_moved LBA_MID_PORT (fun v d => v = m /\ at_rest b1 d)); [by apply ata_port_in|]|].
  { intros w d E. apply ata_mid in E as (E1 & E2 & ->); [|done]. rewrite B3 in *. split; [|done]. unfold u8. by rewrite Z.mod_small by done. }
  intros w k4 M4. pose proof (moved_dev _ _ _ M4) as [-> [B4 Z4]].
  assert (moved k (fun _ => True) k4) as M04.
  { eapply moved_mono; [exact (moved_trans _ _ _ _ _ M1 (moved_trans _ _ _ _ _ M2 (moved_trans _ _ _ _ _ M3 M4)))|done]. }
  assert (forall k5, moved k (fun _ => True) k5 -> at_rest b1 (dev k5) ->
    wp (on_con (kprintf font8x16 (render [(1, 10 :: bytes_of "WARNING: INCOMPATBILE HARDWARE ON SLAVE DRIVE"); (9, [])] ++ [0])) ;;; retM false)
      (fun r a' => r = false /\ exists k', a' = mkAta k' ma sl hs /\ printed_on k b k') (mkAta k5 ma sl hs)) as Hend.
  { intros k5 M5 R5. wp_step. apply wp_onM. cbn [con]. eapply wp_mono; [apply (print_at_rest _ k5 b1); [pieces|by eapply moved_con_ok|done]|].
    cbv beta. intros _ k6 [Ho R6]. wp_step. split; [done|]. exists k6. split; [done|]. eexists k5, _, b1. split; [done|]. split; [exact Ho|]. split; [done|]. by split. }
  change (ATA_SLAVE =? ATA_MASTER) with false. cbv iota. destruct (Z.eqb_spec m 0) as [->|Hne]; cbn [negb].
  + wp_step. eapply wp_con; [apply (in8_moved LBA_HI_PORT (fun v d => v = h /\ at_rest b1 d)); [by apply ata_port_in|]|].
    { intros w' d E. apply ata_hi in E as (E1 & E2 & ->); [|done]. rewrite B4 in *. split; [|done]. unfold u8. by rewrite Z.mod_small by done. }
    intros w' k5 M5. pose proof (moved_dev _ _ _ M5) as [-> R5]. wp_step. rewrite (proj2 (Z.eqb_neq h 0)) by (destruct Hmh; done).
    apply Hend; [|done]. eapply moved_mono; [exact (moved_trans _ _ _ _ _ M04 M5)|done].
  + wp_step. wp_step. by apply Hend.
Qed.

(** The answers of a drive to IDENTIFY, and those the driver turns down. *)
Definition words_ok (ws : list Z) : Prop :=
  length ws = 256%nat /\ Forall (fun w => 0 <= w < 65536) ws /\ identify_lba_count ws <= 2 ^ 48.
Definition slave_ok (i : identity) : Prop :=
  match i with
  | Absent => True
  | AtaDrive ws => words_ok ws
  | Packet m h => is_byte m /\ is_byte h /\ (m <> 0 \/ h <> 0)
  end.
Definition slave_words (i : identity) : option (list Z) := match i with AtaDrive ws => Some ws | _ => None end.

(** Before [ata_init]: the console is up, the statics of the file are zero and
    the channel is idle with a drive as its master. *)
Record probing (a : ata D) (s : fstate) (wm : list Z) : Prop := mkProbing {
  p_con : con_ok font8x16 (con a); p_good : good_to_fb (con a) = true;
  p_idle : pending (bus_at a) = Idle; p_rest : bsy (dev (con a)) = 0%nat;
  p_master : drives (bus_at a) ATA_MASTER = AtaDrive wm; p_words : words_ok wm;
  p_slave : slave_ok (drives (bus_at a) ATA_SLAVE);
  p_values : length (identify_values (master a)) = 256%nat /\ length (identify_values (slave a)) = 256%nat;
  p_zero : geometry48 (slave a) = mkDrive false 0;
  p_media dr l : media (bus_at a) dr l = sectors s dr l; p_disk : disk_wf s
}.

(** The console and the bus as [ata_init] goes on with them. *)
Record going k b0 : Prop := mkGoing {
  g_con : con_ok font8x16 k; g_good : good_to_fb k = true;
  g_bus : exists b, at_rest b (dev k) /\ same_drives b0 b /\ media b = media b0
}.

Lemma going_moved k b0 P k' : con_ok font8x16 k -> good_to_fb k = true -> moved k P k' ->
  (forall d, P d -> exists b, at_rest b d /\ same_drives b0 b /\ media b = media b0) -> going k' b0.
Proof.
  intros Hk Hg M HP. split; [by eapply moved_con_ok| |exact (HP _ (moved_dev _ _ _ M))].
  by destruct M as (d & -> & _).
Qed.

Lemma going_prints ps k b0 : Forall piece_ok ps -> going k b0 ->
  wp (kprintf font8x16 (render ps ++ [0])) (fun _ k' => going k' b0) k.
Proof using Hfont.
  intros Hps [Hk Hg (b & Hr & Hs & Hm)]. eapply wp_mono; [by apply (print_at_rest ps k b)|]. cbv beta. intros _ k' [Ho Hr'].
  split; [apply Ho|by rewrite (o_good _ _ _ _ Ho)|eauto].
Qed.

Lemma identify_master_going a s wm : probing a s wm -> forall ma sl hs,
  length (identify_values ma) = 256%nat -> length (identify_values sl) = 256%nat ->
  wp (ata_identify font8x16 ATA_MASTER) (fun _ a' => exists k', a' = mkAta k' (mkInfo (identify_magic ma) (geometry48 ma) wm) sl hs /\
    going k' (bus_at a)) (mkAta (con a) ma sl hs).
Proof.
  intros [] ma sl hs Hlm Hls. destruct p_words0 as (Hl & Hw & _).
  eapply wp_mono; [apply (identify_drive ATA_MASTER (bus_at a) wm (con a)); [by left|done|done|done|done|done|done|done]|].
  cbv beta. intros r a' (_ & k' & -> & M). exists k'. split; [done|]. eapply (going_moved (con a)); [done|done|exact M|].
  intros d Hd. by eexists.
Qed.

Lemma identify_slave_going b0 k ma sl hs : going k b0 -> slave_ok (drives b0 ATA_SLAVE) ->
  length (identify_values ma) = 256%nat -> length (identify_values sl) = 256%nat ->
  wp (ata_identify font8x16 ATA_SLAVE) (fun r a' => exists k', going k' b0 /\
    match slave_words (drives b0 ATA_SLAVE) with
    | Some ws => r = true /\ a' = mkAta k' ma (mkInfo (identify_magic sl) (geometry48 sl) ws) hs
    | None => r = false /\ a' = mkAta k' ma sl hs
    end) (mkAta k ma sl hs).
Proof using Hfont.
  intros [Hk Hg (b & Hr & [Hp Hd] & Hm)] Hok Hlm Hls. rewrite <- Hd in *.
  assert (forall r a', r = false /\ (exists k', a' = mkAta k' ma sl hs /\ printed_on k b k') -> slave_words (drives b ATA_SLAVE) = None ->
    exists k', going k' b0 /\ r = false /\ a' = mkAta k' ma sl hs) as Hmissing.
  { intros r a' (-> & k' & -> & k1 & xs & b' & M & Ho & Hr' & [Hp' Hd'] & Hm') _. exists k'. split; [|done].
    split; [apply Ho| |].
    - rewrite (o_good _ _ _ _ Ho). by destruct M as (d & -> & _).
    - exists b'. split; [done|]. split; [split; [done|congruence]|congruence]. }
  destruct (drives b ATA_SLAVE) as [|ws|m h] eqn:Es; cbn [slave_words slave_ok] in *.
  - eapply wp_mono; [by apply (identify_absent b)|]. cbv beta. intros r a' Ha. by apply Hmissing.
  - destruct Hok as (Hl & Hw & _).
    eapply wp_mono; [apply (identify_drive ATA_SLAVE b ws k); [by right|done..]|].
    cbv beta. intros r a' (-> & k' & -> & M). exists k'. split; [|done].
    eapply (going_moved k); [done|done|exact M|]. intros d Hrd. exists (cleared ATA_SLAVE b). split; [done|]. split; [by split|exact Hm].
  - destruct Hok as (? & ? & ?). eapply wp_mono; [by apply (identify_packet m h b)|]. cbv beta. intros r a' Ha. by apply Hmissing.
Qed.

Lemma going_ready k b0 s s' ma sl hs : going k b0 -> pending b0 = Idle -> drives b0 ATA_MASTER <> Absent ->
  (forall dr l, media b0 dr l = sectors s' dr l) -> disk_wf s' -> geometry48 ma = master_drive s' -> geometry48 sl = slave_drive s' ->
  (forall dr, dr = ATA_MASTER \/ dr = ATA_SLAVE -> 0 < drive_size s' dr ->
    exists ws, drives b0 dr = AtaDrive ws /\ drive_size s' dr <= identify_lba_count ws <= 2 ^ 48) ->
  s = s' -> ready font8x16 (mkAta k ma sl hs) s.
Proof.
  intros [Hk Hg (b & [Hb Hz] & [Hp Hd] & Hm)] Hp0 Hm0 Hmed Hw Ema Esl Hsz ->.
  split; unfold bus_at; cbn [con master slave]; rewrite ?Hb, ?Hd, ?Hm; try done. by apply Hk.
Qed.

Definition init_outcome (wm : list Z) (sw : option (list Z)) (s : fstate) (o : outcome (ata D) unit) : Prop :=
  match Disk.ata_init wm sw s with
  | Done r s' => exists a', o = Done r a' /\ ready font8x16 a' s'
  | Halted h _ => exists a', o = Halted h a'
  end.

Lemma init_geometry_outcome k b0 s wm ma sl hs :
  going k b0 -> pending b0 = Idle -> drives b0 ATA_MASTER = AtaDrive wm -> words_ok wm -> slave_ok (drives b0 ATA_SLAVE) ->
  (forall dr l, media b0 dr l = sectors s dr l) -> disk_wf s -> identify_values ma = wm ->
  (let sw := slave_words (drives b0 ATA_SLAVE) in
   match sw with Some ws => identify_values sl = ws | None => geometry48 sl = mkDrive false 0 end ->
   init_outcome wm sw s (init_geometry font8x16 (bool_decide (is_Some sw)) (mkAta k ma sl hs))).
Proof using Hfont.
  intros G Hp Hm Hwm Hsl Hmed Hw Hma sw Hsw. unfold init_outcome, Disk.ata_init, init_geometry.
  set (md := mkDrive (identify_supports wm) (identify_lba_count wm)).
  set (sd := match sw with Some v => mkDrive (identify_supports v) (if identify_supports v then identify_lba_count v else 0) | None => mkDrive false 0 end).
  set (s' := mkS (sectors s) md sd (fs_entries s) (root_fs s) (root_slot_n s) (epoch_sec s) (fresh s)).
  assert (forall k2 ma2 sl2 hs2, going k2 b0 -> geometry48 ma2 = md -> geometry48 sl2 = sd -> ready font8x16 (mkAta k2 ma2 sl2 hs2) s') as Hready.
  { intros k2 ma2 sl2 hs2 G2 E1 E2. apply (going_ready k2 b0 s' s'); [done|done|by rewrite Hm|done|done|done|done| |done].
    intros dr Hdr. unfold drive_size. destruct Hdr as [-> | ->]; cbn [Z.eqb Pos.eqb ATA_MASTER ATA_SLAVE master_drive slave_drive s' md lba_sector_count].
    - intros _. exists wm. destruct Hwm as (_ & _ & ?). split; [done|lia].
    - intros Hpos. unfold sd, sw in *. destruct (drives b0 ATA_SLAVE) as [|ws|]; cbn in Hpos |- *; [lia| |lia].
      exists ws. split; [done|]. destruct Hsl as (_ & _ & ?). destruct (identify_supports ws); cbn in *; lia. }
  unfold bindM, getM, modM, retM, panicM, haltM. fold md s'.
  cbn [master slave con set_master set_slave set_geometry geometry48 identify_values identify_magic has_slave].
  rewrite Hma. fold md. change (supports_read48 md) with (identify_supports wm).
  replace (bool_decide (is_Some sw)) with (match sw with Some _ => true | None => false end) by (by destruct sw).
  destruct (identify_supports wm) eqn:Ewm; cbn [negb]; cycle 1.
  - assert (forall ma1 sl1 hs1, exists a', on_con (panic (A := unit) font8x16 "KERNEL PANIC: INCOMPATBILE HARDWARE, NO 48-BIT PIO SUPPORT")
      (mkAta k ma1 sl1 hs1) = Halted (Panic "KERNEL PANIC: INCOMPATBILE HARDWARE, NO 48-BIT PIO SUPPORT") a') as Hpanic.
    { intros ma1 sl1 hs1. destruct (c_scr _ _ (g_con _ _ G) (g_good _ _ G)) as [Hs1 Hs2].
      destruct (panic_spec (A := unit) font8x16 Hfont "KERNEL PANIC: INCOMPATBILE HARDWARE, NO 48-BIT PIO SUPPORT" k) as (s1 & E & _); [|done|done|].
      { apply (bool_decide_unpack _); vm_compute; exact I. }
      eexists. unfold on_con, onM. cbn [con]. by rewrite E. }
    destruct sw as [ws|]; cbv beta iota; cbn [master slave con has_slave set_master set_slave set_geometry geometry48 identify_magic identify_values];
      change (supports_read48 md) with false; cbn [negb]; apply Hpanic.
  - destruct sw as [ws|] eqn:Esw; cbv beta iota; cbn [master slave con has_slave set_master set_slave set_geometry geometry48 identify_magic identify_values];
      change (supports_read48 md) with true; cbn [negb andb].
    + rewrite Hsw. cbn [supports_read48]. destruct (identify_supports ws) eqn:Ews; cbn [negb].
      * eexists. split; [reflexivity|]. apply Hready; [done|done|]. unfold sd. cbn [geometry48]. by rewrite ?Hsw.
      * destruct (wp_inv _ _ _ (going_prints [(3, 10 :: bytes_of "Slave drive does not support read48, unusable."); (9, [])] k b0 ltac:(pieces) G))
          as ([] & k' & E & G').
        unfold on_con, onM. cbn [con set_slave set_master]. rewrite E. eexists. split; [reflexivity|]. apply Hready; [done|done|]. unfold sd. cbn [geometry48]. by rewrite ?Hsw.
    + eexists. split; [reflexivity|]. by apply Hready.
Qed.

Lemma ata_init_outcome a s wm : probing a s wm ->
  init_outcome wm (slave_words (drives (bus_at a) ATA_SLAVE)) s (ata_init font8x16 a).
Proof using Hfont.
  intros Hpr. pose proof Hpr as [Hk Hg Hidle Hrest Hma Hwm Hsl [Hlm Hls] Hzero Hmed Hw].
  set (sw := slave_words (drives (bus_at a) ATA_SLAVE)). unfold ata_init.
  apply bind_outcome. wp_step. destruct a as [k0 ma0 sl0 hs0]. unfold set_slave, set_master. cbn [con master slave has_slave set_magic] in *.
  apply bind_outcome. eapply wp_mono; [apply (identify_master_going _ _ _ Hpr); done|]. cbv beta. intros r1 a1 (k1 & -> & G1).
  apply bind_outcome. eapply wp_mono; [apply (identify_slave_going _ _ _ _ _ G1 Hsl); [apply Hwm|done]|]. cbv beta. intros r2 a2 (k2 & G2 & H2).
  assert (exists sl2, r2 = bool_decide (is_Some sw) /\ a2 = mkAta k2 (mkInfo ATA_MASTER (geometry48 ma0) wm) sl2 hs0 /\
    match sw with Some ws => identify_values sl2 = ws | None => geometry48 sl2 = mkDrive false 0 end) as (sl2 & -> & -> & Hsl2).
  { fold sw in H2. destruct sw as [ws|]; destruct H2 as [-> ->]; eexists; (split; [done|]; split; [done|]); done. }
  clear H2. apply bind_outcome. wp_step. apply bind_outcome.
  assert (wp (if negb (bool_decide (is_Some sw)) then
     modM (set_has_slave false) ;;; on_con (kprintf font8x16 (render [(3, slave_warning); (9, [])] ++ [0])) else retM tt)
    (fun _ a' => exists k' hs, a' = mkAta k' (mkInfo ATA_MASTER (geometry48 ma0) wm) sl2 hs /\ going k' (bus_at (mkAta k0 ma0 sl0 hs0)))
    (set_has_slave true (mkAta k2 (mkInfo ATA_MASTER (geometry48 ma0) wm) sl2 hs0))) as Hw3.
  { destruct (negb _); [|wp_step; by eexists _, _]. wp_step. wp_step. unfold on_con. apply wp_onM. cbn [con].
    eapply wp_mono; [apply going_prints; [pieces|exact G2]|]. cbv beta. intros _ k3 G3. by eexists _, _. }
  eapply wp_mono; [exact Hw3|]. cbv beta. intros _ a3 (k3 & hs3 & -> & G3). apply bind_outcome.
  unfold on_con at 1. apply wp_onM. cbn [con]. destruct G3 as [K3 Gg3 (b3 & R3 & S3 & M3)].
  eapply wp_mono; [apply (out_reg_spec b3 b3 DEVICE_CONTROL_PORT NIEN_BIT k3); [by apply ata_port_in|done|done|done]|].
  cbv beta. intros _ k4 M4.
  apply (init_geometry_outcome k4 (bus_at (mkAta k0 ma0 sl0 hs0)) s wm); [|done|done|done|done|done|done|done|done].
  eapply (going_moved k3); [done|done|exact M4|]. intros d Hd. by exists b3.
Qed.
End init.

(** ** Flushing *)

Section flush.
Context {D : Type} `{AtaBus D} (font8x16 : list Z).

Lemma flush_drive_spec dr sel b ws (k : console D) : dr = ATA_MASTER /\ sel = LBA48_MASTER_DRIVE \/ dr = ATA_SLAVE /\ sel = LBA48_SLAVE_DRIVE ->
  at_rest b (dev k) -> pending b = Idle -> drives b dr = AtaDrive ws ->
  wp (flush_drive font8x16 sel) (fun _ => moved k (at_rest (set_dirty dr false (put_select sel b)))) k.
Proof.
  intros Hdr Hr Hp Hd. assert (u8 sel = sel /\ selected (put_select sel b) = dr) as [Hu Hsel] by (destruct Hdr as [[-> ->]|[-> ->]]; done).
  set (b' := set_dirty dr false (put_select sel b)). unfold flush_drive.
  apply (wp_moved _ _ (fun _ => at_rest (put_select sel b))).
  { apply (out_reg_spec b); [by apply ata_port_in|done|done|]. by rewrite Hu. }
  intros _ k1 R1. apply (wp_moved _ _ (fun _ => on_bus b')).
  { eapply wp_mono; [apply (out_spec (put_select sel b) b'); [by apply ata_port_in|done|]|].
    - unfold bus_out. change (u16 COMMAND_IO_PORT =? COMMAND_IO_PORT) with true. unfold bus_command. rewrite Hsel.
      cbn [pending drives put_select]. by rewrite Hp, Hd.
    - cbv beta. intros _ k2 M. eapply moved_mono; [exact M|]. by intros d [? _]. }
  intros _ k2 B2. apply (wp_moved _ _ (fun _ d => on_bus b' d /\ (bsy d <= bsy (dev k2))%nat)); [by apply settle_spec|].
  intros _ k3 [B3 _]. apply wait_bsy_clear_spec; [|done]. unfold present. change (selected b') with (selected (put_select sel b)).
  rewrite Hsel. cbn. by rewrite Hd.
Qed.

(** Nothing written is left in the caches of the drives that are there. *)
Lemma ata_flush_drives_spec (a : ata D) s wm ws : ready font8x16 a s -> drives (bus_at a) ATA_MASTER = AtaDrive wm ->
  (has_slave a = true -> drives (bus_at a) ATA_SLAVE = AtaDrive ws) ->
  wp (ata_flush_drives font8x16) (fun _ a' => ready font8x16 a' s /\ dirty (bus_at a') ATA_MASTER = false /\
    (has_slave a = true -> dirty (bus_at a') ATA_SLAVE = false)) a.
Proof.
  intros Hr Hm Hs. unfold ata_flush_drives. destruct a as [k ma sl hs].
  eapply wp_con; [apply (flush_drive_spec ATA_MASTER _ (bus_at (mkAta k ma sl hs)) wm k); [by left|by split; [|apply Hr]|apply Hr|done]|].
  intros ? k1 M1. pose proof (moved_dev _ _ _ M1) as R1. set (b1 := set_dirty ATA_MASTER false (put_select LBA48_MASTER_DRIVE (bus_at (mkAta k ma sl hs)))) in *.
  assert (ready font8x16 (mkAta k1 ma sl hs) s) as Hr1.
  { destruct M1 as (d & -> & Hu & Hd). apply (ready_moved font8x16 (mkAta k ma sl hs) s s d b1); [done|done|done| |apply Hr|apply Hr|done|done].
    split; [apply Hr|done]. }
  wp_step. wp_step. cbn [has_slave] in *. destruct hs; cycle 1.
  { wp_step. split; [done|]. split; [|done]. unfold bus_at. cbn [con]. destruct R1 as [-> _]. done. }
  unfold on_con. apply wp_onM. cbn [con].
  eapply wp_mono; [apply (flush_drive_spec ATA_SLAVE _ b1 ws k1); [by right|done|apply Hr|by apply Hs]|].
  cbv beta. intros _ k2 M2. pose proof (moved_dev _ _ _ M2) as [B2 Z2]. unfold set_con. cbn [master slave has_slave]. split; [|split].
  - destruct M2 as (d & -> & Hu & Hd).
    apply (ready_moved font8x16 (mkAta k1 ma sl true) s s d (set_dirty ATA_SLAVE false (put_select LBA48_SLAVE_DRIVE b1))); [done|done|done| |apply Hr|apply Hr|done|done].
    split; [apply Hr|]. unfold bus_at. cbn [con]. destruct R1 as [-> _]. done.
  - unfold bus_at. cbn [con]. rewrite B2. done.
  - intros _. unfold bus_at. cbn [con]. rewrite B2. done.
Qed.
End flush.

(** ** The theorems *)

(** Transfers of up to 65535 sectors, as the 16-bit count allows; the sum of the
    check is 64 bits wide. *)
Definition transfer_ok (lba count : Z) (buf : list Z) : Prop :=
  0 <= lba /\ 0 < count < 65536 /\ lba + count < 2 ^ 64 /\ Z.of_nat (length buf) = 512 * count /\ bytes_ok buf.

(** C13. The driver refines the drives of [Disk]: whatever the drive does within
    its protocol, a transfer through the ports (register writes, polling, words
    through the data port) ends as the transfer of [Disk] says.  It returns the
    same bytes, leaves the drives with the same sectors and the driver ready for
    the next transfer, or stops with the same panic; after a write the drive
    holds nothing unflushed. *)
Theorem ata_refines_disk {D} `{AtaBus D} (font8x16 : list Z) (a : ata D) (s : fstate) (dr lba count : Z) (buf : list Z) :
  length font8x16 = 4096%nat -> ready font8x16 a s -> transfer_ok lba count buf ->
  simulates font8x16 (ata_read48 font8x16 dr lba count buf) (Disk.ata_read48 dr lba count buf) a s /\
  simulates font8x16 (ata_write48 font8x16 dr lba count buf) (Disk.ata_write48 dr lba count buf) a s /\
  forall a', dr = ATA_MASTER \/ dr = ATA_SLAVE -> ata_write48 font8x16 dr lba count buf a = Done tt a' -> dirty (bus_at a') dr = false.
Proof.
  intros Hf Hr (Hl & Hc & Hlt & Hb & Hok). split; [by apply read_simulates|]. by apply (write_simulates font8x16 dr lba count buf a s).
Qed.

(** C25. Drive discovery through the ports: with a drive as master and a drive, a
    packet device or nothing as slave, the two IDENTIFY commands and the
    decoding of their answers end as [Disk.ata_init] on the words of the drives
    says, with the panic for a master without 48-bit commands and a slave that
    is missing or unusable left at zero sectors; the driver is then ready for
    transfers. *)
Theorem ata_init_refines {D} `{AtaBus D} (font8x16 : list Z) (a : ata D) (s : fstate) (wm : list Z) :
  length font8x16 = 4096%nat -> probing font8x16 a s wm ->
  simulates font8x16 (ata_init font8x16) (Disk.ata_init wm (slave_words (drives (bus_at a) ATA_SLAVE))) a s.
Proof. intros Hf Hp. exact (ata_init_outcome font8x16 Hf a s wm Hp). Qed.

(** ** Two drives and a serial port *)

Module Machine.
Import SlowLine.

(** A drive is busy for three reads of its status. *)
Record pc : Type := mkPc { com1 : line; channel : bus; work : nat }.

Definition is_com1 (port : Z) : bool := (COM1 <=? port) && (port <=? COM1 + 5).
Definition left_busy (d : pc) : nat := Nat.min (work d) 3.
Definition status (d : pc) : Z :=
  if bool_decide (drives (channel d) (selected (channel d)) = Absent) then
    if bool_decide (drives (channel d) ATA_MASTER = Absent) then 255 else 0
  else if (left_busy d =? 0)%nat then match pending (channel d) with Idle => 0x40 | _ => 0x48 end else 0x80.

Definition pc_in8 (port : Z) (d : pc) : Z * pc :=
  if is_com1 port then let (v, l) := line_in8 port (com1 d) in (v, mkPc l (channel d) (work d))
  else if port =? STATUS_PORT then
    (status d, if bool_decide (drives (channel d) (selected (channel d)) = Absent) then d else mkPc (com1 d) (channel d) (Nat.pred (left_busy d)))
  else if port =? ALT_STATUS_PORT then (status d, d)
  else if port =? LBA_MID_PORT then ((mid_reg (channel d)).1, d)
  else if port =? LBA_HI_PORT then ((hi_reg (channel d)).1, d)
  else (0, d).
Definition pc_out8 (port v : Z) (d : pc) : pc :=
  if is_com1 port then mkPc (line_out8 port v (com1 d)) (channel d) (work d)
  else
    match bus_out port v (channel d) with
    | Some b => mkPc (com1 d) b (if (port =? COMMAND_IO_PORT) && negb (bool_decide (drives b (selected b) = Absent)) then 3 else left_busy d)
    | None => d
    end.
Definition pc_in16 (port : Z) (d : pc) : Z * pc :=
  match pending (channel d) with
  | DataIn (w :: ws) => (w, mkPc (com1 d) (bus_data_in ws (channel d))
      (if bool_decide (ws <> [] /\ Z.of_nat (length ws) mod 256 = 0) then 3 else 0))
  | _ => (0, d)
  end.
Definition pc_out16 (port w : Z) (d : pc) : pc :=
  match pending (channel d) with
  | DataOut dr lba n acc =>
      mkPc (com1 d) (bus_data_out dr lba n acc w (channel d)) (if (length acc =? 255)%nat then 3 else 0)
  | _ => d
  end.

#[global] Instance pc_ports : Ports pc := { in8 := pc_in8; in16 := pc_in16; out8 := pc_out8; out16 := pc_out16; patience := 3 }.

#[global, refine] Instance pc_uart : Uart pc := { uart_of d := regs (com1 d); busy d := Nat.min (wait (com1 d)) 2 }.
Proof.
  - intros d. cbn. lia.
  - intros d v d' E. cbn in E. unfold pc_in8 in E. change (is_com1 (COM1 + 5)) with true in E. cbv iota in E.
    destruct (line_in8 (COM1 + 5) (com1 d)) as [v1 l1] eqn:E1. injection E as <- <-. exact (uart_lsr (D := line) _ _ _ E1).
  - intros d b l v d' E Hl Hr. cbn in E. unfold pc_in8 in E. change (is_com1 COM1) with true in E. cbv iota in E.
    destruct (line_in8 COM1 (com1 d)) as [v1 l1] eqn:E1. injection E as <- <-. exact (uart_rbr (D := line) _ _ _ _ _ E1 Hl Hr).
  - intros d port v Hv Hp Hb. cbn. unfold pc_out8. assert (is_com1 port = true) as -> by (unfold is_com1; lia). done.
Defined.

Lemma not_com1 port : port ∈ ata_ports -> is_com1 port = false.
Proof. intros Hp. unfold ata_ports in Hp. set_unfold in Hp. unfold is_com1. destruct_or! Hp; subst; done. Qed.

#[global, refine] Instance pc_bus : AtaBus pc := { bus_of := channel; bsy := left_busy }.
Proof.
  - intros d. unfold left_busy. pose proof (Pos2Nat.inj_lt 3 MAX_POLL_REPEAT). change (Pos.to_nat 3) with 3%nat in *. unfold MAX_POLL_REPEAT in *. lia.
  - intros d v d' E Hp. cbn in E. unfold pc_in8 in E. change (is_com1 STATUS_PORT) with false in E. change (STATUS_PORT =? STATUS_PORT) with true in E.
    cbv iota in E. unfold status in E. rewrite !(bool_decide_false _ Hp) in E. injection E as <- <-. cbn [channel].
    split; [done|]. split; [unfold left_busy; cbn; lia|]. unfold left_busy.
    destruct (Nat.min (work d) 3) as [|n]; destruct (pending (channel d)); cbn; repeat split; try done; lia.
  - intros d v d' E Hp. cbn in E. unfold pc_in8 in E. change (is_com1 STATUS_PORT) with false in E. change (STATUS_PORT =? STATUS_PORT) with true in E.
    cbv iota in E. unfold status in E. rewrite !(bool_decide_true _ Hp) in E. injection E as <- <-. split; [done|]. split; [done|].
    case_bool_decide; [by right|by left].
  - intros d v d' E. cbn in E. by injection E as <- <-.
  - intros d v d' E Hz. cbn in E. by injection E as <- <-.
  - intros d v d' E Hz. cbn in E. by injection E as <- <-.
  - intros d port v b Hv Hz Hb. cbn. unfold pc_out8. 
    assert (is_com1 port = false) as ->.
    { unfold bus_out in Hb. unfold is_com1. repeat (zcase_hyp Hb; [subst; done|]). done. }
    rewrite Hb. cbn [channel work]. split; [done|]. unfold left_busy. cbn [work]. intros [Hne|Ha].
    + rewrite (proj2 (Z.eqb_neq _ _)) by done. cbn [andb]. unfold left_busy in Hz |- *. lia.
    + rewrite (bool_decide_true _ Ha), andb_false_r. unfold left_busy in Hz |- *. lia.
  - intros d w ws v d' E Hz Hp. cbn in E. unfold pc_in16 in E. rewrite Hp in E. injection E as <- <-. split; [done|]. split; [done|].
    intros Hor. unfold left_busy. cbn [work]. rewrite bool_decide_false; [done|]. intros [? ?]. by destruct Hor.
  - intros d w dr lba n acc Hw Hz Hp Hn. cbn. unfold pc_out16. rewrite Hp. split; [done|]. intros Ha. unfold left_busy. cbn [work].
    by rewrite (proj2 (Nat.eqb_neq _ _)).
  - intros port d Hp. cbn. unfold pc_in8, pc_out8, pc_in16, pc_out16. rewrite (not_com1 port Hp). split; [|split].
    + repeat (case_match; try done).
    + repeat (case_match; try done).
    + intros v. split; repeat (case_match; try done).
  - intros port d Hp. assert (is_com1 port = true) as E by (unfold is_com1; lia). cbn. unfold pc_in8, pc_out8. rewrite E.
    split; [|done]. by destruct (line_in8 port (com1 d)).
Defined.
End Machine.

(** A master of 16 sectors, sector [l] filled with the byte [l], and no slave. *)
Module DemoDisk.
Import Machine.

Definition words : list Z := <[83%nat := 1024]> (<[100%nat := 16]> (replicate 256 0)).
Definition fill (dr l : Z) : list Z := replicate 512 (l mod 256).
Definition channel0 : bus :=
  mkBus ATA_MASTER (0, 0) (0, 0) (0, 0) (0, 0) Idle fill (fun _ => false) (fun d => if d =? ATA_MASTER then AtaDrive words else Absent).
Definition console0 : console pc := mkCon (mkPc SlowLine.idle channel0 0) demo_screen true (replicate LOG_CELLS blank) 0.
Definition blank_info (magic : Z) (g : ata_drive) : drive_info := mkInfo magic g (replicate 256 0).
Definition before : ata pc := mkAta console0 (blank_info 0 (mkDrive false 0)) (blank_info 0 (mkDrive false 0)) false.
Definition disk (g : ata_drive) : fstate := mkS fill g (mkDrive false 0) [] 0 0 0 [].
Definition running : ata pc := mkAta console0 (blank_info ATA_MASTER (mkDrive true 16)) (blank_info ATA_SLAVE (mkDrive false 0)) false.

Lemma console0_ok : con_ok demo_font console0.
Proof. split; [done|apply length_replicate|cbn [curr_buf_ind console0]; lia|constructor|intros _; apply demo_screen_ok]. Qed.

Lemma demo_disk_ok g : disk_wf (disk g).
Proof.
  intros d l. cbn [sectors disk]. unfold fill. split; [apply length_replicate|]. apply Forall_replicate. unfold is_byte. zlia.
Qed.

Lemma running_ready : ready demo_font running (disk (mkDrive true 16)).
Proof.
  split; [exact console0_ok|exact demo_screen_ok|done..| |done|done|].
  - apply demo_disk_ok.
  - intros dr [-> | ->]; cbn; [|lia]. intros _. exists words. split; [done|]. vm_compute. split; intros [=].
Qed.
End DemoDisk.

Lemma ata_refines_disk_witness : exists a' a2,
  ata_read48 demo_font ATA_MASTER 3 2 (replicate 1024 0) DemoDisk.running = Done (replicate 512 3 ++ replicate 512 4) a' /\
  ata_write48 demo_font ATA_MASTER 15 2 (replicate 1024 0) DemoDisk.running = Halted (Panic "KERNEL PANIC: LBA OUT OF BOUNDS") a2.
Proof.
  assert (forall lba, 0 <= lba < 100 -> transfer_ok lba 2 (replicate 1024 0)) as Hok.
  { intros lba Hl. split; [lia|]. split; [lia|]. split; [lia|]. split; [done|]. by apply Forall_replicate. }
  destruct (ata_refines_disk demo_font DemoDisk.running (DemoDisk.disk (mkDrive true 16)) ATA_MASTER 3 2 (replicate 1024 0)
    demo_font_length DemoDisk.running_ready (Hok 3 ltac:(lia))) as [(a' & E & _) _].
  destruct (ata_refines_disk demo_font DemoDisk.running (DemoDisk.disk (mkDrive true 16)) ATA_MASTER 15 2 (replicate 1024 0)
    demo_font_length DemoDisk.running_ready (Hok 15 ltac:(lia))) as (_ & (a2 & E2) & _).
  exists a', a2. split; [exact E|exact E2].
Defined.

Lemma ata_init_refines_witness : exists a',
  ata_init demo_font DemoDisk.before = Done tt a' /\ geometry48 (master a') = mkDrive true 16 /\ geometry48 (slave a') = mkDrive false 0.
Proof.
  assert (probing demo_font DemoDisk.before (DemoDisk.disk (mkDrive false 0)) DemoDisk.words) as Hp.
  { split; [exact DemoDisk.console0_ok|done|done|done|done| |done|done|done|done|apply DemoDisk.demo_disk_ok].
    split; [done|]. split; [|vm_compute; intros [=]]. apply (bool_decide_unpack _). vm_compute. exact I. }
  destruct (ata_init_refines demo_font DemoDisk.before _ _ demo_font_length Hp) as (a' & E & Hr).
  exists a'. split; [exact E|]. split; [exact (r_master _ _ _ Hr)|exact (r_slave _ _ _ Hr)].
Defined.
