(* ===== verification/MemMap.v ===== *)
(** * The memory map on the console: kernel/memory/mmap/memoryMap.c

    [mmap_walk] with the warning it prints (the walk itself is in FrameAlloc.v,
    where its other callers need it) and [mmap_print]. *)
From S2P Require Import Prelude Bytes CLib FrameAlloc Screen ScreenSpec Ports Kprintf.

Section printing.
Context {D : Type} `{Ports D} (font8x16 : list Z).
Local Abbreviation KM := (M (console D)).

Definition print_entry (base len type : Z) : KM unit :=
  message font8x16 2 (bytes_of "base: ") ;;;
  print_hex font8x16 base GREEN ;;;
  message font8x16 2 (10 :: bytes_of "len: ") ;;;
  print_hex font8x16 len GREEN ;;;
  message font8x16 2 (10 :: bytes_of "type: ") ;;;
  print_hex font8x16 type GREEN ;;;
  message font8x16 2 [10; 10].

(** The walk with a callback that has effects: the calls are made in the order
    [FrameAlloc.mmap_walk] makes them. *)
Definition mmap_walk (fuel : nat) (mem : Z -> Z) (info : MBIInfo) (fn : Z -> Z -> Z -> KM unit) : KM unit :=
  if Z.land (flags info) (Z.shiftl 1 6) =? 0 then message font8x16 3 (bytes_of "Bad flags")
  else
    match FrameAlloc.mmap_walk fuel mem info (fun base len type acc => acc ;;; fn base len type) (retM tt) with
    | None => haltM OutOfFuel
    | Some calls => calls
    end.

Definition mmap_print (fuel : nat) (mem : Z -> Z) (info : MBIInfo) : KM unit := mmap_walk fuel mem info print_entry.
End printing.

Section printed.
Context {D : Type} `{Uart D} (font8x16 : list Z) (Hfont : length font8x16 = 4096%nat).

Definition entry_text (base len type : Z) : list Z :=
  bytes_of "base: " ++ hex_of base ++ 10 :: bytes_of "len: " ++ hex_of len ++ 10 :: bytes_of "type: " ++ hex_of type ++ [10; 10].

(** An entry above 4 GiB is passed over, as in the walk. *)
Definition map_text (es : list MemoryMapEntry) : list Z :=
  concat ((fun e => if negb (baseHi e =? 0) then [] else entry_text (baseLo e) (clamp_len e) (type e)) <$> es).

Lemma print_entry_reports base len type : is_u32 base -> is_u32 len -> is_u32 type ->
  reports (D := D) font8x16 GREEN (entry_text base len type) (entry_text base len type) (print_entry font8x16 base len type).
Proof using Hfont.
  intros Hb Hl Ht.
  assert (entry_text base len type = bytes_of "base: " ++ hex_of base ++ (10 :: bytes_of "len: ") ++ hex_of len ++
    (10 :: bytes_of "type: ") ++ hex_of type ++ [10; 10]) as -> by done.
  assert (forall t, Forall (fun c => 0 < c < 256 /\ c <> ESC) t -> reports (D := D) font8x16 GREEN t t (message font8x16 2 t)) as Hmsg.
  { intros t Hok. by apply (reports_message font8x16 Hfont 2). }
  unfold print_entry. apply reports_seq; [apply Hmsg; cbn; chars|]. apply reports_seq; [by apply reports_hex|].
  apply reports_seq; [apply Hmsg; cbn; chars|]. apply reports_seq; [by apply reports_hex|].
  apply reports_seq; [apply Hmsg; cbn; chars|]. apply reports_seq; [by apply reports_hex|]. apply Hmsg. chars.
Qed.

Lemma walk_reports es x (m : M (console D) unit) : reports font8x16 GREEN x x m ->
  Forall (fun e => is_u32 (baseLo e) /\ is_u32 (clamp_len e) /\ is_u32 (type e)) es ->
  reports font8x16 GREEN (x ++ map_text es) (x ++ map_text es)
    (fold_left (fun acc e => visit (fun base len type acc => acc ;;; print_entry font8x16 base len type) e acc) es m).
Proof using Hfont.
  intros Hm Hes. revert x m Hm. induction Hes as [|e es (Hb & Hl & Ht) Hes IH]; intros x m Hm; cbn [fold_left].
  - unfold map_text. cbn. by rewrite app_nil_r.
  - unfold map_text in *. cbn [fmap list_fmap concat]. rewrite app_assoc. apply IH. unfold visit.
    destruct (negb _); [by rewrite app_nil_r|]. apply reports_seq; [done|by apply print_entry_reports].
Qed.

(** [mmap_print] lists every region below 4 GiB, in order, on the line and on
    the screen; without a map it says so. *)
Lemma mmap_print_spec mem info es : map_at mem (mmap_addr info) es -> 0 <= mmap_addr info -> mmap_length info = map_bytes es ->
  mmap_addr info + map_bytes es < 4294967296 ->
  Forall (fun e => is_u32 (baseLo e) /\ is_u32 (clamp_len e) /\ is_u32 (type e)) es ->
  if Z.land (flags info) 64 =? 0 then reports (D := D) font8x16 YELLOW (bytes_of "Bad flags") (bytes_of "Bad flags") (mmap_print font8x16 (length es) mem info)
  else reports (D := D) font8x16 GREEN (map_text es) (map_text es) (mmap_print font8x16 (length es) mem info).
Proof using Hfont.
  intros Hm Ha Hl Hlt Hes. unfold mmap_print, mmap_walk, FrameAlloc.mmap_walk. change (Z.shiftl 1 6) with 64.
  destruct (Z.land (flags info) 64 =? 0); [apply (reports_message font8x16 Hfont 3); [done|cbn; chars]|].
  pose proof (map_bytes_nonneg _ _ _ Hm). rewrite Hl. unfold u32. rewrite Z.mod_small by lia.
  rewrite (mmap_loop_spec mem _ _ es) by (done || lia). apply (walk_reports es []); [apply reports_nil|done].
Qed.
End printed.
