(* ===== verification/Interrupts.v ===== *)
(** * Interrupts: kernel/idt, kernel/gdt and the interrupts of the drivers

    The tables the processor reads: the interrupt descriptor table of
    idtController.c with the gates the drivers install, the two interrupt
    controllers and the timer chip programmed through their ports, the segment
    descriptor and the task state of tssController.c; and the handlers of the two
    hardware interrupts, which acknowledge them.

    The addresses of the stubs and of the tables come from the linker and are
    parameters. *)
From S2P Require Import Prelude Bytes CLib Ring Dates FrameAlloc Paging Heap Scheduler Keyboard Ports.

Definition PIC1_CMD : Z := 0x20.
Definition PIC1_DATA : Z := 0x21.
Definition PIC2_CMD : Z := 0xA0.
Definition PIC2_DATA : Z := 0xA1.
Definition PIC_EOI : Z := 0x20.
Definition PIC1_VECTOR_OFFSET : Z := 0x20.
Definition PIC2_VECTOR_OFFSET : Z := 0x28.
Definition FIRST_IRQ_STUB_VECTOR : Z := PIC1_VECTOR_OFFSET.
Definition SYSCALL_VECTOR_NUMBER : Z := 0x80.
Definition IDT_ENTRY_AMT : Z := 256.
Definition INTERRUPT_GATE_TYPE : Z := 0x8E.
Definition TARGET_HZ : Z := 1000.
Definition PIT_HZ : Z := 1193182.
Definition PIT_CH0 : Z := 0x40.
Definition PIT_CMD : Z := 0x43.
Definition RTC_COMMAND_PORT : Z := 0x70.
Definition RTC_READ_PORT : Z := 0x71.
Definition KEYBOARD_PORT : Z := 0x60.

(** ** The tables *)

(** The code the vectors lead to, all of boot.S. *)
Inductive stub : Type :=
| exc_stub (n : Z)
| irq0_stub
| irq1_stub
| syscall_stub
| default_isr_stub.

Record idt_entry : Type := mkGate {
  offset_low : Z; selector : Z; zero : Z; type_attr : Z; offset_high : Z
}.
Record idt_ptr : Type := mkIdtPtr { limit : Z; ibase : Z }.

(** The devices, the statics of idtController.c and timerController.c, and the
    two registers of the processor they set: the table register and the
    interrupt flag. *)
Record tables (D : Type) : Type := mkTables {
  tdev : D; idt : list idt_entry; idtp : idt_ptr; idtr : option idt_ptr; clock : Timer.timer; iflag : bool
}.
Arguments mkTables {D}. Arguments tdev {D}. Arguments idt {D}. Arguments idtp {D}. Arguments idtr {D}.
Arguments clock {D}. Arguments iflag {D}.

Section setup.
Context {D : Type} `{Ports D} (addr : stub -> Z) (idt_addr : Z).
Local Abbreviation TM := (M (tables D)).

Definition set_tdev (d : D) (t : tables D) : tables D := mkTables d (idt t) (idtp t) (idtr t) (clock t) (iflag t).
Definition set_idt (l : list idt_entry) (t : tables D) : tables D := mkTables (tdev t) l (idtp t) (idtr t) (clock t) (iflag t).
Definition set_clock (c : Timer.timer) (t : tables D) : tables D := mkTables (tdev t) (idt t) (idtp t) (idtr t) c (iflag t).
Definition io {A} (op : M D A) : TM A := onM tdev set_tdev op.

(** The fields are stored one by one; the entry is a packed struct. *)
Definition idt_set_gate_type (n : Z) (handler : stub) (type : Z) : TM unit :=
  let a := u32 (addr handler) in
  let* t := getM in
  if (0 <=? n) && (n <? Z.of_nat (length (idt t))) then
    modM (set_idt (<[Z.to_nat n :=
      mkGate (Z.land a 0xFFFF) KERNEL_CODE_SEGMENT_SEL 0 (u8 type) (u16 (Z.shiftr a 16))]> (idt t)))
  else haltM Fault.
Definition idt_set_gate (n : Z) (handler : stub) : TM unit := idt_set_gate_type n handler INTERRUPT_GATE_TYPE.

Definition idt_init : TM unit :=
  forM (Z.to_nat IDT_ENTRY_AMT) 0 (fun i => idt_set_gate i default_isr_stub) ;;;
  idt_set_gate (FIRST_IRQ_STUB_VECTOR + 1) irq1_stub ;;;
  modM (fun t => mkTables (tdev t) (idt t) (mkIdtPtr (u16 (8 * IDT_ENTRY_AMT - 1)) (u32 idt_addr)) (idtr t) (clock t) (iflag t)) ;;;
  modM (fun t => mkTables (tdev t) (idt t) (idtp t) (Some (idtp t)) (clock t) (iflag t)) ;;;
  io (outb PIC1_CMD 0x11) ;;;
  io (outb PIC2_CMD 0x11) ;;;
  io (outb PIC1_DATA PIC1_VECTOR_OFFSET) ;;;
  io (outb PIC2_DATA PIC2_VECTOR_OFFSET) ;;;
  io (outb PIC1_DATA 0x04) ;;;
  io (outb PIC2_DATA 0x02) ;;;
  io (outb PIC1_DATA 0x01) ;;;
  io (outb PIC2_DATA 0x01) ;;;
  io (outb PIC1_DATA 0xFC) ;;;
  io (outb PIC2_DATA 0xFF).

Definition cmos_read (reg : Z) : M D Z :=
  outb RTC_COMMAND_PORT reg ;;; inb RTC_READ_PORT.

Definition timer_init : TM unit :=
  idt_set_gate FIRST_IRQ_STUB_VECTOR irq0_stub ;;;
  let divisor := u16 (PIT_HZ / TARGET_HZ) in
  io (outb PIT_CMD 0x36) ;;;
  io (outb PIT_CH0 (u8 (Z.land divisor 0xFF))) ;;;
  io (outb PIT_CH0 (u8 (Z.shiftr divisor 8))) ;;;
  let* t := getM in
  let* c := io (Timer.start_clock cmos_read (clock t)) in
  modM (set_clock c) ;;;
  modM (fun t => mkTables (tdev t) (idt t) (idtp t) (idtr t) (clock t) true).

Definition exceptions_init : TM unit := forM 32 0 (fun n => idt_set_gate n (exc_stub n)).
Definition syscall_init : TM unit := idt_set_gate_type SYSCALL_VECTOR_NUMBER syscall_stub 0xEE.

(** *** The interrupts of the timer and the keyboard *)

Context {F : Type} `{FrameOps F}.

(** The clock and the processes. *)
Definition timer_irq_handler (esp : Z) : M (tables D * kstate (F := F)) Z :=
  modM (fun x => (set_clock (Timer.mkTimer (u64 (Timer.tick (clock x.1) + 1)) (Timer.startup_epoch (clock x.1))) x.1, x.2)) ;;;
  onM fst (fun t x => (t, x.2)) (io (outb PIC1_CMD PIC_EOI)) ;;;
  let* x := getM in
  let (r, s) := schedule esp x.2 in
  putM (x.1, s) ;;; retM r.

(** [rows] is what [fb_get_screen_dims] answers. *)
Definition get_scancode : M D Z := inb KEYBOARD_PORT.
Definition keyboard_irq_handler (rows : Z) : M (D * kbd) unit :=
  let* scancode := onM fst (fun d x => (d, x.2)) get_scancode in
  modM (fun x => (x.1, keyboard_handler rows scancode x.2)) ;;;
  onM fst (fun d x => (d, x.2)) (outb PIC1_CMD PIC_EOI).
End setup.

(** ** The processor's view of the table *)

Definition gate_offset (e : idt_entry) : Z := offset_low e + 65536 * offset_high e.
Definition gate_present (e : idt_entry) : bool := Z.testbit (type_attr e) 7.
Definition gate_dpl (e : idt_entry) : Z := Z.land (Z.shiftr (type_attr e) 5) 3.
Definition is_interrupt_gate (e : idt_entry) : bool := Z.land (type_attr e) 0x1F =? 0x0E.

(** Delivery of vector [v], with the table of entries at [idt_addr]: the table
    register must point there, the entry must lie inside the limit and be a present
    32-bit interrupt gate into the kernel's code segment, and an [int]
    instruction must run at a level the gate allows; [None] is a fault. *)
Definition deliver {D} (idt_addr : Z) (t : tables D) (software : option Z) (v : Z) : option Z :=
  match idtr t with
  | None => None
  | Some p =>
      if negb (ibase p =? idt_addr) || (limit p <? 8 * v + 7) then None
      else
        match idt t !! Z.to_nat v with
        | None => None
        | Some e =>
            if negb (gate_present e && is_interrupt_gate e && (selector e =? KERNEL_CODE_SEGMENT_SEL)) then None
            else
              match software with
              | Some cpl => if gate_dpl e <? cpl then None else Some (gate_offset e)
              | None => Some (gate_offset e)
              end
        end
  end.

(** What each vector should lead to, and which ones programs may call. *)
Definition vector_stub (v : Z) : stub :=
  if v <? 32 then exc_stub v
  else if v =? 32 then irq0_stub
  else if v =? 33 then irq1_stub
  else if v =? 128 then syscall_stub
  else default_isr_stub.

(** ** The chips *)

(** An 8259 interrupt controller: an initialisation takes a command with bit 4
    and three more bytes on the data port; afterwards the data port is the mask. *)
Record pic : Type := mkPic { icw : nat; vector_base : Z; mask : Z; acknowledged : nat }.

Definition pic_command (v : Z) (p : pic) : pic :=
  if Z.testbit v 4 then mkPic 1 (vector_base p) 0 (acknowledged p)
  else if v =? PIC_EOI then mkPic (icw p) (vector_base p) (mask p) (S (acknowledged p))
  else p.
Definition pic_data (v : Z) (p : pic) : pic :=
  match icw p with
  | 1%nat => mkPic 2 (Z.land v 0xF8) (mask p) (acknowledged p)
  | 2%nat => mkPic 3 (vector_base p) (mask p) (acknowledged p)
  | 3%nat => mkPic 0 (vector_base p) (mask p) (acknowledged p)
  | _ => mkPic (icw p) (vector_base p) v (acknowledged p)
  end.

(** Channel 0 of the 8254 timer: a control byte for low and high byte, then the
    two bytes of the divisor; 0 stands for 65536. *)
Record pit : Type := mkPit { control : Z; low_byte : option Z; reload : Z }.

Definition pit_command (v : Z) (p : pit) : pit := if Z.shiftr v 6 =? 0 then mkPit v None (reload p) else p.
Definition pit_data (v : Z) (p : pit) : pit :=
  if Z.land (Z.shiftr (control p) 4) 3 =? 3 then
    match low_byte p with
    | None => mkPit (control p) (Some v) (reload p)
    | Some l => mkPit (control p) None (l + 256 * v)
    end
  else p.

Record chips : Type := mkChips { pic1 : pic; pic2 : pic; pit0 : pit }.

Definition chips_write (port v : Z) (c : chips) : chips :=
  if port =? PIC1_CMD then mkChips (pic_command v (pic1 c)) (pic2 c) (pit0 c)
  else if port =? PIC1_DATA then mkChips (pic_data v (pic1 c)) (pic2 c) (pit0 c)
  else if port =? PIC2_CMD then mkChips (pic1 c) (pic_command v (pic2 c)) (pit0 c)
  else if port =? PIC2_DATA then mkChips (pic1 c) (pic_data v (pic2 c)) (pit0 c)
  else if port =? PIT_CMD then mkChips (pic1 c) (pic2 c) (pit_command v (pit0 c))
  else if port =? PIT_CH0 then mkChips (pic1 c) (pic2 c) (pit_data v (pit0 c))
  else c.

(** The chips follow their programming model, whatever else is on the ports; the
    clock chip answers a read of the register selected last, and its answers may
    depend on how often it was read. *)
Class Chips (D : Type) `{Ports D} := {
  chips_of : D -> chips;
  rtc_reads : D -> nat;
  rtc_value : nat -> Z -> Z;
  chips_out d port v : is_byte v -> chips_of (out8 port v d) = chips_write port v (chips_of d);
  chips_in d port : port = RTC_READ_PORT \/ port = KEYBOARD_PORT -> chips_of (in8 port d).2 = chips_of d;
  rtc_select d port v : is_byte v -> rtc_reads (out8 port v d) = rtc_reads d;
  rtc_in d reg : is_byte reg ->
    u8 (in8 RTC_READ_PORT (out8 RTC_COMMAND_PORT reg d)).1 = rtc_value (rtc_reads d) reg /\
    rtc_reads (in8 RTC_READ_PORT (out8 RTC_COMMAND_PORT reg d)).2 = S (rtc_reads d)
}.

(** The vector a request on line [n] of the first controller arrives at. *)
Definition irq_vector (c : chips) (n : Z) : option Z :=
  if (icw (pic1 c) =? 0)%nat && negb (Z.testbit (mask (pic1 c)) n) then Some (vector_base (pic1 c) + n) else None.

(** ** What the initialisers establish *)

Section tables.
Context {D : Type} `{Chips D} (addr : stub -> Z) (idt_addr : Z) (addr_ok : forall s, is_u32 (addr s)).
Local Abbreviation tabs := (tables D).
Implicit Types (t : tabs) (d : D).

Definition gate_for (s : stub) (type : Z) : idt_entry :=
  mkGate (Z.land (u32 (addr s)) 0xFFFF) KERNEL_CODE_SEGMENT_SEL 0 (u8 type) (u16 (Z.shiftr (u32 (addr s)) 16)).

(** Encoding and decoding an address are inverse. *)
Lemma gate_offset_for s type : gate_offset (gate_for s type) = addr s.
Proof using addr_ok.
  unfold gate_offset, gate_for. cbn [offset_low offset_high]. pose proof (addr_ok s) as Ha. unfold is_u32 in Ha.
  unfold u32. rewrite Z.mod_small by lia. change 0xFFFF with (Z.ones 16). rewrite Z.land_ones, Z.shiftr_div_pow2 by lia.
  unfold u16. zlia.
Qed.

(** The table holds the gates [f]. *)
Definition gates t (f : Z -> stub * Z) : Prop :=
  length (idt t) = 256%nat /\ forall v, 0 <= v < 256 -> idt t !! Z.to_nat v = Some (gate_for (f v).1 (f v).2).

Definition upd (f : Z -> stub * Z) (n : Z) (x : stub * Z) : Z -> stub * Z := fun v => if v =? n then x else f v.

(** Everything but the table. *)
Definition same_rest t t' : Prop :=
  tdev t' = tdev t /\ idtp t' = idtp t /\ idtr t' = idtr t /\ clock t' = clock t /\ iflag t' = iflag t.

Lemma set_gate_spec n s type t : 0 <= n < Z.of_nat (length (idt t)) ->
  wp (idt_set_gate_type addr n s type) (fun _ t' => t' = set_idt (<[Z.to_nat n := gate_for s type]> (idt t)) t) t.
Proof.
  intros Hn. unfold idt_set_gate_type. wp_step. wp_step.
  rewrite (proj2 (Z.leb_le 0 n)), (proj2 (Z.ltb_lt n _)) by lia. cbn [andb]. by wp_step.
Qed.

Lemma set_gate_gates n s type f t : gates t f -> 0 <= n < 256 ->
  wp (idt_set_gate_type addr n s type) (fun _ t' => gates t' (upd f n (s, type)) /\ same_rest t t') t.
Proof.
  intros [Hl Hg] Hn. eapply wp_mono; [apply set_gate_spec; lia|]. cbv beta. intros _ t' ->. split; [|done]. split.
  - cbn. by rewrite length_insert.
  - intros v Hv. cbn [idt set_idt]. unfold upd. destruct (Z.eqb_spec v n) as [->|Hne].
    + by rewrite list_lookup_insert_eq by lia.
    + rewrite list_lookup_insert_ne by lia. by apply Hg.
Qed.

Lemma same_rest_trans t1 t2 t3 : same_rest t1 t2 -> same_rest t2 t3 -> same_rest t1 t3.
Proof. unfold same_rest. intros (A & B & C & E & G) (A' & B' & C' & E' & G'). repeat split; congruence. Qed.

Lemma exceptions_init_spec f t : gates t f ->
  wp (exceptions_init addr) (fun _ t' =>
    gates t' (fun v => if v <? 32 then (exc_stub v, INTERRUPT_GATE_TYPE) else f v) /\ same_rest t t') t.
Proof.
  intros Hg. unfold exceptions_init.
  eapply wp_mono; [apply (wp_forM (fun n t' => gates t' (fun v => if v <? n then (exc_stub v, INTERRUPT_GATE_TYPE) else f v) /\ same_rest t t'))|].
  - split; [|done]. destruct Hg as [Hl Hg]. split; [done|]. intros v Hv. rewrite (proj2 (Z.ltb_ge v 0)) by lia. by apply Hg.
  - intros n t1 Hn [Hg1 Hs1]. eapply wp_mono; [apply (set_gate_gates n _ _ _ t1 Hg1); lia|].
    cbv beta. intros _ t2 [[Hl2 Hg2] Hs2]. split; [|by eapply same_rest_trans]. split; [done|]. intros v Hv. rewrite Hg2 by done. unfold upd.
    destruct (Z.eqb_spec v n) as [->|Hne]; [by rewrite (proj2 (Z.ltb_lt n (n + 1))) by lia|].
    by replace (v <? n + 1) with (v <? n) by lia.
  - done.
Qed.

Lemma io_spec {A} (op : M D A) Q t : wp op (fun a d => Q a (set_tdev d t)) (tdev t) -> wp (io op) Q t.
Proof. apply wp_onM. Qed.

(** A write to a chip in front of the rest. *)
Lemma io_out port v (m : M tabs unit) Q t : is_byte v ->
  (forall d, chips_of d = chips_write (u16 port) v (chips_of (tdev t)) -> rtc_reads d = rtc_reads (tdev t) -> wp m Q (set_tdev d t)) ->
  wp (io (outb port v) ;;; m) Q t.
Proof.
  intros Hv Hm. wp_step. apply io_spec, wp_outb. assert (u8 v = v) as -> by (unfold u8; by apply Z.mod_small).
  apply Hm; [by apply chips_out|by apply rtc_select].
Qed.

Definition pics_programmed (c : chips) : Prop :=
  icw (pic1 c) = 0%nat /\ vector_base (pic1 c) = 0x20 /\ mask (pic1 c) = 0xFC /\
  icw (pic2 c) = 0%nat /\ vector_base (pic2 c) = 0x28 /\ mask (pic2 c) = 0xFF.

Lemma idt_init_spec t : length (idt t) = 256%nat ->
  wp (idt_init addr idt_addr) (fun _ t' =>
    gates t' (upd (fun _ => (default_isr_stub, INTERRUPT_GATE_TYPE)) 33 (irq1_stub, INTERRUPT_GATE_TYPE)) /\
    idtr t' = Some (mkIdtPtr 2047 (u32 idt_addr)) /\ pics_programmed (chips_of (tdev t')) /\
    pit0 (chips_of (tdev t')) = pit0 (chips_of (tdev t)) /\ rtc_reads (tdev t') = rtc_reads (tdev t) /\ clock t' = clock t /\ iflag t' = iflag t) t.
Proof.
  intros Hl. unfold idt_init. wp_step.
  eapply wp_mono; [apply (wp_forM (fun n t' => length (idt t') = 256%nat /\ same_rest t t' /\
    forall v, 0 <= v < n -> idt t' !! Z.to_nat v = Some (gate_for default_isr_stub INTERRUPT_GATE_TYPE)))|].
  - split; [done|]. split; [done|]. lia.
  - intros n t1 Hn (Hl1 & Hs1 & Hg1). change (0 + Z.of_nat (Z.to_nat IDT_ENTRY_AMT)) with 256 in Hn.
    eapply wp_mono; [apply set_gate_spec; lia|]. cbv beta. intros _ t2 ->. cbn [idt set_idt]. split; [by rewrite length_insert|].
    split; [done|]. intros v Hv. destruct (Z.eq_dec v n) as [->|]; [by rewrite list_lookup_insert_eq by lia|].
    rewrite list_lookup_insert_ne by lia. apply Hg1. lia.
  - cbv beta. intros _ t1 (Hl1 & (Hd & _ & _ & Hc & Hf) & Hg1). change (0 + Z.of_nat (Z.to_nat IDT_ENTRY_AMT)) with 256 in Hg1. wp_step.
    eapply wp_mono; [apply (set_gate_gates _ irq1_stub _ (fun _ => (default_isr_stub, INTERRUPT_GATE_TYPE)) t1); [by split|done]|].
    cbv beta. intros _ t2 [Hg2 (Hd2 & _ & _ & Hc2 & Hf2)]. wp_step. wp_step. wp_step. wp_step.
    assert (chips_of (tdev t2) = chips_of (tdev t) /\ rtc_reads (tdev t2) = rtc_reads (tdev t)) as [Ec Er] by (by rewrite Hd2, Hd).
    rewrite <- Ec, <- Er, <- Hc, <- Hc2, <- Hf, <- Hf2. clear - Hg2.
    destruct (chips_of (tdev t2)) as [p1 p2 pt] eqn:E.
    do 9 (apply io_out; [done|]; intros ? ? ?). apply io_spec, wp_outb. cbn [tdev set_tdev] in *.
    split; [exact Hg2|]. split; [done|].
    rewrite chips_out by done.
    assert (forall d, rtc_reads (out8 (u16 PIC2_DATA) (u8 255) d) = rtc_reads d) as Hr by (intros; by apply rtc_select).
    rewrite Hr. repeat match goal with Hx : chips_of ?d = chips_write _ _ (chips_of ?e) |- context [chips_of ?d] => rewrite Hx end.
    rewrite E. split; [by repeat split|]. split; [done|]. split; [congruence|done].
Qed.

(** Reading the clock chip through its two ports is reading its answers. *)
Definition sim {A} (m : M D A) (n : M nat A) : Prop := forall d,
  match n (rtc_reads d) with
  | Done a k => exists d', m d = Done a d' /\ rtc_reads d' = k /\ chips_of d' = chips_of d
  | Halted h _ => exists d', m d = Halted h d'
  end.

Lemma sim_ret {A} (a : A) : sim (retM a) (retM a).
Proof. intros d. by exists d. Qed.
Lemma sim_halt {A} h : sim (haltM (A := A) h) (haltM h).
Proof. intros d. by exists d. Qed.
Lemma sim_bind {A B} (m : M D A) (n : M nat A) (f : A -> M D B) (g : A -> M nat B) :
  sim m n -> (forall a, sim (f a) (g a)) -> sim (bindM m f) (bindM n g).
Proof.
  intros Hm Hf d. specialize (Hm d). unfold bindM. destruct (n (rtc_reads d)) as [a k|h k].
  - destruct Hm as (d1 & -> & <- & Hc). specialize (Hf a d1). destruct (g a (rtc_reads d1)) as [b k2|h k2].
    + destruct Hf as (d2 & E & ? & ?). exists d2. split; [done|]. split; [done|congruence].
    + done.
  - destruct Hm as [d1 ->]. by exists d1.
Qed.
Lemma sim_cmos reg : is_byte reg -> sim (cmos_read reg) (Timer.rtc_answer rtc_value reg).
Proof.
  intros Hr d. unfold Timer.rtc_answer, cmos_read, outb, inb, bindM, modM.
  change (u16 RTC_COMMAND_PORT) with RTC_COMMAND_PORT. change (u16 RTC_READ_PORT) with RTC_READ_PORT.
  assert (u8 reg = reg) as -> by (unfold u8; by apply Z.mod_small).
  pose proof (rtc_in d reg Hr) as [Ev Er]. pose proof (chips_in (out8 RTC_COMMAND_PORT reg d) RTC_READ_PORT ltac:(by left)) as Ec. rewrite chips_out in Ec by done.
  destruct (in8 RTC_READ_PORT (out8 RTC_COMMAND_PORT reg d)) as [v d']. cbn [fst snd] in *.
  exists d'. split; [by rewrite Ev|]. split; [done|]. exact Ec.
Qed.

Lemma sim_wait fuel i : sim (Timer.wait_update cmos_read fuel i) (Timer.wait_update (Timer.rtc_answer rtc_value) fuel i).
Proof.
  revert i. induction fuel as [|fuel IH]; intros i; cbn [Timer.wait_update]; (apply sim_bind; [by apply sim_cmos|]); intros a;
    destruct (negb _ && _); [apply sim_halt|apply sim_ret|apply IH|apply sim_ret].
Qed.
Lemma sim_start_clock c : sim (Timer.start_clock cmos_read c) (Timer.start_clock (Timer.rtc_answer rtc_value) c).
Proof.
  unfold Timer.start_clock, Timer.get_seconds_startup, Timer.get_year_startup.
  apply sim_bind; [|intros; apply sim_ret]. apply sim_bind; [apply sim_wait|]. intros _.
  repeat (apply sim_bind; [first [by apply sim_cmos|repeat (apply sim_bind; [by apply sim_cmos|]; intros ?); apply sim_ret]|]; intros ?).
  apply sim_ret.
Qed.

Lemma start_clock_returns cmos c n : exists c' n', Timer.start_clock (Timer.rtc_answer cmos) c n = Done c' n'.
Proof.
  unfold Timer.start_clock, Timer.get_seconds_startup, Timer.get_year_startup.
  destruct (Timer.wait_update_done cmos (Z.to_nat Timer.RTC_WAIT_TIME) 0 n) as [n1 E]; [unfold Timer.RTC_WAIT_TIME; lia|].
  unfold bindM at 1 2. rewrite E. unfold Timer.rtc_answer, bindM, retM. by eexists _, _.
Qed.

Lemma timer_init_spec f t : gates t f ->
  wp (timer_init addr) (fun _ t' => gates t' (upd f 32 (irq0_stub, INTERRUPT_GATE_TYPE)) /\ idtr t' = idtr t /\ iflag t' = true /\
    pic1 (chips_of (tdev t')) = pic1 (chips_of (tdev t)) /\ pic2 (chips_of (tdev t')) = pic2 (chips_of (tdev t)) /\
    reload (pit0 (chips_of (tdev t'))) = 1193 /\
    exists n, Timer.start_clock (Timer.rtc_answer rtc_value) (clock t) (rtc_reads (tdev t)) = Done (clock t') n) t.
Proof.
  intros Hg. unfold timer_init. wp_step. eapply wp_mono; [by apply (set_gate_gates 32 irq0_stub _ f t)|].
  cbv beta. intros _ t1 [Hg1 (Hd1 & _ & Hi1 & Hc1 & _)].
  apply io_out; [done|]. intros d2 E2 R2. apply io_out; [done|]. intros d3 E3 R3. apply io_out; [done|]. intros d4 E4 R4.
  cbn [tdev set_tdev] in *. rewrite Hd1 in *. wp_step. wp_step. wp_step. apply io_spec. cbn [tdev set_tdev clock].
  destruct (start_clock_returns rtc_value (clock t) (rtc_reads (tdev t))) as (c' & n' & E).
  pose proof (sim_start_clock (clock t) d4) as Hs. rewrite R4, R3, R2, E in Hs. destruct Hs as (d5 & E5 & R5 & C5).
  unfold wp at 1. rewrite Hc1, E5. wp_step. wp_step. wp_step. cbn [tdev set_tdev set_clock idt idtr clock iflag].
  split; [exact Hg1|]. split; [done|]. split; [done|]. rewrite C5, E4, E3, E2. destruct (chips_of (tdev t)) as [p1 p2 pt].
  split; [done|]. split; [done|]. split; [done|]. by exists n'.
Qed.

Lemma deliver_gates t f v p : gates t f -> idtr t = Some p -> limit p = 2047 -> ibase p = idt_addr -> 0 <= v < 256 ->
  (f v).2 = INTERRUPT_GATE_TYPE \/ (f v).2 = 0xEE ->
  deliver idt_addr t None v = Some (addr (f v).1) /\
  deliver idt_addr t (Some 3) v = if (f v).2 =? 0xEE then Some (addr (f v).1) else None.
Proof using addr_ok.
  intros [Hl Hg] Hp Hlim Hbase Hv Ht. unfold deliver. rewrite Hp, Hlim, Hbase, Z.eqb_refl, (Hg v Hv).
  rewrite (proj2 (Z.ltb_ge _ _)) by lia. cbn [negb orb].
  rewrite gate_offset_for. unfold gate_present, is_interrupt_gate, gate_dpl. cbn [type_attr gate_for selector].
  destruct Ht as [-> | ->]; done.
Qed.

(** The gates at the end of the initialisers. *)
Definition boot_gates : Z -> stub * Z :=
  upd (fun v => if v <? 32 then (exc_stub v, INTERRUPT_GATE_TYPE)
    else upd (upd (fun _ => (default_isr_stub, INTERRUPT_GATE_TYPE)) 33 (irq1_stub, INTERRUPT_GATE_TYPE)) 32 (irq0_stub, INTERRUPT_GATE_TYPE) v)
    128 (syscall_stub, 0xEE).

(** Where they lead, and what the controllers let through. *)
Definition routed t : Prop :=
  (forall v, 0 <= v < 256 ->
    deliver idt_addr t None v = Some (addr (vector_stub v)) /\
    deliver idt_addr t (Some 3) v = if v =? SYSCALL_VECTOR_NUMBER then Some (addr syscall_stub) else None) /\
  (forall n, 0 <= n < 8 -> irq_vector (chips_of (tdev t)) n = if n <=? 1 then Some (32 + n) else None) /\
  mask (pic2 (chips_of (tdev t))) = 0xFF.

Lemma boot_gates_routed t : is_u32 idt_addr -> gates t boot_gates -> idtr t = Some (mkIdtPtr 2047 (u32 idt_addr)) -> pics_programmed (chips_of (tdev t)) -> routed t.
Proof using addr_ok.
  intros Ha G Hi Hp. split; [|split; [|apply Hp]].
  - intros v Hv.
    assert ((boot_gates v).1 = vector_stub v /\ (boot_gates v).2 = if v =? 128 then 0xEE else INTERRUPT_GATE_TYPE) as [Ef1 Ef2].
    { unfold boot_gates, upd, vector_stub. destruct (Z.ltb_spec v 32), (Z.eqb_spec v 32), (Z.eqb_spec v 33), (Z.eqb_spec v 128); try lia; done. }
    destruct (deliver_gates t boot_gates v _ G Hi eq_refl) as [-> ->]; [by apply Z.mod_small|done|..].
    { rewrite Ef2. destruct (v =? 128); [by right|by left]. }
    rewrite Ef1, Ef2. split; [done|]. unfold SYSCALL_VECTOR_NUMBER. destruct (Z.eqb_spec v 128) as [->|]; done.
  - intros n Hn. unfold irq_vector. destruct Hp as (-> & -> & -> & _). cbn [Nat.eqb andb].
    assert (n = 0 \/ n = 1 \/ n = 2 \/ n = 3 \/ n = 4 \/ n = 5 \/ n = 6 \/ n = 7) as Hc by lia.
    by destruct Hc as [->|[->|[->|[->|[->|[->|[->| ->]]]]]]].
Qed.

Lemma pics_same c c' : pic1 c' = pic1 c -> pic2 c' = pic2 c -> pics_programmed c -> pics_programmed c'.
Proof. unfold pics_programmed. by intros -> ->. Qed.
End tables.

(** ** The hardware interrupts *)

Section irq.
Context {D : Type} `{Chips D} {F : Type} `{FrameOps F}.

(** The first controller has its interrupt acknowledged once; nothing else changes on the chips. *)
Definition acked (c c' : chips) : Prop :=
  acknowledged (pic1 c') = S (acknowledged (pic1 c)) /\ mask (pic1 c') = mask (pic1 c) /\ icw (pic1 c') = icw (pic1 c) /\
  vector_base (pic1 c') = vector_base (pic1 c) /\ pic2 c' = pic2 c /\ pit0 c' = pit0 c.

Lemma eoi_acks (d : D) : acked (chips_of d) (chips_of (out8 (u16 PIC1_CMD) (u8 PIC_EOI) d)).
Proof. rewrite chips_out by done. by destruct (chips_of d) as [[] ? ?]. Qed.

(** A tick: the time, the switch and the acknowledgement. *)
Lemma timer_irq_spec esp t (s : kstate (F := F)) :
  wp (timer_irq_handler esp) (fun r x => (r, clock x.1, x.2) = Scheduler.timer_irq_handler esp (clock t) s /\
    acked (chips_of (tdev t)) (chips_of (tdev x.1)) /\ idt x.1 = idt t /\ idtr x.1 = idtr t /\ iflag x.1 = iflag t) (t, s).
Proof.
  unfold timer_irq_handler, Scheduler.timer_irq_handler. wp_step. wp_step. cbn [fst snd]. wp_step. apply wp_onM. cbn [fst snd].
  apply wp_onM, wp_outb. wp_step. wp_step. cbn [fst snd]. destruct (schedule esp s) as [r s']. wp_step. wp_step. wp_step.
  cbn [fst snd clock set_tdev set_clock tdev idt idtr iflag]. split; [done|]. split; [apply eoi_acks|done].
Qed.

(** As long as no process is ready, a tick only counts: the code it interrupts
    goes on where it was. *)
Lemma idle_tick esp t (s : kstate (F := F)) : PQueue.pqueue_is_empty (kqueue s) = true ->
  wp (timer_irq_handler esp) (fun r x => r = esp /\ x.2 = s /\ Timer.tick (clock x.1) = u64 (Timer.tick (clock t) + 1)) (t, s).
Proof.
  intros Hq. eapply wp_mono; [apply timer_irq_spec|]. cbv beta. intros r x [E _]. unfold Scheduler.timer_irq_handler, schedule in E. rewrite Hq in E.
  by injection E as -> -> ->.
Qed.

(** A key: the byte the controller holds is decoded and acknowledged. *)
Lemma keyboard_irq_spec rows (d : D) k :
  wp (keyboard_irq_handler rows) (fun _ x => x.2 = keyboard_handler rows (u8 (in8 KEYBOARD_PORT d).1) k /\
    acked (chips_of d) (chips_of x.1)) (d, k).
Proof.
  unfold keyboard_irq_handler, get_scancode. wp_step. apply wp_onM. cbn [fst].
  destruct (in8 KEYBOARD_PORT d) as [v d'] eqn:E. apply (wp_inb KEYBOARD_PORT _ _ v d' E). wp_step. wp_step. cbn [fst snd].
  apply wp_onM, wp_outb. cbn [fst snd]. split; [done|].
  pose proof (chips_in d KEYBOARD_PORT ltac:(by right)) as Hc. rewrite E in Hc. cbn [snd] in Hc. rewrite <- Hc. apply eoi_acks.
Qed.
End irq.

(** ** Segments and the task state: boot.S and tssController.c *)

Record gdt_entry : Type := mkSeg {
  slimit : Z; baseBits : Z; baseBitsContd : Z; accessByte : Z; flags : Z; baseBitsTop : Z
}.
(** The 22 unused words between [ss0] and the last are left out. *)
Record tssInfo : Type := mkTss { link : Z; tesp0 : Z; ss0 : Z; IOBitmapOffset : Z }.

Definition KERNEL_DATA_SEGMENT_SEL : Z := 0x10.
Definition TSS_GDT_ENTRY_IND : Z := 5.
Definition sizeof_tssInfo : Z := 104.

(** A [.quad] of boot.S, seen as the packed struct. *)
Definition quad (q : Z) : gdt_entry :=
  mkSeg (Z.land q 0xFFFF) (Z.land (Z.shiftr q 16) 0xFFFF) (Z.land (Z.shiftr q 32) 0xFF) (Z.land (Z.shiftr q 40) 0xFF)
    (Z.land (Z.shiftr q 48) 0xFF) (Z.land (Z.shiftr q 56) 0xFF).
Definition gdt : list gdt_entry :=
  quad <$> [0; 0x00CF9A000000FFFF; 0x00CF92000000FFFF; 0x00CFFA000000FFFF; 0x00CFF2000000FFFF; 0].

Record segments : Type := mkSegments { sgdt : list gdt_entry; tss : tssInfo; task_register : Z }.

(** [stack_top] and the address of [info] are the linker's; [ltr] loads the
    selector. *)
Definition tss_init (stack_top info_addr : Z) (s : segments) : segments :=
  let info := mkTss (link (tss s)) (u32 stack_top) KERNEL_DATA_SEGMENT_SEL (u32 (Z.shiftl sizeof_tssInfo 16)) in
  let base := u32 info_addr in
  let e := mkSeg (u16 (sizeof_tssInfo - 1)) (Z.land base 0xFFFF) (Z.land (Z.shiftr base 16) 0xFF) 0x89 0 (u8 (Z.shiftr base 24)) in
  mkSegments (<[Z.to_nat TSS_GDT_ENTRY_IND := e]> (sgdt s)) info (u16 (Z.shiftl TSS_GDT_ENTRY_IND 3)).
Definition tss_set_esp (n : Z) (s : segments) : segments :=
  mkSegments (sgdt s) (mkTss (link (tss s)) (u32 n) (ss0 (tss s)) (IOBitmapOffset (tss s))) (task_register s).

(** What the processor reads in a descriptor: base, limit in bytes, level and
    type. *)
Definition seg_base (e : gdt_entry) : Z := baseBits e + 2 ^ 16 * baseBitsContd e + 2 ^ 24 * baseBitsTop e.
Definition seg_limit (e : gdt_entry) : Z :=
  let l := slimit e + 2 ^ 16 * Z.land (flags e) 0xF in
  if Z.testbit (flags e) 7 then 4096 * l + 4095 else l.
Definition seg_dpl (e : gdt_entry) : Z := Z.land (Z.shiftr (accessByte e) 5) 3.
Definition seg_present (e : gdt_entry) : bool := Z.testbit (accessByte e) 7.
Definition seg_type (e : gdt_entry) : Z := Z.land (accessByte e) 0x1F.
Definition segment (l : list gdt_entry) (sel : Z) : option gdt_entry := l !! Z.to_nat (sel / 8).

(** A flat segment at level [dpl]: code is type 0x1A, data 0x12. *)
Definition flat (dpl type : Z) (e : gdt_entry) : bool :=
  (seg_base e =? 0) && (seg_limit e =? 0xFFFFFFFF) && (seg_dpl e =? dpl) && seg_present e && (seg_type e =? type).

(** The selectors of segments.h name what they should: kernel code and data at
    level 0, user code and data at level 3, each over the whole address space. *)
Lemma gdt_segments :
  (flat 0 0x1A <$> segment gdt KERNEL_CODE_SEGMENT_SEL) = Some true /\
  (flat 0 0x12 <$> segment gdt KERNEL_DATA_SEGMENT_SEL) = Some true /\
  (flat 3 0x1A <$> segment gdt USER_CODE_SEGMENT_SEL) = Some true /\
  (flat 3 0x12 <$> segment gdt USER_DATA_SEGMENT_SEL) = Some true.
Proof. vm_compute. done. Qed.

(** The task register names an available 32-bit task state segment over [info],
    whose port bitmap lies behind its end: programs have no ports.  The stack
    for interrupts is in the kernel's data segment. *)
Lemma tss_init_spec stack_top info_addr s : is_u32 stack_top -> is_u32 info_addr -> length (sgdt s) = 6%nat ->
  let s' := tss_init stack_top info_addr s in
  exists e, segment (sgdt s') (task_register s') = Some e /\ seg_base e = info_addr /\ seg_limit e = 103 /\
    seg_present e = true /\ seg_dpl e = 0 /\ seg_type e = 9 /\
    seg_limit e < Z.shiftr (IOBitmapOffset (tss s')) 16 /\ tesp0 (tss s') = stack_top /\ ss0 (tss s') = KERNEL_DATA_SEGMENT_SEL.
Proof.
  intros Hst Hia Hl s'. unfold is_u32 in *. unfold s', tss_init. cbn [sgdt task_register tss]. eexists. split.
  { unfold segment. change (Z.to_nat (u16 (Z.shiftl TSS_GDT_ENTRY_IND 3) / 8)) with 5%nat.
    change (Z.to_nat TSS_GDT_ENTRY_IND) with 5%nat. rewrite list_lookup_insert_eq by (rewrite Hl; lia). reflexivity. }
  split.
  - unfold seg_base. cbn [baseBits baseBitsContd baseBitsTop]. unfold u32. rewrite (Z.mod_small info_addr) by lia.
    change 0xFFFF with (Z.ones 16). change 0xFF with (Z.ones 8). rewrite !Z.land_ones, !Z.shiftr_div_pow2 by lia. unfold u8. zlia.
  - do 4 (split; [done|]). split; [vm_compute; done|]. split; [|done]. cbn [tesp0]. unfold u32. apply Z.mod_small. lia.
Qed.

(** C15. Interrupt routing: after [idt_init], [timer_init], [exceptions_init] and
    [syscall_init], in the order of the boot sequence, the processor, which finds
    the table through its register, delivers each of the 256 vectors to its stub (32 exceptions, timer, keyboard, system
    calls, and the stopping stub for all others), and a program can reach none of
    them with an [int] instruction but 0x80; the controllers let only lines 0 and
    1 through, at vectors 32 and 33, apart from the exceptions; the timer divides
    its clock by 1193, interrupts are on, and the clock holds what the chip
    answered. *)
Theorem interrupts_routed {D} `{Chips D} (addr : stub -> Z) (idt_addr : Z) (t : tables D) :
  (forall s, is_u32 (addr s)) -> is_u32 idt_addr -> length (idt t) = 256%nat ->
  wp (idt_init addr idt_addr ;;; timer_init addr ;;; exceptions_init addr ;;; syscall_init addr) (fun _ t' =>
    (forall v, 0 <= v < 256 ->
      deliver idt_addr t' None v = Some (addr (vector_stub v)) /\
      deliver idt_addr t' (Some 3) v = if v =? SYSCALL_VECTOR_NUMBER then Some (addr syscall_stub) else None) /\
    (forall n, 0 <= n < 8 -> irq_vector (chips_of (tdev t')) n = if n <=? 1 then Some (32 + n) else None) /\
    mask (pic2 (chips_of (tdev t'))) = 0xFF /\ reload (pit0 (chips_of (tdev t'))) = PIT_HZ / TARGET_HZ /\ iflag t' = true /\
    exists n, Timer.start_clock (Timer.rtc_answer rtc_value) (clock t) (rtc_reads (tdev t)) = Done (clock t') n) t.
Proof.
  intros Ha Hia Hl. wp_step. eapply wp_mono; [by apply idt_init_spec|]. cbv beta. intros _ t1 (G1 & I1 & P1 & _ & R1 & C1 & F1). wp_step.
  eapply wp_mono; [by apply timer_init_spec|]. cbv beta. intros _ t2 (G2 & I2 & F2 & P2 & P2' & T2 & C2). wp_step.
  eapply wp_mono; [by apply exceptions_init_spec|]. cbv beta. intros _ t3 (G3 & (D3 & _ & I3 & C3 & F3)). unfold syscall_init.
  eapply wp_mono; [by apply (set_gate_gates addr 128 syscall_stub 0xEE _ t3 G3)|]. cbv beta. intros _ t4 (G4 & (D4 & _ & I4 & C4 & F4)).
  assert (chips_of (tdev t4) = chips_of (tdev t2)) as Ech by congruence.
  destruct (boot_gates_routed addr idt_addr Ha t4) as (Hv & Hn & Hm); [exact Hia|exact G4|congruence|rewrite Ech; by eapply pics_same|].
  do 3 (split; [done|]). split; [by rewrite Ech|]. split; [congruence|].
  destruct C2 as [n C2]. exists n. rewrite C1, R1 in C2. rewrite C2. congruence.
Qed.

(** The chips on their own; the clock shows midnight, 1 January 2000. *)
Module Board.
Record board : Type := mkBoard { bchips : chips; bsel : Z; breads : nat }.

Definition rtc (n : nat) (reg : Z) : Z :=
  if reg =? 50 then 0x20 else if (reg =? 8) || (reg =? 7) then 1 else if reg =? 11 then 2 else 0.
#[global] Instance board_ports : Ports board := {
  in8 p b := if p =? RTC_READ_PORT then (rtc (breads b) (bsel b), mkBoard (bchips b) (bsel b) (S (breads b))) else (0, b);
  in16 _ b := (0, b);
  out8 p v b := mkBoard (chips_write p v (bchips b)) (if p =? RTC_COMMAND_PORT then v else bsel b) (breads b);
  out16 _ _ b := b; patience := 1
}.
#[global, refine] Instance board_chips : Chips board := { chips_of := bchips; rtc_reads := breads; rtc_value := rtc }.
Proof.
  - done.
  - by intros d port [-> | ->].
  - done.
  - intros d reg Hr. cbn. split; [|done]. unfold rtc, u8. repeat zcase; cbn; done.
Defined.

Definition off : board := mkBoard (mkChips (mkPic 0 0 0 0) (mkPic 0 0 0 0) (mkPit 0 None 0)) 0 0.
Definition reset : tables board :=
  mkTables off (replicate 256 (mkGate 0 0 0 0 0)) (mkIdtPtr 0 0) None (Timer.mkTimer 0 0) false.
Definition addr (s : stub) : Z :=
  match s with exc_stub n => 0x100000 + 16 * (n mod 32) | irq0_stub => 0x101000 | irq1_stub => 0x101010 | syscall_stub => 0x12345678 | default_isr_stub => 0x101030 end.
End Board.

Lemma interrupts_routed_witness : exists t',
  (idt_init Board.addr 0x200000 ;;; timer_init Board.addr ;;; exceptions_init Board.addr ;;; syscall_init Board.addr) Board.reset = Done tt t' /\
  deliver 0x200000 t' (Some 3) 0x80 = Some 0x12345678 /\ deliver 0x200000 t' (Some 3) 14 = None /\
  deliver 0x200000 t' None 14 = Some 0x1000E0 /\
  Timer.startup_epoch (clock t') = 946684800.
Proof.
  destruct (wp_inv _ _ _ (interrupts_routed Board.addr 0x200000 Board.reset
    ltac:(intros []; unfold is_u32; cbn; try lia; zlia) ltac:(by split) eq_refl)) as ([] & t' & E & Hv & _ & _ & _ & _ & n & Hn).
  exists t'. split; [exact E|]. split; [exact (proj2 (Hv 0x80 ltac:(lia)))|]. split; [exact (proj2 (Hv 14 ltac:(lia)))|].
  split; [exact (proj1 (Hv 14 ltac:(lia)))|].
  assert (exists c m, Timer.start_clock (Timer.rtc_answer Board.rtc) (Timer.mkTimer 0 0) 0%nat = Done c m /\ Timer.startup_epoch c = 946684800) as (c & m & Ec & <-).
  { eexists _, _. split; vm_compute; reflexivity. }
  change (clock Board.reset) with (Timer.mkTimer 0 0) in Hn. change (rtc_reads (tdev Board.reset)) with 0%nat in Hn.
  change (@rtc_value Board.board _ _) with Board.rtc in Hn. rewrite Ec in Hn. by injection Hn as <- _.
Defined.
