(* ===== verification/Exceptions.v ===== *)
(** * Exceptions: kernel/exceptions/exceptions.c and its stubs of boot.S

    The processor pushes the interrupted context and, for some vectors, an error
    code; the stub adds what is missing and the registers, and calls the handler
    with the address of the frame.  A fault of a program ends its process and
    resumes the next one, a fault of the kernel is reported and stops the
    machine.  [kill_current] of scheduler.c is here with its messages. *)
From S2P Require Import Prelude Bytes CLib Ring Dates FrameAlloc Paging Heap Scheduler Screen ScreenSpec Ports Kprintf.
Import PQueue.

Definition FRAME_CS_INDEX_EXCEPTION : Z := 11.
Definition FRAME_VECTOR_INDEX_EXCEPTION : Z := 8.
Definition FRAME_ERROR_CODE_INDEX_EXCEPTION : Z := 9.
Definition PAGE_FAULT_VECTOR : Z := 14.

Definition exc_names : list string :=
  ["Divide Error"; "Debug"; "NMI"; "Breakpoint"; "Overflow"; "BOUND Range Exceeded"; "Invalid Opcode"; "Device Not Available";
   "Double Fault"; "Coprocessor Segment Overrun"; "Invalid TSS"; "Segment Not Present"; "Stack-Segment Fault"; "General Protection";
   "Page Fault"; "Reserved"; "x87 FP Exception"; "Alignment Check"; "Machine Check"; "SIMD FP Exception"; "Virtualization Exception";
   "Control Protection"; "Reserved"; "Reserved"; "Reserved"; "Reserved"; "Reserved"; "Reserved"; "Reserved"; "Reserved"; "Reserved"; "Reserved"].

(** The console and the processes. *)
Record kern (D F : Type) : Type := mkKern { kcon : console D; kproc : @kstate F }.
Arguments mkKern {D F}. Arguments kcon {D F}. Arguments kproc {D F}.

Section handler.
Context {D F : Type} `{Ports D} `{FrameOps F} (font8x16 : list Z).
Local Abbreviation EM := (M (kern D F)).

Definition set_kcon (k : console D) (x : kern D F) : kern D F := mkKern k (kproc x).
Definition set_kproc (s : @kstate F) (x : kern D F) : kern D F := mkKern (kcon x) s.
Definition on_kcon {A} (op : M (console D) A) : EM A := onM kcon set_kcon op.

Definition say (digit : Z) (text : list Z) : EM unit := on_kcon (message font8x16 digit text).

Definition kill_current : EM Z :=
  say 3 (10 :: bytes_of "ATTEMPTING PKILL" ++ [10]) ;;;
  let* x := getM in
  (if pqueue_is_empty (kqueue (kproc x)) then say 1 (10 :: bytes_of "EPIC PKILL FAIL" ++ [10]) else retM tt) ;;;
  match Scheduler.kill_current (kproc x) with
  | PageFault _ _ => haltM Fault
  | NoFuel => haltM OutOfFuel
  | Ret (esp, s) => modM (set_kproc s) ;;; retM esp
  end.

(** [cr2] is what [read_cr2] answers. *)
Definition exception_handler (cr2 esp : Z) : EM Z :=
  let* x := getM in
  let frame i := u32 (word (kproc x) (esp + 4 * i)) in
  let vector := frame FRAME_VECTOR_INDEX_EXCEPTION in
  let error_code := frame FRAME_ERROR_CODE_INDEX_EXCEPTION in
  (if Z.land (frame FRAME_CS_INDEX_EXCEPTION) 3 =? 0 then
     let* name := get_at exc_names vector in
     on_kcon (on_dev (serial_write_string (bytes_of name ++ [0]))) ;;;
     on_kcon (on_fb (fb_draw_string font8x16 (bytes_of name ++ [0]) RED)) ;;;
     say 1 (bytes_of ", ERROR CODE: ") ;;;
     on_kcon (print_hex font8x16 error_code RED) ;;;
     say 1 [10] ;;;
     (if vector =? PAGE_FAULT_VECTOR then
        say 1 (bytes_of "CR2: ") ;;;
        on_kcon (on_dev (serial_write_char (u8 cr2))) ;;;
        on_kcon (print_hex font8x16 cr2 RED) ;;;
        say 1 [10]
      else retM tt) ;;;
     haltM Stopped
   else retM tt) ;;;
  (if Z.land (frame FRAME_CS_INDEX_EXCEPTION) 3 =? 3 then
     let* name := get_at exc_names vector in
     on_kcon (on_dev (serial_write_string (bytes_of name ++ [0]))) ;;;
     on_kcon (on_fb (fb_draw_string font8x16 (bytes_of name ++ [0]) YELLOW)) ;;;
     say 3 (bytes_of ", ERROR CODE: ") ;;;
     on_kcon (print_hex font8x16 error_code YELLOW) ;;;
     say 3 [10] ;;;
     say 3 (bytes_of "PROCESS KILLED") ;;;
     say 3 [10]
   else retM tt) ;;;
  kill_current.
End handler.

(** ** The stubs *)

(** [exc_err] of boot.S, for the vectors with an error code. *)
Definition exc_err : list Z := [8; 10; 11; 12; 13; 14; 17; 21].

(** The words below the interrupted context [trap] (eip, cs, eflags and, from a
    program, esp and ss), lowest address first: the stub's vector, the error code
    of the processor or the stub's zero. *)
Definition cpu_pushes (has_error : bool) (error : Z) (trap : list Z) : list Z := (if has_error then [error] else []) ++ trap.
Definition exc_pushes (n : Z) (below : list Z) : list Z :=
  if bool_decide (n ∈ exc_err) then n :: below else n :: 0 :: below.
(** [regs] are the eight words of [pusha]. *)
Definition exc_frame (n : Z) (has_error : bool) (error : Z) (trap regs : list Z) : list Z :=
  regs ++ exc_pushes n (cpu_pushes has_error error trap).

(** The vectors for which the processor pushes an error code, by its manual. *)
Definition has_error_code (n : Z) : bool := (n =? 8) || ((10 <=? n) && (n <=? 14)) || (n =? 17) || (n =? 21).

(** For each of the 32 vectors the handler finds the vector, the error code and
    the code segment where it looks for them. *)
Lemma exc_frame_ok n error trap regs eip cs rest : 0 <= n < 32 -> length regs = 8%nat -> trap = eip :: cs :: rest ->
  let f := exc_frame n (has_error_code n) error trap regs in
  f !! Z.to_nat FRAME_VECTOR_INDEX_EXCEPTION = Some n /\
  f !! Z.to_nat FRAME_ERROR_CODE_INDEX_EXCEPTION = Some (if has_error_code n then error else 0) /\
  f !! Z.to_nat FRAME_CS_INDEX_EXCEPTION = Some cs.
Proof.
  intros Hn Hr ->. cbv zeta. unfold exc_frame, exc_pushes, cpu_pushes.
  assert (bool_decide (n ∈ exc_err) = has_error_code n) as ->.
  { apply Bool.eq_iff_eq_true. rewrite bool_decide_eq_true. unfold exc_err, has_error_code. set_unfold. lia. }
  change (Z.to_nat FRAME_VECTOR_INDEX_EXCEPTION) with 8%nat. change (Z.to_nat FRAME_ERROR_CODE_INDEX_EXCEPTION) with 9%nat.
  change (Z.to_nat FRAME_CS_INDEX_EXCEPTION) with 11%nat.
  rewrite !lookup_app_r by (rewrite Hr; lia). rewrite Hr. by destruct (has_error_code n).
Qed.

(** ** What is reported *)

Section report.
Context {D F : Type} `{Uart D} `{FrameOps F} (font8x16 : list Z) (Hfont : length font8x16 = 4096%nat).
Local Abbreviation con := (console D).
Local Abbreviation EM := (M (kern D F)).
Implicit Types (k : con) (y : kern D F).

Definition shows (clr : Z) (x z : list Z) (m : EM unit) : Prop := forall y, con_ok font8x16 (kcon y) -> good_to_fb (kcon y) = true ->
  wp m (fun _ y' => kproc y' = kproc y /\ shown font8x16 clr x z (kcon y) (kcon y')) y.

Lemma shows_seq clr x z x' z' (m n : EM unit) : shows clr x z m -> shows clr x' z' n -> shows clr (x ++ x') (z ++ z') (m ;;; n).
Proof.
  intros Hm Hn y Hk Hg. wp_step. eapply wp_mono; [by apply Hm|]. cbv beta. intros _ y1 [E1 Hs1].
  eapply wp_mono; [apply Hn; by destruct Hs1|]. cbv beta. intros _ y2 [E2 Hs2]. split; [congruence|]. by eapply shown_app.
Qed.
Lemma shows_nil clr : shows clr [] [] (retM tt).
Proof. intros y Hk Hg. apply wp_ret. split; [done|]. by apply shown_nil. Qed.
Lemma shows_con clr x z (m : M con unit) : reports font8x16 clr x z m -> shows clr x z (on_kcon m).
Proof. intros Hm y Hk Hg. apply wp_onM. eapply wp_mono; [by apply Hm|]. cbv beta. by intros _ k' Hs. Qed.

Lemma shows_say d text : 0 <= d <= 7 -> Forall (fun c => 0 < c < 256 /\ c <> ESC) text -> shows (colours !!! Z.to_nat d) text text (say font8x16 d text).
Proof using Hfont. intros Hd Ht. by apply shows_con, reports_message. Qed.
Lemma shows_serial clr x (m : M D unit) : (forall d, dlab (uart_of d) = false -> wp m (fun _ d' => uart_of d' = transmit x (uart_of d)) d) ->
  shows clr x [] (on_kcon (on_dev m)).
Proof. intros Hm. by apply shows_con, reports_serial. Qed.
Lemma shows_hex clr v : is_u32 v -> 0 <= clr -> shows clr (hex_of v) (hex_of v) (on_kcon (print_hex font8x16 v clr)).
Proof using Hfont. intros Hv Hc. by apply shows_con, reports_hex. Qed.

(** The name of the exception, on both. *)
Lemma shows_name clr name (m : EM unit) x z : In name exc_names -> 0 <= clr -> shows clr x z m ->
  shows clr (bytes_of name ++ x) (bytes_of name ++ z)
    (on_kcon (on_dev (serial_write_string (bytes_of name ++ [0]))) ;;;
     on_kcon (on_fb (fb_draw_string font8x16 (bytes_of name ++ [0]) clr)) ;;; m).
Proof using Hfont.
  intros Hin Hc Hm. assert (text_ok (bytes_of name)) as Ht.
  { assert (Forall (fun n => text_ok (bytes_of n)) exc_names) as HF by (apply (bool_decide_unpack _); vm_compute; exact I).
    rewrite Forall_forall in HF. apply HF. by apply list_elem_of_In. }
  change (bytes_of name ++ z) with ([] ++ bytes_of name ++ z). apply shows_seq.
  - apply shows_serial. intros d Hd. by apply (serial_string_transmits (bytes_of name) []).
  - change (bytes_of name ++ z) with (bytes_of name ++ z). rewrite <- (app_nil_l x). apply shows_seq; [by apply shows_con, reports_draw|done].
Qed.
End report.

(** ** The handler *)

Section outcome.
Context {D F : Type} `{Uart D} `{FrameLaws F} (font8x16 : list Z) (Hfont : length font8x16 = 4096%nat).
Implicit Types y : kern D F.

Definition frame_word y (esp i : Z) : Z := u32 (word (kproc y) (esp + 4 * i)).
Definition exc_name (v : Z) : list Z := bytes_of (exc_names !!! Z.to_nat v).

Definition fault_text (v error : Z) : list Z := exc_name v ++ bytes_of ", ERROR CODE: " ++ hex_of error ++ [10].
Definition killed_text (v error : Z) : list Z :=
  fault_text v error ++ bytes_of "PROCESS KILLED" ++ [10] ++ 10 :: bytes_of "ATTEMPTING PKILL" ++ [10].
Definition pkill_fail_text : list Z := 10 :: bytes_of "EPIC PKILL FAIL" ++ [10].
(** The address of a page fault; on the line its low byte comes first, raw. *)
Definition address_text (v : Z) (raw : list Z) (cr2 : Z) : list Z :=
  if v =? PAGE_FAULT_VECTOR then bytes_of "CR2: " ++ raw ++ hex_of cr2 ++ [10] else [].

Lemma exc_name_at v : 0 <= v < 32 -> exists name, exc_names !! Z.to_nat v = Some name /\ exc_name v = bytes_of name /\ In name exc_names.
Proof.
  intros Hv. destruct (lookup_lt_is_Some_2 exc_names (Z.to_nat v)) as [name Hn].
  { change (length exc_names) with 32%nat. lia. }
  exists name. split; [done|]. split; [unfold exc_name; by rewrite (list_lookup_total_correct _ _ _ Hn)|].
  apply list_elem_of_In. by apply list_elem_of_lookup_2 in Hn.
Qed.

(** What a fault of the kernel and one of a program both print first. *)
Lemma shows_fault v error name clr d (m : M (kern D F) unit) x z : exc_name v = bytes_of name -> In name exc_names -> is_u32 error -> 0 <= d <= 7 ->
  colours !!! Z.to_nat d = clr -> 0 <= clr -> shows font8x16 clr x z m ->
  shows font8x16 clr (fault_text v error ++ x) (fault_text v error ++ z)
    (on_kcon (on_dev (serial_write_string (bytes_of name ++ [0]))) ;;;
     on_kcon (on_fb (fb_draw_string font8x16 (bytes_of name ++ [0]) clr)) ;;;
     say font8x16 d (bytes_of ", ERROR CODE: ") ;;; on_kcon (print_hex font8x16 error clr) ;;; say font8x16 d [10] ;;; m).
Proof using Hfont.
  intros En Hin He Hd Hclr Hc Hm. unfold fault_text. rewrite En, <- !app_assoc. apply shows_name; [done|done|done|].
  apply shows_seq; [rewrite <- Hclr; apply shows_say; [done|done|cbn; chars]|].
  apply shows_seq; [by apply shows_hex|]. apply shows_seq; [rewrite <- Hclr; apply shows_say; [done|done|chars]|done].
Qed.

Lemma kernel_fault y cr2 esp v error : con_ok font8x16 (kcon y) -> good_to_fb (kcon y) = true -> is_u32 cr2 ->
  frame_word y esp FRAME_VECTOR_INDEX_EXCEPTION = v -> 0 <= v < 32 -> frame_word y esp FRAME_ERROR_CODE_INDEX_EXCEPTION = error ->
  Z.land (frame_word y esp FRAME_CS_INDEX_EXCEPTION) 3 = 0 ->
  exists y', exception_handler font8x16 cr2 esp y = Halted Stopped y' /\ kproc y' = kproc y /\
    shown font8x16 RED (fault_text v error ++ address_text v [u8 cr2] cr2) (fault_text v error ++ address_text v [] cr2) (kcon y) (kcon y').
Proof using Hfont.
  intros Hk Hg Hcr Ev Hv Ee Ecs. destruct (exc_name_at v Hv) as (name & Hn & En & Hin).
  assert (is_u32 error) as He by (rewrite <- Ee; unfold frame_word, is_u32, u32; zlia).
  set (m := (if v =? PAGE_FAULT_VECTOR then say font8x16 1 (bytes_of "CR2: ") ;;; on_kcon (on_dev (serial_write_char (u8 cr2))) ;;;
    on_kcon (print_hex font8x16 cr2 RED) ;;; say font8x16 1 [10] else retM tt) : M (kern D F) unit).
  assert (shows font8x16 RED (address_text v [u8 cr2] cr2) (address_text v [] cr2) m) as Hm.
  { unfold m, address_text. destruct (v =? PAGE_FAULT_VECTOR); [|apply shows_nil].
    apply shows_seq; [apply (shows_say font8x16 Hfont 1); [done|cbn; chars]|].
    apply shows_seq; [apply shows_serial; intros d Hd; apply serial_char_transmits; [unfold is_byte, u8; zlia|done]|].
    apply shows_seq; [by apply shows_hex|]. apply (shows_say font8x16 Hfont 1); [done|chars]. }
  pose proof (shows_fault v error name RED 1 m _ _ En Hin He ltac:(lia) eq_refl ltac:(done) Hm y Hk Hg) as Hw.
  apply wp_inv in Hw as ([] & y' & E & Ep & Hs). exists y'. split; [|done].
  unfold exception_handler. unfold bindM at 1, getM. unfold frame_word in *. rewrite Ev, Ee, Ecs. cbn [Z.eqb].
  apply bindM_Halted. unfold get_at. rewrite (proj2 (Z.leb_le 0 v)), Hn by lia. unfold bindM at 1, retM at 1. fold m.
  do 5 (apply bindM_inv in E as (? & ? & E1 & E); rewrite (bindM_Done _ _ _ _ _ E1); clear E1).
  by rewrite (bindM_Done _ _ _ _ _ E).
Qed.

(** A fault of a program is reported, up to the attempt to kill it. *)
Lemma user_fault_reported y cr2 esp v error : con_ok font8x16 (kcon y) -> good_to_fb (kcon y) = true ->
  frame_word y esp FRAME_VECTOR_INDEX_EXCEPTION = v -> 0 <= v < 32 -> frame_word y esp FRAME_ERROR_CODE_INDEX_EXCEPTION = error ->
  Z.land (frame_word y esp FRAME_CS_INDEX_EXCEPTION) 3 = 3 ->
  exists y2, kproc y2 = kproc y /\ shown font8x16 YELLOW (killed_text v error) (killed_text v error) (kcon y) (kcon y2) /\
    exception_handler font8x16 cr2 esp y =
      ((if pqueue_is_empty (kqueue (kproc y)) then say font8x16 1 pkill_fail_text else retM tt) ;;;
       match Scheduler.kill_current (kproc y) with
       | PageFault _ _ => haltM Fault
       | NoFuel => haltM OutOfFuel
       | Ret (esp, s) => modM (set_kproc s) ;;; retM esp
       end) y2.
Proof using Hfont.
  intros Hk Hg Ev Hv Ee Ecs. destruct (exc_name_at v Hv) as (name & Hn & En & Hname).
  assert (is_u32 error) as He by (rewrite <- Ee; unfold frame_word, is_u32, u32; zlia).
  assert (shows (F := F) font8x16 YELLOW (bytes_of "PROCESS KILLED" ++ [10]) (bytes_of "PROCESS KILLED" ++ [10])
    (say font8x16 3 (bytes_of "PROCESS KILLED") ;;; say font8x16 3 [10])) as Hm.
  { apply shows_seq; apply (shows_say font8x16 Hfont 3); [done|cbn; chars|done|chars]. }
  pose proof (shows_fault v error name YELLOW 3 _ _ _ En Hname He ltac:(lia) eq_refl ltac:(done) Hm y Hk Hg) as Hw.
  apply wp_inv in Hw as ([] & y1 & E1 & Ep1 & Hs1).
  pose proof (shows_say (F := F) font8x16 Hfont 3 (10 :: bytes_of "ATTEMPTING PKILL" ++ [10]) ltac:(lia) ltac:(cbn; chars) y1 (sh_ok _ _ _ _ _ _ Hs1) (sh_good _ _ _ _ _ _ Hs1)) as Hw2.
  apply wp_inv in Hw2 as ([] & y2 & E2 & Ep2 & Hs2).
  exists y2. split; [congruence|]. split.
  - assert (killed_text v error = (fault_text v error ++ bytes_of "PROCESS KILLED" ++ [10]) ++ 10 :: bytes_of "ATTEMPTING PKILL" ++ [10]) as ->.
    { unfold killed_text. rewrite <- (app_assoc (fault_text v error)). f_equal. }
    by eapply shown_app.
  - unfold exception_handler. unfold bindM at 1, getM at 1. fold (frame_word y esp FRAME_VECTOR_INDEX_EXCEPTION).
    fold (frame_word y esp FRAME_ERROR_CODE_INDEX_EXCEPTION). fold (frame_word y esp FRAME_CS_INDEX_EXCEPTION).
    rewrite Ev, Ee, Ecs. cbn [Z.eqb Pos.eqb]. unfold bindM at 1, retM at 1.
    erewrite bindM_Done; cycle 1.
    { unfold get_at. rewrite (proj2 (Z.leb_le 0 v)), Hn by lia. unfold bindM at 1, retM at 1. exact E1. }
    unfold kill_current. rewrite (bindM_Done _ _ _ _ _ E2). unfold bindM at 1, getM at 1. by rewrite Ep2, Ep1.
Qed.

Lemma user_fault y cr2 esp v error bs next ps vn sn rest nn : con_ok font8x16 (kcon y) -> good_to_fb (kcon y) = true ->
  frame_word y esp FRAME_VECTOR_INDEX_EXCEPTION = v -> 0 <= v < 32 -> frame_word y esp FRAME_ERROR_CODE_INDEX_EXCEPTION = error ->
  Z.land (frame_word y esp FRAME_CS_INDEX_EXCEPTION) 3 = 3 ->
  let s := kproc y in
  heap_wf (kheap s) bs -> backed (kheap s) -> pg_tree (kpages s) -> fr_wf (frames (kpages s)) -> uframes_ok (uframes s) ->
  pq_wf (kqueue s) -> items (kqueue s) = next :: ps ->
  Heap.live HEAP_START bs ≡ₚ (current s, vn) :: (p_malloc_addr s (current s), sn) :: rest -> 12 <= vn ->
  (next, nn) ∈ rest -> 12 <= nn ->
  exists y' bs', exception_handler font8x16 cr2 esp y = Done (p_esp s next) y' /\
    shown font8x16 YELLOW (killed_text v error) (killed_text v error) (kcon y) (kcon y') /\
    heap_wf (kheap (kproc y')) bs' /\ backed (kheap (kproc y')) /\ Heap.live HEAP_START bs' ≡ₚ rest /\
    Heap.keeps rest (kheap s) (kheap (kproc y')) /\
    current (kproc y') = next /\ items (kqueue (kproc y')) = ps /\
    cleared s (kproc y') (user_pages s) (user_frames s).
Proof using Hfont H2.
  intros Hk Hg Ev Hv Ee Ecs s Hwf Hb Ht Hfr Huf Hq Hi Hl Hvn Hin Hnn.
  destruct (kill_current_spec s bs next ps vn sn rest nn Hwf Hb Ht Hfr Huf Hq Hi Hl Hvn Hin Hnn)
    as (s' & bs' & Ek & Hwf' & Hb' & Hl' & Hkeep & Hc' & Hi' & _ & Hcl).
  destruct (user_fault_reported y cr2 esp v error Hk Hg Ev Hv Ee Ecs) as (y2 & Ep & Hs & ->).
  exists (set_kproc s' y2), bs'. split; [|done]. fold s.
  assert (pqueue_is_empty (kqueue s) = false) as -> by (by rewrite (pq_empty_items _ Hq), Hi).
  unfold bindM at 1, retM at 1. by rewrite Ek.
Qed.

(** With nothing ready the process cannot be killed: the handler says so and
    returns 0xFFFFFFFF, which the stub loads as a stack pointer. *)
Lemma user_fault_alone y cr2 esp v error : con_ok font8x16 (kcon y) -> good_to_fb (kcon y) = true ->
  frame_word y esp FRAME_VECTOR_INDEX_EXCEPTION = v -> 0 <= v < 32 -> frame_word y esp FRAME_ERROR_CODE_INDEX_EXCEPTION = error ->
  Z.land (frame_word y esp FRAME_CS_INDEX_EXCEPTION) 3 = 3 ->
  pq_wf (kqueue (kproc y)) -> items (kqueue (kproc y)) = [] ->
  exists k y', exception_handler font8x16 cr2 esp y = Done SYSCALL_ERROR y' /\ kproc y' = kproc y /\
    shown font8x16 YELLOW (killed_text v error) (killed_text v error) (kcon y) k /\
    shown font8x16 RED pkill_fail_text pkill_fail_text k (kcon y').
Proof using Hfont.
  intros Hk Hg Ev Hv Ee Ecs Hq Hi.
  destruct (user_fault_reported y cr2 esp v error Hk Hg Ev Hv Ee Ecs) as (y2 & Ep & Hs & ->).
  assert (pqueue_is_empty (kqueue (kproc y)) = true) as -> by (by rewrite (pq_empty_items _ Hq), Hi).
  pose proof (shows_say (F := F) font8x16 Hfont 1 pkill_fail_text ltac:(lia) ltac:(cbn; chars) y2 (sh_ok _ _ _ _ _ _ Hs) (sh_good _ _ _ _ _ _ Hs)) as Hw.
  apply wp_inv in Hw as ([] & y3 & E3 & Ep3 & Hs3).
  exists (kcon y2), (set_kproc (kproc y) y3). split; [|split; [done|split; [done|exact Hs3]]].
  rewrite (bindM_Done _ _ _ _ _ E3), (kill_current_alone _ Hq Hi). done.
Qed.
End outcome.

(** The stub's frame lies at [esp]. *)
Definition frame_at {D F} (y : kern D F) (esp : Z) (f : list Z) : Prop := forall i w, f !! i = Some w -> frame_word y esp (Z.of_nat i) = w.

Section correct.
Context {D F : Type} `{Uart D} `{FrameLaws F}.
Implicit Types y : kern D F.

(** C14. Exceptions end where they should.  For each of the 32 vectors, whatever the interrupted context
    and registers, the handler run on the frame the stub of boot.S builds: (1) when the kernel faulted
    (privilege 0 in the saved code segment), names the exception and its error code in red on the line and
    on the screen, for a page fault also the address (on the line after its raw low byte), changes no process and stops;
    (2) when a program faulted (privilege 3) and another process is ready, reports in yellow and returns
    the stack pointer that process saved, which is now current and off the queue; the victim's
    block and stack are given back to the heap and every other block in use is as it was; every page of the
    user program is unmapped and exactly the frames behind them are free again, no other translation and no
    other frame having changed; (3) when a program faulted and nothing else is ready, says so in red after the
    report, changes no process and returns 0xFFFFFFFF in place of a stack pointer. *)
Theorem exception_handler_correct font8x16 y cr2 esp n error regs eip cs ctx :
  length font8x16 = 4096%nat -> con_ok font8x16 (kcon y) -> good_to_fb (kcon y) = true -> is_u32 cr2 ->
  0 <= n < 32 -> length regs = 8%nat -> frame_at y esp (exc_frame n (has_error_code n) error (eip :: cs :: ctx) regs) ->
  let code := if has_error_code n then error else 0 in
  (Z.land cs 3 = 0 ->
   exists y', exception_handler font8x16 cr2 esp y = Halted Stopped y' /\ kproc y' = kproc y /\
     shown font8x16 RED (fault_text n code ++ address_text n [u8 cr2] cr2) (fault_text n code ++ address_text n [] cr2) (kcon y) (kcon y')) /\
  (Z.land cs 3 = 3 -> forall bs next ps vn sn rest nn, let s := kproc y in
   heap_wf (kheap s) bs -> backed (kheap s) -> pg_tree (kpages s) -> fr_wf (frames (kpages s)) -> uframes_ok (uframes s) ->
   pq_wf (kqueue s) -> items (kqueue s) = next :: ps ->
   Heap.live HEAP_START bs ≡ₚ (current s, vn) :: (p_malloc_addr s (current s), sn) :: rest -> 12 <= vn ->
   (next, nn) ∈ rest -> 12 <= nn ->
   exists y' bs', exception_handler font8x16 cr2 esp y = Done (p_esp s next) y' /\
     shown font8x16 YELLOW (killed_text n code) (killed_text n code) (kcon y) (kcon y') /\
     heap_wf (kheap (kproc y')) bs' /\ backed (kheap (kproc y')) /\ Heap.live HEAP_START bs' ≡ₚ rest /\
     Heap.keeps rest (kheap s) (kheap (kproc y')) /\
     current (kproc y') = next /\ items (kqueue (kproc y')) = ps /\
     cleared s (kproc y') (user_pages s) (user_frames s)) /\
  (Z.land cs 3 = 3 -> pq_wf (kqueue (kproc y)) -> items (kqueue (kproc y)) = [] ->
   exists k y', exception_handler font8x16 cr2 esp y = Done SYSCALL_ERROR y' /\ kproc y' = kproc y /\
     shown font8x16 YELLOW (killed_text n code) (killed_text n code) (kcon y) k /\
     shown font8x16 RED pkill_fail_text pkill_fail_text k (kcon y')).
Proof.
  intros Hf Hk Hg Hc Hn Hr Hfr code.
  destruct (exc_frame_ok n error (eip :: cs :: ctx) regs eip cs ctx Hn Hr eq_refl) as (Ev & Ee & Ecs).
  apply Hfr in Ev, Ee, Ecs. rewrite Z2Nat.id in Ev, Ee, Ecs by done. split; [|split].
  - intros Hp. apply kernel_fault; (done || by rewrite Ecs).
  - intros Hp bs next ps vn sn rest nn. apply user_fault; (done || by rewrite Ecs).
  - intros Hp. apply (user_fault_alone font8x16 Hf y cr2 esp n); (done || by rewrite Ecs).
Qed.
End correct.

(** ** Concrete states *)

Module Faulty.
Definition victim : Z := HEAP_START + 8.
Definition stack : Z := HEAP_START + 28.
Definition next : Z := HEAP_START + 16420.
Definition top : Z := stack + 16384 - 60.
Definition blocks : list block := [mkBlock 12 false; mkBlock 16384 false; mkBlock 12 false; mkBlock 4040 true].

(** The headers, the two processes and, at the top of the victim's stack, the
    frame of a page fault at 0x8048000. *)
Definition words (cs : Z) : list (Z * Z) :=
  [(HEAP_START, 12); (HEAP_START + 20, 16384); (HEAP_START + 16412, 12); (HEAP_START + 16432, 4040); (HEAP_START + 16436, 1);
   (victim + 8, stack); (next, 4096)] ++
  imap (fun i w => (top + 4 * Z.of_nat i, w)) (exc_frame 14 true 6 [134512640; cs; 514; 3221225472; 35] [0; 1; 2; 3; 4; 5; 6; 7]).
Definition mem (cs a : Z) : Z := match find (fun x => x.1 =? a) (words cs) with Some x => x.2 | None => 0 end.

(** Five pages, mapped to frames 100 to 104. *)
Definition map_five (n : nat) : pstate :=
  for_range n 0 (fun i p => map_kernel_page (HEAP_START + 4096 * i) (4096 * (100 + i)) 3 p) empty_dir.
Definition five_pages : pstate := map_five 5.

Lemma map_five_wf n : (n <= 1000)%nat -> pg_wf (map_five n) (kernel_dir (map_five n)).
Proof.
  intros Hn. unfold map_five. apply (for_range_ind (fun _ p => pg_wf p (kernel_dir p))); [exact empty_dir_wf|].
  intros i p Hi Hp. destruct (map_page_spec p (kernel_dir p) (HEAP_START + 4096 * i) (4096 * (100 + i)) 3 Hp) as (Hw & (Hk & _) & _);
    [unfold is_u32, HEAP_START; lia|unfold is_u32; lia|zlia|lia|done|].
  unfold map_kernel_page. by rewrite Hk.
Qed.
Lemma five_pages_wf : pg_wf five_pages (kernel_dir five_pages).
Proof. apply map_five_wf. lia. Qed.
Lemma five_pages_tree : pg_tree five_pages.
Proof. exists (frames five_pages). rewrite set_frames_same. apply five_pages_wf. Qed.

Definition procs (cs : Z) : kstate :=
  mkK (mkHeap HEAP_START (HEAP_START + 20480) (mem cs) five_pages) (mkPq (<[0%nat := next]> (replicate 256 0)) 1 0)
    victim 0 (replicate (Z.to_nat MISC_PAGE_CNT) 20480) (fun _ => 0).
Definition con : console SlowLine.line := mkCon SlowLine.idle demo_screen true (replicate LOG_CELLS blank) 0.
Definition before (cs : Z) := mkKern con (procs cs).

Lemma heap_ok cs : heap_wf (kheap (procs cs)) blocks.
Proof. split; [done|by repeat split|]. by repeat split. Qed.
Lemma heap_backed cs : backed (kheap (procs cs)).
Proof.
  intros v Hv. change (HEAP_START <= v < HEAP_START + 20480) in Hv. change (reaches five_pages v = true).
  unfold HEAP_START in Hv.
  assert (forall i, 0 <= i < 5 -> reaches five_pages (HEAP_START + 4096 * i) = true) as Hp.
  { assert (forallb (fun i => reaches five_pages (HEAP_START + 4096 * i)) [0; 1; 2; 3; 4] = true) as HF
      by (vm_compute; reflexivity).
    intros i Hi. rewrite forallb_forall in HF. apply HF. cbn. lia. }
  assert (0 <= (v - 268435456) / 4096 < 5) as Hi by zlia.
  specialize (Hp _ Hi). rewrite (reaches_tree _ _ five_pages_tree) in Hp by (unfold is_u32, HEAP_START; zlia).
  rewrite (reaches_tree _ _ five_pages_tree) by (unfold is_u32; lia).
  rewrite (walk_page _ _ v (HEAP_START + 4096 * ((v - 268435456) / 4096))); [done|..]; unfold is_u32, HEAP_START; zlia.
Qed.
Lemma con_fine : con_ok demo_font con.
Proof. split; [done|apply length_replicate|cbn [curr_buf_ind con]; lia|constructor|]. intros _. exact demo_screen_ok. Qed.
Lemma frame_fine cs : is_u32 cs -> frame_at (before cs) top (exc_frame 14 true 6 [134512640; cs; 514; 3221225472; 35] [0; 1; 2; 3; 4; 5; 6; 7]).
Proof.
  intros Hc i w Hi. do 15 (destruct i as [|i]; [injection Hi as <-; try done; by apply Z.mod_small|]). done.
Qed.
End Faulty.
Import Faulty.

Lemma exception_handler_correct_witness :
  (exists y', exception_handler demo_font 134512640 top (before 8) = Halted Stopped y' /\
     sent (SlowLine.regs (dev (kcon y'))) = bytes_of "Page Fault, ERROR CODE: 00000006" ++ [10] ++ bytes_of "CR2: " ++ [0] ++ bytes_of "08048000" ++ [10]) /\
  (exists y', exception_handler demo_font 134512640 top (before 27) = Done 4096 y' /\ current (kproc y') = Faulty.next /\
     fr_used (frames (kpages (kproc y'))) 5 = false).
Proof.
  split.
  - destruct (exception_handler_correct demo_font (before 8) 134512640 top 14 6 [0; 1; 2; 3; 4; 5; 6; 7] 134512640 8 [514; 3221225472; 35]
      demo_font_length con_fine eq_refl ltac:(by split) ltac:(done) eq_refl (frame_fine 8 ltac:(by split))) as [Hk _].
    destruct (Hk eq_refl) as (y' & E & _ & [_ _ Hl _]). exists y'. split; [exact E|].
    change (sent (uart_of (dev (kcon y'))) = bytes_of "Page Fault, ERROR CODE: 00000006" ++ [10] ++ bytes_of "CR2: " ++ [0] ++ bytes_of "08048000" ++ [10]).
    rewrite Hl. reflexivity.
  - destruct (exception_handler_correct demo_font (before 27) 134512640 top 14 6 [0; 1; 2; 3; 4; 5; 6; 7] 134512640 27 [514; 3221225472; 35]
      demo_font_length con_fine eq_refl ltac:(by split) ltac:(done) eq_refl (frame_fine 27 ltac:(by split))) as (_ & Hu & _).
    destruct (Hu eq_refl blocks Faulty.next [] 12 16384 [(Faulty.next, 12)] 12) as (y' & bs' & E & _ & _ & _ & _ & _ & Hc & _ & Hcl).
    + apply heap_ok.
    + apply heap_backed.
    + apply five_pages_tree.
    + apply five_pages_wf.
    + split; [reflexivity|]. apply Forall_replicate. exists 5. lia.
    + split; [reflexivity|]. simpl. lia.
    + reflexivity.
    + reflexivity.
    + lia.
    + apply list_elem_of_here.
    + lia.
    + exists y'. split; [exact E|]. split; [exact Hc|]. rewrite (cl_used _ _ _ _ Hcl) by lia.
      rewrite bool_decide_eq_true_2; [apply andb_false_r|]. apply (bool_decide_unpack _). vm_compute. exact I.
Defined.
