(* ===== verification/Boot.v ===== *)
(** * Boot: kernel/mainInitScript.c

    The initialisers of all parts, run in the order of the source on one state,
    with the lines of the log between them and the messages they print
    themselves.  The driver of the drives is taken as [Disk] has it, which [Ata]
    refines; as everywhere, the buffers the file system allocates are not taken
    from the modelled heap, and no interrupt arrives in between.  What [map_page]
    prints when it cannot map a page is kept in the page state ([complaints]) and
    not printed here: [bootable] asks that there is no such complaint. *)
From S2P Require Import Prelude Bytes CLib Ring Dates FrameAlloc Paging Heap Scheduler Disk Mount Keyboard Screen ScreenSpec Ports Kprintf Ata Interrupts.

(** What the boot loader, the linker and the hardware provide: the addresses of
    the stubs, of the tables, of the boot stack and of the end of the kernel, the
    boot information with the memory it lies in, the video mode, what the arrays
    of the console and the frame buffer hold, the answers of the drives, and the
    program image. *)
Record env : Type := mkEnv {
  e_stub : stub -> Z; e_idt : Z; e_stack_top : Z; e_tss : Z; e_ebss : Z;
  e_mem : Z -> Z; e_info : MBIInfo; e_fuel : nat;
  e_fb : fb_info; e_shadow : list FBChar; e_history : list FBChar; e_pixels : Z -> Z -> Z;
  e_master : list Z; e_slave : identity; e_prog : list Z
}.

(** The devices are those of the console; the stack pointer of the task state is
    the one of the scheduler. *)
Record machine (D : Type) : Type := mkMachine {
  mcon : console D; mtab : tables unit; mseg : segments; mproc : kstate (F := frame_bitmap); mkbd : kbd; mfs : fstate
}.
Arguments mkMachine {D}. Arguments mcon {D}. Arguments mtab {D}. Arguments mseg {D}. Arguments mproc {D}. Arguments mkbd {D}. Arguments mfs {D}.

(** ** The lines of the log *)

Definition line (text : string) : list piece := [(2, bytes_of "* "); (9, []); (7, bytes_of text)].
Definition ok_line : list piece := [(7, bytes_of "[ "); (9, []); (2, bytes_of "OK"); (9, []); (7, bytes_of " ]" ++ [10])].
Definition welcome : list piece :=
  [(2, bytes_of "* "); (9, []); (7, bytes_of "Welcome to "); (9, []); (6, bytes_of "DeprecatOS (Indev 0.01)!" ++ [10]); (9, [])].
Definition warning (text : string) : list piece := [(3, bytes_of text ++ [10]); (9, [])].

(** What [ata_init] prints, by what it finds as slave. *)
Definition ata_messages (sl : identity) : list (list piece) :=
  match sl with
  | Absent => [[(1, 10 :: bytes_of "WARNING: FLOATING BUS ON SLAVE DRIVE"); (9, [])]; [(3, slave_warning); (9, [])]]
  | Packet _ _ => [[(1, 10 :: bytes_of "WARNING: INCOMPATBILE HARDWARE ON SLAVE DRIVE"); (9, [])]; [(3, slave_warning); (9, [])]]
  | AtaDrive ws =>
      if identify_supports ws then [] else [[(3, 10 :: bytes_of "Slave drive does not support read48, unusable."); (9, [])]]
  end.

(** What [userland_init] and [map_misc_pages] print. *)
Definition userland_messages (s : kstate (F := frame_bitmap)) : list (list piece) :=
  let (code_frame, s) := u_alloc_frame s in
  let (stack_frame, s) := u_alloc_frame s in
  if code_frame =? 0 then [warning "alloc_frame() failed in userland_init()'s code frame init!"]
  else if stack_frame =? 0 then [warning "alloc_frame() failed in userland_init()'s stack frame init!"]
  else
    let s := u_map CODE_ADDR code_frame USER_FLAGS s in
    (if (alloc_misc (Z.to_nat MISC_PAGE_CNT) 0 s).1 then []
     else [warning "alloc_frame() failed in a map_misc_pages()'s misc frame init!"]) ++ [ok_line; welcome].

(** What [fill_partition_entry] prints for a partition. *)
Definition partition_messages (drive_magic part : Z) : FM (list (list piece)) :=
  let* s := getM in
  let is_master := drive_magic =? ATA_MASTER in
  let dr := if is_master then master_drive s else slave_drive s in
  let who m sl := [warning (if is_master then m else sl)] in
  let* mbr := read_mbr drive_magic dr in
  match mbr with
  | None => retM []
  | Some mbr =>
      if negb ((ld8 mbr 510 =? 85) && (ld8 mbr 511 =? 170)) then
        retM (if is_master then [] else [warning "WARNING: slave drive has a bad MBR signature"])
      else
        let e := DRIVE_UNUSED_SIZE + PART_ENTRY_SIZE * (part mod PARTS_PER_DRIVE) in
        let part_good := ld8 mbr (e + 4) in
        if (part_good =? 5) || (part_good =? 15) then
          retM (who "WARNING: master drive has an extended partition, skipped" "WARNING: slave drive has an extended partition, skipped")
        else if negb (part_good =? 131) then retM []
        else
          let lba := ld32 mbr (e + 8) in
          let n := ld32 mbr (e + 12) in
          if (n =? 0) || (lba_sector_count dr <? lba + n) then
            retM (who "WARNING: master drive partition is out of bounds, skipped" "WARNING: slave drive partition is out of bounds, skipped")
          else
            let* f := get_fs part in
            let* sb := ata_read48_part drive_magic lba n (EXT2_SUPERBLOCK_OFFSET / BYTES_PER_SECTOR) (SUPERBLOCK_SIZE / BYTES_PER_SECTOR) (sprblk_buf f) in
            if negb ((sb_ext2_signature sb =? 61267) && (u32 (Z.shiftl 1024 (sb_block_size_adjusted sb mod 32)) =? 4096)) then
              retM (who "WARNING: master drive partition is not ext2 with 4K blocks, skipped" "WARNING: slave drive partition is not ext2 with 4K blocks, skipped")
            else if negb (Z.land (sb_req_features_present sb) (cnot 32 2) =? 0) then
              retM [warning "WARNING: partition uses incompatible features, skipped"]
            else if negb (Z.land (sb_features_unsupport_ro sb) (cnot 32 3) =? 0) then
              retM [warning "WARNING: partition uses features this kernel cannot write, skipped"]
            else retM []
  end.

(** What [mark_fs_state] prints when [mount_init] marks the root partition as in
    use. *)
Definition mount_messages : FM (list (list piece)) :=
  let* s := getM in
  let* f := get_fs (root_fs s) in
  guardM (negb (superblk_null f)) ;;;
  retM (if Z.land (sb_fs_state (sprblk_buf f)) FS_STATE_VALID_BIT =? 0
        then [warning "partition was not cleanly unmounted"] else []).

(** ** Parts of the state *)

Section parts.
Context {D : Type}.
Local Abbreviation mach := (machine D).
Implicit Type m : mach.

Definition set_mcon (k : console D) m : mach := mkMachine k (mtab m) (mseg m) (mproc m) (mkbd m) (mfs m).
Definition set_mproc (s : kstate) m : mach := mkMachine (mcon m) (mtab m) (mseg m) s (mkbd m) (mfs m).
Definition set_mfs (s : fstate) m : mach := mkMachine (mcon m) (mtab m) (mseg m) (mproc m) (mkbd m) s.
Definition set_mkbd (k : kbd) m : mach := mkMachine (mcon m) (mtab m) (mseg m) (mproc m) k (mfs m).

Definition tabs {D1 D2} (d : D2) (t : tables D1) : tables D2 := mkTables d (idt t) (idtp t) (idtr t) (clock t) (iflag t).
Definition full_tab m : tables D := tabs (dev (mcon m)) (mtab m).
Definition set_full_tab (t : tables D) m : mach :=
  mkMachine (Kprintf.set_dev (tdev t) (mcon m)) (tabs tt t) (mseg m) (mproc m) (mkbd m) (mfs m).

Definition full_seg m : segments := Interrupts.tss_set_esp (esp0 (mproc m)) (mseg m).
Definition set_full_seg (s : segments) m : mach :=
  mkMachine (mcon m) (mtab m) s (Scheduler.tss_set_esp (tesp0 (tss s)) (mproc m)) (mkbd m) (mfs m).
End parts.

(** ** The initialisers on the processes and their memory *)

Section memory.
Context (e : env).
Local Abbreviation kst := (kstate (F := frame_bitmap)).

(** The walk over the map of the boot loader is given [e_fuel] steps. *)
Definition fueled {A} (o : option A) : run frame_bitmap A := match o with Some a => Ret a | None => NoFuel end.

Definition init_frames (s : kst) : run frame_bitmap kst :=
  bm ← fueled (FrameAlloc.frame_alloc_init (e_fuel e) (e_mem e) (e_ebss e) (e_info e));
  Ret (set_kpages (set_frames bm (kpages s)) s).
Definition init_paging (s : kst) : run frame_bitmap kst :=
  p ← fueled (Paging.paging_init (e_fuel e) (e_mem e) (e_info e) (kpages s)); Ret (set_kpages p s).
Definition init_heap (s : kst) : run frame_bitmap kst :=
  h ← Heap.heap_init (kheap s); Ret (set_kheap h s).

(** The two arrays of the console.  Page 0 is never mapped, so a null pointer
    faults: [shadow] is cleared at once, [history] would be written by the first
    scroll. *)
Definition fb_arrays (f : fb) (s : kst) : run frame_bitmap kst :=
  '(shadow, s) ← k_malloc (u32 (rows f * cols f * sizeof_FBChar)) s;
  '(history, s) ← k_malloc (u32 (HISTORY_LINES * cols f * sizeof_FBChar)) s;
  if (shadow =? 0) || (history =? 0) then PageFault 0 (kpages s)
  else k_reach (map (fun i => shadow + sizeof_FBChar * Z.of_nat i) (seq 0 (Z.to_nat (rows f * cols f)))) s (Ret s).

(** The part of a run that returns. *)
Definition returned {A} (r : run frame_bitmap A) : option A := match r with Ret a => Some a | _ => None end.

Definition init_screen (s : kst) : option (fb * kst) :=
  '(f, p) ← Screen.fb_init (e_fb e) (e_shadow e) (e_history e) (e_pixels e) (kpages s);
  s ← returned (fb_arrays f (set_kpages p s)); Some (f, s).
End memory.

(** ** mainInitScript *)

Section script.
Context {D : Type} `{Ports D} (font8x16 : list Z) (e : env).
Local Abbreviation MM := (M (machine D)).

Definition on_mcon {A} (op : M (console D) A) : MM A := onM mcon set_mcon op.
Definition on_tab {A} (op : M (tables D) A) : MM A := onM full_tab set_full_tab op.
Definition on_mfs {A} (op : FM A) : MM A := onM mfs set_mfs op.
(** A page fault in the kernel stops the machine ([Exceptions]). *)
Definition on_mproc (f : kstate -> run frame_bitmap kstate) : MM unit :=
  let* m := getM in
  match f (mproc m) with Ret s => modM (set_mproc s) | PageFault _ _ => haltM Fault | NoFuel => haltM OutOfFuel end.

Definition print (ps : list piece) : MM unit := on_mcon (kprintf font8x16 (render ps ++ [0])).
Definition prints (ms : list (list piece)) : MM unit := on_mcon (kprintfs font8x16 ms).

Definition stage (text : string) (init : MM unit) : MM unit := print (line text) ;;; init ;;; print ok_line.

(** [mmap_walk] warns when the boot loader gave no map. *)
Definition check_map : MM unit :=
  if Z.land (FrameAlloc.flags (e_info e)) (Z.shiftl 1 6) =? 0 then on_mcon (message font8x16 3 (bytes_of "Bad flags")) else retM tt.

Definition frame_alloc_init : MM unit := check_map ;;; on_mproc (init_frames e).
Definition paging_init : MM unit := check_map ;;; on_mproc (init_paging e).
Definition heap_init : MM unit := on_mproc init_heap.
Definition keyboard_init : MM unit := modM (fun m => set_mkbd (Keyboard.keyboard_init (mkbd m)) m).

Definition fb_init : MM unit :=
  let* m := getM in
  match Screen.fb_init (e_fb e) (e_shadow e) (e_history e) (e_pixels e) (kpages (mproc m)) with
  | None => on_mcon (message font8x16 1 (bytes_of "KERNEL PANIC: INCOMPATIBLE HARDWARE")) ;;; haltM Stopped
  | Some (f, p) =>
      modM (set_mproc (set_kpages p (mproc m))) ;;;
      on_mproc (fb_arrays f) ;;;
      on_mcon (modM (set_scr f))
  end.

Definition scheduler_init : MM unit := on_mproc Scheduler.scheduler_init.

(** The slave is reported before the geometry of the drives is checked, its
    missing commands after. *)
Definition ata_init : MM unit :=
  match e_slave e with
  | AtaDrive ws => on_mfs (Disk.ata_init (e_master e) (Some ws)) ;;; prints (ata_messages (e_slave e))
  | sl => prints (ata_messages sl) ;;; on_mfs (Disk.ata_init (e_master e) None)
  end.

Definition fill_partition_entry (drive_magic part : Z) : MM bool :=
  let* ms := on_mfs (partition_messages drive_magic part) in
  prints ms ;;;
  on_mfs (Disk.fill_partition_entry drive_magic part).
Definition block_init : MM unit :=
  loopM (Z.to_nat MAX_MOUNTS) 0 (fun part =>
    let* ok := fill_partition_entry (if part / PARTS_PER_DRIVE =? 0 then ATA_MASTER else ATA_SLAVE) part in
    retM (if ok then None else Some tt)) ;;;
  on_mfs choose_root.

Definition mount_init : MM unit :=
  let* ms := on_mfs mount_messages in
  prints ms ;;;
  on_mfs Mount.mount_init.

Definition tss_init : MM unit := modM (fun m => set_full_seg (Interrupts.tss_init (e_stack_top e) (e_tss e) (full_seg m)) m).

Definition userland_init : MM unit :=
  let* m := getM in
  prints (userland_messages (mproc m)) ;;;
  on_mproc (Scheduler.userland_init (e_prog e)).

Definition mainInitScript : MM unit :=
  stage "Initializing the serial driver...           " (on_mcon (on_dev serial_init)) ;;;
  stage "Initializing the IDT...                     " (on_tab (idt_init (e_stub e) (e_idt e))) ;;;
  stage "Initializing the timer driver...            " (on_tab (timer_init (e_stub e))) ;;;
  stage "Initializing the exceptions handler...      " (on_tab (exceptions_init (e_stub e))) ;;;
  stage "Initializing the frame allocator...         " frame_alloc_init ;;;
  stage "Initializing the paging controller...       " paging_init ;;;
  stage "Initializing the heap...                    " heap_init ;;;
  stage "Initializing the keyboard...                " keyboard_init ;;;
  fb_init ;;;
  on_mcon (kprintf_init font8x16) ;;;
  stage "Initializing the scheduler...               " scheduler_init ;;;
  stage "Initializing the ATA driver...              " ata_init ;;;
  stage "Initializing the block driver...            " block_init ;;;
  stage "Initializing the mount handler...           " mount_init ;;;
  stage "Initializing the GDT and TSS controller...  " tss_init ;;;
  stage "Initializing the syscall controller...      " (on_tab (syscall_init (e_stub e))) ;;;
  print (line "Initializing the userland...                ") ;;;
  userland_init ;;;
  haltM Stopped.
End script.

(** ** The devices together *)

(** The serial port and the other chips do not share ports. *)
Class Board (D : Type) {P : Ports D} {U : Uart D} {C : Chips D} := {
  line_out d port v : ~ COM1 <= port < COM1 + 8 -> uart_of (out8 port v d) = uart_of d;
  line_in d : uart_of (in8 RTC_READ_PORT d).2 = uart_of d;
  chips_line d : chips_of (in8 (COM1 + 5) d).2 = chips_of d /\ rtc_reads (in8 (COM1 + 5) d).2 = rtc_reads d
}.

(** *** The initialisers of the tables leave the line alone *)

Section still.
Context {D : Type} `{Board D}.

Definition dev_still {A} (op : M D A) : Prop := forall d a d', op d = Done a d' -> uart_of d' = uart_of d.
Definition tab_still {A} (op : M (tables D) A) : Prop := forall t a t', op t = Done a t' -> uart_of (tdev t') = uart_of (tdev t).

Lemma dev_still_ret {A} (a : A) : dev_still (retM a).
Proof. by intros d x d' [= _ <-]. Qed.
Lemma dev_still_bind {A B} (m : M D A) (f : A -> M D B) : dev_still m -> (forall a, dev_still (f a)) -> dev_still (bindM m f).
Proof. intros Hm Hf d b d' E. apply bindM_inv in E as (a & d1 & E1 & E2). rewrite (Hf _ _ _ _ E2). by eapply Hm. Qed.
Lemma dev_still_out port v : (u16 port <? COM1) || (COM1 + 8 <=? u16 port) = true -> dev_still (outb port v).
Proof. intros Hp d a d' [= _ <-]. apply line_out. apply orb_true_iff in Hp. lia. Qed.
Lemma dev_still_cmos reg : dev_still (cmos_read reg).
Proof.
  apply dev_still_bind; [by apply dev_still_out|]. intros _ d v d' E. unfold inb in E. change (u16 RTC_READ_PORT) with RTC_READ_PORT in E.
  pose proof (line_in d) as Hl. destruct (in8 RTC_READ_PORT d) as [x d1]. by injection E as _ <-.
Qed.
Lemma dev_still_wait fuel i : dev_still (Timer.wait_update cmos_read fuel i).
Proof.
  revert i. induction fuel as [|fuel IH]; intros i; cbn [Timer.wait_update]; (apply dev_still_bind; [apply dev_still_cmos|]); intros a;
    destruct (negb _ && _); [by intros d x d' [=]|apply dev_still_ret|apply IH|apply dev_still_ret].
Qed.
Lemma dev_still_clock c : dev_still (Timer.start_clock cmos_read c).
Proof.
  unfold Timer.start_clock, Timer.get_seconds_startup, Timer.get_year_startup.
  apply dev_still_bind; [|intros; apply dev_still_ret]. apply dev_still_bind; [apply dev_still_wait|]. intros _.
  repeat (apply dev_still_bind; [first [apply dev_still_cmos|repeat (apply dev_still_bind; [apply dev_still_cmos|]; intros ?); apply dev_still_ret]|]; intros ?).
  apply dev_still_ret.
Qed.

Lemma tab_still_bind {A B} (m : M (tables D) A) (f : A -> M (tables D) B) : tab_still m -> (forall a, tab_still (f a)) -> tab_still (bindM m f).
Proof. intros Hm Hf t b t' E. apply bindM_inv in E as (a & t1 & E1 & E2). rewrite (Hf _ _ _ _ E2). by eapply Hm. Qed.
Lemma tab_still_mod f : (forall t, tdev (f t) = tdev t) -> tab_still (modM f).
Proof. intros Hf t a t' [= _ <-]. by rewrite Hf. Qed.
Lemma tab_still_io {A} (op : M D A) : dev_still op -> tab_still (io op).
Proof. intros Ho t a t' E. unfold io, onM in E. destruct (op (tdev t)) as [x d|] eqn:Eo; [|done]. injection E as _ <-. exact (Ho _ _ _ Eo). Qed.
Lemma tab_still_gate addr n s type : tab_still (idt_set_gate_type addr n s type).
Proof.
  intros t a t' E. unfold idt_set_gate_type, bindM, getM in E. destruct (_ && _); [|done]. by injection E as _ <-.
Qed.
Lemma tab_still_for n i (body : Z -> M (tables D) unit) : (forall j, tab_still (body j)) -> tab_still (forM n i body).
Proof. intros Hb. revert i. induction n as [|n IH]; intros i; [by intros t a t' [= _ <-]|]. by apply tab_still_bind. Qed.

Lemma idt_init_still addr a : tab_still (idt_init addr a).
Proof.
  unfold idt_init. apply tab_still_bind; [apply tab_still_for; intros; apply tab_still_gate|]. intros _.
  apply tab_still_bind; [apply tab_still_gate|]. intros _.
  do 2 (apply tab_still_bind; [by apply tab_still_mod|]; intros _).
  do 9 (apply tab_still_bind; [by apply tab_still_io, dev_still_out|]; intros _). by apply tab_still_io, dev_still_out.
Qed.
Lemma timer_init_still addr : tab_still (timer_init addr).
Proof.
  unfold timer_init. apply tab_still_bind; [apply tab_still_gate|]. intros _.
  do 3 (apply tab_still_bind; [by apply tab_still_io, dev_still_out|]; intros _).
  apply tab_still_bind; [by intros t x t' [= _ <-]|]. intros t.
  apply tab_still_bind; [apply tab_still_io, dev_still_clock|]. intros c.
  apply tab_still_bind; [by apply tab_still_mod|]. intros _. by apply tab_still_mod.
Qed.
Lemma exceptions_init_still addr : tab_still (exceptions_init addr).
Proof. apply tab_still_for. intros. apply tab_still_gate. Qed.
Lemma syscall_init_still addr : tab_still (syscall_init addr).
Proof. apply tab_still_gate. Qed.
End still.

(** ** The log *)

Section log.
Context {D : Type} `{HB : Board D} (font8x16 : list Z) (Hfont : length font8x16 = 4096%nat).
Local Abbreviation mach := (machine D).
Implicit Types (k : console D) (m : mach) (ps : list piece).

(** The console [k] after the pieces [ps]: on the line behind [u0], in the log
    and, once the screen is up, on the terminal that was [t0]; the other chips
    are at [c], and the clock was read [r] times. *)
Record logged (g : bool) (u0 : list Z) (t0 : term) (c : chips) (r : nat) ps k : Prop := mkLogged {
  l_ok : con_ok font8x16 k; l_good : good_to_fb k = g;
  l_sent : sent (uart_of (dev k)) = u0 ++ (ch <$> cells ps);
  l_log : g = false -> log k = take LOG_CELLS (cells ps);
  l_scr : g = true -> abs (scr k) = t_cells (cells ps) t0;
  l_chips : chips_of (dev k) = c; l_rtc : rtc_reads (dev k) = r
}.

Lemma kprintf_logs g u0 t0 c r ps qs k : Forall piece_ok qs -> logged g u0 t0 c r ps k ->
  wp (kprintf font8x16 (render qs ++ [0])) (fun _ => logged g u0 t0 c r (ps ++ qs)) k.
Proof using HB Hfont.
  intros Hq [K G S L T Ec Er]. destruct (wp_inv _ _ _ (kprintf_prints font8x16 Hfont qs [] k Hq K)) as ([] & k' & E & [K' L' G' S' B']).
  unfold wp. rewrite E.
  assert (chips_of (dev k') = c /\ rtc_reads (dev k') = r) as [Ec' Er'].
  { refine (dev_keeps_kprintf font8x16 (fun d => chips_of d = c /\ rtc_reads d = r) _ _ _ k tt k' E (conj Ec Er)).
    - intros d [Hc Hr]. by destruct (chips_line d) as [-> ->].
    - intros d v Hv [Hc Hr]. rewrite chips_out, rtc_select by done. by rewrite Hc, Hr; destruct c. }
  split; [done|congruence| | | |done|done].
  - rewrite L'. cbn [sent transmit]. by rewrite S, cells_app, fmap_app, app_assoc.
  - intros Hg. rewrite B', (L Hg), cells_app. apply take_take_app.
  - intros Hg. rewrite G, Hg in S'. rewrite S', (T Hg), cells_app. unfold t_cells. by rewrite fold_left_app.
Qed.

Lemma kprintfs_logs g u0 t0 c r ms ps k : Forall (Forall piece_ok) ms -> logged g u0 t0 c r ps k ->
  wp (kprintfs font8x16 ms) (fun _ => logged g u0 t0 c r (ps ++ concat ms)) k.
Proof using HB Hfont.
  intros Hms. revert ps k. induction Hms as [|q ms Hq Hms IH]; intros ps k Hl; cbn [kprintfs concat].
  - apply wp_ret. by rewrite app_nil_r.
  - wp_step. eapply wp_mono; [by apply kprintf_logs|]. cbv beta. intros _ k1 H1.
    eapply wp_mono; [by apply IH|]. cbv beta. intros _ k2. by rewrite app_assoc.
Qed.

Lemma wp_prints g u0 t0 c r ms ps m (Q : unit -> mach -> Prop) : Forall (Forall piece_ok) ms -> logged g u0 t0 c r ps (mcon m) ->
  (forall k, logged g u0 t0 c r (ps ++ concat ms) k -> Q tt (set_mcon k m)) -> wp (prints font8x16 ms) Q m.
Proof using HB Hfont.
  intros Hms Hl HQ. apply wp_onM. eapply wp_mono; [by apply kprintfs_logs|]. cbv beta. intros [] k Hk. by apply HQ.
Qed.
Lemma wp_print g u0 t0 c r qs ps m (Q : unit -> mach -> Prop) : Forall piece_ok qs -> logged g u0 t0 c r ps (mcon m) ->
  (forall k, logged g u0 t0 c r (ps ++ qs) k -> Q tt (set_mcon k m)) -> wp (print font8x16 qs) Q m.
Proof using HB Hfont.
  intros Hms Hl HQ. apply wp_onM. eapply wp_mono; [by apply kprintf_logs|]. cbv beta. intros [] k Hk. by apply HQ.
Qed.

(** Code that ends in the final loop. *)
Definition ends {A} (op : M mach A) (Q : mach -> Prop) m : Prop := match op m with Halted Stopped m' => Q m' | _ => False end.

Lemma ends_bind {A B} (op : M mach A) (f : A -> M mach B) Q m : wp op (fun a => ends (f a) Q) m -> ends (bindM op f) Q m.
Proof. unfold ends, wp, bindM. by destruct (op m). Qed.

Lemma wp_stage g u0 t0 c r ps text init m Q : Forall piece_ok (line text) -> logged g u0 t0 c r ps (mcon m) ->
  (forall k, logged g u0 t0 c r (ps ++ line text) k -> wp init (fun _ m1 => exists g1 t1 c1 r1 ps1,
    logged g1 u0 t1 c1 r1 ps1 (mcon m1) /\ forall k1, logged g1 u0 t1 c1 r1 (ps1 ++ ok_line) k1 -> Q tt (set_mcon k1 m1)) (set_mcon k m)) ->
  wp (stage font8x16 text init) Q m.
Proof using HB Hfont.
  intros Ht Hl Hi. unfold stage. wp_step. apply (wp_print g u0 t0 c r _ ps); [done|done|]. intros k Hk. wp_step.
  eapply wp_mono; [by apply Hi|]. cbv beta. intros _ m1 (g1 & t1 & c1 & r1 & ps1 & H1 & HQ).
  apply (wp_print g1 u0 t1 c1 r1 _ ps1); [|done|done]. pieces.
Qed.

(** A step on the tables: the line is as before. *)
Lemma wp_tab (op : M (tables D) unit) (Q : unit -> mach -> Prop) g u0 t0 c r ps m (R : tables D -> Prop) : logged g u0 t0 c r ps (mcon m) -> tab_still op ->
  wp op (fun _ => R) (full_tab m) ->
  (forall t, R t -> logged g u0 t0 (chips_of (tdev t)) (rtc_reads (tdev t)) ps (mcon (set_full_tab t m)) -> Q tt (set_full_tab t m)) ->
  wp (on_tab op) Q m.
Proof.
  intros [K G S L T Ec Er] Hst Hw HQ. apply wp_inv in Hw as ([] & t & E & HP). unfold on_tab, wp, onM. rewrite E. apply HQ; [done|].
  apply Hst in E. change (tdev (full_tab m)) with (dev (mcon m)) in E. split; cbn [mcon set_full_tab]; [|done|by rewrite <- S, <- E|done|done|done|done].
  destruct K. split; cbn; [by rewrite E|done..].
Qed.
End log.

(** ** The partitions *)

(** Reading changes nothing, and depends on the drives only. *)
Definition same_drives (s s' : fstate) : Prop := sectors s' = sectors s /\ master_drive s' = master_drive s /\ slave_drive s' = slave_drive s.

Lemma ata_read48_same d lba n old s s' b s1 : same_drives s s' -> d = ATA_MASTER \/ d = ATA_SLAVE ->
  Disk.ata_read48 d lba n old s' = Done b s1 -> Disk.ata_read48 d lba n old s = Done b s /\ s1 = s'.
Proof.
  intros (Es & Em & Esl) Hd. unfold Disk.ata_read48, ata_check, bindM, getM, retM, panicM, haltM, read_sectors. cbv beta.
  destruct Hd as [-> | ->]; cbn [Z.eqb Pos.eqb ATA_MASTER ATA_SLAVE]; rewrite ?Em, ?Esl; (destruct (_ <? _); [done|]);
    intros [= <- <-]; by rewrite Es.
Qed.
Lemma ata_read48_part_same d base len lba n old s s' b s1 : same_drives s s' -> d = ATA_MASTER \/ d = ATA_SLAVE ->
  ata_read48_part d base len lba n old s' = Done b s1 -> ata_read48_part d base len lba n old s = Done b s /\ s1 = s'.
Proof. intros Hs Hd. unfold ata_read48_part. destruct (_ <? _); [done|]. by apply ata_read48_same. Qed.

(** Whenever [fill_partition_entry] returns, its messages are well-formed. *)
Lemma fill_messages d part s ok s' : d = ATA_MASTER \/ d = ATA_SLAVE -> Disk.fill_partition_entry d part s = Done ok s' ->
  exists ms, partition_messages d part s = Done ms s /\ Forall (Forall piece_ok) ms.
Proof.
  intros Hd E. unfold Disk.fill_partition_entry in E. unfold partition_messages. unfold bindM at 1, getM at 1 in E. unfold bindM at 1, getM at 1.
  assert (negb ((d =? ATA_MASTER) || (d =? ATA_SLAVE)) = false) as Hk by (by destruct Hd as [-> | ->]). rewrite Hk in E. clear Hk.
  set (dr := if d =? ATA_MASTER then master_drive s else slave_drive s) in *.
  apply bindM_inv in E as (mbr & s1 & E1 & E).
  assert (read_mbr d dr s = Done mbr s /\ s1 = s) as [Er ->].
  { unfold read_mbr in *. destruct (negb _); [by injection E1 as <- <-|]. apply bindM_inv in E1 as (b & s2 & E2 & E3). injection E3 as <- <-.
    destruct (ata_read48_same d 0 1 [] s s b s2) as [E4 ->]; [done|done|done|]. split; [|done]. by rewrite (bindM_Done _ _ _ _ _ E4). }
  rewrite (bindM_Done _ _ _ _ _ Er). clear E1 Er. destruct mbr as [mbr|]; [|by exists []].
  destruct (negb (_ && _)).
  { eexists. split; [reflexivity|]. destruct (d =? ATA_MASTER); pieces. }
  set (pe := DRIVE_UNUSED_SIZE + _) in *. cbv zeta in *. destruct ((ld8 mbr (pe + 4) =? 5) || _).
  { eexists. split; [reflexivity|]. destruct (d =? ATA_MASTER); pieces. }
  destruct (negb (ld8 mbr (pe + 4) =? 131)); [by exists []|].
  apply bindM_inv in E as (f & s1 & Ef & E). apply bindM_inv in E as ([] & s2 & Ep & E).
  assert (get_fs part s = Done f s /\ s1 = s) as [Ef' ->].
  { unfold get_fs in *. destruct (fs_entries s !! Z.to_nat part); [|done]. by injection Ef as <- <-. }
  destruct ((ld32 mbr (pe + 12) =? 0) || _).
  { eexists. split; [reflexivity|]. destruct (d =? ATA_MASTER); pieces. }
  rewrite (bindM_Done _ _ _ _ _ Ef'). apply bindM_inv in E as (b & s3 & Eb & _).
  apply (ata_read48_part_same d _ _ _ _ _ s) in Eb as [Eb _]; [|by injection Ep as <-|done]. rewrite (bindM_Done _ _ _ _ _ Eb).
  destruct (negb (_ && _)).
  { eexists. split; [reflexivity|]. destruct (d =? ATA_MASTER); pieces. }
  destruct (negb (Z.land (sb_req_features_present b) _ =? 0)).
  { eexists. split; [reflexivity|]. pieces. }
  destruct (negb (Z.land (sb_features_unsupport_ro b) _ =? 0)); [|by exists []]. eexists. split; [reflexivity|]. pieces.
Qed.

Definition part_drive (part : Z) : Z := if part / PARTS_PER_DRIVE =? 0 then ATA_MASTER else ATA_SLAVE.

(** The messages on [n] partitions from [i] on: until one ends the loop. *)
Fixpoint block_messages (n : nat) (i : Z) (s : fstate) : list (list piece) :=
  match n with
  | O => []
  | S n =>
      match partition_messages (part_drive i) i s, Disk.fill_partition_entry (part_drive i) i s with
      | Done ms _, Done ok s' => ms ++ if ok then block_messages n (i + 1) s' else []
      | _, _ => []
      end
  end.

Section partitions.
Context {D : Type} `{HB : Board D} (font8x16 : list Z) (Hfont : length font8x16 = 4096%nat).
Implicit Types m : machine D.

Lemma fill_loop g u0 t0 c r n i ps m res fs' : logged font8x16 g u0 t0 c r ps (mcon m) ->
  loopM n i (fun part => let* ok := Disk.fill_partition_entry (part_drive part) part in retM (if ok then None else Some tt)) (mfs m) = Done res fs' ->
  wp (loopM n i (fun part => let* ok := fill_partition_entry font8x16 (part_drive part) part in retM (if ok then None else Some tt)))
    (fun res' m' => res' = res /\ exists k, logged font8x16 g u0 t0 c r (ps ++ concat (block_messages n i (mfs m))) k /\ m' = set_mfs fs' (set_mcon k m)) m.
Proof using HB Hfont.
  revert i ps m. induction n as [|n IH]; intros i ps m Hl E; cbn [loopM block_messages concat] in *.
  - injection E as <- <-. wp_step. split; [done|]. exists (mcon m). rewrite app_nil_r. by destruct m.
  - apply bindM_inv in E as (x & s1 & E1 & E). apply bindM_inv in E1 as (ok & s2 & E1 & E2). injection E2 as <- <-.
    destruct (fill_messages _ _ _ _ _ (ltac:(unfold part_drive; destruct (_ =? 0); auto) : part_drive i = ATA_MASTER \/ part_drive i = ATA_SLAVE) E1) as (ms & Em & Hms).
    rewrite Em, E1, concat_app, app_assoc.
    wp_step. wp_step. unfold fill_partition_entry. wp_step. apply wp_onM. unfold wp at 1. rewrite Em.
    wp_step. apply (wp_prints font8x16 Hfont g u0 t0 c r _ ps); [done|done|]. intros k Hk.
    apply wp_onM. unfold wp at 1. cbn [mfs set_mcon set_mfs]. rewrite E1. wp_step. destruct ok; cycle 1.
    + injection E as <- <-. wp_step. split; [done|]. exists k. by rewrite app_nil_r.
    + eapply wp_mono; [apply (IH (i + 1) (ps ++ concat ms)); [done|exact E]|]. cbv beta. intros res' m' (-> & k' & Hk' & ->). split; [done|].
      by exists k'.
Qed.

Lemma block_init_logs g u0 t0 c r ps m fs' : logged font8x16 g u0 t0 c r ps (mcon m) -> Disk.block_init (mfs m) = Done tt fs' ->
  wp (block_init font8x16) (fun _ m' => exists k, logged font8x16 g u0 t0 c r (ps ++ concat (block_messages (Z.to_nat MAX_MOUNTS) 0 (mfs m))) k /\ m' = set_mfs fs' (set_mcon k m)) m.
Proof using HB Hfont.
  intros Hl E. unfold Disk.block_init in E. apply bindM_inv in E as (res & s1 & E1 & E2). unfold block_init. wp_step.
  eapply wp_mono; [by eapply fill_loop|]. cbv beta. intros res' m1 (_ & k & Hk & ->).
  apply wp_onM. unfold wp. cbn [mfs set_mfs]. rewrite E2. by exists k.
Qed.
End partitions.

(** ** The whole sequence *)

Definition boot_memory (e : env) (s : kstate) : option (fb * kstate) :=
  s ← returned (init_frames e s);
  s ← returned (init_paging e s);
  s ← returned (init_heap s);
  '(f, s) ← init_screen e s;
  s ← returned (Scheduler.scheduler_init s);
  Some (f, Scheduler.tss_set_esp (u32 (e_stack_top e)) s).

(** What the mount stage prints, with the file system at [fs] before the block
    driver runs. *)
Definition mount_log (fs : fstate) : list (list piece) :=
  match (Disk.block_init ;;; mount_messages) fs with Done ms _ => ms | Halted _ _ => [] end.

(** The log: what is printed before the screen is up, and after, with the file
    system at [fs] once the drives are known and the processes at [s] before the
    program is loaded. *)
Definition early_log : list piece :=
  line "Initializing the serial driver...           " ++ ok_line ++ line "Initializing the IDT...                     " ++ ok_line ++
  line "Initializing the timer driver...            " ++ ok_line ++ line "Initializing the exceptions handler...      " ++ ok_line ++
  line "Initializing the frame allocator...         " ++ ok_line ++ line "Initializing the paging controller...       " ++ ok_line ++
  line "Initializing the heap...                    " ++ ok_line ++ line "Initializing the keyboard...                " ++ ok_line.
Definition late_log (sl : identity) (fs : fstate) (s : kstate) : list piece :=
  line "Initializing the scheduler...               " ++ ok_line ++
  line "Initializing the ATA driver...              " ++ concat (ata_messages sl) ++ ok_line ++
  line "Initializing the block driver...            " ++ concat (block_messages (Z.to_nat MAX_MOUNTS) 0 fs) ++ ok_line ++
  line "Initializing the mount handler...           " ++ concat (mount_log fs) ++ ok_line ++ line "Initializing the GDT and TSS controller...  " ++ ok_line ++
  line "Initializing the syscall controller...      " ++ ok_line ++
  line "Initializing the userland...                " ++ concat (userland_messages s).

(** The state between two stages. *)
Ltac next_stage L := cbn [set_mcon set_mproc set_mfs set_full_tab mcon mtab mseg mproc mkbd mfs] in L |- *.

Section sequence.
Context {D : Type} `{HB : Board D} (font8x16 : list Z) (Hfont : length font8x16 = 4096%nat) (e : env).
Local Abbreviation mach := (machine D).
Implicit Types (k : console D) (m : mach) (ps : list piece).

Lemma serial_init_chips (d d' : D) : serial_init d = Done tt d' -> chips_of d' = chips_of d /\ rtc_reads d' = rtc_reads d.
Proof using.
  intros E. unfold serial_init, bindM, outb, modM in E. injection E as <-. rewrite !chips_out, !rtc_select by done.
  split; [|done]. by destruct (chips_of d).
Qed.

Lemma serial_logs g u0 t0 c r ps k : logged font8x16 g u0 t0 c r ps k -> wp (on_dev serial_init) (fun _ => logged font8x16 g u0 t0 c r ps) k.
Proof using.
  intros [K G S L T Ec Er]. destruct (wp_inv _ _ _ (serial_init_spec (dev k) (c_line _ _ K))) as ([] & d & E & Hu).
  unfold on_dev, wp, onM. rewrite E. destruct (serial_init_chips _ _ E) as [Ec' Er'].
  split; cbn [dev Kprintf.set_dev]; [|done|by rewrite Hu|done|done|congruence|congruence].
  destruct K. split; cbn; [by rewrite Hu|done..].
Qed.

Lemma gates_tabs addr (t : tables D) (d : D) f : gates addr t f -> gates addr (tabs d t) f.
Proof. done. Qed.

(** The tables after the exceptions are installed. *)
Definition tables_up (t : tables unit) (c : chips) : Prop :=
  (forall d : D, gates (e_stub e) (tabs d t) (fun v => if v <? 32 then (exc_stub v, INTERRUPT_GATE_TYPE)
    else upd (upd (fun _ => (default_isr_stub, INTERRUPT_GATE_TYPE)) 33 (irq1_stub, INTERRUPT_GATE_TYPE)) 32 (irq0_stub, INTERRUPT_GATE_TYPE) v)) /\
  idtr t = Some (mkIdtPtr 2047 (u32 (e_idt e))) /\ pics_programmed c /\ reload (pit0 c) = PIT_HZ / TARGET_HZ /\ iflag t = true.

Lemma early_tables u0 t0 c r m (rest : M mach unit) Q : logged font8x16 false u0 t0 c r [] (mcon m) -> length (idt (mtab m)) = 256%nat ->
  (forall k t c' r' n, logged font8x16 false u0 t0 c' r' (line "Initializing the serial driver...           " ++ ok_line ++ line "Initializing the IDT...                     " ++ ok_line ++
     line "Initializing the timer driver...            " ++ ok_line ++ line "Initializing the exceptions handler...      " ++ ok_line) k ->
   tables_up t c' -> Timer.start_clock (Timer.rtc_answer rtc_value) (clock (mtab m)) r = Done (clock t) n ->
   ends rest Q (mkMachine k t (mseg m) (mproc m) (mkbd m) (mfs m))) ->
  ends (stage font8x16 "Initializing the serial driver...           " (on_mcon (on_dev serial_init)) ;;;
    stage font8x16 "Initializing the IDT...                     " (on_tab (idt_init (e_stub e) (e_idt e))) ;;;
    stage font8x16 "Initializing the timer driver...            " (on_tab (timer_init (e_stub e))) ;;;
    stage font8x16 "Initializing the exceptions handler...      " (on_tab (exceptions_init (e_stub e))) ;;; rest) Q m.
Proof using HB Hfont.
  intros Hl Hidt Hrest. destruct m as [k0 tb sg s kb fs]. cbn [mcon mtab mseg mproc mkbd mfs] in *.
  apply ends_bind, (wp_stage font8x16 Hfont false u0 t0 c r []); [pieces|done|]. intros k1 L1. apply wp_onM. eapply wp_mono; [by eapply serial_logs|].
  cbv beta. intros _ k2 L2. eexists _, _, _, _, _. split; [exact L2|]. intros k3 L3. next_stage L3.
  apply ends_bind. eapply (wp_stage font8x16 Hfont); [pieces|exact L3|]. intros k4 L4.
  eapply (wp_tab font8x16); [exact L4|apply idt_init_still|by apply idt_init_spec|]. intros t1 (G1 & I1 & P1 & T1 & R1 & C1 & F1) L5.
  eexists _, _, _, _, _. split; [exact L5|]. intros k5 L6. next_stage L6.
  apply ends_bind. eapply (wp_stage font8x16 Hfont); [pieces|exact L6|]. intros k6 L7.
  eapply (wp_tab font8x16); [exact L7|apply timer_init_still|by apply timer_init_spec|]. intros t2 (G2 & I2 & F2 & P2 & P2' & T2 & n & C2) L8.
  eexists _, _, _, _, _. split; [exact L8|]. intros k7 L9. next_stage L9.
  apply ends_bind. eapply (wp_stage font8x16 Hfont); [pieces|exact L9|]. intros k8 L10.
  eapply (wp_tab font8x16); [exact L10|apply exceptions_init_still|by apply exceptions_init_spec|]. intros t3 (G3 & (D3 & _ & I3 & C3 & F3)) L11.
  eexists _, _, _, _, _. split; [exact L11|]. intros k9 L12. next_stage L12.
  rewrite <- !app_assoc, app_nil_l in L12. apply (Hrest _ _ _ _ n L12).
  - assert (chips_of (tdev t3) = chips_of (tdev t2)) as E3 by (rewrite D3; apply L10).
    split; [intros d; exact G3|]. split; [transitivity (idtr t2); [exact I3|]; transitivity (idtr t1); [exact I2|exact I1]|].
    rewrite E3. split; [|split; [exact T2|transitivity (iflag t2); [exact F3|exact F2]]].
    apply (pics_same (chips_of (tdev t1))); [rewrite P2|rewrite P2'|done]; f_equal; apply L7.
  - assert (clock t3 = clock t2) as E3 by exact C3. assert (clock t1 = clock tb) as E1 by exact C1.
    assert (Timer.start_clock (Timer.rtc_answer rtc_value) (clock t1) (rtc_reads (dev k6)) = Done (clock t2) n) as E2 by exact C2.
    assert (rtc_reads (dev k6) = r) as Er by (rewrite (l_rtc _ _ _ _ _ _ _ _ L7); etransitivity; [exact R1|apply L4]).
    rewrite <- E1, <- Er, E2. f_equal. symmetry. exact E3.
Qed.

Lemma wp_mproc (f : kstate -> run frame_bitmap kstate) s s' (Q : unit -> mach -> Prop) m : mproc m = s -> returned (f s) = Some s' -> Q tt (set_mproc s' m) -> wp (on_mproc f) Q m.
Proof using. intros <- E HQ. unfold on_mproc. wp_step. wp_step. destruct (f (mproc m)); [injection E as ->|done|done]. by wp_step. Qed.

Lemma early_memory u0 t0 c r ps m s1 s2 s3 (rest : M mach unit) Q : logged font8x16 false u0 t0 c r ps (mcon m) ->
  (Z.land (FrameAlloc.flags (e_info e)) 64 =? 0) = false -> returned (init_frames e (mproc m)) = Some s1 -> returned (init_paging e s1) = Some s2 -> returned (init_heap s2) = Some s3 ->
  (forall k, logged font8x16 false u0 t0 c r (ps ++ line "Initializing the frame allocator...         " ++ ok_line ++ line "Initializing the paging controller...       " ++ ok_line ++
     line "Initializing the heap...                    " ++ ok_line ++ line "Initializing the keyboard...                " ++ ok_line) k ->
   ends rest Q (mkMachine k (mtab m) (mseg m) s3 (Keyboard.keyboard_init (mkbd m)) (mfs m))) ->
  ends (stage font8x16 "Initializing the frame allocator...         " (frame_alloc_init font8x16 e) ;;;
    stage font8x16 "Initializing the paging controller...       " (paging_init font8x16 e) ;;;
    stage font8x16 "Initializing the heap...                    " heap_init ;;;
    stage font8x16 "Initializing the keyboard...                " keyboard_init ;;; rest) Q m.
Proof using HB Hfont.
  intros Hl Hf E1 E2 E3 Hrest. destruct m as [k0 tb sg s kb fs]. cbn [mcon mtab mseg mproc mkbd mfs] in *.
  assert (forall m, check_map font8x16 e m = Done tt m) as Hmap by (intros m; unfold check_map; change (Z.shiftl 1 6) with 64; by rewrite Hf).
  apply ends_bind. eapply (wp_stage font8x16 Hfont); [pieces|exact Hl|]. intros k1 L1. unfold frame_alloc_init. wp_step. unfold wp at 1. rewrite Hmap.
  apply (wp_mproc _ s s1); [done|done|]. eexists _, _, _, _, _. split; [exact L1|]. intros k2 L2. next_stage L2.
  apply ends_bind. eapply (wp_stage font8x16 Hfont); [pieces|exact L2|]. intros k3 L3. unfold paging_init. wp_step. unfold wp at 1. rewrite Hmap.
  apply (wp_mproc _ s1 s2); [done|done|]. eexists _, _, _, _, _. split; [exact L3|]. intros k4 L4. next_stage L4.
  apply ends_bind. eapply (wp_stage font8x16 Hfont); [pieces|exact L4|]. intros k5 L5.
  apply (wp_mproc _ s2 s3); [done|done|]. eexists _, _, _, _, _. split; [exact L5|]. intros k6 L6. next_stage L6.
  apply ends_bind. eapply (wp_stage font8x16 Hfont); [pieces|exact L6|]. intros k7 L7. unfold keyboard_init. wp_step.
  eexists _, _, _, _, _. split; [exact L7|]. intros k8 L8. cbn [set_mkbd mkbd] in L8 |- *. next_stage L8.
  rewrite <- !app_assoc in L8. by apply Hrest.
Qed.

Lemma screen_up u0 t0 c r ps m f s' (rest : M mach unit) Q : logged font8x16 false u0 t0 c r ps (mcon m) ->
  (length (cells ps) <= LOG_CELLS)%nat -> mode_ok (e_fb e) ->
  Z.of_nat (length (e_shadow e)) = fi_height (e_fb e) / 16 * (fi_width (e_fb e) / 8) ->
  Z.of_nat (length (e_history e)) = HISTORY_LINES * (fi_width (e_fb e) / 8) -> init_screen e (mproc m) = Some (f, s') ->
  (forall k, logged font8x16 true u0 (blank_term (fi_height (e_fb e) / 16) (fi_width (e_fb e) / 8)) c r ps k -> ends rest Q (set_mproc s' (set_mcon k m))) ->
  ends (fb_init font8x16 e ;;; on_mcon (kprintf_init font8x16) ;;; rest) Q m.
Proof using HB Hfont.
  intros [K G S L T Ec Er] Hlen Hm Hsh Hhi Hi Hrest. unfold init_screen in Hi.
  destruct (Screen.fb_init (e_fb e) (e_shadow e) (e_history e) (e_pixels e) (kpages (mproc m))) as [[f' p]|] eqn:Ef; [|done].
  cbn [mbind option_bind] in Hi. destruct (returned (fb_arrays f' (set_kpages p (mproc m)))) as [s1|] eqn:Ea; [|done]. injection Hi as -> ->.
  destruct (fb_init_spec font8x16 Hfont _ _ _ _ _ _ _ Ef Hm Hsh Hhi) as (Hw & Hd & Habs).
  apply ends_bind. unfold fb_init. wp_step. wp_step. rewrite Ef. wp_step. wp_step. wp_step.
  apply (wp_mproc _ (set_kpages p (mproc m)) s'); [done|done|]. apply wp_onM. wp_step. apply ends_bind, wp_onM.
  assert (con_ok font8x16 (set_scr f (mcon m))) as K' by (destruct K; split; [done..|]; cbn; congruence).
  eapply wp_mono; [by apply (kprintf_init_spec font8x16 Hfont (set_scr f (mcon m)))|]. cbv beta. intros _ k (K1 & D1 & G1 & L1 & A1).
  apply Hrest. cbn [set_scr dev scr] in D1, A1. split; [done|done|by rewrite D1|done| |by rewrite D1|by rewrite D1].
  intros _. rewrite A1, Habs. f_equal. change (log (set_scr f (mcon m))) with (log (mcon m)). rewrite L by done. by apply take_ge.
Qed.

Lemma ata_messages_ok sl : Forall (Forall piece_ok) (ata_messages sl).
Proof. destruct sl as [|ws|]; cbn [ata_messages]; [pieces| |pieces]. destruct (identify_supports ws); [done|pieces]. Qed.
Lemma userland_messages_ok s : Forall (Forall piece_ok) (userland_messages s).
Proof.
  unfold userland_messages. destruct (u_alloc_frame s) as [a s1]. destruct (u_alloc_frame s1) as [b s2].
  destruct (a =? 0); [pieces|]. destruct (b =? 0); [pieces|]. destruct (alloc_misc _ _ _).1; pieces.
Qed.

Lemma ata_init_logs u0 t0 c r ps m fs1 : logged font8x16 true u0 t0 c r ps (mcon m) ->
  Disk.ata_init (e_master e) (slave_words (e_slave e)) (mfs m) = Done tt fs1 ->
  wp (ata_init font8x16 e) (fun _ m' => exists k, logged font8x16 true u0 t0 c r (ps ++ concat (ata_messages (e_slave e))) k /\ m' = set_mfs fs1 (set_mcon k m)) m.
Proof using HB Hfont.
  intros Hl E. pose proof (ata_messages_ok (e_slave e)) as Hok. unfold ata_init. destruct (e_slave e) as [|ws|]; cbn [slave_words] in E; wp_step.
  2: { apply wp_onM. unfold wp at 1. rewrite E. eapply (wp_prints font8x16 Hfont); [done|exact Hl|]. intros k Hk. by exists k. }
  all: eapply (wp_prints font8x16 Hfont); [done|exact Hl|]; intros k Hk; apply wp_onM; unfold wp; cbn [mfs set_mcon]; rewrite E; by exists k.
Qed.

(** Whenever [mount_init] returns, so do its messages. *)
Definition root_messages (s : fstate) : list (list piece) := match mount_messages s with Done ms _ => ms | Halted _ _ => [] end.

Lemma mount_log_after fs fs' : Disk.block_init fs = Done tt fs' -> mount_log fs = root_messages fs'.
Proof using. intros E. unfold mount_log, root_messages. by rewrite (bindM_Done _ _ _ _ _ E). Qed.

Lemma mount_messages_ok s s' : Mount.mount_init s = Done tt s' ->
  mount_messages s = Done (root_messages s) s /\ Forall (Forall piece_ok) (root_messages s).
Proof using.
  unfold root_messages, Mount.mount_init, mark_fs_state, mount_messages, bindM, getM, modM, get_fs. cbn [fs_entries set_root_slot].
  destruct (fs_entries s !! Z.to_nat (root_fs s)) as [f|]; [|done]. unfold guardM. destruct (superblk_null f); [done|]. intros _.
  cbn [negb]. unfold retM. destruct (_ =? 0); (split; [done|]); pieces.
Qed.

Lemma mount_init_logs g u0 t0 c r ps m fs' : logged font8x16 g u0 t0 c r ps (mcon m) -> Mount.mount_init (mfs m) = Done tt fs' ->
  wp (mount_init font8x16) (fun _ m' => exists k, logged font8x16 g u0 t0 c r (ps ++ concat (root_messages (mfs m))) k /\ m' = set_mfs fs' (set_mcon k m)) m.
Proof using HB Hfont.
  intros Hl E. destruct (mount_messages_ok _ _ E) as [Em Hok]. unfold mount_init. wp_step. apply wp_onM. unfold wp at 1. rewrite Em.
  wp_step. eapply (wp_prints font8x16 Hfont); [exact Hok|by destruct m|]. intros k Hk. apply wp_onM. unfold wp. cbn [mfs set_mcon set_mfs].
  rewrite E. by exists k.
Qed.

(** The tables at the end. *)
Definition tables_final (t : tables unit) (c : chips) : Prop :=
  (forall d : D, gates (e_stub e) (tabs d t) boot_gates) /\
  idtr t = Some (mkIdtPtr 2047 (u32 (e_idt e))) /\ pics_programmed c /\ reload (pit0 c) = PIT_HZ / TARGET_HZ /\ iflag t = true.

Lemma late_stages u0 t0 c r ps m s1 fs1 fs' (rest : M mach unit) Q : logged font8x16 true u0 t0 c r ps (mcon m) ->
  returned (Scheduler.scheduler_init (mproc m)) = Some s1 -> Disk.ata_init (e_master e) (slave_words (e_slave e)) (mfs m) = Done tt fs1 ->
  (Disk.block_init ;;; Mount.mount_init) fs1 = Done tt fs' -> tables_up (mtab m) c ->
  (forall k t, logged font8x16 true u0 t0 c r (ps ++ line "Initializing the scheduler...               " ++ ok_line ++
     line "Initializing the ATA driver...              " ++ concat (ata_messages (e_slave e)) ++ ok_line ++
     line "Initializing the block driver...            " ++ concat (block_messages (Z.to_nat MAX_MOUNTS) 0 fs1) ++ ok_line ++
     line "Initializing the mount handler...           " ++ concat (mount_log fs1) ++ ok_line ++ line "Initializing the GDT and TSS controller...  " ++ ok_line ++
     line "Initializing the syscall controller...      " ++ ok_line) k -> tables_final t c -> clock t = clock (mtab m) ->
   ends rest Q (mkMachine k t (Interrupts.tss_init (e_stack_top e) (e_tss e) (Interrupts.tss_set_esp (esp0 s1) (mseg m)))
     (Scheduler.tss_set_esp (u32 (e_stack_top e)) s1) (mkbd m) fs')) ->
  ends (stage font8x16 "Initializing the scheduler...               " scheduler_init ;;;
    stage font8x16 "Initializing the ATA driver...              " (ata_init font8x16 e) ;;;
    stage font8x16 "Initializing the block driver...            " (block_init font8x16) ;;;
    stage font8x16 "Initializing the mount handler...           " (mount_init font8x16) ;;;
    stage font8x16 "Initializing the GDT and TSS controller...  " (tss_init e) ;;;
    stage font8x16 "Initializing the syscall controller...      " (on_tab (syscall_init (e_stub e))) ;;; rest) Q m.
Proof using HB Hfont.
  intros Hl Hs E1 Hd (Hg & Hi & Hp & Ht & Hf) Hrest. destruct m as [k0 tb sg s kb fs]. cbn [mcon mtab mseg mproc mkbd mfs] in *.
  apply bindM_inv in Hd as ([] & fs2 & E2 & E3).
  apply ends_bind. eapply (wp_stage font8x16 Hfont); [pieces|exact Hl|]. intros k1 L1. apply (wp_mproc _ s s1); [done|done|].
  eexists _, _, _, _, _. split; [exact L1|]. intros k2 L2. next_stage L2.
  apply ends_bind. eapply (wp_stage font8x16 Hfont); [pieces|exact L2|]. intros k3 L3. eapply wp_mono; [by eapply ata_init_logs|].
  cbv beta. intros _ m' (k4 & L4 & ->). eexists _, _, _, _, _. split; [exact L4|]. intros k5 L5. next_stage L5.
  apply ends_bind. eapply (wp_stage font8x16 Hfont); [pieces|exact L5|]. intros k6 L6. eapply wp_mono; [by eapply (block_init_logs font8x16 Hfont)|].
  cbv beta. intros _ m' (k7 & L7 & ->). eexists _, _, _, _, _. split; [exact L7|]. intros k8 L8. next_stage L8.
  apply ends_bind. eapply (wp_stage font8x16 Hfont); [pieces|exact L8|]. intros k9 L9.
  eapply wp_mono; [by eapply mount_init_logs|]. cbv beta. intros _ m' (k9' & L9' & ->).
  cbn [mfs set_mfs set_mcon] in L9'. rewrite <- (mount_log_after _ _ E2) in L9'.
  eexists _, _, _, _, _. split; [exact L9'|]. intros k10 L10. next_stage L10.
  apply ends_bind. eapply (wp_stage font8x16 Hfont); [pieces|exact L10|]. intros k11 L11. unfold tss_init. wp_step.
  eexists _, _, _, _, _. split; [exact L11|]. intros k12 L12. unfold full_seg, set_full_seg. next_stage L12.
  apply ends_bind. eapply (wp_stage font8x16 Hfont); [pieces|exact L12|]. intros k13 L13.
  eapply (wp_tab font8x16); [exact L13|apply syscall_init_still|apply (set_gate_gates (e_stub e) 128 syscall_stub 0xEE _ _ (Hg (dev k13))); lia|].
  intros t (G & (Dt & _ & It & Ct & Ft)) L14. assert (tdev t = dev k13) as Dt' by exact Dt.
  rewrite Dt' in L14. rewrite (l_chips _ _ _ _ _ _ _ _ L13), (l_rtc _ _ _ _ _ _ _ _ L13) in L14.
  eexists _, _, _, _, _. split; [exact L14|]. intros k15 L15. next_stage L15.
  rewrite <- !app_assoc in L15. apply (Hrest _ _ L15); [|exact Ct].
  split; [intros d; exact G|]. split; [transitivity (idtr tb); [exact It|exact Hi]|]. do 2 (split; [done|]). transitivity (iflag tb); [exact Ft|exact Hf].
Qed.
End sequence.

(** ** The boot *)

(** A machine that boots: the line and the log are as after reset, the tables
    have their size, the boot loader gave a map and a mode of 32 bits per pixel
    that the arrays of the console fit, memory suffices ([s1] is what the
    processes are before the program is loaded, [s'] after; no page was refused by
    [map_page]), and the drives ([fs1] once they are known) carry a root file
    system, cleanly unmounted or not. *)
Record bootable {D} `{Board D} (font8x16 : list Z) (e : env) (m : machine D) (f : fb) (s1 s' : kstate) (fs1 fs' : fstate) : Prop := mkBootable {
  b_con : con_ok font8x16 (mcon m); b_down : good_to_fb (mcon m) = false; b_log : log (mcon m) = [];
  b_idt : length (idt (mtab m)) = 256%nat; b_stub s : is_u32 (e_stub e s); b_table : is_u32 (e_idt e);
  b_map : (Z.land (FrameAlloc.flags (e_info e)) 64 =? 0) = false; b_mode : mode_ok (e_fb e);
  b_shadow : Z.of_nat (length (e_shadow e)) = fi_height (e_fb e) / 16 * (fi_width (e_fb e) / 8);
  b_history : Z.of_nat (length (e_history e)) = HISTORY_LINES * (fi_width (e_fb e) / 8);
  b_memory : boot_memory e (mproc m) = Some (f, s1); b_user : Scheduler.userland_init (e_prog e) s1 = Ret s';
  b_quiet : complaints (kpages s') = complaints (kpages (mproc m));
  b_drives : Disk.ata_init (e_master e) (slave_words (e_slave e)) (mfs m) = Done tt fs1;
  b_files : (Disk.block_init ;;; Mount.mount_init) fs1 = Done tt fs'
}.

(** C16. The boot: on a machine that boots, [mainInitScript] runs to its final
    loop.  Then the screen shows, from the first line on, the whole log, the lines
    printed before the screen existed included, with every stage answered OK and the
    warnings of the drives, of the partitions and of a root file system that was
    not cleanly unmounted in their place; the same characters
    went out on the serial line.  Interrupts are on and routed, the timer runs at
    its divisor and the clock holds what the chip answered; processes, file
    system, keyboard and segments are what their initialisers make of the initial
    state, in this order and undisturbed by each other. *)
Theorem mainInitScript_boots {D} `{Board D} font8x16 e (m : machine D) f s1 s' fs1 fs' :
  length font8x16 = 4096%nat -> bootable font8x16 e m f s1 s' fs1 fs' ->
  exists m', mainInitScript font8x16 e m = Halted Stopped m' /\
    let xs := cells (early_log ++ late_log (e_slave e) fs1 s1) in
    abs (scr (mcon m')) = t_cells xs (blank_term (fi_height (e_fb e) / 16) (fi_width (e_fb e) / 8)) /\
    displays font8x16 (scr (mcon m')) /\
    sent (uart_of (dev (mcon m'))) = sent (uart_of (dev (mcon m))) ++ (ch <$> xs) /\
    routed (e_stub e) (e_idt e) (full_tab m') /\ reload (pit0 (chips_of (dev (mcon m')))) = PIT_HZ / TARGET_HZ /\ iflag (mtab m') = true /\
    (exists n, Timer.start_clock (Timer.rtc_answer rtc_value) (clock (mtab m)) (rtc_reads (dev (mcon m))) = Done (clock (mtab m')) n) /\
    mproc m' = s' /\ mfs m' = fs' /\ mkbd m' = Keyboard.keyboard_init (mkbd m) /\
    exists esp, mseg m' = Interrupts.tss_init (e_stack_top e) (e_tss e) (Interrupts.tss_set_esp esp (mseg m)).
Proof.
  intros Hfont [K G L Hidt Hstub Htab Hmap Hmode Hsh Hhi Hmem Huser _ Hdr Hfs].
  unfold boot_memory in Hmem. destruct (returned (init_frames e (mproc m))) as [sa|] eqn:Ea; [|done]. cbn [mbind option_bind] in Hmem.
  destruct (returned (init_paging e sa)) as [sb|] eqn:Eb; [|done]. cbn [mbind option_bind] in Hmem.
  destruct (returned (init_heap sb)) as [sh|] eqn:Eh; [|done]. cbn [mbind option_bind] in Hmem.
  destruct (init_screen e sh) as [[f' sc]|] eqn:Ec; [|done]. cbn [mbind option_bind] in Hmem.
  destruct (returned (Scheduler.scheduler_init sc)) as [sd|] eqn:Ed; [|done]. injection Hmem as -> <-.
  set (u0 := sent (uart_of (dev (mcon m)))).
  assert (logged font8x16 false u0 (abs (scr (mcon m))) (chips_of (dev (mcon m))) (rtc_reads (dev (mcon m))) [] (mcon m)) as L0.
  { split; [done|done|by rewrite app_nil_r|done|done|done|done]. }
  match goal with |- exists m', ?c = _ /\ @?Q m' => cut (ends (mainInitScript font8x16 e) Q m) end.
  { unfold ends. destruct (mainInitScript font8x16 e m) as [|[] m']; try done. intros HQ. by exists m'. }
  unfold mainInitScript. eapply (early_tables font8x16 Hfont e); [exact L0|done|]. intros k1 t1 c1 r1 n L1 T1 C1.
  eapply (early_memory font8x16 Hfont e); [exact L1|done|exact Ea|exact Eb|exact Eh|]. cbn [mtab mseg mkbd mfs]. intros k2 L2.
  rewrite <- !app_assoc in L2.
  eapply (screen_up font8x16 Hfont e); [exact L2| |done|done|done|exact Ec|].
  { apply Nat.leb_le. vm_compute. reflexivity. }
  intros k3 L3. eapply (late_stages font8x16 Hfont e); [exact L3|exact Ed|exact Hdr|exact Hfs|exact T1|].
  cbn [mtab mseg mkbd mfs set_mproc set_mcon]. intros k4 t4 L4 (G4 & I4 & P4 & R4 & F4) C4.
  apply ends_bind. eapply (wp_print font8x16 Hfont); [pieces|exact L4|]. intros k5 L5. apply ends_bind. unfold userland_init. wp_step. wp_step. wp_step.
  eapply (wp_prints font8x16 Hfont); [apply userland_messages_ok|exact L5|]. intros k6 L6. cbn [mproc set_mcon] in *.
  eapply wp_mproc; [reflexivity|exact (f_equal returned Huser)|]. unfold ends, haltM. rewrite <- !app_assoc in L6.
  cbn [set_mproc set_mcon mcon mtab mseg mproc mkbd mfs].
  assert (early_log ++ late_log (e_slave e) fs1 (Scheduler.tss_set_esp (u32 (e_stack_top e)) sd) =
    ltac:(match type of L6 with logged _ _ _ _ _ _ ?ps _ => exact ps end)) as -> by (unfold early_log, late_log; by rewrite <- !app_assoc).
  destruct L6 as [K6 G6 S6 _ T6 C6 _]. split; [by apply T6|]. split; [by apply (c_scr _ _ K6)|]. split; [exact S6|].
  split; [|split; [by rewrite C6|split; [done|split; [by exists n; rewrite C4|]]]].
  - apply (boot_gates_routed (e_stub e) (e_idt e)); [done|done|apply G4|exact I4|]. change (pics_programmed (chips_of (dev k6))). by rewrite C6.
  - split; [done|]. split; [done|]. split; [done|]. by eexists.
Qed.

(** ** A machine *)

Module Pc.
Import SlowLine.
Record pc : Type := mkPc { com1 : line; chip : Board.board }.

Definition is_com1 (port : Z) : bool := (COM1 <=? port) && (port <? COM1 + 8).
#[global] Instance pc_ports : Ports pc := {
  in8 p d := if is_com1 p then let (v, l) := in8 p (com1 d) in (v, mkPc l (chip d)) else let (v, b) := in8 p (chip d) in (v, mkPc (com1 d) b);
  in16 _ d := (0, d);
  out8 p v d := if is_com1 p then mkPc (out8 p v (com1 d)) (chip d) else mkPc (com1 d) (out8 p v (chip d));
  out16 _ _ d := d; patience := patience (D := line)
}.
#[global, refine] Instance pc_uart : Uart pc := { uart_of d := uart_of (com1 d); busy d := busy (com1 d) }.
Proof.
  - intros d. exact (busy_bounded (com1 d)).
  - intros d v d' E. unfold in8, pc_ports in E. change (is_com1 (COM1 + 5)) with true in E. cbn iota in E.
    destruct (in8 (COM1 + 5) (com1 d)) as [w l] eqn:El. injection E as -> <-. exact (uart_lsr (com1 d) _ _ El).
  - intros d b l v d' E. unfold in8, pc_ports in E. change (is_com1 COM1) with true in E. cbn iota in E.
    destruct (in8 COM1 (com1 d)) as [w l'] eqn:El. injection E as -> <-. exact (uart_rbr (com1 d) _ _ _ _ El).
  - intros d port v Hv Hp Hb. unfold out8, pc_ports. replace (is_com1 port) with true by (unfold is_com1; symmetry; apply andb_true_iff; lia).
    exact (uart_out (com1 d) port v Hv Hp Hb).
Defined.
#[global, refine] Instance pc_chips : Chips pc := { chips_of d := chips_of (chip d); rtc_reads d := rtc_reads (chip d); rtc_value := rtc_value (D := Board.board) }.
Proof.
  - intros d port v Hv. unfold out8, pc_ports. destruct (is_com1 port) eqn:Ep; [|exact (chips_out (chip d) port v Hv)].
    unfold is_com1 in Ep. apply andb_true_iff in Ep. cbn [chip]. unfold COM1 in *. unfold chips_write, PIC1_CMD, PIC1_DATA, PIC2_CMD, PIC2_DATA, PIT_CMD, PIT_CH0.
    zfalse (port =? 0x20). zfalse (port =? 0x21). zfalse (port =? 0xA0). zfalse (port =? 0xA1). zfalse (port =? 0x43). by zfalse (port =? 0x40).
  - intros d port Hp. unfold in8, pc_ports. replace (is_com1 port) with false by (by destruct Hp as [-> | ->]).
    pose proof (chips_in (chip d) port Hp) as Hc. by destruct (in8 port (chip d)).
  - intros d port v Hv. unfold out8, pc_ports. destruct (is_com1 port); [done|exact (rtc_select (chip d) port v Hv)].
  - intros d reg Hr. unfold in8, out8, pc_ports. change (is_com1 RTC_COMMAND_PORT) with false. change (is_com1 RTC_READ_PORT) with false. cbn iota. cbn [chip].
    pose proof (rtc_in (chip d) reg Hr) as Hi. by destruct (in8 RTC_READ_PORT (out8 RTC_COMMAND_PORT reg (chip d))).
Defined.
#[global] Instance pc_board : Board pc.
Proof.
  split.
  - intros d port v Hp. unfold out8, pc_ports. by replace (is_com1 port) with false by (unfold is_com1; symmetry; apply andb_false_iff; lia).
  - intros d. unfold in8, pc_ports. change (is_com1 RTC_READ_PORT) with false. cbn iota. by destruct (in8 RTC_READ_PORT (chip d)).
  - intros d. unfold in8, pc_ports. change (is_com1 (COM1 + 5)) with true. cbn iota. by destruct (in8 (COM1 + 5) (com1 d)).
Qed.
End Pc.

(** Four megabytes of memory, a screen of two rows of three cells, one drive with
    one file system, which was not cleanly unmounted, and no slave. *)
Module FirstBoot.
Definition put (a : nat) (bytes l : list Z) : list Z := take a l ++ bytes ++ drop (a + length bytes) l.

Definition mbr : list Z := put 510 [85; 170] (put 450 [131; 0; 0; 0; 8; 0; 0; 0; 64; 0; 0; 0] (replicate 512 0)).
Definition superblock : list Z :=
  put 120 (bytes_of "deprecatOS") (put 56 [0x53; 0xEF; 0; 0] (put 32 [0; 128; 0; 0; 0; 128; 0; 0; 64; 0; 0; 0] (put 24 [2] (put 0 [64; 0; 0; 0; 8] (replicate 512 0))))).
Definition sectors0 (d l : Z) : list Z :=
  if negb (d =? ATA_MASTER) then replicate 512 0 else if l =? 0 then mbr else if l =? 10 then superblock else replicate 512 0.
Definition empty_fs : fs_info := mkFs (replicate 4096 0) (replicate 1024 0) 0 true 0 0 0 0 0 0 0 0 [].
Definition fs0 : fstate := mkS sectors0 (mkDrive false 0) (mkDrive false 0) (replicate 8 empty_fs) 0 0 0 (replicate 4096 0).

(** One region of memory, from 1 MiB on. *)
Definition map_mem (a : Z) : Z :=
  if a =? 65536 then 20 else if a =? 65540 then 0x100000 else if a =? 65548 then 0x300000 else if a =? 65556 then 1 else 0.
Definition mode : fb_info := mkFbInfo 4160 0xFD000000 0 100 24 32 32 1.
Lemma mode_fine : mode_ok mode.
Proof. unfold mode_ok. simpl. lia. Qed.
Definition env0 : env :=
  mkEnv Board.addr 0x120000 0x130000 0x140000 0x150000 map_mem (mkMBI 4160 24 65536) 4
    mode (replicate 6 blank) (replicate 768 blank) (fun _ _ => 0) (<[83%nat := 1024]> (<[100%nat := 128]> (replicate 256 0))) Absent [144; 144].
Definition procs0 : kstate (F := frame_bitmap) :=
  mkK (mkHeap 0 0 (fun _ => 0) (mkP [] (fun _ => 0) 0 0 [])) (PQueue.mkPq (replicate 256 0) 0 0) 0 0 (replicate (Z.to_nat MISC_PAGE_CNT) 0) (fun _ => 0).
Definition con0 : console Pc.pc :=
  mkCon (Pc.mkPc SlowLine.idle Board.off) demo_screen false (replicate LOG_CELLS blank) 0.
Definition reset : machine Pc.pc :=
  mkMachine con0 (tabs tt Board.reset) (mkSegments gdt (mkTss 0 0 0 0) 0) procs0
    (mkKbd (fun _ => false) false false false (RingBuffer.mkRb (replicate 256 0) 0 0) false 0 []) fs0.

Definition no_complaint (s : kstate (F := frame_bitmap)) : bool := match complaints (kpages s) with [] => true | _ => false end.
Lemma run_both {A} (o : option A) (g : A -> run frame_bitmap (kstate (F := frame_bitmap))) :
  (match o with Some a => match g a with Ret s => no_complaint s | _ => false end | None => false end) = true ->
  exists a s, o = Some a /\ g a = Ret s /\ complaints (kpages s) = [].
Proof.
  destruct o as [a|]; [|done]. destruct (g a) as [s| |] eqn:E; [|done|done]. unfold no_complaint. intros Hn. exists a, s.
  split; [done|]. split; [done|]. by destruct (complaints (kpages s)).
Qed.
Lemma memory_ok : exists x s', boot_memory env0 procs0 = Some x /\ Scheduler.userland_init [144; 144] x.2 = Ret s' /\ complaints (kpages s') = [].
Proof. apply (run_both (boot_memory env0 procs0) (fun x => Scheduler.userland_init [144; 144] x.2)). vm_compute. reflexivity. Qed.

Definition unclean : string := "partition was not cleanly unmounted".
Lemma run_seq (m n : FM unit) s :
  (match m s with Done _ s1 => match n s1 with Done _ _ => bool_decide (mount_log s1 = [warning unclean]) | _ => false end | _ => false end) = true ->
  exists s1 s2, m s = Done tt s1 /\ n s1 = Done tt s2 /\ mount_log s1 = [warning unclean].
Proof.
  destruct (m s) as [[] s1|]; [|done]. destruct (n s1) as [[] s2|] eqn:E; [|done]. intros Hb. exists s1, s2.
  split; [done|]. split; [done|]. by apply bool_decide_eq_true in Hb.
Qed.
Lemma disk_fine : exists fs1 fs', Disk.ata_init (e_master env0) None fs0 = Done tt fs1 /\
  (Disk.block_init ;;; Mount.mount_init) fs1 = Done tt fs' /\ mount_log fs1 = [warning unclean].
Proof. apply run_seq. vm_compute. reflexivity. Qed.

Lemma con0_ok : con_ok demo_font con0.
Proof. split; [done|apply length_replicate|cbn [curr_buf_ind con0]; lia|constructor|done]. Qed.
Lemma stubs_ok s : is_u32 (e_stub env0 s).
Proof. destruct s; unfold is_u32; cbn; try lia; zlia. Qed.
Lemma table_ok : is_u32 (e_idt env0).
Proof. unfold is_u32. cbn. lia. Qed.
Lemma reset_boots : exists f s1 s' fs1 fs', bootable demo_font env0 reset f s1 s' fs1 fs' /\ mount_log fs1 = [warning unclean].
Proof.
  destruct memory_ok as ([f s1] & s' & Em & Eu & Eq). destruct disk_fine as (fs1 & fs' & Ed & Ef & Eu'). exists f, s1, s', fs1, fs'.
  split; [|exact Eu'].
  split; [exact con0_ok|reflexivity|reflexivity|reflexivity|exact stubs_ok|exact table_ok|reflexivity|exact mode_fine|reflexivity|reflexivity|exact Em|exact Eu|exact Eq|exact Ed|exact Ef].
Qed.
End FirstBoot.

Lemma late_log_mount sl fs s : exists a b, late_log sl fs s = a ++ concat (mount_log fs) ++ b.
Proof.
  exists (line "Initializing the scheduler...               " ++ ok_line ++
    line "Initializing the ATA driver...              " ++ concat (ata_messages sl) ++ ok_line ++
    line "Initializing the block driver...            " ++ concat (block_messages (Z.to_nat MAX_MOUNTS) 0 fs) ++ ok_line ++
    line "Initializing the mount handler...           ").
  eexists. unfold late_log. rewrite <- !app_assoc. reflexivity.
Qed.

Lemma mainInitScript_boots_witness : exists m', mainInitScript demo_font FirstBoot.env0 FirstBoot.reset = Halted Stopped m' /\
  deliver 0x120000 (full_tab m') (Some 3) 0x80 = Some 0x12345678 /\ iflag (mtab m') = true /\
  exists a b, sent (uart_of (dev (mcon m'))) = a ++ bytes_of FirstBoot.unclean ++ [10] ++ b.
Proof.
  destruct FirstBoot.reset_boots as (f & s1 & s' & fs1 & fs' & Hb & Hu).
  destruct (mainInitScript_boots demo_font FirstBoot.env0 FirstBoot.reset f s1 s' fs1 fs' demo_font_length Hb)
    as (m' & E & _ & _ & Hs & (Hv & _) & _ & Hi & _).
  exists m'. split; [exact E|]. split; [exact (proj2 (Hv 0x80 ltac:(lia)))|]. split; [exact Hi|].
  destruct (late_log_mount (e_slave FirstBoot.env0) fs1 s1) as (a & b & El). rewrite El, Hu in Hs.
  rewrite !cells_app, !fmap_app in Hs. change (sent (uart_of (dev (mcon FirstBoot.reset)))) with (@nil Z) in Hs. rewrite app_nil_l in Hs.
  exists ((ch <$> cells early_log) ++ (ch <$> cells a)), (ch <$> cells b). rewrite Hs, <- app_assoc. reflexivity.
Defined.
