(* ===== verification/Syscall.v ===== *)
(** * System calls: kernel/userland/syscall/syscallController.c

    The layer where user programs meet every other component.  The state
    [machine] joins the state of processes and user memory ([Scheduler]), the
    file systems, the keyboard queue, the console, the clock and the bytes sent
    to the serial port.  A handler gets the address of the register frame the
    stub pushed on the kernel stack, reads its arguments there and stores its
    result in the slot of eax.  Every access through a pointer of the user
    program is recorded in [touched], with its length. *)
From S2P Require Import Prelude Bytes Bitset Ring CLib Dates FrameAlloc Paging Heap Scheduler.
From S2P Require Import Disk Bitmap Inode BlockMap FileOps Mount DirBlock Dir Path Screen.
Import RingBuffer.

Definition SENTINEL : Z := 0xDDDDDDDD.
Definition INODE_ERROR : Z := 1.
Definition INODE_STRUCT_SIZE : Z := 128.

Section syscalls.
Context {F : Type} `{FrameOps F} (font8x16 : list Z).

Record machine : Type := mkMachine {
  procs : kstate (F := F); files : fstate; g_rb : ringBuffer; screen : fb; clock : Timer.timer;
  serial : list Z; touched : list (Z * Z)
}.

Abbreviation SM := (M machine).

Definition set_procs (k : kstate) (m : machine) : machine :=
  mkMachine k (files m) (g_rb m) (screen m) (clock m) (serial m) (touched m).
Definition set_files (f : fstate) (m : machine) : machine :=
  mkMachine (procs m) f (g_rb m) (screen m) (clock m) (serial m) (touched m).
Definition set_rb (r : ringBuffer) (m : machine) : machine :=
  mkMachine (procs m) (files m) r (screen m) (clock m) (serial m) (touched m).
Definition set_screen (s : fb) (m : machine) : machine :=
  mkMachine (procs m) (files m) (g_rb m) s (clock m) (serial m) (touched m).
Definition set_serial (l : list Z) (m : machine) : machine :=
  mkMachine (procs m) (files m) (g_rb m) (screen m) (clock m) l (touched m).
Definition touch (a n : Z) (m : machine) : machine :=
  mkMachine (procs m) (files m) (g_rb m) (screen m) (clock m) (serial m) (touched m ++ [(a, n)]).

(** ** The other components *)

Definition on_part {S A} (get : machine -> S) (set : S -> machine -> machine) (op : M S A) : SM A := fun m =>
  match op (get m) with
  | Done a s => Done a (set s m)
  | Halted h s => Halted h (set s m)
  end.

(** The file systems see the clock through [timer_get_epoch_sec]. *)
Definition at_time (t : Timer.timer) (s : fstate) : fstate :=
  mkS (sectors s) (master_drive s) (slave_drive s) (fs_entries s) (root_fs s) (root_slot_n s) (Timer.timer_get_epoch_sec t) (fresh s).
Definition on_files {A} (op : FM A) : SM A := on_part (fun m => at_time (clock m) (files m)) set_files op.
Definition on_screen_of {A} (op : FbM A) : SM A := on_part screen set_screen op.

Definition serial_write_char (c : Z) : SM unit := modM (fun m => set_serial (serial m ++ [c]) m).

(** ** The frame and the user's memory *)

(** [frame[i]], a [uint32_t]. *)
Definition frame (esp i : Z) : SM Z := fun m => Done (u32 (word (procs m) (esp + 4 * i))) m.
Definition set_eax (esp v : Z) : SM unit := modM (fun m => set_procs (put_word (esp + 4 * 7) v (procs m)) m).

(** [frame[7] = v; return (uint32_t) frame;] *)
Definition answer (esp v : Z) : SM Z := set_eax esp v ;;; retM esp.
Definition refuse (esp : Z) : SM Z := answer esp SYSCALL_ERROR.

Definition user_read (a n : Z) : SM (list Z) := fun m => Done (umem (procs m) <$> seqZ a n) (touch a n m).
Definition user_write (a : Z) (bytes : list Z) : SM unit := fun m =>
  let k := procs m in
  Done tt (touch a (Z.of_nat (length bytes))
    (set_procs (mkK (kheap k) (kqueue k) (current k) (esp0 k) (uframes k)
      (fun x => if (a <=? x) && (x <? a + Z.of_nat (length bytes)) then bytes !!! Z.to_nat (x - a) else umem k x)) m)).

(** [p < KERNEL_CEILING || p > USER_SPACE_END - n] *)
Definition bad_object (p n : Z) : bool := (p <? KERNEL_CEILING) || (USER_SPACE_END - n <? p).
(** [p < KERNEL_CEILING || p >= USER_SPACE_END] for [p = (uint32_t) s + i] *)
Definition bad_byte (p : Z) : bool := (p <? KERNEL_CEILING) || (USER_SPACE_END <=? p).
(** [n > USER_SPACE_END - KERNEL_CEILING || p < KERNEL_CEILING || p > USER_SPACE_END - n] *)
Definition bad_buffer (p n : Z) : bool := (USER_SPACE_END - KERNEL_CEILING <? n) || bad_object p n.

(** The loops over a string of the user: every byte is checked, read, and given
    to [body]; the answer is the length, or [None] when the string leaves the
    user's space. *)
Fixpoint string_loop (body : Z -> SM unit) (fuel : nat) (s i : Z) : SM (option Z) :=
  match fuel with
  | O => haltM OutOfFuel
  | S fuel =>
      if bad_byte (u32 (s + i)) then retM None
      else
        let* c := user_read (u32 (s + i)) 1 in
        if c !!! 0%nat =? 0 then retM (Some i)
        else body (c !!! 0%nat) ;;; string_loop body fuel s (u32 (i + 1))
  end.

(** From [s] the loop leaves the user's space at the latest after this many
    bytes. *)
Definition string_fuel (s : Z) : nat := S (Z.to_nat (USER_SPACE_END - s)).

Definition user_string (body : Z -> SM unit) (s : Z) : SM (option Z) := string_loop body (string_fuel s) s 0.
Definition string_length (s : Z) : SM (option Z) := user_string (fun _ => retM tt) s.

(** Two strings in step, until both have ended, with the lengths found. *)
Fixpoint strings_loop (fuel : nat) (a b i : Z) (a_len b_len : option Z) : SM (option (Z * Z)) :=
  match fuel with
  | O => haltM OutOfFuel
  | S fuel =>
      if bad_byte (u32 (a + i)) || bad_byte (u32 (b + i)) then retM None
      else
        let* x := user_read (u32 (a + i)) 1 in
        let* y := user_read (u32 (b + i)) 1 in
        let ended (len : option Z) (c : Z) := match len with None => if c =? 0 then Some i else None | _ => len end in
        match ended a_len (x !!! 0%nat), ended b_len (y !!! 0%nat) with
        | Some la, Some lb => retM (Some (la, lb))
        | a_len, b_len => strings_loop fuel a b (u32 (i + 1)) a_len b_len
        end
  end.
Definition two_strings (a b : Z) : SM (option (Z * Z)) := strings_loop (string_fuel a) a b 0 None None.

(** ** Console and keyboard *)

Definition echo (upd : bool) (colr c : Z) : SM unit :=
  serial_write_char c ;;;
  on_screen_of (if upd then fb_draw_char_upd font8x16 c colr else fb_draw_char_no_upd font8x16 c colr).

Definition sys_write_char (esp : Z) : SM Z :=
  let* c := frame esp 4 in echo true WHITE (u8 c) ;;; answer esp 0.
Definition sys_write_char_no_upd (esp : Z) : SM Z :=
  let* c := frame esp 4 in echo false WHITE (u8 c) ;;; answer esp 0.
Definition sys_write_char_color (esp : Z) : SM Z :=
  let* colr := frame esp 6 in
  let* c := frame esp 4 in
  echo true (u8 colr) (u8 c) ;;; answer esp 0.

Definition write_string (upd : bool) (colr esp : Z) : SM Z :=
  let* s := frame esp 4 in
  let* r := user_string (echo upd colr) s in
  match r with
  | None => refuse esp
  | Some _ => answer esp 0
  end.
Definition sys_write_string (esp : Z) : SM Z := write_string true WHITE esp.
Definition sys_write_string_no_upd (esp : Z) : SM Z := write_string false WHITE esp.
Definition sys_write_string_color (esp : Z) : SM Z :=
  let* colr := frame esp 6 in write_string true (u8 colr) esp.

Definition write_string_len (upd : bool) (esp : Z) : SM Z :=
  let* base := frame esp 4 in
  let* len := frame esp 6 in
  if bad_buffer base len then refuse esp
  else
    forM (Z.to_nat len) 0 (fun i => let* c := user_read (base + i) 1 in echo upd WHITE (c !!! 0%nat)) ;;;
    answer esp 0.
Definition sys_write_string_len (esp : Z) : SM Z := write_string_len true esp.
Definition sys_write_string_len_no_upd (esp : Z) : SM Z := write_string_len false esp.

Definition sys_read_char (esp : Z) : SM Z :=
  let* m := getM in
  let (c, rb) := rb_pop (g_rb m) in
  modM (set_rb rb) ;;; answer esp (default SENTINEL c).

(** [fb_get_screen_dims] stores the columns first. *)
Definition sys_get_screen_dims (esp : Z) : SM Z :=
  let* row_out := frame esp 4 in
  let* col_out := frame esp 6 in
  if bad_object row_out 4 then refuse esp
  else if bad_object col_out 4 then refuse esp
  else
    let* rc := on_screen_of fb_get_screen_dims in
    let '(r, c) := rc in
    user_write col_out (le_bytes 4 c) ;;; user_write row_out (le_bytes 4 r) ;;; answer esp 0.
(** [fb_get_cursor] stores the row first. *)
Definition sys_get_cursor (esp : Z) : SM Z :=
  let* row_out := frame esp 4 in
  let* col_out := frame esp 6 in
  if bad_object row_out 4 then refuse esp
  else if bad_object col_out 4 then refuse esp
  else
    let* rc := on_screen_of fb_get_cursor in
    let '(r, c) := rc in
    user_write row_out (le_bytes 4 r) ;;; user_write col_out (le_bytes 4 c) ;;; answer esp 0.

Definition sys_set_cursor (esp : Z) : SM Z :=
  let* r := frame esp 4 in
  let* c := frame esp 6 in
  let* ok := on_screen_of (fb_set_cursor font8x16 r c) in
  if negb ok then refuse esp else answer esp 0.
Definition sys_set_cursor_no_upd (esp : Z) : SM Z :=
  let* r := frame esp 4 in
  let* c := frame esp 6 in
  let* ok := on_screen_of (fb_set_cursor_no_upd font8x16 r c) in
  if negb ok then refuse esp else answer esp 0.
Definition sys_clear_screen (esp : Z) : SM Z := on_screen_of (fb_clear_screen font8x16) ;;; answer esp 0.
Definition sys_set_scrollback (esp : Z) : SM Z :=
  let* v := frame esp 4 in
  on_screen_of (fb_set_scrollback (negb (v =? 0))) ;;; answer esp 0.

(** ** Clock and processes *)

Definition out64 (esp : Z) (value : Timer.timer -> Z) : SM Z :=
  let* p := frame esp 4 in
  if bad_object p 8 then refuse esp
  else
    let* m := getM in
    user_write p (le_bytes 8 (value (clock m))) ;;; answer esp 0.
Definition sys_get_ticks (esp : Z) : SM Z := out64 esp Timer.timer_get_tick.
Definition sys_get_epoch (esp : Z) : SM Z := out64 esp Timer.timer_get_epoch.

Definition sys_exit_curr (esp : Z) : SM Z :=
  let* m := getM in
  match kill_current (procs m) with
  | NoFuel => haltM OutOfFuel
  | PageFault _ _ => haltM Fault
  | Ret (res, k) =>
      modM (set_procs k) ;;;
      if res =? SYSCALL_ERROR then haltM (Panic "TRIED TO EXIT WITH NO OTHER PROCESSES AVAILABLE") else retM res
  end.

Definition sys_yield (esp : Z) : SM Z :=
  set_eax esp 0 ;;;
  let* m := getM in
  let (r, k) := schedule esp (procs m) in
  modM (set_procs k) ;;; retM r.

(** ** Files *)

(** [None] is [NULL]. *)
Definition fs_from_index (index : Z) : SM (option Z) :=
  if MAX_MOUNTS <=? index then retM None
  else
    let* f := on_files (get_fs index) in
    let* m := getM in
    retM (if negb (index =? root_fs (files m)) && (mountpoint f =? 0) then None else Some index).

(** [if (!fs) { error }] *)
Definition with_fs (esp i : Z) (k : Z -> SM Z) : SM Z :=
  let* index := frame esp i in
  let* fs := fs_from_index index in
  match fs with
  | None => refuse esp
  | Some fs => k fs
  end.

Definition get_inode_or (esp fs n : Z) (k : ext2_inode -> SM Z) : SM Z :=
  let* r := on_files (get_inode fs n) in
  match r with
  | None => refuse esp
  | Some ino => k ino
  end.

(** [read_block(fs, block_n, buf)] where the buffer holds [old]. *)
Definition read_block_over (fs block_n : Z) (old : list Z) : FM (list Z) :=
  let* f := get_fs fs in
  ata_read48_part (drive f) (start_lba f) (sector_count f) (block_lba block_n) sectors_per_blk old.

(** [sys_read_chunk] once the inode is known; a block is 4096 bytes. *)
Definition read_chunk_at (esp fs n : Z) (ino : ext2_inode) (chunk buf : Z) : SM Z :=
  if bad_object buf BLOCK_SIZE then refuse esp
  else
    let blocks := blocks_for (size_lo ino) in
    if blocks <=? chunk then answer esp 0
    else
      let* r := on_files (map_file_block fs ino chunk LOOKUP_MODE None) in
      let tail :=
        answer esp (if (chunk =? blocks - 1) && negb (size_lo ino mod BLOCK_SIZE =? 0)
                    then size_lo ino mod BLOCK_SIZE else BLOCK_SIZE) in
      if mr_ret r =? EMPTY_BLOCK then user_write buf zero_block ;;; tail
      else if mr_ret r =? INODE_WRITE_SUCCESS then
        let* m := getM in
        let* blk := on_files (read_block_over fs (out_blk r) (umem (procs m) <$> seqZ buf BLOCK_SIZE)) in
        user_write buf (take 4096 blk) ;;; tail
      else refuse esp.

Definition sys_read_chunk (esp : Z) : SM Z :=
  let* ino_n := frame esp 4 in
  with_fs esp 0 (fun fs =>
    get_inode_or esp fs ino_n (fun ino =>
      let* chunk := frame esp 5 in
      let* buf := frame esp 6 in
      if file_type ino =? INODE_DIR_TYPE then
        let* r := on_files (return_mnt_root fs ino_n) in
        let '(fs, ino_n, _) := r in
        get_inode_or esp fs ino_n (fun ino => read_chunk_at esp fs ino_n ino chunk buf)
      else read_chunk_at esp fs ino_n ino chunk buf)).

(** The inode and the partition, or [SYSCALL_ERROR]. *)
Definition resolve_dir (s : Z) (split_leaf_sym : bool) : SM (Z * Z) :=
  let* r := string_length s in
  match r with
  | None => retM (SYSCALL_ERROR, 0)
  | Some len =>
      let* path := user_read s (len + 1) in
      let* m := getM in
      let* r := on_files (lookup_path (root_fs (files m)) path split_leaf_sym) in
      match r with
      | None => retM (SYSCALL_ERROR, 0)
      | Some (fs, ino) => retM (ino, fs)
      end
  end.

Definition resolve (follow : bool) (esp : Z) : SM Z :=
  let* s := frame esp 4 in
  let* fs_out := frame esp 5 in
  if bad_object fs_out 4 then refuse esp
  else
    let* r := resolve_dir s follow in
    let '(ino, fs) := r in
    (if negb (ino =? SYSCALL_ERROR) then user_write fs_out (le_bytes 4 fs) else retM tt) ;;;
    answer esp ino.
Definition sys_resolve_dir (esp : Z) : SM Z := resolve true esp.
Definition sys_resolve_symlink (esp : Z) : SM Z := resolve false esp.

Definition sys_get_stat (esp : Z) : SM Z :=
  let* ino_n := frame esp 4 in
  with_fs esp 0 (fun fs =>
    get_inode_or esp fs ino_n (fun ino =>
      let* buf := frame esp 6 in
      if bad_object buf INODE_STRUCT_SIZE then refuse esp
      else user_write buf (encode ino) ;;; answer esp 0)).

(** [sys_make_dir] and [sys_make_inode]; [make] answers with the inode and the
    partition it was made in. *)
Definition sys_make (make : Z -> Z -> list Z -> FM (Z * option Z)) (esp : Z) : SM Z :=
  let* parent := frame esp 4 in
  let* base := frame esp 6 in
  let* fs_out := frame esp 5 in
  if bad_object base NAME_LEN then refuse esp
  else if bad_object fs_out 4 then refuse esp
  else
    with_fs esp 0 (fun fs =>
      let* name := user_read base NAME_LEN in
      let* r := on_files (make fs parent name) in
      let '(inode_n, fs_temp) := r in
      (if negb (inode_n =? INODE_ERROR) then user_write fs_out (le_bytes 4 (default 0 fs_temp)) else retM tt) ;;;
      answer esp (if inode_n =? INODE_ERROR then SYSCALL_ERROR else inode_n)).
Definition sys_make_dir (esp : Z) : SM Z := sys_make make_dir esp.
Definition sys_make_inode (esp : Z) : SM Z := sys_make make_file esp.

Definition sys_remove (unlink : Z -> Z -> list Z -> FM bool) (esp : Z) : SM Z :=
  let* parent := frame esp 4 in
  let* base := frame esp 6 in
  if bad_object base NAME_LEN then refuse esp
  else
    with_fs esp 0 (fun fs =>
      let* name := user_read base NAME_LEN in
      let* ok := on_files (unlink fs parent name) in
      answer esp (if ok then 0 else SYSCALL_ERROR)).
Definition sys_remove_inode (esp : Z) : SM Z := sys_remove unlink_inode esp.
Definition sys_remove_dir (esp : Z) : SM Z := sys_remove unlink_dir esp.

Definition sys_replace_inode (esp : Z) : SM Z :=
  let* inode_n := frame esp 4 in
  let* buf := frame esp 6 in
  let* f_size := frame esp 5 in
  if bad_buffer buf f_size then refuse esp
  else
    with_fs esp 0 (fun fs =>
      let* data := user_read buf f_size in
      let* r := on_files (replace_inode fs inode_n data f_size) in
      if negb (r.1 =? INODE_WRITE_SUCCESS) then refuse esp else answer esp 0).

Definition sys_append_to_inode (esp : Z) : SM Z :=
  let* inode_n := frame esp 4 in
  let* buf := frame esp 6 in
  let* f_size := frame esp 5 in
  if bad_buffer buf f_size then refuse esp
  else if f_size =? 0 then answer esp 0
  else
    with_fs esp 0 (fun fs =>
      let* data := user_read buf f_size in
      let* r := on_files (append_to_inode fs inode_n data f_size) in
      if negb (r.1 =? INODE_WRITE_SUCCESS) then refuse esp else answer esp 0).

Definition sys_truncate_inode (esp : Z) : SM Z :=
  let* inode_n := frame esp 4 in
  let* new_size := frame esp 6 in
  with_fs esp 0 (fun fs =>
    let* r := on_files (truncate_inode fs inode_n new_size) in
    if negb (r.1 =? INODE_WRITE_SUCCESS) then refuse esp else answer esp 0).

Definition sys_rename_inode (esp : Z) : SM Z :=
  let* old_parent_n := frame esp 4 in
  let* new_parent_n := frame esp 5 in
  let* old_name := frame esp 6 in
  let* new_name := frame esp 1 in
  let* r := two_strings old_name new_name in
  match r with
  | None => refuse esp
  | Some (old_len, new_len) =>
      with_fs esp 0 (fun fs =>
        let* old := user_read old_name (old_len + 1) in
        let* new := user_read new_name (new_len + 1) in
        let* ok := on_files (rename_inode fs old_parent_n old new_parent_n new) in
        if negb ok then refuse esp else answer esp 0)
  end.

Definition sys_link_inode (esp : Z) : SM Z :=
  let* inode_n := frame esp 4 in
  let* parent_n := frame esp 5 in
  let* s := frame esp 6 in
  with_fs esp 0 (fun fs => with_fs esp 1 (fun parent_fs =>
    if negb (fs =? parent_fs) then refuse esp
    else
      let* e1 := on_files (inode_exists fs inode_n) in
      let* e2 := if e1 then on_files (inode_exists parent_fs parent_n) else retM false in
      if negb e2 then refuse esp
      else
        get_inode_or esp fs inode_n (fun ino =>
          if file_type ino =? INODE_DIR_TYPE then refuse esp
          else
            let* r := string_length s in
            match r with
            | None => refuse esp
            | Some i =>
                if (i =? 0) || (NAME_LEN <=? i) then refuse esp
                else
                  let* name := user_read s (i + 1) in
                  let* found := on_files (dir_contains parent_fs parent_n name) in
                  if bool_decide (is_Some found) then refuse esp
                  else
                    let* ok := on_files (dir_insert parent_fs parent_n name inode_n) in
                    if negb ok then refuse esp else answer esp 0
            end))).

Definition sys_make_symlink (esp : Z) : SM Z :=
  let* parent_n := frame esp 4 in
  let* name_p := frame esp 5 in
  let* target_p := frame esp 6 in
  with_fs esp 0 (fun fs =>
    let* e := on_files (inode_exists fs parent_n) in
    if negb e then refuse esp
    else
      let* r := two_strings name_p target_p in
      match r with
      | None => refuse esp
      | Some (name_len, target_len) =>
          let* name := user_read name_p (name_len + 1) in
          let* target := user_read target_p (target_len + 1) in
          let* found := on_files (dir_contains fs parent_n name) in
          if bool_decide (is_Some found) then refuse esp
          else
            let* ok := on_files (make_symlink fs parent_n name target) in
            if negb ok then refuse esp else answer esp 0
      end).

(** ** Mounting and halting

    The flush of the drive caches before the halt is device I/O. *)

Definition sys_inode_is_mountpoint (esp : Z) : SM Z :=
  let* inode_n := frame esp 6 in
  with_fs esp 4 (fun fs =>
    let* r := on_files (return_mnt_root fs inode_n) in
    answer esp (if r.2 then 1 else 0)).

Definition mount_call (op : list Z -> FM bool) (esp : Z) : SM Z :=
  let* lbl := frame esp 4 in
  let* r := string_length lbl in
  match r with
  | None => refuse esp
  | Some i =>
      let* name := user_read lbl (i + 1) in
      let* ok := on_files (op name) in
      answer esp (if ok then 0 else SYSCALL_ERROR)
  end.
Definition sys_mount_fs (esp : Z) : SM Z := mount_call mount_fs esp.
Definition sys_umount_fs (esp : Z) : SM Z := mount_call umount_fs esp.

Definition sys_halt (esp : Z) : SM Z :=
  forM (Z.to_nat MAX_MOUNTS) 0 (fun i =>
    let* f := on_files (get_fs i) in
    if mountpoint f =? 0 then retM tt
    else let* _ := on_files (umount_fs (label f)) in retM tt) ;;;
  let* m := getM in
  on_files (mark_fs_state (root_fs (files m)) true) ;;;
  on_screen_of (fb_clear_screen font8x16) ;;;
  haltM (Panic "halt completed, safe to power off").

(** ** The table *)

Definition syscall_table : list (Z -> SM Z) :=
  [sys_write_char; sys_write_string; sys_get_ticks; sys_exit_curr; sys_read_char; sys_yield;
   sys_write_char_color; sys_write_string_color; sys_read_chunk; sys_resolve_dir; sys_write_string_len;
   sys_get_stat; sys_make_dir; sys_remove_inode; sys_remove_dir; sys_get_screen_dims; sys_set_cursor;
   sys_clear_screen; sys_replace_inode; sys_make_inode; sys_set_cursor_no_upd; sys_write_char_no_upd;
   sys_write_string_no_upd; sys_write_string_len_no_upd; sys_set_scrollback; sys_get_cursor; sys_get_epoch;
   sys_rename_inode; sys_append_to_inode; sys_link_inode; sys_make_symlink; sys_resolve_symlink;
   sys_truncate_inode; sys_inode_is_mountpoint; sys_mount_fs; sys_umount_fs; sys_halt].

Definition syscall_handler (esp : Z) : SM Z :=
  let* eax := frame esp 7 in
  if (Z.of_nat (length syscall_table) <? eax) || (eax <? 1) then refuse esp
  else
    match syscall_table !! Z.to_nat (eax - 1) with
    | Some handler => handler esp
    | None => haltM Fault
    end.

End syscalls.
