(* ===== verification/SyscallSpec.v ===== *)
(** * The system call boundary: what a user program can make the kernel touch

    [syscall_confined]: whatever the registers hold, every access the kernel
    makes through a pointer of the program stays in the program's own pages.
    [sys_write_string_correct]: the composition of the boundary with the
    console, for the call that prints a string. *)
From S2P Require Import Prelude Bytes Ring Dates FrameAlloc Paging Heap Scheduler Disk Bitmap.
From S2P Require Import Inode BlockMap FileOps Mount DirBlock Dir Path Screen ScreenSpec Syscall.
Import RingBuffer.

Definition in_user (a : Z) : Prop := KERNEL_CEILING <= a < USER_SPACE_END.

(** An access of [n] bytes at [a] inside the user's space. *)
Definition user_range (r : Z * Z) : Prop := r.2 <= 0 \/ (KERNEL_CEILING <= r.1 /\ r.1 + r.2 <= USER_SPACE_END).

Section boundary.
Context {F : Type} `{FrameOps F} (font8x16 : list Z).
Implicit Types m : machine (F := F).

(** From [m] to [m'] only user memory was touched through user pointers, and
    no byte outside of it changed. *)
Definition confined m m' : Prop :=
  (exists l, touched m' = touched m ++ l /\ Forall user_range l) /\
  forall x, ~ in_user x -> umem (procs m') x = umem (procs m) x.

#[local] Instance confined_preorder : PreOrder confined.
Proof.
  split.
  - intros m. split; [exists []; by rewrite app_nil_r|done].
  - intros m1 m2 m3 [(l1 & E1 & H1) U1] [(l2 & E2 & H2) U2]. split.
    + exists (l1 ++ l2). rewrite E2, E1, app_assoc. split; [done|]. by apply Forall_app.
    + intros x Hx. rewrite U2, U1 by done. done.
Qed.

(** Every outcome is confined, and a result is in [R]. *)
Definition keeps {A} (R : A -> Prop) (op : M machine A) : Prop := forall m,
  match op m with
  | Done a m' => confined m m' /\ R a
  | Halted _ m' => confined m m'
  end.

Lemma keeps_ret {A} (R : A -> Prop) a : R a -> keeps R (retM a).
Proof. intros HR m. split; [reflexivity|done]. Qed.
Lemma keeps_halt {A} (R : A -> Prop) h : keeps R (haltM h).
Proof. intros m. cbn. reflexivity. Qed.
Lemma keeps_bind {A B} (R : A -> Prop) (Q : B -> Prop) op (k : A -> M machine B) :
  keeps R op -> (forall a, R a -> keeps Q (k a)) -> keeps Q (bindM op k).
Proof.
  intros H1 H2 m. unfold bindM. specialize (H1 m). destruct (op m) as [a m1|h m1]; [|done]. destruct H1 as [H1 HR].
  specialize (H2 a HR m1). destruct (k a m1) as [b m2|h m2]; [destruct H2; split; [|done]|]; by etrans.
Qed.
Lemma keeps_weaken {A} (R Q : A -> Prop) op : keeps R op -> (forall a, R a -> Q a) -> keeps Q op.
Proof. intros H1 H2 m. specialize (H1 m). destruct (op m); [|done]. destruct H1. auto. Qed.
Lemma keeps_mod (f : machine -> machine) :
  (forall m, touched (f m) = touched m /\ umem (procs (f m)) = umem (procs m)) -> keeps (fun _ => True) (modM f).
Proof.
  intros Hf m. destruct (Hf m) as [E1 E2]. split; [|done]. split; [exists []; by rewrite app_nil_r|]. intros x _. by rewrite E2.
Qed.
Lemma keeps_get : keeps (fun _ => True) getM.
Proof. intros m. split; [reflexivity|done]. Qed.
Lemma keeps_part {S A} (get : machine -> S) (set : S -> machine -> machine) (op : M S A) :
  (forall s m, touched (set s m) = touched m /\ procs (set s m) = procs m) -> keeps (fun _ => True) (on_part get set op).
Proof.
  intros Hs m. assert (forall s, confined m (set s m)) as Hc.
  { intros s. destruct (Hs s m) as [E1 E2]. split; [exists []; by rewrite app_nil_r|]. by rewrite E2. }
  unfold on_part. by destruct (op (get m)).
Qed.
Lemma keeps_files {A} (op : FM A) : keeps (fun _ => True) (on_files op).
Proof. by apply keeps_part. Qed.
Lemma keeps_screen {A} (op : FbM A) : keeps (fun _ => True) (on_screen_of op).
Proof. by apply keeps_part. Qed.
Lemma keeps_frame esp i : keeps is_u32 (frame esp i).
Proof. intros m. split; [reflexivity|]. unfold is_u32, u32. zlia. Qed.
Lemma keeps_answer esp v : keeps (fun _ => True) (answer esp v).
Proof.
  unfold answer, set_eax. eapply keeps_bind; [by apply keeps_mod|]. intros. by apply keeps_ret.
Qed.
Lemma keeps_read a n : user_range (a, n) -> keeps (fun _ => True) (user_read a n).
Proof. intros Hr m. split; [|done]. split; [|done]. exists [(a, n)]. split; [done|]. by constructor. Qed.
Lemma keeps_write a bytes : user_range (a, Z.of_nat (length bytes)) -> keeps (fun _ => True) (user_write a bytes).
Proof.
  intros Hr m. split; [|done]. split.
  - exists [(a, Z.of_nat (length bytes))]. split; [done|]. by constructor.
  - intros x Hx. cbn. destruct (_ && _) eqn:E; [|done]. destruct Hx. unfold user_range, in_user in *. simpl in Hr. lia.
Qed.

(** ** The checks *)

Lemma object_range p n : bad_object p n = false -> user_range (p, n).
Proof. unfold bad_object, user_range. simpl. lia. Qed.
Lemma object_prefix p n k : bad_object p n = false -> k <= n -> user_range (p, k).
Proof. unfold bad_object, user_range. simpl. lia. Qed.
Lemma buffer_range p n : bad_buffer p n = false -> user_range (p, n).
Proof. unfold bad_buffer. intros [_ Hp]%orb_false_iff. by apply object_range. Qed.
Lemma buffer_byte p n i : bad_buffer p n = false -> 0 <= i < n -> user_range (p + i, 1).
Proof. unfold bad_buffer, bad_object, user_range. simpl. lia. Qed.
Lemma byte_in_user p : bad_byte p = false -> in_user p.
Proof. unfold bad_byte, in_user. lia. Qed.
Lemma byte_range p : bad_byte p = false -> user_range (p, 1).
Proof. intros Hp%byte_in_user. unfold in_user, user_range in *. simpl. lia. Qed.

Lemma user_end : 0 < KERNEL_CEILING /\ KERNEL_CEILING < USER_SPACE_END < 4294967296.
Proof. done. Qed.

(** While every byte so far was in the user's space, [s + i] does not wrap. *)
Lemma string_step s i : is_u32 s -> 0 <= i -> (0 < i -> in_user (s + (i - 1))) -> bad_byte (u32 (s + i)) = false ->
  in_user (s + i) /\ u32 (s + i) = s + i.
Proof.
  intros Hs Hi Hp Hb%byte_in_user. pose proof user_end. unfold in_user, is_u32, u32 in *.
  assert (s + i < 4294967296) by (destruct (Z.eq_dec i 0); lia). rewrite Z.mod_small in Hb |- * by lia. done.
Qed.

Definition string_found (s : Z) (r : option Z) : Prop := forall len, r = Some len -> 0 <= len /\ in_user s /\ in_user (s + len).

Lemma keeps_string_loop body fuel s i :
  (forall c, keeps (fun _ => True) (body c)) -> is_u32 s -> 0 <= i -> (0 < i -> in_user s /\ in_user (s + (i - 1))) ->
  keeps (string_found s) (string_loop body fuel s i).
Proof.
  intros Hb Hs. revert i. induction fuel as [|fuel IH]; intros i Hi Hp; cbn [string_loop]; [apply keeps_halt|].
  destruct (bad_byte (u32 (s + i))) eqn:E; [by apply keeps_ret|].
  destruct (string_step s i Hs Hi (fun h => proj2 (Hp h)) E) as [Hin Eq].
  assert (in_user s) as Hs0 by (destruct (Z.eq_dec i 0) as [->|]; [by rewrite Z.add_0_r in Hin|apply Hp; lia]).
  eapply keeps_bind; [by apply keeps_read, byte_range|]. intros c _.
  destruct (_ =? 0); [apply keeps_ret; by intros len [= <-]|].
  eapply keeps_bind; [apply Hb|]. intros _ _. pose proof user_end. unfold in_user in Hin, Hs0.
  assert (u32 (i + 1) = i + 1) as -> by (unfold u32; apply Z.mod_small; lia).
  apply IH; [lia|]. intros _. split; [done|]. by replace (s + (i + 1 - 1)) with (s + i) by lia.
Qed.

Lemma found_range s len : string_found s (Some len) -> user_range (s, len + 1).
Proof. intros Hf. destruct (Hf len eq_refl) as (? & ? & ?). unfold user_range, in_user in *. simpl. lia. Qed.

Definition strings_found (a b : Z) (r : option (Z * Z)) : Prop :=
  forall la lb, r = Some (la, lb) -> string_found a (Some la) /\ string_found b (Some lb).

Lemma keeps_strings_loop fuel a b i a_len b_len :
  is_u32 a -> is_u32 b -> 0 <= i -> string_found a a_len -> string_found b b_len ->
  (0 < i -> in_user a /\ in_user b /\ in_user (a + (i - 1)) /\ in_user (b + (i - 1))) ->
  keeps (strings_found a b) (strings_loop fuel a b i a_len b_len).
Proof.
  intros Ha Hb. revert i a_len b_len. induction fuel as [|fuel IH]; intros i a_len b_len Hi Hfa Hfb Hp; cbn [strings_loop]; [apply keeps_halt|].
  destruct (bad_byte (u32 (a + i))) eqn:E1; [by apply keeps_ret|].
  destruct (bad_byte (u32 (b + i))) eqn:E2; [by apply keeps_ret|]. cbn [orb].
  destruct (string_step a i Ha Hi) as [Hina Eqa]; [by intros h; apply Hp in h as (_ & _ & ? & _)|done|].
  destruct (string_step b i Hb Hi) as [Hinb Eqb]; [by intros h; apply Hp in h as (_ & _ & _ & ?)|done|].
  assert (in_user a /\ in_user b) as [Ha0 Hb0].
  { destruct (Z.eq_dec i 0) as [->|]; [by rewrite Z.add_0_r in Hina, Hinb|]. destruct Hp as (? & ? & _); [lia|done]. }
  eapply keeps_bind; [by apply keeps_read, byte_range|]. intros x _.
  eapply keeps_bind; [by apply keeps_read, byte_range|]. intros y _.
  assert (forall p len c, in_user p -> in_user (p + i) -> string_found p len ->
    string_found p (match len with None => if c =? 0 then Some i else None | _ => len end)) as Hend.
  { intros p [len|] c Hp0 Hpi Hf; [done|]. destruct (c =? 0); [|done]. by intros l [= <-]. }
  pose proof user_end. assert (u32 (i + 1) = i + 1) as -> by (unfold in_user, u32 in *; apply Z.mod_small; lia).
  assert (forall al bl, string_found a al -> string_found b bl -> keeps (strings_found a b) (strings_loop fuel a b (i + 1) al bl)) as Hrec.
  { intros al bl Hal Hbl. apply IH; [lia|done|done|]. intros _.
    by replace (a + (i + 1 - 1)) with (a + i) by lia; replace (b + (i + 1 - 1)) with (b + i) by lia. }
  pose proof (Hend a a_len (x !!! 0%nat) Ha0 Hina Hfa) as H1. pose proof (Hend b b_len (y !!! 0%nat) Hb0 Hinb Hfb) as H2.
  cbv zeta. destruct (match a_len with None => _ | _ => _ end) as [la|], (match b_len with None => _ | _ => _ end) as [lb|]; auto.
  apply keeps_ret. by intros ? ? [= <- <-].
Qed.

(** ** The handlers *)

Lemma keeps_get_inode_or esp fs n (k : ext2_inode -> M machine Z) :
  (forall ino, length (dir_block_ptr ino) = 12%nat -> keeps (fun _ => True) (k ino)) ->
  keeps (fun _ => True) (get_inode_or esp fs n k).
Proof.
  intros Hk. unfold get_inode_or.
  eapply (keeps_bind (fun r => forall i, r = Some i -> length (dir_block_ptr i) = 12%nat)).
  - intros m. pose proof (keeps_files (get_inode fs n) m) as Hc. unfold on_files, on_part in *.
    destruct (get_inode fs n _) as [r s'|] eqn:E; [|done]. destruct Hc as [Hc _]. split; [done|]. intros i ->.
    unfold get_inode in E. mstep E. mstep E. destruct (bad_inode_n _ _); [discriminate E|]. mstep E. mstep E.
    injection E as <- _. reflexivity.
  - intros [ino|] Hr; [apply Hk; by apply Hr|apply keeps_answer].
Qed.

Lemma keeps_forM n i (body : Z -> M machine unit) :
  (forall j, i <= j < i + Z.of_nat n -> keeps (fun _ => True) (body j)) -> keeps (fun _ => True) (forM n i body).
Proof.
  revert i. induction n as [|n IH]; intros i Hb; cbn [forM]; [by apply keeps_ret|].
  eapply keeps_bind; [apply Hb; lia|]. intros _ _. apply IH. intros j Hj. apply Hb. lia.
Qed.

Lemma keeps_echo upd colr c : keeps (fun _ => True) (echo font8x16 upd colr c).
Proof. unfold echo, serial_write_char. eapply keeps_bind; [by apply keeps_mod|]. intros _ _. apply keeps_screen. Qed.

Lemma keeps_string body s : (forall c, keeps (fun _ => True) (body c)) -> is_u32 s -> keeps (string_found s) (user_string body s).
Proof. intros Hb Hs. apply keeps_string_loop; [done|done|lia|lia]. Qed.
Lemma keeps_string_length s : is_u32 s -> keeps (string_found s) (string_length s).
Proof. intros Hs. apply keeps_string; [|done]. intros c. by apply keeps_ret. Qed.
Lemma keeps_two_strings a b : is_u32 a -> is_u32 b -> keeps (strings_found a b) (two_strings a b).
Proof. intros Ha Hb. by apply keeps_strings_loop; [| |lia| | |lia]. Qed.

Lemma umem_schedule esp (k : kstate (F := F)) : umem (schedule esp k).2 = umem k.
Proof.
  unfold schedule. destruct (PQueue.pqueue_is_empty (kqueue k)); [done|]. destruct (PQueue.pqueue_pop _) as [p q]. cbn [snd].
  unfold enter_current. by destruct (negb _).
Qed.

Lemma umem_teardown (k : kstate (F := F)) : umem (userland_teardown k) = umem k.
Proof.
  unfold userland_teardown.
  assert (forall v (k : kstate (F := F)), umem (u_unmap v k).2 = umem k) as Hu.
  { intros v k0. unfold u_unmap. by destruct (unmap_kernel_page v (kpages k0)). }
  pose proof (Hu CODE_ADDR k) as H1. destruct (u_unmap CODE_ADDR k) as [p1 k1]. cbn [snd] in H1.
  pose proof (Hu STACK_ADDR k1) as H2. destruct (u_unmap STACK_ADDR k1) as [p2 k2]. cbn [snd] in H2.
  apply (for_range_ind (fun _ k' => umem k' = umem k)).
  - destruct (negb (p1 =? 0)), (negb (p2 =? 0)); cbn; congruence.
  - intros j k' _ Hk'. destruct (_ =? 0); [done|]. cbv zeta. rewrite <- Hk', <- (Hu (CODE_ADDR + 4096 * (j + 1)) k'). done.
Qed.

Lemma umem_kill (k k' : kstate (F := F)) r : kill_current k = Ret (r, k') -> umem k' = umem k.
Proof.
  assert (forall p (k k' : kstate (F := F)), k_free p k = Ret k' -> umem k' = umem k) as Hfree.
  { intros p k0 k1 E. unfold k_free in E. destruct (kfree p (kheap k0)); simplify_eq/=. done. }
  unfold kill_current. destruct (PQueue.pqueue_is_empty (kqueue k)).
  - intros E. destruct (k_free 0 k) as [k1| |] eqn:E1; simplify_eq/=. by eapply Hfree.
  - destruct (PQueue.pqueue_pop _) as [nx q]. cbv zeta. intros E.
    set (k0 := userland_teardown _) in E. assert (umem k0 = umem k) as H0.
    { unfold k0. rewrite umem_teardown. unfold enter_current. by destruct (negb _). }
    destruct (k_free _ k0) as [k1| |] eqn:E1; [|discriminate E|discriminate E]. cbn in E.
    destruct (k_free _ k1) as [k2| |] eqn:E2; simplify_eq/=.
    apply Hfree in E1, E2. congruence.
Qed.

(** An access after its check. *)
Ltac user_access :=
  first [ by apply object_range | by apply buffer_range | by apply found_range
        | by eapply buffer_byte; [eassumption|lia]
        | match goal with Hs : strings_found _ _ _ |- _ => destruct (Hs _ _ eq_refl); by apply found_range end
        | rewrite ?length_le_bytes, ?length_encode by done; by apply object_range
        | eapply object_prefix; [eassumption|]; rewrite ?length_take; unfold BLOCK_SIZE, zero_block; rewrite ?length_replicate; lia ].

Ltac keep_step :=
  lazymatch goal with
  | |- keeps _ (bindM (frame _ _) _) => eapply keeps_bind; [apply keeps_frame|intros ? ?]
  | |- keeps _ (bindM (string_length _) _) => eapply keeps_bind; [by apply keeps_string_length|intros ? ?]
  | |- keeps _ (bindM (two_strings _ _) _) => eapply keeps_bind; [by apply keeps_two_strings|intros ? ?]
  | |- keeps _ (bindM (user_string _ _) _) => eapply keeps_bind; [apply keeps_string; [intros; apply keeps_echo|done]|intros ? ?]
  | |- keeps _ (bindM _ _) => apply (keeps_bind (fun _ => True)); [|intros ? _]
  | |- keeps _ (retM _) => by apply keeps_ret
  | |- keeps _ (haltM _) => apply keeps_halt
  | |- keeps _ getM => apply keeps_get
  | |- keeps _ (on_files _) => apply keeps_files
  | |- keeps _ (on_screen_of _) => apply keeps_screen
  | |- keeps _ (answer _ _) => apply keeps_answer
  | |- keeps _ (refuse _) => apply keeps_answer
  | |- keeps _ (echo _ _ _ _) => apply keeps_echo
  | |- keeps _ (user_read _ _) => apply keeps_read; user_access
  | |- keeps _ (user_write _ _) => apply keeps_write; user_access
  | |- keeps _ (get_inode_or _ _ _ _) => apply keeps_get_inode_or; intros ? ?
  | |- keeps _ (forM _ _ _) => apply keeps_forM; intros ? ?
  | |- keeps _ (modM _) => by apply keeps_mod
  | |- keeps _ (if ?b then _ else _) => destruct b eqn:?
  | |- keeps _ (match ?x with _ => _ end) => destruct x eqn:?; simplify_eq
  end.
Ltac keep := repeat (keep_step; cbv beta zeta).

Lemma keeps_with_fs esp i (k : Z -> M machine Z) :
  (forall fs, keeps (fun _ => True) (k fs)) -> keeps (fun _ => True) (with_fs esp i k).
Proof. intros Hk. unfold with_fs, fs_from_index. keep. apply Hk. Qed.

Lemma keeps_chunk esp fs n ino chunk buf : keeps (fun _ => True) (read_chunk_at esp fs n ino chunk buf).
Proof. unfold read_chunk_at. keep. Qed.

Lemma keeps_resolve_dir s b : is_u32 s -> keeps (fun _ => True) (resolve_dir s b).
Proof. intros Hs. unfold resolve_dir. keep. Qed.

Lemma keeps_exit esp : keeps (fun _ => True) (sys_exit_curr esp).
Proof.
  unfold sys_exit_curr. intros m. cbn [bindM getM]. unfold bindM, getM. destruct (kill_current (procs m)) as [[r k]| |] eqn:E.
  - apply umem_kill in E. cbn. assert (confined m (set_procs k m)) as Hc.
    { split; [exists []; by rewrite app_nil_r|]. intros x _. cbn. by rewrite E. }
    by destruct (r =? SYSCALL_ERROR).
  - cbn. reflexivity.
  - cbn. reflexivity.
Qed.

Lemma keeps_yield esp : keeps (fun _ => True) (sys_yield esp).
Proof.
  unfold sys_yield, set_eax. apply (keeps_bind (fun _ => True)); [by apply keeps_mod|]. intros _ _ m. unfold bindM, getM.
  pose proof (umem_schedule esp (procs m)) as E. destruct (schedule esp (procs m)) as [r k]. cbn in *.
  split; [|done]. split; [exists []; by rewrite app_nil_r|]. intros x _. cbn. by rewrite E.
Qed.

Ltac keep_call :=
  repeat (lazymatch goal with
          | |- keeps _ (with_fs _ _ _) => apply keeps_with_fs; intros ?
          | |- keeps _ (read_chunk_at _ _ _ _ _ _) => apply keeps_chunk
          | |- keeps _ (bindM (resolve_dir _ _) _) => apply (keeps_bind (fun _ => True)); [by apply keeps_resolve_dir|intros ? _]
          | _ => keep_step
          end; cbv beta zeta).

Lemma keeps_handlers : Forall (fun handler => forall esp, keeps (fun _ => True) (handler esp)) (syscall_table (F := F) font8x16).
Proof.
  unfold syscall_table. repeat (apply Forall_cons_2); [intros esp..|apply Forall_nil_2].
  all: try (apply keeps_exit || apply keeps_yield).
  all: unfold sys_write_char, sys_write_char_no_upd, sys_write_char_color, sys_write_string, sys_write_string_no_upd,
    sys_write_string_color, write_string, sys_write_string_len, sys_write_string_len_no_upd, write_string_len, sys_read_char,
    sys_get_screen_dims, sys_get_cursor, sys_set_cursor, sys_set_cursor_no_upd, sys_clear_screen, sys_set_scrollback,
    sys_get_ticks, sys_get_epoch, out64, sys_read_chunk, sys_resolve_dir, sys_resolve_symlink, resolve, sys_get_stat, sys_make_dir,
    sys_make_inode, sys_make, sys_remove_inode, sys_remove_dir, sys_remove, sys_replace_inode, sys_append_to_inode,
    sys_truncate_inode, sys_rename_inode, sys_link_inode, sys_make_symlink, sys_inode_is_mountpoint, sys_mount_fs,
    sys_umount_fs, mount_call, sys_halt.
  all: keep_call.
Qed.


(** ** Printing a string *)

Lemma read_step {A} a n (k : list Z -> M machine A) m : bindM (user_read a n) k m = k (umem (procs m) <$> seqZ a n) (touch a n m).
Proof. reflexivity. Qed.
Lemma frame_step {A} esp i (k : Z -> M machine A) m : bindM (frame esp i) k m = k (u32 (word (procs m) (esp + 4 * i))) m.
Proof. reflexivity. Qed.

(** At [s] in the user's space stand the bytes [x], none of them zero, and a
    terminator. *)
Record user_cstring m (s : Z) (x : list Z) : Prop := mkCstring {
  us_bytes : Forall (fun c => 0 < c < 256) x;
  us_range : KERNEL_CEILING <= s /\ s + Z.of_nat (length x) < USER_SPACE_END;
  us_mem : forall k c, x !! k = Some c -> umem (procs m) (s + Z.of_nat k) = c;
  us_end : umem (procs m) (s + Z.of_nat (length x)) = 0
}.

Definition t_print (colr : Z) (t : term) (c : Z) : term := t_char c colr t.

(** [m'] is [m] after the bytes [x] went to the serial port and the console. *)
Record printed (colr : Z) (x : list Z) m m' : Prop := mkPrinted {
  pr_serial : serial m' = serial m ++ x;
  pr_screen : abs (screen m') = fold_left (t_print colr) x (abs (screen m));
  pr_wf : fb_wf (screen m'); pr_shown : displays font8x16 (screen m');
  pr_rest : procs m' = procs m /\ files m' = files m /\ g_rb m' = g_rb m /\ clock m' = clock m
}.

Lemma printed_trans colr x y m1 m2 m3 : printed colr x m1 m2 -> printed colr y m2 m3 -> printed colr (x ++ y) m1 m3.
Proof.
  intros [A1 A2 _ _ (A3 & A4 & A5 & A6)] [B1 B2 B3 B4 (B5 & B6 & B7 & B8)]. split; [|  |done|done|].
  - by rewrite B1, A1, app_assoc.
  - by rewrite B2, A2, fold_left_app.
  - repeat split; congruence.
Qed.

Lemma printed_touch colr x a n m m' : printed colr x (touch a n m) m' -> printed colr x m m'.
Proof. by intros []. Qed.

Lemma echo_prints (upd : bool) colr c m : length font8x16 = 4096%nat -> 0 <= c < 256 -> 0 <= colr ->
  fb_wf (screen m) -> displays font8x16 (screen m) -> exists m', echo font8x16 upd colr c m = Done tt m' /\ printed colr [c] m m'.
Proof.
  intros Hf Hc Hk Hw Hd. unfold echo, serial_write_char, bindM, modM, on_screen_of, on_part. cbn [screen set_serial].
  assert (wp (if upd then fb_draw_char_upd font8x16 c colr else fb_draw_char_no_upd font8x16 c colr)
    (fun _ s' => settled font8x16 s' (t_char c colr (abs (screen m)))) (screen m)) as HW.
  { destruct upd; [|by apply draw_char_no_upd_spec]. eapply wp_mono; [by apply draw_char_upd_spec|]. by intros u s' [? _]. }
  apply wp_inv in HW as ([] & s' & E & HS). rewrite E. eexists. split; [reflexivity|].
  apply settled_displays in HS as (Hw' & Hd' & Ha'); [|done]. by split.
Qed.

Lemma print_loop (upd : bool) colr s x fuel i m : length font8x16 = 4096%nat -> 0 <= colr ->
  fb_wf (screen m) -> displays font8x16 (screen m) -> 0 <= i -> KERNEL_CEILING <= s -> user_cstring m (s + i) x -> (length x < fuel)%nat ->
  exists m', string_loop (echo font8x16 upd colr) fuel s i m = Done (Some (i + Z.of_nat (length x))) m' /\ printed colr x m m'.
Proof.
  intros Hf Hk. revert fuel i m. induction x as [|c x IH]; intros fuel i m Hw Hd Hi Hs [Hb Hr Hm He] Hfu;
    (destruct fuel as [|fuel]; [lia|]); cbn [string_loop]; pose proof user_end;
    (assert (u32 (s + i) = s + i) as -> by (unfold u32; apply Z.mod_small; simpl in Hr; lia));
    (assert (bad_byte (s + i) = false) as -> by (unfold bad_byte; simpl in Hr; lia));
    rewrite read_step, (seqZ_cons (s + i) 1) by lia;
    cbn [fmap list_fmap lookup_total list_lookup_total].
  - simpl in He. rewrite Z.add_0_r in He |- *. rewrite He. eexists. split; [reflexivity|].
    split; cbn; [by rewrite app_nil_r|done..].
  - pose proof (Hm 0%nat c eq_refl) as Hc. rewrite Z.add_0_r in Hc. rewrite Hc.
    inversion Hb as [|? ? Hc0 Hb']; subst. rewrite (proj2 (Z.eqb_neq _ 0)) by lia.
    destruct (echo_prints upd colr (umem (procs m) (s + i)) (touch (s + i) 1 m) Hf ltac:(lia) Hk Hw Hd) as (m1 & E1 & P1).
    rewrite (bindM_Done _ _ _ _ _ E1).
    assert (u32 (i + 1) = i + 1) as -> by (unfold u32; apply Z.mod_small; simpl in Hr; lia).
    assert (procs m1 = procs m) as Hp by exact (proj1 (pr_rest _ _ _ _ P1)).
    destruct (IH fuel (i + 1) m1 (pr_wf _ _ _ _ P1) (pr_shown _ _ _ _ P1)) as (m2 & E2 & P2); [lia|done| |simpl in Hfu; lia|].
    { split; [done|simpl in Hr; lia| |].
      - intros k c Hkc. rewrite Hp, <- (Hm (S k) c Hkc). f_equal. lia.
      - rewrite Hp, <- He. f_equal. simpl. lia. }
    exists m2. split; [rewrite E2; do 2 f_equal; simpl; lia|].
    eapply printed_touch. exact (printed_trans colr [_] x (touch (s + i) 1 m) m1 m2 P1 P2).
Qed.

(** Printing a string through the whole stack: a call with number 2 and the
    address of a terminated string in the program's pages sends exactly the
    bytes of the string to the serial port, advances the terminal by them with
    the screen showing it, answers 0 and touches nothing else. *)
Theorem sys_write_string_correct (esp : Z) m (x : list Z) :
  length font8x16 = 4096%nat -> fb_wf (screen m) -> displays font8x16 (screen m) ->
  u32 (word (procs m) (esp + 4 * 7)) = 2 ->
  user_cstring m (u32 (word (procs m) (esp + 4 * 4))) x ->
  exists m1, printed WHITE x m m1 /\
    syscall_handler font8x16 esp m = Done esp (set_procs (put_word (esp + 4 * 7) 0 (procs m)) m1).
Proof.
  intros Hf Hw Hd He Hx. set (s := u32 (word (procs m) (esp + 4 * 4))) in *.
  unfold syscall_handler. rewrite frame_step, He.
  destruct (us_range _ _ _ Hx) as [Hr1 Hr2].
  destruct (print_loop true WHITE s x (string_fuel s) 0 m Hf) as (m1 & E & P); [done|done|done|done|done| |unfold string_fuel; lia|].
  { by rewrite Z.add_0_r. }
  exists m1. split; [done|]. change (sys_write_string font8x16 esp m = Done esp (set_procs (put_word (esp + 4 * 7) 0 (procs m)) m1)).
  unfold sys_write_string, write_string. rewrite frame_step. fold s.
  unfold user_string. rewrite (bindM_Done _ _ _ _ _ E). unfold answer, set_eax, bindM, modM, retM.
  by rewrite (proj1 (pr_rest _ _ _ _ P)).
Qed.

End boundary.

(** A program with the string OK at its start calls with ebx pointing at it. *)
Definition demo_machine : machine :=
  mkMachine
    (mkK (mkHeap HEAP_START (HEAP_START + 4096)
            (fun a => if a =? 0x3000001C then 2 else if a =? 0x30000010 then 0x40000000 else 0) empty_dir)
       (PQueue.mkPq (replicate 256 0) 0 0) 0 0 [] (fun a => if a =? 0x40000000 then 79 else if a =? 0x40000001 then 75 else 0))
    Bitmap.Demo.state (mkRb (replicate 256 0) 0 0) demo_screen (Timer.mkTimer 0 0) [] [].

Lemma sys_write_string_correct_witness : exists m1,
  serial m1 = [79; 75] /\ t_screen (abs (screen m1)) = [mkChar 79 15; mkChar 75 15; blank; blank; blank; blank] /\
  syscall_handler demo_font 0x30000000 demo_machine =
    Done 0x30000000 (set_procs (put_word 0x3000001C 0 (procs demo_machine)) m1).
Proof.
  destruct demo_screen_ok as [Hw Hd].
  destruct (sys_write_string_correct demo_font 0x30000000 demo_machine [79; 75] demo_font_length Hw Hd eq_refl) as (m1 & P & E).
  - split; [repeat constructor|done| |done]. intros [|[|k]] c Hk; [by injection Hk as <-..|done].
  - exists m1. split; [exact (pr_serial _ _ _ _ _ P)|]. split; [|exact E].
    rewrite (pr_screen _ _ _ _ _ P). by vm_compute.
Defined.
