(* ===== verification/User.v ===== *)
(** * User programs: the kernel as they see it, and what the commands share

    A user program acts on the world through system calls.  The calls that
    print are the operations of the terminal of [ScreenSpec]; the calls on
    files are the class [UserKernel], which a program is written against.  Below
    it come the helpers of user/app/depsh/depshCommon.c and the command touch,
    which the editor calls.  A C string is the list of its bytes without the
    terminator. *)
From S2P Require Import Prelude Bytes Scheduler Inode Screen ScreenSpec.

(** ** The calls on files

    Each answers as its handler does: an inode number or [SYSCALL_ERROR], and
    the number of the file system the handler stores through its pointer. *)
Class UserKernel (K : Type) : Type := {
  uk_resolve_dir : list Z -> K -> Z * Z;
  uk_resolve_symlink : list Z -> K -> Z * Z;
  uk_get_stat : Z -> Z -> K -> option (list Z);
  uk_read_chunk : Z -> Z -> Z -> K -> Z * list Z;
  uk_touch : Z -> Z -> list Z -> K -> Z * Z * K;
  uk_fsave : Z -> Z -> list Z -> K -> Z * K;
  uk_ticks : K -> Z
}.

Section user.
Context {K : Type} `{UserKernel K}.

(** The terminal, the kernel, and the [dir] of the shell. *)
Record world : Type := mkW { con : term; kern : K; dir : list Z }.

Definition on_con (f : term -> term) (w : world) : world := mkW (f (con w)) (kern w) (dir w).
Definition set_kern (k : K) (w : world) : world := mkW (con w) k (dir w).

(** Bytes written one by one, in a colour. *)
Definition t_write (colr : Z) (s : list Z) (t : term) : term := fold_left (fun t c => t_char c colr t) s t.

Definition say (s : list Z) (w : world) : world := on_con (t_write WHITE s) w.

(** ** depshCommon.c *)

Definition SLASH : Z := 47.
Definition PATH_BUF : Z := 256.

(** [return_path]: a path, its [NULL], or a store behind [full_path]. *)
Inductive path_res : Type := PathIs (p : list Z) | PathTooLong | PathOverrun.

(** The loop that appends [args] at index [i]; it refuses index 255. *)
Definition append_args (i : Z) (args : list Z) : bool := Z.of_nat (length args) <=? Z.max 0 (255 - i).

Definition return_path (cwd args : list Z) : path_res :=
  if bool_decide (head args = Some SLASH) then PathIs args
  else if PATH_BUF <=? Z.of_nat (length cwd) then PathTooLong
  else
    let i := Z.of_nat (length cwd) + 1 in
    if negb (append_args i args) then PathTooLong
    else if PATH_BUF <=? i + Z.of_nat (length args) then PathOverrun
    else PathIs (cwd ++ SLASH :: args).

(** Whether the inode [get_stat] describes is a directory; [stat_buf] keeps
    what it held, [old], when the call fails. *)
Definition is_dir (old : list Z) (inode_n fs : Z) (k : K) : bool :=
  Z.land (ld16 (default old (uk_get_stat fs inode_n k)) 0) NO_PERMISSION_MASK =? INODE_DIR_TYPE.

(** [while (len > 1 && abs_path[len - 1] == '/') abs_path[--len] = 0;] on the
    reversed path. *)
Fixpoint drop_slashes (rev_path : list Z) : list Z :=
  match rev_path with
  | c :: (_ :: _) as rest => if c =? SLASH then drop_slashes rest else rev_path
  | _ => rev_path
  end.

(** The index of the last slash, or -1. *)
Definition last_slash (path : list Z) : Z :=
  (for_range (length path) 0 (fun i last => if path !!! Z.to_nat i =? SLASH then i else last) (-1)).

(** [split_parent_leaf]: the parent, as the inode and file system, and the leaf.
    The string is cut at the last slash, in place. *)
Definition split_parent_leaf (abs_path : list Z) (k : K) : option (Z * Z * list Z) :=
  let path := rev (drop_slashes (rev abs_path)) in
  let last := last_slash path in
  if last <? 0 then None
  else
    let leaf := drop (Z.to_nat (last + 1)) path in
    let parent := if last =? 0 then [SLASH] else take (Z.to_nat last) path in
    let (parent_n, fs) := uk_resolve_dir parent k in
    if parent_n =? SYSCALL_ERROR then None else Some (parent_n, fs, leaf).

(** ** cmds/touch.c *)

(** A message and the newline that ends it. *)
Definition line (s : string) : list Z := bytes_of s ++ [10].

(** [None] is the store behind [full_path]. *)
Definition cmd_touch (args : list Z) (w : world) : option world :=
  if bool_decide (head args = Some 45) then
    Some (say (line " does not exist") (say args (say (10 :: bytes_of "touch: option ") w)))
  else
    match return_path (dir w) args with
    | PathOverrun => None
    | PathTooLong => Some (say (line "touch: current path is too long to fully parse") w)
    | PathIs path =>
        if bool_decide (path = []) then Some (say (line "touch: no path provided") w)
        else if negb ((uk_resolve_symlink path (kern w)).1 =? SYSCALL_ERROR) then
          Some (say (line "touch: file already exists") w)
        else
          match split_parent_leaf path (kern w) with
          | None => Some (say (line "touch: given parent directory does not exist") w)
          | Some (parent_n, parent_fs, leaf) =>
              let '(ino, _, k) := uk_touch parent_fs parent_n leaf (kern w) in
              let w := set_kern k w in
              Some (if ino =? SYSCALL_ERROR then say (line "touch: failed (out of space or disk error)") w else w)
          end
    end.

(** What [cmd_touch] leaves in the string [args] itself: [return_path] gives an
    absolute path back as it is, and [split_parent_leaf] cuts it in place. *)
Definition touch_args (args : list Z) (w : world) : list Z :=
  if bool_decide (head args = Some SLASH) && ((uk_resolve_symlink args (kern w)).1 =? SYSCALL_ERROR)
  then let path := rev (drop_slashes (rev args)) in take (Z.to_nat (last_slash path)) path
  else args.

(** Only an empty argument in a [dir] of 255 bytes runs over the buffer. *)
Lemma return_path_overrun cwd args : return_path cwd args = PathOverrun <-> args = [] /\ length cwd = 255%nat.
Proof.
  unfold return_path, append_args, PATH_BUF. split.
  - destruct (bool_decide _); [done|]. destruct (Z.leb_spec 256 (Z.of_nat (length cwd))); [done|].
    destruct (Z.leb_spec (Z.of_nat (length args)) (Z.max 0 (255 - (Z.of_nat (length cwd) + 1)))); cbn [negb]; [|done].
    destruct (Z.leb_spec 256 (Z.of_nat (length cwd) + 1 + Z.of_nat (length args))); [|done]. intros _.
    assert (length args = 0%nat) by lia. split; [by apply nil_length_inv|lia].
  - intros [-> E]. by rewrite E.
Qed.

End user.
