(* ===== verification/Dinv.v ===== *)
(** * The editor: user/app/dinv/dinv.c

    A modal editor over a gap buffer: [text] holds the bytes before the cursor
    in [[0, gap_start)] and those behind it in [[gap_end, TEXT_CAP)].  After
    each key it repaints only what [replacement_status] says was damaged.  The
    screen is the terminal of [ScreenSpec], the files are behind [UserKernel].
    [text] is a function from index to byte; the static buffer [linebuf] is the
    list of bytes a routine has put into it. *)
From S2P Require Import Prelude Bytes CLib Scheduler Inode Screen ScreenSpec User.

Definition KEY_ESC : Z := 27.
Definition NEWLINE : Z := 10.
Definition BACKSPACE : Z := 8.
Definition TEXT_CAP : Z := 262144.
Definition COL_OFFSET : Z := 6.
Definition LINEBUF_SIZE : Z := 256.
Definition CMD_BUF_SIZE : Z := 64.
Definition blank_header : list Z := replicate 6 32.

Inductive mode_t : Type := MODE_NORMAL | MODE_INSERT | MODE_COMMAND.
Inductive damage : Type := DMG_NONE | DMG_TAIL | DMG_CMD | DMG_BELOW | DMG_FULL.

#[export] Instance mode_t_eq_dec : EqDecision mode_t.
Proof. solve_decision. Defined.
#[export] Instance damage_eq_dec : EqDecision damage.
Proof. solve_decision. Defined.

(** ** The gap buffer *)

Record gap : Type := mkGap { text : Z -> Z; gap_start : Z; gap_end : Z }.

Definition put_text (i c : Z) (t : Z -> Z) : Z -> Z := fun x => if x =? i then c else t x.
Definition is_nl (c : Z) : bool := c =? NEWLINE.

Definition buf_rows (g : gap) : Z :=
  let count := fun i r => if is_nl (text g i) then r + 1 else r in
  let r := for_range (Z.to_nat (gap_start g)) 0 count 1 in
  for_range (Z.to_nat (TEXT_CAP - gap_end g)) (gap_end g) count r.

Definition sanitize (c : Z) : Z := if (c <? 0x20) || (c =? 0x7F) then 46 else c.

Definition cursor_right (g : gap) : gap :=
  if gap_end g =? TEXT_CAP then g
  else mkGap (put_text (gap_start g) (text g (gap_end g)) (text g)) (gap_start g + 1) (gap_end g + 1).

Definition cursor_left (g : gap) : gap :=
  if gap_start g =? 0 then g
  else
    let e := gap_end g - 1 in
    let s := gap_start g - 1 in
    mkGap (put_text e (text g s) (text g)) s e.

(** [while (gap_end != target) cursor_right();] and its mirror. *)
Fixpoint go_right (fuel : nat) (target : Z) (g : gap) : gap :=
  match fuel with
  | O => g
  | S fuel => if gap_end g =? target then g else go_right fuel target (cursor_right g)
  end.
Fixpoint go_left (fuel : nat) (target : Z) (g : gap) : gap :=
  match fuel with
  | O => g
  | S fuel => if gap_start g =? target then g else go_left fuel target (cursor_left g)
  end.

Definition cursor_rowcol (g : gap) : Z * Z :=
  for_range (Z.to_nat (gap_start g)) 0 (fun i rc =>
    if is_nl (text g i) then (rc.1 + 1, 0) else (rc.1, rc.2 + 1)) (0, 0).

(** [while (p > 0 && text[p - 1] != '\n') p--;] *)
Fixpoint line_begin (t : Z -> Z) (p : nat) : Z :=
  match p with
  | O => 0
  | S q => if is_nl (t (Z.of_nat q)) then Z.of_nat p else line_begin t q
  end.

(** [while (p < TEXT_CAP && text[p] != '\n') p++;] *)
Fixpoint line_end (t : Z -> Z) (fuel : nat) (p : Z) : Z :=
  match fuel with
  | O => p
  | S fuel => if (p <? TEXT_CAP) && negb (is_nl (t p)) then line_end t fuel (p + 1) else p
  end.
Definition line_end_from (t : Z -> Z) (p : Z) : Z := line_end t (Z.to_nat (TEXT_CAP - p)) p.

(** [for (k = 0; k < col; k++) { if (gap_end == TEXT_CAP || text[gap_end] == '\n') break; cursor_right(); }] *)
Fixpoint right_in_line (n : nat) (g : gap) : gap :=
  match n with
  | O => g
  | S n => if (gap_end g =? TEXT_CAP) || is_nl (text g (gap_end g)) then g else right_in_line n (cursor_right g)
  end.

(** The keys j and k. *)
Definition cursor_down (g : gap) : gap :=
  let p := line_end_from (text g) (gap_end g) in
  let (row, col) := cursor_rowcol g in
  if p =? TEXT_CAP then g
  else right_in_line (Z.to_nat col) (go_right (Z.to_nat (TEXT_CAP - gap_end g)) (p + 1) g).

Definition cursor_up (g : gap) : gap :=
  let p := line_begin (text g) (Z.to_nat (gap_start g)) in
  let (row, col) := cursor_rowcol g in
  if p =? 0 then g
  else
    let g := go_left (Z.to_nat (gap_start g)) (p - 1) g in
    let col_temp := (cursor_rowcol g).2 in
    Nat.iter (Z.to_nat (col_temp - col)) cursor_left g.

(** ** The state *)

Section editor.
Context {K : Type} `{UserKernel K}.

Record ed : Type := mkEd {
  buf : gap; screen_rows : Z; screen_cols : Z; text_rows : Z; top_row : Z; left_col : Z;
  mode : mode_t; running : bool; cmd_buf : list Z; cmd_len : Z; path : list Z;
  replacement_status : damage; args_save : list Z;
  complaint : list Z; complaining : bool; complaint_expiry : Z;
  w : world (K := K)
}.

Definition with_buf (g : gap) (e : ed) : ed :=
  mkEd g (screen_rows e) (screen_cols e) (text_rows e) (top_row e) (left_col e) (mode e) (running e) (cmd_buf e) (cmd_len e)
    (path e) (replacement_status e) (args_save e) (complaint e) (complaining e) (complaint_expiry e) (w e).
Definition with_scroll (top left : Z) (e : ed) : ed :=
  mkEd (buf e) (screen_rows e) (screen_cols e) (text_rows e) top left (mode e) (running e) (cmd_buf e) (cmd_len e)
    (path e) (replacement_status e) (args_save e) (complaint e) (complaining e) (complaint_expiry e) (w e).
Definition with_mode (m : mode_t) (e : ed) : ed :=
  mkEd (buf e) (screen_rows e) (screen_cols e) (text_rows e) (top_row e) (left_col e) m (running e) (cmd_buf e) (cmd_len e)
    (path e) (replacement_status e) (args_save e) (complaint e) (complaining e) (complaint_expiry e) (w e).
Definition with_running (b : bool) (e : ed) : ed :=
  mkEd (buf e) (screen_rows e) (screen_cols e) (text_rows e) (top_row e) (left_col e) (mode e) b (cmd_buf e) (cmd_len e)
    (path e) (replacement_status e) (args_save e) (complaint e) (complaining e) (complaint_expiry e) (w e).
Definition with_cmd (b : list Z) (n : Z) (e : ed) : ed :=
  mkEd (buf e) (screen_rows e) (screen_cols e) (text_rows e) (top_row e) (left_col e) (mode e) (running e) b n
    (path e) (replacement_status e) (args_save e) (complaint e) (complaining e) (complaint_expiry e) (w e).
Definition damaged (d : damage) (e : ed) : ed :=
  mkEd (buf e) (screen_rows e) (screen_cols e) (text_rows e) (top_row e) (left_col e) (mode e) (running e) (cmd_buf e) (cmd_len e)
    (path e) d (args_save e) (complaint e) (complaining e) (complaint_expiry e) (w e).
Definition with_complaint (c : list Z) (on : bool) (expiry : Z) (e : ed) : ed :=
  mkEd (buf e) (screen_rows e) (screen_cols e) (text_rows e) (top_row e) (left_col e) (mode e) (running e) (cmd_buf e) (cmd_len e)
    (path e) (replacement_status e) (args_save e) c on expiry (w e).
Definition with_world (w' : world) (e : ed) : ed :=
  mkEd (buf e) (screen_rows e) (screen_cols e) (text_rows e) (top_row e) (left_col e) (mode e) (running e) (cmd_buf e) (cmd_len e)
    (path e) (replacement_status e) (args_save e) (complaint e) (complaining e) (complaint_expiry e) w'.

Definition with_args (a : list Z) (e : ed) : ed :=
  mkEd (buf e) (screen_rows e) (screen_cols e) (text_rows e) (top_row e) (left_col e) (mode e) (running e) (cmd_buf e) (cmd_len e)
    (path e) (replacement_status e) a (complaint e) (complaining e) (complaint_expiry e) (w e).

(** [write_string_len_no_upd] and the like, and the two cursor calls. *)
Definition emit (s : list Z) (e : ed) : ed := with_world (say s (w e)) e.
Definition at_pos (r c : Z) (e : ed) : ed := with_world (on_con (t_set_cursor (u32 r) (u32 c)) (w e)) e.

Definition text_cols (e : ed) : Z :=
  let rest := u32 (screen_cols e - COL_OFFSET) in
  if rest <? LINEBUF_SIZE then rest else LINEBUF_SIZE.

(** ** Scrolling *)

Definition check_scroll (e : ed) : ed :=
  let (cursor_row, cursor_col) := cursor_rowcol (buf e) in
  let width := text_cols e in
  let e :=
    if cursor_row <? top_row e then damaged DMG_FULL (with_scroll cursor_row (left_col e) e)
    else if u32 (top_row e + text_rows e) <=? cursor_row then
      damaged DMG_FULL (with_scroll (u32 (cursor_row - text_rows e + 1)) (left_col e) e)
    else e in
  if cursor_col <? left_col e then damaged DMG_FULL (with_scroll (top_row e) cursor_col e)
  else if u32 (left_col e + width) <=? cursor_col then
    damaged DMG_FULL (with_scroll (top_row e) (u32 (cursor_col - width + 1)) e)
  else e.

(** ** Painting *)

(** The digits of [row] into the slots left, from the last one on. *)
Fixpoint header_digits (slots : nat) (row : Z) (acc : list Z) : list Z :=
  match slots with
  | O => acc
  | S slots =>
      let acc := (48 + row mod 10) :: acc in
      if 0 <? row / 10 then header_digits slots (row / 10) acc else acc
  end.
Definition line_header (row : Z) : list Z :=
  let d := header_digits 4 row [] in replicate (4 - length d) 32 ++ d ++ [62; 32].
Definition write_line_header (row : Z) (e : ed) : ed := emit (line_header row) e.

(** [for (i = begin; i < stop && n < width; i++) if (c++ >= left_col) linebuf[n++] = sanitize(text[i]);]
    [n] is the length of [out]. *)
Fixpoint collect (fuel : nat) (t : Z -> Z) (left width stop : Z) (i c : Z) (out : list Z) : Z * list Z :=
  match fuel with
  | O => (c, out)
  | S fuel =>
      if (i <? stop) && (Z.of_nat (length out) <? width)
      then collect fuel t left width stop (i + 1) (c + 1) (if left <=? c then out ++ [sanitize (t i)] else out)
      else (c, out)
  end.
Definition collect_range (t : Z -> Z) (left width start stop c : Z) (out : list Z) : Z * list Z :=
  collect (Z.to_nat (stop - start)) t left width stop start c out.

(** [while (n < width) linebuf[n++] = ' ';] *)
Definition pad (width : Z) (out : list Z) : list Z := out ++ replicate (Z.to_nat width - length out) 32.

(** The line of the cursor: what is before the gap, then what is behind it. *)
Definition cursor_line (g : gap) (left width : Z) : list Z :=
  let begin := line_begin (text g) (Z.to_nat (gap_start g)) in
  let end_ := line_end_from (text g) (gap_end g) in
  let (c, out) := collect_range (text g) left width begin (gap_start g) 0 [] in
  pad width (collect_range (text g) left width (gap_end g) end_ c out).2.

(** A row of the text area. *)
Definition paint_row (r : Z) (header body : list Z) (e : ed) : ed := emit body (emit header (at_pos r 0 e)).

Definition render_tail (e : ed) : ed :=
  let (cursor_row, _) := cursor_rowcol (buf e) in
  let width := text_cols e in
  if text_rows e <=? u32 (cursor_row - top_row e) then e
  else
    paint_row (cursor_row - top_row e) (if cursor_row <? buf_rows (buf e) then line_header cursor_row else [])
      (cursor_line (buf e) (left_col e) width) e.

(** The loop over the rows below the cursor, from row [r] on, whose text starts
    at [next_begin]. *)
Fixpoint below_loop (fuel : nat) (num_rows width : Z) (r next_begin : Z) (e : ed) : ed :=
  match fuel with
  | O => e
  | S fuel =>
      if u32 (r - top_row e) <? text_rows e then
        let t := text (buf e) in
        let next_end := line_end_from t next_begin in
        let out := (collect_range t (left_col e) width next_begin next_end 0 []).2 in
        let e := paint_row (r - top_row e) (if r <? num_rows then line_header r else blank_header) (pad width out) e in
        below_loop fuel num_rows width (r + 1) (if next_end <? TEXT_CAP then next_end + 1 else TEXT_CAP) e
      else e
  end.

Definition render_below (e : ed) : ed :=
  let (cursor_row, _) := cursor_rowcol (buf e) in
  let num_rows := buf_rows (buf e) in
  let width := text_cols e in
  let t := text (buf e) in
  if text_rows e <=? u32 (cursor_row - top_row e) then e
  else
    let begin := line_begin t (Z.to_nat (gap_start (buf e))) in
    let end_ := line_end_from t (gap_end (buf e)) in
    let e :=
      if 0 <? u32 (cursor_row - top_row e) then
        let start := cursor_row - 1 in
        let prev_begin := line_begin t (Z.to_nat (begin - 1)) in
        let out := (collect_range t (left_col e) width prev_begin (begin - 1) 0 []).2 in
        paint_row (start - top_row e) (if start <? num_rows then line_header start else []) (pad width out) e
      else e in
    let e := paint_row (cursor_row - top_row e) (if cursor_row <? num_rows then line_header cursor_row else [])
               (cursor_line (buf e) (left_col e) width) e in
    below_loop (Z.to_nat (text_rows e)) num_rows width (cursor_row + 1)
      (if end_ <? TEXT_CAP then end_ + 1 else TEXT_CAP) e.

(** [pos++; if (pos == gap_start) pos = gap_end;] *)
Definition next_pos (g : gap) (pos : Z) : Z := if pos + 1 =? gap_start g then gap_end g else pos + 1.

(** A line read from [pos] on, across the gap: its visible part, and where it ends. *)
Fixpoint scan_line (fuel : nat) (g : gap) (left width pos c : Z) (out : list Z) : Z * list Z :=
  match fuel with
  | O => (pos, out)
  | S fuel =>
      if (pos <? TEXT_CAP) && negb (is_nl (text g pos)) then
        scan_line fuel g left width (next_pos g pos) (c + 1)
          (if (left <=? c) && (Z.of_nat (length out) <? width) then out ++ [sanitize (text g pos)] else out)
      else (pos, out)
  end.
Definition scan_line_from (g : gap) (left width pos : Z) : Z * list Z :=
  let (p, out) := scan_line (Z.to_nat (TEXT_CAP - pos)) g left width pos 0 [] in
  (if p <? TEXT_CAP then next_pos g p else p, out).

(** The rows of the screen from [r] on, [n] of them. *)
Fixpoint full_loop (n : nat) (num_rows width : Z) (r pos : Z) (e : ed) : ed :=
  match n with
  | O => e
  | S n =>
      let (pos, out) := scan_line_from (buf e) (left_col e) width pos in
      let e := paint_row r (if r + top_row e <? num_rows then line_header (r + top_row e) else blank_header) (pad width out) e in
      full_loop n num_rows width (r + 1) pos e
  end.

Definition render_full (e : ed) : ed :=
  let g := buf e in
  let pos := if 0 =? gap_start g then gap_end g else 0 in
  let pos := Nat.iter (Z.to_nat (top_row e)) (fun p => (scan_line_from g 0 0 p).1) pos in
  full_loop (Z.to_nat (text_rows e)) (buf_rows g) (text_cols e) 0 pos e.

Definition render_cmd (e : ed) : ed :=
  let width := text_cols e + COL_OFFSET in
  let width := if LINEBUF_SIZE <? width then LINEBUF_SIZE else width in
  let e := emit (replicate (Z.to_nat (width - 2)) 32) (at_pos (screen_rows e - 1) 1 e) in
  emit (take (Z.to_nat (cmd_len e)) (cmd_buf e)) (at_pos (screen_rows e - 1) 1 e).

Definition mode_line (e : ed) : list Z :=
  if complaining e then complaint e
  else match mode e with
       | MODE_NORMAL => bytes_of "NORMAL"
       | MODE_INSERT => bytes_of "INSERT"
       | MODE_COMMAND => bytes_of ":"
       end.

Definition render_damage (e : ed) : ed :=
  match replacement_status e with
  | DMG_NONE => e
  | DMG_TAIL => render_tail e
  | DMG_BELOW => render_below e
  | DMG_FULL => render_full e
  | DMG_CMD => render_cmd e
  end.

Definition gap_render (e : ed) : ed :=
  let e := render_damage e in
  let e := emit (mode_line e) (at_pos (screen_rows e - 1) 0 e) in
  match mode e with
  | MODE_COMMAND =>
      if u32 (screen_cols e - 1) <=? cmd_len e then at_pos (screen_rows e - 1) (screen_cols e - 1) e
      else at_pos (screen_rows e - 1) (cmd_len e + 1) e
  | _ =>
      let (row, col) := cursor_rowcol (buf e) in
      at_pos (row - top_row e) (COL_OFFSET + col - left_col e) e
  end.

(** ** Commands *)

Definition complain (msg : string) (e : ed) : ed :=
  with_complaint (bytes_of msg) true (u64 (uk_ticks (kern (w e)) + 5000)) e.

Definition quit (e : ed) : ed := with_world (on_con (t_allow true) (w e)) (with_running false e).

(** The bytes handed to [fsave] once the gap is at the end. *)
Definition contents (g : gap) : list Z := text g <$> seqZ 0 (gap_start g).

(** [cmd_touch] is undefined only for the empty string in a working directory of
    255 characters; [args_save] is not empty at first, but [cmd_touch] cuts it. *)
Definition save (e : ed) : ed :=
  let e := with_buf (go_right (Z.to_nat (TEXT_CAP - gap_end (buf e))) TEXT_CAP (buf e)) e in
  let e := if (uk_resolve_dir (path e) (kern (w e))).1 =? SYSCALL_ERROR
           then with_args (touch_args (args_save e) (w e)) (with_world (default (w e) (cmd_touch (args_save e) (w e))) e) else e in
  let (ino, ino_fs) := uk_resolve_dir (path e) (kern (w e)) in
  if ino =? SYSCALL_ERROR then complain "Failed to save" e
  else
    let (r, k) := uk_fsave ino_fs ino (contents (buf e)) (kern (w e)) in
    let e := with_world (set_kern k (w e)) e in
    if r =? SYSCALL_ERROR then complain "Failed to save" e else e.

Definition save_quit (e : ed) : ed :=
  let e := save e in if complaining e then e else quit e.

Definition cmds : list (string * (ed -> ed)) :=
  [("q", quit); ("w", save); ("wq", save_quit); ("qa", quit); ("wa", save); ("wqa", save_quit)]%string.

(** The loop over [cmds]: whether one was found, and what they did. *)
Definition run_cmds (cmd : list Z) (e : ed) : bool * ed :=
  fold_left (fun fe nf =>
    if default false (streq (bytes_of nf.1 ++ [0]) cmd) then (true, nf.2 fe.2) else fe) cmds (false, e).

Definition handle_command (c : Z) (e : ed) : ed :=
  let e := with_mode MODE_COMMAND e in
  if 0x80 <=? c then e
  else if c =? KEY_ESC then with_cmd (cmd_buf e) 0 (damaged DMG_CMD (with_mode MODE_NORMAL e))
  else if c =? BACKSPACE then
    if 0 <? cmd_len e then damaged DMG_CMD (with_cmd (cmd_buf e) (cmd_len e - 1) e) else e
  else if c =? NEWLINE then
    let e := with_cmd (<[Z.to_nat (cmd_len e) := 0]> (cmd_buf e)) (cmd_len e) e in
    let (found, e) := run_cmds (cmd_buf e) e in
    let e := if negb found then complain "Command not found" e else e in
    with_cmd (cmd_buf e) 0 (damaged DMG_CMD (with_mode MODE_NORMAL e))
  else if cmd_len e <? CMD_BUF_SIZE - 1 then
    damaged DMG_CMD (with_cmd (<[Z.to_nat (cmd_len e) := c]> (cmd_buf e)) (cmd_len e + 1) e)
  else e.

(** ** Keys *)

Definition handle_insert (c : Z) (e : ed) : ed :=
  let e := with_mode MODE_INSERT e in
  let g := buf e in
  if 0x80 <=? c then e
  else if c =? KEY_ESC then with_mode MODE_NORMAL e
  else if c =? BACKSPACE then
    if 0 <? gap_start g then
      with_buf (mkGap (text g) (gap_start g - 1) (gap_end g))
        (damaged (if is_nl (text g (gap_start g - 1)) then DMG_BELOW else DMG_TAIL) e)
    else e
  else if gap_start g =? gap_end g then e
  else with_buf (mkGap (put_text (gap_start g) c (text g)) (gap_start g + 1) (gap_end g))
         (damaged (if is_nl c then DMG_BELOW else DMG_TAIL) e).

Definition handle_normal (c : Z) (e : ed) : ed :=
  let e := with_mode MODE_NORMAL e in
  if c =? 58 then with_complaint (complaint e) false (complaint_expiry e) (damaged DMG_CMD (with_mode MODE_COMMAND (with_cmd (cmd_buf e) 0 e)))
  else if c =? 105 then with_mode MODE_INSERT e
  else if c =? 97 then with_mode MODE_INSERT (with_buf (cursor_right (buf e)) e)
  else if c =? 104 then with_buf (cursor_left (buf e)) e
  else if c =? 106 then with_buf (cursor_down (buf e)) e
  else if c =? 107 then with_buf (cursor_up (buf e)) e
  else if c =? 108 then with_buf (cursor_right (buf e)) e
  else e.

(** One turn of the loop of [app_dinv] with a key. *)
Definition dinv_key (c : Z) (e : ed) : ed :=
  let e := damaged DMG_NONE e in
  let e := match mode e with
           | MODE_NORMAL => handle_normal c e
           | MODE_INSERT => handle_insert c e
           | MODE_COMMAND => handle_command c e
           end in
  gap_render (check_scroll e).

(** One turn without a key: a complaint ends after its time. *)
Definition dinv_idle (e : ed) : ed :=
  if complaining e && (complaint_expiry e <=? uk_ticks (kern (w e)))
  then gap_render (damaged DMG_CMD (with_complaint (complaint e) false (complaint_expiry e) e))
  else e.

(** ** The start *)

Inductive load_res : Type := LoadOk (g : gap) | LoadError | LoadOverrun.

(** The loop [text[gap_start++] = blk_bytes[i]] over a chunk; [None] is a store
    behind [text]. *)
Fixpoint load_bytes (blk : list Z) (g : gap) : option gap :=
  match blk with
  | [] => Some g
  | c :: blk =>
      if gap_start g <? TEXT_CAP
      then load_bytes blk (mkGap (put_text (gap_start g) c (text g)) (gap_start g + 1) (gap_end g))
      else None
  end.

(** [for (;;) { r = read_chunk(path_fs, path_n, n, fs_buf); ... }] from chunk
    [n] on.  Every turn but the last stores a byte, so that [TEXT_CAP + 1] turns
    are enough. *)
Fixpoint load_chunks (fuel : nat) (fs ino n : Z) (k : K) (g : gap) : load_res :=
  match fuel with
  | O => LoadOverrun
  | S fuel =>
      let (r, blk) := uk_read_chunk fs ino n k in
      if r =? 0 then LoadOk g
      else if r =? SYSCALL_ERROR then LoadError
      else match load_bytes (take (Z.to_nat r) blk) g with
           | Some g => load_chunks fuel fs ino (n + 1) k g
           | None => LoadOverrun
           end
  end.

(** [set_scrollback(false)] *)
Definition no_scrollback (e : ed) : ed := with_world (on_con (t_allow false) (w e)) e.

(** What [app_dinv] comes to before its loop: a return, a store behind a buffer,
    or the editor. *)
Inductive start_res : Type := Returns (w' : world (K := K)) | Overruns | Edits (e : ed).

(** [text0] is what the static array holds, [stat0] what [stat_buf] holds.  Of
    [cmd_buf] and [complaint] only what the run has written is read. *)
Definition app_dinv (args : list Z) (text0 : Z -> Z) (stat0 : list Z) (w : world) : start_res :=
  if bool_decide (args = []) then Returns (say (line "dinv: requires file path") w)
  else
    let w := on_con t_clear w in
    let rows := t_rows (con w) in
    let cols := t_cols (con w) in
    if cols <=? COL_OFFSET then Returns (say (line "dinv: resolution is too small to run") w)
    else
      match return_path (dir w) args with
      | PathTooLong => Returns (say (line "dinv: current path is too long to fully parse") w)
      | PathOverrun => Overruns
      | PathIs full =>
          let path := take 255 full in
          let start (g : gap) :=
            Edits (no_scrollback (gap_render (check_scroll
              (mkEd g rows cols (rows - 1) 0 0 MODE_NORMAL true (replicate 64 0) 0 path DMG_FULL args [] false 0 w)))) in
          let g := mkGap text0 0 TEXT_CAP in
          let (path_n, path_fs) := uk_resolve_dir path (kern w) in
          if path_n =? SYSCALL_ERROR then start g
          else
            let stat_buf := default stat0 (uk_get_stat path_fs path_n (kern w)) in
            if is_dir stat0 path_n path_fs (kern w) then Returns (say (line "dinv: dir provided, must give a file") w)
            else if TEXT_CAP <=? ld32 stat_buf 4 then
              Returns (say (line "dinv: file is too large to render properly") w)
            else match load_chunks (S (Z.to_nat TEXT_CAP)) path_fs path_n 0 (kern w) g with
                 | LoadOk g => start g
                 | LoadError =>
                     Returns (say [10] (say args
                       (say (bytes_of "dinv: an unknown error occurred while reading file ") w)))
                 | LoadOverrun => Overruns
                 end
      end.

End editor.
