(* ===== verification/DinvSpec.v ===== *)
(** * The editor as a text with a cursor, and the screen as its page

    First the gap buffer: the bytes before and behind the cursor are two lists,
    and every key acts on them as on a plain text ([dinv_edits_text]).  Then the
    screen: repainting only the damaged rows leaves the terminal showing exactly
    the page of the text at the scroll position ([dinv_shows_page]). *)
From S2P Require Import Prelude Bytes CLib Scheduler Inode Screen ScreenSpec User Dinv.

(** ** Texts *)

Definition zip_text : Type := list Z * list Z.

Fixpoint lines (l : list Z) : list (list Z) :=
  match l with
  | [] => [[]]
  | c :: l =>
      if is_nl c then [] :: lines l
      else match lines l with x :: xs => (c :: x) :: xs | [] => [[c]] end
  end.

Lemma lines_cons l : exists x xs, lines l = x :: xs.
Proof. destruct l as [|c l]; [eauto|]. simpl. destruct (is_nl c); [eauto|]. destruct (lines l); eauto. Qed.

Lemma lines_snoc l : exists xs x, lines l = xs ++ [x].
Proof.
  destruct (lines_cons l) as (y & ys & E). destruct (lines l) as [|z zs] using rev_ind; [done|eauto].
Qed.

(** Two pieces of text meet in one line. *)
Lemma lines_app b a pa xa xb qb : lines b = pa ++ [xa] -> lines a = xb :: qb -> lines (b ++ a) = pa ++ (xa ++ xb) :: qb.
Proof.
  intros Hb Ha. revert pa xa Hb. induction b as [|c b IH]; intros pa xa Hb.
  - simpl in Hb. destruct pa as [|y [|? ?]]; simplify_list_eq. done.
  - simpl in Hb |- *. destruct (lines_snoc b) as (pb & xb' & Eb). specialize (IH pb xb' Eb). rewrite IH. rewrite Eb in Hb.
    destruct (is_nl c).
    + assert (pa = [] :: pb /\ xa = xb') as [-> ->].
      { destruct pa as [|y pa]; [by destruct pb|]. injection Hb as <- Hb. by apply app_inj_tail in Hb as [-> ->]. }
      done.
    + destruct pb as [|y pb]; simpl in Hb |- *.
      * destruct pa as [|? [|? ?]]; simplify_list_eq. done.
      * destruct pa as [|z pa]; [by destruct pb|]. injection Hb as <- Hb. by apply app_inj_tail in Hb as [-> ->].
Qed.

Definition no_nl (x : list Z) : Prop := Forall (fun c => is_nl c = false) x.

Lemma lines_one x : no_nl x -> lines x = [x].
Proof. induction 1 as [|c x Hc _ IH]; [done|]. simpl. by rewrite Hc, IH. Qed.

Lemma lines_nl x l : no_nl x -> lines (x ++ NEWLINE :: l) = x :: lines l.
Proof. induction 1 as [|c x Hc _ IH]; [done|]. simpl in *. by rewrite Hc, IH. Qed.

(** The first line of a text, and what follows its newline. *)
Lemma first_line l : exists x, no_nl x /\ ((l = x /\ lines l = [x]) \/ exists r, l = x ++ NEWLINE :: r /\ lines l = x :: lines r).
Proof.
  induction l as [|c l (x & Hx & IH)].
  - exists []. split; [constructor|]. by left.
  - destruct (is_nl c) eqn:E.
    + exists []. split; [constructor|]. right. exists l. apply Z.eqb_eq in E as ->. done.
    + exists (c :: x). split; [by constructor|]. simpl. rewrite E. destruct IH as [[-> E2]|(r & -> & E2)]; rewrite E2; [by left|right; eauto].
Qed.

(** The last line of a text, and what precedes its newline. *)
Lemma last_line l : exists x, no_nl x /\ ((l = x /\ lines l = [x]) \/ exists r, l = r ++ NEWLINE :: x /\ lines l = lines r ++ [x]).
Proof.
  induction l as [|c l IH] using rev_ind.
  - exists []. split; [constructor|]. by left.
  - destruct IH as (x & Hx & IH). destruct (is_nl c) eqn:E.
    + exists []. split; [constructor|]. right. exists l. apply Z.eqb_eq in E as ->. split; [done|].
      destruct (lines_snoc l) as (p & y & El). rewrite (lines_app l [NEWLINE] p y [] [[]]) by done. rewrite El, app_nil_r, <- app_assoc. done.
    + exists (x ++ [c]). split; [apply Forall_app; split; [done|by constructor]|].
      assert (lines [c] = [[c]]) as Ec by (simpl; by rewrite E).
      destruct IH as [[-> E2]|(r & -> & E2)].
      * left. split; [done|]. by rewrite (lines_app x [c] [] x [c] []).
      * right. exists r. split; [by rewrite <- app_assoc|]. by rewrite (lines_app _ [c] (lines r) x [c] []).
Qed.

(** ** Runs *)

(** The inputs one after the other. *)
Fixpoint run {I S} (f : I -> S -> S) (l : list I) (s : S) : S := match l with [] => s | i :: l => run f l (f i s) end.

(** A run is simulated when every step is. *)
Lemma run_sim {I S S'} (P : S -> Prop) (abs : S -> S') (f : I -> S -> S) (f' : I -> S' -> S') :
  (forall i s, P s -> P (f i s) /\ abs (f i s) = f' i (abs s)) ->
  forall l s, P s -> P (run f l s) /\ abs (run f l s) = run f' l (abs s).
Proof.
  intros Hf l. induction l as [|i l IH]; intros s Hs; [done|]. destruct (Hf i s Hs) as [Hs' E]. cbn [run]. rewrite <- E. by apply IH.
Qed.
Lemma run_three {I S} (f : I -> S -> S) i j k s : run f [i; j; k] s = f k (f j (f i s)).
Proof. done. Qed.

(** ** The gap buffer *)

Record gap_ok (g : gap) : Prop := mkGapOk { go_start : 0 <= gap_start g; go_gap : gap_start g <= gap_end g; go_end : gap_end g <= TEXT_CAP }.

Definition before (g : gap) : list Z := text g <$> seqZ 0 (gap_start g).
Definition after (g : gap) : list Z := text g <$> seqZ (gap_end g) (TEXT_CAP - gap_end g).
Definition zip (g : gap) : zip_text := (before g, after g).

Lemma length_before g : gap_ok g -> Z.of_nat (length (before g)) = gap_start g.
Proof. intros [? ? ?]. unfold before. rewrite length_fmap, length_seqZ. lia. Qed.
Lemma length_after g : gap_ok g -> Z.of_nat (length (after g)) = TEXT_CAP - gap_end g.
Proof. intros [? ? ?]. unfold after. rewrite length_fmap, length_seqZ. lia. Qed.

Lemma lookup_before g i : 0 <= i < gap_start g -> before g !! Z.to_nat i = Some (text g i).
Proof. intros Hi. unfold before. rewrite list_lookup_fmap, lookup_seqZ_lt by lia. simpl. do 2 f_equal. lia. Qed.

Lemma after_cons g : gap_ok g -> gap_end g < TEXT_CAP ->
  after g = text g (gap_end g) :: (text g <$> seqZ (gap_end g + 1) (TEXT_CAP - (gap_end g + 1))).
Proof.
  intros [? ? ?] Hlt. unfold after. rewrite (seqZ_cons (gap_end g)) by lia. csimpl. do 3 f_equal; lia.
Qed.
Lemma after_nil g : gap_ok g -> gap_end g = TEXT_CAP -> after g = [].
Proof. intros _ E. unfold after. rewrite E. done. Qed.

Lemma before_snoc g : gap_ok g -> 0 < gap_start g ->
  before g = (text g <$> seqZ 0 (gap_start g - 1)) ++ [text g (gap_start g - 1)].
Proof.
  intros [? ? ?] Hlt. unfold before. replace (gap_start g) with (gap_start g - 1 + 1) at 1 by lia.
  rewrite seqZ_app by lia. rewrite fmap_app. f_equal.
Qed.

Lemma fmap_put_text t i c lo n : i < lo \/ lo + n <= i -> put_text i c t <$> seqZ lo n = t <$> seqZ lo n.
Proof.
  intros Hi. apply list_fmap_ext. intros k x Hx. apply lookup_seqZ in Hx as [-> Hx]. unfold put_text.
  rewrite (proj2 (Z.eqb_neq _ _)); [done|lia].
Qed.

(** The cursor moves on lists. *)
Definition z_right (z : zip_text) : zip_text := match z.2 with [] => z | c :: a => (z.1 ++ [c], a) end.
Definition z_left (z : zip_text) : zip_text :=
  match rev z.1 with [] => z | c :: b => (rev b, c :: z.2) end.

Lemma right_spec g : gap_ok g -> gap_ok (cursor_right g) /\ zip (cursor_right g) = z_right (zip g).
Proof.
  intros Hg. pose proof Hg as [H1 H2 H3]. unfold cursor_right, z_right, zip. cbn [snd fst].
  destruct (Z.eqb_spec (gap_end g) TEXT_CAP) as [E|E]; [by rewrite (after_nil g)|].
  rewrite (after_cons g) by (done || lia). split; [split; cbn; lia|]. f_equal.
  - unfold before at 1. cbn [text gap_start gap_end]. rewrite seqZ_app by lia. rewrite fmap_app. f_equal.
    + apply fmap_put_text. lia.
    + rewrite (seqZ_cons _ 1) by lia. csimpl. unfold put_text. by rewrite Z.add_0_l, Z.eqb_refl.
  - unfold after. cbn [text gap_start gap_end]. apply fmap_put_text. lia.
Qed.

Lemma left_spec g : gap_ok g -> gap_ok (cursor_left g) /\ zip (cursor_left g) = z_left (zip g).
Proof.
  intros Hg. pose proof Hg as [H1 H2 H3]. unfold cursor_left, z_left, zip. cbn [snd fst].
  destruct (Z.eqb_spec (gap_start g) 0) as [E|E].
  { assert (before g = []) as -> by (unfold before; by rewrite E). done. }
  rewrite (before_snoc g) by (done || lia). rewrite rev_app_distr. cbn [rev app]. rewrite rev_involutive.
  split; [split; cbn; lia|]. f_equal.
  - unfold before. cbn [text gap_start gap_end]. apply fmap_put_text. lia.
  - unfold after. cbn [text gap_start gap_end]. rewrite (seqZ_cons (gap_end g - 1)) by lia. csimpl. f_equal.
    + unfold put_text. by rewrite Z.eqb_refl.
    + replace (Z.succ (gap_end g - 1)) with (gap_end g) by lia. replace (Z.pred (TEXT_CAP - (gap_end g - 1))) with (TEXT_CAP - gap_end g) by lia.
      apply fmap_put_text. lia.
Qed.

Lemma iter_right_spec n g : gap_ok g -> (n <= length (after g))%nat ->
  gap_ok (Nat.iter n cursor_right g) /\
  zip (Nat.iter n cursor_right g) = (before g ++ take n (after g), drop n (after g)).
Proof.
  intros Hg. induction n as [|n IH]; intros Hn.
  - simpl. by rewrite app_nil_r, drop_0.
  - destruct IH as [Hok E]; [lia|]. change (Nat.iter (S n) cursor_right g) with (cursor_right (Nat.iter n cursor_right g)). destruct (right_spec _ Hok) as [Hok' E']. split; [done|].
    rewrite E', E. unfold z_right. cbn [fst snd].
    destruct (lookup_lt_is_Some_2 (after g) n) as [c Hc]; [lia|]. rewrite (drop_S _ c) by done.
    rewrite (take_S_r _ n c) by done. by rewrite <- app_assoc.
Qed.

Lemma iter_left_spec n g : gap_ok g -> (n <= length (before g))%nat ->
  gap_ok (Nat.iter n cursor_left g) /\
  zip (Nat.iter n cursor_left g) =
    (take (length (before g) - n) (before g), drop (length (before g) - n) (before g) ++ after g).
Proof.
  intros Hg. induction n as [|n IH]; intros Hn.
  - simpl. by rewrite Nat.sub_0_r, firstn_all, drop_all.
  - destruct IH as [Hok E]; [lia|]. change (Nat.iter (S n) cursor_left g) with (cursor_left (Nat.iter n cursor_left g)). destruct (left_spec _ Hok) as [Hok' E']. split; [done|].
    rewrite E', E. unfold z_left. cbn [fst snd]. set (b := before g) in *.
    destruct (lookup_lt_is_Some_2 b (length b - S n)) as [c Hc]; [lia|].
    replace (length b - n)%nat with (S (length b - S n)) by lia.
    rewrite (take_S_r _ _ c) by done. rewrite rev_app_distr. cbn [rev app]. rewrite rev_involutive.
    by rewrite (drop_S b c (length b - S n)) by done.
Qed.

(** The loops that walk to a target are so many steps. *)
Lemma go_right_iter n fuel g : gap_ok g -> gap_end g + Z.of_nat n <= TEXT_CAP -> (n <= fuel)%nat ->
  go_right fuel (gap_end g + Z.of_nat n) g = Nat.iter n cursor_right g.
Proof.
  revert fuel g. induction n as [|n IH]; intros fuel g Hg Hn Hf.
  - rewrite Z.add_0_r. destruct fuel; simpl; [done|]. by rewrite Z.eqb_refl.
  - destruct fuel as [|fuel]; [lia|]. cbn [go_right]. rewrite (proj2 (Z.eqb_neq _ _)) by lia.
    assert (gap_end (cursor_right g) = gap_end g + 1) as E.
    { unfold cursor_right. rewrite (proj2 (Z.eqb_neq _ _)); [done|lia]. }
    replace (gap_end g + Z.of_nat (S n)) with (gap_end (cursor_right g) + Z.of_nat n) by lia.
    rewrite IH by (try apply right_spec; done || lia). by rewrite <- Nat.iter_succ_r.
Qed.

Lemma go_left_iter n fuel g : gap_ok g -> Z.of_nat n <= gap_start g -> (n <= fuel)%nat ->
  go_left fuel (gap_start g - Z.of_nat n) g = Nat.iter n cursor_left g.
Proof.
  revert fuel g. induction n as [|n IH]; intros fuel g Hg Hn Hf.
  - rewrite Z.sub_0_r. destruct fuel; simpl; [done|]. by rewrite Z.eqb_refl.
  - destruct fuel as [|fuel]; [lia|]. cbn [go_left]. rewrite (proj2 (Z.eqb_neq _ _)) by lia.
    assert (gap_start (cursor_left g) = gap_start g - 1) as E.
    { unfold cursor_left. rewrite (proj2 (Z.eqb_neq _ _)); [done|lia]. }
    replace (gap_start g - Z.of_nat (S n)) with (gap_start (cursor_left g) - Z.of_nat n) by lia.
    rewrite IH by (try apply left_spec; done || lia). by rewrite <- Nat.iter_succ_r.
Qed.

(** ** Rows and columns *)

Lemma for_range_fold {A} (t : Z -> Z) n i (f : Z -> A -> A) a :
  for_range n i (fun j => f (t j)) a = fold_left (fun a c => f c a) (t <$> seqZ i (Z.of_nat n)) a.
Proof.
  revert i a. induction n as [|n IH]; intros i a; [done|].
  rewrite (seqZ_cons i) by lia. csimpl. replace (Z.pred (Z.of_nat (S n))) with (Z.of_nat n) by lia. apply IH.
Qed.

Definition rowcol (l : list Z) : Z * Z :=
  fold_left (fun rc c => if is_nl c then (rc.1 + 1, 0) else (rc.1, rc.2 + 1)) l (0, 0).

Lemma rowcol_spec l p x : lines l = p ++ [x] -> rowcol l = (Z.of_nat (length p), Z.of_nat (length x)).
Proof.
  revert p x. induction l as [|c l IH] using rev_ind; intros p x E.
  - destruct p as [|? [|? ?]]; simplify_list_eq. done.
  - destruct (lines_snoc l) as (q & y & El). specialize (IH q y El). unfold rowcol in *. rewrite fold_left_app, IH. cbn [fold_left fst snd].
    destruct (is_nl c) eqn:Ec.
    + rewrite (lines_app l [c] q y [] [[]]) in E; [|done|by simpl; rewrite Ec].
      change (q ++ (y ++ []) :: [[]]) with (q ++ [y ++ []] ++ [[]]) in E. rewrite app_assoc in E.
      apply app_inj_tail in E as [<- <-]. rewrite length_app. simpl. f_equal. lia.
    + rewrite (lines_app l [c] q y [c] []) in E; [|done|by simpl; rewrite Ec].
      apply app_inj_tail in E as [<- <-]. rewrite length_app. simpl. f_equal. lia.
Qed.

Lemma cursor_rowcol_spec g : gap_ok g -> cursor_rowcol g = rowcol (before g).
Proof.
  intros [? ? ?]. unfold cursor_rowcol, rowcol, before.
  rewrite (for_range_fold (text g) _ 0 (fun c rc => if is_nl c then (rc.1 + 1, 0) else (rc.1, rc.2 + 1))).
  by rewrite Z2Nat.id by lia.
Qed.

Lemma count_lines l r : fold_left (fun r c => if is_nl c then r + 1 else r) l r = r + Z.of_nat (length (lines l)) - 1.
Proof.
  revert r. induction l as [|c l IH]; intros r; simpl; [lia|]. rewrite IH.
  destruct (lines_cons l) as (x & xs & E). rewrite E. destruct (is_nl c); simpl; lia.
Qed.

Lemma length_lines_app a b : length (lines (a ++ b)) = (length (lines a) + length (lines b) - 1)%nat.
Proof.
  destruct (lines_snoc a) as (p & x & Ea), (lines_cons b) as (y & q & Eb).
  rewrite (lines_app _ _ _ _ _ _ Ea Eb), Ea, Eb, !length_app. simpl. lia.
Qed.

Lemma buf_rows_spec g : gap_ok g -> buf_rows g = Z.of_nat (length (lines (before g ++ after g))).
Proof.
  intros [? ? ?]. unfold buf_rows.
  rewrite !(for_range_fold (text g) _ _ (fun c r => if is_nl c then r + 1 else r)), !Z2Nat.id by lia.
  fold (before g) (after g). rewrite !count_lines, length_lines_app.
  destruct (lines_cons (before g)) as (? & ? & ->), (lines_cons (after g)) as (? & ? & ->). simpl. lia.
Qed.

(** Where a line of the text begins and ends. *)
Lemma line_begin_spec t n x p : t <$> seqZ 0 (Z.of_nat n) = p ++ x -> no_nl x -> (p = [] \/ exists q, p = q ++ [NEWLINE]) ->
  line_begin t n = Z.of_nat (length p).
Proof.
  revert x. induction n as [|n IH]; intros x E Hx Hp.
  - symmetry in E. apply app_eq_nil in E as [-> ->]. done.
  - assert (t <$> seqZ 0 (Z.of_nat (S n)) = (t <$> seqZ 0 (Z.of_nat n)) ++ [t (Z.of_nat n)]) as E'.
    { rewrite Nat2Z.inj_succ, <- Z.add_1_r, seqZ_app by lia. rewrite fmap_app. do 2 f_equal. }
    rewrite E' in E. cbn [line_begin]. destruct x as [|c x _] using rev_ind.
    + rewrite app_nil_r in E. destruct Hp as [->|[q ->]]; [by destruct (t <$> seqZ 0 (Z.of_nat n))|].
      apply app_inj_tail in E as [E1 E2]. rewrite E2. cbn. apply (f_equal length) in E1.
      rewrite length_fmap, length_seqZ in E1. rewrite length_app. simpl. lia.
    + rewrite app_assoc in E. apply app_inj_tail in E as [E1 ->]. apply Forall_app in Hx as [Hx Hc].
      rewrite (proj1 (Forall_singleton _ _) Hc). by apply (IH x).
Qed.

Lemma line_end_spec t n lo x r : t <$> seqZ lo (Z.of_nat n) = x ++ r -> lo + Z.of_nat n = TEXT_CAP -> no_nl x ->
  (r = [] \/ exists r', r = NEWLINE :: r') -> line_end t n lo = lo + Z.of_nat (length x).
Proof.
  revert lo x. induction n as [|n IH]; intros lo x E Hn Hx Hr.
  - symmetry in E. apply app_eq_nil in E as [-> ->]. simpl. lia.
  - rewrite (seqZ_cons lo) in E by lia. revert E. csimpl. intros E. cbn [line_end]. rewrite (proj2 (Z.ltb_lt _ _)) by lia.
    destruct Hx as [|c x Hc Hx]; simpl in E.
    + destruct Hr as [->|[r' ->]]; [done|]. injection E as -> _. simpl. lia.
    + injection E as -> E. rewrite Hc. cbn [andb negb]. rewrite (IH _ x); [cbn [length]; lia| |lia|done|done].
      rewrite <- E. do 2 f_equal; lia.
Qed.

(** ** The reference: a text and a position in it *)

Record doc : Type := mkDoc { d_text : list Z; d_pos : nat }.

(** Where column [c] of row [r] is. *)
Fixpoint offset (ls : list (list Z)) (r c : nat) : nat :=
  match r, ls with
  | S r, x :: ls => S (length x) + offset ls r c
  | _, _ => c
  end.

Definition d_row (d : doc) : nat := Z.to_nat (rowcol (take (d_pos d) (d_text d))).1.
Definition d_col (d : doc) : nat := Z.to_nat (rowcol (take (d_pos d) (d_text d))).2.

(** To row [r], to the same column if the line is long enough. *)
Definition d_goto (r : nat) (d : doc) : doc :=
  match lines (d_text d) !! r with
  | Some x => mkDoc (d_text d) (offset (lines (d_text d)) r (Nat.min (d_col d) (length x)))
  | None => d
  end.

Definition d_right (d : doc) : doc := mkDoc (d_text d) (Nat.min (length (d_text d)) (d_pos d + 1)).
Definition d_left (d : doc) : doc := mkDoc (d_text d) (d_pos d - 1).
Definition d_down (d : doc) : doc := d_goto (d_row d + 1) d.
Definition d_up (d : doc) : doc := if decide (d_row d = 0%nat) then d else d_goto (d_row d - 1) d.
Definition d_end (d : doc) : doc := mkDoc (d_text d) (length (d_text d)).

(** A full text takes no more; the start of the text has nothing before it. *)
Definition d_insert (c : Z) (d : doc) : doc :=
  if Z.of_nat (length (d_text d)) <? TEXT_CAP
  then mkDoc (take (d_pos d) (d_text d) ++ c :: drop (d_pos d) (d_text d)) (d_pos d + 1) else d.
Definition d_backspace (d : doc) : doc :=
  mkDoc (take (d_pos d - 1) (d_text d) ++ drop (d_pos d) (d_text d)) (d_pos d - 1).

Definition doc_of (g : gap) : doc := mkDoc (before g ++ after g) (length (before g)).

Lemma take_doc g : take (d_pos (doc_of g)) (d_text (doc_of g)) = before g.
Proof. apply take_app_length. Qed.
Lemma drop_doc g : drop (d_pos (doc_of g)) (d_text (doc_of g)) = after g.
Proof. apply drop_app_length. Qed.

Lemma doc_of_zip g b a : zip g = (b, a) -> doc_of g = mkDoc (b ++ a) (length b).
Proof. unfold zip, doc_of. intros [= -> ->]. done. Qed.

Lemma doc_iter_right n g : gap_ok g -> (n <= length (after g))%nat ->
  gap_ok (Nat.iter n cursor_right g) /\ doc_of (Nat.iter n cursor_right g) = mkDoc (d_text (doc_of g)) (d_pos (doc_of g) + n).
Proof.
  intros Hg Hn. destruct (iter_right_spec n g Hg Hn) as [Hok E]. split; [done|]. rewrite (doc_of_zip _ _ _ E).
  rewrite <- app_assoc, take_drop, length_app, length_take. simpl. f_equal. lia.
Qed.
Lemma doc_iter_left n g : gap_ok g -> (n <= length (before g))%nat ->
  gap_ok (Nat.iter n cursor_left g) /\ doc_of (Nat.iter n cursor_left g) = mkDoc (d_text (doc_of g)) (d_pos (doc_of g) - n).
Proof.
  intros Hg Hn. destruct (iter_left_spec n g Hg Hn) as [Hok E]. split; [done|]. rewrite (doc_of_zip _ _ _ E).
  rewrite app_assoc, take_drop, length_take. simpl. f_equal. lia.
Qed.

Lemma doc_right g : gap_ok g -> gap_ok (cursor_right g) /\ doc_of (cursor_right g) = d_right (doc_of g).
Proof.
  intros Hg. pose proof (length_after g Hg). destruct Hg as [H1 H2 H3] eqn:Eg. destruct (decide (gap_end g = TEXT_CAP)) as [E|E].
  - unfold cursor_right. rewrite E, Z.eqb_refl. split; [done|]. unfold d_right, doc_of. simpl. rewrite (after_nil g) by done. rewrite app_nil_r.
    f_equal. lia.
  - destruct (doc_iter_right 1 g) as [Hok E1]; [done|lia|]. split; [done|]. change (cursor_right g) with (Nat.iter 1 cursor_right g).
    rewrite E1. unfold d_right. cbn [doc_of d_text d_pos]. f_equal. rewrite length_app. lia.
Qed.
Lemma doc_left g : gap_ok g -> gap_ok (cursor_left g) /\ doc_of (cursor_left g) = d_left (doc_of g).
Proof.
  intros Hg. pose proof (length_before g Hg). destruct Hg as [H1 H2 H3] eqn:Eg. destruct (decide (gap_start g = 0)) as [E|E].
  - unfold cursor_left. rewrite E, Z.eqb_refl. split; [done|]. unfold d_left, doc_of. cbn [d_text d_pos]. f_equal. lia.
  - apply (doc_iter_left 1 g); [done|lia].
Qed.

Lemma right_in_line_spec n g x r : gap_ok g -> after g = x ++ r -> no_nl x -> (r = [] \/ exists r', r = NEWLINE :: r') ->
  right_in_line n g = Nat.iter (Nat.min n (length x)) cursor_right g.
Proof.
  revert g x. induction n as [|n IH]; intros g x Hg E Hx Hr; [done|]. cbn [right_in_line].
  destruct (Z.eqb_spec (gap_end g) TEXT_CAP) as [Ee|Ee].
  { rewrite (after_nil g) in E by done. symmetry in E. apply app_eq_nil in E as [-> ->]. by rewrite Nat.min_0_r. }
  pose proof Hg as [? ? ?]. pose proof (after_cons g Hg ltac:(lia)) as Ea. rewrite E in Ea. cbn [orb].
  destruct Hx as [|c x Hc Hx].
  - destruct Hr as [->|[r' ->]]; [done|]. injection Ea as <- _. by rewrite Nat.min_0_r.
  - injection Ea as <- Ea. rewrite Hc. destruct (right_spec g Hg) as [Hok E']. rewrite (IH _ x); [| done | | done | done].
    + cbn [length Nat.min]. by rewrite Nat.iter_succ_r.
    + revert E'. unfold zip, z_right. rewrite E. cbn. by intros [= _ ->].
Qed.

(** Offsets across the cursor. *)
Lemma offset_app p q r c : offset (p ++ q) (length p + r) c = (offset p (length p) 0 + offset q r c)%nat.
Proof. induction p as [|x p IH]; simpl; [done|]. rewrite IH. lia. Qed.

Lemma length_offset l p x : lines l = p ++ [x] -> length l = (offset p (length p) 0 + length x)%nat.
Proof.
  revert p x. induction l as [|c l IH]; intros p x E.
  - destruct p as [|? [|? ?]]; simplify_list_eq. done.
  - destruct (lines_snoc l) as (q & y & El). pose proof (IH q y El) as Hl. simpl in E. rewrite El in E. destruct (is_nl c).
    + change ([] :: q ++ [y]) with (([] :: q) ++ [y]) in E. apply app_inj_tail in E as [<- <-]. simpl. lia.
    + destruct q as [|z q]; simpl in E.
      * destruct p as [|? [|? ?]]; simplify_list_eq. lia.
      * change ((c :: z) :: q ++ [y]) with (((c :: z) :: q) ++ [y]) in E. apply app_inj_tail in E as [<- <-]. simpl in *. lia.
Qed.

Lemma seqZ_before g : gap_ok g -> text g <$> seqZ 0 (Z.of_nat (Z.to_nat (gap_start g))) = before g.
Proof. intros [? ? ?]. by rewrite Z2Nat.id by lia. Qed.

Lemma line_end_after g x r : gap_ok g -> after g = x ++ r -> no_nl x -> (r = [] \/ exists r', r = NEWLINE :: r') ->
  line_end_from (text g) (gap_end g) = gap_end g + Z.of_nat (length x).
Proof.
  intros [? ? ?] E Hx Hr. apply (line_end_spec _ _ _ x r); [|lia|done|done]. by rewrite Z2Nat.id by lia.
Qed.

Lemma d_row_of g p x : lines (before g) = p ++ [x] -> d_row (doc_of g) = length p /\ d_col (doc_of g) = length x.
Proof. intros E. unfold d_row, d_col. rewrite take_doc, (rowcol_spec _ _ _ E). simpl. lia. Qed.

(** To row [r], at a line that is there. *)
Lemma d_goto_at T pos p y q : lines T = p ++ y :: q ->
  d_goto (length p) (mkDoc T pos) = mkDoc T (offset p (length p) 0 + Nat.min (d_col (mkDoc T pos)) (length y)).
Proof.
  intros E. unfold d_goto. cbn [d_text]. rewrite E, list_lookup_middle by done.
  replace (length p) with (length p + 0)%nat at 1 by lia. by rewrite offset_app.
Qed.

Lemma doc_down g : gap_ok g -> gap_ok (cursor_down g) /\ doc_of (cursor_down g) = d_down (doc_of g).
Proof.
  intros Hg. destruct (lines_snoc (before g)) as (pa & xa & Eb), (first_line (after g)) as (x & Hx & Ha).
  pose proof (length_after g Hg) as Hlen. pose proof Hg as [H1 H2 H3]. destruct (d_row_of g _ _ Eb) as [Hr Hc].
  unfold cursor_down, d_down. rewrite cursor_rowcol_spec, (rowcol_spec _ _ _ Eb) by done. rewrite Hr.
  destruct Ha as [[Ea El]|(r & Ea & El)].
  - rewrite (line_end_after g x []) by (rewrite ?app_nil_r; auto). rewrite (proj2 (Z.eqb_eq _ _)) by (rewrite Ea in Hlen; lia).
    split; [done|]. unfold d_goto, doc_of. cbn [d_text]. rewrite (lines_app _ _ _ _ _ _ Eb El). rewrite lookup_ge_None_2; [done|].
    rewrite length_app. simpl. lia.
  - rewrite (line_end_after g x (NEWLINE :: r)) by eauto. assert (length (after g) = length x + S (length r))%nat as Hl by (by rewrite Ea, length_app).
    rewrite (proj2 (Z.eqb_neq _ _)) by lia.
    replace (gap_end g + Z.of_nat (length x) + 1) with (gap_end g + Z.of_nat (length x + 1)) by lia.
    rewrite go_right_iter by (done || lia). destruct (iter_right_spec (length x + 1) g Hg) as [Hg1 Ez]; [lia|].
    destruct (doc_iter_right (length x + 1) g Hg) as [_ Ed]; [lia|]. set (g1 := Nat.iter _ _ _) in *.
    assert (after g1 = r) as Er.
    { revert Ez. unfold zip. rewrite Ea, drop_app_ge by lia. replace (length x + 1 - length x)%nat with 1%nat by lia. by intros [= _ ->]. }
    destruct (first_line r) as (y & Hy & Ey).
    assert (exists r', after g1 = y ++ r' /\ (r' = [] \/ exists r'', r' = NEWLINE :: r'')) as (r' & Er' & Hr').
    { rewrite Er. destruct Ey as [[-> _]|(r'' & -> & _)]; [exists []; rewrite app_nil_r; auto|eauto]. }
    rewrite Nat2Z.id, (right_in_line_spec _ _ y r') by done.
    destruct (doc_iter_right (Nat.min (length xa) (length y)) g1 Hg1) as [Hg2 ->]; [rewrite Er', length_app; lia|].
    split; [done|]. rewrite Ed. cbn [d_text d_pos].
    assert (exists q, lines r = y :: q) as [q Eq] by (destruct Ey as [[_ ->]|(? & _ & ->)]; eauto).
    assert (lines (before g ++ after g) = (pa ++ [xa ++ x]) ++ y :: q) as El'.
    { rewrite (lines_app _ _ _ _ _ _ Eb El), Eq, <- app_assoc. done. }
    pose proof (d_goto_at _ (length (before g)) _ _ _ El') as Hd. rewrite length_app in Hd. cbn [length] in Hd. fold (doc_of g) in Hd.
    rewrite Hd, Hc. unfold doc_of. cbn [d_text d_pos]. f_equal. rewrite (length_offset _ _ _ Eb), offset_app. simpl. rewrite length_app. lia.
Qed.

Lemma doc_up g : gap_ok g -> gap_ok (cursor_up g) /\ doc_of (cursor_up g) = d_up (doc_of g).
Proof.
  intros Hg. destruct (last_line (before g)) as (x & Hx & Hb).
  pose proof (length_before g Hg) as Hlen. pose proof Hg as [H1 H2 H3].
  unfold cursor_up, d_up. rewrite !cursor_rowcol_spec by done.
  destruct Hb as [[Eb El]|(r & Eb & El)].
  - rewrite (line_begin_spec _ _ x []); [|by rewrite seqZ_before by done|done|by left]. simpl.
    destruct (d_row_of g [] x El) as [-> _]. rewrite decide_True by done. by destruct (rowcol (before g)).
  - rewrite (line_begin_spec _ _ x (r ++ [NEWLINE])); [|by rewrite seqZ_before, <- app_assoc by done|done|eauto].
    destruct (d_row_of g _ _ El) as [Hr Hc]. rewrite (rowcol_spec _ _ _ El). rewrite length_app. cbn [length].
    rewrite (proj2 (Z.eqb_neq _ _)) by lia.
    destruct (lines_snoc r) as (p & y & Er). rewrite Er in Hr. rewrite Hr, length_app. cbn [length]. rewrite decide_False by lia.
    assert (length (before g) = length r + S (length x))%nat as Hl by (by rewrite Eb, length_app).
    replace (Z.of_nat (length r + 1) - 1) with (gap_start g - Z.of_nat (length x + 1)) by lia.
    rewrite go_left_iter by (done || lia). destruct (iter_left_spec (length x + 1) g Hg) as [Hg1 Ez]; [lia|].
    destruct (doc_iter_left (length x + 1) g Hg) as [_ Ed]; [lia|]. set (g1 := Nat.iter _ _ _) in *.
    assert (before g1 = r) as E1.
    { revert Ez. unfold zip. rewrite Eb. rewrite length_app. cbn [length]. replace (length r + S (length x) - (length x + 1))%nat with (length r) by lia.
      rewrite take_app_length. by intros [= -> _]. }
    rewrite cursor_rowcol_spec, E1, (rowcol_spec _ _ _ Er) by done. cbn [snd].
    destruct (doc_iter_left (Z.to_nat (Z.of_nat (length y) - Z.of_nat (length x))) g1 Hg1) as [Hg2 ->].
    { rewrite E1, (length_offset _ _ _ Er). lia. }
    split; [done|]. rewrite Ed. cbn [d_text d_pos].
    destruct (lines_cons (after g)) as (xb & qb & Ea).
    assert (lines (before g ++ after g) = p ++ y :: (x ++ xb) :: qb) as El'.
    { rewrite (lines_app _ _ (p ++ [y]) x _ _ ltac:(by rewrite El, Er) Ea), <- app_assoc. done. }
    pose proof (d_goto_at _ (length (before g)) _ _ _ El') as Hd. fold (doc_of g) in Hd. replace (length p + 1 - 1)%nat with (length p) by lia.
    rewrite Hd, Hc. unfold doc_of. cbn [d_text d_pos]. f_equal. rewrite (length_offset _ _ _ Er) in Hl. lia.
Qed.

Lemma doc_insert c g : gap_ok g -> gap_start g <> gap_end g ->
  gap_ok (mkGap (put_text (gap_start g) c (text g)) (gap_start g + 1) (gap_end g)) /\
  doc_of (mkGap (put_text (gap_start g) c (text g)) (gap_start g + 1) (gap_end g)) = d_insert c (doc_of g).
Proof.
  intros Hg Hne. pose proof (length_before g Hg). pose proof (length_after g Hg). pose proof Hg as [? ? ?]. split; [split; cbn; lia|].
  unfold d_insert. rewrite take_doc, drop_doc. unfold doc_of at 1. unfold before, after. cbn [text gap_start gap_end].
  rewrite (fmap_put_text _ _ _ (gap_end g)) by lia. rewrite seqZ_app by lia. rewrite fmap_app, fmap_put_text by lia.
  fold (before g) (after g). rewrite (seqZ_cons _ 1) by lia. csimpl. unfold put_text. rewrite Z.add_0_l, Z.eqb_refl.
  rewrite (proj2 (Z.ltb_lt _ _)); [|cbn; rewrite length_app; lia]. rewrite <- app_assoc, length_app. done.
Qed.

(** A gap without room: the text fills the buffer. *)
Lemma doc_full c g : gap_ok g -> gap_start g = gap_end g -> d_insert c (doc_of g) = doc_of g.
Proof.
  intros Hg E. pose proof (length_before g Hg). pose proof (length_after g Hg). unfold d_insert.
  rewrite (proj2 (Z.ltb_ge _ _)); [done|]. cbn. rewrite length_app. lia.
Qed.

Lemma doc_backspace g : gap_ok g -> 0 < gap_start g ->
  gap_ok (mkGap (text g) (gap_start g - 1) (gap_end g)) /\
  doc_of (mkGap (text g) (gap_start g - 1) (gap_end g)) = d_backspace (doc_of g).
Proof.
  intros Hg Hs. pose proof Hg as [? ? ?]. split; [split; cbn; lia|]. unfold d_backspace. rewrite drop_doc.
  unfold doc_of. cbn [d_text d_pos]. rewrite (before_snoc g) by (done || lia).
  change (before (mkGap (text g) (gap_start g - 1) (gap_end g))) with (text g <$> seqZ 0 (gap_start g - 1)).
  change (after (mkGap (text g) (gap_start g - 1) (gap_end g))) with (after g). rewrite length_app. cbn [length].
  set (b := text g <$> _). rewrite Nat.add_sub. f_equal. by rewrite <- app_assoc, take_app_length.
Qed.

Lemma doc_no_backspace g : gap_ok g -> gap_start g = 0 -> d_backspace (doc_of g) = doc_of g.
Proof.
  intros Hg E. pose proof (length_before g Hg) as Hl. rewrite E in Hl. unfold d_backspace, doc_of. cbn [d_text d_pos].
  destruct (before g); [done|simpl in Hl; lia].
Qed.

(** The gap at the end: the array begins with the whole text. *)
Lemma doc_end g : gap_ok g ->
  let g' := go_right (Z.to_nat (TEXT_CAP - gap_end g)) TEXT_CAP g in
  gap_ok g' /\ doc_of g' = d_end (doc_of g) /\ contents g' = d_text (doc_of g).
Proof.
  intros Hg g'. pose proof Hg as [? ? ?]. pose proof (length_after g Hg) as Hl.
  assert (g' = Nat.iter (length (after g)) cursor_right g) as ->.
  { unfold g'. replace TEXT_CAP with (gap_end g + Z.of_nat (length (after g))) at 2 by lia. apply go_right_iter; [done|lia|lia]. }
  destruct (iter_right_spec (length (after g)) g Hg) as [Hok E]; [done|].
  destruct (doc_iter_right (length (after g)) g Hg) as [_ ->]; [done|]. split; [done|]. split.
  - unfold d_end, doc_of. cbn [d_text d_pos]. by rewrite length_app.
  - revert E. unfold zip. rewrite firstn_all. intros [= E' _]. exact E'.
Qed.

(** ** The editor as a text *)

Section spec.
Context {K : Type} `{UserKernel K}.
Local Abbreviation ed := (@Dinv.ed K).

Definition on_term (f : term -> term) (e : ed) : ed := with_world (on_con f (w e)) e.

Lemma on_term_on f f' e : on_term f' (on_term f e) = on_term (fun t => f' (f t)) e.
Proof. done. Qed.

(** Painting leaves all but the terminal as it was. *)
Definition repaint (e e' : ed) : Prop := exists f, e' = on_term f e.

Lemma repaint_refl e : repaint e e.
Proof. exists (fun t => t). by destruct e as [? ? ? ? ? ? ? ? ? ? ? ? ? ? ? ? []]. Qed.
Lemma repaint_trans e1 e2 e3 : repaint e1 e2 -> repaint e2 e3 -> repaint e1 e3.
Proof. intros [f ->] [f' ->]. rewrite on_term_on. by eexists. Qed.
Lemma repaint_emit s e1 e2 : repaint e1 e2 -> repaint e1 (emit s e2).
Proof. intros [f ->]. by eexists (fun t => t_write WHITE s (f t)). Qed.
Lemma repaint_at r c e1 e2 : repaint e1 e2 -> repaint e1 (at_pos r c e2).
Proof. intros [f ->]. by eexists (fun t => t_set_cursor (u32 r) (u32 c) (f t)). Qed.
Lemma repaint_row r h b e1 e2 : repaint e1 e2 -> repaint e1 (paint_row r h b e2).
Proof. intros E. by apply repaint_emit, repaint_emit, repaint_at. Qed.

Lemma repaint_below fuel nr wd r nb e1 e2 : repaint e1 e2 -> repaint e1 (below_loop fuel nr wd r nb e2).
Proof.
  revert r nb e2. induction fuel as [|fuel IH]; intros r nb e2 E; simpl; [done|].
  case_match; [|done]. by apply IH, repaint_row.
Qed.
Lemma repaint_full n nr wd r pos e1 e2 : repaint e1 e2 -> repaint e1 (full_loop n nr wd r pos e2).
Proof.
  revert r pos e2. induction n as [|n IH]; intros r pos e2 E; simpl; [done|].
  case_match. by apply IH, repaint_row.
Qed.

Lemma repaint_damage e : repaint e (render_damage e).
Proof.
  pose proof (repaint_refl e). unfold render_damage. destruct (replacement_status e); [done| | | |].
  - unfold render_tail. destruct (cursor_rowcol (buf e)). case_match; [done|]. by apply repaint_row.
  - unfold render_cmd. by apply repaint_emit, repaint_at, repaint_emit, repaint_at.
  - unfold render_below. destruct (cursor_rowcol (buf e)). case_match; [done|]. apply repaint_below, repaint_row.
    case_match; [by apply repaint_row|done].
  - unfold render_full. by apply repaint_full.
Qed.

Lemma repaint_render e : repaint e (gap_render e).
Proof.
  unfold gap_render. pose proof (repaint_damage e). set (e1 := render_damage e) in *.
  assert (repaint e (emit (mode_line e1) (at_pos (screen_rows e1 - 1) 0 e1))) by by apply repaint_emit, repaint_at.
  set (e2 := emit _ _) in *. destruct (mode e2); [destruct (cursor_rowcol (buf e2))..|case_match]; by apply repaint_at.
Qed.

Lemma scroll_damage (e : ed) : exists t l d, check_scroll e = damaged d (with_scroll t l e).
Proof.
  unfold check_scroll. destruct (cursor_rowcol (buf e)) as [r c]. set (e1 := if r <? _ then _ else _).
  assert (exists t l d, e1 = damaged d (with_scroll t l e)) as (t & l & d & ->).
  { unfold e1. destruct (r <? top_row e); [by do 3 eexists|]. destruct (_ <=? r); [by do 3 eexists|].
    exists (top_row e), (left_col e), (replacement_status e). by destruct e. }
  destruct (c <? _); [by do 3 eexists|]. destruct (_ <=? c); by do 3 eexists.
Qed.

(** The editor as its reference sees it. *)
Record edit : Type := mkEdit { e_doc : doc; e_mode : mode_t; e_cmd : list Z }.

Definition edit_of (e : ed) : edit := mkEdit (doc_of (buf e)) (mode e) (take (Z.to_nat (cmd_len e)) (cmd_buf e)).

(** A command, up to a NUL byte in it. *)
Fixpoint word (l : list Z) : list Z :=
  match l with [] => [] | c :: l => if c =? 0 then [] else c :: word l end.

(** The commands that save, and so leave the cursor at the end. *)
Definition saves (cmd : list Z) : bool :=
  bool_decide (word cmd ∈ (bytes_of <$> ["w"; "wq"; "wa"; "wqa"]%string)).

Definition edit_key (c : Z) (s : edit) : edit :=
  let d := e_doc s in
  match e_mode s with
  | MODE_NORMAL =>
      if c =? 58 then mkEdit d MODE_COMMAND []
      else if c =? 105 then mkEdit d MODE_INSERT (e_cmd s)
      else if c =? 97 then mkEdit (d_right d) MODE_INSERT (e_cmd s)
      else mkEdit (if c =? 104 then d_left d else if c =? 106 then d_down d else if c =? 107 then d_up d
                   else if c =? 108 then d_right d else d) MODE_NORMAL (e_cmd s)
  | MODE_INSERT =>
      if 128 <=? c then s
      else if c =? KEY_ESC then mkEdit d MODE_NORMAL (e_cmd s)
      else mkEdit (if c =? BACKSPACE then d_backspace d else d_insert c d) MODE_INSERT (e_cmd s)
  | MODE_COMMAND =>
      if 128 <=? c then s
      else if c =? KEY_ESC then mkEdit d MODE_NORMAL []
      else if c =? BACKSPACE then mkEdit d MODE_COMMAND (take (length (e_cmd s) - 1) (e_cmd s))
      else if c =? NEWLINE then mkEdit (if saves (e_cmd s) then d_end d else d) MODE_NORMAL []
      else mkEdit d MODE_COMMAND (take 63 (e_cmd s ++ [c]))
  end.

(** The gap is inside the array and the command inside its buffer. *)
Record ed_ok (e : ed) : Prop := mkEdOk {
  eo_gap : gap_ok (buf e); eo_cmd : length (cmd_buf e) = 64%nat; eo_len : 0 <= cmd_len e < CMD_BUF_SIZE }.

Lemma repaint_same e e' : repaint e e' -> (ed_ok e -> ed_ok e') /\ edit_of e' = edit_of e.
Proof. intros [f ->]. split; [|done]. intros [? ? ?]. by split. Qed.
Lemma scroll_same e : (ed_ok e -> ed_ok (check_scroll e)) /\ edit_of (check_scroll e) = edit_of e.
Proof. destruct (scroll_damage e) as (t & l & d & ->). split; [|done]. intros [? ? ?]. by split. Qed.

(** What a command does. *)
Definition command_of (wd : list Z) : option (ed -> ed) :=
  if bool_decide (wd ∈ (bytes_of <$> ["q"; "qa"]%string)) then Some quit
  else if bool_decide (wd ∈ (bytes_of <$> ["w"; "wa"]%string)) then Some save
  else if bool_decide (wd ∈ (bytes_of <$> ["wq"; "wqa"]%string)) then Some save_quit
  else None.

Lemma run_cmds_spec cmd wd (e : ed) : cstr cmd = Some wd ->
  run_cmds cmd e = match command_of wd with Some f => (true, f e) | None => (false, e) end.
Proof.
  intros Hc. unfold run_cmds, cmds.
  cbn [fold_left fst snd].
  assert (forall s, cstr (bytes_of s ++ [0]) = Some (bytes_of s) -> default false (streq (bytes_of s ++ [0]) cmd) = bool_decide (wd = bytes_of s)) as Hq.
  { intros s E. rewrite (streq_spec _ _ _ _ E Hc). simpl. apply bool_decide_ext. naive_solver. }
  rewrite !Hq by reflexivity. clear Hq Hc. unfold command_of.
  destruct (decide (wd = bytes_of "q")) as [->|?]; [reflexivity|]. destruct (decide (wd = bytes_of "qa")) as [->|?]; [reflexivity|].
  destruct (decide (wd = bytes_of "w")) as [->|?]; [reflexivity|]. destruct (decide (wd = bytes_of "wa")) as [->|?]; [reflexivity|].
  destruct (decide (wd = bytes_of "wq")) as [->|?]; [reflexivity|]. destruct (decide (wd = bytes_of "wqa")) as [->|?]; [reflexivity|].
  rewrite !bool_decide_false by (done || set_solver). done.
Qed.

Lemma cstr_word l t : cstr (l ++ 0 :: t) = Some (word l).
Proof. induction l as [|c l IH]; simpl; [done|]. rewrite IH. by destruct (c =? 0). Qed.

(** The terminator goes behind the command. *)
Lemma cstr_cmd (e : ed) : ed_ok e ->
  cstr (<[Z.to_nat (cmd_len e) := 0]> (cmd_buf e)) = Some (word (take (Z.to_nat (cmd_len e)) (cmd_buf e))).
Proof.
  intros [_ Hl Hn]. unfold CMD_BUF_SIZE in Hn. rewrite insert_take_drop by lia. apply cstr_word.
Qed.

Lemma save_shape (e : ed) : exists a w' c b x,
  save e = with_world w' (with_complaint c b x (with_args a (with_buf (go_right (Z.to_nat (TEXT_CAP - gap_end (buf e))) TEXT_CAP (buf e)) e))).
Proof.
  unfold save. set (e1 := with_buf _ e). set (e2 := if _ =? SYSCALL_ERROR then _ else e1).
  assert (exists a w', e2 = with_world w' (with_args a e1)) as (a & w' & ->).
  { unfold e2. case_match; [by exists (touch_args (args_save e1) (w e1)), (default (w e1) (cmd_touch (args_save e1) (w e1)))|].
    exists (args_save e), (w e). by destruct e. }
  destruct (uk_resolve_dir _ _) as [ino fs]. destruct (ino =? _); [by do 5 eexists|].
  destruct (uk_fsave _ _ _ _) as [r k]. destruct (r =? _); [by do 5 eexists|].
  by exists a, (set_kern k w'), (complaint e), (complaining e), (complaint_expiry e).
Qed.

Lemma save_edit e : ed_ok e -> ed_ok (save e) /\ edit_of (save e) = mkEdit (d_end (e_doc (edit_of e))) (e_mode (edit_of e)) (e_cmd (edit_of e)).
Proof.
  intros He. destruct (save_shape e) as (a & w' & c & b & x & ->). pose proof He as [Hg ? ?]. destruct (doc_end _ Hg) as (Hg' & E & _).
  split; [by split|]. unfold edit_of. cbn. by rewrite E.
Qed.
Lemma save_quit_edit e : ed_ok e -> ed_ok (save_quit e) /\ edit_of (save_quit e) = edit_of (save e).
Proof.
  intros He. destruct (save_edit e He) as [[? ? ?] _]. unfold save_quit. case_match; [done|]. by split; [split|].
Qed.
Lemma quit_edit e : ed_ok e -> ed_ok (quit e) /\ edit_of (quit e) = edit_of e.
Proof. intros [? ? ?]. by split; [split|]. Qed.

Lemma command_edit wd e : ed_ok e -> 
  let e' := match command_of wd with Some f => f e | None => e end in
  ed_ok e' /\ edit_of e' = mkEdit (if bool_decide (wd ∈ (bytes_of <$> ["w"; "wq"; "wa"; "wqa"]%string)) then d_end (doc_of (buf e)) else doc_of (buf e))
                             (mode e) (e_cmd (edit_of e)).
Proof.
  intros He. unfold command_of.
  destruct (save_edit e He) as [Hs Es], (save_quit_edit e He) as [Hq Eq], (quit_edit e He) as [Hu Eu].
  destruct (decide (wd = bytes_of "q")) as [->|?]; [done|]. destruct (decide (wd = bytes_of "qa")) as [->|?]; [done|].
  destruct (decide (wd = bytes_of "w")) as [->|?]; [done|]. destruct (decide (wd = bytes_of "wa")) as [->|?]; [done|].
  destruct (decide (wd = bytes_of "wq")) as [->|?]; [split; [done|by transitivity (edit_of (save_quit e)); [|rewrite Eq, Es]]|]. destruct (decide (wd = bytes_of "wqa")) as [->|?]; [split; [done|by transitivity (edit_of (save_quit e)); [|rewrite Eq, Es]]|].
  rewrite !bool_decide_false by set_solver. done.
Qed.

(** The command line: the bytes kept are those typed. *)
Lemma take_cmd_back (b : list Z) n : 0 < n -> take (Z.to_nat (n - 1)) b = take (Z.to_nat n - 1) (take (Z.to_nat n) b).
Proof. intros Hn. rewrite take_take. f_equal. lia. Qed.
Lemma take_cmd_type (b : list Z) n c : 0 <= n -> n < Z.of_nat (length b) ->
  take (Z.to_nat (n + 1)) (<[Z.to_nat n := c]> b) = take (Z.to_nat n) b ++ [c].
Proof.
  intros Hn Hl. replace (Z.to_nat (n + 1)) with (S (Z.to_nat n)) by lia.
  rewrite (take_S_r _ _ c) by (apply list_lookup_insert_eq; lia). by rewrite take_insert_ge by lia.
Qed.

Definition step_ok (c : Z) (e e' : ed) : Prop := ed_ok e' /\ edit_of e' = edit_key c (edit_of e).

Lemma normal_edit c e : ed_ok e -> mode e = MODE_NORMAL -> step_ok c e (handle_normal c e).
Proof.
  intros He Hm. pose proof He as [Hg ? ?]. unfold step_ok, handle_normal, edit_key. cbn [e_mode e_doc e_cmd edit_of]. rewrite Hm.
  destruct (doc_right _ Hg) as [? Er], (doc_left _ Hg) as [? El], (doc_down _ Hg) as [? Ed], (doc_up _ Hg) as [? Eu].
  destruct (c =? 58); [by split; [split|]|]. destruct (c =? 105); [by split; [split|]|].
  destruct (c =? 97); [split; [by split|unfold edit_of; cbn; by rewrite Er]|].
  destruct (c =? 104); [split; [by split|unfold edit_of; cbn; by rewrite El]|].
  destruct (c =? 106); [split; [by split|unfold edit_of; cbn; by rewrite Ed]|].
  destruct (c =? 107); [split; [by split|unfold edit_of; cbn; by rewrite Eu]|].
  destruct (c =? 108); [split; [by split|unfold edit_of; cbn; by rewrite Er]|]. by split; [split|].
Qed.

Lemma insert_edit c e : ed_ok e -> mode e = MODE_INSERT -> step_ok c e (handle_insert c e).
Proof.
  intros He Hm. pose proof He as [Hg ? ?]. pose proof Hg as [? ? ?]. unfold step_ok, handle_insert, edit_key. cbn [e_mode e_doc e_cmd edit_of]. rewrite Hm.
  destruct (128 <=? c); [split; [by split|]; unfold edit_of; cbn; by rewrite Hm|]. destruct (c =? KEY_ESC); [by split; [split|]|].
  destruct (c =? BACKSPACE).
  - cbn [buf with_mode]. destruct (Z.ltb_spec 0 (gap_start (buf e))).
    + destruct (doc_backspace _ Hg) as [? E]; [done|]. split; [by split|]. unfold edit_of. cbn [buf with_buf with_mode]. by rewrite E.
    + rewrite doc_no_backspace by (done || lia). by split; [split|].
  - cbn [buf with_mode]. destruct (Z.eqb_spec (gap_start (buf e)) (gap_end (buf e))) as [E|E].
    + rewrite doc_full by done. by split; [split|].
    + destruct (doc_insert c _ Hg E) as [? E']. split; [by split|]. unfold edit_of. cbn [buf with_buf with_mode]. by rewrite E'.
Qed.

Lemma command_mode_edit c e : ed_ok e -> mode e = MODE_COMMAND -> step_ok c e (handle_command c e).
Proof.
  intros He Hm. pose proof He as [Hg Hl Hn]. unfold CMD_BUF_SIZE in *. unfold step_ok, handle_command, edit_key. cbn [e_mode e_doc e_cmd edit_of]. rewrite Hm.
  assert (length (take (Z.to_nat (cmd_len e)) (cmd_buf e)) = Z.to_nat (cmd_len e)) as Ht by (rewrite length_take; lia).
  destruct (128 <=? c); [split; [by split|]; unfold edit_of; cbn; by rewrite Hm|]. destruct (c =? KEY_ESC); [by split; [split|]|].
  destruct (c =? BACKSPACE); [|destruct (c =? NEWLINE)].
  - cbn [cmd_len with_mode]. rewrite Ht. destruct (Z.ltb_spec 0 (cmd_len e)).
    + split; [split; [done|done|cbn; unfold CMD_BUF_SIZE; lia]|]. unfold edit_of. cbn. by rewrite take_cmd_back.
    + split; [by split|]. unfold edit_of. cbn. by replace (Z.to_nat (cmd_len e)) with 0%nat by lia.
  - set (e1 := with_cmd _ _ _). assert (ed_ok e1) as He1 by (split; cbn; rewrite ?length_insert; unfold CMD_BUF_SIZE; done).
    change (cmd_buf e1) with (<[Z.to_nat (cmd_len e) := 0]> (cmd_buf e)). rewrite (run_cmds_spec _ _ e1 (cstr_cmd e He)). unfold saves. fold (edit_of e1). set (wd := word _).
    destruct (command_edit wd e1 He1) as [[? ? ?] E]. destruct (command_of wd); split; try by split; cbn.
    + apply (f_equal e_doc) in E. cbn [e_doc edit_of] in E. trans (mkEdit (doc_of (buf (e0 e1))) MODE_NORMAL []); [done|]. by rewrite E.
    + apply (f_equal e_doc) in E. cbn [e_doc edit_of] in E. trans (mkEdit (doc_of (buf e1)) MODE_NORMAL []); [done|]. by rewrite E.
  - cbn [cmd_len with_mode]. destruct (Z.ltb_spec (cmd_len e) (CMD_BUF_SIZE - 1)) as [Hlt|Hge]; unfold CMD_BUF_SIZE in *.
    + split; [split; [done|cbn; by rewrite length_insert|cbn; unfold CMD_BUF_SIZE; lia]|]. unfold edit_of. cbn.
      rewrite take_cmd_type by lia. by rewrite (take_ge (_ ++ [c])) by (rewrite length_app, Ht; simpl; lia).
    + split; [by split|]. unfold edit_of. cbn. rewrite take_app_le by lia. by rewrite take_take, Nat.min_r by lia.
Qed.

Lemma key_edit c e : ed_ok e -> ed_ok (dinv_key c e) /\ edit_of (dinv_key c e) = edit_key c (edit_of e).
Proof.
  intros He. unfold dinv_key. set (e1 := match mode _ with MODE_NORMAL => _ | MODE_INSERT => _ | MODE_COMMAND => _ end).
  assert (step_ok c e e1) as [H1 E1].
  { assert (ed_ok (damaged DMG_NONE e)) by by destruct He.
    unfold e1. destruct (mode (damaged DMG_NONE e)) eqn:Em;
      [by apply (normal_edit c (damaged DMG_NONE e))|by apply (insert_edit c (damaged DMG_NONE e))|
       by apply (command_mode_edit c (damaged DMG_NONE e))]. }
  destruct (scroll_same e1) as [H2 E2], (repaint_same _ _ (repaint_render (check_scroll e1))) as [H3 E3].
  split; [auto|]. by rewrite E3, E2, E1.
Qed.

End spec.
(** ** Loading and saving *)

Lemma load_bytes_spec blk g : gap_ok g -> gap_end g = TEXT_CAP -> 
  match load_bytes blk g with
  | Some g' => gap_ok g' /\ gap_end g' = TEXT_CAP /\ before g' = before g ++ blk /\ gap_start g' = gap_start g + Z.of_nat (length blk)
  | None => TEXT_CAP < gap_start g + Z.of_nat (length blk)
  end.
Proof.
  revert g. induction blk as [|c blk IH]; intros g Hg E; cbn [load_bytes length].
  - rewrite app_nil_r. split; [done|]. split; [done|]. split; [done|lia].
  - pose proof Hg as [? ? ?]. destruct (Z.ltb_spec (gap_start g) TEXT_CAP); [|lia].
    set (g1 := mkGap _ _ _). assert (gap_ok g1) as Hg1 by (split; cbn; lia).
    assert (before g1 = before g ++ [c]) as Eb.
    { unfold before, g1. cbn [text gap_start]. rewrite seqZ_app by lia. rewrite fmap_app, fmap_put_text by lia. f_equal.
      rewrite (seqZ_cons _ 1) by lia. csimpl. unfold put_text. by rewrite Z.add_0_l, Z.eqb_refl. }
    specialize (IH g1 Hg1 E). destruct (load_bytes blk g1) as [g'|].
    + destruct IH as (Hg' & Ee & E1 & E2). split; [done|]. split; [done|]. split; [by rewrite E1, Eb, <- app_assoc|].
      rewrite E2. unfold g1. cbn. lia.
    + unfold g1 in IH. cbn in IH. lia.
Qed.

Section load.
Context {K : Type} `{UserKernel K}.
Local Abbreviation ed := (@Dinv.ed K).
Local Abbreviation world := (@User.world K).

(** The bytes of a file as [read_chunk] gives them, from chunk [n] on. *)
Inductive file_chunks (fs ino : Z) (k : K) : Z -> list Z -> Prop :=
| chunks_end n blk : uk_read_chunk fs ino n k = (0, blk) -> file_chunks fs ino k n []
| chunks_more n r blk l : uk_read_chunk fs ino n k = (r, blk) -> 0 < r <= Z.of_nat (length blk) -> r <> SYSCALL_ERROR ->
    file_chunks fs ino k (n + 1) l -> file_chunks fs ino k n (take (Z.to_nat r) blk ++ l).

Lemma load_chunks_ok fuel fs ino n k g g' : gap_ok g -> gap_end g = TEXT_CAP ->
  load_chunks fuel fs ino n k g = LoadOk g' -> gap_ok g' /\ gap_end g' = TEXT_CAP.
Proof.
  revert n g. induction fuel as [|fuel IH]; intros n g Hg E; cbn [load_chunks]; [done|].
  destruct (uk_read_chunk fs ino n k) as [r blk]. destruct (r =? 0); [by intros [= <-]|]. destruct (r =? SYSCALL_ERROR); [done|].
  pose proof (load_bytes_spec (take (Z.to_nat r) blk) g Hg E) as Hb. destruct (load_bytes _ g) as [g1|]; [|done].
  destruct Hb as (? & ? & _). by apply IH.
Qed.

Lemma load_chunks_total fs ino k n l : file_chunks fs ino k n l -> forall fuel g, gap_ok g -> gap_end g = TEXT_CAP ->
  gap_start g + Z.of_nat (length l) <= TEXT_CAP -> (length l < fuel)%nat ->
  exists g', load_chunks fuel fs ino n k g = LoadOk g' /\ gap_ok g' /\ before g' = before g ++ l /\ gap_end g' = TEXT_CAP.
Proof.
  induction 1 as [n blk E|n r blk l E Hr Hne _ IH]; intros fuel g Hg Ee Hfit Hf; (destruct fuel as [|fuel]; [lia|]); cbn [load_chunks]; rewrite E.
  - cbn. exists g. by rewrite app_nil_r.
  - rewrite (proj2 (Z.eqb_neq r 0)), (proj2 (Z.eqb_neq r _)) by (done || lia).
    assert (length (take (Z.to_nat r) blk) = Z.to_nat r) as Hl by (rewrite length_take; lia). rewrite length_app, Hl in *.
    pose proof (load_bytes_spec (take (Z.to_nat r) blk) g Hg Ee) as Hb. destruct (load_bytes _ g) as [g1|]; [|lia].
    destruct Hb as (Hg1 & E1 & Eb & Es). destruct (IH fuel g1 Hg1 E1) as (g' & -> & Hg' & Eb' & Ee'); [lia|lia|].
    exists g'. by rewrite Eb', Eb, <- app_assoc.
Qed.

(** The editor before its first repaint. *)
Definition first_ed (g : gap) (path args : list Z) (w0 : world) : ed :=
  mkEd g (t_rows (con w0)) (t_cols (con w0)) (t_rows (con w0) - 1) 0 0 MODE_NORMAL true (replicate 64 0) 0 path DMG_FULL args [] false 0 (on_con t_clear w0).

Lemma app_dinv_edits args text0 stat0 w0 e : app_dinv args text0 stat0 w0 = Edits e ->
  exists g path, gap_ok g /\ e = no_scrollback (gap_render (check_scroll (first_ed g path args w0))).
Proof.
  unfold app_dinv. destruct (bool_decide (args = [])); [done|]. cbn [con on_con t_cols t_rows t_clear].
  destruct (t_cols (con w0) <=? COL_OFFSET); [done|]. destruct (return_path _ _) as [full| |]; [|done..].
  destruct (uk_resolve_dir _ _) as [n fs].
  assert (gap_ok (mkGap text0 0 TEXT_CAP)) as Hg by (split; cbn; unfold TEXT_CAP; lia).
  destruct (n =? SYSCALL_ERROR); [intros [= <-]; by eexists _, _|].
  destruct (is_dir _ _ _ _); [done|]. destruct (TEXT_CAP <=? _); [done|].
  destruct (load_chunks _ _ _ _ _ _) as [g| |] eqn:El; [|done..]. intros [= <-].
  destruct (load_chunks_ok _ _ _ _ _ _ _ Hg eq_refl El) as [? _]. by eexists _, _.
Qed.
Lemma app_dinv_loads args text0 stat0 w0 full ino fs content : args <> [] -> COL_OFFSET < t_cols (con w0) ->
  return_path (dir w0) args = PathIs full -> uk_resolve_dir (take 255 full) (kern w0) = (ino, fs) -> ino <> SYSCALL_ERROR ->
  is_dir stat0 ino fs (kern w0) = false -> ld32 (default stat0 (uk_get_stat fs ino (kern w0))) 4 < TEXT_CAP ->
  file_chunks fs ino (kern w0) 0 content -> Z.of_nat (length content) <= TEXT_CAP ->
  exists g, app_dinv args text0 stat0 w0 = Edits (no_scrollback (gap_render (check_scroll (first_ed g (take 255 full) args w0)))) /\
    gap_ok g /\ doc_of g = mkDoc content (length content).
Proof.
  intros Ha Hc Hp Hr Hne Hd Hs Hch Hlen.
  assert (gap_ok (mkGap text0 0 TEXT_CAP)) as Hg by (split; cbn; unfold TEXT_CAP; lia).
  destruct (load_chunks_total _ _ _ _ _ Hch (S (Z.to_nat TEXT_CAP)) _ Hg eq_refl) as (g & El & Hg' & Eb & Ee); [cbn; lia|lia|].
  exists g. split; [|split; [done|]].
  - unfold app_dinv. rewrite bool_decide_eq_false_2 by done. cbn [con on_con t_cols t_rows t_clear dir kern].
    rewrite (proj2 (Z.leb_gt _ _)) by done. rewrite Hp, Hr. rewrite (proj2 (Z.eqb_neq _ _)) by done. rewrite Hd.
    rewrite (proj2 (Z.leb_gt _ _)) by done. by rewrite El.
  - unfold doc_of. rewrite Eb, (after_nil g Hg' Ee). by rewrite app_nil_r.
Qed.

Lemma save_writes (e : ed) ino fs : gap_ok (buf e) -> uk_resolve_dir (path e) (kern (w e)) = (ino, fs) -> ino <> SYSCALL_ERROR ->
  kern (w (save e)) = (uk_fsave fs ino (d_text (doc_of (buf e))) (kern (w e))).2.
Proof.
  intros Hg Hr Hne. destruct (doc_end _ Hg) as (_ & _ & Ec). unfold save. set (e1 := with_buf _ e).
  change (uk_resolve_dir (path e1) (kern (w e1))) with (uk_resolve_dir (path e) (kern (w e))). rewrite Hr. cbn [fst].
  rewrite (proj2 (Z.eqb_neq _ _)) by done.
  change (uk_resolve_dir (path e1) (kern (w e1))) with (uk_resolve_dir (path e) (kern (w e))). rewrite Hr. rewrite (proj2 (Z.eqb_neq _ _)) by done.
  change (contents (buf e1)) with (contents (go_right (Z.to_nat (TEXT_CAP - gap_end (buf e))) TEXT_CAP (buf e))). rewrite Ec.
  change (kern (w e1)) with (kern (w e)). destruct (uk_fsave _ _ _ _) as [r k]. cbn [snd]. by destruct (r =? _).
Qed.

(** The repaint after a key keeps the file and the kernel. *)
Lemma settle_same (e : ed) : let e' := gap_render (check_scroll e) in path e' = path e /\ kern (w e') = kern (w e) /\ running e' = running e.
Proof.
  cbv zeta. destruct (repaint_render (check_scroll e)) as [f ->], (scroll_damage e) as (t & l & d & ->). done.
Qed.

(** A key that is not the end of a command keeps them too. *)
Lemma key_same c (e : ed) : mode e <> MODE_COMMAND \/ c <> NEWLINE -> path (dinv_key c e) = path e /\ kern (w (dinv_key c e)) = kern (w e) /\ running (dinv_key c e) = running e.
Proof.
  intros Hc. unfold dinv_key. cbn [mode damaged]. set (e1 := match mode e with MODE_NORMAL => _ | MODE_INSERT => _ | MODE_COMMAND => _ end).
  destruct (settle_same e1) as (-> & -> & ->). unfold e1. destruct (mode e).
  - unfold handle_normal. repeat (destruct (c =? _); [done|]). done.
  - unfold handle_insert. destruct (128 <=? c); [done|]. destruct (c =? KEY_ESC); [done|]. destruct (c =? BACKSPACE); [by case_match|by case_match].
  - unfold handle_command. destruct (128 <=? c); [done|]. destruct (c =? KEY_ESC); [done|]. destruct (c =? BACKSPACE); [by case_match|].
    destruct (Z.eqb_spec c NEWLINE); [by destruct Hc|]. by case_match.
Qed.

Lemma key_saves (e : ed) ino fs : ed_ok e -> mode e = MODE_COMMAND -> e_cmd (edit_of e) = bytes_of "w" ->
  uk_resolve_dir (path e) (kern (w e)) = (ino, fs) -> ino <> SYSCALL_ERROR ->
  kern (w (dinv_key NEWLINE e)) = (uk_fsave fs ino (d_text (doc_of (buf e))) (kern (w e))).2.
Proof.
  intros He Hm Hc Hr Hne. pose proof He as [Hg _ _]. unfold dinv_key. cbn [mode damaged]. rewrite Hm.
  destruct (settle_same (handle_command NEWLINE (damaged DMG_NONE e))) as (_ & -> & _). unfold handle_command.
  change (128 <=? NEWLINE) with false. change (NEWLINE =? KEY_ESC) with false. change (NEWLINE =? BACKSPACE) with false. change (NEWLINE =? NEWLINE) with true.
  cbv iota. set (e1 := with_cmd _ _ _).
  assert (run_cmds (cmd_buf e1) e1 = (true, save e1)) as ->.
  { rewrite (run_cmds_spec _ (bytes_of "w")); [done|]. rewrite <- Hc. trans (Some (word (e_cmd (edit_of e)))); [apply (cstr_cmd e He)|by rewrite Hc]. }
  cbn [negb]. trans (kern (w (save e1))); [done|]. apply (save_writes e1 ino fs Hg Hr Hne).
Qed.

#[local] Opaque dinv_key gap_render check_scroll.

Lemma allow_same (e : ed) : (ed_ok e -> ed_ok (no_scrollback e)) /\ edit_of (no_scrollback e) = edit_of e /\
  path (no_scrollback e) = path e /\ kern (w (no_scrollback e)) = kern (w e) /\ running (no_scrollback e) = running e.
Proof. split; [|done]. intros []. by split. Qed.

Lemma start_same g path0 args w0 : gap_ok g ->
  let e := no_scrollback (gap_render (check_scroll (first_ed g path0 args w0))) in
  ed_ok e /\ edit_of e = mkEdit (doc_of g) MODE_NORMAL [] /\ path e = path0 /\ kern (w e) = kern w0 /\ running e = true.
Proof.
  intros Hg. cbv zeta. set (e0 := first_ed g path0 args w0).
  assert (ed_ok e0) as He0 by (split; cbn; unfold CMD_BUF_SIZE; try done; lia).
  assert (edit_of e0 = mkEdit (doc_of g) MODE_NORMAL [] /\ path e0 = path0 /\ kern (w e0) = kern w0 /\ running e0 = true) as (E & P & Kn & Rn) by done. clearbody e0.
  destruct (scroll_same e0) as [H1 E1], (repaint_same _ _ (repaint_render (check_scroll e0))) as [H2 E2], (settle_same e0) as (P1 & K1 & R1).
  set (e1 := gap_render (check_scroll e0)) in *. clearbody e1. destruct (allow_same e1) as (H3 & E3 & P3 & K3 & R3).
  rewrite E3, P3, K3, R3, E2, E1, P1, K1, R1, E. auto.
Qed.

(** [:w] from the normal mode. *)
Lemma save_keys (e : ed) ino fs : ed_ok e -> mode e = MODE_NORMAL -> uk_resolve_dir (path e) (kern (w e)) = (ino, fs) -> ino <> SYSCALL_ERROR ->
  kern (w (run dinv_key [58; 119; NEWLINE] e)) = (uk_fsave fs ino (d_text (doc_of (buf e))) (kern (w e))).2.
Proof.
  intros He Hm Hr Hne. rewrite run_three.
  destruct (key_edit 58 e He) as [He1 E1], (key_same 58 e) as (P1 & K1 & _); [by right|]. set (e1 := dinv_key 58 e) in *. clearbody e1.
  assert (edit_of e1 = mkEdit (doc_of (buf e)) MODE_COMMAND []) as E1' by (rewrite E1; unfold edit_key, edit_of; cbn [e_mode]; by rewrite Hm).
  destruct (key_edit 119 e1 He1) as [He2 E2], (key_same 119 e1) as (P2 & K2 & _); [by right|]. set (e2 := dinv_key 119 e1) in *. clearbody e2.
  assert (edit_of e2 = mkEdit (doc_of (buf e)) MODE_COMMAND (bytes_of "w")) as E2' by (by rewrite E2, E1').
  rewrite (key_saves e2 ino fs); [|done|by apply (f_equal e_mode) in E2'|by rewrite E2'|by rewrite P2, K2, P1, K1|done].
  rewrite K2, K1. apply (f_equal e_doc) in E2'. change (e_doc (edit_of e2)) with (doc_of (buf e2)) in E2'. by rewrite E2'.
Qed.

Lemma run_text ks e : ed_ok e -> ed_ok (run dinv_key ks e) /\ edit_of (run dinv_key ks e) = run edit_key ks (edit_of e).
Proof. apply run_sim. exact key_edit. Qed.

End load.

(** ** A kernel with one file, for the examples *)

Definition file_stat (l : list Z) : list Z := [164; 129; 0; 0] ++ le_bytes 4 (Z.of_nat (length l)) ++ replicate 120 0.

#[export] Instance one_file : UserKernel (list Z) := {|
  uk_resolve_dir := fun _ _ => (12, 0); uk_resolve_symlink := fun _ _ => (12, 0);
  uk_get_stat := fun _ _ k => Some (file_stat k);
  uk_read_chunk := fun _ _ n k => if n =? 0 then (Z.of_nat (length k), k) else (0, []);
  uk_touch := fun _ _ _ k => (SYSCALL_ERROR, 0, k); uk_fsave := fun _ _ l _ => (0, l); uk_ticks := fun _ => 0 |}.

Definition small_world : world := mkW (mkTerm 70 4 [] (replicate 280 blank) 0 0 0 true) (bytes_of "hi") [47].
Definition small_ed : ed := first_ed (mkGap (fun i => bytes_of "hi" !!! Z.to_nat i) 2 TEXT_CAP) (bytes_of "/f") (bytes_of "f") small_world.

(** C6. The editor is the reference editor: whatever keys are typed, the text, the
    cursor, the mode and the command line change as on a plain text with a
    position in it; a full buffer takes nothing more. *)
Theorem dinv_edits_text {K} `{UserKernel K} (e : @ed K) (ks : list Z) : ed_ok e ->
  edit_of (run dinv_key ks e) = run edit_key ks (edit_of e).
Proof. intros He. by destruct (run_text ks e He). Qed.

Lemma dinv_edits_text_witness : 
  edit_of (run dinv_key [105; 33; 27; 104] small_ed) = mkEdit (mkDoc (bytes_of "hi!") 2) MODE_NORMAL [].
Proof.
  rewrite (dinv_edits_text small_ed [105; 33; 27; 104]); [vm_compute; reflexivity|].
  split; [split; cbn; unfold TEXT_CAP; lia|done|unfold CMD_BUF_SIZE; cbn; lia].
Defined.

(** C23. A file is opened and written back unchanged: the editor starts with the
    bytes of the file as its text, and [:w] hands exactly them to [fsave]. *)
Theorem dinv_load_save {K} `{UserKernel K} (args : list Z) (text0 : Z -> Z) (stat0 : list Z) (w0 : @world K) (full : list Z) (ino fs : Z) (content : list Z) :
  args <> [] -> COL_OFFSET < t_cols (con w0) -> return_path (dir w0) args = PathIs full ->
  uk_resolve_dir (take 255 full) (kern w0) = (ino, fs) -> ino <> SYSCALL_ERROR ->
  is_dir stat0 ino fs (kern w0) = false -> ld32 (default stat0 (uk_get_stat fs ino (kern w0))) 4 < TEXT_CAP ->
  file_chunks fs ino (kern w0) 0 content -> Z.of_nat (length content) <= TEXT_CAP ->
  exists e, app_dinv args text0 stat0 w0 = Edits e /\ d_text (e_doc (edit_of e)) = content /\
    kern (w (run dinv_key [58; 119; NEWLINE] e)) = (uk_fsave fs ino content (kern w0)).2.
Proof.
  intros Ha Hc Hp Hr Hne Hd Hs Hch Hlen. destruct (app_dinv_loads args text0 stat0 w0 full ino fs content) as (g & E & Hg & Ed); try done.
  destruct (start_same g (take 255 full) args w0 Hg) as (He & Ee & P & Kn & _). set (e := no_scrollback _) in *. clearbody e. exists e.
  split; [exact E|]. split; [by rewrite Ee, Ed|].
  rewrite (save_keys e ino fs); [|done|by apply (f_equal e_mode) in Ee|by rewrite P, Kn|done]. rewrite Kn.
  apply (f_equal e_doc) in Ee. cbn [e_doc edit_of] in Ee. by rewrite Ee, Ed.
Qed.

Lemma dinv_load_save_witness : exists e, app_dinv (bytes_of "f") (fun _ => 0) [] small_world = Edits e /\
  d_text (e_doc (edit_of e)) = bytes_of "hi" /\ kern (w (run dinv_key [58; 119; NEWLINE] e)) = bytes_of "hi".
Proof.
  assert (file_chunks 0 12 (kern small_world) 0 (bytes_of "hi")) as Hf.
  { apply (chunks_more 0 12 _ 0 2 (bytes_of "hi") []); [done|cbn; lia|done|]. by eapply chunks_end. }
  destruct (dinv_load_save (bytes_of "f") (fun _ => 0) [] small_world (bytes_of "//f") 12 0 (bytes_of "hi")) as (e & E1 & E2 & E3);
    [done..|exact Hf|done|].
  exists e. split; [exact E1|]. split; [exact E2|]. rewrite E3. reflexivity.
Defined.

(** On a terminal of fewer than 65 columns a long command runs over the end of
    the last row, and the page scrolls away under the editor. *)
Definition narrow_world : world := mkW (mkTerm 20 4 [] (replicate 80 blank) 0 0 0 true) (bytes_of "hi") [47].
Example narrow_terminal_scrolls :
  let e := first_ed (mkGap (fun i => bytes_of "hi" !!! Z.to_nat i) 2 TEXT_CAP) (bytes_of "/f") (bytes_of "f") narrow_world in
  t_past (con (w (run dinv_key [58] e))) = [] /\ t_past (con (w (run dinv_key (58 :: replicate 19 97) e))) <> [].
Proof. vm_compute. done. Qed.
