(* ===== verification/DinvScreen.v ===== *)
(** * The screen of the editor is the page of its text

    [page] is the picture a reader expects: a line of the text in every row
    behind its number, cut at the scroll position, and the mode or the command
    in the last row.  Repainting only the damaged rows leaves exactly this
    picture on the terminal ([dinv_shows_page]). *)
From S2P Require Import Prelude Bytes CLib Scheduler Inode Screen ScreenSpec User Dinv DinvSpec.

Lemma u32_small x : 0 <= x < 4294967296 -> u32 x = x.
Proof. intros. by apply Z.mod_small. Qed.

(** ** Writing on the terminal *)

(** The byte in a cell. *)
Definition cell (t : term) (r c : Z) : option Z := ch <$> t_screen t !! Z.to_nat (r * t_cols t + c).

Record t_ok (t : term) : Prop := mkTok {
  to_cols : 0 < t_cols t; to_rows : 0 < t_rows t; to_len : Z.of_nat (length (t_screen t)) = t_rows t * t_cols t }.

(** [t'] is [t] with other cells and another cursor: nothing has scrolled. *)
Record same_frame (t t' : term) : Prop := mkFrame {
  sf_ok : t_ok t'; sf_cols : t_cols t' = t_cols t; sf_rows : t_rows t' = t_rows t; sf_past : t_past t' = t_past t }.

Lemma frame_refl t : t_ok t -> same_frame t t.
Proof. by split. Qed.
Lemma frame_trans t1 t2 t3 : same_frame t1 t2 -> same_frame t2 t3 -> same_frame t1 t3.
Proof. intros [? E1 E2 E3] [? ? ? ?]. split; congruence. Qed.

(** [s] stands in row [r] from column [c] on, the other cells are as they were. *)
Record writes (r c : Z) (s : list Z) (t t' : term) : Prop := mkWrites {
  wr_frame : same_frame t t';
  wr_in : forall c', c <= c' < c + Z.of_nat (length s) -> cell t' r c' = s !! Z.to_nat (c' - c);
  wr_out : forall r' c', 0 <= r' < t_rows t -> 0 <= c' < t_cols t -> r' <> r \/ ~ (c <= c' < c + Z.of_nat (length s)) ->
           cell t' r' c' = cell t r' c' }.

Lemma writes_nil r c t t' : same_frame t t' -> t_screen t' = t_screen t -> writes r c [] t t'.
Proof.
  intros Hf E. split; [done|simpl; lia|]. intros. unfold cell. destruct Hf as [_ -> _ _]. by rewrite E.
Qed.

Lemma cell_index_inj cols r c r' c' : 0 <= c < cols -> 0 <= c' < cols -> 0 <= r -> 0 <= r' ->
  Z.to_nat (r * cols + c) = Z.to_nat (r' * cols + c') -> r = r' /\ c = c'.
Proof.
  intros. assert (r * cols + c = r' * cols + c') as E by nia.
  assert (r = r'); [|split; [done|nia]]. destruct (Z.lt_trichotomy r r') as [?|[?|?]]; [nia|done|nia].
Qed.

(** One plain byte, not at the end of the last row. *)
Lemma char_writes x t : t_ok t -> 0 <= t_row t < t_rows t -> 0 <= t_col t < t_cols t -> x <> 8 -> x <> 10 ->
  t_row t + 1 < t_rows t \/ t_col t + 1 < t_cols t ->
  writes (t_row t) (t_col t) [x] t (t_char x WHITE t) /\
  (t_col t + 1 < t_cols t -> t_row (t_char x WHITE t) = t_row t /\ t_col (t_char x WHITE t) = t_col t + 1).
Proof.
  intros [Hc Hr Hl] Hrow Hcol H8 H10 Hroom. unfold t_char.
  rewrite (proj2 (Z.eqb_neq x 8)), (proj2 (Z.eqb_neq x 10)) by done.
  unfold t_put. change (color (mkChar x WHITE) <? PALETTE_SIZE) with true.
  unfold t_advance, t_look, t_newrow, t_move. cbn.
  set (i := Z.to_nat (t_row t * t_cols t + t_col t)). set (scr := <[i := _]> (t_screen t)).
  assert (i < length (t_screen t))%nat as Hi by (unfold i; nia).
  assert (forall t', t_cols t' = t_cols t -> t_rows t' = t_rows t -> t_past t' = t_past t -> t_screen t' = scr ->
            writes (t_row t) (t_col t) [x] t t') as Hw.
  { intros t' E1 E2 E3 E4. split.
    - split; [|done..]. split; [lia|lia|]. rewrite E4, E1, E2. unfold scr. by rewrite length_insert.
    - cbn [length]. intros c' Hc'. assert (c' = t_col t) as -> by lia. unfold cell. rewrite E4, E1. fold i. unfold scr.
      rewrite list_lookup_insert_eq by done. by rewrite Z.sub_diag.
    - intros r' c' Hr' Hc' Hd. unfold cell. rewrite E4, E1. unfold scr. rewrite list_lookup_insert_ne; [done|].
      intros E. apply cell_index_inj in E as [<- <-]; cbn [length] in Hd; lia. }
  destruct (Z.ltb_spec (t_col t + 1) (t_cols t)).
  - split; [by apply Hw|done].
  - rewrite (proj2 (Z.ltb_lt _ _)) by lia. split; [by apply Hw|lia].
Qed.

Definition plain (s : list Z) : Prop := Forall (fun c => c <> 8 /\ c <> 10) s.

Lemma write_writes s t : plain s -> t_ok t -> 0 <= t_row t < t_rows t -> 0 <= t_col t -> t_col t + Z.of_nat (length s) <= t_cols t ->
  t_row t + 1 < t_rows t \/ t_col t + Z.of_nat (length s) < t_cols t ->
  writes (t_row t) (t_col t) s t (t_write WHITE s t) /\
  (t_col t + Z.of_nat (length s) < t_cols t ->
   t_row (t_write WHITE s t) = t_row t /\ t_col (t_write WHITE s t) = t_col t + Z.of_nat (length s)).
Proof.
  intros Hs. revert t. induction Hs as [|x s [H8 H10] Hs IH]; intros t Ht Hr Hc Hfit Hroom.
  { split; [by apply writes_nil; [apply frame_refl|]|]. simpl. lia. }
  cbn [length] in *. unfold t_write. cbn [fold_left]. fold (t_write WHITE s (t_char x WHITE t)).
  destruct (char_writes x t) as [Hw Hpos]; [done|done|lia|done|done|lia|].
  pose proof Hw as [Hf Hin Hout]. pose proof Hf as [Hok Ec Er Ep].
  destruct (decide (s = [])) as [->|Hne].
  { split; [exact Hw|]. cbn [length]. intros. apply Hpos. lia. }
  assert (0 < Z.of_nat (length s)) by (destruct s; [done|simpl; lia]).
  destruct Hpos as [Er' Ec']; [lia|]. destruct (IH (t_char x WHITE t)) as [[Hf2 Hin2 Hout2] Hpos2]; [done|lia|lia|lia|lia|].
  rewrite Er', Ec', Ec, Er in *. split.
  - split; [by eapply frame_trans| |].
    + cbn [length]. intros c' Hc'. destruct (decide (c' = t_col t)) as [->|].
      * rewrite Hout2 by lia. rewrite Hin by (cbn [length]; lia). by rewrite Z.sub_diag.
      * rewrite Hin2 by lia. replace (Z.to_nat (c' - t_col t)) with (S (Z.to_nat (c' - (t_col t + 1)))) by lia. done.
    + cbn [length]. intros r' c' Hr' Hc' Hd. rewrite Hout2 by lia. apply Hout; [done|done|]. cbn [length] in *. lia.
  - intros Hlt. destruct Hpos2; [lia|]. lia.
Qed.

(** The cursor set inside the screen. *)
Lemma cursor_set r c t : t_ok t -> 0 <= r < t_rows t -> 0 <= c < t_cols t ->
  let t' := t_set_cursor r c t in
  same_frame t t' /\ t_screen t' = t_screen t /\ t_row t' = r /\ t_col t' = c.
Proof.
  intros [? ? ?] Hr Hc t'. assert (t' = t_move r c (t_look 0 t)) as ->.
  { unfold t', t_set_cursor. cbn. rewrite (proj2 (Z.ltb_lt r _)), (proj2 (Z.ltb_lt c _)) by lia. done. }
  done.
Qed.

(** Two writes in a row are one. *)
Lemma writes_app r c s1 s2 t1 t2 t3 : 0 <= r < t_rows t1 -> 0 <= c -> c + Z.of_nat (length (s1 ++ s2)) <= t_cols t1 ->
  writes r c s1 t1 t2 -> writes r (c + Z.of_nat (length s1)) s2 t2 t3 -> writes r c (s1 ++ s2) t1 t3.
Proof.
  rewrite length_app. intros Hr Hc Hfit [F1 I1 O1] [F2 I2 O2]. pose proof F1 as [_ Ec Er _]. rewrite Ec, Er in O2. split.
  - by eapply frame_trans.
  - rewrite length_app. intros c' Hc'. destruct (decide (c' < c + Z.of_nat (length s1))).
    + rewrite O2, I1 by lia. by rewrite lookup_app_l by lia.
    + rewrite I2 by lia. rewrite lookup_app_r by lia. f_equal. lia.
  - rewrite length_app. intros r' c' Hr' Hc' Hd. rewrite O2 by lia. apply O1; lia.
Qed.

(** A byte string at a place inside the screen. *)
Lemma place_writes r c s t : plain s -> t_ok t -> t_rows t < 4294967296 -> t_cols t < 4294967296 ->
  0 <= r < t_rows t -> 0 <= c < t_cols t -> c + Z.of_nat (length s) <= t_cols t ->
  r + 1 < t_rows t \/ c + Z.of_nat (length s) < t_cols t ->
  let t' := t_write WHITE s (t_set_cursor (u32 r) (u32 c) t) in
  writes r c s t t' /\ (c + Z.of_nat (length s) < t_cols t -> t_row t' = r /\ t_col t' = c + Z.of_nat (length s)).
Proof.
  intros Hs Ht Hbr Hbc Hr Hc Hfit Hroom t'. unfold t'. rewrite !u32_small by lia.
  destruct (cursor_set r c t Ht Hr Hc) as (Hf & Es & Er & Ec). set (t1 := t_set_cursor r c t) in *.
  pose proof Hf as [Hok E1 E2 E3]. destruct (write_writes s t1) as [Hw Hp]; [done|done|lia|lia|lia|lia|].
  rewrite Er, Ec, E1 in *. split; [|done].
  replace c with (c + Z.of_nat (length (@nil Z))) in Hw by (cbn [length]; lia).
  apply (writes_app r c [] s t t1); [lia|lia|done| |done]. by apply writes_nil.
Qed.

Definition t_paint (r : Z) (h b : list Z) (t : term) : term :=
  t_write WHITE b (t_write WHITE h (t_set_cursor (u32 r) (u32 0) t)).

Lemma paint_writes r h b t : plain h -> plain b -> t_ok t -> t_rows t < 4294967296 -> t_cols t < 4294967296 ->
  0 <= r -> r + 1 < t_rows t -> Z.of_nat (length h) < t_cols t -> Z.of_nat (length (h ++ b)) <= t_cols t ->
  writes r 0 (h ++ b) t (t_paint r h b t).
Proof.
  rewrite length_app. intros Hh Hb Ht Hbr Hbc Hr Hr1 Hh1 Hfit. pose proof Ht as [? ? ?]. unfold t_paint.
  destruct (place_writes r 0 h t) as [Hw Hp]; [done|done|done|done|lia|lia|lia|lia|]. set (t1 := t_write WHITE h _) in *.
  pose proof Hw as [[Hok E1 E2 E3] _ _]. destruct Hp as [Er Ec]; [lia|].
  destruct (write_writes b t1) as [Hw2 _]; [done|done|lia|lia|lia|lia|]. rewrite Er, Ec in Hw2.
  apply (writes_app r 0 h b t t1); [lia|lia|rewrite length_app; lia|done|done].
Qed.

(** ** The visible part of a line *)

Definition visible (left width : Z) (x : list Z) : list Z := take (Z.to_nat width) (drop (Z.to_nat left) (sanitize <$> x)).

(** What a reading loop adds to [out] from the bytes [x] at column [c]. *)
Definition more (left width c : Z) (out x : list Z) : list Z :=
  take (Z.to_nat width - length out) (drop (Z.to_nat (left - c)) (sanitize <$> x)).

Lemma more_full left width c out x : width <= Z.of_nat (length out) -> more left width c out x = [].
Proof. intros Hf. unfold more. by replace (Z.to_nat width - length out)%nat with 0%nat by lia. Qed.

Lemma more_cons left width c out a x : Z.of_nat (length out) < width -> 
  out ++ more left width c out (a :: x) =
  (if left <=? c then out ++ [sanitize a] else out) ++ more left width (c + 1) (if left <=? c then out ++ [sanitize a] else out) x.
Proof.
  intros Hw. unfold more. rewrite fmap_cons. destruct (Z.leb_spec left c).
  - replace (Z.to_nat (left - c)) with 0%nat by lia. replace (Z.to_nat (left - (c + 1))) with 0%nat by lia. rewrite !drop_0, length_app. cbn [length].
    replace (Z.to_nat width - length out)%nat with (S (Z.to_nat width - (length out + 1))) by lia. by rewrite <- app_assoc.
  - by replace (Z.to_nat (left - c)) with (S (Z.to_nat (left - (c + 1)))) by lia.
Qed.

Lemma collect_spec t left width x stop i c out : t <$> seqZ i (stop - i) = x -> i <= stop -> 0 <= width ->
  Z.of_nat (length out) <= width ->
  exists c', collect (Z.to_nat (stop - i)) t left width stop i c out = (c', out ++ more left width c out x) /\
    (Z.of_nat (length (out ++ more left width c out x)) < width -> c' = c + Z.of_nat (length x)).
Proof.
  intros Hx Hi Hw Ho. subst x. remember (Z.to_nat (stop - i)) as n eqn:En. revert i c out Hi Ho En.
  induction n as [|n IH]; intros i c out Hi Ho En.
  - rewrite seqZ_nil by lia. exists c. unfold more. cbn. rewrite drop_nil, take_nil, app_nil_r. split; [done|lia].
  - cbn [collect]. rewrite (proj2 (Z.ltb_lt i stop)) by lia. cbn [andb]. destruct (Z.ltb_spec (Z.of_nat (length out)) width) as [Hlt|Hge].
    + rewrite (seqZ_cons i) by lia. csimpl. rewrite more_cons by done. replace (Z.pred (stop - i)) with (stop - (i + 1)) by lia.
      replace (Z.succ i) with (i + 1) by lia.
      destruct (IH (i + 1) (c + 1) (if left <=? c then out ++ [sanitize (t i)] else out)) as (c' & E & Hc'); [lia| |lia|].
      { destruct (left <=? c); rewrite ?length_app; cbn [length]; lia. }
      exists c'. split; [done|]. intros Hlen. rewrite Hc' by done. lia.
    + exists c. rewrite more_full by lia. rewrite app_nil_r. split; [done|lia].
Qed.

Lemma visible_more left width x : visible left width x = more left width 0 [] x.
Proof. unfold visible, more. cbn [length]. by rewrite Nat.sub_0_r, Z.sub_0_r. Qed.

Lemma length_more left width c out x : Z.of_nat (length out) <= width -> Z.of_nat (length (out ++ more left width c out x)) <= width.
Proof. intros. unfold more. rewrite length_app, length_take. lia. Qed.

Lemma visible_app left width x y : 0 <= left -> 0 <= width ->
  visible left width (x ++ y) = visible left width x ++ more left width (Z.of_nat (length x)) (visible left width x) y.
Proof.
  intros Hl Hw. unfold visible, more. rewrite fmap_app. set (sx := sanitize <$> x). set (sy := sanitize <$> y).
  assert (length x = length sx) as -> by (unfold sx; by rewrite length_fmap).
  destruct (decide (Z.to_nat left <= length sx)%nat).
  - rewrite drop_app_le by done. rewrite take_app. f_equal. rewrite length_take.
    replace (Z.to_nat (left - Z.of_nat (length sx))) with 0%nat by lia. rewrite drop_0, length_drop. f_equal. lia.
  - rewrite drop_app_ge by lia. rewrite (drop_ge sx) by lia. rewrite take_nil. cbn. f_equal; [lia|]. f_equal. lia.
Qed.

Lemma collect_visible t left width x start stop : t <$> seqZ start (stop - start) = x -> start <= stop -> 0 <= width ->
  (collect_range t left width start stop 0 []).2 = visible left width x.
Proof.
  intros Hx Hs Hw. destruct (collect_spec t left width x stop start 0 []) as (c' & E & _); [done|done|done|cbn; lia|].
  unfold collect_range. rewrite E. by rewrite visible_more.
Qed.

(** The part of the array between two places. *)
Lemma fmap_seqZ_split (t : Z -> Z) i n x y : t <$> seqZ i n = x ++ y -> 0 <= n ->
  t <$> seqZ i (Z.of_nat (length x)) = x /\ t <$> seqZ (i + Z.of_nat (length x)) (n - Z.of_nat (length x)) = y.
Proof.
  intros E Hn. assert (Z.of_nat (length x) <= n) as Hx.
  { apply (f_equal length) in E. rewrite length_app, length_fmap, length_seqZ in E. lia. }
  replace n with (Z.of_nat (length x) + (n - Z.of_nat (length x))) in E at 1 by lia. rewrite seqZ_app, fmap_app in E by lia.
  apply app_inj_1 in E as [E1 E2]; [done|]. rewrite length_fmap, length_seqZ. lia.
Qed.

Definition lined (p : list Z) : Prop := p = [] \/ exists q, p = q ++ [NEWLINE].
Definition ended (r : list Z) : Prop := r = [] \/ exists r', r = NEWLINE :: r'.

(** The line of the cursor is what is before the gap and what is behind it. *)
Lemma cursor_line_spec g left width p xa xb r : gap_ok g -> 0 <= left -> 0 <= width ->
  before g = p ++ xa -> lined p -> no_nl xa -> after g = xb ++ r -> no_nl xb -> ended r ->
  cursor_line g left width = pad width (visible left width (xa ++ xb)).
Proof.
  intros Hg Hl Hw Eb Hp Hxa Ea Hxb Hr. pose proof Hg as [? ? ?]. pose proof (length_before g Hg) as Hlb. pose proof (length_after g Hg) as Hla.
  unfold cursor_line. rewrite (line_begin_spec _ _ xa p); [|by rewrite seqZ_before|done|done].
  rewrite (line_end_after g xb r) by done. rewrite Eb, length_app in Hlb.
  destruct (fmap_seqZ_split (text g) 0 (gap_start g) p xa Eb) as [_ E1]; [lia|].
  destruct (fmap_seqZ_split (text g) (gap_end g) (TEXT_CAP - gap_end g) xb r Ea) as [E2 _]; [lia|].
  destruct (collect_spec (text g) left width xa (gap_start g) (Z.of_nat (length p)) 0 []) as (c & Ec & Hc); [done|lia|done|cbn; lia|].
  unfold collect_range. rewrite Ec. rewrite <- visible_more in *. cbn [app] in *.
  replace (gap_end g + Z.of_nat (length xb) - gap_end g) with (Z.of_nat (length xb)) by lia.
  assert (Z.of_nat (length (visible left width xa)) <= width) as Hv by (unfold visible; rewrite length_take; lia).
  destruct (collect_spec (text g) left width xb (gap_end g + Z.of_nat (length xb)) (gap_end g) c (visible left width xa)) as (c2 & Ec2 & _);
    [by rewrite Z.add_simpl_l|lia|done|done|]. rewrite Z.add_simpl_l in Ec2. rewrite Ec2. cbn [snd]. f_equal.
  rewrite visible_app by done. f_equal. destruct (decide (Z.of_nat (length (visible left width xa)) < width)) as [Hlt|Hge].
  - by rewrite Hc by done.
  - by rewrite !more_full by lia.
Qed.

(** ** Reading the text across the gap *)

Definition at_text (g : gap) (p : Z) : Prop := 0 <= p < gap_start g \/ gap_end g <= p <= TEXT_CAP.

(** The text from a place on. *)
Definition rest (g : gap) (p : Z) : list Z :=
  if p <? gap_start g then (text g <$> seqZ p (gap_start g - p)) ++ after g else text g <$> seqZ p (TEXT_CAP - p).

Lemma rest_start g : gap_ok g ->
  let p := if 0 =? gap_start g then gap_end g else 0 in at_text g p /\ rest g p = before g ++ after g.
Proof.
  intros [? ? ?]. cbv zeta. unfold at_text, rest. destruct (Z.eqb_spec 0 (gap_start g)) as [E|E].
  - split; [lia|]. rewrite (proj2 (Z.ltb_ge _ _)) by lia. unfold before. rewrite <- E. done.
  - split; [lia|]. rewrite (proj2 (Z.ltb_lt _ _)) by lia. by rewrite Z.sub_0_r.
Qed.

Lemma rest_end g p : gap_ok g -> at_text g p -> rest g p = [] <-> p = TEXT_CAP.
Proof.
  intros [? ? ?] Hp. unfold at_text in Hp. split.
  - intros E. apply (f_equal length) in E. revert E. unfold rest. destruct (Z.ltb_spec p (gap_start g)).
    + rewrite length_app, length_fmap, length_seqZ. cbn [length]. lia.
    + rewrite length_fmap, length_seqZ. cbn [length]. lia.
  - intros ->. unfold rest. rewrite (proj2 (Z.ltb_ge _ _)) by lia. by rewrite Z.sub_diag.
Qed.

Lemma rest_cons g p : gap_ok g -> at_text g p -> p < TEXT_CAP ->
  rest g p = text g p :: rest g (next_pos g p) /\ at_text g (next_pos g p) /\ p < next_pos g p.
Proof.
  intros [? ? ?] Hp Hlt. unfold at_text, rest, next_pos in *. destruct (Z.ltb_spec p (gap_start g)).
  - rewrite (seqZ_cons p) by lia. csimpl. replace (Z.succ p) with (p + 1) by lia. replace (Z.pred (gap_start g - p)) with (gap_start g - (p + 1)) by lia.
    destruct (Z.eqb_spec (p + 1) (gap_start g)) as [E|E].
    + rewrite E, Z.sub_diag. rewrite (proj2 (Z.ltb_ge _ _)) by lia. split; [done|lia].
    + rewrite (proj2 (Z.ltb_lt _ _)) by lia. split; [done|lia].
  - rewrite (proj2 (Z.eqb_neq _ _)) by lia. rewrite (proj2 (Z.ltb_ge _ _)) by lia. split; [|lia].
    rewrite (seqZ_cons p) by lia. csimpl. do 3 f_equal; lia.
Qed.

Lemma scan_line_spec g left width fuel p c out x r : gap_ok g -> at_text g p -> rest g p = x ++ r -> no_nl x -> ended r ->
  TEXT_CAP - p <= Z.of_nat fuel -> 0 <= width -> Z.of_nat (length out) <= width ->
  exists p', scan_line fuel g left width p c out = (p', out ++ more left width c out x) /\ at_text g p' /\ rest g p' = r.
Proof.
  intros Hg Hp E Hx Hr. revert p c out x Hp E Hx. induction fuel as [|fuel IH]; intros p c out x Hp E Hx Hf Hw Ho.
  - assert (p = TEXT_CAP) as -> by (pose proof Hg as [? ? ?]; unfold at_text in Hp; lia).
    rewrite (proj2 (rest_end g TEXT_CAP Hg Hp)) in E by done. symmetry in E. apply app_eq_nil in E as [-> ->]. exists TEXT_CAP.
    split; [|by rewrite (proj2 (rest_end _ _ Hg Hp))]. unfold more. cbn. by rewrite drop_nil, take_nil, app_nil_r.
  - cbn [scan_line]. destruct (Z.ltb_spec p TEXT_CAP) as [Hlt|Hge].
    + destruct (rest_cons g p Hg Hp Hlt) as (Ec & Hn & Hpn). rewrite Ec in E. destruct Hx as [|a x Ha Hx].
      * destruct Hr as [->|[r' ->]]; [done|]. injection E as E1 E2. rewrite E1. cbn. exists p. unfold more. cbn. rewrite drop_nil, take_nil, app_nil_r.
        split; [done|]. split; [done|]. by rewrite Ec, E1, E2.
      * injection E as E1 E2. rewrite E1, Ha. cbn [andb negb].
        destruct (decide (Z.of_nat (length out) < width)) as [Hlw|Hfull].
        -- rewrite (proj2 (Z.ltb_lt _ width)), andb_true_r by done. rewrite more_cons by done. apply IH; [done|done|done|lia|done|].
           destruct (left <=? c); rewrite ?length_app; cbn [length]; lia.
        -- rewrite (proj2 (Z.ltb_ge _ width)), andb_false_r by lia. rewrite more_full by lia.
           destruct (IH (next_pos g p) (c + 1) out x) as (p' & -> & Hp' & E'); [done..|lia|done|done|]. exists p'. by rewrite more_full by lia.
    + assert (p = TEXT_CAP) as -> by (pose proof Hg as [? ? ?]; unfold at_text in Hp; lia).
      rewrite (proj2 (rest_end g TEXT_CAP Hg Hp)) in E by done. symmetry in E. apply app_eq_nil in E as [-> ->]. exists TEXT_CAP.
      split; [|by rewrite (proj2 (rest_end _ _ Hg Hp))]. unfold more. cbn. by rewrite drop_nil, take_nil, app_nil_r.
Qed.

(** A whole line: its visible part, and the place of the next line.  Behind the
    last line come empty ones. *)
Lemma scan_line_from_spec g left width p : gap_ok g -> at_text g p -> 0 <= width ->
  exists p', scan_line_from g left width p = (p', visible left width (lines (rest g p) !!! 0%nat)) /\ at_text g p' /\
    forall j, lines (rest g p') !!! j = lines (rest g p) !!! S j.
Proof.
  intros Hg Hp Hw. destruct (first_line (rest g p)) as (x & Hx & Hr). unfold scan_line_from.
  assert (exists r, rest g p = x ++ r /\ ended r) as (r & E & Hend).
  { destruct Hr as [[-> _]|(r & -> & _)]; [exists []; rewrite app_nil_r; split; [done|by left]|eexists; split; [done|right; eauto]]. }
  destruct (scan_line_spec g left width (Z.to_nat (TEXT_CAP - p)) p 0 [] x r) as (p' & Es & Hp' & Er); [done..|lia|done|cbn; lia|].
  rewrite Es. rewrite <- visible_more. cbn [app].
  destruct Hr as [[E2 El]|(r2 & E2 & El)]; rewrite E2 in E.
  - assert (r = []) as ->. { rewrite <- (app_nil_r x) in E at 1. by apply app_inv_head in E. }
    assert (p' = TEXT_CAP) as -> by (by apply rest_end in Er). exists TEXT_CAP. rewrite E2 in *. rewrite El. split; [done|]. split; [done|].
    intros j. rewrite Er. by destruct j as [|[|j]].
  - apply app_inv_head in E as <-. assert (p' < TEXT_CAP) as Hlt.
    { pose proof Hg as [? ? ?]. assert (p' <> TEXT_CAP) by (intros ->; by rewrite (proj2 (rest_end g _ Hg Hp')) in Er). unfold at_text in Hp'. lia. }
    rewrite (proj2 (Z.ltb_lt _ _)) by done. destruct (rest_cons g p' Hg Hp' Hlt) as (Ec & Hn & _). rewrite Er in Ec. injection Ec as _ Ec.
    exists (next_pos g p'). rewrite El. split; [done|]. split; [done|]. intros j. by rewrite <- Ec.
Qed.

(** ** The page *)

(** The number of a line as the page shows it: its last four decimal digits, to
    the right, without leading zeros. *)
Definition numbered (row : Z) : list Z :=
  ((fun k => if (k =? 0) || (10 ^ k <=? row) then 48 + row / 10 ^ k mod 10 else 32) <$> [3; 2; 1; 0]) ++ bytes_of "> ".

(** Row [r] of the text area. *)
Definition page_row (T : list Z) (top left width r : Z) : list Z :=
  (if r + top <? Z.of_nat (length (lines T)) then numbered (r + top) else blank_header) ++
  pad width (visible left width (lines T !!! Z.to_nat (r + top))).

Lemma numbered_header row : numbered row = line_header row.
Proof.
  unfold numbered, line_header. cbn [fmap list_fmap header_digits]. rewrite !Z.div_div by lia.
  change (10 ^ 3) with (10 * 10 * 10). change (10 ^ 2) with (10 * 10). change (10 ^ 1) with 10. rewrite Z.pow_0_r, Z.div_1_r.
  cbn [Z.eqb orb].
  assert (forall n, 0 < n -> (0 <? row / n) = (n <=? row)) as Hn.
  { intros n Hn. apply Bool.eq_iff_eq_true. rewrite Z.ltb_lt, Z.leb_le.
    pose proof (Z.div_mod row n). pose proof (Z.mod_pos_bound row n). nia. }
  rewrite !Hn by lia.
  destruct (Z.leb_spec 10 row), (Z.leb_spec (10 * 10) row), (Z.leb_spec (10 * 10 * 10) row); try lia; [by destruct (_ <=? _)|done..].
Qed.
Lemma page_row_header T top left width r : page_row T top left width r =
  (if r + top <? Z.of_nat (length (lines T)) then line_header (r + top) else blank_header) ++
  pad width (visible left width (lines T !!! Z.to_nat (r + top))).
Proof. unfold page_row. by rewrite numbered_header. Qed.

Lemma header_digits_spec slots row acc : (0 < slots)%nat -> plain acc ->
  plain (header_digits slots row acc) /\ (length acc < length (header_digits slots row acc) <= length acc + slots)%nat.
Proof.
  intros Hs. revert row acc. induction slots as [|slots IH]; intros row acc Ha; [lia|]. cbn [header_digits].
  assert (plain (48 + row mod 10 :: acc)) as Hp.
  { constructor; [|done]. pose proof (Z.mod_pos_bound row 10). lia. }
  destruct (0 <? row / 10); [|cbn [length]; split; [done|lia]].
  destruct slots as [|slots]; [cbn [header_digits length]; split; [done|lia]|].
  destruct (IH ltac:(lia) (row / 10) _ Hp) as [? Hl]. cbn [length] in Hl. split; [done|lia].
Qed.

Lemma plain_app s1 s2 : plain s1 -> plain s2 -> plain (s1 ++ s2).
Proof. intros. by apply Forall_app. Qed.
Lemma plain_b s : forallb (fun c => negb (c =? 8) && negb (c =? 10)) s = true -> plain s.
Proof. intros E. apply Forall_forall. intros c Hc. rewrite forallb_forall in E. apply list_elem_of_In, E in Hc. lia. Qed.
Lemma plain_spaces n : plain (replicate n 32).
Proof. apply Forall_replicate. lia. Qed.

Lemma header_spec row : plain (line_header row) /\ length (line_header row) = 6%nat.
Proof.
  unfold line_header. destruct (header_digits_spec 4 row []) as [Hp Hl]; [lia|by constructor|]. cbn [length] in Hl. split.
  - apply plain_app; [apply plain_spaces|]. apply plain_app; [done|]. repeat constructor; lia.
  - rewrite !length_app, length_replicate. cbn [length]. lia.
Qed.

Lemma body_spec left width x : 0 <= width -> plain (pad width (visible left width x)) /\ Z.of_nat (length (pad width (visible left width x))) = width.
Proof.
  intros Hw. unfold pad, visible. split.
  - apply plain_app; [|apply plain_spaces]. apply Forall_take, Forall_drop, Forall_fmap, Forall_true. intros c. unfold sanitize. simpl.
    destruct (Z.ltb_spec c 32); simpl; [lia|]. destruct (c =? 127); lia.
  - rewrite length_app, length_replicate, length_take. lia.
Qed.

Lemma page_header_spec T top r : let h := if r + top <? Z.of_nat (length (lines T)) then line_header (r + top) else blank_header in
  plain h /\ length h = 6%nat.
Proof. cbv zeta. destruct (_ <? _); [apply header_spec|]. split; [apply plain_spaces|done]. Qed.

Lemma header_length (b : bool) row : length (if b then line_header row else blank_header) = 6%nat.
Proof. destruct b; [apply header_spec|done]. Qed.

Section page.
Context (T : list Z) (top left width : Z).
Hypothesis Hwidth : 0 <= width.

Lemma length_page_row r : Z.of_nat (length (page_row T top left width r)) = 6 + width.
Proof using Hwidth.
  rewrite page_row_header. rewrite length_app. destruct (page_header_spec T top r) as [_ ->].
  rewrite Nat2Z.inj_add, (proj2 (body_spec left width _ Hwidth)). done.
Qed.

(** Rows [lo] to [hi] have been painted. *)
Record painted (lo hi : Z) (t t' : term) : Prop := mkPainted {
  pt_frame : same_frame t t';
  pt_in : forall r c, lo <= r < hi -> 0 <= c < 6 + width -> cell t' r c = page_row T top left width r !! Z.to_nat c;
  pt_out : forall r c, 0 <= r < t_rows t -> 0 <= c < t_cols t -> ~ (lo <= r < hi) \/ 6 + width <= c -> cell t' r c = cell t r c }.

Lemma painted_none lo t : t_ok t -> painted lo lo t t.
Proof. intros. split; [by apply frame_refl|lia|done]. Qed.

Lemma painted_join lo mid hi t1 t2 t3 : lo <= mid <= hi -> 0 <= lo -> hi <= t_rows t1 -> 6 + width <= t_cols t1 ->
  painted lo mid t1 t2 -> painted mid hi t2 t3 -> painted lo hi t1 t3.
Proof.
  intros Hm Hlo Hhi Hfit [F1 I1 O1] [F2 I2 O2]. pose proof F1 as [_ Ec Er _]. rewrite Ec, Er in O2. split.
  - by eapply frame_trans.
  - intros r c Hr Hc. destruct (decide (r < mid)); [rewrite O2, I1 by lia; done|apply I2; lia].
  - intros r c Hr Hc Hd. rewrite O2 by lia. apply O1; lia.
Qed.

(** A row painted with its header and its visible part. *)
Lemma painted_row r h b t : t_ok t -> t_rows t < 4294967296 -> t_cols t < 4294967296 -> 0 <= r -> r + 1 < t_rows t ->
  6 + width <= t_cols t -> 6 < t_cols t -> h ++ b = page_row T top left width r -> length h = 6%nat ->
  painted r (r + 1) t (t_paint r h b t).
Proof using Hwidth.
  intros Ht Hbr Hbc Hr Hr1 Hfit Hfit6 E Hh. destruct (page_header_spec T top r) as [Hp Hl].
  rewrite page_row_header in E. apply app_inj_1 in E as [Eh Eb]; [|by rewrite Hl].
  assert (h ++ b = page_row T top left width r) as E by (rewrite page_row_header; by rewrite Eh, Eb).
  destruct (body_spec left width (lines T !!! Z.to_nat (r + top)) Hwidth) as [Hpb Hlb].
  destruct (paint_writes r h b t) as [F I O]; [by rewrite Eh|by rewrite Eb|done..|lia|rewrite E, length_page_row; lia|].
  rewrite E, length_page_row in *. split; [done| |].
  - intros r' c Hr' Hc. assert (r' = r) as -> by lia. rewrite I by lia. by rewrite Z.sub_0_r.
  - intros r' c Hr' Hc Hd. apply O; lia.
Qed.
End page.

(** ** Painting the page *)

Section screen.
Context {K : Type} `{UserKernel K}.
Local Abbreviation ed := (@Dinv.ed K).

Definition text_of (e : ed) : list Z := before (buf e) ++ after (buf e).

(** The terminal is as large as the editor believes, and large enough. *)
Record geo (e : ed) : Prop := mkGeo {
  ge_gap : gap_ok (buf e); ge_term : t_ok (con (w e));
  ge_rows : t_rows (con (w e)) = screen_rows e; ge_cols : t_cols (con (w e)) = screen_cols e;
  ge_text : text_rows e = screen_rows e - 1;
  ge_high : 2 <= screen_rows e < 2147483648; ge_wide : 65 <= screen_cols e < 2147483648;
  ge_top : 0 <= top_row e <= TEXT_CAP; ge_left : 0 <= left_col e <= TEXT_CAP }.

Lemma geo_on f e : geo e -> same_frame (con (w e)) (f (con (w e))) -> geo (on_term f e).
Proof. intros [] [? E1 E2 _]. split; cbn; congruence. Qed.

Lemma text_cols_spec e : geo e -> 59 <= text_cols e <= 256 /\ 6 + text_cols e <= screen_cols e.
Proof.
  intros []. unfold text_cols, COL_OFFSET, LINEBUF_SIZE. rewrite u32_small by lia. destruct (Z.ltb_spec (screen_cols e - 6) 256); lia.
Qed.

(** The rows [lo] to [hi] of the terminal have become those of the page of [e]. *)
Definition epainted (lo hi : Z) (e : ed) (t : term) : Prop :=
  painted (text_of e) (top_row e) (left_col e) (text_cols e) lo hi (con (w e)) t.

Lemma paint_row_on r h b (e : ed) : paint_row r h b e = on_term (t_paint r h b) e.
Proof. done. Qed.

Lemma epainted_row r h b e : geo e -> 0 <= r < text_rows e ->
  h ++ b = page_row (text_of e) (top_row e) (left_col e) (text_cols e) r -> length h = 6%nat ->
  epainted r (r + 1) e (con (w (paint_row r h b e))) /\ geo (paint_row r h b e).
Proof.
  intros He Hr E Hh. destruct (text_cols_spec e He) as [Hw Hc]. pose proof He as []. unfold epainted.
  assert (painted (text_of e) (top_row e) (left_col e) (text_cols e) r (r + 1) (con (w e)) (t_paint r h b (con (w e)))) as Hp.
  { apply painted_row; try done; try lia. }
  rewrite paint_row_on. split; [exact Hp|]. apply geo_on; [done|]. by destruct Hp.
Qed.

Lemma epainted_join lo mid hi e f t : geo e -> 0 <= lo -> lo <= mid <= hi -> hi <= text_rows e ->
  epainted lo mid e (con (w (on_term f e))) -> epainted mid hi (on_term f e) t -> epainted lo hi e t.
Proof.
  intros He Hlo Hm Hhi H1 H2. destruct (text_cols_spec e He) as [Hw Hc]. pose proof He as []. unfold epainted in *.
  eapply painted_join; [..|exact H1|exact H2]; lia.
Qed.

Lemma full_loop_painted n r pos e : geo e -> 0 <= r -> r + Z.of_nat n <= text_rows e -> at_text (buf e) pos ->
  (forall j, lines (rest (buf e) pos) !!! j = lines (text_of e) !!! (Z.to_nat (r + top_row e) + j)%nat) ->
  epainted r (r + Z.of_nat n) e (con (w (full_loop n (buf_rows (buf e)) (text_cols e) r pos e))).
Proof.
  revert r pos e. induction n as [|n IH]; intros r pos e He Hr Hn Hp Hl.
  - rewrite Z.add_0_r. apply painted_none. by destruct He.
  - destruct (text_cols_spec e He) as [Hw Hc]. pose proof He as [Hg ? ? ? ? ? ? ? ?]. cbn [full_loop].
    destruct (scan_line_from_spec (buf e) (left_col e) (text_cols e) pos) as (p' & -> & Hp' & Hl'); [done|done|lia|].
    set (h := if _ <? _ then _ else _). set (b := pad _ _).
    destruct (epainted_row r h b e) as [H1 H2]; [done|lia| |apply header_length|].
    { rewrite page_row_header. unfold h, b. rewrite buf_rows_spec by done. do 3 f_equal. specialize (Hl 0%nat). by rewrite Nat.add_0_r in Hl. }
    apply (epainted_join r (r + 1) _ e (t_paint r h b)); [done|lia|lia|lia|exact H1|].
    replace (r + Z.of_nat (S n)) with (r + 1 + Z.of_nat n) by lia.
    apply (IH (r + 1) p' (on_term (t_paint r h b) e)); [done|lia|cbn; lia|done|].
    intros j. rewrite Hl'. rewrite Hl. cbn. f_equal. lia.
Qed.

(** Skipping lines. *)
Lemma skip_lines g n : gap_ok g -> 
  let pos := Nat.iter n (fun p => (scan_line_from g 0 0 p).1) (if 0 =? gap_start g then gap_end g else 0) in
  at_text g pos /\ forall j, lines (rest g pos) !!! j = lines (before g ++ after g) !!! (n + j)%nat.
Proof.
  intros Hg. destruct (rest_start g Hg) as [H1 H2]. set (p0 := if 0 =? gap_start g then _ else _) in *. cbv zeta.
  induction n as [|n [IH1 IH2]]; [split; [done|]; intros j; cbn; by rewrite H2|].
  change (Nat.iter (S n) ?f p0) with (f (Nat.iter n f p0)). cbv beta. set (p := Nat.iter n _ p0) in *.
  destruct (scan_line_from_spec g 0 0 p) as (p' & -> & Hp' & Hl'); [done|done|lia|]. split; [done|].
  intros j. cbn [fst]. rewrite Hl', IH2. f_equal. lia.
Qed.

Lemma render_full_painted e : geo e -> epainted 0 (text_rows e) e (con (w (render_full e))).
Proof.
  intros He. pose proof He as [Hg ? ? ? ? ? ? ? ?]. unfold render_full.
  destruct (skip_lines (buf e) (Z.to_nat (top_row e)) Hg) as [Hp Hl].
  pose proof (full_loop_painted (Z.to_nat (text_rows e)) 0 _ e He ltac:(lia) ltac:(lia) Hp) as Hf.
  rewrite Z.add_0_l, Z2Nat.id in Hf by lia. apply Hf. intros j. rewrite Hl. done.
Qed.

(** The text around the cursor: its line is [xa ++ xb], row [length pa]. *)
Record around (g : gap) (p xa xb r : list Z) (pa q : list (list Z)) : Prop := mkAround {
  ar_before : before g = p ++ xa; ar_xa : no_nl xa; ar_after : after g = xb ++ r; ar_xb : no_nl xb;
  ar_rows : lines (before g) = pa ++ [xa]; ar_next : lines (after g) = xb :: q;
  ar_p : (p = [] /\ pa = []) \/ exists p0, p = p0 ++ [NEWLINE] /\ pa = lines p0;
  ar_r : (r = [] /\ q = []) \/ exists r0, r = NEWLINE :: r0 /\ q = lines r0 }.

Lemma around_exists g : exists p xa xb r pa q, around g p xa xb r pa q.
Proof.
  destruct (last_line (before g)) as (xa & Hxa & Hb), (first_line (after g)) as (xb & Hxb & Ha).
  destruct Hb as [[Eb Lb]|(p & Eb & Lb)], Ha as [[Ea La]|(r & Ea & La)].
  - exists [], xa, xb, [], [], []. split; try done; [by rewrite app_nil_r|by left|by left].
  - exists [], xa, xb, (NEWLINE :: r), [], (lines r). split; try done; [by left|right; eauto].
  - exists (p ++ [NEWLINE]), xa, xb, [], (lines p), []. split; try done; [by rewrite <- app_assoc|by rewrite app_nil_r|right; eauto|by left].
  - exists (p ++ [NEWLINE]), xa, xb, (NEWLINE :: r), (lines p), (lines r). split; try done; [by rewrite <- app_assoc|right; eauto|right; eauto].
Qed.

Lemma around_lines g p xa xb r pa q : around g p xa xb r pa q -> lines (before g ++ after g) = pa ++ (xa ++ xb) :: q.
Proof. intros []. by apply lines_app. Qed.
Lemma around_lined g p xa xb r pa q : around g p xa xb r pa q -> lined p.
Proof. intros [_ _ _ _ _ _ [[-> _]|(p0 & -> & _)] _]; [by left|right; eauto]. Qed.
Lemma around_ended g p xa xb r pa q : around g p xa xb r pa q -> ended r.
Proof. intros [_ _ _ _ _ _ _ [[-> _]|(r0 & -> & _)]]; [by left|right; eauto]. Qed.
Lemma around_rowcol g p xa xb r pa q : gap_ok g -> around g p xa xb r pa q ->
  cursor_rowcol g = (Z.of_nat (length pa), Z.of_nat (length xa)).
Proof. intros Hg []. rewrite cursor_rowcol_spec by done. by apply rowcol_spec. Qed.

(** The row of the cursor. *)
Lemma cursor_row_painted e p xa xb r pa q : geo e -> around (buf e) p xa xb r pa q ->
  top_row e <= Z.of_nat (length pa) < top_row e + text_rows e ->
  let row := Z.of_nat (length pa) in
  let e' := paint_row (row - top_row e) (if row <? buf_rows (buf e) then line_header row else [])
              (cursor_line (buf e) (left_col e) (text_cols e)) e in
  epainted (row - top_row e) (row - top_row e + 1) e (con (w e')) /\ geo e'.
Proof.
  intros He Ha Hv row e'. destruct (text_cols_spec e He) as [Hw _]. pose proof He as [Hg ? ? ? ? ? ? ? ?]. pose proof (around_lines _ _ _ _ _ _ _ Ha) as El.
  assert (row < Z.of_nat (length (lines (text_of e)))) as Hrow by (unfold text_of; rewrite El, length_app; cbn [length]; lia).
  apply epainted_row; [done|lia| |].
  - rewrite page_row_header. rewrite Z.sub_add, buf_rows_spec by done. unfold text_of in *. rewrite (proj2 (Z.ltb_lt _ _)) by done. f_equal.
    pose proof Ha as [Eb Hxa Ea Hxb _ _ _ _].
    rewrite (cursor_line_spec _ _ _ p xa xb r) by (first [done|lia|by eapply around_lined|by eapply around_ended]).
    do 2 f_equal. rewrite El. unfold row. rewrite Nat2Z.id. by rewrite list_lookup_total_middle.
  - rewrite buf_rows_spec by done. fold (text_of e). rewrite (proj2 (Z.ltb_lt _ _)) by done. apply header_spec.
Qed.

Lemma render_tail_painted e p xa xb r pa q : geo e -> around (buf e) p xa xb r pa q ->
  top_row e <= Z.of_nat (length pa) < top_row e + text_rows e ->
  let row := Z.of_nat (length pa) in epainted (row - top_row e) (row - top_row e + 1) e (con (w (render_tail e))).
Proof.
  intros He Ha Hv row. pose proof He as [Hg ? ? ? ? ? ? ? ?]. unfold render_tail. rewrite (around_rowcol _ _ _ _ _ _ _ Hg Ha).
  rewrite u32_small by lia. rewrite (proj2 (Z.leb_gt _ _)) by lia. by apply (cursor_row_painted e p xa xb r pa q).
Qed.

Lemma below_loop_painted fuel r nb e : geo e -> top_row e <= r <= top_row e + text_rows e ->
  top_row e + text_rows e - r <= Z.of_nat fuel -> gap_end (buf e) <= nb <= TEXT_CAP ->
  (forall j, lines (text (buf e) <$> seqZ nb (TEXT_CAP - nb)) !!! j = lines (text_of e) !!! (Z.to_nat r + j)%nat) ->
  epainted (r - top_row e) (text_rows e) e (con (w (below_loop fuel (buf_rows (buf e)) (text_cols e) r nb e))).
Proof.
  revert r nb e. induction fuel as [|fuel IH]; intros r nb e He Hr Hf Hnb Hl; pose proof He as [Hg ? ? ? ? ? ? ? ?].
  { replace (r - top_row e) with (text_rows e) by lia. by apply painted_none. }
  cbn [below_loop]. rewrite u32_small by (unfold TEXT_CAP in *; lia). destruct (Z.ltb_spec (r - top_row e) (text_rows e)) as [Hlt|Hge].
  2:{ replace (r - top_row e) with (text_rows e) by lia. by apply painted_none. }
  destruct (text_cols_spec e He) as [Hw _]. pose proof Hg as [? ? ?].
  set (tl := text (buf e) <$> seqZ nb (TEXT_CAP - nb)) in *. destruct (first_line tl) as (x & Hx & Hend).
  assert (exists r', tl = x ++ r' /\ ended r') as (r' & Et & Hr').
  { destruct Hend as [[-> _]|(r' & -> & _)]; [exists []; rewrite app_nil_r; split; [done|by left]|eexists; split; [done|right; eauto]]. }
  assert (line_end_from (text (buf e)) nb = nb + Z.of_nat (length x)) as Ene.
  { apply (line_end_spec _ _ _ x r'); [by rewrite Z2Nat.id by lia|lia|done|done]. }
  rewrite Ene. destruct (fmap_seqZ_split _ _ _ _ _ Et) as [Ex Er']; [lia|].
  assert (Z.of_nat (length tl) = TEXT_CAP - nb) as Hlen by (unfold tl; rewrite length_fmap, length_seqZ; lia). rewrite Et, length_app in Hlen.
  rewrite (collect_visible _ _ _ x); [|by rewrite Z.add_simpl_l|lia|lia].
  set (h := if _ <? _ then line_header r else _). set (b := pad _ _).
  assert (lines tl !!! 0%nat = x) as E0 by (destruct Hend as [[_ ->]|(? & _ & ->)]; done).
  destruct (epainted_row (r - top_row e) h b e) as [H1 H2]; [done|lia| |apply header_length|].
  { rewrite page_row_header. unfold h, b. rewrite Z.sub_add, buf_rows_spec by done. do 3 f_equal. specialize (Hl 0%nat). rewrite Nat.add_0_r in Hl. congruence. }
  apply (epainted_join _ (r - top_row e + 1) _ e (t_paint (r - top_row e) h b)); [done|lia|lia|lia|exact H1|].
  set (nb' := if _ <? TEXT_CAP then _ else _). 
  replace (r - top_row e + 1) with (r + 1 - top_row e) by lia.
  apply (IH (r + 1) nb' (on_term (t_paint (r - top_row e) h b) e)); [done|cbn; lia|cbn; lia| |].
  - unfold nb'. cbn. destruct (Z.ltb_spec (nb + Z.of_nat (length x)) TEXT_CAP); lia.
  - intros j. replace (Z.to_nat (r + 1) + j)%nat with (Z.to_nat r + S j)%nat by lia. change (text_of (on_term _ e)) with (text_of e). rewrite <- Hl.
    change (buf (on_term _ e)) with (buf e). unfold nb'. destruct Hend as [[E2 El]|(r2 & E2 & El)].
    + assert (r' = []) as ->. { rewrite E2 in Et. rewrite <- (app_nil_r x) in Et at 1. by apply app_inv_head in Et. }
      rewrite (proj2 (Z.ltb_ge _ _)) by (cbn [length] in Hlen; lia). rewrite Z.sub_diag. rewrite El. by destruct j as [|[|j]].
    + assert (r' = NEWLINE :: r2) as -> by (rewrite E2 in Et; by apply app_inv_head in Et).
      cbn [length] in Hlen. rewrite (proj2 (Z.ltb_lt _ _)) by lia. rewrite El. cbn.
      rewrite (seqZ_cons (nb + _)) in Er' by lia. revert Er'. csimpl. intros [= _ <-]. do 4 f_equal; lia.
Qed.

(** The row above the cursor. *)
Lemma prev_row_painted e p xa xb r pa q : geo e -> around (buf e) p xa xb r pa q ->
  top_row e < Z.of_nat (length pa) < top_row e + text_rows e ->
  let start := Z.of_nat (length pa) - 1 in
  let begin := Z.of_nat (length p) in
  let out := (collect_range (text (buf e)) (left_col e) (text_cols e) (line_begin (text (buf e)) (Z.to_nat (begin - 1))) (begin - 1) 0 []).2 in
  let e' := paint_row (start - top_row e) (if start <? buf_rows (buf e) then line_header start else []) (pad (text_cols e) out) e in
  epainted (start - top_row e) (start - top_row e + 1) e (con (w e')) /\ geo e'.
Proof.
  intros He Ha Hv start begin out e'. destruct (text_cols_spec e He) as [Hw _]. pose proof He as [Hg ? ? ? ? ? ? ? ?].
  pose proof (around_lines _ _ _ _ _ _ _ Ha) as El. pose proof Ha as [Eb _ _ _ _ _ Hp _]. pose proof (length_before _ Hg) as Hlb. pose proof Hg as [? ? ?].
  destruct Hp as [[_ ->]|(p0 & -> & ->)]; [cbn [length] in Hv; lia|].
  destruct (last_line p0) as (y & Hy & Hp0).
  assert (exists p1, p0 = p1 ++ y /\ lined p1 /\ exists pb, lines p0 = pb ++ [y]) as (p1 & E0 & Hp1 & pb & Epb).
  { destruct Hp0 as [[E Ey]|(p1 & E & Ey)]; [exists []; split; [done|]; split; [by left|by exists []]|].
    exists (p1 ++ [NEWLINE]). split; [by rewrite <- app_assoc|]. split; [right; eauto|eauto]. }
  rewrite E0 in Eb. rewrite Eb in Hlb. rewrite !length_app in Hlb. cbn [length] in Hlb.
  assert (begin = Z.of_nat (length p1) + Z.of_nat (length y) + 1) as Ebg by (unfold begin; rewrite E0, !length_app; cbn [length]; lia).
  assert (text (buf e) <$> seqZ 0 (begin - 1) = p1 ++ y) as Et.
  { unfold before in Eb. rewrite <- !app_assoc in Eb. rewrite (app_assoc p1) in Eb.
    destruct (fmap_seqZ_split _ _ _ _ _ Eb) as [E _]; [lia|]. rewrite length_app in E. rewrite <- E at 1. do 2 f_equal. lia. }
  assert (out = visible (left_col e) (text_cols e) y) as Eout.
  { unfold out. rewrite (line_begin_spec _ _ y p1); [|rewrite Z2Nat.id by lia; done|done|done].
    apply collect_visible; [|lia|lia]. destruct (fmap_seqZ_split _ _ _ _ _ Et) as [_ E]; [lia|]. by rewrite Z.add_0_l in E. }
  assert (lines (text_of e) !! Z.to_nat start = Some y) as Hy'.
  { unfold text_of. rewrite El. unfold start. rewrite Epb, <- app_assoc, length_app. cbn [length app].
    apply list_lookup_middle. lia. }
  assert (start < Z.of_nat (length (lines (text_of e)))) as Hst by (apply lookup_lt_Some in Hy'; lia).
  apply epainted_row; [done|lia| |].
  - rewrite page_row_header. rewrite Z.sub_add, buf_rows_spec by done. fold (text_of e). rewrite (proj2 (Z.ltb_lt _ _)) by done.
    rewrite (list_lookup_total_correct _ _ _ Hy'). by rewrite Eout.
  - rewrite buf_rows_spec by done. fold (text_of e). rewrite (proj2 (Z.ltb_lt _ _)) by done. apply header_spec.
Qed.

Lemma render_below_painted e p xa xb r pa q : geo e -> around (buf e) p xa xb r pa q ->
  top_row e <= Z.of_nat (length pa) < top_row e + text_rows e ->
  epainted (Z.max 0 (Z.of_nat (length pa) - 1 - top_row e)) (text_rows e) e (con (w (render_below e))).
Proof.
  intros He Ha Hv. pose proof He as [Hg ? ? ? ? ? ? ? ?]. pose proof Hg as [? ? ?]. unfold render_below. rewrite (around_rowcol _ _ _ _ _ _ _ Hg Ha).
  rewrite u32_small by lia. rewrite (proj2 (Z.leb_gt _ _)) by lia.
  pose proof Ha as [Eb Hxa Ea Hxb Lb La Hp Hr]. pose proof (length_after _ Hg) as Hla.
  rewrite (line_begin_spec (text (buf e)) (Z.to_nat (gap_start (buf e))) xa p); [|by rewrite seqZ_before|done|by eapply around_lined].
  rewrite (line_end_after _ xb r) by (done || by eapply around_ended). rewrite Ea, length_app in Hla.
  set (row := Z.of_nat (length pa)) in *. set (e1 := if 0 <? row - top_row e then _ else e).
  assert (epainted (Z.max 0 (row - 1 - top_row e)) (row - top_row e) e (con (w e1)) /\ geo e1 /\ repaint e e1) as (H1 & He1 & f & Ef).
  { unfold e1. destruct (Z.ltb_spec 0 (row - top_row e)).
    - destruct (prev_row_painted e p xa xb r pa q He Ha) as [Hq Hq2]; [lia|].
      replace (Z.max 0 (row - 1 - top_row e)) with (row - 1 - top_row e) by lia.
      replace (row - top_row e) with (row - 1 - top_row e + 1) by lia. split; [exact Hq|]. split; [exact Hq2|]. apply repaint_row, repaint_refl.
    - replace (Z.max 0 (row - 1 - top_row e)) with (row - top_row e) by lia. split; [by apply painted_none|]. split; [done|]. apply repaint_refl. }
  clearbody e1. subst e1. apply (epainted_join _ (row - top_row e) _ e f); [done|lia|lia|lia|done|].
  destruct (cursor_row_painted (on_term f e) p xa xb r pa q He1 Ha Hv) as [H2 He2].
  rewrite paint_row_on in H2, He2. match type of He2 with geo (on_term ?f2' _) => set (f2 := f2') in * end.
  apply (epainted_join _ (row - top_row e + 1) _ (on_term f e) f2); [done|lia|lia|cbn; lia|exact H2|].
  replace (row - top_row e + 1) with (row + 1 - top_row e) by lia.
  match goal with |- context [below_loop _ _ _ _ ?nb _] => set (nb' := nb) end.
  apply (below_loop_painted (Z.to_nat (text_rows e)) (row + 1) nb' (on_term f2 (on_term f e))); [exact He2|cbn; lia|cbn; lia| |].
  - unfold nb'. cbn. destruct (Z.ltb_spec (gap_end (buf e) + Z.of_nat (length xb)) TEXT_CAP); lia.
  - intros j. cbn. unfold text_of. cbn. rewrite (around_lines _ _ _ _ _ _ _ Ha). unfold nb', row.
    replace (Z.to_nat (Z.of_nat (length pa) + 1) + j)%nat with (length pa + S j)%nat by lia.
    rewrite lookup_total_app_r by lia. replace (length pa + S j - length pa)%nat with (S j) by lia. cbn. destruct Hr as [[-> ->]|(r0 & -> & ->)].
    + cbn [length] in Hla. rewrite (proj2 (Z.ltb_ge _ _)) by lia. rewrite Z.sub_diag. by destruct j as [|[|j]].
    + cbn [length] in Hla. rewrite (proj2 (Z.ltb_lt _ _)) by lia. destruct (fmap_seqZ_split _ _ _ _ _ Ea) as [_ E]; [lia|].
      rewrite (seqZ_cons (gap_end (buf e) + _)) in E by lia. revert E. csimpl. intros [= _ <-]. do 4 f_equal; lia.
Qed.

(** ** The whole screen *)

(** The last row: a message, the mode, or the command. *)
Definition status (e : ed) : list Z :=
  match mode e with MODE_COMMAND => 58 :: take (Z.to_nat (cmd_len e)) (cmd_buf e) | _ => mode_line e end.

Definition page (e : ed) (r c : Z) : Z :=
  default 32 ((if r <? text_rows e then page_row (text_of e) (top_row e) (left_col e) (text_cols e) r else status e) !! Z.to_nat c).

Definition shows (e : ed) : Prop :=
  forall r c, 0 <= r < screen_rows e -> 0 <= c < screen_cols e -> cell (con (w e)) r c = Some (page e r c).

Definition in_view (e : ed) : Prop :=
  top_row e <= (cursor_rowcol (buf e)).1 < top_row e + text_rows e /\
  left_col e <= (cursor_rowcol (buf e)).2 < left_col e + text_cols e.

(** The cursor stands on the byte it edits, or behind the command. *)
Definition cursor_shown (e : ed) : Prop :=
  (t_row (con (w e)), t_col (con (w e))) =
    match mode e with
    | MODE_COMMAND => (screen_rows e - 1, cmd_len e + 1)
    | _ => ((cursor_rowcol (buf e)).1 - top_row e, COL_OFFSET + (cursor_rowcol (buf e)).2 - left_col e)
    end.

(** The text of the last row is well behaved. *)
Record line_ok (e : ed) : Prop := mkLineOk {
  lo_cmd : length (cmd_buf e) = 64%nat; lo_len : 0 <= cmd_len e < CMD_BUF_SIZE;
  lo_plain : Forall (fun c => c <> 0 /\ c <> 8 /\ c <> 10) (take (Z.to_nat (cmd_len e)) (cmd_buf e));
  lo_mode : mode e <> MODE_COMMAND -> cmd_len e = 0;
  lo_complain : complaining e = true -> mode e <> MODE_COMMAND /\
                  (complaint e = bytes_of "Failed to save" \/ complaint e = bytes_of "Command not found") }.

Lemma mode_line_spec e : line_ok e -> plain (mode_line e) /\ (1 <= length (mode_line e) <= 17)%nat /\
  (mode e = MODE_COMMAND -> mode_line e = [58]) /\ (mode e <> MODE_COMMAND -> (6 <= length (mode_line e))%nat).
Proof.
  intros [_ _ _ _ Hc]. unfold mode_line. destruct (complaining e).
  - destruct Hc as [Hm [-> | ->]]; [done| |];
      (split; [by apply plain_b|]; split; [cbn; lia|]; split; [done|intros; cbn; lia]).
  - destruct (mode e); (split; [by apply plain_b|]; split; [cbn; lia|]; split; [done|intros; first [done|cbn; lia]]).
Qed.

Lemma length_status e : line_ok e -> (length (status e) <= 64)%nat.
Proof.
  intros He. destruct (mode_line_spec e He) as (_ & Hl & _ & _). destruct He as [E Hn _ _ _]. unfold CMD_BUF_SIZE in Hn. unfold status.
  destruct (mode e); [lia|lia|]. cbn [length]. rewrite length_take. lia.
Qed.

(** Rows that [render_damage] paints, with their bounds. *)
Definition damage_rows (e : ed) : Z * Z :=
  let row := (cursor_rowcol (buf e)).1 - top_row e in
  match replacement_status e with
  | DMG_NONE | DMG_CMD => (0, 0)
  | DMG_TAIL => (row, row + 1)
  | DMG_BELOW => (Z.max 0 (row - 1), text_rows e)
  | DMG_FULL => (0, text_rows e)
  end.

Lemma render_damage_painted e : geo e -> in_view e -> replacement_status e <> DMG_CMD ->
  epainted (damage_rows e).1 (damage_rows e).2 e (con (w (render_damage e))).
Proof.
  intros He [Hv _] Hd. destruct (around_exists (buf e)) as (p & xa & xb & r & pa & q & Ha). pose proof He as [Hg ? ? ? ? ? ? ? ?].
  rewrite (around_rowcol _ _ _ _ _ _ _ Hg Ha) in Hv. cbn [fst] in Hv. unfold damage_rows, render_damage.
  rewrite (around_rowcol _ _ _ _ _ _ _ Hg Ha). cbn [fst].
  destruct (replacement_status e); [by apply painted_none| |done| |by apply render_full_painted].
  - by apply (render_tail_painted e p xa xb r pa q).
  - cbn [fst snd]. replace (Z.of_nat (length pa) - top_row e - 1) with (Z.of_nat (length pa) - 1 - top_row e) by lia.
    by apply (render_below_painted e p xa xb r pa q).
Qed.

(** The command line: the old one is wiped before the new one is written. *)
Lemma render_cmd_spec e : geo e -> line_ok e ->
  let t := con (w e) in
  let t' := con (w (render_cmd e)) in
  same_frame t t' /\
  (forall r c, 0 <= r < text_rows e -> 0 <= c < screen_cols e -> cell t' r c = cell t r c) /\
  (forall c, 1 <= c < 64 -> cell t' (screen_rows e - 1) c = Some (default 32 (take (Z.to_nat (cmd_len e)) (cmd_buf e) !! Z.to_nat (c - 1)))) /\
  (forall c, 64 <= c < screen_cols e -> cell t (screen_rows e - 1) c = Some 32 -> cell t' (screen_rows e - 1) c = Some 32).
Proof.
  intros He Hl t t'. destruct (text_cols_spec e He) as [Hw Hc]. pose proof He as [_ Ht Er Ec Et Hh Hwd _ _]. destruct Hl as [Hcb Hn Hp _ _].
  unfold CMD_BUF_SIZE in Hn.
  set (wd := if LINEBUF_SIZE <? text_cols e + COL_OFFSET then LINEBUF_SIZE else text_cols e + COL_OFFSET).
  assert (65 <= wd <= screen_cols e) as Hwd'.
  { unfold wd, LINEBUF_SIZE, COL_OFFSET. unfold text_cols, COL_OFFSET, LINEBUF_SIZE in *. rewrite u32_small in * by lia.
    repeat zcase; lia. }
  set (sp := replicate (Z.to_nat (wd - 2)) 32). set (cmd := take (Z.to_nat (cmd_len e)) (cmd_buf e)) in *.
  assert (Z.of_nat (length sp) = wd - 2) as Hsp by (unfold sp; rewrite length_replicate; lia).
  assert (Z.of_nat (length cmd) = cmd_len e) as Hcmd by (unfold cmd; rewrite length_take; lia).
  destruct (place_writes (screen_rows e - 1) 1 sp t) as [[F1 I1 O1] _]; [apply plain_spaces|done|unfold t; lia..|].
  set (t1 := t_write WHITE sp _) in *. pose proof F1 as [Ht1 Ec1 Er1 _]. 
  assert (plain cmd) as Hpl by (eapply Forall_impl; [exact Hp|]; cbn; lia).
  destruct (place_writes (screen_rows e - 1) 1 cmd t1) as [[F2 I2 O2] _]; [done|done|unfold t in *; lia..|].
  change (t_write WHITE cmd _) with t' in F2, I2, O2. unfold t in *. rewrite Ec1, Er1, Er, Ec in *. split; [by eapply frame_trans|].
  split; [|split].
  - intros r c Hr Hc'. rewrite O2, O1 by lia. done.
  - intros c Hc'. destruct (decide (c < 1 + cmd_len e)).
    + rewrite I2 by lia. destruct (lookup_lt_is_Some_2 cmd (Z.to_nat (c - 1))) as [x ->]; [lia|]. done.
    + rewrite O2, I1 by lia. rewrite (lookup_ge_None_2 cmd) by lia. unfold sp. by rewrite lookup_replicate_2 by lia.
  - intros c Hc' E. rewrite O2 by lia. destruct (decide (c < 1 + (wd - 2))).
    + rewrite I1 by lia. unfold sp. by rewrite lookup_replicate_2 by lia.
    + by rewrite O1 by lia.
Qed.

(** What the terminal must still show before a repaint. *)
Record stale (e : ed) : Prop := mkStale {
  st_rows : forall r c, 0 <= r < text_rows e -> 0 <= c < screen_cols e ->
    ~ ((damage_rows e).1 <= r < (damage_rows e).2) \/ 6 + text_cols e <= c -> cell (con (w e)) r c = Some (page e r c);
  st_line : forall c, 0 <= c < screen_cols e ->
    match replacement_status e with DMG_CMD => 64 <= c | _ => Z.of_nat (length (mode_line e)) <= c end ->
    cell (con (w e)) (screen_rows e - 1) c = Some (page e (screen_rows e - 1) c) }.

Lemma page_text e r c : r < text_rows e ->
  page e r c = default 32 (page_row (text_of e) (top_row e) (left_col e) (text_cols e) r !! Z.to_nat c).
Proof. intros Hr. unfold page. by rewrite (proj2 (Z.ltb_lt _ _)) by done. Qed.
Lemma page_line e c : geo e -> page e (screen_rows e - 1) c = default 32 (status e !! Z.to_nat c).
Proof. intros []. unfold page. by rewrite (proj2 (Z.ltb_ge _ _)) by lia. Qed.

(** After the damage is repaired only the mode is missing. *)
Lemma render_damage_shows e : geo e -> in_view e -> line_ok e -> stale e ->
  let t := con (w (render_damage e)) in
  same_frame (con (w e)) t /\
  (forall r c, 0 <= r < text_rows e -> 0 <= c < screen_cols e -> cell t r c = Some (page e r c)) /\
  (forall c, Z.of_nat (length (mode_line e)) <= c < screen_cols e -> cell t (screen_rows e - 1) c = Some (page e (screen_rows e - 1) c)).
Proof.
  intros He Hv Hl [Hrows Hline] t. destruct (text_cols_spec e He) as [Hw Hc]. pose proof He as [_ Ht Er Ec Et Hh Hwd _ _].
  destruct (mode_line_spec e Hl) as (_ & Hml & Hmc & _).
  destruct (decide (replacement_status e = DMG_CMD)) as [Ed|Ed].
  - assert (t = con (w (render_cmd e))) as -> by (unfold t, render_damage; by rewrite Ed).
    destruct (render_cmd_spec e He Hl) as (F & R & L & L64). rewrite Ed in Hline. split; [done|]. split.
    + intros r c Hr Hc'. rewrite R by done. apply Hrows; [done|done|]. left. unfold damage_rows. rewrite Ed. cbn. lia.
    + intros c Hc'. rewrite page_line by done. pose proof (length_status e Hl) as Hs. destruct (decide (c < 64)).
      * rewrite L by lia. do 2 f_equal. unfold status. destruct (decide (mode e = MODE_COMMAND)) as [E|E].
        -- rewrite E. by replace (Z.to_nat c) with (S (Z.to_nat (c - 1))) by lia.
        -- assert (cmd_len e = 0) as -> by (by apply Hl). cbn. destruct (mode e); [| |done]; by rewrite (lookup_ge_None_2 (mode_line e)) by lia.
      * rewrite (lookup_ge_None_2 (status e)) by lia. cbn. apply L64; [lia|]. rewrite Hline by lia. rewrite page_line by done.
        by rewrite lookup_ge_None_2 by lia.
  - pose proof (render_damage_painted e He Hv Ed) as [F I O]. fold t in F, I, O. rewrite Er, Ec in O. split; [done|]. split.
    + intros r c Hr Hc'. destruct (decide ((damage_rows e).1 <= r < (damage_rows e).2 /\ c < 6 + text_cols e)) as [[Hd Hx]|Hd].
      * rewrite I by lia. rewrite page_text by lia. 
        destruct (lookup_lt_is_Some_2 (page_row (text_of e) (top_row e) (left_col e) (text_cols e) r) (Z.to_nat c)) as [x ->]; [|done].
        pose proof (length_page_row (text_of e) (top_row e) (left_col e) (text_cols e) ltac:(lia) r). lia.
      * rewrite O by lia. apply Hrows; [done|done|lia].
    + intros c Hc'. rewrite O; [|lia|lia|].
      * apply Hline; [lia|]. destruct (replacement_status e); [lia|lia|done|lia|lia].
      * left. destruct Hv as [Hv _]. unfold damage_rows. destruct (replacement_status e); cbn; lia.
Qed.

Lemma render_shows e : geo e -> in_view e -> line_ok e -> stale e ->
  geo (gap_render e) /\ shows (gap_render e) /\ cursor_shown (gap_render e) /\ t_past (con (w (gap_render e))) = t_past (con (w e)).
Proof.
  intros He Hv Hl Hs. destruct (render_damage_shows e He Hv Hl Hs) as (F1 & R1 & L1). destruct (repaint_damage e) as [f Ef].
  unfold gap_render. rewrite Ef in *. pose proof He as [Hg Ht Er Ec Et Hh Hwd Htop Hleft].
  destruct (mode_line_spec e Hl) as (Hp & Hml & Hmc & _). destruct (text_cols_spec e He) as [Hw Hc].
  pose proof F1 as [Ht1 Ec1 Er1 Ep1]. set (t1 := con (w (on_term f e))) in *.
  destruct (place_writes (screen_rows e - 1) 0 (mode_line e) t1) as [[F2 I2 O2] _]; [done|done|lia..|].
  set (t2 := t_write WHITE _ _) in *. pose proof F2 as [Ht2 Ec2 Er2 Ep2].
  set (e2 := emit _ _). assert (e2 = on_term (fun _ => t2) e) as -> by done.
  assert (forall r c, 0 <= r < screen_rows e -> 0 <= c < screen_cols e -> cell t2 r c = Some (page e r c)) as Hall.
  { intros r c Hr Hc'. destruct (decide (r < text_rows e)).
    - rewrite O2 by lia. apply R1; lia.
    - assert (r = screen_rows e - 1) as -> by lia. destruct (decide (c < Z.of_nat (length (mode_line e)))).
      + rewrite I2 by lia. rewrite Z.sub_0_r, page_line by done. unfold status.
        destruct (decide (mode e = MODE_COMMAND)) as [E|E].
        * rewrite E. specialize (Hmc E). rewrite Hmc in *. cbn [length] in *. by replace c with 0 by lia.
        * destruct (lookup_lt_is_Some_2 (mode_line e) (Z.to_nat c)) as [x Ex]; [lia|]. rewrite Ex. destruct (mode e); [| |done]; by rewrite Ex.
      + rewrite O2 by lia. apply L1. lia. }
  assert (forall r c, 0 <= r < screen_rows e -> 0 <= c < screen_cols e ->
    let e' := at_pos r c (on_term (fun _ => t2) e) in
    geo e' /\ shows e' /\ t_past (con (w e')) = t_past (con (w e)) /\ t_row (con (w e')) = r /\ t_col (con (w e')) = c) as Hpos.
  { intros r c Hr Hc'. cbv zeta. unfold at_pos. rewrite !u32_small by lia. cbn [con w with_world on_con on_term].
    destruct (cursor_set r c t2 Ht2) as (F3 & Es & Er3 & Ec3); [lia|lia|]. set (t3 := t_set_cursor r c t2) in *.
    pose proof F3 as [Ht3 Ec3' Er3' Ep3]. split; [|split; [|split; [|split; [exact Er3|exact Ec3]]]].
    - apply (geo_on (fun _ => t3) e He). by eapply frame_trans; [|eapply frame_trans].
    - intros r' c' Hr' Hc''. trans (Some (page e r' c')); [|done]. rewrite <- (Hall r' c' Hr' Hc''). change (cell t3 r' c' = cell t2 r' c'). unfold cell. by rewrite Es, Ec3'.
    - change (t_past t3 = t_past (con (w e))). congruence. }
  destruct (cursor_rowcol (buf e)) as [crow ccol] eqn:Erc. destruct Hv as [Hv1 Hv2]. rewrite Erc in Hv1, Hv2. cbn [fst snd] in Hv1, Hv2.
  cbn [mode on_term with_world buf]. unfold cursor_shown. destruct (mode e) eqn:Em.
  1,2: rewrite Erc; destruct (Hpos (crow - top_row e) (COL_OFFSET + ccol - left_col e)) as (? & ? & ? & H5 & H6);
    [lia|unfold COL_OFFSET; lia|]; split; [done|]; split; [done|]; split; [|done];
    cbn [mode at_pos on_term with_world buf]; rewrite Em, Erc; exact (f_equal2 pair H5 H6).
  destruct Hl as [_ Hn _ _ _]. unfold CMD_BUF_SIZE in Hn. rewrite u32_small by (cbn; lia). rewrite (proj2 (Z.leb_gt _ _)) by (cbn; lia).
  destruct (Hpos (screen_rows e - 1) (cmd_len e + 1)) as (? & ? & ? & H5 & H6); [lia|lia|].
  split; [done|]. split; [done|]. split; [|done]. cbn [mode at_pos on_term with_world buf]. rewrite Em. exact (f_equal2 pair H5 H6).
Qed.

(** ** Scrolling *)

Lemma rowcol_bound g : gap_ok g -> 0 <= (cursor_rowcol g).1 /\ 0 <= (cursor_rowcol g).2 /\
  (cursor_rowcol g).1 + (cursor_rowcol g).2 <= TEXT_CAP.
Proof.
  intros Hg. pose proof (length_before g Hg) as Hl. pose proof Hg as [? ? ?]. destruct (lines_snoc (before g)) as (p & x & E).
  rewrite cursor_rowcol_spec, (rowcol_spec _ _ _ E) by done. cbn [fst snd]. pose proof (length_offset _ _ _ E) as Ho.
  assert (length p <= offset p (length p) 0)%nat; [|lia]. clear. induction p as [|y p IH]; cbn; lia.
Qed.

Lemma check_scroll_spec e : geo e -> geo (check_scroll e) /\ in_view (check_scroll e) /\
  (replacement_status (check_scroll e) = DMG_FULL \/ check_scroll e = e).
Proof.
  intros He. pose proof (text_cols_spec e He) as [Hw _]. pose proof He as [Hg ? ? ? ? ? ? ? ?]. destruct (rowcol_bound _ Hg) as (Hr & Hc & Hb).
  unfold check_scroll. destruct (cursor_rowcol (buf e)) as [row col] eqn:Erc. cbn [fst snd] in *. unfold TEXT_CAP in *.
  set (e1 := if row <? top_row e then _ else _).
  assert (geo e1 /\ top_row e1 <= row < top_row e1 + text_rows e /\ left_col e1 = left_col e /\ buf e1 = buf e /\ text_rows e1 = text_rows e /\
          text_cols e1 = text_cols e /\ (replacement_status e1 = DMG_FULL \/ e1 = e)) as (H1 & Hv & El & Eb & Et & Ew & Hf).
  { unfold e1. destruct (Z.ltb_spec row (top_row e)).
    - split; [by split; cbn; unfold TEXT_CAP; try lia|]. cbn. repeat split; try lia. by left.
    - rewrite u32_small by lia. destruct (Z.leb_spec (top_row e + text_rows e) row).
      + rewrite u32_small by lia. split; [by split; cbn; unfold TEXT_CAP; try lia|]. cbn. repeat split; try lia. by left.
      + split; [done|]. repeat split; try lia. by right. }
  clearbody e1. pose proof H1 as [Hg1 ? ? ? ? ? ? ? ?]. unfold TEXT_CAP in *. rewrite u32_small by lia.
  assert (forall l, 0 <= l <= 262144 -> l <= col < l + text_cols e ->
    geo (damaged DMG_FULL (with_scroll (top_row e1) l e1)) /\ in_view (damaged DMG_FULL (with_scroll (top_row e1) l e1))) as Hl.
  { intros l Hl Hcl. split; [by split; cbn; unfold TEXT_CAP; try lia|]. unfold in_view. cbn. rewrite Eb, Erc. cbn [fst snd].
    split; [lia|]. change (text_cols (damaged _ _)) with (text_cols e1). lia. }
  destruct (Z.ltb_spec col (left_col e1)); [|destruct (Z.leb_spec (left_col e1 + text_cols e) col)].
  - destruct (Hl col) as [? ?]; [lia|lia|]. split; [done|]. split; [done|]. by left.
  - rewrite u32_small by lia. destruct (Hl (col - text_cols e + 1)) as [? ?]; [lia|lia|]. split; [done|]. split; [done|]. by left.
  - split; [done|]. split; [|done]. unfold in_view. rewrite Eb, Erc. cbn [fst snd]. lia.
Qed.

Lemma check_scroll_still e : geo e -> in_view e -> check_scroll e = e.
Proof.
  intros He [Hr Hc]. pose proof (text_cols_spec e He) as [Hw _]. pose proof He as [Hg ? ? ? ? ? ? ? ?]. destruct (rowcol_bound _ Hg) as (Hr0 & Hc0 & Hb).
  unfold check_scroll. destruct (cursor_rowcol (buf e)) as [row col] eqn:Erc. cbn [fst snd] in *. unfold TEXT_CAP in *.
  rewrite (proj2 (Z.ltb_ge row (top_row e))) by lia. rewrite (u32_small (top_row e + text_rows e)) by lia.
  rewrite (proj2 (Z.leb_gt (top_row e + text_rows e) row)) by lia. rewrite (proj2 (Z.ltb_ge col (left_col e))) by lia.
  rewrite (u32_small (left_col e + text_cols e)) by lia. by rewrite (proj2 (Z.leb_gt (left_col e + text_cols e) col)) by lia.
Qed.

(** ** Which lines a key changes *)

(** Line [R] of the two texts is the same, or in neither. *)
Definition agree (T T' : list Z) (R : nat) : Prop :=
  lines T' !!! R = lines T !!! R /\ (R < length (lines T') <-> R < length (lines T))%nat.

Lemma agree_page T T' top left width r : 0 <= r + top -> agree T T' (Z.to_nat (r + top)) ->
  page_row T' top left width r = page_row T top left width r.
Proof.
  intros Hr [E Hn]. unfold page_row. rewrite E. f_equal.
  destruct (Z.ltb_spec (r + top) (Z.of_nat (length (lines T)))), (Z.ltb_spec (r + top) (Z.of_nat (length (lines T')))); done || lia.
Qed.

Lemma agree_refl T R : agree T T R.
Proof. done. Qed.

Lemma agree_sym T T' R : agree T T' R -> agree T' T R.
Proof. intros [? ?]. split; [done|tauto]. Qed.

(** A change in one line. *)
Lemma agree_line T T' p x x' q R : lines T = p ++ x :: q -> lines T' = p ++ x' :: q -> R <> length p -> agree T T' R.
Proof.
  intros E E' HR. unfold agree. rewrite E, E', !length_app. cbn [length]. split; [|lia].
  destruct (decide (R < length p)%nat); [by rewrite !lookup_total_app_l by lia|].
  rewrite !lookup_total_app_r by lia. by destruct (R - length p)%nat eqn:En; [lia|].
Qed.

(** A line split in two: the lines above stay. *)
Lemma agree_above T T' p q q' R : lines T = p ++ q -> lines T' = p ++ q' -> (R < length p)%nat -> agree T T' R.
Proof. intros E E' HR. unfold agree. rewrite E, E', !length_app. split; [by rewrite !lookup_total_app_l by lia|lia]. Qed.

(** ** A key *)

Definition same_cells (t t' : term) : Prop :=
  t_cols t' = t_cols t /\ t_rows t' = t_rows t /\ t_screen t' = t_screen t /\ t_past t' = t_past t.

(** Everything but the text, the last line and the damage. *)
Record same_view (e e1 : ed) : Prop := mkView {
  sv_srows : screen_rows e1 = screen_rows e; sv_scols : screen_cols e1 = screen_cols e; sv_trows : text_rows e1 = text_rows e;
  sv_top : top_row e1 = top_row e; sv_left : left_col e1 = left_col e; sv_con : same_cells (con (w e)) (con (w e1)) }.

(** The lines that the damage of [e1] does not cover. *)
Definition outside (e1 : ed) (R : nat) : Prop :=
  match replacement_status e1 with
  | DMG_NONE | DMG_CMD => True
  | DMG_TAIL => Z.of_nat R <> (cursor_rowcol (buf e1)).1
  | DMG_BELOW => Z.of_nat R + 1 < (cursor_rowcol (buf e1)).1
  | DMG_FULL => False
  end.

(** Behind the mode nothing of the last row has changed. *)
Definition line_kept (e e1 : ed) : Prop :=
  forall c, (length (mode_line e1) <= c)%nat -> default 32 (status e1 !! c) = default 32 (status e !! c).

(** What a handler owes to the repaint. *)
Record follows (e e1 : ed) : Prop := mkFollows {
  fo_view : same_view e e1; fo_gap : gap_ok (buf e1); fo_line : line_ok e1;
  fo_rows : forall R, outside e1 R -> agree (text_of e) (text_of e1) R;
  fo_kept : (replacement_status e1 = DMG_CMD /\ cursor_rowcol (buf e1) = cursor_rowcol (buf e)) \/ line_kept e e1 }.

Record ed_inv (e : ed) : Prop := mkEdInv { ei_geo : geo e; ei_view : in_view e; ei_line : line_ok e; ei_shows : shows e }.

Lemma view_geo e e1 : geo e -> same_view e e1 -> gap_ok (buf e1) -> geo e1.
Proof.
  intros [] [E1 E2 E3 E4 E5 (E6 & E7 & E8 & _)] Hg. pose proof ge_term0 as [? ? ?].
  split; [done|split; try lia; congruence|try lia; congruence..].
Qed.

Lemma view_cell e e1 r c : same_view e e1 -> cell (con (w e1)) r c = cell (con (w e)) r c.
Proof. intros [_ _ _ _ _ (E6 & E7 & E8 & _)]. unfold cell. by rewrite E6, E8. Qed.

Lemma view_width e e1 : same_view e e1 -> text_cols e1 = text_cols e.
Proof. intros [_ E _ _ _ _]. unfold text_cols. by rewrite E. Qed.

(** Behind the text every row is blank. *)
Lemma page_margin e r c : geo e -> r < text_rows e -> 6 + text_cols e <= c -> page e r c = 32.
Proof.
  intros He Hr Hc. destruct (text_cols_spec e He) as [Hw _]. rewrite page_text by done. rewrite lookup_ge_None_2; [done|].
  pose proof (length_page_row (text_of e) (top_row e) (left_col e) (text_cols e) ltac:(lia) r). lia.
Qed.

Lemma follows_rows e e1 r c : ed_inv e -> follows e e1 -> geo e1 -> 0 <= r < text_rows e1 -> 0 <= c < screen_cols e1 ->
  ~ ((damage_rows e1).1 <= r < (damage_rows e1).2) \/ 6 + text_cols e1 <= c -> cell (con (w e1)) r c = Some (page e1 r c).
Proof.
  intros [He _ _ Hsh] [Hv Hg Hl Hrows _] He1 Hr Hc Hd. rewrite (view_cell e) by done. pose proof Hv as [E1 E2 E3 E4 E5 _].
  pose proof He as [_ _ _ _ Et Hh _ Htop _]. rewrite Hsh by lia. f_equal. destruct (decide (6 + text_cols e1 <= c)) as [Hm|Hm].
  - rewrite !page_margin; [done|done|lia|lia|done|lia|]. rewrite <- (view_width e e1) by done. lia.
  - rewrite !page_text by lia. rewrite E4, E5, (view_width e e1) by done. symmetry. rewrite (agree_page (text_of e)); [done|lia|].
    apply Hrows. destruct Hd as [Hd|]; [|lia]. unfold outside, damage_rows in *. rewrite E4 in *.
    destruct (replacement_status e1); cbn [fst snd] in *; [done|lia|done|lia|lia].
Qed.

Lemma follows_shows e e1 : ed_inv e -> follows e e1 ->
  ed_inv (gap_render (check_scroll e1)) /\ cursor_shown (gap_render (check_scroll e1)) /\
  t_past (con (w (gap_render (check_scroll e1)))) = t_past (con (w e)).
Proof.
  intros Hi Hf. pose proof Hi as [He Hview Hlo Hsh]. pose proof Hf as [Hv Hg Hl _ Hk].
  assert (geo e1) as He1 by by eapply view_geo. destruct (check_scroll_spec e1 He1) as (He2 & Hv2 & Hor).
  destruct (scroll_damage e1) as (t' & l' & d' & Es). set (e2 := check_scroll e1) in *.
  assert (line_ok e2) as Hl2 by (rewrite Es; destruct Hl; by split).
  pose proof Hv as [E1 E2 E3 E4 E5 (_ & _ & _ & Ep)]. pose proof He as [_ _ _ _ Et _ _ _ _].
  assert (forall c, 0 <= c < screen_cols e1 -> (64 <= c \/ (line_kept e e1 /\ Z.of_nat (length (mode_line e1)) <= c)) ->
            cell (con (w e1)) (screen_rows e1 - 1) c = Some (page e1 (screen_rows e1 - 1) c)) as Hline.
  { intros c Hc Hd. rewrite (view_cell e) by done. rewrite E1. rewrite Hsh by (destruct He; lia). f_equal. rewrite <- E1 at 2.
    rewrite !page_line by done. destruct Hd as [Hd|[Hk' Hd]].
    - pose proof (length_status e Hlo). pose proof (length_status e1 Hl). by rewrite !lookup_ge_None_2 by lia.
    - symmetry. apply Hk'. lia. }
  assert (stale e2) as Hst.
  { destruct Hor as [HF|HE].
    - split.
      + intros r c Hr Hc Hd. assert (r < (damage_rows e2).2 /\ (damage_rows e2).1 = 0) as [??] by (unfold damage_rows; rewrite HF; cbn; lia).
        rewrite page_margin; [|done|lia|lia].
        assert (con (w e2) = con (w e1)) as -> by by rewrite Es. assert (text_cols e2 = text_cols e1) as Ew by by rewrite Es.
        assert (text_rows e2 = text_rows e1 /\ screen_cols e2 = screen_cols e1) as [E6 E7] by by rewrite Es.
        rewrite (follows_rows e e1) by (done || lia). f_equal. apply page_margin; [done|lia|lia].
      + intros c Hc. rewrite HF. intros Hd. assert (page e2 (screen_rows e2 - 1) c = page e1 (screen_rows e1 - 1) c) as ->.
        { rewrite !page_line by done. by rewrite Es. }
        replace (con (w e2)) with (con (w e1)) by (by rewrite Es). replace (screen_rows e2) with (screen_rows e1) by (by rewrite Es).
        apply Hline; [by rewrite Es in Hc|]. right. split; [|by rewrite Es in Hd]. destruct Hk as [[Hc1 Hc2]|]; [|done]. exfalso.
        assert (e2 = e1) as E; [|rewrite E in HF; congruence]. apply check_scroll_still; [done|]. unfold in_view. rewrite Hc2.
        rewrite E3, E4, E5, (view_width e e1) by done. exact Hview.
    - rewrite HE. split; [intros r c; by apply (follows_rows e e1)|]. intros c Hc Hd. apply Hline; [done|].
      destruct Hk as [[Hc1 _]|Hk]; [rewrite Hc1 in Hd; by left|].
      destruct (replacement_status e1); try (right; by split); by left. }
  destruct (render_shows e2 He2 Hv2 Hl2 Hst) as (G & S & C & P). split; [|split; [done|]].
  - destruct (repaint_render e2) as [f Ef]. rewrite Ef in *. split; [done|done| |done]. destruct Hl2; by split.
  - rewrite P. rewrite Es. by cbn.
Qed.

(** The mode line covers the old one when the message is the same. *)
Lemma line_kept_mode e e1 : mode e <> MODE_COMMAND -> mode e1 <> MODE_COMMAND -> complaining e1 = complaining e -> complaint e1 = complaint e ->
  line_kept e e1.
Proof.
  intros Hm Hm1 Ec Em c Hc.
  assert (status e = mode_line e /\ status e1 = mode_line e1) as [-> ->] by (unfold status; by destruct (mode e), (mode e1)).
  unfold mode_line in *. rewrite Ec, Em in *. destruct (complaining e); [done|].
  assert (6 <= c)%nat by (destruct (mode e1); [exact Hc|exact Hc|done]).
  rewrite !lookup_ge_None_2; [done|destruct (mode e); [cbn; lia|cbn; lia|done]|destruct (mode e1); [cbn; lia|cbn; lia|done]].
Qed.

Lemma text_of_doc e : text_of e = d_text (doc_of (buf e)).
Proof. done. Qed.

(** A key that leaves the text alone. *)
Lemma follows_quiet e e1 : same_view e e1 -> gap_ok (buf e1) -> line_ok e1 -> text_of e1 = text_of e ->
  replacement_status e1 = DMG_NONE -> line_kept e e1 -> follows e e1.
Proof. intros Hv Hg Hl Et Hd Hk. split; try done; [|by right]. intros R _. rewrite Et. apply agree_refl. Qed.

Ltac easy_view := split; try done.

Lemma normal_follows c e : geo e -> line_ok e -> mode e = MODE_NORMAL -> follows e (handle_normal c (damaged DMG_NONE e)).
Proof.
  intros He Hl Hm. pose proof He as [Hg _ _ _ _ _ _ _ _]. assert (mode e <> MODE_COMMAND) as Hm' by congruence.
  destruct (doc_right _ Hg) as [? Er], (doc_left _ Hg) as [? El], (doc_down _ Hg) as [? Ed], (doc_up _ Hg) as [? Eu].
  assert (forall g' m, gap_ok g' -> d_text (doc_of g') = d_text (doc_of (buf e)) -> m <> MODE_COMMAND ->
            follows e (with_mode m (with_buf g' (damaged DMG_NONE e)))) as Hmove.
  { intros g' m Hg' Et Hm1. apply follows_quiet; [by easy_view|done| |by rewrite text_of_doc; cbn|done|by apply line_kept_mode].
    destruct Hl as [? ? ? H4 H5]. split; try done; cbn; [by intros _; apply H4|]. intros Hc. split; [done|by apply H5]. }
  assert (forall d, d_text (d_goto d (doc_of (buf e))) = d_text (doc_of (buf e))) as Eg by (intros d; unfold d_goto; by case_match).
  unfold handle_normal. destruct (c =? 58).
  { split; [by easy_view|done| |by intros R _|by left]. destruct Hl as [? ? ? ? ?]. by split. }
  destruct (c =? 105); [by apply (Hmove (buf e))|].
  destruct (c =? 97); [apply (Hmove (cursor_right (buf e))); [done|by rewrite Er|done]|].
  destruct (c =? 104); [apply (Hmove (cursor_left (buf e)) MODE_NORMAL); [done|by rewrite El|done]|].
  destruct (c =? 106); [apply (Hmove (cursor_down (buf e)) MODE_NORMAL); [done|by rewrite Ed; apply Eg|done]|].
  destruct (c =? 107).
  { apply (Hmove (cursor_up (buf e)) MODE_NORMAL); [done| |done]. rewrite Eu. unfold d_up. case_decide; [done|apply Eg]. }
  destruct (c =? 108); [apply (Hmove (cursor_right (buf e)) MODE_NORMAL); [done|by rewrite Er|done]|].
  by apply (Hmove (buf e)).
Qed.

(** The parts of the text after an insertion or a deletion. *)
Lemma doc_parts g T n : doc_of g = mkDoc T n -> before g = take n T /\ after g = drop n T.
Proof. intros E. rewrite <- (take_doc g), <- (drop_doc g), E. done. Qed.

Lemma insert_parts c g : gap_ok g -> gap_start g <> gap_end g ->
  let g' := mkGap (put_text (gap_start g) c (text g)) (gap_start g + 1) (gap_end g) in
  gap_ok g' /\ before g' = before g ++ [c] /\ after g' = after g.
Proof.
  intros Hg Hne g'. destruct (doc_insert c g Hg Hne) as [Hg' E]. split; [done|]. unfold d_insert in E.
  pose proof (length_before g Hg). pose proof (length_after g Hg). pose proof Hg as [? ? ?].
  rewrite (proj2 (Z.ltb_lt _ _)) in E by (cbn; rewrite length_app; lia). rewrite take_doc, drop_doc in E. apply doc_parts in E as [E1 E2].
  unfold g'. rewrite E1, E2. cbn [d_pos doc_of].
  replace (before g ++ c :: after g) with ((before g ++ [c]) ++ after g) by (by rewrite <- app_assoc).
  replace (length (before g) + 1)%nat with (length (before g ++ [c])) by (rewrite length_app; done).
  by rewrite take_app_length, drop_app_length.
Qed.

Lemma backspace_parts g : gap_ok g -> 0 < gap_start g ->
  let g' := mkGap (text g) (gap_start g - 1) (gap_end g) in
  gap_ok g' /\ before g = before g' ++ [text g (gap_start g - 1)] /\ after g' = after g.
Proof. intros Hg Hs g'. split; [by apply doc_backspace|]. split; [by apply before_snoc|done]. Qed.

(** A byte added at the cursor changes its line, a newline the lines from the cursor on. *)
Lemma lines_insert g g' c p xa xb r pa q : around g p xa xb r pa q -> gap_ok g' -> before g' = before g ++ [c] -> after g' = after g ->
  let row' := (cursor_rowcol g').1 in
  if is_nl c then row' = Z.of_nat (length pa) + 1 /\ lines (before g' ++ after g') = pa ++ xa :: xb :: q
  else row' = Z.of_nat (length pa) /\ lines (before g' ++ after g') = pa ++ (xa ++ c :: xb) :: q.
Proof.
  intros Ha Hg' Eb Ea. pose proof Ha as [_ _ _ _ Lb La _ _]. cbv zeta. rewrite cursor_rowcol_spec, Eb, Ea by done.
  destruct (is_nl c) eqn:Ec.
  - assert (lines (before g ++ [c]) = (pa ++ [xa]) ++ [[]]) as E.
    { rewrite (lines_app _ [c] pa xa [] [[]]); [|done|cbn; by rewrite Ec]. by rewrite app_nil_r, <- app_assoc. }
    rewrite (rowcol_spec _ _ _ E), (lines_app _ _ _ _ _ _ E La), length_app. cbn [fst length]. split; [lia|]. by rewrite <- app_assoc.
  - assert (lines (before g ++ [c]) = pa ++ [xa ++ [c]]) as E by (apply (lines_app _ [c] pa xa [c] []); [done|cbn; by rewrite Ec]).
    rewrite (rowcol_spec _ _ _ E), (lines_app _ _ _ _ _ _ E La). split; [done|]. by rewrite <- app_assoc.
Qed.

Lemma insert_follows c e : geo e -> line_ok e -> mode e = MODE_INSERT -> follows e (handle_insert c (damaged DMG_NONE e)).
Proof.
  intros He Hl Hm. pose proof He as [Hg _ _ _ _ _ _ _ _]. assert (mode e <> MODE_COMMAND) as Hm' by congruence.
  assert (forall m g' d, gap_ok g' -> m <> MODE_COMMAND -> (forall R, outside (with_mode m (with_buf g' (damaged d e))) R -> agree (text_of e) (before g' ++ after g') R) ->
            follows e (with_mode m (with_buf g' (damaged d e)))) as Hmk.
  { intros m g' d Hg' Hm1 Hr. split; [by easy_view|done| |done|right; by apply line_kept_mode].
    destruct Hl as [? ? ? H4 H5]. split; try done; cbn; [by intros _; apply H4|]. intros Hc. split; [done|by apply H5]. }
  unfold handle_insert. cbn [buf with_mode damaged].
  destruct (128 <=? c); [by apply (Hmk MODE_INSERT (buf e) DMG_NONE)|]. destruct (c =? KEY_ESC); [by apply (Hmk MODE_NORMAL (buf e) DMG_NONE)|].
  destruct (c =? BACKSPACE).
  - destruct (Z.ltb_spec 0 (gap_start (buf e))); [|by apply (Hmk MODE_INSERT (buf e) DMG_NONE)].
    destruct (backspace_parts (buf e) Hg) as (Hg' & Eb & Ea); [done|]. set (g' := mkGap _ _ _) in *. set (x := text (buf e) _) in *.
    apply (Hmk MODE_INSERT g' (if is_nl x then DMG_BELOW else DMG_TAIL)); [done|done|].
    destruct (around_exists g') as (p & xa & xb & r & pa & q & Ha). pose proof (lines_insert g' (buf e) x _ _ _ _ _ _ Ha Hg Eb (eq_sym Ea)) as Hli.
    pose proof (around_lines _ _ _ _ _ _ _ Ha) as El. pose proof (around_rowcol _ _ _ _ _ _ _ Hg' Ha) as Erc.
    intros R. unfold outside. cbn. rewrite Erc. cbn [fst]. destruct (is_nl x); destruct Hli as [_ Hli]; cbn [damaged replacement_status].
    + intros HR. eapply agree_above; [exact Hli|exact El|lia].
    + intros HR. eapply agree_line; [exact Hli|exact El|lia].
  - destruct (Z.eqb_spec (gap_start (buf e)) (gap_end (buf e))) as [E|E]; [by apply (Hmk MODE_INSERT (buf e) DMG_NONE)|].
    destruct (insert_parts c (buf e) Hg E) as (Hg' & Eb & Ea). set (g' := mkGap _ _ _) in *.
    apply (Hmk MODE_INSERT g' (if is_nl c then DMG_BELOW else DMG_TAIL)); [done|done|].
    destruct (around_exists (buf e)) as (p & xa & xb & r & pa & q & Ha). pose proof (lines_insert (buf e) g' c _ _ _ _ _ _ Ha Hg' Eb Ea) as Hli.
    pose proof (around_lines _ _ _ _ _ _ _ Ha) as El. cbv zeta in Hli.
    intros R. unfold outside. cbn. destruct (is_nl c); destruct Hli as [Hrow Hli]; cbn [damaged replacement_status]; rewrite Hrow.
    + intros HR. eapply agree_above; [exact El|exact Hli|lia].
    + intros HR. eapply agree_line; [exact El|exact Hli|lia].
Qed.

(** When the file is not there yet, creating it prints nothing. *)
Definition quiet (e : ed) : Prop :=
  (uk_resolve_dir (path e) (kern (w e))).1 = SYSCALL_ERROR ->
  forall w', cmd_touch (args_save e) (w e) = Some w' -> con w' = con (w e).

Definition message_ok (e : ed) : Prop :=
  complaining e = true -> complaint e = bytes_of "Failed to save" \/ complaint e = bytes_of "Command not found".

(** What a command leaves alone. *)
Record ran (e e' : ed) : Prop := mkRan {
  rn_view : same_view e e'; rn_gap : gap_ok (buf e'); rn_text : text_of e' = text_of e; rn_cmd : cmd_buf e' = cmd_buf e; rn_msg : message_ok e' }.

Lemma save_ran e : gap_ok (buf e) -> complaining e = false -> quiet e -> ran e (save e).
Proof.
  intros Hg Hc Hq. destruct (doc_end _ Hg) as (Hg' & Ed & _). unfold save. set (g' := go_right _ _ _) in *.
  set (e0 := with_buf g' e). set (e2 := if _ =? SYSCALL_ERROR then _ else e0).
  assert (exists a w', e2 = with_world w' (with_args a e0) /\ con w' = con (w e)) as (a & w' & -> & Ew).
  { unfold e2. destruct (Z.eqb_spec (uk_resolve_dir (path e0) (kern (w e0))).1 SYSCALL_ERROR) as [E|E]; [|by exists (args_save e), (w e)].
    eexists _, _. split; [done|]. destruct (cmd_touch (args_save e0) (w e0)) as [w'|] eqn:Et; [|done]. cbn. by apply (Hq E w'). }
  set (e1 := with_args a e0).
  assert (text_of (with_world w' e1) = text_of e) as Et by (trans (d_text (doc_of g')); [done|by rewrite Ed]).
  assert (forall k, ran e (complain "Failed to save" (with_world (mkW (con w') k (dir w')) e1))) as Hf.
  { intros k. split; try done; [split; try done; cbn; by rewrite Ew|by left]. }
  destruct (uk_resolve_dir _ _) as [ino fs]. destruct (ino =? _).
  { replace (with_world w' e1) with (with_world (mkW (con w') (kern w') (dir w')) e1) by (by destruct w'). apply Hf. }
  destruct (uk_fsave _ _ _ _) as [res k]. destruct (res =? _); [apply (Hf k)|].
  split; try done; [split; try done; cbn; by rewrite Ew|]. unfold message_ok. cbn. by rewrite Hc.
Qed.

Lemma quit_ran e e' : ran e e' -> ran e (quit e').
Proof. intros [[] ? ? ? ?]. by split; [split|..]. Qed.
Lemma save_quit_ran e : gap_ok (buf e) -> complaining e = false -> quiet e -> ran e (save_quit e).
Proof. intros Hg Hc Hq. pose proof (save_ran e Hg Hc Hq) as Hr. unfold save_quit. case_match; [done|by apply quit_ran]. Qed.

Lemma word_id l : Forall (fun c => c <> 0 /\ c <> 8 /\ c <> 10) l -> word l = l.
Proof. induction 1 as [|c l Hc _ IH]; [done|]. cbn. rewrite (proj2 (Z.eqb_neq c 0)) by lia. by rewrite IH. Qed.

(** A command that is found: it is short if it moves the cursor. *)
Lemma command_ran wd f e : gap_ok (buf e) -> complaining e = false -> quiet e -> command_of wd = Some f ->
  ran e (f e) /\ (buf (f e) = buf e \/ (length wd <= 3)%nat).
Proof.
  intros Hg Hc Hq. assert (ran e e) as Hrr by (split; try done; unfold message_ok; by rewrite Hc).
  assert (ran e (quit e) /\ ran e (save e) /\ ran e (save_quit e)) as (? & ? & ?).
  { split; [by apply quit_ran|]. split; [by apply save_ran|by apply save_quit_ran]. }
  unfold command_of. destruct (bool_decide _); [intros [= <-]; split; [done|by left]|].
  case_bool_decide as Hs; [intros [= <-]; split; [done|right]|case_bool_decide as Hs2; [intros [= <-]; split; [done|right]|done]].
  - change (wd ∈ [bytes_of "w"; bytes_of "wa"]) in Hs. repeat (apply elem_of_cons in Hs as [->|Hs]; [by apply Nat.leb_le|]). by apply not_elem_of_nil in Hs.
  - change (wd ∈ [bytes_of "wq"; bytes_of "wqa"]) in Hs2. repeat (apply elem_of_cons in Hs2 as [->|Hs2]; [by apply Nat.leb_le|]). by apply not_elem_of_nil in Hs2.
Qed.

(** The end of a command: back to the normal mode. *)
Lemma ran_follows e e1 e' : line_ok e -> mode e = MODE_COMMAND -> same_view e e1 -> text_of e1 = text_of e -> buf e1 = buf e -> length (cmd_buf e1) = 64%nat ->
  ran e1 e' -> (buf e' = buf e1 \/ (length (e_cmd (edit_of e)) <= 3)%nat) ->
  follows e (with_cmd (cmd_buf e') 0 (damaged DMG_CMD (with_mode MODE_NORMAL e'))).
Proof.
  intros Hl Hm [V1 V2 V3 V4 V5 (V6 & V7 & V8 & V9)] Et Eb Hb [[W1 W2 W3 W4 W5 (W6 & W7 & W8 & W9)] Hg Et' Eb' Hmsg] Hor. 
  set (e2 := with_cmd _ _ _).
  assert (line_ok e2) as Hl2.
  { split; cbn; [by rewrite Eb'|unfold CMD_BUF_SIZE; lia|by constructor|done|]. intros Hc. by destruct (Hmsg Hc); split; auto. }
  split; [|done|done| |].
  - split; cbn; try congruence. split; [congruence|]. split; [congruence|]. split; congruence.
  - intros R _. change (text_of e2) with (text_of e'). rewrite Et', Et. apply agree_refl.
  - destruct Hor as [E|Hs]; [left; split; [done|]; cbn; by rewrite E, Eb|right].
    intros c Hc. destruct (mode_line_spec e2 Hl2) as (_ & _ & _ & Hlen). specialize (Hlen ltac:(done)).
    change (status e2) with (mode_line e2). rewrite (lookup_ge_None_2 (mode_line e2)) by done.
    rewrite lookup_ge_None_2; [done|]. unfold status. rewrite Hm. cbn [length]. cbn [e_cmd edit_of] in Hs. lia.
Qed.

Lemma command_follows c e : c <> 0 -> geo e -> line_ok e -> mode e = MODE_COMMAND -> quiet e ->
  follows e (handle_command c (damaged DMG_NONE e)).
Proof.
  intros H0 He Hl Hm Hq. pose proof He as [Hg _ _ _ _ _ _ _ _]. pose proof Hl as [Hcb Hn Hp Hmode Hco]. unfold CMD_BUF_SIZE in Hn.
  assert (complaining e = false) as Hnc by (destruct (complaining e); [by destruct Hco|done]).
  assert (forall b n d, length b = 64%nat -> 0 <= n < 64 -> Forall (fun c => c <> 0 /\ c <> 8 /\ c <> 10) (take (Z.to_nat n) b) ->
            follows e (damaged DMG_CMD (with_cmd b n (with_mode MODE_COMMAND (damaged d e))))) as Htype.
  { intros b n d Hb Hn' Hf. split; [by easy_view|done| |by intros R _|by left]. split; try done; cbn. by rewrite Hnc. }
  assert (follows e (with_mode MODE_COMMAND (damaged DMG_NONE e))) as Hnone.
  { apply follows_quiet; try done; [split; try done; cbn; by rewrite Hnc|]. intros i _. unfold status. cbn. by rewrite Hm. }
  unfold handle_command. destruct (128 <=? c); [done|]. destruct (Z.eqb_spec c KEY_ESC).
  { split; [by easy_view|done| |by intros R _|by left]. split; try done; cbn. by rewrite Hnc. }
  destruct (Z.eqb_spec c BACKSPACE); [|destruct (Z.eqb_spec c NEWLINE)].
  - destruct (Z.ltb_spec 0 (cmd_len (with_mode MODE_COMMAND (damaged DMG_NONE e)))); [|done]. cbn in *.
    apply Htype; [done|lia|]. rewrite take_cmd_back by done. by apply Forall_take.
  - set (e1 := with_cmd _ _ _).
    assert (run_cmds (cmd_buf e1) e1 = match command_of (word (e_cmd (edit_of e))) with Some f => (true, f e1) | None => (false, e1) end) as Hrun.
    { apply run_cmds_spec. apply (cstr_cmd e). by split. }
    rewrite Hrun, word_id by done. assert (length (cmd_buf e1) = 64%nat) as Hb1 by (cbn; by rewrite length_insert).
    destruct (command_of (e_cmd (edit_of e))) as [f|] eqn:Ef; cbn [negb].
    + destruct (command_ran _ f e1 Hg Hnc Hq Ef) as [Hr Hor]. by eapply (ran_follows e e1).
    + eapply (ran_follows e e1); [done|done|by easy_view|done|done|done| |by left]. split; try done. by right.
  - destruct (Z.ltb_spec (cmd_len (with_mode MODE_COMMAND (damaged DMG_NONE e))) (CMD_BUF_SIZE - 1)); [|done].
    unfold CMD_BUF_SIZE in *. cbn in *. apply Htype; [by rewrite length_insert|lia|]. rewrite take_cmd_type by lia.
    apply Forall_app. split; [done|]. unfold BACKSPACE, NEWLINE in *. by repeat constructor.
Qed.

Lemma key_follows c e : c <> 0 -> ed_inv e -> quiet e ->
  follows e (match mode (damaged DMG_NONE e) with
             | MODE_NORMAL => handle_normal c (damaged DMG_NONE e)
             | MODE_INSERT => handle_insert c (damaged DMG_NONE e)
             | MODE_COMMAND => handle_command c (damaged DMG_NONE e)
             end).
Proof.
  intros Hc [He _ Hl _] Hq. cbn [mode damaged]. destruct (mode e) eqn:Em; [by apply normal_follows|by apply insert_follows|by apply command_follows].
Qed.

Lemma idle_follows e : ed_inv e -> follows e (damaged DMG_CMD (with_complaint (complaint e) false (complaint_expiry e) e)).
Proof. intros [He _ [? ? ? ? ?] _]. split; [by easy_view|by destruct He|by split|by intros R _|by left]. Qed.

(** The start: a blank screen, everything to be painted. *)
Lemma blank_cell t r c : t_ok t -> 0 <= r < t_rows t -> 0 <= c < t_cols t -> cell (t_clear t) r c = Some 32.
Proof. intros [? ? ?] Hr Hc. unfold cell. cbn. rewrite lookup_replicate_2 by nia. done. Qed.

Lemma start_shows g path args (w0 : @world K) : gap_ok g -> t_ok (con w0) -> 2 <= t_rows (con w0) < 2147483648 -> 65 <= t_cols (con w0) < 2147483648 ->
  let e := no_scrollback (gap_render (check_scroll (first_ed g path args w0))) in ed_inv e /\ cursor_shown e.
Proof.
  intros Hg Ht Hr Hc. pose proof Ht as [? ? ?]. set (e0 := first_ed g path args w0).
  assert (geo e0) as He0.
  { split; cbn; unfold TEXT_CAP; try done; try lia. split; cbn; [done|done|]. rewrite length_replicate. lia. }
  destruct (check_scroll_spec e0 He0) as (He1 & Hv1 & Hor). destruct (scroll_damage e0) as (t' & l' & d' & Es). set (e1 := check_scroll e0) in *.
  assert (replacement_status e1 = DMG_FULL) as HF by (destruct Hor as [?|E]; [done|by rewrite E]).
  assert (line_ok e1) as Hl1 by (rewrite Es; split; cbn; try done; by constructor).
  assert (con (w e1) = t_clear (con w0)) as Ec by by rewrite Es.
  assert (screen_rows e1 = t_rows (con w0) /\ screen_cols e1 = t_cols (con w0) /\ text_rows e1 = t_rows (con w0) - 1 /\ mode_line e1 = bytes_of "NORMAL" /\
          status e1 = bytes_of "NORMAL") as (E1 & E2 & E3 & E4 & E5) by by rewrite Es.
  assert (stale e1) as Hst.
  { split.
    - intros r c Hr' Hc' Hd. rewrite Ec, blank_cell by (done || lia). rewrite page_margin; [done|done|lia|].
      unfold damage_rows in Hd. rewrite HF in Hd. cbn [fst snd] in Hd. lia.
    - intros c Hc'. rewrite HF, E4. intros Hd. rewrite Ec, blank_cell by (done || lia). rewrite page_line, E5 by done.
      rewrite lookup_ge_None_2; [done|]. lia. }
  destruct (render_shows e1 He1 Hv1 Hl1 Hst) as (G & S & C & _). destruct (repaint_render e1) as [f Ef]. rewrite Ef in *. cbv zeta.
  split; [|exact C]. destruct Hl1. split; [|exact Hv1|by split|exact S].
  apply (view_geo (on_term f e1)); [done|by split|]. by destruct G.
Qed.

(** ** Every state of the editor *)

(** The editor runs: it starts, takes keys, waits, and the kernel goes on
    around it. *)
Inductive reach : ed -> Prop :=
| reach_start args text0 stat0 w0 e :
    t_ok (con w0) -> 2 <= t_rows (con w0) < 2147483648 -> 65 <= t_cols (con w0) < 2147483648 ->
    app_dinv args text0 stat0 w0 = Edits e -> reach e
| reach_key c e : reach e -> running e = true -> 0 < c < 256 -> quiet e -> reach (dinv_key c e)
| reach_idle e : reach e -> reach (dinv_idle e)
| reach_kernel k e : reach e -> reach (with_world (set_kern k (w e)) e).

Lemma reach_inv e : reach e -> ed_inv e /\ cursor_shown e.
Proof.
  induction 1 as [args text0 stat0 w0 e Ht Hr Hc E|c e _ [Hi _] _ Hc Hq|e _ [Hi Hcs]|k e _ [[He Hv Hl Hs] Hc]].
  - destruct (app_dinv_edits _ _ _ _ _ E) as (g & path & Hg & ->). by apply start_shows.
  - destruct (follows_shows e _ Hi (key_follows c e ltac:(lia) Hi Hq)) as (H1 & H2 & _). done.
  - unfold dinv_idle. case_match; [|done]. set (e1 := damaged _ _). pose proof (idle_follows e Hi) as Hf. fold e1 in Hf.
    assert (check_scroll e1 = e1) as Es.
    { apply check_scroll_still; [|by destruct Hi]. destruct Hi as [He _ _ _], Hf. by eapply view_geo. }
    destruct (follows_shows e e1 Hi Hf) as (H1 & H2 & _). by rewrite Es in H1, H2.
  - split; [|exact Hc]. destruct He, Hl. split; [by split|exact Hv|by split|exact Hs].
Qed.

End screen.

#[local] Opaque dinv_key gap_render check_scroll.

(** C3. The screen is the page: whatever keys were typed, and although each key
    repaints only the rows it damaged, every cell of the terminal holds what
    [page] says, and the cursor stands on its place in the text. *)
Theorem dinv_shows_page {K} `{UserKernel K} (e : @ed K) : reach e -> shows e /\ cursor_shown e.
Proof. intros Hr. destruct (reach_inv e Hr) as [[_ _ _ Hs] Hc]. done. Qed.

Lemma dinv_shows_page_witness : exists e : @ed (list Z),
  (exists e0, app_dinv (bytes_of "f") (fun _ => 0) [] small_world = Edits e0 /\ e = dinv_key 120 (dinv_key 105 e0)) /\ shows e /\ cursor_shown e.
Proof.
  assert (file_chunks 0 12 (kern small_world) 0 (bytes_of "hi")) as Hf.
  { apply (chunks_more 0 12 _ 0 2 (bytes_of "hi") []); [done|cbn; lia|done|]. by eapply chunks_end. }
  destruct (app_dinv_loads (bytes_of "f") (fun _ => 0) [] small_world (bytes_of "//f") 12 0 (bytes_of "hi")) as (g & E & Hg & _); [done..|exact Hf|done|].
  destruct (start_same g (take 255 (bytes_of "//f")) (bytes_of "f") small_world Hg) as (_ & _ & _ & _ & R0).
  set (e0 := no_scrollback _) in *. clearbody e0.
  assert (forall e : @ed (list Z), quiet e) as Hq by (intros e; intros E'; done).
  assert (reach e0) as H0 by (eapply reach_start; [..|exact E]; [split; done|done|done]).
  assert (running (dinv_key 105 e0) = true) as R1 by (destruct (key_same 105 e0) as (_ & _ & ->); [by right|done]).
  exists (dinv_key 120 (dinv_key 105 e0)). split; [by exists e0|]. apply dinv_shows_page.
  apply reach_key; [|exact R1|lia|apply Hq]. apply reach_key; [exact H0|exact R0|lia|apply Hq].
Defined.
