(* ===== verification/Stubs.v ===== *)
(** * The user's side of a system call: user/sys/syscall.c and the stub of boot.S

    A function of syscall.c puts a number into eax and its arguments into the
    other registers and executes [int $0x80].  The processor switches to the
    kernel stack and pushes five words there, the stub syscall_stub of boot.S
    the eight general registers; [syscall_handler] gets the address of this
    frame, and the registers are popped from the address it returns.

    The inline assembly names no clobbered register, so the compiler relies on
    every register but eax coming back unchanged: [int80_preserves].  What the
    handlers push below the frame while they run, and the buffers the file system
    takes from the kernel heap, are not modelled.  The last part follows single calls from the program's arguments to the file system
    and back. *)
From S2P Require Import Prelude Bytes Bitset Ring CLib Dates FrameAlloc Paging Heap Scheduler.
From S2P Require Import Disk Bitmap Inode BlockMap FileOps Mount DirBlock Dir DirSpec Path PathSpec Screen ScreenSpec Syscall SyscallSpec.
Import RingBuffer.

Definition SYS_WRITE_CHAR : Z := 1.
Definition SYS_WRITE_STR : Z := 2.
Definition SYS_GET_TICKS : Z := 3.
Definition SYS_EXIT : Z := 4.
Definition SYS_READ_CHAR : Z := 5.
Definition SYS_YIELD : Z := 6.
Definition SYS_WRITE_CHAR_COLOR : Z := 7.
Definition SYS_WRITE_STR_COLOR : Z := 8.
Definition SYS_READ_CHUNK : Z := 9.
Definition SYS_RESOLVE_DIR : Z := 10.
Definition SYS_WRITE_STR_LEN : Z := 11.
Definition SYS_GET_STAT : Z := 12.
Definition SYS_MAKE_DIR : Z := 13.
Definition SYS_REMOVE_INODE : Z := 14.
Definition SYS_REMOVE_DIR : Z := 15.
Definition SYS_GET_SCREEN_DIMS : Z := 16.
Definition SYS_SET_CURSOR : Z := 17.
Definition SYS_CLEAR_SCREEN : Z := 18.
Definition SYS_REPLACE_INODE : Z := 19.
Definition SYS_MAKE_INODE : Z := 20.
Definition SYS_SET_CURSOR_NO_UPD : Z := 21.
Definition SYS_WRITE_CHAR_NO_UPD : Z := 22.
Definition SYS_WRITE_STR_NO_UPD : Z := 23.
Definition SYS_WRITE_STR_LEN_NO_UPD : Z := 24.
Definition SYS_SET_SCROLLBACK : Z := 25.
Definition SYS_GET_CURSOR : Z := 26.
Definition SYS_GET_EPOCH : Z := 27.
Definition SYS_RENAME_INODE : Z := 28.
Definition SYS_APPEND_TO_INODE : Z := 29.
Definition SYS_MAKE_LINK : Z := 30.
Definition SYS_MAKE_SYMLINK : Z := 31.
Definition SYS_RESOLVE_SYMLINK : Z := 32.
Definition SYS_TRUNCATE_INODE : Z := 33.
Definition SYS_INODE_IS_MOUNTPOINT : Z := 34.
Definition SYS_MOUNT_FS : Z := 35.
Definition SYS_UMOUNT_FS : Z := 36.
Definition SYS_HALT : Z := 37.

(** The registers of a user program.  [trap] is what the processor saves and
    [iret] restores: eip, cs, eflags, esp and ss. *)
Record cpu : Type := mkCpu { eax : Z; ebx : Z; ecx : Z; edx : Z; esi : Z; edi : Z; ebp : Z; trap : list Z }.

Definition cpu_ok (c : cpu) : Prop :=
  is_u32 (eax c) /\ is_u32 (ebx c) /\ is_u32 (ecx c) /\ is_u32 (edx c) /\ is_u32 (esi c) /\ is_u32 (edi c) /\ is_u32 (ebp c) /\
  Forall is_u32 (trap c) /\ length (trap c) = 5%nat.

Definition with_eax (v : Z) (c : cpu) : cpu := mkCpu v (ebx c) (ecx c) (edx c) (esi c) (edi c) (ebp c) (trap c).

Section stubs.
Context {F : Type} `{FrameOps F} (font8x16 : list Z).
Local Abbreviation SM := (M (machine (F := F))).

(** ** The way into the kernel and back *)

(** The frame, from its lowest address: [pusha] stores edi last; the slot of
    esp holds its value before. *)
Definition frame_words (base : Z) (c : cpu) : list Z :=
  [edi c; esi c; ebp c; base + 32; ebx c; edx c; ecx c; eax c] ++ trap c.

Fixpoint put_words (a : Z) (l : list Z) (k : kstate (F := F)) : kstate :=
  match l with [] => k | v :: l => put_words (a + 4) l (put_word a v k) end.

(** [popa] skips the slot of esp. *)
Definition pop_frame (esp : Z) (k : kstate (F := F)) : cpu :=
  let slot i := u32 (word k (esp + 4 * i)) in
  mkCpu (slot 7) (slot 4) (slot 6) (slot 5) (slot 1) (slot 0) (slot 2) (slot <$> seqZ 8 5).

Definition int80 (c : cpu) : SM cpu :=
  let* m := getM in
  let base := esp0 (procs m) - 52 in
  modM (fun m => set_procs (put_words base (frame_words base c) (procs m)) m) ;;;
  let* esp := syscall_handler font8x16 base in
  let* m := getM in
  retM (pop_frame esp (procs m)).

(** The inputs of the assembly: eax, then ebx, ecx, edx, esi and edi where the
    constraints name them. *)
Definition load (n : Z) (b c d S D : option Z) (k : cpu) : cpu :=
  mkCpu n (default (ebx k) b) (default (ecx k) c) (default (edx k) d) (default (esi k) S) (default (edi k) D) (ebp k) (trap k).
Definition call (n : Z) (b c d S D : option Z) (k : cpu) : SM (Z * cpu) :=
  let* k' := int80 (load n b c d S D k) in retM (eax k', k').

End stubs.

(** ** syscall.c *)

Module Stub.
Section calls.
Context {F : Type} `{FrameOps F} (font8x16 : list Z).
Local Abbreviation SM := (M (machine (F := F))).
Local Abbreviation call := (call font8x16).

Definition write_char (c : Z) : cpu -> SM (Z * cpu) := call SYS_WRITE_CHAR (Some (u32 (schar c))) None None None None.
Definition write_string (c : Z) : cpu -> SM (Z * cpu) := call SYS_WRITE_STR (Some c) None None None None.
Definition get_ticks (tick_out : Z) : cpu -> SM (Z * cpu) := call SYS_GET_TICKS (Some tick_out) None None None None.
Definition exit_curr : cpu -> SM (Z * cpu) := call SYS_EXIT None None None None None.
Definition read_char : cpu -> SM (Z * cpu) := call SYS_READ_CHAR None None None None None.
Definition yield : cpu -> SM (Z * cpu) := call SYS_YIELD None None None None None.
Definition write_char_color (c : Z) (color : Z) : cpu -> SM (Z * cpu) := call SYS_WRITE_CHAR_COLOR (Some (u32 (schar c))) (Some color) None None None.
Definition write_string_color (c : Z) (color : Z) : cpu -> SM (Z * cpu) := call SYS_WRITE_STR_COLOR (Some c) (Some color) None None None.
Definition read_chunk (fs : Z) (inode_n : Z) (chunk_num : Z) (buf : Z) : cpu -> SM (Z * cpu) := call SYS_READ_CHUNK (Some inode_n) (Some buf) (Some chunk_num) None (Some fs).
Definition resolve_dir (c : Z) (fs_out : Z) : cpu -> SM (Z * cpu) := call SYS_RESOLVE_DIR (Some c) None (Some fs_out) None None.
Definition write_string_len (buf : Z) (len : Z) : cpu -> SM (Z * cpu) := call SYS_WRITE_STR_LEN (Some buf) (Some len) None None None.
Definition get_stat (fs : Z) (inode_n : Z) (buf : Z) : cpu -> SM (Z * cpu) := call SYS_GET_STAT (Some inode_n) (Some buf) None None (Some fs).
Definition mkdir (fs : Z) (inode_n : Z) (name : Z) (fs_out : Z) : cpu -> SM (Z * cpu) := call SYS_MAKE_DIR (Some inode_n) (Some name) (Some fs_out) None (Some fs).
Definition rm_inode (fs : Z) (inode_n : Z) (name : Z) : cpu -> SM (Z * cpu) := call SYS_REMOVE_INODE (Some inode_n) (Some name) None None (Some fs).
Definition rm_dir (fs : Z) (inode_n : Z) (name : Z) : cpu -> SM (Z * cpu) := call SYS_REMOVE_DIR (Some inode_n) (Some name) None None (Some fs).
Definition get_screen_dims (row_out : Z) (col_out : Z) : cpu -> SM (Z * cpu) := call SYS_GET_SCREEN_DIMS (Some row_out) (Some col_out) None None None.
Definition set_cursor (row : Z) (col : Z) : cpu -> SM (Z * cpu) := call SYS_SET_CURSOR (Some row) (Some col) None None None.
Definition clear_screen : cpu -> SM (Z * cpu) := call SYS_CLEAR_SCREEN None None None None None.
Definition fsave (fs : Z) (inode_n : Z) (buf : Z) (f_size : Z) : cpu -> SM (Z * cpu) := call SYS_REPLACE_INODE (Some inode_n) (Some buf) (Some f_size) None (Some fs).
Definition touch (fs : Z) (inode_n : Z) (name : Z) (fs_out : Z) : cpu -> SM (Z * cpu) := call SYS_MAKE_INODE (Some inode_n) (Some name) (Some fs_out) None (Some fs).
Definition set_cursor_no_upd (row : Z) (col : Z) : cpu -> SM (Z * cpu) := call SYS_SET_CURSOR_NO_UPD (Some row) (Some col) None None None.
Definition write_char_no_upd (c : Z) : cpu -> SM (Z * cpu) := call SYS_WRITE_CHAR_NO_UPD (Some (u32 (schar c))) None None None None.
Definition write_string_no_upd (c : Z) : cpu -> SM (Z * cpu) := call SYS_WRITE_STR_NO_UPD (Some c) None None None None.
Definition write_string_len_no_upd (buf : Z) (len : Z) : cpu -> SM (Z * cpu) := call SYS_WRITE_STR_LEN_NO_UPD (Some buf) (Some len) None None None.
Definition set_scrollback (v : bool) : cpu -> SM (Z * cpu) := call SYS_SET_SCROLLBACK (Some (Z.b2z v)) None None None None.
Definition get_cursor (row : Z) (col : Z) : cpu -> SM (Z * cpu) := call SYS_GET_CURSOR (Some row) (Some col) None None None.
Definition get_epoch (epoch_out : Z) : cpu -> SM (Z * cpu) := call SYS_GET_EPOCH (Some epoch_out) None None None None.
Definition fmove (fs : Z) (old_parent_n : Z) (new_parent_n : Z) (old_name : Z) (new_name : Z) : cpu -> SM (Z * cpu) := call SYS_RENAME_INODE (Some old_parent_n) (Some old_name) (Some new_parent_n) (Some new_name) (Some fs).
Definition fappend (fs : Z) (inode_n : Z) (buf : Z) (f_size : Z) : cpu -> SM (Z * cpu) := call SYS_APPEND_TO_INODE (Some inode_n) (Some buf) (Some f_size) None (Some fs).
Definition lmake_hard (fs : Z) (inode_n : Z) (parent_fs : Z) (parent_n : Z) (name : Z) : cpu -> SM (Z * cpu) := call SYS_MAKE_LINK (Some inode_n) (Some name) (Some parent_n) (Some parent_fs) (Some fs).
Definition lmake_sym (fs : Z) (parent_n : Z) (name : Z) (target : Z) : cpu -> SM (Z * cpu) := call SYS_MAKE_SYMLINK (Some parent_n) (Some target) (Some name) None (Some fs).
Definition resolve_symlink (c : Z) (fs_out : Z) : cpu -> SM (Z * cpu) := call SYS_RESOLVE_SYMLINK (Some c) None (Some fs_out) None None.
Definition ftrunc (fs : Z) (inode_n : Z) (new_size : Z) : cpu -> SM (Z * cpu) := call SYS_TRUNCATE_INODE (Some inode_n) (Some new_size) None None (Some fs).
Definition is_mountpoint (fs : Z) (inode_n : Z) : cpu -> SM (Z * cpu) := call SYS_INODE_IS_MOUNTPOINT (Some fs) (Some inode_n) None None None.
Definition mount (name : Z) : cpu -> SM (Z * cpu) := call SYS_MOUNT_FS (Some name) None None None None.
Definition umount (name : Z) : cpu -> SM (Z * cpu) := call SYS_UMOUNT_FS (Some name) None None None None.
Definition halt : cpu -> SM (Z * cpu) := call SYS_HALT None None None None None.
End calls.
End Stub.

(** ** What a call leaves alone *)

Section preserve.
Context {F : Type} `{FrameOps F} (font8x16 : list Z).
Implicit Types m : machine (F := F).
Context (base : Z).

(** Of the kernel's words only the slot of eax has changed. *)
Definition stays m m' : Prop := forall a, a <> base + 4 * 7 -> word (procs m') a = word (procs m) a.

(** When [op] returns, only the slot of eax has changed, and the result is in [R]. *)
Definition framed {A} (R : A -> Prop) (op : M machine A) : Prop := forall m,
  match op m with Done a m' => stays m m' /\ R a | Halted _ _ => True end.

Lemma framed_ret {A} (R : A -> Prop) a : R a -> framed R (retM a).
Proof. by intros HR m. Qed.
Lemma framed_halt {A} (R : A -> Prop) h : framed R (haltM h).
Proof. by intros m. Qed.
Lemma framed_bind {A B} (Q : B -> Prop) op (k : A -> M machine B) :
  framed (fun _ => True) op -> (forall a, framed Q (k a)) -> framed Q (bindM op k).
Proof.
  intros H1 H2 m. unfold bindM. specialize (H1 m). destruct (op m) as [a m1|]; [|done]. destruct H1 as [H1 _].
  specialize (H2 a m1). destruct (k a m1) as [b m2|]; [|done]. destruct H2 as [H2 HR]. split; [|done]. intros x Hx. by rewrite H2, H1.
Qed.
Lemma framed_mod (f : machine -> machine) : (forall m, procs (f m) = procs m) -> framed (fun _ => True) (modM f).
Proof. intros Hf m. split; [|done]. intros a _. cbn. by rewrite Hf. Qed.
Lemma framed_get : framed (fun _ => True) getM.
Proof. by intros m. Qed.
Lemma framed_part {S A} (get : machine -> S) set (op : M S A) : (forall s m, procs (set s m) = procs m) -> framed (fun _ => True) (on_part get set op).
Proof. intros Hs m. unfold on_part. destruct (op (get m)); [|done]. split; [|done]. intros x _. by rewrite Hs. Qed.
Lemma framed_files {A} (op : FM A) : framed (fun _ => True) (on_files op).
Proof. by apply framed_part. Qed.
Lemma framed_screen {A} (op : FbM A) : framed (fun _ => True) (on_screen_of op).
Proof. by apply framed_part. Qed.
Lemma framed_frame i : framed (fun _ => True) (frame base i).
Proof. by intros m. Qed.
Lemma framed_read a n : framed (fun _ => True) (user_read a n).
Proof. by intros m. Qed.
Lemma framed_write a l : framed (fun _ => True) (user_write a l).
Proof. by intros m. Qed.
Lemma framed_answer v : framed (fun r => r = base) (answer base v).
Proof.
  intros m. split; [|done]. intros a Ha. cbn [answer bindM set_eax modM retM set_procs procs]. rewrite word_put.
  by rewrite (proj2 (Z.eqb_neq _ _)).
Qed.
Lemma framed_forM n i (body : Z -> M machine unit) : (forall j, framed (fun _ => True) (body j)) -> framed (fun _ => True) (forM n i body).
Proof. intros Hb. revert i. induction n as [|n IH]; intros i; cbn [forM]; [by apply framed_ret|]. by apply framed_bind. Qed.
Lemma framed_echo upd colr c : framed (fun _ => True) (echo font8x16 upd colr c).
Proof. unfold echo, serial_write_char. apply framed_bind; [by apply framed_mod|]. intros _. apply framed_screen. Qed.

Lemma framed_string body fuel s i : (forall c, framed (fun _ => True) (body c)) -> framed (fun _ => True) (string_loop body fuel s i).
Proof.
  intros Hb. revert i. induction fuel as [|fuel IH]; intros i; cbn [string_loop]; [apply framed_halt|].
  destruct (bad_byte _); [by apply framed_ret|]. apply framed_bind; [apply framed_read|]. intros c.
  destruct (_ =? 0); [by apply framed_ret|]. by apply framed_bind.
Qed.
Lemma framed_strings fuel a b i la lb : framed (fun _ => True) (strings_loop fuel a b i la lb).
Proof.
  revert i la lb. induction fuel as [|fuel IH]; intros i la lb; cbn [strings_loop]; [apply framed_halt|].
  destruct (_ || _); [by apply framed_ret|]. apply framed_bind; [apply framed_read|]. intros x.
  apply framed_bind; [apply framed_read|]. intros y. cbv zeta.
  destruct (match la with None => _ | _ => _ end), (match lb with None => _ | _ => _ end); try apply IH. by apply framed_ret.
Qed.

Ltac framed_step :=
  lazymatch goal with
  | |- framed _ (bindM _ _) => apply framed_bind; [|intros ?]
  | |- framed _ (retM _) => by apply framed_ret
  | |- framed _ (haltM _) => apply framed_halt
  | |- framed _ getM => apply framed_get
  | |- framed _ (frame _ _) => apply framed_frame
  | |- framed _ (on_files _) => apply framed_files
  | |- framed _ (on_screen_of _) => apply framed_screen
  | |- framed _ (answer _ _) => apply framed_answer
  | |- framed _ (refuse _) => apply framed_answer
  | |- framed _ (echo _ _ _ _) => apply framed_echo
  | |- framed _ (user_read _ _) => apply framed_read
  | |- framed _ (user_write _ _) => apply framed_write
  | |- framed _ (user_string _ _) => apply framed_string; intros ?
  | |- framed _ (string_length _) => apply framed_string; intros ?
  | |- framed _ (two_strings _ _) => apply framed_strings
  | |- framed _ (forM _ _ _) => apply framed_forM; intros ?
  | |- framed _ (modM _) => by apply framed_mod
  | |- framed _ (with_fs _ _ _) => unfold with_fs, fs_from_index
  | |- framed _ (get_inode_or _ _ _ _) => unfold get_inode_or
  | |- framed _ (read_chunk_at _ _ _ _ _ _) => unfold read_chunk_at
  | |- framed _ (resolve_dir _ _) => unfold resolve_dir
  | |- framed _ (if ?b then _ else _) => destruct b
  | |- framed _ (match ?x with _ => _ end) => destruct x
  end.

(** Every handler but those that leave the process. *)
Lemma framed_table : Forall (fun h => framed (fun r => r = base) (h base))
  (take 3 (syscall_table (F := F) font8x16) ++ take 1 (drop 4 (syscall_table font8x16)) ++ drop 6 (syscall_table font8x16)).
Proof.
  cbn [syscall_table take drop app]. repeat (apply Forall_cons_2); [..|apply Forall_nil_2].
  all: unfold sys_write_char, sys_write_char_no_upd, sys_write_char_color, sys_write_string, sys_write_string_no_upd,
    sys_write_string_color, write_string, sys_write_string_len, sys_write_string_len_no_upd, write_string_len, sys_read_char,
    sys_get_screen_dims, sys_get_cursor, sys_set_cursor, sys_set_cursor_no_upd, sys_clear_screen, sys_set_scrollback,
    sys_get_ticks, sys_get_epoch, out64, sys_read_chunk, sys_resolve_dir, sys_resolve_symlink, resolve, sys_get_stat, sys_make_dir,
    sys_make_inode, sys_make, sys_remove_inode, sys_remove_dir, sys_remove, sys_replace_inode, sys_append_to_inode,
    sys_truncate_inode, sys_rename_inode, sys_link_inode, sys_make_symlink, sys_inode_is_mountpoint, sys_mount_fs,
    sys_umount_fs, mount_call, sys_halt.
  all: repeat (framed_step; cbv beta zeta).
Qed.

Lemma framed_handlers n h : syscall_table (F := F) font8x16 !! n = Some h -> n <> 3%nat -> n <> 5%nat -> framed (fun r => r = base) (h base).
Proof.
  intros Hn H3 H5. pose proof framed_table as [Ha [Hb Hc]%Forall_app]%Forall_app.
  destruct (decide (n < 3)%nat); [|destruct (decide (n = 4)%nat) as [->|]].
  - apply (proj1 (Forall_lookup _ _) Ha n). by rewrite lookup_take_lt.
  - apply (proj1 (Forall_lookup _ _) Hb 0%nat). rewrite lookup_take_lt by lia. by rewrite lookup_drop.
  - apply (proj1 (Forall_lookup _ _) Hc (n - 6)%nat). rewrite lookup_drop. by replace (6 + (n - 6))%nat with n by lia.
Qed.

Lemma framed_handler m r m' : (forall a, u32 (word (procs m) (base + 4 * 7)) = a -> a <> SYS_EXIT /\ a <> SYS_YIELD) ->
  syscall_handler font8x16 base m = Done r m' -> stays m m' /\ r = base.
Proof.
  intros Ha. unfold syscall_handler. rewrite frame_step. set (n := u32 _). destruct (Ha n eq_refl) as [H4 H6]. unfold SYS_EXIT, SYS_YIELD in *.
  destruct (_ || _) eqn:Eb.
  - intros E. pose proof (framed_answer SYSCALL_ERROR m) as Hf. unfold refuse in E. by rewrite E in Hf.
  - destruct (syscall_table font8x16 !! _) as [h|] eqn:Et; [|done]. intros E.
    pose proof (framed_handlers _ h Et ltac:(lia) ltac:(lia) m) as Hf. by rewrite E in Hf.
Qed.
End preserve.

Section calls_kept.
Context {F : Type} `{FrameOps F} (font8x16 : list Z).
Implicit Types m : machine (F := F).

Lemma put_words_in l a (k : kstate (F := F)) i v : l !! i = Some v -> word (put_words a l k) (a + 4 * Z.of_nat i) = v.
Proof.
  assert (forall l a x (k : kstate (F := F)), x < a -> word (put_words a l k) x = word k x) as Hlow.
  { clear. intros l. induction l as [|v l IH]; intros a x k Hx; [done|]. cbn [put_words]. rewrite IH by lia. rewrite word_put.
    by rewrite (proj2 (Z.eqb_neq _ _)) by lia. }
  revert a k i. induction l as [|x l IH]; intros a k i Hi; [done|]. cbn [put_words]. destruct i as [|i].
  - injection Hi as ->. rewrite Hlow by lia. rewrite word_put. by rewrite (proj2 (Z.eqb_eq _ _)) by lia.
  - replace (a + 4 * Z.of_nat (S i)) with (a + 4 + 4 * Z.of_nat i) by lia. by apply IH.
Qed.
(** The machine when [syscall_handler] is called. *)
Definition entered (c : cpu) m : machine :=
  let base := esp0 (procs m) - 52 in set_procs (put_words base (frame_words base c) (procs m)) m.

Lemma int80_step c m : int80 font8x16 c m =
  match syscall_handler font8x16 (esp0 (procs m) - 52) (entered c m) with
  | Done esp m' => Done (pop_frame esp (procs m')) m'
  | Halted h m' => Halted h m'
  end.
Proof. reflexivity. Qed.

Lemma entered_slot c m i v : frame_words (esp0 (procs m) - 52) c !! Z.to_nat i = Some v -> 0 <= i ->
  word (procs (entered c m)) (esp0 (procs m) - 52 + 4 * i) = v.
Proof. intros Hv Hi. rewrite <- (Z2Nat.id i) at 1 by done. by apply put_words_in. Qed.

Lemma u32_of x : is_u32 x -> u32 x = x.
Proof. intros. by apply Z.mod_small. Qed.

(** The frame popped from a machine that still holds the frame pushed. *)
Lemma pop_frame_same c m (k : kstate (F := F)) : cpu_ok c ->
  (forall a, esp0 (procs m) - 52 <= a < esp0 (procs m) -> a <> esp0 (procs m) - 52 + 4 * 7 -> word k a = word (procs (entered c m)) a) ->
  pop_frame (esp0 (procs m) - 52) k = with_eax (eax (pop_frame (esp0 (procs m) - 52) k)) c.
Proof.
  intros (_ & Hb & Hc & Hd & HS & HD & Hp & Ht & Hl) Hk. set (base := esp0 (procs m) - 52) in *.
  assert (forall i v, 0 <= i < 13 -> i <> 7 -> frame_words base c !! Z.to_nat i = Some v -> is_u32 v -> u32 (word k (base + 4 * i)) = v) as Hs.
  { intros i v Hi H7 Hv Hu. rewrite Hk by lia. unfold base. rewrite (entered_slot c m i v) by (done || lia). by apply u32_of. }
  unfold pop_frame, with_eax. cbn [eax].
  rewrite (Hs 0 (edi c)), (Hs 1 (esi c)), (Hs 2 (ebp c)), (Hs 4 (ebx c)), (Hs 5 (edx c)), (Hs 6 (ecx c)) by (done || lia). f_equal.
  destruct (trap c) as [|t0 [|t1 [|t2 [|t3 [|t4 [|]]]]]] eqn:Et; try done.
  rewrite !Forall_cons in Ht. destruct Ht as (? & ? & ? & ? & ? & _).
  assert (forall i v, (i < 5)%nat -> [t0; t1; t2; t3; t4] !! i = Some v -> is_u32 v -> u32 (word k (base + 4 * (8 + Z.of_nat i))) = v) as Hr.
  { intros i v Hi Hv Hu. apply Hs; [lia|lia| |done]. unfold frame_words. rewrite Et. rewrite lookup_app_r by (cbn; lia). rewrite <- Hv. f_equal. cbn. lia. }
  change (seqZ 8 5) with [8; 9; 10; 11; 12]. cbn [fmap list_fmap].
  rewrite (Hr 0%nat t0 ltac:(lia) eq_refl ltac:(done) : u32 (word k (base + 4 * 8)) = t0).
  rewrite (Hr 1%nat t1 ltac:(lia) eq_refl ltac:(done) : u32 (word k (base + 4 * 9)) = t1).
  rewrite (Hr 2%nat t2 ltac:(lia) eq_refl ltac:(done) : u32 (word k (base + 4 * 10)) = t2).
  rewrite (Hr 3%nat t3 ltac:(lia) eq_refl ltac:(done) : u32 (word k (base + 4 * 11)) = t3).
  by rewrite (Hr 4%nat t4 ltac:(lia) eq_refl ltac:(done) : u32 (word k (base + 4 * 12)) = t4).
Qed.

Lemma entered_number c m : is_u32 (eax c) -> u32 (word (procs (entered c m)) (esp0 (procs m) - 52 + 4 * 7)) = eax c.
Proof. intros Hu. rewrite (entered_slot c m 7 (eax c)) by done. by apply u32_of. Qed.

Lemma put_words_rest l a (k : kstate (F := F)) : kqueue (put_words a l k) = kqueue k /\ current (put_words a l k) = current k.
Proof. revert a k. induction l as [|v l IH]; intros a k; cbn [put_words]; [done|]. by destruct (IH (a + 4) (put_word a v k)) as [-> ->]. Qed.
Lemma entered_rest c m : kqueue (procs (entered c m)) = kqueue (procs m) /\ current (procs (entered c m)) = current (procs m).
Proof. apply put_words_rest. Qed.

(** A switch to another process stores the frame's address in the process that
    yields, and no other word. *)
Lemma schedule_saves esp (k : kstate (F := F)) : PQueue.pqueue_is_empty (kqueue k) = false ->
  (forall a, word (schedule esp k).2 a = if a =? current k then esp else word k a) /\
  (schedule esp k).1 = p_esp (schedule esp k).2 (current (schedule esp k).2).
Proof.
  intros Hq. unfold schedule. rewrite Hq. cbv zeta. destruct (PQueue.pqueue_pop _) as [p q]. cbn [fst snd]. split; [|done].
  intros a. unfold enter_current. rewrite <- word_put. by destruct (negb _).
Qed.

(** The program's own call of [yield]. *)
Lemma yield_step c m : eax c = SYS_YIELD -> cpu_ok c ->
  syscall_handler font8x16 (esp0 (procs m) - 52) (entered c m) =
    let k := put_word (esp0 (procs m) - 52 + 4 * 7) 0 (procs (entered c m)) in
    let (r, k') := schedule (esp0 (procs m) - 52) k in Done r (set_procs k' (entered c m)).
Proof.
  intros He Hc. pose proof Hc as (Hu & _). unfold syscall_handler. rewrite frame_step, entered_number, He by done.
  change (_ || _) with false. change (syscall_table font8x16 !! Z.to_nat (SYS_YIELD - 1)) with (Some (sys_yield (F := F))).
  unfold sys_yield, set_eax, bindM, getM, modM, retM. cbn [procs set_procs]. by destruct (schedule _ _) as [r k'].
Qed.

Lemma yield_returns c m : eax c = SYS_YIELD -> cpu_ok c -> PQueue.pqueue_is_empty (kqueue (procs m)) = false ->
  exists c' m', int80 font8x16 c m = Done c' m' /\
    current (procs m') = (PQueue.pqueue_pop (PQueue.pqueue_push (kqueue (procs m)) (current (procs m))).2).1.
Proof.
  intros He Hc Hq. rewrite int80_step, yield_step by done. destruct (entered_rest c m) as [Eq Ecur]. cbv zeta. unfold schedule.
  cbn [kqueue put_word set_kheap current]. rewrite Eq, Ecur, Hq. cbn [kqueue set_kqueue current].
  destruct (PQueue.pqueue_pop _) as [p q]. eexists _, _. split; [reflexivity|]. cbn [procs set_procs fst]. unfold enter_current. by destruct (negb _).
Qed.

(** The process that calls is not inside the frame. *)
Definition apart m : Prop := current (procs m) < esp0 (procs m) - 52 \/ esp0 (procs m) <= current (procs m).

Lemma yield_kept c m (k : kstate (F := F)) : cpu_ok c -> 
  (forall a, esp0 (procs m) - 52 <= a < esp0 (procs m) -> word k a = word (put_word (esp0 (procs m) - 52 + 4 * 7) 0 (procs (entered c m))) a) ->
  pop_frame (esp0 (procs m) - 52) k = with_eax 0 c.
Proof.
  intros Hc Hk. rewrite (pop_frame_same c m k Hc).
  - f_equal. unfold pop_frame. cbn [eax]. rewrite Hk by lia. by rewrite word_put, Z.eqb_refl.
  - intros a Ha H7. rewrite Hk by done. rewrite word_put. by rewrite (proj2 (Z.eqb_neq _ _)).
Qed.

(** C26. A system call changes no register but eax.  For every number but those of
    exit and yield, whatever the state, a call that returns resumes the program
    where it was, with every other register and the words of its stack frame as
    they were; so does yield, with eax 0, when no other process is ready.  When one
    is, yield resumes that process instead, with the registers of the frame it
    left, and what it saves for the caller is the caller's frame: whoever resumes
    it from there gives it back every register, with eax 0. *)
Theorem int80_preserves (c c' : cpu) m m' : cpu_ok c -> apart m -> eax c <> SYS_EXIT -> int80 font8x16 c m = Done c' m' ->
  (eax c <> SYS_YIELD -> c' = with_eax (eax c') c) /\
  (eax c = SYS_YIELD -> PQueue.pqueue_is_empty (kqueue (procs m)) = true -> c' = with_eax 0 c) /\
  (eax c = SYS_YIELD -> PQueue.pqueue_is_empty (kqueue (procs m)) = false ->
    c' = pop_frame (p_esp (procs m') (current (procs m'))) (procs m') /\
    pop_frame (p_esp (procs m') (current (procs m))) (procs m') = with_eax 0 c).
Proof.
  intros Hc Hp H4. rewrite int80_step. pose proof Hc as (Hu & _). destruct (entered_rest c m) as [Eq Ecur].
  destruct (decide (eax c = SYS_YIELD)) as [H6|H6].
  - rewrite yield_step by done. cbv zeta. set (k := put_word _ 0 _). intros E.
    destruct (schedule _ k) as [r k'] eqn:Es. injection E as <- <-. cbn [procs set_procs].
    split; [done|]. split; intros _ Hq.
    + unfold schedule in Es. change (kqueue k) with (kqueue (procs (entered c m))) in Es. rewrite Eq, Hq in Es. injection Es as <- <-.
      by apply yield_kept.
    + destruct (schedule_saves (esp0 (procs m) - 52) k) as [Hw Hr]; [by change (kqueue k) with (kqueue (procs (entered c m))); rewrite Eq|].
      rewrite Es in Hw, Hr. cbn [fst snd] in Hw, Hr. change (current k) with (current (procs (entered c m))) in Hw. rewrite Ecur in Hw.
      split; [by rewrite Hr|]. unfold p_esp. rewrite Hw, Z.eqb_refl. apply yield_kept; [done|]. intros a Ha. rewrite Hw.
      by rewrite (proj2 (Z.eqb_neq _ _)) by (unfold apart in Hp; lia).
  - destruct (syscall_handler font8x16 _ _) as [esp m1|] eqn:E; [|done]. intros [= <- <-].
    apply framed_handler in E as [Hst ->]; [|intros a <-; rewrite entered_number by done; done].
    split; [intros _; apply pop_frame_same; [done|]; intros a _; apply Hst|]. split; done.
Qed.

(** ** Calls from end to end *)

(** A call that reaches [h] and is answered with [v]. *)
Lemma call_answers n b c d S D k m (h : Z -> M (machine (F := F)) Z) v m1 : cpu_ok (load n b c d S D k) -> 1 <= n <= 37 -> syscall_table font8x16 !! Z.to_nat (n - 1) = Some h ->
  (forall a, a <> esp0 (procs m) - 52 + 4 * 7 -> word (procs m1) a = word (procs (entered (load n b c d S D k) m)) a) -> is_u32 v ->
  h (esp0 (procs m) - 52) (entered (load n b c d S D k) m) = answer (esp0 (procs m) - 52) v m1 ->
  call font8x16 n b c d S D k m =
    Done (v, with_eax v (load n b c d S D k)) (set_procs (put_word (esp0 (procs m) - 52 + 4 * 7) v (procs m1)) m1).
Proof.
  intros Hc Hn Ht Hk Hv Hh. unfold call, bindM. rewrite int80_step. pose proof Hc as (Hu & _).
  assert (syscall_handler font8x16 (esp0 (procs m) - 52) (entered (load n b c d S D k) m) = answer (esp0 (procs m) - 52) v m1) as ->.
  { unfold syscall_handler. rewrite frame_step, entered_number by done. cbn [eax load].
    replace (Z.of_nat (length (syscall_table font8x16)) <? n) with false by (symmetry; apply Z.ltb_ge; cbn; lia).
    rewrite (proj2 (Z.ltb_ge n 1)) by lia. cbn [orb]. by rewrite Ht. }
  set (base := esp0 (procs m) - 52) in *. set (k1 := put_word (base + 4 * 7) v (procs m1)).
  assert (pop_frame base k1 = with_eax v (load n b c d S D k)) as Hp.
  { unfold base. rewrite (pop_frame_same (load n b c d S D k) m k1) by (first [done|intros a _ Ha; unfold k1; rewrite word_put; rewrite (proj2 (Z.eqb_neq _ _)) by done; by apply Hk]).
    f_equal. unfold pop_frame. cbn [eax]. unfold k1. rewrite word_put, Z.eqb_refl. by apply u32_of. }
  cbn [answer set_eax bindM modM retM procs set_procs]. unfold answer, set_eax, bindM, modM, retM. cbn [procs set_procs]. fold k1. by rewrite Hp.
Qed.

(** Only [touched] differs. *)
Definition same_parts m m' : Prop :=
  procs m' = procs m /\ files m' = files m /\ g_rb m' = g_rb m /\ screen m' = screen m /\ clock m' = clock m /\ serial m' = serial m.

Lemma length_loop s x fuel i m : 0 <= i -> KERNEL_CEILING <= s -> user_cstring m (s + i) x -> (length x < fuel)%nat ->
  exists m', string_loop (fun _ => retM tt) fuel s i m = Done (Some (i + Z.of_nat (length x))) m' /\ same_parts m m'.
Proof.
  revert fuel i m. induction x as [|c x IH]; intros fuel i m Hi Hs [Hb Hr Hm He] Hfu;
    (destruct fuel as [|fuel]; [lia|]); cbn [string_loop]; pose proof user_end;
    (assert (u32 (s + i) = s + i) as -> by (unfold u32; apply Z.mod_small; simpl in Hr; lia));
    (assert (bad_byte (s + i) = false) as -> by (unfold bad_byte; simpl in Hr; lia));
    rewrite read_step, (seqZ_cons (s + i) 1) by lia; cbn [fmap list_fmap lookup_total list_lookup_total].
  - simpl in He. rewrite Z.add_0_r in He |- *. rewrite He. by eexists.
  - pose proof (Hm 0%nat c eq_refl) as Hc. rewrite Z.add_0_r in Hc. rewrite Hc.
    inversion Hb as [|? ? Hc0 Hb']; subst. rewrite (proj2 (Z.eqb_neq _ 0)) by lia.
    assert (u32 (i + 1) = i + 1) as Ei by (unfold u32; apply Z.mod_small; simpl in Hr; lia).
    change (bindM (retM tt) ?f ?t) with (f tt t). cbv beta. rewrite Ei.
    destruct (IH fuel (i + 1) (touch (s + i) 1 m)) as (m2 & E2 & P2); [lia|done| |simpl in Hfu; lia|].
    { split; [done|simpl in Hr; lia| |].
      - intros k c Hkc. cbn. rewrite <- (Hm (S k) c Hkc). f_equal. lia.
      - cbn. rewrite <- He. f_equal. simpl. lia. }
    exists m2. split; [rewrite E2; do 2 f_equal; simpl; lia|]. exact P2.
Qed.

Lemma read_cstring m s x : user_cstring m s x -> umem (procs m) <$> seqZ s (Z.of_nat (length x) + 1) = x ++ [0].
Proof.
  intros [_ _ Hm He]. apply list_eq. intros i. rewrite list_lookup_fmap. destruct (decide (i < length x)%nat) as [Hi|Hi].
  - rewrite lookup_seqZ_lt by lia. rewrite lookup_app_l by done. destruct (lookup_lt_is_Some_2 x i Hi) as [c Hc]. rewrite Hc. cbn. f_equal. by apply Hm.
  - destruct (decide (i = length x)) as [->|Hne].
    + rewrite lookup_seqZ_lt by lia. rewrite lookup_app_r, Nat.sub_diag by lia. cbn. by f_equal.
    + rewrite lookup_seqZ_ge by lia. rewrite lookup_app_r by lia. symmetry. apply lookup_ge_None_2. cbn. lia.
Qed.

Lemma put_words_umem l a (k : kstate (F := F)) : umem (put_words a l k) = umem k.
Proof. revert a k. induction l as [|v l IH]; intros a k; [done|]. cbn [put_words]. by rewrite IH. Qed.

Lemma entered_umem c m : umem (procs (entered c m)) = umem (procs m).
Proof. apply put_words_umem. Qed.

(** Looking up a path from a user program: the stub, the boundary and the file
    system together. *)
Lemma resolve_spec follow c m s fs_out x res f' : cpu_ok c -> ebx c = s -> edx c = fs_out ->
  user_cstring m s x -> bad_object fs_out 4 = false ->
  lookup_path (root_fs (files m)) (x ++ [0]) follow (at_time (clock m) (files m)) = Done res f' ->
  (forall fs ino, res = Some (fs, ino) -> 0 <= ino < SYSCALL_ERROR) ->
  exists m1, resolve follow (esp0 (procs m) - 52) (entered c m) =
      answer (esp0 (procs m) - 52) (match res with Some (_, ino) => ino | None => SYSCALL_ERROR end) m1 /\
    (forall a, word (procs m1) a = word (procs (entered c m)) a) /\ files m1 = f' /\ screen m1 = screen m /\ serial m1 = serial m /\
    umem (procs m1) = match res with
                      | Some (fs, _) => fun a => if (fs_out <=? a) && (a <? fs_out + 4) then le_bytes 4 fs !!! Z.to_nat (a - fs_out) else umem (procs m) a
                      | None => umem (procs m)
                      end.
Proof.
  intros Hc Eb Ed Hx Hf Hl Hino. pose proof Hc as (_ & Hub & _ & Hud & _). subst s fs_out. set (s := ebx c) in *. set (fs_out := edx c) in *.
  unfold resolve. rewrite !frame_step.
  rewrite (entered_slot c m 4 s), (entered_slot c m 5 fs_out) by done. rewrite !u32_of by done. rewrite Hf.
  assert (user_cstring (entered c m) (s + 0) x) as Hx0 by (rewrite Z.add_0_r; destruct Hx; by split; rewrite ?entered_umem).
  destruct (us_range _ _ _ Hx) as [Hr1 Hr2].
  destruct (length_loop s x (string_fuel s) 0 (entered c m)) as (m1 & E1 & (P1 & P2 & P3 & P4 & P5 & P6)); [done|done|done|unfold string_fuel; lia|].
  unfold Syscall.resolve_dir, string_length, user_string.
  assert (forall B (k : Z * Z -> M machine B), bindM (let* r := string_loop (fun _ => retM tt) (string_fuel s) s 0 in
     match r with None => retM (SYSCALL_ERROR, 0) | Some len =>
       let* path := user_read s (len + 1) in let* m0 := getM in
       let* r0 := on_files (lookup_path (root_fs (files m0)) path follow) in
       match r0 with None => retM (SYSCALL_ERROR, 0) | Some (fs, ino) => retM (ino, fs) end end) k (entered c m) =
     k (match res with Some (fs, ino) => (ino, fs) | None => (SYSCALL_ERROR, 0) end) (set_files f' (touch s (Z.of_nat (length x) + 1) m1))) as Hrun.
  { intros B k. unfold bindM at 1 2. rewrite E1. rewrite Z.add_0_l, read_step. rewrite P1, entered_umem, (read_cstring m s x Hx).
    unfold bindM, getM, on_files, on_part. cbn [files clock touch]. rewrite P2, P5. cbn [files clock entered set_procs]. rewrite Hl. by destruct res as [[fs ino]|]. }
  rewrite Hrun. clear Hrun. destruct res as [[fs ino]|].
  - specialize (Hino fs ino eq_refl). rewrite (proj2 (Z.eqb_neq ino _)) by lia. cbn [negb]. eexists. split; [reflexivity|]. cbn. rewrite P1, P4, P6.
    repeat split. by rewrite entered_umem.
  - rewrite Z.eqb_refl. cbn [negb]. eexists. split; [reflexivity|]. cbn. rewrite P1, P4, P6. repeat split. by rewrite entered_umem.
Qed.

(** C18. A path looked up by a program: the functions resolve_dir and
    resolve_symlink of the user library, through the interrupt and the checks of
    the boundary, return the inode that [lookup_path] gives for exactly the
    bytes of the program's string (or the error number), store its file system
    where the program asked, and change no other byte of its memory and no
    register but eax. *)
Theorem resolve_stub_correct (follow : bool) (k : cpu) m (s fs_out : Z) (x : list Z) res f' :
  cpu_ok k -> is_u32 s -> is_u32 fs_out -> user_cstring m s x -> bad_object fs_out 4 = false ->
  lookup_path (root_fs (files m)) (x ++ [0]) follow (at_time (clock m) (files m)) = Done res f' ->
  (forall fs ino, res = Some (fs, ino) -> 0 <= ino < SYSCALL_ERROR) ->
  let v := match res with Some (_, ino) => ino | None => SYSCALL_ERROR end in
  exists k' m', (if follow then Stub.resolve_dir font8x16 s fs_out k else Stub.resolve_symlink font8x16 s fs_out k) m = Done (v, k') m' /\
    ecx k' = ecx k /\ esi k' = esi k /\ edi k' = edi k /\ ebp k' = ebp k /\ trap k' = trap k /\
    files m' = f' /\ screen m' = screen m /\ serial m' = serial m /\
    umem (procs m') = match res with
                      | Some (fs, _) => fun a => if (fs_out <=? a) && (a <? fs_out + 4) then le_bytes 4 fs !!! Z.to_nat (a - fs_out) else umem (procs m) a
                      | None => umem (procs m)
                      end.
Proof.
  intros Hk Hs Hf Hx Hb Hl Hino v. set (n := if follow then SYS_RESOLVE_DIR else SYS_RESOLVE_SYMLINK).
  set (c := load n (Some s) None (Some fs_out) None None k).
  assert (cpu_ok c) as Hc. { destruct Hk as (_ & _ & ? & _ & ? & ? & ? & ? & ?). split; [unfold c, n; by destruct follow|]. do 7 (split; [done|]). done. }
  destruct (resolve_spec follow c m s fs_out x res f') as (m1 & E & Hw & P1 & P2 & P3 & P4); [done..|].
  assert (is_u32 v) as Hv. { unfold v, is_u32. destruct res as [[fs ino]|]; [|done]. specialize (Hino fs ino eq_refl). unfold SYSCALL_ERROR in Hino. lia. }
  assert (call font8x16 n (Some s) None (Some fs_out) None None k m =
            Done (v, with_eax v c) (set_procs (put_word (esp0 (procs m) - 52 + 4 * 7) v (procs m1)) m1)) as Hcall.
  { apply (call_answers n _ _ _ _ _ k m (resolve follow)); [done|unfold n; by destruct follow|unfold n; by destruct follow|by intros|done|done]. }
  exists (with_eax v c), (set_procs (put_word (esp0 (procs m) - 52 + 4 * 7) v (procs m1)) m1). split; [|done].
  unfold n in Hcall. destruct follow; exact Hcall.
Qed.

Lemma read_char_returns c m : is_u32 (eax c) -> eax c = SYS_READ_CHAR -> exists c' m', int80 font8x16 c m = Done c' m'.
Proof.
  intros Hu E. rewrite int80_step. unfold syscall_handler. rewrite frame_step, entered_number by done. rewrite E.
  change (syscall_table font8x16 !! Z.to_nat (SYS_READ_CHAR - 1)) with (Some (sys_read_char (F := F))).
  change (_ || _) with false. cbv iota. unfold sys_read_char, answer, set_eax, bindM, getM, modM, retM.
  destruct (rb_pop _). by eexists _, _.
Qed.

(** The bytes a program saves. *)
Lemma replace_spec c m fs ino buf size f r f' : cpu_ok c -> edi c = fs -> ebx c = ino -> ecx c = buf -> edx c = size ->
  bad_buffer buf size = false -> 0 <= fs < MAX_MOUNTS ->
  get_fs fs (at_time (clock m) (files m)) = Done f (at_time (clock m) (files m)) -> fs = root_fs (files m) \/ mountpoint f <> 0 ->
  replace_inode fs ino (umem (procs m) <$> seqZ buf size) size (at_time (clock m) (files m)) = Done r f' ->
  exists m1, sys_replace_inode (esp0 (procs m) - 52) (entered c m) =
      answer (esp0 (procs m) - 52) (if r.1 =? INODE_WRITE_SUCCESS then 0 else SYSCALL_ERROR) m1 /\
    procs m1 = procs (entered c m) /\ files m1 = f'.
Proof.
  intros Hc E1 E2 E3 E4 Hb Hfs Hg Hmt Hr. pose proof Hc as (_ & Hu2 & Hu3 & Hu4 & _ & Hu1 & _). subst fs ino buf size.
  unfold sys_replace_inode. rewrite !frame_step.
  rewrite (entered_slot c m 4 (ebx c)), (entered_slot c m 6 (ecx c)), (entered_slot c m 5 (edx c)) by done. rewrite !u32_of by done. rewrite Hb.
  unfold with_fs. rewrite frame_step, (entered_slot c m 0 (edi c)) by done. rewrite u32_of by done.
  assert (forall B (g : option Z -> M machine B), bindM (fs_from_index (edi c)) g (entered c m) =
            g (Some (edi c)) (set_files (at_time (clock m) (files m)) (entered c m))) as Hix.
  { intros B g. unfold fs_from_index. rewrite (proj2 (Z.leb_gt _ _)) by lia. unfold bindM, getM, on_files, on_part, retM. cbn [files clock entered set_procs].
    rewrite Hg. cbn [files set_files]. change (root_fs (at_time (clock m) (files m))) with (root_fs (files m)).
    destruct (Z.eqb_spec (edi c) (root_fs (files m))), (Z.eqb_spec (mountpoint f) 0); try done. by destruct Hmt. }
  rewrite Hix. rewrite read_step. cbn [procs set_files]. rewrite entered_umem.
  assert (forall B (g : Z * option ext2_inode -> M (machine (F := F)) B) t, files t = at_time (clock m) (files m) -> clock t = clock m ->
            bindM (on_files (replace_inode (edi c) (ebx c) (umem (procs m) <$> seqZ (ecx c) (edx c)) (edx c))) g t = g r (set_files f' t)) as Hrun.
  { intros B g t Ef Ec. unfold bindM, on_files, on_part. rewrite Ef, Ec. change (at_time (clock m) (at_time (clock m) (files m))) with (at_time (clock m) (files m)).
    by rewrite Hr. }
  rewrite Hrun by done. destruct (r.1 =? INODE_WRITE_SUCCESS); cbn [negb]; eexists; (split; [reflexivity|done]).
Qed.

(** Saving from a program: [replace_inode] gets exactly the [f_size] bytes the
    program holds at [buf], and the answer says whether it succeeded. *)
Lemma fsave_stub_correct (k : cpu) m (fs ino buf f_size : Z) f r f' :
  cpu_ok k -> is_u32 fs -> is_u32 ino -> is_u32 buf -> is_u32 f_size -> bad_buffer buf f_size = false -> 0 <= fs < MAX_MOUNTS ->
  get_fs fs (at_time (clock m) (files m)) = Done f (at_time (clock m) (files m)) -> fs = root_fs (files m) \/ mountpoint f <> 0 ->
  replace_inode fs ino (umem (procs m) <$> seqZ buf f_size) f_size (at_time (clock m) (files m)) = Done r f' ->
  exists k' m', Stub.fsave font8x16 fs ino buf f_size k m =
      Done (if r.1 =? INODE_WRITE_SUCCESS then 0 else SYSCALL_ERROR, k') m' /\ files m' = f' /\ umem (procs m') = umem (procs m).
Proof.
  intros Hk H1 H2 H3 H4 Hb Hfs Hg Hmt Hr. set (c := load SYS_REPLACE_INODE (Some ino) (Some buf) (Some f_size) None (Some fs) k).
  assert (cpu_ok c) as Hc. { destruct Hk as (_ & _ & _ & _ & ? & _ & ? & ? & ?). split; [done|]. do 7 (split; [done|]). done. }
  destruct (replace_spec c m fs ino buf f_size f r f') as (m1 & E & P & Ef); [done..|].
  set (v := if r.1 =? INODE_WRITE_SUCCESS then 0 else SYSCALL_ERROR) in *. assert (is_u32 v) as Hv by (unfold v; by case_match).
  pose proof (call_answers SYS_REPLACE_INODE (Some ino) (Some buf) (Some f_size) None (Some fs) k m sys_replace_inode v m1 Hc) as Hcall.
  exists (with_eax v c), (set_procs (put_word (esp0 (procs m) - 52 + 4 * 7) v (procs m1)) m1).
  split; [apply Hcall; [done|done|intros a _; by rewrite P|done|done]|]. split; [done|]. cbn. rewrite P. apply entered_umem.
Qed.

End calls_kept.

(** A program that holds the path of the root directory. *)
Definition path_machine : machine :=
  mkMachine
    (mkK (mkHeap HEAP_START (HEAP_START + 4096) (fun _ => 0) empty_dir)
       (PQueue.mkPq (replicate 256 0) 0 0) 0 0x30001000 [] (fun a => if a =? 0x40000000 then 47 else if a =? 0x40000001 then 46 else 0))
    RootDir.state (mkRb (replicate 256 0) 0 0) demo_screen (Timer.mkTimer 0 0) [] [].
Definition start_cpu : cpu := mkCpu 0 1 2 3 4 5 6 [0x40000100; 0x1B; 0x202; 0x40200000; 0x23].

Lemma start_cpu_ok n : is_u32 n -> cpu_ok (with_eax n start_cpu).
Proof. intros Hn. split; [done|]. do 6 (split; [done|]). split; [repeat (apply Forall_cons_2; [done|]); apply Forall_nil_2|done]. Qed.

(** The same program, with another process ready. *)
Definition shared_machine : machine :=
  set_procs (set_kqueue (PQueue.pqueue_push (kqueue (procs path_machine)) 0x30002000).2 (procs path_machine)) path_machine.

Lemma shared_apart : apart shared_machine.
Proof. unfold apart. cbn. lia. Qed.
Lemma yield_switches : exists c' m', int80 demo_font (with_eax SYS_YIELD start_cpu) shared_machine = Done c' m' /\ current (procs m') = 0x30002000.
Proof. apply (yield_returns demo_font (with_eax SYS_YIELD start_cpu) shared_machine eq_refl (start_cpu_ok SYS_YIELD ltac:(done)) eq_refl). Qed.

Lemma int80_preserves_witness :
  (exists c' m', int80 demo_font (with_eax SYS_READ_CHAR start_cpu) path_machine = Done c' m' /\ c' = with_eax (eax c') start_cpu) /\
  (exists c' m', int80 demo_font (with_eax SYS_YIELD start_cpu) shared_machine = Done c' m' /\
     current (procs m') = 0x30002000 /\ pop_frame (p_esp (procs m') 0) (procs m') = with_eax 0 start_cpu).
Proof.
  split.
  - destruct (read_char_returns demo_font (with_eax SYS_READ_CHAR start_cpu) path_machine ltac:(done) ltac:(done)) as (c' & m' & E).
    exists c', m'. split; [exact E|].
    refine (proj1 (int80_preserves demo_font _ c' _ m' (start_cpu_ok SYS_READ_CHAR ltac:(done)) _ ltac:(done) E) ltac:(done)).
    unfold apart. cbn. lia.
  - destruct yield_switches as (c' & m' & E & Ec). exists c', m'. split; [exact E|]. split; [exact Ec|].
    exact (proj2 (proj2 (proj2 (int80_preserves demo_font _ c' _ m' (start_cpu_ok SYS_YIELD ltac:(done)) shared_apart ltac:(done) E)) eq_refl eq_refl)).
Defined.

Lemma resolve_stub_correct_witness : exists k' m', Stub.resolve_dir demo_font 0x40000000 0x40000010 start_cpu path_machine = Done (2, k') m' /\
  esi k' = 4 /\ umem (procs m') 0x40000010 = 0.
Proof.
  destruct (resolve_stub_correct demo_font true start_cpu path_machine 0x40000000 0x40000010 [47; 46] (Some (0, 2)) RootDir.state)
    as (k' & m' & E & _ & Ei & _ & _ & _ & _ & _ & _ & Eu).
  - exact (start_cpu_ok 0 ltac:(done)).
  - done.
  - done.
  - split; [repeat constructor|done| |done]. intros [|[|k]] c Hk; [by injection Hk as <-..|done].
  - done.
  - vm_compute. reflexivity.
  - intros fs ino [= <- <-]. unfold SYSCALL_ERROR. lia.
  - exists k', m'. split; [exact E|]. split; [exact Ei|]. rewrite Eu. reflexivity.
Defined.
