(* ===== verification/Shell.v ===== *)
(** * The shell: user/shell/shell.c

    The line editor with its history, the numbers it prints, and the loop that
    reads a line and starts the command it names.  The screen is the terminal of
    [ScreenSpec]; an array of bytes is a list of its length. *)
From S2P Require Import Prelude Bytes CLib Scheduler Screen ScreenSpec User.

Definition BUF_CAP : Z := 512.
Definition HISTORY_CAP : Z := 32.
Definition CTRL_KEY_UP : Z := 0x80.
Definition CTRL_KEY_DOWN : Z := 0x81.
Definition CTRL_KEY_LEFT : Z := 0x82.
Definition CTRL_KEY_RIGHT : Z := 0x83.
Definition GREEN : Z := 2.
Definition LIGHT_BLUE : Z := 9.

(** ** Numbers *)

(** The digits of [n], the last one first; [out] has room for them all. *)
Fixpoint digits (fuel : nat) (n : Z) : list Z :=
  match fuel with
  | O => []
  | S fuel => (48 + n mod 10) :: (if 0 <? n / 10 then digits fuel (n / 10) else [])
  end.

Definition uint32_text (n : Z) : list Z := rev (digits 10 n).
Definition uint64_pad_text (n width : Z) : list Z :=
  let out := digits 20 n in replicate (Z.to_nat (width - Z.of_nat (length out))) 48 ++ rev out.

Section shell.
Context {K : Type} `{UserKernel K}.
Local Abbreviation world := (@User.world K).

Definition print_uint32 (n : Z) (w : world) : world := say (uint32_text n) w.
Definition print_uint64_pad (n width : Z) (w : world) : world := say (uint64_pad_text n width) w.
Definition print_uint64 (n : Z) (w : world) : world := print_uint64_pad n 0 w.

(** ** The state *)

Record sh : Type := mkSh {
  buf : list Z; history : list (list Z); draft : list Z;
  history_head : Z; history_count : Z; history_pos : Z;
  max_len : Z; anchor : Z; screen_cols : Z; cur : Z; w : world
}.

Definition with_line (b : list Z) (n c : Z) (s : sh) : sh :=
  mkSh b (history s) (draft s) (history_head s) (history_count s) (history_pos s) n (anchor s) (screen_cols s) c (w s).
Definition with_cur (c : Z) (s : sh) : sh := with_line (buf s) (max_len s) c s.
Definition with_anchor (a : Z) (s : sh) : sh :=
  mkSh (buf s) (history s) (draft s) (history_head s) (history_count s) (history_pos s) (max_len s) a (screen_cols s) (cur s) (w s).
Definition with_pos (p : Z) (s : sh) : sh :=
  mkSh (buf s) (history s) (draft s) (history_head s) (history_count s) p (max_len s) (anchor s) (screen_cols s) (cur s) (w s).
Definition with_draft (d : list Z) (s : sh) : sh :=
  mkSh (buf s) (history s) d (history_head s) (history_count s) (history_pos s) (max_len s) (anchor s) (screen_cols s) (cur s) (w s).
Definition with_history (h : list (list Z)) (head count : Z) (s : sh) : sh :=
  mkSh (buf s) h (draft s) head count (history_pos s) (max_len s) (anchor s) (screen_cols s) (cur s) (w s).
Definition with_w (w' : world) (s : sh) : sh :=
  mkSh (buf s) (history s) (draft s) (history_head s) (history_count s) (history_pos s) (max_len s) (anchor s) (screen_cols s) (cur s) w'.

Definition put (l : list Z) (s : sh) : sh := with_w (say l (w s)) s.
Definition go_to (p : Z) (s : sh) : sh := with_w (on_con (t_set_cursor (p / screen_cols s) (p mod screen_cols s)) (w s)) s.

(** ** The line *)

Definition place_cursor (s : sh) : sh := go_to (u32 (anchor s + cur s)) s.

(** [get_cursor(&r, &c); anchor = r * screen_cols + c - n;] *)
Definition find_anchor (n : Z) (s : sh) : sh :=
  with_anchor (u32 (t_row (con (w s)) * screen_cols s + t_col (con (w s)) - n)) s.

Definition resync (is_insert : bool) (s : sh) : sh :=
  place_cursor (find_anchor (if is_insert then max_len s else max_len s + 1) s).

(** The bytes of [src] up to its terminator, at most [BUF_CAP - 1]. *)
Fixpoint c_bytes (fuel : nat) (src : list Z) : list Z :=
  match fuel, src with
  | S fuel, c :: src => if c =? 0 then [] else c :: c_bytes fuel src
  | _, _ => []
  end.

Definition replace_line (src : list Z) (s : sh) : sh :=
  let old_len := max_len s in
  let line := c_bytes (Z.to_nat (BUF_CAP - 1)) src in
  let src_len := Z.of_nat (length line) in
  let s := with_line (line ++ drop (length line) (buf s)) src_len src_len s in
  let s := put (take (Z.to_nat (max_len s)) (buf s)) (go_to (anchor s) s) in
  let s := put (replicate (Z.to_nat (old_len - max_len s)) 32) s in
  place_cursor (find_anchor (if old_len <? max_len s then max_len s else old_len) s).

(** [for (i = cur - 1; i < max_len - 1; i++) buf[i] = buf[i + 1];] *)
Definition close_gap (b : list Z) (c n : Z) : list Z :=
  for_range (Z.to_nat (n - c)) (c - 1) (fun i b => <[Z.to_nat i := b !!! Z.to_nat (i + 1)]> b) b.

(** [for (i = max_len; i > cur; i--) buf[i] = buf[i - 1];] *)
Definition open_gap (b : list Z) (c n : Z) : list Z :=
  for_range (Z.to_nat (n - c)) 0 (fun j b => <[Z.to_nat (n - j) := b !!! Z.to_nat (n - j - 1)]> b) b.

(** [write_string_len(&buf[cur], max_len - cur)] *)
Definition rest_of_line (s : sh) : list Z := take (Z.to_nat (max_len s - cur s)) (drop (Z.to_nat (cur s)) (buf s)).

(** The entry [history_pos] steps back. *)
Definition history_entry (s : sh) : list Z :=
  history s !!! Z.to_nat (u32 (history_head s + HISTORY_CAP - history_pos s) mod HISTORY_CAP).

(** One key of [read_line]; [true] when the line has ended. *)
Definition line_key (c : Z) (s : sh) : bool * sh :=
  if c =? 10 then
    let s := with_line (<[Z.to_nat (max_len s) := 0]> (buf s)) (max_len s) (max_len s) s in
    (true, put [10] (place_cursor s))
  else if c =? 8 then
    (false,
     if 0 <? cur s then
       let s := with_line (close_gap (buf s) (cur s) (max_len s)) (max_len s - 1) (cur s - 1) s in
       let s := place_cursor s in
       resync false (put [32] (put (rest_of_line s) s))
     else s)
  else if c =? CTRL_KEY_LEFT then (false, if 0 <? cur s then place_cursor (with_cur (cur s - 1) s) else s)
  else if c =? CTRL_KEY_RIGHT then (false, if cur s <? max_len s then place_cursor (with_cur (cur s + 1) s) else s)
  else if c =? CTRL_KEY_UP then
    (false,
     if history_pos s <? history_count s then
       let s := if history_pos s =? 0
                then with_draft (<[Z.to_nat (max_len s) := 0]> (take (Z.to_nat (max_len s)) (buf s) ++ drop (Z.to_nat (max_len s)) (draft s))) s
                else s in
       let s := with_pos (history_pos s + 1) s in
       replace_line (history_entry s) s
     else s)
  else if c =? CTRL_KEY_DOWN then
    (false,
     if 0 <? history_pos s then
       let s := with_pos (history_pos s - 1) s in
       replace_line (if history_pos s =? 0 then draft s else history_entry s) s
     else s)
  else
    (false,
     if max_len s <? BUF_CAP - 1 then
       let s := with_line (<[Z.to_nat (cur s) := c]> (open_gap (buf s) (cur s) (max_len s))) (max_len s + 1) (cur s) s in
       let s := put (rest_of_line s) s in
       resync true (with_cur (cur s + 1) s)
     else s).

(** [read_line] as far as the keys go; [None] when they do not end the line. *)
Fixpoint read_keys (keys : list Z) (s : sh) : option sh :=
  match keys with
  | [] => None
  | c :: keys => let (fin, s) := line_key c s in if fin then Some s else read_keys keys s
  end.
Definition read_line (keys : list Z) (s : sh) : option sh := read_keys keys (with_pos 0 (with_cur 0 s)).

(** [split]: the command and its arguments. *)
Fixpoint split (line : list Z) : list Z * list Z :=
  match line with
  | [] => ([], [])
  | c :: line =>
      if c =? 32 then ([], line)
      else if c =? 0 then ([], [])
      else let (cmd, args) := split line in (c :: cmd, args)
  end.

(** ** The loop of main *)

Definition put_color (colr : Z) (l : list Z) (s : sh) : sh := with_w (on_con (t_write colr l) (w s)) s.

(** The prompt, and where the line begins. *)
Definition prompt (s : sh) : sh :=
  let s := put_color GREEN (bytes_of "UNKNOWN") s in
  let s := put_color GREEN [64] s in
  let s := put_color GREEN (bytes_of "localhost") s in
  let s := put [32] s in
  let s := put_color LIGHT_BLUE (dir (w s)) s in
  let s := put_color LIGHT_BLUE (bytes_of " $ ") s in
  with_line (buf s) 0 (cur s) (find_anchor 0 s).

(** A line that differs from the one before is remembered. *)
Definition remember (s : sh) : sh :=
  if default false (streq (history s !!! Z.to_nat ((history_head s + HISTORY_CAP - 1) mod HISTORY_CAP)) (buf s)) then s
  else
    let line := c_bytes (Z.to_nat BUF_CAP) (buf s) in
    let entry := history s !!! Z.to_nat (history_head s) in
    let entry := line ++ 0 :: drop (S (length line)) entry in
    with_history (<[Z.to_nat (history_head s) := entry]> (history s)) ((history_head s + 1) mod HISTORY_CAP)
      (if history_count s <? HISTORY_CAP then history_count s + 1 else history_count s) s.

(** The statics as the program starts, and [get_screen_dims]. *)
Definition first_sh (w1 : world) : sh :=
  let zeros := replicate (Z.to_nat BUF_CAP) 0 in
  mkSh zeros (replicate (Z.to_nat HISTORY_CAP) zeros) zeros 0 0 0 0 0 (t_cols (con w1)) 0 w1.

(** The table of appCtl.c: a command takes its arguments; [None] is a store
    outside of an array. *)
Definition App : Type := string * (list Z -> world -> option world).

(** The command of the line, which [split] cuts in place. *)
Definition run_line (apps : list App) (s : sh) : option sh :=
  let (cmd, args) := split (c_bytes (Z.to_nat BUF_CAP) (buf s)) in
  let s := with_line (<[length cmd := 0]> (buf s)) (max_len s) (cur s) s in
  match find (fun a => bool_decide (bytes_of a.1 = cmd)) apps with
  | Some (_, fn) => w' ← fn args (w s); Some (with_w w' s)
  | None => Some (put (34 :: bytes_of " not found" ++ [10]) (put cmd (put (bytes_of "command " ++ [34]) s)))
  end.

(** One round of the loop with the keys of a line. *)
Definition shell_round (apps : list App) (keys : list Z) (s : sh) : option sh :=
  s ← read_line keys (prompt s);
  if bool_decide (head (buf s) = Some 0) then Some s else run_line apps (remember s).

End shell.
