(* ===== verification/ShellSpec.v ===== *)
(** * The line of the shell, edited and shown

    The reference is a line of text with a cursor and the lines entered before,
    newest first.  Every key acts on the arrays of the shell as on it
    ([shell_edits_line]), and after every key the terminal shows the line where
    it began, scrolled up as far as the line has grown ([shell_shows_line]). *)
From S2P Require Import Prelude Bytes CLib Scheduler Screen ScreenSpec User Dinv DinvSpec DinvScreen Shell.

(** A place that is not in the range tested. *)
Ltac out_of E := exfalso; cbn [length] in E; apply andb_prop in E as [?%Z.leb_le ?%Z.ltb_lt]; lia.

(** ** Writing past the end of a row *)

(** Places on the terminal in reading order. *)
Definition size (t : term) : Z := t_rows t * t_cols t.
Definition spot (t : term) : Z := t_row t * t_cols t + t_col t.
Definition at_spot (t : term) (p : Z) : option Z := ch <$> t_screen t !! Z.to_nat p.

Record t_in (t : term) : Prop := mkTin {
  ti_ok : t_ok t; ti_row : 0 <= t_row t < t_rows t; ti_col : 0 <= t_col t < t_cols t }.

(** [s] was written at the cursor, and the screen moved up by [k] rows. *)
Record typed (s : list Z) (k : Z) (t t' : term) : Prop := mkTyped {
  ty_in : t_in t'; ty_cols : t_cols t' = t_cols t; ty_rows : t_rows t' = t_rows t;
  ty_up : 0 <= k; ty_last : k = 0 \/ size t - t_cols t <= spot t'; ty_spot : spot t' = spot t + Z.of_nat (length s) - k * t_cols t;
  ty_cells : forall p, 0 <= p < size t ->
    at_spot t' p =
      let q := p + k * t_cols t in
      if (spot t <=? q) && (q <? spot t + Z.of_nat (length s)) then s !! Z.to_nat (q - spot t)
      else if q <? size t then at_spot t q else Some 32 }.

Lemma spot_range t : t_in t -> 0 <= spot t < size t.
Proof. intros [[? ? ?] ? ?]. unfold spot, size. nia. Qed.

Lemma typed_nil t t' : t_in t' -> t_cols t' = t_cols t -> t_rows t' = t_rows t -> t_screen t' = t_screen t -> spot t' = spot t -> typed [] 0 t t'.
Proof.
  intros Hi Ec Er Es Ep. split; try done; [by left|rewrite Ep; cbn [length]; lia|]. intros p Hp. cbv zeta. rewrite Z.mul_0_l, Z.add_0_r.
  destruct (_ && _) eqn:E; [out_of E|]. rewrite (proj2 (Z.ltb_lt _ _)) by lia. unfold at_spot. by rewrite Es.
Qed.

(** The row below is there, or the screen moves up. *)
Lemma newrow_typed colr t x : t_in t -> t_col t + 1 = t_cols t ->
  exists k, (k = 0 \/ k = 1) /\ typed [x] k t (t_newrow (t_move (t_row t) 0
    (mkTerm (t_cols t) (t_rows t) (t_past t) (<[Z.to_nat (spot t) := mkChar x colr]> (t_screen t)) (t_row t) (t_col t) 0 (t_scrollable t)))).
Proof.
  intros Hi Hc. pose proof Hi as [[Hcl Hrw Hl] Hr Hcol]. pose proof (spot_range t Hi) as Hsp. unfold t_newrow, t_move. cbn [t_row t_rows t_cols t_past t_screen t_view t_scrollable].
  destruct (Z.ltb_spec (t_row t + 1) (t_rows t)) as [Hlt|Hge].
  - exists 0. split; [by left|]. split; cbn; try done.
    + split; cbn; [split; cbn; [done|done|rewrite length_insert; done]|lia|lia].
    + by left.
    + unfold spot. cbn. lia.
    + intros p Hp. rewrite Z.add_0_r. unfold at_spot. cbn. destruct (decide (p = spot t)) as [->|Hne].
      * rewrite (proj2 (Z.leb_le _ _)), (proj2 (Z.ltb_lt _ _)) by lia. cbn [andb]. rewrite Z.sub_diag.
        rewrite list_lookup_insert_eq; [done|]. unfold size in *. lia.
      * destruct (_ && _) eqn:E; [out_of E|]. rewrite (proj2 (Z.ltb_lt _ _)) by lia. rewrite list_lookup_insert_ne by lia. done.
  - exists 1. split; [by right|]. assert (t_row t = t_rows t - 1) as Er by lia. unfold t_scroll. cbn [t_row t_rows t_cols t_past t_screen t_view t_scrollable].
    split; cbn [t_row t_rows t_cols t_past t_screen t_view t_scrollable]; try done.
    + split; cbn; [split; cbn; [done|done|]|lia|lia]. rewrite length_app, length_drop, length_insert, length_replicate. nia.
    + right. unfold spot, size. cbn. nia.
    + unfold spot. cbn. nia.
    + intros p Hp. unfold at_spot. cbn [t_screen]. unfold size in *. cbv zeta.
      assert (spot t = t_rows t * t_cols t - 1) as Esp by (unfold spot; nia).
      destruct (decide (p + 1 * t_cols t < t_rows t * t_cols t)) as [Hlo|Hhi].
      * rewrite lookup_app_l by (rewrite length_drop, length_insert; nia). rewrite lookup_drop.
        replace (Z.to_nat (t_cols t) + Z.to_nat p)%nat with (Z.to_nat (p + 1 * t_cols t)) by lia.
        destruct (decide (p + 1 * t_cols t = spot t)) as [E|E].
        -- rewrite E. rewrite (proj2 (Z.leb_le _ _)), (proj2 (Z.ltb_lt _ _)) by (cbn; lia). cbn [andb]. rewrite Z.sub_diag.
           rewrite list_lookup_insert_eq; [done|]. lia.
        -- destruct (_ && _) eqn:E2; [out_of E2|]. rewrite (proj2 (Z.ltb_lt _ _)) by lia. rewrite list_lookup_insert_ne by lia. done.
      * rewrite lookup_app_r by (rewrite length_drop, length_insert; nia). rewrite lookup_replicate_2 by (rewrite length_drop, length_insert; nia).
        destruct (_ && _) eqn:E2; [out_of E2|]. by rewrite (proj2 (Z.ltb_ge _ _)) by lia.
Qed.

Lemma char_typed colr x t : t_in t -> (colr <? PALETTE_SIZE) = true -> x <> 8 -> x <> 10 -> exists k, typed [x] k t (t_char x colr t).
Proof.
  intros Hi Hcolr H8 H10. pose proof Hi as [[Hcl Hrw Hl] Hr Hcol]. pose proof (spot_range t Hi) as Hsp. unfold t_char.
  rewrite (proj2 (Z.eqb_neq x 8)), (proj2 (Z.eqb_neq x 10)) by done. unfold t_put. cbn [color]. rewrite Hcolr.
  unfold t_advance. cbn [t_look t_cols t_rows t_past t_screen t_row t_col t_view t_scrollable].
  destruct (Z.ltb_spec (t_col t + 1) (t_cols t)) as [Hlt|Hge].
  - exists 0. unfold t_move. cbn [t_cols t_rows t_past t_screen t_row t_col t_view t_scrollable]. split; try done.
    + split; cbn; [split; cbn; [done|done|rewrite length_insert; done]|lia|lia].
    + by left.
    + unfold spot. cbn. lia.
    + intros p Hp. cbv zeta. rewrite Z.mul_0_l, Z.add_0_r. unfold at_spot. cbn [t_screen]. fold (spot t). destruct (decide (p = spot t)) as [->|Hne].
      * rewrite (proj2 (Z.leb_le _ _)), (proj2 (Z.ltb_lt _ _)) by (cbn [length]; lia). cbn [andb]. rewrite Z.sub_diag.
        rewrite list_lookup_insert_eq; [done|]. unfold size in *. lia.
      * destruct (_ && _) eqn:E; [out_of E|]. rewrite (proj2 (Z.ltb_lt _ _)) by lia. rewrite list_lookup_insert_ne by lia. done.
  - destruct (newrow_typed colr t x Hi) as (k & _ & Ht); [lia|]. exists k. exact Ht.
Qed.

Lemma typed_app s1 s2 k1 k2 t1 t2 t3 : t_in t1 -> typed s1 k1 t1 t2 -> typed s2 k2 t2 t3 -> typed (s1 ++ s2) (k1 + k2) t1 t3.
Proof.
  intros Hi [I1 C1 R1 U1 T1 P1 L1] [I2 C2 R2 U2 T2 P2 L2]. pose proof Hi as [[Hcl Hrw _] _ _]. pose proof (spot_range t1 Hi) as Hs1. pose proof (spot_range t2 I1) as Hs2.
  rewrite C1 in *. assert (size t2 = size t1) as Ez by (unfold size; by rewrite C1, R1). rewrite Ez in *.
  split; [done|congruence|congruence|lia|lia|rewrite length_app; lia|].
  intros p Hp. cbv zeta in *. rewrite L2 by done. rewrite length_app. set (q := p + k2 * t_cols t1).
  assert (p + (k1 + k2) * t_cols t1 = q + k1 * t_cols t1) as -> by (unfold q; lia). set (q1 := q + k1 * t_cols t1).
  destruct ((spot t2 <=? q) && (q <? spot t2 + Z.of_nat (length s2))) eqn:E2.
  - apply andb_prop in E2 as [E21%Z.leb_le E22%Z.ltb_lt].
    rewrite (proj2 (Z.leb_le (spot t1) q1)), (proj2 (Z.ltb_lt q1 _)) by lia. cbn [andb]. rewrite lookup_app_r by lia. f_equal. lia.
  - apply andb_false_iff in E2. rewrite Z.leb_gt, Z.ltb_ge in E2. destruct (Z.ltb_spec q (size t1)) as [Hq|Hq].
    + rewrite L1 by (unfold q in *; nia). fold q1. destruct ((spot t1 <=? q1) && (q1 <? spot t1 + Z.of_nat (length s1))) eqn:E1.
      * apply andb_prop in E1 as [E11%Z.leb_le E12%Z.ltb_lt]. rewrite (proj2 (Z.leb_le (spot t1) q1)), (proj2 (Z.ltb_lt q1 _)) by lia. cbn [andb].
        by rewrite lookup_app_l by lia.
      * apply andb_false_iff in E1. rewrite Z.leb_gt, Z.ltb_ge in E1.
        destruct ((spot t1 <=? q1) && (q1 <? spot t1 + Z.of_nat (length s1 + length s2))) eqn:E3; [out_of E3|]. done.
    + destruct ((spot t1 <=? q1) && (q1 <? spot t1 + Z.of_nat (length s1 + length s2))) eqn:E3; [out_of E3|].
      rewrite (proj2 (Z.ltb_ge _ _)); [done|]. unfold q1. nia.
Qed.

Lemma write_typed colr s t : (colr <? PALETTE_SIZE) = true -> plain s -> t_in t -> exists k, typed s k t (t_write colr s t).
Proof.
  intros Hcolr Hs. revert t. induction Hs as [|x s [H8 H10] _ IH]; intros t Hi.
  - exists 0. by apply typed_nil.
  - destruct (char_typed colr x t Hi Hcolr H8 H10) as [k1 H1]. destruct (IH _ (ty_in _ _ _ _ H1)) as [k2 H2].
    exists (k1 + k2). exact (typed_app [x] s k1 k2 _ _ _ Hi H1 H2).
Qed.

Lemma typed_room s k t t' : t_in t -> typed s k t t' -> spot t + Z.of_nat (length s) < size t -> k = 0.
Proof. intros [[? ? ?] _ _] [_ _ _ ? Hl Hs _] Hr. destruct Hl as [|Hl]; [done|]. nia. Qed.

(** The cursor set to a place of the screen. *)
Lemma set_spot p t : t_in t -> 0 <= p < size t ->
  let t' := t_set_cursor (p / t_cols t) (p mod t_cols t) t in
  t_in t' /\ t_cols t' = t_cols t /\ t_rows t' = t_rows t /\ t_screen t' = t_screen t /\ spot t' = p.
Proof.
  intros [Hok Hr Hc] Hp. pose proof Hok as [H1 H2 H3]. unfold size in Hp. cbv zeta.
  assert (0 <= p / t_cols t < t_rows t) as Hd by (split; [apply Z.div_pos; lia|apply Z.div_lt_upper_bound; lia]).
  pose proof (Z.mod_pos_bound p (t_cols t) H1) as Hm.
  destruct (cursor_set (p / t_cols t) (p mod t_cols t) t Hok Hd Hm) as (F & Es & Er & Ec).
  set (t' := t_set_cursor _ _ t) in *. pose proof F as [Hok' E1 E2 _]. split; [|split; [done|split; [done|split; [done|]]]].
  - split; [done|lia|lia].
  - unfold spot. rewrite Er, Ec, E1. pose proof (Z.div_mod p (t_cols t)). lia.
Qed.

(** ** A line on the terminal *)

(** From place [A] on the terminal shows [l] and then nothing; the cursor is at
    column [c] of it. *)
Record view (t : term) (A : Z) (l : list Z) (c : Z) : Prop := mkV {
  vw_in : t_in t; vw_room : 512 <= size t - t_cols t; vw_small : size t < 2147483648;
  vw_low : 0 <= A; vw_fit : A + Z.of_nat (length l) < size t; vw_cursor : spot t = A + c;
  vw_cells : forall i, 0 <= i -> A + i < size t -> at_spot t (A + i) = Some (default 32 (l !! Z.to_nat i)) }.

(** Writing [s] at the cursor turns [l] into [l']. *)
Lemma view_write t A l c s l' : view t A l c -> 0 <= c -> plain s -> c + Z.of_nat (length s) <= 511 ->
  Z.of_nat (length l') <= c + Z.of_nat (length s) ->
  (forall i, 0 <= i -> default 32 (l' !! Z.to_nat i) =
     if (c <=? i) && (i <? c + Z.of_nat (length s)) then default 32 (s !! Z.to_nat (i - c)) else default 32 (l !! Z.to_nat i)) ->
  exists A', view (t_write WHITE s t) A' l' (c + Z.of_nat (length s)).
Proof.
  intros [Hi Hroom Hsm HA Hfit Hsp Hcells] Hc Hs Hlen Hl' Heq. destruct (write_typed WHITE s t eq_refl Hs Hi) as [k [Hi' Ec Er Hk Hlast Esp Hty]].
  set (t' := t_write WHITE s t) in *. assert (size t' = size t) as Ez by (unfold size; by rewrite Ec, Er).
  pose proof (spot_range t' Hi') as Hr'. rewrite Ez in Hr'. pose proof Hi as [[Hcl _ _] _ _].
  exists (A - k * t_cols t). assert (0 <= A - k * t_cols t) as HA' by (destruct Hlast as [->|]; lia).
  split; [done|rewrite Ez, Ec; lia|rewrite Ez; lia|done|rewrite Ez; lia|lia|].
  intros i H0 Hlt. rewrite Ez in Hlt. rewrite Hty by lia. cbv zeta. replace (A - k * t_cols t + i + k * t_cols t) with (A + i) by lia.
  rewrite Hsp. rewrite Heq by done. replace (A + c <=? A + i) with (c <=? i) by (destruct (Z.leb_spec c i); symmetry; [apply Z.leb_le|apply Z.leb_gt]; lia).
  replace (A + i <? A + c + Z.of_nat (length s)) with (i <? c + Z.of_nat (length s))
    by (destruct (Z.ltb_spec i (c + Z.of_nat (length s))); symmetry; [apply Z.ltb_lt|apply Z.ltb_ge]; lia).
  destruct ((c <=? i) && (i <? c + Z.of_nat (length s))) eqn:E.
  - apply andb_prop in E as [E1%Z.leb_le E2%Z.ltb_lt]. replace (A + i - (A + c)) with (i - c) by lia.
    destruct (lookup_lt_is_Some_2 s (Z.to_nat (i - c))) as [x ->]; [lia|done].
  - destruct (Z.ltb_spec (A + i) (size t)) as [Hq|Hq]; [by apply Hcells|].
    rewrite lookup_ge_None_2 by lia. done.
Qed.

Lemma view_go t A l c c' : view t A l c -> 0 <= c' -> A + c' < size t ->
  view (t_set_cursor ((A + c') / t_cols t) ((A + c') mod t_cols t) t) A l c'.
Proof.
  intros [Hi Hroom Hsm HA Hfit Hsp Hcells] Hc Hlt. destruct (set_spot (A + c') t Hi) as (Hi' & E1 & E2 & E3 & E4); [lia|].
  set (t' := t_set_cursor _ _ t) in *. assert (size t' = size t) as Ez by (unfold size; by rewrite E1, E2).
  split; rewrite ?Ez, ?E1; try done. intros i H0 Hi0. rewrite <- Hcells by done. unfold at_spot. by rewrite E3.
Qed.

(** ** The arrays *)

Lemma close_gap_spec b c n : 0 < c -> c <= n -> n <= Z.of_nat (length b) ->
  length (close_gap b c n) = length b /\
  take (Z.to_nat (n - 1)) (close_gap b c n) = take (Z.to_nat (c - 1)) b ++ take (Z.to_nat (n - c)) (drop (Z.to_nat c) b).
Proof.
  intros H0 Hc Hn. unfold close_gap.
  pose proof (for_range_ind (fun i b' => length b' = length b /\ forall j : nat,
     b' !! j = if (c - 1 <=? Z.of_nat j) && (Z.of_nat j <? i) then b !! S j else b !! j)
     (Z.to_nat (n - c)) (c - 1) (fun i b => <[Z.to_nat i := b !!! Z.to_nat (i + 1)]> b) b) as Hind.
  destruct Hind as [Hl Hj].
  - split; [done|]. intros j. destruct (_ && _) eqn:E; [out_of E|done].
  - intros i b' Hi [Hl Hj]. split; [by rewrite length_insert|]. intros j.
    destruct (decide (j = Z.to_nat i)) as [->|Hne].
    + rewrite list_lookup_insert_eq by lia. rewrite list_lookup_total_alt, Hj.
      rewrite (proj2 (Z.ltb_ge (Z.of_nat (Z.to_nat (i + 1))) i)), andb_false_r by lia.
      rewrite (proj2 (Z.leb_le (c - 1) _)), (proj2 (Z.ltb_lt _ (i + 1))) by lia. cbn [andb]. replace (Z.to_nat (i + 1)) with (S (Z.to_nat i)) by lia.
      destruct (lookup_lt_is_Some_2 b (S (Z.to_nat i))) as [x ->]; [lia|done].
    + rewrite list_lookup_insert_ne by done. rewrite Hj. destruct ((c - 1 <=? Z.of_nat j) && (Z.of_nat j <? i)) eqn:E.
      * apply andb_prop in E as [E1%Z.leb_le E2%Z.ltb_lt]. by rewrite (proj2 (Z.leb_le _ _)), (proj2 (Z.ltb_lt _ (i + 1))) by lia.
      * apply andb_false_iff in E. rewrite Z.leb_gt, Z.ltb_ge in E. destruct ((c - 1 <=? Z.of_nat j) && (Z.of_nat j <? i + 1)) eqn:E3; [out_of E3|done].
  - set (b' := for_range _ _ _ b) in *. split; [done|]. apply list_eq. intros j.
    destruct (decide (j < Z.to_nat (n - 1))%nat) as [Hlt|Hge].
    + rewrite lookup_take_lt by done. rewrite Hj. destruct (decide (j < Z.to_nat (c - 1))%nat) as [H1|H1].
      * destruct (_ && _) eqn:E; [out_of E|]. rewrite lookup_app_l by (rewrite length_take; lia). by rewrite lookup_take_lt.
      * rewrite (proj2 (Z.leb_le _ _)), (proj2 (Z.ltb_lt _ _)) by lia. cbn [andb]. rewrite lookup_app_r by (rewrite length_take; lia).
        rewrite length_take, Nat.min_l by lia. rewrite lookup_take_lt by lia. rewrite lookup_drop. f_equal. lia.
    + rewrite !lookup_ge_None_2; [done|rewrite length_app, !length_take, length_drop; lia|rewrite length_take; lia].
Qed.

Lemma open_gap_spec b c n x : 0 <= c -> c <= n -> n < Z.of_nat (length b) ->
  length (<[Z.to_nat c := x]> (open_gap b c n)) = length b /\
  take (Z.to_nat (n + 1)) (<[Z.to_nat c := x]> (open_gap b c n)) = take (Z.to_nat c) b ++ x :: take (Z.to_nat (n - c)) (drop (Z.to_nat c) b).
Proof.
  intros H0 Hc Hn. unfold open_gap.
  pose proof (for_range_ind (fun i b' => length b' = length b /\ forall j : nat,
     b' !! j = if (n - i <? Z.of_nat j) && (Z.of_nat j <=? n) then b !! Nat.pred j else b !! j)
     (Z.to_nat (n - c)) 0 (fun j b => <[Z.to_nat (n - j) := b !!! Z.to_nat (n - j - 1)]> b) b) as Hind.
  destruct Hind as [Hl Hj].
  - split; [done|]. intros j. destruct (Z.ltb_spec (n - 0) (Z.of_nat j)), (Z.leb_spec (Z.of_nat j) n); cbn [andb]; (done || lia).
  - intros i b' Hi [Hl Hj]. split; [by rewrite length_insert|]. intros j.
    destruct (decide (j = Z.to_nat (n - i))) as [->|Hne].
    + rewrite list_lookup_insert_eq by lia. rewrite list_lookup_total_alt, Hj.
      rewrite (proj2 (Z.ltb_ge (n - i) (Z.of_nat (Z.to_nat (n - i - 1))))) by lia. cbn [andb].
      rewrite (proj2 (Z.ltb_lt (n - (i + 1)) (Z.of_nat (Z.to_nat (n - i))))), (proj2 (Z.leb_le (Z.of_nat (Z.to_nat (n - i))) n)) by lia. cbn [andb].
      replace (Z.to_nat (n - i - 1)) with (Nat.pred (Z.to_nat (n - i))) by lia. destruct (lookup_lt_is_Some_2 b (Nat.pred (Z.to_nat (n - i)))) as [y ->]; [lia|done].
    + rewrite list_lookup_insert_ne by done. rewrite Hj.
      destruct (Z.ltb_spec (n - i) (Z.of_nat j)), (Z.ltb_spec (n - (i + 1)) (Z.of_nat j)), (Z.leb_spec (Z.of_nat j) n); cbn [andb]; (done || lia).
  - set (b' := for_range _ _ _ b) in *. split; [by rewrite length_insert|]. apply list_eq. intros j.
    destruct (decide (j < Z.to_nat (n + 1))%nat) as [Hlt|Hge].
    + rewrite lookup_take_lt by done. destruct (decide (j < Z.to_nat c)%nat) as [H1|H1].
      * rewrite list_lookup_insert_ne, Hj by lia. rewrite (proj2 (Z.ltb_ge _ _)) by lia. cbn [andb].
        rewrite lookup_app_l by (rewrite length_take; lia). by rewrite lookup_take_lt.
      * rewrite lookup_app_r by (rewrite length_take; lia). rewrite length_take, Nat.min_l by lia.
        destruct (decide (j = Z.to_nat c)) as [->|Hne].
        -- rewrite list_lookup_insert_eq by lia. by rewrite Nat.sub_diag.
        -- rewrite list_lookup_insert_ne, Hj by lia. rewrite (proj2 (Z.ltb_lt _ _)), (proj2 (Z.leb_le _ _)) by lia. cbn [andb].
           rewrite lookup_cons_ne_0 by lia. rewrite lookup_take_lt by lia. rewrite lookup_drop. f_equal. lia.
    + rewrite !lookup_ge_None_2; [done|rewrite length_app; cbn [length]; rewrite !length_take, length_drop; lia|rewrite length_take, length_insert; lia].
Qed.

(** ** The reference *)

(** The line, the place in it, how far back in the history it is, and the line
    that was left for the history. *)
Record ledit : Type := mkL { l_text : list Z; l_cur : nat; l_pos : nat; l_draft : list Z }.

Definition l_show (pos : nat) (x d : list Z) : ledit := mkL x (length x) pos d.

Definition l_key (hist : list (list Z)) (c : Z) (l : ledit) : ledit :=
  let x := l_text l in
  if c =? 8 then mkL (take (l_cur l - 1) x ++ drop (l_cur l) x) (l_cur l - 1) (l_pos l) (l_draft l)
  else if c =? CTRL_KEY_LEFT then mkL x (l_cur l - 1) (l_pos l) (l_draft l)
  else if c =? CTRL_KEY_RIGHT then mkL x (Nat.min (length x) (l_cur l + 1)) (l_pos l) (l_draft l)
  else if c =? CTRL_KEY_UP then
    match hist !! l_pos l with
    | Some y => l_show (S (l_pos l)) y (if decide (l_pos l = 0%nat) then x else l_draft l)
    | None => l
    end
  else if c =? CTRL_KEY_DOWN then
    match l_pos l with
    | O => l
    | S O => l_show 0 (l_draft l) (l_draft l)
    | S (S p) => l_show (S p) (hist !!! p) (l_draft l)
    end
  else if decide (length x < 511)%nat then mkL (take (l_cur l) x ++ c :: drop (l_cur l) x) (l_cur l + 1) (l_pos l) (l_draft l)
  else l.

(** What a line may hold. *)
Definition text_ok (x : list Z) : Prop := Forall (fun c => c <> 0 /\ c <> 8 /\ c <> 10) x /\ (length x <= 511)%nat.
(** An array of the shell with a string in it. *)
Definition holds (e x : list Z) : Prop := length e = 512%nat /\ text_ok x /\ exists r, e = x ++ 0 :: r.

Lemma text_plain x : text_ok x -> plain x.
Proof. intros [Hx _]. eapply Forall_impl; [exact Hx|]. cbn. lia. Qed.

Lemma c_bytes_app n x r : Forall (fun c => c <> 0 /\ c <> 8 /\ c <> 10) x -> (length x <= n)%nat -> c_bytes n (x ++ 0 :: r) = x.
Proof.
  revert n. induction x as [|c x IH]; intros n Hx Hn; [by destruct n|]. apply Forall_cons in Hx as [Hc Hx].
  destruct n as [|n]; [cbn in Hn; lia|]. cbn. rewrite (proj2 (Z.eqb_neq c 0)) by lia. by rewrite IH by (done || (cbn in Hn; lia)).
Qed.
Lemma c_bytes_holds n e x : holds e x -> (511 <= n)%nat -> c_bytes n e = x.
Proof. intros (_ & [Hx Hl] & r & ->) Hn. apply c_bytes_app; [done|lia]. Qed.

Lemma cstr_holds e x : holds e x -> cstr e = Some x.
Proof. intros (_ & [Hx _] & r & ->). apply cstr_app. eapply Forall_impl; [exact Hx|]. cbn. lia. Qed.

(** An array with a terminator stored behind a prefix. *)
Lemma holds_end e x n : length e = 512%nat -> take n e = x -> length x = n -> text_ok x -> holds (<[n := 0]> e) x.
Proof.
  intros He Ht Hn Hx. split; [by rewrite length_insert|]. split; [done|]. exists (drop (S n) e). destruct Hx as [_ Hl].
  by rewrite insert_take_drop, Ht by lia.
Qed.

Section spec.
Context {K : Type} `{UserKernel K}.
Local Abbreviation sh := (@Shell.sh K).
Local Abbreviation world := (@User.world K).
Local Abbreviation App := (@Shell.App K).
Implicit Types s : sh.

Definition line s : list Z := take (Z.to_nat (max_len s)) (buf s).
(** The entry [p] steps back. *)
Definition slot s (p : Z) : list Z := history s !!! Z.to_nat ((history_head s + HISTORY_CAP - p) mod HISTORY_CAP).

(** The arrays of history hold [hist]. *)
Record hist_rep (hist : list (list Z)) s : Prop := mkHist {
  hr_len : length (history s) = 32%nat; hr_head : 0 <= history_head s < 32; hr_count : history_count s = Z.of_nat (length hist);
  hr_cap : (length hist <= 32)%nat; hr_sizes : Forall (fun e => length e = 512%nat) (history s);
  hr_slots : forall p x, hist !! p = Some x -> holds (slot s (Z.of_nat p + 1)) x;
  hr_empty : hist = [] -> holds (slot s 1) [] }.

(** The shell represents the line [l]. *)
Record rep (hist : list (list Z)) (l : ledit) s : Prop := mkRep {
  rp_buf : length (buf s) = 512%nat; rp_max : max_len s = Z.of_nat (length (l_text l)); rp_line : line s = l_text l; rp_text : text_ok (l_text l);
  rp_cur : cur s = Z.of_nat (l_cur l); rp_in : (l_cur l <= length (l_text l))%nat;
  rp_hist : hist_rep hist s; rp_pos : history_pos s = Z.of_nat (l_pos l); rp_back : (l_pos l <= length hist)%nat;
  rp_draft : length (draft s) = 512%nat; rp_saved : l_pos l <> 0%nat -> holds (draft s) (l_draft l) }.

(** It shows it. *)
Definition shown s : Prop := screen_cols s = t_cols (con (w s)) /\ view (con (w s)) (anchor s) (line s) (cur s).

Lemma slot_holds hist s p x : hist_rep hist s -> hist !! p = Some x -> 
  history_pos s = Z.of_nat p + 1 -> holds (history_entry s) x.
Proof.
  intros Hr Hp E. pose proof (hr_slots _ _ Hr p x Hp) as Hh. destruct Hr as [_ Hhd _ Hcap _ _ _]. apply lookup_lt_Some in Hp.
  unfold history_entry, slot in *. rewrite E. unfold HISTORY_CAP in *. rewrite u32_small by lia. done.
Qed.

(** ** The screen after a key *)

(** The terminal shows [l] from [A] on, whatever the shell believes. *)
Definition at_view s (A : Z) (l : list Z) (c : Z) : Prop := screen_cols s = t_cols (con (w s)) /\ view (con (w s)) A l c.

Lemma at_go s A l c p : at_view s A l c -> 0 <= p -> A + p < size (con (w s)) -> at_view (go_to (A + p) s) A l p.
Proof.
  intros [Hc Hv] Hp Hlt. pose proof (view_go _ _ _ _ p Hv Hp Hlt) as Hg. unfold at_view, go_to. cbn. rewrite Hc.
  split; [|done]. destruct (set_spot (A + p) (con (w s))) as (_ & E & _); [by destruct Hv|destruct Hv; lia|]. by rewrite E.
Qed.

Lemma at_put s A l c x l' : at_view s A l c -> 0 <= c -> plain x -> c + Z.of_nat (length x) <= 511 -> Z.of_nat (length l') <= c + Z.of_nat (length x) ->
  (forall i, 0 <= i -> default 32 (l' !! Z.to_nat i) =
     if (c <=? i) && (i <? c + Z.of_nat (length x)) then default 32 (x !! Z.to_nat (i - c)) else default 32 (l !! Z.to_nat i)) ->
  exists A', at_view (put x s) A' l' (c + Z.of_nat (length x)).
Proof.
  intros [Hc Hv] H0 Hx Hlen Hl' Heq. destruct (view_write _ _ _ _ x l' Hv H0 Hx Hlen Hl' Heq) as [A' Hv']. exists A'. split; [|exact Hv'].
  destruct (write_typed WHITE x (con (w s)) eq_refl Hx) as [k Hk]; [by destruct Hv|]. cbn. rewrite (ty_cols _ _ _ _ Hk). done.
Qed.

Lemma at_anchor s A l n : at_view s A l n -> at_view (find_anchor n s) A l n /\ anchor (find_anchor n s) = A.
Proof.
  intros [Hc Hv]. split; [by split|]. unfold find_anchor. cbn. rewrite Hc. pose proof (vw_cursor _ _ _ _ Hv) as E. unfold spot in E. rewrite E.
  destruct Hv as [Hi ? Hs ? ? ? _]. replace (A + n - n) with A by lia. rewrite u32_small; [done|]. lia.
Qed.

Lemma at_place s l c : at_view s (anchor s) l c -> line s = l -> 0 <= cur s <= Z.of_nat (length l) -> shown (place_cursor s).
Proof.
  intros Ha El Hc. pose proof Ha as [Hcols Hv]. pose proof (vw_fit _ _ _ _ Hv). pose proof (vw_small _ _ _ _ Hv). pose proof (vw_low _ _ _ _ Hv).
  unfold place_cursor. rewrite u32_small by lia. destruct (at_go s (anchor s) l c (cur s) Ha) as [G1 G2]; [lia|lia|].
  split; [done|]. change (line (go_to (anchor s + cur s) s)) with (line s). rewrite El. done.
Qed.

(** ** The keys *)

(** After an edit the line is written from the cursor on. *)
Lemma default_app (x y : list Z) i n : Z.of_nat (length x) = n -> 0 <= i ->
  default 32 ((x ++ y) !! Z.to_nat i) = if i <? n then default 32 (x !! Z.to_nat i) else default 32 (y !! Z.to_nat (i - n)).
Proof.
  intros En Hi. destruct (Z.ltb_spec i n).
  - by rewrite lookup_app_l by lia.
  - rewrite lookup_app_r by lia. do 2 f_equal. lia.
Qed.

Lemma default_spaces (x : list Z) n i : default 32 ((x ++ replicate n 32) !! Z.to_nat i) = default 32 (x !! Z.to_nat i).
Proof.
  destruct (decide (Z.to_nat i < length x)%nat); [by rewrite lookup_app_l|]. rewrite lookup_app_r by lia. rewrite (lookup_ge_None_2 x) by lia.
  destruct (decide (Z.to_nat i - length x < n)%nat); [by rewrite lookup_replicate_2|by rewrite lookup_ge_None_2 by (rewrite length_replicate; lia)].
Qed.

(** A line rewritten from column [c] on, with blanks behind it. *)
Lemma rewrite_cells (l y : list Z) (c n : nat) i : (c <= length l)%nat -> 0 <= i -> (length l <= c + length y + n)%nat ->
  default 32 ((take c l ++ y) !! Z.to_nat i) =
    if (Z.of_nat c <=? i) && (i <? Z.of_nat c + Z.of_nat (length (y ++ replicate n 32)))
    then default 32 ((y ++ replicate n 32) !! Z.to_nat (i - Z.of_nat c)) else default 32 (l !! Z.to_nat i).
Proof.
  intros Hc Hi Hl. rewrite (default_app _ _ _ (Z.of_nat c)) by (done || (rewrite length_take; lia)). rewrite length_app, length_replicate, default_spaces.
  destruct (Z.leb_spec (Z.of_nat c) i) as [H1|H1].
  - rewrite (proj2 (Z.ltb_ge i _)) by lia. cbn [andb]. destruct (Z.ltb_spec i (Z.of_nat c + Z.of_nat (length y + n))) as [H2|H2]; [done|].
    rewrite !lookup_ge_None_2 by lia. done.
  - rewrite (proj2 (Z.ltb_lt i _)) by lia. cbn [andb]. by rewrite lookup_take_lt by lia.
Qed.

Lemma at_settle s A l n : at_view s A l n -> line s = l -> 0 <= cur s <= Z.of_nat (length l) -> shown (place_cursor (find_anchor n s)).
Proof.
  intros Ha El Hc. destruct (at_anchor s A l n Ha) as [Ha' Ea]. apply (at_place _ l n); [by rewrite Ea|done|done].
Qed.

(** Neither the cursor nor the terminal is part of what is represented. *)
Lemma rep_screen hist l s s' : rep hist l s -> buf s' = buf s -> max_len s' = max_len s -> cur s' = cur s -> history s' = history s ->
  history_head s' = history_head s -> history_count s' = history_count s -> history_pos s' = history_pos s -> draft s' = draft s -> rep hist l s'.
Proof.
  intros [? ? E ? ? ? [? ? ? ? ? Hs He] ? ? ? ?] E1 E2 E3 E4 E5 E6 E7 E8. split; rewrite ?E1, ?E2, ?E3, ?E7, ?E8; try done.
  - unfold line in *. by rewrite E1, E2.
  - split; unfold slot in *; rewrite ?E4, ?E5, ?E6; done.
Qed.

Lemma take_of_line (b : list Z) c n : 0 <= c <= n -> take (Z.to_nat (n - c)) (drop (Z.to_nat c) b) = drop (Z.to_nat c) (take (Z.to_nat n) b).
Proof. intros Hc. rewrite take_drop_commute. f_equal. f_equal. lia. Qed.

(** A line put in place of the old one: the same buffers, the new text and cursor. *)
Lemma rep_line hist l s b x c : rep hist l s -> length b = 512%nat -> take (length x) b = x -> text_ok x -> (c <= length x)%nat ->
  rep hist (mkL x c (l_pos l) (l_draft l)) (with_line b (Z.of_nat (length x)) (Z.of_nat c) s).
Proof.
  intros [? ? E ? ? ? [] ? ? ? ?] Hb Hx Ht Hc. split; try done. unfold line. cbn. by rewrite Nat2Z.id.
Qed.

Lemma insert_key hist l s c : rep hist l s -> shown s -> c <> 0 -> c <> 8 -> c <> 10 -> (length (l_text l) < 511)%nat ->
  let s1 := with_line (<[Z.to_nat (cur s) := c]> (open_gap (buf s) (cur s) (max_len s))) (max_len s + 1) (cur s) s in
  let s2 := put (rest_of_line s1) s1 in
  let s' := resync true (with_cur (cur s2 + 1) s2) in
  rep hist (mkL (take (l_cur l) (l_text l) ++ c :: drop (l_cur l) (l_text l)) (l_cur l + 1) (l_pos l) (l_draft l)) s' /\ shown s'.
Proof.
  intros Hr [Hcols Hv] H0 H8 H10 Hlen s1 s2 s'. pose proof Hr as [Hb Hm El [Hx Hxl] Hc Hin _ _ _ _ _]. set (x := l_text l) in *. set (n := l_cur l) in *.
  destruct (open_gap_spec (buf s) (cur s) (max_len s) c) as [Hlb Hgap]; [lia|lia|lia|]. set (b1 := <[_ := c]> _) in *.
  rewrite take_of_line in Hgap by lia. unfold line in El. rewrite El in Hgap.
  assert (take (Z.to_nat (cur s)) (buf s) = take n x) as Etk by (rewrite <- El, take_take; f_equal; lia). rewrite Etk in Hgap.
  replace (drop (Z.to_nat (cur s)) x) with (drop n x) in Hgap by (f_equal; lia).
  set (x' := take n x ++ c :: drop n x) in *.
  assert (length x' = S (length x)) as Hlx' by (unfold x'; rewrite length_app; cbn [length]; rewrite length_take, length_drop; lia).
  assert (text_ok x') as Hx'.
  { split; [|lia]. unfold x'. apply Forall_app. split; [by apply Forall_take|]. constructor; [done|by apply Forall_drop]. }
  assert (rest_of_line s1 = c :: drop n x) as Erest.
  { unfold rest_of_line, s1. cbn. rewrite take_of_line by lia. fold b1. rewrite Hgap. unfold x'. rewrite drop_app_ge by (rewrite length_take; lia).
    rewrite length_take, Nat.min_l by lia. by replace (Z.to_nat (cur s) - n)%nat with 0%nat by lia. }
  assert (plain (rest_of_line s1)) as Hpl.
  { rewrite Erest. constructor; [done|]. apply Forall_drop, text_plain. split; [done|lia]. }
  assert (Z.of_nat (length (rest_of_line s1)) = max_len s + 1 - cur s) as Hlr by (rewrite Erest; cbn [length]; rewrite length_drop; lia).
  destruct (at_put s1 (anchor s) x (cur s) (rest_of_line s1) x') as [A' Hat].
  { split; [done|]. cbn. unfold line in Hv. by rewrite El in Hv. }
  { lia. } { done. } { lia. } { lia. }
  { intros i Hi. unfold x'. rewrite Hc. rewrite Erest. rewrite (rewrite_cells x (c :: drop n x) n 0 i) by (cbn [length]; rewrite ?length_drop; lia).
    cbn [replicate]. by rewrite app_nil_r. }
  rewrite Hlr in Hat. replace (cur s + (max_len s + 1 - cur s)) with (max_len s + 1) in Hat by lia.
  assert (rep hist (mkL x' (n + 1) (l_pos l) (l_draft l)) (with_line b1 (Z.of_nat (length x')) (Z.of_nat (n + 1)) s)) as Hrep.
  { apply rep_line; [done|by rewrite Hlb|by rewrite <- Hgap at 2; f_equal; lia|done|lia]. }
  split.
  - eapply rep_screen; [exact Hrep|..]; unfold s', resync, place_cursor, s2, s1, b1; cbn; try done; lia.
  - unfold s', resync. apply (at_settle _ A' x'); [exact Hat| |cbn; lia]. unfold line, s2, s1. cbn. fold b1. by rewrite Hgap.
Qed.

Lemma backspace_key hist l s : rep hist l s -> shown s -> 0 < cur s ->
  let s1 := place_cursor (with_line (close_gap (buf s) (cur s) (max_len s)) (max_len s - 1) (cur s - 1) s) in
  let s' := resync false (put [32] (put (rest_of_line s1) s1)) in
  rep hist (mkL (take (l_cur l - 1) (l_text l) ++ drop (l_cur l) (l_text l)) (l_cur l - 1) (l_pos l) (l_draft l)) s' /\ shown s'.
Proof.
  intros Hr [Hcols Hv] H0 s1 s'. pose proof Hr as [Hb Hm El [Hx Hxl] Hc Hin _ _ _ _ _]. set (x := l_text l) in *. set (n := l_cur l) in *.
  destruct (close_gap_spec (buf s) (cur s) (max_len s)) as [Hlb Hgap]; [lia|lia|lia|]. set (b1 := close_gap _ _ _) in *.
  rewrite take_of_line in Hgap by lia. unfold line in El. rewrite El in Hgap.
  assert (take (Z.to_nat (cur s - 1)) (buf s) = take (n - 1) x) as Etk by (rewrite <- El, take_take; f_equal; lia). rewrite Etk in Hgap.
  replace (drop (Z.to_nat (cur s)) x) with (drop n x) in Hgap by (f_equal; lia).
  set (x' := take (n - 1) x ++ drop n x) in *.
  assert (length x' = length x - 1)%nat as Hlx' by (unfold x'; rewrite length_app, length_take, length_drop; lia).
  assert (text_ok x') as Hx'. { split; [|lia]. unfold x'. apply Forall_app. split; [by apply Forall_take|by apply Forall_drop]. }
  assert (rest_of_line s1 = drop n x) as Erest.
  { unfold rest_of_line, s1. cbn. rewrite take_of_line by lia. fold b1. rewrite Hgap. unfold x'. rewrite drop_app_ge by (rewrite length_take; lia).
    rewrite length_take, Nat.min_l by lia. by replace (Z.to_nat (cur s - 1) - (n - 1))%nat with 0%nat by lia. }
  set (s0 := with_line b1 (max_len s - 1) (cur s - 1) s) in *.
  assert (at_view s0 (anchor s) x (cur s)) as Ha0 by (split; [done|]; cbn; unfold line in Hv; by rewrite El in Hv).
  assert (at_view s1 (anchor s) x (cur s - 1)) as Ha1.
  { unfold s1, place_cursor. fold s0. pose proof (vw_fit _ _ _ _ (proj2 Ha0)). pose proof (vw_small _ _ _ _ (proj2 Ha0)). pose proof (vw_low _ _ _ _ (proj2 Ha0)).
    replace (anchor s0 + cur s0) with (anchor s + (cur s - 1)) by (cbn; lia). rewrite u32_small by (cbn in *; lia). eapply at_go; [exact Ha0|lia|cbn in *; lia]. }
  assert (put [32] (put (rest_of_line s1) s1) = put (drop n x ++ replicate 1 32) s1) as Eput.
  { rewrite Erest. unfold put, say, on_con. cbn. unfold t_write. by rewrite fold_left_app. }
  unfold s'. rewrite Eput.
  destruct (at_put s1 (anchor s) x (cur s - 1) (drop n x ++ replicate 1 32) x' Ha1) as [A' Hat].
  { lia. } { apply plain_app; [|apply plain_spaces]. apply Forall_drop, text_plain. by split. }
  { rewrite length_app, length_drop. cbn. lia. } { rewrite length_app, length_drop. cbn. lia. }
  { intros i Hi. replace (cur s - 1) with (Z.of_nat (n - 1)) by lia. unfold x'. apply rewrite_cells; [lia|lia|rewrite length_drop; lia]. }
  replace (cur s - 1 + Z.of_nat (length (drop n x ++ replicate 1 32))) with (max_len s - 1 + 1) in Hat by (rewrite length_app, length_drop; cbn; lia).
  assert (rep hist (mkL x' (n - 1) (l_pos l) (l_draft l)) (with_line b1 (Z.of_nat (length x')) (Z.of_nat (n - 1)) s)) as Hrep.
  { apply rep_line; [done|by rewrite Hlb|rewrite <- Hgap at 2; f_equal; lia|done|lia]. }
  split.
  - eapply rep_screen; [exact Hrep|..]; unfold resync, place_cursor, s1, s0; cbn; try done; lia.
  - unfold resync. apply (at_settle _ A' x'); [exact Hat| |cbn; lia]. unfold line, s1, s0. cbn. by rewrite Hgap.
Qed.

Lemma replace_key hist l s e x p d : rep hist l s -> shown s -> holds e x -> (p <= length hist)%nat -> (p <> 0%nat -> holds (draft s) d) ->
  history_pos s = Z.of_nat p -> rep hist (l_show p x d) (replace_line e s) /\ shown (replace_line e s).
Proof.
  intros Hr [Hcols Hv] He Hp Hd Ep. pose proof Hr as [Hb Hm El [Hx0 Hxl0] Hc Hin Hh _ _ Hdl _]. pose proof He as (Hel & Hx & _).
  set (n := length x). pose proof Hx as [_ Hxl].
  set (b1 := x ++ drop n (buf s)). set (s0 := with_line b1 (Z.of_nat n) (Z.of_nat n) s).
  assert (take n b1 = x) as Eb by (unfold b1, n; apply take_app_length).
  set (old := l_text l) in *.
  assert (at_view s0 (anchor s) old (cur s)) as Ha0 by (split; [done|]; cbn; by rewrite El in Hv).
  pose proof (vw_fit _ _ _ _ (proj2 Ha0)) as F1. pose proof (vw_small _ _ _ _ (proj2 Ha0)) as F2. pose proof (vw_low _ _ _ _ (proj2 Ha0)) as F3.
  assert (at_view (go_to (anchor s0) s0) (anchor s) old 0) as Ha1.
  { replace (anchor s0) with (anchor s + 0) by (cbn; lia). eapply at_go; [exact Ha0|lia|cbn in *; lia]. }
  set (sp := replicate (Z.to_nat (max_len s - Z.of_nat n)) 32).
  assert (put sp (put (take (Z.to_nat (Z.of_nat n)) b1) (go_to (anchor s0) s0)) = put (x ++ sp) (go_to (anchor s0) s0)) as Eput.
  { rewrite Nat2Z.id, Eb. unfold put, say, on_con. cbn. unfold t_write. by rewrite fold_left_app. }
  assert (replace_line e s = place_cursor (find_anchor (if max_len s <? Z.of_nat n then Z.of_nat n else max_len s) (put (x ++ sp) (go_to (anchor s0) s0)))) as ->.
  { unfold replace_line. rewrite (c_bytes_holds _ e x He) by (unfold BUF_CAP; lia). by rewrite <- Eput. }
  destruct (at_put (go_to (anchor s0) s0) (anchor s) old 0 (x ++ sp) x Ha1) as [A' Hat].
  { lia. } { apply plain_app; [by apply text_plain|apply plain_spaces]. }
  { rewrite length_app. unfold sp. rewrite length_replicate. lia. } { rewrite length_app. lia. }
  { intros i Hi. apply (rewrite_cells old x 0 (Z.to_nat (max_len s - Z.of_nat n)) i); lia. }
  assert (0 + Z.of_nat (length (x ++ sp)) = if max_len s <? Z.of_nat n then Z.of_nat n else max_len s) as En.
  { rewrite length_app. unfold sp. rewrite length_replicate. destruct (Z.ltb_spec (max_len s) (Z.of_nat n)); lia. }
  rewrite En in Hat.
  assert (rep hist (mkL x n (l_pos l) (l_draft l)) s0) as Hrep.
  { apply rep_line; [done|unfold b1; rewrite length_app, length_drop; lia|done|done|lia]. }
  split.
  - destruct Hrep as [? ? ? ? ? ? [] ? ? ? ?]. split; try done.
  - apply (at_settle _ A' x); [exact Hat|unfold line; cbn; by rewrite Nat2Z.id|cbn; lia].
Qed.

Lemma move_key hist l s c : rep hist l s -> shown s -> (c <= length (l_text l))%nat ->
  rep hist (mkL (l_text l) c (l_pos l) (l_draft l)) (place_cursor (with_cur (Z.of_nat c) s)) /\ shown (place_cursor (with_cur (Z.of_nat c) s)).
Proof.
  intros Hr [Hcols Hv] Hc. pose proof Hr as [Hb Hm El Hx Hcu Hin Hh ? ? ? ?]. split.
  - destruct Hh. by split.
  - apply (at_place _ (l_text l) (cur s)); [split; [done|by rewrite El in Hv]|done|cbn; lia].
Qed.

Lemma with_pos_rep hist l s p : rep hist l s -> shown s -> rep hist (mkL (l_text l) (l_cur l) 0 []) (with_pos 0 s) /\ shown (with_pos p s).
Proof. intros [? ? ? ? ? ? [] ? ? ? ?] Hs. split; [|exact Hs]. split; try done. cbn. lia. Qed.

(** Any key but the end of the line. *)
Lemma line_key_spec hist l s c : rep hist l s -> shown s -> c <> 0 -> c <> 10 ->
  exists s', line_key c s = (false, s') /\ rep hist (l_key hist c l) s' /\ shown s'.
Proof.
  intros Hr Hs H0 H10. pose proof Hr as [Hb Hm El Hx Hc Hin Hh Hp Hbk Hd Hsv]. unfold line_key, l_key. rewrite (proj2 (Z.eqb_neq c 10)) by done.
  destruct (Z.eqb_spec c 8) as [->|H8].
  { destruct (Z.ltb_spec 0 (cur s)); eexists; (split; [reflexivity|]); [by apply backspace_key|]. split; [|done].
    assert (l_cur l = 0%nat) as E by lia. rewrite E. destruct Hr. rewrite E in *. split; try done; cbn; try lia. }
  destruct (c =? CTRL_KEY_LEFT).
  { destruct (Z.ltb_spec 0 (cur s)); eexists; (split; [reflexivity|]).
    - replace (cur s - 1) with (Z.of_nat (l_cur l - 1)) by lia. apply move_key; [done|done|lia].
    - split; [|done]. replace (l_cur l - 1)%nat with (l_cur l) by lia. by destruct l. }
  destruct (c =? CTRL_KEY_RIGHT).
  { destruct (Z.ltb_spec (cur s) (max_len s)); eexists; (split; [reflexivity|]).
    - replace (cur s + 1) with (Z.of_nat (Nat.min (length (l_text l)) (l_cur l + 1))) by lia. apply move_key; [done|done|lia].
    - split; [|done]. replace (Nat.min (length (l_text l)) (l_cur l + 1)) with (l_cur l) by lia. by destruct l. }
  destruct (c =? CTRL_KEY_UP).
  { pose proof (hr_count _ _ Hh) as Hcnt. destruct (Z.ltb_spec (history_pos s) (history_count s)); eexists; (split; [reflexivity|]).
    - destruct (lookup_lt_is_Some_2 hist (l_pos l)) as [y Hy]; [lia|]. rewrite Hy.
      set (s1 := if history_pos s =? 0 then _ else s).
      assert (rep hist l s1 /\ shown s1 /\ holds (draft s1) (if decide (l_pos l = 0%nat) then l_text l else l_draft l) /\ history_pos s1 = history_pos s) as (Hr1 & Hs1 & Hd1 & Ep1).
      { unfold s1. destruct (Z.eqb_spec (history_pos s) 0) as [E|E].
        - rewrite decide_True by lia. set (d1 := <[_ := 0]> _).
          assert (holds d1 (l_text l)) as Hd1.
          { apply holds_end; [rewrite length_app, length_drop, length_take; lia| |lia|done].
            unfold line in El. rewrite El. rewrite Hm, Nat2Z.id. apply take_app_length. }
          split; [|done]. destruct Hh. split; try done; cbn; [by destruct Hd1|lia].
        - rewrite decide_False by lia. split; [done|]. split; [done|]. split; [apply Hsv; lia|done]. }
      clearbody s1. pose proof Hr1 as [? ? ? ? ? ? [] ? ? ? ?].
      set (s2 := with_pos (history_pos s1 + 1) s1).
      assert (rep hist (mkL (l_text l) (l_cur l) (S (l_pos l)) (if decide (l_pos l = 0%nat) then l_text l else l_draft l)) s2) as Hr2.
      { apply lookup_lt_Some in Hy. split; try done; cbn; lia. }
      apply (replace_key hist _ s2 (history_entry s2) y (S (l_pos l)) _ Hr2); [done| |apply lookup_lt_Some in Hy; lia|done|cbn; lia].
      eapply slot_holds; [by destruct Hr2|exact Hy|cbn; lia].
    - rewrite lookup_ge_None_2 by lia. done. }
  destruct (c =? CTRL_KEY_DOWN).
  { destruct (Z.ltb_spec 0 (history_pos s)); eexists; (split; [reflexivity|]).
    - destruct (l_pos l) as [|p] eqn:Epos; [lia|]. set (s1 := with_pos (history_pos s - 1) s).
      assert (rep hist (mkL (l_text l) (l_cur l) p (l_draft l)) s1) as Hr1.
      { destruct Hh. split; try done; cbn; [lia|lia|]. intros _. apply Hsv. lia. }
      destruct p as [|p].
      + rewrite (proj2 (Z.eqb_eq (history_pos s1) 0)) by (cbn; lia).
        apply (replace_key hist _ s1 (draft s1) (l_draft l) 0 _ Hr1); [done|apply Hsv; lia|lia|done|cbn; lia].
      + rewrite (proj2 (Z.eqb_neq (history_pos s1) 0)) by (cbn; lia). destruct (lookup_lt_is_Some_2 hist p) as [y Hy]; [lia|].
        rewrite (list_lookup_total_correct _ _ _ Hy).
        apply (replace_key hist _ s1 (history_entry s1) y (S p) _ Hr1); [done| |lia|intros _; apply Hsv; lia|cbn; lia].
        eapply slot_holds; [by destruct Hr1|exact Hy|cbn; lia].
    - replace (l_pos l) with 0%nat by lia. done. }
  destruct (Z.ltb_spec (max_len s) (BUF_CAP - 1)) as [Hlt|Hge]; unfold BUF_CAP in *; eexists; (split; [reflexivity|]).
  - rewrite decide_True by lia. apply insert_key; [done|done|done|done|done|lia].
  - by rewrite decide_False by lia.
Qed.

(** The end of the line. *)
Lemma newline_key_spec hist l s : rep hist l s -> shown s ->
  exists s', line_key 10 s = (true, s') /\ holds (buf s') (l_text l) /\ hist_rep hist s' /\ length (draft s') = 512%nat /\ dir (w s') = dir (w s) /\ kern (w s') = kern (w s).
Proof.
  intros [Hb Hm El Hx Hc Hin [] Hp Hbk Hd Hsv] Hs. unfold line_key. change (10 =? 10) with true. eexists. split; [reflexivity|]. split; [|by split; [split|]].
  cbn. apply holds_end; [done| |lia|done]. exact El.
Qed.

(** ** A terminal ready for a line

    Nothing stands behind the cursor, and a full line fits on the screen with a
    row to spare. *)
Record ready (t : term) : Prop := mkReady {
  rd_in : t_in t; rd_room : 512 <= size t - t_cols t; rd_small : size t < 2147483648;
  rd_blank : forall p, spot t <= p < size t -> at_spot t p = Some 32 }.

Lemma typed_ready x k t t' : ready t -> typed x k t t' -> ready t'.
Proof.
  intros [Hi Hr Hs Hb] [Hi' Ec Er Hk Hl Hp Hcells]. assert (size t' = size t) as Ez by (unfold size; by rewrite Ec, Er).
  pose proof (spot_range t Hi). pose proof Hi as [[Hcl _ _] _ _]. split; rewrite ?Ez, ?Ec; try done. intros p Hpp. rewrite Hp in Hpp.
  pose proof (spot_range t' Hi'). rewrite Hcells by lia. cbv zeta. destruct (_ && _) eqn:E; [out_of E|].
  destruct (Z.ltb_spec (p + k * t_cols t) (size t)); [|done]. apply Hb. lia.
Qed.

Lemma write_ready colr x t : (colr <? PALETTE_SIZE) = true -> plain x -> ready t -> ready (t_write colr x t) /\ t_cols (t_write colr x t) = t_cols t.
Proof.
  intros Hc Hx Hr. destruct (write_typed colr x t Hc Hx) as [k Hk]; [by destruct Hr|]. split; [by eapply typed_ready|by apply (ty_cols _ _ _ _ Hk)].
Qed.

Lemma newline_ready t : ready t -> ready (t_char 10 WHITE t) /\ t_cols (t_char 10 WHITE t) = t_cols t.
Proof.
  intros [Hi Hr Hs Hb]. pose proof Hi as [[Hcl Hrw Hlen] Hrow Hcol]. pose proof (spot_range t Hi). unfold t_char. cbn [Z.eqb Pos.eqb]. unfold t_newrow. cbn [t_look t_row t_rows t_cols t_col].
  destruct (Z.ltb_spec (t_row t + 1) (t_rows t)) as [Hlt|Hge]; (split; [|done]); unfold t_move, t_scroll; cbn [t_look t_row t_rows t_cols t_col t_past t_screen t_view t_scrollable].
  - split; cbn; try done; [split; cbn; [by split|lia|lia]|]. intros p Hp. apply Hb. unfold spot, size in *. cbn in *. nia.
  - split; cbn; try done.
    + split; cbn; [split; cbn; [done|done|]|lia|lia]. rewrite length_app, length_drop, length_replicate. nia.
    + intros p Hp. unfold spot, size, at_spot in *. cbn in *. rewrite lookup_app_r by (rewrite length_drop; nia).
      rewrite lookup_replicate_2; [done|]. rewrite length_drop. nia.
Qed.

Lemma newline_view t A x : view t A x (Z.of_nat (length x)) -> ready t.
Proof.
  intros [Hi Hr Hs HA Hf Hp Hcells]. split; try done. intros p Hpp. replace p with (A + (p - A)) by lia. rewrite Hcells by lia.
  by rewrite lookup_ge_None_2 by lia.
Qed.

Lemma ready_view t : ready t -> view t (spot t) [] 0.
Proof.
  intros [Hi Hr Hs Hb]. pose proof (spot_range t Hi). split; try done; [lia|cbn; lia|lia|]. intros i Hi0 Hlt. rewrite Hb by lia. done.
Qed.

(** ** The prompt *)

(** Between two lines. *)
Record idle (hist : list (list Z)) s : Prop := mkIdle {
  id_buf : length (buf s) = 512%nat; id_draft : length (draft s) = 512%nat; id_hist : hist_rep hist s;
  id_cols : screen_cols s = t_cols (con (w s)); id_ready : ready (con (w s)); id_dir : plain (dir (w s)) }.

Definition l_start : ledit := mkL [] 0 0 [].

(** What the prompt writes. *)
Definition prompt_term (d : list Z) (t : term) : term :=
  t_write LIGHT_BLUE (bytes_of " $ ") (t_write LIGHT_BLUE d (t_write WHITE [32]
    (t_write GREEN (bytes_of "localhost") (t_write GREEN [64] (t_write GREEN (bytes_of "UNKNOWN") t))))).

Lemma prompt_ready d t : ready t -> plain d -> ready (prompt_term d t) /\ t_cols (prompt_term d t) = t_cols t.
Proof.
  intros Hr Hd. unfold prompt_term.
  assert (forall colr x t0, (colr <? PALETTE_SIZE) = true -> plain x -> ready t0 /\ t_cols t0 = t_cols t ->
    ready (t_write colr x t0) /\ t_cols (t_write colr x t0) = t_cols t) as Hw.
  { intros colr x t0 Hc Hx [Hr0 E]. rewrite <- E. by apply write_ready. }
  repeat (apply Hw; [reflexivity|try done; repeat constructor; done|]). by split.
Qed.

Lemma prompt_eq s : prompt s = with_line (buf s) 0 (cur s) (find_anchor 0 (with_w (mkW (prompt_term (dir (w s)) (con (w s))) (kern (w s)) (dir (w s))) s)).
Proof.
  destruct s as [? ? ? ? ? ? ? ? ? ? [t k d]].
  cbv beta iota zeta delta [prompt prompt_term find_anchor with_anchor with_line put_color put say on_con with_w w con kern dir Shell.buf Shell.history Shell.draft Shell.history_head Shell.history_count Shell.history_pos Shell.max_len Shell.anchor Shell.screen_cols Shell.cur].
  reflexivity.
Qed.
#[local] Opaque prompt_term.

Lemma prompt_spec hist s : idle hist s ->
  let s0 := with_pos 0 (with_cur 0 (prompt s)) in rep hist l_start s0 /\ shown s0 /\ dir (w s0) = dir (w s) /\ kern (w s0) = kern (w s).
Proof.
  intros [Hb Hd [] Hc Hr Hp]. destruct (prompt_ready _ _ Hr Hp) as [Hr' Ec]. cbv zeta. rewrite prompt_eq. set (t' := prompt_term _ _) in *. clearbody t'.
  split; [|split; [|done]].
  - split; try done; cbn; try lia. split; [constructor|cbn; lia].
  - pose proof (ready_view _ Hr') as Hv. split; [cbn; by rewrite Ec|]. unfold line. cbn. rewrite take_0.
    pose proof (spot_range _ (rd_in _ Hr')) as Hsp. pose proof (rd_small _ Hr'). rewrite Hc, <- Ec. unfold spot in *. rewrite Z.sub_0_r, u32_small by lia. done.
Qed.

(** ** The keys of a line *)

Definition key_ok (c : Z) : Prop := c <> 0 /\ c <> 10.
Definition line_keys (keys : list Z) s : sh := fold_left (fun s c => (line_key c s).2) keys s.
Definition l_keys (hist : list (list Z)) (keys : list Z) (l : ledit) : ledit := fold_left (fun l c => l_key hist c l) keys l.

Lemma line_keys_spec hist keys l s rest : Forall key_ok keys -> rep hist l s -> shown s ->
  read_keys (keys ++ rest) s = read_keys rest (line_keys keys s) /\ rep hist (l_keys hist keys l) (line_keys keys s) /\ shown (line_keys keys s).
Proof.
  intros Hk. revert l s. induction Hk as [|c keys [H0 H10] _ IH]; intros l s Hr Hs; [done|].
  destruct (line_key_spec hist l s c Hr Hs H0 H10) as (s' & E & Hr' & Hs'). cbn. rewrite E. by apply IH.
Qed.

(** The line editor touches the terminal alone. *)
Lemma line_key_quiet c s :
  dir (w (line_key c s).2) = dir (w s) /\ kern (w (line_key c s).2) = kern (w s) /\ screen_cols (line_key c s).2 = screen_cols s.
Proof. unfold line_key. repeat case_match; cbn; try done. Qed.

Lemma line_keys_quiet keys s :
  dir (w (line_keys keys s)) = dir (w s) /\ kern (w (line_keys keys s)) = kern (w s) /\ screen_cols (line_keys keys s) = screen_cols s.
Proof.
  revert s. induction keys as [|c keys IH]; intros s; [done|]. change (line_keys (c :: keys) s) with (line_keys keys (line_key c s).2). destruct (IH (line_key c s).2) as (-> & -> & ->). apply line_key_quiet.
Qed.

Lemma newline_key_ready hist l s : rep hist l s -> shown s -> ready (con (w (line_key 10 s).2)) /\ t_cols (con (w (line_key 10 s).2)) = screen_cols s.
Proof.
  intros Hr [Hc Hv]. pose proof Hr as [Hb Hm El Hx _ _ _ _ _ _ _]. unfold line_key. cbn [Z.eqb Pos.eqb snd].
  set (s1 := with_line _ _ _ s). assert (line s1 = line s) as E1.
  { unfold line, s1. cbn. by rewrite take_insert_ge by lia. }
  assert (shown (place_cursor s1)) as [Hc1 Hv1].
  { apply (at_place _ (line s) (cur s)); [by split|done|]. rewrite El. cbn. lia. }
  assert (ready (con (w (place_cursor s1)))) as Hrd.
  { eapply (newline_view _ (anchor (place_cursor s1)) (line s1)). change (line (place_cursor s1)) with (line s1) in Hv1.
    replace (Z.of_nat (length (line s1))) with (cur (place_cursor s1)); [done|]. rewrite E1, El. cbn. done. }
  destruct (newline_ready _ Hrd) as [H1 H2]. unfold put, say, on_con. cbn [w con with_w]. cbn [t_write fold_left]. split; [done|]. rewrite H2. by rewrite <- Hc1.
Qed.

(** ** The history *)

(** A line that differs from the newest is the newest; 32 are kept. *)
Definition l_remember (hist : list (list Z)) (x : list Z) : list (list Z) :=
  if decide (head hist = Some x) then hist else take 32 (x :: hist).

Lemma newest_holds hist s : hist_rep hist s -> holds (slot s 1) (default [] (head hist)).
Proof. intros Hh. destruct hist as [|x hist]; [by apply (hr_empty _ _ Hh)|by apply (hr_slots _ _ Hh 0%nat)]. Qed.

Lemma holds_store e x : length e = 512%nat -> text_ok x -> holds (x ++ 0 :: drop (S (length x)) e) x.
Proof.
  intros He Hx. split; [|split; [done|by eexists]]. destruct Hx as [_ Hl]. rewrite length_app. cbn [length]. rewrite length_drop. lia.
Qed.

Lemma store_slots hist s x : hist_rep hist s -> text_ok x -> head hist <> Some x ->
  let e := x ++ 0 :: drop (S (length x)) (history s !!! Z.to_nat (history_head s)) in
  hist_rep (take 32 (x :: hist)) (with_history (<[Z.to_nat (history_head s) := e]> (history s)) ((history_head s + 1) mod HISTORY_CAP)
    (if history_count s <? HISTORY_CAP then history_count s + 1 else history_count s) s).
Proof.
  intros [Hl Hh Hc Hcap Hsz Hsl _] Hx Hne e. unfold HISTORY_CAP in *.
  assert (length (history s !!! Z.to_nat (history_head s)) = 512%nat) as He0.
  { eapply (Forall_lookup_1 _ _ _ _ Hsz). apply list_lookup_lookup_total_lt. lia. }
  pose proof (holds_store _ x He0 Hx) as He. fold e in He. pose proof (Z.mod_pos_bound (history_head s + 1) 32 eq_refl).
  split; cbn [with_history history history_head history_count]; try done.
  - by rewrite length_insert.
  - rewrite length_take. cbn [length]. destruct (Z.ltb_spec (history_count s) 32); lia.
  - rewrite length_take. lia.
  - apply Forall_insert; [done|]. by destruct He.
  - intros p y Hp. pose proof (lookup_lt_Some _ _ _ Hp) as Hlt. rewrite length_take in Hlt. rewrite lookup_take_lt in Hp by lia.
    unfold slot in *. cbn [with_history history history_head history_count]. unfold HISTORY_CAP in *. destruct p as [|p].
    + injection Hp as <-. replace (Z.to_nat _) with (Z.to_nat (history_head s)) at 1.
      * rewrite list_lookup_total_insert_eq by lia. done.
      * f_equal. Z.div_mod_to_equations. lia.
    + cbn in Hp. specialize (Hsl p y Hp).
      replace (((history_head s + 1) mod 32 + 32 - (Z.of_nat (S p) + 1)) mod 32) with ((history_head s + 32 - (Z.of_nat p + 1)) mod 32) by (Z.div_mod_to_equations; lia).
      rewrite list_lookup_total_insert_ne; [done|]. cbn [length] in Hlt. Z.div_mod_to_equations. lia.
Qed.

Lemma remember_spec hist s x : hist_rep hist s -> holds (buf s) x -> x <> [] ->
  hist_rep (l_remember hist x) (remember s) /\ buf (remember s) = buf s /\ draft (remember s) = draft s /\ w (remember s) = w s /\ screen_cols (remember s) = screen_cols s.
Proof.
  intros Hh Hb Hne. pose proof Hh as [_ Hhd _ _ _ _ _]. pose proof (newest_holds _ _ Hh) as Hn. unfold remember, l_remember.
  change (history s !!! Z.to_nat ((history_head s + HISTORY_CAP - 1) mod HISTORY_CAP)) with (slot s 1).
  rewrite (streq_spec _ _ _ _ (cstr_holds _ _ Hn) (cstr_holds _ _ Hb)). cbn [default from_option id].
  assert (bool_decide (default [] (head hist) = x) = bool_decide (head hist = Some x)) as ->.
  { apply bool_decide_ext. destruct (head hist); cbn; split; congruence. }
  case_bool_decide as Hd; [by rewrite decide_True|]. rewrite decide_False by done. split; [|done].
  rewrite (c_bytes_holds _ _ _ Hb) by (unfold BUF_CAP; lia). apply store_slots; [done|by destruct Hb as (_ & ? & _)|done].
Qed.

(** ** The command *)

(** The first word, and what comes behind the space that ends it. *)
Definition words (x cmd args : list Z) : Prop := (x = cmd ++ 32 :: args \/ (x = cmd /\ args = [])) /\ 32 ∉ cmd.

Lemma split_words x : Forall (fun c => c <> 0 /\ c <> 8 /\ c <> 10) x -> words x (split x).1 (split x).2.
Proof.
  induction 1 as [|c x Hc _ [IH Hn]]; [split; [by right|apply not_elem_of_nil]|]. cbn. destruct (Z.eqb_spec c 32) as [->|H32]; [split; [by left|apply not_elem_of_nil]|].
  rewrite (proj2 (Z.eqb_neq c 0)) by lia. destruct (split x) as [cmd args]. cbn in *. split; [|by apply not_elem_of_cons]. destruct IH as [->|[-> ->]]; [by left|by right].
Qed.

(** The command of the table with this name, or a message. *)
Definition command (apps : list App) (cmd args : list Z) (w1 : world) : option world :=
  match find (fun a => bool_decide (bytes_of a.1 = cmd)) apps with
  | Some a => a.2 args w1
  | None => Some (say (bytes_of "command " ++ [34] ++ cmd ++ [34] ++ bytes_of " not found" ++ [10]) w1)
  end.

Lemma put_app a b s : put b (put a s) = put (a ++ b) s.
Proof. unfold put, say, on_con. cbn. unfold t_write. by rewrite fold_left_app. Qed.

Lemma run_line_spec apps s x : holds (buf s) x ->
  run_line apps s = (w' ← command apps (split x).1 (split x).2 (w s); Some (with_w w' (with_line (<[length (split x).1 := 0]> (buf s)) (max_len s) (cur s) s))).
Proof.
  intros Hb. unfold run_line, command. rewrite (c_bytes_holds _ _ _ Hb) by (unfold BUF_CAP; lia). destruct (split x) as [cmd args]. cbn [fst snd].
  case_match; [by case_match|]. cbn [mbind option_bind]. f_equal. rewrite !put_app. unfold put. by rewrite <- !app_assoc.
Qed.

(** A whole line. *)
Lemma read_line_spec hist s keys : idle hist s -> Forall key_ok keys ->
  exists s1, read_line (keys ++ [10]) (prompt s) = Some s1 /\ idle hist s1 /\ holds (buf s1) (l_text (l_keys hist keys l_start)) /\
    dir (w s1) = dir (w s) /\ kern (w s1) = kern (w s) /\ t_cols (con (w s1)) = t_cols (con (w s)).
Proof.
  intros Hi Hk. destruct (prompt_spec hist s Hi) as (Hr & Hs & Ed & Ek). unfold read_line. set (s0 := with_pos 0 _) in *.
  assert (screen_cols s0 = screen_cols s) as Ec by done. clearbody s0.
  destruct (line_keys_spec hist keys _ s0 [10] Hk Hr Hs) as (E & Hr' & Hs'). rewrite E. destruct (line_keys_quiet keys s0) as (Ed1 & Ek1 & Ec1).
  set (s' := line_keys keys s0) in *. clearbody s'.
  destruct (newline_key_spec _ _ _ Hr' Hs') as (s1 & E1 & Hb & Hh & Hd & Ed2 & Ek2). destruct (newline_key_ready _ _ _ Hr' Hs') as [Hrd Hc].
  destruct (line_key_quiet 10 s') as (_ & _ & Ec2). exists s1. cbn [read_keys]. rewrite E1 in *. cbn [snd] in *. destruct Hi as [_ _ _ Hcs _ Hpl].
  split; [done|]. split; [|split; [done|split; [congruence|split; congruence]]]. split; [by destruct Hb|done|done|congruence|done|]. rewrite Ed2, Ed1, Ed. done.
Qed.

Lemma holds_head e x : holds e x -> bool_decide (head e = Some 0) = bool_decide (x = []).
Proof.
  intros (_ & [Hx _] & r & ->). apply bool_decide_ext. destruct Hx as [|c x Hc _]; cbn; [done|]. split; [intros [=]; lia|done].
Qed.

(** A round: the line, then the command in a state that remembers it. *)
Lemma round_eq apps hist s keys : idle hist s -> Forall key_ok keys ->
  let x := l_text (l_keys hist keys l_start) in
  exists s1 s2, idle hist s1 /\ text_ok x /\ dir (w s1) = dir (w s) /\ kern (w s1) = kern (w s) /\ t_cols (con (w s1)) = t_cols (con (w s)) /\
    shell_round apps (keys ++ [10]) s =
      (if bool_decide (x = []) then Some s1 else w2 ← command apps (split x).1 (split x).2 (w s1); Some (with_w w2 s2)) /\
    forall w2, x <> [] -> ready (con w2) -> plain (dir w2) -> t_cols (con w2) = t_cols (con (w s1)) -> idle (l_remember hist x) (with_w w2 s2).
Proof.
  intros Hi Hk x. destruct (read_line_spec hist s keys Hi Hk) as (s1 & E & Hi1 & Hb & Ed & Ek & Ec). fold x in Hb.
  exists s1, (with_line (<[length (split x).1 := 0]> (buf (remember s1))) (max_len (remember s1)) (cur (remember s1)) (remember s1)).
  unfold shell_round. rewrite E. cbn [mbind option_bind]. rewrite (holds_head _ _ Hb). pose proof Hi1 as [Hbl Hdl Hh Hc Hrd Hpl].
  split; [done|]. split; [by destruct Hb as (_ & ? & _)|]. do 3 (split; [done|]). split.
  - case_bool_decide as Hx; [done|]. destruct (remember_spec hist s1 x Hh Hb Hx) as (_ & Eb & _ & Ew & _).
    rewrite (run_line_spec _ _ x) by (by rewrite Eb). by rewrite Ew.
  - intros w2 Hx Hr2 Hp2 Hc2. destruct (remember_spec hist s1 x Hh Hb Hx) as ([] & Eb & Ed' & Ew & Es).
    split; cbn; [rewrite length_insert; congruence|congruence|by split|congruence|done|done].
Qed.

(** C19. One round of the shell.  From any state between two lines, with any
    keys but the null byte up to the newline, the shell reads the line the
    reference editor makes of the keys and the history.  An empty line changes
    nothing but the terminal.  Any other line becomes the newest of the history,
    unless it is so already, and its first word names the command that runs with
    the rest as arguments, on the kernel and the directory as they were; a word
    that names none is reported. *)
Theorem shell_round_correct apps hist s keys : idle hist s -> Forall key_ok keys ->
  let x := l_text (l_keys hist keys l_start) in
  exists w1, dir w1 = dir (w s) /\ kern w1 = kern (w s) /\ ready (con w1) /\ t_cols (con w1) = t_cols (con (w s)) /\
    (x = [] -> exists s', shell_round apps (keys ++ [10]) s = Some s' /\ idle hist s' /\ w s' = w1) /\
    (x <> [] -> exists cmd args, words x cmd args /\
       match command apps cmd args w1 with
       | None => shell_round apps (keys ++ [10]) s = None
       | Some w2 => exists s', shell_round apps (keys ++ [10]) s = Some s' /\ w s' = w2 /\
           (ready (con w2) -> plain (dir w2) -> t_cols (con w2) = t_cols (con w1) -> idle (l_remember hist x) s')
       end).
Proof.
  intros Hi Hk x. destruct (round_eq apps hist s keys Hi Hk) as (s1 & s2 & Hi1 & [Hx _] & Ed & Ek & Ec & E & Hn). fold x in Hx, E, Hn.
  exists (w s1). rewrite E. do 2 (split; [done|]). split; [by destruct Hi1|]. split; [done|]. split; intros Hne.
  - rewrite bool_decide_true by done. by exists s1.
  - rewrite bool_decide_false by done. exists (split x).1, (split x).2. split; [by apply split_words|].
    destruct (command _ _ _ _) as [w2|]; [|done]. eexists. split; [reflexivity|]. split; [done|]. by apply Hn.
Qed.

(** ** A session *)

Definition calm (n : Z) (w1 : world) : Prop := ready (con w1) /\ plain (dir w1) /\ t_cols (con w1) = n.

(** A command that returns leaves the terminal ready for the next line. *)
Definition tidy (n : Z) (a : App) : Prop := forall args w1, calm n w1 -> exists w2, a.2 args w1 = Some w2 /\ calm n w2.

Definition session (apps : list App) (lines : list (list Z)) s : option sh :=
  fold_left (fun r keys => s ← r; shell_round apps (keys ++ [10]) s) lines (Some s).

Definition l_round (hist : list (list Z)) (keys : list Z) : list (list Z) :=
  let x := l_text (l_keys hist keys l_start) in if bool_decide (x = []) then hist else l_remember hist x.

Lemma say_calm n x w1 : plain x -> calm n w1 -> calm n (say (x ++ [10]) w1).
Proof.
  intros Hx (Hr & Hd & <-). destruct (write_ready WHITE x _ eq_refl Hx Hr) as [H1 E1]. destruct (newline_ready _ H1) as [H2 E2].
  unfold calm, say, on_con. cbn [con dir]. unfold t_write. rewrite fold_left_app. cbn [fold_left]. split; [done|split; [done|]]. by rewrite <- E1.
Qed.

Lemma command_calm n apps cmd args w1 : Forall (tidy n) apps -> plain cmd -> calm n w1 -> exists w2, command apps cmd args w1 = Some w2 /\ calm n w2.
Proof.
  intros Ha Hc Hw. unfold command. case_match eqn:E.
  - apply find_some in E as [Hin _]. rewrite Forall_forall in Ha. apply Ha; [by apply list_elem_of_In|done].
  - eexists. split; [reflexivity|]. rewrite !app_assoc. apply say_calm; [|done].
    repeat (apply plain_app; [|repeat constructor; done]). repeat constructor; done.
Qed.

Lemma round_idle n apps hist s keys : Forall (tidy n) apps -> idle hist s -> t_cols (con (w s)) = n -> Forall key_ok keys ->
  exists s', shell_round apps (keys ++ [10]) s = Some s' /\ idle (l_round hist keys) s' /\ t_cols (con (w s')) = n.
Proof.
  intros Ha Hi Hn Hk. destruct (round_eq apps hist s keys Hi Hk) as (s1 & s2 & Hi1 & Hx & Ed & Ek & Ec & E & Hnext). unfold l_round. cbv zeta in *.
  rewrite E. case_bool_decide as He; [exists s1; split; [done|split; [done|congruence]]|].
  destruct (command_calm n apps (split (l_text (l_keys hist keys l_start))).1 (split (l_text (l_keys hist keys l_start))).2 (w s1) Ha) as (w2 & E2 & Hr2 & Hp2 & Hc2).
  - destruct (split_words _ (proj1 Hx)) as [[Ex|[Ex _]] _]; apply text_plain in Hx; rewrite Ex in Hx; [by apply Forall_app in Hx as [? _]|done].
  - destruct Hi1. split; [done|]. split; [done|congruence].
  - rewrite E2. eexists. split; [reflexivity|]. split; [apply Hnext; congruence|done].
Qed.

(** C7. However a line is typed, the shell shows it.  From any state between two
    lines, after any keys but the null byte and the newline, insertions,
    deletions, cursor keys and lines recalled from the history among them, the
    arrays hold the line of the reference editor, and the terminal shows that
    line from the anchor on, blanks up to the end of the screen behind it, and
    the cursor on its place in the line, also where the line has grown over the
    last row and scrolled the screen. *)
Theorem shell_shows_line hist s keys rest : idle hist s -> Forall key_ok keys ->
  let s' := line_keys keys (with_pos 0 (with_cur 0 (prompt s))) in
  read_line (keys ++ rest) (prompt s) = read_keys rest s' /\
  rep hist (l_keys hist keys l_start) s' /\ view (con (w s')) (anchor s') (l_text (l_keys hist keys l_start)) (Z.of_nat (l_cur (l_keys hist keys l_start))).
Proof.
  intros Hi Hk s'. destruct (prompt_spec hist s Hi) as (Hr & Hs & _). destruct (line_keys_spec hist keys _ _ rest Hk Hr Hs) as (E & Hr' & _ & Hv).
  split; [exact E|]. split; [done|]. fold s' in Hr', Hv. by rewrite <- (rp_line _ _ _ Hr'), <- (rp_cur _ _ _ Hr').
Qed.

(** A session never ends by itself.  When every command returns and leaves the
    terminal ready, the shell takes any sequence of lines: every round ends
    between two lines again, the history holds the lines entered, newest first,
    without one entered twice in a row and at most 32. *)
Theorem shell_session_history n apps lines hist s : Forall (tidy n) apps -> idle hist s -> t_cols (con (w s)) = n -> Forall (Forall key_ok) lines ->
  exists s', session apps lines s = Some s' /\ idle (fold_left l_round lines hist) s'.
Proof.
  intros Ha Hi Hn Hl. revert hist s Hi Hn. induction Hl as [|keys lines Hk _ IH]; intros hist s Hi Hn; [by exists s|].
  destruct (round_idle n apps hist s keys Ha Hi Hn Hk) as (s' & E & Hi' & Hn'). destruct (IH _ _ Hi' Hn') as (s2 & E2 & Hi2).
  exists s2. split; [|done]. unfold session in *. cbn [fold_left mbind option_bind]. by rewrite E.
Qed.

(** The shell starts between two lines. *)
Lemma first_idle w1 : ready (con w1) -> plain (dir w1) -> idle [] (first_sh w1).
Proof.
  intros Hr Hd. assert (holds (replicate 512 0) []) as Hz by (split; [done|]; split; [split; [constructor|cbn; lia]|by eexists]).
  split; try done. split; try done; [cbn; lia|apply Forall_replicate; reflexivity].
Qed.

End spec.

(** ** Numbers *)

(** The number a text of digits denotes. *)
Definition number (x : list Z) : Z := fold_left (fun a c => a * 10 + (c - 48)) x 0.

Lemma digits_number fuel n : 0 <= n < 10 ^ Z.of_nat fuel -> number (rev (digits fuel n)) = n.
Proof.
  unfold number. rewrite <- fold_left_rev_right, rev_involutive. revert n. induction fuel as [|fuel IH]; intros n Hn; [cbn in *; lia|].
  rewrite Nat2Z.inj_succ, Z.pow_succ_r in Hn by lia. pose proof (Z.div_mod n 10). pose proof (Z.mod_pos_bound n 10 eq_refl).
  assert (0 <= n / 10 < 10 ^ Z.of_nat fuel) as Hd by (split; [apply Z.div_pos; lia|apply Z.div_lt_upper_bound; lia]).
  cbn. destruct (Z.ltb_spec 0 (n / 10)); cbn; [rewrite IH by done; lia|lia].
Qed.

Lemma digits_length fuel n : (length (digits fuel n) <= fuel)%nat.
Proof. revert n. induction fuel as [|fuel IH]; intros n; [done|]. cbn. specialize (IH (n / 10)). destruct (0 <? n / 10); cbn; lia. Qed.

(** The number printed is the number given, and [out] has room for it. *)
Lemma uint32_text_correct n : 0 <= n < 2 ^ 32 -> number (uint32_text n) = n /\ (length (uint32_text n) <= 11)%nat.
Proof. intros Hn. split; [apply digits_number; lia|]. unfold uint32_text. rewrite length_rev. pose proof (digits_length 10 n). lia. Qed.

Lemma number_zeros k x : number (replicate k 48 ++ x) = number x.
Proof. unfold number. rewrite fold_left_app. f_equal. induction k; [done|done]. Qed.

Lemma uint64_pad_text_correct n width : 0 <= n < 2 ^ 64 ->
  number (uint64_pad_text n width) = n /\ (length (digits 20 n) <= 21)%nat /\ Z.of_nat (length (uint64_pad_text n width)) = Z.max width (Z.of_nat (length (digits 20 n))).
Proof.
  intros Hn. unfold uint64_pad_text. split; [rewrite number_zeros; apply digits_number; lia|]. pose proof (digits_length 20 n).
  rewrite length_app, length_replicate, length_rev. lia.
Qed.

(** ** A shell with two commands *)

Definition empty_term : term := mkTerm 80 25 [] (replicate 2000 blank) 0 0 0 true.
Definition first_world : world := mkW empty_term ([] : list Z) [47].

Lemma empty_ready : ready empty_term.
Proof.
  split; [split; cbn; [split; cbn; [done|done|]|lia|lia]|done|done|].
  - reflexivity.
  - intros p Hp. unfold at_spot, empty_term, spot, size in *. cbn [t_screen t_row t_col t_rows t_cols] in *. by rewrite lookup_replicate_2 by lia.
Qed.

Definition two_apps : list (@Shell.App (list Z)) :=
  [("echo", fun args w1 => Some (say (args ++ [10]) w1)); ("fail", fun _ _ => None)].
Definition one_app : list (@Shell.App (list Z)) := [("version", fun _ w1 => Some (say (bytes_of "1" ++ [10]) w1))].

Lemma first_world_idle : idle [] (first_sh first_world).
Proof. apply first_idle; [apply empty_ready|repeat constructor; done]. Qed.

(** The text [b], the cursor moved left over it, [a] before it, a letter too much
    and rubbed out. *)
Definition some_keys : list Z := [98; CTRL_KEY_LEFT; 97; 120; 8].

Lemma shell_shows_line_witness :
  let s' := line_keys some_keys (with_pos 0 (with_cur 0 (prompt (first_sh first_world)))) in view (con (w s')) (anchor s') [97; 98] 1.
Proof. apply (shell_shows_line [] (first_sh first_world) some_keys []); [apply first_world_idle|repeat constructor; done]. Defined.

Lemma shell_round_correct_witness : exists w1, kern w1 = [] /\
  exists cmd args, words (bytes_of "echo a") cmd args /\
    match command two_apps cmd args w1 with
    | None => shell_round two_apps (bytes_of "echo a" ++ [10]) (first_sh first_world) = None
    | Some w2 => exists s', shell_round two_apps (bytes_of "echo a" ++ [10]) (first_sh first_world) = Some s' /\ w s' = w2
    end.
Proof.
  destruct (shell_round_correct two_apps [] (first_sh first_world) (bytes_of "echo a")) as (w1 & _ & E & _ & _ & _ & Hne);
    [apply first_world_idle|repeat constructor; done|].
  exists w1. split; [exact E|]. destruct Hne as (cmd & args & Hw & Hm); [done|]. exists cmd, args. split; [exact Hw|].
  destruct (command two_apps cmd args w1); [|exact Hm]. destruct Hm as (s' & E1 & E2 & _). exists s'. by split.
Defined.

Lemma shell_session_history_witness : exists s', session one_app [bytes_of "version"; []; bytes_of "version"; [CTRL_KEY_UP; 33]] (first_sh first_world) = Some s' /\
  idle [bytes_of "version!"; bytes_of "version"] s'.
Proof.
  destruct (shell_session_history 80 one_app [bytes_of "version"; []; bytes_of "version"; [CTRL_KEY_UP; 33]] [] (first_sh first_world)) as (s' & E & Hi);
    [|apply first_world_idle|done|repeat constructor; done|].
  2: { exists s'. split; [exact E|]. assert (fold_left l_round [bytes_of "version"; []; bytes_of "version"; [CTRL_KEY_UP; 33]] [] = [bytes_of "version!"; bytes_of "version"]) as Eh by (vm_compute; reflexivity).
       rewrite Eh in Hi. exact Hi. }
  constructor; [|constructor]. intros args w1 Hw. eexists. split; [reflexivity|]. apply say_calm; [repeat constructor; done|done].
Defined.
