(* ===== verification/Commands.v ===== *)
(** * The commands of the shell: user/app/depsh/cmds

    Each command acts on the terminal, the kernel and the [dir] of the shell; it
    is a computation over [world], in which [Fault] is an access outside of an
    array or through a null pointer and [OutOfFuel] a bound of the model.  An
    argument is a C string; the commands cut it in place, and the shell does not
    look at it again.  [stat0] is what [stat_buf] holds before the command. *)
From S2P Require Import Prelude Bytes CLib Dates Scheduler Inode Screen ScreenSpec User Shell.

(** ** The calls the commands make besides those of the editor *)

Class CommandKernel (K : Type) : Type := {
  #[global] ck_files :: UserKernel K;
  ck_mkdir : Z -> Z -> list Z -> K -> Z * Z * K;
  ck_rm_inode : Z -> Z -> list Z -> K -> Z * K;
  ck_rm_dir : Z -> Z -> list Z -> K -> Z * K;
  ck_fappend : Z -> Z -> list Z -> K -> Z * K;
  ck_ftrunc : Z -> Z -> Z -> K -> Z * K;
  ck_fmove : Z -> Z -> Z -> list Z -> list Z -> K -> Z * K;
  ck_lmake_hard : Z -> Z -> Z -> Z -> list Z -> K -> Z * K;
  ck_lmake_sym : Z -> Z -> list Z -> list Z -> K -> Z * K;
  ck_is_mountpoint : Z -> Z -> K -> Z;
  ck_mount : list Z -> K -> Z * K;
  ck_umount : list Z -> K -> Z * K;
  ck_epoch : K -> Z;
  ck_halt : K -> K
}.

Section commands.
Context {K : Type} `{CommandKernel K} (stat0 : list Z).
Local Abbreviation world := (@User.world K).
Local Abbreviation CM := (M world).

(** A question to the kernel, and a call that changes it. *)
Definition ask {A} (f : K -> A) : CM A := let* w := getM in retM (f (kern w)).
Definition act {A} (f : K -> A * K) : CM A :=
  let* w := getM in let (a, k) := f (kern w) in modM (set_kern k) ;;; retM a.

Definition write (s : list Z) : CM unit := modM (say s).
(** A message that ends in a newline. *)
Definition tell (s : string) : CM unit := write (line s).
Definition puts (s : string) : CM unit := write (bytes_of s).

Definition failed (r : Z) : bool := r =? SYSCALL_ERROR.

(** [return_path] on the current directory; [None] is [NULL]. *)
Definition path_of (args : list Z) : CM (option (list Z)) :=
  let* w := getM in
  match return_path (dir w) args with
  | PathIs p => retM (Some p)
  | PathTooLong => retM None
  | PathOverrun => haltM Fault
  end.

Definition is_dirM (ino fs : Z) : CM bool := ask (is_dir stat0 ino fs).

(** The option a command line begins with, and what follows it; [split] of the
    shell cuts at the first space. *)
Definition take_flag (args : list Z) : list Z * list Z :=
  if bool_decide (head args = Some 45) then split args else ([], args).

(** A path cut at its last slash; a store before the path when it has none. *)
Definition cut_path (path : list Z) : CM (list Z * list Z) :=
  let last := last_slash path in
  if last <? 0 then haltM Fault
  else retM (if last =? 0 then [SLASH] else take (Z.to_nat last) path, drop (Z.to_nat (last + 1)) path).

(** ** The short ones *)

Definition no_option (name : string) (args : list Z) : CM unit :=
  puts name ;;; write args ;;; tell " does not exist".

Definition cmd_clear (args : list Z) : CM unit :=
  if negb (bool_decide (args = [])) then write [10] ;;; no_option "clear: option " args
  else modM (on_con t_clear).

Definition cmd_ticks (args : list Z) : CM unit :=
  if negb (bool_decide (args = [])) then no_option "ticks: option " args
  else let* n := ask uk_ticks in modM (print_uint64 n) ;;; write [10].

Definition cmd_halt (args : list Z) : CM unit :=
  if negb (bool_decide (args = [])) then tell "halt: too many arguments"
  else act (fun k => (tt, ck_halt k)).

(** [dpm] is the static table of epoch_to_date. *)
Definition cmd_date (dpm args : list Z) : CM unit :=
  if negb (bool_decide (args = [])) then no_option "date: option " args
  else
    let* epoch := ask ck_epoch in
    match epoch_to_date dpm epoch with
    | None => haltM Fault
    | Some (d, _) =>
        modM (print_uint64 (day d)) ;;; write [47] ;;; modM (print_uint64 (month d)) ;;; write [47] ;;; modM (print_uint64 (year d)) ;;; write [32] ;;;
        modM (print_uint64_pad (hour d) 2) ;;; write [58] ;;; modM (print_uint64_pad (minute d) 2) ;;; write [58] ;;;
        modM (print_uint64_pad (second d) 2) ;;; write [46] ;;; modM (print_uint64_pad (millisecond d) 3) ;;; write [10]
    end.

Definition cmd_mount (args : list Z) : CM unit :=
  if bool_decide (args = []) then tell "mount: must provide a fs to umount"
  else
    let* r := act (ck_mount args) in
    if failed r then tell "mount: already mounted or invalid path given" else retM tt.

(** Whether the mount point is the current directory or above it. *)
Definition mount_busy (point d : list Z) : bool :=
  (length point <=? length d)%nat && bool_decide (take (length point) d = point) &&
  match d !! length point with None => true | Some c => c =? SLASH end.

Definition cmd_umount (args : list Z) : CM unit :=
  if bool_decide (args = []) then tell "umount: must provide a fs to umount"
  else
    let point := bytes_of "/mnt/" in
    if 32 <=? Z.of_nat (length point + length args) then tell "umount: something went wrong when trying to find the mountpoint"
    else
      let* w := getM in
      if mount_busy (point ++ args) (dir w) then tell "umount: busy dir"
      else
        let* r := act (ck_umount args) in
        if failed r then tell "umount: already unmounted or invalid path given" else retM tt.

(** ** cd *)

Fixpoint skip_slashes (path : list Z) : list Z :=
  match path with c :: rest => if c =? SLASH then skip_slashes rest else path | [] => [] end.

(** A component and what follows it. *)
Fixpoint component (path : list Z) : list Z * list Z :=
  match path with
  | [] => ([], [])
  | c :: rest => if c =? SLASH then ([], path) else let (x, rest) := component rest in (c :: x, rest)
  end.

(** [while (to_write > 0 && dir[to_write - 1] != '/') to_write--;], on what is
    written, last byte first. *)
Fixpoint drop_name (rev_out : list Z) : list Z :=
  match rev_out with c :: rest => if c =? SLASH then rev_out else drop_name rest | [] => [] end.

Definition DIR_CAP : Z := 256.

(** The new [dir], [to_write] bytes of it in [out]; [None] is a store behind it. *)
Fixpoint cd_loop (fuel : nat) (path out : list Z) : option (list Z) :=
  match fuel, path with
  | O, _ | _, [] => Some out
  | S fuel, _ =>
      let (x, rest) := component (skip_slashes path) in
      if bool_decide (x = [46]) then cd_loop fuel rest out
      else if bool_decide (x = [46; 46]) then cd_loop fuel rest (rev (tl (drop_name (rev out))))
      else
        let out := out ++ SLASH :: x in
        if DIR_CAP <? Z.of_nat (length out) then None else cd_loop fuel rest out
  end.

Definition cd_path (path : list Z) : option (list Z) :=
  out ← cd_loop (length path) path [];
  let out := if bool_decide (out = []) then [SLASH] else out in
  if DIR_CAP <=? Z.of_nat (length out) then None else Some out.

Definition cmd_cd (args : list Z) : CM unit :=
  let* path := path_of args in
  match path with
  | None => tell "cd: current path is too long to fully parse"
  | Some path =>
      let path := if bool_decide (args = []) then [SLASH] else path in
      let* d := ask (uk_resolve_dir path) in
      if failed d.1 then tell "cd: dir not found"
      else
        let* b := is_dirM d.1 d.2 in
        if negb b then tell "cd: cannot cd into a file"
        else match cd_path path with
             | None => haltM Fault
             | Some out => modM (fun w => mkW (con w) (kern w) out)
             end
  end.

(** ** stat *)

Definition is_flag (flag : list Z) (a b : string) : bool := bool_decide (flag = bytes_of a) || bool_decide (flag = bytes_of b).

Definition cmd_stat (args : list Z) : CM unit :=
  let (flag, path_arg) := take_flag args in
  if bool_decide (flag = []) then tell "stat: no flag provided."
  else if bool_decide (path_arg = []) then tell "stat: no file/dir provided."
  else
    let* path := path_of path_arg in
    match path with
    | None => tell "stat: invalid path"
    | Some path =>
        let* d := ask (uk_resolve_dir path) in
        if failed d.1 then puts "stat: file " ;;; write path ;;; tell " does not exist or is not a file"
        else
          let* st := ask (fun k => default stat0 (uk_get_stat d.2 d.1 k)) in
          let print v := modM (print_uint32 v) ;;; write [10] in
          if is_flag flag "-s" "--size" then print (ld32 st 4)
          else if is_flag flag "-t" "--type" then print (ld16 st 0)
          else if is_flag flag "-l" "--links" then print (ld16 st 26)
          else tell "stat: invalid flag."
    end.

(** ** cat *)

(** The loop from chunk [n] on. *)
Fixpoint cat_chunks (fuel : nat) (args : list Z) (fs ino n : Z) : CM unit :=
  match fuel with
  | O => haltM OutOfFuel
  | S fuel =>
      let* c := ask (uk_read_chunk fs ino n) in
      let (r, blk) := c in
      if r =? 0 then modM (on_con (t_write GREEN [37])) ;;; write [10]
      else if failed r then puts "cat: an unknown error occurred while reading file " ;;; write args ;;; write [10]
      else write (take (Z.to_nat r) blk) ;;; cat_chunks fuel args fs ino (n + 1)
  end.

Definition cmd_cat (fuel : nat) (args : list Z) : CM unit :=
  if bool_decide (args = []) then puts "cat: must provide a file to read"
  else
    let* path := path_of args in
    match path with
    | None => tell "cat: current path is too long to fully parse"
    | Some path =>
        let* d := ask (uk_resolve_dir path) in
        if failed d.1 then puts "cat: file " ;;; write args ;;; tell " does not exist or is not a file"
        else
          let* b := is_dirM d.1 d.2 in
          if b then tell "cat: cannot read a dir" else cat_chunks fuel args d.2 d.1 0
    end.

(** ** The entries of a directory *)

Definition entry_overruns (blk : list Z) (r pos : Z) : bool :=
  let advance_amt := ld16 blk (pos + 4) in
  (advance_amt <? 8) || (advance_amt <? 8 + ld8 blk (pos + 6)) || (r <? u32 (pos + advance_amt)).

Definition entry_name (blk : list Z) (pos : Z) : list Z := sub (Z.to_nat (pos + 8)) (Z.to_nat (ld8 blk (pos + 6))) blk.

(** ** ls *)

Definition COLS_PER_ROW_LS : Z := 5.

(** The entries of a block; [None] when one was out of range, else [writes]. *)
Fixpoint ls_block (fuel : nat) (blk : list Z) (r pos writes : Z) : CM (option Z) :=
  match fuel with
  | O => haltM OutOfFuel
  | S fuel =>
      if r <=? pos then retM (Some writes)
      else if entry_overruns blk r pos then retM None
      else
        let next := pos + ld16 blk (pos + 4) in
        if negb (ld32 blk pos =? 0) && negb (bool_decide (head (entry_name blk pos) = Some 46)) then
          write (entry_name blk pos) ;;; write [32] ;;;
          (if (writes mod COLS_PER_ROW_LS =? 0) && (0 <? writes) then write [10] else retM tt) ;;;
          ls_block fuel blk r next (writes + 1)
        else ls_block fuel blk r next writes
  end.

Fixpoint ls_chunks (fuel : nat) (args : list Z) (fs ino n writes : Z) : CM unit :=
  match fuel with
  | O => haltM OutOfFuel
  | S fuel =>
      let* c := ask (uk_read_chunk fs ino n) in
      let (r, blk) := c in
      if r =? 0 then write [10]
      else if failed r then puts "ls: an unknown error occurred while reading dir " ;;; write args ;;; write [10]
      else
        let* o := ls_block (S (Z.to_nat r)) blk r 0 writes in
        match o with
        | None => puts "ls: a file in dir " ;;; write args ;;; tell " was out of range"
        | Some writes => ls_chunks fuel args fs ino (n + 1) writes
        end
  end.

Definition cmd_ls (fuel : nat) (args : list Z) : CM unit :=
  let* path := path_of args in
  match path with
  | None => tell "ls: current path is too long to fully parse"
  | Some path =>
      let* d := ask (uk_resolve_dir path) in
      if failed d.1 then puts "ls: directory " ;;; write args ;;; tell " does not exist or is not a directory"
      else
        let* b := is_dirM d.1 d.2 in
        if negb b then tell "ls: cannot list a file" else ls_chunks fuel args d.2 d.1 0 0
  end.

(** ** echo *)

(** One of the two loops: [flag] has been seen up to [idx], and [start] is where
    the path begins, with whether this loop found it. *)
Definition echo_scan (flag args : list Z) (start : Z) : Z * bool :=
  let '(_, start, found) :=
    for_range (length args) 0 (fun i '(idx, start, found) =>
      let c := args !!! Z.to_nat i in
      let here := Z.of_nat (length flag) <=? idx in
      (if bool_decide (flag !! Z.to_nat idx = Some c) then idx + 1 else if c =? 32 then 1 else 0,
       if here then i else start, found || here)) (0, start, false)
  in (start, found).

Definition ECHO_TRUNC_FLAG : list Z := bytes_of " > ".
Definition ECHO_OUT_FLAG : list Z := bytes_of " >> ".

(** [dir_path_start] and [truncate]. *)
Definition echo_target (args : list Z) : Z * bool :=
  let len := Z.of_nat (length args) in
  let (start, truncate) := if bool_decide (take 2 args = [62; 32]) then (2, true) else (len, false) in
  let (start, found) := echo_scan ECHO_TRUNC_FLAG args start in
  let truncate := truncate || found in
  let (start, truncate) := if bool_decide (take 3 args = [62; 62; 32]) && (start =? len) then (3, false) else (start, truncate) in
  let (start, found) := echo_scan ECHO_OUT_FLAG args start in
  (start, truncate && negb found).

Definition echo_append (fs ino : Z) (bytes : list Z) (next : CM unit) : CM unit :=
  let* r := act (ck_fappend fs ino bytes) in
  if failed r then tell "echo: disk error or out of space, disk corruption possible" else next.

(** The bytes before the flag, and a newline. *)
Definition echo_write (args : list Z) (fs ino start : Z) (truncate : bool) : CM unit :=
  let finish := echo_append fs ino [10] (retM tt) in
  if truncate then
    let* r := act (ck_ftrunc fs ino 0) in
    if failed r then tell "echo: disk error when trying to truncate file, disk corruption possible"
    else echo_append fs ino (take (Z.to_nat (if start =? 2 then 0 else start - 3)) args) finish
  else echo_append fs ino (take (Z.to_nat (if start =? 3 then 0 else start - 4)) args) finish.

Definition cmd_echo (args : list Z) : CM unit :=
  let (start, truncate) := echo_target args in
  if start <? Z.of_nat (length args) then
    let* path := path_of (drop (Z.to_nat start) args) in
    match path with
    | None => tell "echo: invalid path"
    | Some path =>
        let write_to (ino fs : Z) :=
          let* b := is_dirM ino fs in
          if b then tell "echo: cannot echo into a directory" else echo_write args fs ino start truncate in
        let* d := ask (uk_resolve_dir path) in
        if failed d.1 then
          let* o := ask (split_parent_leaf path) in
          match o with
          | None => tell "echo: when attempting to create missing file, an unexpected error occurred when splitting the path"
          | Some (parent_n, parent_fs, leaf) =>
              let* t := act (uk_touch parent_fs parent_n leaf) in
              if failed t.1 then tell "echo: when attempting to create missing file, an unexpected error occurred when creating the file"
              else write_to t.1 t.2
          end
        else write_to d.1 d.2
    end
  else write args ;;; write [10].

(** ** mkdir *)

Fixpoint mkdir_recursive (fuel : nat) (path : list Z) : CM bool :=
  match fuel with
  | O => haltM OutOfFuel
  | S fuel =>
      let* c := cut_path path in
      let (parent, leaf) := c in
      let* d := ask (uk_resolve_dir parent) in
      let* made := if failed d.1 then mkdir_recursive fuel parent else retM true in
      if negb made then retM false
      else
        let* d := ask (uk_resolve_dir parent) in
        if failed d.1 then retM false
        else let* t := act (ck_mkdir d.2 d.1 leaf) in retM (negb (failed t.1))
  end.

Definition cmd_mkdir (fuel : nat) (args : list Z) : CM unit :=
  let (flag, path_arg) := take_flag args in
  let* path := path_of path_arg in
  match path with
  | None => tell "mkdir: current path is too long to fully parse"
  | Some [] => tell "mkdir: no path provided"
  | Some path =>
      let* d := ask (uk_resolve_symlink path) in
      if negb (failed d.1) then tell "mkdir: cannot create directory, already exists"
      else
        let* c := cut_path (rev (drop_slashes (rev path))) in
        let (parent, leaf) := c in
        let make (parent_n parent_fs : Z) :=
          let* t := act (ck_mkdir parent_fs parent_n leaf) in
          if failed t.1 then tell "mkdir: failed (out of space or disk error)" else retM tt in
        let* d := ask (uk_resolve_dir parent) in
        if failed d.1 then
          if negb (bool_decide (flag = bytes_of "-p")) then tell "mkdir: given parent directory does not exist"
          else
            let* made := mkdir_recursive fuel parent in
            if negb made then tell "mkdir: failed (out of space or disk error)"
            else let* d := ask (uk_resolve_dir parent) in make d.1 d.2
        else make d.1 d.2
  end.

(** ** ln *)

Definition cmd_ln (args : list Z) : CM unit :=
  let (flag, other_args) := take_flag args in
  let (path, link_name) := split other_args in
  if bool_decide (link_name = []) || bool_decide (path = []) then tell "ln: invalid arguments."
  else
    let sym := bool_decide (flag = bytes_of "-s") in
    if negb sym && negb (bool_decide (flag = [])) then tell "ln: invalid flags."
    else
      let* og := path_of path in
      match og with
      | None => tell "ln: path too long"
      | Some og =>
          let* d := ask (uk_resolve_dir og) in
          if negb sym && failed d.1 then tell "ln: cannot make a link to a nonexistent file"
          else
            let* b := is_dirM d.1 d.2 in
            if negb sym && b then tell "ln: cannot make a link to a directory"
            else
              let* new := path_of link_name in
              match new with
              | None => tell "ln: path for the link is too long"
              | Some new =>
                  let* t := ask (uk_resolve_symlink new) in
                  if negb (failed t.1) then tell "ln: given link path already exists"
                  else
                    let* o := ask (split_parent_leaf new) in
                    match o with
                    | None => tell "ln: given link path's parent does not exist"
                    | Some (parent_n, parent_fs, leaf) =>
                        let* r := act (if sym then ck_lmake_sym parent_fs parent_n leaf path
                                       else ck_lmake_hard d.2 d.1 parent_fs parent_n leaf) in
                        if failed r then tell "ln: unexpected error occured while making the link" else retM tt
                    end
              end
      end.

(** ** mv *)

(** [absolute_new_path_buf] has no terminator when the path has 256 bytes. *)
Definition unterminated (path : list Z) : bool := PATH_BUF <=? Z.of_nat (length path).

Definition cmd_mv (args : list Z) : CM unit :=
  let (old_path, new_path) := split args in
  if bool_decide (new_path = []) || bool_decide (old_path = []) then tell "mv: invalid arguments."
  else
    let* new := path_of new_path in
    match new with
    | None => tell "mv: path too long"
    | Some new =>
        let* t := ask (uk_resolve_symlink new) in
        if negb (failed t.1) then tell "mv: new path already taken"
        else
          let* old := path_of old_path in
          match old with
          | None => tell "mv: path too long"
          | Some old =>
              let* t := ask (uk_resolve_symlink old) in
              if failed t.1 then tell "mv: cannot rename a nonexistent file"
              else
                let* o := ask (split_parent_leaf old) in
                match o with
                | None => tell "mv: given old parent directory does not exist"
                | Some (old_parent_n, old_parent_fs, old_leaf) =>
                    if unterminated new then haltM Fault
                    else
                      let* n := ask (split_parent_leaf new) in
                      match n with
                      | None => tell "mv: given new parent directory does not exist"
                      | Some (new_parent_n, new_parent_fs, new_leaf) =>
                          if negb (old_parent_fs =? new_parent_fs) then tell "mv: cannot move across filesystems"
                          else
                            let* r := act (ck_fmove old_parent_fs old_parent_n new_parent_n old_leaf new_leaf) in
                            if failed r then tell "mv: failed, disk error" else retM tt
                      end
                end
          end
    end.

(** ** rm *)

(** What the loop over a block finds: an entry other than dot and dot-dot, with
    its name, inode, whether it is a directory, and the position behind it. *)
Inductive child_res : Type := Child (name : list Z) (ino : Z) (isdir : bool) (next : Z) | NoChild | BadEntry | Stuck.

Fixpoint next_child (fuel : nat) (blk : list Z) (r pos : Z) : child_res :=
  match fuel with
  | O => Stuck
  | S fuel =>
      if r <=? pos then NoChild
      else if entry_overruns blk r pos then BadEntry
      else
        let next := pos + ld16 blk (pos + 4) in
        let name := entry_name blk pos in
        if negb (ld32 blk pos =? 0) && negb (bool_decide (name = [46])) && negb (bool_decide (name = [46; 46]))
        then Child (c_bytes 256 name) (ld32 blk pos) (ld8 blk (pos + 7) =? 2) next
        else next_child fuel blk r next
  end.

(** What a search of a directory finds. *)
Inductive found : Type := Found (name : list Z) (ino : Z) (isdir : bool) (chunk pos : Z) | Nothing | ReadError | Corrupt.

(** [for (chunk = 0; !found; chunk++)] from [chunk] on. *)
Fixpoint first_child (fuel : nat) (fs dir_n chunk : Z) : CM found :=
  match fuel with
  | O => haltM OutOfFuel
  | S fuel =>
      let* c := ask (uk_read_chunk fs dir_n chunk) in
      let (r, blk) := c in
      if r =? 0 then retM Nothing
      else if failed r then retM ReadError
      else
        match next_child (S (Z.to_nat r)) blk r 0 with
        | Child name ino isdir pos => retM (Found name ino isdir chunk pos)
        | NoChild => first_child fuel fs dir_n (chunk + 1)
        | BadEntry => retM Corrupt
        | Stuck => haltM OutOfFuel
        end
  end.

(** The result of [rm_tree], and whether it has [warned]. *)
Inductive rm_res : Type := RmDone | RmFailed | RmWarned.

(** A round of the loop goes on by a call with the same arguments. *)
Fixpoint rm_tree (fuel : nat) (parent_n : Z) (name : list Z) (dir_n fs : Z) : CM rm_res :=
  match fuel with
  | O => haltM OutOfFuel
  | S fuel =>
      let* f := first_child fuel fs dir_n 0 in
      match f with
      | ReadError => tell "rm: unknown read error" ;;; retM RmWarned
      | Corrupt => retM RmFailed
      | Nothing => let* r := act (ck_rm_dir fs parent_n name) in retM (if failed r then RmFailed else RmDone)
      | Found child_name child_n true _ _ =>
          let* m := ask (ck_is_mountpoint fs child_n) in
          if negb (m =? 0) then tell "rm: busy dir" ;;; retM RmWarned
          else
            let* r := rm_tree fuel dir_n child_name child_n fs in
            match r with RmDone => rm_tree fuel parent_n name dir_n fs | _ => retM r end
      | Found child_name child_n false _ _ =>
          let* r := act (ck_rm_inode fs dir_n child_name) in
          if failed r then retM RmFailed else rm_tree fuel parent_n name dir_n fs
      end
  end.

Definition cmd_rm (fuel : nat) (args : list Z) : CM unit :=
  let (flag, path_arg) := take_flag args in
  let* path := path_of path_arg in
  match path with
  | None => haltM Fault
  | Some path =>
      if bool_decide (path = []) then tell "rm: no file/dir provided."
      else
        let* t := ask (uk_resolve_symlink path) in
        let (to_remove_n, to_remove_fs) := t in
        if failed to_remove_n then tell "rm: given path to remove does not exist"
        else
          let recursive := bool_decide (take 2 flag = bytes_of "-r") in
          let* c := cut_path path in
          let (parent, leaf) := c in
          let* p := ask (uk_resolve_dir parent) in
          let (parent_n, parent_fs) := p in
          if failed parent_n then tell "rm: given parent directory does not exist"
          else
            let* m := ask (ck_is_mountpoint to_remove_fs to_remove_n) in
            if negb (m =? 0) then tell "rm: busy dir"
            else
              let* b := is_dirM to_remove_n to_remove_fs in
              if recursive then
                if negb b then tell "rm: cannot recursively remove a file"
                else
                  let* r := rm_tree fuel parent_n leaf to_remove_n parent_fs in
                  match r with RmFailed => tell "rm: failed (disk error)" | _ => retM tt end
              else if b then tell "rm: cannot remove, is a directory"
              else
                let* r := act (ck_rm_inode parent_fs parent_n leaf) in
                if negb (r =? 0) then tell "rm: failed (disk error)" else retM tt
  end.

(** ** cp *)

Fixpoint copy_file (fuel : nat) (src_n inode_n src_fs inode_fs n : Z) : CM bool :=
  match fuel with
  | O => haltM OutOfFuel
  | S fuel =>
      let* c := ask (uk_read_chunk src_fs src_n n) in
      let (r, blk) := c in
      if r =? 0 then retM true
      else if failed r then
        tell "cp: an unknown error occurred while reading the src file, file corruption occured. recommended you delete the copy." ;;; retM false
      else
        let* a := act (ck_fappend inode_fs inode_n (take (Z.to_nat r) blk)) in
        if failed a then
          tell "cp: an unknown error occured while writing to the new file, file corruption occured. recommended you delete the copy." ;;; retM false
        else copy_file fuel src_n inode_n src_fs inode_fs (n + 1)
  end.

(** [while (!found)], from position [pos] of chunk [chunk]. *)
Fixpoint next_source (fuel : nat) (src_fs src_dir chunk pos : Z) : CM found :=
  match fuel with
  | O => haltM OutOfFuel
  | S fuel =>
      let* c := ask (uk_read_chunk src_fs src_dir chunk) in
      let (r, blk) := c in
      if r =? 0 then retM Nothing
      else if failed r then retM ReadError
      else
        match next_child (S (Z.to_nat r)) blk r pos with
        | Child name ino isdir pos => retM (if r <=? pos then Found name ino isdir (chunk + 1) 0 else Found name ino isdir chunk pos)
        | NoChild => next_source fuel src_fs src_dir (chunk + 1) 0
        | BadEntry => retM Corrupt
        | Stuck => haltM OutOfFuel
        end
  end.

(** The walk from a place of the source directory on; it answers with the value
    of [*target_fs] too. *)
Fixpoint cp_walk (fuel : nat) (src_dir target_dir src_fs target_fs chunk pos : Z) : CM (bool * Z) :=
  match fuel with
  | O => haltM OutOfFuel
  | S fuel =>
      let* f := next_source fuel src_fs src_dir chunk pos in
      match f with
      | Nothing => retM (true, target_fs)
      | ReadError => tell "cp: unknown read error" ;;; retM (false, target_fs)
      | Corrupt => retM (false, target_fs)
      | Found child_name child_n false chunk pos =>
          let* t := act (uk_touch target_fs target_dir child_name) in
          if failed t.1 then tell "cp: make file failed, disk error or file out of space" ;;; retM (false, target_fs)
          else
            let* ok := copy_file fuel child_n t.1 src_fs t.2 0 in
            if negb ok then retM (false, t.2) else cp_walk fuel src_dir target_dir src_fs t.2 chunk pos
      | Found child_name child_n true chunk pos =>
          let* m := ask (ck_is_mountpoint src_fs child_n) in
          if negb (m =? 0) then tell "cp: cannot copy a mountpoint" ;;; retM (false, target_fs)
          else
            let* t := act (ck_mkdir target_fs target_dir child_name) in
            if failed t.1 then tell "cp: make dir failed, disk error or file out of space" ;;; retM (false, target_fs)
            else
              let* ok := cp_walk fuel child_n t.1 src_fs t.2 0 0 in
              if negb ok.1 then retM ok else cp_walk fuel src_dir target_dir src_fs ok.2 chunk pos
      end
  end.

(** Whether the new path lies at or below the old one, of which the slashes at
    its end do not count. *)
Definition inside_old (old new : list Z) : bool := bool_decide (take (length old) new = old).
Definition at_or_below (old new : list Z) : bool :=
  inside_old old new && ((length old =? 1)%nat || match new !! length old with None => true | Some c => c =? SLASH end).

Definition cp_to (fuel : nat) (recursive : bool) (old : list Z) (new_parent_n new_parent_fs : Z) (new_leaf : list Z) : CM unit :=
  let fail := tell "cp: creating the new file failed unexpectedly" in
  let* s := ask (uk_resolve_dir old) in
  let (src_n, src_fs) := s in
  let* b := is_dirM src_n src_fs in
  if b then
    if negb recursive then tell "cp: cannot copy a dir without the -r flag"
    else
      let* t := act (ck_mkdir new_parent_fs new_parent_n new_leaf) in
      if failed t.1 then fail else cp_walk fuel src_n t.1 src_fs t.2 0 0 ;;; retM tt
  else
    let* t := act (uk_touch new_parent_fs new_parent_n new_leaf) in
    if failed t.1 then fail else copy_file fuel src_n t.1 src_fs t.2 0 ;;; retM tt.

Definition cmd_cp (fuel : nat) (args : list Z) : CM unit :=
  let (flag, other_args) := take_flag args in
  let (old_path, new_path) := split other_args in
  if bool_decide (new_path = []) || bool_decide (old_path = []) then tell "cp: invalid arguments."
  else
    let recursive := bool_decide (flag = bytes_of "-r") in
    let* new := path_of new_path in
    match new with
    | None => tell "cp: path too long"
    | Some new =>
        let* t := ask (uk_resolve_symlink new) in
        if negb (failed t.1) then tell "cp: new path already taken"
        else
          let* old := path_of old_path in
          match old with
          | None => tell "cp: path too long"
          | Some old =>
              let* t := ask (uk_resolve_dir old) in
              if failed t.1 then tell "cp: cannot copy a nonexistent file"
              else
                let trimmed := rev (drop_slashes (rev old)) in
                if unterminated new && unterminated trimmed && inside_old (take 256 trimmed) new then haltM Fault
                else if at_or_below trimmed new then tell "cp: new path cannot be inside the old path"
                else if unterminated new then haltM Fault
                else
                  let* o := ask (split_parent_leaf new) in
                  match o with
                  | None => tell "cp: given new parent directory does not exist"
                  | Some (new_parent_n, new_parent_fs, new_leaf) => cp_to fuel recursive old new_parent_n new_parent_fs new_leaf
                  end
          end
    end.

(** ** help *)

Definition cmd_help (args : list Z) : CM unit :=
  if negb (bool_decide (args = [])) then write [10] ;;; no_option "help: option " args
  else
    tell "help: Lists all available commands with a short description of each." ;;;
    tell "echo [arg ...] {OPTIONAL >> OR >} {OPTIONAL path}: Prints a given string. If the flag >> is given, then write the string to the given path instead. If the flag > is given, then write the string to the given path AND REPLACE ALL OF ITS CONTENTS with it. In other words, it truncates the file to be exactly what was given in this command. Cannot have both a > and >> flag, last one found in the command wins." ;;;
    tell "ticks: Prints the amount of timer ticks accumulated since boot." ;;;
    tell "cat [path ...]: Reads the bytes of a given file." ;;;
    tell "ls [path ...]: Lists the subdirectories/files of a directory." ;;;
    tell "cd [path ...]: Changes the current directory into the entered path." ;;;
    tell "stat [-t, -s, -l] [path ...]: Lists the properties of the given file/dir." ;;;
    tell "mkdir [-p] [path ...]: Makes a new directory with the given path. Do note that in order to create the whole path, and not the leaf directory, you must use the flag -p." ;;;
    tell "rm [-r] [path ...]: Removes the file at the given path. If the flag -r is passed, it recursively removes a directory." ;;;
    tell "clear: Clears the screen" ;;;
    tell "touch [path ...]: Makes a new file at the given path (does not have the -p properties of mkdir)" ;;;
    tell "date: Prints the current date, in format [m/d/y h:m:s.ms]" ;;;
    tell "mv [old_path ...] [new_path ...]: Moves the given old_path to a given new path. Also serves as a rename function." ;;;
    tell "cp [-r] [old_path ...] [new_path ...]: It's like mv, but it copies instead of moves. Must provide the flag -r in order to copy directories, no matter whether or not it contains subdirectories." ;;;
    tell "ln [-s] [original_file ...] [new_link_path ...]: Creates a hard link to a file. If flag [-s] is passed, creates a symbolic link instead." ;;;
    tell "halt: umounts all partitions and halts the system. highly recommended you do it before shutting down".

(** ** appCtl.c *)

(** A command as the shell calls it. *)
Definition as_app (cmd : list Z -> CM unit) (args : list Z) (w : world) : option world :=
  match cmd args w with Done _ w => Some w | Halted _ _ => None end.

(** The table; [dinv] stands for a run of the editor from its start to its end. *)
Definition apps (fuel : nat) (dpm : list Z) (dinv : list Z -> world -> option world) : list App :=
  [("dinv", dinv); ("help", as_app cmd_help); ("echo", as_app cmd_echo); ("ticks", as_app cmd_ticks); ("cat", as_app (cmd_cat fuel));
   ("ls", as_app (cmd_ls fuel)); ("cd", as_app cmd_cd); ("stat", as_app cmd_stat); ("mkdir", as_app (cmd_mkdir fuel)); ("rm", as_app (cmd_rm fuel));
   ("clear", as_app cmd_clear); ("touch", cmd_touch); ("date", as_app (cmd_date dpm)); ("mv", as_app cmd_mv); ("cp", as_app (cmd_cp fuel));
   ("ln", as_app cmd_ln); ("mount", as_app cmd_mount); ("umount", as_app cmd_umount); ("halt", as_app cmd_halt)].

End commands.
