(* ===== verification/CommandsSpec.v ===== *)
(** * What the commands of the shell do

    The directory cd leaves behind, the copy cp makes, the target of echo. *)
From S2P Require Import Prelude Bytes CLib Dates Scheduler Inode Screen ScreenSpec User Shell DinvScreen ShellSpec Commands.

(** ** The normal form of a path *)

(** The names between the slashes. *)
Fixpoint names_from (name path : list Z) : list (list Z) :=
  match path with
  | [] => if bool_decide (name = []) then [] else [name]
  | c :: path =>
      if c =? SLASH then (if bool_decide (name = []) then names_from [] path else name :: names_from [] path)
      else names_from (name ++ [c]) path
  end.
Definition names (path : list Z) : list (list Z) := names_from [] path.

(** Dot stays, dot-dot goes up, the root is above itself. *)
Definition step_name (at_ : list (list Z)) (name : list Z) : list (list Z) :=
  if bool_decide (name = [46]) then at_ else if bool_decide (name = [46; 46]) then removelast at_ else at_ ++ [name].
Definition walk (path : list Z) : list (list Z) := fold_left step_name (names path) [].

Definition render (at_ : list (list Z)) : list Z := concat (map (cons SLASH) at_).

(** The directory of the shell for a place in the tree; [slash] when the path
    that led there ended in a slash. *)
Definition dir_of (slash : bool) (at_ : list (list Z)) : list Z :=
  render at_ ++ (if slash || bool_decide (at_ = []) then [SLASH] else []).

Definition ends_in_slash (path : list Z) : bool := bool_decide (last path = Some SLASH).

Example dir_of_1 : cd_path (bytes_of "/a/./b/../c") = Some (dir_of (ends_in_slash (bytes_of "/a/./b/../c")) (walk (bytes_of "/a/./b/../c"))).
Proof. reflexivity. Qed.
Example dir_of_2 : cd_path (bytes_of "/a/b/..//") = Some (bytes_of "/a/").
Proof. reflexivity. Qed.
Example dir_of_3 : cd_path (bytes_of "/../..") = Some (bytes_of "/").
Proof. reflexivity. Qed.
Example dir_of_4 : cd_path (bytes_of "/a/../") = Some (dir_of (ends_in_slash (bytes_of "/a/../")) (walk (bytes_of "/a/../"))).
Proof. reflexivity. Qed.

Definition slash_free (x : list Z) : Prop := Forall (fun c => c <> SLASH) x.

Lemma render_snoc at_ x : render (at_ ++ [x]) = render at_ ++ SLASH :: x.
Proof. unfold render. rewrite map_app, concat_app. cbn. by rewrite app_nil_r. Qed.

Lemma drop_name_app x out : slash_free x -> drop_name (x ++ SLASH :: out) = SLASH :: out.
Proof. induction 1 as [|c x Hc _ IH]; cbn; [done|]. by rewrite (proj2 (Z.eqb_neq c SLASH)). Qed.

Lemma drop_name_render at_ : Forall slash_free at_ -> rev (tl (drop_name (rev (render at_)))) = render (removelast at_).
Proof.
  intros Ha. induction at_ as [|x at_ _] using rev_ind; [done|]. apply Forall_app in Ha as [_ Hx%Forall_inv]. rewrite render_snoc, removelast_last.
  rewrite rev_app_distr. cbn [rev]. rewrite <- app_assoc. cbn [app]. rewrite drop_name_app; [cbn; by rewrite rev_involutive|]. by apply Forall_rev.
Qed.

Lemma cd_component_spec q : let (x, rest) := component q in q = x ++ rest /\ slash_free x /\ (rest = [] \/ head rest = Some SLASH).
Proof.
  induction q as [|c q IH]; cbn; [by repeat constructor|]. destruct (Z.eqb_spec c SLASH) as [->|Hc]; [repeat split; [constructor|by right]|].
  destruct (component q) as [x rest]. destruct IH as (-> & Hx & Hr). repeat split; [by constructor|done].
Qed.

Lemma skip_slashes_spec p : exists n, p = replicate n SLASH ++ skip_slashes p /\ head (skip_slashes p) <> Some SLASH.
Proof.
  induction p as [|c p (n & E & Hh)]; [by exists 0%nat|]. cbn. destruct (Z.eqb_spec c SLASH) as [->|Hc].
  - exists (S n). cbn. by rewrite <- E.
  - exists 0%nat. split; [done|]. cbn. congruence.
Qed.

Lemma names_slashes n p : names (replicate n SLASH ++ p) = names p.
Proof. induction n as [|n IH]; [done|]. cbn. exact IH. Qed.

Lemma names_only_slashes n : names (replicate n SLASH) = [].
Proof. rewrite <- (app_nil_r (replicate n SLASH)). apply names_slashes. Qed.

Lemma names_from_name y x rest : slash_free x -> names_from y (x ++ rest) = names_from (y ++ x) rest.
Proof.
  intros Hx. revert y. induction Hx as [|c x Hc _ IH]; intros y; cbn; [by rewrite app_nil_r|].
  rewrite (proj2 (Z.eqb_neq c SLASH)) by done. rewrite IH, <- app_assoc. done.
Qed.

Lemma names_name x rest : slash_free x -> x <> [] -> rest = [] \/ head rest = Some SLASH -> names (x ++ rest) = x :: names rest.
Proof.
  intros Hx Hne Hr. unfold names. rewrite names_from_name by done. cbn [app]. destruct rest as [|c rest]; cbn.
  - by rewrite bool_decide_eq_false_2.
  - destruct Hr as [|[= ->]]; [done|]. change (SLASH =? SLASH) with true. cbn iota. by rewrite bool_decide_eq_false_2.
Qed.

Lemma ends_in_name n x rest : slash_free x -> x <> [] -> ends_in_slash (replicate n SLASH ++ x ++ rest) = ends_in_slash rest.
Proof.
  intros Hx Hne. unfold ends_in_slash. rewrite !last_app. destruct (last rest) as [c|]; [done|].
  destruct (last x) as [c|] eqn:E; [|by apply last_None in E]. apply last_Some in E as [x' ->]. apply Forall_app in Hx as [_ Hc%Forall_inv].
  apply bool_decide_ext. split; [|done]. by intros [= ->].
Qed.

Lemma ends_in_slashes n : ends_in_slash (replicate (S n) SLASH) = true.
Proof. unfold ends_in_slash. apply bool_decide_eq_true_2. replace (S n) with (n + 1)%nat by lia. by rewrite replicate_add, last_app. Qed.

#[local] Arguments render : simpl never.

Lemma removelast_free at_ : Forall slash_free at_ -> Forall slash_free (removelast at_) /\ (length (render (removelast at_)) <= length (render at_))%nat.
Proof.
  intros Ha. induction at_ as [|y at_ _] using rev_ind; [done|]. rewrite removelast_last, render_snoc, length_app. apply Forall_app in Ha as [? _]. split; [done|lia].
Qed.

(** The loop of cd from a place in the tree: where it ends, and that what is
    written never outgrows what was read. *)
Lemma cd_loop_spec fuel path at_ : path = [] \/ head path = Some SLASH -> (length path <= fuel)%nat -> Forall slash_free at_ ->
  (length (render at_) + length path <= 255)%nat ->
  let out := render (fold_left step_name (names path) at_) ++ (if ends_in_slash path then [SLASH] else []) in
  cd_loop fuel path (render at_) = Some out /\ (length out <= length (render at_) + length path)%nat.
Proof.
  revert path at_. induction fuel as [|fuel IH]; intros path at_ Hp Hf Ha Hl.
  { destruct path; [|cbn in Hf; lia]. cbn. rewrite app_nil_r. split; [done|lia]. }
  destruct path as [|c path]; [cbn; rewrite app_nil_r; split; [done|lia]|]. destruct Hp as [|[= ->]]; [done|]. cbn [cd_loop].
  destruct (skip_slashes_spec (SLASH :: path)) as (n & E & Hh). remember (skip_slashes (SLASH :: path)) as q eqn:Eskip.
  destruct n as [|n]; [cbn [replicate app] in E; rewrite <- E in Hh; done|].
  pose proof (cd_component_spec q) as Hc. destruct (component q) as [x rest]. destruct Hc as (Eq & Hx & Hr).
  assert (length (SLASH :: path) = S n + length x + length rest)%nat as El by (rewrite E, Eq, !length_app, length_replicate; lia).
  rewrite El in Hl, Hf |- *. clear El. destruct (decide (x = [])) as [->|Hne].
  - assert (rest = []) as -> by (destruct Hr as [|Hr]; [done|]; cbn in Eq; congruence).
    rewrite !bool_decide_eq_false_2 by done. rewrite (proj2 (Z.ltb_ge _ _)) by (unfold DIR_CAP; rewrite length_app; cbn [length] in *; lia).
    rewrite E, Eq. cbn [app]. rewrite app_nil_r. rewrite names_only_slashes, ends_in_slashes. cbn [fold_left].
    rewrite length_app. split; [by destruct fuel|cbn [length]; lia].
  - rewrite E, Eq, names_slashes, names_name, ends_in_name by done. cbn [fold_left]. unfold step_name at 2 4.
    case_bool_decide; [destruct (IH rest at_) as [-> ?]; [done|lia|done|lia|split; [done|lia]]|]. case_bool_decide.
    + rewrite drop_name_render by done. destruct (removelast_free at_ Ha) as [Ha' Hle].
      destruct (IH rest (removelast at_)) as [-> ?]; [done|lia|done|lia|split; [done|lia]].
    + rewrite <- render_snoc. assert (length (render (at_ ++ [x])) = length (render at_) + 1 + length x)%nat as Es by (rewrite render_snoc, length_app; cbn; lia).
      rewrite (proj2 (Z.ltb_ge _ _)) by (unfold DIR_CAP; lia).
      destruct (IH rest (at_ ++ [x])) as [-> ?]; [done|lia|apply Forall_app; split; [done|by constructor]|lia|split; [done|lia]].
Qed.

Lemma cd_path_spec path : head path = Some SLASH -> (length path <= 255)%nat -> cd_path path = Some (dir_of (ends_in_slash path) (walk path)).
Proof.
  intros Hh Hl. unfold cd_path. change (cd_loop (length path) path []) with (cd_loop (length path) path (render [])).
  destruct (cd_loop_spec (length path) path []) as [-> Hlen]; [by right|done|constructor|done|]. cbn [mbind option_bind]. fold (walk path) in *. unfold dir_of.
  change (length (render [])) with 0%nat in Hlen.
  destruct (ends_in_slash path) eqn:Ee; cbn [orb] in *.
  - rewrite bool_decide_eq_false_2 by (by destruct (render (walk path))). rewrite (proj2 (Z.leb_gt _ _)) by (unfold DIR_CAP; cbn in *; lia). done.
  - rewrite app_nil_r in *. destruct (walk path) as [|x at_] eqn:Ew; [done|]. cbn [app] in *. rewrite !bool_decide_eq_false_2 by done.
    rewrite (proj2 (Z.leb_gt _ _)) by (unfold DIR_CAP; cbn in *; lia). by rewrite app_nil_r.
Qed.

(** ** cd *)

(** A name that leads down. *)
Definition proper (x : list Z) : Prop := slash_free x /\ x <> [] /\ x <> [46] /\ x <> [46; 46].

Lemma names_from_free y path : slash_free y -> Forall (fun x => slash_free x /\ x <> []) (names_from y path).
Proof.
  revert y. induction path as [|c path IH]; intros y Hy; cbn.
  - case_bool_decide; [constructor|]. by apply Forall_singleton.
  - destruct (Z.eqb_spec c SLASH) as [->|Hc].
    + case_bool_decide; [apply IH; constructor|]. constructor; [done|]. apply IH. constructor.
    + apply IH. apply Forall_app. split; [done|by constructor].
Qed.

Lemma steps_proper path at_ : Forall proper at_ -> Forall proper (fold_left step_name (names path) at_).
Proof.
  intros Ha. pose proof (names_from_free [] path (Forall_nil_2 _)) as Hn. fold (names path) in Hn. revert at_ Ha.
  induction Hn as [|x ns [Hf Hne] _ IH]; intros at_ Ha; [done|]. cbn. apply IH. unfold step_name. repeat case_bool_decide; [done| |].
  - clear -Ha. induction at_ as [|y at_ _] using rev_ind; [done|]. rewrite removelast_last. by apply Forall_app in Ha as [? _].
  - apply Forall_app. split; [done|]. by apply Forall_singleton.
Qed.

Lemma names_render at_ s : Forall proper at_ -> s = [] \/ head s = Some SLASH -> names (render at_ ++ s) = at_ ++ names s.
Proof.
  intros Ha Hs. induction Ha as [|x at_ (Hf & Hne & _) _ IH]; [done|]. change (render (x :: at_)) with (SLASH :: x ++ render at_). cbn [app]. rewrite <- app_assoc.
  change (names (SLASH :: x ++ render at_ ++ s)) with (names (x ++ render at_ ++ s)). rewrite names_name; [by rewrite IH|done|done|].
  destruct at_; [done|by right].
Qed.

Lemma steps_down at_ start : Forall proper at_ -> fold_left step_name at_ start = start ++ at_.
Proof.
  intros Ha. revert start. induction Ha as [|x at_ (_ & _ & H1 & H2) _ IH]; intros start; cbn; [by rewrite app_nil_r|].
  unfold step_name at 2. rewrite !bool_decide_eq_false_2 by done. rewrite IH, <- app_assoc. done.
Qed.

(** A relative path starts where the directory is. *)
Lemma walk_relative b at_ args : Forall proper at_ -> walk (dir_of b at_ ++ SLASH :: args) = fold_left step_name (names args) at_.
Proof.
  intros Ha. unfold walk, dir_of. rewrite <- app_assoc. rewrite names_render by (done || (destruct (_ || _); by right)).
  rewrite fold_left_app, (steps_down at_) by done. destruct (b || bool_decide (at_ = [])); reflexivity.
Qed.

Lemma dir_of_absolute b at_ : head (dir_of b at_) = Some SLASH.
Proof. unfold dir_of. destruct at_; [by rewrite orb_true_r|done]. Qed.

Section cd.
Context {K : Type} `{CommandKernel K}.

(** Where a path leads from a place in the tree. *)
Definition place (args : list Z) (at_ : list (list Z)) : list (list Z) :=
  fold_left step_name (names args) (if decide (args = [] \/ head args = Some SLASH) then [] else at_).

(** The path the command asks the kernel about. *)
Definition asked (args cwd : list Z) : list Z :=
  if decide (args = []) then [SLASH] else if decide (head args = Some SLASH) then args else cwd ++ SLASH :: args.

(** C21. cd goes where its path leads.  From a directory the shell has reached by
    names, with a path of at most 255 bytes that the kernel resolves to a
    directory, the new directory of the shell is the place the path leads to: its
    names followed one by one from the root or from the directory, dot staying,
    dot-dot going up and not above the root.  It is written with one slash before
    each name, and one at its end when the path ends in a slash; every name in it
    is proper, so that the next cd starts from a directory of this form. *)
Theorem cd_moves (stat0 args : list Z) (w : User.world (K := K)) b at_ ino fs :
  dir w = dir_of b at_ -> Forall proper at_ -> (length (asked args (dir w)) <= 255)%nat -> (length (dir w) < 255)%nat ->
  uk_resolve_dir (asked args (dir w)) (kern w) = (ino, fs) -> ino <> SYSCALL_ERROR -> is_dir stat0 ino fs (kern w) = true ->
  cmd_cd stat0 args w = Done tt (mkW (con w) (kern w) (dir_of (ends_in_slash args) (place args at_))) /\ Forall proper (place args at_).
Proof.
  intros Ed Hp Hl Hd Er Hne Hdir. split; [|apply steps_proper; case_decide; [constructor|done]].
  assert (exists path, return_path (dir w) args = PathIs path /\ (if bool_decide (args = []) then [SLASH] else path) = asked args (dir w)) as (path & Ep & Ea).
  { unfold return_path, asked, append_args, PATH_BUF in *. destruct (decide (args = [])) as [->|Hn].
    - cbn [head]. rewrite bool_decide_eq_false_2 by done. rewrite (proj2 (Z.leb_gt _ _)) by lia. cbn [length]. rewrite (proj2 (Z.leb_le _ _)) by lia. cbn [negb].
      rewrite (proj2 (Z.leb_gt _ _)) by lia. by eexists.
    - destruct (decide (head args = Some SLASH)).
      + rewrite bool_decide_eq_true_2 by done. eexists. split; [done|]. by rewrite bool_decide_eq_false_2.
      + rewrite bool_decide_eq_false_2 by done. rewrite length_app in Hl. cbn [length] in Hl. rewrite (proj2 (Z.leb_gt _ _)) by lia. rewrite (proj2 (Z.leb_le _ _)) by lia. cbn [negb].
        rewrite (proj2 (Z.leb_gt _ _)) by lia. eexists. split; [done|]. by rewrite bool_decide_eq_false_2. }
  unfold cmd_cd, path_of, ask, is_dirM, bindM, getM. rewrite Ep. cbn [retM]. unfold retM. rewrite Ea, Er. cbn [fst snd]. unfold failed. rewrite (proj2 (Z.eqb_neq _ _)) by done.
  unfold ask, bindM, getM, retM. rewrite Hdir. cbn [negb].
  assert (head (asked args (dir w)) = Some SLASH) as Hh.
  { unfold asked. repeat case_decide; try done. rewrite Ed. pose proof (dir_of_absolute b at_) as Hab. by destruct (dir_of b at_). }
  rewrite cd_path_spec by done. unfold modM. do 2 f_equal. unfold place, asked. destruct (decide (args = [])) as [->|Hn]; [done|].
  destruct (decide (head args = Some SLASH)) as [Hs|Hs]; [by rewrite decide_True by auto|]. rewrite decide_False by (by intros [|]).
  rewrite Ed, walk_relative by done. f_equal. unfold ends_in_slash. rewrite last_app, last_cons. destruct (last args) eqn:El; [done|]. by apply last_None in El.
Qed.

End cd.

(** ** Files as the calls show them *)

Definition BLOCK : Z := 4096.
(** The bytes of chunk [n]. *)
Definition chunk (l : list Z) (n : Z) : list Z := take (Z.to_nat BLOCK) (drop (Z.to_nat (BLOCK * n)) l).

(** What a kernel promises about the bytes of its files: a chunk is read as it
    is, an append that does not fail adds its bytes to one file, and a file that
    is made is new and empty. *)
Class FileLaws (K : Type) `{CommandKernel K} (content : Z -> Z -> K -> option (list Z)) : Prop := {
  fl_read fs ino n k l : content fs ino k = Some l -> 0 <= n ->
    exists blk, uk_read_chunk fs ino n k = (Z.of_nat (length (chunk l n)), blk) /\ take (length (chunk l n)) blk = chunk l n;
  fl_append fs ino b k l r k' : content fs ino k = Some l -> ck_fappend fs ino b k = (r, k') -> r <> SYSCALL_ERROR ->
    content fs ino k' = Some (l ++ b) /\ forall fs' ino', (fs', ino') <> (fs, ino) -> content fs' ino' k' = content fs' ino' k;
  fl_touch fs parent name k ino fs' k' : uk_touch fs parent name k = (ino, fs', k') -> ino <> SYSCALL_ERROR ->
    content fs' ino k = None /\ content fs' ino k' = Some [] /\ forall fs1 ino1, (fs1, ino1) <> (fs', ino) -> content fs1 ino1 k' = content fs1 ino1 k
}.

Lemma chunk_rest l n : 0 <= n -> drop (Z.to_nat (BLOCK * n)) l = chunk l n ++ drop (Z.to_nat (BLOCK * (n + 1))) l.
Proof.
  intros Hn. unfold chunk. rewrite <- (take_drop (Z.to_nat BLOCK) (drop (Z.to_nat (BLOCK * n)) l)) at 1. f_equal. rewrite drop_drop. f_equal. unfold BLOCK. lia.
Qed.

Section cp.
Context {K : Type} `{FileLaws K content}.
Implicit Types w : User.world (K := K).

(** A message was printed. *)
Definition complained w w' : Prop := exists msg, msg <> [] /\ con w' = t_write WHITE msg (con w).

Lemma tell_complains (s : string) w1 w : con w1 = con w -> complained w (say (User.line s) w1).
Proof. intros E. exists (User.line s). split; [unfold User.line; by destruct (bytes_of s)|]. cbn. by rewrite E. Qed.

(** The loop of copy_file: the rest of the source follows what the copy has. *)
Lemma copy_file_spec fuel src_n ino src_fs fs l : (src_fs, src_n) <> (fs, ino) -> forall n d w, 0 <= n ->
  content src_fs src_n (kern w) = Some l -> content fs ino (kern w) = Some d -> (length (drop (Z.to_nat (BLOCK * n)) l) < fuel)%nat ->
  exists ok w', copy_file fuel src_n ino src_fs fs n w = Done ok w' /\ dir w' = dir w /\
    if ok then con w' = con w /\ content fs ino (kern w') = Some (d ++ drop (Z.to_nat (BLOCK * n)) l) /\
               forall fs' ino', (fs', ino') <> (fs, ino) -> content fs' ino' (kern w') = content fs' ino' (kern w)
    else complained w w'.
Proof.
  intros Hne. induction fuel as [|fuel IH]; intros n d w Hn Hs Hd Hf; [lia|].
  cbn [copy_file]. unfold ask, bindM at 1 2. cbn [getM retM]. unfold getM, retM at 1.
  destruct (fl_read src_fs src_n n (kern w) l Hs Hn) as (blk & Er & Eb). rewrite Er. destruct (Z.eqb_spec (Z.of_nat (length (chunk l n))) 0) as [E0|E0].
  - exists true, w. split; [done|]. split; [done|]. split; [done|]. split; [|done].
    assert (drop (Z.to_nat (BLOCK * n)) l = []) as ->; [|by rewrite app_nil_r].
    apply nil_length_inv. unfold chunk in E0. rewrite length_take in E0. unfold BLOCK in *. lia.
  - assert (length (chunk l n) <= 4096)%nat as Hc by (unfold chunk, BLOCK; rewrite length_take; lia).
    unfold failed at 1. rewrite (proj2 (Z.eqb_neq _ SYSCALL_ERROR)) by (unfold SYSCALL_ERROR; lia). rewrite Nat2Z.id, Eb.
    unfold act, bindM at 1 2. cbn [getM]. unfold getM. destruct (ck_fappend fs ino (chunk l n) (kern w)) as [a k'] eqn:Ea.
    unfold bindM at 1, modM at 1, retM at 1. unfold failed. destruct (Z.eqb_spec a SYSCALL_ERROR) as [Ee|Ee].
    + eexists false, _. split; [reflexivity|]. split; [done|]. by apply tell_complains.
    + destruct (fl_append _ _ _ _ _ _ _ Hd Ea Ee) as [Hd' Ho].
      destruct (IH (n + 1) (d ++ chunk l n) (set_kern k' w)) as (ok & w' & E & Edir & Hok); [lia|cbn; by rewrite Ho|done| |].
      { pose proof (chunk_rest l n Hn) as El. apply (f_equal length) in El. rewrite length_app in El. lia. }
      exists ok, w'. split; [exact E|]. split; [exact Edir|]. destruct ok; [|exact Hok]. destruct Hok as (Ec & Ek & Hoth). split; [exact Ec|]. split.
      * rewrite Ek. rewrite <- app_assoc, <- chunk_rest by done. done.
      * intros fs' ino' Hn'. rewrite Hoth by done. by apply Ho.
Qed.

(** What the steps of a command do. *)
Lemma ask_bind {A B} (f : K -> A) (k : A -> M world B) w : bindM (ask f) k w = k (f (kern w)) w.
Proof. done. Qed.
Lemma act_bind {A B} (f : K -> A * K) (k : A -> M world B) w : bindM (act f) k w = k (f (kern w)).1 (set_kern (f (kern w)).2 w).
Proof. unfold act, bindM, getM. destruct (f (kern w)) as [a k']. done. Qed.
Lemma path_bind {B} args p (k : option (list Z) -> M world B) w : return_path (dir w) args = PathIs p -> bindM (path_of args) k w = k (Some p) w.
Proof. intros E. unfold path_of, bindM, getM. by rewrite E. Qed.

(** The arguments [old new], with no option in front. *)
Lemma split_two old new : 32 ∉ old -> Forall (fun c => c <> 0) old -> split (old ++ 32 :: new) = (old, new).
Proof.
  intros Hs Hz. induction Hz as [|c old Hc _ IH]; [done|]. apply not_elem_of_cons in Hs as [Hc32 Hs]. cbn.
  rewrite (proj2 (Z.eqb_neq c 32)), (proj2 (Z.eqb_neq c 0)) by done. by rewrite IH.
Qed.

(** C20. cp copies a file.  With two arguments, the first naming a file and the
    second a path that is free, in a directory that exists and not below the
    first, the command ends, and either it says what went wrong or there is one
    new file with the bytes of the source, while the source and all other files
    are as before and nothing is printed. *)
Theorem cp_copies_file fuel stat0 old_arg new_arg old new w src_n src_fs parent_n parent_fs leaf l :
  32 ∉ old_arg -> Forall (fun c => c <> 0) old_arg -> old_arg <> [] -> head old_arg <> Some 45 -> new_arg <> [] ->
  return_path (dir w) old_arg = PathIs old -> return_path (dir w) new_arg = PathIs new -> (length new <= 255)%nat ->
  (uk_resolve_symlink new (kern w)).1 = SYSCALL_ERROR -> uk_resolve_dir old (kern w) = (src_n, src_fs) -> src_n <> SYSCALL_ERROR ->
  is_dir stat0 src_n src_fs (kern w) = false -> at_or_below (rev (drop_slashes (rev old))) new = false ->
  split_parent_leaf new (kern w) = Some (parent_n, parent_fs, leaf) -> content src_fs src_n (kern w) = Some l -> (length l < fuel)%nat ->
  exists w', cmd_cp stat0 fuel (old_arg ++ 32 :: new_arg) w = Done tt w' /\ dir w' = dir w /\
    (complained w w' \/
     con w' = con w /\ exists fs ino, content fs ino (kern w) = None /\ content fs ino (kern w') = Some l /\
       forall fs' ino', (fs', ino') <> (fs, ino) -> content fs' ino' (kern w') = content fs' ino' (kern w)).
Proof.
  intros Hsp Hz Ho Hf Hn Eo En Hl Hnew Esrc Hsrc Hdir Hin Epl Hc Hfuel. unfold cmd_cp, take_flag.
  assert (head (old_arg ++ 32 :: new_arg) = head old_arg) as -> by (by destruct old_arg). rewrite bool_decide_eq_false_2 by done.
  rewrite split_two by done. rewrite !(bool_decide_eq_false_2 (_ = [])) by done. cbn [orb]. rewrite (path_bind _ _ _ _ En). rewrite ask_bind.
  unfold failed at 1. rewrite Hnew. change (SYSCALL_ERROR =? SYSCALL_ERROR) with true. cbn [negb]. rewrite (path_bind _ _ _ _ Eo), ask_bind, Esrc. cbn [fst].
  unfold failed at 1. rewrite (proj2 (Z.eqb_neq _ _)) by done. unfold unterminated at 1 3, PATH_BUF. rewrite (proj2 (Z.leb_gt 256 (Z.of_nat (length new)))) by lia. cbn [andb].
  rewrite Hin, ask_bind, Epl. unfold cp_to. rewrite ask_bind, Esrc. unfold is_dirM. rewrite ask_bind, Hdir, act_bind.
  destruct (uk_touch parent_fs parent_n leaf (kern w)) as [[ino fs] k'] eqn:Et. cbn [fst snd]. unfold failed. destruct (Z.eqb_spec ino SYSCALL_ERROR) as [Ee|Ee].
  - eexists. split; [reflexivity|]. split; [done|]. left. by apply tell_complains.
  - destruct (fl_touch _ _ _ _ _ _ _ Et Ee) as (H1 & H2 & H3).
    assert ((src_fs, src_n) <> (fs, ino)) as Hne by (intros [= -> ->]; congruence).
    destruct (copy_file_spec fuel src_n ino src_fs fs l Hne 0 [] (set_kern k' w)) as (ok & w' & E & Ed & Hok); [lia|cbn; by rewrite H3|done|by rewrite drop_0|].
    exists w'. split; [unfold bindM; by rewrite E|]. split; [exact Ed|]. destruct ok; [right|left; exact Hok]. destruct Hok as (Ec & Ek & Hoth).
    split; [exact Ec|]. exists fs, ino. split; [done|]. split; [exact Ek|]. intros fs' ino' Hn'. rewrite Hoth by done. by apply H3.
Qed.

End cp.

(** ** echo *)

(** Both operators in one line: the one that appends wins, wherever it stands. *)
Example echo_out_wins : echo_target (bytes_of "a >> f > g") = (5, false) /\ echo_target (bytes_of "a > f >> g") = (9, false) /\ echo_target (bytes_of "a > f") = (4, true).
Proof. done. Qed.

(** A path of 300 bytes that begins with a slash writes behind [dir]. *)
Example cd_overruns : cd_path (SLASH :: replicate 299 97) = None.
Proof. reflexivity. Qed.

(** ** A kernel with files in one directory *)

(** The paths //a and //b are the file 0 and free, any other path is the directory. *)
Definition flat_resolve (path : list Z) (_ : list (list Z)) : Z * Z :=
  if bool_decide (path = bytes_of "//a") then (0, 0) else if bool_decide (path = bytes_of "//b") then (SYSCALL_ERROR, 0) else (100, 0).
Definition flat_content (fs ino : Z) (k : list (list Z)) : option (list Z) := if (fs =? 0) && (0 <=? ino) then k !! Z.to_nat ino else None.

#[export] Instance flat_files : UserKernel (list (list Z)) := {|
  uk_resolve_dir := flat_resolve; uk_resolve_symlink := flat_resolve;
  uk_get_stat := fun _ ino _ => Some (if ino =? 100 then [0; 64] else [0; 128]);
  uk_read_chunk := fun fs ino n k => let c := chunk (default [] (flat_content fs ino k)) n in (Z.of_nat (length c), c);
  uk_touch := fun _ _ _ k => (Z.of_nat (length k), 0, k ++ [[]]);
  uk_fsave := fun _ _ _ k => (SYSCALL_ERROR, k);
  uk_ticks := fun _ => 0 |}.

#[export] Instance flat_kernel : CommandKernel (list (list Z)) := {|
  ck_mkdir := fun _ _ _ k => (SYSCALL_ERROR, 0, k); ck_rm_inode := fun _ _ _ k => (SYSCALL_ERROR, k); ck_rm_dir := fun _ _ _ k => (SYSCALL_ERROR, k);
  ck_fappend := fun fs ino b k =>
    match flat_content fs ino k with Some l => (0, <[Z.to_nat ino := l ++ b]> k) | None => (SYSCALL_ERROR, k) end;
  ck_ftrunc := fun _ _ _ k => (SYSCALL_ERROR, k); ck_fmove := fun _ _ _ _ _ k => (SYSCALL_ERROR, k);
  ck_lmake_hard := fun _ _ _ _ _ k => (SYSCALL_ERROR, k); ck_lmake_sym := fun _ _ _ _ k => (SYSCALL_ERROR, k);
  ck_is_mountpoint := fun _ _ _ => 0; ck_mount := fun _ k => (SYSCALL_ERROR, k); ck_umount := fun _ k => (SYSCALL_ERROR, k);
  ck_epoch := fun _ => 0; ck_halt := fun k => k |}.

Lemma flat_some fs ino k l : flat_content fs ino k = Some l -> fs = 0 /\ 0 <= ino /\ k !! Z.to_nat ino = Some l.
Proof. unfold flat_content. destruct ((fs =? 0) && (0 <=? ino)) eqn:E; [|done]. apply andb_prop in E as [->%Z.eqb_eq ?%Z.leb_le]. done. Qed.

Lemma flat_other ino k k' : (forall i, i <> Z.to_nat ino -> k' !! i = k !! i) -> 0 <= ino ->
  forall fs' ino', (fs', ino') <> (0, ino) -> flat_content fs' ino' k' = flat_content fs' ino' k.
Proof.
  intros Hk Hi fs' ino' Hne. unfold flat_content. destruct ((fs' =? 0) && (0 <=? ino')) eqn:E; [|done]. apply andb_prop in E as [->%Z.eqb_eq ?%Z.leb_le].
  apply Hk. intros E. apply Hne. f_equal. lia.
Qed.

#[export] Instance flat_laws : FileLaws (list (list Z)) flat_content.
Proof.
  split.
  - intros fs ino n k l Hc Hn. cbn. rewrite Hc. eexists. split; [reflexivity|]. by rewrite take_ge.
  - intros fs ino b k l r k' Hc E Hr. cbn in E. rewrite Hc in E. injection E as <- <-. apply flat_some in Hc as (-> & Hi & Hl). split.
    + unfold flat_content. rewrite (proj2 (Z.leb_le 0 ino)) by done. cbn. apply list_lookup_insert_eq. by eapply lookup_lt_Some.
    + apply flat_other; [|done]. intros i Hne. by rewrite list_lookup_insert_ne.
  - intros fs parent name k ino fs' k' E _. cbn in E. injection E as <- <- <-. unfold flat_content at 1 2. rewrite (proj2 (Z.leb_le 0 _)) by lia. cbn. rewrite Nat2Z.id.
    split; [by apply lookup_ge_None_2|]. split; [by rewrite lookup_app_r, Nat.sub_diag|]. apply flat_other; [|lia]. intros i Hne. rewrite Nat2Z.id in Hne.
    destruct (decide (i < length k)%nat); [by rewrite lookup_app_l|]. rewrite !lookup_ge_None_2; [done|lia|rewrite length_app; cbn; lia].
Qed.

Definition flat_world : User.world := mkW empty_term [[1; 2; 3]] [SLASH].

Lemma cd_moves_witness :
  cmd_cd [] (bytes_of "d/../e") flat_world = Done tt (mkW (con flat_world) (kern flat_world) (bytes_of "/e")) /\ Forall proper [bytes_of "e"].
Proof. apply (cd_moves [] (bytes_of "d/../e") flat_world false [] 100 0); [reflexivity|exact (List.Forall_nil _)|by apply Nat.leb_le|cbn; lia|reflexivity|done|reflexivity]. Defined.

Lemma cp_copies_file_witness : exists w', cmd_cp [] 10 (bytes_of "a b") flat_world = Done tt w' /\ dir w' = [SLASH] /\
  (complained flat_world w' \/ con w' = con flat_world /\ exists fs ino, flat_content fs ino [[1; 2; 3]] = None /\ flat_content fs ino (kern w') = Some [1; 2; 3] /\
     forall fs' ino', (fs', ino') <> (fs, ino) -> flat_content fs' ino' (kern w') = flat_content fs' ino' [[1; 2; 3]]).
Proof.
  apply (cp_copies_file 10 [] (bytes_of "a") (bytes_of "b") (bytes_of "//a") (bytes_of "//b") flat_world 0 0 100 0 (bytes_of "b") [1; 2; 3]);
    try done; try (cbn; lia); [intros Hin; by vm_compute in Hin; set_solver|repeat constructor; done].
Defined.
