(* ===== verification/TreeSpec.v ===== *)
(** * Directories as the commands read them, and rm -r

    The commands parse directory blocks on their own.  On every block the kernel
    makes they see its names, in order, without dot and dot-dot.  With that, and
    what the calls that remove promise, rm -r takes a whole tree away. *)
From S2P Require Import Prelude Bytes CLib Disk Inode DirBlock Scheduler Screen ScreenSpec User DinvScreen Shell ShellSpec Commands CommandsSpec.

(** ** The entries of a block *)

(** A name, an inode, whether it is a directory. *)
Definition dirent : Type := list Z * Z * bool.

Definition is_dots (n : list Z) : bool := bool_decide (n = [46]) || bool_decide (n = [46; 46]).

Definition kid (b : list Z) (c : Z) : option dirent :=
  if (de_inode b c =? 0) || is_dots (de_name b c) then None else Some (de_name b c, de_inode b c, ld8 b (c + 7) =? 2).
Definition kids (b l : list Z) : list dirent := omap (kid b) l.

(** The block is well-formed and the commands see [es]. *)
Definition kid_block (b : list Z) (es : list dirent) : Prop :=
  length b = 4096%nat /\ bytes_ok b /\ exists l, seg b 0 l BLOCK_SIZE /\ kids b l = es /\ Forall (fun e => plain_name e.1.1) es.

(** All children, one [next_child] after the other. *)
Fixpoint children (fuel : nat) (b : list Z) (pos : Z) : option (list dirent) :=
  match fuel with
  | O => None
  | S fuel =>
      match next_child (S (Z.to_nat BLOCK_SIZE)) b BLOCK_SIZE pos with
      | Child name ino isdir next => cons (name, ino, isdir) <$> children fuel b next
      | NoChild => Some []
      | BadEntry | Stuck => None
      end
  end.

Lemma c_bytes_plain n x : plain_name x -> (length x <= n)%nat -> c_bytes n x = x.
Proof.
  intros Hx. revert n. induction Hx as [|c x Hc _ IH]; intros [|n] Hn; cbn in *; try done; [lia|]. rewrite (proj2 (Z.eqb_neq c 0)) by done. by rewrite IH by lia.
Qed.

Lemma entry_ok b c : bytes_ok b -> ok_entry b c -> entry_overruns b BLOCK_SIZE c = false.
Proof.
  intros Hb Hc. pose proof (ok_entry_bounds b c Hb Hc) as Hbd. unfold entry_overruns. fold (de_size b c) (de_name_len b c).
  rewrite u32_small by lia. unfold BLOCK_SIZE. rewrite !orb_false_iff, !Z.ltb_ge. lia.
Qed.

Lemma entry_name_short b c : bytes_ok b -> ok_entry b c -> (length (de_name b c) <= 255)%nat.
Proof. intros Hb Hc. pose proof (ok_entry_bounds b c Hb Hc). unfold de_name, sub. rewrite length_take. lia. Qed.

(** The loop over a block finds the first child. *)
Lemma next_child_spec b c l fuel : bytes_ok b -> seg b c l BLOCK_SIZE -> (length l < fuel)%nat -> Forall (fun e => plain_name e.1.1) (kids b l) ->
  match kids b l with
  | [] => next_child fuel b BLOCK_SIZE c = NoChild
  | (nm, i, d) :: es => exists next l', next_child fuel b BLOCK_SIZE c = Child nm i d next /\ seg b next l' BLOCK_SIZE /\ kids b l' = es /\ (length l' < length l)%nat
  end.
Proof.
  intros Hb Hs. remember BLOCK_SIZE as e eqn:He. revert fuel. induction Hs as [c|c l e Hc Hs IH]; intros [|fuel] Hf Hp; simpl in Hf; try lia.
  - subst. cbn. done.
  - subst. pose proof (ok_entry_bounds b c Hb Hc) as Hbd. cbn [next_child]. rewrite (proj2 (Z.leb_gt BLOCK_SIZE c)) by (unfold BLOCK_SIZE; lia). rewrite entry_ok by done.
    fold (de_size b c) (de_inode b c). change (entry_name b c) with (de_name b c). unfold kids in *. cbn [omap list_omap] in *. unfold kid in *. unfold is_dots in *.
    destruct (de_inode b c =? 0); cbn [orb negb andb] in *.
    + specialize (IH eq_refl fuel ltac:(lia) Hp). destruct (omap _ l) as [|[[nm i] d] es]; [done|]. destruct IH as (nx & l' & ? & ? & ? & ?). exists nx, l'. cbn. repeat split; (done || lia).
    + repeat case_bool_decide; cbn [orb negb andb] in *.
      all: try (specialize (IH eq_refl fuel ltac:(lia) Hp); destruct (omap _ l) as [|[[nm i] d] es]; [done|]; destruct IH as (nx & l' & ? & ? & ? & ?); exists nx, l'; cbn; repeat split; (done || lia)).
      apply Forall_cons in Hp as [Hn _]. cbn in Hn. rewrite c_bytes_plain by (done || (pose proof (entry_name_short b c Hb Hc); lia)).
      eexists _, l. split; [reflexivity|]. repeat split; [done|cbn; lia].
Qed.

Lemma seg_length b c l : bytes_ok b -> seg b c l BLOCK_SIZE -> 0 <= c -> (length l <= 512)%nat.
Proof. intros Hb Hs Hc. pose proof (seg_bounds b c l _ Hb Hs) as (H & _). unfold BLOCK_SIZE in H. lia. Qed.

Lemma seg_start b c l : bytes_ok b -> seg b c l BLOCK_SIZE -> 0 <= c.
Proof. intros Hb Hs. remember BLOCK_SIZE as e eqn:He. destruct Hs as [c|c l e Hc Hs]; [subst; done|]. by destruct Hc. Qed.

Lemma children_spec b c l fuel : bytes_ok b -> seg b c l BLOCK_SIZE -> Forall (fun e => plain_name e.1.1) (kids b l) -> (length l < fuel)%nat ->
  children fuel b c = Some (kids b l).
Proof.
  intros Hb. revert c l. induction fuel as [|fuel IH]; intros c l Hs Hp Hf; [lia|]. cbn [children].
  pose proof (seg_length b c l Hb Hs (seg_start b c l Hb Hs)) as Hl.
  pose proof (next_child_spec b c l (S (Z.to_nat BLOCK_SIZE)) Hb Hs ltac:(unfold BLOCK_SIZE; lia) Hp) as Hn.
  destruct (kids b l) as [|[[nm i] d] es]; [by rewrite Hn|]. destruct Hn as (nx & l' & -> & Hs' & <- & Hlt). apply Forall_cons in Hp as [_ Hp].
  rewrite (IH nx l') by (done || lia). done.
Qed.

Lemma kids_live b l : fst <$> kids b l = filter (fun p => is_dots p.1 = false) (DirBlock.live b l).
Proof.
  induction l as [|c l IH]; [done|]. unfold kids, DirBlock.live in *. cbn [omap list_omap]. unfold kid at 1, live_entry at 1. destruct (de_inode b c =? 0); cbn [orb]; [done|].
  rewrite filter_cons. cbn [fst]. destruct (is_dots (de_name b c)); [by rewrite decide_False|]. rewrite decide_True by done. cbn. by rewrite IH.
Qed.

Lemma repr_kids b d l : Forall (fun p => plain_name p.1) d -> DirBlock.live b l = d -> Forall (fun e => plain_name e.1.1) (kids b l).
Proof.
  intros Hp <-. assert (Forall (fun p => plain_name p.1) (fst <$> kids b l)) as Hk; [|exact (proj1 (Forall_fmap fst (fun p => plain_name p.1) (kids b l)) Hk)].
  rewrite kids_live. apply Forall_forall. intros p [_ Hin]%list_elem_of_filter. by rewrite Forall_forall in Hp; apply Hp.
Qed.

(** C22. The commands and the kernel agree on directories.  In every block that is
    well-formed for the kernel, as every block it makes is, the loop the commands
    rm and cp search with finds the names the kernel finds there with their inodes,
    all of them, in order, but for dot and dot-dot, and never takes the block for
    a broken one. *)
Theorem commands_see_names b d : repr b d -> exists es, children 513 b 0 = Some es /\ fst <$> es = filter (fun p => is_dots p.1 = false) d.
Proof.
  intros (Hlen & Hb & Hp & l & Hs & Hd). exists (kids b l). split; [|by rewrite kids_live, Hd].
  apply children_spec; [done|done|by eapply repr_kids|]. pose proof (seg_length b 0 l Hb Hs). lia.
Qed.

Lemma repr_kid_block b d : repr b d -> exists es, kid_block b es /\ fst <$> es = filter (fun p => is_dots p.1 = false) d.
Proof.
  intros (Hlen & Hb & Hp & l & Hs & Hd). exists (kids b l). split; [|by rewrite kids_live, Hd]. split; [done|]. split; [done|]. exists l. split; [done|]. split; [done|].
  by eapply repr_kids.
Qed.

(** ** What the kernel promises about directories *)

Fixpoint efind (n : list Z) (es : list dirent) : option (Z * bool) :=
  match es with [] => None | (m, i, d) :: es => if decide (m = n) then Some (i, d) else efind n es end.
Fixpoint edel (n : list Z) (es : list dirent) : list dirent :=
  match es with [] => [] | (m, i, d) :: es => if decide (m = n) then es else (m, i, d) :: edel n es end.

(** [max_blocks] bounds the blocks of a directory. *)
Class DirLaws (K : Type) `{CommandKernel K} (max_blocks : nat) (entries : Z -> Z -> K -> option (list dirent)) : Prop := {
  dl_read fs d k es : entries fs d k = Some es -> exists bs ess, (length bs <= max_blocks)%nat /\ Forall2 kid_block bs ess /\ concat ess = es /\
    (forall n b, bs !! n = Some b -> uk_read_chunk fs d (Z.of_nat n) k = (BLOCK_SIZE, b)) /\
    exists b, uk_read_chunk fs d (Z.of_nat (length bs)) k = (0, b);
  dl_rm_inode fs d name es i k r k' : entries fs d k = Some es -> efind name es = Some (i, false) -> ck_rm_inode fs d name k = (r, k') -> r <> SYSCALL_ERROR ->
    entries fs d k' = Some (edel name es) /\ (forall fs' x, (fs', x) <> (fs, d) -> entries fs' x k' = entries fs' x k) /\
    forall fs' x, ck_is_mountpoint fs' x k' = ck_is_mountpoint fs' x k;
  dl_rm_dir fs d name es c k r k' : entries fs d k = Some es -> efind name es = Some (c, true) -> entries fs c k = Some [] -> c <> d ->
    ck_rm_dir fs d name k = (r, k') -> r <> SYSCALL_ERROR ->
    entries fs d k' = Some (edel name es) /\ entries fs c k' = None /\ (forall fs' x, (fs', x) <> (fs, d) -> (fs', x) <> (fs, c) -> entries fs' x k' = entries fs' x k) /\
    forall fs' x, ck_is_mountpoint fs' x k' = ck_is_mountpoint fs' x k;
  dl_rm_missing fs d name es k : entries fs d k = Some es -> efind name es = None -> ck_rm_dir fs d name k = (SYSCALL_ERROR, k)
}.

Section rm.
Context {K : Type} `{DirLaws K max_blocks entries}.
Implicit Types w : User.world (K := K).

(** The search over the chunks of a directory. *)
Lemma first_child_from bs ess : Forall2 kid_block bs ess -> forall fs d fuel n w, 
  (forall i b, bs !! i = Some b -> uk_read_chunk fs d (n + Z.of_nat i) (kern w) = (BLOCK_SIZE, b)) ->
  (exists b, uk_read_chunk fs d (n + Z.of_nat (length bs)) (kern w) = (0, b)) -> (length bs < fuel)%nat ->
  match concat ess with
  | [] => first_child fuel fs d n w = Done Nothing w
  | (nm, i, dr) :: _ => exists chunk pos, first_child fuel fs d n w = Done (Found nm i dr chunk pos) w
  end.
Proof.
  induction 1 as [|b es bs ess (Hlen & Hb & l & Hs & Hk & Hp) _ IH]; intros fs d fuel n w Hr [b0 He] Hf; (destruct fuel as [|fuel]; [cbn in Hf; lia|]); cbn [first_child concat].
  - rewrite ask_bind. rewrite Z.add_0_r in He. rewrite He. done.
  - rewrite ask_bind. pose proof (Hr 0%nat b eq_refl) as Er. rewrite Z.add_0_r in Er. rewrite Er. change (BLOCK_SIZE =? 0) with false. change (failed BLOCK_SIZE) with false. cbn iota.
    rewrite <- Hk in Hp. pose proof (next_child_spec b 0 l (S (Z.to_nat BLOCK_SIZE)) Hb Hs) as Hn. pose proof (seg_length b 0 l Hb Hs) as Hl.
    specialize (Hn ltac:(unfold BLOCK_SIZE; lia) Hp). rewrite Hk in Hn. destruct es as [|[[nm i] dr] es]; cbn [app].
    + rewrite Hn. apply IH; [|exists b0; rewrite <- He; f_equal; cbn; lia|cbn in Hf; lia].
      intros j b' Hj. rewrite <- (Hr (S j) b' Hj). f_equal. lia.
    + destruct Hn as (nx & l' & -> & _). by eexists _, _.
Qed.

Lemma first_child_spec fs d es fuel w : entries fs d (kern w) = Some es -> (max_blocks < fuel)%nat ->
  match es with
  | [] => first_child fuel fs d 0 w = Done Nothing w
  | (nm, i, dr) :: _ => exists chunk pos, first_child fuel fs d 0 w = Done (Found nm i dr chunk pos) w
  end.
Proof.
  intros He Hf. destruct (dl_read _ _ _ _ He) as (bs & ess & Hm & Hk & <- & Hr & Hend). apply (first_child_from bs ess Hk); [exact Hr|exact Hend|lia].
Qed.

(** ** A tree *)

(** The directories [ds] below and including [d], of which no one is a mount
    point or reached twice; [n] counts the entries and directories. *)
Inductive tree_at (fs : Z) (k : K) : Z -> list Z -> nat -> Prop :=
| tree_dir d es ds n : entries fs d k = Some es -> kids_at fs k es ds n -> NoDup (d :: ds) -> tree_at fs k d (d :: ds) (S n)
with kids_at (fs : Z) (k : K) : list dirent -> list Z -> nat -> Prop :=
| kids_nil : kids_at fs k [] [] 0
| kids_file nm i es ds n : kids_at fs k es ds n -> kids_at fs k ((nm, i, false) :: es) ds (S n)
| kids_dir nm i es ds1 ds2 n1 n2 : tree_at fs k i ds1 n1 -> ck_is_mountpoint fs i k = 0 -> kids_at fs k es ds2 n2 ->
    kids_at fs k ((nm, i, true) :: es) (ds1 ++ ds2) (S (n1 + n2)).

Scheme tree_at_mut := Minimality for tree_at Sort Prop with kids_at_mut := Minimality for kids_at Sort Prop.

(** Only the directories of the tree matter to it. *)
Lemma kids_frame fs k k' es ds n : (forall x, ck_is_mountpoint fs x k' = ck_is_mountpoint fs x k) -> kids_at fs k es ds n ->
  (forall x, x ∈ ds -> entries fs x k' = entries fs x k) -> kids_at fs k' es ds n.
Proof.
  intros Hm. apply (kids_at_mut fs k (fun d ds n => (forall x, x ∈ ds -> entries fs x k' = entries fs x k) -> tree_at fs k' d ds n)
    (fun es ds n => (forall x, x ∈ ds -> entries fs x k' = entries fs x k) -> kids_at fs k' es ds n)).
  - intros d es0 ds0 n0 He _ IH Hn Hx. apply (tree_dir _ _ _ es0); [rewrite Hx by set_solver; done|apply IH; set_solver|done].
  - intros _. constructor.
  - intros nm i es0 ds0 n0 _ IH Hx. constructor. by apply IH.
  - intros nm i es0 ds1 ds2 n1 n2 _ IH1 Hmp _ IH2 Hx. constructor; [apply IH1; set_solver|by rewrite Hm|apply IH2; set_solver].
Qed.

Lemma tree_root fs k d ds n : tree_at fs k d ds n -> exists ds', ds = d :: ds'.
Proof. destruct 1. by eexists. Qed.

(** The state after the children of [d] are gone. *)
Record emptied (fs d : Z) (ds : list Z) w w1 : Prop := mkEmptied {
  em_con : con w1 = con w; em_dir : dir w1 = dir w; em_root : entries fs d (kern w1) = Some [];
  em_gone : forall x, x ∈ ds -> entries fs x (kern w1) = None;
  em_rest : forall fs' x, ~ (fs' = fs /\ x ∈ d :: ds) -> entries fs' x (kern w1) = entries fs' x (kern w);
  em_mnt : forall fs' x, ck_is_mountpoint fs' x (kern w1) = ck_is_mountpoint fs' x (kern w) }.

(** The last step of rm_tree. *)
Definition rm_last (fs parent_n : Z) (name : list Z) : M world rm_res :=
  let* r := act (ck_rm_dir fs parent_n name) in retM (if failed r then RmFailed else RmDone).

Definition fails (r : outcome world rm_res) w : Prop := exists w', r = Done RmFailed w' /\ con w' = con w /\ dir w' = dir w.

(** A directory whose children are gone is removed from its parent. *)
Lemma rm_last_spec fs p name d ds pes w w1 : emptied fs d ds w w1 -> p ∉ d :: ds -> entries fs p (kern w) = Some pes -> efind name pes = Some (d, true) ->
  fails (rm_last fs p name w1) w \/
  exists w', rm_last fs p name w1 = Done RmDone w' /\ con w' = con w /\ dir w' = dir w /\ entries fs p (kern w') = Some (edel name pes) /\
    (forall x, x ∈ d :: ds -> entries fs x (kern w') = None) /\
    (forall fs' x, ~ (fs' = fs /\ x ∈ p :: d :: ds) -> entries fs' x (kern w') = entries fs' x (kern w)) /\
    forall fs' x, ck_is_mountpoint fs' x (kern w') = ck_is_mountpoint fs' x (kern w).
Proof.
  intros [Ec Ed Er Eg Ere Em] Hp Hpe Hf. unfold rm_last. rewrite act_bind. destruct (ck_rm_dir fs p name (kern w1)) as [r k'] eqn:E. cbn [fst snd]. unfold failed.
  destruct (Z.eqb_spec r SYSCALL_ERROR) as [->|Hr]; [left; eexists; split; [reflexivity|done]|]. right.
  rewrite <- (Ere fs p) in Hpe by naive_solver.
  destruct (dl_rm_dir _ _ _ _ _ _ _ _ Hpe Hf Er ltac:(set_solver) E Hr) as (H1 & H2 & H3 & H4).
  eexists. split; [reflexivity|]. cbn. split; [done|]. split; [done|]. split; [done|]. split; [|split].
  - intros x [->|Hx]%elem_of_cons; [done|]. destruct (decide (x = d)) as [->|Hxd]; [done|]. rewrite H3 by (intros [=]; set_solver). by apply Eg.
  - intros fs' x Hx. rewrite H3; [apply Ere; set_solver|intros [= -> ->]; set_solver..].
  - intros fs' x. by rewrite H4.
Qed.

(** rm_tree removes the children of the directory, or fails. *)
Lemma rm_kids_spec fs fuel : forall d ds n p name w, tree_at fs (kern w) d (d :: ds) n -> (n + max_blocks < fuel)%nat ->
  fails (rm_tree fuel p name d fs w) w \/ exists w1, emptied fs d ds w w1 /\ rm_tree fuel p name d fs w = rm_last fs p name w1.
Proof.
  induction fuel as [|fuel IH]; intros d ds n p name w Ht Hf; [lia|]. inversion Ht as [? es ? n' He Hk Hnd]; subst. cbn [rm_tree].
  pose proof (first_child_spec fs d es fuel w He ltac:(lia)) as Hfc. inversion Hk as [|nm i es' ds' n0 Hk'|nm i es' ds1 ds2 n1 n2 Ht1 Hmp Hk']; subst.
  - rewrite (bindM_Done _ _ _ _ _ Hfc). right. exists w. split; [|done]. split; try done. set_solver.
  - destruct Hfc as (ch & pos & Hfc). rewrite (bindM_Done _ _ _ _ _ Hfc), act_bind. destruct (ck_rm_inode fs d nm (kern w)) as [r k'] eqn:E. cbn [fst snd].
    destruct (failed r) eqn:Hr; [left; eexists; split; [reflexivity|done]|]. apply Z.eqb_neq in Hr.
    destruct (dl_rm_inode _ _ _ _ i _ _ _ He ltac:(cbn; by rewrite decide_True) E Hr) as (H1 & H2 & H3). cbn [edel] in H1. rewrite decide_True in H1 by done.
    destruct (IH d ds (S n0) p name (set_kern k' w)) as [(w' & E' & ?)|(w1 & Hem & E')]; [|lia| |].
    + apply (tree_dir _ _ _ es'); [done|apply (kids_frame _ (kern w)); [done|done|]|done]. intros x Hx. apply H2. intros [= ->]. by apply NoDup_cons in Hnd as [? _].
    + left. by exists w'.
    + right. exists w1. split; [|exact E']. destruct Hem as [Ec Ed Er Eg Ere Em]. split; try done.
      * intros fs' x Hx. rewrite Ere by done. apply H2. intros [= -> ->]. set_solver.
      * intros fs' x. rewrite Em. apply H3.
  - destruct Hfc as (ch & pos & Hfc). rewrite (bindM_Done _ _ _ _ _ Hfc), ask_bind, Hmp. change (0 =? 0) with true. cbn [negb].
    destruct (tree_root _ _ _ _ _ Ht1) as [ds1' ->]. apply NoDup_cons in Hnd as [Hd Hnd]. apply NoDup_app in Hnd as (Hnd1 & Hdis & Hnd2).
    assert (efind nm ((nm, i, true) :: es') = Some (i, true)) as Hef by (cbn; by rewrite decide_True).
    assert (fails (rm_tree fuel d nm i fs w) w \/ exists w', rm_tree fuel d nm i fs w = Done RmDone w' /\ con w' = con w /\ dir w' = dir w /\
      entries fs d (kern w') = Some es' /\ (forall x, x ∈ i :: ds1' -> entries fs x (kern w') = None) /\
      (forall fs' x, ~ (fs' = fs /\ x ∈ d :: i :: ds1') -> entries fs' x (kern w') = entries fs' x (kern w)) /\
      forall fs' x, ck_is_mountpoint fs' x (kern w') = ck_is_mountpoint fs' x (kern w)) as Hsub.
    { destruct (IH i ds1' n1 d nm w Ht1 ltac:(lia)) as [?|(w1 & Hem & ->)]; [by left|].
      pose proof (rm_last_spec fs d nm i ds1' _ w w1 Hem ltac:(set_solver) He Hef) as Hl. cbn [edel] in Hl. rewrite decide_True in Hl by done. exact Hl. }
    destruct Hsub as [(w' & E & Hw')|(w' & E & Ec & Ed & Er & Eg & Ere & Em)]; rewrite (bindM_Done _ _ _ _ _ E); [left; by exists w'|].
    destruct (IH d ds2 (S n2) p name w') as [(w2 & E2 & Hc2 & Hd2)|(w1 & Hem & E2)]; [|lia| |].
    + apply (tree_dir _ _ _ es'); [done|apply (kids_frame _ (kern w)); [done|done|]|apply NoDup_cons; set_solver]. intros x Hx. apply Ere. set_solver.
    + left. exists w2. rewrite Hc2, Hd2. done.
    + right. exists w1. split; [|exact E2]. destruct Hem as [Ec' Ed' Er' Eg' Ere' Em']. split; [congruence|congruence|done| | |].
      * intros x [Hx|Hx]%elem_of_app; [|by apply Eg']. rewrite Ere' by set_solver. by apply Eg.
      * intros fs' x Hx. rewrite Ere' by set_solver. apply Ere. set_solver.
      * intros fs' x. by rewrite Em', Em.
Qed.

(** The parent and the leaf of a path. *)
Definition parent_of (path : list Z) : list Z := if last_slash path =? 0 then [SLASH] else take (Z.to_nat (last_slash path)) path.
Definition leaf_of (path : list Z) : list Z := drop (Z.to_nat (last_slash path + 1)) path.

Lemma cut_bind {B} path (f : list Z * list Z -> M world B) w : 0 <= last_slash path -> bindM (cut_path path) f w = f (parent_of path, leaf_of path) w.
Proof. intros Hl. unfold cut_path. rewrite (proj2 (Z.ltb_ge _ _)) by done. done. Qed.

(** The command up to rm_tree. *)
Lemma cmd_rm_tree stat0 fuel args path_arg path w d fs p : take_flag args = (bytes_of "-r", path_arg) ->
  return_path (dir w) path_arg = PathIs path -> path <> [] -> uk_resolve_symlink path (kern w) = (d, fs) -> d <> SYSCALL_ERROR -> 0 <= last_slash path ->
  uk_resolve_dir (parent_of path) (kern w) = (p, fs) -> p <> SYSCALL_ERROR -> ck_is_mountpoint fs d (kern w) = 0 -> is_dir stat0 d fs (kern w) = true ->
  cmd_rm stat0 fuel args w = bindM (rm_tree fuel p (leaf_of path) d fs) (fun r => match r with RmFailed => tell "rm: failed (disk error)" | _ => retM tt end) w.
Proof.
  intros Ea Ep Hne Es Hd Hl Er Hp Hm Hdir. unfold cmd_rm. rewrite Ea, (path_bind _ _ _ _ Ep), bool_decide_eq_false_2, ask_bind, Es by done.
  unfold failed at 1. rewrite (proj2 (Z.eqb_neq _ _)) by done. rewrite cut_bind, ask_bind, Er by done. unfold failed at 1. rewrite (proj2 (Z.eqb_neq _ _)) by done.
  rewrite ask_bind, Hm. unfold is_dirM. change (negb (0 =? 0)) with false. cbn iota. rewrite ask_bind, Hdir. done.
Qed.

Lemma take_flag_r path_arg : take_flag (bytes_of "-r" ++ 32 :: path_arg) = (bytes_of "-r", path_arg).
Proof. reflexivity. Qed.

(** C8. rm -r removes a tree.  Given a path whose last name is a directory of its
    parent, and a tree below it without mount points, the command ends; unless a
    call of the kernel fails, in which case it says so, the name is gone from the
    parent, every directory of the tree is gone, every other directory of every
    file system is as before and nothing is printed. *)
Theorem rm_removes_tree stat0 fuel path_arg path w d fs p ds n pes :
  return_path (dir w) path_arg = PathIs path -> path <> [] -> uk_resolve_symlink path (kern w) = (d, fs) -> d <> SYSCALL_ERROR -> 0 <= last_slash path ->
  uk_resolve_dir (parent_of path) (kern w) = (p, fs) -> p <> SYSCALL_ERROR -> ck_is_mountpoint fs d (kern w) = 0 -> is_dir stat0 d fs (kern w) = true ->
  tree_at fs (kern w) d (d :: ds) n -> (n + max_blocks < fuel)%nat -> p ∉ d :: ds -> entries fs p (kern w) = Some pes -> efind (leaf_of path) pes = Some (d, true) ->
  exists w', cmd_rm stat0 fuel (bytes_of "-r" ++ 32 :: path_arg) w = Done tt w' /\ dir w' = dir w /\
    (complained w w' \/
     con w' = con w /\ entries fs p (kern w') = Some (edel (leaf_of path) pes) /\ (forall x, x ∈ d :: ds -> entries fs x (kern w') = None) /\
     forall fs' x, ~ (fs' = fs /\ x ∈ p :: d :: ds) -> entries fs' x (kern w') = entries fs' x (kern w)).
Proof.
  intros Ep Hne Es Hd Hl Er Hp Hm Hdir Ht Hf Hnp Hpe Hef. rewrite (cmd_rm_tree _ _ _ _ _ _ _ _ _ (take_flag_r path_arg) Ep Hne Es Hd Hl Er Hp Hm Hdir).
  destruct (rm_kids_spec fs fuel d ds n p (leaf_of path) w Ht Hf) as [(w' & E & Ec & Ed)|(w1 & Hem & E)].
  { rewrite (bindM_Done _ _ _ _ _ E). eexists. split; [reflexivity|]. split; [done|]. left. by apply tell_complains. }
  destruct (rm_last_spec fs p (leaf_of path) d ds pes w w1 Hem Hnp Hpe Hef) as [(w' & E2 & Ec & Ed)|(w' & E2 & Ec & Ed & H1 & H2 & H3 & _)];
    rewrite <- E in E2; rewrite (bindM_Done _ _ _ _ _ E2); eexists; (split; [reflexivity|]); (split; [done|]); [left; by apply tell_complains|by right].
Qed.

Lemma last_slash_end x : last_slash (x ++ [SLASH]) = Z.of_nat (length x).
Proof.
  unfold last_slash. set (l := x ++ [SLASH]). pose proof (for_range_ind (fun i last => i = Z.of_nat (length x) + 1 -> last = Z.of_nat (length x)) (length l) 0
    (fun i last => if l !!! Z.to_nat i =? SLASH then i else last) (-1)) as Hi. apply Hi; [lia| |unfold l; rewrite length_app; cbn; lia].
  intros i a Hr _ E. assert (i = Z.of_nat (length x)) as -> by lia. rewrite Nat2Z.id. unfold l. by rewrite lookup_total_app_r, Nat.sub_diag by done.
Qed.

(** rm -r without a path takes the current directory for the one meant: its check
    for a missing path is made on the absolute path, which is never empty.  All
    that is below the current directory is removed before the command fails on
    the empty name. *)
Lemma rm_without_path stat0 fuel w d fs ds n : (1 <= length (dir w) < 255)%nat -> head (dir w) = Some SLASH ->
  uk_resolve_symlink (dir w ++ [SLASH]) (kern w) = (d, fs) -> uk_resolve_dir (dir w) (kern w) = (d, fs) -> d <> SYSCALL_ERROR ->
  ck_is_mountpoint fs d (kern w) = 0 -> is_dir stat0 d fs (kern w) = true -> tree_at fs (kern w) d (d :: ds) n -> (n + max_blocks < fuel)%nat ->
  exists w', cmd_rm stat0 fuel (bytes_of "-r") w = Done tt w' /\ complained w w' /\
    (fails (rm_tree fuel d [] d fs w) w \/ exists w1, emptied fs d ds w w1 /\ kern w' = kern w1).
Proof.
  intros Hl Hh Es Er Hd Hm Hdir Ht Hf.
  assert (return_path (dir w) [] = PathIs (dir w ++ [SLASH])) as Ep.
  { unfold return_path, append_args, PATH_BUF. rewrite bool_decide_eq_false_2 by done. cbn [length]. rewrite (proj2 (Z.leb_gt _ _)) by lia. rewrite (proj2 (Z.leb_le 0 _)) by lia. cbn [negb].
    by rewrite (proj2 (Z.leb_gt _ _)) by lia. }
  assert (parent_of (dir w ++ [SLASH]) = dir w) as Epar.
  { unfold parent_of. rewrite last_slash_end, (proj2 (Z.eqb_neq _ _)) by lia. by rewrite Nat2Z.id, take_app_length. }
  assert (leaf_of (dir w ++ [SLASH]) = []) as Eleaf.
  { unfold leaf_of. rewrite last_slash_end. apply drop_ge. rewrite length_app. cbn. lia. }
  assert (dir w ++ [SLASH] <> []) as Hnn by (by destruct (dir w)). assert (0 <= last_slash (dir w ++ [SLASH])) as Hls by (rewrite last_slash_end; lia).
  rewrite <- Epar in Er at 1. rewrite (cmd_rm_tree stat0 fuel (bytes_of "-r") [] _ w d fs d eq_refl Ep Hnn Es Hd Hls Er Hd Hm Hdir), Eleaf.
  destruct (rm_kids_spec fs fuel d ds n d [] w Ht Hf) as [Hfail|(w1 & Hem & E)].
  - pose proof Hfail as (w' & E & Ec & Ed). rewrite (bindM_Done _ _ _ _ _ E). eexists. split; [reflexivity|]. split; [by apply tell_complains|by left].
  - assert (rm_last fs d [] w1 = Done RmFailed (set_kern (kern w1) w1)) as El.
    { unfold rm_last. rewrite act_bind. by rewrite (dl_rm_missing _ _ [] _ _ (em_root _ _ _ _ _ Hem) eq_refl). }
    rewrite <- E in El. rewrite (bindM_Done _ _ _ _ _ El). eexists. split; [reflexivity|]. split; [apply tell_complains; cbn; by apply (em_con _ _ _ _ _ Hem)|]. right. by exists w1.
Qed.

End rm.

(** ** A kernel with one directory below the root *)

(** The state says whether /d is there: inode 11, in the root, which is inode 2. *)
Definition d_block : list Z := fill_entry seed_block 0 11 1 [100; 0] 2.
Definition d_entries (fs x : Z) (k : bool) : option (list dirent) :=
  if negb (fs =? 0) then None
  else if x =? 2 then Some (if k then [([100], 11, true)] else [])
  else if (x =? 11) && k then Some [] else None.

#[export] Instance d_files : UserKernel bool := {|
  uk_resolve_dir := fun path _ => if bool_decide (path = [SLASH]) then (2, 0) else (SYSCALL_ERROR, 0);
  uk_resolve_symlink := fun path k => if bool_decide (path = bytes_of "//d") && k then (11, 0) else (SYSCALL_ERROR, 0);
  uk_get_stat := fun _ _ _ => Some [0; 64];
  uk_read_chunk := fun fs x n k =>
    match d_entries fs x k with
    | Some es => if n =? 0 then (BLOCK_SIZE, if bool_decide (es = []) then seed_block else d_block) else (0, [])
    | None => (SYSCALL_ERROR, [])
    end;
  uk_touch := fun _ _ _ k => (SYSCALL_ERROR, 0, k); uk_fsave := fun _ _ _ k => (SYSCALL_ERROR, k); uk_ticks := fun _ => 0 |}.

#[export] Instance d_kernel : CommandKernel bool := {|
  ck_mkdir := fun _ _ _ k => (SYSCALL_ERROR, 0, k); ck_rm_inode := fun _ _ _ k => (SYSCALL_ERROR, k);
  ck_rm_dir := fun fs x name k => if (fs =? 0) && (x =? 2) && bool_decide (name = [100]) && k then (0, false) else (SYSCALL_ERROR, k);
  ck_fappend := fun _ _ _ k => (SYSCALL_ERROR, k);
  ck_ftrunc := fun _ _ _ k => (SYSCALL_ERROR, k); ck_fmove := fun _ _ _ _ _ k => (SYSCALL_ERROR, k);
  ck_lmake_hard := fun _ _ _ _ _ k => (SYSCALL_ERROR, k); ck_lmake_sym := fun _ _ _ _ k => (SYSCALL_ERROR, k);
  ck_is_mountpoint := fun _ _ _ => 0; ck_mount := fun _ k => (SYSCALL_ERROR, k); ck_umount := fun _ k => (SYSCALL_ERROR, k);
  ck_epoch := fun _ => 0; ck_halt := fun k => k |}.

Lemma seed_kids : kid_block seed_block [].
Proof.
  destruct (repr_kid_block _ _ seed_repr) as (es & Hk & E). by apply fmap_nil_inv in E as ->.
Qed.
Lemma d_kids : kid_block d_block [([100], 11, true)].
Proof.
  assert (repr d_block [([100], 11)]) as (Hl & Hb & _) by (apply (grow_repr 11 [100; 0] [100] 2); [split; [done|split; [repeat constructor; done|cbn; lia]]|lia]).
  split; [done|]. split; [done|]. exists [0]. split; [|split; [by vm_compute|repeat constructor; done]]. constructor; [by split; [|vm_compute]|].
  assert (0 + de_size d_block 0 = BLOCK_SIZE) as -> by (by vm_compute). constructor.
Qed.

#[export] Instance d_laws : DirLaws bool 1 d_entries.
Proof.
  split.
  - intros fs d k es He. exists [if bool_decide (es = []) then seed_block else d_block], [es]. split; [done|]. split; [|split; [cbn; by rewrite app_nil_r|]].
    + constructor; [|constructor]. unfold d_entries in He. destruct (negb (fs =? 0)); [done|]. destruct (d =? 2).
      * destruct k; injection He as <-; [apply d_kids|apply seed_kids].
      * destruct ((d =? 11) && k); [injection He as <-; apply seed_kids|done].
    + cbn [uk_read_chunk d_files ck_files d_kernel]. rewrite He. split; [|by eexists]. intros [|n] b Hb; [by injection Hb as <-|done].
  - intros fs d name es i k r k' _ _ E Hr. by injection E as <- <-.
  - intros fs d name es c k r k' He Hf Hc Hcd E Hr. cbn in E. destruct ((fs =? 0) && (d =? 2) && bool_decide (name = [100]) && k) eqn:Ec; [|by injection E as <- <-].
    apply andb_prop in Ec as [Ec ->]. apply andb_prop in Ec as [Ec ->%bool_decide_eq_true_1]. apply andb_prop in Ec as [->%Z.eqb_eq ->%Z.eqb_eq].
    injection E as <- <-. injection He as <-. injection Hf as <-. split; [done|]. split; [done|]. split; [|done].
    intros fs' x H1 H2. unfold d_entries. destruct (Z.eqb_spec fs' 0) as [->|]; [|done]. cbn. destruct (Z.eqb_spec x 2) as [->|]; [done|]. destruct (Z.eqb_spec x 11) as [->|]; done.
  - intros fs d name es k He Hf. cbn. destruct ((fs =? 0) && (d =? 2) && bool_decide (name = [100]) && k) eqn:Ec; [|done].
    apply andb_prop in Ec as [Ec ->]. apply andb_prop in Ec as [Ec ->%bool_decide_eq_true_1]. apply andb_prop in Ec as [->%Z.eqb_eq ->%Z.eqb_eq]. by injection He as <-.
Qed.

Definition d_world : User.world := mkW empty_term true [SLASH].

Lemma commands_see_names_witness : exists es, children 513 demo_block 0 = Some es /\ fst <$> es = filter (fun p => is_dots p.1 = false) [([46], 2)].
Proof. apply (commands_see_names demo_block [([46], 2)]). apply demo_repr. Defined.

Lemma rm_removes_tree_witness : exists w', cmd_rm [] 10 (bytes_of "-r" ++ 32 :: bytes_of "d") d_world = Done tt w' /\ dir w' = [SLASH] /\
  (complained d_world w' \/ con w' = con d_world /\ d_entries 0 2 (kern w') = Some [] /\ (forall x, x ∈ [11] -> d_entries 0 x (kern w') = None) /\
   forall fs' x, ~ (fs' = 0 /\ x ∈ [2; 11]) -> d_entries fs' x (kern w') = d_entries fs' x true).
Proof.
  apply (rm_removes_tree [] 10 (bytes_of "d") (bytes_of "//d") d_world 11 0 2 [] 1 [([100], 11, true)]); try done; [|cbn; lia|set_solver].
  apply (tree_dir _ _ _ []); [done|constructor|apply NoDup_singleton].
Defined.
